(* ===== verification/_CoqProject ===== *)
-Q . S2P
Prelude.v
Json.v
Crypto.v
Common.v
Tokens.v
Events.v
Entry.v
Fs.v
AuditRotate.v
Instances.v
AuditLog.v
AuditChain.v
AuditInv.v
AuditRefine.v
AuditDemo.v
AuditTheorems.v
Gguf.v
RagChunk.v
CodeScan.v
Hints.v
RagText.v
UserDb.v
Exports.v
Auth.v
WorkspaceDb.v
WorkspaceApi.v
WorkspaceDemo.v
ModelStore.v
SortBy.v
F32.v
Bootstrap.v
RagStore.v
RagEngine.v
RagInv.v
Seal.v
Pcr.v
SealDemo.v
AppState.v
LegalHold.v
IncidentApi.v
Labels.v
ApiDemo.v
Verifier.v
Chat.v
Bundle.v
Llama.v
Quant.v
Queue.v
ChatUsage.v
ChatTheorems.v
RagApi.v
AuditCli.v
Registry.v
Lifecycle.v
Isolation.v
Config.v
Startup.v
Attest.v
AuditApi.v
Reload.v
ModelApi.v
Sso.v
RagDemo.v
ChatDemo.v
RouteDemo.v
LoadDemo.v
HostDemo.v
EvidenceDemo.v
UsersCli.v
Http.v
Dlp.v
Tickets.v
TpmCli.v
TrustCli.v
ChatCli.v
HoldCli.v
HostCli.v
StoreCli.v
RagCli.v
Embeddings.v
