(* ===== verification/Prelude.v ===== *)
(** * Maranode: a verification development

    Maranode is a server for private language models: an OpenAI-compatible API in
    front of a local inference engine, with an audit log chained by HMAC, accounts
    and workspaces, retrieval over documents, attestation and isolation. The program
    is a Rust workspace under [src/crates]. This library models its parts as Rocq
    definitions that follow the source function by function, and proves what makes
    them correct, or how exactly they fail.

    ** How the program fits together

    The daemon ([maranode-daemon]) opens the audit log ([maranode-audit]), the
    databases and the model store ([maranode-store]), the retrieval engine
    ([maranode-rag]) and the inference engine, and serves the API ([maranode-api]).
    A request is authenticated ([user_ctx.rs], [workspace_ctx.rs]), checked against
    roles, labels and quotas, served, and recorded as an event of the audit log. All
    of them share the types of [maranode-common].

    ** Files

    - [Prelude] (this file): results, the state and error monad [SE] with [do!],
      guards with early return ([guard], [let?]), tactics ([crush], [bool_prop]),
      machine bounds, and strings: UTF-8, [trim], [lines], [split].
    - [Json]: JSON values, serde's derived readers, the class [JsonText].
    - [Crypto]: [secure.rs], and the primitives as classes ([Hmac], [Sha256], [Hex],
      [Base64], [Ed25519], [Aead], [Kdf]). No class says that a primitive resists an
      attacker: a theorem on tampering exhibits the forged value.
    - [Common], [Tokens], [Events], [Entry]: the types of [maranode-common] ([classification.rs],
      [user.rs], [models.rs], [workspace.rs], [hold.rs], [incident.rs]), signed
      approvals and baselines ([approval.rs], [baseline.rs]), receipts, the audit
      events and entries with their JSON form ([receipt.rs], [events.rs]).
    - [Fs]: a file system with names, inodes and open handles.
    - [AuditRotate], [AuditLog]: [maranode-audit]: [chain.rs] and [rotate.rs]; [log.rs],
      [retention.rs], [key.rs] and [verify.rs]. The state of a log is the record
      [AuditLog.Log.AuditLog] beside the file system; an operation is a
      computation in [SE] that keeps the writes made before a failure.
    - [Instances]: executable stand-ins for every class, for the witnesses.
    - [AuditChain], [AuditInv], [AuditRefine], [AuditDemo], [AuditTheorems]: the abstract log (a list
      of entries chained from a genesis value), the invariant that ties the files to
      it, the proof that every operation preserves it, a concrete run, the theorems.
    - [Gguf]: [gguf.rs] of [maranode-common], the reader of model metadata.
    - [RagChunk]: [chunk.rs] of [maranode-rag], the splitting of documents.
    - [UserDb]: [user_db.rs] of [maranode-store]: tables of accounts, sessions and
      reset tokens, each SQL statement as the operation it states on the rows.
    - [Auth]: [user_ctx.rs], [routes/users.rs], [routes/reset.rs] and the login limiter
      of [state.rs] in [maranode-api]: the extractors, every route that changes
      state, and their dispatch [Auth.Auth.handle].
    - [WorkspaceDb]: [kek.rs] and [workspace_db.rs] of [maranode-store].
    - [WorkspaceApi], [WorkspaceDemo]: [workspace_ctx.rs] and [routes/workspaces.rs], with
      [netns.rs] of [maranode-isolation]; concrete states.
    - [ModelStore]: [blob.rs], [db.rs] and [store.rs] of [maranode-store]: blobs by digest
      beside the table of manifests.
    - [RagText]: [extract.rs] of [maranode-rag], with the characters of UTF-8 texts.
      [SortBy]: the sorts of the code and what the best [k] of a list are. [F32]: 32-bit
      floats as bit patterns, and [math.rs]. [RagStore]: [crypt.rs] and [store.rs], the
      tables of collections, documents and chunks. [RagEngine]: [engine.rs], [config.rs],
      [embed.rs]. [RagInv]: the invariant of the tables and the theorems.
    - [Seal], [Pcr]: [seal.rs], [rotation.rs], [tpm.rs] and [pcr_policy.rs] of
      [maranode-attestation]; the device and the tpm2-tools are a class.
    - [AppState]: the part of [state.rs] and [runtime.rs] that handlers share: accounts
      and workspaces, the data directory, the calls of the audit logs ([trail]), the
      incident, the labels, the usage. [LegalHold]: [legal_hold.rs], [hold_recovery.rs],
      [routes/hold.rs]. [IncidentApi]: [incident.rs], [forensic.rs], [routes/incident.rs]
      as programs with awaits, at each of which the server may drop the handler.
    - [Verifier]: [maranode-verifier]. [Chat]: [routes/chat.rs], [tee_encrypt.rs] and
      [sign.rs] of [maranode-audit]; the engine is a class. [ChatUsage], [ChatTheorems]:
      the quotas under interleaving; the chat handler composed with incidents, labels,
      the audit log and the verifier.
    - [Labels]: [routes/classification.rs] and the policy file. [RagApi]: [routes/rag.rs].
    - [Llama], [Queue]: [llama.rs] and [queue.rs] of [maranode-inference]; llama.cpp is a
      class, and the engine an instance of the interface that the routes use. [Quant]:
      [commands/quant.rs], with a second reader of model files. [Embeddings]: the request
      types of [openai.rs], [routes/embeddings.rs], [rag_embedder.rs] and [stub.rs].
    - [Registry]: [routes/registry.rs] with the files of [approval.rs]. [Lifecycle]:
      [lifecycle.rs] and [baseline_check.rs] of the daemon with [routes/baseline.rs].
    - [Isolation]: the rules, the isolator and the probe of [maranode-isolation]. [Config],
      [Startup], [Reload]: [config.rs], the steps of [main.rs] up to serving, [reload.rs],
      [admin.rs] and the probe's task, in [maranode-daemon].
    - [Sso]: [routes/identity.rs] (OIDC, LDAP, SAML).
    - [Exports], [Bundle]: [export.rs] and [bundle.rs] of [maranode-audit]. [AuditApi]:
      [routes/audit.rs]. [Attest]: [report.rs], [binary.rs], [tee.rs] and their routes.
    - [CodeScan]: [codescan.rs] and [symbols.rs] of [maranode-rag] with their commands.
    - [Bootstrap]: [bootstrap.rs], [defaults.rs], [download.rs] of [maranode-store].
      [ModelApi]: [routes/models.rs], [routes/metrics.rs].
    - [Http]: requests and answers as values, and a conversation with what is outside as
      a function of what was sent. [Dlp]: [dlp/], [routes/dlp.rs] and the command.
      [Tickets]: [changemgmt.rs] and the page of the registry.
    - The commands of [maranode-cli]: [Hints] ([errors.rs]), [AuditCli], [UsersCli],
      [TpmCli], [TrustCli] ([registry.rs], [baseline.rs]), [ChatCli] (with the stream of
      [routes/chat.rs]), [HoldCli] ([hold.rs], [incident.rs], and the answers of
      [error.rs]), [HostCli] ([verify.rs], [status.rs], [admin.rs], with [health.rs] and
      [stats.rs]), [StoreCli] ([workspace.rs], [model.rs]), [RagCli].
    - [SealDemo], [ApiDemo], [RagDemo], [ChatDemo], [RouteDemo],
      [LoadDemo], [HostDemo], [EvidenceDemo]: concrete states on which the
      theorems are applied; other files have theirs in a Module at their end.

    Components meet in three ways: handlers call each other's operations on one state
    ([AppState.AppState.app] holds the accounts of [Auth] and the workspaces of [WorkspaceApi];
    [Chat.Chat.chat_server] holds it with the model store and the retrieval engine); what the
    API writes is read by others (a receipt by [Verifier], a state file by the restart of
    [IncidentApi]); and what is outside the repository is a class whose laws are its
    documented behaviour.

    ** What the theorems show

    - The audit log. Every run of appends, rotations, configuration changes and
      restarts verifies with the exact number of entries, and a restart restores the
      chain, as long as each event reads back (the one of a destroyed workspace key does
      not, and after it neither holds), no write is cut in its text and nothing is
      pruned; a content that verifies repeats authenticated entries or contains a
      forged tag; what the single-file verifier accepts is characterised, with the
      deletions it notices and those it does not; pruning keeps exactly the recent
      entries. Four ways in which the code breaks its own chain are exhibited:
      shredding events that do not read back, a failed flush, appends after a prune,
      and a stop during a rotation.
    - Accounts and sessions. The tables keep their constraints; a session resolves to
      its account until it expires or is ended and never after; a reset token is good
      once and for 30 minutes; a caller who is no administrator changes no role,
      activation or account through the routes of accounts and of resets (a sign-on
      through [Sso] creates accounts of its own); logins, revocations and the decision
      of privileged routes are characterised; the login limiter is bounded, and its
      window is shown to be fixed.
    - Workspaces. Access is characterised; routes do nothing without the right; a
      rotation of the master key changes no workspace's key, one that fails midway
      does; a destroyed key stays destroyed; the default workspace never has one.
    - Keys at rest. The derivation is PBKDF2; what is sealed unseals; failing guesses
      are bounded in time; rotations and recovery bundles carry the keys, a rotation
      that stops midway loses them; the replies of the device are read as they are laid
      out, which mislabels registers when the device answers with fewer than asked.
    - Holds and incidents. A placed hold persists and its entries are guarded, but any
      account can end it; a break-glass token is good once among requests handled one
      after another, while two at the same time can both be accepted; an incident's
      phases are in order through dropped handlers, failed writes and restarts, and the freeze holds
      while it is open and can always be lifted, except by a resolution alone after a
      dropped declaration.
    - Models. Every model of the table has a blob of its digest after any imports,
      pulls and removals; a removal reclaims the blob with its last model; a refused
      import leaves one behind.
    - Model files and documents. The GGUF reader ends on every file and is correct
      against an encoder of the format, for texts up to its limit of 4096 bytes, and
      finds nothing after a longer one; chunking loses no character, keeps order and
      bounds, and does not split units of code that fit; extraction loses nothing but
      white space.
    - Retrieval. The tables stay consistent and their chunks numbered; an ingested
      document reads back; the search of all collections is the best of all; a deleted
      document is not found.
    - Chat. Quotas count the requests in flight under every interleaving and hold; an
      open incident stops every request; blocked collections give no answer; an answer
      is on the record and its receipt, over the messages the engine was asked, verifies
      offline; a streamed one is neither.
    - The engine. Generation ends for every model and request, within the context; a
      stream is the answer in pieces; the cache is bounded. The embeddings route answers
      with the vectors of a verified model, and nothing that stops a chat stops it. An
      engine is on a device whose code and library are there.
    - Trust in models. A revoked digest, its token removed, is blocked until it is approved
      anew, by its name or a path that may lead to it; the gate, where it is switched on,
      and the baseline check decide what loads (the manager that applies them is never
      built); pages are the list; nothing is fetched without consent. A token that is
      exported, carried and imported opens the gate of its digest, whoever signed it.
    - The daemon. The isolation that was applied denies what the rules deny; a reload is
      a start with the same file, and its outcomes are listed, with the settings that
      follow the file and those that stay; a sealed master key
      survives any later starts for those with its passphrase, its registers and no
      lockout; a pending login is taken once.
    - Evidence. Exports read back; a bundle covers the active log and no more; reports
      answer for what they measured; a backup loses the segments; the edit distance
      behind the hints is the least.
    - Other services. A sync of labels takes each item that the service names and
      changes just those collections, in the policy in use even when its file cannot be
      written, and can lift a label; the credentials of a ticket service go to that service
      only.
    - Commands. What a command sends is what the daemon reads, and what it prints what the
      daemon did: an account created there logs in, a key sealed there starts the
      daemon, a document added there is ingested unless it is too large,
      a streamed answer is printed but for the text of its last token.
      Also how they fail: a rotation unbinds the key from its registers, a destroyed key
      breaks the log and leaves no certificate, commands without credentials are refused.

    ** Conventions

    Integers are [Z] with their bounds and wrap-around written out where the code can
    reach them; instants are nanoseconds since the epoch, and the clock, random
    values and drawn identifiers are arguments. A Rust [String] is its UTF-8 bytes, and
    a list of scalar values where the code works on characters. An [f32] is its bit
    pattern. A hash map is a [gmap], a table a list of rows. Error messages are left out,
    error cases are not. Where a write can fail or a handler can be dropped, that is an
    argument, and theorems range over it.

    Recursion that is not structural takes fuel: [is_blank] and [str_trim] one unit per
    byte; the GGUF reader one per nesting level, for which the length of the file is
    enough ([Gguf.Gguf.reader_total]); the chunking loop one per chunk, for which the
    length of the text is enough ([RagChunk.Chunk.chunk_text_keeps]); the hexadecimal
    numerals of [LegalHold] one per digit, of which 64 bits have sixteen; generation one
    per cell of the context ([Llama.Llama.room], proved enough and without effect beyond);
    the scan of a line one per occurrence, for which its length is enough; the reader of
    the quantisation commands one per step, and the end of its fuel is a result of its own
    ([Quant.Quant.OutOfFuel]); the loop over a stream one per line of its buffer.

    ** What is not modelled

    I/O errors of SQLite; HTTP framing, TLS and the assembly of routers; the network
    protocols below the requests; llama.cpp and its FFI, the TPM device and the tools
    that are run, PDF parsing, the tables of Unicode: these are classes. The static page
    of [ui.rs], the HTML around the rows of the registry's page, [build.rs] and the
    parsing of arguments have no logic of the program's own; [serve.rs] replaces its
    process by the daemon's. The benchmark does not compile as it is. Of [main.rs] of the
    daemon, the order of its steps is modelled and the wiring of its tasks is not.
    Interleavings inside a handler are modelled for incidents, the usage of chat
    requests, the queue and the cache of models, and not where one lock covers the
    handler. *)

From Stdlib Require Import ZArith Lia Ascii String.
From stdpp Require Export base option list gmap strings pretty sorting.

Open Scope Z_scope.

#[global] Arguments String.append : simpl nomatch.

(** ** Results *)

(** Rust's [Result<T, E>]. *)
Inductive result (E A : Type) : Type :=
| Ok (a : A)
| Err (e : E).
Arguments Ok {E A} a.
Arguments Err {E A} e.

Declare Scope mara_scope.
Delimit Scope mara_scope with mara.

Definition rbind {E A B} (m : result E A) (f : A -> result E B) : result E B :=
  match m with Ok a => f a | Err e => Err e end.

Definition rmap {E A B} (f : A -> B) (m : result E A) : result E B :=
  match m with Ok a => Ok (f a) | Err e => Err e end.

Definition map_err {E F A} (f : E -> F) (m : result E A) : result F A :=
  match m with Ok a => Ok a | Err e => Err (f e) end.

Definition ok_or {E A} (o : option A) (e : E) : result E A :=
  match o with Some a => Ok a | None => Err e end.

Definition is_ok {E A} (m : result E A) : bool :=
  match m with Ok _ => true | Err _ => false end.

(** The [?] operator, and a guard with an early return. *)
Notation "'let?' x := m 'in' k" := (rbind m (fun x => k))
  (at level 10, x pattern, m at level 100, k at level 200) : mara_scope.
Notation "'guard' b 'else' e 'in' k" := (if b then k else Err e)
  (at level 10, b at level 100, e at level 100, k at level 200) : mara_scope.
Notation "'some?' x := m 'in' k" := (match m with Some x => k | None => None end)
  (at level 10, x pattern, m at level 100, k at level 200) : mara_scope.
Notation "'check' b 'in' k" := (if b then k else None)
  (at level 10, b at level 100, k at level 200) : mara_scope.
Open Scope mara_scope.

#[export] Instance result_eq_dec {E A} `{!EqDecision E} `{!EqDecision A} : EqDecision (result E A).
Proof. unfold EqDecision, Decision. decide equality; apply (decide (_ = _)). Defined.

Lemma rbind_ok {E A B} (m : result E A) (f : A -> result E B) b :
  rbind m f = Ok b <-> exists a, m = Ok a /\ f a = Ok b.
Proof. destruct m; simpl; naive_solver. Qed.

Lemma ok_or_ok {E A} (o : option A) (e : E) a : ok_or o e = Ok a <-> o = Some a.
Proof. destruct o; simpl; naive_solver. Qed.

(** ** State and errors

    A computation that changes a state and may fail; the state changes made before
    a failure stay. *)
Definition SE (S E A : Type) : Type := S -> S * result E A.

Definition sret {S E A} (a : A) : SE S E A := fun s => (s, Ok a).
Definition sfail {S E A} (e : E) : SE S E A := fun s => (s, Err e).
Definition sbind {S E A B} (m : SE S E A) (f : A -> SE S E B) : SE S E B :=
  fun s => match m s with
           | (s', Ok a) => f a s'
           | (s', Err e) => (s', Err e)
           end.
Definition sget {S E} : SE S E S := fun s => (s, Ok s).
Definition sput {S E} (s : S) : SE S E unit := fun _ => (s, Ok tt).
Definition smodify {S E} (f : S -> S) : SE S E unit := fun s => (f s, Ok tt).
Definition slift {S E A} (r : result E A) : SE S E A := fun s => (s, r).
(** [let _ = m;]: the result is dropped, the state changes are not. *)
Definition signore {S E A} (m : SE S E A) : SE S E unit := fun s => ((m s).1, Ok tt).

Notation "'do!' x := m 'in' k" := (sbind m (fun x => k))
  (at level 10, x pattern, m at level 100, k at level 200) : mara_scope.

(** ** Tactics *)

(** Case analysis on the innermost scrutinee of a [match] or [if]. *)
Ltac inner_match t :=
  match t with
  | context [match ?x with _ => _ end] => inner_match x
  | _ => let E := fresh "Em" in destruct t eqn:E
  end.

Ltac case_goal :=
  match goal with
  | |- context [match ?x with _ => _ end] => inner_match x
  end.

Ltac case_hyp :=
  match goal with
  | H : context [match ?x with _ => _ end] |- _ => inner_match x
  end.

(** Turns boolean tests into propositions and simplifies equalities. *)
Ltac bool_prop :=
  repeat match goal with
  | H : andb _ _ = true |- _ => apply andb_true_iff in H as [? ?]
  | H : orb _ _ = false |- _ => apply orb_false_iff in H as [? ?]
  | H : negb _ = true |- _ => apply negb_true_iff in H
  | H : negb _ = false |- _ => apply negb_false_iff in H
  | H : bool_decide _ = true |- _ => apply bool_decide_eq_true in H
  | H : bool_decide _ = false |- _ => apply bool_decide_eq_false in H
  | H : (_ <? _)%Z = true |- _ => apply Z.ltb_lt in H
  | H : (_ <? _)%Z = false |- _ => apply Z.ltb_ge in H
  | H : (_ <=? _)%Z = true |- _ => apply Z.leb_le in H
  | H : (_ <=? _)%Z = false |- _ => apply Z.leb_gt in H
  | H : (_ =? _)%Z = true |- _ => apply Z.eqb_eq in H
  | H : (_ =? _)%Z = false |- _ => apply Z.eqb_neq in H
  end.

Ltac crush := repeat (case_hyp; simplify_eq/=); bool_prop; simplify_eq/=.

(** ** Machine integers *)

Definition u8_max : Z := 255.
Definition u32_max : Z := 4294967295.
Definition u64_max : Z := 18446744073709551615.

(** [saturating_sub] on an unsigned type. *)
Definition sat_sub (a b : Z) : Z := Z.max 0 (a - b).

(** Nanoseconds in a day: instants are integers of nanoseconds. *)
Definition ns_per_s : Z := 1000000000.
Definition days_ns (d : Z) : Z := d * 86400 * ns_per_s.

(** ** Characters and strings *)

(** A Rust [String] is its UTF-8 bytes. *)
Definition code (c : ascii) : Z := Z.of_nat (nat_of_ascii c).
Definition chr (n : Z) : ascii := ascii_of_nat (Z.to_nat n).
Definition in_range (lo hi : Z) (c : ascii) : bool := (lo <=? code c) && (code c <=? hi).

Definition LF : ascii := "010"%char.
Definition CR : ascii := "013"%char.
Definition QUOTE : ascii := "034"%char.
Definition BACKSLASH : ascii := "092"%char.
Definition TAB : ascii := "009"%char.
Definition nl : string := String LF EmptyString.
Definition quote : string := String QUOTE EmptyString.

Lemma code_bound c : 0 <= code c < 256.
Proof. unfold code. pose proof (nat_ascii_bounded c). lia. Qed.

Lemma code_of_chr n : 0 <= n < 256 -> code (chr n) = n.
Proof. intros Hn. unfold code, chr. rewrite nat_ascii_embedding by lia. lia. Qed.

(** Well-formed UTF-8, the check of [str::from_utf8] and [read_to_string]. *)
Definition utf8_cont : ascii -> bool := in_range 128 191.

Definition utf8_lead3 (a b : ascii) : bool :=
  ((code a =? 224) && in_range 160 191 b)
  || (in_range 225 236 a && utf8_cont b)
  || ((code a =? 237) && in_range 128 159 b)
  || (in_range 238 239 a && utf8_cont b).

Definition utf8_lead4 (a b : ascii) : bool :=
  ((code a =? 240) && in_range 144 191 b)
  || (in_range 241 243 a && utf8_cont b)
  || ((code a =? 244) && in_range 128 143 b).

Fixpoint utf8_ok (s : string) : bool :=
  match s with
  | EmptyString => true
  | String a r =>
    if code a <? 128 then utf8_ok r else
    match r with
    | EmptyString => false
    | String b r2 =>
      if in_range 194 223 a && utf8_cont b then utf8_ok r2 else
      match r2 with
      | EmptyString => false
      | String c r3 =>
        if utf8_lead3 a b && utf8_cont c then utf8_ok r3 else
        match r3 with
        | EmptyString => false
        | String d r4 =>
          if utf8_lead4 a b && utf8_cont c && utf8_cont d then utf8_ok r4 else false
        end
      end
    end
  end.

(** [char::is_whitespace] on the first character of a UTF-8 string: the number
    of bytes of a leading whitespace character, 0 when there is none. *)
Definition ws_prefix (s : string) : nat :=
  match s with
  | EmptyString => 0%nat
  | String a r =>
    if in_range 9 13 a || (code a =? 32) then 1%nat else
    match r with
    | EmptyString => 0%nat
    | String b r2 =>
      if (code a =? 194) && ((code b =? 133) || (code b =? 160)) then 2%nat else
      match r2 with
      | EmptyString => 0%nat
      | String c _ =>
        if ((code a =? 225) && (code b =? 154) && (code c =? 128))
           || ((code a =? 226) && (code b =? 128)
               && (in_range 128 138 c || in_range 168 169 c || (code c =? 175)))
           || ((code a =? 226) && (code b =? 129) && (code c =? 159))
           || ((code a =? 227) && (code b =? 128) && (code c =? 128))
        then 3%nat else 0%nat
      end
    end
  end.

(** [s.trim().is_empty()]: only whitespace characters. *)
Fixpoint blank_fuel (fuel : nat) (s : string) : bool :=
  match fuel with
  | O => match s with EmptyString => true | _ => false end
  | S fuel =>
    match s with
    | EmptyString => true
    | _ => match ws_prefix s with
           | O => false
           | n => blank_fuel fuel (String.substring n (String.length s - n) s)
           end
    end
  end.
Definition is_blank (s : string) : bool := blank_fuel (String.length s) s.

Lemma ws_prefix_nonspace c s :
  (code c <? 128) = true -> orb (in_range 9 13 c) (Z.eqb (code c) 32) = false ->
  ws_prefix (String c s) = 0%nat.
Proof.
  intros Ha Hs. unfold ws_prefix. rewrite Hs. bool_prop.
  assert (forall n, 128 <= n -> (code c =? n) = false) as Hn by (intros; lia).
  destruct s as [|b [|d r]]; [done| |]; rewrite !Hn by lia; done.
Qed.

Lemma is_blank_nonspace c s :
  (code c <? 128) = true -> orb (in_range 9 13 c) (Z.eqb (code c) 32) = false ->
  is_blank (String c s) = false.
Proof.
  intros Ha Hs. unfold is_blank. cbn [String.length blank_fuel]. by rewrite ws_prefix_nonspace.
Qed.

(** [str::lines]: segments ended by a line feed, the carriage return before the
    line feed removed; a last segment without line feed is kept as it is. *)
Fixpoint raw_lines (s : string) : list (string * bool) :=
  match s with
  | EmptyString => []
  | String c r =>
    if Ascii.eqb c LF then (EmptyString, true) :: raw_lines r
    else match raw_lines r with
         | [] => [(String c EmptyString, false)]
         | (l, t) :: ls => (String c l, t) :: ls
         end
  end.

Fixpoint strip_cr (s : string) : string :=
  match s with
  | EmptyString => EmptyString
  | String c EmptyString => if Ascii.eqb c CR then EmptyString else s
  | String c r => String c (strip_cr r)
  end.

Definition lines (s : string) : list string :=
  (fun p : string * bool => if p.2 then strip_cr p.1 else p.1) <$> raw_lines s.

Fixpoint has_char (c : ascii) (s : string) : bool :=
  match s with
  | EmptyString => false
  | String d r => Ascii.eqb d c || has_char c r
  end.

(** A string that is one line of text: no line feed, no carriage return. *)
Definition one_line (s : string) : bool := negb (has_char LF s) && negb (has_char CR s).

Lemma strip_cr_id s : has_char CR s = false -> strip_cr s = s.
Proof.
  induction s as [|c s IH]; simpl; [done|]. intros [Hc Hs]%orb_false_iff.
  rewrite Hc. destruct s; [done|]. by rewrite IH.
Qed.

Lemma string_app_assoc (a b c : string) : (a +:+ b) +:+ c = a +:+ (b +:+ c).
Proof. induction a as [|x a IH]; simpl; [done|]. by rewrite IH. Qed.

Lemma string_app_nil_r (a : string) : a +:+ EmptyString = a.
Proof. induction a as [|x a IH]; simpl; [done|]. by rewrite IH. Qed.

Lemma string_length_app (a b : string) :
  String.length (a +:+ b) = (String.length a + String.length b)%nat.
Proof. induction a as [|x a IH]; simpl; [done|]. by rewrite IH. Qed.

Lemma has_char_app c a b : has_char c (a +:+ b) = has_char c a || has_char c b.
Proof. induction a as [|x a IH]; simpl; [done|]. by rewrite IH, orb_assoc. Qed.

Lemma raw_lines_cons l s :
  has_char LF l = false -> raw_lines (l +:+ String LF s) = (l, true) :: raw_lines s.
Proof.
  induction l as [|c l IH]; simpl; [done|]. intros [Hc Hl]%orb_false_iff.
  rewrite Hc, IH by done. done.
Qed.

Lemma lines_cons l s :
  one_line l = true -> lines (l +:+ String LF s) = l :: lines s.
Proof.
  unfold one_line. intros H. bool_prop. unfold lines. rewrite raw_lines_cons by done.
  rewrite fmap_cons. simpl. by rewrite strip_cr_id.
Qed.

(** A file of complete lines. *)
Definition unlines (ls : list string) : string :=
  foldr (fun l s => l +:+ String LF s) EmptyString ls.

Lemma lines_unlines_app ls s :
  Forall (fun l => one_line l = true) ls -> lines (unlines ls +:+ s) = ls ++ lines s.
Proof.
  induction 1 as [|l ls Hl _ IH]; simpl; [done|].
  rewrite string_app_assoc. simpl. by rewrite lines_cons, IH.
Qed.

Lemma lines_unlines ls : Forall (fun l => one_line l = true) ls -> lines (unlines ls) = ls.
Proof.
  intros H. rewrite <- (string_app_nil_r (unlines ls)), lines_unlines_app by done.
  apply app_nil_r.
Qed.

Lemma unlines_app a b : unlines (a ++ b) = unlines a +:+ unlines b.
Proof.
  induction a as [|x a IH]; simpl; [done|]. rewrite IH, string_app_assoc. done.
Qed.

Lemma utf8_ok_app_aux n a b :
  (String.length a <= n)%nat -> utf8_ok a = true -> utf8_ok (a +:+ b) = utf8_ok b.
Proof.
  revert a. induction n as [|n IH]; intros a Hn Ha.
  { destruct a; [done|simpl in Hn; lia]. }
  destruct a as [|x a]; [done|]. simpl in *.
  destruct (code x <? 128); [apply IH; [lia|done]|].
  destruct a as [|y a]; [done|]. simpl in *.
  destruct (in_range 194 223 x && utf8_cont y); [apply IH; [lia|done]|].
  destruct a as [|z a]; [done|]. simpl in *.
  destruct (utf8_lead3 x y && utf8_cont z); [apply IH; [lia|done]|].
  destruct a as [|w a]; [done|]. simpl in *.
  destruct (utf8_lead4 x y && utf8_cont z && utf8_cont w); [apply IH; [lia|done]|done].
Qed.

Lemma utf8_ok_app a b : utf8_ok a = true -> utf8_ok (a +:+ b) = utf8_ok b.
Proof. by apply (utf8_ok_app_aux (String.length a)). Qed.

Lemma utf8_ok_unlines ls :
  Forall (fun l => utf8_ok l = true) ls -> utf8_ok (unlines ls) = true.
Proof. induction 1; simpl; [done|]. by rewrite utf8_ok_app. Qed.

(** [str::split_once] on a character. *)
Fixpoint split_once (c : ascii) (s : string) : option (string * string) :=
  match s with
  | EmptyString => None
  | String d r =>
    if Ascii.eqb d c then Some (EmptyString, r)
    else match split_once c r with
         | Some (a, b) => Some (String d a, b)
         | None => None
         end
  end.

Lemma split_once_app c a b :
  has_char c a = false -> split_once c (a +:+ String c b) = Some (a, b).
Proof.
  induction a as [|d a IH]; simpl.
  - intros _. by rewrite Ascii.eqb_refl.
  - intros [Hd Ha]%orb_false_iff. by rewrite Hd, IH.
Qed.

Lemma split_once_some c s a b :
  split_once c s = Some (a, b) -> s = a +:+ String c b /\ has_char c a = false.
Proof.
  revert a. induction s as [|d s IH]; simpl; [done|]. intros a.
  destruct (Ascii.eqb d c) eqn:E.
  - intros [= <- <-]. apply Ascii.eqb_eq in E as ->. done.
  - destruct (split_once c s) as [[x y]|] eqn:Es; [|done].
    intros [= <- <-]. destruct (IH x eq_refl) as [-> Hx]. simpl. by rewrite E, Hx.
Qed.

(** [str::replace] of one character by a string. *)
Fixpoint replace_char (c : ascii) (by_ : string) (s : string) : string :=
  match s with
  | EmptyString => EmptyString
  | String d r =>
    if Ascii.eqb d c then by_ +:+ replace_char c by_ r else String d (replace_char c by_ r)
  end.

(** [join] of a slice of strings. *)
Fixpoint join (sep : string) (l : list string) : string :=
  match l with
  | [] => EmptyString
  | [x] => x
  | x :: r => x +:+ sep +:+ join sep r
  end.

Fixpoint string_forall (f : ascii -> bool) (s : string) : bool :=
  match s with EmptyString => true | String c r => f c && string_forall f r end.

Fixpoint string_map (f : ascii -> ascii) (s : string) : string :=
  match s with EmptyString => EmptyString | String c r => String (f c) (string_map f r) end.

Definition ascii_lower (c : ascii) : ascii :=
  if in_range 65 90 c then chr (code c + 32) else c.
Definition ascii_upper (c : ascii) : ascii :=
  if in_range 97 122 c then chr (code c - 32) else c.

(** [str::contains]. *)
Fixpoint contains (p s : string) : bool :=
  String.prefix p s || match s with EmptyString => false | String _ r => contains p r end.

(** [str::trim]. *)
Fixpoint trim_start_fuel (fuel : nat) (s : string) : string :=
  match fuel with
  | O => s
  | S fuel => match ws_prefix s with
              | O => s
              | n => trim_start_fuel fuel (String.substring n (String.length s - n) s)
              end
  end.
Definition str_trim_start (s : string) : string := trim_start_fuel (String.length s) s.
Fixpoint str_trim_end (s : string) : string :=
  if is_blank s then EmptyString else
  match s with EmptyString => EmptyString | String c r => String c (str_trim_end r) end.
Definition str_trim (s : string) : string := str_trim_end (str_trim_start s).

(** Text of visible ASCII characters: valid, and nothing to trim. *)
Definition graphic (c : ascii) : bool := in_range 33 126 c.

Lemma graphic_spec c : graphic c = true -> 33 <= code c <= 126.
Proof. unfold graphic, in_range. intros H. bool_prop. lia. Qed.

Lemma string_forall_impl (f g : ascii -> bool) s :
  (forall c, f c = true -> g c = true) -> string_forall f s = true -> string_forall g s = true.
Proof. intros Hfg. induction s as [|c s IH]; simpl; [done|]. rewrite !andb_true_iff. naive_solver. Qed.

Lemma utf8_graphic s : string_forall graphic s = true -> utf8_ok s = true.
Proof.
  induction s as [|c s IH]; [done|]. cbn [string_forall utf8_ok]. intros H. bool_prop.
  match goal with Hc : graphic c = true |- _ => apply graphic_spec in Hc end.
  replace (code c <? 128) with true by lia. auto.
Qed.

Lemma graphic_not_blank c s : graphic c = true -> is_blank (String c s) = false.
Proof.
  intros Hc. apply graphic_spec in Hc. apply is_blank_nonspace; unfold in_range; lia.
Qed.

Lemma trim_graphic s : string_forall graphic s = true -> str_trim s = s.
Proof.
  intros Hs. unfold str_trim. assert (str_trim_start s = s) as ->.
  { destruct s as [|c s]; [done|]. cbn [string_forall] in Hs. bool_prop.
    match goal with Hc : graphic c = true |- _ => apply graphic_spec in Hc end.
    unfold str_trim_start. cbn [String.length trim_start_fuel].
    by rewrite ws_prefix_nonspace by (unfold in_range; lia). }
  induction s as [|c s IH]; [done|]. cbn [string_forall] in Hs. bool_prop.
  cbn [str_trim_end]. rewrite graphic_not_blank by done. by rewrite IH.
Qed.

(** [str::split] on a character. *)
Fixpoint split_char (c : ascii) (s : string) : list string :=
  match s with
  | EmptyString => [EmptyString]
  | String d r =>
    if Ascii.eqb d c then EmptyString :: split_char c r
    else match split_char c r with
         | [] => [String d EmptyString]
         | x :: l => String d x :: l
         end
  end.

Lemma split_char_none c s : has_char c s = false -> split_char c s = [s].
Proof.
  induction s as [|d s IH]; simpl; [done|]. intros [Hd Hs]%orb_false_iff. by rewrite Hd, IH.
Qed.

Lemma split_char_app c a b :
  has_char c a = false -> split_char c (a +:+ String c b) = a :: split_char c b.
Proof.
  induction a as [|d a IH]; simpl; [by rewrite Ascii.eqb_refl|].
  intros [Hd Ha]%orb_false_iff. by rewrite Hd, IH.
Qed.

Lemma join_cons sep x y l : join sep (x :: y :: l) = x +:+ sep +:+ join sep (y :: l).
Proof. done. Qed.

Lemma split_join c l :
  l <> [] -> Forall (fun s => has_char c s = false) l -> split_char c (join (String c EmptyString) l) = l.
Proof.
  intros Hne Hl. induction Hl as [|x l Hx Hl IH]; [done|]. destruct l as [|y l].
  - simpl. by apply split_char_none.
  - rewrite join_cons. change (String c EmptyString +:+ ?s) with (String c s).
    rewrite split_char_app by done. by rewrite IH.
Qed.

(** Decimal printing of unsigned integers, as [format!] does. *)
Definition show_u64 (n : Z) : string := pretty (Z.to_N n).

Lemma string_app_inj_l (a b c : string) : a +:+ b = a +:+ c -> b = c.
Proof. induction a as [|x a IH]; simpl; [done|]. intros [= H]. auto. Qed.

Lemma string_app_nil_inv (a b : string) : a +:+ b = EmptyString -> a = EmptyString /\ b = EmptyString.
Proof. by destruct a. Qed.

Lemma has_char_forall f c s : f c = false -> string_forall f s = true -> has_char c s = false.
Proof.
  intros Hc. induction s as [|d s IH]; cbn; [done|]. intros [Hd Hs]%andb_true_iff. rewrite IH, orb_false_r by done.
  apply Ascii.eqb_neq. congruence.
Qed.

Lemma string_forall_app f a b : string_forall f (a +:+ b) = string_forall f a && string_forall f b.
Proof. induction a as [|c a IH]; [done|]. cbn. by rewrite IH, andb_assoc. Qed.

Lemma concat_cons (x : string) l : String.concat EmptyString (x :: l) = x +:+ String.concat EmptyString l.
Proof. destruct l; [by rewrite string_app_nil_r|done]. Qed.

(** Decimal text has digits only, and is injective. *)
Lemma pretty_N_go_digits x s :
  string_forall (in_range 48 57) s = true -> string_forall (in_range 48 57) (pretty_N_go x s) = true.
Proof.
  revert s. induction (N.lt_wf_0 x) as [x _ IH]. intros s Hs.
  destruct (decide (0 < x)%N) as [Hx|Hx].
  - rewrite pretty_N_go_step by done. apply IH; [apply N.div_lt; lia|].
    cbn [string_forall]. rewrite Hs, andb_true_r. unfold pretty_N_char.
    by repeat case_match.
  - replace x with 0%N by lia. by rewrite pretty_N_go_0.
Qed.

Lemma show_u64_digits n : string_forall (in_range 48 57) (show_u64 n) = true.
Proof.
  unfold show_u64, pretty, pretty_N. case_decide; [done|]. by apply pretty_N_go_digits.
Qed.

Lemma show_u64_no_dash n : has_char "-" (show_u64 n) = false.
Proof. by apply (has_char_forall (in_range 48 57)), show_u64_digits. Qed.

Lemma show_u64_inj a b : 0 <= a -> 0 <= b -> show_u64 a = show_u64 b -> a = b.
Proof. unfold show_u64. intros Ha Hb He. apply (inj pretty) in He. lia. Qed.

(** Taking and dropping bytes, as slices [&b[..n]] and [&b[n..]] do. *)
Fixpoint stake (n : nat) (s : string) : string :=
  match n, s with
  | S n, String c r => String c (stake n r)
  | _, _ => EmptyString
  end.

Fixpoint sdrop (n : nat) (s : string) : string :=
  match n, s with
  | O, _ => s
  | S n, String _ r => sdrop n r
  | _, EmptyString => EmptyString
  end.

Lemma stake_app a b : stake (String.length a) (a +:+ b) = a.
Proof. induction a as [|c a IH]; simpl; [by destruct b|]. by rewrite IH. Qed.

Lemma sdrop_app a b : sdrop (String.length a) (a +:+ b) = b.
Proof. induction a as [|c a IH]; simpl; [by destruct b|]. exact IH. Qed.

Lemma stake_app_len n a b : String.length a = n -> stake n (a +:+ b) = a.
Proof. intros <-. apply stake_app. Qed.

Lemma sdrop_app_len n a b : String.length a = n -> sdrop n (a +:+ b) = b.
Proof. intros <-. apply sdrop_app. Qed.

Lemma stake_length k s : String.length (stake k s) = Nat.min k (String.length s).
Proof. revert s. induction k; intros [|c s]; simpl; auto. Qed.

Lemma sdrop_length k s : String.length (sdrop k s) = (String.length s - k)%nat.
Proof. revert s. induction k; intros [|c s]; simpl; auto. Qed.

Lemma stake_sdrop n s : stake n s +:+ sdrop n s = s.
Proof. revert s. induction n as [|n IH]; intros [|c s]; cbn; try done. by rewrite IH. Qed.

Lemma stake_all n s : (String.length s <= n)%nat -> stake n s = s.
Proof.
  revert n. induction s as [|c s IH]; intros [|n] Hn; simpl in *; try done; [lia|].
  rewrite IH; [done|lia].
Qed.
