(* ===== verification/Json.v ===== *)
(** * JSON values and the serde_json interface

    The sources exchange data as JSON through serde and serde_json, which are not
    part of the repository. This file has the JSON values, the order-preserving
    view of an object that a derived [Serialize] produces and a derived
    [Deserialize] consumes, the key-sorted maps of [serde_json::Value], and the
    class [JsonText]: what the code relies on about the text form. *)

From Stdlib Require Import ZArith Lia Ascii String.
From S2P Require Import Prelude.

(** A JSON value. An object is the sequence of its members in text order, so that
    a repeated key is visible. An [f32] is its bit pattern. *)
Inductive json : Type :=
| JNull
| JBool (b : bool)
| JInt (z : Z)
| JFloat (bits : Z)
| JStr (s : string)
| JArr (l : list json)
| JObj (m : list (string * json)).

(** Induction over the nested lists. *)
Section json_ind.
Variable P : json -> Prop.
Hypothesis Hnull : P JNull.
Hypothesis Hbool : forall b, P (JBool b).
Hypothesis Hint : forall z, P (JInt z).
Hypothesis Hfloat : forall z, P (JFloat z).
Hypothesis Hstr : forall s, P (JStr s).
Hypothesis Harr : forall l, Forall P l -> P (JArr l).
Hypothesis Hobj : forall m, Forall (fun kv => P kv.2) m -> P (JObj m).

Fixpoint json_nested_ind (j : json) : P j :=
  match j with
  | JNull => Hnull
  | JBool b => Hbool b
  | JInt z => Hint z
  | JFloat z => Hfloat z
  | JStr s => Hstr s
  | JArr l => Harr l
      ((fix go l := match l return Forall P l with
        | [] => @List.Forall_nil json P
        | x :: r => @List.Forall_cons json P x r (json_nested_ind x) (go r) end) l)
  | JObj m => Hobj m
      ((fix go m := match m return Forall (fun kv : string * json => P kv.2) m with
        | [] => @List.Forall_nil _ _
        | x :: r => @List.Forall_cons _ _ x r (json_nested_ind x.2) (go r) end) m)
  end.
End json_ind.

(** A finite [f32]: the exponent field is not all ones. Others print as [null]. *)
Definition f32_finite (bits : Z) : bool := negb (Z.land (Z.shiftr bits 23) 255 =? 255).

(** Values whose text reads back as the same value: integers of [i64] or [u64]
    range, finite floats. *)
Fixpoint json_wf (j : json) : bool :=
  match j with
  | JInt z => (- 9223372036854775808 <=? z) && (z <=? u64_max)
  | JFloat b => f32_finite b
  | JArr l => forallb json_wf l
  | JObj m => forallb (fun kv => json_wf kv.2) m
  | _ => true
  end.

(** ** The text form *)
Class JsonText := {
  json_print : json -> string;
  json_parse : string -> option json;
  json_parse_print j : json_wf j = true -> json_parse (json_print j) = Some j;
  (** compact output: no line break, and an object starts with a brace *)
  json_one_line j : one_line (json_print j) = true;
  json_utf8 j : utf8_ok (json_print j) = true;
  json_brace m : exists s, json_print (JObj m) = String "{"%char s;
  (** the pretty printer of [to_vec_pretty] *)
  json_pretty : json -> string;
  json_parse_pretty j : json_wf j = true -> json_parse (json_pretty j) = Some j;
  json_pretty_utf8 j : utf8_ok (json_pretty j) = true;
  (** an object that is cut off does not read *)
  json_pretty_prefix m n :
    (n < String.length (json_pretty (JObj m)))%nat ->
    json_parse (stake n (json_pretty (JObj m))) = None;
}.

Lemma json_obj_not_blank `{JsonText} m : is_blank (json_print (JObj m)) = false.
Proof. destruct (json_brace m) as [s ->]. by apply is_blank_nonspace. Qed.

(** chrono's serde form of an instant (RFC 3339 text). *)
Class TimeText := {
  ts_print : Z -> string;
  ts_parse : string -> option Z;
  ts_parse_print t : ts_parse (ts_print t) = Some t;
}.

(** ** Objects as derived code reads them *)

Definition jkeys (m : list (string * json)) : list string := m.*1.

(** The first member with a key. *)
Fixpoint jget (k : string) (m : list (string * json)) : option json :=
  match m with
  | [] => None
  | (k', v) :: r => if String.eqb k k' then Some v else jget k r
  end.

Fixpoint jcount (k : string) (m : list (string * json)) : nat :=
  match m with
  | [] => 0
  | (k', _) :: r => (if String.eqb k k' then 1 else 0) + jcount k r
  end%nat.

(** A derived [Deserialize] fails with "duplicate field" when a field it knows
    comes twice. *)
Definition no_dup_fields (known : list string) (m : list (string * json)) : bool :=
  forallb (fun k => Nat.leb (jcount k m) 1) known.

Definition without (known : list string) (m : list (string * json)) : list (string * json) :=
  List.filter (fun kv => negb (existsb (String.eqb kv.1) known)) m.

(** Readers of the field types of the sources. *)
Definition as_str (j : json) : option string := match j with JStr s => Some s | _ => None end.
Definition as_bool (j : json) : option bool := match j with JBool b => Some b | _ => None end.
Definition as_float (j : json) : option Z := match j with JFloat b => Some b | _ => None end.
Definition as_obj (j : json) : option (list (string * json)) :=
  match j with JObj m => Some m | _ => None end.
Definition as_arr (j : json) : option (list json) := match j with JArr l => Some l | _ => None end.

(** An unsigned integer of the given maximum. *)
Definition uint_ok (max z : Z) : bool := (0 <=? z) && (z <=? max).

Definition as_uint (max : Z) (j : json) : option Z :=
  match j with JInt z => if uint_ok max z then Some z else None | _ => None end.

Lemma as_uint_ok max z : uint_ok max z = true -> as_uint max (JInt z) = Some z.
Proof. unfold as_uint. by intros ->. Qed.

Lemma uint_ok_wf max z : max <= u64_max -> uint_ok max z = true -> json_wf (JInt z) = true.
Proof. unfold uint_ok, u64_max. simpl. unfold u64_max. lia. Qed.

(** A required field, and a field of type [Option<T>] (absent or null is [None]). *)
Definition req {A} (f : json -> option A) (k : string) (m : list (string * json)) : option A :=
  match jget k m with Some v => f v | None => None end.

Definition opt {A} (f : json -> option A) (k : string) (m : list (string * json))
    : option (option A) :=
  match jget k m with
  | None | Some JNull => Some None
  | Some v => match f v with Some a => Some (Some a) | None => None end
  end.

(** A field with [#[serde(default)]]. *)
Definition dflt {A} (f : json -> option A) (d : A) (k : string) (m : list (string * json))
    : option A :=
  match jget k m with Some v => f v | None => Some d end.

(** [Option<T>] as a value, and as a member with [skip_serializing_if]. *)
Definition jopt {A} (f : A -> json) (o : option A) : json :=
  match o with Some a => f a | None => JNull end.
Definition jskip {A} (k : string) (f : A -> json) (o : option A) : list (string * json) :=
  match o with Some a => [(k, f a)] | None => [] end.

Fixpoint all_some {A} (l : list (option A)) : option (list A) :=
  match l with
  | [] => Some []
  | Some a :: r => match all_some r with Some r => Some (a :: r) | None => None end
  | None :: _ => None
  end.

Lemma all_some_map {A B} (f : A -> B) (g : B -> option A) l :
  (forall a, g (f a) = Some a) -> all_some (g <$> (f <$> l)) = Some l.
Proof. intros Hg. induction l as [|a l IH]; [done|]. rewrite !fmap_cons. cbn [all_some]. by rewrite Hg, IH. Qed.

(** ** [serde_json::Value]: maps sorted by key, the last member wins *)

Fixpoint obj_insert (k : string) (v : json) (m : list (string * json)) : list (string * json) :=
  match m with
  | [] => [(k, v)]
  | (k', v') :: r =>
    match String.compare k k' with
    | Lt => (k, v) :: m
    | Eq => (k, v) :: r
    | Gt => (k', v') :: obj_insert k v r
    end
  end.

Definition obj_sorted (m : list (string * json)) : list (string * json) :=
  fold_left (fun acc kv => obj_insert kv.1 kv.2 acc) m [].

Fixpoint to_value (j : json) : json :=
  match j with
  | JArr l => JArr (to_value <$> l)
  | JObj m => JObj (obj_sorted ((fun kv => (kv.1, to_value kv.2)) <$> m))
  | j => j
  end.

(** [v["key"]] of a value: null when it is no object or has no such key. *)
Definition jindex (k : string) (j : json) : json :=
  match j with
  | JObj m => match jget k m with Some v => v | None => JNull end
  | _ => JNull
  end.

(** ** Well-formedness of composed values *)

Lemma json_wf_obj m : json_wf (JObj m) = forallb (fun kv => json_wf kv.2) m.
Proof. done. Qed.

Lemma json_wf_arr {A} (f : A -> json) l :
  (forall a, In a l -> json_wf (f a) = true) -> json_wf (JArr (f <$> l)) = true.
Proof.
  cbn [json_wf]. induction l as [|a l IH]; [done|]. intros Hf.
  rewrite fmap_cons. cbn [forallb]. rewrite Hf by (simpl; auto). apply IH.
  intros; apply Hf; simpl; auto.
Qed.

Lemma json_wf_opt {A} (f : A -> json) o :
  (forall a, o = Some a -> json_wf (f a) = true) -> json_wf (jopt f o) = true.
Proof. destruct o; simpl; auto. Qed.

Lemma wf_skip k o : forallb (fun kv => json_wf kv.2) (jskip k JStr o) = true.
Proof. by destruct o. Qed.

Ltac wf_members :=
  repeat first
    [ rewrite forallb_app | rewrite wf_skip
    | match goal with |- andb _ _ = true => apply andb_true_iff; split end
    | progress cbn [forallb snd] ];
  try reflexivity; try assumption;
  try (eapply uint_ok_wf; [|eassumption]; unfold u32_max, u64_max; lia).

(** Sorting members keeps well-formedness. *)
Lemma obj_insert_wf k v m :
  json_wf v = true -> forallb (fun kv => json_wf kv.2) m = true ->
  forallb (fun kv => json_wf kv.2) (obj_insert k v m) = true.
Proof.
  intros Hv. induction m as [|[k' v'] m IH]; cbn [obj_insert forallb snd].
  - intros _. by rewrite Hv.
  - intros [Hk Hm]%andb_true_iff.
    destruct (String.compare k k'); cbn [forallb snd]; rewrite ?Hv, ?Hk, ?Hm, ?IH; done.
Qed.

Lemma obj_sorted_wf m :
  forallb (fun kv => json_wf kv.2) m = true ->
  forallb (fun kv => json_wf kv.2) (obj_sorted m) = true.
Proof.
  unfold obj_sorted. assert (forallb (fun kv : string * json => json_wf kv.2) [] = true) as H by done.
  revert H. generalize (@nil (string * json)) as acc.
  induction m as [|[k v] m IH]; intros acc Hacc; cbn [forallb fold_left snd fst]; [done|].
  intros [Hv Hm]%andb_true_iff. apply IH; [by apply obj_insert_wf|done].
Qed.

Lemma to_value_wf j : json_wf j = true -> json_wf (to_value j) = true.
Proof.
  induction j as [|b|z|z|s|l IH|m IH] using json_nested_ind; try done; cbn [to_value json_wf].
  - induction IH as [|x l Hx _ IHl]; [done|]. cbn. intros [H1 H2]%andb_true_iff.
    rewrite Hx by done. by apply IHl.
  - intros Hm. apply obj_sorted_wf. revert Hm.
    induction IH as [|x m Hx _ IHm]; [done|]. cbn. intros [H1 H2]%andb_true_iff.
    rewrite Hx by done. by apply IHm.
Qed.
