(* ===== verification/Crypto.v ===== *)
(** * Cryptographic interfaces and constant-time comparison

    Models [maranode-common/src/secure.rs] and states, as type classes, what the
    sources rely on from the crates hmac, sha2, hex, base64, ed25519-dalek,
    aes-gcm and pbkdf2, which are not part of the repository. Byte strings are
    Rocq strings. No class assumes that a primitive cannot be broken: theorems on
    tampering exhibit the forged value instead. *)

From Stdlib Require Import ZArith Lia Ascii String.
From S2P Require Import Prelude.

Module Secure.

(** [ct_eq] of the subtle crate decides equality of equally long slices. *)
Definition ct_eq (a b : string) : bool :=
  if negb (Nat.eqb (String.length a) (String.length b)) then false
  else String.eqb a b.

Definition ct_eq_str (a b : string) : bool := ct_eq a b.

Definition is_sha256_hex (s : string) : bool :=
  Nat.eqb (String.length s) 64
  && string_forall (fun b => in_range 48 57 b || in_range 97 102 b) s.

Lemma ct_eq_str_true a b : ct_eq_str a b = true <-> a = b.
Proof.
  unfold ct_eq_str, ct_eq. destruct (Nat.eqb_spec (String.length a) (String.length b)); simpl.
  - apply String.eqb_eq.
  - split; [done|]. intros ->. done.
Qed.

Lemma ct_eq_str_refl a : ct_eq_str a a = true.
Proof. by apply ct_eq_str_true. Qed.

Lemma ct_eq_str_false a b : ct_eq_str a b = false <-> a <> b.
Proof. rewrite <- ct_eq_str_true. by rewrite not_true_iff_false. Qed.

End Secure.

(** HMAC-SHA256: key and data to the raw tag of 32 bytes. *)
Class Hmac := {
  hmac_sha256 : string -> string -> string;
  hmac_len k d : String.length (hmac_sha256 k d) = 32%nat;
}.

(** SHA-256 printed as lower-case hex. *)
Class Sha256 := {
  sha256_hex : string -> string;
  sha256_hex_ok b : Secure.is_sha256_hex (sha256_hex b) = true;
}.

Class Hex := {
  hex_encode : string -> string;
  hex_decode : string -> option string;
  hex_decode_encode b : hex_decode (hex_encode b) = Some b;
  hex_encode_digits b :
    string_forall (fun c => in_range 48 57 c || in_range 97 102 c) (hex_encode b) = true;
}.

Definition b64_char (c : ascii) : bool :=
  in_range 48 57 c || in_range 65 90 c || in_range 97 122 c || in_range 43 43 c || in_range 47 47 c || in_range 61 61 c.

Class Base64 := {
  b64_encode : string -> string;
  b64_decode : string -> option string;
  b64_decode_encode b : b64_decode (b64_encode b) = Some b;
  b64_encode_chars b : string_forall b64_char (b64_encode b) = true;
}.

Lemma b64_char_graphic c : b64_char c = true -> graphic c = true.
Proof. unfold b64_char, graphic, in_range. intros Hc. bool_prop. lia. Qed.

Lemma b64_encode_graphic `{Base64} b : string_forall graphic (b64_encode b) = true.
Proof. eapply string_forall_impl; [apply b64_char_graphic|apply b64_encode_chars]. Qed.

(** Ed25519: a 32-byte seed, its 32-byte verifying key, 64-byte signatures. *)
Class Ed25519 := {
  ed_public : string -> string;
  ed_key_ok : string -> bool;
  ed_sign : string -> string -> string;
  ed_verify : string -> string -> string -> bool;
  ed_public_len k : String.length k = 32%nat -> String.length (ed_public k) = 32%nat;
  ed_public_ok k : String.length k = 32%nat -> ed_key_ok (ed_public k) = true;
  ed_sign_len k m : String.length (ed_sign k m) = 64%nat;
  ed_verify_sign k m :
    String.length k = 32%nat -> ed_verify (ed_public k) m (ed_sign k m) = true;
}.

(** AES-256-GCM: key, 12-byte nonce, text. *)
Class Aead := {
  aead_seal : string -> string -> string -> string;
  aead_open : string -> string -> string -> option string;
  aead_open_seal k n p :
    String.length k = 32%nat -> String.length n = 12%nat ->
    aead_open k n (aead_seal k n p) = Some p;
}.

(** PBKDF2-HMAC-SHA256 with a 32-byte output: iterations, password, salt. *)
Class Kdf := {
  pbkdf2 : Z -> string -> string -> string;
  pbkdf2_len i p s : String.length (pbkdf2 i p s) = 32%nat;
}.

(** [serde] text of a byte payload is a function of the JSON value: see [Json]. *)

#[export] Hint Rewrite Secure.ct_eq_str_refl : mara.

Lemma hex_graphic `{Hex} b : string_forall graphic (hex_encode b) = true.
Proof.
  eapply string_forall_impl; [|apply hex_encode_digits]. intros c. unfold graphic, in_range. lia.
Qed.
