(* ===== verification/Common.v ===== *)
(** * maranode-common: labels, users, models, workspaces, holds, incidents, tokens

    One Module per source file of [crates/maranode-common/src]. *)

From Stdlib Require Import ZArith Lia Ascii String.
From S2P Require Import Prelude Json Crypto.

(** ** classification.rs *)
Module Classification.

Inductive DataLabel := Public | Restricted | Confidential | Pii | Phi.

#[export] Instance DataLabel_eq_dec : EqDecision DataLabel.
Proof. solve_decision. Defined.

Definition as_str (l : DataLabel) : string :=
  match l with
  | Public => "PUBLIC"
  | Restricted => "RESTRICTED"
  | Confidential => "CONFIDENTIAL"
  | Pii => "PII"
  | Phi => "PHI"
  end.

(** [*self as u8]; the derived order compares the same discriminants. *)
Definition level (l : DataLabel) : Z :=
  match l with
  | Public => 0 | Restricted => 1 | Confidential => 2 | Pii => 3 | Phi => 4
  end.

Definition label_gt (a b : DataLabel) : bool := level b <? level a.

(** [str::to_uppercase], for comparison with ASCII words. Besides the ASCII
    letters, the characters whose upper case consists of ASCII letters are the
    dotless i (C4 B1), the long s (C5 BF), the sharp s (C3 9F) and the Latin
    ligatures (EF AC 80 to 86); the upper case of any other character keeps a
    non-ASCII one, so leaving it unchanged gives the same comparisons. *)
Definition ligature (c : ascii) : option string :=
  match code c with
  | 128 => Some "FF" | 129 => Some "FI" | 130 => Some "FL" | 131 => Some "FFI"
  | 132 => Some "FFL" | 133 => Some "ST" | 134 => Some "ST" | _ => None
  end%string.

Fixpoint to_uppercase (s : string) : string :=
  match s with
  | EmptyString => EmptyString
  | String a r =>
    match r with
    | String b r2 =>
      if (code a =? 196) && (code b =? 177) then String "I"%char (to_uppercase r2) else
      if (code a =? 197) && (code b =? 191) then String "S"%char (to_uppercase r2) else
      if (code a =? 195) && (code b =? 159) then "SS"%string +:+ to_uppercase r2 else
      match r2 with
      | String c r3 =>
        if (code a =? 239) && (code b =? 172) then
          match ligature c with
          | Some l => l +:+ to_uppercase r3
          | None => String a (to_uppercase r)
          end
        else String (ascii_upper a) (to_uppercase r)
      | EmptyString => String (ascii_upper a) (to_uppercase r)
      end
    | EmptyString => String (ascii_upper a) EmptyString
    end
  end.

Definition from_str (s : string) : result string DataLabel :=
  let u := to_uppercase s in
  if String.eqb u "PUBLIC" then Ok Public else
  if String.eqb u "RESTRICTED" then Ok Restricted else
  if String.eqb u "CONFIDENTIAL" then Ok Confidential else
  if String.eqb u "PII" then Ok Pii else
  if String.eqb u "PHI" then Ok Phi else
  Err ("unknown data label '" +:+ u
       +:+ "' (expected: PUBLIC, RESTRICTED, CONFIDENTIAL, PII, PHI)")%string.

Record CollectionPolicy := { label : DataLabel; block_on_violation : bool }.
Record WorkspacePolicy := { max_clearance : DataLabel }.

Record ClassificationPolicy := {
  collections : gmap string CollectionPolicy;
  workspaces : gmap string WorkspacePolicy;
}.

Record ViolationInfo := {
  collection : string;
  required_label : DataLabel;
  workspace_clearance_ : DataLabel;
  block : bool;
}.

Definition default_policy : ClassificationPolicy :=
  {| collections := empty; workspaces := empty |}.

Definition collection_label (p : ClassificationPolicy) (c : string) : option CollectionPolicy :=
  collections p !! c.

Definition workspace_clearance (p : ClassificationPolicy) (ws : string) : DataLabel :=
  match workspaces p !! ws with Some w => max_clearance w | None => Public end.

Definition check_access (p : ClassificationPolicy) (ws c : string) : option ViolationInfo :=
  let clearance := workspace_clearance p ws in
  match collections p !! c with
  | Some col =>
    if label_gt (label col) clearance then
      Some {| collection := c; required_label := label col;
              workspace_clearance_ := clearance; block := block_on_violation col |}
    else None
  | None => None
  end.

Definition set_collection_label (p : ClassificationPolicy) (c : string)
    (l : DataLabel) (b : bool) : ClassificationPolicy :=
  {| collections := <[c := {| label := l; block_on_violation := b |}]> (collections p);
     workspaces := workspaces p |}.

(** The iteration order of a [HashMap] is unspecified: that of [map_to_list]. *)
Definition check_all_collections (p : ClassificationPolicy) (ws : string) : list ViolationInfo :=
  let clearance := workspace_clearance p ws in
  (fun kv => {| collection := kv.1; required_label := label kv.2;
                workspace_clearance_ := clearance; block := block_on_violation kv.2 |})
  <$> List.filter (fun kv => label_gt (label kv.2) clearance) (map_to_list (collections p)).

(** Reading [policy.json]: absent file gives the empty policy. *)
Definition load {Raw} (parse : Raw -> option ClassificationPolicy) (file : option Raw)
    : result string ClassificationPolicy :=
  match file with
  | None => Ok default_policy
  | Some raw => ok_or (parse raw) "serde_json"%string
  end.

Lemma check_access_some p ws c v :
  check_access p ws c = Some v <->
  exists col, collections p !! c = Some col /\
    level (workspace_clearance p ws) < level (label col) /\
    v = {| collection := c; required_label := label col;
           workspace_clearance_ := workspace_clearance p ws;
           block := block_on_violation col |}.
Proof.
  unfold check_access, label_gt. split.
  - intros H. crush. eauto.
  - intros (col & -> & Hl & ->). by rewrite (proj2 (Z.ltb_lt _ _) Hl).
Qed.

Lemma level_inj a b : level a = level b -> a = b.
Proof. destruct a, b; simpl; done || lia. Qed.

End Classification.

(** ** user.rs *)
Module User.

Inductive Permission :=
| Chat | RagIngest | RagManage | ModelManage | AuditView | AuditExport | AuditPrune
| UserManage | WorkspaceManage | IncidentManage | DlpManage | ConfigManage.

#[export] Instance Permission_eq_dec : EqDecision Permission.
Proof. solve_decision. Defined.

Definition perm_str (p : Permission) : string :=
  match p with
  | Chat => "chat"
  | RagIngest => "rag_ingest"
  | RagManage => "rag_manage"
  | ModelManage => "model_manage"
  | AuditView => "audit_view"
  | AuditExport => "audit_export"
  | AuditPrune => "audit_prune"
  | UserManage => "user_manage"
  | WorkspaceManage => "workspace_manage"
  | IncidentManage => "incident_manage"
  | DlpManage => "dlp_manage"
  | ConfigManage => "config_manage"
  end.

Inductive Role := Admin | Operator | Auditor | Viewer.

#[export] Instance Role_eq_dec : EqDecision Role.
Proof. solve_decision. Defined.

Definition permissions (r : Role) : list Permission :=
  match r with
  | Admin => [Chat; RagIngest; RagManage; ModelManage; AuditView; AuditExport; AuditPrune;
              UserManage; WorkspaceManage; IncidentManage; DlpManage; ConfigManage]
  | Operator => [Chat; RagIngest; RagManage; ModelManage; AuditView]
  | Auditor => [Chat; AuditView; AuditExport]
  | Viewer => [Chat]
  end.

Definition has (r : Role) (p : Permission) : bool :=
  existsb (fun q => bool_decide (p = q)) (permissions r).

Definition can_manage_users (r : Role) : bool := has r UserManage.
Definition can_manage_workspaces (r : Role) : bool := has r WorkspaceManage.
Definition can_manage_models (r : Role) : bool := has r ModelManage.
Definition can_ingest_rag (r : Role) : bool := has r RagIngest.
Definition can_view_audit (r : Role) : bool := has r AuditView.
Definition can_export_compliance (r : Role) : bool := has r AuditExport.
Definition can_chat (r : Role) : bool := has r Chat.

Definition role_str (r : Role) : string :=
  match r with
  | Admin => "admin" | Operator => "operator" | Auditor => "auditor" | Viewer => "viewer"
  end.

Definition role_from_str (s : string) : result string Role :=
  if String.eqb s "admin" then Ok Admin else
  if String.eqb s "operator" then Ok Operator else
  if String.eqb s "auditor" then Ok Auditor else
  if String.eqb s "viewer" then Ok Viewer else
  Err ("unknown role '" +:+ s +:+ "': expected admin, operator, auditor, viewer")%string.

Inductive AuthProvider := Local | Oidc | Ldap | Saml.

#[export] Instance AuthProvider_eq_dec : EqDecision AuthProvider.
Proof. solve_decision. Defined.

Definition provider_str (p : AuthProvider) : string :=
  match p with Local => "local" | Oidc => "oidc" | Ldap => "ldap" | Saml => "saml" end.

Definition provider_from_str (s : string) : result string AuthProvider :=
  if String.eqb s "local" then Ok Local else
  if String.eqb s "oidc" then Ok Oidc else
  if String.eqb s "ldap" then Ok Ldap else
  if String.eqb s "saml" then Ok Saml else
  Err ("unknown provider '" +:+ s +:+ "'")%string.

(** Instants are nanoseconds since the epoch; a [Uuid] is its text. *)
Record User := {
  id : string;
  username : string;
  email : option string;
  password_hash : option string;
  role : Role;
  provider : AuthProvider;
  provider_sub : option string;
  active : bool;
  created_at : Z;
  last_login : option Z;
}.

#[export] Instance User_eq_dec : EqDecision User.
Proof. solve_decision. Defined.

Definition is_local (u : User) : bool := bool_decide (provider u = Local).

Lemma has_spec r p : has r p = true <-> In p (permissions r).
Proof.
  unfold has. rewrite existsb_exists. split.
  - intros (q & Hq & ->%bool_decide_eq_true). done.
  - intros H. exists p. split; [done|]. by apply bool_decide_eq_true.
Qed.

Lemma role_round r : role_from_str (role_str r) = Ok r.
Proof. by destruct r. Qed.

Lemma provider_round p : provider_from_str (provider_str p) = Ok p.
Proof. by destruct p. Qed.

End User.

(** ** models.rs *)
Module Models.

Record ModelId := { name : string; tag : string }.

#[export] Instance ModelId_eq_dec : EqDecision ModelId.
Proof. solve_decision. Defined.

Definition parse (s : string) : option ModelId :=
  match split_once ":" s with
  | Some (n, t) => Some {| name := n; tag := t |}
  | None => None
  end.

Definition display (m : ModelId) : string := name m +:+ String ":" (tag m).

Inductive ModelFormat := Gguf.
Inductive ModelType := Llm | Embedding.

#[export] Instance ModelFormat_eq_dec : EqDecision ModelFormat.
Proof. solve_decision. Defined.
#[export] Instance ModelType_eq_dec : EqDecision ModelType.
Proof. solve_decision. Defined.

Record ModelManifest := {
  id : string;
  model_id : ModelId;
  sha256 : string;
  size_bytes : Z;
  format : ModelFormat;
  quantization : option string;
  imported_at : Z;
  blob_path : string;
  model_type : ModelType;
  context_length : option Z;
}.

#[export] Instance ModelManifest_eq_dec : EqDecision ModelManifest.
Proof. solve_decision. Defined.

Inductive InferenceDevice := Cpu | Gpu | Metal | Npu | RyzenAi.

#[export] Instance InferenceDevice_eq_dec : EqDecision InferenceDevice.
Proof. solve_decision. Defined.

Definition is_accelerated (d : InferenceDevice) : bool :=
  match d with Cpu => false | _ => true end.

Definition device_str (d : InferenceDevice) : string :=
  match d with
  | Cpu => "cpu" | Gpu => "gpu" | Metal => "metal" | Npu => "npu" | RyzenAi => "ryzenai"
  end.

End Models.

(** ** workspace.rs *)
Module Workspace.

Record Workspace := {
  id : string;
  slug : string;
  name : string;
  api_key_hash : option string;
  model_allowlist : list string;
  rate_limit_rpm : option Z;
  system_prompt : option string;
  created_at : Z;
  net_namespace : bool;
  max_concurrent_requests : option Z;
  max_models : option Z;
  max_memory_bytes : option Z;
  dek : option string;
}.

#[export] Instance Workspace_eq_dec : EqDecision Workspace.
Proof. solve_decision. Defined.

Definition allows_model (w : Workspace) (name_tag : string) : bool :=
  match model_allowlist w with [] => true | _ => false end
  || existsb (fun m => String.eqb m name_tag) (model_allowlist w).

End Workspace.

(** ** hold.rs *)
Module Hold.

Record HoldRecord := {
  id : string;
  placed_at : Z;
  placed_by : string;
  reason : string;
  seq_from : Z;
  seq_to : Z;
  expires_at : option Z;
  hold_key_pubkey : string;
  placement_sig : string;
  released_at : option Z;
  released_by : option string;
  release_sig : option string;
  tpm_sealed : bool;
}.

#[export] Instance HoldRecord_eq_dec : EqDecision HoldRecord.
Proof. solve_decision. Defined.

(** [now] is the clock value [Utc::now()] returns. *)
Definition is_active (now : Z) (h : HoldRecord) : bool :=
  match released_at h with
  | Some _ => false
  | None => match expires_at h with Some exp => now <? exp | None => true end
  end.

Definition covers_seq (now : Z) (h : HoldRecord) (seq : Z) : bool :=
  is_active now h && (seq_from h <=? seq) && (seq <=? seq_to h).

(** The signed payloads, in the field order serde prints. *)
Definition placement_payload `{TimeText} (hold_id placed_by reason : string)
    (seq_from seq_to placed_at : Z) (pubkey : string) : json :=
  JObj [("hold_id", JStr hold_id); ("placed_by", JStr placed_by); ("reason", JStr reason);
        ("seq_from", JInt seq_from); ("seq_to", JInt seq_to);
        ("placed_at", JStr (ts_print placed_at)); ("hold_key_pubkey", JStr pubkey)]%string.

Definition release_payload `{TimeText} (hold_id released_by : string) (released_at : Z) : json :=
  JObj [("hold_id", JStr hold_id); ("released_by", JStr released_by);
        ("released_at", JStr (ts_print released_at))]%string.

End Hold.

(** ** incident.rs *)
Module Incident.

Inductive IncidentPhase := Declared | Investigating | Resolved.

#[export] Instance IncidentPhase_eq_dec : EqDecision IncidentPhase.
Proof. solve_decision. Defined.

Definition phase_str (p : IncidentPhase) : string :=
  match p with
  | Declared => "declared" | Investigating => "investigating" | Resolved => "resolved"
  end.

Record PhaseEntry := {
  pe_phase : IncidentPhase; pe_at : Z; pe_by : string; pe_note : option string
}.

Record IncidentState := {
  id : string;
  declared_at : Z;
  declared_by : string;
  reason : string;
  phase : IncidentPhase;
  audit_frozen : bool;
  resolved_at : option Z;
  resolution_summary : option string;
  phase_log : list PhaseEntry;
  webhook_urls : list string;
}.

Definition new (now : Z) (id declared_by reason : string) (urls : list string) : IncidentState :=
  {| id := id;
     declared_at := now;
     declared_by := declared_by;
     reason := reason;
     phase := Declared;
     audit_frozen := true;
     resolved_at := None;
     resolution_summary := None;
     phase_log := [{| pe_phase := Declared; pe_at := now; pe_by := declared_by;
                      pe_note := Some reason |}];
     webhook_urls := urls |}.

Record BreakGlassCred := {
  bg_id : string;
  purpose : string;
  token_hash : string;
  created_at : Z;
  used_at : option Z;
  used_by : option string;
}.

#[export] Instance BreakGlassCred_eq_dec : EqDecision BreakGlassCred.
Proof. solve_decision. Defined.

Definition is_used (c : BreakGlassCred) : bool :=
  match used_at c with Some _ => true | None => false end.

End Incident.
