(* ===== verification/Tokens.v ===== *)
(** * Signed artifacts: approval tokens and model baselines

    Models [approval.rs] and [baseline.rs] of maranode-common: the JSON payload
    that is signed, signing, verification with its error order, and the creation
    of the signing keys in a file system with permission bits. *)

From Stdlib Require Import ZArith Lia Ascii String.
From S2P Require Import Prelude Json Crypto.

(** Failures of [verify], in the order the code can raise them. *)
Inductive VerifyErr :=
| BadBase64Key | KeyLength | BadKey | BadBase64Sig | SigLength | BadSignature | Expired.

(** A file: permission bits and content. *)
Record file := { mode : Z; data : string }.
Definition files := gmap string file.

Section Signed.
Context `{Base64, Ed25519}.

(** The part shared by both [verify] functions: decode the key and the
    signature, check the lengths, verify the message. *)
Definition verify_message (signer_pubkey signature msg : string) : result VerifyErr unit :=
  let? pk := ok_or (b64_decode signer_pubkey) BadBase64Key in
  guard Nat.eqb (String.length pk) 32 else KeyLength in
  guard ed_key_ok pk else BadKey in
  let? sig := ok_or (b64_decode signature) BadBase64Sig in
  guard Nat.eqb (String.length sig) 64 else SigLength in
  guard ed_verify pk msg sig else BadSignature in
  Ok tt.

Lemma verify_message_ok pk64 sig64 msg :
  verify_message pk64 sig64 msg = Ok tt <->
  exists pk sig, b64_decode pk64 = Some pk /\ String.length pk = 32%nat /\
    ed_key_ok pk = true /\ b64_decode sig64 = Some sig /\
    String.length sig = 64%nat /\ ed_verify pk msg sig = true.
Proof.
  unfold verify_message. rewrite rbind_ok. setoid_rewrite ok_or_ok. split.
  - intros (pk & Hpk & H1). crush.
    destruct (b64_decode sig64) as [sig|] eqn:Hsig; simpl in *; [|done]. crush.
    repeat match goal with H : Nat.eqb _ _ = true |- _ => apply Nat.eqb_eq in H end.
    eauto 10.
  - intros (pk & sig & -> & Hl & Hk & -> & Hs & Hv).
    exists pk. simpl. by rewrite Hl, Hk, Hs, Hv.
Qed.

Lemma verify_message_signed k msg :
  String.length k = 32%nat ->
  verify_message (b64_encode (ed_public k)) (b64_encode (ed_sign k msg)) msg = Ok tt.
Proof.
  intros Hk. apply verify_message_ok.
  exists (ed_public k), (ed_sign k msg).
  rewrite !b64_decode_encode, ed_public_len, ed_public_ok, ed_sign_len, ed_verify_sign by done.
  done.
Qed.
End Signed.

(** ** approval.rs *)
Module Approval.

Record ApprovalToken := {
  token_id : string;
  model_id : string;
  model_sha256 : string;
  approved_by : string;
  approved_at : Z;
  expires_at : option Z;
  note : option string;
  signer_pubkey : string;
  signature : string;
}.

#[export] Instance ApprovalToken_eq_dec : EqDecision ApprovalToken.
Proof. solve_decision. Defined.

Section Approval.
Context `{JsonText, TimeText, Base64, Ed25519}.

(** [SignPayload]: every field but the signature. *)
Definition sign_payload (t : ApprovalToken) : json :=
  JObj [("token_id", JStr (token_id t)); ("model_id", JStr (model_id t));
        ("model_sha256", JStr (model_sha256 t)); ("approved_by", JStr (approved_by t));
        ("approved_at", JStr (ts_print (approved_at t)));
        ("expires_at", jopt (fun e => JStr (ts_print e)) (expires_at t));
        ("note", jopt JStr (note t)); ("signer_pubkey", JStr (signer_pubkey t))]%string.

Definition with_pubkey (t : ApprovalToken) (pk : string) : ApprovalToken :=
  {| token_id := token_id t; model_id := model_id t; model_sha256 := model_sha256 t;
     approved_by := approved_by t; approved_at := approved_at t;
     expires_at := expires_at t; note := note t;
     signer_pubkey := pk; signature := signature t |}.

Definition with_signature (t : ApprovalToken) (s : string) : ApprovalToken :=
  {| token_id := token_id t; model_id := model_id t; model_sha256 := model_sha256 t;
     approved_by := approved_by t; approved_at := approved_at t;
     expires_at := expires_at t; note := note t;
     signer_pubkey := signer_pubkey t; signature := s |}.

Definition sign (t : ApprovalToken) (key : string) : ApprovalToken :=
  let t := with_pubkey t (b64_encode (ed_public key)) in
  let msg := json_print (sign_payload t) in
  with_signature t (b64_encode (ed_sign key msg)).

Definition verify (now : Z) (t : ApprovalToken) : result VerifyErr unit :=
  let? _ := verify_message (signer_pubkey t) (signature t) (json_print (sign_payload t)) in
  match expires_at t with
  | Some exp => if exp <? now then Err Expired else Ok tt
  | None => Ok tt
  end.

Definition token_path (tokens_dir model_sha256 : string) : string :=
  (tokens_dir +:+ "/" +:+ model_sha256 +:+ ".mrn-token")%string.

(** [std::fs::write] creates with mode 0666 less the umask. [fresh] is the
    generated key; a stored key of another length is an error. *)
Definition load_or_create_signing_key (umask : Z) (fresh : string) (fs : files)
    : result VerifyErr (string * files) :=
  match fs !! "approval_signing.key"%string with
  | Some f => guard Nat.eqb (String.length (data f)) 32 else KeyLength in Ok (data f, fs)
  | None =>
    let m := Z.land 438 (Z.lnot umask) in
    let fs := <["approval_signing.key"%string := {| mode := m; data := fresh |}]> fs in
    let fs := <["approval_signing.pub"%string := {| mode := m; data := ed_public fresh |}]> fs in
    Ok (fresh, fs)
  end.

Lemma sign_fields t k :
  let t' := sign t k in
  token_id t' = token_id t /\ model_id t' = model_id t /\ model_sha256 t' = model_sha256 t /\
  expires_at t' = expires_at t.
Proof. done. Qed.

Lemma verify_ok now t :
  verify now t = Ok tt <->
  verify_message (signer_pubkey t) (signature t) (json_print (sign_payload t)) = Ok tt /\
  match expires_at t with Some e => now <= e | None => True end.
Proof.
  unfold verify.
  destruct (verify_message _ _ _) as [[]|e]; simpl; [|naive_solver].
  destruct (expires_at t) as [e|]; [|naive_solver].
  destruct (Z.ltb_spec e now); split; intros; destruct_and?; try (exfalso; lia); simplify_eq/=; auto.
Qed.

(** The payload determines every signed field. *)
Lemma sign_payload_inj t1 t2 :
  sign_payload t1 = sign_payload t2 ->
  with_signature t1 EmptyString = with_signature t2 EmptyString.
Proof.
  destruct t1 as [a b c d e f g h i], t2 as [a' b' c' d' e' f' g' h' i'].
  unfold sign_payload, with_signature; simpl. intros Heq. simplify_eq.
  assert (forall x y, ts_print x = ts_print y -> x = y) as Ht.
  { intros x y Hxy. apply (f_equal ts_parse) in Hxy. rewrite !ts_parse_print in Hxy.
    by simplify_eq. }
  f_equal; [by apply Ht| |].
  - destruct f, f'; simplify_eq/=; [|done]. f_equal. by apply Ht.
  - by destruct g, g'; simplify_eq/=.
Qed.
End Approval.
End Approval.

(** ** baseline.rs *)
Module Baseline.

Record TestVector := {
  prompt : string;
  temperature : Z;
  seed : Z;
  max_tokens : Z;
  expected_sha256 : string;
}.

Record Baseline := {
  schema_version : Z;
  model_sha256 : string;
  model_id : string;
  created_at : Z;
  vectors : list TestVector;
  max_mismatches : Z;
  signer_pubkey : string;
  signature : string;
}.

Section Baseline.
Context `{JsonText, TimeText, Base64, Ed25519}.

Definition vector_json (v : TestVector) : json :=
  JObj [("prompt", JStr (prompt v)); ("temperature", JFloat (temperature v));
        ("seed", JInt (seed v)); ("max_tokens", JInt (max_tokens v));
        ("expected_sha256", JStr (expected_sha256 v))]%string.

Definition sign_payload (b : Baseline) : json :=
  JObj [("schema_version", JInt (schema_version b)); ("model_sha256", JStr (model_sha256 b));
        ("model_id", JStr (model_id b)); ("created_at", JStr (ts_print (created_at b)));
        ("vectors", JArr (vector_json <$> vectors b));
        ("max_mismatches", JInt (max_mismatches b));
        ("signer_pubkey", JStr (signer_pubkey b))]%string.

Definition sign (b : Baseline) (key : string) : Baseline :=
  let b := {| schema_version := schema_version b; model_sha256 := model_sha256 b;
              model_id := model_id b; created_at := created_at b; vectors := vectors b;
              max_mismatches := max_mismatches b;
              signer_pubkey := b64_encode (ed_public key); signature := signature b |} in
  let msg := json_print (sign_payload b) in
  {| schema_version := schema_version b; model_sha256 := model_sha256 b;
     model_id := model_id b; created_at := created_at b; vectors := vectors b;
     max_mismatches := max_mismatches b; signer_pubkey := signer_pubkey b;
     signature := b64_encode (ed_sign key msg) |}.

Definition verify (b : Baseline) : result VerifyErr unit :=
  verify_message (signer_pubkey b) (signature b) (json_print (sign_payload b)).

(** The key file is created with mode 0600 less the umask, the public key with
    the default mode. *)
Definition load_or_create_signing_key (umask : Z) (fresh : string) (fs : files)
    : result VerifyErr (string * files) :=
  match fs !! "baseline_signing.key"%string with
  | Some f => guard Nat.eqb (String.length (data f)) 32 else KeyLength in Ok (data f, fs)
  | None =>
    let fs := <["baseline_signing.key"%string :=
                  {| mode := Z.land 384 (Z.lnot umask); data := fresh |}]> fs in
    let fs := <["baseline_signing.pub"%string :=
                  {| mode := Z.land 438 (Z.lnot umask); data := ed_public fresh |}]> fs in
    Ok (fresh, fs)
  end.
End Baseline.
End Baseline.
