(* ===== verification/Events.v ===== *)
(** * Audit events and entries

    Models [maranode-common/src/events.rs] and [receipt.rs]: the event enum, its
    JSON form under the serde attributes written there (internally tagged by
    ["event"], snake case), the entry that flattens the event next to its own
    fields, and the derived readers with their duplicate-field errors. *)

From Stdlib Require Import ZArith Lia Ascii String.
From S2P Require Import Prelude Json Crypto Common.
Open Scope string_scope.
Open Scope list_scope.
Open Scope Z_scope.

(** ** receipt.rs *)
Module Receipt.

Record SourceRef := {
  chunk_id : string; doc_id : string; source : string;
  doc_sha256 : string; chunk_hash : string; score : Z
}.

Record EnvFingerprint := {
  kernel_build_id : string; thread_count : Z; device_class : string
}.

Record DecodeParams := {
  temperature : option Z; top_k : option Z; max_tokens : option Z;
  seed : option Z; deterministic : bool
}.

Record InferenceReceipt := {
  version : Z;
  receipt_id : string;
  request_id : string;
  timestamp : Z;
  model_id : string;
  model_sha256 : string;
  model_quant : option string;
  input_sha256 : string;
  output_sha256 : string;
  decode_params : DecodeParams;
  tokens_in : Z;
  tokens_out : Z;
  signing_key_id : string;
  tpm_pcr : option string;
  env : EnvFingerprint;
  sources : list SourceRef;
  grounded : bool;
  signature : option string;
}.

Definition RECEIPT_VERSION : Z := 1.

Section Receipt.
Context `{TimeText}.

Definition source_ref_json (s : SourceRef) : json :=
  JObj [("chunk_id", JStr (chunk_id s)); ("doc_id", JStr (doc_id s));
        ("source", JStr (source s)); ("doc_sha256", JStr (doc_sha256 s));
        ("chunk_hash", JStr (chunk_hash s)); ("score", JFloat (score s))].

Definition env_json (e : EnvFingerprint) : json :=
  JObj [("kernel_build_id", JStr (kernel_build_id e)); ("thread_count", JInt (thread_count e));
        ("device_class", JStr (device_class e))].

Definition params_json (d : DecodeParams) : json :=
  JObj [("temperature", jopt JFloat (temperature d)); ("top_k", jopt JInt (top_k d));
        ("max_tokens", jopt JInt (max_tokens d)); ("seed", jopt JInt (seed d));
        ("deterministic", JBool (deterministic d))].

Definition receipt_json (r : InferenceReceipt) : json :=
  JObj ([("version", JInt (version r)); ("receipt_id", JStr (receipt_id r));
         ("request_id", JStr (request_id r)); ("timestamp", JStr (ts_print (timestamp r)));
         ("model_id", JStr (model_id r)); ("model_sha256", JStr (model_sha256 r))]
        ++ jskip "model_quant" JStr (model_quant r)
        ++ [("input_sha256", JStr (input_sha256 r)); ("output_sha256", JStr (output_sha256 r));
            ("decode_params", params_json (decode_params r));
            ("tokens_in", JInt (tokens_in r)); ("tokens_out", JInt (tokens_out r));
            ("signing_key_id", JStr (signing_key_id r))]
        ++ jskip "tpm_pcr" JStr (tpm_pcr r)
        ++ [("env", env_json (env r))]
        ++ match sources r with
           | [] => []
           | l => [("sources", JArr (source_ref_json <$> l))]
           end
        ++ [("grounded", JBool (grounded r))]
        ++ jskip "signature" JStr (signature r)).

Definition source_ref_of (j : json) : option SourceRef :=
  some? m := as_obj j in
  check no_dup_fields ["chunk_id"; "doc_id"; "source"; "doc_sha256"; "chunk_hash"; "score"] m in
  some? x0 := req as_str "chunk_id" m in
  some? x1 := req as_str "doc_id" m in
  some? x2 := req as_str "source" m in
  some? x3 := req as_str "doc_sha256" m in
  some? x4 := req as_str "chunk_hash" m in
  some? x5 := req as_float "score" m in
  Some {| chunk_id := x0; doc_id := x1; source := x2; doc_sha256 := x3;
          chunk_hash := x4; score := x5 |}.

Definition env_default : EnvFingerprint :=
  {| kernel_build_id := EmptyString; thread_count := 0; device_class := EmptyString |}.

Definition env_of (j : json) : option EnvFingerprint :=
  some? m := as_obj j in
  check no_dup_fields ["kernel_build_id"; "thread_count"; "device_class"] m in
  some? x0 := dflt as_str EmptyString "kernel_build_id" m in
  some? x1 := dflt (as_uint u32_max) 0 "thread_count" m in
  some? x2 := dflt as_str EmptyString "device_class" m in
  Some {| kernel_build_id := x0; thread_count := x1; device_class := x2 |}.

Definition params_of (j : json) : option DecodeParams :=
  some? m := as_obj j in
  check no_dup_fields ["temperature"; "top_k"; "max_tokens"; "seed"; "deterministic"] m in
  some? x0 := opt as_float "temperature" m in
  some? x1 := opt (as_uint u32_max) "top_k" m in
  some? x2 := opt (as_uint u32_max) "max_tokens" m in
  some? x3 := opt (as_uint u64_max) "seed" m in
  some? x4 := req as_bool "deterministic" m in
  Some {| temperature := x0; top_k := x1; max_tokens := x2; seed := x3; deterministic := x4 |}.

Definition receipt_fields : list string :=
  ["version"; "receipt_id"; "request_id"; "timestamp"; "model_id"; "model_sha256";
   "model_quant"; "input_sha256"; "output_sha256"; "decode_params"; "tokens_in";
   "tokens_out"; "signing_key_id"; "tpm_pcr"; "env"; "sources"; "grounded"; "signature"].

Definition sources_of (j : json) : option (list SourceRef) :=
  some? l := as_arr j in all_some (source_ref_of <$> l).

Definition ts_of (j : json) : option Z := some? s := as_str j in ts_parse s.

Definition receipt_of (j : json) : option InferenceReceipt :=
  some? m := as_obj j in
  check no_dup_fields receipt_fields m in
  some? x0 := req (as_uint u32_max) "version" m in
  some? x1 := req as_str "receipt_id" m in
  some? x2 := req as_str "request_id" m in
  some? x3 := req ts_of "timestamp" m in
  some? x4 := req as_str "model_id" m in
  some? x5 := req as_str "model_sha256" m in
  some? x6 := opt as_str "model_quant" m in
  some? x7 := req as_str "input_sha256" m in
  some? x8 := req as_str "output_sha256" m in
  some? x9 := req params_of "decode_params" m in
  some? x10 := req (as_uint u32_max) "tokens_in" m in
  some? x11 := req (as_uint u32_max) "tokens_out" m in
  some? x12 := req as_str "signing_key_id" m in
  some? x13 := opt as_str "tpm_pcr" m in
  some? x14 := dflt env_of env_default "env" m in
  some? x15 := dflt sources_of [] "sources" m in
  some? x16 := dflt as_bool false "grounded" m in
  some? x17 := opt as_str "signature" m in
  Some {| version := x0; receipt_id := x1; request_id := x2; timestamp := x3;
          model_id := x4; model_sha256 := x5; model_quant := x6; input_sha256 := x7;
          output_sha256 := x8; decode_params := x9; tokens_in := x10; tokens_out := x11;
          signing_key_id := x12; tpm_pcr := x13; env := x14; sources := x15;
          grounded := x16; signature := x17 |}.

(** The bytes that are signed: the receipt without its signature. *)
Definition without_signature (r : InferenceReceipt) : InferenceReceipt :=
  {| version := version r; receipt_id := receipt_id r; request_id := request_id r;
     timestamp := timestamp r; model_id := model_id r; model_sha256 := model_sha256 r;
     model_quant := model_quant r; input_sha256 := input_sha256 r;
     output_sha256 := output_sha256 r; decode_params := decode_params r;
     tokens_in := tokens_in r; tokens_out := tokens_out r;
     signing_key_id := signing_key_id r; tpm_pcr := tpm_pcr r; env := env r;
     sources := sources r; grounded := grounded r; signature := None |}.

Definition canonical_bytes `{JsonText} (r : InferenceReceipt) : string :=
  json_print (receipt_json (without_signature r)).

Definition hash_messages `{JsonText, Sha256} (messages : list json) : string :=
  sha256_hex (foldr (fun m acc => json_print m +:+ acc) EmptyString messages).

Definition hash_output `{Sha256} (text : string) : string := sha256_hex text.

(** What the field types guarantee, and finite floats. *)
Definition opt_ok {A} (f : A -> bool) (o : option A) : bool :=
  match o with Some a => f a | None => true end.

Definition params_wf (d : DecodeParams) : bool :=
  opt_ok f32_finite (temperature d) && opt_ok (uint_ok u32_max) (top_k d)
  && opt_ok (uint_ok u32_max) (max_tokens d) && opt_ok (uint_ok u64_max) (seed d).

Definition receipt_wf (r : InferenceReceipt) : bool :=
  uint_ok u32_max (version r) && uint_ok u32_max (tokens_in r)
  && uint_ok u32_max (tokens_out r) && uint_ok u32_max (thread_count (env r))
  && params_wf (decode_params r) && forallb (fun s => f32_finite (score s)) (sources r).
End Receipt.
End Receipt.
Import Models Receipt.

(** ** events.rs *)
Module Events.

Inductive IsolationMode := AirGap | Whitelist | Disabled.
Inductive ImportSource := Remote (url : string) | LocalFile (path : string).
Record ProbeResult := { host : string; port : Z; reachable : bool }.

Inductive AuditEvent :=
| DaemonStart (version : string) (air_gap : bool)
| DaemonStop (reason : string)
| IsolationApplied (mode : IsolationMode)
| ModelImported (model : ModelId) (sha256 : string) (size_bytes : Z) (source : ImportSource)
| ModelRemoved (model : ModelId)
| InferenceStart (request_id : string) (model : ModelId) (prompt_sha256 : string) (device :
    InferenceDevice) (prompt : option string)
| InferenceComplete (request_id : string) (model : ModelId) (tokens_in : Z) (tokens_out : Z)
    (duration_ms : Z) (device : InferenceDevice) (response : option string)
| InferenceFailed (request_id : string) (model : ModelId) (reason : string)
| InferenceReceiptEv (receipt : InferenceReceipt)
| RagDocumentIngested (collection : string) (source : string) (chunks : Z)
| RagRetrieval (collection : string) (query_sha256 : string) (hits : Z)
| IsolationProbe (isolated : bool) (probe_results : list ProbeResult) (iptables_hash : string)
| WorkspaceShredded (slug : string) (actor : string) (statement : string)
| ConfigReloaded (path : string)
| AuditVerified (entries : Z) (ok : bool)
| BinaryAttested (binary_sha256 : string) (binary_path : string) (tpm_available : bool)
| ModelBaselineChecked (model_id : string) (model_sha256 : string) (vectors_run : Z)
    (vectors_passed : Z) (vectors_failed : Z) (baseline_signer : string)
| ModelDriftDetected (model_id : string) (model_sha256 : string) (vectors_failed : Z)
    (action_taken : string)
| ModelApprovalGranted (model_id : string) (model_sha256 : string) (approved_by : string)
    (token_id : string) (signer_pubkey : string)
| ModelApprovalRevoked (model_id : string) (model_sha256 : string) (revoked_by : string)
    (token_id : string)
| ModelLoadBlocked (model_id : string) (model_sha256 : string) (reason : string)
| DataClassificationViolation (workspace : string) (collection : string) (required_label :
    string) (workspace_clearance : string) (blocked : bool)
| DataLabelAssigned (collection : string) (label : string) (assigned_by : string)
| DlpSyncCompleted (provider : string) (labels_imported : Z)
| TpmKeySealed (purpose : string) (backend : string) (pcr_list : option string)
| TpmUnsealFailed (purpose : string) (reason : string) (fail_count : Z)
| TpmKeyRotated (purpose : string) (reason : string) (new_backend : string) (new_pcr_list :
    option string)
| IncidentDeclared (incident_id : string) (declared_by : string) (reason : string)
    (sessions_terminated : Z)
| AuditFrozen (incident_id : string) (frozen_by : string)
| AuditUnfrozen (incident_id : string) (unfrozen_by : string)
| ForensicSnapshot (incident_id : string) (snapshot_path : string) (snapshot_sha256 : string)
| BreakGlassUsed (cred_id : string) (used_by : string) (purpose : string)
| IncidentPhaseChanged (incident_id : string) (old_phase : string) (new_phase : string)
    (changed_by : string) (note : option string)
| IncidentResolved (incident_id : string) (resolved_by : string) (summary : string)
| LegalHoldPlaced (hold_id : string) (placed_by : string) (seq_from : Z) (seq_to : Z) (reason
    : string) (tpm_sealed : bool)
| LegalHoldReleased (hold_id : string) (released_by : string)
| LegalHoldKeyGenerated (pubkey_hex : string) (generated_by : string) (tpm_sealed : bool)
| TeeAttested (tee_type : string) (report_hash : string) (binary_sha256 : string).

Definition mode_str (m : IsolationMode) : string :=
  match m with AirGap => "airgap" | Whitelist => "whitelist" | Disabled => "disabled" end.

Definition mode_of (j : json) : option IsolationMode :=
  some? s := as_str j in
  if String.eqb s "airgap" then Some AirGap else
  if String.eqb s "whitelist" then Some Whitelist else
  if String.eqb s "disabled" then Some Disabled else None.

Definition model_id_json (m : ModelId) : json :=
  JObj [("name", JStr (name m)); ("tag", JStr (tag m))].

Definition model_id_of (j : json) : option ModelId :=
  some? m := as_obj j in
  check no_dup_fields ["name"; "tag"] m in
  some? n := req as_str "name" m in
  some? t := req as_str "tag" m in
  Some {| name := n; tag := t |}.

Definition device_of (j : json) : option InferenceDevice :=
  some? s := as_str j in
  if String.eqb s "cpu" then Some Cpu else
  if String.eqb s "gpu" then Some Gpu else
  if String.eqb s "metal" then Some Metal else
  if String.eqb s "npu" then Some Npu else
  if String.eqb s "ryzenai" then Some RyzenAi else None.

(** An enum with externally tagged variants. *)
Definition source_json (s : ImportSource) : json :=
  match s with
  | Remote url => JObj [("remote", JObj [("url", JStr url)])]
  | LocalFile path => JObj [("local", JObj [("path", JStr path)])]
  end.

Definition source_of (j : json) : option ImportSource :=
  some? m := as_obj j in
  match m with
  | [(k, v)] =>
    some? m := as_obj v in
    if String.eqb k "remote" then
      check no_dup_fields ["url"] m in some? u := req as_str "url" m in Some (Remote u)
    else if String.eqb k "local" then
      check no_dup_fields ["path"] m in some? u := req as_str "path" m in Some (LocalFile u)
    else None
  | _ => None
  end.

Definition probe_json (p : ProbeResult) : json :=
  JObj [("host", JStr (host p)); ("port", JInt (port p)); ("reachable", JBool (reachable p))].

Definition probe_of (j : json) : option ProbeResult :=
  some? m := as_obj j in
  check no_dup_fields ["host"; "port"; "reachable"] m in
  some? h := req as_str "host" m in
  some? p := req (as_uint 65535) "port" m in
  some? r := req as_bool "reachable" m in
  Some {| host := h; port := p; reachable := r |}.

Definition probes_of (j : json) : option (list ProbeResult) :=
  some? l := as_arr j in all_some (probe_of <$> l).

Definition probe_wf (p : ProbeResult) : bool := uint_ok 65535 (port p).

(** The tag of a variant. *)
Definition event_kind (e : AuditEvent) : string :=
  match e with
  | DaemonStart _ _ => "daemon_start"
  | DaemonStop _ => "daemon_stop"
  | IsolationApplied _ => "isolation_applied"
  | ModelImported _ _ _ _ => "model_imported"
  | ModelRemoved _ => "model_removed"
  | InferenceStart _ _ _ _ _ => "inference_start"
  | InferenceComplete _ _ _ _ _ _ _ => "inference_complete"
  | InferenceFailed _ _ _ => "inference_failed"
  | InferenceReceiptEv _ => "inference_receipt"
  | RagDocumentIngested _ _ _ => "rag_document_ingested"
  | RagRetrieval _ _ _ => "rag_retrieval"
  | IsolationProbe _ _ _ => "isolation_probe"
  | WorkspaceShredded _ _ _ => "workspace_shredded"
  | ConfigReloaded _ => "config_reloaded"
  | AuditVerified _ _ => "audit_verified"
  | BinaryAttested _ _ _ => "binary_attested"
  | ModelBaselineChecked _ _ _ _ _ _ => "model_baseline_checked"
  | ModelDriftDetected _ _ _ _ => "model_drift_detected"
  | ModelApprovalGranted _ _ _ _ _ => "model_approval_granted"
  | ModelApprovalRevoked _ _ _ _ => "model_approval_revoked"
  | ModelLoadBlocked _ _ _ => "model_load_blocked"
  | DataClassificationViolation _ _ _ _ _ => "data_classification_violation"
  | DataLabelAssigned _ _ _ => "data_label_assigned"
  | DlpSyncCompleted _ _ => "dlp_sync_completed"
  | TpmKeySealed _ _ _ => "tpm_key_sealed"
  | TpmUnsealFailed _ _ _ => "tpm_unseal_failed"
  | TpmKeyRotated _ _ _ _ => "tpm_key_rotated"
  | IncidentDeclared _ _ _ _ => "incident_declared"
  | AuditFrozen _ _ => "audit_frozen"
  | AuditUnfrozen _ _ => "audit_unfrozen"
  | ForensicSnapshot _ _ _ => "forensic_snapshot"
  | BreakGlassUsed _ _ _ => "break_glass_used"
  | IncidentPhaseChanged _ _ _ _ _ => "incident_phase_changed"
  | IncidentResolved _ _ _ => "incident_resolved"
  | LegalHoldPlaced _ _ _ _ _ _ => "legal_hold_placed"
  | LegalHoldReleased _ _ => "legal_hold_released"
  | LegalHoldKeyGenerated _ _ _ => "legal_hold_key_generated"
  | TeeAttested _ _ _ => "tee_attested"
  end.

(** What the integer types of the fields guarantee. *)
Definition event_wf (e : AuditEvent) : bool :=
  match e with
  | ModelImported _ _ x2 _ => uint_ok u64_max x2
  | InferenceComplete _ _ x2 x3 x4 _ _ => uint_ok u32_max x2 && uint_ok u32_max x3 &&
      uint_ok u64_max x4
  | InferenceReceiptEv x0 => receipt_wf x0
  | RagDocumentIngested _ _ x2 => uint_ok u64_max x2
  | RagRetrieval _ _ x2 => uint_ok u64_max x2
  | IsolationProbe _ x1 _ => forallb probe_wf x1
  | AuditVerified x0 _ => uint_ok u64_max x0
  | ModelBaselineChecked _ _ x2 x3 x4 _ => uint_ok u64_max x2 && uint_ok u64_max x3 &&
      uint_ok u64_max x4
  | ModelDriftDetected _ _ x2 _ => uint_ok u64_max x2
  | DlpSyncCompleted _ x1 => uint_ok u64_max x1
  | TpmUnsealFailed _ _ x2 => uint_ok u32_max x2
  | IncidentDeclared _ _ _ x3 => uint_ok u32_max x3
  | LegalHoldPlaced _ _ x2 x3 _ _ => uint_ok u64_max x2 && uint_ok u64_max x3
  | _ => true
  end.

Section Json.
Context `{TimeText}.

(** The members of a variant, in declaration order. *)
Definition event_fields (e : AuditEvent) : list (string * json) :=
match e with
| DaemonStart x0 x1 => [("version", JStr x0); ("air_gap", JBool x1)]
| DaemonStop x0 => [("reason", JStr x0)]
| IsolationApplied x0 => [("mode", JStr (mode_str x0))]
| ModelImported x0 x1 x2 x3 => [("model", model_id_json x0); ("sha256", JStr x1);
    ("size_bytes", JInt x2); ("source", source_json x3)]
| ModelRemoved x0 => [("model", model_id_json x0)]
| InferenceStart x0 x1 x2 x3 x4 => [("request_id", JStr x0); ("model", model_id_json x1);
    ("prompt_sha256", JStr x2); ("device", JStr (device_str x3))] ++ jskip "prompt" JStr
    x4
| InferenceComplete x0 x1 x2 x3 x4 x5 x6 => [("request_id", JStr x0); ("model",
    model_id_json x1); ("tokens_in", JInt x2); ("tokens_out", JInt x3); ("duration_ms",
    JInt x4); ("device", JStr (device_str x5))] ++ jskip "response" JStr x6
| InferenceFailed x0 x1 x2 => [("request_id", JStr x0); ("model", model_id_json x1);
    ("reason", JStr x2)]
| InferenceReceiptEv x0 => [("receipt", receipt_json x0)]
| RagDocumentIngested x0 x1 x2 => [("collection", JStr x0); ("source", JStr x1);
    ("chunks", JInt x2)]
| RagRetrieval x0 x1 x2 => [("collection", JStr x0); ("query_sha256", JStr x1); ("hits",
    JInt x2)]
| IsolationProbe x0 x1 x2 => [("isolated", JBool x0); ("probe_results", JArr (probe_json
    <$> x1)); ("iptables_hash", JStr x2)]
| WorkspaceShredded x0 x1 x2 => [("slug", JStr x0); ("actor", JStr x1); ("statement", JStr
    x2)]
| ConfigReloaded x0 => [("path", JStr x0)]
| AuditVerified x0 x1 => [("entries", JInt x0); ("ok", JBool x1)]
| BinaryAttested x0 x1 x2 => [("binary_sha256", JStr x0); ("binary_path", JStr x1);
    ("tpm_available", JBool x2)]
| ModelBaselineChecked x0 x1 x2 x3 x4 x5 => [("model_id", JStr x0); ("model_sha256", JStr
    x1); ("vectors_run", JInt x2); ("vectors_passed", JInt x3); ("vectors_failed", JInt
    x4); ("baseline_signer", JStr x5)]
| ModelDriftDetected x0 x1 x2 x3 => [("model_id", JStr x0); ("model_sha256", JStr x1);
    ("vectors_failed", JInt x2); ("action_taken", JStr x3)]
| ModelApprovalGranted x0 x1 x2 x3 x4 => [("model_id", JStr x0); ("model_sha256", JStr
    x1); ("approved_by", JStr x2); ("token_id", JStr x3); ("signer_pubkey", JStr x4)]
| ModelApprovalRevoked x0 x1 x2 x3 => [("model_id", JStr x0); ("model_sha256", JStr x1);
    ("revoked_by", JStr x2); ("token_id", JStr x3)]
| ModelLoadBlocked x0 x1 x2 => [("model_id", JStr x0); ("model_sha256", JStr x1);
    ("reason", JStr x2)]
| DataClassificationViolation x0 x1 x2 x3 x4 => [("workspace", JStr x0); ("collection",
    JStr x1); ("required_label", JStr x2); ("workspace_clearance", JStr x3); ("blocked",
    JBool x4)]
| DataLabelAssigned x0 x1 x2 => [("collection", JStr x0); ("label", JStr x1);
    ("assigned_by", JStr x2)]
| DlpSyncCompleted x0 x1 => [("provider", JStr x0); ("labels_imported", JInt x1)]
| TpmKeySealed x0 x1 x2 => [("purpose", JStr x0); ("backend", JStr x1); ("pcr_list", jopt
    JStr x2)]
| TpmUnsealFailed x0 x1 x2 => [("purpose", JStr x0); ("reason", JStr x1); ("fail_count",
    JInt x2)]
| TpmKeyRotated x0 x1 x2 x3 => [("purpose", JStr x0); ("reason", JStr x1); ("new_backend",
    JStr x2); ("new_pcr_list", jopt JStr x3)]
| IncidentDeclared x0 x1 x2 x3 => [("incident_id", JStr x0); ("declared_by", JStr x1);
    ("reason", JStr x2); ("sessions_terminated", JInt x3)]
| AuditFrozen x0 x1 => [("incident_id", JStr x0); ("frozen_by", JStr x1)]
| AuditUnfrozen x0 x1 => [("incident_id", JStr x0); ("unfrozen_by", JStr x1)]
| ForensicSnapshot x0 x1 x2 => [("incident_id", JStr x0); ("snapshot_path", JStr x1);
    ("snapshot_sha256", JStr x2)]
| BreakGlassUsed x0 x1 x2 => [("cred_id", JStr x0); ("used_by", JStr x1); ("purpose", JStr
    x2)]
| IncidentPhaseChanged x0 x1 x2 x3 x4 => [("incident_id", JStr x0); ("old_phase", JStr
    x1); ("new_phase", JStr x2); ("changed_by", JStr x3); ("note", jopt JStr x4)]
| IncidentResolved x0 x1 x2 => [("incident_id", JStr x0); ("resolved_by", JStr x1);
    ("summary", JStr x2)]
| LegalHoldPlaced x0 x1 x2 x3 x4 x5 => [("hold_id", JStr x0); ("placed_by", JStr x1);
    ("seq_from", JInt x2); ("seq_to", JInt x3); ("reason", JStr x4); ("tpm_sealed", JBool
    x5)]
| LegalHoldReleased x0 x1 => [("hold_id", JStr x0); ("released_by", JStr x1)]
| LegalHoldKeyGenerated x0 x1 x2 => [("pubkey_hex", JStr x0); ("generated_by", JStr x1);
    ("tpm_sealed", JBool x2)]
| TeeAttested x0 x1 x2 => [("tee_type", JStr x0); ("report_hash", JStr x1);
    ("binary_sha256", JStr x2)]
end.

Definition event_members (e : AuditEvent) : list (string * json) :=
  ("event", JStr (event_kind e)) :: event_fields e.

(** The derived reader: find the tag, then read the fields of that variant. *)
Definition event_of (m : list (string * json)) : option AuditEvent :=
  check Nat.leb (jcount "event" m) 1 in
  some? kind := req as_str "event" m in
if String.eqb kind "daemon_start" then
    check no_dup_fields ["version"; "air_gap"] m in
    some? x0 := req as_str "version" m in
    some? x1 := req as_bool "air_gap" m in
    Some (DaemonStart x0 x1) else
  if String.eqb kind "daemon_stop" then
    check no_dup_fields ["reason"] m in
    some? x0 := req as_str "reason" m in
    Some (DaemonStop x0) else
  if String.eqb kind "isolation_applied" then
    check no_dup_fields ["mode"] m in
    some? x0 := req mode_of "mode" m in
    Some (IsolationApplied x0) else
  if String.eqb kind "model_imported" then
    check no_dup_fields ["model"; "sha256"; "size_bytes"; "source"] m in
    some? x0 := req model_id_of "model" m in
    some? x1 := req as_str "sha256" m in
    some? x2 := req (as_uint u64_max) "size_bytes" m in
    some? x3 := req source_of "source" m in
    Some (ModelImported x0 x1 x2 x3) else
  if String.eqb kind "model_removed" then
    check no_dup_fields ["model"] m in
    some? x0 := req model_id_of "model" m in
    Some (ModelRemoved x0) else
  if String.eqb kind "inference_start" then
    check no_dup_fields ["request_id"; "model"; "prompt_sha256"; "device"; "prompt"] m in
    some? x0 := req as_str "request_id" m in
    some? x1 := req model_id_of "model" m in
    some? x2 := req as_str "prompt_sha256" m in
    some? x3 := req device_of "device" m in
    some? x4 := opt as_str "prompt" m in
    Some (InferenceStart x0 x1 x2 x3 x4) else
  if String.eqb kind "inference_complete" then
    check no_dup_fields ["request_id"; "model"; "tokens_in"; "tokens_out"; "duration_ms";
        "device"; "response"] m in
    some? x0 := req as_str "request_id" m in
    some? x1 := req model_id_of "model" m in
    some? x2 := req (as_uint u32_max) "tokens_in" m in
    some? x3 := req (as_uint u32_max) "tokens_out" m in
    some? x4 := req (as_uint u64_max) "duration_ms" m in
    some? x5 := req device_of "device" m in
    some? x6 := opt as_str "response" m in
    Some (InferenceComplete x0 x1 x2 x3 x4 x5 x6) else
  if String.eqb kind "inference_failed" then
    check no_dup_fields ["request_id"; "model"; "reason"] m in
    some? x0 := req as_str "request_id" m in
    some? x1 := req model_id_of "model" m in
    some? x2 := req as_str "reason" m in
    Some (InferenceFailed x0 x1 x2) else
  if String.eqb kind "inference_receipt" then
    check no_dup_fields ["receipt"] m in
    some? x0 := req receipt_of "receipt" m in
    Some (InferenceReceiptEv x0) else
  if String.eqb kind "rag_document_ingested" then
    check no_dup_fields ["collection"; "source"; "chunks"] m in
    some? x0 := req as_str "collection" m in
    some? x1 := req as_str "source" m in
    some? x2 := req (as_uint u64_max) "chunks" m in
    Some (RagDocumentIngested x0 x1 x2) else
  if String.eqb kind "rag_retrieval" then
    check no_dup_fields ["collection"; "query_sha256"; "hits"] m in
    some? x0 := req as_str "collection" m in
    some? x1 := req as_str "query_sha256" m in
    some? x2 := req (as_uint u64_max) "hits" m in
    Some (RagRetrieval x0 x1 x2) else
  if String.eqb kind "isolation_probe" then
    check no_dup_fields ["isolated"; "probe_results"; "iptables_hash"] m in
    some? x0 := req as_bool "isolated" m in
    some? x1 := req probes_of "probe_results" m in
    some? x2 := req as_str "iptables_hash" m in
    Some (IsolationProbe x0 x1 x2) else
  if String.eqb kind "workspace_shredded" then
    check no_dup_fields ["slug"; "actor"; "statement"] m in
    some? x0 := req as_str "slug" m in
    some? x1 := req as_str "actor" m in
    some? x2 := req as_str "statement" m in
    Some (WorkspaceShredded x0 x1 x2) else
  if String.eqb kind "config_reloaded" then
    check no_dup_fields ["path"] m in
    some? x0 := req as_str "path" m in
    Some (ConfigReloaded x0) else
  if String.eqb kind "audit_verified" then
    check no_dup_fields ["entries"; "ok"] m in
    some? x0 := req (as_uint u64_max) "entries" m in
    some? x1 := req as_bool "ok" m in
    Some (AuditVerified x0 x1) else
  if String.eqb kind "binary_attested" then
    check no_dup_fields ["binary_sha256"; "binary_path"; "tpm_available"] m in
    some? x0 := req as_str "binary_sha256" m in
    some? x1 := req as_str "binary_path" m in
    some? x2 := req as_bool "tpm_available" m in
    Some (BinaryAttested x0 x1 x2) else
  if String.eqb kind "model_baseline_checked" then
    check no_dup_fields ["model_id"; "model_sha256"; "vectors_run"; "vectors_passed";
        "vectors_failed"; "baseline_signer"] m in
    some? x0 := req as_str "model_id" m in
    some? x1 := req as_str "model_sha256" m in
    some? x2 := req (as_uint u64_max) "vectors_run" m in
    some? x3 := req (as_uint u64_max) "vectors_passed" m in
    some? x4 := req (as_uint u64_max) "vectors_failed" m in
    some? x5 := req as_str "baseline_signer" m in
    Some (ModelBaselineChecked x0 x1 x2 x3 x4 x5) else
  if String.eqb kind "model_drift_detected" then
    check no_dup_fields ["model_id"; "model_sha256"; "vectors_failed"; "action_taken"] m in
    some? x0 := req as_str "model_id" m in
    some? x1 := req as_str "model_sha256" m in
    some? x2 := req (as_uint u64_max) "vectors_failed" m in
    some? x3 := req as_str "action_taken" m in
    Some (ModelDriftDetected x0 x1 x2 x3) else
  if String.eqb kind "model_approval_granted" then
    check no_dup_fields ["model_id"; "model_sha256"; "approved_by"; "token_id";
        "signer_pubkey"] m in
    some? x0 := req as_str "model_id" m in
    some? x1 := req as_str "model_sha256" m in
    some? x2 := req as_str "approved_by" m in
    some? x3 := req as_str "token_id" m in
    some? x4 := req as_str "signer_pubkey" m in
    Some (ModelApprovalGranted x0 x1 x2 x3 x4) else
  if String.eqb kind "model_approval_revoked" then
    check no_dup_fields ["model_id"; "model_sha256"; "revoked_by"; "token_id"] m in
    some? x0 := req as_str "model_id" m in
    some? x1 := req as_str "model_sha256" m in
    some? x2 := req as_str "revoked_by" m in
    some? x3 := req as_str "token_id" m in
    Some (ModelApprovalRevoked x0 x1 x2 x3) else
  if String.eqb kind "model_load_blocked" then
    check no_dup_fields ["model_id"; "model_sha256"; "reason"] m in
    some? x0 := req as_str "model_id" m in
    some? x1 := req as_str "model_sha256" m in
    some? x2 := req as_str "reason" m in
    Some (ModelLoadBlocked x0 x1 x2) else
  if String.eqb kind "data_classification_violation" then
    check no_dup_fields ["workspace"; "collection"; "required_label";
        "workspace_clearance"; "blocked"] m in
    some? x0 := req as_str "workspace" m in
    some? x1 := req as_str "collection" m in
    some? x2 := req as_str "required_label" m in
    some? x3 := req as_str "workspace_clearance" m in
    some? x4 := req as_bool "blocked" m in
    Some (DataClassificationViolation x0 x1 x2 x3 x4) else
  if String.eqb kind "data_label_assigned" then
    check no_dup_fields ["collection"; "label"; "assigned_by"] m in
    some? x0 := req as_str "collection" m in
    some? x1 := req as_str "label" m in
    some? x2 := req as_str "assigned_by" m in
    Some (DataLabelAssigned x0 x1 x2) else
  if String.eqb kind "dlp_sync_completed" then
    check no_dup_fields ["provider"; "labels_imported"] m in
    some? x0 := req as_str "provider" m in
    some? x1 := req (as_uint u64_max) "labels_imported" m in
    Some (DlpSyncCompleted x0 x1) else
  if String.eqb kind "tpm_key_sealed" then
    check no_dup_fields ["purpose"; "backend"; "pcr_list"] m in
    some? x0 := req as_str "purpose" m in
    some? x1 := req as_str "backend" m in
    some? x2 := opt as_str "pcr_list" m in
    Some (TpmKeySealed x0 x1 x2) else
  if String.eqb kind "tpm_unseal_failed" then
    check no_dup_fields ["purpose"; "reason"; "fail_count"] m in
    some? x0 := req as_str "purpose" m in
    some? x1 := req as_str "reason" m in
    some? x2 := req (as_uint u32_max) "fail_count" m in
    Some (TpmUnsealFailed x0 x1 x2) else
  if String.eqb kind "tpm_key_rotated" then
    check no_dup_fields ["purpose"; "reason"; "new_backend"; "new_pcr_list"] m in
    some? x0 := req as_str "purpose" m in
    some? x1 := req as_str "reason" m in
    some? x2 := req as_str "new_backend" m in
    some? x3 := opt as_str "new_pcr_list" m in
    Some (TpmKeyRotated x0 x1 x2 x3) else
  if String.eqb kind "incident_declared" then
    check no_dup_fields ["incident_id"; "declared_by"; "reason"; "sessions_terminated"] m in
    some? x0 := req as_str "incident_id" m in
    some? x1 := req as_str "declared_by" m in
    some? x2 := req as_str "reason" m in
    some? x3 := req (as_uint u32_max) "sessions_terminated" m in
    Some (IncidentDeclared x0 x1 x2 x3) else
  if String.eqb kind "audit_frozen" then
    check no_dup_fields ["incident_id"; "frozen_by"] m in
    some? x0 := req as_str "incident_id" m in
    some? x1 := req as_str "frozen_by" m in
    Some (AuditFrozen x0 x1) else
  if String.eqb kind "audit_unfrozen" then
    check no_dup_fields ["incident_id"; "unfrozen_by"] m in
    some? x0 := req as_str "incident_id" m in
    some? x1 := req as_str "unfrozen_by" m in
    Some (AuditUnfrozen x0 x1) else
  if String.eqb kind "forensic_snapshot" then
    check no_dup_fields ["incident_id"; "snapshot_path"; "snapshot_sha256"] m in
    some? x0 := req as_str "incident_id" m in
    some? x1 := req as_str "snapshot_path" m in
    some? x2 := req as_str "snapshot_sha256" m in
    Some (ForensicSnapshot x0 x1 x2) else
  if String.eqb kind "break_glass_used" then
    check no_dup_fields ["cred_id"; "used_by"; "purpose"] m in
    some? x0 := req as_str "cred_id" m in
    some? x1 := req as_str "used_by" m in
    some? x2 := req as_str "purpose" m in
    Some (BreakGlassUsed x0 x1 x2) else
  if String.eqb kind "incident_phase_changed" then
    check no_dup_fields ["incident_id"; "old_phase"; "new_phase"; "changed_by"; "note"] m in
    some? x0 := req as_str "incident_id" m in
    some? x1 := req as_str "old_phase" m in
    some? x2 := req as_str "new_phase" m in
    some? x3 := req as_str "changed_by" m in
    some? x4 := opt as_str "note" m in
    Some (IncidentPhaseChanged x0 x1 x2 x3 x4) else
  if String.eqb kind "incident_resolved" then
    check no_dup_fields ["incident_id"; "resolved_by"; "summary"] m in
    some? x0 := req as_str "incident_id" m in
    some? x1 := req as_str "resolved_by" m in
    some? x2 := req as_str "summary" m in
    Some (IncidentResolved x0 x1 x2) else
  if String.eqb kind "legal_hold_placed" then
    check no_dup_fields ["hold_id"; "placed_by"; "seq_from"; "seq_to"; "reason";
        "tpm_sealed"] m in
    some? x0 := req as_str "hold_id" m in
    some? x1 := req as_str "placed_by" m in
    some? x2 := req (as_uint u64_max) "seq_from" m in
    some? x3 := req (as_uint u64_max) "seq_to" m in
    some? x4 := req as_str "reason" m in
    some? x5 := req as_bool "tpm_sealed" m in
    Some (LegalHoldPlaced x0 x1 x2 x3 x4 x5) else
  if String.eqb kind "legal_hold_released" then
    check no_dup_fields ["hold_id"; "released_by"] m in
    some? x0 := req as_str "hold_id" m in
    some? x1 := req as_str "released_by" m in
    Some (LegalHoldReleased x0 x1) else
  if String.eqb kind "legal_hold_key_generated" then
    check no_dup_fields ["pubkey_hex"; "generated_by"; "tpm_sealed"] m in
    some? x0 := req as_str "pubkey_hex" m in
    some? x1 := req as_str "generated_by" m in
    some? x2 := req as_bool "tpm_sealed" m in
    Some (LegalHoldKeyGenerated x0 x1 x2) else
  if String.eqb kind "tee_attested" then
    check no_dup_fields ["tee_type"; "report_hash"; "binary_sha256"] m in
    some? x0 := req as_str "tee_type" m in
    some? x1 := req as_str "report_hash" m in
    some? x2 := req as_str "binary_sha256" m in
    Some (TeeAttested x0 x1 x2) else
  None.

Lemma model_id_round m : model_id_of (model_id_json m) = Some m.
Proof. by destruct m. Qed.

Lemma source_round s : source_of (source_json s) = Some s.
Proof. by destruct s. Qed.

Lemma probe_round p : probe_wf p = true -> probe_of (probe_json p) = Some p.
Proof.
  intros Hp. destruct p as [h p r]. unfold probe_of, req. cbn -[as_uint].
  by rewrite as_uint_ok.
Qed.

Lemma probes_round l :
  forallb probe_wf l = true -> probes_of (JArr (probe_json <$> l)) = Some l.
Proof.
  unfold probes_of. cbn [as_arr]. induction l as [|p l IH]; [done|].
  cbn [forallb]. intros [Hp Hl]%andb_true_iff.
  rewrite !fmap_cons. cbn [all_some]. by rewrite probe_round, IH.
Qed.

Lemma source_ref_round s : source_ref_of (source_ref_json s) = Some s.
Proof. by destruct s. Qed.

Lemma params_round d : params_wf d = true -> params_of (params_json d) = Some d.
Proof.
  destruct d as [a b c e f]. unfold params_wf. cbn. intros Hd. bool_prop.
  unfold params_of, params_json, opt, req.
  destruct a, b, c, e; cbn -[as_uint uint_ok] in *;
    by rewrite ?as_uint_ok by done.
Qed.

Lemma receipt_round r : receipt_wf r = true -> receipt_of (receipt_json r) = Some r.
Proof.
  destruct r as [v id rid t mid msha mq ish osh dp ti to key pcr en src gr sg].
  unfold receipt_wf. cbn -[params_wf uint_ok]. intros Hr. bool_prop.
  assert (sources_of (JArr (source_ref_json <$> src)) = Some src) as Hs.
  { unfold sources_of. cbn [as_arr]. apply all_some_map, source_ref_round. }
  assert (env_of (env_json en) = Some en) as He.
  { destruct en as [a b c]. unfold env_of, dflt. cbn -[as_uint]. by rewrite as_uint_ok. }
  unfold receipt_of, receipt_json, req, dflt, opt, ts_of.
  destruct mq, pcr, sg, src as [|sr0 src]; cbn -[as_uint uint_ok params_of params_json sources_of env_of
    env_json source_ref_json fmap];
    rewrite ?ts_parse_print; cbn -[uint_ok params_of params_json sources_of env_of
    env_json source_ref_json fmap];
    repeat match goal with H : uint_ok _ _ = true |- _ => rewrite H; clear H end;
    rewrite ?params_round by done;
    cbn -[uint_ok params_of params_json sources_of env_of env_json source_ref_json fmap];
    rewrite ?He; try done; rewrite fmap_cons in Hs; by rewrite Hs.
Qed.

(** Rewrites the readers of the compound fields, then the integer bounds. *)
Ltac read_fields :=
  repeat match goal with
  | H : uint_ok _ _ = true |- _ => rewrite H; clear H
  end;
  rewrite ?receipt_round, ?probes_round by done.

Lemma event_round e : event_wf e = true -> event_of (event_members e) = Some e.
Proof.
  intros He. unfold event_of, event_members, event_fields, req, opt, jskip.
  destruct e;
    repeat match goal with
    | x : option string |- _ => destruct x
    | x : InferenceDevice |- _ => destruct x
    | x : IsolationMode |- _ => destruct x
    end;
    cbn -[uint_ok receipt_of receipt_json receipt_wf probes_of probe_json probe_wf
          model_id_of model_id_json source_of source_json fmap] in *;
    bool_prop; rewrite ?model_id_round, ?source_round; read_fields; done.
Qed.
End Json.
End Events.
