(* ===== verification/Entry.v ===== *)
(** * Audit entries

    Models the [AuditEntry] of [maranode-common/src/events.rs]: the entry that
    flattens its event, the line that is written, the reader with its
    duplicate-field errors, and the key-sorted body the HMAC covers. *)

From Stdlib Require Import ZArith Lia Ascii String.
From S2P Require Import Prelude Json Crypto Common Events.
Import Models Receipt Events.
Open Scope string_scope.
Open Scope list_scope.
Open Scope Z_scope.

Module Entry.

Record AuditEntry := {
  ts : Z;
  seq : Z;
  actor : string;
  event : AuditEvent;
  prev_hmac : string;
  hmac : string;
}.

(** The fields of the entry itself: their names shadow fields of the flattened
    event. *)
Definition outer_fields : list string := ["ts"; "seq"; "actor"; "prev_hmac"; "hmac"].

(** Events one of whose own fields has the name of a field of the entry. *)
Definition collides (e : AuditEvent) : bool :=
  match e with WorkspaceShredded _ _ _ => true | _ => false end.

Section Entry.
Context `{TimeText}.

(** The line [append] writes: the members of the event stand in the object of
    the entry, where [#[serde(flatten)]] puts them. *)
Definition entry_members (e : AuditEntry) : list (string * json) :=
  [("ts", JStr (ts_print (ts e))); ("seq", JInt (seq e)); ("actor", JStr (actor e))]
  ++ event_members (event e)
  ++ [("prev_hmac", JStr (prev_hmac e)); ("hmac", JStr (hmac e))].

Definition entry_json (e : AuditEntry) : json := JObj (entry_members e).

Definition entry_of (j : json) : option AuditEntry :=
  some? m := as_obj j in
  check no_dup_fields outer_fields m in
  some? x0 := req ts_of "ts" m in
  some? x1 := req (as_uint u64_max) "seq" m in
  some? x2 := req as_str "actor" m in
  some? x3 := req as_str "prev_hmac" m in
  some? x4 := req as_str "hmac" m in
  some? ev := event_of (without outer_fields m) in
  Some {| ts := x0; seq := x1; actor := x2; event := ev; prev_hmac := x3; hmac := x4 |}.

(** The authenticated body: [json!] makes a key-sorted map, the event a nested
    value. *)
Definition body_json (t sq : Z) (act prev : string) (ev : AuditEvent) : json :=
  to_value (JObj [("ts", JStr (ts_print t)); ("seq", JInt sq); ("actor", JStr act);
                  ("prev_hmac", JStr prev); ("event", JObj (event_members ev))]).

Definition entry_wf (e : AuditEntry) : bool :=
  uint_ok u64_max (seq e) && event_wf (event e).

(** No event uses the name of a field of the entry, except [WorkspaceShredded],
    whose [actor] collides. *)
Lemma event_members_disjoint e :
  collides e = false ->
  forallb (fun kv => negb (existsb (String.eqb kv.1) outer_fields)) (event_members e) = true.
Proof.
  destruct e; intros Hc; try discriminate Hc;
    repeat match goal with x : option string |- _ => destruct x end; reflexivity.
Qed.

Lemma without_disjoint known m :
  forallb (fun kv : string * json => negb (existsb (String.eqb kv.1) known)) m = true ->
  without known m = m.
Proof.
  induction m as [|kv m IH]; [done|]. cbn [forallb]. intros [Hk Hm]%andb_true_iff.
  unfold without in *. cbn [List.filter]. rewrite Hk. by rewrite IH.
Qed.

Lemma jcount_app k a b : jcount k (a ++ b) = (jcount k a + jcount k b)%nat.
Proof. induction a as [|[k' v] a IH]; [done|]. simpl. rewrite IH. lia. Qed.

Lemma jcount_disjoint k known m :
  In k known ->
  forallb (fun kv : string * json => negb (existsb (String.eqb kv.1) known)) m = true ->
  jcount k m = 0%nat.
Proof.
  intros Hk. induction m as [|[k' v] m IH]; [done|].
  cbn [forallb fst]. intros [Hkv Hm]%andb_true_iff. cbn [jcount]. rewrite IH by done.
  destruct (String.eqb_spec k k') as [<-|]; [|done]. exfalso.
  apply negb_true_iff in Hkv. assert (existsb (String.eqb k) known = true); [|congruence].
  apply existsb_exists. exists k. split; [done|]. apply String.eqb_refl.
Qed.

Lemma jget_app_none k a b : jcount k a = 0%nat -> jget k (a ++ b) = jget k b.
Proof.
  induction a as [|[k' v] a IH]; [done|]. simpl. destruct (String.eqb k k'); [lia|done].
Qed.

Lemma without_app known a b : without known (a ++ b) = without known a ++ without known b.
Proof. unfold without. by rewrite List.filter_app. Qed.

Lemma event_members_count e k :
  collides e = false -> In k outer_fields -> jcount k (event_members e) = 0%nat.
Proof. intros Hc Hk. eapply jcount_disjoint; [done|by apply event_members_disjoint]. Qed.

Lemma entry_members_without e :
  collides (event e) = false ->
  without outer_fields (entry_members e) = event_members (event e) /\
  no_dup_fields outer_fields (entry_members e) = true.
Proof.
  intros Hc. unfold entry_members. split.
  - rewrite !without_app, (without_disjoint _ (event_members _))
      by (by apply event_members_disjoint).
    unfold without. cbn. by rewrite app_nil_r.
  - unfold no_dup_fields, outer_fields. cbn [forallb].
    rewrite !jcount_app, !event_members_count by (done || (simpl; tauto)). reflexivity.
Qed.

(** Reading back a written entry. *)
Lemma entry_round e :
  entry_wf e = true -> collides (event e) = false -> entry_of (entry_json e) = Some e.
Proof.
  intros [Hs He]%andb_true_iff Hc. unfold entry_of, entry_json. cbn [as_obj].
  destruct (entry_members_without e Hc) as [-> ->]. rewrite event_round by done.
  unfold req, ts_of, entry_members.
  rewrite (jget_app_none "prev_hmac"), (jget_app_none "prev_hmac"),
    (jget_app_none "hmac"), (jget_app_none "hmac")
    by (reflexivity || (apply event_members_count; [done|simpl; tauto])).
  cbn [app jget String.eqb Ascii.eqb Bool.eqb as_str].
  rewrite ts_parse_print, as_uint_ok by done. by destruct e.
Qed.

Lemma params_json_wf d : params_wf d = true -> json_wf (params_json d) = true.
Proof.
  destruct d as [a b c d e]. unfold params_wf, params_json.
  cbn -[uint_ok f32_finite json_wf]. intros Hd. bool_prop.
  rewrite json_wf_obj. wf_members; apply json_wf_opt; intros x ->;
    try eassumption; (eapply uint_ok_wf; [|eassumption]); unfold u32_max, u64_max; lia.
Qed.

Lemma receipt_json_wf r : receipt_wf r = true -> json_wf (receipt_json r) = true.
Proof.
  unfold receipt_wf. intros Hr. bool_prop.
  assert (json_wf (JArr (source_ref_json <$> sources r)) = true) as Hs.
  { apply json_wf_arr. intros s Hs. cbn.
    match goal with H : forallb _ (sources r) = true |- _ =>
      rewrite (proj1 (forallb_forall _ _) H s Hs) end. done. }
  unfold receipt_json. rewrite json_wf_obj.
  wf_members; [by apply params_json_wf| |].
  - unfold env_json. rewrite json_wf_obj. wf_members.
  - destruct (sources r) eqn:E; [done|]. wf_members.
Qed.

Lemma event_fields_wf e :
  event_wf e = true -> forallb (fun kv => json_wf kv.2) (event_fields e) = true.
Proof.
  destruct e; cbn -[uint_ok json_wf forallb app]; intros He; bool_prop;
    wf_members; try done;
    try (by apply receipt_json_wf); try (match goal with x : ImportSource |- _ => by destruct x end);
    try (apply json_wf_opt; done).
  apply json_wf_arr. intros p Hp. cbn.
  pose proof (proj1 (forallb_forall _ _) He p Hp) as Hb. unfold probe_wf, uint_ok in Hb.
  unfold u64_max. bool_prop. lia.
Qed.

Lemma entry_json_wf e : entry_wf e = true -> json_wf (entry_json e) = true.
Proof.
  intros [Hs He]%andb_true_iff. unfold entry_json, entry_members, event_members.
  rewrite json_wf_obj. wf_members. by apply event_fields_wf.
Qed.

Lemma body_json_wf t q a p ev :
  uint_ok u64_max q = true -> event_wf ev = true -> json_wf (body_json t q a p ev) = true.
Proof.
  intros Hq He. apply to_value_wf. rewrite json_wf_obj.
  unfold event_members. wf_members. by apply event_fields_wf.
Qed.

(** The authenticated body determines the sequence number. *)
Lemma body_json_seq t q a p ev : jindex "seq" (body_json t q a p ev) = JInt q.
Proof. reflexivity. Qed.

(** A shredding entry does not read back: its key ["actor"] comes twice. *)
Lemma entry_shredded_unreadable e :
  collides (event e) = true -> entry_of (entry_json e) = None.
Proof. destruct e as [t q a ev p h]. by destruct ev. Qed.
End Entry.
End Entry.
