(* ===== verification/Fs.v ===== *)
(** * A file system with names and inodes

    The audit log keeps an open file handle while other operations rename and
    truncate the file by name, so names and inodes are separate: a handle is an
    inode number, [rename] rebinds a name and leaves open handles where they are. *)

From Stdlib Require Import ZArith Lia Ascii String.
From S2P Require Import Prelude.

Record inode := { bytes : string; imode : Z }.

Record fs := {
  inodes : gmap N inode;
  names : gmap string N;
  next : N;
}.

Inductive io_err := NotFound | InvalidUtf8 | AlreadyExists | WriteFailed.

#[export] Instance io_err_eq_dec : EqDecision io_err.
Proof. solve_decision. Defined.

Definition fs_empty : fs := {| inodes := empty; names := empty; next := 0 |}.

(** Every name is bound to an existing inode, inode numbers stay below [next], and
    no two names share an inode (the program makes no hard links). *)
Definition fs_wf (f : fs) : Prop :=
  (forall p i, names f !! p = Some i -> is_Some (inodes f !! i)) /\
  (forall i n, inodes f !! i = Some n -> (i < next f)%N) /\
  (forall p q i, names f !! p = Some i -> names f !! q = Some i -> p = q).

Definition exists_ (f : fs) (p : string) : bool := bool_decide (is_Some (names f !! p)).

Definition lookup_path (f : fs) (p : string) : option inode := names f !! p ≫= fun i => inodes f !! i.

(** [std::fs::read] and [std::fs::read_to_string]. *)
Definition read (f : fs) (p : string) : result io_err string :=
  match lookup_path f p with Some n => Ok (bytes n) | None => Err NotFound end.

Definition read_to_string (f : fs) (p : string) : result io_err string :=
  match lookup_path f p with
  | Some n => if utf8_ok (bytes n) then Ok (bytes n) else Err InvalidUtf8
  | None => Err NotFound
  end.

Definition create (f : fs) (p : string) (m : Z) : fs * N :=
  ({| inodes := <[next f := {| bytes := EmptyString; imode := m |}]> (inodes f);
      names := <[p := next f]> (names f);
      next := next f + 1 |}, next f).

(** [OpenOptions] with [create(true).append(true)]. *)
Definition open_append (f : fs) (p : string) (m : Z) : fs * N :=
  match names f !! p with Some i => (f, i) | None => create f p m end.

Definition set_bytes (f : fs) (i : N) (b : string) : fs :=
  match inodes f !! i with
  | Some n => {| inodes := <[i := {| bytes := b; imode := imode n |}]> (inodes f);
                 names := names f; next := next f |}
  | None => f
  end.

(** [OpenOptions] with [write(true).create(true).truncate(true)]. *)
Definition open_trunc (f : fs) (p : string) (m : Z) : fs * N :=
  match names f !! p with Some i => (set_bytes f i EmptyString, i) | None => create f p m end.

Definition fd_bytes (f : fs) (i : N) : string :=
  match inodes f !! i with Some n => bytes n | None => EmptyString end.

(** [write_all] at the end of the file behind a handle. *)
Definition write_fd (f : fs) (i : N) (b : string) : fs := set_bytes f i (fd_bytes f i +:+ b).

Definition fd_len (f : fs) (i : N) : Z := Z.of_nat (String.length (fd_bytes f i)).

Definition write_file (f : fs) (p : string) (m : Z) (b : string) : fs :=
  let (f, i) := open_trunc f p m in write_fd f i b.

(** [std::fs::write]: a new file gets the default mode, before the umask. *)
Definition std_write (f : fs) (p b : string) : fs := write_file f p 438 b.

(** [std::fs::rename]: the target name is rebound, the old target inode stays
    reachable through open handles. *)
Definition rename (f : fs) (a b : string) : result io_err fs :=
  match names f !! a with
  | Some i => Ok {| inodes := inodes f; names := <[b := i]> (delete a (names f)); next := next f |}
  | None => Err NotFound
  end.

Definition remove_file (f : fs) (p : string) : fs :=
  {| inodes := inodes f; names := delete p (names f); next := next f |}.

(** ** Lemmas *)

(** The content by name: what a file system is to code that opens files by name. *)
Definition content_at (f : fs) (p : string) : option string := bytes <$> lookup_path f p.

Lemma fs_wf_empty : fs_wf fs_empty.
Proof. split; [|split]; cbn; intros *; rewrite lookup_empty; [by intros ?|done|done]. Qed.

Lemma create_wf f p m : fs_wf f -> fs_wf (create f p m).1.
Proof.
  intros (Hn & Hi & Hj). split; [|split]; cbn.
  - intros q i Hq. apply lookup_insert_is_Some.
    destruct (decide (next f = i)) as [He|Hne]; [by left|right; split; [done|]].
    apply lookup_insert_Some in Hq as [[_ He]|[_ Hq]]; [done|eauto].
  - intros i n [[<- <-]|[_ H]]%lookup_insert_Some; [lia|]. specialize (Hi _ _ H). lia.
  - assert (forall q, names f !! q <> Some (next f)) as Hfresh.
    { intros q Hq. destruct (Hn _ _ Hq) as [n Hn']. specialize (Hi _ _ Hn'). lia. }
    intros q r i [[<- <-]|[? Hq]]%lookup_insert_Some [[<- ?]|[? Hr]]%lookup_insert_Some;
      subst; try done; [by apply Hfresh in Hr|by apply Hfresh in Hq|eauto].
Qed.

Lemma set_bytes_names f i b : names (set_bytes f i b) = names f.
Proof. unfold set_bytes. by destruct (inodes f !! i). Qed.

Lemma set_bytes_wf f i b : fs_wf f -> fs_wf (set_bytes f i b).
Proof.
  intros (Hn & Hi & Hj). unfold set_bytes. destruct (inodes f !! i) as [n|] eqn:E; [|done].
  split; [|split]; cbn.
  - intros q j Hq. apply lookup_insert_is_Some.
    destruct (decide (i = j)); [by left|right; split; eauto].
  - intros j k [[<- <-]|[_ H]]%lookup_insert_Some; eauto.
  - done.
Qed.

Lemma open_append_wf f p m : fs_wf f -> fs_wf (open_append f p m).1.
Proof. unfold open_append. destruct (names f !! p); [done|apply create_wf]. Qed.

Lemma open_trunc_wf f p m : fs_wf f -> fs_wf (open_trunc f p m).1.
Proof. unfold open_trunc. destruct (names f !! p); [apply set_bytes_wf|apply create_wf]. Qed.

Lemma write_fd_wf f i b : fs_wf f -> fs_wf (write_fd f i b).
Proof. apply set_bytes_wf. Qed.

Lemma write_file_wf f p m b : fs_wf f -> fs_wf (write_file f p m b).
Proof.
  intros Hf. unfold write_file. pose proof (open_trunc_wf f p m Hf) as Hw.
  destruct (open_trunc f p m). by apply write_fd_wf.
Qed.

Lemma rename_wf f a b f' : fs_wf f -> rename f a b = Ok f' -> fs_wf f'.
Proof.
  intros (Hn & Hi & Hj) Hr. unfold rename in Hr. destruct (names f !! a) as [i|] eqn:Ha; [|done].
  injection Hr as <-. split; [|split]; cbn; [|done|].
  - intros q j [[<- <-]|[_ [_ H]%lookup_delete_Some]]%lookup_insert_Some; eauto.
  - intros q r j [[<- <-]|[? [? Hq]%lookup_delete_Some]]%lookup_insert_Some
      [[<- ?]|[? [? Hr]%lookup_delete_Some]]%lookup_insert_Some; subst; try done; eauto.
    + by destruct (Hj _ _ _ Ha Hr).
    + by destruct (Hj _ _ _ Ha Hq).
Qed.

Lemma remove_file_wf f p : fs_wf f -> fs_wf (remove_file f p).
Proof.
  intros (Hn & Hi & Hj). split; [|split]; cbn; [|done|].
  - intros q j [_ H]%lookup_delete_Some. eauto.
  - intros q r j [_ Hq]%lookup_delete_Some [_ Hr]%lookup_delete_Some. eauto.
Qed.

Lemma set_bytes_lookup f i b j :
  inodes (set_bytes f i b) !! j =
  if decide (i = j) then (fun n => {| bytes := b; imode := imode n |}) <$> inodes f !! j
  else inodes f !! j.
Proof.
  unfold set_bytes. destruct (inodes f !! i) as [n|] eqn:E; cbn; destruct (decide (i = j)) as [<-|];
    rewrite ?lookup_insert_eq, ?lookup_insert_ne by done; rewrite ?E; done.
Qed.

Lemma content_at_set f i b q :
  fs_wf f -> is_Some (inodes f !! i) ->
  content_at (set_bytes f i b) q =
  if decide (names f !! q = Some i) then Some b else content_at f q.
Proof.
  intros Hf [n Hn]. unfold content_at, lookup_path. rewrite set_bytes_names.
  destruct (names f !! q) as [j|] eqn:Hq; cbn [mbind option_bind].
  - rewrite set_bytes_lookup. repeat case_decide; simplify_eq; [by rewrite Hn|done].
  - case_decide; done.
Qed.

Lemma content_at_create f p m q :
  fs_wf f ->
  content_at (create f p m).1 q = if decide (p = q) then Some EmptyString else content_at f q.
Proof.
  intros (Hn & Hi & Hj). unfold content_at, lookup_path. cbn.
  destruct (decide (p = q)) as [<-|Hne].
  - rewrite lookup_insert_eq. simpl. by rewrite lookup_insert_eq.
  - rewrite lookup_insert_ne by done. destruct (names f !! q) as [j|] eqn:Hq; simpl; [|done].
    rewrite lookup_insert_ne; [done|]. intros <-.
    destruct (Hn _ _ Hq) as [n Hn']. specialize (Hi _ _ Hn'). lia.
Qed.

(** Truncating and opening: the name is bound to the returned handle. *)
Lemma open_trunc_spec f p m :
  fs_wf f ->
  names (open_trunc f p m).1 !! p = Some (open_trunc f p m).2 /\
  is_Some (inodes (open_trunc f p m).1 !! (open_trunc f p m).2) /\
  fd_bytes (open_trunc f p m).1 (open_trunc f p m).2 = EmptyString /\
  (forall q, content_at (open_trunc f p m).1 q =
             if decide (p = q) then Some EmptyString else content_at f q).
Proof.
  intros Hf. pose proof Hf as (Hn & Hi & Hj). unfold open_trunc.
  destruct (names f !! p) as [i|] eqn:Hp; cbn [fst snd].
  - destruct (Hn _ _ Hp) as [n Hin]. rewrite set_bytes_names. split; [done|].
    unfold fd_bytes. rewrite set_bytes_lookup, decide_True, Hin by done. simpl.
    split; [eauto|]. split; [done|].
    intros q. rewrite content_at_set by eauto.
    repeat case_decide; subst; try done. by destruct H0; eapply Hj.
  - split; [apply lookup_insert_eq|]. cbn. unfold fd_bytes. cbn. rewrite lookup_insert_eq.
    split; [eauto|]. split; [done|]. intros q. by apply content_at_create.
Qed.

Lemma write_fd_exists f i b j : is_Some (inodes f !! j) -> is_Some (inodes (write_fd f i b) !! j).
Proof.
  intros Hj. unfold write_fd. rewrite set_bytes_lookup. destruct (decide _); [|done].
  by apply fmap_is_Some.
Qed.

Lemma write_fd_names f i b : names (write_fd f i b) = names f.
Proof. apply set_bytes_names. Qed.

Lemma write_fd_same f i b :
  is_Some (inodes f !! i) -> fd_bytes (write_fd f i b) i = fd_bytes f i +:+ b.
Proof.
  intros [n Hn]. unfold write_fd. unfold fd_bytes at 1. rewrite set_bytes_lookup, decide_True by done.
  by rewrite Hn.
Qed.

Lemma content_at_write_fd f i b q :
  fs_wf f -> is_Some (inodes f !! i) ->
  content_at (write_fd f i b) q =
  if decide (names f !! q = Some i) then Some (fd_bytes f i +:+ b) else content_at f q.
Proof. apply content_at_set. Qed.

(** A whole file written by name. *)
Lemma content_at_write_file f p m b q :
  fs_wf f ->
  content_at (write_file f p m b) q = if decide (p = q) then Some b else content_at f q.
Proof.
  intros Hf. pose proof (open_trunc_spec f p m Hf) as (Hp & Hi & He & Hc).
  pose proof (open_trunc_wf f p m Hf) as Hw. unfold write_file.
  destruct (open_trunc f p m) as [f1 i]. cbn [fst snd] in *.
  rewrite content_at_write_fd, He, Hc by done.
  destruct (decide (p = q)) as [<-|Hne]; destruct (decide _) as [E|]; try done.
  destruct Hw as (_ & _ & Hj). by destruct (Hne (Hj _ _ _ Hp E)).
Qed.

Lemma content_at_rename f a b f' q :
  fs_wf f -> rename f a b = Ok f' -> a <> b ->
  content_at f' q =
  if decide (b = q) then content_at f a else if decide (a = q) then None else content_at f q.
Proof.
  intros Hf Hr Hab. unfold rename in Hr. destruct (names f !! a) as [i|] eqn:Ha; [|done].
  injection Hr as <-. unfold content_at, lookup_path. cbn.
  destruct (decide (b = q)) as [<-|Hb]; [by rewrite lookup_insert_eq, Ha|].
  rewrite lookup_insert_ne by done.
  destruct (decide (a = q)) as [<-|Hne]; [by rewrite lookup_delete_eq|].
  by rewrite lookup_delete_ne.
Qed.

Lemma content_at_remove f p q :
  content_at (remove_file f p) q = if decide (p = q) then None else content_at f q.
Proof.
  unfold content_at, lookup_path. cbn.
  destruct (decide (p = q)) as [<-|Hne]; [by rewrite lookup_delete_eq|by rewrite lookup_delete_ne].
Qed.

Lemma read_to_string_content f p :
  read_to_string f p =
  match content_at f p with
  | Some b => if utf8_ok b then Ok b else Err InvalidUtf8
  | None => Err NotFound
  end.
Proof. unfold read_to_string, content_at. by destruct (lookup_path f p). Qed.

Lemma read_content f p :
  read f p = match content_at f p with Some b => Ok b | None => Err NotFound end.
Proof. unfold read, content_at. by destruct (lookup_path f p). Qed.

Lemma exists_content f p : fs_wf f -> exists_ f p = true <-> is_Some (content_at f p).
Proof.
  intros (Hn & _ & _). unfold exists_, content_at, lookup_path. rewrite bool_decide_eq_true.
  rewrite fmap_is_Some. split.
  - intros [i Hi]. rewrite Hi. simpl. eauto.
  - intros [n Hb]. destruct (names f !! p); [eauto|done].
Qed.

Lemma exists_content_false f p : fs_wf f -> exists_ f p = false <-> content_at f p = None.
Proof.
  intros Hf. rewrite <- not_true_iff_false, exists_content by done.
  rewrite <- eq_None_not_Some. done.
Qed.

Lemma content_at_fd f p i :
  names f !! p = Some i -> is_Some (inodes f !! i) -> content_at f p = Some (fd_bytes f i).
Proof.
  intros Hp [n Hn]. unfold content_at, lookup_path, fd_bytes. rewrite Hp. simpl. by rewrite Hn.
Qed.

Lemma std_write_wf f p b : fs_wf f -> fs_wf (std_write f p b).
Proof. apply write_file_wf. Qed.

Lemma content_at_std_write f p b q :
  fs_wf f -> content_at (std_write f p b) q = if decide (p = q) then Some b else content_at f q.
Proof. apply content_at_write_file. Qed.

Lemma read_std_write f p b : fs_wf f -> read (std_write f p b) p = Ok b.
Proof. intros Hf. by rewrite read_content, content_at_std_write, decide_True. Qed.

Lemma read_std_write_ne f p b q : fs_wf f -> p <> q -> read (std_write f p b) q = read f q.
Proof. intros Hf Hn. by rewrite !read_content, content_at_std_write, decide_False. Qed.

(** [std::fs::write] as a computation: it fails, or stops after some bytes. *)
Definition swrite (fault : option nat) (p b : string) : SE fs io_err unit := fun f =>
  match fault with
  | None => (std_write f p b, Ok tt)
  | Some n => (std_write f p (stake n b), Err WriteFailed)
  end.

(** A file opened with [create(true).append(true)], written and closed. *)
Definition append_file (f : fs) (p : string) (m : Z) (b : string) : fs :=
  let (f, i) := open_append f p m in write_fd f i b.

Lemma append_file_wf f p m b : fs_wf f -> fs_wf (append_file f p m b).
Proof.
  intros Hf. unfold append_file. pose proof (open_append_wf f p m Hf) as Hw.
  destruct (open_append f p m). by apply write_fd_wf.
Qed.

Lemma content_at_append_file f p m b q :
  fs_wf f ->
  content_at (append_file f p m b) q =
  if decide (p = q) then Some (default EmptyString (content_at f p) +:+ b) else content_at f q.
Proof.
  intros Hf. pose proof Hf as (Hn & Hi & Hj). unfold append_file, open_append.
  destruct (names f !! p) as [i|] eqn:Hp.
  - destruct (Hn _ _ Hp) as [n Hin]. rewrite content_at_write_fd by eauto.
    rewrite (content_at_fd f p i) by eauto. simpl.
    destruct (decide (p = q)) as [<-|Hne]; destruct (decide _) as [E|E]; try done.
    by destruct (Hne (Hj _ _ _ Hp E)).
  - pose proof (create_wf f p m Hf) as Hw. pose proof (content_at_create f p m q Hf) as Hc.
    assert (content_at f p = None) as -> by (unfold content_at, lookup_path; by rewrite Hp).
    unfold create in *. cbn [fst snd] in *.
    rewrite content_at_write_fd; [|done|cbn; rewrite lookup_insert_eq; eauto].
    rewrite Hc. unfold fd_bytes. cbn. rewrite lookup_insert_eq. simpl.
    destruct (decide (p = q)) as [<-|Hne].
    + by rewrite lookup_insert_eq, decide_True.
    + rewrite decide_False; [done|]. rewrite lookup_insert_ne by done. intros Hq.
      destruct (Hn _ _ Hq) as [n Hn']. specialize (Hi _ _ Hn'). lia.
Qed.

(** ** Names with different endings *)

Lemma list_ascii_app a b :
  list_ascii_of_string (a +:+ b) = (list_ascii_of_string a ++ list_ascii_of_string b)%list.
Proof. induction a as [|c a IH]; [done|]. simpl. by rewrite IH. Qed.

(** The characters from the end. *)
Definition ending (s : string) : list ascii := rev (list_ascii_of_string s).

Lemma ending_app a b : ending (a +:+ b) = (ending b ++ ending a)%list.
Proof. unfold ending. by rewrite list_ascii_app, rev_app_distr. Qed.

Lemma app_suffix_inj a b s : a +:+ s = b +:+ s -> a = b.
Proof.
  intros H. apply (f_equal ending) in H. rewrite !ending_app in H. apply app_inv_head in H.
  unfold ending in H. apply (f_equal (@rev ascii)) in H. rewrite !rev_involutive in H.
  apply (f_equal string_of_list_ascii) in H. by rewrite !string_of_list_ascii_of_string in H.
Qed.

(** Refutes an equation between names whose literal endings differ. *)
Ltac ending_neq :=
  let H := fresh in intros H; apply (f_equal ending) in H; rewrite ?ending_app in H;
  cbn in H; discriminate H.

(** ** Directories

    [read_dir] on a directory gives the names below it without a further slash; the
    order is unspecified, here that of the map. *)

Fixpoint drop_prefix (p s : string) : option string :=
  match p, s with
  | EmptyString, _ => Some s
  | String a p, String b s => if Ascii.eqb a b then drop_prefix p s else None
  | _, EmptyString => None
  end.

Definition child_of (d name : string) : option string :=
  match drop_prefix (d +:+ "/") name with
  | Some rest => if has_char "/" rest then None else Some rest
  | None => None
  end.

(** [Path::extension] is [json]: something stands before the last five characters. *)
Definition json_ext (name : string) : bool :=
  Nat.ltb 5 (String.length name) && String.eqb (sdrop (String.length name - 5) name) ".json".

Definition json_child (d name : string) : bool :=
  match child_of d name with Some rest => json_ext rest | None => false end.

(** The contents of the files of a directory with that extension. *)
Definition json_files (d : string) (f : fs) : list string :=
  omap (fun kv => if json_child d kv.1 then content_at f kv.1 else None) (map_to_list (names f)).

(** [Path::join]. *)
Definition path_join (d name : string) : string :=
  match name with
  | String "/" _ => name
  | _ => d +:+ "/" +:+ name
  end.

Lemma drop_prefix_some p s r : drop_prefix p s = Some r <-> s = p +:+ r.
Proof.
  revert s. induction p as [|a p IH]; intros s; simpl; [naive_solver|].
  destruct s as [|b s]; [done|]. destruct (Ascii.eqb_spec a b) as [<-|Hn].
  - rewrite IH. naive_solver.
  - split; [done|]. intros [= ? ?]. congruence.
Qed.

Lemma json_ext_app stem : stem <> EmptyString -> json_ext (stem +:+ ".json") = true.
Proof.
  intros Hs. unfold json_ext. rewrite string_length_app. cbn [String.length].
  replace (String.length stem + 5 - 5)%nat with (String.length stem) by lia.
  rewrite sdrop_app. destruct stem; [done|]. cbn [String.length].
  by replace (Nat.ltb 5 _) with true by (symmetry; apply Nat.ltb_lt; lia).
Qed.

Lemma json_child_join d stem :
  stem <> EmptyString -> has_char "/" stem = false ->
  json_child d (path_join d (stem +:+ ".json")) = true.
Proof.
  intros Hs Hc. assert (path_join d (stem +:+ ".json") = d +:+ "/" +:+ (stem +:+ ".json")) as ->.
  { destruct stem as [|c stem]; [done|]. simpl in Hc. apply orb_false_iff in Hc as [Hc _].
    apply Ascii.eqb_neq in Hc. simpl. by destruct c as [[] [] [] [] [] [] [] []]. }
  unfold json_child, child_of.
  replace (drop_prefix _ _) with (Some (stem +:+ ".json"))
    by (symmetry; apply drop_prefix_some; by rewrite string_app_assoc).
  rewrite has_char_app, Hc. by apply json_ext_app.
Qed.

Lemma in_json_files d f b :
  fs_wf f -> In b (json_files d f) <-> exists p, json_child d p = true /\ content_at f p = Some b.
Proof.
  intros Hf. unfold json_files. rewrite <- list_elem_of_In, list_elem_of_omap. split.
  - intros ([p i] & _ & Hp). simpl in Hp. exists p. by destruct (json_child d p).
  - intros (p & Hj & Hc). unfold content_at, lookup_path in Hc.
    destruct (names f !! p) as [i|] eqn:Hi; [|done]. exists (p, i). split.
    + by apply elem_of_map_to_list.
    + simpl. rewrite Hj. unfold content_at, lookup_path. by rewrite Hi.
Qed.

(** Two file systems agree on the names that satisfy a predicate. *)
Definition agree (P : string -> Prop) (f g : fs) : Prop :=
  forall q, P q -> content_at g q = content_at f q.

Lemma agree_read P f g q : agree P f g -> P q -> read g q = read f q.
Proof. intros Ha Hq. by rewrite !read_content, Ha. Qed.

Lemma agree_trans P f g h : agree P f g -> agree P g h -> agree P f h.
Proof. intros Hf Hg q Hq. rewrite Hg by done. by apply Hf. Qed.

Lemma agree_write P f q b : fs_wf f -> ~ P q -> agree P f (std_write f q b).
Proof. intros Hf Hq r Hr. rewrite content_at_std_write by done. by destruct (decide (q = r)) as [->|]. Qed.

Lemma agree_refl P f : agree P f f.
Proof. by intros q Hq. Qed.

Lemma agree_weaken (P Q : string -> Prop) f g : (forall q, Q q -> P q) -> agree P f g -> agree Q f g.
Proof. intros Hi Ha q Hq. by apply Ha, Hi. Qed.
