(* ===== verification/AuditRotate.v ===== *)
(** * Rotation of the audit log into sealed segments

    Models [maranode-audit/src/chain.rs] and [rotate.rs]: HMAC of a body, the
    manifest of segments and its JSON form, summaries of a log, sealing,
    reading back with the digest check, recovery of the chain tail, retention. *)

From Stdlib Require Import ZArith Lia Ascii String.
From S2P Require Import Prelude Json Crypto Common Events Entry Fs.
Import Entry.
Open Scope string_scope.
Open Scope list_scope.
Open Scope Z_scope.

(** The zip archive with one member, and the time stamp of a file name. *)
Class Zip := {
  zip_one : string -> string -> string;
  unzip_one : string -> string -> option string;
  unzip_zip n b : unzip_one n (zip_one n b) = Some b;
}.

Class Stamp := { stamp : Z -> string }.

Inductive audit_err :=
| Io (e : io_err) | BadManifest | ShaMismatch (file : string) | BadZip (file : string)
| NoKey | KeyPermissions | KeyLength | RetainDays.

#[export] Instance audit_err_eq_dec : EqDecision audit_err.
Proof. solve_decision. Defined.

(** ** chain.rs *)
Module Chain.
Section Chain.
Context `{Hmac, Hex}.

Definition compute (key data : string) : string := hex_encode (hmac_sha256 key data).

Definition verify (key data expected_hex : string) : bool :=
  Secure.ct_eq_str (compute key data) expected_hex.

Lemma verify_iff key data h : verify key data h = true <-> h = compute key data.
Proof. unfold verify. rewrite Secure.ct_eq_str_true. split; done. Qed.
End Chain.

Definition GENESIS_HMAC : string :=
  "0000000000000000000000000000000000000000000000000000000000000000".
End Chain.

(** Parsing the lines of a log. *)
Section Lines.
Context `{JsonText, TimeText}.

Definition parse_line (l : string) : option AuditEntry := json_parse l ≫= entry_of.

Definition print_entry (e : AuditEntry) : string := json_print (entry_json e).

(** The entries of a content, blank and unreadable lines skipped. *)
Definition entries_of (content : string) : list AuditEntry :=
  omap parse_line (List.filter (fun l => negb (is_blank l)) (lines content)).

(** An entry that reads back from its own line. *)
Definition readable (e : AuditEntry) : bool := entry_wf e && negb (collides (event e)).

Lemma parse_print e : readable e = true -> parse_line (print_entry e) = Some e.
Proof.
  intros [Hw Hc%negb_true_iff]%andb_true_iff. unfold parse_line, print_entry.
  rewrite json_parse_print by (by apply entry_json_wf). simpl. by apply entry_round.
Qed.

Lemma print_one_line e : one_line (print_entry e) = true.
Proof. apply json_one_line. Qed.

Lemma print_not_blank e : is_blank (print_entry e) = false.
Proof. apply json_obj_not_blank. Qed.

Lemma print_utf8 e : utf8_ok (print_entry e) = true.
Proof. apply json_utf8. Qed.

(** The text of a log that holds exactly the given entries. *)
Definition log_text (es : list AuditEntry) : string := unlines (print_entry <$> es).

Lemma log_text_app a b : log_text (a ++ b) = log_text a +:+ log_text b.
Proof. unfold log_text. by rewrite fmap_app, unlines_app. Qed.

Lemma log_text_lines es : lines (log_text es) = print_entry <$> es.
Proof.
  apply lines_unlines. apply Forall_fmap, Forall_forall. intros; apply print_one_line.
Qed.

Lemma log_text_utf8 es : utf8_ok (log_text es) = true.
Proof.
  apply utf8_ok_unlines. apply Forall_fmap, Forall_forall. intros; apply print_utf8.
Qed.

Lemma log_text_nil_iff es : log_text es = EmptyString <-> es = [].
Proof.
  split; [|by intros ->]. destruct es as [|e es]; [done|]. unfold log_text. simpl.
  pose proof (print_not_blank e). by destruct (print_entry e).
Qed.

Lemma nonblank_lines es :
  List.filter (fun l => negb (is_blank l)) (print_entry <$> es) = print_entry <$> es.
Proof.
  induction es as [|e es IH]; [done|]. rewrite fmap_cons. cbn [List.filter].
  rewrite print_not_blank. cbn [negb]. by rewrite IH.
Qed.

Lemma entries_of_log_text es :
  Forall (fun e => readable e = true) es -> entries_of (log_text es) = es.
Proof.
  intros H'. unfold entries_of. rewrite log_text_lines, nonblank_lines.
  induction H' as [|e es He _ IH]; [done|]. rewrite fmap_cons. cbn [omap list_omap].
  rewrite parse_print by done. by rewrite IH.
Qed.
End Lines.

(** ** rotate.rs *)
Module Rotate.

Definition SEGMENT_DIR : string := "audit-rotated".
Definition MANIFEST : string := "segments.json".
Definition INNER_NAME : string := "audit.jsonl".

Record RotateConfig := { max_bytes : Z; max_age_days : Z }.

Definition enabled (c : RotateConfig) : bool := (0 <? max_bytes c) || (0 <? max_age_days c).

Record Segment := {
  file : string;
  seq_start : Z;
  seq_end : Z;
  entries : Z;
  first_prev_hmac : string;
  last_hmac : string;
  ts_first : Z;
  ts_last : Z;
  sha256 : string;
  rotated_at : Z;
}.

Record Manifest := { version : Z; segments : list Segment }.

Record Summary := {
  sm_seq_start : Z;
  sm_seq_end : Z;
  sm_entries : Z;
  sm_first_prev_hmac : string;
  sm_last_hmac : string;
  sm_ts_first : Z;
  sm_ts_last : Z;
}.

Definition segment_dir (audit_dir : string) : string := audit_dir +:+ "/" +:+ SEGMENT_DIR.
Definition manifest_path (audit_dir : string) : string :=
  segment_dir audit_dir +:+ "/" +:+ MANIFEST.
Definition segment_path (audit_dir file : string) : string :=
  segment_dir audit_dir +:+ "/" +:+ file.

Section Rotate.
Context `{JsonText, TimeText, Sha256, Zip, Stamp}.

Definition segment_json (s : Segment) : json :=
  JObj [("file", JStr (file s)); ("seq_start", JInt (seq_start s));
        ("seq_end", JInt (seq_end s)); ("entries", JInt (entries s));
        ("first_prev_hmac", JStr (first_prev_hmac s)); ("last_hmac", JStr (last_hmac s));
        ("ts_first", JStr (ts_print (ts_first s))); ("ts_last", JStr (ts_print (ts_last s)));
        ("sha256", JStr (sha256 s)); ("rotated_at", JStr (ts_print (rotated_at s)))].

Definition segment_fields : list string :=
  ["file"; "seq_start"; "seq_end"; "entries"; "first_prev_hmac"; "last_hmac";
   "ts_first"; "ts_last"; "sha256"; "rotated_at"].

Definition segment_of (j : json) : option Segment :=
  some? m := as_obj j in
  check no_dup_fields segment_fields m in
  some? x0 := req as_str "file" m in
  some? x1 := req (as_uint u64_max) "seq_start" m in
  some? x2 := req (as_uint u64_max) "seq_end" m in
  some? x3 := req (as_uint u64_max) "entries" m in
  some? x4 := req as_str "first_prev_hmac" m in
  some? x5 := req as_str "last_hmac" m in
  some? x6 := req Receipt.ts_of "ts_first" m in
  some? x7 := req Receipt.ts_of "ts_last" m in
  some? x8 := req as_str "sha256" m in
  some? x9 := req Receipt.ts_of "rotated_at" m in
  Some {| file := x0; seq_start := x1; seq_end := x2; entries := x3; first_prev_hmac := x4;
          last_hmac := x5; ts_first := x6; ts_last := x7; sha256 := x8; rotated_at := x9 |}.

Definition manifest_json (m : Manifest) : json :=
  JObj [("version", JInt (version m)); ("segments", JArr (segment_json <$> segments m))].

Definition segments_of (j : json) : option (list Segment) :=
  some? l := as_arr j in all_some (segment_of <$> l).

Definition manifest_of (j : json) : option Manifest :=
  some? m := as_obj j in
  check no_dup_fields ["version"; "segments"] m in
  some? v := req (as_uint u32_max) "version" m in
  some? l := req segments_of "segments" m in
  Some {| version := v; segments := l |}.

Definition load_manifest (f : fs) (dir : string) : result audit_err Manifest :=
  if negb (exists_ f (manifest_path dir)) then Ok {| version := 1; segments := [] |} else
  let? raw := map_err Io (read_to_string f (manifest_path dir)) in
  ok_or (json_parse raw ≫= manifest_of) BadManifest.

(** Written to a temporary file, then renamed over the manifest. *)
Definition save_manifest (f : fs) (dir : string) (m : Manifest) : result audit_err fs :=
  let tmp := segment_dir dir +:+ "/segments.json.tmp" in
  let f := write_file f tmp 384 (json_pretty (manifest_json m)) in
  map_err Io (rename f tmp (manifest_path dir)).

(** The variables of the loop of [summarize]. *)
Record sum_acc := {
  a_start : option Z; a_prev : string; a_first : option Z;
  a_end : Z; a_last : string; a_ts : option Z; a_n : Z
}.

Definition sum_step (a : sum_acc) (line : string) : sum_acc :=
  if is_blank line then a else
  match parse_line line with
  | Some e =>
    let '(st, pv, tf) :=
      match a_start a with
      | None => (Some (seq e), prev_hmac e, Some (ts e))
      | Some s => (Some s, a_prev a, a_first a)
      end in
    {| a_start := st; a_prev := pv; a_first := tf; a_end := seq e; a_last := hmac e;
       a_ts := Some (ts e); a_n := a_n a + 1 |}
  | None => a
  end.

Definition summarize (content : string) : option Summary :=
  let a := fold_left sum_step (lines content)
    {| a_start := None; a_prev := EmptyString; a_first := None; a_end := 0;
       a_last := EmptyString; a_ts := None; a_n := 0 |} in
  some? s := a_start a in
  some? tf := a_first a in
  some? tl := a_ts a in
  Some {| sm_seq_start := s; sm_seq_end := a_end a; sm_entries := a_n a;
          sm_first_prev_hmac := a_prev a; sm_last_hmac := a_last a;
          sm_ts_first := tf; sm_ts_last := tl |}.

Fixpoint first_ts (ls : list string) : option Z :=
  match ls with
  | [] => None
  | l :: ls =>
    if is_blank l then first_ts ls else
    match parse_line l with Some e => Some (ts e) | None => first_ts ls end
  end.

Definition oldest_ts (content : string) : option Z := first_ts (lines content).

Definition segment_file (sum : Summary) (now : Z) : string :=
  "audit-" +:+ show_u64 (sm_seq_start sum) +:+ "-" +:+ show_u64 (sm_seq_end sum)
  +:+ "-" +:+ stamp now +:+ ".jsonl.zip".

Definition make_segment (log_bytes : string) (sum : Summary) (now : Z) : Segment :=
  {| file := segment_file sum now; seq_start := sm_seq_start sum;
     seq_end := sm_seq_end sum; entries := sm_entries sum;
     first_prev_hmac := sm_first_prev_hmac sum; last_hmac := sm_last_hmac sum;
     ts_first := sm_ts_first sum; ts_last := sm_ts_last sum;
     sha256 := sha256_hex (zip_one INNER_NAME log_bytes); rotated_at := now |}.

(** The archive is written first; the manifest then names it. *)
Definition seal_segment (f : fs) (dir log_bytes : string) (sum : Summary) (now : Z)
    : result audit_err (fs * Segment) :=
  let seg := make_segment log_bytes sum now in
  let f := write_file f (segment_path dir (file seg)) 384 (zip_one INNER_NAME log_bytes) in
  let? m := load_manifest f dir in
  let v := if version m =? 0 then 1 else version m in
  let? f := save_manifest f dir {| version := v; segments := segments m ++ [seg] |} in
  Ok (f, seg).

(** [Iterator::max_by_key]: the last of the maximal elements. *)
Fixpoint max_by_end (best : option Segment) (l : list Segment) : option Segment :=
  match l with
  | [] => best
  | s :: l =>
    max_by_end (match best with
                | Some b => if seq_end s <? seq_end b then Some b else Some s
                | None => Some s
                end) l
  end.

Definition recover_tail (f : fs) (dir : string) : option (Z * string) :=
  match load_manifest f dir with
  | Ok m => match max_by_end None (segments m) with
            | Some s => Some (seq_end s, last_hmac s)
            | None => None
            end
  | Err _ => None
  end.

Definition read_segment (f : fs) (dir : string) (seg : Segment) : result audit_err string :=
  let? b := map_err Io (read f (segment_path dir (file seg))) in
  guard Secure.ct_eq_str (sha256_hex b) (sha256 seg) else ShaMismatch (file seg) in
  let? out := ok_or (unzip_one INNER_NAME b) (BadZip (file seg)) in
  guard utf8_ok out else Io InvalidUtf8 in
  Ok out.

(** The loop over [segments.drain(..)]. *)
Definition sweep_step (dir : string) (cutoff : Z) (st : fs * list Segment * Z) (seg : Segment)
    : fs * list Segment * Z :=
  let '(f, keep, removed) := st in
  if ts_last seg <? cutoff
  then (remove_file f (segment_path dir (file seg)), keep, removed + 1)
  else (f, keep ++ [seg], removed).

Definition enforce_segment_retention (f : fs) (dir : string) (retain_days now : Z)
    : fs * result audit_err Z :=
  if retain_days =? 0 then (f, Ok 0) else
  match load_manifest f dir with
  | Err e => (f, Err e)
  | Ok m =>
    match segments m with
    | [] => (f, Ok 0)
    | segs =>
      let cutoff := now - days_ns retain_days in
      let '(f, keep, removed) := fold_left (sweep_step dir cutoff) segs (f, [], 0) in
      if 0 <? removed then
        match save_manifest f dir {| version := version m; segments := keep |} with
        | Ok f => (f, Ok removed)
        | Err e => (f, Err e)
        end
      else (f, Ok removed)
    end
  end.
End Rotate.
End Rotate.
