(* ===== verification/Instances.v ===== *)
(** * Executable instances of the interfaces

    Concrete, computable functions that satisfy the laws of the classes for the
    code outside the repository (JSON text, digests, signatures, archives). They
    are stand-ins, not the real algorithms: examples evaluate the development on
    them, which shows that the laws can hold together. *)

From Stdlib Require Import ZArith Lia Ascii String.
From S2P Require Import Prelude Json Crypto AuditRotate.
Open Scope string_scope.
Open Scope list_scope.
Open Scope Z_scope.

(** ** Binary text of a positive number *)
Fixpoint pos_bits (p : positive) : string :=
  match p with
  | xH => EmptyString
  | xO p => String "0" (pos_bits p)
  | xI p => String "1" (pos_bits p)
  end.

Fixpoint bits_pos (s : string) : option positive :=
  match s with
  | EmptyString => Some xH
  | String c r =>
    match bits_pos r with
    | Some p => if Ascii.eqb c "0" then Some (xO p) else if Ascii.eqb c "1" then Some (xI p)
                else None
    | None => None
    end
  end.

Lemma bits_pos_bits p : bits_pos (pos_bits p) = Some p.
Proof. induction p as [p IH|p IH|]; simpl; [by rewrite IH..|done]. Qed.

Lemma pos_bits_no c p : c <> "0"%char -> c <> "1"%char -> has_char c (pos_bits p) = false.
Proof.
  intros H0 H1. induction p as [p IH|p IH|]; cbn [pos_bits has_char]; [..|done]; rewrite IH, orb_false_r;
    apply Ascii.eqb_neq; congruence.
Qed.

Lemma pos_bits_utf8 p : utf8_ok (pos_bits p) = true.
Proof. induction p; done. Qed.

(** ** JSON values as trees *)
Notation jtree := (gen_tree (string + Z)).

Fixpoint json_tree (j : json) : jtree :=
  match j with
  | JNull => GenNode 0 []
  | JBool b => GenNode (if b then 1 else 2) []
  | JInt z => GenNode 3 [GenLeaf (inr z)]
  | JFloat z => GenNode 4 [GenLeaf (inr z)]
  | JStr s => GenNode 5 [GenLeaf (inl s)]
  | JArr l => GenNode 6 (json_tree <$> l)
  | JObj m => GenNode 7 ((fun kv => GenNode 8 [GenLeaf (inl kv.1); json_tree kv.2]) <$> m)
  end.

Fixpoint tree_json (t : jtree) : json :=
  match t with
  | GenNode 1 [] => JBool true
  | GenNode 2 [] => JBool false
  | GenNode 3 [GenLeaf (inr z)] => JInt z
  | GenNode 4 [GenLeaf (inr z)] => JFloat z
  | GenNode 5 [GenLeaf (inl s)] => JStr s
  | GenNode 6 l => JArr (tree_json <$> l)
  | GenNode 7 m =>
    JObj ((fun t => match t with
                    | GenNode 8 [GenLeaf (inl k); v] => (k, tree_json v)
                    | _ => (EmptyString, JNull)
                    end) <$> m)
  | _ => JNull
  end.

Lemma tree_json_tree j : tree_json (json_tree j) = j.
Proof.
  induction j as [|b|z|z|s|l IH|m IH] using json_nested_ind; try done.
  - by destruct b.
  - cbn. f_equal. rewrite <- list_fmap_compose. rewrite <- (list_fmap_id l) at 2.
    apply list_fmap_ext. intros i x Hx. by eapply (proj1 (Forall_lookup _ _) IH).
  - cbn. f_equal. rewrite <- list_fmap_compose. rewrite <- (list_fmap_id m) at 2.
    apply list_fmap_ext. intros i [k v] Hx. cbn. f_equal.
    by apply (proj1 (Forall_lookup _ _) IH _ _ Hx).
Qed.

(** A brace, the bits of the tree, a brace that occurs nowhere before. *)
Definition text_of_json (j : json) : string :=
  String "{" (pos_bits (encode (json_tree j)) +:+ "}").

Definition json_of_text (s : string) : option json :=
  match s with
  | String "{" r =>
    match split_once "}" r with
    | Some (r, "") => bits_pos r ≫= fun p => tree_json <$> decode p
    | _ => None
    end
  | _ => None
  end.

Lemma json_of_text_of j : json_of_text (text_of_json j) = Some j.
Proof.
  cbn. rewrite split_once_app by (by apply pos_bits_no). rewrite bits_pos_bits.
  cbn [mbind option_bind]. by rewrite decode_encode; cbn; rewrite tree_json_tree.
Qed.

Lemma split_once_none c s : has_char c s = false -> split_once c s = None.
Proof.
  induction s as [|d s IH]; simpl; [done|]. intros [-> Hs]%orb_false_iff. by rewrite IH.
Qed.

Lemma stake_no_end c a n :
  has_char c a = false -> (n <= String.length a)%nat -> has_char c (stake n (a +:+ String c "")) = false.
Proof.
  revert n. induction a as [|d a IH]; intros n Ha Hn; simpl in *; [by destruct n; [|lia]|].
  destruct n as [|n]; [done|]. simpl. apply orb_false_iff in Ha as [-> Ha].
  apply IH; [done|lia].
Qed.

Lemma json_of_text_prefix j n :
  (n < String.length (text_of_json j))%nat -> json_of_text (stake n (text_of_json j)) = None.
Proof.
  destruct n as [|n]; [done|]. unfold text_of_json. cbn [String.length stake json_of_text].
  rewrite string_length_app. cbn [String.length]. intros Hn.
  rewrite split_once_none; [done|]. apply stake_no_end; [by apply pos_bits_no|lia].
Qed.

Lemma text_utf8 j : utf8_ok (text_of_json j) = true.
Proof. unfold text_of_json. cbn. rewrite utf8_ok_app; [done|]. apply pos_bits_utf8. Qed.

#[export] Instance toy_json : JsonText.
Proof.
  refine {| json_print := text_of_json; json_parse := json_of_text; json_pretty := text_of_json |}.
  - intros. apply json_of_text_of.
  - intros j. unfold one_line, text_of_json. cbn [has_char].
    rewrite !has_char_app, !pos_bits_no by done. done.
  - intros j. apply text_utf8.
  - intros m. by eexists.
  - intros. apply json_of_text_of.
  - intros j. apply text_utf8.
  - intros. by apply json_of_text_prefix.
Defined.

#[export] Instance toy_time : TimeText.
Proof.
  refine {| ts_print t := pos_bits (encode t); ts_parse s := bits_pos s ≫= decode |}.
  intros t. rewrite bits_pos_bits. cbn. apply decode_encode.
Defined.

#[export] Instance toy_stamp : Stamp := {| stamp t := pos_bits (encode t) |}.

(** ** Digests *)
Definition nibble (n : Z) : ascii := if n <? 10 then chr (48 + n) else chr (87 + n).

Fixpoint nibbles (n : nat) (v : Z) : string :=
  match n with O => EmptyString | S n => String (nibble (v mod 16)) (nibbles n (v / 16)) end.

Definition low_bits : Z := Eval vm_compute in Z.ones 64.

Definition mix (b : string) : Z :=
  (fix go (s : string) (acc : Z) := match s with
   | EmptyString => acc
   | String c r => go r (Z.land (acc * 257 + code c + 1) low_bits)
   end) b 7.

Definition digest (b : string) : string := nibbles 64 (mix b).

Lemma nibbles_length n v : String.length (nibbles n v) = n.
Proof. revert v. induction n; intros; simpl; [done|]. by f_equal. Qed.

Lemma nibble_hex n : 0 <= n < 16 -> in_range 48 57 (nibble n) || in_range 97 102 (nibble n) = true.
Proof.
  intros Hn. unfold nibble, in_range. destruct (Z.ltb_spec n 10); rewrite code_of_chr by lia; lia.
Qed.

Lemma nibbles_hex n v :
  string_forall (fun b => in_range 48 57 b || in_range 97 102 b) (nibbles n v) = true.
Proof.
  revert v. induction n as [|n IH]; intros v; [done|]. cbn [nibbles string_forall].
  rewrite nibble_hex by (apply Z.mod_pos_bound; lia). apply IH.
Qed.

#[export] Instance toy_sha256 : Sha256.
Proof.
  refine {| sha256_hex := digest |}. intros b. unfold Secure.is_sha256_hex, digest.
  by rewrite nibbles_length, nibbles_hex.
Defined.

#[export] Instance toy_hmac : Hmac.
Proof.
  refine {| hmac_sha256 k d := nibbles 32 (mix (k +:+ d)) |}. intros. apply nibbles_length.
Defined.

Definition hex_byte (c : ascii) : string :=
  String (nibble (code c / 16)) (String (nibble (code c mod 16)) EmptyString).

Fixpoint toy_hex_encode (s : string) : string :=
  match s with EmptyString => EmptyString | String c r => hex_byte c +:+ toy_hex_encode r end.

Definition unnibble (c : ascii) : option Z :=
  if in_range 48 57 c then Some (code c - 48)
  else if in_range 97 102 c then Some (code c - 87) else None.

Fixpoint toy_hex_decode (s : string) : option string :=
  match s with
  | EmptyString => Some EmptyString
  | String a (String b r) =>
    match unnibble a, unnibble b, toy_hex_decode r with
    | Some x, Some y, Some r => Some (String (chr (x * 16 + y)) r)
    | _, _, _ => None
    end
  | _ => None
  end.

Lemma toy_hex_round s : toy_hex_decode (toy_hex_encode s) = Some s.
Proof.
  induction s as [|c s IH]; [done|]. cbn [toy_hex_encode hex_byte String.append toy_hex_decode].
  rewrite IH. by destruct c as [[] [] [] [] [] [] [] []].
Qed.

Lemma toy_hex_digits s :
  string_forall (fun c => in_range 48 57 c || in_range 97 102 c) (toy_hex_encode s) = true.
Proof.
  induction s as [|c s IH]; [done|]. cbn [toy_hex_encode hex_byte String.append string_forall].
  pose proof (code_bound c). rewrite IH, !nibble_hex; [done| |].
  - apply Z.mod_pos_bound. lia.
  - split; [apply Z.div_pos; lia|]. apply Z.div_lt_upper_bound; lia.
Qed.

#[export] Instance toy_hex : Hex :=
  {| hex_encode := toy_hex_encode; hex_decode := toy_hex_decode;
     hex_decode_encode := toy_hex_round; hex_encode_digits := toy_hex_digits |}.

Lemma toy_hex_chars s : string_forall b64_char (toy_hex_encode s) = true.
Proof.
  eapply string_forall_impl; [|apply (hex_encode_digits (Hex := toy_hex))]. intros c. unfold b64_char.
  intros Hc. apply orb_true_iff in Hc as [Hc|Hc]; rewrite ?Hc, ?orb_true_r; [done|].
  assert (in_range 97 122 c = true) as ->; [unfold in_range in *; bool_prop; lia|]. by rewrite ?orb_true_r.
Qed.

#[export] Instance toy_b64 : Base64 :=
  {| b64_encode := toy_hex_encode; b64_decode := toy_hex_decode;
     b64_decode_encode := toy_hex_round; b64_encode_chars := toy_hex_chars |}.

(** The verifying key is the seed itself: a stand-in only. *)
#[export] Instance toy_ed25519 : Ed25519.
Proof.
  refine {| ed_public k := k; ed_key_ok _ := true; ed_sign k m := digest (k +:+ m);
            ed_verify k m s := String.eqb s (digest (k +:+ m)) |}.
  - done.
  - done.
  - intros. apply nibbles_length.
  - intros. apply String.eqb_refl.
Defined.

#[export] Instance toy_aead : Aead.
Proof.
  refine {| aead_seal k n p := digest (k +:+ n +:+ p) +:+ p;
            aead_open k n c := let p := sdrop 64 c in
              if String.eqb (stake 64 c) (digest (k +:+ n +:+ p)) then Some p else None |}.
  intros k n p _ _. cbn zeta.
  rewrite stake_app_len, sdrop_app_len by apply nibbles_length. by rewrite String.eqb_refl.
Defined.

#[export] Instance toy_kdf : Kdf.
Proof.
  refine {| pbkdf2 i p s := nibbles 32 (mix (p +:+ s)) |}. intros. apply nibbles_length.
Defined.

#[export] Instance toy_zip : Zip.
Proof.
  refine {| zip_one n b := n +:+ String ":" b;
            unzip_one n z := if String.eqb (stake (String.length n) z) n
                             then Some (sdrop (S (String.length n)) z) else None |}.
  intros n b. rewrite stake_app, String.eqb_refl. f_equal.
  induction n as [|c n IH]; [done|]. exact IH.
Defined.
