(* ===== verification/AuditLog.v ===== *)
(** * The audit log: appending, reopening, rotating, pruning, keys

    Models [maranode-audit/src/log.rs], [retention.rs] and [key.rs] on the file
    system of [Fs]. The state of a log is [LogInner] next to the file system;
    every operation runs in the state-and-error monad, so that a failure keeps the
    changes made before it. *)

From Stdlib Require Import ZArith Lia Ascii String.
From S2P Require Import Prelude Json Crypto Common Events Entry Fs AuditRotate.
Import Events Entry.
Open Scope string_scope.
Open Scope list_scope.
Open Scope Z_scope.

(** ** log.rs *)
Module Log.

(** [log_path] is its directory and the full name in it. *)
Record LogInner := {
  lfile : N;
  lseq : Z;
  llast : string;
  lkey : string;
  ldir : string;
  lpath : string;
  lrotate : Rotate.RotateConfig;
}.

Definition ROTATE_OFF : Rotate.RotateConfig :=
  {| Rotate.max_bytes := 0; Rotate.max_age_days := 0 |}.

(** What the operating system does with one line: the write and the flush
    succeed, the write stops after some bytes, or the flush fails. *)
Inductive write_fault := WriteOk | TornAfter (n : nat) | SyncFails.

Definition world : Type := fs * LogInner.

Section Log.
Context `{JsonText, TimeText, Hmac, Hex, Sha256, Zip, Stamp}.

(** The last readable entry wins; an empty active file falls back to the
    rotated segments. *)
Definition scan_step (a : Z * string) (line : string) : Z * string :=
  if is_blank line then a else
  match parse_line line with Some e => (seq e, hmac e) | None => a end.

Definition scan_tail (f : fs) (dir path : string) : result audit_err (Z * string) :=
  let? a :=
    (if exists_ f path then
       let? content := map_err Io (read_to_string f path) in
       Ok (fold_left scan_step (lines content) (0, Chain.GENESIS_HMAC))
     else Ok (0, Chain.GENESIS_HMAC)) in
  if a.1 =? 0 then
    match Rotate.recover_tail f dir with Some t => Ok t | None => Ok a end
  else Ok a.

Definition open_with_key (f : fs) (dir path key : string) : result audit_err world :=
  let? a := scan_tail f dir path in
  let (f, i) := open_append f path 384 in
  Ok (f, {| lfile := i; lseq := a.1; llast := a.2; lkey := key; ldir := dir;
            lpath := path; lrotate := ROTATE_OFF |}).

Definition set_rotation (cfg : Rotate.RotateConfig) : SE world audit_err unit :=
  smodify (fun w =>
    (w.1, {| lfile := lfile w.2; lseq := lseq w.2; llast := llast w.2; lkey := lkey w.2;
             ldir := ldir w.2; lpath := lpath w.2; lrotate := cfg |})).

(** Sealing a segment and truncating the active file, which gets a new handle. *)
Definition truncate_active (path : string) : SE world audit_err unit :=
  smodify (fun '(f, w) =>
    let f := (open_trunc f path 384).1 in
    let (f, i) := open_append f path 384 in
    (f, {| lfile := i; lseq := lseq w; llast := llast w; lkey := lkey w; ldir := ldir w;
           lpath := lpath w; lrotate := lrotate w |})).

Definition seal (content : string) (sum : Rotate.Summary) (now : Z)
    : SE world audit_err Rotate.Segment :=
  fun '(f, w) =>
    match Rotate.seal_segment f (ldir w) content sum now with
    | Ok (f, seg) => ((f, w), Ok seg)
    | Err e => ((f, w), Err e)
    end.

(** Whether a trigger fires; the length is that of the open handle, the content
    is read by name. *)
Definition rotation_due (w : world) (path : string) (cfg : Rotate.RotateConfig) (now : Z)
    : result audit_err (option string) :=
  let len := fd_len w.1 (lfile w.2) in
  if len =? 0 then Ok None else
  let hit := (0 <? Rotate.max_bytes cfg) && (Rotate.max_bytes cfg <=? len) in
  if negb hit && (Rotate.max_age_days cfg =? 0) then Ok None else
  let? content := map_err Io (read_to_string w.1 path) in
  let hit :=
    if negb hit && (0 <? Rotate.max_age_days cfg) then
      match Rotate.oldest_ts content with
      | Some t => t <? now - days_ns (Rotate.max_age_days cfg)
      | None => false
      end
    else hit in
  if hit then Ok (Some content) else Ok None.

Definition rotate_locked (path : string) (cfg : Rotate.RotateConfig) (now : Z)
    : SE world audit_err (option Rotate.Segment) :=
  if negb (Rotate.enabled cfg) then sret None else
  do! w := sget in
  do! due := slift (rotation_due w path cfg now) in
  match due with
  | None => sret None
  | Some content =>
    match Rotate.summarize content with
    | None => sret None
    | Some sum =>
      do! seg := seal content sum now in
      do! _ := truncate_active path in
      sret (Some seg)
    end
  end.

Definition maybe_rotate (path : string) (cfg : Rotate.RotateConfig) (now : Z)
    : SE world audit_err (option Rotate.Segment) :=
  if negb (Rotate.enabled cfg) then sret None else rotate_locked path cfg now.

(** The entry [append] writes next. [seq] is a [u64]. *)
Definition next_entry (w : LogInner) (now : Z) (act : string) (ev : AuditEvent) : AuditEntry :=
  let sq := (lseq w + 1) mod 2 ^ 64 in
  {| ts := now; seq := sq; actor := act; event := ev; prev_hmac := llast w;
     hmac := Chain.compute (lkey w) (json_print (body_json now sq act (llast w) ev)) |}.

Definition write_line (fault : write_fault) (line : string) : SE world audit_err unit :=
  fun '(f, w) =>
    match fault with
    | WriteOk => ((write_fd f (lfile w) line, w), Ok tt)
    | TornAfter n => ((write_fd f (lfile w) (stake n line), w), Err (Io WriteFailed))
    | SyncFails => ((write_fd f (lfile w) line, w), Err (Io WriteFailed))
    end.

Definition advance (e : AuditEntry) : SE world audit_err unit :=
  smodify (fun w =>
    (w.1, {| lfile := lfile w.2; lseq := seq e; llast := hmac e; lkey := lkey w.2;
             ldir := ldir w.2; lpath := lpath w.2; lrotate := lrotate w.2 |})).

Definition append (fault : write_fault) (now : Z) (act : string) (ev : AuditEvent)
    : SE world audit_err unit :=
  do! w := sget in
  let e := next_entry w.2 now act ev in
  do! _ := write_line fault (print_entry e +:+ nl) in
  do! _ := advance e in
  if 0 <? Rotate.max_bytes (lrotate w.2) then
    let size_only := {| Rotate.max_bytes := Rotate.max_bytes (lrotate w.2);
                        Rotate.max_age_days := 0 |} in
    signore (rotate_locked (lpath w.2) size_only now)
  else sret tt.

Definition read_recent (f : fs) (path : string) (limit : nat)
    : result audit_err (list AuditEntry) :=
  if negb (exists_ f path) then Ok [] else
  let? content := map_err Io (read_to_string f path) in
  let es := entries_of content in
  Ok (if Nat.ltb limit (length es) then drop (length es - limit) es else es).

(** ** retention.rs *)

Definition prune_keeps (cutoff : Z) (line : string) : bool :=
  match parse_line line with Some e => negb (ts e <? cutoff) | None => true end.

(** The kept lines go to a temporary file, which is renamed over the log. *)
Definition prune_log (f : fs) (path tmp : string) (retain_days now : Z)
    : fs * result audit_err Z :=
  if retain_days =? 0 then (f, Err RetainDays) else
  if negb (exists_ f path) then (f, Ok 0) else
  match read_to_string f path with
  | Err e => (f, Err (Io e))
  | Ok content =>
    let cutoff := now - days_ns retain_days in
    let ls := List.filter (fun l => negb (is_blank l)) (lines content) in
    let kept := List.filter (prune_keeps cutoff) ls in
    let pruned := Z.of_nat (length ls - length kept) in
    if 0 <? pruned then
      let f := write_file f tmp 384 (unlines kept) in
      match rename f tmp path with
      | Ok f => (f, Ok pruned)
      | Err e => (f, Err (Io e))
      end
    else (f, Ok 0)
  end.
End Log.
End Log.

(** ** key.rs *)
Module Key.
Definition KEY_LEN : nat := 32.

(** Group and other permission bits must be clear. *)
Definition check_key_permissions (m : Z) : result audit_err unit :=
  guard Z.land m 63 =? 0 else KeyPermissions in Ok tt.

Definition load (f : fs) (path : string) : result audit_err string :=
  guard exists_ f path else NoKey in
  let? n := ok_or (lookup_path f path) (Io NotFound) in
  let? _ := check_key_permissions (imode n) in
  guard Nat.eqb (String.length (bytes n)) KEY_LEN else KeyLength in
  Ok (bytes n).

(** [create_new] fails when the file exists; the mode is 0600 less the umask. *)
Definition write_key (umask : Z) (f : fs) (path key : string) : result audit_err fs :=
  guard negb (exists_ f path) else Io AlreadyExists in
  let (f, i) := create f path (Z.land 384 (Z.lnot umask)) in
  Ok (write_fd f i key).

(** [fresh] is what the random generator fills the buffer with. *)
Definition load_or_generate (umask : Z) (f : fs) (path fresh : string)
    : result audit_err (fs * string) :=
  if exists_ f path then rmap (fun k => (f, k)) (load f path) else
  let? f := write_key umask f path fresh in
  Ok (f, fresh).
End Key.

(** [AuditLog::open]: the key file first, then the log. *)
Module Open.
Definition open `{JsonText, TimeText} (umask : Z) (f : fs) (dir path key_path fresh : string)
    : result audit_err Log.world :=
  let? fk := Key.load_or_generate umask f key_path fresh in
  Log.open_with_key fk.1 dir path fk.2.
End Open.

(** ** verify.rs *)
Module Verify.

Inductive violation :=
| ParseError (line_no : nat) | SequenceGap (expected got : Z)
| PrevMismatch (expected got : string) | HmacMismatch | SegmentMismatch (file : string).

#[export] Instance violation_eq_dec : EqDecision violation.
Proof. solve_decision. Defined.

Record ViolationDetail := { vseq : Z; detail : violation }.

Record VerifyResult := {
  entries_checked : Z; ok : bool; first_violation : option ViolationDetail
}.

Record Cursor := { expected_seq : Z; cprev : string; checked : Z }.

Section Verify.
Context `{JsonText, TimeText, Hmac, Hex, Sha256, Zip, Stamp}.

(** The checks on one readable entry, in their order. *)
Definition check_entry (key : string) (cur : Cursor) (e : AuditEntry)
    : result ViolationDetail Cursor :=
  guard seq e =? expected_seq cur
    else {| vseq := seq e; detail := SequenceGap (expected_seq cur) (seq e) |} in
  guard String.eqb (prev_hmac e) (cprev cur)
    else {| vseq := seq e; detail := PrevMismatch (cprev cur) (prev_hmac e) |} in
  guard Chain.verify key
          (json_print (body_json (ts e) (seq e) (actor e) (prev_hmac e) (event e))) (hmac e)
    else {| vseq := seq e; detail := HmacMismatch |} in
  Ok {| expected_seq := (seq e + 1) mod 2 ^ 64; cprev := hmac e; checked := checked cur + 1 |}.

(** The loop over the numbered lines; the cursor is kept on a violation. *)
Fixpoint walk_lines (key : string) (ls : list string) (line_no : nat) (cur : Cursor)
    : Cursor * option ViolationDetail :=
  match ls with
  | [] => (cur, None)
  | l :: ls =>
    if is_blank l then walk_lines key ls (S line_no) cur else
    match parse_line l with
    | None =>
      (cur, Some {| vseq := expected_seq cur; detail := ParseError (line_no + 1) |})
    | Some e =>
      match check_entry key cur e with
      | Err v => (cur, Some v)
      | Ok cur => walk_lines key ls (S line_no) cur
      end
    end
  end.

Definition walk (content key : string) (cur : Cursor) : Cursor * option ViolationDetail :=
  walk_lines key (lines content) 0 cur.

Fixpoint first_nonblank (ls : list string) : option string :=
  match ls with
  | [] => None
  | l :: ls => if is_blank l then first_nonblank ls else Some l
  end.

Definition anchor (content : string) : Cursor :=
  match first_nonblank (lines content) ≫= parse_line with
  | Some e =>
    if 1 <? seq e then {| expected_seq := seq e; cprev := prev_hmac e; checked := 0 |}
    else {| expected_seq := 1; cprev := Chain.GENESIS_HMAC; checked := 0 |}
  | None => {| expected_seq := 1; cprev := Chain.GENESIS_HMAC; checked := 0 |}
  end.

Definition result_of (r : Cursor * option ViolationDetail) : VerifyResult :=
  {| entries_checked := checked r.1;
     ok := match r.2 with None => true | Some _ => false end;
     first_violation := r.2 |}.

Definition verify_log (f : fs) (path key : string) : result audit_err VerifyResult :=
  if negb (exists_ f path)
  then Ok {| entries_checked := 0; ok := true; first_violation := None |}
  else
    let? content := map_err Io (read_to_string f path) in
    Ok (result_of (walk content key (anchor content))).

(** The segments in order, each walked and compared with its manifest row. *)
Fixpoint walk_segments (f : fs) (dir key : string) (segs : list Rotate.Segment) (cur : Cursor)
    : result audit_err (Cursor * option ViolationDetail) :=
  match segs with
  | [] => Ok (cur, None)
  | seg :: segs =>
    let? content := Rotate.read_segment f dir seg in
    let r := walk content key cur in
    match r.2 with
    | Some v => Ok r
    | None =>
      if negb (String.eqb (cprev r.1) (Rotate.last_hmac seg))
      then Ok (r.1, Some {| vseq := Rotate.seq_end seg;
                            detail := SegmentMismatch (Rotate.file seg) |})
      else walk_segments f dir key segs r.1
    end
  end.

(** [sort_by_key] is stable: insertion sort. *)
Fixpoint insert_seg (s : Rotate.Segment) (l : list Rotate.Segment) : list Rotate.Segment :=
  match l with
  | [] => [s]
  | x :: r => if Rotate.seq_start s <? Rotate.seq_start x then s :: x :: r
              else x :: insert_seg s r
  end.

Definition sort_segments (l : list Rotate.Segment) : list Rotate.Segment :=
  fold_left (fun acc s => insert_seg s acc) l [].

Definition verify_all (f : fs) (dir key path : string) : result audit_err VerifyResult :=
  let? m := Rotate.load_manifest f dir in
  match sort_segments (Rotate.segments m) with
  | [] => verify_log f path key
  | first :: segs =>
    let start := {| expected_seq := Rotate.seq_start first;
                    cprev := if Rotate.seq_start first =? 1 then Chain.GENESIS_HMAC
                             else Rotate.first_prev_hmac first;
                    checked := 0 |} in
    let? r := walk_segments f dir key (first :: segs) start in
    match r.2 with
    | Some _ => Ok (result_of r)
    | None =>
      if exists_ f path then
        let? content := map_err Io (read_to_string f path) in
        Ok (result_of (walk content key r.1))
      else Ok (result_of r)
    end
  end.
End Verify.
End Verify.
