(* ===== verification/AuditChain.v ===== *)
(** * The chain as a specification, and what the verifier accepts

    [chained] says what a list of entries must satisfy to be an HMAC chain. The
    lemmas here show that the walking verifier accepts a content exactly when its
    non-blank lines are the lines of a chained list, and that the body of an entry
    determines its sequence number. *)

From Stdlib Require Import ZArith Lia Ascii String.
From S2P Require Import Prelude Json Crypto Common Events Entry Fs AuditRotate AuditLog.
Import Events Entry Verify.
Open Scope string_scope.
Open Scope list_scope.
Open Scope Z_scope.

Section Chain.
Context `{JsonText, TimeText, Hmac, Hex}.

(** The authenticated text of an entry. *)
Definition body_text (e : AuditEntry) : string :=
  json_print (body_json (ts e) (seq e) (actor e) (prev_hmac e) (event e)).

Fixpoint chained (key : string) (q : Z) (p : string) (es : list AuditEntry) : Prop :=
  match es with
  | [] => True
  | e :: es =>
    seq e = q /\ prev_hmac e = p /\ hmac e = Chain.compute key (body_text e) /\
    chained key ((q + 1) mod 2 ^ 64) (hmac e) es
  end.

(** Where a chain that starts at [(q, p)] continues. *)
Definition step_seq (q : Z) (e : AuditEntry) : Z := (seq e + 1) mod 2 ^ 64.
Definition end_seq (q : Z) (es : list AuditEntry) : Z := fold_left step_seq es q.
Definition end_hmac (p : string) (es : list AuditEntry) : string :=
  fold_left (fun _ e => hmac e) es p.

Definition advance_cur (c : Cursor) (es : list AuditEntry) : Cursor :=
  {| expected_seq := end_seq (expected_seq c) es; cprev := end_hmac (cprev c) es;
     checked := checked c + Z.of_nat (length es) |}.

Lemma advance_cur_nil c : advance_cur c [] = c.
Proof. unfold advance_cur. destruct c; cbn. f_equal. lia. Qed.

Lemma chained_app key q p a b :
  chained key q p (a ++ b) <->
  chained key q p a /\ chained key (end_seq q a) (end_hmac p a) b.
Proof.
  revert q p. induction a as [|e a IH]; intros q p; cbn [chained app]; [tauto|].
  rewrite IH. split.
  - intros (<- & <- & Hh & Ha & Hb). done.
  - intros ((<- & <- & Hh & Ha) & Hb). done.
Qed.

Lemma end_seq_app q a b : end_seq q (a ++ b) = end_seq (end_seq q a) b.
Proof. apply fold_left_app. Qed.

Lemma end_hmac_app p a b : end_hmac p (a ++ b) = end_hmac (end_hmac p a) b.
Proof. apply fold_left_app. Qed.

(** Without wrap-around, the sequence numbers count up. *)
Lemma end_seq_count key q p es :
  chained key q p es -> 0 <= q -> q + Z.of_nat (length es) < 2 ^ 64 ->
  end_seq q es = q + Z.of_nat (length es).
Proof.
  revert q p. induction es as [|e es IH]; intros q p; cbn [chained length]; intros Hc Hq Hl.
  { cbn. lia. }
  destruct Hc as (<- & <- & _ & Hc). cbn. unfold step_seq at 2. fold (end_seq).
  change (fold_left step_seq es ?x) with (end_seq x es).
  rewrite Z.mod_small in * by lia. erewrite IH; [lia|done|lia|lia].
Qed.

Lemma chained_seq key q p es i e :
  chained key q p es -> 0 <= q -> q + Z.of_nat (length es) <= 2 ^ 64 ->
  es !! i = Some e -> seq e = q + Z.of_nat i.
Proof.
  revert q p i. induction es as [|x es IH]; intros q p i; [done|].
  cbn [chained length]. intros (<- & <- & _ & Hc) Hq Hl Hi.
  destruct i as [|i]; simplify_eq/=; [lia|].
  destruct es as [|y es]; [done|].
  rewrite Z.mod_small in Hc by (cbn [length] in Hl; lia).
  rewrite (IH _ _ _ Hc) by (done || lia). lia.
Qed.

Lemma chained_lookup key q p es i e :
  chained key q p es -> es !! i = Some e ->
  hmac e = Chain.compute key (body_text e).
Proof.
  revert q p i. induction es as [|x es IH]; intros q p i; [done|].
  intros (_ & _ & Hh & Hc) Hi. destruct i; simplify_eq/=; [done|eauto].
Qed.

(** The non-blank lines parse to exactly these entries. *)
Definition parses (ls : list string) (es : list AuditEntry) : Prop :=
  parse_line <$> List.filter (fun l => negb (is_blank l)) ls = Some <$> es.

Lemma check_entry_ok key c e c' :
  check_entry key c e = Ok c' <->
  (seq e = expected_seq c /\ prev_hmac e = cprev c /\
   hmac e = Chain.compute key (body_text e)) /\ c' = advance_cur c [e].
Proof.
  unfold check_entry, advance_cur. cbn [length].
  destruct (Z.eqb_spec (seq e) (expected_seq c)) as [Hs|Hs]; [|naive_solver].
  destruct (String.eqb_spec (prev_hmac e) (cprev c)) as [Hp|Hp]; [|naive_solver].
  destruct (Chain.verify _ _ _) eqn:Hv.
  - rewrite Chain.verify_iff in Hv. cbn. unfold step_seq. split.
    + intros [= <-]. done.
    + by intros [_ ->].
  - split; [done|]. intros ((_ & _ & Hh) & _).
    rewrite <- not_true_iff_false, Chain.verify_iff in Hv. done.
Qed.

Lemma advance_cur_cons c e es :
  advance_cur (advance_cur c [e]) es = advance_cur c (e :: es).
Proof. unfold advance_cur. cbn. f_equal. lia. Qed.

Lemma walk_lines_iff key ls n c c' :
  walk_lines key ls n c = (c', None) <->
  exists es, parses ls es /\ chained key (expected_seq c) (cprev c) es /\
             c' = advance_cur c es.
Proof.
  revert n c. induction ls as [|l ls IH]; intros n c; cbn [walk_lines].
  { split.
    - intros [= <-]. exists []. rewrite advance_cur_nil. done.
    - intros ([|e es] & Hp & _ & ->); [by rewrite advance_cur_nil|done]. }
  unfold parses. cbn [List.filter]. destruct (is_blank l); cbn [negb]; [apply IH|].
  rewrite fmap_cons. destruct (parse_line l) as [e|].
  - split.
    + intros Hw. destruct (check_entry key c e) as [c1|v] eqn:He; [|done].
      apply check_entry_ok in He as ((Hs & Hp & Hh) & ->).
      apply IH in Hw as (es & Hes & Hc & ->). cbn [advance_cur expected_seq cprev] in Hc.
      exists (e :: es). rewrite advance_cur_cons, fmap_cons, Hes. split; [done|].
      split; [|done]. cbn [chained]. rewrite <- Hs. done.
    + intros ([|e' es] & Hes & Hc & ->); [done|]. rewrite fmap_cons in Hes.
      injection Hes as <- Hes. destruct Hc as (Hs & Hp & Hh & Hc).
      rewrite (proj2 (check_entry_ok key c e _)) by done. apply IH.
      exists es. rewrite advance_cur_cons. split; [done|]. split; [|done].
      cbn. unfold step_seq. by rewrite Hs.
  - split; [done|]. intros ([|e es] & Hes & _); done.
Qed.

Lemma walk_iff key content c c' :
  walk content key c = (c', None) <->
  exists es, parses (lines content) es /\ chained key (expected_seq c) (cprev c) es /\
             c' = advance_cur c es.
Proof. apply walk_lines_iff. Qed.

Lemma parses_inj ls a b : parses ls a -> parses ls b -> a = b.
Proof.
  unfold parses. intros -> Hab. by apply (inj (fmap Some)) in Hab.
Qed.

Lemma parses_log_text es :
  Forall (fun e => readable e = true) es -> parses (lines (log_text es)) es.
Proof.
  intros Hr. unfold parses. rewrite log_text_lines, nonblank_lines.
  induction Hr as [|e es He _ IH]; [done|]. rewrite !fmap_cons, parse_print by done.
  by rewrite IH.
Qed.

Lemma walk_log_text key es c :
  Forall (fun e => readable e = true) es ->
  chained key (expected_seq c) (cprev c) es ->
  walk (log_text es) key c = (advance_cur c es, None).
Proof. intros. apply walk_iff. exists es. auto using parses_log_text. Qed.

Lemma first_nonblank_log_text es :
  first_nonblank (lines (log_text es)) = match es with [] => None | e :: _ => Some (print_entry e) end.
Proof.
  rewrite log_text_lines. destruct es as [|e es]; [done|]. rewrite fmap_cons.
  cbn [first_nonblank]. by rewrite print_not_blank.
Qed.

Lemma anchor_log_text es :
  Forall (fun e => readable e = true) es ->
  anchor (log_text es) =
  match es with
  | e :: _ => if 1 <? seq e
              then {| expected_seq := seq e; cprev := prev_hmac e; checked := 0 |}
              else {| expected_seq := 1; cprev := Chain.GENESIS_HMAC; checked := 0 |}
  | [] => {| expected_seq := 1; cprev := Chain.GENESIS_HMAC; checked := 0 |}
  end.
Proof.
  intros Hr. unfold anchor. rewrite first_nonblank_log_text.
  destruct es as [|e es]; [done|]. cbn [mbind option_bind].
  rewrite parse_print by (by inversion Hr). done.
Qed.
End Chain.
