(* ===== verification/AuditInv.v ===== *)
(** * The invariant of the audit log, and its preservation

    An abstract log is the list of sealed segments with their entries and the list
    of active entries. [log_inv] relates it to the file system and the in-memory
    state. Appending (with rotation triggered by size) and age rotation preserve
    it. *)

From Stdlib Require Import ZArith Lia Ascii String.
From S2P Require Import Prelude Json Crypto Common Events Entry Fs AuditRotate AuditLog AuditChain.
Import Events Entry Verify Log.
Open Scope string_scope.
Open Scope list_scope.
Open Scope Z_scope.

(** ** Names *)

(** The log is a file directly in its directory. *)
Definition path_ok (dir path : string) : Prop :=
  exists base, path = dir +:+ "/" +:+ base /\ has_char "/" base = false.

Lemma active_not_segment dir path x : path_ok dir path -> path <> Rotate.segment_path dir x.
Proof.
  intros (base & -> & Hb) He. unfold Rotate.segment_path, Rotate.segment_dir in He.
  rewrite !string_app_assoc in He. apply string_app_inj_l in He. apply (string_app_inj_l "/") in He.
  subst base. by rewrite !has_char_app in Hb.
Qed.

Lemma manifest_path_eq dir : Rotate.manifest_path dir = Rotate.segment_path dir Rotate.MANIFEST.
Proof. done. Qed.

Lemma segment_path_inj dir a b : Rotate.segment_path dir a = Rotate.segment_path dir b -> a = b.
Proof.
  unfold Rotate.segment_path. intros He%string_app_inj_l. by apply (string_app_inj_l "/") in He.
Qed.

Definition tmp_name : string := "segments.json.tmp".

Lemma tmp_path_eq dir : Rotate.segment_dir dir +:+ "/segments.json.tmp" = Rotate.segment_path dir tmp_name.
Proof. done. Qed.

Section Inv.
Context `{JsonText, TimeText, Hmac, Hex, Sha256, Zip, Stamp}.

Lemma segment_file_not_manifest sum now :
  Rotate.segment_file sum now <> Rotate.MANIFEST /\ Rotate.segment_file sum now <> tmp_name.
Proof. by split. Qed.

Lemma segment_file_start s1 n1 s2 n2 :
  0 <= Rotate.sm_seq_start s1 -> 0 <= Rotate.sm_seq_start s2 ->
  Rotate.segment_file s1 n1 = Rotate.segment_file s2 n2 ->
  Rotate.sm_seq_start s1 = Rotate.sm_seq_start s2.
Proof.
  intros Hq1 Hq2 He. unfold Rotate.segment_file in He. apply (string_app_inj_l "audit-") in He.
  apply (f_equal (split_once "-")) in He.
  cbn [String.append] in He. rewrite !(split_once_app "-") in He by apply show_u64_no_dash.
  apply show_u64_inj; [done..|]. congruence.
Qed.

(** ** The manifest in JSON *)
Definition segment_wf (s : Rotate.Segment) : bool :=
  uint_ok u64_max (Rotate.seq_start s) && uint_ok u64_max (Rotate.seq_end s)
  && uint_ok u64_max (Rotate.entries s).

Definition manifest_wf (m : Rotate.Manifest) : bool :=
  uint_ok u32_max (Rotate.version m) && forallb segment_wf (Rotate.segments m).

Lemma segment_round s : segment_wf s = true -> Rotate.segment_of (Rotate.segment_json s) = Some s.
Proof.
  destruct s as [a b c d e f g h i j]. unfold segment_wf. cbn -[uint_ok]. intros Hs. bool_prop.
  unfold Rotate.segment_of, Rotate.segment_json, req, Receipt.ts_of. cbn -[uint_ok].
  repeat match goal with Hu : uint_ok _ _ = true |- _ => rewrite Hu; clear Hu end.
  by rewrite !ts_parse_print.
Qed.

Lemma segments_round l :
  forallb segment_wf l = true -> Rotate.segments_of (JArr (Rotate.segment_json <$> l)) = Some l.
Proof.
  unfold Rotate.segments_of. cbn [as_arr]. induction l as [|s l IH]; [done|].
  cbn [forallb]. intros [Hs Hl]%andb_true_iff. rewrite !fmap_cons. cbn [all_some].
  by rewrite segment_round, IH.
Qed.

Lemma manifest_round m :
  manifest_wf m = true -> Rotate.manifest_of (Rotate.manifest_json m) = Some m.
Proof.
  unfold manifest_wf. intros [Hv Hs]%andb_true_iff.
  unfold Rotate.manifest_of, Rotate.manifest_json, req.
  cbn -[uint_ok Rotate.segments_of fmap]. rewrite Hv, segments_round by done. by destruct m.
Qed.

Lemma manifest_json_wf m : manifest_wf m = true -> json_wf (Rotate.manifest_json m) = true.
Proof.
  unfold manifest_wf. intros [Hv Hs]%andb_true_iff.
  unfold Rotate.manifest_json. rewrite json_wf_obj. wf_members.
  apply json_wf_arr. intros s Hin. pose proof (proj1 (forallb_forall _ _) Hs s Hin) as Hw.
  unfold segment_wf in Hw. bool_prop. unfold Rotate.segment_json. rewrite json_wf_obj. wf_members.
Qed.

(** Saving makes the manifest the one that loads, and touches nothing else. *)
Lemma save_manifest_spec f dir m :
  fs_wf f -> manifest_wf m = true ->
  exists f', Rotate.save_manifest f dir m = Ok f' /\ fs_wf f' /\
    Rotate.load_manifest f' dir = Ok m /\
    (forall q, q <> Rotate.manifest_path dir -> q <> Rotate.segment_path dir tmp_name ->
               content_at f' q = content_at f q) /\
    (forall q, q <> Rotate.manifest_path dir -> q <> Rotate.segment_path dir tmp_name ->
               names f' !! q = names f !! q).
Proof.
  intros Hf Hm. unfold Rotate.save_manifest. rewrite tmp_path_eq.
  set (tmp := Rotate.segment_path dir tmp_name). set (mp := Rotate.manifest_path dir).
  assert (tmp <> mp) as Hne by (intros He; apply (segment_path_inj dir tmp_name Rotate.MANIFEST) in He; discriminate He).
  set (f1 := write_file f tmp 384 _).
  assert (fs_wf f1) as Hf1 by (by apply write_file_wf).
  pose proof (content_at_write_file f tmp 384
    (json_pretty (Rotate.manifest_json m)) tmp Hf) as Ht. rewrite decide_True in Ht by done.
  destruct (rename f1 tmp mp) as [f2|e] eqn:Hr.
  2: { exfalso. unfold rename in Hr. destruct (names f1 !! tmp) eqn:Hn; [done|].
       unfold content_at, lookup_path in Ht. fold f1 in Ht. by rewrite Hn in Ht. }
  exists f2. split; [done|]. assert (fs_wf f2) as Hf2 by (by eapply rename_wf).
  assert (content_at f2 mp = Some (json_pretty (Rotate.manifest_json m))) as Hc.
  { rewrite (content_at_rename f1 tmp mp f2 mp Hf1 Hr Hne). rewrite decide_True by done. exact Ht. }
  split; [done|]. split.
  - unfold Rotate.load_manifest. fold mp.
    rewrite (proj2 (exists_content f2 mp Hf2)) by (rewrite Hc; eauto). cbn [negb].
    rewrite read_to_string_content, Hc, json_pretty_utf8. cbn [map_err rbind].
    rewrite json_parse_pretty by (by apply manifest_json_wf). cbn [mbind option_bind].
    by rewrite manifest_round.
  - split; intros q Hq1 Hq2.
    + rewrite (content_at_rename f1 tmp mp f2 q Hf1 Hr Hne). rewrite !decide_False by done.
      unfold f1. rewrite content_at_write_file, decide_False by done. done.
    + unfold rename in Hr. destruct (names f1 !! tmp) as [i|]; [|done]. injection Hr as <-.
      cbn. rewrite lookup_insert_ne, lookup_delete_ne by done.
      unfold f1, write_file, open_trunc. destruct (names f !! tmp) as [j|]; cbn.
      * by rewrite write_fd_names, set_bytes_names.
      * rewrite write_fd_names. cbn. by rewrite lookup_insert_ne.
Qed.

(** ** Sealed segments *)

(** The manifest row of a segment that holds the entries [es] from [(q, p)] on. *)
Definition seg_matches (s : Rotate.Segment) (q : Z) (p : string) (es : list AuditEntry) : Prop :=
  es <> [] /\
  Rotate.seq_start s = q /\
  Rotate.seq_end s = q + Z.of_nat (length es) - 1 /\
  Rotate.entries s = Z.of_nat (length es) /\
  Rotate.first_prev_hmac s = p /\
  Rotate.last_hmac s = end_hmac p es /\
  Rotate.sha256 s = sha256_hex (zip_one Rotate.INNER_NAME (log_text es)) /\
  (exists sum now, Rotate.file s = Rotate.segment_file sum now /\ Rotate.sm_seq_start sum = q).

Fixpoint segs_ok (f : fs) (dir : string) (q : Z) (p : string)
    (l : list (Rotate.Segment * list AuditEntry)) : Prop :=
  match l with
  | [] => True
  | (s, es) :: l =>
    seg_matches s q p es /\
    content_at f (Rotate.segment_path dir (Rotate.file s))
      = Some (zip_one Rotate.INNER_NAME (log_text es)) /\
    segs_ok f dir (q + Z.of_nat (length es)) (end_hmac p es) l
  end.

Definition all_entries (l : list (Rotate.Segment * list AuditEntry)) : list AuditEntry :=
  mjoin l.*2.

Lemma all_entries_cons s es l : all_entries ((s, es) :: l) = es ++ all_entries l.
Proof. done. Qed.

Lemma all_entries_one s es : all_entries [(s, es)] = es.
Proof. apply app_nil_r. Qed.

Lemma all_entries_app a b : all_entries (a ++ b) = all_entries a ++ all_entries b.
Proof. unfold all_entries. by rewrite fmap_app, join_app. Qed.

Lemma segs_ok_app f dir q p a b :
  segs_ok f dir q p (a ++ b) <->
  segs_ok f dir q p a /\
  segs_ok f dir (q + Z.of_nat (length (all_entries a))) (end_hmac p (all_entries a)) b.
Proof.
  revert q p. induction a as [|[s es] a IH]; intros q p; cbn [segs_ok app].
  - cbn. rewrite Z.add_0_r. tauto.
  - rewrite IH, all_entries_cons. rewrite length_app, end_hmac_app, Nat2Z.inj_add, Z.add_assoc. tauto.
Qed.

(** Segments stay readable when their files are untouched. *)
Lemma segs_ok_frame f f' dir q p l :
  (forall s es, In (s, es) l -> content_at f' (Rotate.segment_path dir (Rotate.file s))
                                = content_at f (Rotate.segment_path dir (Rotate.file s))) ->
  segs_ok f dir q p l -> segs_ok f' dir q p l.
Proof.
  revert q p. induction l as [|[s es] l IH]; intros q p Hc; [done|].
  cbn [segs_ok]. intros (Hm & Hs & Hl). split; [done|]. split.
  - rewrite (Hc s es) by (by left). done.
  - apply IH; [|done]. intros s' es' Hin. apply (Hc s' es'). by right.
Qed.

Lemma segs_ok_in f dir q p l s es :
  0 <= q -> segs_ok f dir q p l -> In (s, es) l ->
  exists sum now, Rotate.file s = Rotate.segment_file sum now /\
    q <= Rotate.sm_seq_start sum < q + Z.of_nat (length (all_entries l)).
Proof.
  revert q p. induction l as [|[s' es'] l IH]; intros q p Hq; [done|].
  cbn [segs_ok]. intros (Hm & Hs & Hl) [Heq|Hin].
  - injection Heq as -> ->.
    destruct Hm as (Hne & _ & _ & _ & _ & _ & _ & sum & now & Hf & Hst).
    exists sum, now. split; [done|]. rewrite all_entries_cons, length_app.
    destruct es; [done|]. cbn [length]. lia.
  - destruct (IH (q + Z.of_nat (length es')) _ ltac:(lia) Hl Hin) as (sum & now & Hf & Hb).
    exists sum, now. split; [done|]. rewrite all_entries_cons, length_app. lia.
Qed.

Lemma segs_ok_wf f dir q p l :
  1 <= q -> q + Z.of_nat (length (all_entries l)) <= 2 ^ 64 ->
  segs_ok f dir q p l -> forallb segment_wf l.*1 = true.
Proof.
  revert q p. induction l as [|[s es] l IH]; intros q p Hq Hb; [done|].
  rewrite all_entries_cons, length_app in Hb.
  cbn [segs_ok]. intros (Hm & _ & Hl). cbn [fmap list_fmap forallb fst].
  rewrite (IH (q + Z.of_nat (length es)) (end_hmac p es) ltac:(lia) ltac:(lia) Hl), andb_true_r.
  destruct Hm as (Hne & E1 & E2 & E3 & _). unfold segment_wf, uint_ok, u64_max.
  rewrite E1, E2, E3. destruct es as [|e es]; [done|]. cbn [length] in *.
  change (2 ^ 64) with 18446744073709551616 in Hb.
  repeat (apply andb_true_iff; split); apply Z.leb_le; lia.
Qed.

(** ** Verifying sealed segments *)

Lemma read_segment_ok f dir s q p es :
  seg_matches s q p es ->
  content_at f (Rotate.segment_path dir (Rotate.file s))
    = Some (zip_one Rotate.INNER_NAME (log_text es)) ->
  Rotate.read_segment f dir s = Ok (log_text es).
Proof.
  intros (_ & _ & _ & _ & _ & _ & Hsha & _) Hc. unfold Rotate.read_segment.
  rewrite read_content, Hc. cbn [map_err rbind].
  rewrite Hsha, Secure.ct_eq_str_refl, unzip_zip. cbn [ok_or rbind]. by rewrite log_text_utf8.
Qed.

Lemma walk_segments_ok f dir key l q p n :
  segs_ok f dir q p l -> chained key q p (all_entries l) ->
  Forall (fun e => readable e = true) (all_entries l) ->
  1 <= q -> q + Z.of_nat (length (all_entries l)) < 2 ^ 64 ->
  walk_segments f dir key l.*1 {| expected_seq := q; cprev := p; checked := n |} =
  Ok (advance_cur {| expected_seq := q; cprev := p; checked := n |} (all_entries l), None).
Proof.
  revert q p n. induction l as [|[s es] l IH]; intros q p n.
  { intros. cbn. by rewrite advance_cur_nil. }
  cbn [segs_ok fmap list_fmap fst walk_segments]. rewrite all_entries_cons.
  intros (Hm & Hc & Hl) [Hch1 Hch2]%chained_app [Hr1 Hr2]%Forall_app Hq Hb.
  rewrite length_app in Hb.
  rewrite (read_segment_ok _ _ _ _ _ _ Hm Hc). cbn [rbind].
  rewrite (walk_log_text key es {| expected_seq := q; cprev := p; checked := n |} Hr1 Hch1). cbn [fst snd].
  pose proof (end_seq_count _ _ _ _ Hch1 ltac:(lia) ltac:(lia)) as Hend.
  destruct Hm as (_ & _ & _ & _ & _ & -> & _). unfold advance_cur. cbn [cprev expected_seq checked].
  rewrite String.eqb_refl. cbn [negb]. rewrite Hend in *.
  unfold advance_cur in IH. cbn [cprev expected_seq checked] in IH.
  rewrite IH by (done || lia).
  rewrite end_seq_app, end_hmac_app, Hend, length_app, Nat2Z.inj_add, Z.add_assoc. done.
Qed.

(** Segments sorted by their start stay as they are. *)
Lemma insert_seg_last s l :
  Forall (fun x => Rotate.seq_start x <= Rotate.seq_start s) l -> insert_seg s l = l ++ [s].
Proof.
  induction 1 as [|x l Hx _ IH]; [done|]. cbn [insert_seg app].
  rewrite (proj2 (Z.ltb_ge _ _) Hx). by rewrite IH.
Qed.

Lemma segs_starts f dir q p l :
  segs_ok f dir q p l ->
  Forall (fun x => Rotate.seq_start x <= q + Z.of_nat (length (all_entries l))) l.*1 /\
  (forall x, In x l.*1 -> q <= Rotate.seq_start x).
Proof.
  revert q p. induction l as [|[s es] l IH]; intros q p; [split; done|].
  cbn [segs_ok fmap list_fmap fst]. rewrite all_entries_cons, length_app.
  intros (Hm & _ & Hl). apply IH in Hl as [Hl1 Hl2]. destruct Hm as (_ & Hs & _).
  split.
  - constructor; [lia|]. eapply Forall_impl; [exact Hl1|]. cbn. lia.
  - intros x [<-|Hx]; [lia|]. specialize (Hl2 _ Hx). lia.
Qed.

Lemma sort_segments_sorted f dir q p l : segs_ok f dir q p l -> sort_segments l.*1 = l.*1.
Proof.
  unfold sort_segments.
  assert (forall acc, Forall (fun x => Rotate.seq_start x <= q) acc ->
    segs_ok f dir q p l ->
    fold_left (fun acc s => insert_seg s acc) l.*1 acc = acc ++ l.*1) as Hgen.
  { revert q p. induction l as [|[s es] l IH]; intros q p acc Hacc; cbn [fmap list_fmap fst fold_left].
    - by rewrite app_nil_r.
    - cbn [segs_ok]. intros (Hm & _ & Hl). destruct Hm as (_ & Hs & _).
      rewrite insert_seg_last by (by rewrite Hs).
      rewrite (fun Ha => IH _ _ (acc ++ [s]) Ha Hl).
      + by rewrite <- app_assoc.
      + apply Forall_app. split; [|constructor; [lia|done]].
        eapply Forall_impl; [exact Hacc|]. cbn. lia. }
  intros Hl. by rewrite Hgen.
Qed.

(** Recovery finds the end of the last segment. *)
Lemma max_by_end_last f dir q p l best :
  segs_ok f dir q p l ->
  match best with Some b => Rotate.seq_end b <= q - 1 | None => True end ->
  Rotate.max_by_end best l.*1 =
  match last l.*1 with Some s => Some s | None => best end.
Proof.
  revert q p best. induction l as [|[s es] l IH]; intros q p best; [done|].
  cbn [segs_ok fmap list_fmap fst Rotate.max_by_end]. intros (Hm & _ & Hl) Hb.
  destruct Hm as (Hne & _ & He & _).
  assert (match best with
          | Some b => if Rotate.seq_end s <? Rotate.seq_end b then Some b else Some s
          | None => Some s
          end = Some s) as ->.
  { destruct best as [b|]; [|done]. destruct (Z.ltb_spec (Rotate.seq_end s) (Rotate.seq_end b)); [|done].
    destruct es; [done|]. cbn [length] in *. lia. }
  rewrite (IH _ _ _ Hl) by lia. rewrite last_cons. by destruct (last l.*1).
Qed.
End Inv.
