(* ===== verification/AuditRefine.v ===== *)
(** * The audit log refines its abstract log

    [log_inv] relates a world (file system and in-memory state) to an abstract log.
    Appending, rotating and reopening preserve it; under it the whole-log verifier
    accepts with the exact number of entries. *)

From Stdlib Require Import ZArith Lia Ascii String.
From S2P Require Import Prelude Json Crypto Common Events Entry Fs AuditRotate AuditLog AuditChain AuditInv.
Import Events Entry Verify Log.
Open Scope string_scope.
Open Scope list_scope.
Open Scope Z_scope.

Section Refine.
Context `{JsonText, TimeText, Hmac, Hex, Sha256, Zip, Stamp}.

Record alog := {
  al_segs : list (Rotate.Segment * list AuditEntry);
  al_active : list AuditEntry;
}.

Definition total (a : alog) : list AuditEntry := all_entries (al_segs a) ++ al_active a.

Definition log_inv (w : world) (a : alog) : Prop :=
  fs_wf w.1 /\ path_ok (ldir w.2) (lpath w.2) /\
  names w.1 !! lpath w.2 = Some (lfile w.2) /\
  content_at w.1 (lpath w.2) = Some (log_text (al_active a)) /\
  Rotate.load_manifest w.1 (ldir w.2)
    = Ok {| Rotate.version := 1; Rotate.segments := (al_segs a).*1 |} /\
  segs_ok w.1 (ldir w.2) 1 Chain.GENESIS_HMAC (al_segs a) /\
  Forall (fun e => readable e = true) (total a) /\
  chained (lkey w.2) 1 Chain.GENESIS_HMAC (total a) /\
  lseq w.2 = Z.of_nat (length (total a)) /\
  llast w.2 = end_hmac Chain.GENESIS_HMAC (total a) /\
  1 + Z.of_nat (length (total a)) < 2 ^ 64.

(** ** Framing *)

Lemma load_manifest_frame f f' dir :
  fs_wf f -> fs_wf f' ->
  content_at f' (Rotate.manifest_path dir) = content_at f (Rotate.manifest_path dir) ->
  Rotate.load_manifest f' dir = Rotate.load_manifest f dir.
Proof.
  intros Hf Hf' Hc. unfold Rotate.load_manifest.
  assert (exists_ f' (Rotate.manifest_path dir) = exists_ f (Rotate.manifest_path dir)) as ->.
  { apply eq_true_iff_eq. rewrite !exists_content by done. by rewrite Hc. }
  by rewrite !read_to_string_content, Hc.
Qed.

(** A change of the active file leaves manifest and segments alone. *)
Lemma active_frame w a f' :
  log_inv w a -> fs_wf f' ->
  (forall q, q <> lpath w.2 -> content_at f' q = content_at w.1 q) ->
  Rotate.load_manifest f' (ldir w.2)
    = Ok {| Rotate.version := 1; Rotate.segments := (al_segs a).*1 |} /\
  segs_ok f' (ldir w.2) 1 Chain.GENESIS_HMAC (al_segs a).
Proof.
  intros (Hf & Hp & _ & _ & Hm & Hs & _) Hf' Hq. split.
  - rewrite <- Hm. apply load_manifest_frame; [done..|]. apply Hq.
    rewrite manifest_path_eq. intros He. by eapply active_not_segment.
  - eapply segs_ok_frame; [|exact Hs]. intros s es _. apply Hq. intros He.
    by eapply active_not_segment.
Qed.

Lemma fd_content w a : log_inv w a -> fd_bytes w.1 (lfile w.2) = log_text (al_active a).
Proof.
  intros (Hf & _ & Hn & Hc & _). destruct Hf as (Hi & _).
  rewrite (content_at_fd _ _ _ Hn (Hi _ _ Hn)) in Hc. by simplify_eq.
Qed.

Lemma write_active f i b q p :
  fs_wf f -> names f !! p = Some i -> q <> p -> content_at (write_fd f i b) q = content_at f q.
Proof.
  intros Hf Hp Hne. pose proof Hf as (Hi & _ & Hj).
  rewrite content_at_write_fd by eauto. rewrite decide_False; [done|].
  intros Hq. apply Hne. by eapply Hj.
Qed.

(** ** Appending one entry *)

Lemma next_entry_facts w a now act ev :
  log_inv w a -> 2 + Z.of_nat (length (total a)) < 2 ^ 64 ->
  event_wf ev = true -> collides ev = false ->
  let e := next_entry w.2 now act ev in
  readable e = true /\ seq e = 1 + Z.of_nat (length (total a)) /\
  chained (lkey w.2) 1 Chain.GENESIS_HMAC (total a ++ [e]).
Proof.
  intros (_ & _ & _ & _ & _ & _ & _ & Hch & Hseq & Hlast & Hb) Hb2 Hev Hcol e.
  assert (seq e = 1 + Z.of_nat (length (total a))) as Hq.
  { cbn. rewrite Hseq, Z.mod_small by lia. lia. }
  split; [|split; [done|]].
  - unfold readable, entry_wf, uint_ok, u64_max. rewrite Hq. cbn [event].
    change (2 ^ 64) with 18446744073709551616 in *.
    rewrite (proj2 (Z.leb_le _ _)), (proj2 (Z.leb_le _ _)) by lia. cbn. by rewrite Hev, Hcol.
  - apply chained_app. split; [done|].
    rewrite (end_seq_count _ _ _ _ Hch) by lia. cbn [chained].
    split; [done|]. split; [done|]. split; [done|done].
Qed.

Lemma end_hmac_snoc p es e : end_hmac p (es ++ [e]) = hmac e.
Proof. by rewrite end_hmac_app. Qed.

Definition append_plain (now : Z) (act : string) (ev : AuditEvent) (w : world) : world :=
  let e := next_entry w.2 now act ev in
  (write_fd w.1 (lfile w.2) (print_entry e +:+ nl),
   {| lfile := lfile w.2; lseq := seq e; llast := hmac e; lkey := lkey w.2; ldir := ldir w.2;
      lpath := lpath w.2; lrotate := lrotate w.2 |}).

Lemma append_eq now act ev w :
  append WriteOk now act ev w =
  if 0 <? Rotate.max_bytes (lrotate w.2)
  then signore (rotate_locked (lpath w.2)
         {| Rotate.max_bytes := Rotate.max_bytes (lrotate w.2); Rotate.max_age_days := 0 |} now)
         (append_plain now act ev w)
  else (append_plain now act ev w, Ok tt).
Proof. destruct w as [f w]. unfold append, sbind, sget, write_line, advance, smodify, append_plain. cbn.
  by destruct (0 <? _). Qed.

Lemma append_plain_inv w a now act ev :
  log_inv w a -> 2 + Z.of_nat (length (total a)) < 2 ^ 64 ->
  event_wf ev = true -> collides ev = false ->
  log_inv (append_plain now act ev w)
    {| al_segs := al_segs a; al_active := al_active a ++ [next_entry w.2 now act ev] |}.
Proof.
  intros Hinv Hb Hev Hcol.
  destruct (next_entry_facts w a now act ev Hinv Hb Hev Hcol) as (Hr & Hq & Hch).
  pose proof (fd_content _ _ Hinv) as Hfd.
  pose proof Hinv as (Hf & Hp & Hn & Hc & Hm & Hs & Hrd & _ & Hseq & Hlast & _).
  assert (fs_wf (append_plain now act ev w).1) as Hf' by (by apply write_fd_wf).
  destruct (active_frame w a (append_plain now act ev w).1 Hinv Hf') as [Hm' Hs'].
  { intros q Hne. by eapply write_active. }
  set (e := next_entry w.2 now act ev) in *.
  assert (total {| al_segs := al_segs a; al_active := al_active a ++ [e] |} = total a ++ [e])
    as Htot by (unfold total; cbn; by rewrite app_assoc).
  unfold log_inv. rewrite Htot, length_app, Nat2Z.inj_add. cbn [length].
  split; [done|]. split; [done|]. split; [cbn; by rewrite write_fd_names|].
  split.
  { cbn [append_plain fst snd lpath al_active]. pose proof Hf as (Hi & _).
    rewrite content_at_write_fd by eauto. rewrite decide_True by done.
    rewrite Hfd, log_text_app. done. }
  split; [done|]. split; [done|]. split; [by apply Forall_app; auto|]. split; [done|].
  split; [cbn [append_plain fst snd lseq]; fold e; lia|].
  split; [by rewrite end_hmac_snoc|]. lia.
Qed.

(** ** Summaries of a log text *)

Lemma sum_fold es s0 p0 t0 q0 h0 u0 n0 :
  Forall (fun e => readable e = true) es ->
  fold_left Rotate.sum_step (print_entry <$> es)
    {| Rotate.a_start := Some s0; Rotate.a_prev := p0; Rotate.a_first := Some t0;
       Rotate.a_end := q0; Rotate.a_last := h0; Rotate.a_ts := Some u0; Rotate.a_n := n0 |} =
  {| Rotate.a_start := Some s0; Rotate.a_prev := p0; Rotate.a_first := Some t0;
     Rotate.a_end := fold_left (fun _ e => seq e) es q0;
     Rotate.a_last := end_hmac h0 es;
     Rotate.a_ts := Some (fold_left (fun _ e => ts e) es u0);
     Rotate.a_n := n0 + Z.of_nat (length es) |}.
Proof.
  intros Hr. revert q0 h0 u0 n0. induction Hr as [|e es He _ IH]; intros q0 h0 u0 n0.
  { cbn. by rewrite Z.add_0_r. }
  rewrite fmap_cons. cbn [fold_left]. unfold Rotate.sum_step at 2.
  rewrite print_not_blank, parse_print by done.
  cbn [Rotate.a_start Rotate.a_prev Rotate.a_first Rotate.a_n]. rewrite IH.
  cbn. f_equal. lia.
Qed.

Lemma summarize_log_text e es :
  Forall (fun e => readable e = true) (e :: es) ->
  Rotate.summarize (log_text (e :: es)) =
  Some {| Rotate.sm_seq_start := seq e;
          Rotate.sm_seq_end := fold_left (fun _ e => seq e) es (seq e);
          Rotate.sm_entries := Z.of_nat (length (e :: es));
          Rotate.sm_first_prev_hmac := prev_hmac e;
          Rotate.sm_last_hmac := end_hmac (hmac e) es;
          Rotate.sm_ts_first := ts e;
          Rotate.sm_ts_last := fold_left (fun _ e => ts e) es (ts e) |}.
Proof.
  intros [He Hes]%Forall_cons. unfold Rotate.summarize. rewrite log_text_lines, fmap_cons.
  cbn [fold_left].
  assert (forall a, Rotate.a_start a = None ->
    Rotate.sum_step a (print_entry e) =
    {| Rotate.a_start := Some (seq e); Rotate.a_prev := prev_hmac e;
       Rotate.a_first := Some (ts e); Rotate.a_end := seq e; Rotate.a_last := hmac e;
       Rotate.a_ts := Some (ts e); Rotate.a_n := Rotate.a_n a + 1 |}) as Hfirst.
  { intros a Ha. unfold Rotate.sum_step. by rewrite print_not_blank, parse_print, Ha. }
  rewrite Hfirst, sum_fold by done. cbn -[Z.add Z.of_nat].
  replace (0 + 1 + Z.of_nat (length es)) with (Z.of_nat (S (length es))) by lia. done.
Qed.

Lemma last_seq key q p e es :
  chained key q p (e :: es) -> 0 <= q -> q + Z.of_nat (length (e :: es)) <= 2 ^ 64 ->
  fold_left (fun _ e => seq e) es (seq e) = q + Z.of_nat (length (e :: es)) - 1.
Proof.
  revert q p e. induction es as [|x es IH]; intros q p e (<- & _ & _ & Hc) Hq Hl.
  { cbn. lia. }
  cbn [fold_left length] in *. rewrite Z.mod_small in Hc by lia.
  rewrite (IH _ _ _ Hc) by (cbn [length]; lia). cbn [length]. lia.
Qed.

(** ** Rotation *)

Lemma seg_matches_make key q p es sum now :
  chained key q p es -> Forall (fun e => readable e = true) es ->
  1 <= q -> q + Z.of_nat (length es) <= 2 ^ 64 ->
  Rotate.summarize (log_text es) = Some sum ->
  seg_matches (Rotate.make_segment (log_text es) sum now) q p es.
Proof.
  intros Hch Hr Hq Hb Hsum. destruct es as [|e es]; [done|].
  rewrite summarize_log_text in Hsum by done.
  pose proof (last_seq _ _ _ _ _ Hch ltac:(lia) Hb) as Hl.
  pose proof Hch as (Hs & Hp & _). rewrite Hl in Hsum.
  assert (exists s' n', Rotate.file (Rotate.make_segment (log_text (e :: es)) sum now)
    = Rotate.segment_file s' n' /\ Rotate.sm_seq_start s' = q) as Hfile.
  { exists sum, now. split; [done|]. by injection Hsum as <-. }
  injection Hsum as <-. unfold seg_matches, Rotate.make_segment in *.
  repeat (split; [done|]). done.
Qed.

(** The state after a rotation, and the abstract log it stands for. *)
Lemma seal_active w a sum now :
  log_inv w a -> Rotate.summarize (log_text (al_active a)) = Some sum ->
  exists f',
    Rotate.seal_segment w.1 (ldir w.2) (log_text (al_active a)) sum now
      = Ok (f', Rotate.make_segment (log_text (al_active a)) sum now) /\
    fs_wf f' /\ names f' !! lpath w.2 = Some (lfile w.2) /\
    content_at f' (lpath w.2) = Some (log_text (al_active a)) /\
    Rotate.load_manifest f' (ldir w.2)
      = Ok {| Rotate.version := 1;
              Rotate.segments := (al_segs a).*1 ++
                [Rotate.make_segment (log_text (al_active a)) sum now] |} /\
    segs_ok f' (ldir w.2) 1 Chain.GENESIS_HMAC
      (al_segs a ++ [(Rotate.make_segment (log_text (al_active a)) sum now, al_active a)]).
Proof.
  intros (Hf & Hp & Hn & Hc & Hm & Hs & Hrd & Hch & Hseq & Hlast & Hb) Hsum.
  set (seg := Rotate.make_segment _ sum now).
  unfold total in *. rewrite length_app in Hb, Hseq.
  apply chained_app in Hch as [Hch1 Hch2]. apply Forall_app in Hrd as [Hr1 Hr2].
  rewrite (end_seq_count _ _ _ _ Hch1) in Hch2 by lia.
  pose proof (seg_matches_make _ _ _ _ sum now Hch2 Hr2 ltac:(lia) ltac:(lia) Hsum) as Hseg.
  fold seg in Hseg. unfold Rotate.seal_segment. fold seg.
  set (f1 := write_file w.1 (Rotate.segment_path (ldir w.2) (Rotate.file seg)) 384 _).
  assert (fs_wf f1) as Hf1 by (by apply write_file_wf).
  assert (forall q, content_at f1 q =
    if decide (Rotate.segment_path (ldir w.2) (Rotate.file seg) = q)
    then Some (zip_one Rotate.INNER_NAME (log_text (al_active a))) else content_at w.1 q) as Hc1
    by (intros; by apply content_at_write_file).
  pose proof (segment_file_not_manifest sum now) as [Hnm Hnt].
  assert (Rotate.load_manifest f1 (ldir w.2) = Rotate.load_manifest w.1 (ldir w.2)) as ->.
  { apply load_manifest_frame; [done..|]. rewrite Hc1, decide_False; [done|].
    rewrite manifest_path_eq. intros He%segment_path_inj. by apply Hnm. }
  rewrite Hm. cbn [rbind Rotate.version Rotate.segments]. cbv zeta.
  change (if 1 =? 0 then 1 else 1) with 1.
  set (segs' := al_segs a ++ [(seg, al_active a)]).
  assert (segs'.*1 = (al_segs a).*1 ++ [seg]) as Hfst by (unfold segs'; by rewrite fmap_app).
  assert (segs_ok f1 (ldir w.2) 1 Chain.GENESIS_HMAC segs') as Hs1.
  { apply segs_ok_app. split.
    - eapply segs_ok_frame; [|exact Hs]. intros s es Hin. rewrite Hc1, decide_False; [done|].
      intros He%segment_path_inj.
      destruct (segs_ok_in _ _ 1 _ _ _ _ ltac:(lia) Hs Hin) as (sum' & now' & Hfile & Hrange).
      rewrite Hfile in He. apply segment_file_start in He; [|destruct Hseg as (_ & E & _); cbn in E; lia|lia].
      destruct Hseg as (_ & E & _). cbn in E. lia.
    - cbn [segs_ok]. split; [done|]. split; [|done]. by rewrite Hc1, decide_True. }
  destruct (save_manifest_spec f1 (ldir w.2)
    {| Rotate.version := 1; Rotate.segments := segs'.*1 |} Hf1) as (f2 & Hsv & Hf2 & Hl2 & Hc2 & Hn2).
  { unfold manifest_wf. cbn [Rotate.version Rotate.segments].
    rewrite (segs_ok_wf f1 (ldir w.2) 1 Chain.GENESIS_HMAC segs'); [done|lia| |done].
    unfold segs'. rewrite all_entries_app, length_app, all_entries_one. lia. }
  rewrite Hfst in Hsv, Hl2. rewrite Hsv. cbn [rbind]. exists f2. split; [done|]. split; [done|].
  assert (forall x, lpath w.2 <> Rotate.segment_path (ldir w.2) x) as Hne
    by (intros; by apply active_not_segment).
  split.
  { rewrite Hn2 by apply Hne. unfold f1, write_file, open_trunc.
    destruct (names w.1 !! Rotate.segment_path _ _); cbn.
    - by rewrite write_fd_names, set_bytes_names.
    - rewrite write_fd_names. cbn. rewrite lookup_insert_ne; [done|]. intros He. by apply (Hne (Rotate.file seg)). }
  split.
  { rewrite Hc2, Hc1, decide_False by (apply Hne || (intros He; by apply (Hne (Rotate.file seg)))). done. }
  split; [done|].
  eapply segs_ok_frame; [|exact Hs1]. intros s es Hin. apply Hc2.
  - rewrite manifest_path_eq. intros He%segment_path_inj.
    destruct (segs_ok_in _ _ 1 _ _ _ _ ltac:(lia) Hs1 Hin) as (sum' & now' & Hfile & _).
    rewrite Hfile in He. by apply (segment_file_not_manifest sum' now').
  - intros He%segment_path_inj.
    destruct (segs_ok_in _ _ 1 _ _ _ _ ltac:(lia) Hs1 Hin) as (sum' & now' & Hfile & _).
    rewrite Hfile in He. by apply (segment_file_not_manifest sum' now').
Qed.

(** Truncating the active file after sealing. *)
Lemma truncate_inv w a sum now f' :
  log_inv w a -> Rotate.summarize (log_text (al_active a)) = Some sum ->
  Rotate.seal_segment w.1 (ldir w.2) (log_text (al_active a)) sum now
    = Ok (f', Rotate.make_segment (log_text (al_active a)) sum now) ->
  exists w', truncate_active (lpath w.2) (f', w.2) = (w', Ok tt) /\
    lpath w'.2 = lpath w.2 /\ ldir w'.2 = ldir w.2 /\ lkey w'.2 = lkey w.2 /\
    lrotate w'.2 = lrotate w.2 /\
    log_inv w'
      {| al_segs := al_segs a ++ [(Rotate.make_segment (log_text (al_active a)) sum now,
                                   al_active a)];
         al_active := [] |}.
Proof.
  intros Hinv Hsum Hseal. set (seg := Rotate.make_segment _ sum now) in *.
  destruct (seal_active w a sum now Hinv Hsum) as (f'' & Hseal' & Hf & Hn & Hc & Hm & Hs).
  rewrite Hseal in Hseal'. injection Hseal' as <-. fold seg in Hm, Hs.
  destruct (open_trunc_spec f' (lpath w.2) 384 Hf) as (Hn1 & Hi1 & Hb1 & Hc1).
  pose proof (open_trunc_wf f' (lpath w.2) 384 Hf) as Hf1.
  unfold truncate_active, smodify. destruct (open_trunc f' (lpath w.2) 384) as [f1 i] eqn:Ht.
  cbn [fst snd] in *. unfold open_append. rewrite Hn1.
  eexists. split; [done|]. split; [done|]. split; [done|]. split; [done|]. split; [done|].
  pose proof Hinv as (_ & Hp & _ & _ & _ & _ & Hr & Hch & Hseq & Hlast & Hb).
  assert (forall x, lpath w.2 <> Rotate.segment_path (ldir w.2) x) as Hne
    by (intros; by apply active_not_segment).
  assert (total {| al_segs := al_segs a ++ [(seg, al_active a)]; al_active := [] |} = total a)
    as Htot by (unfold total; cbn [al_segs al_active]; by rewrite all_entries_app, all_entries_one, app_nil_r).
  unfold log_inv. rewrite Htot. cbn [fst snd ldir lpath lfile lkey lseq llast al_segs al_active].
  split; [done|]. split; [done|]. split; [done|].
  split; [by rewrite Hc1, decide_True|]. split.
  { rewrite fmap_app. cbn. rewrite <- Hm. apply load_manifest_frame; [done..|].
    rewrite Hc1, decide_False; [done|]. apply Hne. }
  split; [|done].
  eapply segs_ok_frame; [|exact Hs]. intros s es _. rewrite Hc1, decide_False; [done|]. apply Hne.
Qed.

Definition same_log (w w' : world) : Prop :=
  lpath w'.2 = lpath w.2 /\ ldir w'.2 = ldir w.2 /\ lkey w'.2 = lkey w.2.

Lemma rotate_inv w a cfg now :
  log_inv w a ->
  exists w' r a', rotate_locked (lpath w.2) cfg now w = (w', Ok r) /\
    log_inv w' a' /\ total a' = total a /\ same_log w w'.
Proof.
  intros Hinv. unfold rotate_locked, sret, sbind, sget, slift.
  destruct (Rotate.enabled cfg); cbn [negb]; [|by exists w, None, a].
  pose proof Hinv as (Hf & Hp & Hn & Hc & Hm & Hs & Hr & _).
  assert (rotation_due w (lpath w.2) cfg now = Ok None \/
          rotation_due w (lpath w.2) cfg now = Ok (Some (log_text (al_active a)))) as Hdue.
  { unfold rotation_due. rewrite read_to_string_content, Hc, log_text_utf8. cbn [map_err rbind].
    repeat case_match; auto. }
  destruct Hdue as [->| ->]; [by exists w, None, a|].
  destruct (Rotate.summarize (log_text (al_active a))) as [sum|] eqn:Hsum; [|by exists w, None, a].
  destruct (seal_active w a sum now Hinv Hsum) as (f' & Hseal & _).
  destruct (truncate_inv w a sum now f' Hinv Hsum Hseal) as (w' & Ht & Hp' & Hd' & Hk' & _ & Hinv').
  unfold seal. destruct w as [f w]. cbn [fst snd] in *. rewrite Hseal, Ht.
  exists w', (Some (Rotate.make_segment (log_text (al_active a)) sum now)).
  eexists. split; [done|]. split; [exact Hinv'|].
  split; [|done]. unfold total. cbn [al_segs al_active]. by rewrite all_entries_app, all_entries_one, app_nil_r.
Qed.

Lemma append_inv w a now act ev :
  log_inv w a -> 2 + Z.of_nat (length (total a)) < 2 ^ 64 ->
  event_wf ev = true -> collides ev = false ->
  exists w' a', append WriteOk now act ev w = (w', Ok tt) /\ log_inv w' a' /\
    total a' = total a ++ [next_entry w.2 now act ev] /\ same_log w w'.
Proof.
  intros Hinv Hb Hev Hcol. rewrite append_eq.
  pose proof (append_plain_inv w a now act ev Hinv Hb Hev Hcol) as Hinv1.
  set (a1 := {| al_segs := al_segs a; al_active := al_active a ++ [_] |}) in *.
  assert (total a1 = total a ++ [next_entry w.2 now act ev]) as Ht
    by (unfold total; cbn; by rewrite app_assoc).
  destruct (0 <? _); [|by exists (append_plain now act ev w), a1].
  destruct (rotate_inv _ _ {| Rotate.max_bytes := Rotate.max_bytes (lrotate w.2);
                              Rotate.max_age_days := 0 |} now Hinv1)
    as (w' & r & a' & Hrot & Hinv' & Ht' & Hsame).
  unfold signore. cbn [append_plain snd lpath] in Hrot. rewrite Hrot.
  exists w', a'. split; [done|]. split; [done|]. split; [congruence|]. exact Hsame.
Qed.

(** ** Verification *)

Lemma anchor_chained key es :
  Forall (fun e => readable e = true) es -> chained key 1 Chain.GENESIS_HMAC es ->
  anchor (log_text es) = {| expected_seq := 1; cprev := Chain.GENESIS_HMAC; checked := 0 |}.
Proof.
  intros Hr Hc. rewrite anchor_log_text by done. destruct es as [|e es]; [done|].
  by destruct Hc as (-> & _).
Qed.

Lemma verify_all_inv w a :
  log_inv w a ->
  verify_all w.1 (ldir w.2) (lkey w.2) (lpath w.2) =
  Ok {| entries_checked := Z.of_nat (length (total a)); ok := true; first_violation := None |}.
Proof.
  intros (Hf & Hp & Hn & Hc & Hm & Hs & Hr & Hch & Hseq & Hlast & Hb).
  unfold verify_all. rewrite Hm. cbn [rbind Rotate.segments].
  rewrite (sort_segments_sorted _ _ _ _ _ Hs).
  assert (exists_ w.1 (lpath w.2) = true) as He by (apply exists_content; [done|rewrite Hc; eauto]).
  assert (read_to_string w.1 (lpath w.2) = Ok (log_text (al_active a))) as Hread
    by (by rewrite read_to_string_content, Hc, log_text_utf8).
  unfold total in *. apply Forall_app in Hr as [Hr1 Hr2]. rewrite length_app in Hb.
  destruct (al_segs a) as [|[s es] l] eqn:Hsegs.
  - cbn [fmap list_fmap]. unfold verify_log. rewrite He, Hread. cbn [negb map_err rbind].
    cbn [all_entries] in *. change (all_entries [] ++ al_active a) with (al_active a) in *.
    rewrite (anchor_chained (lkey w.2)) by done. rewrite walk_log_text by done.
    unfold result_of. cbn. done.
  - apply chained_app in Hch as [Hch1 Hch2]. cbn [fmap list_fmap fst].
    pose proof Hs as (Hseg & _). destruct Hseg as (_ & Hst & _ & _ & Hfp & _). rewrite Hst.
    change (1 =? 1) with true. cbn match.
    rewrite <- Hsegs in *.
    assert (s :: l.*1 = (al_segs a).*1) as -> by (by rewrite Hsegs).
    rewrite (walk_segments_ok _ _ _ _ _ _ 0 Hs Hch1 Hr1) by lia. cbn [rbind snd fst].
    rewrite He, Hread. cbn [map_err rbind].
    rewrite walk_log_text by done. unfold result_of. cbn [fst snd]. unfold advance_cur.
    cbn [checked]. rewrite length_app, Nat2Z.inj_add. done.
Qed.

(** ** Reopening *)

Lemma scan_fold es q h :
  Forall (fun e => readable e = true) es ->
  fold_left scan_step (print_entry <$> es) (q, h) =
  (fold_left (fun _ e => seq e) es q, end_hmac h es).
Proof.
  intros Hr. revert q h. induction Hr as [|e es He _ IH]; intros q h; [done|].
  rewrite fmap_cons. cbn [fold_left]. unfold scan_step at 2.
  rewrite print_not_blank, parse_print by done. by rewrite IH.
Qed.

Lemma last_segment f dir q p l :
  segs_ok f dir q p l -> l <> [] ->
  exists s, last l.*1 = Some s /\
    Rotate.seq_end s = q + Z.of_nat (length (all_entries l)) - 1 /\
    Rotate.last_hmac s = end_hmac p (all_entries l).
Proof.
  revert q p. induction l as [|[s es] l IH]; intros q p; [done|].
  cbn [segs_ok fmap list_fmap fst]. rewrite all_entries_cons, length_app, end_hmac_app.
  intros (Hm & _ & Hl) _. destruct l as [|sl l].
  - exists s. destruct Hm as (_ & _ & He & _ & _ & Hh & _). cbn. split; [done|].
    rewrite He, Hh. split; [lia|done].
  - destruct (IH _ _ Hl ltac:(done)) as (s' & Hs' & He & Hh). exists s'.
    rewrite last_cons, Hs'. split; [done|]. rewrite He, Hh. split; [lia|done].
Qed.

Lemma scan_tail_inv w a :
  log_inv w a -> scan_tail w.1 (ldir w.2) (lpath w.2) = Ok (lseq w.2, llast w.2).
Proof.
  intros (Hf & Hp & Hn & Hc & Hm & Hs & Hr & Hch & Hseq & Hlast & Hb). unfold scan_tail.
  rewrite (proj2 (exists_content _ _ Hf)) by (rewrite Hc; eauto).
  rewrite read_to_string_content, Hc, log_text_utf8. cbn [map_err rbind].
  unfold total in *. apply Forall_app in Hr as [_ Hr2]. apply chained_app in Hch as [Hch1 Hch2].
  rewrite length_app in Hb, Hseq. rewrite log_text_lines, scan_fold by done.
  rewrite (end_seq_count _ _ _ _ Hch1) in Hch2 by lia.
  destruct (al_active a) as [|e es] eqn:Ha.
  - cbn [fold_left fst]. rewrite app_nil_r in Hlast. cbn [length] in Hseq.
    rewrite Nat.add_0_r in Hseq. cbn [rbind fst].
    unfold Rotate.recover_tail. rewrite Hm. cbn [Rotate.segments Z.eqb].
    rewrite (max_by_end_last _ _ _ _ _ None Hs) by done.
    destruct (decide (al_segs a = [])) as [E|Hne].
    + rewrite E in *. cbn. rewrite Hseq, Hlast. done.
    + destruct (last_segment _ _ _ _ _ Hs Hne) as (s & -> & He & Hh).
      rewrite He, Hh, Hseq, Hlast. do 2 f_equal. lia.
  - pose proof (last_seq _ _ _ _ _ Hch2 ltac:(lia) ltac:(lia)) as Hl.
    cbn [fold_left]. rewrite Hl. cbn [rbind fst].
    rewrite (proj2 (Z.eqb_neq _ _)) by (cbn [length]; lia).
    rewrite Hseq, Hlast, end_hmac_app. do 2 f_equal. cbn [length]. lia.
Qed.

Definition rotation_off (w : LogInner) : LogInner :=
  {| lfile := lfile w; lseq := lseq w; llast := llast w; lkey := lkey w; ldir := ldir w;
     lpath := lpath w; lrotate := ROTATE_OFF |}.

Lemma reopen_inv w a :
  log_inv w a ->
  open_with_key w.1 (ldir w.2) (lpath w.2) (lkey w.2) = Ok (w.1, rotation_off w.2).
Proof.
  intros Hinv. unfold open_with_key. rewrite (scan_tail_inv _ _ Hinv). cbn [rbind fst snd].
  pose proof Hinv as (_ & _ & Hn & _). unfold open_append. by rewrite Hn.
Qed.

(** The world after one line was written and the state not advanced by a rotation. *)
Lemma written_line w a b :
  log_inv w a ->
  content_at (write_fd w.1 (lfile w.2) b) (lpath w.2) = Some (log_text (al_active a) +:+ b) /\
  fs_wf (write_fd w.1 (lfile w.2) b) /\
  Rotate.load_manifest (write_fd w.1 (lfile w.2) b) (ldir w.2)
    = Ok {| Rotate.version := 1; Rotate.segments := (al_segs a).*1 |} /\
  segs_ok (write_fd w.1 (lfile w.2) b) (ldir w.2) 1 Chain.GENESIS_HMAC (al_segs a).
Proof.
  intros Hinv. pose proof (fd_content _ _ Hinv) as Hfd.
  pose proof Hinv as (Hf & Hp & Hn & Hc & _).
  assert (fs_wf (write_fd w.1 (lfile w.2) b)) as Hf' by (by apply write_fd_wf).
  destruct (active_frame w a _ Hinv Hf') as [Hm' Hs'].
  { intros q Hne. by eapply write_active. }
  split; [|done]. pose proof Hf as (Hi & _).
  rewrite content_at_write_fd by eauto. rewrite decide_True by done. by rewrite Hfd.
Qed.

(** ** Runs of the log *)

(** What the daemon does with an open log, as far as it keeps the chain: appends that
    succeed, of every kind of event but those with a member that an entry has itself
    ([collides]: [WorkspaceShredded] alone); appends whose write fails before its
    first byte; rotations, changes of their configuration, and restarts. Not among
    them are the four things that break the chain, each with its theorem in
    [AuditTheorems]: an append of a colliding event, an append that fails after it
    wrote, a prune, and a stop in the middle of a rotation. The counter stays
    below its width. *)
Inductive step : world -> world -> Prop :=
| StepAppend now act ev w w' :
    event_wf ev = true -> collides ev = false -> lseq w.2 + 2 < 2 ^ 64 ->
    append WriteOk now act ev w = (w', Ok tt) -> step w w'
| StepRefused now act ev w w' r :
    append (TornAfter 0) now act ev w = (w', r) -> step w w'
| StepRotate cfg now w w' r :
    maybe_rotate (lpath w.2) cfg now w = (w', Ok r) -> step w w'
| StepConfig cfg w w' : set_rotation cfg w = (w', Ok tt) -> step w w'
| StepReopen w w' :
    open_with_key w.1 (ldir w.2) (lpath w.2) (lkey w.2) = Ok w' -> step w w'.

(** A write that fails before its first byte leaves the log as it was. *)
Lemma refused_inv w a now act ev w' r :
  log_inv w a -> append (TornAfter 0) now act ev w = (w', r) ->
  log_inv w' a /\ r = Err (Io WriteFailed).
Proof.
  intros Hinv Happ.
  assert (w' = (write_fd w.1 (lfile w.2) "", w.2) /\ r = Err (Io WriteFailed)) as [-> ->].
  { destruct w as [f l]. unfold append in Happ. cbn in Happ. by injection Happ as <- <-. }
  split; [|done].
  destruct (written_line w a "" Hinv) as (Hc & Hf & Hm & Hs).
  rewrite string_app_nil_r in Hc.
  destruct w as [f l]. unfold log_inv in *. cbn [fst snd] in *.
  destruct Hinv as (_ & Hp & Hn & _ & _ & _ & Hr). rewrite write_fd_names. auto 10.
Qed.

Lemma step_inv w w' a :
  log_inv w a -> step w w' -> exists a', log_inv w' a' /\ total a `prefix_of` total a'.
Proof.
  intros Hinv Hstep.
  destruct Hstep as [now act ev w w' Hev Hcol Hb Happ|now act ev w w' r Href|cfg now w w' r Hrot
    |cfg w w' Hset|w w' Hop].
  - assert (2 + Z.of_nat (length (total a)) < 2 ^ 64) as Hb'.
    { destruct Hinv as (_ & _ & _ & _ & _ & _ & _ & _ & Hseq & _). lia. }
    destruct (append_inv w a now act ev Hinv Hb' Hev Hcol) as (w1 & a' & Happ' & Hinv' & Ht & _).
    rewrite Happ in Happ'. injection Happ' as <-. exists a'. split; [done|].
    rewrite Ht. by apply prefix_app_r.
  - destruct (refused_inv _ _ _ _ _ _ _ Hinv Href) as [Hinv' _]. by exists a.
  - unfold maybe_rotate in Hrot. destruct (Rotate.enabled cfg) eqn:He; cbn [negb] in Hrot.
    + destruct (rotate_inv w a cfg now Hinv) as (w1 & r1 & a' & Hrot' & Hinv' & Ht & _).
      rewrite Hrot in Hrot'. injection Hrot' as <- <-. exists a'. by rewrite Ht.
    + injection Hrot as <- <-. by exists a.
  - injection Hset as <-. exists a. destruct w as [f w], w as []. done.
  - rewrite (reopen_inv _ _ Hinv) in Hop. injection Hop as <-. exists a.
    destruct w as [f w], w as []. done.
Qed.

Lemma steps_inv w w' a :
  log_inv w a -> rtc step w w' -> exists a', log_inv w' a' /\ total a `prefix_of` total a'.
Proof.
  intros Hinv Hs. revert a Hinv. induction Hs as [w|w1 w2 w3 Hstep _ IH]; intros a Hinv; [by exists a|].
  destruct (step_inv _ _ _ Hinv Hstep) as (a2 & Hinv2 & Hp2).
  destruct (IH _ Hinv2) as (a3 & Hinv3 & Hp3). exists a3. split; [done|]. by etrans.
Qed.

(** A log opened where there is no log and no manifest. *)
Lemma open_fresh_inv f dir path key :
  fs_wf f -> path_ok dir path -> content_at f path = None ->
  content_at f (Rotate.manifest_path dir) = None ->
  exists w, open_with_key f dir path key = Ok w /\ ldir w.2 = dir /\ lpath w.2 = path /\
    lkey w.2 = key /\ log_inv w {| al_segs := []; al_active := [] |}.
Proof.
  intros Hf Hp Hc Hm. unfold open_with_key, scan_tail.
  rewrite (proj2 (exists_content_false _ _ Hf)) by done. cbn [rbind fst Z.eqb].
  assert (Rotate.load_manifest f dir = Ok {| Rotate.version := 1; Rotate.segments := [] |}) as Hl.
  { unfold Rotate.load_manifest. by rewrite (proj2 (exists_content_false _ _ Hf)). }
  unfold Rotate.recover_tail. rewrite Hl. cbn [Rotate.segments Rotate.max_by_end rbind fst snd].
  unfold open_append. assert (names f !! path = None) as Hn.
  { destruct (names f !! path) as [i|] eqn:E; [|done].
    destruct Hf as (Hi & _). destruct (Hi _ _ E) as [n Hin].
    unfold content_at, lookup_path in Hc. rewrite E in Hc. simpl in Hc. by rewrite Hin in Hc. }
  rewrite Hn. cbn [create]. eexists. split; [done|]. cbn. split; [done|]. split; [done|].
  split; [done|]. pose proof (create_wf f path 384 Hf) as Hf'.
  pose proof (fun q => content_at_create f path 384 q Hf) as Hcc. cbn [create fst] in Hf', Hcc.
  unfold log_inv. cbn [fst snd ldir lpath lfile lkey lseq llast al_segs al_active].
  split; [done|]. split; [done|]. split; [apply lookup_insert_eq|].
  split; [by rewrite Hcc, decide_True|]. split.
  { etrans; [|exact Hl]. apply load_manifest_frame; [done..|]. rewrite Hcc, decide_False; [done|].
    rewrite manifest_path_eq. by apply active_not_segment. }
  done.
Qed.

(** ** Verification when only the segments are intact *)

Lemma verify_all_active f dir path key segs content :
  fs_wf f ->
  Rotate.load_manifest f dir = Ok {| Rotate.version := 1; Rotate.segments := segs.*1 |} ->
  segs_ok f dir 1 Chain.GENESIS_HMAC segs ->
  Forall (fun e => readable e = true) (all_entries segs) ->
  chained key 1 Chain.GENESIS_HMAC (all_entries segs) ->
  1 + Z.of_nat (length (all_entries segs)) < 2 ^ 64 ->
  content_at f path = Some content -> utf8_ok content = true ->
  verify_all f dir key path =
  Ok (result_of (walk content key
    (match segs with
     | [] => anchor content
     | _ => advance_cur {| expected_seq := 1; cprev := Chain.GENESIS_HMAC; checked := 0 |}
              (all_entries segs)
     end))).
Proof.
  intros Hf Hm Hs Hr Hch Hb Hc Hu. unfold verify_all. rewrite Hm. cbn [rbind Rotate.segments].
  rewrite (sort_segments_sorted _ _ _ _ _ Hs).
  assert (exists_ f path = true) as He by (apply exists_content; [done|rewrite Hc; eauto]).
  assert (read_to_string f path = Ok content) as Hread
    by (by rewrite read_to_string_content, Hc, Hu).
  destruct segs as [|[s es] l] eqn:Hsegs.
  - cbn [fmap list_fmap]. unfold verify_log. by rewrite He, Hread.
  - cbn [fmap list_fmap fst].
    pose proof Hs as (Hseg & _). destruct Hseg as (_ & Hst & _ & _ & Hfp & _). rewrite Hst.
    change (1 =? 1) with true. cbn match. rewrite <- Hsegs in *.
    assert (s :: l.*1 = segs.*1) as -> by (by rewrite Hsegs).
    rewrite (walk_segments_ok _ _ _ _ _ _ 0 Hs Hch Hr) by lia. cbn [rbind snd fst].
    by rewrite He, Hread.
Qed.

Lemma log_inv_segs w a :
  log_inv w a ->
  Forall (fun e => readable e = true) (all_entries (al_segs a)) /\
  chained (lkey w.2) 1 Chain.GENESIS_HMAC (all_entries (al_segs a)) /\
  1 + Z.of_nat (length (all_entries (al_segs a))) < 2 ^ 64.
Proof.
  intros (_ & _ & _ & _ & _ & _ & Hr & Hch & _ & _ & Hb). unfold total in *.
  rewrite length_app in Hb. apply Forall_app in Hr as [? _]. apply chained_app in Hch as [? _].
  split; [done|]. split; [done|lia].
Qed.

Lemma lines_log_snoc es l :
  one_line l = true -> lines (log_text es +:+ (l +:+ nl)) = (print_entry <$> es) ++ [l].
Proof.
  intros Hl. unfold log_text. rewrite lines_unlines_app.
  - unfold nl. by rewrite lines_cons.
  - apply Forall_fmap, Forall_forall. intros; apply print_one_line.
Qed.

(** A readable line that no chain continues with, or an unreadable line: rejected. *)
Lemma unparsable_rejected key content l c :
  In l (lines content) -> is_blank l = false -> parse_line l = None ->
  (walk content key c).2 <> None.
Proof.
  intros Hin Hb Hp Hw. destruct (walk content key c) as [c' v] eqn:E. cbn in Hw. subst v.
  apply walk_iff in E as (es & Hes & _). unfold parses in Hes.
  assert (In (parse_line l) (parse_line <$> List.filter (fun l => negb (is_blank l)) (lines content)))
    as Hin'.
  { apply in_map. apply filter_In. by rewrite Hb. }
  rewrite Hes, Hp in Hin'. apply in_map_iff in Hin' as (e & He & _). done.
Qed.

Lemma rejected_result key content c :
  (walk content key c).2 <> None -> ok (result_of (walk content key c)) = false.
Proof. unfold result_of. cbn. by destruct ((walk content key c).2). Qed.
End Refine.
