(* ===== verification/AuditDemo.v ===== *)
(** * A concrete run of the audit log

    The run the examples of [AuditTheorems] use: a log in a fresh directory, two
    entries, on the instances of [Instances]. *)

From Stdlib Require Import ZArith Lia Ascii String.
From S2P Require Import Prelude Json Crypto Common Events Entry Fs AuditRotate Instances AuditLog AuditChain AuditInv AuditRefine.
Import Events Entry Verify Log.
Open Scope string_scope.
Open Scope list_scope.
Open Scope Z_scope.

(** ** A concrete log for the examples *)
Module Demo.
Definition dir : string := "d".
Definition path : string := "d/audit.jsonl".
Definition key : string := "k".
Definition w0 : world :=
  match open_with_key fs_empty dir path key with Ok w => w | Err _ =>
    (fs_empty, {| lfile := 0; lseq := 0; llast := ""; lkey := ""; ldir := ""; lpath := "";
                  lrotate := ROTATE_OFF |}) end.
Definition ev1 : AuditEvent := DaemonStop "x".
Definition ev2 : AuditEvent := AuditVerified 1 true.
Definition shred : AuditEvent := WorkspaceShredded "s" "a" "t".
Definition w1 : world := append_plain 5 "root" ev1 w0.
Definition w2 : world := append_plain 6 "root" ev2 w1.

Definition e1 : AuditEntry := next_entry w0.2 5 "root" ev1.
Definition e2 : AuditEntry := next_entry w1.2 6 "root" ev2.
Definition e3 : AuditEntry := next_entry w2.2 7 "root" ev1.

Definition a0 : alog := {| al_segs := []; al_active := [] |}.
Definition a1 : alog := {| al_segs := []; al_active := [e1] |}.
Definition a2 : alog := {| al_segs := []; al_active := [e1; e2] |}.

Definition cut_fs (es : list AuditEntry) : fs := write_file fs_empty path 384 (log_text es).

Lemma path_ok_demo : path_ok dir path.
Proof. by exists "audit.jsonl". Defined.

Lemma w0_eq : open_with_key fs_empty dir path key = Ok w0.
Proof. reflexivity. Defined.

Lemma w1_eq : append WriteOk 5 "root" ev1 w0 = (w1, Ok tt).
Proof. rewrite append_eq. reflexivity. Defined.

Lemma w2_eq : append WriteOk 6 "root" ev2 w1 = (w2, Ok tt).
Proof. rewrite append_eq. reflexivity. Defined.

Lemma run_demo : rtc step w0 w2.
Proof.
  eapply rtc_l; [eapply StepAppend; [..|exact w1_eq]; reflexivity|].
  eapply rtc_l; [eapply StepAppend; [..|exact w2_eq]; reflexivity|].
  apply rtc_refl.
Defined.

Lemma inv0 : log_inv w0 a0.
Proof.
  destruct (open_fresh_inv fs_empty dir path key fs_wf_empty path_ok_demo eq_refl eq_refl)
    as (w & Hw & _ & _ & _ & Hi).
  rewrite w0_eq in Hw. injection Hw as <-. exact Hi.
Defined.

Lemma inv1 : log_inv w1 a1.
Proof. apply (append_plain_inv _ _ 5 "root" ev1 inv0); reflexivity. Defined.

Lemma inv2 : log_inv w2 a2.
Proof. apply (append_plain_inv _ _ 6 "root" ev2 inv1); reflexivity. Defined.

Lemma inv3 :
  readable e3 = true /\ seq e3 = 1 + Z.of_nat (length (total a2)) /\
  chained (lkey w2.2) 1 Chain.GENESIS_HMAC (total a2 ++ [e3]).
Proof. apply (next_entry_facts _ _ 7 "root" ev1 inv2); reflexivity. Defined.

Lemma demo_chain : chained key 1 Chain.GENESIS_HMAC [e1; e2; e3].
Proof. exact (proj2 (proj2 inv3)). Defined.

Lemma demo_readable : Forall (fun e => readable e = true) [e1; e2; e3].
Proof.
  pose proof inv2 as (_ & _ & _ & _ & _ & _ & Hr & _).
  apply (Forall_app _ [e1; e2] [e3]). split; [exact Hr|].
  constructor; [exact (proj1 inv3)|constructor].
Defined.

Lemma cut_fs_content es : fs_wf (cut_fs es) /\ content_at (cut_fs es) path = Some (log_text es).
Proof.
  split; [apply write_file_wf, fs_wf_empty|]. unfold cut_fs.
  rewrite content_at_write_file by apply fs_wf_empty. by rewrite decide_True.
Qed.
End Demo.
