(* ===== verification/AuditTheorems.v ===== *)
(** * Properties of the audit log

    Theorems about whole runs of the log, about what the verifier accepts, and
    about the situations in which the chain is lost. Each theorem with hypotheses
    is followed by an application to a concrete run on the instances of
    [Instances]. *)

From Stdlib Require Import ZArith Lia Ascii String.
From S2P Require Import Prelude Json Crypto Common Events Entry Fs AuditRotate Instances AuditLog AuditChain AuditInv AuditRefine AuditDemo.
Import Events Entry Verify Log.
Open Scope string_scope.
Open Scope list_scope.
Open Scope Z_scope.

Section Theorems.
Context `{JsonText, TimeText, Hmac, Hex, Sha256, Zip, Stamp}.

(** shredding a workspace loses the chain. [WorkspaceShredded] has a field
    [actor], so its line has that key twice and does not read back. Appending it
    succeeds, but from then on verification fails, and after a restart the log
    hands out the same sequence number again. *)
Theorem shredding_breaks_chain w a now act ev :
  log_inv w a -> Rotate.max_bytes (lrotate w.2) = 0 -> collides ev = true ->
  2 + Z.of_nat (length (total a)) < 2 ^ 64 ->
  exists w', append WriteOk now act ev w = (w', Ok tt) /\ lseq w'.2 = lseq w.2 + 1 /\
    (exists r, verify_all w'.1 (ldir w.2) (lkey w.2) (lpath w.2) = Ok r /\ ok r = false) /\
    (exists w'', open_with_key w'.1 (ldir w.2) (lpath w.2) (lkey w.2) = Ok w'' /\
                 lseq w''.2 = lseq w.2 /\ llast w''.2 = llast w.2).
Proof.
  intros Hinv Hoff Hcol Hb. exists (append_plain now act ev w).
  set (e := next_entry w.2 now act ev).
  destruct (written_line w a (print_entry e +:+ nl) Hinv) as (Hc & Hf' & Hm' & Hs').
  destruct (log_inv_segs _ _ Hinv) as (Hr1 & Hch1 & Hb1).
  pose proof Hinv as (Hf & Hp & Hn & _ & _ & _ & Hr & _ & Hseq & _).
  assert (seq e = 1 + Z.of_nat (length (total a))) as Hq.
  { cbn. rewrite Hseq, Z.mod_small by lia. lia. }
  assert (parse_line (print_entry e) = None) as Hnone.
  { unfold parse_line, print_entry. rewrite json_parse_print.
    - cbn [mbind option_bind]. by apply entry_shredded_unreadable.
    - apply entry_json_wf. unfold entry_wf, uint_ok, u64_max. rewrite Hq.
      change (2 ^ 64) with 18446744073709551616 in *.
      rewrite (proj2 (Z.leb_le _ _)), (proj2 (Z.leb_le _ _)) by lia. cbn [event e next_entry].
      by destruct ev. }
  assert (utf8_ok (log_text (al_active a) +:+ (print_entry e +:+ nl)) = true) as Hu.
  { rewrite utf8_ok_app by apply log_text_utf8. rewrite utf8_ok_app by apply print_utf8. done. }
  pose proof (lines_log_snoc (al_active a) (print_entry e) (print_one_line e)) as Hlines.
  split; [rewrite append_eq, Hoff; done|]. split.
  { change (seq e = lseq w.2 + 1). rewrite Hq, Hseq. lia. }
  split.
  - eexists. split; [by eapply verify_all_active|]. apply rejected_result.
    apply unparsable_rejected with (print_entry e); [|apply print_not_blank|done].
    rewrite Hlines. apply in_app_iff. right. by left.
  - assert (scan_tail (append_plain now act ev w).1 (ldir w.2) (lpath w.2)
            = Ok (lseq w.2, llast w.2)) as Hscan.
    { rewrite <- (scan_tail_inv w a Hinv). unfold scan_tail.
      pose proof Hinv as (_ & _ & _ & Hct & Hm & _).
      rewrite (proj2 (exists_content _ _ Hf')) by (rewrite Hc; eauto).
      rewrite (proj2 (exists_content _ _ Hf)) by (rewrite Hct; eauto).
      rewrite !read_to_string_content. change (append_plain now act ev w).1 with
        (write_fd w.1 (lfile w.2) (print_entry e +:+ nl)).
      rewrite Hc, Hct, Hu, log_text_utf8. cbn [map_err rbind].
      rewrite Hlines, log_text_lines, fold_left_app. cbn [fold_left].
      assert (forall acc, scan_step acc (print_entry e) = acc) as Hskip
        by (intros acc; unfold scan_step; by rewrite print_not_blank, Hnone).
      rewrite Hskip. unfold Rotate.recover_tail. by rewrite Hm', Hm. }
    unfold open_with_key. rewrite Hscan. cbn [rbind fst snd]. unfold open_append.
    cbn [append_plain fst]. rewrite write_fd_names, Hn. eexists. split; [done|]. done.
Qed.

(** A run from a fresh directory ends in a state of the abstract log. *)
Lemma run_inv f dir path key w0 w :
  fs_wf f -> path_ok dir path -> content_at f path = None ->
  content_at f (Rotate.manifest_path dir) = None ->
  open_with_key f dir path key = Ok w0 -> rtc step w0 w ->
  exists a, log_inv w a /\ lseq w.2 = Z.of_nat (length (total a)).
Proof.
  intros Hf Hp Hc Hm Ho Hs.
  destruct (open_fresh_inv f dir path key Hf Hp Hc Hm) as (w0' & Ho' & _ & _ & _ & Hinv).
  rewrite Ho in Ho'. injection Ho' as <-.
  destruct (steps_inv _ _ _ Hinv Hs) as (a & Ha & _). exists a. split; [done|].
  by destruct Ha as (_ & _ & _ & _ & _ & _ & _ & _ & -> & _).
Qed.

(** C1: until the first event that does not read back, the log verifies. From a
    fresh directory, whatever sequence of appends, rotations (by size inside an
    append or by age), configuration changes and restarts a log goes through,
    where each append succeeds or fails before its first byte and none is of an
    event that repeats a member of the entry (all kinds but [WorkspaceShredded]),
    and no prune takes place: verifying the sealed segments and the active file
    accepts, and counts exactly the entries ever appended. From every such state
    (with the rotation by size off) the append of a [WorkspaceShredded] is reported
    as a success and makes the same verification fail. *)
Theorem runs_verify f dir path key w0 w :
  fs_wf f -> path_ok dir path -> content_at f path = None ->
  content_at f (Rotate.manifest_path dir) = None ->
  open_with_key f dir path key = Ok w0 -> rtc step w0 w ->
  verify_all w.1 (ldir w.2) (lkey w.2) (lpath w.2) =
    Ok {| entries_checked := lseq w.2; ok := true; first_violation := None |} /\
  forall now act ev,
    collides ev = true -> Rotate.max_bytes (lrotate w.2) = 0 -> lseq w.2 + 2 < 2 ^ 64 ->
    exists w' r, append WriteOk now act ev w = (w', Ok tt) /\
      verify_all w'.1 (ldir w.2) (lkey w.2) (lpath w.2) = Ok r /\ ok r = false.
Proof.
  intros Hf Hp Hc Hm Ho Hs.
  destruct (run_inv f dir path key w0 w Hf Hp Hc Hm Ho Hs) as (a & Ha & Hseq).
  split; [by rewrite (verify_all_inv _ _ Ha), Hseq|]. intros now act ev Hcol Hoff Hb.
  destruct (shredding_breaks_chain w a now act ev Ha Hoff Hcol) as (w' & Happ & _ & (r & Hv) & _); [lia|].
  by exists w', r.
Qed.

(** C2: closing and reopening the log at any point of a run as in C1 restores the
    sequence number and the chain value exactly, also when the active file was
    just rotated away, and changes no file. Right after the append of a
    [WorkspaceShredded] it does not: the log had gone on to the next number, and
    after a reopen it hands that number out again. *)
Theorem reopen_restores f dir path key w0 w :
  fs_wf f -> path_ok dir path -> content_at f path = None ->
  content_at f (Rotate.manifest_path dir) = None ->
  open_with_key f dir path key = Ok w0 -> rtc step w0 w ->
  (exists w', open_with_key w.1 (ldir w.2) (lpath w.2) (lkey w.2) = Ok w' /\
    w'.1 = w.1 /\ lseq w'.2 = lseq w.2 /\ llast w'.2 = llast w.2 /\ lfile w'.2 = lfile w.2) /\
  forall now act ev,
    collides ev = true -> Rotate.max_bytes (lrotate w.2) = 0 -> lseq w.2 + 2 < 2 ^ 64 ->
    exists w' w'', append WriteOk now act ev w = (w', Ok tt) /\ lseq w'.2 = lseq w.2 + 1 /\
      open_with_key w'.1 (ldir w.2) (lpath w.2) (lkey w.2) = Ok w'' /\ lseq w''.2 = lseq w.2.
Proof.
  intros Hf Hp Hc Hm Ho Hs.
  destruct (run_inv f dir path key w0 w Hf Hp Hc Hm Ho Hs) as (a & Ha & Hseq). split.
  - exists (w.1, rotation_off w.2). split; [by eapply reopen_inv|done].
  - intros now act ev Hcol Hoff Hb.
    destruct (shredding_breaks_chain w a now act ev Ha Hoff Hcol)
      as (w' & Happ & Hn & _ & w'' & Ho2 & Hq & _); [lia|]. by exists w', w''.
Qed.

(** The body of a well-formed entry determines its sequence number. *)
Lemma body_text_seq e1 e2 :
  entry_wf e1 = true -> entry_wf e2 = true -> body_text e1 = body_text e2 -> seq e1 = seq e2.
Proof.
  unfold entry_wf. intros [Hq1 Hw1]%andb_true_iff [Hq2 Hw2]%andb_true_iff He.
  apply (f_equal json_parse) in He. unfold body_text in He.
  rewrite !json_parse_print in He by (by apply body_json_wf).
  apply (inj Some), (f_equal (jindex "seq")) in He. rewrite !body_json_seq in He. congruence.
Qed.

Lemma bodies_prefix key es1 es2 q p :
  chained key q p es1 -> chained key q p es2 -> 0 <= q ->
  q + Z.of_nat (length es1) <= 2 ^ 64 -> q + Z.of_nat (length es2) <= 2 ^ 64 ->
  Forall (fun e => entry_wf e = true) es1 -> Forall (fun e => entry_wf e = true) es2 ->
  Forall (fun e => body_text e ∈ (body_text <$> es1)) es2 ->
  (body_text <$> es2) `prefix_of` (body_text <$> es1).
Proof.
  intros Hc1 Hc2 Hq Hb1 Hb2 Hw1 Hw2 Hin.
  assert (forall i e2, es2 !! i = Some e2 ->
    exists e1, es1 !! i = Some e1 /\ body_text e1 = body_text e2) as Hpt.
  { intros i e2 Hi. pose proof (proj1 (Forall_lookup _ _) Hin _ _ Hi) as Hm.
    apply list_elem_of_fmap in Hm as (e1 & He & Hm).
    apply list_elem_of_lookup in Hm as [j Hj].
    pose proof (chained_seq _ _ _ _ _ _ Hc1 Hq Hb1 Hj) as Hs1.
    pose proof (chained_seq _ _ _ _ _ _ Hc2 Hq Hb2 Hi) as Hs2.
    pose proof (proj1 (Forall_lookup _ _) Hw1 _ _ Hj) as Hj1.
    pose proof (proj1 (Forall_lookup _ _) Hw2 _ _ Hi) as Hj2.
    pose proof (body_text_seq _ _ Hj1 Hj2 (eq_sym He)) as Hseq.
    assert (i = j) as -> by lia. eauto. }
  clear -Hpt. revert es1 Hpt. induction es2 as [|e2 es2 IH]; intros es1 Hpt.
  { apply prefix_nil. }
  destruct (Hpt 0%nat e2 eq_refl) as (e1 & Hl & He). destruct es1 as [|x es1]; [done|].
  simplify_eq/=. rewrite He. apply prefix_cons, IH. intros i e Hi. by apply (Hpt (S i)).
Qed.

(** C3: tampering needs a forged tag. Take the chain [es1] that the log wrote and
    any other content the verifier accepts with the same key from the genesis
    value, read as entries [es2]. Either the authenticated bodies of [es2] are an
    initial segment of those the log wrote, or some accepted entry carries a valid
    HMAC over a body the log never authenticated. *)
Theorem tampering_needs_forgery key es1 es2 content c :
  chained key 1 Chain.GENESIS_HMAC es1 -> Forall (fun e => entry_wf e = true) es1 ->
  1 + Z.of_nat (length es1) <= 2 ^ 64 ->
  parses (lines content) es2 -> Forall (fun e => entry_wf e = true) es2 ->
  1 + Z.of_nat (length es2) <= 2 ^ 64 ->
  walk content key {| expected_seq := 1; cprev := Chain.GENESIS_HMAC; checked := 0 |} = (c, None) ->
  (body_text <$> es2) `prefix_of` (body_text <$> es1) \/
  exists e, In e es2 /\ ~ In (body_text e) (map body_text es1) /\
    hmac e = Chain.compute key (body_text e).
Proof.
  intros Hc1 Hw1 Hb1 Hp Hw2 Hb2 Hw.
  apply walk_iff in Hw as (es & Hp' & Hc2 & _).
  rewrite <- (parses_inj _ _ _ Hp Hp') in Hc2. cbn in Hc2.
  destruct (decide (Forall (fun e => body_text e ∈ (body_text <$> es1)) es2)) as [Hin|Hout].
  - left. by eapply bodies_prefix.
  - right. apply not_Forall_Exists in Hout; [|intros e; apply _].
    apply Exists_exists in Hout as (e & He & Hn).
    exists e. split; [by apply list_elem_of_In|]. split.
    + intros Hm. apply Hn. by apply list_elem_of_In.
    + apply list_elem_of_lookup in He as [i Hi]. by eapply chained_lookup.
Qed.

(** C4: what the single-file verifier accepts. A readable file is accepted exactly
    when every non-blank line parses and the entries form a chain; the chain starts
    from the genesis value, unless the first entry has a sequence number above 1,
    in which case that entry's own number and [prev_hmac] are taken on trust. *)
Theorem verify_log_accepts_iff f path key content :
  fs_wf f -> content_at f path = Some content -> utf8_ok content = true ->
  (exists r, verify_log f path key = Ok r /\ ok r = true) <->
  exists es, parses (lines content) es /\
    match es with
    | [] => True
    | e :: _ => if 1 <? seq e then chained key (seq e) (prev_hmac e) es
                else chained key 1 Chain.GENESIS_HMAC es
    end.
Proof.
  intros Hf Hc Hu. unfold verify_log.
  rewrite (proj2 (exists_content _ _ Hf)) by (rewrite Hc; eauto). cbn [negb].
  rewrite read_to_string_content, Hc, Hu. cbn [map_err rbind].
  assert (forall es, parses (lines content) es ->
    anchor content = match es with
      | e :: _ => if 1 <? seq e
                  then {| expected_seq := seq e; cprev := prev_hmac e; checked := 0 |}
                  else {| expected_seq := 1; cprev := Chain.GENESIS_HMAC; checked := 0 |}
      | [] => {| expected_seq := 1; cprev := Chain.GENESIS_HMAC; checked := 0 |}
      end) as Hanchor.
  { intros es. unfold anchor, parses. induction (lines content) as [|l ls IH]; cbn [List.filter first_nonblank].
    - destruct es; done.
    - destruct (is_blank l); cbn [negb]; [exact IH|]. rewrite fmap_cons.
      destruct es as [|e es]; [done|]. rewrite fmap_cons. intros [= Hl _].
      cbn [mbind option_bind]. by rewrite Hl. }
  split.
  - intros (r & [= <-] & Hok). unfold result_of in Hok. cbn in Hok.
    destruct (walk content key (anchor content)) as [c v] eqn:Hw. destruct v; [done|].
    apply walk_iff in Hw as (es & Hp & Hch & _). exists es. split; [done|].
    rewrite (Hanchor es Hp) in Hch. destruct es as [|e es]; [done|].
    by destruct (1 <? seq e).
  - intros (es & Hp & Hch). eexists. split; [done|].
    rewrite (proj2 (walk_iff key content (anchor content) (advance_cur (anchor content) es))); [done|].
    exists es. split; [done|]. split; [|done]. rewrite (Hanchor es Hp).
    destruct es as [|e es]; [done|]. by destruct (1 <? seq e).
Qed.

(** deleting at the ends is not noticed. Cut a proper head and any tail off a
    chained log: the remaining file is accepted by the single-file verifier, with
    the count of the remaining entries. *)
Theorem end_deletion_accepted f path key a b c :
  fs_wf f -> chained key 1 Chain.GENESIS_HMAC (a ++ b ++ c) ->
  Forall (fun e => readable e = true) b -> a <> [] ->
  1 + Z.of_nat (length (a ++ b ++ c)) <= 2 ^ 64 ->
  content_at f path = Some (log_text b) ->
  exists r, verify_log f path key = Ok r /\ ok r = true /\
    entries_checked r = Z.of_nat (length b).
Proof.
  intros Hf Hch Hr Ha Hb Hc. unfold verify_log.
  rewrite (proj2 (exists_content _ _ Hf)) by (rewrite Hc; eauto). cbn [negb].
  rewrite read_to_string_content, Hc, log_text_utf8. cbn [map_err rbind].
  eexists. split; [done|]. rewrite !length_app in Hb.
  rewrite !chained_app in Hch. destruct Hch as (Ha1 & Hb1 & _).
  destruct b as [|e b].
  { split; [done|]. done. }
  rewrite anchor_log_text by done.
  rewrite (end_seq_count _ _ _ _ Ha1) in Hb1 by (cbn [length] in Hb; lia).
  pose proof Hb1 as (Hs & Hp & _).
  assert ((1 <? seq e) = true) as ->.
  { rewrite Hs. destruct a; [done|]. cbn [length]. apply Z.ltb_lt. lia. }
  rewrite walk_log_text; [done|done|].
  cbn [expected_seq cprev]. rewrite Hs, Hp. exact Hb1.
Qed.

(** deleting in the middle is noticed. With a proper head and a non-empty rest
    kept, a gap of any entries between them makes the single-file verifier report
    a violation. *)
Theorem interior_deletion_detected f path key a b c :
  fs_wf f -> chained key 1 Chain.GENESIS_HMAC (a ++ b ++ c) ->
  Forall (fun e => readable e = true) (a ++ c) -> a <> [] -> b <> [] -> c <> [] ->
  1 + Z.of_nat (length (a ++ b ++ c)) <= 2 ^ 64 ->
  content_at f path = Some (log_text (a ++ c)) ->
  exists r, verify_log f path key = Ok r /\ ok r = false.
Proof.
  intros Hf Hch Hr Ha Hb Hc Hlen Hct. unfold verify_log.
  rewrite (proj2 (exists_content _ _ Hf)) by (rewrite Hct; eauto). cbn [negb].
  rewrite read_to_string_content, Hct, log_text_utf8. cbn [map_err rbind].
  eexists. split; [done|]. apply rejected_result. intros Hw.
  destruct (walk _ _ _) as [c' v] eqn:E. cbn in Hw. subst v.
  apply walk_iff in E as (es & Hp & Hch2 & _).
  rewrite <- (parses_inj _ _ _ (parses_log_text _ Hr) Hp) in Hch2.
  rewrite !length_app in Hlen. rewrite !chained_app in Hch.
  destruct Hch as (Ha1 & Hb1 & Hc1).
  assert (anchor (log_text (a ++ c))
          = {| expected_seq := 1; cprev := Chain.GENESIS_HMAC; checked := 0 |}) as Hanc.
  { rewrite anchor_log_text by done. destruct a as [|e a]; [done|].
    cbn [app]. destruct Ha1 as (Hs1 & _). by rewrite Hs1. }
  rewrite Hanc in Hch2. cbn [expected_seq cprev] in Hch2. apply chained_app in Hch2 as [_ Hc2].
  rewrite (end_seq_count _ _ _ _ Ha1) in Hb1, Hc1, Hc2 by (destruct c; cbn [length] in *; [done|lia]).
  rewrite (end_seq_count _ _ _ _ Hb1) in Hc1 by (destruct c; cbn [length] in *; [done|lia]).
  destruct c as [|e c]; [done|]. destruct Hc1 as (Hs1 & _), Hc2 as (Hs2 & _).
  destruct b as [|x b]; [done|]. cbn [length] in *. lia.
Qed.

(** a failed flush duplicates a sequence number. When the line reached the file
    but [sync_all] failed, [append] reports an error and keeps its counters; the
    next successful append writes the same sequence number again and verification
    fails with a gap. *)
Theorem failed_flush_breaks_chain w a now1 act1 ev1 now2 act2 ev2 :
  log_inv w a -> Rotate.max_bytes (lrotate w.2) = 0 ->
  event_wf ev1 = true -> collides ev1 = false ->
  event_wf ev2 = true -> collides ev2 = false ->
  3 + Z.of_nat (length (total a)) < 2 ^ 64 ->
  exists w1 w2, append SyncFails now1 act1 ev1 w = (w1, Err (Io WriteFailed)) /\
    append WriteOk now2 act2 ev2 w1 = (w2, Ok tt) /\ lseq w2.2 = lseq w.2 + 1 /\
    exists r, verify_all w2.1 (ldir w.2) (lkey w.2) (lpath w.2) = Ok r /\ ok r = false.
Proof.
  intros Hinv Hoff Hev1 Hcol1 Hev2 Hcol2 Hb.
  set (e1 := next_entry w.2 now1 act1 ev1). set (e2 := next_entry w.2 now2 act2 ev2).
  pose proof (append_plain_inv w a now1 act1 ev1 Hinv ltac:(lia) Hev1 Hcol1) as Hinv1.
  destruct (next_entry_facts w a now1 act1 ev1 Hinv ltac:(lia) Hev1 Hcol1) as (Hr1 & Hq1 & _).
  destruct (next_entry_facts w a now2 act2 ev2 Hinv ltac:(lia) Hev2 Hcol2) as (Hr2 & Hq2 & _).
  fold e1 in Hr1, Hq1, Hinv1. fold e2 in Hr2, Hq2.
  set (w1 := (write_fd w.1 (lfile w.2) (print_entry e1 +:+ nl), w.2)).
  exists w1, (append_plain now2 act2 ev2 w1). split; [by destruct w as [f w]|].
  split; [rewrite append_eq; cbn [snd w1]; by rewrite Hoff|].
  pose proof Hinv as (_ & _ & _ & _ & _ & _ & Hr & _ & Hseq & _).
  split; [change (seq e2 = lseq w.2 + 1); lia|].
  destruct (log_inv_segs _ _ Hinv) as (Hrs & Hchs & Hbs).
  destruct (written_line _ _ (print_entry e2 +:+ nl) Hinv1) as (Hc & Hf' & Hm' & Hs').
  cbn [al_active al_segs append_plain fst snd lpath ldir lfile] in Hc, Hf', Hm', Hs'.
  assert (log_text (al_active a ++ [e1]) +:+ (print_entry e2 +:+ nl)
          = log_text (al_active a ++ [e1; e2])) as Htext.
  { change [e1; e2] with ([e1] ++ [e2]). rewrite app_assoc, (log_text_app (_ ++ _)). done. }
  fold e1 in Hc, Hf', Hm', Hs'. rewrite Htext in Hc.
  eexists. split; [eapply verify_all_active; [exact Hf'|exact Hm'|exact Hs'|done..|exact Hc|apply log_text_utf8]|].
  apply rejected_result. intros Hw.
  destruct (walk _ _ _) as [c' v] eqn:E. cbn in Hw. subst v.
  apply walk_iff in E as (es & Hp & Hch & _).
  assert (Forall (fun e => readable e = true) (al_active a ++ [e1; e2])) as Hra.
  { unfold total in Hr. apply Forall_app in Hr as [_ Hr]. apply Forall_app. auto. }
  rewrite <- (parses_inj _ _ _ (parses_log_text _ Hra) Hp) in Hch.
  apply chained_app in Hch as [_ (Hs1 & _ & _ & Hs2 & _)]. rewrite <- Hs1, Hq1 in Hs2.
  rewrite Z.mod_small in Hs2 by lia. lia.
Qed.

Lemma filter_all {A} (f : A -> bool) l :
  length (List.filter f l) = length l -> List.filter f l = l.
Proof.
  induction l as [|x l IH]; [done|]. cbn [List.filter].
  pose proof (filter_length_le f l). destruct (f x); cbn [length]; [|lia].
  intros [= Hl]. by rewrite IH.
Qed.

Lemma filter_printed cutoff es :
  Forall (fun e => readable e = true) es ->
  List.filter (prune_keeps cutoff) (print_entry <$> es) =
  print_entry <$> List.filter (fun e => negb (ts e <? cutoff)) es.
Proof.
  induction 1 as [|e es He _ IH]; [done|]. rewrite fmap_cons. cbn [List.filter].
  unfold prune_keeps at 1. rewrite parse_print by done. rewrite IH.
  by destruct (negb _).
Qed.

(** Pruning a readable log: the kept entries, the other files, and the count. *)
Lemma prune_file f path tmp days now es :
  fs_wf f -> content_at f path = Some (log_text es) -> Forall (fun e => readable e = true) es ->
  days <> 0 -> tmp <> path ->
  let kept := List.filter (fun e => negb (ts e <? now - days_ns days)) es in
  exists f', prune_log f path tmp days now = (f', Ok (Z.of_nat (length es - length kept))) /\
    fs_wf f' /\ content_at f' path = Some (log_text kept) /\
    (forall q, q <> path -> q <> tmp -> content_at f' q = content_at f q).
Proof.
  intros Hf Hc Hr Hd Hne kept.
  unfold prune_log. rewrite (proj2 (Z.eqb_neq _ _)) by done.
  rewrite (proj2 (exists_content _ _ Hf)) by (rewrite Hc; eauto). cbn [negb].
  rewrite read_to_string_content, Hc, log_text_utf8, log_text_lines, nonblank_lines.
  rewrite filter_printed by done. fold kept. rewrite !length_fmap.
  destruct (Z.ltb_spec 0 (Z.of_nat (length es - length kept))) as [Hlt|Hle].
  - destruct (rename _ tmp path) as [f2|] eqn:Hren.
    + eexists. split; [done|].
      assert (forall q, content_at f2 q = if decide (q = path) then Some (log_text kept)
                          else if decide (q = tmp) then None else content_at f q) as Hq.
      { intros q. rewrite (content_at_rename _ tmp path _ _ (write_file_wf _ _ _ _ Hf) Hren Hne).
        rewrite !content_at_write_file by done. unfold log_text. repeat case_decide; congruence. }
      split; [eapply rename_wf; [|exact Hren]; by apply write_file_wf|].
      split; [by rewrite Hq, decide_True|]. intros q H1' H2'. by rewrite Hq, !decide_False.
    + exfalso. unfold rename in Hren.
      pose proof (content_at_write_file f tmp 384 (unlines (print_entry <$> kept)) tmp Hf) as Ht.
      rewrite decide_True in Ht by done.
      destruct (names _ !! tmp) eqn:Hn; [done|].
      unfold content_at, lookup_path in Ht. by rewrite Hn in Ht.
  - exists f. pose proof (filter_length_le (fun e => negb (ts e <? now - days_ns days)) es) as Hle'.
    fold kept in Hle'. assert (length kept = length es) as Hl by lia.
    split; [do 2 f_equal; lia|]. split; [done|]. split; [|done]. rewrite Hc. unfold kept in *. by rewrite filter_all.
Qed.

Lemma prune_result w a tmp days now :
  log_inv w a -> days <> 0 -> tmp <> lpath w.2 ->
  let kept := List.filter (fun e => negb (ts e <? now - days_ns days)) (al_active a) in
  exists f', prune_log w.1 (lpath w.2) tmp days now
               = (f', Ok (Z.of_nat (length (al_active a) - length kept))) /\
    content_at f' (lpath w.2) = Some (log_text kept).
Proof.
  intros (Hf & _ & _ & Hc & _ & _ & Hr & _) Hd Hne. unfold total in Hr. apply Forall_app in Hr as [_ Hr].
  destruct (prune_file _ _ _ _ now _ Hf Hc Hr Hd Hne) as (f' & Hp & _ & Hk & _). by exists f'.
Qed.

(** pruning detaches the running log. [prune_log] renames a new file over the
    log while the log keeps its handle on the old one: every entry appended
    afterwards is reported as written, and is not in the log file. *)
Theorem prune_loses_later_appends w a tmp days now f' n now2 act ev :
  log_inv w a -> Rotate.max_bytes (lrotate w.2) = 0 -> tmp <> lpath w.2 ->
  prune_log w.1 (lpath w.2) tmp days now = (f', Ok n) -> 0 < n ->
  exists w', append WriteOk now2 act ev (f', w.2) = (w', Ok tt) /\
    content_at w'.1 (lpath w.2) = content_at f' (lpath w.2).
Proof.
  intros Hinv Hoff Hne Hprune Hn. exists (append_plain now2 act ev (f', w.2)).
  split; [rewrite append_eq; cbn [snd]; by rewrite Hoff|].
  pose proof Hinv as (Hf & _ & Hname & Hc & _). unfold prune_log in Hprune.
  destruct (days =? 0); [done|].
  rewrite (proj2 (exists_content _ _ Hf)) in Hprune by (rewrite Hc; eauto). cbn [negb] in Hprune.
  rewrite read_to_string_content, Hc, log_text_utf8 in Hprune.
  set (kept := unlines _) in Hprune.
  case_match; [|simplify_eq; lia].
  destruct (rename _ tmp (lpath w.2)) as [f2|] eqn:Hren; [|done]. injection Hprune as <- _.
  set (f1 := write_file w.1 tmp 384 kept) in *.
  assert (fs_wf f1) as Hf1 by (by apply write_file_wf).
  assert (fs_wf f2) as Hf2 by (by eapply rename_wf).
  assert (names f1 !! lpath w.2 = Some (lfile w.2)) as Hn1.
  { unfold f1, write_file, open_trunc. destruct (names w.1 !! tmp); cbn.
    - by rewrite write_fd_names, set_bytes_names.
    - rewrite write_fd_names. cbn. by rewrite lookup_insert_ne. }
  assert (is_Some (inodes f2 !! lfile w.2)) as Hin.
  { unfold rename in Hren. destruct (names f1 !! tmp); [|done]. injection Hren as <-. cbn.
    destruct Hf1 as (Hi & _). eauto. }
  cbn [append_plain fst snd]. rewrite content_at_write_fd by done.
  rewrite decide_False; [done|]. unfold rename in Hren.
  destruct (names f1 !! tmp) as [i|] eqn:Ht; [|done]. injection Hren as <-. cbn.
  rewrite lookup_insert_eq. intros [= ->]. apply Hne. destruct Hf1 as (_ & _ & Hj). by eapply Hj.
Qed.

(** rotation is not crash-safe. Between writing the manifest that names the
    new segment and truncating the active file, the entries stand in both; a stop
    there leaves a log whose verification fails. *)
Theorem rotation_crash_breaks_chain w a sum now f' seg :
  log_inv w a -> Rotate.summarize (log_text (al_active a)) = Some sum ->
  Rotate.seal_segment w.1 (ldir w.2) (log_text (al_active a)) sum now = Ok (f', seg) ->
  exists r, verify_all f' (ldir w.2) (lkey w.2) (lpath w.2) = Ok r /\ ok r = false.
Proof.
  intros Hinv Hsum Hseal.
  destruct (seal_active w a sum now Hinv Hsum) as (f'' & Hseal' & Hf & _ & Hc & Hm & Hs).
  rewrite Hseal in Hseal'. injection Hseal' as <- ->.
  set (seg' := Rotate.make_segment _ sum now) in *.
  pose proof Hinv as (_ & _ & _ & _ & _ & _ & Hr & Hch & _ & _ & Hb).
  destruct (log_inv_segs _ _ Hinv) as (Hrs & Hchs & Hbs).
  set (segs := al_segs a ++ [(seg', al_active a)]) in *.
  assert (all_entries segs = total a) as Hall
    by (unfold segs; by rewrite all_entries_app, all_entries_one).
  assert (segs.*1 = (al_segs a).*1 ++ [seg']) as Hfst by (unfold segs; by rewrite fmap_app).
  rewrite <- Hfst in Hm.
  eexists. split; [eapply verify_all_active; [exact Hf|exact Hm|exact Hs|by rewrite Hall..|exact Hc|apply log_text_utf8]|].
  apply rejected_result. intros Hw.
  assert (exists sl l, segs = sl :: l) as (sl & l & Hcons).
  { unfold segs. destruct (al_segs a); cbn; eauto. }
  rewrite Hcons in Hw. rewrite <- Hcons, Hall in Hw.
  destruct (walk _ _ _) as [c' v] eqn:E. cbn in Hw. subst v.
  apply walk_iff in E as (es & Hp & Hch2 & _). unfold total in Hr.
  apply Forall_app in Hr as [_ Hra].
  rewrite <- (parses_inj _ _ _ (parses_log_text _ Hra) Hp) in Hch2.
  cbn [expected_seq advance_cur cprev] in Hch2.
  rewrite (end_seq_count _ _ _ _ Hch) in Hch2 by lia.
  unfold total in *. apply chained_app in Hch as [_ Hcha].
  rewrite (end_seq_count _ _ _ _ Hchs) in Hcha by lia.
  destruct (al_active a) as [|e es']; [done|].
  destruct Hcha as (Hq1 & _), Hch2 as (Hq2 & _).
  rewrite length_app in Hq2. cbn [length] in Hq2. lia.
Qed.

(** pruning keeps exactly the entries at or after the cutoff, in order, and
    reports the number it dropped; nothing else decides, in particular no legal
    hold. *)
Theorem prune_keeps_recent w a tmp days now :
  log_inv w a -> days <> 0 -> tmp <> lpath w.2 ->
  let kept := List.filter (fun e => negb (ts e <? now - days_ns days)) (al_active a) in
  exists f', prune_log w.1 (lpath w.2) tmp days now
               = (f', Ok (Z.of_nat (length (al_active a) - length kept))) /\
    content_at f' (lpath w.2) = Some (log_text kept).
Proof. exact (prune_result w a tmp days now). Qed.

End Theorems.

Lemma runs_verify_witness :
  verify_all Demo.w2.1 (ldir Demo.w2.2) (lkey Demo.w2.2) (lpath Demo.w2.2) =
    Ok {| entries_checked := 2; ok := true; first_violation := None |} /\
  exists w' r, append WriteOk 9 "cli" Demo.shred Demo.w2 = (w', Ok tt) /\
    verify_all w'.1 Demo.dir Demo.key Demo.path = Ok r /\ ok r = false.
Proof.
  destruct (runs_verify fs_empty Demo.dir Demo.path Demo.key Demo.w0 Demo.w2 fs_wf_empty
           Demo.path_ok_demo eq_refl eq_refl Demo.w0_eq Demo.run_demo) as [Hv Hs].
  split; [exact Hv|]. exact (Hs 9 "cli" Demo.shred eq_refl eq_refl eq_refl).
Defined.

Lemma reopen_restores_witness :
  (exists w', open_with_key Demo.w2.1 Demo.dir Demo.path Demo.key = Ok w' /\
    w'.1 = Demo.w2.1 /\ lseq w'.2 = 2 /\ llast w'.2 = llast Demo.w2.2 /\
    lfile w'.2 = lfile Demo.w2.2) /\
  exists w' w'', append WriteOk 9 "cli" Demo.shred Demo.w2 = (w', Ok tt) /\ lseq w'.2 = 3 /\
    open_with_key w'.1 Demo.dir Demo.path Demo.key = Ok w'' /\ lseq w''.2 = 2.
Proof.
  destruct (reopen_restores fs_empty Demo.dir Demo.path Demo.key Demo.w0 Demo.w2 fs_wf_empty
           Demo.path_ok_demo eq_refl eq_refl Demo.w0_eq Demo.run_demo) as [Hr Hs].
  split; [exact Hr|]. exact (Hs 9 "cli" Demo.shred eq_refl eq_refl eq_refl).
Defined.

Lemma tampering_needs_forgery_witness :
  (body_text <$> [Demo.e1]) `prefix_of` (body_text <$> [Demo.e1; Demo.e2; Demo.e3]) \/
  exists e, In e [Demo.e1] /\ ~ In (body_text e) (map body_text [Demo.e1; Demo.e2; Demo.e3]) /\
    hmac e = Chain.compute Demo.key (body_text e).
Proof.
  pose proof Demo.demo_readable as Hr.
  assert (Forall (fun e => entry_wf e = true) [Demo.e1; Demo.e2; Demo.e3]) as Hw.
  { eapply Forall_impl; [exact Hr|]. cbn. unfold readable. intros e He. bool_prop. done. }
  assert (Forall (fun e => readable e = true) [Demo.e1]) as Hr1
    by (constructor; [by inversion Hr|done]).
  assert (chained Demo.key 1 Chain.GENESIS_HMAC [Demo.e1]) as Hc1.
  { pose proof Demo.demo_chain as Hc.
    apply (chained_app _ _ _ [Demo.e1] [Demo.e2; Demo.e3]) in Hc. tauto. }
  eapply (tampering_needs_forgery Demo.key [Demo.e1; Demo.e2; Demo.e3] [Demo.e1]
            (log_text [Demo.e1])).
  - exact Demo.demo_chain.
  - exact Hw.
  - done.
  - by apply parses_log_text.
  - constructor; [by inversion Hw|done].
  - done.
  - by apply walk_log_text.
Defined.

Lemma verify_log_accepts_iff_witness :
  exists r, verify_log Demo.w2.1 Demo.path Demo.key = Ok r /\ ok r = true.
Proof.
  pose proof Demo.inv2 as (Hf & _ & _ & Hc & _ & _ & Hr & Hch & _).
  apply (verify_log_accepts_iff Demo.w2.1 Demo.path Demo.key
           (log_text [Demo.e1; Demo.e2]) Hf Hc (log_text_utf8 _)).
  exists [Demo.e1; Demo.e2]. split; [by apply parses_log_text|].
  change (seq Demo.e1) with 1. exact Hch.
Defined.

Lemma end_deletion_accepted_witness :
  exists r, verify_log (Demo.cut_fs [Demo.e2]) Demo.path Demo.key = Ok r /\ ok r = true /\
    entries_checked r = 1.
Proof.
  pose proof Demo.demo_readable as Hr. destruct (Demo.cut_fs_content [Demo.e2]) as [Hf Hc].
  apply (end_deletion_accepted (Demo.cut_fs [Demo.e2]) Demo.path Demo.key [Demo.e1] [Demo.e2] [Demo.e3] Hf).
  - exact Demo.demo_chain.
  - inversion Hr as [|? ? _ Hr2]. constructor; [by inversion Hr2|done].
  - done.
  - done.
  - exact Hc.
Defined.

Lemma interior_deletion_detected_witness :
  exists r, verify_log (Demo.cut_fs [Demo.e1; Demo.e3]) Demo.path Demo.key = Ok r /\ ok r = false.
Proof.
  pose proof Demo.demo_readable as Hr. destruct (Demo.cut_fs_content [Demo.e1; Demo.e3]) as [Hf Hc].
  apply (interior_deletion_detected (Demo.cut_fs [Demo.e1; Demo.e3]) Demo.path Demo.key
           [Demo.e1] [Demo.e2] [Demo.e3] Hf).
  - exact Demo.demo_chain.
  - rewrite !Forall_cons in Hr. rewrite !Forall_app, !Forall_cons. tauto.
  - done.
  - done.
  - done.
  - done.
  - exact Hc.
Defined.

Lemma shredding_breaks_chain_witness :
  exists w', append WriteOk 9 "cli" Demo.shred Demo.w2 = (w', Ok tt) /\ lseq w'.2 = 3 /\
    (exists r, verify_all w'.1 Demo.dir Demo.key Demo.path = Ok r /\ ok r = false) /\
    (exists w'', open_with_key w'.1 Demo.dir Demo.path Demo.key = Ok w'' /\
                 lseq w''.2 = 2 /\ llast w''.2 = llast Demo.w2.2).
Proof.
  exact (shredding_breaks_chain Demo.w2 Demo.a2 9 "cli" Demo.shred Demo.inv2 eq_refl eq_refl eq_refl).
Defined.

Lemma failed_flush_breaks_chain_witness :
  exists w1 w2, append SyncFails 7 "root" Demo.ev1 Demo.w2 = (w1, Err (Io WriteFailed)) /\
    append WriteOk 8 "root" Demo.ev2 w1 = (w2, Ok tt) /\ lseq w2.2 = 3 /\
    exists r, verify_all w2.1 Demo.dir Demo.key Demo.path = Ok r /\ ok r = false.
Proof.
  exact (failed_flush_breaks_chain Demo.w2 Demo.a2 7 "root" Demo.ev1 8 "root" Demo.ev2
           Demo.inv2 eq_refl eq_refl eq_refl eq_refl eq_refl eq_refl).
Defined.

Lemma prune_keeps_recent_witness :
  exists f', prune_log Demo.w2.1 Demo.path "d/tmp" 1 (days_ns 1 + 6) = (f', Ok 1) /\
    content_at f' Demo.path = Some (log_text [Demo.e2]).
Proof.
  exact (prune_keeps_recent Demo.w2 Demo.a2 "d/tmp" 1 (days_ns 1 + 6) Demo.inv2
           ltac:(discriminate) ltac:(discriminate)).
Defined.

Lemma prune_loses_later_appends_witness :
  exists f' w', prune_log Demo.w2.1 Demo.path "d/tmp" 1 (days_ns 1 + 6) = (f', Ok 1) /\
    append WriteOk 9 "root" Demo.ev1 (f', Demo.w2.2) = (w', Ok tt) /\
    content_at w'.1 Demo.path = content_at f' Demo.path.
Proof.
  destruct (prune_result Demo.w2 Demo.a2 "d/tmp" 1 (days_ns 1 + 6) Demo.inv2
           ltac:(discriminate) ltac:(discriminate)) as (f' & Hp & _).
  change (prune_log Demo.w2.1 Demo.path "d/tmp" 1 (days_ns 1 + 6) = (f', Ok 1)) in Hp.
  destruct (prune_loses_later_appends Demo.w2 Demo.a2 "d/tmp" 1 (days_ns 1 + 6) f' 1 9 "root" Demo.ev1
              Demo.inv2 eq_refl ltac:(discriminate) Hp ltac:(reflexivity)) as (w' & Ha & Hc).
  exists f', w'. auto.
Defined.

Lemma rotation_crash_breaks_chain_witness :
  exists f' r, verify_all f' Demo.dir Demo.key Demo.path = Ok r /\ ok r = false.
Proof.
  pose proof Demo.inv2 as (_ & _ & _ & _ & _ & _ & Hr & _).
  pose proof (summarize_log_text Demo.e1 [Demo.e2] Hr) as Hsum.
  destruct (seal_active Demo.w2 Demo.a2 _ 7 Demo.inv2 Hsum) as (f' & Hs & _).
  exists f'. exact (rotation_crash_breaks_chain Demo.w2 Demo.a2 _ 7 f' _ Demo.inv2 Hsum Hs).
Defined.
