(* ===== verification/Gguf.v ===== *)
(** * Reading the context length from a GGUF file

    Models [maranode-common/src/gguf.rs]. The reader is a position in the bytes of
    the file; seeking past the end succeeds, reading there fails. Recursion through
    nested arrays takes fuel, one unit per level; [Theorem reader_total] shows that
    the length of the file is enough. The format is specified independently by an
    encoder of typed values, and the reader is proved correct against it. *)

From Stdlib Require Import ZArith Lia Ascii String.
From S2P Require Import Prelude Crypto.
Open Scope string_scope.
Open Scope list_scope.
Open Scope Z_scope.

(** ** Little-endian integers *)

Fixpoint le_decode (s : string) : Z :=
  match s with EmptyString => 0 | String c r => code c + 256 * le_decode r end.

Fixpoint le_encode (n : nat) (z : Z) : string :=
  match n with O => EmptyString | S n => String (chr (z mod 256)) (le_encode n (z / 256)) end.

Lemma le_encode_length n z : String.length (le_encode n z) = n.
Proof. revert z. induction n; intros; simpl; [done|by f_equal]. Qed.

Lemma le_decode_encode n z : 0 <= z < 256 ^ Z.of_nat n -> le_decode (le_encode n z) = z.
Proof.
  revert z. induction n as [|n IH]; intros z Hz; cbn [le_encode le_decode].
  - change (256 ^ Z.of_nat 0) with 1 in Hz. lia.
  - rewrite code_of_chr by (apply Z.mod_pos_bound; lia).
    rewrite Nat2Z.inj_succ, Z.pow_succ_r in Hz by lia.
    rewrite IH; [pose proof (Z.div_mod z 256); lia|].
    split; [apply Z.div_pos; lia|]. apply Z.div_lt_upper_bound; lia.
Qed.

Lemma le_decode_nonneg s : 0 <= le_decode s.
Proof. induction s as [|c s IH]; simpl; [done|]. pose proof (code_bound c). lia. Qed.

Module Gguf.

Inductive gguf_err := UnexpectedEof | InvalidSeek | KeyTooLong | UnknownType | OutOfFuel.

#[export] Instance gguf_err_eq_dec : EqDecision gguf_err.
Proof. solve_decision. Defined.

(** [read_exact] of [n] bytes at a position. *)
Definition read_exact (d : string) (n pos : Z) : result gguf_err (string * Z) :=
  let b := stake (Z.to_nat n) (sdrop (Z.to_nat pos) d) in
  guard Z.of_nat (String.length b) =? n else UnexpectedEof in
  Ok (b, pos + n).

(** [seek(SeekFrom::Current(n))]: an offset is an [i64]; it may lie past the end. *)
Definition i64_max : Z := 9223372036854775807.
Definition seek (n pos : Z) : result gguf_err Z :=
  guard pos + n <=? i64_max else InvalidSeek in Ok (pos + n).

Definition read_u32 (d : string) (pos : Z) : result gguf_err (Z * Z) :=
  let? r := read_exact d 4 pos in Ok (le_decode r.1, r.2).

Definition read_u64 (d : string) (pos : Z) : result gguf_err (Z * Z) :=
  let? r := read_exact d 8 pos in Ok (le_decode r.1, r.2).

(** A count or length: [u32] in version 1, [u64] from version 2 on. *)
Definition read_len (d : string) (version pos : Z) : result gguf_err (Z * Z) :=
  if version =? 1 then read_u32 d pos else read_u64 d pos.

(** The bytes of a string; [from_utf8_lossy] keeps the comparison with an ASCII
    name. *)
Definition read_string (d : string) (version pos : Z) : result gguf_err (string * Z) :=
  let? len := read_len d version pos in
  guard negb (4096 <? len.1) else KeyTooLong in
  read_exact d len.1 len.2.

(** The [for _ in 0..count] loops. *)
Fixpoint repeat_from (n : nat) (f : Z -> result gguf_err Z) (pos : Z) : result gguf_err Z :=
  match n with
  | O => Ok pos
  | S n => let? pos := f pos in repeat_from n f pos
  end.

Definition skip_array_with (skip : Z -> Z -> result gguf_err Z) (d : string) (version pos : Z)
    : result gguf_err Z :=
  let? et := read_u32 d pos in
  let? count := read_len d version et.2 in
  repeat_from (Z.to_nat count.1) (skip et.1) count.2.

(** [skip_value], with [skip_array] tied into the recursion. *)
Fixpoint skip_value (fuel : nat) (d : string) (version val_type pos : Z) : result gguf_err Z :=
  match fuel with
  | O => Err OutOfFuel
  | S fuel =>
    if (val_type =? 0) || (val_type =? 7) then seek 1 pos else
    if val_type =? 1 then seek 1 pos else
    if (val_type =? 2) || (val_type =? 3) then seek 2 pos else
    if (val_type =? 4) || (val_type =? 5) || (val_type =? 6) then seek 4 pos else
    if val_type =? 8 then rmap snd (read_string d version pos) else
    if val_type =? 9 then skip_array_with (skip_value fuel d version) d version pos else
    if (val_type =? 10) || (val_type =? 11) || (val_type =? 12) then seek 8 pos else
    Err UnknownType
  end.

Definition skip_array (fuel : nat) (d : string) (version pos : Z) : result gguf_err Z :=
  skip_array_with (skip_value fuel d version) d version pos.

(** The loop over the key-value pairs. *)
Fixpoint read_pairs (n fuel : nat) (d : string) (version pos : Z)
    : result gguf_err (option Z) :=
  match n with
  | O => Ok None
  | S n =>
    let? key := read_string d version pos in
    let? ty := read_u32 d key.2 in
    if String.eqb key.1 "llama.context_length" && (ty.1 =? 4) then
      let? v := read_u32 d ty.2 in Ok (Some v.1)
    else
      let? pos := skip_value fuel d version ty.1 ty.2 in
      read_pairs n fuel d version pos
  end.

Definition read_context_length_from (fuel : nat) (d : string) : result gguf_err (option Z) :=
  let? magic := read_exact d 4 0 in
  if negb (String.eqb magic.1 "GGUF") then Ok None else
  let? version := read_u32 d magic.2 in
  if (version.1 =? 0) || (3 <? version.1) then Ok None else
  let? tensors := read_len d version.1 version.2 in
  let? n_kv := read_len d version.1 tensors.2 in
  read_pairs (Z.to_nat n_kv.1) fuel d version.1 n_kv.2.

(** [.ok().flatten()], with fuel for every nesting the file can hold. *)
Definition read_context_length (d : string) : option Z :=
  match read_context_length_from (S (String.length d)) d with
  | Ok r => r
  | Err _ => None
  end.

(** ** Fuel *)

(** The error is not the model's, and the position does not go back. *)
Definition advances (pos : Z) (r : result gguf_err Z) : Prop :=
  r <> Err OutOfFuel /\ forall q, r = Ok q -> pos <= q.

Lemma read_exact_ok d n pos b pos' :
  0 <= pos -> read_exact d n pos = Ok (b, pos') ->
  0 <= n /\ pos' = pos + n /\ (0 < n -> pos' <= Z.of_nat (String.length d)).
Proof.
  unfold read_exact. intros Hp Hr. crush. rewrite stake_length, sdrop_length in *. lia.
Qed.

Lemma read_exact_fuel d n pos : read_exact d n pos <> Err OutOfFuel.
Proof. unfold read_exact. by case_match. Qed.

Lemma rbind_fuel {A B} (r : result gguf_err A) (f : A -> result gguf_err B) :
  r <> Err OutOfFuel -> (forall a, r = Ok a -> f a <> Err OutOfFuel) ->
  rbind r f <> Err OutOfFuel.
Proof. destruct r; simpl; [auto|congruence]. Qed.

Lemma read_u32_fuel d pos : read_u32 d pos <> Err OutOfFuel.
Proof. apply rbind_fuel; [apply read_exact_fuel|done]. Qed.

Lemma read_len_fuel d version pos : read_len d version pos <> Err OutOfFuel.
Proof.
  unfold read_len. case_match; [apply read_u32_fuel|].
  apply rbind_fuel; [apply read_exact_fuel|done].
Qed.

Lemma read_string_fuel d version pos : read_string d version pos <> Err OutOfFuel.
Proof.
  apply rbind_fuel; [apply read_len_fuel|]. intros a _. case_match; [|done].
  apply read_exact_fuel.
Qed.

Lemma read_len_bounds d version pos n pos' :
  0 <= pos -> read_len d version pos = Ok (n, pos') ->
  pos + 4 <= pos' <= Z.of_nat (String.length d).
Proof.
  unfold read_len, read_u32, read_u64. intros Hp Hr.
  destruct (version =? 1); apply rbind_ok in Hr as ((b & q) & Hr & [= _ <-]);
    apply read_exact_ok in Hr; simpl; lia.
Qed.

Lemma read_string_bounds d version pos s pos' :
  0 <= pos -> read_string d version pos = Ok (s, pos') -> pos <= pos'.
Proof.
  unfold read_string. intros Hp Hr. apply rbind_ok in Hr as ((n & q) & Hn & Hr).
  apply read_len_bounds in Hn; [|done]. cbn [fst snd] in Hr. case_match; [|done].
  apply read_exact_ok in Hr; lia.
Qed.

Lemma seek_advances n pos : 0 <= n -> advances pos (seek n pos).
Proof. intros Hn. unfold advances, seek. case_match; split; try done. intros q [= <-]. lia. Qed.

Lemma repeat_from_inv n f pos b :
  b <= pos -> (forall p, b <= p -> advances p (f p)) -> advances b (repeat_from n f pos).
Proof.
  intros Hp Hf. revert pos Hp. induction n as [|n IH]; intros pos Hp; cbn [repeat_from].
  { split; [done|]. by intros q [= <-]. }
  destruct (Hf pos Hp) as [Hn Hq]. destruct (f pos) as [q|e] eqn:E; cbn [rbind].
  - apply IH. specialize (Hq q eq_refl). lia.
  - split; [congruence|done].
Qed.

Lemma skip_array_advances skip d version pos :
  0 <= pos ->
  (forall et p, pos + 8 <= p -> pos + 8 <= Z.of_nat (String.length d) ->
     advances p (skip et p)) ->
  advances pos (skip_array_with skip d version pos).
Proof.
  intros Hp Hs. unfold skip_array_with.
  destruct (read_u32 d pos) as [[et p1]|e] eqn:E1; cbn [rbind fst snd].
  2:{ split; [|done]. pose proof (read_u32_fuel d pos). congruence. }
  destruct (read_len d version p1) as [[n p2]|e] eqn:E2; cbn [rbind fst snd].
  2:{ split; [|done]. pose proof (read_len_fuel d version p1). congruence. }
  apply (read_len_bounds d 1) in E1; [|done].
  apply read_len_bounds in E2; [|lia].
  destruct (repeat_from_inv (Z.to_nat n) (skip et) p2 (pos + 8)) as [Ha Hb]; [lia| |].
  - intros p Hp'. apply Hs; lia.
  - split; [done|]. intros q Hq. specialize (Hb q Hq). lia.
Qed.

(** A level of nesting reads at least eight bytes that exist: the fuel never runs
    out when it exceeds the bytes that remain. *)
Lemma skip_value_advances fuel d version vt pos :
  0 <= pos -> (0 < fuel)%nat -> Z.of_nat (String.length d) - pos < Z.of_nat fuel ->
  advances pos (skip_value fuel d version vt pos).
Proof.
  revert vt pos. induction fuel as [|fuel IH]; intros vt pos Hp Hn Hf; [lia|].
  cbn [skip_value]. repeat case_match; try (apply seek_advances; lia); [| |done].
  - destruct (read_string d version pos) as [[s q]|e] eqn:E; cbn [rmap snd].
    + apply read_string_bounds in E; [|done]. split; [done|]. by intros ? [= <-].
    + split; [|done]. pose proof (read_string_fuel d version pos). congruence.
  - apply skip_array_advances; [done|]. intros et p Hq Hd. apply IH; lia.
Qed.

Lemma read_pairs_fuel n fuel d version pos :
  0 <= pos -> (String.length d < fuel)%nat -> read_pairs n fuel d version pos <> Err OutOfFuel.
Proof.
  revert pos. induction n as [|n IH]; intros pos Hp Hf; cbn [read_pairs]; [done|].
  apply rbind_fuel; [apply read_string_fuel|]. intros [k p] Hk.
  apply read_string_bounds in Hk; [|done].
  apply rbind_fuel; [apply read_u32_fuel|]. intros [t q] Ht.
  apply (read_len_bounds d 1) in Ht; [|simpl in *; lia]. cbn [fst snd] in *.
  case_match; [apply rbind_fuel; [apply read_u32_fuel|done]|].
  destruct (skip_value_advances fuel d version t q) as [Hs Hq]; [lia..|].
  apply rbind_fuel; [done|]. intros r Hr. specialize (Hq r Hr). apply IH; lia.
Qed.

(** ** The format, as an encoder *)

(** A typed value: fixed-size scalars as their bytes, strings, and arrays of values
    of one element type. *)
Inductive value :=
| VScalar (ty : Z) (bytes : string)
| VStr (s : string)
| VArr (elem : Z) (vs : list value).

Definition scalar_size (ty : Z) : option nat :=
  if (ty =? 0) || (ty =? 1) || (ty =? 7) then Some 1%nat
  else if (ty =? 2) || (ty =? 3) then Some 2%nat
  else if (ty =? 4) || (ty =? 5) || (ty =? 6) then Some 4%nat
  else if (ty =? 10) || (ty =? 11) || (ty =? 12) then Some 8%nat
  else None.

Definition type_of (v : value) : Z :=
  match v with VScalar ty _ => ty | VStr _ => 8 | VArr _ _ => 9 end.

Definition enc_u32 (z : Z) : string := le_encode 4 z.
Definition enc_len (version n : Z) : string := le_encode (if version =? 1 then 4 else 8) n.

Definition enc_string (version : Z) (s : string) : string :=
  enc_len version (Z.of_nat (String.length s)) +:+ s.

Definition concat_map {A} (f : A -> string) (l : list A) : string :=
  foldr (fun x r => f x +:+ r) EmptyString l.

Lemma concat_map_cons {A} (f : A -> string) x l :
  concat_map f (x :: l) = f x +:+ concat_map f l.
Proof. done. Qed.

Fixpoint enc_value (version : Z) (v : value) : string :=
  match v with
  | VScalar _ b => b
  | VStr s => enc_string version s
  | VArr et vs =>
    enc_u32 et +:+ enc_len version (Z.of_nat (List.length vs)) +:+ concat_map (enc_value version) vs
  end.

(** The greatest length that a version of the format can write. *)
Definition len_max (version : Z) : Z := if version =? 1 then u32_max else u64_max.

(** A value that the format can write. *)
Fixpoint value_ok (version : Z) (v : value) : bool :=
  match v with
  | VScalar ty b => bool_decide (scalar_size ty = Some (String.length b))
  | VStr s => Z.of_nat (String.length s) <=? len_max version
  | VArr et vs =>
    (0 <=? et) && (et <=? u32_max) && (Z.of_nat (List.length vs) <=? len_max version)
    && forallb (fun v => (type_of v =? et) && value_ok version v) vs
  end.

(** A value whose strings are within the reader's limit, those in arrays included. *)
Fixpoint readable (v : value) : bool :=
  match v with
  | VScalar _ _ => true
  | VStr s => Z.of_nat (String.length s) <=? 4096
  | VArr _ vs => forallb readable vs
  end.

Definition enc_pair (version : Z) (kv : string * value) : string :=
  enc_string version kv.1 +:+ enc_u32 (type_of kv.2) +:+ enc_value version kv.2.

Definition pair_ok (version : Z) (kv : string * value) : bool :=
  (Z.of_nat (String.length kv.1) <=? len_max version) && value_ok version kv.2.

Definition pair_readable (kv : string * value) : bool :=
  (Z.of_nat (String.length kv.1) <=? 4096) && readable kv.2.

(** The pairs before the first one with a string, as its name or in its value, that is
    beyond the reader's limit. *)
Fixpoint readable_prefix (kvs : list (string * value)) : list (string * value) :=
  match kvs with
  | [] => []
  | kv :: r => if pair_readable kv then kv :: readable_prefix r else []
  end.

Definition enc_file (version tensors : Z) (kvs : list (string * value)) (rest : string) : string :=
  "GGUF" +:+ enc_u32 version +:+ enc_len version tensors
  +:+ enc_len version (Z.of_nat (List.length kvs)) +:+ concat_map (enc_pair version) kvs +:+ rest.

(** The context length that a list of pairs states: its first [u32] of that name. *)
Fixpoint context_length (kvs : list (string * value)) : option Z :=
  match kvs with
  | [] => None
  | (k, v) :: r =>
    match v with
    | VScalar ty b =>
      if String.eqb k "llama.context_length" && (ty =? 4) then Some (le_decode b)
      else context_length r
    | _ => context_length r
    end
  end.

(** ** Reading what was encoded *)

(** [s] stands in [d] at [pos]. *)
Definition at_pos (d : string) (pos : Z) (s : string) : Prop :=
  exists a b, d = a +:+ s +:+ b /\ pos = Z.of_nat (String.length a).

Lemma at_pos_app d pos s t :
  at_pos d pos (s +:+ t) -> at_pos d pos s /\ at_pos d (pos + Z.of_nat (String.length s)) t.
Proof.
  intros (a & b & -> & ->). split.
  - exists a, (t +:+ b). by rewrite string_app_assoc.
  - exists (a +:+ s), b. rewrite !string_app_assoc, string_length_app. split; [done|lia].
Qed.

Lemma at_pos_bound d pos s :
  at_pos d pos s -> 0 <= pos /\ pos + Z.of_nat (String.length s) <= Z.of_nat (String.length d).
Proof. intros (a & b & -> & ->). rewrite !string_length_app. lia. Qed.

Lemma read_exact_at d pos s n :
  at_pos d pos s -> n = Z.of_nat (String.length s) -> read_exact d n pos = Ok (s, pos + n).
Proof.
  intros (a & b & -> & ->) ->. unfold read_exact.
  rewrite !Nat2Z.id, sdrop_app, stake_app, Z.eqb_refl. done.
Qed.

Lemma enc_len_length version z :
  Z.of_nat (String.length (enc_len version z)) = if version =? 1 then 4 else 8.
Proof. unfold enc_len. rewrite le_encode_length. by case_match. Qed.

Lemma read_u32_at d pos z :
  at_pos d pos (enc_u32 z) -> 0 <= z <= u32_max -> read_u32 d pos = Ok (z, pos + 4).
Proof.
  intros Hat Hz. unfold read_u32.
  rewrite (read_exact_at _ _ _ 4 Hat) by (unfold enc_u32; by rewrite le_encode_length).
  cbn [rbind fst snd]. unfold enc_u32. rewrite le_decode_encode; [done|].
  change (256 ^ Z.of_nat 4) with 4294967296. unfold u32_max in Hz. lia.
Qed.

Lemma read_len_at d version pos z :
  at_pos d pos (enc_len version z) -> 0 <= z <= len_max version ->
  read_len d version pos = Ok (z, pos + Z.of_nat (String.length (enc_len version z))).
Proof.
  intros Hat Hz. rewrite enc_len_length. unfold enc_len, read_len, len_max in *.
  destruct (version =? 1); [by apply read_u32_at|]. unfold read_u64.
  rewrite (read_exact_at _ _ _ 8 Hat) by (by rewrite le_encode_length).
  cbn [rbind fst snd]. rewrite le_decode_encode; [done|].
  change (256 ^ Z.of_nat 8) with 18446744073709551616. unfold u64_max in Hz. lia.
Qed.

Lemma read_string_at d version pos s :
  at_pos d pos (enc_string version s) -> Z.of_nat (String.length s) <= 4096 ->
  read_string d version pos
  = Ok (s, pos + Z.of_nat (String.length (enc_string version s))).
Proof.
  intros Hat Hs. unfold enc_string in *. apply at_pos_app in Hat as [Hl Hb].
  unfold read_string.
  rewrite (read_len_at d version pos _ Hl) by (unfold len_max, u32_max, u64_max; destruct (version =? 1); lia).
  cbn [rbind fst snd]. replace (4096 <? Z.of_nat (String.length s)) with false by lia.
  cbn [negb]. rewrite (read_exact_at d _ s _ Hb) by done. do 2 f_equal.
  rewrite string_length_app. lia.
Qed.

Lemma read_string_long d version pos s :
  at_pos d pos (enc_string version s) -> 4096 < Z.of_nat (String.length s) <= len_max version ->
  read_string d version pos = Err KeyTooLong.
Proof.
  intros Hat Hs. unfold enc_string in *. apply at_pos_app in Hat as [Hl Hb].
  unfold read_string. rewrite (read_len_at d version pos _ Hl) by lia.
  cbn [rbind fst snd]. by replace (4096 <? Z.of_nat (String.length s)) with true by lia.
Qed.

Lemma seek_at d pos s n :
  at_pos d pos s -> n = Z.of_nat (String.length s) ->
  Z.of_nat (String.length d) <= i64_max -> seek n pos = Ok (pos + n).
Proof.
  intros Hat -> Hd. apply at_pos_bound in Hat. unfold seek.
  replace (_ <=? i64_max) with true; [done|]. symmetry. apply Z.leb_le. lia.
Qed.

Lemma repeat_from_at {A} d pos (enc : A -> string) vs skip :
  at_pos d pos (concat_map enc vs) ->
  (forall v p, In v vs -> at_pos d p (enc v) ->
     skip p = Ok (p + Z.of_nat (String.length (enc v)))) ->
  repeat_from (List.length vs) skip pos
  = Ok (pos + Z.of_nat (String.length (concat_map enc vs))).
Proof.
  revert pos. induction vs as [|v vs IH]; intros pos Hat Hs; cbn [List.length repeat_from].
  { simpl. by rewrite Z.add_0_r. }
  rewrite concat_map_cons in *. apply at_pos_app in Hat as [Hv Hr].
  rewrite (Hs v) by (simpl; auto). cbn [rbind]. rewrite IH; [|done|intros; apply Hs; simpl; auto].
  rewrite string_length_app, Nat2Z.inj_add. f_equal. lia.
Qed.

(** A loop stops at the first element that its body cannot take. *)
Lemma repeat_from_stops {A} d pos (enc : A -> string) (good : A -> bool) vs skip :
  at_pos d pos (concat_map enc vs) ->
  (forall v p, In v vs -> at_pos d p (enc v) ->
     if good v then skip p = Ok (p + Z.of_nat (String.length (enc v))) else is_ok (skip p) = false) ->
  forallb good vs = false -> is_ok (repeat_from (List.length vs) skip pos) = false.
Proof.
  revert pos. induction vs as [|v vs IH]; intros pos Hat Hs Hg; [done|]. cbn [List.length repeat_from].
  rewrite concat_map_cons in Hat. apply at_pos_app in Hat as [Hv Hr].
  pose proof (Hs v pos (or_introl eq_refl) Hv) as Hh. cbn [forallb] in Hg. destruct (good v).
  - rewrite Hh. cbn [rbind]. apply IH; [done| |done]. intros w p Hin. apply Hs. by right.
  - destruct (skip pos); done.
Qed.

Lemma concat_map_in_length {A} (enc : A -> string) v vs :
  In v vs -> (String.length (enc v) <= String.length (concat_map enc vs))%nat.
Proof.
  induction vs as [|x vs IH]; [done|]. rewrite concat_map_cons, string_length_app.
  intros [->|Hin]; [lia|]. specialize (IH Hin). lia.
Qed.

Lemma skip_scalar_at fuel d version ty b pos :
  scalar_size ty = Some (String.length b) -> at_pos d pos b ->
  Z.of_nat (String.length d) <= i64_max ->
  skip_value (S fuel) d version ty pos = Ok (pos + Z.of_nat (String.length b)).
Proof.
  intros Hs Hat Hd. unfold scalar_size in Hs. cbn [skip_value].
  destruct (ty =? 0), (ty =? 1), (ty =? 7), (ty =? 2), (ty =? 3), (ty =? 4), (ty =? 5), (ty =? 6) ;
    cbn [orb] in *; simplify_eq; try (rewrite (seek_at d pos b) by (done || lia); f_equal; lia).
  all: destruct (ty =? 8) eqn:E8; [bool_prop; subst; done|].
  all: destruct (ty =? 9) eqn:E9; [bool_prop; subst; done|].
  all: case_match; simplify_eq; rewrite (seek_at d pos b) by (done || lia); f_equal; lia.
Qed.

(** A value that the format can write is skipped when its strings are within the limit,
    and not taken otherwise. *)
Lemma skip_value_at fuel d version v pos :
  (String.length (enc_value version v) < fuel)%nat ->
  value_ok version v = true -> at_pos d pos (enc_value version v) ->
  Z.of_nat (String.length d) <= i64_max ->
  if readable v
  then skip_value fuel d version (type_of v) pos = Ok (pos + Z.of_nat (String.length (enc_value version v)))
  else is_ok (skip_value fuel d version (type_of v) pos) = false.
Proof.
  revert v pos. induction fuel as [|fuel IH]; intros v pos Hf Hok Hat Hd; [lia|].
  destruct v as [ty b|s|et vs]; cbn [value_ok type_of enc_value readable] in *.
  - bool_prop. by apply skip_scalar_at.
  - cbn -[read_string]. bool_prop. destruct (Z.leb_spec (Z.of_nat (String.length s)) 4096).
    + by rewrite (read_string_at d version pos s).
    + by rewrite (read_string_long d version pos s).
  - cbn -[skip_array_with]. bool_prop.
    rewrite !string_length_app in *. apply at_pos_app in Hat as [He Hat].
    apply at_pos_app in Hat as [Hl Hv]. unfold skip_array_with.
    rewrite (read_u32_at d pos et) by done. cbn [rbind fst snd].
    unfold enc_u32 in *. rewrite le_encode_length in *. change (Z.of_nat 4) with 4 in *.
    rewrite (read_len_at d version _ _ Hl) by lia. cbn [rbind fst snd]. rewrite Nat2Z.id.
    assert (forall v p, In v vs -> at_pos d p (enc_value version v) ->
      if readable v then skip_value fuel d version et p = Ok (p + Z.of_nat (String.length (enc_value version v)))
      else is_ok (skip_value fuel d version et p) = false) as Hvs.
    { intros v p Hin Hp.
      match goal with H : forallb _ vs = true |- _ => rewrite forallb_forall in H; specialize (H v Hin) end.
      bool_prop. subst et. apply IH; try done.
      pose proof (concat_map_in_length (enc_value version) v vs Hin). lia. }
    destruct (forallb readable vs) eqn:Er.
    + rewrite (repeat_from_at d _ (enc_value version) vs); [f_equal; lia|done|]. intros v p Hin Hp.
      rewrite forallb_forall in Er. specialize (Hvs v p Hin Hp). by rewrite (Er v Hin) in Hvs.
    + by eapply repeat_from_stops.
Qed.

Lemma type_of_bounds version v : value_ok version v = true -> 0 <= type_of v <= u32_max.
Proof.
  unfold u32_max. destruct v as [ty b| |]; cbn [type_of value_ok]; [|lia..]. intros Hok. bool_prop.
  unfold scalar_size in *. repeat case_match; simplify_eq; bool_prop;
    repeat match goal with H : (_ || _)%bool = true |- _ => apply orb_true_iff in H as [H|H] end;
    bool_prop; lia.
Qed.

(** What the loop over the pairs comes to, an error being no answer. *)
Lemma read_pairs_at fuel d version kvs rest pos :
  (String.length d < fuel)%nat -> Z.of_nat (String.length d) <= i64_max ->
  forallb (pair_ok version) kvs = true ->
  at_pos d pos (concat_map (enc_pair version) kvs +:+ rest) ->
  match read_pairs (List.length kvs) fuel d version pos with Ok r => r | Err _ => None end
  = context_length (readable_prefix kvs).
Proof.
  intros Hf Hd. revert pos. induction kvs as [|[k v] kvs IH]; intros pos Hok Hat; [done|].
  rewrite concat_map_cons, string_app_assoc in Hat. cbn [forallb List.length read_pairs readable_prefix] in *.
  apply andb_true_iff in Hok as [Hkv Hok]. unfold pair_ok, pair_readable in *. cbn [fst snd] in *. bool_prop.
  unfold enc_pair at 1 in Hat. cbn [fst snd] in Hat. rewrite !string_app_assoc in Hat.
  apply at_pos_app in Hat as [Hk Hat]. apply at_pos_app in Hat as [Ht Hat]. apply at_pos_app in Hat as [Hv Hr].
  destruct (Z.leb_spec (Z.of_nat (String.length k)) 4096); cbn [andb];
    [|by rewrite (read_string_long d version pos k)].
  rewrite (read_string_at d version pos k) by done. cbn [rbind fst snd].
  rewrite (read_u32_at d _ (type_of v)) by (done || by eapply type_of_bounds). cbn [rbind fst snd].
  unfold enc_u32 in *. rewrite le_encode_length in *. change (Z.of_nat 4) with 4 in *.
  pose proof (at_pos_bound _ _ _ Hv) as Hb.
  pose proof (skip_value_at fuel d version v _ ltac:(lia) ltac:(done) Hv Hd) as Hskip.
  destruct (String.eqb k "llama.context_length" && (type_of v =? 4)) eqn:E.
  - destruct v as [ty b| |]; cbn [type_of readable] in *; [|by rewrite andb_false_r in E..].
    cbn [context_length]. rewrite E. bool_prop. subst ty. cbn [value_ok enc_value] in *. bool_prop. cbn in *.
    unfold read_u32. rewrite (read_exact_at _ _ _ 4 Hv) by (simplify_eq; lia). done.
  - destruct (readable v).
    + rewrite Hskip. cbn [rbind]. rewrite IH by done. cbn [context_length].
      destruct v; cbn [type_of] in E; by rewrite ?E.
    + by destruct (skip_value _ _ _ _ _).
Qed.

Lemma read_header_at fuel version tensors kvs rest :
  1 <= version <= 3 -> 0 <= tensors <= len_max version -> Z.of_nat (List.length kvs) <= len_max version ->
  exists pos,
    at_pos (enc_file version tensors kvs rest) pos (concat_map (enc_pair version) kvs +:+ rest) /\
    read_context_length_from fuel (enc_file version tensors kvs rest)
    = read_pairs (List.length kvs) fuel (enc_file version tensors kvs rest) version pos.
Proof.
  intros Hv Ht Hn. set (d := enc_file version tensors kvs rest).
  assert (at_pos d 0 d) as Hat by (exists EmptyString, EmptyString; by rewrite string_app_nil_r).
  unfold d at 2 in Hat. unfold enc_file in Hat.
  apply at_pos_app in Hat as [H0 Hat]. apply at_pos_app in Hat as [H1 Hat].
  apply at_pos_app in Hat as [H2 Hat]. apply at_pos_app in Hat as [H3 Hat].
  eexists. split; [exact Hat|]. unfold read_context_length_from.
  rewrite (read_exact_at _ _ _ 4 H0) by done. cbn [rbind fst snd String.eqb Ascii.eqb Bool.eqb negb].
  change (0 + Z.of_nat (String.length "GGUF")) with (0 + 4) in *.
  rewrite (read_u32_at d _ version H1) by (unfold u32_max; lia). cbn [rbind fst snd].
  replace ((version =? 0) || (3 <? version)) with false by lia.
  unfold enc_u32 in *. rewrite le_encode_length in *. change (Z.of_nat 4) with 4 in *.
  rewrite (read_len_at d version _ _ H2) by done. cbn [rbind fst snd].
  rewrite (read_len_at d version _ _ H3) by lia. cbn [rbind fst snd]. by rewrite Nat2Z.id.
Qed.

Lemma read_context_length_at version tensors kvs rest :
  1 <= version <= 3 -> 0 <= tensors <= len_max version -> Z.of_nat (List.length kvs) <= len_max version ->
  Z.of_nat (String.length (enc_file version tensors kvs rest)) <= i64_max ->
  forallb (pair_ok version) kvs = true ->
  read_context_length (enc_file version tensors kvs rest) = context_length (readable_prefix kvs).
Proof.
  intros Hv Ht Hn Hd Hok. unfold read_context_length.
  destruct (read_header_at (S (String.length (enc_file version tensors kvs rest)))
              version tensors kvs rest) as (pos & Hat & ->); try done.
  eapply read_pairs_at; [lia|done|done|exact Hat].
Qed.

Lemma readable_prefix_all kvs : forallb pair_readable kvs = true -> readable_prefix kvs = kvs.
Proof.
  induction kvs as [|kv kvs IH]; [done|]. cbn [forallb readable_prefix]. intros [-> Hr]%andb_true_iff. by rewrite IH.
Qed.

(** ** Properties *)

(** on every file, of any bytes, the reader ends with the length, with no
    length, or with an error of the code: the model's fuel never runs out. *)
Theorem reader_total d : read_context_length_from (S (String.length d)) d <> Err OutOfFuel.
Proof.
  unfold read_context_length_from.
  apply rbind_fuel; [apply read_exact_fuel|]. intros [m p] Hm.
  apply read_exact_ok in Hm; [|done]. case_match; [done|].
  apply rbind_fuel; [apply read_u32_fuel|]. intros [v p1] E1.
  apply (read_len_bounds d 1) in E1; [|simpl; lia]. case_match; [done|].
  apply rbind_fuel; [apply read_len_fuel|]. intros [t p2] E2.
  apply read_len_bounds in E2; [|cbn [fst snd] in *; lia].
  apply rbind_fuel; [apply read_len_fuel|]. intros [n p3] E3.
  apply read_len_bounds in E3; [|cbn [fst snd] in *; lia].
  apply read_pairs_fuel; cbn [fst snd] in *; lia.
Qed.

(** C7: in a file of the format, of any of the three versions, with pairs of whatever
    types (nested arrays included) and whatever follows them, the reader returns the
    first [u32] pair named [llama.context_length] among the pairs before the first
    one that has a string of more than 4096 bytes, as its name or anywhere in its
    value, and nothing when there is no such pair. So it is right on a file whose
    strings are all within that limit, and a longer string, such as the template of a
    chat, hides a context length that comes after it. *)
Theorem reader_correct version tensors kvs rest :
  1 <= version <= 3 -> 0 <= tensors <= len_max version -> Z.of_nat (List.length kvs) <= len_max version ->
  Z.of_nat (String.length (enc_file version tensors kvs rest)) <= i64_max ->
  forallb (pair_ok version) kvs = true ->
  read_context_length (enc_file version tensors kvs rest) = context_length (readable_prefix kvs) /\
  (forallb pair_readable kvs = true ->
   read_context_length (enc_file version tensors kvs rest) = context_length kvs).
Proof.
  intros Hv Ht Hn Hd Hok. rewrite read_context_length_at by done. split; [done|].
  intros Hr. by rewrite readable_prefix_all.
Qed.

Definition demo_pairs : list (string * value) :=
  [ ("general.name", VStr "demo");
    ("nested", VArr 9 [VArr 8 [VStr "a"; VStr ""]; VArr 10 []]);
    ("llama.context_length", VScalar 10 (le_encode 8 7));
    ("llama.context_length", VScalar 4 (le_encode 4 4096)) ].

(** A template of 5000 bytes, in an array, before the context length. *)
Definition hidden_pairs : list (string * value) :=
  [ ("general.name", VStr "demo");
    ("templates", VArr 8 [VStr "short"; VStr (string_of_list_ascii (replicate 5000 "x"%char))]);
    ("llama.context_length", VScalar 4 (le_encode 4 4096)) ].

Lemma reader_correct_witness :
  read_context_length (enc_file 3 2 demo_pairs "tensor data") = Some 4096 /\
  read_context_length (enc_file 3 2 hidden_pairs "tensor data") = None /\ context_length hidden_pairs = Some 4096.
Proof.
  split; [|split].
  - destruct (reader_correct 3 2 demo_pairs "tensor data") as [_ H]; [done|by vm_compute..|].
    rewrite H by (by vm_compute). by vm_compute.
  - destruct (reader_correct 3 2 hidden_pairs "tensor data") as [H _]; [done|by vm_compute..|].
    rewrite H. by vm_compute.
  - by vm_compute.
Defined.

End Gguf.
