(* ===== verification/RagChunk.v ===== *)
(** * Chunking documents for retrieval

    Models [maranode-rag/src/chunk.rs]. A text is the list of its characters (Unicode
    scalar values). The loop of [chunk_text] takes fuel, one unit per chunk, and
    every chunk advances by a character, so the length of the text is enough. The
    specification is that chunking loses nothing: the characters of a text that are
    not whitespace are, in order, a subsequence of those of its chunks. *)

From Stdlib Require Import ZArith Lia Ascii String.
From S2P Require Import Prelude.
Open Scope list_scope.
Open Scope Z_scope.

(** What the standard library takes from the Unicode tables. *)
Class Unicode := {
  is_alphabetic : Z -> bool;
  is_alphanumeric : Z -> bool;
  to_lowercase : list Z -> list Z;
  to_lowercase_ascii l :
    Forall (fun c => c < 128) l ->
    to_lowercase l = (fun c => if (65 <=? c) && (c <=? 90) then c + 32 else c) <$> l;
}.

Module Chunk.

Definition text := list Z.

Fixpoint str (s : string) : text :=
  match s with EmptyString => [] | String c r => code c :: str r end.

Coercion str : string >-> text.

(** [char::is_whitespace]. *)
Definition is_whitespace (c : Z) : bool :=
  ((9 <=? c) && (c <=? 13)) || (c =? 32) || (c =? 133) || (c =? 160) || (c =? 5760)
  || ((8192 <=? c) && (c <=? 8202)) || (c =? 8232) || (c =? 8233) || (c =? 8239)
  || (c =? 8287) || (c =? 12288).

Definition newline : Z := 10.

Fixpoint trim_start_with (p : Z -> bool) (t : text) : text :=
  match t with
  | [] => []
  | c :: r => if p c then trim_start_with p r else t
  end.
Definition trim_start : text -> text := trim_start_with is_whitespace.
Definition trim_end (t : text) : text := reverse (trim_start (reverse t)).
Definition trim (t : text) : text := trim_end (trim_start t).
Definition is_empty (t : text) : bool := match t with [] => true | _ => false end.

Definition ends_with (c : Z) (t : text) : bool :=
  match reverse t with [] => false | d :: _ => d =? c end.
Fixpoint starts_with (p t : text) : bool :=
  match p, t with
  | [], _ => true
  | c :: p, d :: t => (c =? d) && starts_with p t
  | _ :: _, [] => false
  end.

(** [str::lines]. *)
Definition strip_cr (l : text) : text :=
  if ends_with 13 l then take (List.length l - 1) l else l.

Fixpoint split_lines (t : text) : list (text * bool) :=
  match t with
  | [] => []
  | c :: r =>
    if c =? newline then ([], true) :: split_lines r
    else match split_lines r with
         | [] => [([c], false)]
         | (l, b) :: ls => (c :: l, b) :: ls
         end
  end.

Definition lines (t : text) : list text :=
  (fun l : text * bool => if l.2 then strip_cr l.1 else l.1) <$> split_lines t.

Record RichChunk := {
  c_text : text;
  page_number : Z;
  section : option text;
}.

(** ** Text by size *)

(** [(lo..hi).rev()] until the condition holds: the greatest index below [hi], not
    below [lo]. *)
Fixpoint rfind (p : nat -> bool) (lo n : nat) : option nat :=
  match n with
  | O => None
  | S n => if p (lo + n)%nat then Some (lo + n)%nat else rfind p lo n
  end.

Definition char_at (chars : text) (i : nat) : Z := default 0 (chars !! i).

Definition is_stop (c : Z) : bool := (c =? 46) || (c =? 33) || (c =? 63) || (c =? 8230).

Definition find_break (chars : text) (start hard_end : nat) : nat :=
  let window := (hard_end - start)%nat in
  let min_len := ((window * 6) / 10)%nat in
  let lo := (start + min_len)%nat in
  let back p := rfind p lo (hard_end - lo) in
  match back (fun i => (char_at chars i =? newline) && (start <? i)%nat
                       && (char_at chars (i - 1) =? newline)) with
  | Some i => S i
  | None =>
    match back (fun i => is_stop (char_at chars i)
                         && default true (is_whitespace <$> chars !! S i)) with
    | Some i => S i
    | None =>
      match back (fun i => is_whitespace (char_at chars i)) with
      | Some i => S i
      | None => hard_end
      end
    end
  end.

Definition window_end (chars : text) (size start : nat) : nat :=
  let hard_end := Nat.min (start + size) (List.length chars) in
  if (hard_end =? List.length chars)%nat then hard_end else find_break chars start hard_end.

Definition slice (chars : text) (a b : nat) : text := take (b - a) (drop a chars).

(** The [while] loop from [start]; [None] when the fuel runs out. *)
Fixpoint chunk_loop (fuel : nat) (chars : text) (size overlap start : nat)
    : option (list text) :=
  if (List.length chars <=? start)%nat then Some [] else
  match fuel with
  | O => None
  | S fuel =>
    let end_ := window_end chars size start in
    let trimmed := trim (slice chars start end_) in
    let push := fun rest => if is_empty trimmed then rest else trimmed :: rest in
    if (List.length chars <=? end_)%nat then Some (push []) else
    let next := (end_ - overlap)%nat in
    let start := if (start <? next)%nat then next else end_ in
    push <$> chunk_loop fuel chars size overlap start
  end.

Definition chunk_text (chars : text) (size overlap : nat) : option (list text) :=
  match chars with
  | [] => Some []
  | _ =>
    let size := Nat.max size 1 in
    let overlap := Nat.min overlap (size - 1) in
    if (List.length chars <=? size)%nat then
      let s := trim chars in Some (if is_empty s then [] else [s])
    else chunk_loop (List.length chars) chars size overlap 0
  end.

(** ** Code by symbol *)

Inductive CodeLang := Braces | Python.

#[export] Instance CodeLang_eq_dec : EqDecision CodeLang.
Proof. solve_decision. Defined.

(** [Path::extension]: the file name is the last component that is not empty and not
    [.]; [..] has no file name; a leading dot starts no extension. *)
Fixpoint split_on (p : Z -> bool) (t : text) : list text :=
  match t with
  | [] => [[]]
  | c :: r =>
    if p c then [] :: split_on p r
    else match split_on p r with
         | [] => [[c]]
         | l :: ls => (c :: l) :: ls
         end
  end.

Definition file_name (path : text) : option text :=
  let comps := List.filter (fun c => negb (is_empty c || bool_decide (c = [46])))
                 (split_on (fun c => c =? 47) path) in
  match reverse comps with
  | [] => None
  | c :: _ => if bool_decide (c = [46; 46]) then None else Some c
  end.

Definition extension (path : text) : option text :=
  match file_name path with
  | None => None
  | Some f =>
    match reverse (split_on (fun c => c =? 46) f) with
    | ext :: rest =>
      if is_empty (concat rest) && (List.length rest <=? 1)%nat then None else Some ext
    | [] => None
    end
  end.

Definition py_exts : list string := ["py"; "pyi"]%string.
Definition brace_exts : list string :=
  ["rs"; "js"; "mjs"; "cjs"; "jsx"; "ts"; "tsx"; "go"; "java"; "c"; "h"; "cc"; "cpp"; "cxx";
   "hpp"; "hh"; "hxx"; "cs"; "kt"; "kts"; "swift"; "scala"; "php"; "dart"; "proto"]%string.

Definition one_of (l : list string) (t : text) : bool :=
  existsb (fun s => bool_decide (t = str s)) l.

Definition lang_for `{Unicode} (source : text) : option CodeLang :=
  match extension source with
  | None => None
  | Some ext =>
    let ext := to_lowercase ext in
    if one_of py_exts ext then Some Python
    else if one_of brace_exts ext then Some Braces
    else None
  end.

(** [brace_delta]: braces outside string literals and before a line comment. *)
Fixpoint brace_delta_from (line : text) (in_str : bool) (depth : Z) : Z :=
  match line with
  | [] => depth
  | c :: r =>
    if in_str then
      if c =? 92 then match r with [] => depth | _ :: r => brace_delta_from r true depth end
      else if c =? 34 then brace_delta_from r false depth
      else brace_delta_from r true depth
    else if (c =? 47) && match r with d :: _ => d =? 47 | [] => false end then depth
    else if c =? 34 then brace_delta_from r true depth
    else if c =? 123 then brace_delta_from r false (depth + 1)
    else if c =? 125 then brace_delta_from r false (depth - 1)
    else brace_delta_from r false depth
  end.
Definition brace_delta (line : text) : Z := brace_delta_from line false 0.

Definition push_unit (units : list text) (cur : text) : list text * text :=
  if is_empty (trim cur) then (units, []) else (units ++ [cur], []).

Fixpoint brace_loop (ls : list text) (units : list text) (cur : text) (depth : Z)
    : list text * text :=
  match ls with
  | [] => (units, cur)
  | line :: ls =>
    let cur := cur ++ line ++ [newline] in
    let depth := depth + brace_delta line in
    let depth := if depth <? 0 then 0 else depth in
    let trimmed := trim_end line in
    let st := if (depth =? 0) && (ends_with 125 trimmed || ends_with 59 trimmed)
              then push_unit units cur else (units, cur) in
    brace_loop ls st.1 st.2 depth
  end.

Definition brace_units (t : text) : list text :=
  let st := brace_loop (lines t) [] [] 0 in (push_unit st.1 st.2).1.

Definition starts_ws (line : text) : bool :=
  match line with [] => false | c :: _ => is_whitespace c end.

Definition py_top_def (line : text) : bool :=
  if starts_ws line then false else
  let t := trim_start line in
  starts_with (str "def ") t || starts_with (str "class ") t
  || starts_with (str "async def ") t || starts_with (str "@") t.

Fixpoint python_loop (ls : list text) (units : list text) (cur : text) (prev_decorator : bool)
    : list text * text :=
  match ls with
  | [] => (units, cur)
  | line :: ls =>
    let st := if py_top_def line && negb prev_decorator && negb (is_empty (trim cur))
              then push_unit units cur else (units, cur) in
    let cur := st.2 ++ line ++ [newline] in
    python_loop ls st.1 cur (negb (starts_ws line) && starts_with (str "@") (trim_start line))
  end.

Definition python_units (t : text) : list text :=
  let st := python_loop (lines t) [] [] false in (push_unit st.1 st.2).1.

Definition keywords (lang : CodeLang) : list string :=
  match lang with
  | Python => ["def"; "class"]
  | Braces => ["fn"; "function"; "func"; "class"; "struct"; "enum"; "trait"; "interface";
               "type"; "mod"; "impl"; "const"; "let"; "var"; "val"]
  end%string.

Definition is_word `{Unicode} (c : Z) : bool := is_alphanumeric c || (c =? 95).

Definition is_ident `{Unicode} (s : text) : bool :=
  match s with
  | [] => false
  | c :: _ => (is_alphabetic c || (c =? 95)) && forallb is_word s
  end.

Fixpoint def_in `{Unicode} (lang : CodeLang) (tokens : list text) : option text :=
  match tokens with
  | a :: (b :: _) as r => if one_of (keywords lang) a && is_ident b then Some b else def_in lang r
  | _ => None
  end.

Definition def_name `{Unicode} (line : text) (lang : CodeLang) : option text :=
  def_in lang (List.filter (fun t => negb (is_empty t)) (split_on (fun c => negb (is_word c)) line)).

Fixpoint first_label `{Unicode} (lang : CodeLang) (ls : list text) : option text :=
  match ls with
  | [] => None
  | line :: ls =>
    let t := trim line in
    if is_empty t || starts_with (str "//") t || starts_with (str "/*") t || starts_with (str "*") t
    then first_label lang ls
    else match def_name t lang with
         | Some name => Some name
         | None => first_label lang ls
         end
  end.

Definition symbol_label `{Unicode} (unit : text) (lang : CodeLang) : option text :=
  first_label lang (take 10 (lines unit)).

Definition mk_chunk (buf : text) (section : option text) : RichChunk :=
  {| c_text := trim buf; page_number := 1; section := section |}.

(** The loop of [chunk_code] over the units. *)
Fixpoint code_loop `{Unicode} (lang : CodeLang) (size overlap : nat) (units : list text)
    (out : list RichChunk) (buf : text) (label : option text) : option (list RichChunk) :=
  match units with
  | [] => Some (if is_empty (trim buf) then out else out ++ [mk_chunk buf label])
  | unit :: units =>
    let unit_len := List.length unit in
    if (size <? unit_len)%nat then
      let flush := negb (is_empty (trim buf)) in
      let out := if flush then out ++ [mk_chunk buf label] else out in
      let label := if flush then None else label in
      let unit_label := symbol_label unit lang in
      some? pieces := chunk_text unit size overlap in
      let mk := fun piece => {| c_text := piece; page_number := 1; section := unit_label |} in
      code_loop lang size overlap units (out ++ (mk <$> pieces)) [] label
    else
      let flush := negb (is_empty buf) && (size <? List.length buf + unit_len)%nat in
      let out := if flush then out ++ [mk_chunk buf label] else out in
      let label := if flush then None else label in
      let buf := if flush then [] else buf in
      let label := match label with None => symbol_label unit lang | _ => label end in
      code_loop lang size overlap units out (buf ++ unit) label
  end.

Definition chunk_code `{Unicode} (t : text) (lang : CodeLang) (size overlap : nat)
    : option (list RichChunk) :=
  let units := match lang with Braces => brace_units t | Python => python_units t end in
  code_loop lang size overlap units [] [] None.

(** ** Documents *)

Record Page := { number : Z; p_text : text }.
Record DocumentContent := { pages : list Page; full_text : text }.

(** [str::len], the bytes of the UTF-8 encoding. *)
Definition utf8_len (t : text) : Z :=
  foldr (fun c n => n + (if c <? 128 then 1 else if c <? 2048 then 2 else if c <? 65536 then 3 else 4)) 0 t.

Fixpoint heading_in (ls : list text) : option text :=
  match ls with
  | [] => None
  | line :: ls =>
    let t := trim line in
    if is_empty t then heading_in ls
    else if starts_with (str "#") t then Some (trim (trim_start_with (fun c => c =? 35) t))
    else if (utf8_len t <=? 60) && negb (ends_with 46 t) && negb (ends_with 44 t) then Some t
    else None
  end.
Definition extract_heading (t : text) : option text := heading_in (lines t).

Definition page_chunks (size overlap : nat) (page : Page) : option (list RichChunk) :=
  let section := extract_heading (p_text page) in
  some? ts := chunk_text (p_text page) size overlap in
  Some ((fun t => {| c_text := t; page_number := number page; section := section |}) <$> ts).

Fixpoint pages_chunks (size overlap : nat) (ps : list Page) : option (list RichChunk) :=
  match ps with
  | [] => Some []
  | p :: ps =>
    some? a := page_chunks size overlap p in
    some? b := pages_chunks size overlap ps in Some (a ++ b)
  end.

Definition chunk_document `{Unicode} (doc : DocumentContent) (source : text) (size overlap : nat)
    : option (list RichChunk) :=
  match lang_for source with
  | Some lang =>
    some? coded := chunk_code (full_text doc) lang size overlap in
    match coded with
    | [] => pages_chunks size overlap (pages doc)
    | _ => Some coded
    end
  | None => pages_chunks size overlap (pages doc)
  end.

(** ** Nothing is lost

    The ink of a text is its characters that are not whitespace. *)

Definition ink (t : text) : text := List.filter (fun c => negb (is_whitespace c)) t.

Definition infix (c t : text) : Prop := exists a b, t = a ++ c ++ b.

(** A chunk worth storing: not blank, of at most [size] characters, and a piece of
    the text. *)
Definition good_chunk (size : nat) (t c : text) : Prop :=
  ink c <> [] /\ (List.length c <= size)%nat /\ infix c t.

Lemma ink_app a b : ink (a ++ b) = ink a ++ ink b.
Proof. apply List.filter_app. Qed.

Lemma ink_reverse t : ink (reverse t) = reverse (ink t).
Proof.
  induction t as [|c t IH]; [done|]. rewrite reverse_cons, ink_app, IH. simpl.
  destruct (is_whitespace c); simpl; [by rewrite app_nil_r|by rewrite reverse_cons].
Qed.

Lemma ink_trim_start t : ink (trim_start t) = ink t.
Proof.
  induction t as [|c t IH]; simpl; [done|]. unfold trim_start in *. simpl.
  by destruct (is_whitespace c) eqn:E; simpl; rewrite ?E.
Qed.

Lemma ink_trim t : ink (trim t) = ink t.
Proof.
  unfold trim, trim_end. by rewrite ink_reverse, ink_trim_start, ink_reverse, reverse_involutive, ink_trim_start.
Qed.

Lemma trim_start_suffix t : exists a, t = a ++ trim_start t.
Proof.
  induction t as [|c t [a IH]]; unfold trim_start in *; simpl; [by exists []|].
  destruct (is_whitespace c); [|by exists []]. exists (c :: a). simpl. by f_equal.
Qed.

Lemma trim_infix t : infix (trim t) t.
Proof.
  destruct (trim_start_suffix t) as [a Ha].
  destruct (trim_start_suffix (reverse (trim_start t))) as [b Hb].
  exists a, (reverse b). unfold trim, trim_end. rewrite Ha at 1. f_equal.
  rewrite <- (reverse_involutive (trim_start t)), Hb at 1. apply reverse_app.
Qed.

Lemma trim_start_head t c r : trim_start t = c :: r -> is_whitespace c = false.
Proof.
  induction t as [|d t IH]; unfold trim_start in *; simpl; [done|].
  destruct (is_whitespace d) eqn:E; [done|]. by intros [= -> ->].
Qed.

Lemma trim_empty t : is_empty (trim t) = true <-> ink t = [].
Proof.
  rewrite <- ink_trim. destruct (trim t) as [|c r] eqn:E; [done|]. split; [done|].
  intros Hi. exfalso. unfold trim, trim_end in E.
  assert (reverse (c :: r) = trim_start (reverse (trim_start t))) as Hr
    by (rewrite <- E; apply reverse_involutive).
  destruct (reverse (c :: r)) as [|d q] eqn:Er.
  { apply (f_equal List.length) in Er. by rewrite length_reverse in Er. }
  symmetry in Hr. apply trim_start_head in Hr.
  assert (ink (d :: q) = []) as Hd by (by rewrite <- Er, ink_reverse, Hi).
  simpl in Hd. by rewrite Hr in Hd.
Qed.

Lemma infix_trans a b c : infix a b -> infix b c -> infix a c.
Proof.
  intros (x & y & ->) (u & v & ->). exists (u ++ x), (y ++ v). by rewrite <- !app_assoc.
Qed.

Lemma infix_length a b : infix a b -> (List.length a <= List.length b)%nat.
Proof. intros (x & y & ->). rewrite !length_app. lia. Qed.

Lemma trim_good size t s :
  infix s t -> (List.length s <= size)%nat -> is_empty (trim s) = false ->
  good_chunk size t (trim s).
Proof.
  intros Hs Hl He. pose proof (trim_infix s) as Hi. pose proof (infix_length _ _ Hi). split.
  - rewrite ink_trim. rewrite <- trim_empty. by rewrite He.
  - split; [lia|]. by eapply infix_trans.
Qed.

(** Pushing a trimmed piece: it adds the ink of the piece. *)
Lemma push_ink s rest :
  concat (ink <$> (if is_empty (trim s) then rest else trim s :: rest))
  = ink s ++ concat (ink <$> rest).
Proof.
  destruct (is_empty (trim s)) eqn:E; simpl; [|by rewrite ink_trim].
  by apply trim_empty in E as ->.
Qed.

Lemma rfind_bounds p lo n i : rfind p lo n = Some i -> (lo <= i < lo + n)%nat.
Proof.
  induction n as [|n IH]; simpl; [done|]. destruct (p (lo + n)%nat); [intros [= <-]; lia|].
  intros H. apply IH in H. lia.
Qed.

Lemma window_end_bounds chars size start :
  (0 < size)%nat -> (start < List.length chars)%nat ->
  let e := window_end chars size start in
  (start < e)%nat /\ (e <= start + size)%nat /\ (e <= List.length chars)%nat.
Proof.
  intros Hs Hl. unfold window_end. cbn zeta.
  set (h := Nat.min (start + size) (List.length chars)).
  assert (start < h /\ h <= start + size /\ h <= List.length chars)%nat as (H1 & H2 & H3) by lia.
  destruct (h =? List.length chars)%nat; [lia|]. unfold find_break. cbn zeta.
  set (m := (((h - start) * 6) / 10)%nat).
  assert (m <= h - start)%nat as Hm by (apply Nat.Div0.div_le_upper_bound; lia).
  repeat (case_match;
    [match goal with H : rfind _ _ _ = Some _ |- _ => apply rfind_bounds in H; lia end|]).
  lia.
Qed.

Lemma slice_infix chars a b : infix (slice chars a b) chars.
Proof.
  exists (take a chars), (drop (b - a) (drop a chars)). unfold slice.
  by rewrite take_drop, take_drop.
Qed.

Lemma slice_length chars a b : (List.length (slice chars a b) <= b - a)%nat.
Proof. unfold slice. rewrite length_take. lia. Qed.

Lemma drop_slice chars a b : (a <= b)%nat -> drop a chars = slice chars a b ++ drop b chars.
Proof.
  intros Hab. unfold slice. rewrite <- (take_drop (b - a) (drop a chars)) at 1.
  f_equal. rewrite drop_drop. f_equal. lia.
Qed.

Lemma ink_drop_sublist chars a b :
  (a <= b)%nat -> sublist (ink (drop b chars)) (ink (drop a chars)).
Proof. intros Hab. rewrite (drop_slice chars a b Hab), ink_app. by apply sublist_inserts_l. Qed.

Lemma Forall_push {P : text -> Prop} (b : bool) c rest :
  (b = false -> P c) -> Forall P rest -> Forall P (if b then rest else c :: rest).
Proof. destruct b; auto. Qed.

Lemma chunk_loop_spec fuel chars size overlap start :
  (0 < size)%nat -> (List.length chars <= start + fuel)%nat ->
  exists cs, chunk_loop fuel chars size overlap start = Some cs /\
    Forall (good_chunk size chars) cs /\
    sublist (ink (drop start chars)) (concat (ink <$> cs)).
Proof.
  intros Hs. revert start. induction fuel as [|fuel IH]; intros start Hf; cbn [chunk_loop];
    destruct (Nat.leb_spec (List.length chars) start) as [Hle|Hlt];
    try (exists []; rewrite drop_ge by done; done); [lia|].
  destruct (window_end_bounds chars size start Hs Hlt) as (H1 & H2 & H3).
  set (e := window_end chars size start) in *. cbn zeta.
  set (s := slice chars start e).
  assert (is_empty (trim s) = false -> good_chunk size chars (trim s)) as Hg.
  { apply trim_good; [apply slice_infix|]. etrans; [apply slice_length|lia]. }
  rewrite (drop_slice chars start e) by lia. rewrite ink_app. fold s.
  destruct (Nat.leb_spec (List.length chars) e) as [He|He].
  - eexists. split; [done|]. split; [by apply Forall_push|].
    rewrite push_ink, (drop_ge chars e) by done. done.
  - set (start' := if (start <? e - overlap)%nat then (e - overlap)%nat else e).
    assert (start < start' <= e)%nat as Hn.
    { unfold start'. destruct (Nat.ltb_spec start (e - overlap)); lia. }
    destruct (IH start') as (cs & -> & Hcs & Hsub); [lia|].
    eexists. split; [done|]. split; [by apply Forall_push|]. rewrite push_ink.
    apply sublist_app; [done|]. etrans; [|exact Hsub]. apply ink_drop_sublist. lia.
Qed.

Lemma chunk_text_spec chars size overlap :
  exists cs, chunk_text chars size overlap = Some cs /\
    Forall (good_chunk (Nat.max size 1) chars) cs /\
    sublist (ink chars) (concat (ink <$> cs)).
Proof.
  unfold chunk_text. destruct chars as [|c t]; [by exists []|]. cbn zeta.
  set (chars := c :: t). destruct (Nat.leb_spec (List.length chars) (Nat.max size 1)) as [Hl|Hl].
  - eexists. split; [done|]. split.
    + apply Forall_push; [|done]. apply trim_good; [|done]. exists [], []. by rewrite app_nil_r.
    + rewrite push_ink. simpl. by rewrite app_nil_r.
  - apply (chunk_loop_spec (List.length chars) chars (Nat.max size 1) _ 0); lia.
Qed.

(** ** Lines and units keep the ink *)

Lemma ink_snoc_ws t c : is_whitespace c = true -> ink (t ++ [c]) = ink t.
Proof. intros Hc. rewrite ink_app. simpl. rewrite Hc. apply app_nil_r. Qed.

Lemma ink_strip_cr l : ink (strip_cr l) = ink l.
Proof.
  unfold strip_cr, ends_with. destruct l as [|x l _] using rev_ind; [done|].
  rewrite reverse_snoc. destruct (Z.eqb_spec x 13) as [->|_]; [|done].
  rewrite length_app. simpl List.length. rewrite Nat.add_sub, take_app_length.
  by rewrite ink_snoc_ws.
Qed.

Lemma ink_lines t : concat (ink <$> lines t) = ink t.
Proof.
  unfold lines.
  assert (forall l b, ink (if b : bool then strip_cr l else l) = ink l) as Hl
    by (intros l []; [apply ink_strip_cr|done]).
  induction t as [|c t IH]; [done|]. cbn [split_lines].
  destruct (Z.eqb_spec c newline) as [->|_]; [by rewrite !fmap_cons|].
  revert IH. destruct (split_lines t) as [|[l b] ls]; rewrite ?fmap_cons; cbn [fst snd fmap list_fmap concat].
  - intros IH. simpl in IH. simpl. rewrite <- IH. by destruct (is_whitespace c).
  - rewrite !Hl. intros IH. simpl. rewrite <- IH. by destruct (is_whitespace c).
Qed.

Definition fits (size : nat) (unit : text) : Prop := (List.length unit <= size)%nat.

Definition inked (t : text) : Prop := ink t <> [].

Lemma push_unit_ink us cur st :
  push_unit us cur = st ->
  ink (concat st.1) ++ ink st.2 = ink (concat us) ++ ink cur /\
  (Forall inked us -> Forall inked st.1).
Proof.
  intros <-. unfold push_unit, inked. destruct (is_empty (trim cur)) eqn:E; cbn [fst snd].
  - apply trim_empty in E as ->. done.
  - rewrite concat_app, ink_app. simpl. rewrite !app_nil_r. split; [done|].
    intros Hu. apply Forall_app. split; [done|]. constructor; [|done].
    rewrite <- trim_empty. by rewrite E.
Qed.

Lemma ink_line line : ink (line ++ [newline]) = ink line.
Proof. by apply ink_snoc_ws. Qed.

Lemma brace_loop_ink ls us cur depth st :
  brace_loop ls us cur depth = st ->
  ink (concat st.1) ++ ink st.2 = ink (concat us) ++ ink cur ++ concat (ink <$> ls) /\
  (Forall inked us -> Forall inked st.1).
Proof.
  revert us cur depth. induction ls as [|line ls IH]; intros us cur depth; cbn [brace_loop].
  { intros <-. simpl. by rewrite app_nil_r. }
  cbn zeta. intros H. apply IH in H as [Hi Hf]. revert Hi Hf. rewrite fmap_cons. cbn [concat].
  case_match.
  - destruct (push_unit us (cur ++ line ++ [newline])) as [us' cur'] eqn:E.
    apply push_unit_ink in E as [E1 E2]. cbn [fst snd] in *. intros Hi Hf. split; [|auto].
    rewrite Hi, app_assoc, E1, ink_app, ink_line, <- !app_assoc. done.
  - cbn [fst snd]. intros Hi Hf. split; [|done]. rewrite Hi, ink_app, ink_line, <- !app_assoc. done.
Qed.

Lemma python_loop_ink ls us cur prev st :
  python_loop ls us cur prev = st ->
  ink (concat st.1) ++ ink st.2 = ink (concat us) ++ ink cur ++ concat (ink <$> ls) /\
  (Forall inked us -> Forall inked st.1).
Proof.
  revert us cur prev. induction ls as [|line ls IH]; intros us cur prev; cbn [python_loop].
  { intros <-. simpl. by rewrite app_nil_r. }
  cbn zeta. intros H. apply IH in H as [Hi Hf]. revert Hi Hf. rewrite fmap_cons. cbn [concat].
  case_match.
  - destruct (push_unit us cur) as [us' cur'] eqn:E.
    apply push_unit_ink in E as [E1 E2]. cbn [fst snd] in *. intros Hi Hf. split; [|auto].
    rewrite Hi, ink_app, ink_line, !app_assoc, E1. done.
  - cbn [fst snd]. intros Hi Hf. split; [|done]. rewrite Hi, ink_app, ink_line, <- !app_assoc. done.
Qed.

Definition units_of (lang : CodeLang) (t : text) : list text :=
  match lang with Braces => brace_units t | Python => python_units t end.

Lemma units_ink lang t : ink (concat (units_of lang t)) = ink t /\ Forall inked (units_of lang t).
Proof.
  assert (forall st : list text * text,
    ink (concat st.1) ++ ink st.2 = ink t -> Forall inked st.1 ->
    ink (concat (push_unit st.1 st.2).1) = ink t /\ Forall inked (push_unit st.1 st.2).1) as Hfin.
  { intros [us cur] Hi Hf. cbn [fst snd] in *.
    destruct (push_unit us cur) as [us' cur'] eqn:E.
    pose proof E as [E1 E2]%push_unit_ink. cbn [fst snd] in *. split; [|auto].
    rewrite <- Hi, <- E1. unfold push_unit in E. case_match; simplify_eq; simpl; by rewrite app_nil_r. }
  destruct lang; unfold units_of, brace_units, python_units; apply Hfin.
  - edestruct brace_loop_ink as [-> _]; [done|]. simpl. apply ink_lines.
  - edestruct brace_loop_ink as [_ Hf]; [done|]. by apply Hf.
  - edestruct python_loop_ink as [-> _]; [done|]. simpl. apply ink_lines.
  - edestruct python_loop_ink as [_ Hf]; [done|]. by apply Hf.
Qed.

(** ** Chunks of code *)

Section code.
Context `{!Unicode}.

Definition chunks_ink (cs : list RichChunk) : text := concat ((fun c => ink (c_text c)) <$> cs).

Definition good_rich (size : nat) (c : RichChunk) : Prop :=
  ink (c_text c) <> [] /\ (List.length (c_text c) <= Nat.max size 1)%nat.

Lemma chunks_ink_app a b : chunks_ink (a ++ b) = chunks_ink a ++ chunks_ink b.
Proof. unfold chunks_ink. by rewrite fmap_app, concat_app. Qed.

Lemma chunks_ink_pieces ps n l :
  chunks_ink ((fun p => {| c_text := p; page_number := n; section := l |}) <$> ps)
  = concat (ink <$> ps).
Proof. unfold chunks_ink. by rewrite <- list_fmap_compose. Qed.

Lemma mk_chunk_good size buf l :
  ink buf <> [] -> (List.length buf <= size)%nat -> good_rich size (mk_chunk buf l).
Proof.
  intros Hi Hl. split; cbn [mk_chunk c_text]; [by rewrite ink_trim|].
  pose proof (infix_length _ _ (trim_infix buf)). lia.
Qed.

Lemma inked_not_blank buf : inked buf -> is_empty (trim buf) = false.
Proof. unfold inked. intros Hn. apply not_true_iff_false. by rewrite trim_empty. Qed.

(** The buffer between two units: empty, or with ink and within the size. *)
Definition buf_ok (size : nat) (buf : text) : Prop :=
  buf = [] \/ inked buf /\ (List.length buf <= size)%nat.

(** Emitting the buffer. *)
Definition emit (flush : bool) (out : list RichChunk) (buf : text) (label : option text) :=
  if flush then out ++ [mk_chunk buf label] else out.

Lemma emit_spec size flush out buf label :
  buf_ok size buf -> Forall (good_rich size) out -> (flush = true -> inked buf) ->
  (flush = false -> buf = []) ->
  Forall (good_rich size) (emit flush out buf label) /\
  chunks_ink (emit flush out buf label) = chunks_ink out ++ ink buf.
Proof.
  intros Hb Ho Ht Hf. destruct flush; cbn [emit].
  - destruct Hb as [->|[Hi Hl]]; [by destruct (Ht eq_refl)|]. split.
    + apply Forall_app. split; [done|]. constructor; [by apply mk_chunk_good|done].
    + rewrite chunks_ink_app. unfold chunks_ink at 2. simpl. by rewrite ink_trim, app_nil_r.
  - rewrite (Hf eq_refl). by rewrite app_nil_r.
Qed.

Lemma code_loop_spec lang size overlap us out buf label :
  Forall inked us -> Forall (good_rich size) out -> buf_ok size buf ->
  exists cs, code_loop lang size overlap us out buf label = Some cs /\
    Forall (good_rich size) cs /\
    sublist (chunks_ink out ++ ink buf ++ ink (concat us)) (chunks_ink cs).
Proof.
  intros Hu. revert out buf label. induction Hu as [|u us Hu _ IH];
    intros out buf label Ho Hb; cbn [code_loop].
  - eexists. split; [done|].
    destruct (emit_spec size (negb (is_empty (trim buf))) out buf label) as [H1 H2]; try done.
    + intros E. apply negb_true_iff in E. intros Hi. by rewrite <- trim_empty, E in Hi.
    + intros E. apply negb_false_iff, trim_empty in E. by destruct Hb as [|[Hi _]].
    + revert H1 H2. destruct (is_empty (trim buf)); cbn [negb emit]; intros H1 H2;
        (split; [done|]); simpl; rewrite app_nil_r, <- H2; reflexivity.
  - cbn zeta. destruct (Nat.ltb_spec size (List.length u)) as [Hl|Hl].
    + destruct (emit_spec size (negb (is_empty (trim buf))) out buf label) as [H1 H2]; try done.
      { intros E. apply negb_true_iff in E. intros Hi. by rewrite <- trim_empty, E in Hi. }
      { intros E. apply negb_false_iff, trim_empty in E. by destruct Hb as [|[Hi _]]. }
      destruct (chunk_text_spec u size overlap) as (ps & -> & Hps & Hsub).
      edestruct IH as (cs & -> & Hcs & Hs).
      * apply Forall_app. split; [exact H1|]. apply Forall_fmap.
        eapply Forall_impl; [exact Hps|]. by intros c (? & ? & _).
      * by left.
      * exists cs. split; [done|]. split; [done|]. etrans; [|exact Hs].
        rewrite chunks_ink_app, chunks_ink_pieces. unfold emit in H2. rewrite H2.
        simpl. rewrite ink_app, !app_assoc. apply sublist_app; [|done].
        apply sublist_app; [|done]. done.
    + set (flush := negb (is_empty buf) && (size <? List.length buf + List.length u)%nat).
      assert (flush = true -> inked buf) as Hfi.
      { intros E. unfold flush in E. bool_prop. destruct Hb as [->|[? _]]; done. }
      assert (Forall (good_rich size) (emit flush out buf label) /\
        chunks_ink (emit flush out buf label) ++ ink (if flush then [] else buf)
        = chunks_ink out ++ ink buf) as [H1 H2].
      { destruct flush eqn:E; [|done].
        destruct (emit_spec size true out buf label) as [Ha Hc]; try done.
        split; [done|]. rewrite Hc. by rewrite app_nil_r. }
      edestruct (IH (emit flush out buf label) ((if flush then [] else buf) ++ u)) as (cs & Hc & Hcs & Hs).
      * done.
      * right. split.
        -- unfold inked. rewrite ink_app. intros [_ ?]%app_nil. done.
        -- rewrite length_app. unfold flush. destruct buf as [|b buf]; simpl; [lia|].
           destruct (Nat.ltb_spec size (S (List.length buf + List.length u))); simpl; lia.
      * exists cs. unfold emit in Hc. split; [exact Hc|]. split; [done|].
        etrans; [|exact Hs]. cbn [concat]. rewrite !ink_app, !app_assoc.
        apply reflexive_eq. do 2 f_equal. symmetry. exact H2.
Qed.

Lemma chunk_code_spec t lang size overlap :
  exists cs, chunk_code t lang size overlap = Some cs /\
    Forall (good_rich size) cs /\ sublist (ink t) (chunks_ink cs).
Proof.
  destruct (units_ink lang t) as [Hi Hu].
  destruct (code_loop_spec lang size overlap (units_of lang t) [] [] None) as (cs & H1 & H2 & H3);
    [done|constructor|by left|].
  exists cs. split; [exact H1|]. split; [done|]. simpl in H3. by rewrite Hi in H3.
Qed.

(** A chunk made of whole units: their text, and the first name they define. *)
Definition group_label (lang : CodeLang) (g : list text) : option text :=
  foldr (fun u l => match symbol_label u lang with Some n => Some n | None => l end) None g.

Definition group_chunk (lang : CodeLang) (g : list text) : RichChunk :=
  mk_chunk (concat g) (group_label lang g).

Lemma group_label_snoc lang g u :
  group_label lang (g ++ [u])
  = match group_label lang g with None => symbol_label u lang | l => l end.
Proof.
  induction g as [|x g IH]; simpl; [by destruct (symbol_label u lang)|].
  rewrite IH. by destruct (symbol_label x lang).
Qed.

Lemma concat_blank g : Forall inked g -> ink (concat g) = [] -> g = [].
Proof. destruct 1 as [|u g Hu _]; simpl; [done|]. rewrite ink_app. intros [Hx _]%app_nil. by destruct Hu. Qed.

Definition group_ok (size : nat) (g : list text) : Prop :=
  g <> [] /\ (List.length (concat g) <= size)%nat.

Lemma code_loop_groups lang size overlap us out g :
  Forall inked us -> Forall (fits size) us -> Forall inked g ->
  (List.length (concat g) <= size)%nat ->
  exists gs, code_loop lang size overlap us out (concat g) (group_label lang g)
             = Some (out ++ (group_chunk lang <$> gs)) /\
    concat gs = g ++ us /\ Forall (group_ok size) gs.
Proof.
  intros Hu Hf. revert out g. induction us as [|u us IH]; intros out g Hg Hl; cbn [code_loop].
  - destruct (is_empty (trim (concat g))) eqn:E.
    + apply trim_empty, concat_blank in E as ->; [|done]. exists []. by rewrite app_nil_r.
    + exists [g]. simpl. split; [done|]. split; [done|]. constructor; [|done].
      split; [|done]. by intros ->.
  - apply Forall_cons in Hu as [Hu Hus]. apply Forall_cons in Hf as [Hf Hfs].
    unfold fits in Hf. cbn zeta. replace (size <? List.length u)%nat with false
      by (symmetry; by apply Nat.ltb_ge).
    destruct (negb (is_empty (concat g)) && (size <? List.length (concat g) + List.length u)%nat) eqn:E.
    + bool_prop. destruct (IH Hus Hfs (out ++ [group_chunk lang g]) [u]) as (gs & Hc & Hgs & Hok).
      { by constructor. }
      { simpl. by rewrite app_nil_r. }
      exists (g :: gs). split.
      * transitivity (Some ((out ++ [group_chunk lang g]) ++ (group_chunk lang <$> gs)));
          [|by rewrite <- app_assoc].
        rewrite <- Hc. cbn [concat app]. rewrite app_nil_r. cbn [group_label foldr].
        by destruct (symbol_label u lang).
      * simpl. rewrite Hgs. split; [done|]. constructor; [|done]. split; [by intros ->|done].
    + destruct (IH Hus Hfs out (g ++ [u])) as (gs & Hc & Hgs & Hok).
      * apply Forall_app. by split; [|constructor].
      * rewrite concat_app, length_app. simpl. rewrite app_nil_r.
        destruct (concat g); simpl in *; [lia|]. bool_prop. by apply Nat.ltb_ge in E.
      * exists gs. rewrite <- app_assoc in Hgs. split; [|done]. rewrite <- Hc.
        rewrite concat_app, group_label_snoc. cbn [concat]. rewrite app_nil_r.
        by destruct (group_label lang g).
Qed.

(** ** Documents *)

Definition doc_ink (ps : list Page) : text := concat ((fun p => ink (p_text p)) <$> ps).

Lemma pages_chunks_spec size overlap ps :
  exists cs, pages_chunks size overlap ps = Some cs /\
    Forall (good_rich size) cs /\ sublist (doc_ink ps) (chunks_ink cs) /\
    Forall (fun c => exists p, In p ps /\ page_number c = number p /\ infix (c_text c) (p_text p)) cs.
Proof.
  induction ps as [|p ps (cs & Hc & Hg & Hs & Hp)]; [by exists []|]. cbn [pages_chunks].
  unfold page_chunks. destruct (chunk_text_spec (p_text p) size overlap) as (ts & -> & Ht & Hsub).
  rewrite Hc. eexists. split; [done|]. rewrite chunks_ink_app, chunks_ink_pieces.
  split; [|split].
  - apply Forall_app. split; [|done]. apply Forall_fmap. eapply Forall_impl; [exact Ht|].
    by intros c (? & ? & _).
  - unfold doc_ink in *. rewrite fmap_cons. by apply sublist_app.
  - apply Forall_app. split.
    + apply Forall_fmap. eapply Forall_impl; [exact Ht|]. intros c (_ & _ & Hi). exists p.
      simpl. auto.
    + eapply Forall_impl; [exact Hp|]. intros c (q & Hq & ?). exists q. simpl. auto.
Qed.

End code.

(** ** Properties *)

(** [chunk_text] ends for every text, size and overlap; each chunk it returns is a
    piece of the text, is not blank and has at most [max(size, 1)] characters; and
    no character is lost: what is not whitespace in the text is, in order, a
    subsequence of the chunks. *)
Theorem chunk_text_keeps chars size overlap :
  exists cs, chunk_text chars size overlap = Some cs /\
    Forall (good_chunk (Nat.max size 1) chars) cs /\
    sublist (ink chars) (concat (ink <$> cs)).
Proof. apply chunk_text_spec. Qed.

(** code whose units all fit the size is never split inside a unit: the chunks are
    the units in order, grouped, each group within the size and labelled with the
    first name its units define; and the units hold every character of the source
    that is not whitespace, once. *)
Theorem chunk_code_whole `{!Unicode} t lang size overlap :
  Forall (fits size) (units_of lang t) ->
  exists gs, chunk_code t lang size overlap = Some (group_chunk lang <$> gs) /\
    concat gs = units_of lang t /\ Forall (group_ok size) gs /\
    ink (concat (concat gs)) = ink t.
Proof.
  intros Hf. destruct (units_ink lang t) as [Hi Hu].
  destruct (code_loop_groups lang size overlap (units_of lang t) [] []) as (gs & Hc & Hgs & Hok);
    [done..|simpl; lia|].
  cbn [app] in *. exists gs. split; [exact Hc|]. split; [exact Hgs|].
  split; [done|]. etrans; [|exact Hi]. do 2 f_equal. exact Hgs.
Qed.

(** whatever its type, a document whose pages hold its text loses no character
    to chunking, and every chunk is within the size and not blank; when the source
    is not code, each chunk is a piece of the page whose number it carries. *)
Theorem chunk_document_keeps `{!Unicode} doc source size overlap :
  ink (full_text doc) = doc_ink (pages doc) ->
  exists cs, chunk_document doc source size overlap = Some cs /\
    Forall (good_rich size) cs /\ sublist (ink (full_text doc)) (chunks_ink cs) /\
    (lang_for source = None ->
     Forall (fun c => exists p, In p (pages doc) /\ page_number c = number p /\
                        infix (c_text c) (p_text p)) cs).
Proof.
  intros Hd. destruct (pages_chunks_spec size overlap (pages doc)) as (ps & Hp & Hg & Hs & Hn).
  unfold chunk_document. destruct (lang_for source) as [lang|].
  - destruct (chunk_code_spec (full_text doc) lang size overlap) as (cs & -> & Hcg & Hcs).
    destruct cs as [|c cs]; [rewrite Hp, Hd; by exists ps|]. by exists (c :: cs).
  - rewrite Hp, Hd. by exists ps.
Qed.

End Chunk.

(** ** Witnesses *)

Module ChunkDemo.
Import Chunk.

(** The ASCII rows of the Unicode tables. *)
Definition alpha (c : Z) : bool := ((65 <=? c) && (c <=? 90)) || ((97 <=? c) && (c <=? 122)).
#[export] Instance ascii_tables : Unicode := {|
  is_alphabetic := alpha;
  is_alphanumeric c := alpha c || ((48 <=? c) && (c <=? 57));
  to_lowercase l := (fun c => if (65 <=? c) && (c <=? 90) then c + 32 else c) <$> l;
  to_lowercase_ascii _ _ := eq_refl;
|}.

Definition source : text :=
  str "use std::io;" ++ [newline] ++ str "fn alpha(x: i32) -> i32 {" ++ [newline] ++ str "    x + 1" ++ [newline]
  ++ str "}" ++ [newline] ++ str "fn beta() { }" ++ [newline].

Example lang_rs : lang_for "src/lib.RS" = Some Braces.
Proof. by vm_compute. Qed.

Example source_chunks :
  option_map (List.map section) (chunk_code source Braces 45 10)
  = Some [None; Some (str "alpha"); Some (str "beta")].
Proof. by vm_compute. Qed.

Lemma chunk_code_whole_witness :
  exists gs, chunk_code source Braces 50 10 = Some (group_chunk Braces <$> gs) /\
    concat gs = units_of Braces source /\ Forall (group_ok 50) gs /\
    ink (concat (concat gs)) = ink source.
Proof.
  apply (chunk_code_whole source Braces 50 10). repeat constructor; apply Nat.leb_le; by vm_compute.
Defined.

Definition two_pages : DocumentContent :=
  {| pages := [{| number := 1; p_text := "# One" |}; {| number := 2; p_text := "second page" |}];
     full_text := str "# One" ++ [newline] ++ str "second page" |}.

Lemma chunk_document_keeps_witness :
  exists cs, chunk_document two_pages "notes.txt" 6 2 = Some cs /\
    Forall (good_rich 6) cs /\ sublist (ink (full_text two_pages)) (chunks_ink cs) /\
    (lang_for "notes.txt" = None ->
     Forall (fun c => exists p, In p (pages two_pages) /\ page_number c = number p /\
                        infix (c_text c) (p_text p)) cs).
Proof. apply (chunk_document_keeps two_pages "notes.txt" 6 2). by vm_compute. Defined.

End ChunkDemo.
