(* ===== verification/Hints.v ===== *)
(** * The hints of the command line

    Models [maranode-cli/src/errors.rs]: the hint for an error, the suggestion for a
    mistyped word and the edit distance behind it. The table of the distance is a list
    of rows, each computed from the one before. The specification is the least number
    of single insertions, deletions and replacements of a character. *)

From Stdlib Require Import ZArith Lia Ascii String.
From S2P Require Import Prelude RagChunk CodeScan.
Open Scope list_scope.

Module Hints.
Import Chunk Scan.

(** ** errors.rs *)

(** The loop over [j]: [diags] starts with [dp[i-1][j-1]], [left] is [dp[i][j-1]]. *)
Fixpoint fill (ai : Z) (b : text) (diags : list nat) (left : nat) : list nat :=
  match b, diags with
  | bj :: b, diag :: (up :: _) as diags =>
    let cur := if Z.eqb ai bj then diag else S (Nat.min (Nat.min diag up) left) in
    cur :: fill ai b diags cur
  | _, _ => []
  end.

(** The rows [i], [i + 1], ... for the characters that are left of [a]; the last one. *)
Fixpoint rows (i : nat) (a b : text) (prev : list nat) : list nat :=
  match a with
  | [] => prev
  | ai :: a => rows (S i) a b (i :: fill ai b prev i)
  end.

Definition edit_distance (a b : text) : nat :=
  List.last (rows 1 a b (seq 0 (S (List.length b)))) O.

(** [min_by_key]: the first of the least. *)
Fixpoint min_by_key (l : list (text * nat)) : option (text * nat) :=
  match l with
  | [] => None
  | x :: l => match min_by_key l with
              | Some y => if (snd y <? snd x)%nat then Some y else Some x
              | None => Some x
              end
  end.

Inductive hint := DaemonDown | NeedKey | WrongKey | NoModel | RagOff | IdFormat | TooSlow.

Section Words.
Context {U : Unicode}.

Definition did_you_mean (input : text) (options : list text) : option text :=
  let lower := to_lowercase input in
  match List.find (fun o => bool_decide (to_lowercase o = lower)) options with
  | Some opt => Some opt
  | None =>
    fst <$> min_by_key (List.filter (fun od => (snd od <=? 2)%nat)
      ((fun o => (o, edit_distance lower (to_lowercase o))) <$> options))
  end.

Definition hint_for (msg : text) : option hint :=
  let m := to_lowercase msg in
  let has := fun s : string => contains m (str s) in
  if has "connection refused" || has "cannot reach" || has "could not reach"
     || has "os error 61" || has "os error 111" then Some DaemonDown
  else if has "401" || has "unauthorized" then Some NeedKey
  else if has "403" || has "forbidden" then Some WrongKey
  else if has "404" && (has "model" || has "not found") then Some NoModel
  else if has "rag is not enabled" || has "rag not enabled" then Some RagOff
  else if has "name:tag" || has "invalid model id" then Some IdFormat
  else if has "timed out" || has "deadline" then Some TooSlow
  else None.

(** The message, the messages of its sources, and the hint. *)
Definition print_cli_error (msg : text) (sources : list text) : text * list text * option hint :=
  (msg, sources, hint_for msg).

End Words.

(** ** Edits *)

(** One character is inserted, deleted or replaced. *)
Inductive edit : text -> text -> Prop :=
| Insert p c s : edit (p ++ s) (p ++ c :: s)
| Delete p c s : edit (p ++ c :: s) (p ++ s)
| Replace p c d s : edit (p ++ c :: s) (p ++ d :: s).

Inductive edits : nat -> text -> text -> Prop :=
| Same a : edits 0 a a
| More n a b c : edit a b -> edits n b c -> edits (S n) a c.

(** An alignment, character by character, with its cost. *)
Inductive align : nat -> text -> text -> Prop :=
| ANil : align 0 [] []
| AKeep n c a b : align n a b -> align n (c :: a) (c :: b)
| AReplace n c d a b : align n a b -> align (S n) (c :: a) (d :: b)
| ADelete n c a b : align n a b -> align (S n) (c :: a) b
| AInsert n d a b : align n a b -> align (S n) a (d :: b).
#[local] Hint Constructors edit edits align : core.

Lemma align_refl a : align 0 a a.
Proof. induction a; auto. Qed.

Lemma align_app n m a b a' b' : align n a b -> align m a' b' -> align (n + m) (a ++ a') (b ++ b').
Proof. induction 1; simpl; auto. Qed.

Lemma align_reverse n a b : align n a b -> align n (reverse a) (reverse b).
Proof.
  induction 1 as [|n c a b H IH|n c d a b H IH|n c a b H IH|n d a b H IH]; rewrite ?reverse_cons; [constructor| | | |].
  - rewrite <- (Nat.add_0_r n). apply align_app; auto.
  - rewrite <- Nat.add_1_r. apply align_app; auto.
  - rewrite <- Nat.add_1_r, <- (app_nil_r (reverse b)). apply align_app; auto.
  - rewrite <- Nat.add_1_r, <- (app_nil_r (reverse a)). apply align_app; auto.
Qed.

(** An alignment is played as edits, from left to right. *)
Lemma edit_under p a b : edit a b -> edit (p ++ a) (p ++ b).
Proof. destruct 1; rewrite !app_assoc; auto. Qed.

Lemma edits_under p n a b : edits n a b -> edits n (p ++ a) (p ++ b).
Proof. induction 1; eauto using edit_under. Qed.

Lemma align_edits n a b : align n a b -> edits n a b.
Proof.
  induction 1 as [|n c a b H IH|n c d a b H IH|n c a b H IH|n d a b H IH].
  - constructor.
  - by apply (edits_under [c]).
  - apply More with (d :: a); [apply (Replace [])|by apply (edits_under [d])].
  - apply More with a; [apply (Delete [])|done].
  - apply More with (d :: a); [apply (Insert [])|by apply (edits_under [d])].
Qed.

(** Edits compose with an alignment at the cost of one each. *)
Lemma align_cons_l n x a b : align n (x :: a) b -> exists m p y q,
  (m <= n)%nat /\ b = p ++ q /\ align m a q /\
  ((p = y ++ [x] /\ (m + List.length y)%nat = n) \/
   (exists d, p = y ++ [d] /\ (S m + List.length y)%nat = n) \/ (p = y /\ (S m + List.length y)%nat = n)).
Proof.
  remember (x :: a) as xa eqn:E. intros H. revert x a E.
  induction H as [|n c a b H IH|n c d a b H IH|n c a b H IH|n d a b H IH]; intros x a' E; try discriminate E.
  - injection E as -> ->. exists n, [x], [], b. repeat split; try done. left. split; [done|simpl; lia].
  - injection E as -> ->. exists n, [d], [], b. repeat split; try done; try lia. right. left. exists d. split; [done|simpl; lia].
  - injection E as -> ->. exists n, [], [], b. repeat split; try done; try lia. right. right. split; [done|simpl; lia].
  - destruct (IH x a' E) as (m & p & y & q & Hm & -> & Ha & Hc).
    exists m, (d :: p), (d :: y), q. split; [lia|]. split; [done|]. split; [done|].
    destruct Hc as [[-> <-]|[(e & -> & <-)|[-> <-]]]; simpl; [left|right; left; exists e|right; right]; (split; [done|lia]).
Qed.

Lemma align_inserts y n a b : align n a b -> align (List.length y + n) a (y ++ b).
Proof. induction y; simpl; auto. Qed.

Lemma edit_align a b n c : edit a b -> align n b c -> exists m, (m <= S n)%nat /\ align m a c.
Proof.
  intros He. revert n c.
  assert (Hcons : forall p z u v, (forall n c, align n (p ++ v) c -> exists m, (m <= S n)%nat /\ align m (p ++ u) c) ->
    forall n c, align n (z :: p ++ v) c -> exists m, (m <= S n)%nat /\ align m (z :: p ++ u) c).
  { intros p z u v IH n c H. apply align_cons_l in H as (m & q & w & r & Hm & -> & Ha & Hc).
    apply IH in Ha as (k & Hk & Ha).
    destruct Hc as [[-> <-]|[(e & -> & <-)|[-> <-]]];
      [exists (List.length w + k)%nat|exists (List.length w + S k)%nat|exists (List.length w + S k)%nat];
      (split; [lia|]); rewrite <- ?app_assoc; apply align_inserts; simpl; auto. }
  destruct He as [p x s|p x s|p x y s]; (induction p as [|z p IH]; simpl; [|by apply Hcons]); intros n c H.
  - apply align_cons_l in H as (m & q & y & r & Hm & -> & Ha & Hc).
    exists (List.length q + m)%nat. split; [|by apply align_inserts].
    destruct Hc as [[-> <-]|[(e & -> & <-)|[-> <-]]]; rewrite ?length_app; simpl; lia.
  - exists (S n). auto.
  - apply align_cons_l in H as (m & q & w & r & Hm & -> & Ha & Hc).
    destruct Hc as [[-> <-]|[(e & -> & <-)|[-> <-]]]; exists (List.length w + S m)%nat; (split; [lia|]);
      rewrite <- ?app_assoc; apply align_inserts; simpl; auto.
Qed.

Lemma edits_align n a b : edits n a b -> exists m, (m <= n)%nat /\ align m a b.
Proof.
  induction 1 as [a|n a b c He _ (m & Hm & Ha)]; [exists O; split; [done|apply align_refl]|].
  destruct (edit_align _ _ _ _ He Ha) as (k & Hk & H). exists k. split; [lia|done].
Qed.

(** ** The table *)

(** The distance of two texts that are read from their ends, by the recursion of the
    table. *)
Fixpoint lev (a : text) : text -> nat :=
  match a with
  | [] => fun b => List.length b
  | x :: a' => fix go (b : text) : nat :=
      match b with
      | [] => S (List.length a')
      | y :: b' => if Z.eqb x y then lev a' b' else S (Nat.min (Nat.min (lev a' b') (lev a' b)) (go b'))
      end
  end.

Lemma lev_cons x a y b :
  lev (x :: a) (y :: b)
  = if Z.eqb x y then lev a b else S (Nat.min (Nat.min (lev a b) (lev a (y :: b))) (lev (x :: a) b)).
Proof. done. Qed.

Lemma lev_nil_r a : lev a [] = List.length a.
Proof. by destruct a. Qed.

Lemma lev_sym a b : lev a b = lev b a.
Proof.
  revert b. induction a as [|x a IHa]; intros b; [by rewrite lev_nil_r|].
  induction b as [|y b IHb]; [done|]. rewrite !lev_cons, Z.eqb_sym. destruct (Z.eqb y x); [done|].
  rewrite IHa, (IHa (y :: b)), IHb. f_equal. lia.
Qed.

(** One character more or less changes the distance by at most one. *)
Lemma lev_step n a b : (List.length a + List.length b <= n)%nat ->
  (forall x, lev (x :: a) b <= S (lev a b))%nat /\ (forall x, lev a b <= S (lev (x :: a) b))%nat.
Proof.
  revert a b. induction n as [|n IH]; intros a b Hn.
  { destruct a, b; simpl in Hn; try lia. simpl. split; intros; lia. }
  assert (Hs : forall a b, (List.length a + List.length b <= n)%nat ->
    (forall y, lev a (y :: b) <= S (lev a b))%nat /\ (forall y, lev a b <= S (lev a (y :: b)))%nat).
  { intros u v Hu. destruct (IH v u) as [H1 H2]; [lia|]. split; intros y; rewrite !(lev_sym u); auto. }
  destruct b as [|y b].
  { rewrite !lev_nil_r. split; intros x; rewrite lev_nil_r; simpl; lia. }
  simpl in Hn. destruct (Hs a b) as [H1 H2]; [lia|]. destruct (IH a b) as [H3 H4]; [lia|].
  split; intros x; rewrite lev_cons; destruct (Z.eqb x y).
  - specialize (H2 y). lia.
  - lia.
  - apply H1.
  - specialize (H1 y). specialize (H4 x). lia.
Qed.

Lemma lev_least n a b : align n a b -> (lev a b <= n)%nat.
Proof.
  induction 1 as [|n c a b H IH|n c d a b H IH|n c a b H IH|n d a b H IH]; [done|..].
  - rewrite lev_cons, Z.eqb_refl. done.
  - rewrite lev_cons. destruct (Z.eqb c d); lia.
  - destruct (lev_step _ a b (le_n _)) as [Hs _]. specialize (Hs c). lia.
  - rewrite lev_sym in *. destruct (lev_step _ b a (le_n _)) as [Hs _]. specialize (Hs d). lia.
Qed.

Lemma align_deletes a : align (List.length a) a [].
Proof. induction a; simpl; auto. Qed.

Lemma lev_reached a b : align (lev a b) a b.
Proof.
  revert b. induction a as [|x a IHa]; intros b.
  - simpl. rewrite <- (app_nil_r b) at 2. rewrite <- (Nat.add_0_r (List.length b)). by apply align_inserts.
  - induction b as [|y b IHb]; [exact (align_deletes (x :: a))|]. rewrite lev_cons.
    destruct (Z.eqb x y) eqn:E; [apply Z.eqb_eq in E as ->; auto|].
    destruct (Nat.min_spec (Nat.min (lev a b) (lev a (y :: b))) (lev (x :: a) b)) as [[_ ->]|[_ ->]]; [|auto].
    destruct (Nat.min_spec (lev a b) (lev a (y :: b))) as [[_ ->]|[_ ->]]; auto.
Qed.

(** The row of a prefix, read backwards: the distances to the prefixes of [b]. *)
Definition row_from (ra : text) (rb b : text) : list nat :=
  lev ra rb :: ((fun k => lev ra (reverse (take k b) ++ rb)) <$> seq 1 (List.length b)).

Lemma row_from_cons ra rb y b : row_from ra rb (y :: b) = lev ra rb :: row_from ra (y :: rb) b.
Proof.
  unfold row_from. f_equal. cbn [List.length seq]. rewrite fmap_cons. simpl take.
  f_equal. rewrite <- fmap_S_seq, <- list_fmap_compose. apply list_fmap_ext. intros i k Hk.
  apply lookup_seq in Hk as [-> _]. simpl. by rewrite reverse_cons, <- app_assoc.
Qed.

Lemma fill_row x ra rb b :
  lev (x :: ra) rb :: fill x b (row_from ra rb b) (lev (x :: ra) rb) = row_from (x :: ra) rb b.
Proof.
  revert rb. induction b as [|y b IH]; intros rb; [done|]. rewrite !row_from_cons. f_equal.
  rewrite <- IH. unfold row_from at 1. cbn [fill]. fold (row_from ra (y :: rb) b).
  rewrite (lev_cons x ra y rb). done.
Qed.

Lemma rows_spec ra a b :
  rows (S (List.length ra)) a b (row_from ra [] b) = row_from (reverse a ++ ra) [] b.
Proof.
  revert ra. induction a as [|x a IH]; intros ra; [done|]. cbn [rows].
  pose proof (fill_row x ra [] b) as H. rewrite lev_nil_r in H. simpl List.length in H. rewrite H.
  change (S (S (List.length ra))) with (S (List.length (x :: ra))). rewrite IH, reverse_cons, <- app_assoc. done.
Qed.

Lemma first_row b : seq 0 (S (List.length b)) = row_from [] [] b.
Proof.
  unfold row_from. cbn [seq lev List.length]. f_equal. rewrite <- (list_fmap_id (seq 1 _)) at 1.
  apply list_fmap_ext. intros i k Hk. apply lookup_seq in Hk as [-> Hi]. simpl.
  rewrite app_nil_r, length_reverse, length_take. lia.
Qed.

Lemma last_row ra rb b : List.last (row_from ra rb b) O = lev ra (reverse b ++ rb).
Proof.
  revert rb. induction b as [|y b IH]; intros rb; [done|]. rewrite row_from_cons, reverse_cons, <- app_assoc.
  rewrite <- IH. done.
Qed.

Lemma edit_distance_lev a b : edit_distance a b = lev (reverse a) (reverse b).
Proof.
  unfold edit_distance. rewrite first_row. pose proof (rows_spec [] a b) as Hr. cbn [List.length] in Hr. rewrite Hr, last_row. by rewrite !app_nil_r.
Qed.

Lemma edit_distance_reached a b :
  edits (edit_distance a b) a b /\ forall n, edits n a b -> (edit_distance a b <= n)%nat.
Proof.
  rewrite edit_distance_lev. split.
  - apply align_edits. rewrite <- (reverse_involutive a) at 2. rewrite <- (reverse_involutive b) at 2.
    apply align_reverse, lev_reached.
  - intros n (m & Hm & H)%edits_align. apply align_reverse, lev_least in H. lia.
Qed.

(** ** Suggestions *)

Lemma min_by_key_spec l x :
  min_by_key l = Some x ->
  exists p s, l = p ++ x :: s /\ (forall y, y ∈ l -> snd x <= snd y)%nat /\ (forall y, y ∈ p -> snd x < snd y)%nat.
Proof.
  revert x. induction l as [|z l IH]; intros x H; simpl in H; [done|].
  destruct (min_by_key l) as [y|] eqn:E.
  - destruct (IH y eq_refl) as (p & s & -> & Hl & Hp). destruct (snd y <? snd z)%nat eqn:Ec; injection H as <-.
    + apply Nat.ltb_lt in Ec. exists (z :: p), s. split; [done|]. split; intros w [->|Hw]%elem_of_cons; auto; lia.
    + apply Nat.ltb_ge in Ec. exists [], (p ++ y :: s). split; [done|]. split.
      * intros w [->|Hw]%elem_of_cons; [done|]. specialize (Hl w Hw). lia.
      * intros w Hw. by apply elem_of_nil in Hw.
  - injection H as <-. destruct l as [|y l].
    + exists [], []. split; [done|]. split; [intros w Hw; by apply list_elem_of_singleton in Hw as ->|].
      intros w Hw. by apply elem_of_nil in Hw.
    + simpl in E. destruct (min_by_key l) as [w|]; [destruct (_ <? _)%nat|]; done.
Qed.

Lemma min_by_key_none l : min_by_key l = None -> l = [].
Proof. destruct l as [|x l]; [done|]. simpl. destruct (min_by_key l); [destruct (_ <? _)%nat|]; done. Qed.

(** C29: The table computes the least number of single insertions, deletions and replacements
    that turn one text into the other. *)
Theorem edit_distance_least a b :
  edits (edit_distance a b) a b /\ forall n, edits n a b -> (edit_distance a b <= n)%nat.
Proof. apply edit_distance_reached. Qed.

Section Suggest.
Context {U : Unicode}.

(** How many edits lead from one text to the other, ignoring case. *)
Definition apart (input o : text) : nat -> Prop := fun n => edits n (to_lowercase input) (to_lowercase o).

Lemma filter_split {A} (f : A -> bool) l p x s :
  List.filter f l = p ++ x :: s -> exists p' s', l = p' ++ x :: s' /\ List.filter f p' = p /\ f x = true.
Proof.
  revert p. induction l as [|y l IH]; intros p H; simpl in H; [by destruct p|].
  destruct (f y) eqn:E.
  - destruct p as [|z p]; injection H as -> H.
    + by exists [], l.
    + destruct (IH p H) as (p' & s' & -> & Hp & Hx). exists (z :: p'), s'. simpl. by rewrite E, Hp.
  - destruct (IH p H) as (p' & s' & -> & Hp & Hx). exists (y :: p'), s'. simpl. by rewrite E, Hp.
Qed.

Lemma find_split {A} (f : A -> bool) l x :
  List.find f l = Some x -> exists p s, l = p ++ x :: s /\ f x = true /\ forall y, y ∈ p -> f y = false.
Proof.
  induction l as [|y l IH]; simpl; [done|]. destruct (f y) eqn:E.
  - intros [= ->]. exists [], l. split; [done|]. split; [done|]. intros z Hz. by apply elem_of_nil in Hz.
  - intros (p & s & -> & Hx & Hp)%IH. exists (y :: p), s. split; [done|]. split; [done|].
    intros z [->|Hz]%elem_of_cons; auto.
Qed.

Lemma distance_zero a b : edit_distance a b = O <-> a = b.
Proof.
  split.
  - intros H. pose proof (proj1 (edit_distance_reached a b)) as He. rewrite H in He. by inversion He.
  - intros ->. pose proof (proj2 (edit_distance_reached b b) O (Same b)). lia.
Qed.

(** The suggestion is the first option among those that the fewest edits lead to, when two
    edits are enough, and there is none when they are not. *)
Theorem did_you_mean_spec input options :
  match did_you_mean input options with
  | Some o => exists p s n, options = p ++ o :: s /\ (n <= 2)%nat /\ apart input o n /\
      (forall o' m, o' ∈ options -> apart input o' m -> (n <= m)%nat) /\
      (forall o' m, o' ∈ p -> apart input o' m -> (n < m)%nat)
  | None => forall o' m, o' ∈ options -> apart input o' m -> (2 < m)%nat
  end.
Proof.
  unfold did_you_mean, apart. cbv zeta. set (l := to_lowercase input).
  assert (Hd : forall o m, edits m l (to_lowercase o) -> (edit_distance l (to_lowercase o) <= m)%nat)
    by (intros; by apply edit_distance_reached).
  destruct (List.find (fun o => bool_decide (to_lowercase o = l)) options) as [o|] eqn:Ef.
  { apply find_split in Ef as (p & s & -> & Ho & Hp). apply bool_decide_eq_true in Ho.
    exists p, s, O. split; [done|]. split; [lia|]. split; [rewrite Ho; constructor|]. split; [intros; lia|].
    intros o' m Ho' Hm. specialize (Hp o' Ho'). apply bool_decide_eq_false in Hp.
    destruct m; [inversion Hm; subst; congruence|lia]. }
  destruct (min_by_key _) as [[o n]|] eqn:Em; simpl.
  - apply min_by_key_spec in Em as (p & s & Hl & Hall & Hfirst).
    pose proof Hl as Hl'. apply filter_split in Hl' as (p' & s' & Ho & Hp & Hn). simpl in Hn. apply Nat.leb_le in Hn.
    apply fmap_app_inv in Ho as (q & r & Hq & Hr & ->). destruct r as [|o0 r]; [done|].
    rewrite fmap_cons in Hr. injection Hr as Ho1 Ho2 Hs'. subst o0 n. exists q, r, (edit_distance l (to_lowercase o)).
    split; [done|]. split; [done|]. split; [apply edit_distance_reached|]. split.
    + intros o' m Ho' Hm. apply Hd in Hm. destruct (decide (edit_distance l (to_lowercase o') <= 2)%nat); [|lia].
      etrans; [|exact Hm]. apply (Hall (o', edit_distance l (to_lowercase o'))).
      rewrite list_elem_of_In, filter_In, <- list_elem_of_In. split; [|by apply Nat.leb_le].
      by apply (list_elem_of_fmap_2 (fun o => (o, edit_distance l (to_lowercase o)))).
    + intros o' m Ho' Hm. apply Hd in Hm. destruct (decide (edit_distance l (to_lowercase o') <= 2)%nat); [|lia].
      eapply Nat.lt_le_trans; [|exact Hm]. apply (Hfirst (o', edit_distance l (to_lowercase o'))). rewrite <- Hp.
      rewrite list_elem_of_In, filter_In, <- list_elem_of_In. split; [|by apply Nat.leb_le]. rewrite Hq.
      by apply (list_elem_of_fmap_2 (fun o => (o, edit_distance l (to_lowercase o)))).
  - apply min_by_key_none in Em. intros o' m Ho' Hm. apply Hd in Hm.
    destruct (decide (edit_distance l (to_lowercase o') <= 2)%nat) as [Hle|]; [|lia]. exfalso.
    assert (Hin : (o', edit_distance l (to_lowercase o')) ∈ ([] : list (text * nat))).
    { rewrite <- Em, list_elem_of_In, filter_In, <- list_elem_of_In. split; [|by apply Nat.leb_le].
      by apply (list_elem_of_fmap_2 (fun o => (o, edit_distance l (to_lowercase o)))). }
    by apply elem_of_nil in Hin.
Qed.

End Suggest.

Example kitten : edit_distance "kitten" "sitting" = 3%nat.
Proof. by vm_compute. Qed.

End Hints.
