(* ===== verification/RagText.v ===== *)
(** * Text of the retrieval crate

    A Rust [String] is its UTF-8 bytes, and [chars] its scalar values; [RagChunk]
    works on the latter. This file has both directions, the conversion of the
    documents, [maranode-rag/src/extract.rs], and the lemma that chunking adds no
    character but line breaks. *)

From Stdlib Require Import ZArith Lia Ascii String.
From S2P Require Import Prelude RagChunk.
Open Scope Z_scope.

Module Utf8.
Import Chunk.

(** [str::chars], on well-formed UTF-8. *)
Fixpoint chars (s : string) : text :=
  match s with
  | EmptyString => []
  | String a r =>
    if code a <? 128 then code a :: chars r else
    match r with
    | EmptyString => []
    | String b r2 =>
      if code a <? 224 then ((code a - 192) * 64 + (code b - 128)) :: chars r2 else
      match r2 with
      | EmptyString => []
      | String c r3 =>
        if code a <? 240 then
          ((code a - 224) * 4096 + (code b - 128) * 64 + (code c - 128)) :: chars r3 else
        match r3 with
        | EmptyString => []
        | String d r4 =>
          ((code a - 240) * 262144 + (code b - 128) * 4096 + (code c - 128) * 64
           + (code d - 128)) :: chars r4
        end
      end
    end
  end.

(** [char::encode_utf8]. *)
Definition utf8_char (c : Z) : string :=
  if c <? 128 then String (chr c) EmptyString else
  if c <? 2048 then String (chr (192 + c / 64)) (String (chr (128 + c mod 64)) EmptyString) else
  if c <? 65536 then
    String (chr (224 + c / 4096)) (String (chr (128 + c / 64 mod 64))
      (String (chr (128 + c mod 64)) EmptyString))
  else
    String (chr (240 + c / 262144)) (String (chr (128 + c / 4096 mod 64))
      (String (chr (128 + c / 64 mod 64)) (String (chr (128 + c mod 64)) EmptyString))).

(** [collect::<String>]. *)
Fixpoint utf8 (t : text) : string :=
  match t with [] => EmptyString | c :: t => utf8_char c +:+ utf8 t end.

(** Scalar values. *)
Definition scalar (c : Z) : bool :=
  ((0 <=? c) && (c <? 55296)) || ((57344 <=? c) && (c <? 1114112)).

Ltac zdiv :=
  repeat match goal with
  | |- context [?a / ?b] =>
    lazymatch goal with
    | _ : a = b * (a / b) + a mod b |- _ => fail
    | _ => pose proof (Z.div_mod a b ltac:(lia)); pose proof (Z.mod_pos_bound a b ltac:(lia))
    end
  | |- context [?a mod ?b] =>
    lazymatch goal with
    | _ : a = b * (a / b) + a mod b |- _ => fail
    | _ => pose proof (Z.div_mod a b ltac:(lia)); pose proof (Z.mod_pos_bound a b ltac:(lia))
    end
  end.

Lemma chars_app_char c s : scalar c = true -> chars (utf8_char c +:+ s) = c :: chars s.
Proof.
  unfold scalar. intros Hc. unfold utf8_char.
  destruct (Z.ltb_spec c 128); [|destruct (Z.ltb_spec c 2048); [|destruct (Z.ltb_spec c 65536)]].
  - cbn [String.append chars]. rewrite code_of_chr by lia.
    by rewrite (proj2 (Z.ltb_lt _ _)) by lia.
  - zdiv. cbn [String.append chars]. rewrite !code_of_chr by lia.
    rewrite (proj2 (Z.ltb_ge _ _)), (proj2 (Z.ltb_lt _ _)) by lia. f_equal. lia.
  - zdiv. cbn [String.append chars]. rewrite !code_of_chr by lia.
    rewrite (proj2 (Z.ltb_ge _ 128)), (proj2 (Z.ltb_ge _ 224)), (proj2 (Z.ltb_lt _ _)) by lia.
    f_equal. rewrite Z.div_div in * by lia. lia.
  - zdiv. cbn [String.append chars]. rewrite !code_of_chr by lia.
    rewrite (proj2 (Z.ltb_ge _ 128)), (proj2 (Z.ltb_ge _ 224)), (proj2 (Z.ltb_ge _ 240)) by lia.
    f_equal. rewrite Z.div_div in * by lia. lia.
Qed.

Lemma chars_utf8 t : Forall (fun c => scalar c = true) t -> chars (utf8 t) = t.
Proof. induction 1 as [|c t Hc _ IH]; simpl; [done|]. by rewrite chars_app_char, IH. Qed.

Lemma utf8_app a b : utf8 (a ++ b) = utf8 a +:+ utf8 b.
Proof. induction a as [|c a IH]; simpl; [done|]. by rewrite IH, string_app_assoc. Qed.

Ltac decide_ranges :=
  repeat match goal with
  | |- context [?a <=? ?b] =>
    first [rewrite (proj2 (Z.leb_le a b)) by lia | rewrite (proj2 (Z.leb_gt a b)) by lia]
  | |- context [?a <? ?b] =>
    first [rewrite (proj2 (Z.ltb_lt a b)) by lia | rewrite (proj2 (Z.ltb_ge a b)) by lia]
  end.

Lemma utf8_ok_char c s : scalar c = true -> utf8_ok (utf8_char c +:+ s) = utf8_ok s.
Proof.
  unfold scalar. intros Hc. rewrite utf8_ok_app; [done|]. unfold utf8_char.
  destruct (Z.ltb_spec c 128); [|destruct (Z.ltb_spec c 2048); [|destruct (Z.ltb_spec c 65536)]];
    zdiv; cbn [utf8_ok]; unfold utf8_lead3, utf8_lead4, utf8_cont, in_range;
    rewrite !code_of_chr by lia; rewrite ?Z.div_div in * by lia;
    repeat (case_match; try done); exfalso; lia.
Qed.

Lemma utf8_ok_utf8 t : Forall (fun c => scalar c = true) t -> utf8_ok (utf8 t) = true.
Proof. induction 1 as [|c t Hc _ IH]; simpl; [done|]. by rewrite utf8_ok_char. Qed.

Lemma chr_code c : chr (code c) = c.
Proof. unfold chr, code. rewrite Nat2Z.id. apply ascii_nat_embedding. Qed.

(** A well-formed sequence of two, three or four bytes is the encoding of its value. *)
Lemma seq2 a b :
  in_range 194 223 a && utf8_cont b = true ->
  let c := (code a - 192) * 64 + (code b - 128) in
  utf8_char c = String a (String b EmptyString) /\ scalar c = true.
Proof.
  unfold utf8_cont, in_range. intros Hr. split; [|unfold scalar; lia].
  unfold utf8_char. rewrite (proj2 (Z.ltb_ge _ 128)), (proj2 (Z.ltb_lt _ 2048)) by lia.
  transitivity (String (chr (code a)) (String (chr (code b)) EmptyString)); [|by rewrite !chr_code].
  repeat f_equal; zdiv; lia.
Qed.

Lemma seq3 a b c :
  utf8_lead3 a b && utf8_cont c = true ->
  let x := (code a - 224) * 4096 + (code b - 128) * 64 + (code c - 128) in
  utf8_char x = String a (String b (String c EmptyString)) /\ scalar x = true.
Proof.
  unfold utf8_lead3, utf8_cont, in_range. intros Hr. split; [|unfold scalar; lia].
  unfold utf8_char.
  rewrite (proj2 (Z.ltb_ge _ 128)), (proj2 (Z.ltb_ge _ 2048)), (proj2 (Z.ltb_lt _ 65536)) by lia.
  transitivity (String (chr (code a)) (String (chr (code b)) (String (chr (code c)) EmptyString)));
    [|by rewrite !chr_code].
  repeat f_equal; zdiv; rewrite ?Z.div_div in * by lia; lia.
Qed.

Lemma seq4 a b c d :
  utf8_lead4 a b && utf8_cont c && utf8_cont d = true ->
  let x := (code a - 240) * 262144 + (code b - 128) * 4096 + (code c - 128) * 64 + (code d - 128) in
  utf8_char x = String a (String b (String c (String d EmptyString))) /\ scalar x = true.
Proof.
  unfold utf8_lead4, utf8_cont, in_range. intros Hr. split; [|unfold scalar; lia].
  unfold utf8_char.
  rewrite (proj2 (Z.ltb_ge _ 128)), (proj2 (Z.ltb_ge _ 2048)), (proj2 (Z.ltb_ge _ 65536)) by lia.
  transitivity (String (chr (code a)) (String (chr (code b)) (String (chr (code c)) (String (chr (code d)) EmptyString))));
    [|by rewrite !chr_code].
  repeat f_equal; zdiv; rewrite ?Z.div_div in * by lia; lia.
Qed.

Lemma utf8_chars_aux n s :
  (String.length s <= n)%nat -> utf8_ok s = true ->
  utf8 (chars s) = s /\ Forall (fun c => scalar c = true) (chars s).
Proof.
  revert s. induction n as [|n IH]; intros [|a r] Hn; try (simpl in Hn; lia); [done..|].
  cbn [utf8_ok chars]. pose proof (code_bound a) as Ha. simpl in Hn.
  destruct (Z.ltb_spec (code a) 128).
  { intros [Hu Hs]%IH; [|lia]. cbn [utf8]. rewrite Hu. split.
    - unfold utf8_char. rewrite (proj2 (Z.ltb_lt _ _)) by lia. by rewrite chr_code.
    - constructor; [unfold scalar; lia|done]. }
  destruct r as [|b r2]; [done|]. simpl in Hn.
  destruct (in_range 194 223 a && utf8_cont b) eqn:E2.
  { intros [Hu Hs]%IH; [|lia].
    replace (code a <? 224) with true by (unfold in_range in E2; lia).
    destruct (seq2 a b E2) as [Hc Hsc]. cbn [utf8]. rewrite Hc, Hu. split; [done|by constructor]. }
  destruct r2 as [|c r3]; [done|]. simpl in Hn.
  destruct (utf8_lead3 a b && utf8_cont c) eqn:E3.
  { intros [Hu Hs]%IH; [|lia].
    replace (code a <? 224) with false by (unfold utf8_lead3, in_range in E3; lia).
    replace (code a <? 240) with true by (unfold utf8_lead3, in_range in E3; lia).
    destruct (seq3 a b c E3) as [Hc Hsc]. cbn [utf8]. rewrite Hc, Hu. split; [done|by constructor]. }
  destruct r3 as [|d r4]; [done|]. simpl in Hn.
  destruct (utf8_lead4 a b && utf8_cont c && utf8_cont d) eqn:E4; [|done].
  intros [Hu Hs]%IH; [|lia].
  replace (code a <? 224) with false by (unfold utf8_lead4, in_range in E4; lia).
  replace (code a <? 240) with false by (unfold utf8_lead4, in_range in E4; lia).
  destruct (seq4 a b c d E4) as [Hc Hsc]. cbn [utf8]. rewrite Hc, Hu. split; [done|by constructor].
Qed.

Lemma utf8_chars s : utf8_ok s = true -> utf8 (chars s) = s.
Proof. intros Hs. by apply (utf8_chars_aux (String.length s)). Qed.

Lemma chars_scalar s : utf8_ok s = true -> Forall (fun c => scalar c = true) (chars s).
Proof. intros Hs. by apply (utf8_chars_aux (String.length s)). Qed.

End Utf8.

(** ** extract.rs *)
Module Extract.
Import Chunk Utf8.

Record DocumentMeta := { title : option string; author : option string; page_count : Z }.
Record Document := { content : DocumentContent; meta : DocumentMeta }.

Definition from_plain (t : text) : Document := {|
  content := {| pages := [{| number := 1; p_text := t |}]; full_text := t |};
  meta := {| title := None; author := None; page_count := 1 |} |}.

(** What the crates pdf_extract and lopdf and the command ocrmypdf give for the bytes
    of a file: the text of its pages, an entry of its information dictionary, and the
    file with a text layer. *)
Class PdfTools := {
  extract_by_pages : string -> option (list text);
  pdf_info : string -> string -> option text;
  ocrmypdf : string -> option string;
  (** the texts of the pages are strings *)
  pages_scalar b ps : extract_by_pages b = Some ps -> Forall (Forall (fun c => scalar c = true)) ps;
}.

Inductive extract_err := NoExtension | Unsupported | NotUtf8 | PdfFailed | NoOcr | OcrBlank.

(** [str::split("  ")]. *)
Fixpoint split_two (t : text) : list text :=
  match t with
  | [] => [[]]
  | c :: r =>
    match r with
    | d :: r2 =>
      if (c =? 32) && (d =? 32) then [] :: split_two r2
      else match split_two r with [] => [[c]] | l :: ls => (c :: l) :: ls end
    | [] => [[c]]
    end
  end.

Fixpoint contains_two (t : text) : bool :=
  match t with
  | c :: r => match r with d :: _ => (c =? 32) && (d =? 32) || contains_two r | [] => false end
  | [] => false
  end.

Fixpoint join_text (sep : text) (l : list text) : text :=
  match l with
  | [] => []
  | [x] => x
  | x :: r => x ++ sep ++ join_text sep r
  end.

Definition plain_rows (buf : list (list text)) : text :=
  concat ((fun row => join_text (str "  ") row ++ [newline]) <$> buf).

(** [while cells.len() < cols { push("") }]. *)
Definition pad (cols : nat) (row : list text) : list text := row ++ replicate (cols - List.length row) [].

Definition flush_table (buf : list (list text)) : text :=
  match buf with
  | [] => []
  | header :: rows =>
    let cols := foldr Nat.max 0%nat (List.length <$> buf) in
    if (List.length buf <? 2)%nat || (cols <? 2)%nat then plain_rows buf else
    str "| " ++ join_text (str " | ") header ++ str " |" ++ [newline]
    ++ str "|" ++ concat (replicate cols (str " --- |")) ++ [newline]
    ++ concat ((fun row => str "| " ++ join_text (str " | ") (pad cols row) ++ str " |" ++ [newline]) <$> rows)
    ++ [newline]
  end.

Definition cells_of (line : text) : list text :=
  List.filter (fun c => negb (is_empty c)) (trim <$> split_two line).

Fixpoint enrich_loop (ls : list text) (buf : list (list text)) (out : text) : text :=
  match ls with
  | [] => out ++ flush_table buf
  | line :: ls =>
    let cells := cells_of line in
    if (2 <=? List.length cells)%nat && contains_two line then enrich_loop ls (buf ++ [cells]) out
    else enrich_loop ls [] (out ++ flush_table buf ++ line ++ [newline])
  end.

Definition enrich_with_tables (t : text) : text := enrich_loop (lines t) [] [].

Section extract.
Context `{!Unicode, !PdfTools}.

Definition get_str (bytes key : string) : option text :=
  some? t := pdf_info bytes key in
  let trimmed := trim t in if is_empty trimmed then None else Some trimmed.

Definition extract_pdf_meta (bytes : string) : option string * option string :=
  (utf8 <$> get_str bytes "Title", utf8 <$> get_str bytes "Author").

Definition all_blank (ps : list text) : bool := forallb (fun p => is_empty (trim p)) ps.

(** The pages that are not blank, numbered by their place. *)
Definition numbered (ps : list text) (f : text -> text) : list Page :=
  (fun it : Z * text => {| number := it.1; p_text := f it.2 |}) <$>
  List.filter (fun it : Z * text => negb (is_empty (trim it.2)))
    (imap (fun i t => (Z.of_nat i + 1, t)) ps).

Definition of_pages (bytes : string) (ps : list text) (f : text -> text) : Document :=
  let m := extract_pdf_meta bytes in
  let kept := numbered ps f in {|
  content := {| pages := kept; full_text := join_text [newline; newline] (p_text <$> kept) |};
  meta := {| title := m.1; author := m.2; page_count := Z.of_nat (List.length ps) |} |}.

Definition try_ocr_pdf (bytes : string) : result extract_err Document :=
  let? ocr_bytes := ok_or (ocrmypdf bytes) NoOcr in
  let? ps := ok_or (extract_by_pages ocr_bytes) PdfFailed in
  guard negb (all_blank ps) else OcrBlank in
  Ok (of_pages bytes ps id).

Definition extract_pdf (bytes : string) : result extract_err Document :=
  let? ps := ok_or (extract_by_pages bytes) PdfFailed in
  if all_blank ps then try_ocr_pdf bytes else Ok (of_pages bytes ps enrich_with_tables).

Definition is_text_like (ext : text) : bool :=
  one_of (["txt"; "md"; "markdown"; "text"; "rst"; "csv"; "tsv"; "log"; "json"; "yaml"; "yml";
     "toml"; "ini"; "xml"; "html"; "htm"; "css"; "rs"; "py"; "pyi"; "js"; "mjs"; "cjs"; "jsx";
     "ts"; "tsx"; "go"; "java"; "c"; "h"; "cc"; "cpp"; "cxx"; "hpp"; "hh"; "hxx"; "cs"; "kt";
     "kts"; "swift"; "scala"; "php"; "dart"; "proto"; "rb"; "sh"; "bash"; "sql"]%string) ext.

Definition extract (bytes filename : string) : result extract_err Document :=
  let ext := to_lowercase (default [] (extension (chars filename))) in
  if bool_decide (ext = str "pdf") then extract_pdf bytes else
  guard negb (is_empty ext) else NoExtension in
  if is_text_like ext then
    guard utf8_ok bytes else NotUtf8 in Ok (from_plain (chars bytes))
  else Err Unsupported.

Definition extract_text (bytes filename : string) : result extract_err text :=
  let? d := extract bytes filename in Ok (full_text (content d)).

End extract.

(** ** Nothing is lost in extraction *)

(** The characters of a text besides white space and the marks of a table. *)
Definition words (t : text) : text := List.filter (fun c => negb ((c =? 124) || (c =? 45))) (ink t).

Lemma words_app a b : words (a ++ b) = words a ++ words b.
Proof. unfold words. by rewrite ink_app, List.filter_app. Qed.

Lemma words_concat l : words (concat l) = concat (words <$> l).
Proof. induction l as [|x l IH]; simpl; [done|]. by rewrite words_app, IH. Qed.

Lemma words_trim t : words (trim t) = words t.
Proof. unfold words. by rewrite ink_trim. Qed.

Lemma words_join sep l : words sep = [] -> words (join_text sep l) = concat (words <$> l).
Proof.
  intros Hs. induction l as [|x l IH]; [done|]. destruct l as [|y l]; [simpl; by rewrite app_nil_r|].
  change (join_text sep (x :: y :: l)) with (x ++ sep ++ join_text sep (y :: l)).
  rewrite !words_app, Hs, IH. done.
Qed.

Lemma words_split t : concat (words <$> split_two t) = words t.
Proof.
  remember (List.length t) as n eqn:Hn. assert (List.length t <= n)%nat as Hle by lia. clear Hn.
  revert t Hle. induction n as [|n IH]; intros [|c [|d r]] Hle; simpl in Hle; try lia; try done.
  { simpl. by rewrite app_nil_r. }
  cbn [split_two]. destruct ((c =? 32) && (d =? 32)) eqn:E.
  - bool_prop. subst. simpl. rewrite IH by (simpl in *; lia). done.
  - pose proof (IH (d :: r) ltac:(simpl in *; lia)) as Hr. cbn [split_two] in Hr |- *.
    change (c :: d :: r) with ([c] ++ d :: r). rewrite words_app, <- Hr.
    set (u := match r with [] => _ | _ => _ end) in *. destruct u as [|l ls].
    + simpl. by rewrite app_nil_r.
    + rewrite !fmap_cons. cbn [concat]. change (c :: l) with ([c] ++ l).
      by rewrite (words_app [c] l), app_assoc.
Qed.

Lemma words_filter l : concat (words <$> List.filter (fun c => negb (is_empty c)) l) = concat (words <$> l).
Proof.
  induction l as [|x l IH]; [done|]. cbn [List.filter]. destruct x as [|c x]; cbn [is_empty negb];
    rewrite !fmap_cons; cbn [concat]; by rewrite IH.
Qed.

Lemma words_cells line : concat (words <$> cells_of line) = words line.
Proof.
  unfold cells_of. rewrite words_filter, <- list_fmap_compose.
  rewrite <- words_split. f_equal. apply list_fmap_ext. intros i x _. apply words_trim.
Qed.

Lemma words_plain buf : words (plain_rows buf) = concat ((fun row => concat (words <$> row)) <$> buf).
Proof.
  unfold plain_rows. rewrite words_concat, <- list_fmap_compose. f_equal. apply list_fmap_ext.
  intros i row _. cbn [compose]. rewrite words_app, words_join by done. by rewrite app_nil_r.
Qed.

Lemma words_pad cols row : concat (words <$> pad cols row) = concat (words <$> row).
Proof.
  unfold pad. rewrite fmap_app, concat_app. replace (concat (words <$> replicate _ [])) with (@nil Z).
  - by rewrite app_nil_r.
  - induction (cols - List.length row)%nat; simpl; done.
Qed.

Lemma words_flush buf : words (flush_table buf) = concat ((fun row => concat (words <$> row)) <$> buf).
Proof.
  destruct buf as [|header rows]; [done|]. unfold flush_table. cbn zeta. case_match; [apply words_plain|].
  generalize (foldr Nat.max 0%nat (List.length <$> header :: rows)). intros cols.
  rewrite !words_app, words_join by done. rewrite fmap_cons. cbn [concat].
  replace (words (concat (replicate _ _))) with (@nil Z).
  2: { symmetry. induction cols as [|n IH]; [done|]. cbn [replicate concat]. rewrite words_app, IH. done. }
  change (words (str "| ")) with (@nil Z). change (words (str " |")) with (@nil Z).
  change (words [newline]) with (@nil Z). change (words (str "|")) with (@nil Z).
  rewrite !app_nil_r. cbn [app]. f_equal. rewrite words_concat, <- list_fmap_compose. f_equal.
  apply list_fmap_ext. intros i row _. cbn [compose]. rewrite !words_app, words_join by done.
  change (words (str "| ")) with (@nil Z). change (words (str " |")) with (@nil Z).
  change (words [newline]) with (@nil Z). rewrite !app_nil_r. apply words_pad.
Qed.

Lemma enrich_loop_words ls buf out :
  words (enrich_loop ls buf out)
  = words out ++ concat ((fun row => concat (words <$> row)) <$> buf) ++ concat (words <$> ls).
Proof.
  revert buf out. induction ls as [|line ls IH]; intros buf out; cbn [enrich_loop].
  - rewrite words_app, words_flush. simpl. by rewrite app_nil_r.
  - cbn zeta. case_match; rewrite IH.
    + rewrite fmap_app, concat_app. simpl. rewrite app_nil_r, words_cells, <- app_assoc. done.
    + rewrite !words_app, words_flush. change (words [newline]) with (@nil Z). simpl.
      by rewrite app_nil_r, <- !app_assoc.
Qed.

Lemma ink_ink t : ink (ink t) = ink t.
Proof.
  induction t as [|c t IH]; [done|]. simpl. destruct (is_whitespace c) eqn:E; simpl; [done|].
  by rewrite E, IH.
Qed.

(** The tables keep every word of a page, in order. *)
Theorem enrich_keeps t : words (enrich_with_tables t) = words t.
Proof.
  unfold enrich_with_tables. rewrite enrich_loop_words. cbn [fmap list_fmap concat app].
  transitivity (words (concat (ink <$> lines t))); [|unfold words; rewrite ink_lines; f_equal].
  { change (words [] ++ concat (words <$> lines t)) with (concat (words <$> lines t)).
    rewrite words_concat, <- list_fmap_compose. f_equal. apply list_fmap_ext. intros i l _.
    cbn [compose]. unfold words. by rewrite ink_ink. }
  apply ink_ink.
Qed.

Lemma ink_join l : ink (join_text [newline; newline] l) = concat (ink <$> l).
Proof.
  induction l as [|x l IH]; [done|]. destruct l as [|y l]; [simpl; by rewrite app_nil_r|].
  change (join_text ?s (x :: y :: l)) with (x ++ s ++ join_text s (y :: l)).
  rewrite !ink_app, IH. done.
Qed.

(** The text of an extracted document is the text of its pages. *)
Lemma extract_pages `{!Unicode, !PdfTools} bytes filename d :
  extract bytes filename = Ok d -> ink (full_text (content d)) = doc_ink (pages (content d)).
Proof.
  assert (forall ps f, ink (full_text (content (of_pages bytes ps f)))
                     = doc_ink (pages (content (of_pages bytes ps f)))) as Hp.
  { intros ps f. unfold of_pages, doc_ink. cbn [content full_text pages].
    rewrite ink_join, <- list_fmap_compose. done. }
  unfold extract, extract_pdf, try_ocr_pdf. intros He. case_match.
  - apply rbind_ok in He as (ps & _ & He). case_match; [|by simplify_eq].
    apply rbind_ok in He as (ob & _ & He). apply rbind_ok in He as (ps' & _ & He).
    case_match; [by simplify_eq|done].
  - repeat (case_match; try done). simplify_eq. unfold doc_ink. simpl. by rewrite app_nil_r.
Qed.

End Extract.

(** ** Chunking adds no character but line breaks *)
Module Kept.
Import Chunk.

Section kept.
Context (Q : Z -> Prop).
Hypothesis Qnl : Q newline.

Definition allq (t : text) : Prop := Forall Q t.

Lemma allq_infix a b : infix a b -> allq b -> allq a.
Proof. intros (x & y & ->) Hb. by apply Forall_app in Hb as [_ [Hb _]%Forall_app]. Qed.

Lemma allq_line cur line : allq cur -> allq line -> allq (cur ++ line ++ [newline]).
Proof. intros. apply Forall_app. split; [done|]. apply Forall_app. split; [done|]. by constructor. Qed.

Lemma allq_split t : allq t -> Forall (fun l => allq l.1) (split_lines t).
Proof.
  induction 1 as [|c t Hc _ IH]; cbn [split_lines]; [done|].
  case_match; [constructor; [constructor|done]|]. destruct (split_lines t) as [|[l b] ls].
  - constructor; [by constructor|done].
  - apply Forall_cons in IH as [Hl Hls]. constructor; [|done]. by constructor.
Qed.

Lemma allq_lines t : allq t -> Forall allq (lines t).
Proof.
  intros Ht. apply Forall_fmap. eapply Forall_impl; [by apply allq_split|].
  intros [l b] Hl. cbn in *. destruct b; [|done]. unfold strip_cr. case_match; [|done].
  by apply Forall_take.
Qed.

Lemma allq_push us cur : Forall allq us -> allq cur ->
  Forall allq (push_unit us cur).1 /\ allq (push_unit us cur).2.
Proof.
  intros Hu Hc. unfold push_unit. case_match; cbn; (split; [|constructor]); [done|].
  apply Forall_app. split; [done|]. by constructor.
Qed.

Lemma allq_brace ls us cur depth :
  Forall allq ls -> Forall allq us -> allq cur ->
  Forall allq (brace_loop ls us cur depth).1 /\ allq (brace_loop ls us cur depth).2.
Proof.
  intros Hl. revert us cur depth. induction Hl as [|line ls Hl _ IH]; intros us cur depth Hu Hc; [done|].
  cbn [brace_loop]. cbn zeta. pose proof (allq_line _ _ Hc Hl). case_match; [|by apply IH].
  destruct (allq_push us (cur ++ line ++ [newline])); [done..|]. by apply IH.
Qed.

Lemma allq_python ls us cur prev :
  Forall allq ls -> Forall allq us -> allq cur ->
  Forall allq (python_loop ls us cur prev).1 /\ allq (python_loop ls us cur prev).2.
Proof.
  intros Hl. revert us cur prev. induction Hl as [|line ls Hl _ IH]; intros us cur prev Hu Hc; [done|].
  cbn [python_loop]. cbn zeta. case_match; cbn [fst snd].
  - destruct (allq_push us cur); [done..|]. apply IH; [done|]. by apply allq_line.
  - apply IH; [done|]. by apply allq_line.
Qed.

Lemma allq_units lang t : allq t -> Forall allq (units_of lang t).
Proof.
  intros Ht%allq_lines. destruct lang; cbn; unfold brace_units, python_units; cbn zeta.
  - destruct (allq_brace (lines t) [] [] 0); [done|done|constructor|]. by apply allq_push.
  - destruct (allq_python (lines t) [] [] false); [done|done|constructor|]. by apply allq_push.
Qed.

Section chunks.
Context `{!Unicode}.

Definition allq_chunk (c : RichChunk) : Prop := allq (c_text c).

Lemma allq_pieces t size overlap ts n l :
  allq t -> chunk_text t size overlap = Some ts ->
  Forall allq_chunk ((fun p => {| c_text := p; page_number := n; section := l |}) <$> ts).
Proof.
  intros Ht Hc. destruct (chunk_text_spec t size overlap) as (ts' & Hc' & Hg & _). simplify_eq.
  apply Forall_fmap. eapply Forall_impl; [exact Hg|]. intros c (_ & _ & Hi). by eapply allq_infix.
Qed.

Lemma allq_mk buf l : allq buf -> allq_chunk (mk_chunk buf l).
Proof. apply allq_infix, trim_infix. Qed.

Lemma allq_emit (b : bool) out buf l :
  Forall allq_chunk out -> allq buf -> Forall allq_chunk (if b then out ++ [mk_chunk buf l] else out).
Proof.
  intros Ho Hb. destruct b; [|done]. apply Forall_app. split; [done|].
  constructor; [by apply allq_mk|done].
Qed.

Lemma allq_code lang size overlap us out buf label cs :
  Forall allq us -> Forall allq_chunk out -> allq buf ->
  code_loop lang size overlap us out buf label = Some cs -> Forall allq_chunk cs.
Proof.
  intros Hu. revert out buf label. induction Hu as [|u us Hu _ IH]; intros out buf label Ho Hb;
    cbn [code_loop]; cbn zeta.
  - intros [= <-]. destruct (is_empty (trim buf)); [done|]. by apply (allq_emit true).
  - case_match.
    + destruct (chunk_text u size overlap) as [ps|] eqn:E; [|done]. apply IH; [|constructor].
      apply Forall_app. split; [by apply allq_emit|]. eapply allq_pieces; [|exact E]. done.
    + apply IH; [by apply allq_emit|]. apply Forall_app. split; [|done]. case_match; [constructor|done].
Qed.

Lemma allq_pages size overlap ps cs :
  Forall (fun p => allq (p_text p)) ps -> pages_chunks size overlap ps = Some cs -> Forall allq_chunk cs.
Proof.
  intros Hp. revert cs. induction Hp as [|p ps Hp _ IH]; intros cs; cbn [pages_chunks].
  { by intros [= <-]. }
  unfold page_chunks. destruct (chunk_text (p_text p) size overlap) as [ts|] eqn:E; [|done].
  destruct (pages_chunks size overlap ps) as [b|]; [|done]. intros [= <-].
  apply Forall_app. split; [by eapply allq_pieces|by apply IH].
Qed.

Lemma allq_document doc source size overlap cs :
  allq (full_text doc) -> Forall (fun p => allq (p_text p)) (pages doc) ->
  chunk_document doc source size overlap = Some cs -> Forall allq_chunk cs.
Proof.
  intros Hf Hp. unfold chunk_document. destruct (lang_for source) as [lang|]; [|by apply allq_pages].
  destruct (chunk_code (full_text doc) lang size overlap) as [coded|] eqn:E; [|done].
  assert (Forall allq_chunk coded) as Hc.
  { unfold chunk_code in E. eapply allq_code; [| |constructor|exact E]; [by apply allq_units|done]. }
  destruct coded; [by apply allq_pages|]. by intros [= <-].
Qed.

End chunks.
End kept.
End Kept.

(** ** Documents are texts *)
Module Texts.
Import Chunk Utf8 Extract Kept.

Definition is_text (t : text) : Prop := allq (fun c => scalar c = true) t.

Definition text_doc (d : Document) : Prop :=
  is_text (full_text (content d)) /\ Forall (fun p => is_text (p_text p)) (pages (content d)).

Lemma is_text_app a b : is_text (a ++ b) <-> is_text a /\ is_text b.
Proof. apply Forall_app. Qed.

Lemma is_text_join sep l : is_text sep -> Forall is_text l -> is_text (join_text sep l).
Proof.
  intros Hs Hl. induction Hl as [|x l Hx Hl IH]; [constructor|]. destruct l as [|y l]; [done|].
  change (join_text sep (x :: y :: l)) with (x ++ sep ++ join_text sep (y :: l)).
  rewrite !is_text_app. auto.
Qed.

Lemma is_text_concat l : Forall is_text l -> is_text (concat l).
Proof. induction 1; simpl; [constructor|]. by apply is_text_app. Qed.

Lemma is_text_split t : is_text t -> Forall is_text (split_two t).
Proof.
  remember (List.length t) as n eqn:Hn. assert (List.length t <= n)%nat as Hle by lia. clear Hn.
  revert t Hle. induction n as [|n IH]; intros [|c [|d r]] Hle Ht; simpl in Hle; try lia;
    try (by repeat constructor).
  { by constructor. }
  apply Forall_cons in Ht as [Hc Ht]. cbn [split_two]. case_match.
  - apply Forall_cons in Ht as [_ Ht]. constructor; [constructor|]. apply IH; [simpl in *; lia|done].
  - pose proof (IH (d :: r) ltac:(simpl in *; lia) Ht) as Hr. cbn [split_two] in Hr.
    set (u := match r with [] => _ | _ => _ end) in *. destruct u as [|l ls].
    + constructor; [by constructor|done].
    + apply Forall_cons in Hr as [Hl Hr]. constructor; [by constructor|done].
Qed.

Lemma is_text_trim t : is_text t -> is_text (trim t).
Proof. apply allq_infix, trim_infix. Qed.

Lemma is_text_cells line : is_text line -> Forall is_text (cells_of line).
Proof.
  intros Hl%is_text_split. unfold cells_of. apply List.Forall_forall. intros x Hx.
  apply filter_In in Hx as [Hx _]. revert x Hx. apply List.Forall_forall. apply Forall_fmap.
  eapply Forall_impl; [exact Hl|]. intros x. apply is_text_trim.
Qed.

Lemma is_text_flush buf : Forall (Forall is_text) buf -> is_text (flush_table buf).
Proof.
  intros Hb. unfold flush_table. destruct buf as [|header rows]; [constructor|]. cbn zeta.
  assert (forall s, forallb (fun c => scalar c) (str s) = true -> is_text (str s)) as Hs.
  { intros s Hf. apply List.Forall_forall. by apply forallb_forall. }
  assert (is_text [newline]) as Hn by (by constructor).
  apply Forall_cons in Hb as [Hh Hr]. case_match.
  - apply is_text_concat, Forall_fmap. constructor.
    + apply is_text_app. split; [|done]. apply is_text_join; [by apply Hs|done].
    + eapply Forall_impl; [exact Hr|]. intros row Hrow. apply is_text_app. split; [|done].
      apply is_text_join; [by apply Hs|done].
  - rewrite !is_text_app. repeat split; try (by apply Hs); try done.
    + apply is_text_join; [by apply Hs|done].
    + apply is_text_concat, Forall_replicate. by apply Hs.
    + apply is_text_concat, Forall_fmap. eapply Forall_impl; [exact Hr|]. intros row Hrow.
      cbn beta. cbn [compose]. rewrite !is_text_app. repeat split; try (by apply Hs); try done.
      apply is_text_join; [by apply Hs|]. unfold pad. apply Forall_app. split; [done|].
      apply Forall_replicate. constructor.
Qed.

Lemma is_text_enrich t : is_text t -> is_text (enrich_with_tables t).
Proof.
  intros Ht. apply allq_lines in Ht. unfold enrich_with_tables.
  assert (forall ls buf out, Forall is_text ls -> Forall (Forall is_text) buf -> is_text out ->
    is_text (enrich_loop ls buf out)) as Hg; [|by apply Hg; [|constructor|constructor]].
  clear. intros ls. induction ls as [|line ls IH]; intros buf out Hl Hb Ho; cbn [enrich_loop].
  - apply is_text_app. split; [done|]. by apply is_text_flush.
  - apply Forall_cons in Hl as [Hl Hls]. cbn zeta. case_match; apply IH; try done.
    + apply Forall_app. split; [done|]. constructor; [by apply is_text_cells|done].
    + rewrite !is_text_app. repeat split; try done; [by apply is_text_flush|by constructor].
Qed.

Lemma from_plain_text t : is_text t -> text_doc (from_plain t).
Proof. intros Ht. split; [done|]. by constructor. Qed.

Lemma extract_text_doc `{!Unicode, !PdfTools} bytes filename d :
  extract bytes filename = Ok d -> text_doc d.
Proof.
  assert (forall ps f, (forall t, is_text t -> is_text (f t)) -> Forall is_text ps ->
    text_doc (of_pages bytes ps f)) as Hp.
  { intros ps f Hf Hps. unfold of_pages. assert (Forall (fun p => is_text (p_text p)) (numbered ps f)) as Hn.
    { unfold numbered. apply Forall_fmap, List.Forall_forall. intros [i t] Hx. cbn.
      apply filter_In in Hx as [Hx _]. apply list_elem_of_In, list_elem_of_lookup in Hx as [j Hj].
      rewrite list_lookup_imap in Hj. destruct (ps !! j) as [u|] eqn:E; [|done]. simplify_eq/=.
      apply Hf. by eapply Forall_lookup_1 in E. }
    split; [|done]. apply is_text_join; [by repeat constructor|]. by apply Forall_fmap. }
  unfold extract, extract_pdf, try_ocr_pdf. intros He. case_match.
  - apply rbind_ok in He as (ps & Hps & He). apply ok_or_ok, pages_scalar in Hps.
    case_match; [|simplify_eq; apply Hp; [exact is_text_enrich|done]].
    apply rbind_ok in He as (ob & _ & He). apply rbind_ok in He as (ps' & Hps' & He).
    apply ok_or_ok, pages_scalar in Hps'. case_match; [simplify_eq|done]. by apply Hp.
  - repeat (case_match; try done). simplify_eq. apply from_plain_text. by apply chars_scalar.
Qed.

End Texts.
