(* ===== verification/UserDb.v ===== *)
(** * Users, sessions and reset tokens

    Models [maranode-store/src/user_db.rs] with its schema
    [maranode-store/src/sql/migrate_users.sql]. A table is the list of its rows, each
    column as it is stored (roles, providers and instants as text); an SQL statement
    is the operation that it states on the rows, constraints included. Instants are
    compared as text, as the statements do. Whether a delete cascades depends on the
    default of the SQLite that is linked ([foreign_keys]): this database sets no
    pragma. *)

From Stdlib Require Import ZArith Lia Ascii String.
From S2P Require Import Prelude Common Crypto.
Open Scope Z_scope.

(** [to_rfc3339] and [parse_from_rfc3339] of chrono. Over the years 1970 to 9999 the
    texts have four digits for the year and the same offset, so that they sort as
    the instants do. A text has digits, signs, dots, colons and a T. *)
Definition in_era (t : Z) : Prop := 0 <= t < 253402300800 * ns_per_s.

Definition time_char (c : ascii) : bool :=
  in_range 48 58 c || in_range 43 43 c || in_range 45 46 c || in_range 84 84 c.

Class Rfc3339 := {
  to_rfc3339 : Z -> string;
  parse_rfc3339 : string -> option Z;
  parse_to_rfc3339 t : in_era t -> parse_rfc3339 (to_rfc3339 t) = Some t;
  rfc3339_ltb a b : in_era a -> in_era b ->
    String.ltb (to_rfc3339 a) (to_rfc3339 b) = (a <? b);
  rfc3339_chars t : string_forall time_char (to_rfc3339 t) = true;
}.

(** argon2's password hashes: hashing takes a salt, verifying fails on a text that is
    no hash. *)
Class PasswordHash := {
  argon2_hash : string -> string -> string;
  argon2_verify : string -> string -> option bool;
  argon2_verify_hash salt pw : argon2_verify pw (argon2_hash salt pw) = Some true;
}.

Module UserDb.
Import Common.User.

(** ** Tables *)

Record user_row := {
  r_id : string;
  r_username : string;
  r_email : option string;
  r_password_hash : option string;
  r_role : string;
  r_provider : string;
  r_provider_sub : option string;
  r_active : Z;
  r_created_at : string;
  r_last_login : option string;
}.

Record session_row := {
  s_token : string;
  s_user_id : string;
  s_created_at : string;
  s_expires_at : string;
}.

Record reset_row := {
  p_token : string;
  p_user_id : string;
  p_expires_at : string;
}.

Record db := {
  users : list user_row;
  sessions : list session_row;
  resets : list reset_row;
}.

Definition empty_db : db := {| users := []; sessions := []; resets := [] |}.

Definition set_users (d : db) (l : list user_row) : db :=
  {| users := l; sessions := sessions d; resets := resets d |}.
Definition set_sessions (d : db) (l : list session_row) : db :=
  {| users := users d; sessions := l; resets := resets d |}.
Definition set_resets (d : db) (l : list reset_row) : db :=
  {| users := users d; sessions := sessions d; resets := l |}.

Inductive db_err := UniqueViolation | ForeignKeyViolation.

#[export] Instance db_err_eq_dec : EqDecision db_err.
Proof. solve_decision. Defined.

Definition opt_eqb (a b : option string) : bool :=
  match a, b with Some x, Some y => String.eqb x y | _, _ => false end.

(** [UNIQUE] on id, username and email; a NULL email equals no other. *)
Definition conflicts (a b : user_row) : bool :=
  String.eqb (r_id a) (r_id b) || String.eqb (r_username a) (r_username b)
  || opt_eqb (r_email a) (r_email b).

Section user_db.
Context `{!Rfc3339}.
Variable foreign_keys : bool.

(** ** Rows *)

Definition user_to_row (u : User) : user_row := {|
  r_id := id u; r_username := username u; r_email := email u;
  r_password_hash := password_hash u; r_role := role_str (role u);
  r_provider := provider_str (provider u); r_provider_sub := provider_sub u;
  r_active := if active u then 1 else 0;
  r_created_at := to_rfc3339 (created_at u);
  r_last_login := to_rfc3339 <$> last_login u;
|}.

(** [now] is the clock, read where a stored instant does not parse. *)
Definition row_to_user (now : Z) (r : user_row) : User := {|
  id := r_id r; username := r_username r; email := r_email r;
  password_hash := r_password_hash r;
  role := match role_from_str (r_role r) with Ok x => x | Err _ => Viewer end;
  provider := match provider_from_str (r_provider r) with Ok x => x | Err _ => Local end;
  provider_sub := r_provider_sub r;
  active := negb (r_active r =? 0);
  created_at := default now (parse_rfc3339 (r_created_at r));
  last_login := some? s := r_last_login r in parse_rfc3339 s;
|}.

Record SessionRecord := {
  token_prefix : string;
  user_id : string;
  sr_username : option string;
  sr_created_at : Z;
  sr_expires_at : Z;
}.

Definition row_to_session (now : Z) (r : session_row) : SessionRecord := {|
  token_prefix := stake 8 (s_token r); user_id := s_user_id r; sr_username := None;
  sr_created_at := default now (parse_rfc3339 (s_created_at r));
  sr_expires_at := default now (parse_rfc3339 (s_expires_at r));
|}.

(** ** Users *)

Definition count (d : db) : Z := Z.of_nat (List.length (users d)).

Definition create (u : User) : SE db db_err unit := fun d =>
  let r := user_to_row u in
  if existsb (conflicts r) (users d) then (d, Err UniqueViolation)
  else (set_users d (users d ++ [r]), Ok tt).

(** [ORDER BY created_at ASC]. *)
Definition by_created (a b : user_row) : Prop :=
  String.leb (r_created_at a) (r_created_at b) = true.

#[export] Instance by_created_dec a b : Decision (by_created a b).
Proof. unfold by_created. apply _. Defined.

Definition list_users (now : Z) (d : db) : list User :=
  row_to_user now <$> merge_sort by_created (users d).

Definition find_user (p : user_row -> bool) (now : Z) (d : db) : option User :=
  row_to_user now <$> List.find p (users d).

Definition get_by_id (uid : string) : Z -> db -> option User :=
  find_user (fun r => String.eqb (r_id r) uid).
Definition get_by_email (e : string) : Z -> db -> option User :=
  find_user (fun r => opt_eqb (r_email r) (Some e)).
Definition get_by_username (n : string) : Z -> db -> option User :=
  find_user (fun r => String.eqb (r_username r) n).
Definition get_by_provider_sub (p sub : string) : Z -> db -> option User :=
  find_user (fun r => String.eqb (r_provider r) p && opt_eqb (r_provider_sub r) (Some sub)).

(** The columns that [UPDATE] sets: all but the id and the creation. *)
Definition updated (u : User) (r : user_row) : user_row := {|
  r_id := r_id r; r_username := username u; r_email := email u;
  r_password_hash := password_hash u; r_role := role_str (role u);
  r_provider := provider_str (provider u); r_provider_sub := provider_sub u;
  r_active := if active u then 1 else 0;
  r_created_at := r_created_at r; r_last_login := to_rfc3339 <$> last_login u;
|}.

Definition update (u : User) : SE db db_err unit := fun d =>
  let hit r := String.eqb (r_id r) (id u) in
  if existsb hit (users d) && existsb (fun r => negb (hit r) && conflicts (user_to_row u) r) (users d)
  then (d, Err UniqueViolation)
  else (set_users d ((fun r => if hit r then updated u r else r) <$> users d), Ok tt).

Definition delete (uid : string) : SE db db_err bool := fun d =>
  let n := existsb (fun r => String.eqb (r_id r) uid) (users d) in
  let d := set_users d (List.filter (fun r => negb (String.eqb (r_id r) uid)) (users d)) in
  let d := if foreign_keys
           then set_resets
                  (set_sessions d (List.filter (fun s => negb (String.eqb (s_user_id s) uid)) (sessions d)))
                  (List.filter (fun p => negb (String.eqb (p_user_id p) uid)) (resets d))
           else d in
  (d, Ok n).

(** ** Sessions *)

Definition hours_ns (h : Z) : Z := h * 3600 * ns_per_s.
Definition minutes_ns (m : Z) : Z := m * 60 * ns_per_s.

Definition user_exists (uid : string) (d : db) : bool :=
  existsb (fun r => String.eqb (r_id r) uid) (users d).

Definition set_last_login (t : string) (r : user_row) : user_row := {|
  r_id := r_id r; r_username := r_username r; r_email := r_email r;
  r_password_hash := r_password_hash r; r_role := r_role r; r_provider := r_provider r;
  r_provider_sub := r_provider_sub r; r_active := r_active r;
  r_created_at := r_created_at r; r_last_login := Some t |}.

(** [t0] and [now] are the two readings of the clock, [token] the random token. *)
Definition create_session (uid : string) (ttl_hours t0 now : Z) (token : string)
    : SE db db_err string :=
  do! _ := smodify (fun d => set_sessions d (List.filter
    (fun s => negb (String.eqb (s_user_id s) uid && String.ltb (s_expires_at s) (to_rfc3339 t0)))
    (sessions d))) in
  let expires := now + hours_ns ttl_hours in
  do! d := sget in
  if existsb (fun s => String.eqb (s_token s) token) (sessions d) then sfail UniqueViolation else
  if foreign_keys && negb (user_exists uid d) then sfail ForeignKeyViolation else
  do! _ := sput (set_sessions d (sessions d ++
    [{| s_token := token; s_user_id := uid; s_created_at := to_rfc3339 now;
        s_expires_at := to_rfc3339 expires |}])) in
  do! _ := smodify (fun d => set_users d ((fun r =>
    if String.eqb (r_id r) uid then set_last_login (to_rfc3339 now) r else r) <$> users d)) in
  sret token.

(** The join of a live session with its active user. *)
Definition live (now : Z) (token : string) (s : session_row) : bool :=
  String.eqb (s_token s) token && String.ltb (to_rfc3339 now) (s_expires_at s).

Definition resolve_session (token : string) (now : Z) (d : db) : option User :=
  row_to_user now <$> head (s ← List.filter (live now token) (sessions d);
                             List.filter (fun r => String.eqb (s_user_id s) (r_id r)
                                                   && (r_active r =? 1)) (users d)).

Definition delete_session (token : string) : SE db db_err unit :=
  smodify (fun d => set_sessions d
    (List.filter (fun s => negb (String.eqb (s_token s) token)) (sessions d))).

(** [ORDER BY created_at DESC]. *)
Definition by_created_desc (a b : session_row) : Prop :=
  String.leb (s_created_at b) (s_created_at a) = true.

#[export] Instance by_created_desc_dec a b : Decision (by_created_desc a b).
Proof. unfold by_created_desc. apply _. Defined.

Definition list_sessions_for_user (uid : string) (now : Z) (d : db) : list SessionRecord :=
  row_to_session now <$> merge_sort by_created_desc
    (List.filter (fun s => String.eqb (s_user_id s) uid
                           && String.ltb (to_rfc3339 now) (s_expires_at s)) (sessions d)).

Definition list_all_sessions (now : Z) (d : db) : list SessionRecord :=
  s ← merge_sort by_created_desc
        (List.filter (fun s => String.ltb (to_rfc3339 now) (s_expires_at s)) (sessions d));
  r ← List.filter (fun r => String.eqb (s_user_id s) (r_id r)) (users d);
  [ {| token_prefix := token_prefix (row_to_session now s); user_id := s_user_id s;
       sr_username := Some (r_username r);
       sr_created_at := sr_created_at (row_to_session now s);
       sr_expires_at := sr_expires_at (row_to_session now s) |} ].

(** SQL's [LIKE]: [%] is any text, [_] any character, letters of either case. *)
Fixpoint like (p s : string) : bool :=
  match p with
  | EmptyString => match s with EmptyString => true | _ => false end
  | String c p' =>
    if Ascii.eqb c "%" then
      (fix any (s : string) : bool :=
         like p' s || match s with EmptyString => false | String _ s => any s end) s
    else match s with
         | EmptyString => false
         | String x s => (Ascii.eqb c "_" || Ascii.eqb (ascii_lower c) (ascii_lower x)) && like p' s
         end
  end.

Definition delete_session_by_prefix (uid prefix : string) : SE db db_err unit :=
  let pattern := prefix +:+ "%" in
  smodify (fun d => set_sessions d
    (List.filter (fun s => negb (String.eqb (s_user_id s) uid && like pattern (s_token s)))
       (sessions d))).

Definition delete_sessions_for_user_except (uid keep : string) : SE db db_err Z := fun d =>
  let gone s := String.eqb (s_user_id s) uid && negb (String.eqb (s_token s) keep) in
  (set_sessions d (List.filter (fun s => negb (gone s)) (sessions d)),
   Ok (Z.of_nat (List.length (List.filter gone (sessions d))))).

(** ** Reset tokens *)

Definition create_reset_token (uid : string) (t0 now : Z) (token : string) : SE db db_err string :=
  do! _ := smodify (fun d => set_resets d
    (List.filter (fun p => negb (String.ltb (p_expires_at p) (to_rfc3339 t0))) (resets d))) in
  let expires := now + minutes_ns 30 in
  do! d := sget in
  if existsb (fun p => String.eqb (p_token p) token) (resets d) then sfail UniqueViolation else
  if foreign_keys && negb (user_exists uid d) then sfail ForeignKeyViolation else
  do! _ := sput (set_resets d (resets d ++
    [{| p_token := token; p_user_id := uid; p_expires_at := to_rfc3339 expires |}])) in
  sret token.

Definition consume_reset_token (token : string) (now : Z) : SE db db_err (option string) := fun d =>
  match List.find (fun p => String.eqb (p_token p) token
                            && String.ltb (to_rfc3339 now) (p_expires_at p)) (resets d) with
  | None => (d, Ok None)
  | Some p =>
    (set_resets d (List.filter (fun p => negb (String.eqb (p_token p) token)) (resets d)),
     Ok (Some (p_user_id p)))
  end.

End user_db.

(** ** Passwords *)

Definition hash_password `{PasswordHash} (salt password : string) : string :=
  argon2_hash salt password.

Definition verify_password `{PasswordHash} (password hash : string) : result unit bool :=
  ok_or (argon2_verify password hash) tt.

(** ** Sequences of operations *)

Inductive op :=
| OpCreate (u : User)
| OpUpdate (u : User)
| OpDelete (uid : string)
| OpSession (uid : string) (ttl_hours t0 now : Z) (token : string)
| OpLogout (token : string)
| OpRevokePrefix (uid prefix : string)
| OpRevokeOthers (uid keep : string)
| OpResetToken (uid : string) (t0 now : Z) (token : string)
| OpConsume (token : string) (now : Z).

Section runs.
Context `{!Rfc3339}.
Variable fk : bool.

(** The database after an operation; an operation that fails leaves what it wrote. *)
Definition exec (o : op) (d : db) : db :=
  match o with
  | OpCreate u => (create u d).1
  | OpUpdate u => (update u d).1
  | OpDelete uid => (delete fk uid d).1
  | OpSession uid ttl t0 now token => (create_session fk uid ttl t0 now token d).1
  | OpLogout token => (delete_session token d).1
  | OpRevokePrefix uid prefix => (delete_session_by_prefix uid prefix d).1
  | OpRevokeOthers uid keep => (delete_sessions_for_user_except uid keep d).1
  | OpResetToken uid t0 now token => (create_reset_token fk uid t0 now token d).1
  | OpConsume token now => (consume_reset_token token now d).1
  end.

Definition run (ops : list op) (d : db) : db := foldl (fun d o => exec o d) d ops.

(** ** The constraints of the schema *)

Record db_wf (d : db) : Prop := {
  wf_ids : NoDup (r_id <$> users d);
  wf_usernames : NoDup (r_username <$> users d);
  wf_emails : NoDup (omap r_email (users d));
  wf_tokens : NoDup (s_token <$> sessions d);
  wf_resets : NoDup (p_token <$> resets d);
  wf_session_users : fk = true -> forall s, In s (sessions d) -> user_exists (s_user_id s) d = true;
  wf_reset_users : fk = true -> forall p, In p (resets d) -> user_exists (p_user_id p) d = true;
}.

Lemma nodup_filter {A B} (f : A -> B) (p : A -> bool) l :
  NoDup (f <$> l) -> NoDup (f <$> List.filter p l).
Proof.
  induction l as [|x l IH]; simpl; [done|]. rewrite !NoDup_cons. intros [Hx Hl].
  destruct (p x); [|auto]. rewrite fmap_cons, NoDup_cons. split; [|auto].
  intros (y & Hy & Hin)%list_elem_of_fmap. apply Hx. rewrite Hy. apply list_elem_of_fmap.
  exists y. split; [done|]. apply list_elem_of_In in Hin. apply filter_In in Hin as [Hin _].
  by apply list_elem_of_In.
Qed.

Lemma nodup_omap_filter {A B} (f : A -> option B) (p : A -> bool) l :
  NoDup (omap f l) -> NoDup (omap f (List.filter p l)).
Proof.
  induction l as [|x l IH]; simpl; [done|]. intros Hl.
  assert (forall y, y ∈ omap f (List.filter p l) -> y ∈ omap f l) as Hsub.
  { intros y (z & Hz & Hf)%list_elem_of_omap. apply list_elem_of_omap. exists z.
    apply list_elem_of_In, filter_In in Hz as [Hz _]. split; [by apply list_elem_of_In|done]. }
  destruct (p x); simpl; destruct (f x); try (apply IH); try done.
  - apply NoDup_cons in Hl as [Hx Hl]. apply NoDup_cons. auto.
  - by apply NoDup_cons in Hl as [_ Hl].
Qed.

Lemma existsb_eqb_In {A} (f : A -> string) x l :
  existsb (fun a => String.eqb (f a) x) l = true <-> x ∈ f <$> l.
Proof.
  rewrite existsb_exists, list_elem_of_fmap. split.
  - intros (a & Hin & <-%String.eqb_eq). exists a. split; [done|]. by apply list_elem_of_In.
  - intros (a & -> & Hin). exists a. split; [by apply list_elem_of_In|]. apply String.eqb_refl.
Qed.

Lemma nodup_snoc {A B} (f : A -> B) l x :
  NoDup (f <$> l) -> f x ∉ f <$> l -> NoDup (f <$> (l ++ [x])).
Proof.
  intros Hl Hx. rewrite fmap_app. simpl. apply NoDup_app. split; [done|]. split.
  - intros y Hy ->%list_elem_of_singleton. done.
  - apply NoDup_singleton.
Qed.

Lemma omap_total {A B} (f : A -> B) (l : list A) : omap (fun a => Some (f a)) l = f <$> l.
Proof. induction l as [|x l IH]; simpl; [done|]. by f_equal. Qed.

Lemma update_no_hit {A} (key : A -> string) (h : A -> A) uid (l : list A) :
  uid ∉ key <$> l -> (fun a => if String.eqb (key a) uid then h a else a) <$> l = l.
Proof.
  induction l as [|x l IH]; [done|]. rewrite !fmap_cons. intros [Hx Hl]%not_elem_of_cons.
  rewrite IH by done. by destruct (String.eqb_spec (key x) uid) as [Hk|]; [by destruct Hx|].
Qed.

(** Rewriting the one row with a key keeps a column without duplicates, when no other
    row has the new value. *)
Lemma nodup_update {A B} (key : A -> string) (g : A -> option B) (h : A -> A) uid v (l : list A) :
  NoDup (key <$> l) -> NoDup (omap g l) ->
  (forall a, key a = uid -> g (h a) = v) ->
  (forall a x, In a l -> key a <> uid -> g a = Some x -> v <> Some x) ->
  NoDup (omap g ((fun a => if String.eqb (key a) uid then h a else a) <$> l)).
Proof.
  intros Hk Hg Hh Hv. induction l as [|a l IH]; [done|].
  rewrite fmap_cons in *. apply NoDup_cons in Hk as [Hka Hk]. cbn [omap list_omap].
  destruct (String.eqb_spec (key a) uid) as [Ha|Ha].
  - rewrite update_no_hit by (by rewrite <- Ha). rewrite (Hh a Ha). simpl in Hg.
    assert (NoDup (omap g l)) as Hl by (destruct (g a); [by apply NoDup_cons in Hg as [_ Hg]|done]).
    destruct v as [x|]; [|done]. apply NoDup_cons. split; [|done].
    intros (b & Hb & Hbx)%list_elem_of_omap. apply (Hv b x); [|..|done|done].
    + right. by apply list_elem_of_In.
    + intros Hbu. apply Hka. rewrite Ha, <- Hbu. by apply list_elem_of_fmap_2.
  - simpl in Hg. destruct (g a) as [x|] eqn:Ex.
    + apply NoDup_cons in Hg as [Hx Hg]. apply NoDup_cons. split.
      * intros (b & Hb & Hbx)%list_elem_of_omap.
        apply list_elem_of_fmap in Hb as (c & -> & Hc).
        destruct (String.eqb_spec (key c) uid) as [Hcu|Hcu].
        -- rewrite (Hh c Hcu) in Hbx. by apply (Hv a x); [left|..].
        -- apply Hx. apply list_elem_of_omap. by exists c.
      * apply IH; try done. intros c y Hc. apply Hv. by right.
    + apply IH; try done. intros c y Hc. apply Hv. by right.
Qed.

Lemma no_conflict r l :
  existsb (conflicts r) l = false ->
  forall a, In a l -> r_id r <> r_id a /\ r_username r <> r_username a /\
    (forall e, r_email a = Some e -> r_email r <> Some e).
Proof.
  intros He a Hin. assert (conflicts r a = false) as Hc.
  { apply not_true_iff_false. intros Ht. apply not_true_iff_false in He. apply He.
    apply existsb_exists. by exists a. }
  unfold conflicts, opt_eqb in Hc. bool_prop.
  repeat match goal with H : String.eqb _ _ = false |- _ => apply String.eqb_neq in H end.
  split; [done|]. split; [done|]. intros e Ha Hr. rewrite Ha, Hr in *. by rewrite String.eqb_refl in *.
Qed.

Lemma user_exists_users uid l d : user_exists uid (set_users d l) = existsb (fun r => String.eqb (r_id r) uid) l.
Proof. done. Qed.

Lemma create_user_wf u d : db_wf d -> db_wf (create u d).1.
Proof.
  intros Hw. unfold create. destruct (existsb _ _) eqn:E; [done|].
  pose proof (no_conflict _ _ E) as Hc. destruct Hw. cbn [fst].
  assert (forall f : user_row -> string,
    (forall a, In a (users d) -> f (user_to_row u) <> f a) ->
    f (user_to_row u) ∉ f <$> users d) as Hf.
  { intros f Hne (a & Ha & Hin)%list_elem_of_fmap. apply (Hne a); [by apply list_elem_of_In|done]. }
  assert (forall uid, user_exists uid d = true ->
    user_exists uid (set_users d (users d ++ [user_to_row u])) = true) as Hx.
  { intros uid. unfold user_exists. simpl. rewrite existsb_app. intros ->. done. }
  constructor; simpl; try done; [..|by auto|by auto].
  - apply nodup_snoc; [done|]. apply Hf. intros a Ha. by apply Hc.
  - apply nodup_snoc; [done|]. apply Hf. intros a Ha. by apply Hc.
  - rewrite omap_app. simpl. destruct (email u) as [e|] eqn:Ee; [|by rewrite app_nil_r].
    apply NoDup_app. split; [done|]. split; [|apply NoDup_singleton].
    intros y (a & Ha & Hay)%list_elem_of_omap ->%list_elem_of_singleton.
    apply list_elem_of_In in Ha. destruct (Hc a Ha) as (_ & _ & Hn). by apply (Hn e).
Qed.

Lemma update_wf u d : db_wf d -> db_wf (update u d).1.
Proof.
  intros Hw. unfold update. cbn zeta.
  destruct (existsb (fun r => String.eqb (r_id r) (id u)) (users d)) eqn:Eh; cbn [andb].
  2:{ replace (_ <$> users d) with (users d); [by destruct d|]. symmetry.
      apply update_no_hit. rewrite <- existsb_eqb_In. by rewrite Eh. }
  case_goal; [done|]. rename Em into E.
  assert (forall a, In a (users d) -> r_id a <> id u ->
    username u <> r_username a /\ (forall e, r_email a = Some e -> email u <> Some e)) as Hc.
  { intros a Hin Hne. apply (no_conflict (user_to_row u) [a]); [|by left].
    simpl. rewrite orb_false_r. apply not_true_iff_false. intros Ht.
    apply not_true_iff_false in E. apply E. apply existsb_exists. exists a. split; [done|].
    rewrite Ht. by apply String.eqb_neq in Hne as ->. }
  destruct Hw. cbn [fst].
  set (l := _ <$> users d).
  assert (r_id <$> l = r_id <$> users d) as Hids.
  { unfold l. rewrite <- list_fmap_compose. apply list_fmap_ext. intros _ r _. simpl.
    by destruct (String.eqb (r_id r) (id u)). }
  assert (forall uid, user_exists uid (set_users d l) = user_exists uid d) as Hex.
  { intros uid. apply eq_true_iff_eq. rewrite user_exists_users. unfold user_exists.
    rewrite !existsb_eqb_In. by rewrite Hids. }
  constructor; simpl; try done.
  - by rewrite Hids.
  - rewrite <- omap_total. apply (nodup_update r_id _ _ _ (Some (username u))); try done.
    intros a x Ha Hne [= <-] [= Hn]. by destruct (Hc a Ha Hne).
  - apply (nodup_update r_id _ _ _ (email u)); try done.
    intros a x Ha Hne Hx. destruct (Hc a Ha Hne) as [_ He]. by apply He.
  - intros Hfk s Hs. rewrite Hex. auto.
  - intros Hfk s Hs. rewrite Hex. auto.
Qed.

Lemma filter_sessions_wf p d : db_wf d -> db_wf (set_sessions d (List.filter p (sessions d))).
Proof.
  intros []. constructor; simpl; try done; [by apply nodup_filter|].
  intros Hfk s [Hs _]%filter_In. by apply wf_session_users0.
Qed.

Lemma filter_resets_wf p d : db_wf d -> db_wf (set_resets d (List.filter p (resets d))).
Proof.
  intros []. constructor; simpl; try done; [by apply nodup_filter|].
  intros Hfk s [Hs _]%filter_In. by apply wf_reset_users0.
Qed.

Lemma user_exists_spec uid d : user_exists uid d = true <-> exists r, In r (users d) /\ r_id r = uid.
Proof.
  unfold user_exists. rewrite existsb_exists. split; intros (r & Hr & He); exists r; (split; [done|]).
  - by apply String.eqb_eq.
  - by apply String.eqb_eq.
Qed.

Lemma delete_wf uid d : db_wf d -> db_wf (delete fk uid d).1.
Proof.
  intros []. unfold delete. cbn [fst].
  assert (forall u s p, user_exists u d = true -> u <> uid ->
    user_exists u {| users := List.filter (fun r => negb (String.eqb (r_id r) uid)) (users d);
                     sessions := s; resets := p |} = true) as Hx.
  { intros u s p (r & Hr & Hu)%user_exists_spec Hne. apply user_exists_spec. exists r.
    split; [|done]. simpl. apply filter_In. split; [done|]. rewrite Hu.
    by apply String.eqb_neq in Hne as ->. }
  destruct fk eqn:Efk; constructor; simpl; try done; try (by apply nodup_filter);
    try (by apply nodup_omap_filter); try (rewrite Efk; by intros [=]); intros _ x [Hin Hne]%filter_In;
    apply negb_true_iff, String.eqb_neq in Hne; apply Hx; auto.
Qed.

(** A change of the users that keeps ids, usernames and emails. *)
Lemma map_users_wf (h : user_row -> user_row) d :
  (forall r, r_id (h r) = r_id r) -> (forall r, r_username (h r) = r_username r) ->
  (forall r, r_email (h r) = r_email r) -> db_wf d -> db_wf (set_users d (h <$> users d)).
Proof.
  intros Hi Hu He []. assert (forall f : user_row -> string,
    (forall r, f (h r) = f r) -> f <$> (h <$> users d) = f <$> users d) as Hm.
  { intros f Hf. rewrite <- list_fmap_compose. apply list_fmap_ext. intros _ r _. apply Hf. }
  assert (forall uid, user_exists uid (set_users d (h <$> users d)) = user_exists uid d) as Hx.
  { intros uid. apply eq_true_iff_eq. rewrite user_exists_users. unfold user_exists.
    rewrite !existsb_eqb_In. by rewrite Hm. }
  constructor; simpl; try done; rewrite ?Hm by done; try done.
  - replace (omap r_email (h <$> users d)) with (omap r_email (users d)); [done|].
    clear -He. induction (users d) as [|r l IH]; [done|]. rewrite fmap_cons. cbn [omap list_omap].
    rewrite He. destruct (r_email r); [by f_equal|done].
  - intros Hfk s Hs. rewrite Hx. auto.
  - intros Hfk s Hs. rewrite Hx. auto.
Qed.

Lemma create_session_wf uid ttl t0 now token d :
  db_wf d -> db_wf (create_session fk uid ttl t0 now token d).1.
Proof.
  intros Hw. unfold create_session, sbind, smodify, sget, sput, sfail, sret. cbn [fst].
  match goal with |- context [set_sessions d (List.filter ?p _)] =>
    apply (filter_sessions_wf p) in Hw; revert Hw;
    generalize (set_sessions d (List.filter p (sessions d))); clear d; intros d1 Hw end.
  destruct (existsb _ (sessions d1)) eqn:Et; [done|].
  destruct (fk && negb (user_exists uid d1)) eqn:Eu; [done|]. cbn [fst].
  apply (map_users_wf (fun r => if String.eqb (r_id r) uid then set_last_login (to_rfc3339 now) r else r)
           (set_sessions d1 _)); try (intros r; by destruct (String.eqb (r_id r) uid)).
  destruct Hw. constructor; simpl; try done.
  - apply nodup_snoc; [done|]. simpl. rewrite <- existsb_eqb_In. by rewrite Et.
  - intros Hfk s [Hs|[<-|[]]]%in_app_or; [by apply wf_session_users0|]. simpl.
    rewrite Hfk in Eu. by apply negb_false_iff in Eu.
Qed.

Lemma create_reset_wf uid t0 now token d :
  db_wf d -> db_wf (create_reset_token fk uid t0 now token d).1.
Proof.
  intros Hw. unfold create_reset_token, sbind, smodify, sget, sput, sfail, sret. cbn [fst].
  match goal with |- context [set_resets d (List.filter ?p _)] =>
    apply (filter_resets_wf p) in Hw; revert Hw;
    generalize (set_resets d (List.filter p (resets d))); clear d; intros d1 Hw end.
  destruct (existsb _ (resets d1)) eqn:Et; [done|].
  destruct (fk && negb (user_exists uid d1)) eqn:Eu; [done|]. cbn [fst].
  destruct Hw. constructor; simpl; try done.
  - apply nodup_snoc; [done|]. simpl. rewrite <- existsb_eqb_In. by rewrite Et.
  - intros Hfk s [Hs|[<-|[]]]%in_app_or; [by apply wf_reset_users0|]. simpl.
    rewrite Hfk in Eu. by apply negb_false_iff in Eu.
Qed.

Lemma exec_wf o d : db_wf d -> db_wf (exec o d).
Proof.
  intros Hw. destruct o; cbn [exec].
  - by apply create_user_wf.
  - by apply update_wf.
  - by apply delete_wf.
  - by apply create_session_wf.
  - by apply filter_sessions_wf.
  - by apply filter_sessions_wf.
  - by apply filter_sessions_wf.
  - by apply create_reset_wf.
  - unfold consume_reset_token. case_match; [by apply filter_resets_wf|done].
Qed.

Lemma run_wf ops d : db_wf d -> db_wf (run ops d).
Proof.
  revert d. induction ops as [|o ops IH]; intros d Hw; [done|]. cbn [run foldl]. by apply IH, exec_wf.
Qed.

Lemma empty_wf : db_wf empty_db.
Proof. constructor; simpl; try constructor; done. Qed.

(** ** Sessions in the tables *)

Lemma nodup_key {A} (f : A -> string) (l : list A) a b :
  NoDup (f <$> l) -> In a l -> In b l -> f a = f b -> a = b.
Proof.
  induction l as [|x l IH]; [done|]. rewrite fmap_cons, NoDup_cons. intros [Hx Hl] Ha Hb He.
  assert (forall c, In c l -> f c ∈ f <$> l) as Hin
    by (intros c Hc; apply list_elem_of_fmap_2; by apply list_elem_of_In).
  destruct Ha as [<-|Ha], Hb as [<-|Hb]; auto; destruct Hx; [rewrite He|rewrite <- He]; auto.
Qed.

(** The row of a session, and an active account. *)
Definition session_at (token uid expires : string) (d : db) : Prop :=
  exists s, In s (sessions d) /\ s_token s = token /\ s_user_id s = uid /\ s_expires_at s = expires.

Definition active_user (uid : string) (d : db) : Prop :=
  exists r, In r (users d) /\ r_id r = uid /\ r_active r = 1.

Definition issued (token : string) (d : db) : Prop := token ∈ s_token <$> sessions d.

Lemma resolve_none token now d : ~ issued token d -> resolve_session token now d = None.
Proof.
  intros Hn. unfold resolve_session.
  destruct (List.filter (live now token) (sessions d)) as [|s l] eqn:E; [done|].
  assert (In s (List.filter (live now token) (sessions d))) as [Hs Hl]%filter_In by (rewrite E; by left).
  unfold live in Hl. bool_prop. destruct Hn. apply list_elem_of_fmap.
  exists s. split; [symmetry; by apply String.eqb_eq|by apply list_elem_of_In].
Qed.

(** The join, row by row. *)
Lemma resolve_iff token now d u :
  db_wf d ->
  resolve_session token now d = Some u <->
  exists s r, In s (sessions d) /\ s_token s = token /\
    String.ltb (to_rfc3339 now) (s_expires_at s) = true /\
    In r (users d) /\ r_id r = s_user_id s /\ r_active r = 1 /\ u = row_to_user now r.
Proof.
  intros Hw. unfold resolve_session. set (l := mbind _ _).
  assert (forall r, r ∈ l <-> exists s, In s (sessions d) /\ s_token s = token /\
    String.ltb (to_rfc3339 now) (s_expires_at s) = true /\
    In r (users d) /\ r_id r = s_user_id s /\ r_active r = 1) as Hl.
  { intros r. unfold l. rewrite list_elem_of_bind. split.
    - intros (s & Hr & Hs). apply list_elem_of_In, filter_In in Hr as [Hr Hj].
      apply list_elem_of_In, filter_In in Hs as [Hs Hv]. unfold live in Hv. bool_prop.
      exists s. repeat split; try done; try (by apply String.eqb_eq).
      symmetry. by apply String.eqb_eq.
    - intros (s & Hs & Ht & He & Hr & Hi & Ha). exists s.
      split; apply list_elem_of_In, filter_In; (split; [done|]).
      + by rewrite Hi, String.eqb_refl, Ha.
      + unfold live. by rewrite Ht, String.eqb_refl. }
  split.
  - intros Hh. destruct l as [|r l'] eqn:El; [done|]. simpl in Hh. injection Hh as <-.
    destruct (proj1 (Hl r)) as (s & Hs); [left|]. exists s, r. naive_solver.
  - intros (s & r & Hs & Ht & He & Hr & Hi & Ha & ->).
    assert (r ∈ l) as Hin by (apply Hl; by exists s).
    destruct l as [|r' l'] eqn:El; [by apply not_elem_of_nil in Hin|]. simpl.
    destruct (proj1 (Hl r')) as (s' & Hs' & Ht' & _ & Hr' & Hi' & _); [left|].
    do 2 f_equal. assert (s' = s) as -> by (apply (nodup_key s_token (sessions d)); [apply Hw|..]; congruence).
    apply (nodup_key r_id (users d)); [apply Hw|..]; congruence.
Qed.

Lemma resolve_live token uid expires now d :
  db_wf d -> session_at token uid expires d -> active_user uid d ->
  (exists u, resolve_session token now d = Some u /\ id u = uid /\ active u = true)
  <-> String.ltb (to_rfc3339 now) expires = true.
Proof.
  intros Hw (s & Hs & Ht & Hu & He) (r & Hr & Hi & Ha). split.
  - intros (u & (s' & r' & Hs' & Ht' & Hl & _)%resolve_iff & _); [|done].
    assert (s' = s) as -> by (apply (nodup_key s_token (sessions d)); [apply Hw|..]; congruence).
    congruence.
  - intros Hl. exists (row_to_user now r). split; [|split; [done|]].
    + apply resolve_iff; [done|]. exists s, r. repeat split; congruence.
    + unfold row_to_user. simpl. by rewrite Ha.
Qed.

Lemma resolve_expired token uid expires now d :
  db_wf d -> session_at token uid expires d ->
  String.ltb (to_rfc3339 now) expires = false -> resolve_session token now d = None.
Proof.
  intros Hw (s & Hs & Ht & Hu & He) Hl. destruct (resolve_session token now d) as [u|] eqn:E; [|done].
  apply resolve_iff in E as (s' & r' & Hs' & Ht' & Hl' & _); [|done].
  assert (s' = s) as -> by (apply (nodup_key s_token (sessions d)); [apply Hw|..]; congruence).
  congruence.
Qed.

(** ** What ends a session *)

(** The operations that remove the row of a session of [uid], whatever its expiry. *)
Definition removes (token uid : string) (o : op) : bool :=
  match o with
  | OpDelete u => fk && String.eqb u uid
  | OpLogout t => String.eqb t token
  | OpRevokePrefix u p => String.eqb u uid && like (p +:+ "%") token
  | OpRevokeOthers u keep => String.eqb u uid && negb (String.eqb token keep)
  | _ => false
  end.

(** Those that end it: removal, the account deleted or disabled, and a later login of
    the account, which drops its sessions that are past their expiry. *)
Definition revokes (token uid expires : string) (o : op) : bool :=
  removes token uid o ||
  match o with
  | OpDelete u => String.eqb u uid
  | OpUpdate u => String.eqb (id u) uid && negb (active u)
  | OpSession u _ t0 _ _ => String.eqb u uid && String.ltb expires (to_rfc3339 t0)
  | _ => false
  end.

Definition issues (token : string) (o : op) : bool :=
  match o with OpSession _ _ _ _ t => String.eqb t token | _ => false end.

Lemma session_at_filter token uid expires p d :
  session_at token uid expires d ->
  (forall s, s_token s = token -> s_user_id s = uid -> s_expires_at s = expires -> p s = true) ->
  session_at token uid expires (set_sessions d (List.filter p (sessions d))).
Proof.
  intros (s & Hs & Ht & Hu & He) Hp. exists s. simpl. split; [|done]. apply filter_In. auto.
Qed.

Lemma active_map (h : user_row -> user_row) uid d :
  (forall r, r_id (h r) = r_id r) -> (forall r, r_id r = uid -> r_active r = 1 -> r_active (h r) = 1) ->
  active_user uid d -> active_user uid (set_users d (h <$> users d)).
Proof.
  intros Hi Ha (r & Hr & Hu & H1). exists (h r). simpl. split; [|rewrite Hi; auto].
  apply list_elem_of_In, list_elem_of_fmap_2. by apply list_elem_of_In.
Qed.

Lemma create_session_ok uid ttl t0 now token d d' r :
  create_session fk uid ttl t0 now token d = (d', Ok r) ->
  r = token /\ session_at token uid (to_rfc3339 (now + hours_ns ttl)) d' /\
  (active_user uid d -> active_user uid d').
Proof.
  unfold create_session, sbind, smodify, sget, sput, sfail, sret. cbn [fst].
  intros Hc. repeat case_hyp; simplify_eq. split; [done|]. split.
  - eexists. simpl. split; [apply in_or_app; right; by left|]. done.
  - intros Ha. apply (active_map _ _ (set_sessions d _)); [..|done].
    + intros x. by destruct (String.eqb (r_id x) uid).
    + intros x. by destruct (String.eqb (r_id x) uid).
Qed.

(** The other sessions after a login. *)
Lemma create_session_keeps u ttl t0 now t token uid expires d :
  String.eqb u uid && String.ltb expires (to_rfc3339 t0) = false ->
  session_at token uid expires d /\ active_user uid d ->
  session_at token uid expires (create_session fk u ttl t0 now t d).1 /\
  active_user uid (create_session fk u ttl t0 now t d).1.
Proof.
  intros Hr [Hs Ha]. unfold create_session, sbind, smodify, sget, sput, sfail, sret. cbn [fst].
  assert (session_at token uid expires (set_sessions d (List.filter
    (fun s => negb (String.eqb (s_user_id s) u && String.ltb (s_expires_at s) (to_rfc3339 t0)))
    (sessions d)))) as Hf.
  { apply session_at_filter; [done|]. intros s _ -> ->. rewrite String.eqb_sym. by rewrite Hr. }
  case_goal; [done|]. case_goal; [done|]. split.
  - destruct Hf as (s & Hs' & Hx). exists s. simpl in *. split; [|done]. apply in_or_app. by left.
  - apply (active_map _ _ (set_sessions d _)); [..|done]; intros x;
      by destruct (String.eqb (r_id x) u).
Qed.

Lemma exec_keeps o token uid expires d :
  db_wf d -> revokes token uid expires o = false ->
  session_at token uid expires d /\ active_user uid d ->
  session_at token uid expires (exec o d) /\ active_user uid (exec o d).
Proof.
  intros Hw Hr [Hs Ha]. destruct o as [u|u|u|u ttl t0 now t|t|u p|u k|u t0 now t|t now];
    unfold revokes, removes in Hr; cbn [orb exec] in *.
  - unfold create. case_match; [done|]. split; [done|].
    destruct Ha as (r & Hr' & ?). exists r. simpl. split; [|done]. apply in_or_app. by left.
  - unfold update. cbn zeta. case_match; [done|]. cbn [fst]. split; [done|].
    apply active_map; [..|done].
    + intros r. by destruct (String.eqb (r_id r) (id u)).
    + intros r Hi H1. destruct (String.eqb_spec (r_id r) (id u)) as [E|]; [|done].
      rewrite <- E, Hi, String.eqb_refl in Hr. simpl in *. by destruct (active u).
  - rewrite orb_false_iff in Hr. destruct Hr as [_ Hr]. unfold delete. cbn [fst].
    assert (active_user uid (set_users d (List.filter (fun r => negb (String.eqb (r_id r) u)) (users d)))) as Hu.
    { destruct Ha as (r & Hr' & Hi & H1). exists r. split; [|done]. apply filter_In.
      split; [done|]. by rewrite Hi, String.eqb_sym, Hr. }
    destruct fk; [|done]. split; [|done].
    destruct Hs as (s & Hs & Ht & Hi & He). exists s. simpl. split; [|done]. apply filter_In.
    split; [done|]. by rewrite Hi, String.eqb_sym, Hr.
  - by apply create_session_keeps.
  - rewrite orb_false_r in Hr. split; [|done]. apply session_at_filter; [done|].
    intros s -> _ _. by rewrite String.eqb_sym, Hr.
  - rewrite orb_false_r in Hr. split; [|done]. apply session_at_filter; [done|].
    intros s -> -> _. by rewrite (String.eqb_sym uid), Hr.
  - rewrite orb_false_r in Hr. split; [|done]. apply session_at_filter; [done|].
    intros s -> -> _. by rewrite (String.eqb_sym uid), Hr.
  - unfold create_reset_token, sbind, smodify, sget, sput, sfail, sret. cbn [fst].
    repeat case_goal; done.
  - unfold consume_reset_token. by case_match.
Qed.

Lemma run_keeps ops token uid expires d :
  db_wf d -> Forall (fun o => revokes token uid expires o = false) ops ->
  session_at token uid expires d -> active_user uid d ->
  session_at token uid expires (run ops d) /\ active_user uid (run ops d).
Proof.
  intros Hw Hf Hs Ha. revert d Hw Hs Ha. induction Hf as [|o ops Ho _ IH]; intros d Hw Hs Ha;
    [done|]. cbn [run foldl]. destruct (exec_keeps o token uid expires d) as [? ?]; try done.
  apply IH; [by apply exec_wf|done|done].
Qed.

Lemma exec_not_issued o token d :
  issues token o = false -> ~ issued token d -> ~ issued token (exec o d).
Proof.
  unfold issued. intros Hi Hn.
  assert (forall p, token ∉ s_token <$> List.filter p (sessions d)) as Hf.
  { intros p (s & Ht & Hs)%list_elem_of_fmap. apply Hn, list_elem_of_fmap. exists s.
    split; [done|]. apply list_elem_of_In in Hs. apply filter_In in Hs as [Hs _].
    by apply list_elem_of_In. }
  destruct o as [u|u|u|u ttl t0 now t|t|u p|u k|u t0 now t|t now]; cbn [exec]; try (apply Hf).
  - unfold create. by case_match.
  - unfold update. cbn zeta. by case_match.
  - unfold delete. cbn [fst]. destruct fk; [apply Hf|done].
  - unfold create_session, sbind, smodify, sget, sput, sfail, sret. cbn [fst].
    do 2 (case_goal; [apply Hf|]). simpl. rewrite fmap_app. simpl.
    intros [Hin| ->%list_elem_of_singleton]%elem_of_app; [by apply (Hf _ Hin)|].
    simpl in Hi. by rewrite String.eqb_refl in Hi.
  - unfold create_reset_token, sbind, smodify, sget, sput, sfail, sret. cbn [fst].
    repeat case_goal; done.
  - unfold consume_reset_token. by case_match.
Qed.

Lemma run_not_issued ops token d :
  Forall (fun o => issues token o = false) ops -> ~ issued token d -> ~ issued token (run ops d).
Proof.
  intros Hf. revert d. induction Hf as [|o ops Ho _ IH]; intros d Hn; [done|].
  cbn [run foldl]. by apply IH, exec_not_issued.
Qed.

Lemma removes_gone o token uid expires d :
  db_wf d -> session_at token uid expires d -> removes token uid o = true ->
  ~ issued token (exec o d).
Proof.
  intros Hw (s & Hs & Ht & Hu & _) Hr.
  assert (forall p, p s = false -> token ∉ s_token <$> List.filter p (sessions d)) as Hf.
  { intros p Hp (s' & Ht' & Hs')%list_elem_of_fmap. apply list_elem_of_In, filter_In in Hs' as [Hs' Hp'].
    assert (s' = s) as -> by (apply (nodup_key s_token (sessions d)); [apply Hw|..]; congruence).
    congruence. }
  unfold issued. destruct o; cbn [removes exec] in *; try done.
  - unfold delete. destruct fk; [|done]. simpl in *. apply Hf.
    apply String.eqb_eq in Hr as ->. by rewrite Hu, String.eqb_refl.
  - apply Hf. apply String.eqb_eq in Hr as ->. by rewrite Ht, String.eqb_refl.
  - apply Hf. bool_prop. match goal with H : String.eqb _ _ = true |- _ => apply String.eqb_eq in H as -> end.
    rewrite Hu, Ht, String.eqb_refl. by apply negb_false_iff.
  - apply Hf. bool_prop. match goal with H : String.eqb _ uid = true |- _ => apply String.eqb_eq in H as -> end.
    rewrite Hu, Ht, String.eqb_refl. apply negb_false_iff. simpl. by apply negb_true_iff.
Qed.

(** ** Reset tokens *)

Definition reissues (token : string) (o : op) : bool :=
  match o with OpResetToken _ _ _ t => String.eqb t token | _ => false end.

Lemma exec_not_reset o token d :
  reissues token o = false -> token ∉ p_token <$> resets d -> token ∉ p_token <$> resets (exec o d).
Proof.
  intros Hi Hn.
  assert (forall p, token ∉ p_token <$> List.filter p (resets d)) as Hf.
  { intros p (s & Ht & Hs)%list_elem_of_fmap. apply Hn, list_elem_of_fmap. exists s.
    split; [done|]. apply list_elem_of_In in Hs. apply filter_In in Hs as [Hs _].
    by apply list_elem_of_In. }
  destruct o as [u|u|u|u ttl t0 now t|t|u p|u k|u t0 now t|t now]; cbn [exec]; try done.
  - unfold create. by case_match.
  - unfold update. cbn zeta. by case_match.
  - unfold delete. cbn [fst]. destruct fk; [apply Hf|done].
  - unfold create_session, sbind, smodify, sget, sput, sfail, sret. cbn [fst].
    repeat case_goal; done.
  - unfold create_reset_token, sbind, smodify, sget, sput, sfail, sret. cbn [fst].
    do 2 (case_goal; [apply Hf|]). simpl. rewrite fmap_app. simpl.
    intros [Hin| ->%list_elem_of_singleton]%elem_of_app; [by apply (Hf _ Hin)|].
    simpl in Hi. by rewrite String.eqb_refl in Hi.
  - unfold consume_reset_token. case_match; [apply Hf|done].
Qed.

Lemma consume_absent token now d :
  token ∉ p_token <$> resets d -> consume_reset_token token now d = (d, Ok None).
Proof.
  intros Hn. unfold consume_reset_token. destruct (List.find _ _) as [p|] eqn:E; [|done].
  apply find_some in E as [Hp Hl]. bool_prop. destruct Hn. apply list_elem_of_fmap. exists p.
  split; [symmetry; by apply String.eqb_eq|by apply list_elem_of_In].
Qed.

Lemma consume_gone token now d d' uid :
  consume_reset_token token now d = (d', Ok (Some uid)) -> token ∉ p_token <$> resets d'.
Proof.
  unfold consume_reset_token. intros Hc. case_match; simplify_eq. simpl.
  intros (p & Hp & Hin)%list_elem_of_fmap. apply list_elem_of_In, filter_In in Hin as [_ Hin].
  by rewrite Hp, String.eqb_refl in Hin.
Qed.

Lemma run_not_reset ops token d :
  Forall (fun o => reissues token o = false) ops ->
  token ∉ p_token <$> resets d -> token ∉ p_token <$> resets (run ops d).
Proof.
  intros Hf. revert d. induction Hf as [|o ops Ho _ IH]; intros d Hn; [done|].
  cbn [run foldl]. by apply IH, exec_not_reset.
Qed.

Lemma create_reset_ok uid t0 now token d d' r t :
  create_reset_token fk uid t0 now token d = (d', Ok r) ->
  (consume_reset_token token t d').2
  = Ok (if String.ltb (to_rfc3339 t) (to_rfc3339 (now + minutes_ns 30)) then Some uid else None).
Proof.
  unfold create_reset_token, sbind, smodify, sget, sput, sfail, sret. cbn [fst].
  intros Hc. case_hyp; [done|]. rename Em into Ex. case_hyp; [done|]. simplify_eq.
  unfold consume_reset_token. simpl.
  match goal with |- context [List.find ?p (?l ++ ?r)] =>
    assert (List.find p (l ++ r) = List.find p r) as -> end.
  { revert Ex. cbn [resets set_resets]. generalize (List.filter
      (fun p => negb (String.ltb (p_expires_at p) (to_rfc3339 t0))) (resets d)).
    intros l. induction l as [|x l IH]; [done|]. cbn [existsb app List.find].
    intros [Hx Hl]%orb_false_iff. rewrite Hx. cbn [andb]. by apply IH. }
  simpl. rewrite String.eqb_refl. cbn [andb]. by destruct (String.ltb _ _).
Qed.

(** ** Properties *)

(** after any sequence of operations, failed ones included, the tables satisfy the
    schema: ids, usernames, emails, session tokens and reset tokens are unique, and
    with foreign keys enforced every session and reset token is of an account. *)
Theorem constraints_hold ops : db_wf (run ops empty_db).
Proof. apply run_wf, empty_wf. Qed.

(** a session that a login of an active account created resolves to that account
    until it expires, through any operations that do not end it (logins and changes
    of other accounts, password changes, resets), and resolves to nothing from the
    instant of its expiry on. *)
Theorem session_lifecycle uid ttl t0 now token d d' ops t :
  db_wf d -> active_user uid d ->
  create_session fk uid ttl t0 now token d = (d', Ok token) ->
  Forall (fun o => revokes token uid (to_rfc3339 (now + hours_ns ttl)) o = false) ops ->
  in_era t -> in_era (now + hours_ns ttl) ->
  if t <? now + hours_ns ttl
  then exists u, resolve_session token t (run ops d') = Some u /\ id u = uid /\ active u = true
  else resolve_session token t (run ops d') = None.
Proof.
  intros Hw Ha Hc Hf Ht He.
  assert (db_wf d') as Hw' by (replace d' with (exec (OpSession uid ttl t0 now token) d);
    [by apply exec_wf|cbn [exec]; by rewrite Hc]).
  apply create_session_ok in Hc as (_ & Hs & Hu).
  destruct (run_keeps ops token uid _ d' Hw' Hf Hs (Hu Ha)) as [Hs' Ha'].
  pose proof (run_wf ops d' Hw') as Hr. rewrite <- rfc3339_ltb by done. case_match.
  - by eapply resolve_live.
  - by eapply resolve_expired.
Qed.

(** once a logout, a revocation by prefix, a revocation of the other sessions, or
    (with foreign keys) the deletion of the account removed a session, its token
    resolves to nothing, at any time, after any further operations but a login that
    draws the same token. *)
Theorem revoked_session_dead token uid expires o ops t d :
  db_wf d -> session_at token uid expires d -> removes token uid o = true ->
  Forall (fun o => issues token o = false) ops ->
  resolve_session token t (run (o :: ops) d) = None.
Proof.
  intros Hw Hs Hr Hf. apply resolve_none. cbn [run foldl].
  apply (run_not_issued ops token (exec o d) Hf). by eapply removes_gone.
Qed.

(** a reset token gives its account when it is consumed within 30 minutes and
    nothing later; and once consumed it gives nothing again, at any time, after any
    operations but one that draws the same token. *)
Theorem reset_token_single_use uid t0 now token d d1 r t d2 v ops t' :
  create_reset_token fk uid t0 now token d = (d1, Ok r) ->
  in_era t -> in_era (now + minutes_ns 30) ->
  consume_reset_token token t d1 = (d2, Ok v) ->
  Forall (fun o => reissues token o = false) ops ->
  v = (if t <? now + minutes_ns 30 then Some uid else None) /\
  (v = Some uid -> consume_reset_token token t' (run ops d2) = (run ops d2, Ok None)).
Proof.
  intros Hc Ht He Hv Hf. apply (create_reset_ok _ _ _ _ _ _ _ t) in Hc.
  rewrite Hv, rfc3339_ltb in Hc by done. injection Hc as Hc. split; [done|]. intros ->.
  apply consume_absent, run_not_reset; [done|]. by eapply consume_gone.
Qed.

End runs.

End UserDb.

(** ** Concrete instances and witnesses *)

Module UserDemo.
Import Common.User UserDb.

(** Instants as 68 binary digits, the most significant first. *)
Fixpoint digits (n : nat) (z : Z) : string :=
  match n with
  | O => EmptyString
  | S n => if z <? 2 ^ Z.of_nat n then String "0" (digits n z)
           else String "1" (digits n (z - 2 ^ Z.of_nat n))
  end.

Fixpoint undigits (n : nat) (s : string) : option Z :=
  match n, s with
  | O, EmptyString => Some 0
  | S n, String c s =>
    if Ascii.eqb c "0" then undigits n s
    else if Ascii.eqb c "1" then Z.add (2 ^ Z.of_nat n) <$> undigits n s else None
  | _, _ => None
  end.

Lemma undigits_digits n z : 0 <= z < 2 ^ Z.of_nat n -> undigits n (digits n z) = Some z.
Proof.
  revert z. induction n as [|n IH]; intros z Hz; cbn [digits undigits].
  { change (2 ^ Z.of_nat 0) with 1 in Hz. f_equal. lia. }
  rewrite Nat2Z.inj_succ, Z.pow_succ_r in Hz by lia.
  destruct (Z.ltb_spec z (2 ^ Z.of_nat n)); cbn [Ascii.eqb Bool.eqb undigits].
  - apply IH. lia.
  - rewrite IH by lia. simpl. f_equal. lia.
Qed.

Lemma digits_ltb n a b :
  0 <= a < 2 ^ Z.of_nat n -> 0 <= b < 2 ^ Z.of_nat n ->
  String.ltb (digits n a) (digits n b) = (a <? b).
Proof.
  unfold String.ltb. revert a b. induction n as [|n IH]; intros a b Ha Hb; cbn [digits].
  { change (2 ^ Z.of_nat 0) with 1 in *. simpl. symmetry. apply Z.ltb_ge. lia. }
  rewrite Nat2Z.inj_succ, Z.pow_succ_r in * by lia.
  destruct (Z.ltb_spec a (2 ^ Z.of_nat n)), (Z.ltb_spec b (2 ^ Z.of_nat n)); simpl String.compare.
  - apply IH; lia.
  - symmetry. apply Z.ltb_lt. lia.
  - symmetry. apply Z.ltb_ge. lia.
  - rewrite IH by lia. apply eq_true_iff_eq. rewrite !Z.ltb_lt. lia.
Qed.

Lemma era_digits t : in_era t -> 0 <= t < 2 ^ Z.of_nat 68.
Proof. unfold in_era, ns_per_s. change (2 ^ Z.of_nat 68) with 295147905179352825856. lia. Qed.

Lemma digits_chars n z : string_forall time_char (digits n z) = true.
Proof. revert z. induction n as [|n IH]; intros z; [done|]. cbn [digits]. case_match; exact (IH _). Qed.

#[export] Instance toy_rfc3339 : Rfc3339 := {|
  to_rfc3339 := digits 68;
  parse_rfc3339 := undigits 68;
  parse_to_rfc3339 t Ht := undigits_digits 68 t (era_digits t Ht);
  rfc3339_ltb a b Ha Hb := digits_ltb 68 a b (era_digits a Ha) (era_digits b Hb);
  rfc3339_chars := digits_chars 68;
|}.

#[export] Program Instance toy_password : PasswordHash := {|
  argon2_hash salt pw := pw;
  argon2_verify pw h := Some (String.eqb pw h);
|}.
Next Obligation. intros. simpl. by rewrite String.eqb_refl. Qed.

Definition jane : User := {|
  id := "u-1"; username := "jane"; email := Some "jane@example.test"; password_hash := Some "pw";
  role := Operator; provider := Local; provider_sub := None; active := true;
  created_at := 5; last_login := None |}.

Definition d0 : db := run true [OpCreate jane] empty_db.

Lemma d0_wf : db_wf true d0.
Proof. apply run_wf, empty_wf. Qed.

Lemma d0_active : active_user "u-1" d0.
Proof. eexists. split; [by left|]. by vm_compute. Qed.

Definition d1 : db := (create_session true "u-1" 8 100 100 "tok-1" d0).1.

Lemma d1_created : create_session true "u-1" 8 100 100 "tok-1" d0 = (d1, Ok "tok-1").
Proof. by vm_compute. Qed.

Lemma session_lifecycle_witness :
  if 1000 <? 100 + hours_ns 8
  then exists u, resolve_session "tok-1" 1000 (run true [OpRevokeOthers "u-1" "tok-1"; OpUpdate jane] d1)
                 = Some u /\ id u = "u-1" /\ active u = true
  else resolve_session "tok-1" 1000 (run true [OpRevokeOthers "u-1" "tok-1"; OpUpdate jane] d1) = None.
Proof.
  apply (session_lifecycle true "u-1" 8 100 100 "tok-1" d0 d1 [OpRevokeOthers "u-1" "tok-1"; OpUpdate jane] 1000).
  - exact d0_wf.
  - exact d0_active.
  - exact d1_created.
  - repeat constructor.
  - unfold in_era, ns_per_s. lia.
  - unfold in_era, hours_ns, ns_per_s. lia.
Defined.

Lemma d1_wf : db_wf true d1.
Proof.
  replace d1 with (run true [OpSession "u-1" 8 100 100 "tok-1"] d0) by (by vm_compute).
  apply run_wf, d0_wf.
Qed.

Lemma revoked_session_dead_witness :
  resolve_session "tok-1" 200 (run true [OpRevokePrefix "u-1" "tok"; OpUpdate jane] d1) = None.
Proof.
  apply (revoked_session_dead true "tok-1" "u-1" (to_rfc3339 (100 + hours_ns 8))
           (OpRevokePrefix "u-1" "tok") [OpUpdate jane] 200 d1).
  - exact d1_wf.
  - eexists. split; [by left|]. by vm_compute.
  - by vm_compute.
  - repeat constructor.
Defined.

Definition r1 : db := (create_reset_token true "u-1" 100 100 "rst" d0).1.
Definition r2 : db := (consume_reset_token "rst" 200 r1).1.

Lemma reset_token_single_use_witness :
  Some "u-1" = (if 200 <? 100 + minutes_ns 30 then Some "u-1" else None) /\
  (Some "u-1" = Some "u-1" ->
   consume_reset_token "rst" 300 (run true [OpUpdate jane] r2) = (run true [OpUpdate jane] r2, Ok None)).
Proof.
  apply (reset_token_single_use true "u-1" 100 100 "rst" d0 r1 "rst" 200 r2 (Some "u-1") [OpUpdate jane] 300).
  - by vm_compute.
  - unfold in_era, ns_per_s. lia.
  - unfold in_era, minutes_ns, ns_per_s. lia.
  - by vm_compute.
  - repeat constructor.
Defined.

End UserDemo.
