(* ===== verification/Exports.v ===== *)
(** * Compliance exports of the audit log

    Models [maranode-audit/src/export.rs]: the entries of the active log that a filter
    wants, and the GDPR, HIPAA, SOC 2, ISO 27001, CEF and LEEF texts of them. [Csv] has
    the quoting of a cell and a reader of the comma-separated form, as a spreadsheet
    reads it. *)

From Stdlib Require Import ZArith Lia Ascii String.
From S2P Require Import Prelude Json Crypto Common Events Entry Fs AuditRotate AuditLog UserDb.
Import Events Entry.
Open Scope string_scope.
Open Scope list_scope.
Open Scope Z_scope.

(** ** Cells *)
Module Csv.

Definition csv_escape (s : string) : string :=
  if has_char "," s || has_char QUOTE s || has_char LF s
  then quote +:+ replace_char QUOTE (quote +:+ quote) s +:+ quote else s.

(** The reader: at the start of a cell, in a plain cell, in a quoted cell, after a quote
    in a quoted cell. Records end with a line feed. *)
Inductive mode := Start | Plain | Quoted | Closed.

Fixpoint read_cells (s : string) (m : mode) (cell : string) (row : list string) : option (list (list string)) :=
  match s with
  | EmptyString =>
    match m, row with
    | Start, [] => Some []
    | Quoted, _ => None
    | _, _ => Some [row ++ [cell]]
    end
  | String c r =>
    if Ascii.eqb c QUOTE then
      match m with
      | Start => read_cells r Quoted EmptyString row
      | Plain => None
      | Quoted => read_cells r Closed cell row
      | Closed => read_cells r Quoted (cell +:+ quote) row
      end
    else
      match m with
      | Quoted => read_cells r Quoted (cell +:+ String c EmptyString) row
      | _ =>
        if Ascii.eqb c "," then read_cells r Start EmptyString (row ++ [cell]) else
        if Ascii.eqb c LF then cons (row ++ [cell]) <$> read_cells r Start EmptyString [] else
        match m with
        | Closed => None
        | _ => read_cells r Plain (cell +:+ String c EmptyString) row
        end
      end
  end.

Definition read_csv (s : string) : option (list (list string)) := read_cells s Start EmptyString [].

(** What a cell is followed by. *)
Definition after (sep : ascii) (r : string) (row : list string) : option (list (list string)) :=
  if Ascii.eqb sep "," then read_cells r Start EmptyString row else cons row <$> read_cells r Start EmptyString [].

Definition separator (sep : ascii) : Prop := sep = ","%char \/ sep = LF.

Lemma string_snoc_assoc a c r : (a +:+ String c EmptyString) +:+ r = a +:+ String c r.
Proof. apply string_app_assoc. Qed.

Lemma read_quoted s cell sep r row : separator sep ->
  read_cells (replace_char QUOTE (quote +:+ quote) s +:+ quote +:+ String sep r) Quoted cell row
  = after sep r (row ++ [cell +:+ s]).
Proof.
  intros Hs. revert cell. induction s as [|c s IH]; intros cell.
  - rewrite string_app_nil_r. unfold after. destruct Hs as [-> | ->]; reflexivity.
  - cbn [replace_char]. destruct (Ascii.eqb_spec c QUOTE) as [->|Hc].
    + change (read_cells _ Quoted cell row) with
        (read_cells (replace_char QUOTE (quote +:+ quote) s +:+ quote +:+ String sep r) Quoted (cell +:+ quote) row).
      rewrite IH. unfold quote. by rewrite string_snoc_assoc.
    + cbn [String.append read_cells]. apply Ascii.eqb_neq in Hc. rewrite Hc, IH. by rewrite string_snoc_assoc.
Qed.

Lemma read_plain s cell sep r row m : separator sep -> m = Start \/ m = Plain ->
  has_char "," s = false -> has_char QUOTE s = false -> has_char LF s = false ->
  read_cells (s +:+ String sep r) m cell row = after sep r (row ++ [cell +:+ s]).
Proof.
  intros Hs. revert m cell. induction s as [|c s IH]; intros m cell Hm.
  - intros _ _ _. rewrite string_app_nil_r. unfold after. destruct Hs as [-> | ->], Hm as [-> | ->]; reflexivity.
  - cbn [has_char]. intros [H1 H1']%orb_false_iff [H2 H2']%orb_false_iff [H3 H3']%orb_false_iff.
    cbn [String.append read_cells]. rewrite H1, H2, H3.
    destruct Hm as [-> | ->]; rewrite IH by auto; by rewrite string_snoc_assoc.
Qed.

(** One cell, read back as it was. *)
Lemma read_cell s sep r row : separator sep ->
  read_cells (csv_escape s +:+ String sep r) Start EmptyString row = after sep r (row ++ [s]).
Proof.
  intros Hs. unfold csv_escape. destruct (_ || _ || _) eqn:Hc.
  - rewrite !string_app_assoc. change (quote +:+ ?x) with (String QUOTE x) at 1.
    cbn [read_cells]. by rewrite Ascii.eqb_refl, read_quoted.
  - apply orb_false_iff in Hc as [[H1 H2]%orb_false_iff H3]. by apply (read_plain s EmptyString); auto.
Qed.

(** A record: the cells joined by commas, and a line feed. *)
Definition csv_line (cells : list string) : string := join "," (csv_escape <$> cells) +:+ nl.

Lemma read_line cells r row : cells <> [] ->
  read_cells (csv_line cells +:+ r) Start EmptyString row = cons (row ++ cells) <$> read_cells r Start EmptyString [].
Proof.
  unfold csv_line. intros Hne. revert row. induction cells as [|c cells IH]; intros row; [done|].
  destruct cells as [|d cells].
  - cbn. rewrite string_app_assoc. change (nl +:+ r) with (String LF r). rewrite read_cell by (by right). done.
  - rewrite !fmap_cons, join_cons, <- fmap_cons, !string_app_assoc.
    change ("," +:+ ?x) with (String ","%char x). rewrite read_cell by (by left). unfold after. cbn [Ascii.eqb].
    rewrite <- string_app_assoc. etrans; [apply (IH ltac:(done) (row ++ [c]))|]. by rewrite <- app_assoc.
Qed.

Definition csv_text (rows : list (list string)) : string := String.concat EmptyString (csv_line <$> rows).

Lemma read_text rows : Forall (fun r => r <> []) rows -> read_csv (csv_text rows) = Some rows.
Proof.
  unfold read_csv, csv_text. induction 1 as [|r rows Hr _ IH]; [done|].
  rewrite fmap_cons, concat_cons, read_line by done. by rewrite IH.
Qed.

Lemma escape_plain s (f : ascii -> bool) : f ","%char = false -> f QUOTE = false -> f LF = false ->
  string_forall f s = true -> csv_escape s = s.
Proof. intros H1 H2 H3 Hs. unfold csv_escape. by rewrite !(has_char_forall f) by done. Qed.

End Csv.

Module Exports.
Import Csv.

Record ExportFilter := { workspace : option string; from_ : option Z; to_ : option Z }.

Definition wanted (flt : ExportFilter) (e : AuditEntry) : bool :=
  match workspace flt with Some ws => String.eqb (actor e) ws | None => true end &&
  match from_ flt with Some t => negb (ts e <? t) | None => true end &&
  match to_ flt with Some t => negb (t <? ts e) | None => true end.

Section export.
Context `{!JsonText, !TimeText, !Rfc3339}.

(** [read_recent] with [usize::MAX]: no vector is longer. *)
Definition read_all (f : fs) (path : string) : result audit_err (list AuditEntry) :=
  if negb (exists_ f path) then Ok [] else
  let? content := map_err Io (read_to_string f path) in
  Ok (entries_of content).

Lemma read_all_recent f path es limit : read_all f path = Ok es -> (length es <= limit)%nat ->
  Log.read_recent f path limit = Ok es.
Proof.
  unfold read_all, Log.read_recent. case_match; [by intros [= <-]|].
  destruct (map_err _ _) as [x|]; cbn [rbind]; [|done]. intros [= <-] Hl. by replace (Nat.ltb _ _) with false by (symmetry; apply Nat.ltb_ge; lia).
Qed.

Definition load_entries (f : fs) (log_path : string) (flt : ExportFilter) : result audit_err (list AuditEntry) :=
  let? all := read_all f log_path in Ok (List.filter (wanted flt) all).

(** [serde_json::to_value] of an event, its kind and the text of its other members. *)
Definition event_value (ev : AuditEvent) : json := to_value (JObj (event_members ev)).

Definition kind_of (ev : json) : string := default "unknown" (as_str (jindex "event" ev)).

Definition detail_of (ev : json) : string :=
  match as_obj ev with
  | Some m => join "; " ((fun kv => kv.1 +:+ "=" +:+ json_print kv.2) <$>
                         List.filter (fun kv => negb (String.eqb kv.1 "event")) m)
  | None => EmptyString
  end.

Definition gdpr_row (e : AuditEntry) : string :=
  let ev := event_value (event e) in
  to_rfc3339 (ts e) +:+ "," +:+ show_u64 (seq e) +:+ "," +:+ csv_escape (actor e) +:+ ","
    +:+ csv_escape (kind_of ev) +:+ "," +:+ csv_escape (detail_of ev) +:+ nl.

Definition export_gdpr (f : fs) (log_path : string) (flt : ExportFilter) : result audit_err string :=
  let? es := load_entries f log_path flt in
  Ok ("timestamp,seq,actor,activity,detail" +:+ nl +:+ String.concat EmptyString (gdpr_row <$> es)).

Definition phi_kind (kind : string) : bool :=
  existsb (String.eqb kind) ["inference_start"; "inference_complete"; "rag_retrieval"; "rag_document_ingested"].

Definition as_u64 (j : json) : option Z := as_uint u64_max j.

Definition labelled (name : string) (j : json) : string :=
  match as_str j with Some s => name +:+ "=" +:+ s | None => EmptyString end.

Definition hipaa_detail (ev : json) : string :=
  let kind := kind_of ev in
  if String.eqb kind "inference_start" then labelled "prompt_sha256" (jindex "prompt_sha256" ev)
  else if String.eqb kind "inference_complete" then
    "tokens_in=" +:+ show_u64 (default 0 (as_u64 (jindex "tokens_in" ev)))
      +:+ " tokens_out=" +:+ show_u64 (default 0 (as_u64 (jindex "tokens_out" ev)))
  else if String.eqb kind "rag_retrieval" then labelled "query_sha256" (jindex "query_sha256" ev)
  else EmptyString.

Definition yes_no (b : bool) : string := if b then "yes" else "no".

Definition hipaa_row (e : AuditEntry) : string :=
  let ev := event_value (event e) in
  to_rfc3339 (ts e) +:+ "," +:+ show_u64 (seq e) +:+ "," +:+ csv_escape (actor e) +:+ ","
    +:+ csv_escape (kind_of ev) +:+ "," +:+ csv_escape (hipaa_detail ev) +:+ ","
    +:+ yes_no (phi_kind (kind_of ev)) +:+ nl.

Definition export_hipaa (f : fs) (log_path : string) (flt : ExportFilter) : result audit_err string :=
  let? es := load_entries f log_path flt in
  Ok ("timestamp,seq,actor,event_type,access_detail,phi_indicator" +:+ nl +:+ String.concat EmptyString (hipaa_row <$> es)).

Definition one_of (kind : string) (l : list string) : bool := existsb (String.eqb kind) l.

Definition soc2_category (kind : string) : string :=
  if one_of kind ["daemon_start"; "daemon_stop"] then "availability"
  else if one_of kind ["isolation_applied"; "config_reloaded"] then "change_management"
  else if one_of kind ["model_imported"; "model_removed"] then "change_management"
  else if one_of kind ["inference_start"; "inference_complete"; "inference_failed"] then "logical_access"
  else if one_of kind ["rag_document_ingested"; "rag_retrieval"] then "logical_access"
  else if String.eqb kind "audit_verified" then "monitoring" else "other".

Definition soc2_row (e : AuditEntry) : string :=
  let ev := event_value (event e) in
  to_rfc3339 (ts e) +:+ "," +:+ show_u64 (seq e) +:+ "," +:+ csv_escape (actor e) +:+ ","
    +:+ soc2_category (kind_of ev) +:+ "," +:+ csv_escape (kind_of ev) +:+ "," +:+ csv_escape (detail_of ev) +:+ nl.

Definition export_soc2 (f : fs) (log_path : string) (flt : ExportFilter) : result audit_err string :=
  let? es := load_entries f log_path flt in
  Ok ("timestamp,seq,actor,category,event_type,detail" +:+ nl +:+ String.concat EmptyString (soc2_row <$> es)).

Definition iso_control (kind : string) : string * string :=
  if one_of kind ["daemon_start"; "daemon_stop"] then ("A.12.1", "operational")
  else if String.eqb kind "isolation_applied" then ("A.13.1", "network_control")
  else if one_of kind ["model_imported"; "model_removed"] then ("A.12.5", "change")
  else if one_of kind ["inference_start"; "inference_complete"] then ("A.9.4", "access")
  else if String.eqb kind "inference_failed" then ("A.9.4", "failure")
  else if one_of kind ["rag_document_ingested"; "rag_retrieval"] then ("A.9.4", "access")
  else if String.eqb kind "config_reloaded" then ("A.12.1", "change")
  else if String.eqb kind "audit_verified" then ("A.12.4", "monitoring") else ("A.12.4", "other").

Definition iso_row (e : AuditEntry) : string :=
  let ev := event_value (event e) in
  let c := iso_control (kind_of ev) in
  to_rfc3339 (ts e) +:+ "," +:+ show_u64 (seq e) +:+ "," +:+ csv_escape (actor e) +:+ ","
    +:+ c.1 +:+ "," +:+ csv_escape (kind_of ev) +:+ "," +:+ c.2 +:+ "," +:+ csv_escape (detail_of ev) +:+ nl.

Definition export_iso27001 (f : fs) (log_path : string) (flt : ExportFilter) : result audit_err string :=
  let? es := load_entries f log_path flt in
  Ok ("timestamp,seq,actor,control,event_type,outcome,detail" +:+ nl +:+ String.concat EmptyString (iso_row <$> es)).

(** The formats of the export route, with the columns and the cells of an entry. *)
Inductive format := Gdpr | Hipaa | Soc2 | Iso27001.

Definition export (fmt : format) : fs -> string -> ExportFilter -> result audit_err string :=
  match fmt with Gdpr => export_gdpr | Hipaa => export_hipaa | Soc2 => export_soc2 | Iso27001 => export_iso27001 end.

Definition columns (fmt : format) : list string :=
  match fmt with
  | Gdpr => ["timestamp"; "seq"; "actor"; "activity"; "detail"]
  | Hipaa => ["timestamp"; "seq"; "actor"; "event_type"; "access_detail"; "phi_indicator"]
  | Soc2 => ["timestamp"; "seq"; "actor"; "category"; "event_type"; "detail"]
  | Iso27001 => ["timestamp"; "seq"; "actor"; "control"; "event_type"; "outcome"; "detail"]
  end.

Definition cells (fmt : format) (e : AuditEntry) : list string :=
  let kind := event_kind (event e) in
  let ev := event_value (event e) in
  [to_rfc3339 (ts e); show_u64 (seq e); actor e] ++
  match fmt with
  | Gdpr => [kind; detail_of ev]
  | Hipaa => [kind; hipaa_detail ev; yes_no (phi_kind kind)]
  | Soc2 => [soc2_category kind; kind; detail_of ev]
  | Iso27001 => [(iso_control kind).1; kind; (iso_control kind).2; detail_of ev]
  end.

Lemma event_kind_read ev : kind_of (event_value ev) = event_kind ev.
Proof.
  destruct ev; try reflexivity;
    repeat match goal with o : option _ |- _ => destruct o end; reflexivity.
Qed.

Lemma time_plain t : csv_escape (to_rfc3339 t) = to_rfc3339 t.
Proof. by apply (escape_plain _ time_char); [..|apply rfc3339_chars]. Qed.

Lemma number_plain n : csv_escape (show_u64 n) = show_u64 n.
Proof. by apply (escape_plain _ (in_range 48 57)); [..|apply show_u64_digits]. Qed.

Lemma category_plain kind : csv_escape (soc2_category kind) = soc2_category kind.
Proof. unfold soc2_category. by repeat case_match. Qed.

Lemma control_plain kind : csv_escape (iso_control kind).1 = (iso_control kind).1 /\
  csv_escape (iso_control kind).2 = (iso_control kind).2.
Proof. unfold iso_control. by repeat case_match. Qed.

Definition row (fmt : format) : AuditEntry -> string :=
  match fmt with Gdpr => gdpr_row | Hipaa => hipaa_row | Soc2 => soc2_row | Iso27001 => iso_row end.

Lemma row_line fmt e : row fmt e = csv_line (cells fmt e).
Proof.
  destruct fmt; cbn [row]; unfold gdpr_row, hipaa_row, soc2_row, iso_row; cbv zeta; rewrite event_kind_read;
    unfold csv_line, cells; cbn [app fmap list_fmap join]; rewrite time_plain, number_plain, ?category_plain.
  all: try (destruct (control_plain (event_kind (event e))) as [-> ->]).
  all: rewrite !string_app_assoc; try done.
  by destruct (phi_kind _).
Qed.

Lemma export_text fmt f path flt :
  export fmt f path flt = rmap (fun es => csv_text (columns fmt :: (cells fmt <$> es))) (load_entries f path flt).
Proof.
  assert (forall es, String.concat EmptyString (row fmt <$> es) = csv_text (cells fmt <$> es)) as Hr.
  { intros es. unfold csv_text. rewrite <- list_fmap_compose. f_equal. apply list_fmap_ext. intros; apply row_line. }
  destruct (load_entries f path flt) as [es|e] eqn:Hl.
  - cbn [rmap]. unfold csv_text. rewrite fmap_cons, concat_cons. fold (csv_text (cells fmt <$> es)). rewrite <- Hr.
    destruct fmt; unfold export, export_gdpr, export_hipaa, export_soc2, export_iso27001; by rewrite Hl.
  - destruct fmt; unfold export, export_gdpr, export_hipaa, export_soc2, export_iso27001; by rewrite Hl.
Qed.

(** Every CSV export reads back as its columns and one record for each entry that the
    filter wants, in the order of the log, with the cells of the entry: no actor, kind
    or detail adds, splits or hides a cell or a record. *)
Theorem exports_read_back fmt f path flt :
  match load_entries f path flt with
  | Ok es => exists text, export fmt f path flt = Ok text /\ read_csv text = Some (columns fmt :: (cells fmt <$> es))
  | Err e => export fmt f path flt = Err e
  end.
Proof.
  rewrite export_text. destruct (load_entries f path flt) as [es|e]; [|done]. eexists. split; [done|].
  apply read_text. constructor; [by destruct fmt|]. apply Forall_fmap, Forall_true. intros e. by destruct fmt.
Qed.

(** *** CEF *)

Definition show_i64 (z : Z) : string := if z <? 0 then "-" +:+ show_u64 (- z) else show_u64 z.

Definition timestamp_millis (t : Z) : Z := t / 1000000.

(** Severity, name and signature of a kind. *)
Definition cef_table : list (string * (Z * string * string)) := [
  ("daemon_start", (2, "Daemon Started", "MRN-001"));
  ("daemon_stop", (2, "Daemon Stopped", "MRN-002"));
  ("isolation_applied", (5, "Isolation Mode Applied", "MRN-010"));
  ("isolation_probe", (5, "Isolation Probe Result", "MRN-011"));
  ("model_imported", (3, "Model Imported", "MRN-020"));
  ("model_removed", (3, "Model Removed", "MRN-021"));
  ("inference_start", (2, "Inference Started", "MRN-030"));
  ("inference_complete", (2, "Inference Completed", "MRN-031"));
  ("inference_failed", (7, "Inference Failed", "MRN-032"));
  ("inference_receipt", (3, "Inference Receipt Issued", "MRN-033"));
  ("rag_document_ingested", (3, "RAG Document Ingested", "MRN-040"));
  ("rag_retrieval", (2, "RAG Retrieval Performed", "MRN-041"));
  ("workspace_shredded", (8, "Workspace Crypto-Shredded", "MRN-050"));
  ("config_reloaded", (3, "Config Reloaded", "MRN-060"));
  ("audit_verified", (2, "Audit Chain Verified", "MRN-070"));
  ("binary_attested", (4, "Binary Attested", "MRN-080"))].

Fixpoint table_find {A} (k : string) (l : list (string * A)) (d : A) : A :=
  match l with [] => d | (k', v) :: r => if String.eqb k k' then v else table_find k r d end.

Definition cef_meta (kind : string) : Z * string * string :=
  table_find kind cef_table (2, "Audit Event", "MRN-000").

Definition cef_val (s : string) : string :=
  replace_char LF "\n" (replace_char "=" "\=" (replace_char BACKSLASH "\\" s)).

Definition named (name : string) (f : string -> string) (j : json) : list string :=
  match as_str j with Some s => [name +:+ "=" +:+ f s] | None => [] end.

Definition inference_kind (kind : string) : bool :=
  one_of kind ["inference_start"; "inference_complete"; "inference_failed"].

Definition cef_extension (ev : json) (act : string) (sq : Z) : string :=
  let kind := kind_of ev in
  let isolated := default true (as_bool (jindex "isolated" ev)) in
  join " " (["act=" +:+ cef_val kind; "src=" +:+ cef_val act; "cn1=" +:+ show_u64 sq; "cn1Label=auditSeq"] ++
    if inference_kind kind then
      named "externalId" cef_val (jindex "request_id" ev) ++
      match as_str (jindex "name" (jindex "model" ev)) with
      | Some m => ["cs1=" +:+ cef_val m; "cs1Label=modelName"] | None => [] end ++
      match as_str (jindex "prompt_sha256" ev) with
      | Some h => ["cs2=" +:+ cef_val h; "cs2Label=promptSha256"] | None => [] end
    else if String.eqb kind "isolation_probe" then
      ["outcome=" +:+ (if isolated then "success" else "failure");
       "cs3=" +:+ cef_val (default EmptyString (as_str (jindex "iptables_hash" ev))); "cs3Label=iptablesHash"]
    else if String.eqb kind "workspace_shredded" then named "fname" cef_val (jindex "slug" ev)
    else if one_of kind ["model_imported"; "model_removed"] then named "fileHash" cef_val (jindex "sha256" ev)
    else []).

(** The record ends with a backslash and the letter n, as the source writes it. *)
Definition cef_row (e : AuditEntry) : string :=
  let ev := event_value (event e) in
  let m := cef_meta (kind_of ev) in
  "CEF:0|Maranode|maranode-daemon|1.0|" +:+ m.2 +:+ "|" +:+ m.1.2 +:+ "|" +:+ show_u64 m.1.1 +:+ "|rt="
    +:+ show_i64 (timestamp_millis (ts e)) +:+ " " +:+ cef_extension ev (actor e) (seq e) +:+ "\n".

Definition export_cef (f : fs) (log_path : string) (flt : ExportFilter) : result audit_err string :=
  let? es := load_entries f log_path flt in Ok (String.concat EmptyString (cef_row <$> es)).

(** *** LEEF *)

Definition leef_table : list (string * string) := [
  ("daemon_start", "DaemonStarted"); ("daemon_stop", "DaemonStopped"); ("isolation_applied", "IsolationApplied");
  ("isolation_probe", "IsolationProbe"); ("model_imported", "ModelImported"); ("model_removed", "ModelRemoved");
  ("inference_start", "InferenceStarted"); ("inference_complete", "InferenceCompleted");
  ("inference_failed", "InferenceFailed"); ("inference_receipt", "InferenceReceipt");
  ("rag_document_ingested", "RagDocIngested"); ("rag_retrieval", "RagRetrieval");
  ("workspace_shredded", "WorkspaceShredded"); ("config_reloaded", "ConfigReloaded");
  ("audit_verified", "AuditVerified"); ("binary_attested", "BinaryAttested")].

Definition leef_event_id (kind : string) : string := table_find kind leef_table "AuditEvent".

Definition leef_val (s : string) : string := replace_char LF " " (replace_char TAB " " s).

Definition counted (name : string) (j : json) : list string :=
  match as_u64 j with Some n => [name +:+ "=" +:+ show_u64 n] | None => [] end.

Definition leef_parts (ev : json) (act : string) (sq t : Z) : list string :=
  let kind := default EmptyString (as_str (jindex "event" ev)) in
  let isolated := default true (as_bool (jindex "isolated" ev)) in
  ["devTime=" +:+ to_rfc3339 t; "usrName=" +:+ leef_val act; "src=maranode"; "auditSeq=" +:+ show_u64 sq;
   "eventType=" +:+ leef_val kind] ++
  if inference_kind kind then
    named "requestId" leef_val (jindex "request_id" ev) ++ named "promptSha256" leef_val (jindex "prompt_sha256" ev) ++
    counted "tokensIn" (jindex "tokens_in" ev) ++ counted "tokensOut" (jindex "tokens_out" ev)
  else if String.eqb kind "isolation_probe" then
    ["isolated=" +:+ (if isolated then "true" else "false"); "outcome=" +:+ (if isolated then "success" else "failure")]
  else if String.eqb kind "workspace_shredded" then named "resourceId" leef_val (jindex "slug" ev)
  else [].

Definition leef_attributes (ev : json) (act : string) (sq t : Z) : string :=
  join (String TAB EmptyString) (leef_parts ev act sq t).

Definition leef_head (kind : string) : string :=
  "LEEF:2.0|Maranode|maranode-daemon|1.0|" +:+ leef_event_id kind +:+ "|".

Definition leef_row (e : AuditEntry) : string :=
  let ev := event_value (event e) in
  leef_head (kind_of ev) +:+ String TAB (leef_attributes ev (actor e) (seq e) (ts e)) +:+ nl.

Definition export_leef (f : fs) (log_path : string) (flt : ExportFilter) : result audit_err string :=
  let? es := load_entries f log_path flt in Ok (String.concat EmptyString (leef_row <$> es)).

(** A character that no value of the records has. *)
Lemma no_char_join c sep l : has_char c sep = false -> Forall (fun s => has_char c s = false) l ->
  has_char c (join sep l) = false.
Proof.
  intros Hs. induction 1 as [|x l Hx _ IH]; [done|]. destruct l; [done|].
  by rewrite join_cons, !has_char_app, Hx, Hs.
Qed.

Lemma no_char_concat c l : Forall (fun s => has_char c s = false) l -> has_char c (String.concat EmptyString l) = false.
Proof. induction 1 as [|x l Hx _ IH]; [done|]. by rewrite concat_cons, has_char_app, Hx. Qed.

Lemma replace_char_none c d by_ s : has_char d by_ = false -> (c = d \/ has_char d s = false) ->
  has_char d (replace_char c by_ s) = false.
Proof.
  intros Hb Hs. induction s as [|x s IH]; [done|]. cbn [replace_char].
  assert (c = d \/ has_char d s = false) as Hs'.
  { destruct Hs as [Hs|Hs]; [by left|right]. by apply orb_false_iff in Hs as [_ Hs]. }
  destruct (Ascii.eqb_spec x c) as [->|Hx]; [by rewrite has_char_app, Hb, IH|].
  cbn [has_char]. rewrite IH, orb_false_r by done. destruct Hs as [<-|Hs]; [by apply Ascii.eqb_neq|].
  by apply orb_false_iff in Hs as [Hs _].
Qed.

Lemma table_find_ind {A} (P : A -> Prop) k l d : P d -> Forall (fun kv => P kv.2) l -> P (table_find k l d).
Proof. intros Hd. induction 1 as [|[k' v] l Hv _ IH]; [done|]. cbn. by case_match. Qed.

Definition plain (c : ascii) (s : string) : Prop := has_char c s = false.

Lemma plain_app c a b : plain c a -> plain c b -> plain c (a +:+ b).
Proof. unfold plain. rewrite has_char_app. by intros -> ->. Qed.

Lemma plain_u64 c n : in_range 48 57 c = false -> plain c (show_u64 n).
Proof. intros Hc. by apply (has_char_forall (in_range 48 57)), show_u64_digits. Qed.

Lemma plain_time c t : time_char c = false -> plain c (to_rfc3339 t).
Proof. intros Hc. by apply (has_char_forall time_char), rfc3339_chars. Qed.

Lemma plain_cef s : plain LF (cef_val s).
Proof. apply replace_char_none; [done|by left]. Qed.

Lemma plain_leef c s : c = LF \/ c = TAB -> plain c (leef_val s).
Proof.
  unfold plain, leef_val. intros [-> | ->]; (apply replace_char_none; [done|]); [by left|right].
  by apply replace_char_none; [|left].
Qed.

Lemma plain_if c (b : bool) x y : plain c x -> plain c y -> plain c (if b then x else y).
Proof. by destruct b. Qed.

Lemma named_plain c name g j : plain c name -> plain c "=" -> (forall s, plain c (g s)) -> Forall (plain c) (named name g j).
Proof. intros. unfold named. case_match; repeat constructor. by repeat apply plain_app. Qed.

Lemma counted_plain c name j : plain c name -> plain c "=" -> in_range 48 57 c = false -> Forall (plain c) (counted name j).
Proof. intros. unfold counted. case_match; repeat constructor. repeat apply plain_app; [done..|by apply plain_u64]. Qed.

(** Closes a goal about the parts of a record. *)
Ltac plain_parts :=
  repeat first [ apply Forall_cons_2 | apply Forall_nil_2 | apply Forall_app_2 | apply named_plain | apply counted_plain
               | apply plain_cef | apply plain_u64 | apply plain_time | apply plain_leef | apply plain_app | apply plain_if
               | progress intros | case_match | reflexivity | assumption ].

Lemma plain_cef_row e : plain LF (cef_row e).
Proof.
  unfold cef_row. assert (plain LF (cef_meta (kind_of (event_value (event e)))).1.2 /\
    plain LF (cef_meta (kind_of (event_value (event e)))).2) as [Hnm Hsg].
  { split; apply (table_find_ind (fun v => plain LF v.1.2 /\ plain LF v.2)); by repeat constructor. }
  assert (plain LF (show_i64 (timestamp_millis (ts e)))) as Htm by (unfold show_i64; plain_parts).
  assert (plain LF (cef_extension (event_value (event e)) (actor e) (seq e))) as Hex
    by (apply no_char_join; [done|]; plain_parts).
  revert Htm Hex. cbv zeta. generalize (cef_extension (event_value (event e)) (actor e) (seq e)), (show_i64 (timestamp_millis (ts e))).
  intros. repeat apply plain_app; try done; by apply plain_u64.
Qed.

(** A CEF export is one line, however many records it has: they are not separated. *)
Theorem cef_one_line f path flt :
  match export_cef f path flt with Ok text => has_char LF text = false | Err e => load_entries f path flt = Err e end.
Proof.
  unfold export_cef. destruct (load_entries f path flt) as [es|e]; cbn [rbind]; [|done].
  apply no_char_concat, Forall_fmap, Forall_true. intros e. apply plain_cef_row.
Qed.

Lemma leef_parts_plain c ev act sq t : c = LF \/ c = TAB -> Forall (plain c) (leef_parts ev act sq t).
Proof. intros [-> | ->]; unfold leef_parts; cbv zeta; plain_parts; auto. Qed.

Definition leef_record (e : AuditEntry) : list string :=
  leef_head (event_kind (event e)) :: leef_parts (event_value (event e)) (actor e) (seq e) (ts e).

Lemma leef_head_plain c kind : c = LF \/ c = TAB -> plain c (leef_head kind).
Proof.
  intros Hc. unfold leef_head. repeat apply plain_app; [by destruct Hc as [-> | ->]| |by destruct Hc as [-> | ->]].
  apply (table_find_ind (plain c)); destruct Hc as [-> | ->]; by repeat constructor.
Qed.

(** A LEEF export has one line for each entry, whose head and attributes are the pieces
    between the tabs: no value adds a record or an attribute. *)
Theorem leef_records f path flt :
  match load_entries f path flt with
  | Ok es => exists text, export_leef f path flt = Ok text /\
      split_char LF text = (join (String TAB EmptyString) <$> (leef_record <$> es)) ++ [EmptyString] /\
      Forall (fun e => split_char TAB (join (String TAB EmptyString) (leef_record e)) = leef_record e) es
  | Err e => export_leef f path flt = Err e
  end.
Proof.
  unfold export_leef. destruct (load_entries f path flt) as [es|e]; [|done]. eexists. split; [done|].
  assert (forall c e, c = LF \/ c = TAB -> Forall (plain c) (leef_record e)) as Hp.
  { intros c e Hc. constructor; [by apply leef_head_plain|by apply leef_parts_plain]. }
  split.
  - induction es as [|e es IH]; [done|]. rewrite !fmap_cons, concat_cons.
    assert (leef_row e = join (String TAB EmptyString) (leef_record e) +:+ nl) as ->.
    { unfold leef_row. rewrite event_kind_read. cbv zeta. rewrite <- string_app_assoc. f_equal. }
    rewrite string_app_assoc. change (nl +:+ ?x) with (String LF x).
    rewrite split_char_app; [by rewrite IH|]. apply no_char_join; [done|]. apply Hp. by left.
  - apply Forall_true. intros e. apply split_join; [done|]. apply Hp. by right.
Qed.

End export.
End Exports.
