(* ===== verification/Auth.v ===== *)
(** * Authentication, sessions and accounts of the API

    Models [maranode-api/src/user_ctx.rs], [routes/users.rs], [routes/reset.rs] and
    the address and rate functions of [state.rs]. A handler is a computation over
    the server's state that may fail with a status (the message is left out); its
    extractors run first, as axum runs them. The clock and the random tokens are
    arguments. Header values are texts: one that [to_str] refuses is an absent one. *)

From Stdlib Require Import ZArith Lia Ascii String.
From S2P Require Import Prelude Common Crypto UserDb.
Open Scope Z_scope.

Module Auth.
Import Common.User UserDb.UserDb.

Inductive api_error :=
| NotFound | BadRequest | Internal | NotImplemented | Forbidden | ServiceUnavailable | Unauthorized
| Conflict | RateLimited.

#[export] Instance api_error_eq_dec : EqDecision api_error.
Proof. solve_decision. Defined.

Record headers := {
  authorization : option string;
  x_forwarded_for : option string;
  x_real_ip : option string;
}.

Record server := {
  user_db : db;
  admin_key : option string;
  session_hours : Z;
  smtp : bool;
  auth_ip_limiter : gmap string (Z * Z);
}.

Definition set_db (s : server) (d : db) : server :=
  {| user_db := d; admin_key := admin_key s; session_hours := session_hours s; smtp := smtp s;
     auth_ip_limiter := auth_ip_limiter s |}.
Definition set_limiter (s : server) (m : gmap string (Z * Z)) : server :=
  {| user_db := user_db s; admin_key := admin_key s; session_hours := session_hours s;
     smtp := smtp s; auth_ip_limiter := m |}.

(** A statement on the user database, under its lock. *)
Definition on_db {A} (err : api_error) (m : SE db db_err A) : SE server api_error A :=
  fun s => let r := m (user_db s) in (set_db s r.1, map_err (fun _ => err) r.2).

Definition ask {A} (f : db -> A) : SE server api_error A := fun s => (s, Ok (f (user_db s))).

(** [str::trim] on the ASCII text of a header. *)
Definition space (c : ascii) : bool := in_range 9 13 c || (code c =? 32).
Fixpoint trim_start (s : string) : string :=
  match s with
  | EmptyString => EmptyString
  | String c r => if space c then trim_start r else s
  end.
Fixpoint trim_end (s : string) : string :=
  match s with
  | EmptyString => EmptyString
  | String c r =>
    match trim_end r with
    | EmptyString => if space c then EmptyString else String c EmptyString
    | r => String c r
    end
  end.
Definition trim (s : string) : string := trim_end (trim_start s).

Fixpoint strip_prefix (p s : string) : option string :=
  match p, s with
  | EmptyString, _ => Some s
  | String a p, String b s => if Ascii.eqb a b then strip_prefix p s else None
  | _, EmptyString => None
  end.

(** The token as [logout] and the session routes read it, and trimmed and not empty,
    as the extractor does. *)
Definition raw_bearer (h : headers) : option string :=
  some? v := authorization h in strip_prefix "Bearer " v.

Definition bearer_from_headers (h : headers) : option string :=
  some? v := raw_bearer h in
  let t := trim v in if String.eqb t "" then None else Some t.

Definition key_matches (key : option string) (token : string) : bool :=
  match key with
  | Some ak => negb (String.eqb ak "") && Secure.ct_eq_str token ak
  | None => false
  end.

(** [is_none_or(|k| k.is_empty())]. *)
Definition no_admin_key (key : option string) : bool :=
  match key with Some ak => String.eqb ak "" | None => true end.

Section auth.
Context `{!Rfc3339, !PasswordHash}.
Variable foreign_keys : bool.

Definition authorize_privileged (h : headers) (perm : Role -> bool) (now : Z)
    : SE server api_error unit :=
  do! s := sget in
  let token := bearer_from_headers h in
  if match token with Some t => key_matches (admin_key s) t | None => false end then sret tt else
  if match token with
     | Some t => match resolve_session t now (user_db s) with
                 | Some user => active user && perm (role user)
                 | None => false
                 end
     | None => false
     end then sret tt else
  if no_admin_key (admin_key s) then sret tt else sfail Forbidden.

Definition authorize_permission (h : headers) (perm : Permission) (now : Z)
    : SE server api_error unit := authorize_privileged h (fun r => has r perm) now.

Definition synthetic_admin (now : Z) : User := {|
  id := "00000000-0000-0000-0000-000000000000"; username := "admin"; email := None;
  password_hash := None; role := Admin; provider := Local; provider_sub := None;
  active := true; created_at := now; last_login := None;
|}.

(** The extractors [UserCtx] and [AdminCtx], with the status of [AuthError]. *)
Definition user_ctx (h : headers) (now : Z) : SE server api_error User :=
  do! s := sget in
  do! token := slift (ok_or (bearer_from_headers h) Unauthorized) in
  if key_matches (admin_key s) token then sret (synthetic_admin now) else
  do! user := slift (ok_or (resolve_session token now (user_db s)) Unauthorized) in
  if negb (active user) then sfail Forbidden else sret user.

Definition admin_ctx (h : headers) (now : Z) : SE server api_error User :=
  do! user := user_ctx h now in
  if negb (can_manage_users (role user)) then sfail Forbidden else sret user.

Definition require (u : User) (perm : Permission) : result api_error unit :=
  if has (role u) perm then Ok tt else Err Forbidden.

(** ** Addresses and the rate of logins *)

Definition first_field (s : string) : string :=
  match split_once "," s with Some (a, _) => a | None => s end.

Definition client_ip (h : headers) : string :=
  let xff := match x_forwarded_for h with Some v => trim (first_field v) | None => EmptyString end in
  if negb (String.eqb xff "") then xff else
  let real := match x_real_ip h with Some v => trim v | None => EmptyString end in
  if negb (String.eqb real "") then real else "unknown".

(** [secs] is the clock in seconds; counts are [u32] and saturate. *)
Definition check_auth_ip_rate (ip : string) (max_per_minute secs : Z) : SE server api_error unit :=
  fun s =>
    let map := auth_ip_limiter s in
    let map := if (4096 <? Z.of_nat (size map))
               then filter (fun e : string * (Z * Z) => sat_sub secs e.2.2 < 120) map else map in
    let entry := default (0, secs) (map !! ip) in
    if 60 <=? sat_sub secs entry.2
    then (set_limiter s (<[ip := (1, secs)]> map), Ok tt)
    else
      let n := Z.min u32_max (entry.1 + 1) in
      (set_limiter s (<[ip := (n, entry.2)]> map),
       if max_per_minute <? n then Err RateLimited else Ok tt).

(** ** Logins and sessions *)

Definition login (h : headers) (uname password : string) (secs t0 now : Z) (token : string)
    : SE server api_error (string * User) :=
  do! _ := check_auth_ip_rate (client_ip h) 20 secs in
  do! found := ask (get_by_username uname now) in
  do! user := slift (ok_or found Unauthorized) in
  if negb (active user) then sfail Forbidden else
  if negb (bool_decide (provider user = Local)) then sfail BadRequest else
  do! hash := slift (ok_or (password_hash user) Internal) in
  do! ok := slift (map_err (fun _ => Internal) (verify_password password hash)) in
  if negb ok then sfail Unauthorized else
  do! s := sget in
  do! token := on_db Internal (create_session foreign_keys (id user) (session_hours s) t0 now token) in
  sret (token, user).

Definition logout (h : headers) (now : Z) : SE server api_error unit :=
  do! _ := user_ctx h now in
  match raw_bearer h with
  | Some token => signore (on_db Internal (delete_session token))
  | None => sret tt
  end.

Definition current_token (h : headers) : string := default EmptyString (raw_bearer h).

Definition visible_sessions (user : User) (now : Z) : SE server api_error (list SessionRecord) :=
  if can_manage_users (role user) then ask (list_all_sessions now)
  else ask (list_sessions_for_user (id user) now).

(** The list with the mark of the current session. *)
Definition list_sessions (h : headers) (now : Z) : SE server api_error (list (bool * SessionRecord)) :=
  do! user := user_ctx h now in
  do! l := visible_sessions user now in
  let current_prefix := stake 8 (current_token h) in
  sret ((fun s => (String.eqb (token_prefix s) current_prefix, s)) <$> l).

Definition revoke_session (h : headers) (prefix : string) (now : Z) : SE server api_error unit :=
  do! user := user_ctx h now in
  do! l := visible_sessions user now in
  do! matched := slift (ok_or (List.find (fun s => String.eqb (token_prefix s) prefix) l) NotFound) in
  on_db Internal (delete_session_by_prefix (user_id matched) prefix).

Definition revoke_other_sessions (h : headers) (now : Z) : SE server api_error Z :=
  do! user := user_ctx h now in
  on_db Internal (delete_sessions_for_user_except (id user) (current_token h)).

(** ** Accounts *)

(** [trim().to_lowercase()], over the Unicode tables. *)
Variable trim_lower : string -> string.

Definition create_user (h : headers) (uname : string) (password email : option string)
    (role_text uid salt : string) (now : Z) : SE server api_error User :=
  do! _ := admin_ctx h now in
  do! role := slift (map_err (fun _ => BadRequest) (role_from_str role_text)) in
  let user := {|
    id := uid; username := trim_lower uname; email := email;
    password_hash := hash_password salt <$> password; role := role; provider := Local;
    provider_sub := None; active := true; created_at := now; last_login := None |} in
  do! _ := on_db Conflict (create user) in
  sret user.

Definition with_changes (u : User) (email : option string) (act : option bool) (role : Role) : User := {|
  id := id u; username := username u; email := match email with Some e => Some e | None => User.email u end;
  password_hash := password_hash u; role := role; provider := provider u;
  provider_sub := provider_sub u; active := default (active u) act;
  created_at := created_at u; last_login := last_login u;
|}.

Definition update_user (h : headers) (uid : string) (email role_text : option string)
    (act : option bool) (now : Z) : SE server api_error User :=
  do! _ := admin_ctx h now in
  do! found := ask (get_by_id uid now) in
  do! user := slift (ok_or found NotFound) in
  do! role := match role_text with
              | Some r => slift (map_err (fun _ => BadRequest) (role_from_str r))
              | None => sret (role user)
              end in
  let user := with_changes user email act role in
  do! _ := on_db Internal (update user) in
  sret user.

Definition del_user (h : headers) (uid : string) (now : Z) : SE server api_error unit :=
  do! _ := admin_ctx h now in
  do! deleted := on_db Internal (delete foreign_keys uid) in
  if deleted then sret tt else sfail NotFound.

Definition with_password (u : User) (hash : string) : User := {|
  id := id u; username := username u; email := User.email u; password_hash := Some hash;
  role := role u; provider := provider u; provider_sub := provider_sub u; active := active u;
  created_at := created_at u; last_login := last_login u;
|}.

(** The common part of the two ways to set a password. *)
Definition store_password (uid password salt : string) (now : Z) : SE server api_error unit :=
  do! found := ask (get_by_id uid now) in
  do! user := slift (ok_or found NotFound) in
  on_db Internal (update (with_password user (hash_password salt password))).

Definition set_password (h : headers) (uid password salt : string) (now : Z)
    : SE server api_error unit :=
  do! _ := admin_ctx h now in
  store_password uid password salt now.

(** ** Password resets *)

(** The token that goes out by mail, if one does; the answer is the same. *)
Definition request_reset (h : headers) (mail : string) (secs t0 now : Z) (token : string)
    : SE server api_error (option string) :=
  do! _ := check_auth_ip_rate (client_ip h) 10 secs in
  do! s := sget in
  if negb (smtp s) then sfail BadRequest else
  do! user := ask (get_by_email mail now) in
  match user with
  | Some u =>
    if active u then
      do! token := on_db Internal (create_reset_token foreign_keys (id u) t0 now token) in
      sret (Some token)
    else sret None
  | None => sret None
  end.

Definition confirm_reset (token password salt : string) (now : Z) : SE server api_error unit :=
  if Z.of_nat (String.length password) <? 8 then sfail BadRequest else
  do! got := on_db Internal (consume_reset_token token now) in
  do! uid := slift (ok_or got Unauthorized) in
  store_password uid password salt now.

(** ** The routes together *)

Inductive request :=
| ReqLogin (uname password : string) (secs t0 : Z) (token : string)
| ReqLogout
| ReqListSessions
| ReqRevoke (prefix : string)
| ReqRevokeOthers
| ReqCreateUser (uname : string) (password email : option string) (role_text uid salt : string)
| ReqUpdateUser (uid : string) (email role_text : option string) (act : option bool)
| ReqDeleteUser (uid : string)
| ReqSetPassword (uid password salt : string)
| ReqResetRequest (mail : string) (secs t0 : Z) (token : string)
| ReqResetConfirm (token password salt : string).

Definition done_with {A} (m : SE server api_error A) : SE server api_error unit :=
  do! _ := m in sret tt.

Definition handle (h : headers) (now : Z) (r : request) : SE server api_error unit :=
  match r with
  | ReqLogin u p secs t0 token => done_with (login h u p secs t0 now token)
  | ReqLogout => logout h now
  | ReqListSessions => done_with (list_sessions h now)
  | ReqRevoke prefix => revoke_session h prefix now
  | ReqRevokeOthers => done_with (revoke_other_sessions h now)
  | ReqCreateUser u p e r uid salt => done_with (create_user h u p e r uid salt now)
  | ReqUpdateUser uid e r a => done_with (update_user h uid e r a now)
  | ReqDeleteUser uid => del_user h uid now
  | ReqSetPassword uid p salt => set_password h uid p salt now
  | ReqResetRequest m secs t0 token => done_with (request_reset h m secs t0 now token)
  | ReqResetConfirm token p salt => confirm_reset token p salt now
  end.

(** ** What a handler does to the database

    [keeps R m]: whatever the state, the database before and after [m] is in [R]. *)
Definition keeps {A} (R : relation db) (m : SE server api_error A) : Prop :=
  forall s, R (user_db s) (user_db (m s).1).

Section keeps.
Context (R : relation db) `{!PreOrder R}.

Lemma keeps_ret {A} (a : A) : keeps R (sret a).
Proof. intros s. reflexivity. Qed.
Lemma keeps_fail {A} e : keeps R (@sfail server api_error A e).
Proof. intros s. reflexivity. Qed.
Lemma keeps_get : keeps R sget.
Proof. intros s. reflexivity. Qed.
Lemma keeps_lift {A} (r : result api_error A) : keeps R (slift r).
Proof. intros s. reflexivity. Qed.
Lemma keeps_ask {A} (f : db -> A) : keeps R (ask f).
Proof. intros s. reflexivity. Qed.
Lemma keeps_rate ip n secs : keeps R (check_auth_ip_rate ip n secs).
Proof. intros s. unfold check_auth_ip_rate. case_match; reflexivity. Qed.

Lemma keeps_bind {A B} (m : SE server api_error A) (f : A -> SE server api_error B) :
  keeps R m -> (forall a, keeps R (f a)) -> keeps R (sbind m f).
Proof.
  intros Hm Hf s. specialize (Hm s). unfold sbind.
  destruct (m s) as [s' [a|e]]; cbn [fst snd] in *; [|done]. etrans; [exact Hm|apply Hf].
Qed.

Lemma keeps_on_db {A} err (m : SE db db_err A) : (forall d, R d (m d).1) -> keeps R (on_db err m).
Proof. intros He s. apply He. Qed.

Lemma keeps_ignore {A} (m : SE server api_error A) : keeps R m -> keeps R (signore m).
Proof. intros Hm s. apply Hm. Qed.

End keeps.

Create HintDb keeps.
#[local] Hint Resolve keeps_ret keeps_fail keeps_get keeps_lift keeps_ask keeps_rate
  keeps_ignore : keeps.

(** Walks through a handler, down to its database statements. *)
Ltac keeps_walk :=
  repeat match goal with
  | |- keeps _ (sbind _ _) => apply keeps_bind; [apply _|..|intros ?]
  | |- keeps _ (done_with _) => apply keeps_bind; [apply _|..|intros ?]
  | |- keeps _ (if ?b then _ else _) => destruct b
  | |- keeps _ (match ?x with _ => _ end) => destruct x
  | |- keeps _ _ => solve [eauto with keeps typeclass_instances]
  end.

Lemma keeps_user_ctx R `{!PreOrder R} h now : keeps R (user_ctx h now).
Proof. unfold user_ctx. keeps_walk. Qed.

Lemma keeps_admin_ctx R `{!PreOrder R} h now : keeps R (admin_ctx h now).
Proof. unfold admin_ctx. keeps_walk; try done. by apply keeps_user_ctx. Qed.

Lemma keeps_visible R `{!PreOrder R} u now : keeps R (visible_sessions u now).
Proof. unfold visible_sessions. keeps_walk. Qed.

#[local] Hint Resolve keeps_user_ctx keeps_admin_ctx keeps_visible : keeps.

(** Every request does a sequence of operations of the user database. *)
Definition by_ops : relation db := fun d d' => exists ops, d' = run foreign_keys ops d.

#[local] Instance by_ops_preorder : PreOrder by_ops.
Proof.
  split; [by exists []|]. intros d1 d2 d3 [a ->] [b ->]. exists (a ++ b).
  unfold run. by rewrite foldl_app.
Qed.

Lemma keeps_op {A} err (m : SE db db_err A) o :
  (forall d, (m d).1 = exec foreign_keys o d) -> keeps by_ops (on_db err m).
Proof. intros He. apply keeps_on_db. intros d. exists [o]. by rewrite He. Qed.

Lemma store_password_ops uid p salt now : keeps by_ops (store_password uid p salt now).
Proof. unfold store_password. keeps_walk. by eapply (keeps_op _ _ (OpUpdate _)). Qed.

Lemma handle_ops h now r s : exists ops, user_db (handle h now r s).1 = run foreign_keys ops (user_db s).
Proof.
  assert (keeps by_ops (handle h now r)) as Hk; [|exact (Hk s)].
  destruct r; cbn [handle].
  - unfold login. keeps_walk. by eapply (keeps_op _ _ (OpSession _ _ _ _ _)).
  - unfold logout. keeps_walk. apply keeps_ignore. by eapply (keeps_op _ _ (OpLogout _)).
  - unfold list_sessions. keeps_walk.
  - unfold revoke_session. keeps_walk. by eapply (keeps_op _ _ (OpRevokePrefix _ _)).
  - unfold revoke_other_sessions. keeps_walk. by eapply (keeps_op _ _ (OpRevokeOthers _ _)).
  - unfold create_user. keeps_walk. by eapply (keeps_op _ _ (OpCreate _)).
  - unfold update_user. keeps_walk; by eapply (keeps_op _ _ (OpUpdate _)).
  - unfold del_user. keeps_walk. by eapply (keeps_op _ _ (OpDelete _)).
  - unfold set_password. keeps_walk. apply store_password_ops.
  - unfold request_reset. keeps_walk. by eapply (keeps_op _ _ (OpResetToken _ _ _ _)).
  - unfold confirm_reset. keeps_walk; [by eapply (keeps_op _ _ (OpConsume _ _))|].
    apply store_password_ops.
Qed.

(** ** Roles *)

(** A row as [create] and [update] write it. *)
Definition row_ok (r : user_row) : Prop :=
  (exists x, r_role r = role_str x) /\ (r_active r = 0 \/ r_active r = 1).

Definition rows_ok (d : db) : Prop := forall r, In r (users d) -> row_ok r.

(** The privileges of every account. *)
Definition privileges (d : db) : list (string * (string * Z)) :=
  (fun r => (r_id r, (r_role r, r_active r))) <$> users d.

Lemma row_ok_flag (b : bool) : (if b then 1 else 0) = 0 \/ (if b then 1 else 0) = 1.
Proof. destruct b; auto. Qed.

Lemma rows_ok_map (g : user_row -> user_row) l :
  (forall r, In r l -> row_ok r -> row_ok (g r)) ->
  (forall r, In r l -> row_ok r) -> forall r, In r (g <$> l) -> row_ok r.
Proof.
  intros Hg Hl r Hr. apply list_elem_of_In, list_elem_of_fmap in Hr as (x & -> & Hx).
  apply list_elem_of_In in Hx. auto.
Qed.

Lemma exec_rows_ok o d : rows_ok d -> rows_ok (exec foreign_keys o d).
Proof.
  intros Hd. destruct o; cbn [exec]; try done.
  - unfold create. case_match; [done|]. intros r Hr. simpl in Hr.
    apply in_app_or in Hr as [Hr|[<-|[]]]; [by apply Hd|].
    split; [by eexists|apply row_ok_flag].
  - unfold update. cbn zeta. case_match; [done|]. refine (rows_ok_map _ (users d) _ Hd).
    intros r Hr Hx. case_match; [|done]. split; [by eexists|apply row_ok_flag].
  - unfold delete. intros r Hr. apply Hd.
    destruct foreign_keys; simpl in Hr; by apply filter_In in Hr as [Hr _].
  - unfold create_session, sbind, smodify, sget, sput, sfail, sret. cbn [fst].
    repeat case_goal; try done. refine (rows_ok_map _ (users d) _ Hd). intros x Hx Hr. by case_match.
  - unfold create_reset_token, sbind, smodify, sget, sput, sfail, sret. cbn [fst].
    by repeat case_goal.
  - unfold consume_reset_token. by case_match.
Qed.

Lemma run_rows_ok ops d : rows_ok d -> rows_ok (run foreign_keys ops d).
Proof.
  revert d. induction ops as [|o ops IH]; intros d Hd; [done|]. cbn [run foldl].
  by apply IH, exec_rows_ok.
Qed.

(** Databases that operations build. *)
Definition reachable (d : db) : Prop := exists ops, d = run foreign_keys ops empty_db.

Lemma reachable_wf d : reachable d -> db_wf foreign_keys d.
Proof. intros [ops ->]. apply run_wf, empty_wf. Qed.

Lemma reachable_rows d : reachable d -> rows_ok d.
Proof. intros [ops ->]. by apply run_rows_ok. Qed.

Lemma reachable_handle h now r s : reachable (user_db s) -> reachable (user_db (handle h now r s).1).
Proof.
  intros [ops Hd]. destruct (handle_ops h now r s) as [ops' ->]. exists (ops ++ ops').
  unfold run in *. by rewrite Hd, foldl_app.
Qed.

(** An account written back with its role and its activation keeps all privileges. *)
Lemma update_privileges r u now d :
  reachable d -> In r (users d) -> id u = r_id r -> role u = role (row_to_user now r) ->
  active u = active (row_to_user now r) -> privileges (update u d).1 = privileges d.
Proof.
  intros Hr Hin Hid Hro Hact. pose proof (reachable_wf _ Hr) as Hw. apply reachable_rows in Hr.
  unfold update. cbn zeta. case_match; [done|]. simpl. unfold privileges. simpl.
  rewrite <- list_fmap_compose. apply list_fmap_ext. intros k x Hx. simpl.
  apply list_elem_of_lookup_2, list_elem_of_In in Hx. rewrite Hid.
  destruct (String.eqb_spec (r_id x) (r_id r)) as [Hxr|]; [|done].
  assert (x = r) as -> by (by apply (nodup_key r_id (users d)); [apply Hw|..]).
  destruct (Hr r Hin) as [[y Hy] Ha]. simpl in *. rewrite Hro, Hact, Hy, role_round. do 2 f_equal.
  by destruct Ha as [-> | ->].
Qed.

Lemma store_password_privileges uid p salt now s :
  reachable (user_db s) ->
  privileges (user_db (store_password uid p salt now s).1) = privileges (user_db s).
Proof.
  intros Hr. unfold store_password, ask, slift, sbind. unfold get_by_id, find_user. cbn [ok_or].
  destruct (List.find _ (users (user_db s))) as [r|] eqn:Ef; [|done].
  apply find_some in Ef as [Hin Hid]. simpl. by apply (update_privileges r _ now).
Qed.

Definition same_privileges : relation db := fun d d' => privileges d' = privileges d.

#[local] Instance same_privileges_preorder : PreOrder same_privileges.
Proof. split; [done|]. unfold same_privileges. intros x y z H1 H2. congruence. Qed.

Lemma create_session_privileges uid ttl t0 now token d :
  same_privileges d (create_session foreign_keys uid ttl t0 now token d).1.
Proof.
  unfold same_privileges, create_session, sbind, smodify, sget, sput, sfail, sret. cbn [fst].
  repeat case_goal; try done. unfold privileges. simpl. rewrite <- list_fmap_compose.
  apply list_fmap_ext. intros _ r _. simpl. by case_match.
Qed.

Lemma create_reset_privileges uid t0 now token d :
  same_privileges d (create_reset_token foreign_keys uid t0 now token d).1.
Proof.
  unfold create_reset_token, sbind, smodify, sget, sput, sfail, sret. cbn [fst].
  by repeat case_goal.
Qed.

Lemma admin_refused {A} h now (f : User -> SE server api_error A) s e :
  (admin_ctx h now s).2 = Err e -> (sbind (admin_ctx h now) f s).1 = (admin_ctx h now s).1.
Proof. unfold sbind. destruct (admin_ctx h now s) as [s' [u|e']]; [done|]. done. Qed.

Lemma admin_ctx_db h now s : (admin_ctx h now s).1 = s.
Proof.
  unfold admin_ctx, user_ctx, sbind, sget, slift, sret, sfail.
  destruct (bearer_from_headers h); cbn [ok_or]; [|done].
  case_goal; [by case_goal|]. destruct (resolve_session _ _ _); cbn [ok_or]; [|done].
  destruct (active _); simpl; [|done]. by case_goal.
Qed.

Lemma done_with_state {A} (m : SE server api_error A) s : (done_with m s).1 = (m s).1.
Proof. unfold done_with, sbind, sret. by destruct (m s) as [? []]. Qed.

Lemma handle_privileges h now r s e :
  reachable (user_db s) -> (admin_ctx h now s).2 = Err e ->
  privileges (user_db (handle h now r s).1) = privileges (user_db s).
Proof.
  intros Hr Ha. pose proof (admin_ctx_db h now s) as Hs.
  destruct r as [u p secs t0 token| | |prefix| |u p em ro uid salt|uid em ro a|uid|uid p salt
                |m secs t0 token|token p salt]; cbn [handle];
    rewrite ?done_with_state.
  - assert (keeps same_privileges (login h u p secs t0 now token)) as Hk; [|exact (Hk s)].
    unfold login. keeps_walk. apply keeps_on_db. intros d. apply create_session_privileges.
  - assert (keeps same_privileges (logout h now)) as Hk; [|exact (Hk s)].
    unfold logout. keeps_walk. apply keeps_ignore. by apply keeps_on_db.
  - assert (keeps same_privileges (list_sessions h now)) as Hk; [|exact (Hk s)].
    unfold list_sessions. keeps_walk.
  - assert (keeps same_privileges (revoke_session h prefix now)) as Hk; [|exact (Hk s)].
    unfold revoke_session. keeps_walk. by apply keeps_on_db.
  - assert (keeps same_privileges (revoke_other_sessions h now)) as Hk; [|exact (Hk s)].
    unfold revoke_other_sessions. keeps_walk. by apply keeps_on_db.
  - unfold create_user. by rewrite (admin_refused _ _ _ _ e Ha), Hs.
  - unfold update_user. by rewrite (admin_refused _ _ _ _ e Ha), Hs.
  - unfold del_user. by rewrite (admin_refused _ _ _ _ e Ha), Hs.
  - unfold set_password. by rewrite (admin_refused _ _ _ _ e Ha), Hs.
  - assert (keeps same_privileges (request_reset h m secs t0 now token)) as Hk; [|exact (Hk s)].
    unfold request_reset. keeps_walk. apply keeps_on_db. intros d. apply create_reset_privileges.
  - unfold confirm_reset. case_goal; [done|]. unfold sbind, slift, on_db.
    pose proof (reachable_handle h now (ReqResetConfirm token p salt)).
    destruct (consume_reset_token token now (user_db s)) as [d1 [v|]] eqn:Ec; [|].
    all: assert (reachable d1 /\ privileges d1 = privileges (user_db s)) as [Hd1 Hp].
    all: try (split; [destruct Hr as [ops Hr]; exists (ops ++ [OpConsume token now]);
      unfold run in *; rewrite foldl_app, <- Hr; simpl; by rewrite Ec
      |revert Ec; unfold consume_reset_token; case_match; by intros [= <- _]]).
    + destruct v as [uid|]; [|exact Hp]. cbn [ok_or map_err fst snd].
      rewrite store_password_privileges; [exact Hp|exact Hd1].
    + exact Hp.
Qed.

(** ** Sessions through the routes *)

Lemma filter_fmap_members {A} (p : A -> bool) (g : A -> A) l :
  (forall a, In a l -> p (g a) = p a) -> List.filter p (g <$> l) = g <$> List.filter p l.
Proof.
  induction l as [|a l IH]; intros Hp; [done|]. rewrite fmap_cons. simpl.
  rewrite Hp by (by left). rewrite IH by (intros; apply Hp; by right). by destruct (p a).
Qed.

Lemma bind_fmap {A B} (f : A -> list B) (g : B -> B) l :
  (a ← l; g <$> f a) = g <$> (a ← l; f a).
Proof.
  induction l as [|a l IH]; [done|]. rewrite !bind_cons, fmap_app. by rewrite IH.
Qed.

(** Changing rows without their ids and flags changes no session's account. *)
Lemma resolve_map (g : user_row -> user_row) token t d :
  (forall r, r_id (g r) = r_id r) -> (forall r, In r (users d) -> r_active (g r) = r_active r) ->
  id <$> resolve_session token t (set_users d (g <$> users d)) = id <$> resolve_session token t d.
Proof.
  intros Hi Ha. unfold resolve_session. simpl.
  assert (forall s, List.filter (fun r => String.eqb (s_user_id s) (r_id r) && (r_active r =? 1)) (g <$> users d)
    = g <$> List.filter (fun r => String.eqb (s_user_id s) (r_id r) && (r_active r =? 1)) (users d)) as Hf.
  { intros s. apply filter_fmap_members. intros r Hr. by rewrite Hi, Ha. }
  match goal with |- _ = _ <$> (_ <$> head ?b) =>
    match goal with |- _ <$> (_ <$> head ?a) = _ => replace a with (g <$> b) end end.
  - match goal with |- _ = _ <$> (_ <$> head ?b) => destruct b end; [done|]. simpl. by rewrite Hi.
  - rewrite <- bind_fmap. apply list_bind_ext; [|done]. intros s. by rewrite Hf.
Qed.

Lemma store_password_sessions uid p salt now s token t :
  reachable (user_db s) ->
  id <$> resolve_session token t (user_db (store_password uid p salt now s).1)
  = id <$> resolve_session token t (user_db s).
Proof.
  intros Hr. pose proof (reachable_wf _ Hr) as Hw. apply reachable_rows in Hr.
  unfold store_password, ask, slift, sbind. unfold get_by_id, find_user. cbn [ok_or].
  destruct (List.find _ (users (user_db s))) as [r|] eqn:Ef; [|done].
  apply find_some in Ef as [Hin Hid]. apply String.eqb_eq in Hid. simpl.
  unfold update. cbn zeta. case_match; [done|]. cbn [fst user_db set_db on_db].
  apply (resolve_map (fun x => if String.eqb (r_id x) (r_id r) then _ else x)).
  - intros x. by case_match.
  - intros x Hx. destruct (String.eqb_spec (r_id x) (r_id r)) as [Hxr|]; [|done].
    assert (x = r) as -> by (by apply (nodup_key r_id (users (user_db s))); [apply Hw|..]).
    destruct (Hr r Hin) as [_ Ha]. simpl. by destruct Ha as [-> | ->].
Qed.

Lemma user_ctx_token h now s u token :
  user_ctx h now s = (s, Ok u) -> bearer_from_headers h = Some token ->
  key_matches (admin_key s) token = true \/ resolve_session token now (user_db s) = Some u.
Proof.
  unfold user_ctx, sbind, sget, slift, sret, sfail. intros Hu Ht. rewrite Ht in Hu. simpl in Hu.
  destruct (key_matches _ _); [by left|]. right.
  destruct (resolve_session _ _ _); simpl in Hu; [|done]. case_hyp; by simplify_eq.
Qed.

Lemma user_ctx_state h now s : (user_ctx h now s).1 = s.
Proof.
  unfold user_ctx, sbind, sget, slift, sret, sfail.
  destruct (bearer_from_headers h); cbn [ok_or]; [|done].
  case_goal; [done|]. destruct (resolve_session _ _ _); cbn [ok_or]; [|done]. by case_goal.
Qed.

Lemma resolve_issued token now d u :
  db_wf foreign_keys d -> resolve_session token now d = Some u ->
  exists expires, session_at token (id u) expires d.
Proof.
  intros Hw Hu. apply (resolve_iff foreign_keys) in Hu as (s & r & Hs & Ht & He & Hr & Hi & Ha & ->); [|done].
  by exists (s_expires_at s), s.
Qed.

Lemma find_user_row p now d u :
  find_user p now d = Some u -> exists r, In r (users d) /\ p r = true /\ u = row_to_user now r.
Proof.
  unfold find_user. destruct (List.find p (users d)) as [r|] eqn:Ef; [|done]. intros [= <-].
  apply find_some in Ef as [Hr Hp]. by exists r.
Qed.

Lemma rate_db ip n secs s s' r :
  check_auth_ip_rate ip n secs s = (s', r) ->
  user_db s' = user_db s /\ session_hours s' = session_hours s.
Proof. unfold check_auth_ip_rate. case_match; by intros [= <- _]. Qed.

(** The branch of [login] that succeeds. *)
Lemma login_inv h uname password secs t0 now token s s' tok u :
  login h uname password secs t0 now token s = (s', Ok (tok, u)) ->
  exists hash, get_by_username uname now (user_db s) = Some u /\ active u = true /\
    provider u = Local /\ password_hash u = Some hash /\
    argon2_verify password hash = Some true /\
    create_session foreign_keys (id u) (session_hours s) t0 now token (user_db s) = (user_db s', Ok tok).
Proof.
  unfold login. intros Hl. unfold sbind at 1 in Hl.
  destruct (check_auth_ip_rate _ _ _ _) as [s1 [[]|]] eqn:Er; [|done].
  apply rate_db in Er as [<- <-]. revert Hl.
  unfold sbind, ask, slift, sget, sret, sfail, on_db, verify_password.
  destruct (get_by_username uname now (user_db s1)) as [w|]; cbn [ok_or]; [|done].
  destruct (active w) eqn:Ea; cbn [negb]; [|done].
  destruct (bool_decide (provider w = Local)) eqn:El; cbn [negb]; [|done].
  destruct (password_hash w) as [hash|] eqn:Ep; cbn [ok_or]; [|done].
  destruct (argon2_verify password hash) as [[]|] eqn:Ev; cbn [ok_or map_err negb]; [|done..].
  destruct (create_session _ _ _ _ _ _ _) as [d2 [t2|]] eqn:Ec; cbn [fst snd map_err]; [|done].
  intros [= <- <- <-]. exists hash. bool_prop. done.
Qed.

(** ** Properties *)

(** a privileged request is let through exactly when it carries the host's admin
    key, or the token of a live session of an account whose role has the right, or
    when no admin key is set (whatever the token then); the check changes nothing. *)
Theorem privileged_iff h perm now s :
  (authorize_privileged h perm now s = (s, Ok tt) \/ authorize_privileged h perm now s = (s, Err Forbidden)) /\
  ((authorize_privileged h perm now s).2 = Ok tt <->
   (exists t, bearer_from_headers h = Some t /\ key_matches (admin_key s) t = true) \/
   (exists t u, bearer_from_headers h = Some t /\
      resolve_session t now (user_db s) = Some u /\ active u = true /\ perm (role u) = true) \/
   no_admin_key (admin_key s) = true).
Proof.
  unfold authorize_privileged, sbind, sget, sret, sfail.
  destruct (bearer_from_headers h) as [t|].
  - destruct (key_matches (admin_key s) t) eqn:Ek; [split; [by left|split; [left; by exists t|done]]|].
    destruct (resolve_session t now (user_db s)) as [u|] eqn:Er.
    + destruct (active u && perm (role u)) eqn:Ea.
      * split; [by left|]. split; [|done]. intros _. right. left. bool_prop. by exists t, u.
      * destruct (no_admin_key (admin_key s)) eqn:En; (split; [auto|]); (split; [intros; by auto|]); [done|].
        intros [(t' & [= <-] & ?)|[(t' & u' & [= <-] & Hu & Hx & Hy)|?]]; [congruence| |done].
        simplify_eq. rewrite Hx, Hy in Ea. done.
    + destruct (no_admin_key (admin_key s)) eqn:En; (split; [auto|]); (split; [intros; by auto|]); [done|].
      intros [(t' & [= <-] & ?)|[(t' & u' & [= <-] & Hu & _)|?]]; congruence.
  - destruct (no_admin_key (admin_key s)) eqn:En; (split; [auto|]); (split; [intros; by auto|]); [done|].
    intros [(t' & ? & ?)|[(t' & u' & ? & _)|?]]; congruence.
Qed.

(** C5: on the routes of accounts and of password resets ([users.rs], [reset.rs]), a
    request whose caller is not an administrator (no admin key, no session of a
    role that manages users) changes no account's existence, role or activation,
    whatever its arguments, in every state that these routes can reach. Signing in
    through an identity provider, which creates accounts, is another component
    ([Sso]) and not a request of [handle]. *)
Theorem no_privilege_escalation h now r s e :
  reachable (user_db s) -> (admin_ctx h now s).2 = Err e ->
  privileges (user_db (handle h now r s).1) = privileges (user_db s).
Proof. apply handle_privileges. Qed.

(** changing a password, by an administrator or with a reset token, ends no
    session: every token resolves to the same account, at any time, as before. *)
Theorem password_change_keeps_sessions h now uid p salt token t s :
  reachable (user_db s) ->
  id <$> resolve_session token t (user_db (handle h now (ReqSetPassword uid p salt) s).1)
  = id <$> resolve_session token t (user_db s) /\
  (forall rt, id <$> resolve_session token t (user_db (handle h now (ReqResetConfirm rt p salt) s).1)
   = id <$> resolve_session token t (user_db s)).
Proof.
  intros Hr. cbn [handle]. split.
  - unfold set_password, sbind at 1. pose proof (admin_ctx_db h now s) as Hs.
    destruct (admin_ctx h now s) as [s' [u|]]; simpl in Hs; subst s'; [|done].
    by apply store_password_sessions.
  - intros rt. unfold confirm_reset. case_goal; [done|]. unfold sbind, slift, on_db.
    destruct (consume_reset_token rt now (user_db s)) as [d1 v] eqn:Ec.
    assert (reachable d1) as Hd1.
    { destruct Hr as [ops Hr]. exists (ops ++ [OpConsume rt now]). unfold run in *.
      rewrite foldl_app, <- Hr. simpl. by rewrite Ec. }
    assert (forall k t, resolve_session k t d1 = resolve_session k t (user_db s)) as Hk.
    { revert Ec. unfold consume_reset_token. case_match; by intros [= <- _]. }
    destruct v as [[uid'|]|]; cbn [ok_or map_err fst snd]; [|by rewrite <- Hk..].
    rewrite store_password_sessions by done. simpl. by rewrite Hk.
Qed.

(** C6: a login that succeeds is of an active local account whose stored hash verifies
    the password, and its token resolves to that account until the session's hours
    have passed and not after. *)
Theorem login_spec h uname password secs t0 now token s s' tok u t :
  reachable (user_db s) ->
  login h uname password secs t0 now token s = (s', Ok (tok, u)) ->
  in_era t -> in_era (now + hours_ns (session_hours s)) ->
  tok = token /\ username u = uname /\ active u = true /\ provider u = Local /\
  (exists hash, password_hash u = Some hash /\ argon2_verify password hash = Some true) /\
  if t <? now + hours_ns (session_hours s)
  then exists v, resolve_session token t (user_db s') = Some v /\ id v = id u /\ active v = true
  else resolve_session token t (user_db s') = None.
Proof.
  intros Hr Hl Ht He. apply login_inv in Hl as (hash & Hu & Ha & Hp & Hh & Hv & Hc).
  pose proof (reachable_wf _ Hr) as Hw. pose proof (reachable_rows _ Hr) as Hrow.
  assert (reachable (user_db s')) as Hr'.
  { destruct Hr as [ops Hr]. exists (ops ++ [OpSession (id u) (session_hours s) t0 now token]).
    unfold run in *. rewrite foldl_app, <- Hr. simpl. by rewrite Hc. }
  apply find_user_row in Hu as (r & Hin & Hn & ->). apply String.eqb_eq in Hn.
  apply create_session_ok in Hc as (-> & Hs & Hact).
  assert (active_user (r_id r) (user_db s')) as Hu'.
  { apply Hact. exists r. split; [done|]. split; [done|]. simpl in Ha.
    destruct (Hrow r Hin) as [_ [Hz|]]; [by rewrite Hz in Ha|done]. }
  do 4 (split; [done|]). split; [by exists hash|]. rewrite <- rfc3339_ltb by done.
  pose proof (reachable_wf _ Hr') as Hw'. case_match.
  - by eapply resolve_live.
  - by eapply resolve_expired.
Qed.

(** revoking by prefix removes sessions of one account only, all with a token of
    that prefix; the account is the caller's, unless the caller manages users. *)
Theorem revoke_scope h prefix now s s' :
  revoke_session h prefix now s = (s', Ok tt) ->
  exists u uid, user_ctx h now s = (s, Ok u) /\
    (uid = id u \/ can_manage_users (role u) = true) /\
    (exists x, In x (sessions (user_db s)) /\ s_user_id x = uid /\ stake 8 (s_token x) = prefix) /\
    users (user_db s') = users (user_db s) /\
    forall x, In x (sessions (user_db s')) <->
      In x (sessions (user_db s)) /\ ~ (s_user_id x = uid /\ like (prefix +:+ "%") (s_token x) = true).
Proof.
  clear trim_lower. unfold revoke_session, sbind at 1. pose proof (user_ctx_state h now s) as Hs.
  destruct (user_ctx h now s) as [s0 [u|]] eqn:Eu; simpl in Hs; subst s0; [|done].
  unfold visible_sessions, ask, sbind, slift, on_db. set (l := if can_manage_users (role u)
    then list_all_sessions now (user_db s) else list_sessions_for_user (id u) now (user_db s)).
  intros Hl.
  assert (exists m, List.find (fun x => String.eqb (token_prefix x) prefix) l = Some m /\
    s' = set_db s (delete_session_by_prefix (user_id m) prefix (user_db s)).1) as (m & Hm & ->).
  { unfold l. destruct (can_manage_users (role u)); cbn [fst snd] in Hl;
      (destruct (List.find _ _) as [m|]; cbn [ok_or] in Hl; [|done]); exists m; by simplify_eq. }
  apply find_some in Hm as [Hm Hpre]. apply String.eqb_eq in Hpre.
  exists u, (user_id m). split; [done|].
  assert ((user_id m = id u \/ can_manage_users (role u) = true) /\
    exists x, In x (sessions (user_db s)) /\ s_user_id x = user_id m /\ stake 8 (s_token x) = prefix)
    as [Hown Hx].
  { unfold l in Hm. destruct (can_manage_users (role u)).
    - split; [by right|]. unfold list_all_sessions in Hm.
      apply list_elem_of_In, list_elem_of_bind in Hm as (x & Hm & Hx).
      apply list_elem_of_bind in Hm as (r & ->%list_elem_of_singleton & _).
      rewrite merge_sort_Permutation in Hx. apply list_elem_of_In, filter_In in Hx as [Hx _]. by exists x.
    - apply list_elem_of_In, list_elem_of_fmap in Hm as (x & -> & Hx).
      rewrite merge_sort_Permutation in Hx. apply list_elem_of_In, filter_In in Hx as [Hx Hf].
      bool_prop. match goal with H : String.eqb _ _ = true |- _ => apply String.eqb_eq in H end.
      split; [by left|]. by exists x. }
  split; [done|]. split; [done|]. split; [done|]. intros x. simpl. rewrite filter_In.
  rewrite negb_true_iff, andb_false_iff, String.eqb_neq, <- not_true_iff_false.
  split; intros [Hin Hnot]; (split; [done|]); [tauto|].
  destruct (decide (s_user_id x = user_id m)); [right; tauto|by left].
Qed.

(** a logout with the token as the session knows it ends the session: the token
    resolves to nothing, at any time, after any operations but a login that draws
    it again. *)
Theorem logout_ends_session h now s token ops t :
  raw_bearer h = Some token -> (logout h now s).2 = Ok tt ->
  Forall (fun o => issues token o = false) ops ->
  resolve_session token t (run foreign_keys ops (user_db (logout h now s).1)) = None.
Proof.
  intros Hb Hok Hf. apply resolve_none, run_not_issued; [done|]. revert Hok.
  unfold logout, sbind. destruct (user_ctx h now s) as [s' [u|]]; [|done]. rewrite Hb. intros _.
  intros (x & Hx & Hin)%list_elem_of_fmap. apply list_elem_of_In in Hin. simpl in Hin.
  apply filter_In in Hin as [_ Hin]. by rewrite Hx, String.eqb_refl in Hin.
Qed.

(** when the header has space around the token, the extractor trims it and the
    logout does not: the caller is authenticated, the answer is a success, and every
    session stays. *)
Theorem logout_spaced_token h now s raw token u t k :
  raw_bearer h = Some raw -> bearer_from_headers h = Some token ->
  (forall x, In x (sessions (user_db s)) -> s_token x <> raw) ->
  user_ctx h now s = (s, Ok u) ->
  (logout h now s).2 = Ok tt /\
  resolve_session k t (user_db (logout h now s).1) = resolve_session k t (user_db s).
Proof.
  intros Hr Hb Hn Hu. unfold logout, sbind. rewrite Hu, Hr. split; [done|].
  unfold resolve_session. simpl. do 3 f_equal. f_equal.
  induction (sessions (user_db s)) as [|x l IH]; [done|]. simpl.
  destruct (String.eqb_spec (s_token x) raw) as [Hx|_]; [exfalso; by apply (Hn x); [left|]|].
  simpl. f_equal. apply IH. intros y Hy. apply Hn. by right.
Qed.

End auth.

(** ** The rate of logins *)

Record attempt := { a_ip : string; a_max : Z; a_secs : Z }.

Definition try_attempt (a : attempt) : SE server api_error unit :=
  check_auth_ip_rate (a_ip a) (a_max a) (a_secs a).

(** The attempts of an address that are admitted between two instants. *)
Fixpoint admitted (ip : string) (lo hi : Z) (l : list attempt) (s : server) : Z :=
  match l with
  | [] => 0
  | a :: l =>
    let r := try_attempt a s in
    (if String.eqb (a_ip a) ip && (lo <=? a_secs a) && (a_secs a <? hi) && is_ok r.2 then 1 else 0)
    + admitted ip lo hi l r.1
  end.

Fixpoint in_order (from : Z) (l : list attempt) : Prop :=
  match l with [] => True | a :: l => from <= a_secs a /\ in_order (a_secs a) l end.

(** [k] attempts of the minute from [lo] are admitted, and the entry of the address
    leaves room for the rest. *)
Definition limit_inv (m lo k now : Z) (e : option (Z * Z)) : Prop :=
  0 <= k <= 2 * m /\ (now < lo -> k = 0) /\
  match e with
  | None => now < lo + 60 -> k <= m
  | Some (c, st) => 0 <= c <= u32_max /\ st <= now /\ (st < lo -> k <= Z.min c m) /\
                    (lo <= st < lo + 60 -> k <= m + Z.min c m)
  end.

(** The entry after the pruning of the map. *)
Definition pruned (secs : Z) (e e' : option (Z * Z)) : Prop :=
  e' = e \/ e' = None /\ exists c st, e = Some (c, st) /\ 120 <= sat_sub secs st.

Lemma prune_entry (map : gmap string (Z * Z)) secs ip :
  let map' := if (4096 <? Z.of_nat (size map))
              then filter (fun e : string * (Z * Z) => sat_sub secs e.2.2 < 120) map else map in
  pruned secs (map !! ip) (map' !! ip).
Proof.
  cbn zeta. case_match; [|by left]. destruct (map !! ip) as [[c st]|] eqn:E.
  - destruct (decide (sat_sub secs st < 120)) as [Hs|Hs].
    + left. by apply map_lookup_filter_Some.
    + right. split; [|exists c, st; split; [done|lia]].
      apply map_lookup_filter_None. right. intros x Hx. by simplify_eq.
  - left. apply map_lookup_filter_None. by left.
Qed.

Lemma limit_pruned m lo k now secs e e' :
  0 <= m -> 0 <= now <= secs -> limit_inv m lo k now e -> pruned secs e e' -> limit_inv m lo k secs e'.
Proof.
  unfold limit_inv, pruned, sat_sub. intros Hm Hn (Hk & Hz & He) [->|[-> (c & st & -> & Hs)]].
  - split; [done|]. split; [intros; apply Hz; lia|]. destruct e as [[c st]|]; [|intros; apply He; lia].
    destruct He as (H1 & H2 & H3 & H4). split; [done|]. split; [lia|]. by split.
  - split; [done|]. split; [intros; apply Hz; lia|]. intros Hl.
    destruct He as (H1 & H2 & H3 & H4). specialize (H3 ltac:(lia)). lia.
Qed.

Lemma limit_step m lo k secs e max :
  1 <= m < u32_max -> max <= m -> 0 <= secs -> limit_inv m lo k secs e ->
  let entry := default (0, secs) e in
  let reset := 60 <=? sat_sub secs entry.2 in
  let n := Z.min u32_max (entry.1 + 1) in
  let ok := reset || negb (max <? n) in
  let e' := if reset then (1, secs) else (n, entry.2) in
  limit_inv m lo (k + if (lo <=? secs) && (secs <? lo + 60) && ok then 1 else 0) secs (Some e').
Proof.
  unfold limit_inv, sat_sub, u32_max. intros Hm Hx Hs (Hk & Hz & He). cbn zeta.
  destruct e as [[c st]|]; cbn [from_option Datatypes.id fst snd] in *.
  - destruct He as (H1 & H2 & H3 & H4).
    destruct (Z.leb_spec 60 (Z.max 0 (secs - st))), (Z.leb_spec lo secs),
      (Z.ltb_spec secs (lo + 60)), (Z.ltb_spec max (Z.min 4294967295 (c + 1)));
      cbn [andb orb negb]; repeat split; lia.
  - replace (60 <=? Z.max 0 (secs - secs)) with false by lia.
    destruct (Z.leb_spec lo secs), (Z.ltb_spec secs (lo + 60)),
      (Z.ltb_spec max (Z.min 4294967295 (0 + 1))); cbn [andb orb negb]; repeat split; lia.
Qed.

Lemma admitted_bound m ip lo l s now k :
  1 <= m < u32_max -> Forall (fun a => a_max a <= m) l -> 0 <= now -> in_order now l ->
  limit_inv m lo k now (auth_ip_limiter s !! ip) -> k + admitted ip lo (lo + 60) l s <= 2 * m.
Proof.
  intros Hm Hf. revert s now k. induction Hf as [|a l Ha _ IH]; intros s now k Hn Ho Hi.
  { cbn [admitted]. destruct Hi as [Hi _]. lia. }
  cbn [admitted in_order] in *. destruct Ho as [Hle Ho]. rewrite Z.add_assoc.
  apply (IH _ (a_secs a)); [lia|done|]. unfold try_attempt, check_auth_ip_rate.
  pose proof (prune_entry (auth_ip_limiter s) (a_secs a)) as Hp. cbn zeta in Hp.
  set (map := if 4096 <? _ then _ else _) in *.
  pose proof (limit_pruned m lo k now (a_secs a) _ _ ltac:(lia) ltac:(lia) Hi (Hp ip)) as Hi'.
  destruct (String.eqb_spec (a_ip a) ip) as [<-|Hne]; cbn [andb].
  - pose proof (limit_step m lo k (a_secs a) (map !! a_ip a) (a_max a) Hm Ha ltac:(lia) Hi') as Hst.
    cbn zeta in Hst. destruct (60 <=? sat_sub (a_secs a) _); cbn [fst snd set_limiter auth_ip_limiter orb] in *.
    + rewrite lookup_insert_eq. by rewrite andb_true_r in *.
    + rewrite lookup_insert_eq. destruct (a_max a <? _); exact Hst.
  - rewrite Z.add_0_r. case_match; cbn [fst snd set_limiter auth_ip_limiter];
      by rewrite lookup_insert_ne.
Qed.

(** in any minute, an address has at most twice the limit of its attempts admitted,
    over all routes that share the limiter, in any order with other addresses and
    however often the map is pruned. *)
Theorem rate_bound m ip lo l s from :
  1 <= m < u32_max -> Forall (fun a => a_max a <= m) l -> 0 <= from -> in_order from l ->
  auth_ip_limiter s = ∅ -> admitted ip lo (lo + 60) l s <= 2 * m.
Proof.
  intros Hm Hf Hn Ho He. apply (admitted_bound m ip lo l s from 0); try done.
  rewrite He, lookup_empty. unfold limit_inv. lia.
Qed.

Definition fresh : server :=
  {| user_db := empty_db; admin_key := None; session_hours := 24; smtp := false; auth_ip_limiter := ∅ |}.

Definition login_at (secs : Z) : attempt := {| a_ip := "198.51.100.7"; a_max := 20; a_secs := secs |}.

(** the window is fixed, not sliding: 39 login attempts of one address are
    admitted within two seconds, with the limit of 20 per minute. *)
Theorem rate_burst :
  admitted "198.51.100.7" 59 61
    ([login_at 0] ++ replicate 19 (login_at 59) ++ replicate 20 (login_at 60)) fresh = 39.
Proof. by vm_compute. Qed.

End Auth.

(** ** Witnesses *)

Module AuthDemo.
Import Common.User UserDb.UserDb UserDb.UserDemo Auth.

Definition srv (d : db) : server :=
  {| user_db := d; admin_key := Some "host-key"; session_hours := 8; smtp := true;
     auth_ip_limiter := ∅ |}.

Definition with_token (v : string) : headers :=
  {| authorization := Some v; x_forwarded_for := None; x_real_ip := None |}.

Lemma d1_reachable : reachable true d1.
Proof. exists [OpCreate jane; OpSession "u-1" 8 100 100 "tok-1"]. by vm_compute. Qed.

Lemma no_privilege_escalation_witness :
  privileges (user_db (handle true (fun x => x) (with_token "Bearer tok-1") 500
     (ReqUpdateUser "u-1" None (Some "admin") None) (srv d1)).1) = privileges (user_db (srv d1)).
Proof.
  apply (no_privilege_escalation true (fun x => x) (with_token "Bearer tok-1") 500
           (ReqUpdateUser "u-1" None (Some "admin") None) (srv d1) Forbidden).
  - exact d1_reachable.
  - by vm_compute.
Defined.

Lemma password_change_keeps_sessions_witness :
  id <$> resolve_session "tok-1" 600 (user_db (handle true (fun x => x) (with_token "Bearer host-key") 500
      (ReqSetPassword "u-1" "new password" "salt") (srv d1)).1)
  = id <$> resolve_session "tok-1" 600 (user_db (srv d1)) /\
  (forall rt, id <$> resolve_session "tok-1" 600 (user_db (handle true (fun x => x) (with_token "Bearer host-key")
      500 (ReqResetConfirm rt "new password" "salt") (srv d1)).1)
   = id <$> resolve_session "tok-1" 600 (user_db (srv d1))).
Proof.
  apply (password_change_keeps_sessions true (fun x => x) (with_token "Bearer host-key") 500 "u-1"
           "new password" "salt" "tok-1" 600 (srv d1)).
  exact d1_reachable.
Defined.

Definition logged : server * result api_error (string * User) :=
  login true (with_token "") "jane" "pw" 7 100 100 "tok-2" (srv d1).

Definition logged_user : User := row_to_user 100 (user_to_row jane).

Lemma login_spec_witness :
  let t := 1000 in
  "tok-2" = "tok-2" /\ username (default jane (get_by_username "jane" 100 d1)) = "jane" /\
  active (default jane (get_by_username "jane" 100 d1)) = true /\
  provider (default jane (get_by_username "jane" 100 d1)) = Local /\
  (exists hash, password_hash (default jane (get_by_username "jane" 100 d1)) = Some hash /\
     argon2_verify "pw" hash = Some true) /\
  if t <? 100 + hours_ns (session_hours (srv d1))
  then exists v, resolve_session "tok-2" t (user_db logged.1) = Some v /\
         id v = id (default jane (get_by_username "jane" 100 d1)) /\ active v = true
  else resolve_session "tok-2" t (user_db logged.1) = None.
Proof.
  apply (login_spec true (with_token "") "jane" "pw" 7 100 100 "tok-2" (srv d1) logged.1 "tok-2"
           (default jane (get_by_username "jane" 100 d1)) 1000).
  - exact d1_reachable.
  - by vm_compute.
  - unfold in_era, ns_per_s. lia.
  - unfold in_era, hours_ns, ns_per_s. simpl. lia.
Defined.

Lemma revoke_scope_witness :
  exists s', revoke_session (with_token "Bearer tok-1") "tok-1" 500 (srv d1) = (s', Ok tt) /\
  exists u uid, user_ctx (with_token "Bearer tok-1") 500 (srv d1) = (srv d1, Ok u) /\
    (uid = id u \/ can_manage_users (role u) = true) /\
    (exists x, In x (sessions d1) /\ s_user_id x = uid /\ stake 8 (s_token x) = "tok-1") /\
    users (user_db s') = users d1 /\
    forall x, In x (sessions (user_db s')) <->
      In x (sessions d1) /\ ~ (s_user_id x = uid /\ like ("tok-1" +:+ "%") (s_token x) = true).
Proof.
  exists (revoke_session (with_token "Bearer tok-1") "tok-1" 500 (srv d1)).1.
  assert (revoke_session (with_token "Bearer tok-1") "tok-1" 500 (srv d1)
    = ((revoke_session (with_token "Bearer tok-1") "tok-1" 500 (srv d1)).1, Ok tt)) as Hr by (by vm_compute).
  split; [exact Hr|]. exact (revoke_scope _ _ _ _ _ Hr).
Defined.

Lemma logout_ends_session_witness :
  resolve_session "tok-1" 600
    (run true [OpUpdate jane] (user_db (logout (with_token "Bearer tok-1") 500 (srv d1)).1)) = None.
Proof.
  apply (logout_ends_session true (with_token "Bearer tok-1") 500 (srv d1) "tok-1" [OpUpdate jane] 600).
  - by vm_compute.
  - by vm_compute.
  - repeat constructor.
Defined.

Lemma logout_spaced_token_witness :
  (logout (with_token "Bearer  tok-1") 500 (srv d1)).2 = Ok tt /\
  resolve_session "tok-1" 600 (user_db (logout (with_token "Bearer  tok-1") 500 (srv d1)).1)
  = resolve_session "tok-1" 600 (user_db (srv d1)).
Proof.
  apply (logout_spaced_token (with_token "Bearer  tok-1") 500 (srv d1) " tok-1" "tok-1"
           (default jane (resolve_session "tok-1" 500 d1)) 600 "tok-1").
  - by vm_compute.
  - by vm_compute.
  - intros x [<-|[]]. by vm_compute.
  - by vm_compute.
Defined.

Lemma rate_bound_witness :
  admitted "198.51.100.7" 10 (10 + 60) [login_at 0; login_at 15; login_at 15] fresh <= 2 * 20.
Proof.
  apply (rate_bound 20 "198.51.100.7" 10 [login_at 0; login_at 15; login_at 15] fresh 0).
  - unfold u32_max. lia.
  - repeat constructor; simpl; lia.
  - lia.
  - simpl. lia.
  - reflexivity.
Defined.

End AuthDemo.
