(* ===== verification/WorkspaceDb.v ===== *)
(** * Workspaces and their data-encryption keys

    Models [maranode-store/src/kek.rs] and [workspace_db.rs] with their schema
    ([sql/migrate_workspaces.sql], [sql/migrate_add_dek.sql]). The table is the list
    of its rows in the columns that the statements write; the random keys and nonces
    are arguments. The authenticated encryption is the class [Aead]. *)

From Stdlib Require Import ZArith Lia Ascii String.
From S2P Require Import Prelude Common Crypto Fs UserDb.
Open Scope Z_scope.

(** [FromStr] of chrono's [DateTime<Utc>], a superset of RFC 3339. *)
Class DateTimeText `{!Rfc3339} := {
  parse_datetime : string -> option Z;
  parse_datetime_rfc3339 t : in_era t -> parse_datetime (to_rfc3339 t) = Some t;
}.

Inductive dek_err :=
| NoPrefix | BadHex | TooShort | UnwrapFailed | NotUtf8        (* kek.rs *)
| NoKek | BadLength | UniqueViolation | DefaultWorkspace.      (* workspace_db.rs *)

#[export] Instance dek_err_eq_dec : EqDecision dek_err.
Proof. solve_decision. Defined.

Module Kek.

Section kek.
Context `{!Aead, !Hex}.

Definition PREFIX : string := "wrapped:".

(** [nonce] is the random nonce of 12 bytes. *)
Definition wrap_dek (kek nonce dek_hex : string) : string :=
  let ct := aead_seal kek nonce dek_hex in
  PREFIX +:+ hex_encode (nonce +:+ ct).

Fixpoint strip_prefix (p s : string) : option string :=
  match p, s with
  | EmptyString, _ => Some s
  | String a p, String b s => if Ascii.eqb a b then strip_prefix p s else None
  | _, EmptyString => None
  end.

Definition unwrap_dek (kek wrapped : string) : result dek_err string :=
  let? hex_part := ok_or (strip_prefix PREFIX wrapped) NoPrefix in
  let? blob := ok_or (hex_decode hex_part) BadHex in
  guard negb (Nat.ltb (String.length blob) 12) else TooShort in
  let? plain := ok_or (aead_open kek (stake 12 blob) (sdrop 12 blob)) UnwrapFailed in
  guard utf8_ok plain else NotUtf8 in
  Ok plain.

Definition is_wrapped (value : string) : bool := String.prefix PREFIX value.

Lemma strip_prefix_app p s : strip_prefix p (p +:+ s) = Some s.
Proof. induction p as [|c p IH]; simpl; [done|]. by rewrite Ascii.eqb_refl. Qed.

Lemma prefix_app p s : String.prefix p (p +:+ s) = true.
Proof. induction p as [|c p IH]; simpl; [by destruct s|]. by destruct (ascii_dec c c). Qed.

Lemma is_wrapped_wrap kek nonce dek : is_wrapped (wrap_dek kek nonce dek) = true.
Proof. apply prefix_app. Qed.

Lemma unwrap_wrap kek nonce dek :
  String.length kek = 32%nat -> String.length nonce = 12%nat -> utf8_ok dek = true ->
  unwrap_dek kek (wrap_dek kek nonce dek) = Ok dek.
Proof.
  intros Hk Hn Hu. unfold unwrap_dek, wrap_dek. rewrite strip_prefix_app. cbn [ok_or rbind].
  rewrite hex_decode_encode. cbn [ok_or rbind].
  replace (Nat.ltb _ 12) with false; cbn [negb].
  - rewrite stake_app_len, sdrop_app_len, aead_open_seal by done. cbn [ok_or rbind]. by rewrite Hu.
  - symmetry. apply Nat.ltb_ge. rewrite string_length_app. lia.
Qed.

Lemma unwrap_utf8 kek s dek : unwrap_dek kek s = Ok dek -> utf8_ok dek = true.
Proof.
  unfold unwrap_dek. intros Hu. apply rbind_ok in Hu as (h & _ & Hu).
  apply rbind_ok in Hu as (b & _ & Hu). case_match; [|done].
  apply rbind_ok in Hu as (p & _ & Hu). case_match; by simplify_eq.
Qed.

(** ** The key file *)

Inductive key_err := KeyIo (e : io_err) | KeyHex | KeyLength.

Definition default_kek_path (data_dir : string) : string := data_dir +:+ "/master.key".

(** The mode is 0600 less the umask, when the file is created. *)
Definition write_key_file (umask : Z) (f : fs) (path hex : string) : fs :=
  write_file f path (Z.land 384 (Z.lnot umask)) hex.

(** [fresh] is the random key; the directory exists. *)
Definition load_or_create (umask : Z) (f : fs) (path fresh : string) : result key_err (fs * string) :=
  if exists_ f path then
    let? hex := map_err KeyIo (read_to_string f path) in
    let? bytes := ok_or (hex_decode (str_trim hex)) KeyHex in
    guard Nat.eqb (String.length bytes) 32 else KeyLength in
    Ok (f, bytes)
  else
    let hex := hex_encode fresh in
    Ok (write_key_file umask f path hex, fresh).

Lemma load_created umask f path fresh :
  fs_wf f -> exists_ f path = false -> String.length fresh = 32%nat ->
  exists f', load_or_create umask f path fresh = Ok (f', fresh) /\ fs_wf f' /\
    content_at f' path = Some (hex_encode fresh).
Proof.
  intros Hw He Hl. unfold load_or_create. rewrite He. eexists. split; [done|]. split.
  - by apply write_file_wf.
  - unfold write_key_file. rewrite content_at_write_file by done. by rewrite decide_True.
Qed.

Lemma load_stored umask f path fresh other :
  fs_wf f -> content_at f path = Some (hex_encode fresh) -> String.length fresh = 32%nat ->
  load_or_create umask f path other = Ok (f, fresh).
Proof.
  intros Hw Hc Hl. unfold load_or_create.
  replace (exists_ f path) with true by (symmetry; apply exists_content; [done|]; by rewrite Hc).
  rewrite read_to_string_content, Hc. rewrite utf8_graphic by apply hex_graphic. cbn [map_err rbind].
  rewrite trim_graphic by apply hex_graphic. rewrite hex_decode_encode. cbn [ok_or rbind].
  by rewrite Hl.
Qed.

(** the master key is generated once: the first start writes it to the key file,
    and every later start reads the same key, whatever it would have drawn. *)
Theorem master_key_stable umask f path fresh :
  fs_wf f -> exists_ f path = false -> String.length fresh = 32%nat ->
  exists f', load_or_create umask f path fresh = Ok (f', fresh) /\
    forall other, load_or_create umask f' path other = Ok (f', fresh).
Proof.
  intros Hw He Hl. destruct (load_created umask f path fresh Hw He Hl) as (f' & Hf & Hw' & Hc).
  exists f'. split; [done|]. intros other. by apply load_stored.
Qed.

End kek.

End Kek.

Module WorkspaceDb.
Import Common.Workspace Kek.

(** ** The table *)

Record ws_row := {
  w_id : string;
  w_slug : string;
  w_name : string;
  w_api_key_hash : option string;
  w_model_allowlist : string;
  w_rate_limit_rpm : option Z;
  w_system_prompt : option string;
  w_created_at : string;
  w_net_namespace : Z;
  w_max_concurrent_requests : option Z;
  w_max_models : option Z;
  w_max_memory_bytes : option Z;
  w_dek : option string;
}.

Record wdb := { rows : list ws_row; kek : option string }.

Definition set_rows (d : wdb) (l : list ws_row) : wdb := {| rows := l; kek := kek d |}.

Definition with_dek (r : ws_row) (dek : option string) : ws_row := {|
  w_id := w_id r; w_slug := w_slug r; w_name := w_name r; w_api_key_hash := w_api_key_hash r;
  w_model_allowlist := w_model_allowlist r; w_rate_limit_rpm := w_rate_limit_rpm r;
  w_system_prompt := w_system_prompt r; w_created_at := w_created_at r;
  w_net_namespace := w_net_namespace r;
  w_max_concurrent_requests := w_max_concurrent_requests r; w_max_models := w_max_models r;
  w_max_memory_bytes := w_max_memory_bytes r; w_dek := dek;
|}.

(** The row that the migration inserts when it is missing; its columns of the later
    migrations have their defaults, NULL for the key. *)
Definition default_row (uid created : string) : ws_row := {|
  w_id := uid; w_slug := "default"; w_name := "Default"; w_api_key_hash := None;
  w_model_allowlist := ""; w_rate_limit_rpm := None; w_system_prompt := None;
  w_created_at := created; w_net_namespace := 0; w_max_concurrent_requests := None;
  w_max_models := None; w_max_memory_bytes := None; w_dek := None;
|}.

Definition same_key (uid slug : string) (r : ws_row) : bool :=
  String.eqb (w_id r) uid || String.eqb (w_slug r) slug.

Definition open_conn (l : list ws_row) (uid created : string) : list ws_row :=
  if existsb (same_key uid "default") l then l else l ++ [default_row uid created].

Definition open (l : list ws_row) (uid created : string) : wdb :=
  {| rows := open_conn l uid created; kek := None |}.

Definition open_with_kek (l : list ws_row) (uid created k : string) : wdb :=
  {| rows := open_conn l uid created; kek := Some k |}.

Definition parse_allowlist (s : string) : list string :=
  List.filter (fun s => negb (String.eqb s "")) (str_trim <$> split_char "," s).

Section workspace_db.
Context `{!Rfc3339, !DateTimeText, !Aead, !Hex}.

Definition row_to_workspace (now : Z) (r : ws_row) : Workspace := {|
  id := w_id r; slug := w_slug r; name := w_name r; api_key_hash := w_api_key_hash r;
  model_allowlist := parse_allowlist (w_model_allowlist r);
  rate_limit_rpm := w_rate_limit_rpm r; system_prompt := w_system_prompt r;
  created_at := default now (parse_datetime (w_created_at r));
  net_namespace := negb (w_net_namespace r =? 0);
  max_concurrent_requests := w_max_concurrent_requests r; max_models := w_max_models r;
  max_memory_bytes := w_max_memory_bytes r; dek := w_dek r;
|}.

Definition by_created (a b : ws_row) : Prop :=
  String.leb (w_created_at a) (w_created_at b) = true.

#[export] Instance by_created_dec a b : Decision (by_created a b).
Proof. unfold by_created. apply _. Defined.

Definition list_workspaces (now : Z) (d : wdb) : list Workspace :=
  row_to_workspace now <$> merge_sort by_created (rows d).

Definition find_row (s : string) (d : wdb) : option ws_row :=
  List.find (fun r => String.eqb (w_slug r) s) (rows d).

Definition get_by_slug (s : string) (now : Z) (d : wdb) : option Workspace :=
  row_to_workspace now <$> find_row s d.

(** [fresh] is the random key of [generate_dek], as bytes. *)
Definition generate_dek (fresh : string) : string := hex_encode fresh.

Definition create (ws : Workspace) (fresh nonce : string) : SE wdb dek_err unit := fun d =>
  let raw_dek := default (generate_dek fresh) (dek ws) in
  let stored := match kek d with Some k => wrap_dek k nonce raw_dek | None => raw_dek end in
  if existsb (same_key (id ws) (slug ws)) (rows d) then (d, Err UniqueViolation) else
  (set_rows d (rows d ++ [{|
     w_id := id ws; w_slug := slug ws; w_name := name ws; w_api_key_hash := api_key_hash ws;
     w_model_allowlist := join "," (model_allowlist ws); w_rate_limit_rpm := rate_limit_rpm ws;
     w_system_prompt := system_prompt ws; w_created_at := to_rfc3339 (created_at ws);
     w_net_namespace := if net_namespace ws then 1 else 0;
     w_max_concurrent_requests := max_concurrent_requests ws; w_max_models := max_models ws;
     w_max_memory_bytes := max_memory_bytes ws; w_dek := Some stored |}]), Ok tt).

Definition updated (ws : Workspace) (r : ws_row) : ws_row := {|
  w_id := w_id r; w_slug := w_slug r; w_name := name ws; w_api_key_hash := api_key_hash ws;
  w_model_allowlist := join "," (model_allowlist ws); w_rate_limit_rpm := rate_limit_rpm ws;
  w_system_prompt := system_prompt ws; w_created_at := w_created_at r;
  w_net_namespace := if net_namespace ws then 1 else 0;
  w_max_concurrent_requests := max_concurrent_requests ws; w_max_models := max_models ws;
  w_max_memory_bytes := max_memory_bytes ws; w_dek := w_dek r;
|}.

(** [UPDATE ... WHERE slug = s], with the number of rows tested against zero. *)
Definition on_slug (s : string) (f : ws_row -> ws_row) (d : wdb) : wdb :=
  set_rows d ((fun r => if String.eqb (w_slug r) s then f r else r) <$> rows d).

Definition has_slug (s : string) (d : wdb) : bool :=
  existsb (fun r => String.eqb (w_slug r) s) (rows d).

Definition update (ws : Workspace) : SE wdb dek_err bool := fun d =>
  (on_slug (slug ws) (updated ws) d, Ok (has_slug (slug ws) d)).

Definition delete (s : string) : SE wdb dek_err bool := fun d =>
  if String.eqb s "default" then (d, Err DefaultWorkspace) else
  (set_rows d (List.filter (fun r => negb (String.eqb (w_slug r) s)) (rows d)), Ok (has_slug s d)).

Definition stored_dek (s : string) (d : wdb) : option string :=
  some? r := find_row s d in w_dek r.

Definition get_dek_bytes (s : string) (d : wdb) : result dek_err (option string) :=
  match stored_dek s d with
  | None => Ok None
  | Some v =>
    let? hex := (if is_wrapped v
                 then match kek d with Some k => unwrap_dek k v | None => Err NoKek end
                 else Ok v) in
    let? bytes := ok_or (hex_decode hex) BadHex in
    guard Nat.eqb (String.length bytes) 32 else BadLength in
    Ok (Some bytes)
  end.

(** [rotate_all]: the rows with a key, in the order of the query; [nonces] are drawn
    as they are needed. A failure leaves the rows already rewritten. *)
Definition rotate_one (old_kek new_kek nonce s stored : string) : SE wdb dek_err unit :=
  do! dek_hex := slift (if is_wrapped stored then unwrap_dek old_kek stored else Ok stored) in
  smodify (on_slug s (fun r => with_dek r (Some (wrap_dek new_kek nonce dek_hex)))).

Fixpoint rotate_rows (old_kek new_kek : string) (nonces : list string)
    (todo : list (string * string)) (rotated : Z) : SE wdb dek_err Z :=
  match todo with
  | [] => sret rotated
  | (s, stored) :: todo =>
    do! _ := rotate_one old_kek new_kek (default EmptyString (head nonces)) s stored in
    rotate_rows old_kek new_kek (tail nonces) todo (rotated + 1)
  end.

Definition keyed_rows (l : list ws_row) : list (string * string) :=
  omap (fun r => (fun v => (w_slug r, v)) <$> w_dek r) l.

Definition rotate_all (old_kek new_kek : string) (nonces : list string) : SE wdb dek_err Z :=
  do! d := sget in rotate_rows old_kek new_kek nonces (keyed_rows (rows d)) 0.

Definition rotate_kek (old_kek new_kek : string) (nonces : list string) : SE wdb dek_err Z :=
  do! rotated := rotate_all old_kek new_kek nonces in
  do! _ := smodify (fun d => {| rows := rows d; kek := Some new_kek |}) in
  sret rotated.

Definition destroy_dek (s : string) : SE wdb dek_err bool := fun d =>
  (on_slug s (fun r => with_dek r None) d, Ok (has_slug s d)).

(** ** Rows by slug *)

Lemma find_on_slug s f s' d :
  (forall r, w_slug (f r) = w_slug r) ->
  find_row s' (on_slug s f d) = if String.eqb s s' then f <$> find_row s' d else find_row s' d.
Proof.
  intros Hf. unfold find_row, on_slug. simpl. induction (rows d) as [|r l IH]; simpl.
  { by destruct (String.eqb s s'). }
  destruct (String.eqb_spec (w_slug r) s) as [Hr|Hr].
  - rewrite Hf, Hr. destruct (String.eqb_spec s s') as [->|Hs].
    + done.
    + exact IH.
  - destruct (String.eqb_spec (w_slug r) s') as [Hr'|Hr'].
    + destruct (String.eqb_spec s s') as [->|]; [done|done].
    + exact IH.
Qed.

Lemma stored_on_slug s v s' d :
  stored_dek s' (on_slug s (fun r => with_dek r v) d)
  = if String.eqb s s' then (some? _ := find_row s' d in v) else stored_dek s' d.
Proof.
  unfold stored_dek. rewrite find_on_slug by done.
  destruct (String.eqb s s'); [|done]. by destruct (find_row s' d).
Qed.

Lemma find_row_in s d r : find_row s d = Some r -> In r (rows d) /\ w_slug r = s.
Proof. intros [Hr Hs]%find_some. split; [done|]. by apply String.eqb_eq. Qed.

Lemma find_row_nodup d r :
  NoDup (w_slug <$> rows d) -> In r (rows d) -> find_row (w_slug r) d = Some r.
Proof.
  intros Hn Hr. unfold find_row. destruct (List.find _ _) as [r'|] eqn:E.
  - apply find_some in E as [Hr' Hs]. apply String.eqb_eq in Hs. f_equal.
    by apply (UserDb.UserDb.nodup_key w_slug (rows d)).
  - apply (find_none _ _ E) in Hr. by rewrite String.eqb_refl in Hr.
Qed.

Lemma stored_keyed s v d :
  NoDup (w_slug <$> rows d) -> stored_dek s d = Some v <-> In (s, v) (keyed_rows (rows d)).
Proof.
  intros Hn. unfold stored_dek, keyed_rows. rewrite <- list_elem_of_In, list_elem_of_omap. split.
  - destruct (find_row s d) as [r|] eqn:E; [|done]. intros Hv.
    apply find_row_in in E as [Hr Hs]. exists r. split; [by apply list_elem_of_In|].
    rewrite Hv. simpl. by rewrite Hs.
  - intros (r & Hr & Hv). apply list_elem_of_In in Hr.
    destruct (w_dek r) as [v'|] eqn:Ev; [|done]. simpl in Hv. injection Hv as <- ->.
    by rewrite find_row_nodup.
Qed.

Lemma keyed_nodup l : NoDup (w_slug <$> l) -> NoDup (keyed_rows l).*1.
Proof.
  unfold keyed_rows. induction l as [|r l IH]; [done|]. rewrite fmap_cons, NoDup_cons.
  intros [Hr Hl]. cbn [omap list_omap]. destruct (w_dek r) as [v0|]; cbn [fmap option_fmap option_map]; [|auto].
  rewrite fmap_cons, NoDup_cons. split; [|auto].
  intros ((s & v) & Hs & Hin)%list_elem_of_fmap. simpl in Hs. subst s.
  apply list_elem_of_omap in Hin as (r' & Hr' & Hv). destruct (w_dek r'); [|done].
  simpl in Hv. injection Hv as Hv _. apply Hr, list_elem_of_fmap. by exists r'.
Qed.

(** ** Rotation *)

(** The key text of a stored value, under the key-encryption key. *)
Definition key_text (k stored : string) : result dek_err string :=
  if is_wrapped stored then unwrap_dek k stored else Ok stored.

Lemma rotate_rows_spec old new todo nonces n d d' m :
  rotate_rows old new nonces todo n d = (d', Ok m) ->
  NoDup todo.*1 -> (List.length todo <= List.length nonces)%nat ->
  Forall (fun x => String.length x = 12%nat) nonces ->
  (forall s v, In (s, v) todo -> stored_dek s d = Some v) ->
  kek d' = kek d /\ m = n + Z.of_nat (List.length todo) /\
  (forall s v, In (s, v) todo -> exists hex nonce, key_text old v = Ok hex /\
     String.length nonce = 12%nat /\ stored_dek s d' = Some (wrap_dek new nonce hex)) /\
  (forall s, s ∉ todo.*1 -> stored_dek s d' = stored_dek s d).
Proof.
  revert nonces n d. induction todo as [|[s0 v0] todo IH]; intros nonces n d Hr Hn Hl Hf Hs.
  { injection Hr as <- <-. repeat split; try done. simpl. lia. }
  cbn [rotate_rows] in Hr. rewrite fmap_cons, NoDup_cons in Hn. destruct Hn as [Hn0 Hn].
  destruct nonces as [|x nonces]; [simpl in Hl; lia|]. cbn [head tail] in Hr.
  apply Forall_cons in Hf as [Hx Hf]. simpl in Hl.
  unfold rotate_one, slift, smodify in Hr. unfold sbind in Hr.
  change (if is_wrapped v0 then unwrap_dek old v0 else Ok v0) with (key_text old v0) in Hr.
  destruct (key_text old v0) as [hex|] eqn:Ek; [|done]. cbn [from_option] in Hr.
  set (d1 := on_slug s0 _ d) in Hr.
  assert (forall s, stored_dek s d1 = if String.eqb s0 s then (some? _ := find_row s d in
    Some (wrap_dek new x hex)) else stored_dek s d) as Hd1 by (intros s; apply stored_on_slug).
  apply IH in Hr as (Hk & Hm & Hin & Hout); [|done|lia|done|].
  - repeat split.
    + exact Hk.
    + simpl. lia.
    + intros s v [[= <- <-]|Hsv]; [|by apply Hin]. exists hex, x. split; [done|]. split; [done|].
      rewrite Hout, Hd1, String.eqb_refl by done.
      specialize (Hs s0 v0 ltac:(by left)). unfold stored_dek in Hs. by destruct (find_row s0 d).
    + intros s [Hs0 Hst]%not_elem_of_cons. rewrite Hout, Hd1 by done.
      destruct (String.eqb_spec s0 s); [by subst|done].
  - intros s v Hsv. rewrite Hd1. destruct (String.eqb_spec s0 s) as [<-|_].
    + exfalso. apply Hn0, list_elem_of_fmap. exists (s0, v). split; [done|]. by apply list_elem_of_In.
    + apply Hs. by right.
Qed.

(** Every stored key is text. *)
Definition dek_text (d : wdb) : Prop :=
  forall r v, In r (rows d) -> w_dek r = Some v -> utf8_ok v = true.

Lemma rotate_kek_spec old new nonces d d' n :
  NoDup (w_slug <$> rows d) -> dek_text d -> kek d = Some old -> String.length new = 32%nat ->
  (List.length (keyed_rows (rows d)) <= List.length nonces)%nat ->
  Forall (fun x => String.length x = 12%nat) nonces ->
  rotate_kek old new nonces d = (d', Ok n) ->
  kek d' = Some new /\ n = Z.of_nat (List.length (keyed_rows (rows d))) /\
  (forall s, get_dek_bytes s d' = get_dek_bytes s d) /\
  (forall s v, stored_dek s d' = Some v -> is_wrapped v = true).
Proof.
  intros Hn Ht Hk Hlen Hnl Hnf Hr. unfold rotate_kek, rotate_all, sget, smodify, sret in Hr.
  unfold sbind at 1 2 in Hr.
  destruct (rotate_rows old new nonces (keyed_rows (rows d)) 0 d) as [d1 [m|]] eqn:Er; [|done].
  unfold sbind in Hr. injection Hr as <- <-.
  apply rotate_rows_spec in Er as (_ & Hm & Hin & Hout); [|by apply keyed_nodup|done|done|].
  2:{ intros s v Hsv. by apply stored_keyed. }
  assert (forall s, stored_dek s {| rows := rows d1; kek := Some new |} = stored_dek s d1) as Hst by done.
  split; [done|]. split; [done|].
  assert (forall s, match stored_dek s d with
    | None => stored_dek s d1 = None
    | Some v => exists hex nonce, key_text old v = Ok hex /\ utf8_ok hex = true /\
        String.length nonce = 12%nat /\ stored_dek s d1 = Some (wrap_dek new nonce hex) end) as Hall.
  { intros s. destruct (stored_dek s d) as [v|] eqn:Ev.
    - pose proof (proj1 (stored_keyed s v d Hn) Ev) as Hsv.
      destruct (Hin s v Hsv) as (hex & nonce & Hkt & Hnn & Hs). exists hex, nonce.
      split; [done|]. split; [|done]. unfold key_text in Hkt. case_match; [by eapply unwrap_utf8|].
      injection Hkt as <-. unfold stored_dek in Ev. destruct (find_row s d) as [r|] eqn:Ef; [|done].
      apply find_row_in in Ef as [Hr _]. by eapply Ht.
    - rewrite Hout; [done|]. intros ((s' & v) & Hs & Hsv)%list_elem_of_fmap. simpl in Hs. subst s'.
      apply list_elem_of_In, stored_keyed in Hsv; [|done]. congruence. }
  split; intros s; specialize (Hall s).
  - unfold get_dek_bytes. rewrite Hst. destruct (stored_dek s d) as [v|]; [|by rewrite Hall].
    destruct Hall as (hex & nonce & Hkt & Hu & Hnn & ->). rewrite is_wrapped_wrap. cbn [kek].
    rewrite unwrap_wrap by done. rewrite Hk. unfold key_text in Hkt.
    destruct (is_wrapped v); rewrite Hkt; done.
  - intros v Hv. rewrite Hst in Hv. destruct (stored_dek s d); [|congruence].
    destruct Hall as (hex & nonce & _ & _ & _ & Hs). rewrite Hs in Hv. injection Hv as <-.
    apply is_wrapped_wrap.
Qed.

(** ** Model allowlists *)

(** A name that survives the comma-separated column. *)
Definition clean_name (n : string) : bool :=
  negb (has_char "," n) && String.eqb (str_trim n) n && negb (String.eqb n "").

Lemma parse_join l :
  Forall (fun n => has_char "," n = false) l ->
  parse_allowlist (join "," l) = List.filter (fun s => negb (String.eqb s "")) (str_trim <$> l).
Proof.
  intros Hl. unfold parse_allowlist. destruct l as [|n l]; [done|].
  by rewrite split_join.
Qed.

Lemma parse_clean l : forallb clean_name l = true -> parse_allowlist (join "," l) = l.
Proof.
  intros Hl. rewrite parse_join.
  - induction l as [|n l IH]; [done|]. cbn [forallb] in Hl. bool_prop.
    unfold clean_name in *. bool_prop. rewrite fmap_cons. cbn [List.filter].
    match goal with H : String.eqb (str_trim n) n = true |- _ => apply String.eqb_eq in H as -> end.
    match goal with H : String.eqb n "" = false |- _ => rewrite H end. cbn [negb]. f_equal. auto.
  - apply Forall_forall. intros n Hn. rewrite forallb_forall in Hl.
    apply list_elem_of_In, Hl in Hn. unfold clean_name in Hn. by bool_prop.
Qed.

Lemma parse_blank l :
  Forall (fun n => has_char "," n = false /\ str_trim n = EmptyString) l -> parse_allowlist (join "," l) = [].
Proof.
  intros Hl. rewrite parse_join.
  - induction Hl as [|n l [_ Hn] _ IH]; [done|]. rewrite fmap_cons, Hn. exact IH.
  - eapply Forall_impl; [exact Hl|]. by intros n [? _].
Qed.

(** ** Sequences of operations *)

Inductive op :=
| OpOpen (uid created k : string)
| OpCreate (ws : Workspace) (fresh nonce : string)
| OpUpdate (ws : Workspace)
| OpDelete (s : string)
| OpRotate (old_kek new_kek : string) (nonces : list string)
| OpDestroy (s : string).

Definition exec (o : op) (d : wdb) : wdb :=
  match o with
  | OpOpen uid created k => open_with_kek (rows d) uid created k
  | OpCreate ws fresh nonce => (create ws fresh nonce d).1
  | OpUpdate ws => (update ws d).1
  | OpDelete s => (delete s d).1
  | OpRotate old new nonces => (rotate_kek old new nonces d).1
  | OpDestroy s => (destroy_dek s d).1
  end.

Definition run (ops : list op) (d : wdb) : wdb := foldl (fun d o => exec o d) d ops.

(** No row of the slug has a key. *)
Definition unkeyed (s : string) (d : wdb) : Prop :=
  forall r, In r (rows d) -> w_slug r = s -> w_dek r = None.

Definition creates (s : string) (o : op) : bool :=
  match o with OpCreate ws _ _ => String.eqb (slug ws) s | _ => false end.

Lemma in_on_slug s f d r :
  In r (rows (on_slug s f d)) -> exists r0, In r0 (rows d) /\ r = (if String.eqb (w_slug r0) s then f r0 else r0).
Proof.
  intros Hr. unfold on_slug in Hr. simpl in Hr.
  apply list_elem_of_In, list_elem_of_fmap in Hr as (r0 & -> & Hr0). exists r0.
  split; [by apply list_elem_of_In|done].
Qed.

Lemma unkeyed_get s d : unkeyed s d -> get_dek_bytes s d = Ok None.
Proof.
  intros Hu. unfold get_dek_bytes, stored_dek. destruct (find_row s d) as [r|] eqn:E; [|done].
  apply find_row_in in E as [Hr Hs]. by rewrite (Hu r Hr Hs).
Qed.

Lemma unkeyed_not_in s d : unkeyed s d -> s ∉ (keyed_rows (rows d)).*1.
Proof.
  intros Hu ((s' & v) & Hs & Hin)%list_elem_of_fmap. simpl in Hs. subst s'.
  apply list_elem_of_omap in Hin as (r & Hr & Hv). apply list_elem_of_In in Hr.
  destruct (w_dek r) eqn:Ed; [|done]. simpl in Hv. injection Hv as Hv _.
  rewrite (Hu r Hr Hv) in Ed. done.
Qed.

Lemma rotate_rows_unkeyed old new todo nonces n d s :
  s ∉ todo.*1 -> unkeyed s d -> unkeyed s (rotate_rows old new nonces todo n d).1.
Proof.
  revert nonces n d. induction todo as [|[s0 v0] todo IH]; intros nonces n d Hs Hu; [done|].
  rewrite fmap_cons in Hs. apply not_elem_of_cons in Hs as [Hne Hs]. cbn [rotate_rows].
  unfold rotate_one, slift, smodify. unfold sbind.
  fold (key_text old v0). destruct (key_text old v0) as [hex|]; [|done]. apply IH; [done|].
  intros r (r0 & Hr0 & ->)%in_on_slug. destruct (String.eqb_spec (w_slug r0) s0) as [E|_].
  - simpl. intros Hrs. destruct Hne. simpl. congruence.
  - by apply Hu.
Qed.

Lemma exec_unkeyed o s d : creates s o = false -> unkeyed s d -> unkeyed s (exec o d).
Proof.
  intros Hc Hu. destruct o as [uid created k|ws fresh nonce|ws|s'|old new nonces|s']; cbn [exec].
  - unfold open_with_kek, open_conn, unkeyed. simpl. case_match; [done|].
    intros r [Hr|[<-|[]]]%in_app_or; [by apply Hu|done].
  - unfold create. cbn zeta. case_match; [done|]. unfold unkeyed. simpl.
    intros r [Hr|[<-|[]]]%in_app_or; [by apply Hu|]. simpl. intros Hs.
    simpl in Hc. by rewrite Hs, String.eqb_refl in Hc.
  - intros r (r0 & Hr0 & ->)%in_on_slug. specialize (Hu r0 Hr0). by case_match.
  - unfold delete. case_match; [done|]. intros r [Hr _]%filter_In. by apply Hu.
  - unfold rotate_kek, rotate_all, sget, smodify, sret. unfold sbind at 1 2.
    pose proof (rotate_rows_unkeyed old new (keyed_rows (rows d)) nonces 0 d s
                  (unkeyed_not_in s d Hu) Hu) as Hr.
    destruct (rotate_rows _ _ _ _ _ _) as [d1 [m|]]; exact Hr.
  - intros r (r0 & Hr0 & ->)%in_on_slug. specialize (Hu r0 Hr0). by case_match.
Qed.

Lemma run_unkeyed ops s d :
  Forall (fun o => creates s o = false) ops -> unkeyed s d -> unkeyed s (run ops d).
Proof.
  intros Hf. revert d. induction Hf as [|o ops Ho _ IH]; intros d Hu; [done|].
  cbn [run foldl]. by apply IH, exec_unkeyed.
Qed.

(** The default workspace is there and has no key. *)
Definition default_unkeyed (d : wdb) : Prop := has_slug "default" d = true /\ unkeyed "default" d.

Lemma has_slug_on_slug s f d s' :
  (forall r, w_slug (f r) = w_slug r) -> has_slug s' (on_slug s f d) = has_slug s' d.
Proof.
  intros Hf. unfold has_slug, on_slug. simpl. induction (rows d) as [|r l IH]; [done|]. simpl.
  rewrite <- IH. f_equal. by destruct (String.eqb (w_slug r) s); rewrite ?Hf.
Qed.

Lemma rotate_rows_has old new todo nonces n d s :
  has_slug s (rotate_rows old new nonces todo n d).1 = has_slug s d.
Proof.
  revert nonces n d. induction todo as [|[s0 v0] todo IH]; intros nonces n d; [done|].
  cbn [rotate_rows]. unfold rotate_one, slift, smodify. unfold sbind.
  fold (key_text old v0). destruct (key_text old v0) as [hex|]; [|done].
  rewrite IH. by apply has_slug_on_slug.
Qed.

Lemma exec_default o d : default_unkeyed d -> default_unkeyed (exec o d).
Proof.
  intros [Hd Hu]. destruct (creates "default" o) eqn:Ec.
  { destruct o as [|ws fresh nonce| | | |]; try done. apply String.eqb_eq in Ec.
    cbn [exec]. unfold create. cbn zeta. rewrite Ec.
    replace (existsb (same_key (id ws) "default") (rows d)) with true; [done|].
    symmetry. unfold has_slug in Hd. apply existsb_exists in Hd as (r & Hr & Hs).
    apply existsb_exists. exists r. split; [done|]. unfold same_key. by rewrite Hs, orb_true_r. }
  split; [|by apply exec_unkeyed].
  destruct o as [uid created k|ws fresh nonce|ws|s'|old new nonces|s']; cbn [exec].
  - unfold open_with_kek, open_conn, has_slug in *. simpl. case_match; [done|].
    rewrite existsb_app. by rewrite Hd.
  - unfold create. cbn zeta. case_match; [done|]. unfold has_slug in *. simpl.
    rewrite existsb_app. by rewrite Hd.
  - unfold update. simpl. by rewrite has_slug_on_slug.
  - unfold delete. destruct (String.eqb_spec s' "default") as [|Hs']; [done|]. cbn [fst].
    unfold has_slug in *. apply existsb_exists in Hd as (r & Hr & Hs). apply existsb_exists.
    exists r. split; [|done]. simpl. apply filter_In. split; [done|].
    apply String.eqb_eq in Hs. rewrite Hs. apply negb_true_iff, String.eqb_neq. congruence.
  - unfold rotate_kek, rotate_all, sget, smodify, sret. unfold sbind at 1 2.
    pose proof (rotate_rows_has old new (keyed_rows (rows d)) nonces 0 d "default") as Hr.
    destruct (rotate_rows _ _ _ _ _ _) as [d1 [m|]]; unfold has_slug in *; simpl in *; congruence.
  - unfold destroy_dek. simpl. by rewrite has_slug_on_slug.
Qed.

Lemma run_default ops d : default_unkeyed d -> default_unkeyed (run ops d).
Proof.
  revert d. induction ops as [|o ops IH]; intros d Hd; [done|]. cbn [run foldl].
  by apply IH, exec_default.
Qed.

Lemma rotate_rows_frame old new todo nonces n d s :
  s ∉ todo.*1 ->
  stored_dek s (rotate_rows old new nonces todo n d).1 = stored_dek s d /\
  kek (rotate_rows old new nonces todo n d).1 = kek d.
Proof.
  revert nonces n d. induction todo as [|[s0 v0] todo IH]; intros nonces n d Hs; [done|].
  rewrite fmap_cons in Hs. apply not_elem_of_cons in Hs as [Hne Hs]. cbn [rotate_rows].
  unfold rotate_one, slift, smodify. unfold sbind.
  fold (key_text old v0). destruct (key_text old v0) as [hex|]; [|done].
  destruct (IH (tail nonces) (n + 1) (on_slug s0 (fun r => with_dek r
    (Some (wrap_dek new (default EmptyString (head nonces)) hex))) d) Hs) as [-> ->].
  rewrite stored_on_slug. destruct (String.eqb_spec s0 s); [by subst|done].
Qed.

Lemma find_app_none {A} (p : A -> bool) l r :
  existsb p l = false -> List.find p (l ++ r) = List.find p r.
Proof.
  induction l as [|x l IH]; [done|]. cbn [existsb app List.find].
  intros [Hx Hl]%orb_false_iff. rewrite Hx. by apply IH.
Qed.

Lemma get_created ws fresh nonce now d d' :
  create ws fresh nonce d = (d', Ok tt) -> forallb clean_name (model_allowlist ws) = true ->
  in_era (created_at ws) -> has_slug (slug ws) d = false ->
  exists stored, get_by_slug (slug ws) now d' = Some {|
    id := id ws; slug := slug ws; name := name ws; api_key_hash := api_key_hash ws;
    model_allowlist := model_allowlist ws; rate_limit_rpm := rate_limit_rpm ws;
    system_prompt := system_prompt ws; created_at := created_at ws;
    net_namespace := net_namespace ws;
    max_concurrent_requests := max_concurrent_requests ws; max_models := max_models ws;
    max_memory_bytes := max_memory_bytes ws; dek := Some stored |} /\
  stored = match kek d with
           | Some k => wrap_dek k nonce (default (generate_dek fresh) (dek ws))
           | None => default (generate_dek fresh) (dek ws)
           end.
Proof.
  unfold create. cbn zeta. intros Hc Ha He Hs. case_match; [done|]. injection Hc as <-.
  eexists. split; [|reflexivity]. unfold get_by_slug, find_row. simpl.
  rewrite find_app_none by exact Hs.
  simpl. rewrite String.eqb_refl. simpl. unfold row_to_workspace. simpl.
  rewrite parse_clean, parse_datetime_rfc3339 by done. simpl. by destruct (net_namespace ws).
Qed.

Lemma create_has_slug ws fresh nonce d d' :
  create ws fresh nonce d = (d', Ok tt) -> has_slug (slug ws) d = false.
Proof.
  unfold create. cbn zeta. destruct (existsb _ _) eqn:E; [done|]. intros _. apply not_true_iff_false.
  intros Ht. apply not_true_iff_false in E. apply E. unfold has_slug in Ht.
  apply existsb_exists in Ht as (r & Hr & Hs). apply existsb_exists. exists r. split; [done|].
  unfold same_key. by rewrite Hs, orb_true_r.
Qed.

(** ** Properties *)

(** a rotation of the master key that succeeds re-wraps every key, counts them,
    and changes the key bytes of no workspace: each reads as before, shredded ones
    (no key) and unreadable ones included. *)
Theorem rotation_keeps_keys old new nonces d d' n :
  NoDup (w_slug <$> rows d) -> dek_text d -> kek d = Some old -> String.length new = 32%nat ->
  (List.length (keyed_rows (rows d)) <= List.length nonces)%nat ->
  Forall (fun x => String.length x = 12%nat) nonces ->
  rotate_kek old new nonces d = (d', Ok n) ->
  kek d' = Some new /\ n = Z.of_nat (List.length (keyed_rows (rows d))) /\
  (forall s, get_dek_bytes s d' = get_dek_bytes s d) /\
  (forall s v, stored_dek s d' = Some v -> is_wrapped v = true).
Proof. apply rotate_kek_spec. Qed.

(** a rotation that fails on a later key keeps the old master key loaded and
    leaves the first workspace's key wrapped under the new one. *)
Theorem failed_rotation_splits old new x nonces d d' e r rest v hex :
  NoDup (w_slug <$> rows d) -> rows d = r :: rest -> w_dek r = Some v ->
  key_text old v = Ok hex -> rotate_kek old new (x :: nonces) d = (d', Err e) ->
  kek d' = kek d /\ stored_dek (w_slug r) d' = Some (wrap_dek new x hex).
Proof.
  intros Hn Hrows Hv Hk Hr. unfold rotate_kek, rotate_all, sget, smodify, sret in Hr.
  unfold sbind at 1 2 in Hr. pose proof (keyed_nodup _ Hn) as Hkn.
  assert (keyed_rows (rows d) = (w_slug r, v) :: keyed_rows rest) as Hkr
    by (rewrite Hrows; unfold keyed_rows; cbn [omap list_omap]; by rewrite Hv).
  rewrite Hkr in *. cbn [rotate_rows head tail] in Hr. rewrite fmap_cons, NoDup_cons in Hkn.
  destruct Hkn as [Hs _]. revert Hr. unfold rotate_one, slift, smodify. unfold sbind at 1 2.
  fold (key_text old v). rewrite Hk. cbn [from_option].
  set (d1 := on_slug _ _ d). pose proof (rotate_rows_frame old new (keyed_rows rest) nonces (0 + 1) d1 _ Hs) as [Hf Hkk].
  destruct (rotate_rows _ _ _ _ _ d1) as [d2 [m|]]; cbn [fst] in *; [done|].
  intros [= <- _]. split; [done|]. rewrite Hf. unfold d1. rewrite stored_on_slug, String.eqb_refl.
  unfold find_row. rewrite Hrows. simpl. by rewrite String.eqb_refl.
Qed.

(** once the key of a workspace is destroyed, no operation brings it back (updates,
    rotations, restarts, deletions), but the creation of a new workspace under the
    same slug. *)
Theorem shredded_stays s d ops :
  Forall (fun o => creates s o = false) ops ->
  get_dek_bytes s (run ops (destroy_dek s d).1) = Ok None.
Proof.
  intros Hf. apply unkeyed_get, run_unkeyed; [done|]. intros r (r0 & Hr0 & ->)%in_on_slug.
  by destruct (String.eqb_spec (w_slug r0) s).
Qed.

(** the default workspace never has a key: whatever operations follow the first
    start, its key reads as absent (so that the store that asks for it at a start
    never encrypts), and it is never deleted. *)
Theorem default_never_keyed uid created k ops :
  let d := run ops (open_with_kek [] uid created k) in
  get_dek_bytes "default" d = Ok None /\ has_slug "default" d = true.
Proof.
  cbn zeta. destruct (run_default ops (open_with_kek [] uid created k)) as [Hd Hu].
  - split; [done|]. by intros r [<-|[]].
  - split; [by apply unkeyed_get|done].
Qed.

(** a workspace that is created reads back as it was given, with its key wrapped
    under the master key when one is loaded, provided the names of its allowlist are
    trimmed, not empty and without a comma. *)
Theorem workspace_round ws fresh nonce now d d' :
  create ws fresh nonce d = (d', Ok tt) -> forallb clean_name (model_allowlist ws) = true ->
  in_era (created_at ws) ->
  exists stored, get_by_slug (slug ws) now d' = Some {|
    id := id ws; slug := slug ws; name := name ws; api_key_hash := api_key_hash ws;
    model_allowlist := model_allowlist ws; rate_limit_rpm := rate_limit_rpm ws;
    system_prompt := system_prompt ws; created_at := created_at ws;
    net_namespace := net_namespace ws;
    max_concurrent_requests := max_concurrent_requests ws; max_models := max_models ws;
    max_memory_bytes := max_memory_bytes ws; dek := Some stored |} /\
  stored = match kek d with
           | Some k => wrap_dek k nonce (default (generate_dek fresh) (dek ws))
           | None => default (generate_dek fresh) (dek ws)
           end.
Proof. intros Hc Ha He. apply get_created; try done. by eapply create_has_slug. Qed.

(** an allowlist whose names are all blank allows no model as it is given and
    every model once it is stored. *)
Theorem blank_allowlist_opens ws now d n w :
  model_allowlist ws <> [] ->
  Forall (fun m => has_char "," m = false /\ str_trim m = EmptyString) (model_allowlist ws) ->
  str_trim n = n -> n <> EmptyString ->
  get_by_slug (slug ws) now (update ws d).1 = Some w ->
  allows_model ws n = false /\ allows_model w n = true.
Proof.
  intros Hne Hb Hn Hn0 Hw. split.
  - unfold allows_model. destruct (model_allowlist ws) as [|m l] eqn:E; [done|]. cbn [orb].
    apply not_true_iff_false. rewrite existsb_exists. intros (x & Hx & ->%String.eqb_eq).
    rewrite Forall_forall in Hb. apply list_elem_of_In in Hx. apply Hb in Hx as [_ Hx]. congruence.
  - unfold get_by_slug, update in Hw. cbn [fst] in Hw. rewrite find_on_slug, String.eqb_refl in Hw by done.
    destruct (find_row (slug ws) d) as [r|]; [|done]. injection Hw as <-.
    unfold allows_model. simpl. by rewrite parse_blank.
Qed.

End workspace_db.

End WorkspaceDb.
