(* ===== verification/WorkspaceApi.v ===== *)
(** * The workspace routes of the API

    Models [maranode-api/src/workspace_ctx.rs], [routes/workspaces.rs] and the calls
    of [maranode-isolation/src/netns.rs]. The command [ip netns] is not part of the
    repository: its effect on the host's namespaces is a parameter. The clock, ids,
    keys and nonces that are drawn are arguments. *)

From Stdlib Require Import ZArith Lia Ascii String.
From S2P Require Import Prelude Common Crypto RagChunk RagText UserDb Auth WorkspaceDb.
Open Scope Z_scope.

Module WorkspaceApi.
Import Common.Workspace WorkspaceDb.WorkspaceDb Auth.Auth.

Record ws_headers := { base : headers; x_maranode_workspace : option string }.

(** The server with its workspaces and the host's network namespaces. *)
Record wserver := { auth : server; ws_db : wdb; host : list string }.

Definition set_ws (s : wserver) (d : wdb) : wserver := {| auth := auth s; ws_db := d; host := host s |}.
Definition set_host (s : wserver) (h : list string) : wserver :=
  {| auth := auth s; ws_db := ws_db s; host := h |}.

Definition on_auth {A} (m : SE server api_error A) : SE wserver api_error A :=
  fun s => let r := m (auth s) in ({| auth := r.1; ws_db := ws_db s; host := host s |}, r.2).

Definition on_ws {A} (m : SE wdb dek_err A) : SE wserver api_error A :=
  fun s => let r := m (ws_db s) in (set_ws s r.1, map_err (fun _ => Internal) r.2).

Section workspaces.
Context `{!Rfc3339, !DateTimeText, !PasswordHash, !Aead, !Hex, !Sha256, !Unicode}.

(** The command [ip netns add|del]: the namespaces after it, and its success. *)
Variable ip_netns_add ip_netns_del : list string -> string -> list string * bool.

(** ** netns.rs *)

Definition NS_PREFIX : string := "maranode-ws-".
Definition ns_name (slug : string) : string := NS_PREFIX +:+ slug.

Definition netns_create (slug : string) : SE (list string) unit unit := fun h =>
  let r := ip_netns_add h (ns_name slug) in (r.1, if r.2 then Ok tt else Err tt).

Definition netns_delete (slug : string) : SE (list string) unit unit := fun h =>
  let r := ip_netns_del h (ns_name slug) in (r.1, if r.2 then Ok tt else Err tt).

Definition netns_exists (slug : string) (h : list string) : bool :=
  existsb (String.eqb (ns_name slug)) h.

Definition on_host {A} (m : SE (list string) unit A) : SE wserver api_error A :=
  fun s => let r := m (host s) in (set_host s r.1, map_err (fun _ => Internal) r.2).

(** ** The workspace of a request *)

Definition workspace_ctx (h : ws_headers) (now : Z) (s : wserver) : result api_error Workspace :=
  let wanted := default "default" (x_maranode_workspace h) in
  let bearer := default EmptyString (raw_bearer (base h)) in
  if key_matches (admin_key (auth s)) bearer
  then ok_or (get_by_slug wanted now (ws_db s)) Unauthorized
  else
    let? ws := ok_or (get_by_slug wanted now (ws_db s)) Unauthorized in
    match api_key_hash ws with
    | Some expected_hash =>
      let provided_hash := sha256_hex bearer in
      guard Secure.ct_eq_str provided_hash expected_hash else Unauthorized in Ok ws
    | None => Ok ws
    end.

(** ** Routes *)

Record create_req := {
  c_slug : string;
  c_name : string;
  c_api_key : option string;
  c_no_key : bool;
  c_model_allowlist : option (list string);
  c_rate_limit_rpm : option Z;
  c_system_prompt : option string;
  c_net_namespace : bool;
  c_max_concurrent_requests : option Z;
  c_max_models : option Z;
  c_max_memory_bytes : option Z;
}.

(** [trim().to_lowercase()], over the Unicode tables. *)
Variable trim_lower : string -> string.

Definition slug_char (c : Z) : bool := is_alphanumeric c || (c =? 45) || (c =? 95).

(** The key that is returned, and the hash that is stored; [raw] is the random key. *)
Definition new_key (req : create_req) (raw : string) : option string * option string :=
  if c_no_key req then (None, None) else
  match c_api_key req with
  | Some k => (None, Some (sha256_hex k))
  | None => (Some raw, Some (sha256_hex raw))
  end.

Definition create_workspace (h : headers) (req : create_req) (now : Z) (uid raw fresh nonce : string)
    : SE wserver api_error (option string * Workspace) :=
  do! _ := on_auth (authorize_permission h Common.User.WorkspaceManage now) in
  let sl := trim_lower (c_slug req) in
  if String.eqb sl "" || negb (forallb slug_char (Utf8.chars sl)) then sfail BadRequest else
  let key := new_key req raw in
  do! _ := (if c_net_namespace req then on_host (netns_create sl) else sret tt) in
  let ws := {|
    id := uid; slug := sl; name := c_name req; api_key_hash := key.2;
    model_allowlist := default [] (c_model_allowlist req);
    rate_limit_rpm := c_rate_limit_rpm req; system_prompt := c_system_prompt req;
    created_at := now; net_namespace := c_net_namespace req;
    max_concurrent_requests := c_max_concurrent_requests req; max_models := c_max_models req;
    max_memory_bytes := c_max_memory_bytes req; dek := None |} in
  do! _ := on_ws (create ws fresh nonce) in
  sret (key.1, ws).

Record update_req := {
  u_name : option string;
  u_api_key : option string;
  u_clear_key : option bool;
  u_rotate_key : option bool;
  u_model_allowlist : option (list string);
  u_rate_limit_rpm : option Z;
  u_clear_rate_limit : option bool;
  u_system_prompt : option string;
  u_clear_system_prompt : option bool;
  u_max_concurrent_requests : option Z;
  u_clear_max_concurrent_requests : option bool;
  u_max_models : option Z;
  u_clear_max_models : option bool;
  u_max_memory_bytes : option Z;
  u_clear_max_memory_bytes : option bool;
}.

Definition is_true_opt (o : option bool) : bool := match o with Some b => b | None => false end.

(** A field with a flag that clears it. *)
Definition patch {A} (clear : option bool) (new old : option A) : option A :=
  if is_true_opt clear then None else match new with Some v => Some v | None => old end.

Definition patched_key (req : update_req) (raw : string) (old : option string)
    : option string * option string :=
  if is_true_opt (u_clear_key req) then (None, None)
  else if is_true_opt (u_rotate_key req) then (Some raw, Some (sha256_hex raw))
  else match u_api_key req with
       | Some k => (None, Some (sha256_hex k))
       | None => (None, old)
       end.

Definition patched (req : update_req) (hash : option string) (ws : Workspace) : Workspace := {|
  id := id ws; slug := slug ws; name := default (name ws) (u_name req); api_key_hash := hash;
  model_allowlist := default (model_allowlist ws) (u_model_allowlist req);
  rate_limit_rpm := patch (u_clear_rate_limit req) (u_rate_limit_rpm req) (rate_limit_rpm ws);
  system_prompt := patch (u_clear_system_prompt req) (u_system_prompt req) (system_prompt ws);
  created_at := created_at ws; net_namespace := net_namespace ws;
  max_concurrent_requests := patch (u_clear_max_concurrent_requests req)
    (u_max_concurrent_requests req) (max_concurrent_requests ws);
  max_models := patch (u_clear_max_models req) (u_max_models req) (max_models ws);
  max_memory_bytes := patch (u_clear_max_memory_bytes req) (u_max_memory_bytes req) (max_memory_bytes ws);
  dek := dek ws;
|}.

Definition update_workspace (h : headers) (sl : string) (req : update_req) (now : Z) (raw : string)
    : SE wserver api_error (option string * Workspace) :=
  do! _ := on_auth (authorize_permission h Common.User.WorkspaceManage now) in
  do! s := sget in
  do! ws := slift (ok_or (get_by_slug sl now (ws_db s)) NotFound) in
  let key := patched_key req raw (api_key_hash ws) in
  let ws := patched req key.2 ws in
  do! _ := on_ws (update ws) in
  sret (key.1, ws).

Definition del_workspace (h : headers) (sl : string) (now : Z) : SE wserver api_error unit :=
  do! _ := on_auth (authorize_permission h Common.User.WorkspaceManage now) in
  do! s := sget in
  do! ws := slift (ok_or (get_by_slug sl now (ws_db s)) NotFound) in
  do! _ := (if net_namespace ws && netns_exists sl (host s)
            then signore (on_host (netns_delete sl)) else sret tt) in
  do! deleted := on_ws (delete sl) in
  if deleted then sret tt else sfail NotFound.

(** ** Lemmas *)

Lemma authorize_state h perm now s : (authorize_privileged h perm now s).1 = s.
Proof.
  unfold authorize_privileged, sbind, sget, sret, sfail.
  destruct (bearer_from_headers h); repeat case_match; done.
Qed.

Lemma on_auth_authorize h p now s :
  (on_auth (authorize_permission h p now) s).1 = s.
Proof. unfold on_auth, authorize_permission. rewrite authorize_state. by destruct s. Qed.

(** A route that starts with the check does nothing when it fails. *)
Lemma guarded {A} h p now (k : SE wserver api_error A) s e :
  (authorize_permission h p now (auth s)).2 = Err e ->
  sbind (on_auth (authorize_permission h p now)) (fun _ => k) s = (s, Err e).
Proof.
  intros He. unfold sbind. pose proof (on_auth_authorize h p now s) as Hs.
  unfold on_auth in *. rewrite He in *. cbn [fst snd] in *. by rewrite Hs.
Qed.

(** ** Properties *)

(** a request gets a workspace exactly when the workspace that its header names
    ([default] when there is none) exists and it carries the host's admin key, or
    the workspace has no key, or the hash of the token is the stored one. *)
Theorem workspace_access_iff h now s ws :
  workspace_ctx h now s = Ok ws <->
  get_by_slug (default "default" (x_maranode_workspace h)) now (ws_db s) = Some ws /\
  (key_matches (admin_key (auth s)) (default EmptyString (raw_bearer (base h))) = true \/
   api_key_hash ws = None \/
   api_key_hash ws = Some (sha256_hex (default EmptyString (raw_bearer (base h))))).
Proof.
  unfold workspace_ctx. cbn zeta.
  set (b := default EmptyString (raw_bearer (base h))).
  destruct (get_by_slug _ now (ws_db s)) as [w|]; cbn [ok_or rbind].
  2:{ case_match; split; try done; by intros [? _]. }
  destruct (key_matches (admin_key (auth s)) b); [split; [intros [= ->]; auto|by intros [[= ->] _]]|].
  destruct (api_key_hash w) as [e|] eqn:Eh.
  - destruct (Secure.ct_eq_str (sha256_hex b) e) eqn:Ec.
    + apply Secure.ct_eq_str_true in Ec as <-. split; [intros [= <-]; by auto|by intros [[= ->] _]].
    + apply Secure.ct_eq_str_false in Ec. split; [done|]. intros [[= <-] [?|[?|Hx]]]; [done|congruence|].
      rewrite Eh in Hx. injection Hx as Hx. congruence.
  - split; [intros [= <-]; by auto|by intros [[= ->] _]].
Qed.

(** the routes that create, change and delete workspaces do nothing for a caller
    without the right: no workspace, account, session or network namespace changes. *)
Theorem workspace_routes_guarded h now s e req u sl uid raw fresh nonce :
  (authorize_permission h Common.User.WorkspaceManage now (auth s)).2 = Err e ->
  create_workspace h req now uid raw fresh nonce s = (s, Err e) /\
  update_workspace h sl u now raw s = (s, Err e) /\
  del_workspace h sl now s = (s, Err e).
Proof. intros He. split; [|split]; by apply guarded. Qed.

(** a workspace that is created with a generated key is reached with that key and
    with no token of another hash, the host's admin key apart; one created without a
    key is reached with any token. *)
Theorem created_key_gates h req now uid raw fresh nonce s s' k ws h' t :
  create_workspace h req now uid raw fresh nonce s = (s', Ok (k, ws)) ->
  forallb clean_name (default [] (c_model_allowlist req)) = true -> in_era now ->
  x_maranode_workspace h' = Some (slug ws) -> c_api_key req = None ->
  key_matches (admin_key (auth s)) (default EmptyString (raw_bearer (base h'))) = false ->
  k = (if c_no_key req then None else Some raw) /\
  (is_ok (workspace_ctx h' t s') = true <->
   c_no_key req = true \/ sha256_hex (default EmptyString (raw_bearer (base h'))) = sha256_hex raw).
Proof.
  intros Hc Ha He Hx Hk Hm. unfold create_workspace in Hc. unfold sbind at 1 in Hc.
  pose proof (on_auth_authorize h Common.User.WorkspaceManage now s) as Hs0.
  destruct (on_auth _ s) as [s0 [[]|]]; simpl in Hs0; subst s0; [|done].
  case_hyp; [done|]. unfold sbind at 1 in Hc.
  set (m := if c_net_namespace req then _ else _) in Hc.
  assert (auth (m s).1 = auth s /\ ws_db (m s).1 = ws_db s) as [Hauth Hdb]
    by (unfold m; by destruct (c_net_namespace req)).
  destruct (m s) as [s1 [[]|]]; [|done]. cbn [fst] in Hauth, Hdb.
  unfold sbind, on_ws, sret in Hc. rewrite Hdb in Hc.
  match goal with H : context [create ?w fresh nonce (ws_db s)] |- _ =>
    destruct (create w fresh nonce (ws_db s)) as [d' [[]|]] eqn:Ec end; cbn [map_err snd fst] in Hc; [|done].
  injection Hc as <- <- <-.
  pose proof (create_has_slug _ _ _ _ _ Ec) as Hns.
  destruct (get_created _ fresh nonce t _ _ Ec Ha He Hns) as (stored & Hget & _).
  unfold new_key in *. rewrite Hk in *. cbn [slug] in *. split; [by destruct (c_no_key req)|].
  assert (forall r : result api_error Workspace, is_ok r = true <-> exists w, r = Ok w) as Hok
    by (intros [w|]; simpl; split; try done; [by exists w|by intros [? ?]]).
  rewrite Hok. setoid_rewrite workspace_access_iff. rewrite Hx.
  change (default "default" (Some ?x)) with x. cbn [set_ws ws_db auth].
  rewrite Hget, Hauth, Hm. destruct (c_no_key req); cbn [snd fst].
  - split; [by left|]. intros _. eexists. split; [done|]. right. by left.
  - split.
    + intros (w & [= <-] & [?|[?|Hh]]); [done|done|]. simpl in Hh. right. congruence.
    + intros [?|Hh]; [done|]. eexists. split; [done|]. right. right. simpl. congruence.
Qed.

End workspaces.

End WorkspaceApi.
