(* ===== verification/WorkspaceDemo.v ===== *)
(** * Workspaces: concrete states and witnesses

    A database with the default workspace and one more, on the executable instances
    of the interfaces; each witness applies a theorem of [WorkspaceDb] or [WorkspaceApi] to it. *)

From Stdlib Require Import ZArith Lia Ascii String.
From S2P Require Import Prelude Common Crypto Fs RagChunk UserDb Auth WorkspaceDb WorkspaceApi AuditRotate Instances.
Open Scope Z_scope.

Import Common.Workspace Kek WorkspaceDb UserDb.UserDemo.

#[export] Instance toy_datetime : DateTimeText := {|
  parse_datetime := undigits 68;
  parse_datetime_rfc3339 t Ht := undigits_digits 68 t (era_digits t Ht);
|}.

Definition clinic : Workspace := {|
  id := "w-1"; slug := "clinic"; name := "Clinic"; api_key_hash := None;
  model_allowlist := ["llama3:8b"; "phi3:mini"]; rate_limit_rpm := Some 30; system_prompt := None;
  created_at := 7; net_namespace := false; max_concurrent_requests := None; max_models := Some 2;
  max_memory_bytes := None; dek := Some "ab" |}.

Definition d0 : wdb := open [] "w-0" "2024-01-01 00:00:00".
Definition d1 : wdb := (create clinic "" "" d0).1.

Lemma workspace_round_witness :
  exists stored, get_by_slug "clinic" 9 d1 = Some {|
    id := "w-1"; slug := "clinic"; name := "Clinic"; api_key_hash := None;
    model_allowlist := ["llama3:8b"; "phi3:mini"]; rate_limit_rpm := Some 30; system_prompt := None;
    created_at := 7; net_namespace := false; max_concurrent_requests := None; max_models := Some 2;
    max_memory_bytes := None; dek := Some stored |} /\ stored = "ab".
Proof.
  apply (workspace_round clinic "" "" 9 d0 d1).
  - reflexivity.
  - by vm_compute.
  - unfold in_era, ns_per_s. simpl. lia.
Defined.

Lemma shredded_stays_witness :
  get_dek_bytes "clinic" (run [OpUpdate clinic; OpDelete "other"] (destroy_dek "clinic" d1).1) = Ok None.
Proof. apply shredded_stays. repeat constructor. Defined.

Definition k_old : string := "0123456789abcdef0123456789abcdef".
Definition k_new : string := "fedcba9876543210fedcba9876543210".

(** The master key loaded over a key stored in clear. *)
Definition d2 : wdb := exec (OpOpen "w-9" "2024-01-02 00:00:00" k_old) d1.
Definition d3 : wdb := (rotate_kek k_old k_new ["nonce-nonce1"] d2).1.

Lemma d2_slugs : NoDup (w_slug <$> rows d2).
Proof. apply (bool_decide_unpack _). by vm_compute. Qed.

Lemma rotation_keeps_keys_witness :
  kek d3 = Some k_new /\ 1 = Z.of_nat (List.length (keyed_rows (rows d2))) /\
  (forall s, get_dek_bytes s d3 = get_dek_bytes s d2) /\
  (forall s v, stored_dek s d3 = Some v -> is_wrapped v = true).
Proof.
  apply (rotation_keeps_keys k_old k_new ["nonce-nonce1"] d2 d3 1).
  - exact d2_slugs.
  - intros r v [<-|[<-|[]]]; [done|]. by intros [= <-].
  - reflexivity.
  - reflexivity.
  - simpl. lia.
  - by repeat constructor.
  - reflexivity.
Defined.

Lemma master_key_stable_witness :
  exists f', load_or_create 18 fs_empty "/data/master.key" k_old = Ok (f', k_old) /\
    forall other, load_or_create 18 f' "/data/master.key" other = Ok (f', k_old).
Proof.
  apply (master_key_stable 18 fs_empty "/data/master.key" k_old).
  - exact fs_wf_empty.
  - reflexivity.
  - reflexivity.
Defined.

(** A second workspace, whose stored key does not unwrap. *)
Definition broken : Workspace := {|
  id := "w-2"; slug := "broken"; name := "Broken"; api_key_hash := None; model_allowlist := [" "];
  rate_limit_rpm := None; system_prompt := None; created_at := 8; net_namespace := false;
  max_concurrent_requests := None; max_models := None; max_memory_bytes := None;
  dek := Some "wrapped:" |}.

Definition d4 : wdb := {| rows := tail (rows (create broken "" "" d1).1); kek := Some k_old |}.
Definition d5 : wdb := (rotate_kek k_old k_new ["nonce-nonce1"; "nonce-nonce2"] d4).1.

Lemma failed_rotation_splits_witness :
  kek d5 = Some k_old /\ stored_dek "clinic" d5 = Some (wrap_dek k_new "nonce-nonce1" "ab").
Proof.
  apply (failed_rotation_splits k_old k_new "nonce-nonce1" ["nonce-nonce2"] d4 d5 TooShort
           (default (default_row "" "") (head (rows d4))) (tail (rows d4)) "ab" "ab").
  - apply (bool_decide_unpack _). by vm_compute.
  - reflexivity.
  - reflexivity.
  - reflexivity.
  - reflexivity.
Defined.

Lemma blank_allowlist_opens_witness :
  allows_model broken "llama3:8b" = false /\
  allows_model (default broken (get_by_slug "broken" 9 (update broken d4).1)) "llama3:8b" = true.
Proof.
  apply (blank_allowlist_opens broken 9 d4 "llama3:8b"
           (default broken (get_by_slug "broken" 9 (update broken d4).1))).
  - done.
  - repeat constructor.
  - by vm_compute.
  - done.
  - by vm_compute.
Defined.

(** ** The routes *)

Import RagChunk.ChunkDemo WorkspaceApi.WorkspaceApi.

Definition ip_add (h : list string) (n : string) : list string * bool := (h ++ [n], true).
Definition ip_del (h : list string) (n : string) : list string * bool :=
  (List.filter (fun m => negb (String.eqb m n)) h, true).

Definition with_token (v : string) : Auth.Auth.headers := {|
  Auth.Auth.authorization := Some v; Auth.Auth.x_forwarded_for := None; Auth.Auth.x_real_ip := None |}.

Definition ws_srv : wserver := {|
  auth := AuthDemo.srv UserDb.UserDb.empty_db; ws_db := d0; host := [] |}.

Definition new_clinic : create_req := {|
  c_slug := "clinic"; c_name := "Clinic"; c_api_key := None; c_no_key := false;
  c_model_allowlist := None; c_rate_limit_rpm := None; c_system_prompt := None;
  c_net_namespace := true; c_max_concurrent_requests := None; c_max_models := None;
  c_max_memory_bytes := None |}.

Definition no_change : update_req := {|
  u_name := None; u_api_key := None; u_clear_key := None; u_rotate_key := None;
  u_model_allowlist := None; u_rate_limit_rpm := None; u_clear_rate_limit := None;
  u_system_prompt := None; u_clear_system_prompt := None; u_max_concurrent_requests := None;
  u_clear_max_concurrent_requests := None; u_max_models := None; u_clear_max_models := None;
  u_max_memory_bytes := None; u_clear_max_memory_bytes := None |}.

Lemma workspace_routes_guarded_witness :
  create_workspace ip_add (fun x => x) (with_token "Bearer nobody") new_clinic 5 "w-3" "raw" "" "" ws_srv
  = (ws_srv, Err Auth.Auth.Forbidden) /\
  update_workspace (with_token "Bearer nobody") "default" no_change 5 "raw" ws_srv
  = (ws_srv, Err Auth.Auth.Forbidden) /\
  del_workspace ip_del (with_token "Bearer nobody") "default" 5 ws_srv
  = (ws_srv, Err Auth.Auth.Forbidden).
Proof.
  apply (workspace_routes_guarded ip_add ip_del (fun x => x) (with_token "Bearer nobody") 5 ws_srv
           Auth.Auth.Forbidden new_clinic no_change "default" "w-3" "raw" "" "").
  reflexivity.
Defined.

Definition created : wserver * result Auth.Auth.api_error (option string * Workspace) :=
  create_workspace ip_add (fun x => x) (with_token "Bearer host-key") new_clinic 5 "w-3" "raw" "" "" ws_srv.

Definition created_ws : Workspace := {|
  id := "w-3"; slug := "clinic"; name := "Clinic"; api_key_hash := Some (sha256_hex "raw");
  model_allowlist := []; rate_limit_rpm := None; system_prompt := None; created_at := 5;
  net_namespace := true; max_concurrent_requests := None; max_models := None;
  max_memory_bytes := None; dek := None |}.

Definition clinic_call : ws_headers :=
  {| base := with_token "Bearer raw"; x_maranode_workspace := Some "clinic" |}.

Lemma created_key_gates_witness :
  Some "raw" = (if c_no_key new_clinic then None else Some "raw") /\
  (is_ok (workspace_ctx clinic_call 6 created.1) = true <->
   c_no_key new_clinic = true \/ sha256_hex "raw" = sha256_hex "raw").
Proof.
  apply (created_key_gates ip_add (fun x => x) (with_token "Bearer host-key") new_clinic 5 "w-3" "raw" "" ""
           ws_srv created.1 (Some "raw") created_ws clinic_call 6).
  - reflexivity.
  - reflexivity.
  - unfold in_era, ns_per_s. lia.
  - reflexivity.
  - reflexivity.
  - reflexivity.
Defined.
