(* ===== verification/ModelStore.v ===== *)
(** * The model store

    Models [maranode-store/src/blob.rs], [db.rs] and [store.rs]: model files by their
    digest under [blobs/], and the table of their manifests. A download is its bytes;
    a read, a write or a download may fail after some of them. The theorems: every
    listed model verifies against its digest through all imports, downloads and
    removals, and what a removal and a refused import leave on disk. *)

From Stdlib Require Import ZArith Lia Ascii String.
From S2P Require Import Prelude Crypto Common Fs Gguf UserDb WorkspaceDb WorkspaceDemo Instances.
Open Scope Z_scope.

Module ModelStore.
Import Common.Models.

Inductive store_err :=
| Io (e : io_err) | BadDigest | Duplicate | ModelNotFound | IntegrityFailed | BlobMissing | DownloadFailed.

#[export] Instance store_err_eq_dec : EqDecision store_err.
Proof. solve_decision. Defined.

(** A row of the table [models]. *)
Record model_row := {
  r_id : string; r_name : string; r_tag : string; r_sha256 : string; r_size : Z;
  r_quantization : option string; r_blob_path : string; r_imported_at : string;
  r_type : string; r_context : option Z
}.

Record store := { models : list model_row; files : fs }.

Section store.
Context `{!Rfc3339, !DateTimeText, !Sha256}.

(** ** blob.rs *)

Definition blobs_dir : string := "blobs".

Definition blob_path_checked (sha256 : string) : result store_err string :=
  guard Secure.is_sha256_hex sha256 else BadDigest in
  Ok (path_join blobs_dir ("sha256-" +:+ sha256)).

Definition tmp_path (uuid : string) : string := path_join blobs_dir (".import-" +:+ uuid +:+ ".tmp").

Definition slen (s : string) : Z := Z.of_nat (String.length s).

(** The guard removes the temporary file when the function returns. *)
Definition drop_guard (tmp : string) (f : fs) : fs := if exists_ f tmp then remove_file f tmp else f.

(** [fault]: reading or writing fails after that many bytes. *)
Definition import_blob (uuid content : string) (fault : option nat) : SE fs store_err (string * Z) := fun f =>
  let tmp := tmp_path uuid in
  match fault with
  | Some n => (drop_guard tmp (std_write f tmp (stake n content)), Err (Io WriteFailed))
  | None =>
    let f := std_write f tmp content in
    let sha256 := sha256_hex content in
    match blob_path_checked sha256 with
    | Err e => (drop_guard tmp f, Err e)
    | Ok dest =>
      if exists_ f dest then (drop_guard tmp (remove_file f tmp), Ok (sha256, slen content)) else
      match rename f tmp dest with
      | Ok f => (drop_guard tmp f, Ok (sha256, slen content))
      | Err e => (drop_guard tmp f, Err (Io e))
      end
    end
  end.

Definition verify_blob (expected : string) (f : fs) : result store_err unit :=
  let? path := blob_path_checked expected in
  let? content := map_err Io (read f path) in
  guard String.eqb (sha256_hex content) expected else IntegrityFailed in
  Ok tt.

(** ** db.rs *)

Definition type_str (t : ModelType) : string :=
  match t with Llm => "llm" | Embedding => "embedding" end.

Definition row_of (m : ModelManifest) : model_row := {|
  r_id := id m; r_name := name (model_id m); r_tag := tag (model_id m); r_sha256 := sha256 m;
  r_size := size_bytes m; r_quantization := quantization m; r_blob_path := blob_path m;
  r_imported_at := to_rfc3339 (imported_at m); r_type := type_str (model_type m);
  r_context := context_length m |}.

(** An import time that does not parse is replaced by the present. *)
Definition manifest_of (now : Z) (r : model_row) : ModelManifest := {|
  id := r_id r; model_id := {| name := r_name r; tag := r_tag r |}; sha256 := r_sha256 r;
  size_bytes := r_size r; format := Gguf; quantization := r_quantization r;
  imported_at := default now (parse_datetime (r_imported_at r)); blob_path := r_blob_path r;
  model_type := if String.eqb (r_type r) "embedding" then Embedding else Llm;
  context_length := r_context r |}.

Definition is_model (m : ModelId) (r : model_row) : bool :=
  String.eqb (r_name r) (name m) && String.eqb (r_tag r) (tag m).

Definition insert (m : ModelManifest) (l : list model_row) : result store_err (list model_row) :=
  guard negb (existsb (fun r => String.eqb (r_id r) (id m) || is_model (model_id m) r) l) else Duplicate in
  Ok (l ++ [row_of m]).

Definition get (m : ModelId) (now : Z) (s : store) : option ModelManifest :=
  manifest_of now <$> List.find (is_model m) (models s).

Definition by_imported (a b : model_row) : bool := negb (String.ltb (r_imported_at a) (r_imported_at b)).

Fixpoint insert_row (r : model_row) (l : list model_row) : list model_row :=
  match l with
  | [] => [r]
  | x :: l' => if by_imported r x then r :: l else x :: insert_row r l'
  end.

(** [ORDER BY imported_at DESC]. *)
Definition list_models (now : Z) (s : store) : list ModelManifest :=
  manifest_of now <$> foldr insert_row [] (models s).

(** ** store.rs *)

Definition with_files (f : fs) (s : store) : store := {| models := models s; files := f |}.

Definition on_files {A} (m : SE fs store_err A) : SE store store_err A := fun s =>
  let r := m (files s) in (with_files r.1 s, r.2).

Definition read_context (f : fs) (path : string) : option Z :=
  some? d := content_at f path in Gguf.Gguf.read_context_length d.

Definition insert_manifest (m : ModelManifest) : SE store store_err ModelManifest := fun s =>
  match insert m (models s) with
  | Ok l => ({| models := l; files := files s |}, Ok m)
  | Err e => (s, Err e)
  end.

Definition import_from_file (path : string) (m : ModelId) (quant : option string) (t : ModelType)
    (uuid new_id : string) (now : Z) (fault : option nat) : SE store store_err ModelManifest :=
  do! s := sget in
  do! content := slift (map_err Io (read (files s) path)) in
  do! r := on_files (import_blob uuid content fault) in
  do! blob := slift (blob_path_checked r.1) in
  do! s := sget in
  insert_manifest {| id := new_id; model_id := m; sha256 := r.1; size_bytes := r.2; format := Gguf;
    quantization := quant; imported_at := now; blob_path := blob; model_type := t;
    context_length := read_context (files s) blob |}.

Definition pull_path (uuid : string) : string := path_join blobs_dir (uuid +:+ ".pull.part").

(** [content] is what the URL answers; the download may fail before or after it has
    begun. There is no guard here. *)
Inductive download := Refused | Broken (n : nat) | Complete.

Definition fetch (uuid content : string) (d : download) : SE fs store_err (string * string) := fun f =>
  let tmp := pull_path uuid in
  match d with
  | Refused => (f, Err DownloadFailed)
  | Broken n => (std_write f tmp (stake n content), Err DownloadFailed)
  | Complete =>
    let f := std_write f tmp content in
    let sha256 := sha256_hex content in
    match blob_path_checked sha256 with
    | Err e => (f, Err e)
    | Ok dest =>
      if exists_ f dest then (remove_file f tmp, Ok (sha256, dest)) else
      match rename f tmp dest with
      | Ok f => (f, Ok (sha256, dest))
      | Err e => (f, Err (Io e))
      end
    end
  end.

Definition pull_from_url (content : string) (d : download) (m : ModelId) (quant : option string)
    (t : ModelType) (uuid new_id : string) (now : Z) : SE store store_err ModelManifest :=
  do! r := on_files (fetch uuid content d) in
  do! s := sget in
  do! stored := slift (map_err Io (read (files s) r.2)) in
  insert_manifest {| id := new_id; model_id := m; sha256 := r.1; size_bytes := slen stored; format := Gguf;
    quantization := quant; imported_at := now; blob_path := r.2; model_type := t;
    context_length := read_context (files s) r.2 |}.

Definition blob_path_verified (m : ModelId) (s : store) : result store_err string :=
  let? r := ok_or (List.find (is_model m) (models s)) ModelNotFound in
  let? _ := verify_blob (r_sha256 r) (files s) in
  blob_path_checked (r_sha256 r).

Definition stored_path (m : ModelId) (s : store) : result store_err string :=
  let? r := ok_or (List.find (is_model m) (models s)) ModelNotFound in
  let? path := blob_path_checked (r_sha256 r) in
  guard exists_ (files s) path else BlobMissing in
  Ok path.

Definition shared (sha256 : string) (l : list model_row) : bool :=
  existsb (fun r => String.eqb (r_sha256 r) sha256) l.

(** Whether a row was removed; the file goes with its last row. *)
Definition remove (m : ModelId) (s : store) : store * bool :=
  let rest := List.filter (fun r => negb (is_model m r)) (models s) in
  match List.find (is_model m) (models s) with
  | None => (s, false)
  | Some r =>
    let f := if shared (r_sha256 r) rest then files s else
             match blob_path_checked (r_sha256 r) with
             | Ok path => remove_file (files s) path
             | Err _ => files s
             end in
    ({| models := rest; files := f |}, true)
  end.

(** ** Blobs *)

Definition blob_at (h : string) : string := path_join blobs_dir ("sha256-" +:+ h).

Lemma blob_at_inj a b : blob_at a = blob_at b -> a = b.
Proof.
  intros He. change (("blobs/sha256-" +:+ a) = ("blobs/sha256-" +:+ b)) in He. by apply string_app_inj_l in He.
Qed.

Lemma hex_no_p h : Secure.is_sha256_hex h = true -> has_char "p" (blob_at h) = false.
Proof.
  unfold Secure.is_sha256_hex, blob_at. intros [_ Hh]%andb_true_iff. cbn -[has_char].
  change (has_char "p" ("blobs/sha256-" +:+ h) = false). rewrite has_char_app. apply orb_false_iff. split; [done|].
  induction h as [|c h IH]; [done|]. cbn [string_forall] in Hh.
  apply andb_true_iff in Hh as [Hc Hh]. cbn [has_char].
  rewrite IH, orb_false_r by done. apply Ascii.eqb_neq. intros E. by subst c.
Qed.

Lemma path_p u suffix h : Secure.is_sha256_hex h = true -> has_char "p" suffix = true ->
  path_join blobs_dir (u +:+ suffix) <> blob_at h.
Proof.
  intros Hh Hs He. apply hex_no_p in Hh. rewrite <- He in Hh.
  assert (has_char "p" (u +:+ suffix) = true) as Hu by (rewrite has_char_app, Hs; apply orb_true_r).
  unfold path_join in Hh. destruct (u +:+ suffix) as [|c r]; [done|].
  assert (has_char "p" (blobs_dir +:+ "/" +:+ String c r) = true) as Hx.
  { rewrite !has_char_app, Hu. by rewrite !orb_true_r. }
  revert Hh Hu Hx. destruct c as [[] [] [] [] [] [] [] []]; congruence.
Qed.

Lemma tmp_not_blob u h : Secure.is_sha256_hex h = true -> tmp_path u <> blob_at h.
Proof.
  intros Hh. unfold tmp_path. rewrite <- string_app_assoc. by apply path_p.
Qed.

Lemma pull_not_blob u h : Secure.is_sha256_hex h = true -> pull_path u <> blob_at h.
Proof. intros Hh. by apply path_p. Qed.

(** Each file under a digest has that digest. *)
Definition blobs_valid (f : fs) : Prop := forall h c, Secure.is_sha256_hex h = true ->
  content_at f (blob_at h) = Some c -> sha256_hex c = h.

(** Blobs are kept, new ones are valid. *)
Definition blobs_grow (f g : fs) : Prop :=
  fs_wf g /\ blobs_valid g /\
  forall h c, Secure.is_sha256_hex h = true -> content_at f (blob_at h) = Some c -> content_at g (blob_at h) = Some c.

Lemma grow_refl f : fs_wf f -> blobs_valid f -> blobs_grow f f.
Proof. done. Qed.

Lemma grow_trans f g k : blobs_grow f g -> blobs_grow g k -> blobs_grow f k.
Proof. intros (_ & _ & Hx1) (Hw & Hv & Hx2). split; [done|]. split; [done|]. auto. Qed.

Definition same_blobs (f g : fs) : Prop :=
  forall h, Secure.is_sha256_hex h = true -> content_at g (blob_at h) = content_at f (blob_at h).

Lemma grow_same f g : fs_wf g -> blobs_valid f -> same_blobs f g -> blobs_grow f g.
Proof.
  intros Hw Hv Hs. split; [done|]. split.
  - intros h c Hh Hc. rewrite Hs in Hc by done. by apply Hv.
  - intros h c Hh Hc. by rewrite Hs.
Qed.

Lemma same_write f p b : fs_wf f -> (forall h, Secure.is_sha256_hex h = true -> p <> blob_at h) ->
  same_blobs f (std_write f p b).
Proof. intros Hf Hp h Hh. rewrite content_at_std_write by done. rewrite decide_False; auto. Qed.

Lemma same_remove f p : (forall h, Secure.is_sha256_hex h = true -> p <> blob_at h) -> same_blobs f (remove_file f p).
Proof. intros Hp h Hh. rewrite content_at_remove, decide_False; auto. Qed.

Lemma same_trans f g k : same_blobs f g -> same_blobs g k -> same_blobs f k.
Proof. intros Hx1 Hx2 h Hh. by rewrite Hx2, Hx1. Qed.

Lemma guard_same u f : fs_wf f -> fs_wf (drop_guard (tmp_path u) f) /\ same_blobs f (drop_guard (tmp_path u) f).
Proof.
  intros Hf. unfold drop_guard. case_match; [|done]. split; [by apply remove_file_wf|].
  apply same_remove. intros h. apply tmp_not_blob.
Qed.

(** Placing a finished temporary file under its digest. *)
Lemma place_grow f tmp content g :
  fs_wf f -> blobs_valid f -> (forall h, Secure.is_sha256_hex h = true -> tmp <> blob_at h) ->
  rename (std_write f tmp content) tmp (blob_at (sha256_hex content)) = Ok g ->
  content_at f (blob_at (sha256_hex content)) = None ->
  blobs_grow f g /\ content_at g (blob_at (sha256_hex content)) = Some content.
Proof.
  intros Hf Hv Ht Hr Hn. pose proof (std_write_wf f tmp content Hf) as Hw.
  pose proof (sha256_hex_ok content) as Hok.
  assert (forall h, Secure.is_sha256_hex h = true -> content_at g (blob_at h)
     = if decide (h = sha256_hex content) then Some content else content_at f (blob_at h)) as Hg.
  { intros h Hh. rewrite (content_at_rename _ _ _ _ _ Hw Hr (Ht _ Hok)).
    rewrite content_at_std_write by done. destruct (decide (h = sha256_hex content)) as [->|Hne].
    - by rewrite !decide_True.
    - rewrite decide_False by (intros He; by apply blob_at_inj in He).
      rewrite decide_False by (by apply Ht). rewrite content_at_std_write by done. rewrite decide_False; auto. }
  split; [|by rewrite Hg, decide_True]. split; [by eapply rename_wf|]. split.
  - intros h c Hh Hc. rewrite Hg in Hc by done. case_decide; [by simplify_eq|by apply Hv].
  - intros h c Hh Hc. rewrite Hg by done. case_decide; [|done]. subst. congruence.
Qed.

Lemma checked_sha content : blob_path_checked (sha256_hex content) = Ok (blob_at (sha256_hex content)).
Proof. unfold blob_path_checked. by rewrite sha256_hex_ok. Qed.

Lemma import_grow uuid content fault f : fs_wf f -> blobs_valid f ->
  let x := import_blob uuid content fault f in
  blobs_grow f x.1 /\ forall h n, x.2 = Ok (h, n) -> h = sha256_hex content /\ n = slen content /\
    is_Some (content_at x.1 (blob_at h)).
Proof.
  intros Hf Hv x. subst x. unfold import_blob.
  assert (forall h, Secure.is_sha256_hex h = true -> tmp_path uuid <> blob_at h) as Ht by (intros; by apply tmp_not_blob).
  destruct fault as [n|].
  - cbn [fst snd]. split; [|done]. pose proof (std_write_wf f (tmp_path uuid) (stake n content) Hf) as Hw.
    destruct (guard_same uuid _ Hw) as [Hg1 Hg2]. apply grow_same; [done|done|].
    eapply same_trans; [|exact Hg2]. by apply same_write.
  - cbn zeta. rewrite checked_sha. pose proof (std_write_wf f (tmp_path uuid) content Hf) as Hw.
    set (f1 := std_write f (tmp_path uuid) content) in *.
    assert (same_blobs f f1) as Hs1 by by apply same_write.
    pose proof (sha256_hex_ok content) as Hok. destruct (exists_ f1 _) eqn:E; cbn [fst snd].
    + apply exists_content in E; [|done]. assert (same_blobs f1 (remove_file f1 (tmp_path uuid))) as Hs2
        by by apply same_remove.
      destruct (guard_same uuid _ (remove_file_wf _ (tmp_path uuid) Hw)) as [Hg1 Hg2].
      assert (same_blobs f (drop_guard (tmp_path uuid) (remove_file f1 (tmp_path uuid)))) as Hs
        by (eapply same_trans; [|exact Hg2]; by eapply same_trans).
      split; [by apply grow_same|]. intros h n [= <- <-]. split; [done|]. split; [done|].
      rewrite Hg2, Hs2 by done. done.
    + apply exists_content_false in E; [|done]. rewrite Hs1 in E by done.
      destruct (rename f1 _ _) as [g|e] eqn:Er; cbn [fst snd].
      * destruct (place_grow f (tmp_path uuid) content g) as [Hg Hc]; try done.
        destruct (guard_same uuid g (proj1 Hg)) as [Hg1 Hg2]. split.
        -- eapply grow_trans; [exact Hg|]. apply grow_same; [done|apply Hg|done].
        -- intros h n [= <- <-]. split; [done|]. split; [done|]. rewrite Hg2 by done. by eexists.
      * split; [|done]. destruct (guard_same uuid f1 Hw) as [Hg1 Hg2]. apply grow_same; [done|done|].
        by eapply same_trans.
Qed.

Lemma fetch_grow uuid content d f : fs_wf f -> blobs_valid f ->
  let x := fetch uuid content d f in
  blobs_grow f x.1 /\ forall h p, x.2 = Ok (h, p) -> h = sha256_hex content /\ p = blob_at h /\
    is_Some (content_at x.1 (blob_at h)).
Proof.
  intros Hf Hv x. subst x. unfold fetch.
  assert (forall h, Secure.is_sha256_hex h = true -> pull_path uuid <> blob_at h) as Ht by (intros; by apply pull_not_blob).
  destruct d as [|n|]; cbn [fst snd]; [by split|split; [|done]|].
  { apply grow_same; [by apply std_write_wf|done|]. by apply same_write. }
  cbn zeta. rewrite checked_sha. pose proof (std_write_wf f (pull_path uuid) content Hf) as Hw.
  set (f1 := std_write f (pull_path uuid) content) in *.
  assert (same_blobs f f1) as Hs1 by by apply same_write.
  pose proof (sha256_hex_ok content) as Hok. destruct (exists_ f1 _) eqn:E; cbn [fst snd].
  - apply exists_content in E; [|done]. assert (same_blobs f1 (remove_file f1 (pull_path uuid))) as Hs2
      by by apply same_remove.
    split; [apply grow_same; [by apply remove_file_wf|done|by eapply same_trans]|].
    intros h p [= <- <-]. split; [done|]. split; [done|]. by rewrite Hs2.
  - apply exists_content_false in E; [|done]. rewrite Hs1 in E by done.
    destruct (rename f1 _ _) as [g|e] eqn:Er; cbn [fst snd].
    + destruct (place_grow f (pull_path uuid) content g) as [Hg Hc]; try done. split; [done|].
      intros h p [= <- <-]. split; [done|]. split; [done|]. by eexists.
    + split; [|done]. by apply grow_same.
Qed.

(** ** The invariant *)

Definition row_ok (f : fs) (r : model_row) : Prop :=
  Secure.is_sha256_hex (r_sha256 r) = true /\ r_blob_path r = blob_at (r_sha256 r) /\
  is_Some (content_at f (blob_at (r_sha256 r))).

Definition store_ok (s : store) : Prop :=
  fs_wf (files s) /\ blobs_valid (files s) /\ forall r, In r (models s) -> row_ok (files s) r.

Inductive model_request :=
| Import (path : string) (m : ModelId) (quant : option string) (t : ModelType) (uuid new_id : string)
    (now : Z) (fault : option nat)
| Pull (content : string) (d : download) (m : ModelId) (quant : option string) (t : ModelType)
    (uuid new_id : string) (now : Z)
| Remove (m : ModelId).

Definition handle_model (q : model_request) (s : store) : store :=
  match q with
  | Import path m quant t uuid i now fault => (import_from_file path m quant t uuid i now fault s).1
  | Pull content d m quant t uuid i now => (pull_from_url content d m quant t uuid i now s).1
  | Remove m => (remove m s).1
  end.

Lemma grow_rows f g r : blobs_grow f g -> row_ok f r -> row_ok g r.
Proof.
  intros (_ & _ & Hk) (Hd & Hp & [c Hc]). split; [done|]. split; [done|]. exists c. by apply Hk.
Qed.

Lemma grow_store s f : store_ok s -> blobs_grow (files s) f -> store_ok (with_files f s).
Proof.
  intros (Hw & Hv & Hr) Hg. split; [apply Hg|]. split; [apply Hg|]. intros r Hin. eapply grow_rows; [done|]. by apply Hr.
Qed.

Lemma insert_store m s : store_ok s -> row_ok (files s) (row_of m) ->
  let x := insert_manifest m s in store_ok x.1 /\ files x.1 = files s /\
  (x.2 = Ok m /\ models x.1 = models s ++ [row_of m] \/ x = (s, Err Duplicate)).
Proof.
  intros Hs Hrow x. subst x. unfold insert_manifest, insert.
  destruct (negb _); cbn [fst snd]; [|split_and!; [done|done|by right]].
  split; [|split; [done|by left]]. destruct Hs as (Hw & Hv & Hr). split; [done|]. split; [done|].
  intros r [Hin|[<-|[]]]%in_app_or; [by apply Hr|done].
Qed.

Lemma shared_false h l r : shared h l = false -> In r l -> r_sha256 r <> h.
Proof.
  unfold shared. intros Hs Hin He. rewrite <- not_true_iff_false in Hs. apply Hs, existsb_exists.
  exists r. by rewrite He, String.eqb_refl.
Qed.

(** The file system after a removal: the blob of the removed row goes when no row is
    left with its digest. *)
Lemma remove_spec m s r : store_ok s -> List.find (is_model m) (models s) = Some r ->
  let s' := (remove m s).1 in
  models s' = List.filter (fun x => negb (is_model m x)) (models s) /\ fs_wf (files s') /\
  forall h, Secure.is_sha256_hex h = true -> content_at (files s') (blob_at h) =
    if decide (h = r_sha256 r /\ shared h (models s') = false) then None else content_at (files s) (blob_at h).
Proof.
  intros (Hw & Hv & Hr) Hf s'. subst s'. unfold remove. rewrite Hf. cbn [fst models files].
  pose proof (List.find_some _ _ Hf) as [Hin _]. destruct (Hr r Hin) as (Hd & _ & _).
  unfold blob_path_checked. rewrite Hd. fold (blob_at (r_sha256 r)).
  destruct (shared _ _) eqn:E.
  - split; [done|]. split; [done|]. intros h Hh. rewrite decide_False; [done|]. intros [-> Hn]. congruence.
  - split; [done|]. split; [by apply remove_file_wf|]. intros h Hh. rewrite content_at_remove.
    destruct (decide (h = r_sha256 r)) as [->|Hne].
    + by rewrite !decide_True.
    + rewrite !decide_False; [done|by intros []|]. intros He. by apply blob_at_inj in He.
Qed.

Lemma remove_ok m s : store_ok s -> store_ok (remove m s).1.
Proof.
  intros Hs. destruct (List.find (is_model m) (models s)) as [r|] eqn:Hf; [|by unfold remove; rewrite Hf].
  destruct (remove_spec m s r Hs Hf) as (Hm & Hw & Hc). destruct Hs as (_ & Hv & Hr). split; [done|]. split.
  - intros h c Hh. rewrite Hc by done. case_decide; [done|]. by apply Hv.
  - intros x Hx. pose proof Hx as Hx'. rewrite Hm in Hx'. apply filter_In in Hx' as [Hx' _].
    destruct (Hr x Hx') as (Hd & Hp & Hb). split; [done|]. split; [done|]. rewrite Hc by done.
    rewrite decide_False; [done|]. intros [_ Hsh]. by apply (shared_false _ _ x Hsh).
Qed.

Lemma handle_model_ok q s : store_ok s -> store_ok (handle_model q s).
Proof.
  intros Hs. destruct q as [path m quant t uuid i now fault|content d m quant t uuid i now|m]; cbn [handle_model].
  - unfold import_from_file, sbind, sget, slift.
    destruct (read (files s) path) as [content|e]; cbn [map_err]; [|done]. unfold on_files.
    destruct (import_grow uuid content fault (files s)) as [Hg Hr]; [apply Hs|apply Hs|].
    destruct (import_blob uuid content fault (files s)) as [f [[h n]|e]]; cbn [fst snd] in *;
      [|by apply grow_store].
    destruct (Hr h n eq_refl) as (-> & -> & Hb). rewrite checked_sha.
    apply insert_store; [by apply grow_store|]. split; [apply sha256_hex_ok|]. by split.
  - unfold pull_from_url, sbind, sget, slift, on_files.
    destruct (fetch_grow uuid content d (files s)) as [Hg Hr]; [apply Hs|apply Hs|].
    destruct (fetch uuid content d (files s)) as [f [[h p]|e]]; cbn [fst snd] in *; [|by apply grow_store].
    destruct (Hr h p eq_refl) as (-> & -> & Hb).
    destruct (read _ _) as [stored|e]; cbn [map_err]; [|by apply grow_store].
    apply insert_store; [by apply grow_store|]. split; [apply sha256_hex_ok|]. by split.
  - by apply remove_ok.
Qed.

Definition model_step (s s' : store) : Prop := exists q, s' = handle_model q s.

Definition empty_store (f : fs) : store := {| models := []; files := f |}.

Lemma steps_ok s s' : rtc model_step s s' -> store_ok s -> store_ok s'.
Proof. induction 1 as [|s s1 s2 [q ->] _ IH]; [done|]. intros Hs. apply IH. by apply handle_model_ok. Qed.

Lemma row_verifies m s r : store_ok s -> List.find (is_model m) (models s) = Some r ->
  blob_path_verified m s = Ok (blob_at (r_sha256 r)).
Proof.
  intros (Hw & Hv & Hr) Hf. unfold blob_path_verified. rewrite Hf. cbn [ok_or rbind].
  apply List.find_some in Hf as [Hin _]. destruct (Hr r Hin) as (Hd & _ & [c Hc]).
  unfold verify_blob, blob_path_checked. rewrite Hd. cbn [rbind]. fold (blob_at (r_sha256 r)).
  rewrite read_content, Hc. cbn [map_err rbind]. by rewrite (Hv _ _ Hd Hc), String.eqb_refl.
Qed.

(** ** Theorems *)

(** C16: Through any imports, downloads and removals, with reads, writes and connections
    that fail anywhere, every model of the table has a file under the digest of its
    row, whose content has that digest: loading it with verification succeeds. *)
Theorem models_verify f s m r :
  fs_wf f -> blobs_valid f -> rtc model_step (empty_store f) s ->
  List.find (is_model m) (models s) = Some r ->
  blob_path_verified m s = Ok (r_blob_path r) /\
  exists content, read (files s) (r_blob_path r) = Ok content /\ sha256_hex content = r_sha256 r.
Proof.
  intros Hw Hv Hsteps Hf. assert (store_ok s) as Hs by (eapply steps_ok; [exact Hsteps|]; by split).
  pose proof (List.find_some _ _ Hf) as [Hin _]. pose proof Hs as (_ & Hv' & Hr).
  destruct (Hr r Hin) as (Hd & -> & [c Hc]). split; [by apply row_verifies|].
  exists c. rewrite read_content, Hc. split; [done|]. by apply Hv'.
Qed.

(** A removal takes the model's rows and no other; the file goes exactly when no other
    model has the same content, and every other model still loads. *)
Theorem remove_reclaims s m r :
  store_ok s -> List.find (is_model m) (models s) = Some r ->
  let s' := (remove m s).1 in
  List.find (is_model m) (models s') = None /\
  (content_at (files s') (blob_at (r_sha256 r)) = None <-> shared (r_sha256 r) (models s') = false) /\
  forall m', m' <> m -> blob_path_verified m' s' = blob_path_verified m' s.
Proof.
  intros Hs Hf s'. destruct (remove_spec m s r Hs Hf) as (Hm & Hw & Hc).
  pose proof (List.find_some _ _ Hf) as [Hin _]. pose proof Hs as (_ & _ & Hr).
  destruct (Hr r Hin) as (Hd & _ & [c Hcc]). subst s'. split; [|split].
  - rewrite Hm. match goal with |- ?t = None => destruct t as [x|] eqn:E end; [|done]. exfalso.
    apply List.find_some in E as [[_ Hn]%filter_In Hy]. by rewrite Hy in Hn.
  - rewrite Hc by done. case_decide as E; [by destruct E|]. rewrite Hcc. split; [done|].
    intros Hsh. by destruct E.
  - intros m' Hne. assert (List.find (is_model m') (models (remove m s).1) = List.find (is_model m') (models s)) as He.
    { rewrite Hm. clear -Hne. induction (models s) as [|x l IH]; [done|]. simpl. destruct (is_model m x) eqn:E1; simpl.
      - rewrite IH. destruct (is_model m' x) eqn:E2; [|done]. destruct Hne. unfold is_model in E1, E2.
        apply andb_true_iff in E1 as [E1%String.eqb_eq E3%String.eqb_eq].
        apply andb_true_iff in E2 as [E2%String.eqb_eq E4%String.eqb_eq].
        destruct m, m'; simpl in *; congruence.
      - by rewrite IH. }
    destruct (List.find (is_model m') (models s)) as [x|] eqn:E.
    + rewrite (row_verifies m' _ x (remove_ok m s Hs) He). symmetry. by apply row_verifies.
    + unfold blob_path_verified. by rewrite He, E.
Qed.

(** An import or a download under a name that is taken is refused after its file has
    been placed: the file stays, and no row has its digest, so that no removal ever
    takes it. *)
Theorem refused_import_orphans s path m quant t uuid new_id now content :
  store_ok s -> read (files s) path = Ok content ->
  existsb (is_model m) (models s) = true -> shared (sha256_hex content) (models s) = false ->
  let x := import_from_file path m quant t uuid new_id now None s in
  x.2 = Err Duplicate /\ is_Some (content_at (files x.1) (blob_at (sha256_hex content))) /\
  forall m', let y := (remove m' x.1).1 in
    shared (sha256_hex content) (models y) = false /\
    content_at (files y) (blob_at (sha256_hex content)) = content_at (files x.1) (blob_at (sha256_hex content)).
Proof.
  intros Hs Hread Hm Hsh x. subst x. unfold import_from_file, sbind, sget, slift. rewrite Hread. cbn [map_err].
  unfold on_files. destruct (import_grow uuid content None (files s)) as [Hg Hr]; [apply Hs|apply Hs|].
  assert (exists f n, import_blob uuid content None (files s) = (f, Ok (sha256_hex content, n))) as (f & n & E).
  { unfold import_blob. cbn zeta. rewrite checked_sha. case_match; [by eexists _, _|].
    unfold rename. assert (exists_ (std_write (files s) (tmp_path uuid) content) (tmp_path uuid) = true) as He.
    { apply exists_content; [apply std_write_wf, Hs|]. rewrite content_at_std_write by apply Hs.
      rewrite decide_True by done. by eexists. }
    unfold exists_ in He. apply bool_decide_eq_true in He as [i ->]. by eexists _, _. }
  rewrite E in *. cbn [fst snd] in *. destruct (Hr _ n eq_refl) as (_ & -> & Hb). rewrite checked_sha.
  unfold insert_manifest, insert. cbn [models with_files id model_id].
  assert (store_ok (with_files f s)) as Hs1 by by apply grow_store.
  replace (existsb _ (models s)) with true.
  2:{ symmetry. apply existsb_exists in Hm as (r & Hin & Hmr). apply existsb_exists. exists r. split; [done|].
      rewrite Hmr. apply orb_true_r. }
  cbn [negb fst snd]. split; [done|]. split; [done|]. intros m'. cbn zeta.
  assert (shared (sha256_hex content) (models (remove m' (with_files f s)).1) = false) as Hsh'.
  { unfold remove. cbn [models with_files]. destruct (List.find (is_model m') (models s)) as [r|]; [|done].
    cbn [fst models]. unfold shared. apply not_true_iff_false. intros (r' & Hin & Heq)%existsb_exists.
    apply filter_In in Hin as [Hin _]. apply String.eqb_eq in Heq. by apply (shared_false _ _ r' Hsh). }
  split; [done|]. destruct (List.find (is_model m') (models (with_files f s))) as [r|] eqn:Hf.
  - destruct (remove_spec m' _ r Hs1 Hf) as (Hm' & _ & Hc). rewrite Hc by apply sha256_hex_ok.
    rewrite decide_False; [done|]. intros [Heq _]. apply List.find_some in Hf as [Hin _].
    by apply (shared_false _ _ r Hsh).
  - unfold remove. by rewrite Hf.
Qed.

End store.
End ModelStore.

(** ** The model store on concrete files *)

Module StoreDemo.
Import ModelStore UserDemo Common.Models.

(** A model file to import, and a store in which it has two names. *)
Definition f0 : fs := std_write (std_write fs_empty "/tmp/a.gguf" "weights a") "/tmp/b.gguf" "weights b".

Lemma f0_wf : fs_wf f0.
Proof. apply std_write_wf, std_write_wf, fs_wf_empty. Qed.

Lemma f0_valid : blobs_valid f0.
Proof.
  intros h c Hh Hc. unfold f0 in Hc. rewrite !content_at_std_write in Hc by (try apply std_write_wf; apply fs_wf_empty).
  change (blob_at h) with ("blobs/sha256-" +:+ h)%string in Hc.
  rewrite !decide_False in Hc by discriminate. discriminate Hc.
Qed.

Definition base : ModelId := {| name := "llama"; tag := "8b" |}.
Definition alias : ModelId := {| name := "llama"; tag := "latest" |}.

Definition q1 : model_request := Import "/tmp/a.gguf" base (Some "Q4") Llm "u1" "m1" 1000 None.
Definition q2 : model_request := Pull "weights a" Complete alias None Llm "u2" "m2" 2000.
Definition q3 : model_request := Pull "weights c" (Broken 3) alias None Llm "u3" "m3" 3000.
Definition s3 : store := handle_model q3 (handle_model q2 (handle_model q1 (empty_store f0))).

Lemma steps_to_s3 : rtc model_step (empty_store f0) s3.
Proof.
  eapply rtc_l; [by exists q1|]. eapply rtc_l; [by exists q2|]. eapply rtc_l; [by exists q3|]. apply rtc_refl.
Qed.

Lemma s3_ok : store_ok s3.
Proof. apply (steps_ok _ _ steps_to_s3). split; [exact f0_wf|]. split; [exact f0_valid|]. by intros r []. Qed.

Definition row1 : model_row := row_of {|
  id := "m1"; model_id := base; sha256 := sha256_hex "weights a"; size_bytes := 9; format := Gguf;
  quantization := Some "Q4"; imported_at := 1000; blob_path := blob_at (sha256_hex "weights a");
  model_type := Llm; context_length := None |}.

Lemma row1_found : List.find (is_model base) (models s3) = Some row1.
Proof. vm_compute. reflexivity. Qed.

Lemma models_verify_witness :
  blob_path_verified base s3 = Ok (r_blob_path row1) /\
  exists content, read (files s3) (r_blob_path row1) = Ok content /\ sha256_hex content = r_sha256 row1.
Proof. apply (models_verify f0 s3 base row1); [exact f0_wf|exact f0_valid|exact steps_to_s3|exact row1_found]. Defined.

Lemma remove_reclaims_witness :
  let s' := (remove base s3).1 in
  List.find (is_model base) (models s') = None /\
  (content_at (files s') (blob_at (r_sha256 row1)) = None <-> shared (r_sha256 row1) (models s') = false) /\
  forall m', m' <> base -> blob_path_verified m' s' = blob_path_verified m' s3.
Proof. apply (remove_reclaims s3 base row1); [exact s3_ok|exact row1_found]. Defined.

Lemma refused_import_orphans_witness :
  let x := import_from_file "/tmp/b.gguf" base None Llm "u4" "m4" 4000 None s3 in
  x.2 = Err Duplicate /\ is_Some (content_at (files x.1) (blob_at (sha256_hex "weights b"))) /\
  forall m', let y := (remove m' x.1).1 in
    shared (sha256_hex "weights b") (models y) = false /\
    content_at (files y) (blob_at (sha256_hex "weights b"))
    = content_at (files x.1) (blob_at (sha256_hex "weights b")).
Proof.
  apply (refused_import_orphans s3 "/tmp/b.gguf" base None Llm "u4" "m4" 4000 "weights b").
  - exact s3_ok.
  - vm_compute. reflexivity.
  - vm_compute. reflexivity.
  - vm_compute. reflexivity.
Defined.

End StoreDemo.
