(* ===== verification/SortBy.v ===== *)
(** * Stable sorting and the best [k] of a list

    [slice::sort_by] is a stable sort: the result of a total preorder is unique, and
    insertion gives it. [top_k] says what the first [k] of a sorted list are. *)

From Stdlib Require Import ZArith Lia Sorted.
From S2P Require Import Prelude.
Open Scope list_scope.

Section sort.
Context {A : Type} (before : A -> A -> bool).

Fixpoint insert_by (x : A) (l : list A) : list A :=
  match l with
  | [] => [x]
  | y :: r => if before x y then x :: l else y :: insert_by x r
  end.

Fixpoint sort_by (l : list A) : list A :=
  match l with [] => [] | x :: r => insert_by x (sort_by r) end.

Lemma insert_perm x l : insert_by x l ≡ₚ x :: l.
Proof.
  induction l as [|y l IH]; simpl; [done|]. case_match; [done|]. rewrite IH. apply Permutation_swap.
Qed.

Lemma sort_perm l : sort_by l ≡ₚ l.
Proof. induction l as [|x l IH]; simpl; [done|]. by rewrite insert_perm, IH. Qed.

Lemma sort_length l : List.length (sort_by l) = List.length l.
Proof. apply Permutation_length, sort_perm. Qed.

End sort.

Lemma insert_ext {A} (b1 b2 : A -> A -> bool) x l :
  Forall (fun y => b1 x y = b2 x y) l -> insert_by b1 x l = insert_by b2 x l.
Proof. induction 1 as [|y l Hy _ IH]; simpl; [done|]. by rewrite Hy, IH. Qed.

Lemma sort_ext {A} (b1 b2 : A -> A -> bool) l :
  (forall x y, In x l -> In y l -> b1 x y = b2 x y) -> sort_by b1 l = sort_by b2 l.
Proof.
  induction l as [|x l IH]; intros He; simpl; [done|]. rewrite IH by (intros; apply He; by right).
  apply insert_ext, List.Forall_forall. intros y Hy. apply He; [by left|right].
  eapply Permutation_in; [apply sort_perm|exact Hy].
Qed.

(** ** Sorting by a key *)

Section key.
Context {A : Type} (key : A -> Z).

(** Greater keys first. *)
Definition desc (x y : A) : bool := Z.leb (key y) (key x).

Definition ordered (l : list A) : Prop := StronglySorted (fun x y => (key y <= key x)%Z) l.

Lemma insert_ordered x l : ordered l -> ordered (insert_by desc x l).
Proof.
  unfold ordered. induction l as [|y l IH]; intros Hl; cbn [insert_by]; [by repeat constructor|].
  apply StronglySorted_inv in Hl as [Hl Hf]. unfold desc at 1. case_match eqn:E.
  - apply Z.leb_le in E. constructor; [by constructor|]. constructor; [done|].
    eapply Forall_impl; [exact Hf|]. simpl. lia.
  - apply Z.leb_gt in E. constructor; [by apply IH|].
    rewrite insert_perm. constructor; [lia|done].
Qed.

Lemma sort_ordered l : ordered (sort_by desc l).
Proof. induction l as [|x l IH]; simpl; [constructor|]. by apply insert_ordered. Qed.

(** [r] is ordered and holds the [k] best of [all]. *)
Definition top_k (k : nat) (all r : list A) : Prop :=
  ordered r /\ List.length r = Nat.min k (List.length all) /\
  exists rest, all ≡ₚ r ++ rest /\ forall x y, In x r -> In y rest -> (key y <= key x)%Z.

Lemma ordered_take k l : ordered l -> ordered (take k l) /\
  forall x y, In x (take k l) -> In y (drop k l) -> (key y <= key x)%Z.
Proof.
  unfold ordered. revert k. induction l as [|z l IH]; intros [|k] Hl; simpl; try (by repeat constructor).
  apply StronglySorted_inv in Hl as [Hl Hf]. destruct (IH k Hl) as [Ho Hx]. split.
  - constructor; [done|]. by apply Forall_take.
  - intros x y [<-|Hin] Hy; [|by apply Hx].
    rewrite List.Forall_forall in Hf. apply Hf. rewrite <- (take_drop k l). apply in_or_app. by right.
Qed.

Lemma take_sort_top_k k l : top_k k l (take k (sort_by desc l)).
Proof.
  destruct (ordered_take k _ (sort_ordered l)) as [Ho Hx]. split; [done|]. split.
  - by rewrite length_take, sort_length.
  - exists (drop k (sort_by desc l)). split; [|done]. by rewrite take_drop, sort_perm.
Qed.

Lemma submseteq_disjoint (l a b : list A) : l ⊆+ a ++ b -> (forall x, In x l -> ~ In x b) -> l ⊆+ a.
Proof.
  intros Hl Hd. apply submseteq_app_r in Hl as (l1 & l2 & Hp & H1 & H2).
  destruct l2 as [|z l2]; [by rewrite Hp, app_nil_r|].
  destruct (Hd z).
  - eapply Permutation_in; [symmetry; exact Hp|]. apply in_or_app. right. by left.
  - apply list_elem_of_In. eapply elem_of_submseteq; [|exact H2]. apply list_elem_of_In. by left.
Qed.

(** The best [k] of the best [k] of several lists are the best [k] of all. *)
Lemma top_k_concat k (ls rs : list (list A)) r :
  Forall2 (top_k k) ls rs -> top_k k (concat rs) r -> top_k k (concat ls) r.
Proof.
  intros Hf (Ho & Hlen & rest & Hp & Hx).
  assert (exists rests, concat ls ≡ₚ concat rs ++ rests /\
    forall y, In y rests -> exists ri, In ri rs /\ List.length ri = k /\
      forall z, In z ri -> (key y <= key z)%Z) as (rests & Hc & Hr).
  { clear Hp Hlen Hx Ho rest r. induction Hf as [|l ri ls rs (_ & Hl & rest & Hp & Hx) _ (rests & Hc & Hr)];
      [by exists []|].
    exists (rest ++ rests). split.
    - simpl. rewrite Hp, Hc. rewrite <- !app_assoc. f_equiv. rewrite !app_assoc. f_equiv. apply Permutation_app_comm.
    - intros y [Hy|Hy]%in_app_or.
      + exists ri. split; [by left|]. split; [|by intros z Hz; apply Hx].
        apply Permutation_length in Hp. rewrite length_app in Hp.
        destruct rest; [done|]. simpl in Hp. lia.
      + destruct (Hr y Hy) as (rj & Hj & ?). exists rj. split; [by right|done]. }
  split; [done|]. split.
  { rewrite Hlen. apply Permutation_length in Hc. rewrite length_app in Hc.
    destruct rests as [|y rests]; [simpl in Hc; lia|].
    destruct (Hr y (or_introl eq_refl)) as (ri & Hi & Hk & _).
    assert (k <= List.length (concat rs))%nat; [|lia].
    apply in_split in Hi as (a & b & ->). rewrite concat_app, length_app. simpl. rewrite length_app. lia. }
  exists (rest ++ rests). split; [by rewrite Hc, Hp, app_assoc|].
  intros x y Hin [Hy|Hy]%in_app_or; [by apply Hx|].
  destruct (Hr y Hy) as (ri & Hi & Hk & Hz).
  destruct (Z.le_gt_cases (key y) (key x)) as [|Hlt]; [done|]. exfalso.
  assert (ri ⊆+ r) as Hsub.
  { apply (submseteq_disjoint ri r rest).
    - rewrite <- Hp. apply in_split in Hi as (a & b & ->). rewrite concat_app. simpl.
      apply submseteq_inserts_l, submseteq_inserts_r. done.
    - intros z Hz1 Hz2. pose proof (Hz z Hz1). pose proof (Hx x z Hin Hz2). lia. }
  assert (ri ≡ₚ r) as Heq by (apply submseteq_length_Permutation; [done|lia]).
  assert (In x ri) as Hxi by (eapply Permutation_in; [symmetry; exact Heq|done]).
  pose proof (Hz x Hxi). lia.
Qed.

End key.
