(* ===== verification/F32.v ===== *)
(** * Single-precision floats and embedding vectors

    An [f32] is its bit pattern, a [Z] of 32 bits; its arithmetic is the IEEE 754
    binary32 of the Standard Library's [SpecFloat], rounding to nearest even. Models
    [maranode-rag/src/math.rs]. *)

From Stdlib Require Import ZArith Lia Ascii String SpecFloat.
From S2P Require Import Prelude Gguf.
Open Scope Z_scope.

Module F32.

Definition sign_bit (s : bool) : Z := if s then 2147483648 else 0.

Definition of_bits (b : Z) : spec_float :=
  let s := Z.testbit b 31 in
  let e := Z.land (Z.shiftr b 23) 255 in
  let m := Z.land b 8388607 in
  if e =? 0 then (if m =? 0 then S754_zero s else S754_finite s (Z.to_pos m) (-149))
  else if e =? 255 then (if m =? 0 then S754_infinity s else S754_nan)
  else S754_finite s (Z.to_pos (m + 8388608)) (e - 150).

(** The payload of a NaN is not specified: the quiet one is taken. *)
Definition to_bits (x : spec_float) : Z :=
  (match x with
   | S754_zero s => sign_bit s
   | S754_infinity s => sign_bit s + 2139095040
   | S754_nan => 2143289344
   | S754_finite s m e =>
     if Z.pos m <? 8388608 then sign_bit s + Z.pos m
     else sign_bit s + (e + 150) * 8388608 + (Z.pos m - 8388608)
   end) mod 4294967296.

Definition add (a b : Z) : Z := to_bits (SFadd 24 128 (of_bits a) (of_bits b)).
Definition mul (a b : Z) : Z := to_bits (SFmul 24 128 (of_bits a) (of_bits b)).
Definition div (a b : Z) : Z := to_bits (SFdiv 24 128 (of_bits a) (of_bits b)).
Definition sqrt (a : Z) : Z := to_bits (SFsqrt 24 128 (of_bits a)).
Definition lt (a b : Z) : bool := SFltb (of_bits a) (of_bits b).
Definition le (a b : Z) : bool := SFleb (of_bits a) (of_bits b).

Definition partial_cmp (a b : Z) : option comparison := SFcompare (of_bits a) (of_bits b).

(** [f32::total_cmp]: the bits as an [i32], with the rest flipped below zero. *)
Definition total_key (a : Z) : Z := if a <? 2147483648 then a else 2147483647 - a.
Definition total_cmp (a b : Z) : comparison := total_key a ?= total_key b.

(** [Iterator::sum::<f32>], which starts at minus zero. *)
Definition NEG_ZERO : Z := 2147483648.
Definition sum (l : list Z) : Z := foldl add NEG_ZERO l.

(** [f32::EPSILON], 2 to the minus 23. *)
Definition EPSILON : Z := 872415232.

Definition bits_ok (a : Z) : bool := (0 <=? a) && (a <? 4294967296).

Example arith : mul 1077936128 1082130432 = 1094713344 /\ add 1065353216 1073741824 = 1077936128
  /\ sqrt 1082130432 = 1073741824 /\ lt 1065353216 1073741824 = true.
Proof. by vm_compute. Qed.

Lemma to_bits_ok x : bits_ok (to_bits x) = true.
Proof. unfold bits_ok, to_bits. pose proof (Z.mod_pos_bound (match x with
   | S754_zero s => sign_bit s
   | S754_infinity s => sign_bit s + 2139095040
   | S754_nan => 2143289344
   | S754_finite s m e =>
     if Z.pos m <? 8388608 then sign_bit s + Z.pos m
     else sign_bit s + (e + 150) * 8388608 + (Z.pos m - 8388608)
   end) 4294967296). lia. Qed.

(** ** Order *)

Definition assemble (s : bool) (e m : Z) : spec_float :=
  if e =? 0 then (if m =? 0 then S754_zero s else S754_finite s (Z.to_pos m) (-149))
  else if e =? 255 then (if m =? 0 then S754_infinity s else S754_nan)
  else S754_finite s (Z.to_pos (m + 8388608)) (e - 150).

Lemma of_bits_fields b : bits_ok b = true -> exists s e m,
  b = sign_bit s + e * 8388608 + m /\ 0 <= e < 256 /\ 0 <= m < 8388608 /\ of_bits b = assemble s e m.
Proof.
  unfold bits_ok. intros Hb. exists (Z.testbit b 31), (Z.land (Z.shiftr b 23) 255), (Z.land b 8388607).
  change 255 with (Z.ones 8). change 8388607 with (Z.ones 23). rewrite !Z.land_ones by lia.
  rewrite Z.shiftr_div_pow2 by lia. change (2 ^ 23) with 8388608. change (2 ^ 8) with 256.
  pose proof (Z.mod_pos_bound b 8388608). pose proof (Z.mod_pos_bound (b / 8388608) 256).
  split; [|split; [lia|split; [lia|]]].
  - rewrite Z.testbit_odd, Z.shiftr_div_pow2 by lia. change (2 ^ 31) with 2147483648.
    assert (b / 2147483648 = b / 8388608 / 256) as Hd by (rewrite Z.div_div by lia; done).
    assert (0 <= b / 2147483648 < 2) as Hq
      by (split; [apply Z.div_pos; lia|apply Z.div_lt_upper_bound; lia]).
    assert (sign_bit (Z.odd (b / 2147483648)) = b / 2147483648 * 2147483648) as ->.
    { assert (b / 2147483648 = 0 \/ b / 2147483648 = 1) as [-> | ->] by lia; done. }
    rewrite Hd. pose proof (Z.div_mod b 8388608). pose proof (Z.div_mod (b / 8388608) 256). lia.
  - unfold of_bits, assemble. change 255 with (Z.ones 8). change 8388607 with (Z.ones 23).
    rewrite !Z.land_ones by lia. rewrite Z.shiftr_div_pow2 by lia. done.
Qed.

Definition is_nan (b : Z) : bool := match of_bits b with S754_nan => true | _ => false end.

(** The place of a value in the order of the numbers. *)
Definition rank (b : Z) : Z := if b <? 2147483648 then b else 2147483648 - b.

Definition lex (e1 m1 e2 m2 : Z) : comparison :=
  match e1 ?= e2 with Eq => m1 ?= m2 | c => c end.

Lemma lex_fields e1 m1 e2 m2 :
  0 <= m1 < 8388608 -> 0 <= m2 < 8388608 ->
  lex e1 m1 e2 m2 = (e1 * 8388608 + m1 ?= e2 * 8388608 + m2).
Proof.
  intros H1 H2. unfold lex. destruct (Z.compare_spec e1 e2) as [->| |].
  - destruct (Z.compare_spec m1 m2); symmetry.
    + by subst; apply Z.compare_refl.
    + apply Z.compare_lt_iff. lia.
    + apply Z.compare_gt_iff. lia.
  - symmetry. apply Z.compare_lt_iff. lia.
  - symmetry. apply Z.compare_gt_iff. lia.
Qed.

(** A magnitude, zero and infinity included, as [SFcompare] orders it. *)
Definition mag_compare (e1 m1 e2 m2 : Z) : comparison := e1 * 8388608 + m1 ?= e2 * 8388608 + m2.

Lemma finite_compare e1 m1 e2 m2 :
  0 <= e1 -> 0 <= e2 -> 0 <= m1 < 8388608 -> 0 <= m2 < 8388608 ->
  (e1 = 0 -> m1 <> 0) -> (e2 = 0 -> m2 <> 0) ->
  match (if e1 =? 0 then -149 else e1 - 150) ?= (if e2 =? 0 then -149 else e2 - 150) with
  | Lt => Lt
  | Gt => Gt
  | Eq => Pos.compare_cont Eq (Z.to_pos (if e1 =? 0 then m1 else m1 + 8388608))
            (Z.to_pos (if e2 =? 0 then m2 else m2 + 8388608))
  end = mag_compare e1 m1 e2 m2.
Proof.
  intros H1 H2 Hm1 Hm2 Hz1 Hz2. unfold mag_compare. fold (Pos.compare).
  change (Pos.compare_cont Eq) with Pos.compare.
  destruct (Z.eqb_spec e1 0), (Z.eqb_spec e2 0); subst;
    match goal with |- context [Z.compare ?x ?y] => destruct (Z.compare_spec x y) end; try lia;
    try (match goal with |- context [Pos.compare ?x ?y] => destruct (Pos.compare_spec x y) end);
    symmetry; first [apply Z.compare_eq_iff; lia | apply Z.compare_lt_iff; lia | apply Z.compare_gt_iff; lia].
Qed.

Lemma assemble_compare s1 e1 m1 s2 e2 m2 :
  0 <= e1 < 256 -> 0 <= e2 < 256 -> 0 <= m1 < 8388608 -> 0 <= m2 < 8388608 ->
  (e1 = 255 -> m1 = 0) -> (e2 = 255 -> m2 = 0) ->
  SFcompare (assemble s1 e1 m1) (assemble s2 e2 m2)
  = Some ((if s1 then - (e1 * 8388608 + m1) else e1 * 8388608 + m1)
          ?= (if s2 then - (e2 * 8388608 + m2) else e2 * 8388608 + m2)).
Proof.
  intros H1 H2 Hm1 Hm2 Hn1 Hn2.
  assert (forall e m s, 0 <= e < 255 -> (e = 0 -> m <> 0) -> assemble s e m =
     S754_finite s (Z.to_pos (if e =? 0 then m else m + 8388608)) (if e =? 0 then -149 else e - 150)) as Hfin.
  { intros e m s He Hm. unfold assemble. destruct (Z.eqb_spec e 0).
    - rewrite (proj2 (Z.eqb_neq m 0)) by auto. done.
    - rewrite (proj2 (Z.eqb_neq e 255)) by lia. done. }
  assert (forall s, assemble s 255 0 = S754_infinity s) as Hinf by done.
  assert (forall s, assemble s 0 0 = S754_zero s) as Hzero by done.
  assert (forall e m, 0 <= e < 256 -> (e = 255 -> m = 0) ->
     e = 255 /\ m = 0 \/ e = 0 /\ m = 0 \/ 0 <= e < 255 /\ (e = 0 -> m <> 0)) as Hc by lia.
  destruct (Hc e1 m1 H1 Hn1) as [[-> ->]|[[-> ->]|[Ha1 Hb1]]],
    (Hc e2 m2 H2 Hn2) as [[-> ->]|[[-> ->]|[Ha2 Hb2]]];
    rewrite ?Hinf, ?Hzero, ?Hfin by done; destruct s1, s2; cbn [SFcompare]; f_equal;
    try done; try (symmetry; first [apply Z.compare_lt_iff; lia | apply Z.compare_gt_iff; lia]).
  - rewrite Z.compare_opp, (Z.compare_antisym (e1 * 8388608 + m1)).
    change (e1 * 8388608 + m1 ?= e2 * 8388608 + m2) with (mag_compare e1 m1 e2 m2).
    rewrite <- finite_compare by lia. by destruct (_ ?= _).
  - rewrite finite_compare by lia. done.
Qed.

Lemma partial_cmp_rank a b :
  bits_ok a = true -> bits_ok b = true -> is_nan a = false -> is_nan b = false ->
  partial_cmp a b = Some (rank a ?= rank b).
Proof.
  intros Ha Hb. unfold is_nan, partial_cmp.
  destruct (of_bits_fields a Ha) as (s1 & e1 & m1 & -> & He1 & Hm1 & ->).
  destruct (of_bits_fields b Hb) as (s2 & e2 & m2 & -> & He2 & Hm2 & ->).
  intros Hna Hnb.
  assert (forall s e m, match assemble s e m with S754_nan => true | _ => false end = false ->
    e = 255 -> m = 0) as Hn.
  { intros s e m Hx ->. unfold assemble in Hx. simpl in Hx. destruct (Z.eqb_spec m 0); [done|discriminate]. }
  rewrite assemble_compare by eauto. f_equal. unfold rank, sign_bit. destruct s1, s2.
  all: repeat match goal with |- context [?x <? 2147483648] => destruct (Z.ltb_spec x 2147483648); try lia end.
  all: f_equal; lia.
Qed.

Lemma total_key_rank a b : total_key b <= total_key a -> 0 <= a -> 0 <= b -> rank b <= rank a.
Proof.
  unfold total_key, rank. destruct (Z.ltb_spec a 2147483648), (Z.ltb_spec b 2147483648); lia.
Qed.

Lemma le_no_nan a b : le a b = true -> is_nan b = false.
Proof.
  unfold le, is_nan, SFleb. destruct (of_bits a), (of_bits b); simpl; try done; by destruct s.
Qed.

End F32.

(** ** math.rs *)
Module Math.
Import F32.

Definition normalize (v : list Z) : list Z :=
  let norm := sqrt (sum ((fun x => mul x x) <$> v)) in
  if lt EPSILON norm then (fun x => div x norm) <$> v else v.

Definition dot (a b : list Z) : Z := sum (zip_with mul a b).

Definition cosine (a b : list Z) : Z :=
  let na := sqrt (sum ((fun x => mul x x) <$> a)) in
  let nb := sqrt (sum ((fun x => mul x x) <$> b)) in
  if lt na EPSILON || lt nb EPSILON then 0 else div (dot a b) (mul na nb).

Definition vec_to_blob (v : list Z) : string := String.concat "" (Gguf.le_encode 4 <$> v).

Fixpoint exact_chunks (n : nat) (b : string) : list string :=
  match n with O => [] | S n => stake 4 b :: exact_chunks n (sdrop 4 b) end.

Definition blob_to_vec (b : string) : option (list Z) :=
  if negb (Nat.eqb (String.length b mod 4) 0) then None
  else Some (Gguf.le_decode <$> exact_chunks (String.length b / 4) b).

Lemma vec_to_blob_length v : String.length (vec_to_blob v) = (4 * List.length v)%nat.
Proof.
  unfold vec_to_blob. induction v as [|x v IH]; [done|].
  rewrite fmap_cons, concat_cons, string_length_app, IH, Gguf.le_encode_length. simpl. lia.
Qed.

(** The layout of an embedding on disk reads back, bit for bit. *)
Theorem blob_round v : forallb bits_ok v = true -> blob_to_vec (vec_to_blob v) = Some v.
Proof.
  intros Hv. unfold blob_to_vec. rewrite vec_to_blob_length.
  rewrite (Nat.mul_comm 4), Nat.Div0.mod_mul, Nat.div_mul by done. cbn [Nat.eqb negb]. f_equal.
  unfold vec_to_blob. induction v as [|x v IH]; [done|]. cbn [forallb] in Hv. bool_prop.
  rewrite fmap_cons, concat_cons. cbn [List.length exact_chunks].
  rewrite stake_app_len, sdrop_app_len by apply Gguf.le_encode_length.
  rewrite fmap_cons, IH by done. f_equal. apply Gguf.le_decode_encode. unfold bits_ok in *.
  change (256 ^ Z.of_nat 4) with 4294967296. lia.
Qed.

Lemma normalize_ok v : forallb bits_ok v = true -> forallb bits_ok (normalize v) = true.
Proof.
  intros Hv. unfold normalize. case_match; [|done].
  apply forallb_forall. intros x Hx. apply list_elem_of_In, list_elem_of_fmap in Hx as (y & -> & _).
  apply to_bits_ok.
Qed.

Lemma normalize_length v : List.length (normalize v) = List.length v.
Proof. unfold normalize. case_match; [by rewrite length_fmap|done]. Qed.

End Math.
