(* ===== verification/Bootstrap.v ===== *)
(** * The first run

    Models [bootstrap.rs], [defaults.rs] and [download.rs] of [maranode-store]: local model
    files are imported, stored defaults are linked into the models directory, and what is
    missing is downloaded when the administrator agrees. Names that an import draws are a
    function of the path, an import may fail after some bytes, a link may be refused, and
    what a URL answers is an argument. A directory is the names below it. *)

From Stdlib Require Import ZArith Lia Ascii String.
From S2P Require Import Prelude Crypto Common Fs Gguf UserDb WorkspaceDb WorkspaceDemo Instances ModelStore SortBy RagChunk CodeScan RagText.
Open Scope string_scope.
Open Scope list_scope.
Open Scope Z_scope.

Module Bootstrap.
Import Common.Models Utf8.

(** ** defaults.rs *)

Record DefaultModelSpec := {
  s_model_id : ModelId; s_model_type : ModelType; hf_repo : string; hf_filename : string;
  local_filename : string; quant : string; size_hint : string;
}.

Definition default_llm : DefaultModelSpec := {|
  s_model_id := {| name := "qwen2.5"; tag := "7b" |}; s_model_type := Llm;
  hf_repo := "bartowski/Qwen2.5-7B-Instruct-GGUF"; hf_filename := "Qwen2.5-7B-Instruct-Q4_K_M.gguf";
  local_filename := "Qwen2.5-7B-Instruct-Q4_K_M.gguf"; quant := "Q4_K_M"; size_hint := "~4.4 GB" |}.

Definition default_embedding : DefaultModelSpec := {|
  s_model_id := {| name := "bge-m3"; tag := "latest" |}; s_model_type := Embedding;
  hf_repo := "gpustack/bge-m3-GGUF"; hf_filename := "bge-m3-Q4_K_M.gguf";
  local_filename := "bge-m3-Q4_K_M.gguf"; quant := "Q4_K_M"; size_hint := "~420 MB" |}.

Definition download_url (s : DefaultModelSpec) : string :=
  "https://huggingface.co/" +:+ hf_repo s +:+ "/resolve/main/" +:+ hf_filename s.

(** ** bootstrap.rs *)

Record ModelCoverage := { has_llm : bool; has_embedding : bool }.

Record BootstrapOptions := { models_dir : string; skip : bool; yes : bool }.

(** What the run meets: the variable [MARANODE_YES_BOOTSTRAP], a terminal and the answer
    typed there, what each URL answers, and the draws. *)
Record env := {
  env_yes : bool; is_tty : bool; answer : Chunk.text;
  fetched : string -> option string; cut : string -> option nat; link_ok : bool;
  uuid : string -> string; new_id : string -> string; now : Z;
}.

Section bootstrap.
Context `{!Rfc3339, !DateTimeText, !Sha256, !Unicode}.

Definition lower (s : string) : Chunk.text := to_lowercase (chars s).

Definition embedding_marks : list string :=
  ["/rag/"; "/embed"; "/embedding"; "bge"; "embed"; "nomic"; "-e5"; "gte-"].

(** The name is lower-case already. *)
Definition classify_gguf_name (n : Chunk.text) : ModelType :=
  if existsb (fun m => Scan.contains n (Chunk.str m)) embedding_marks then Embedding else Llm.

Definition classify_gguf_path (path : string) : ModelType := classify_gguf_name (lower path).

Definition is_gguf (path : string) : bool :=
  match Chunk.extension (chars path) with
  | Some e => bool_decide ((fun c => if (65 <=? c) && (c <=? 90) then c + 32 else c) <$> e = Chunk.str "gguf")
  | None => false
  end.

(** Paths are ordered by their components. *)
Fixpoint components_leb (a b : list string) : bool :=
  match a, b with
  | [], _ => true
  | _ :: _, [] => false
  | x :: a, y :: b => String.ltb x y || (String.eqb x y && components_leb a b)
  end.
Definition path_leb (a b : string) : bool := components_leb (split_char "/" a) (split_char "/" b).

Definition below (dir path : string) : bool :=
  match drop_prefix (dir +:+ "/") path with Some _ => true | None => false end.

Definition find_gguf_files (dir : string) (f : fs) : list string :=
  sort_by path_leb (List.filter (fun p => below dir p && is_gguf p) (fst <$> map_to_list (names f))).

Definition add_coverage (c : ModelCoverage) (t : ModelType) : ModelCoverage :=
  match t with
  | Llm => {| has_llm := true; has_embedding := has_embedding c |}
  | Embedding => {| has_llm := has_llm c; has_embedding := true |}
  end.
Definition no_coverage : ModelCoverage := {| has_llm := false; has_embedding := false |}.

Definition scan_models_dir (dir : string) (f : fs) : ModelCoverage :=
  fold_left (fun c p => add_coverage c (classify_gguf_path p)) (find_gguf_files dir f) no_coverage.

Definition coverage_from_manifests (l : list ModelManifest) : ModelCoverage :=
  fold_left (fun c m => add_coverage c (model_type m)) l no_coverage.

Definition missing_defaults (c : ModelCoverage) : list DefaultModelSpec :=
  (if negb (has_llm c) then [default_llm] else []) ++ (if negb (has_embedding c) then [default_embedding] else []).

Definition prompt_download (auto_yes : bool) (e : env) : bool :=
  if auto_yes || env_yes e then true else
  if negb (is_tty e) then false else
  let a := to_lowercase (Chunk.trim (answer e)) in
  Chunk.is_empty a || bool_decide (a = Chunk.str "y") || bool_decide (a = Chunk.str "yes").

Definition id_char (c : Z) : Z :=
  if ((48 <=? c) && (c <=? 57)) || ((65 <=? c) && (c <=? 90)) || ((97 <=? c) && (c <=? 122)) || (c =? 46) || (c =? 45)
  then c else 45.

(** The file name up to its last dot. *)
Definition stem (file : Chunk.text) : Chunk.text :=
  match Chunk.extension file with
  | Some ext => take (List.length file - S (List.length ext)) file
  | None => file
  end.

Definition spec_for_local_file (path : string) : option DefaultModelSpec :=
  some? file := Chunk.file_name (chars path) in
  let n := to_lowercase file in
  let model_type := classify_gguf_name n in
  if Scan.contains n (Chunk.str "qwen2.5") && Scan.contains n (Chunk.str "7b") then Some default_llm
  else if Scan.contains n (Chunk.str "bge-m3") || Scan.contains n (Chunk.str "bge_m3") then Some default_embedding
  else Some {|
    s_model_id := {| name := utf8 (to_lowercase (id_char <$> stem file)); tag := "latest" |};
    s_model_type := model_type; hf_repo := ""; hf_filename := ""; local_filename := "";
    quant := "unknown"; size_hint := "" |}.

Definition known (m : ModelId) (e : env) (s : ModelStore.store) : bool :=
  match ModelStore.get m (now e) s with Some _ => true | None => false end.

Definition import_gguf (path : string) (m : ModelId) (t : ModelType) (q : option string) (e : env)
    : SE ModelStore.store ModelStore.store_err unit :=
  do! s := sget in
  if known m e s then sret tt else
  do! _ := ModelStore.import_from_file path m q t (uuid e path) (new_id e path) (now e) (cut e path) in
  sret tt.

Fixpoint import_files (paths : list string) (e : env) : SE ModelStore.store ModelStore.store_err unit :=
  match paths with
  | [] => sret tt
  | p :: paths =>
    match spec_for_local_file p with
    | None => import_files paths e
    | Some spec =>
      do! s := sget in
      if known (s_model_id spec) e s then import_files paths e else
      do! _ := import_gguf p (s_model_id spec) (s_model_type spec) (Some (quant spec)) e in
      import_files paths e
    end
  end.

Definition import_local_gguf (dir : string) (e : env) : SE ModelStore.store ModelStore.store_err unit :=
  do! s := sget in
  import_files (find_gguf_files dir (ModelStore.files s)) e.

(** A hard link is a second name of the file, a copy a file of its own. *)
Definition link_or_copy (src dest : string) (e : env) (f : fs) : fs * result io_err unit :=
  match names f !! src with
  | Some i =>
    if link_ok e && negb (exists_ f dest)
    then ({| inodes := inodes f; names := <[dest := i]> (names f); next := next f |}, Ok tt)
    else match read f src with
         | Ok b => (std_write f dest b, Ok tt)
         | Err x => (f, Err x)
         end
  | None => (f, Err NotFound)
  end.

(** [ModelStore::blob_path] is the digest-checked path. *)
Definition materialize_one (dir : string) (e : env) (spec : DefaultModelSpec)
    : SE ModelStore.store ModelStore.store_err unit :=
  do! s := sget in
  let dest := path_join dir (local_filename spec) in
  if exists_ (ModelStore.files s) dest then sret tt else
  if negb (known (s_model_id spec) e s) then sret tt else
  do! src := slift (ModelStore.blob_path_verified (s_model_id spec) s) in
  ModelStore.on_files (fun f => let r := link_or_copy src dest e f in (r.1, map_err ModelStore.Io r.2)).

Definition materialize_defaults_from_store (dir : string) (e : env) : SE ModelStore.store ModelStore.store_err unit :=
  do! _ := materialize_one dir e default_llm in
  materialize_one dir e default_embedding.

Definition ensure_one (dir : string) (e : env) (spec : DefaultModelSpec)
    : SE ModelStore.store ModelStore.store_err unit :=
  do! s := sget in
  let path := path_join dir (local_filename spec) in
  if known (s_model_id spec) e s then sret tt else
  if negb (exists_ (ModelStore.files s) path) then sret tt else
  import_gguf path (s_model_id spec) (s_model_type spec) (Some (quant spec)) e.

Definition ensure_store_has_defaults (dir : string) (e : env) : SE ModelStore.store ModelStore.store_err unit :=
  do! _ := ensure_one dir e default_llm in
  ensure_one dir e default_embedding.

(** [download_file]: a body that ends early leaves the part file. *)
Definition part_path (dest : string) : string := utf8 (stem (chars dest)) +:+ ".part".

Definition download_file (url dest : string) (e : env) (f : fs) : fs * result io_err unit :=
  let part := part_path dest in
  let f := if exists_ f part then remove_file f part else f in
  match fetched e url with
  | None => (f, Err NotFound)
  | Some body =>
    match cut e url with
    | Some n => (std_write f part (stake n body), Err WriteFailed)
    | None => match rename (std_write f part body) part dest with
              | Ok f' => (f', Ok tt)
              | Err x => (std_write f part body, Err x)
              end
    end
  end.

Definition download_and_import (dir : string) (e : env) (spec : DefaultModelSpec)
    : SE ModelStore.store ModelStore.store_err unit :=
  do! s := sget in
  let dest := path_join dir (local_filename spec) in
  do! _ := (if exists_ (ModelStore.files s) dest then sret tt
            else ModelStore.on_files (fun f => let r := download_file (download_url spec) dest e f in
                                               (r.1, map_err ModelStore.Io r.2))) in
  import_gguf dest (s_model_id spec) (s_model_type spec) (Some (quant spec)) e.

Fixpoint download_all (dir : string) (e : env) (l : list DefaultModelSpec) : SE ModelStore.store ModelStore.store_err unit :=
  match l with
  | [] => sret tt
  | spec :: l => do! _ := download_and_import dir e spec in download_all dir e l
  end.

Definition maybe_bootstrap (o : BootstrapOptions) (e : env) : SE ModelStore.store ModelStore.store_err unit :=
  if skip o then sret tt else
  do! _ := import_local_gguf (models_dir o) e in
  do! _ := materialize_defaults_from_store (models_dir o) e in
  do! s := sget in
  let dir := scan_models_dir (models_dir o) (ModelStore.files s) in
  if has_llm dir && has_embedding dir then ensure_store_has_defaults (models_dir o) e else
  let missing := missing_defaults dir in
  match missing with
  | [] => sret tt
  | _ => if negb (prompt_download (yes o) e) then sret tt else download_all (models_dir o) e missing
  end.

(** ** What a run leaves alone *)

(** The rows of the table stay, in their place. *)
Definition extends (s s' : ModelStore.store) : Prop := exists l, ModelStore.models s' = ModelStore.models s ++ l.

Lemma extends_refl s : extends s s.
Proof. exists []. by rewrite app_nil_r. Qed.

Lemma extends_trans s1 s2 s3 : extends s1 s2 -> extends s2 s3 -> extends s1 s3.
Proof. intros [a Ha] [b Hb]. exists (a ++ b). by rewrite Hb, Ha, app_assoc. Qed.

Definition grows {A} (m : SE ModelStore.store ModelStore.store_err A) : Prop := forall s, extends s (m s).1.

Lemma grows_ret {A} (a : A) : grows (sret a).
Proof. intros s. apply extends_refl. Qed.

Lemma grows_bind {A B} (m : SE ModelStore.store ModelStore.store_err A) (k : A -> SE ModelStore.store ModelStore.store_err B) :
  grows m -> (forall a, grows (k a)) -> grows (sbind m k).
Proof.
  intros Hm Hk s. unfold sbind. specialize (Hm s). destruct (m s) as [s' [a|x]]; [|done].
  eapply extends_trans; [exact Hm|apply Hk].
Qed.

Lemma grows_get : grows sget.
Proof. intros s. apply extends_refl. Qed.

Lemma grows_lift {A} (r : result ModelStore.store_err A) : grows (slift r).
Proof. intros s. apply extends_refl. Qed.

Lemma grows_files {A} (m : SE fs ModelStore.store_err A) : grows (ModelStore.on_files m).
Proof. intros s. exists []. simpl. by rewrite app_nil_r. Qed.

Lemma grows_insert m : grows (ModelStore.insert_manifest m).
Proof.
  intros s. unfold ModelStore.insert_manifest, ModelStore.insert.
  destruct (existsb _ _); simpl; [apply extends_refl|by eexists].
Qed.

Ltac grow := repeat first [apply grows_bind; [|intros] | apply grows_ret | apply grows_get | apply grows_lift
  | apply grows_files | apply grows_insert | case_match].

Lemma grows_import path m q t u i n c : grows (ModelStore.import_from_file path m q t u i n c).
Proof. unfold ModelStore.import_from_file. grow. Qed.

Lemma grows_import_gguf path m t q e : grows (import_gguf path m t q e).
Proof. unfold import_gguf. grow. Qed.

Lemma grows_import_files paths e : grows (import_files paths e).
Proof.
  induction paths as [|p paths IH]; cbn [import_files]; [apply grows_ret|].
  destruct (spec_for_local_file p); [|done]. apply grows_bind; [apply grows_get|]. intros s.
  destruct (known _ e s); [done|]. apply grows_bind; [apply grows_import_gguf|done].
Qed.

Lemma grows_materialize dir e spec : grows (materialize_one dir e spec).
Proof. unfold materialize_one. grow. Qed.

Lemma grows_ensure dir e spec : grows (ensure_one dir e spec).
Proof. unfold ensure_one. grow. Qed.

Lemma grows_download dir e l : grows (download_all dir e l).
Proof.
  induction l as [|spec l IH]; cbn [download_all]; [apply grows_ret|]. apply grows_bind; [|done].
  unfold download_and_import. grow.
Qed.

Lemma grows_bootstrap o e : grows (maybe_bootstrap o e).
Proof.
  unfold maybe_bootstrap. destruct (skip o); [apply grows_ret|].
  apply grows_bind; [apply grows_bind; [apply grows_get|intros; apply grows_import_files]|intros _].
  apply grows_bind; [unfold materialize_defaults_from_store; apply grows_bind; intros; apply grows_materialize|intros _].
  apply grows_bind; [apply grows_get|intros s].
  destruct (_ && _); [unfold ensure_store_has_defaults; apply grows_bind; intros; apply grows_ensure|].
  destruct (missing_defaults _); [apply grows_ret|]. destruct (negb _); [apply grows_ret|apply grows_download].
Qed.

(** A first run keeps every model of the store as it is, through failures too: it only adds. *)
Theorem bootstrap_keeps_models o e s :
  extends s (maybe_bootstrap o e s).1 /\
  forall m t x, ModelStore.get m t s = Some x -> ModelStore.get m t (maybe_bootstrap o e s).1 = Some x.
Proof.
  pose proof (grows_bootstrap o e s) as [l Hl]. split; [by exists l|].
  intros m t x. unfold ModelStore.get. rewrite Hl. intros Hg.
  destruct (List.find (ModelStore.is_model m) (ModelStore.models s)) as [r|] eqn:E; [|done].
  assert (List.find (ModelStore.is_model m) (ModelStore.models s ++ l) = Some r) as ->; [|done].
  clear -E. induction (ModelStore.models s) as [|y k IH]; simpl in *; [done|].
  destruct (ModelStore.is_model m y); [done|auto].
Qed.

(** ** Consent *)

Definition with_fetched (g : string -> option string) (e : env) : env := {|
  env_yes := env_yes e; is_tty := is_tty e; answer := answer e; fetched := g; cut := cut e;
  link_ok := link_ok e; uuid := uuid e; new_id := new_id e; now := now e |}.

Lemma import_files_fetched g e paths s : import_files paths (with_fetched g e) s = import_files paths e s.
Proof.
  revert s. induction paths as [|p paths IH]; intros s; [done|]. cbn [import_files].
  destruct (spec_for_local_file p) as [spec|]; [|apply IH]. unfold sbind at 1 3, sget.
  change (known (s_model_id spec) (with_fetched g e) s) with (known (s_model_id spec) e s).
  destruct (known (s_model_id spec) e s); [apply IH|]. unfold sbind.
  change (import_gguf p (s_model_id spec) (s_model_type spec) (Some (quant spec)) (with_fetched g e))
    with (import_gguf p (s_model_id spec) (s_model_type spec) (Some (quant spec)) e).
  destruct (import_gguf _ _ _ _ e s) as [s' [[]|x]]; [apply IH|done].
Qed.

Lemma sbind_same {S E A B} (m m' : SE S E A) (k k' : A -> SE S E B) s :
  (forall s, m s = m' s) -> (forall a s, k a s = k' a s) -> sbind m k s = sbind m' k' s.
Proof. intros Hm Hk. unfold sbind. rewrite Hm. destruct (m' s) as [s' [a|x]]; [apply Hk|done]. Qed.

(** Without the flag, the variable or an answer typed at a terminal a run is the same
    whatever the network would answer: nothing is downloaded. *)
Theorem nothing_fetched_without_consent o e s :
  prompt_download (yes o) e = false ->
  forall g, maybe_bootstrap o (with_fetched g e) s = maybe_bootstrap o e s.
Proof.
  intros Hp g. unfold maybe_bootstrap. destruct (skip o); [done|].
  apply sbind_same; [intros s1; unfold import_local_gguf, sbind, sget; apply import_files_fetched|intros _ s1].
  apply sbind_same; [done|intros _ s2]. apply sbind_same; [done|intros s3 s4].
  destruct (_ && _); [done|]. destruct (missing_defaults _); [done|].
  change (prompt_download (yes o) (with_fetched g e)) with (prompt_download (yes o) e). by rewrite Hp.
Qed.

End bootstrap.
End Bootstrap.

Module BootDemo.
Import Common.Models Bootstrap UserDemo ChunkDemo.

Definition disk : fs := std_write (std_write fs_empty "models/chat.gguf" "weights a") "models/embed/mistral.gguf" "weights b".
Definition opts : BootstrapOptions := {| models_dir := "models"; skip := false; yes := false |}.
Definition offline : env := {|
  env_yes := false; is_tty := false; answer := []; fetched := fun _ => None; cut := fun _ => None; link_ok := true;
  uuid := fun p => p; new_id := fun p => p; now := 1000 |}.
Definition ran := maybe_bootstrap opts offline (ModelStore.empty_store disk).

(** A chat model in a directory [embed] counts as an embedding model there and as a chat
    model in the store: the run ends well, and there is no embedding model. *)
Example covered_without_embedding :
  is_ok ran.2 = true /\ scan_models_dir "models" (ModelStore.files ran.1) = {| has_llm := true; has_embedding := true |} /\
  coverage_from_manifests (ModelStore.list_models 1000 ran.1) = {| has_llm := true; has_embedding := false |}.
Proof. by vm_compute. Qed.

(** Any name with these two words is taken for the default model. *)
Example coder_is_default :
  s_model_id <$> spec_for_local_file "models/Qwen2.5-Coder-7B-Base.gguf" = Some {| name := "qwen2.5"; tag := "7b" |}.
Proof. by vm_compute. Qed.

Definition empty_disk : ModelStore.store := ModelStore.empty_store fs_empty.
Definition online : env := with_fetched (fun _ => Some "weights") offline.

Lemma nothing_fetched_without_consent_witness :
  prompt_download (yes opts) offline = false /\
  maybe_bootstrap opts online empty_disk = maybe_bootstrap opts offline empty_disk /\
  ModelStore.models (maybe_bootstrap {| models_dir := "models"; skip := false; yes := true |} online empty_disk).1 <> [].
Proof.
  split; [done|]. split; [|by vm_compute].
  apply (nothing_fetched_without_consent opts offline empty_disk); reflexivity.
Defined.

End BootDemo.
