(* ===== verification/RagStore.v ===== *)
(** * The vector store of retrieval

    Models [maranode-rag/src/crypt.rs] and [store.rs] with the schema of
    [sql/migrate.sql]: the tables are lists of their rows in the order of insertion,
    each statement the operation it states on them, with the keys and the cascades of
    the schema, which the migration turns on. Drawn identifiers, nonces and times are
    arguments. *)

From Stdlib Require Import ZArith Lia Ascii String.
From S2P Require Import Prelude Crypto UserDb WorkspaceDb F32 SortBy.
Open Scope Z_scope.

(** ** crypt.rs *)
Module Crypt.

Inductive crypt_err := NoPrefix | BadHex | TooShort | DecryptFailed | NotUtf8 | NoDek.

#[export] Instance crypt_err_eq_dec : EqDecision crypt_err.
Proof. solve_decision. Defined.

Section crypt.
Context `{!Aead, !Hex}.

Definition PREFIX : string := "enc:".

Definition encrypt (key nonce plaintext : string) : string :=
  PREFIX +:+ hex_encode (nonce +:+ aead_seal key nonce plaintext).

Definition decrypt (key stored : string) : result crypt_err string :=
  let? hex_part := ok_or (Kek.strip_prefix PREFIX stored) NoPrefix in
  let? blob := ok_or (hex_decode hex_part) BadHex in
  guard negb (Nat.ltb (String.length blob) 12) else TooShort in
  let? plain := ok_or (aead_open key (stake 12 blob) (sdrop 12 blob)) DecryptFailed in
  guard utf8_ok plain else NotUtf8 in
  Ok plain.

(** Encryption fails only for texts of more than 64 GiB. *)
Definition maybe_encrypt (key : option string) (nonce value : string) : string :=
  match key with Some k => encrypt k nonce value | None => value end.

Definition maybe_decrypt (key : option string) (value : string) : result crypt_err string :=
  if String.prefix PREFIX value then let? k := ok_or key NoDek in decrypt k value else Ok value.

Lemma crypt_round k n p :
  String.length k = 32%nat -> String.length n = 12%nat -> utf8_ok p = true ->
  decrypt k (encrypt k n p) = Ok p.
Proof.
  intros Hk Hn Hp. unfold decrypt, encrypt. rewrite Kek.strip_prefix_app. cbn [ok_or rbind].
  rewrite hex_decode_encode. cbn [ok_or rbind].
  replace (Nat.ltb _ 12) with false; cbn [negb].
  - rewrite stake_app_len, sdrop_app_len, aead_open_seal by done. cbn [ok_or rbind]. by rewrite Hp.
  - symmetry. apply Nat.ltb_ge. rewrite string_length_app. lia.
Qed.

(** A value that reads as encrypted only when it is. *)
Definition plain (v : string) : bool := negb (String.prefix PREFIX v).

Definition dek_ok (key : option string) : Prop := forall k, key = Some k -> String.length k = 32%nat.

Lemma maybe_round key n p :
  dek_ok key -> String.length n = 12%nat -> utf8_ok p = true ->
  maybe_decrypt key (maybe_encrypt key n p)
  = match key with Some _ => Ok p | None => if plain p then Ok p else Err NoDek end.
Proof.
  intros Hk Hn Hp. unfold maybe_decrypt, maybe_encrypt, plain. destruct key as [k|].
  - unfold encrypt at 1. rewrite Kek.prefix_app. cbn [ok_or rbind]. apply crypt_round; auto.
  - by destruct (String.prefix PREFIX p).
Qed.

(** The [unwrap_or] of the readers: the text as it was written, always. *)
Lemma read_back key n p :
  dek_ok key -> String.length n = 12%nat -> utf8_ok p = true ->
  match maybe_decrypt key (maybe_encrypt key n p) with Ok t => t | Err _ => maybe_encrypt key n p end = p.
Proof.
  intros Hk Hn Hp. rewrite maybe_round by done. destruct key as [k|]; [done|]. by destruct (plain p).
Qed.

End crypt.
End Crypt.

(** ** store.rs *)
Module RagStore.
Import Crypt.

Record collection_row := { c_name : string; c_model : string; c_dim : Z; c_created : string }.

Record document_row := {
  d_id : string; d_collection : string; d_source : string; d_sha256 : string;
  d_ingested_at : string; d_title : option string; d_author : option string;
  d_page_count : Z; d_summary : option string
}.

Record chunk_row := {
  k_id : string; k_document : string; k_collection : string; k_ordinal : Z; k_text : string;
  k_embedding : string; k_page : Z; k_section : option string; k_hash : string
}.

Record VectorStore := {
  collections : list collection_row;
  documents : list document_row;
  chunks : list chunk_row;
  dek : option string
}.

(** A chunk as it is given to the store. *)
Record ChunkRow := {
  text : string; embedding : list Z; page_number : Z; section : option string; content_hash : string
}.

Record ScoredChunk := {
  chunk_id : string; doc_id : string; doc_sha256 : string; chunk_hash : string; source : string;
  ordinal : Z; s_text : string; score : Z; s_page : Z; s_section : option string;
  s_title : option string; s_author : option string
}.

Record CollectionInfo := {
  ci_name : string; ci_model : string; ci_dim : Z; ci_documents : Z; ci_chunks : Z
}.

Record DocumentInfo := {
  di_id : string; di_collection : string; di_source : string; di_sha256 : string; di_chunks : Z;
  di_ingested_at : string; di_title : option string; di_author : option string;
  di_page_count : Z; di_summary : option string
}.

Inductive store_err :=
| WrongModel | WrongDim | UniqueViolation | ForeignKey | NoRow | BadBlob | CryptErr (e : crypt_err).

(** The identifiers and nonces that an ingestion draws. *)
Record draws := { new_doc : string; new_chunk : nat -> string; new_nonce : nat -> string }.

Definition empty_store (key : option string) : VectorStore :=
  {| collections := []; documents := []; chunks := []; dek := key |}.

Definition with_dek (key : string) (s : VectorStore) : VectorStore :=
  {| collections := collections s; documents := documents s; chunks := chunks s; dek := Some key |}.

Definition find_collection (name : string) (s : VectorStore) : option collection_row :=
  List.find (fun c => String.eqb (c_name c) name) (collections s).

Definition find_document (id : string) (s : VectorStore) : option document_row :=
  List.find (fun d => String.eqb (d_id d) id) (documents s).

Section store.
Context `{!Rfc3339, !Sha256, !Aead, !Hex}.

Definition ensure_collection (name model : string) (dim now : Z) : SE VectorStore store_err unit := fun s =>
  match find_collection name s with
  | Some c =>
    if negb (String.eqb (c_model c) model) then (s, Err WrongModel) else
    if negb (c_dim c =? dim) then (s, Err WrongDim) else (s, Ok tt)
  | None =>
    ({| collections := collections s ++ [{| c_name := name; c_model := model; c_dim := dim;
                                            c_created := to_rfc3339 now |}];
        documents := documents s; chunks := chunks s; dek := dek s |}, Ok tt)
  end.

Definition chunk_of (key : option string) (r : draws) (collection : string) (i : nat) (c : ChunkRow)
    : chunk_row :=
  {| k_id := new_chunk r i; k_document := new_doc r; k_collection := collection;
     k_ordinal := Z.of_nat i; k_text := maybe_encrypt key (new_nonce r i) (text c);
     k_embedding := Math.vec_to_blob (embedding c); k_page := page_number c;
     k_section := section c; k_hash := content_hash c |}.

(** The insertions of the transaction, from the [i]-th chunk. *)
Fixpoint insert_chunks (key : option string) (r : draws) (collection : string) (i : nat)
    (cs : list ChunkRow) (table : list chunk_row) : result store_err (list chunk_row) :=
  match cs with
  | [] => Ok table
  | c :: cs =>
    guard negb (existsb (fun k => String.eqb (k_id k) (new_chunk r i)) table) else UniqueViolation in
    insert_chunks key r collection (S i) cs (table ++ [chunk_of key r collection i c])
  end.

(** A transaction: an error leaves the tables as they were. *)
Definition insert_document (collection source sha256 : string) (cs : list ChunkRow)
    (title author : option string) (page_count now : Z) (r : draws)
    : SE VectorStore store_err string := fun s =>
  if existsb (fun d => String.eqb (d_id d) (new_doc r)) (documents s) then (s, Err UniqueViolation) else
  match find_collection collection s with
  | None => (s, Err ForeignKey)
  | Some _ =>
    match insert_chunks (dek s) r collection 0 cs (chunks s) with
    | Err e => (s, Err e)
    | Ok ks =>
      ({| collections := collections s;
          documents := documents s ++ [{| d_id := new_doc r; d_collection := collection;
            d_source := source; d_sha256 := sha256; d_ingested_at := to_rfc3339 now;
            d_title := title; d_author := author; d_page_count := page_count; d_summary := None |}];
          chunks := ks; dek := dek s |}, Ok (new_doc r))
    end
  end.

Definition read_text (key : option string) (raw : string) : string :=
  match maybe_decrypt key raw with Ok t => t | Err _ => raw end.

Definition verify_chunk_hash (id : string) (s : VectorStore) : result store_err (string * string * bool) :=
  let? k := ok_or (List.find (fun k => String.eqb (k_id k) id) (chunks s)) NoRow in
  let computed := sha256_hex (read_text (dek s) (k_text k)) in
  Ok (k_hash k, computed, String.eqb computed (k_hash k)).

Definition with_summary (v : string) (d : document_row) : document_row :=
  {| d_id := d_id d; d_collection := d_collection d; d_source := d_source d; d_sha256 := d_sha256 d;
     d_ingested_at := d_ingested_at d; d_title := d_title d; d_author := d_author d;
     d_page_count := d_page_count d; d_summary := Some v |}.

Definition set_summary (id summary nonce : string) (s : VectorStore) : VectorStore :=
  let stored := maybe_encrypt (dek s) nonce summary in
  {| collections := collections s;
     documents := (fun d => if String.eqb (d_id d) id then with_summary stored d else d) <$> documents s;
     chunks := chunks s; dek := dek s |}.

Definition scored (key : option string) (k : chunk_row) (d : document_row) (sc : Z) : ScoredChunk :=
  {| chunk_id := k_id k; doc_id := d_id d; doc_sha256 := d_sha256 d; chunk_hash := k_hash k;
     source := d_source d; ordinal := k_ordinal k; s_text := read_text key (k_text k); score := sc;
     s_page := k_page k; s_section := k_section k; s_title := d_title d; s_author := d_author d |}.

(** The rows of the join, each with its score. *)
Fixpoint score_rows (s : VectorStore) (query : list Z) (min_score : Z) (ks : list chunk_row)
    : result store_err (list ScoredChunk) :=
  match ks with
  | [] => Ok []
  | k :: ks =>
    match find_document (k_document k) s with
    | None => score_rows s query min_score ks
    | Some d =>
      let? emb := ok_or (Math.blob_to_vec (k_embedding k)) BadBlob in
      let? rest := score_rows s query min_score ks in
      if negb (Nat.eqb (List.length emb) (List.length query)) then Ok rest else
      let sc := Math.dot query emb in
      if F32.le min_score sc then Ok (scored (dek s) k d sc :: rest) else Ok rest
    end
  end.

Definition in_collection (name : string) (s : VectorStore) : list chunk_row :=
  List.filter (fun k => String.eqb (k_collection k) name) (chunks s).

(** [b.score.total_cmp(&a.score)] is not [Greater]. *)
Definition by_score (a b : ScoredChunk) : bool :=
  match F32.total_cmp (score b) (score a) with Gt => false | _ => true end.

Definition search (collection : string) (query : list Z) (top_k : nat) (min_score : Z) (s : VectorStore)
    : result store_err (list ScoredChunk) :=
  let? rows := score_rows s query min_score (in_collection collection s) in
  Ok (take top_k (sort_by by_score rows)).

Definition by_name (a b : collection_row) : bool := negb (String.ltb (c_name b) (c_name a)).

Definition list_collections (s : VectorStore) : list CollectionInfo :=
  (fun c => {| ci_name := c_name c; ci_model := c_model c; ci_dim := c_dim c;
     ci_documents := Z.of_nat (List.length
       (List.filter (fun d => String.eqb (d_collection d) (c_name c)) (documents s)));
     ci_chunks := Z.of_nat (List.length (in_collection (c_name c) s)) |})
  <$> sort_by by_name (collections s).

Definition chunks_of (id : string) (s : VectorStore) : list chunk_row :=
  List.filter (fun k => String.eqb (k_document k) id) (chunks s).

Definition document_info (s : VectorStore) (d : document_row) : DocumentInfo :=
  {| di_id := d_id d; di_collection := d_collection d; di_source := d_source d;
     di_sha256 := d_sha256 d; di_chunks := Z.of_nat (List.length (chunks_of (d_id d) s));
     di_ingested_at := d_ingested_at d; di_title := d_title d; di_author := d_author d;
     di_page_count := d_page_count d; di_summary := read_text (dek s) <$> d_summary d |}.

Definition by_ingested_desc (a b : document_row) : bool :=
  negb (String.ltb (d_ingested_at a) (d_ingested_at b)).

Definition list_documents (collection : string) (s : VectorStore) : list DocumentInfo :=
  document_info s <$> sort_by by_ingested_desc
    (List.filter (fun d => String.eqb (d_collection d) collection) (documents s)).

Definition get_document (id : string) (s : VectorStore) : option DocumentInfo :=
  document_info s <$> find_document id s.

Definition by_ordinal (a b : chunk_row) : bool := k_ordinal a <=? k_ordinal b.

Fixpoint decrypt_all (key : option string) (l : list string) : result store_err (list string) :=
  match l with
  | [] => Ok []
  | t :: l =>
    let? p := map_err CryptErr (maybe_decrypt key t) in
    let? ps := decrypt_all key l in Ok (p :: ps)
  end.

Definition get_document_text (id : string) (s : VectorStore) : result store_err (option string) :=
  match sort_by by_ordinal (chunks_of id s) with
  | [] => Ok None
  | rows => let? ts := decrypt_all (dek s) (k_text <$> rows) in Ok (Some (join (nl +:+ nl) ts))
  end.

(** The deletions, with the cascades: documents of a collection, chunks of a document. *)
Definition drop_documents (gone : document_row -> bool) (s : VectorStore) : VectorStore :=
  {| collections := collections s;
     documents := List.filter (fun d => negb (gone d)) (documents s);
     chunks := List.filter (fun k => negb (existsb (fun d => gone d && String.eqb (d_id d) (k_document k))
                                              (documents s))) (chunks s);
     dek := dek s |}.

Definition delete_document (id : string) (s : VectorStore) : VectorStore * bool :=
  (drop_documents (fun d => String.eqb (d_id d) id) s,
   existsb (fun d => String.eqb (d_id d) id) (documents s)).

Definition delete_collection (name : string) (s : VectorStore) : VectorStore * bool :=
  let s' := drop_documents (fun d => String.eqb (d_collection d) name) s in
  ({| collections := List.filter (fun c => negb (String.eqb (c_name c) name)) (collections s');
      documents := documents s'; chunks := chunks s'; dek := dek s' |},
   existsb (fun c => String.eqb (c_name c) name) (collections s)).

Definition chunk_count (collection : string) (s : VectorStore) : Z :=
  Z.of_nat (List.length (in_collection collection s)).

End store.
End RagStore.
