(* ===== verification/RagEngine.v ===== *)
(** * The retrieval engine

    Models [maranode-rag/src/engine.rs], [config.rs] and [embed.rs] over the store of
    [RagStore], the chunking of [RagChunk] and the extraction of [RagText]. The
    embedding model is the class [Embedder]. The theorems say what an ingested
    document leaves in the store and what a search returns. *)

From Stdlib Require Import ZArith Lia Ascii String Sorted.
From S2P Require Import Prelude Crypto UserDb WorkspaceDb F32 SortBy RagChunk RagText RagStore.
Open Scope Z_scope.

Module RagEngine.
Import Chunk Utf8 Extract RagStore.

(** The trait: the label of the model, and a vector per text. *)
Class Embedder := {
  model_label : string;
  embed : list string -> option (list (list Z));
  embed_bits l vs : embed l = Some vs -> forallb (forallb F32.bits_ok) vs = true;
}.

Definition embed_one `{Embedder} (t : string) : option (list Z) := some? out := embed [t] in last out.

Record RagConfig := {
  default_collection : string; chunk_size : nat; chunk_overlap : nat; cfg_top_k : nat;
  cfg_min_score : Z; max_context_chars : Z
}.

(** [min_score] is 0.25. *)
Definition default_config : RagConfig := {|
  default_collection := "default"; chunk_size := 1200; chunk_overlap := 200; cfg_top_k := 3;
  cfg_min_score := 1048576000; max_context_chars := 4000 |}.

Record RagEngine := { store : VectorStore; config : RagConfig }.

Record IngestStats := {
  document_id : string; collection : string; is_chunks : Z; is_pages : Z; summary : option string
}.

Inductive rag_err :=
| Extraction (e : extract_err) | NoText | EmbedFailed | WrongCount | EmptyVectors | OutOfFuel
| Store (e : store_err).

Section engine.
Context `{!Rfc3339, !Sha256, !Aead, !Hex, !Unicode, !PdfTools, !Embedder}.

Definition apply_runtime_config (c : RagConfig) (e : RagEngine) : RagEngine :=
  {| store := store e; config := c |}.

Definition on_store {A} (m : SE VectorStore store_err A) : SE RagEngine rag_err A := fun e =>
  let r := m (store e) in ({| store := r.1; config := config e |}, map_err Store r.2).

Definition mk_row (c : RichChunk) (emb : list Z) : ChunkRow :=
  let t := utf8 (c_text c) in
  {| text := t; embedding := emb; page_number := Chunk.page_number c;
     section := utf8 <$> Chunk.section c; content_hash := sha256_hex t |}.

(** [summarizer] is the summary of a text, if there is one; [summary_nonce] a drawn nonce. *)
Definition ingest_document (collection source : string) (doc : Document)
    (summarizer : option (string -> option string)) (now : Z) (r : draws) (summary_nonce : string)
    : SE RagEngine rag_err IngestStats :=
  do! e := sget in
  let cfg := config e in
  do! rich := slift (ok_or (chunk_document (content doc) (chars source) (chunk_size cfg)
                              (chunk_overlap cfg)) OutOfFuel) in
  match rich with [] => sfail NoText | _ =>
  do! embeddings := slift (ok_or (embed ((fun c => utf8 (c_text c)) <$> rich)) EmbedFailed) in
  if negb (Nat.eqb (List.length embeddings) (List.length rich)) then sfail WrongCount else
  let dim := match embeddings with v :: _ => Z.of_nat (List.length v) | [] => 0 end in
  if dim =? 0 then sfail EmptyVectors else
  let embeddings := Math.normalize <$> embeddings in
  do! _ := on_store (ensure_collection collection model_label dim now) in
  let sha256 := sha256_hex (utf8 (full_text (content doc))) in
  let rows := zip_with mk_row rich embeddings in
  do! id := on_store (insert_document collection source sha256 rows (title (meta doc))
                        (author (meta doc)) (page_count (meta doc)) now r) in
  do! summary :=
    (match summarizer with
     | None => sret None
     | Some summarize =>
       match summarize (utf8 (take (Z.to_nat 8000) (full_text (content doc)))) with
       | None => sret None
       | Some t => do! _ := on_store (smodify (set_summary id t summary_nonce)) in sret (Some t)
       end
     end) in
  sret {| document_id := id; collection := collection; is_chunks := Z.of_nat (List.length rows);
          is_pages := page_count (meta doc); summary := summary |}
  end.

Definition ingest (collection source t : string) (now : Z) (r : draws) : SE RagEngine rag_err IngestStats :=
  ingest_document collection source (from_plain (chars t)) None now r "".

Definition ingest_bytes (collection source bytes filename : string)
    (summarizer : option (string -> option string)) (now : Z) (r : draws) (summary_nonce : string)
    : SE RagEngine rag_err IngestStats :=
  do! doc := slift (map_err Extraction (extract bytes filename)) in
  ingest_document collection source doc summarizer now r summary_nonce.

(** A [RetrievedChunk] has the fields of a [ScoredChunk]. *)
Definition limit (cfg : RagConfig) (top_k : option nat) : nat := Nat.max (default (cfg_top_k cfg) top_k) 1.

Definition retrieve (collection query : string) (top_k : option nat) (e : RagEngine)
    : result rag_err (list ScoredChunk) :=
  let? q := ok_or (embed_one query) EmbedFailed in
  map_err Store (search collection (Math.normalize q) (limit (config e) top_k)
                   (cfg_min_score (config e)) (store e)).

(** [b.score.partial_cmp(&a.score).unwrap_or(Equal)] is not [Greater]. *)
Definition by_partial (a b : ScoredChunk) : bool :=
  match F32.partial_cmp (score b) (score a) with Some Gt => false | _ => true end.

Definition all_hits (q : list Z) (k : nat) (e : RagEngine) : list ScoredChunk :=
  concat ((fun c => match search (ci_name c) q k (cfg_min_score (config e)) (store e) with
                    | Ok hits => hits | Err _ => [] end) <$> list_collections (store e)).

Definition retrieve_all_collections (query : string) (top_k : option nat) (e : RagEngine)
    : result rag_err (list ScoredChunk) :=
  let k := limit (config e) top_k in
  let? q := ok_or (embed_one query) EmbedFailed in
  Ok (take k (sort_by by_partial (all_hits (Math.normalize q) k e))).

(** [Path::file_stem] of a source that has an extension or a directory. *)
Definition file_stem (path : RagChunk.Chunk.text) : option RagChunk.Chunk.text :=
  match file_name path with
  | None => None
  | Some f =>
    match reverse (split_on (fun c => c =? 46) f) with
    | _ :: rest =>
      let before := join_text (str ".") (reverse rest) in
      if is_empty before then Some f else Some before
    | [] => None
    end
  end.

Definition source_display_name (source : string) : option string :=
  some? stem := file_stem (chars source) in
  if negb (is_empty stem) && negb (bool_decide (stem = chars source)) then Some (utf8 stem) else None.

Definition cite_block (i : nat) (c : ScoredChunk) : string :=
  let p := s_page c in
  let loc := match s_section c with
             | Some sec => if 0 <? p then sec +:+ ", p." +:+ show_u64 p else sec
             | None => if 0 <? p then "p." +:+ show_u64 p else ""
             end in
  let display_name := match s_title c with
                      | Some t => t
                      | None => default (source c) (source_display_name (source c))
                      end in
  let cite := "[" +:+ show_u64 (Z.of_nat i + 1) +:+ "] " +:+ quote +:+ display_name +:+ quote +:+
              (if String.eqb loc "" then "" else ", " +:+ loc) in
  cite +:+ nl +:+ s_text c +:+ nl +:+ nl.

Definition slen (s : string) : Z := Z.of_nat (String.length s).

Fixpoint context_loop (max used : Z) (i : nat) (cs : list ScoredChunk) (context : string) : string :=
  match cs with
  | [] => context
  | c :: cs =>
    let block := cite_block i c in
    if (max <? used + slen block) && negb (String.eqb context "") then context
    else context_loop max (used + slen block) (S i) cs (context +:+ block)
  end.

Definition context_intro : string :=
  "The following CONTEXT comes from the user's documents. Prefer information from the CONTEXT when it is relevant to the question. When you use information from the CONTEXT, cite the source number, e.g. [1] or [1, p.5]. You may also draw on your general knowledge to give a complete and helpful answer " +:+
  utf8 [8212] +:+
  " just make clear which parts come from the documents and which from general knowledge. If the CONTEXT contains nothing relevant to the question, answer normally without citing."
  +:+ nl +:+ nl +:+ "CONTEXT:" +:+ nl.

Definition build_context_prompt (cs : list ScoredChunk) (e : RagEngine) : option string :=
  match cs with
  | [] => None
  | _ =>
    let context := context_loop (max_context_chars (config e)) 0 0 cs "" in
    Some (context_intro +:+ utf8 (trim_end (chars context)))
  end.

End engine.
End RagEngine.
