(* ===== verification/RagInv.v ===== *)
(** * What retrieval promises

    The invariant of the vector store, that every operation of the engine preserves
    it, what an ingested document reads back as, and what a search returns: the best
    chunks, of one collection or of all. *)

From Stdlib Require Import ZArith Lia Ascii String Sorted.
From S2P Require Import Prelude Crypto UserDb WorkspaceDb F32 SortBy RagChunk RagText RagStore RagEngine.
Open Scope Z_scope.

Module RagInv.
Import Crypt RagStore RagEngine Utf8 Extract Texts.

Section inv.
Context `{!Rfc3339, !Sha256, !Aead, !Hex, !Unicode, !PdfTools, !Embedder}.

(** A row as an ingestion writes it. *)
Definition row_ok (c : ChunkRow) : Prop :=
  utf8_ok (text c) = true /\ content_hash c = sha256_hex (text c) /\
  forallb F32.bits_ok (embedding c) = true.

Definition draws_ok (r : draws) : Prop := forall i, String.length (new_nonce r i) = 12%nat.

Definition stored_ok (s : VectorStore) (k : chunk_row) : Prop :=
  (exists d, find_document (k_document k) s = Some d /\ d_collection d = k_collection k) /\
  (exists v, Math.blob_to_vec (k_embedding k) = Some v) /\
  k_hash k = sha256_hex (read_text (dek s) (k_text k)).

Record store_ok (s : VectorStore) : Prop := {
  ok_dek : dek_ok (dek s);
  ok_names : NoDup (c_name <$> collections s);
  ok_ids : NoDup (d_id <$> documents s);
  ok_chunk_ids : NoDup (k_id <$> chunks s);
  ok_documents : forall d, In d (documents s) -> is_Some (find_collection (d_collection d) s);
  ok_chunks : forall k, In k (chunks s) -> stored_ok s k
}.

(** ** Looking up *)

Lemma find_app {A} (f : A -> bool) l m :
  List.find f (l ++ m) = match List.find f l with Some x => Some x | None => List.find f m end.
Proof. induction l as [|x l IH]; simpl; [done|]. by destruct (f x). Qed.

Lemma find_document_in s d : NoDup (d_id <$> documents s) -> In d (documents s) ->
  find_document (d_id d) s = Some d.
Proof.
  unfold find_document. generalize (documents s). intros l Hn Hin.
  induction l as [|x l IH]; [done|]. apply NoDup_cons in Hn as [Hx Hn]. simpl.
  destruct Hin as [->|Hin]; [by rewrite String.eqb_refl|].
  destruct (String.eqb_spec (d_id x) (d_id d)) as [E|_]; [|by apply IH].
  destruct Hx. rewrite E. apply list_elem_of_fmap. exists d. split; [done|]. by apply list_elem_of_In.
Qed.

Lemma find_document_some i s d : find_document i s = Some d -> In d (documents s) /\ d_id d = i.
Proof. intros Hf. apply List.find_some in Hf as [? ?%String.eqb_eq]. done. Qed.

Lemma find_collection_some n s c : find_collection n s = Some c -> In c (collections s) /\ c_name c = n.
Proof. intros Hf. apply List.find_some in Hf as [? ?%String.eqb_eq]. done. Qed.

Lemma find_collection_none n s : find_collection n s = None <-> ~ In n (c_name <$> collections s).
Proof.
  unfold find_collection. split.
  - intros Hf Hin. apply list_elem_of_In, list_elem_of_fmap in Hin as (c & -> & Hc%list_elem_of_In).
    pose proof (List.find_none _ _ Hf _ Hc) as Hx. simpl in Hx. by rewrite String.eqb_refl in Hx.
  - intros Hn. destruct (List.find _ _) as [c|] eqn:E; [|done]. destruct Hn.
    apply List.find_some in E as [Hc <-%String.eqb_eq]. apply list_elem_of_In, list_elem_of_fmap.
    exists c. split; [done|]. by apply list_elem_of_In.
Qed.

Lemma existsb_id {A} (f : A -> string) l x : existsb (fun a => String.eqb (f a) x) l = false -> ~ x ∈ f <$> l.
Proof.
  intros He (a & -> & Ha%list_elem_of_In)%list_elem_of_fmap.
  rewrite <- not_true_iff_false in He. destruct He. apply existsb_exists. exists a.
  split; [done|apply String.eqb_refl].
Qed.

(** ** Insertion *)

(** The rows of the chunks, from the [i]-th. *)
Fixpoint rows_from (key : option string) (r : draws) (collection : string) (i : nat) (cs : list ChunkRow)
    : list chunk_row :=
  match cs with
  | [] => []
  | c :: cs => chunk_of key r collection i c :: rows_from key r collection (S i) cs
  end.

Lemma insert_chunks_spec key r col i cs table ks :
  insert_chunks key r col i cs table = Ok ks ->
  ks = table ++ rows_from key r col i cs /\ (NoDup (k_id <$> table) -> NoDup (k_id <$> ks)).
Proof.
  revert i table. induction cs as [|c cs IH]; intros i table; cbn [insert_chunks rows_from].
  { intros [= <-]. by rewrite app_nil_r. }
  case_match eqn:E; [|done]. intros [-> Hn]%IH. split; [by rewrite <- app_assoc|].
  intros Ht. apply Hn. rewrite fmap_app. apply NoDup_app. split; [done|]. split.
  - intros x Hx Hc. apply list_elem_of_singleton in Hc as ->.
    apply negb_true_iff, existsb_id in E. by destruct E.
  - apply NoDup_singleton.
Qed.

Lemma in_rows key r col i cs k : In k (rows_from key r col i cs) ->
  exists j c, In c cs /\ k = chunk_of key r col j c.
Proof.
  revert i. induction cs as [|c cs IH]; intros i; [done|]. intros [<-|Hin].
  - exists i, c. split; [by left|done].
  - apply IH in Hin as (j & c' & Hc & ->). exists j, c'. split; [by right|done].
Qed.

Lemma read_stored s r j c : dek_ok (dek s) -> draws_ok r -> row_ok c ->
  read_text (dek s) (maybe_encrypt (dek s) (new_nonce r j) (text c)) = text c.
Proof. intros Hd Hr (Hu & _ & _). by apply read_back. Qed.

Lemma insert_err col source sha cs title author pages now r s s' err :
  insert_document col source sha cs title author pages now r s = (s', Err err) -> s' = s.
Proof. unfold insert_document. intros Hi. repeat (case_match; simplify_eq; try done). Qed.

Lemma find_document_snoc i s d cs ks : ~ d_id d ∈ d_id <$> documents s ->
  find_document i {| collections := cs; documents := documents s ++ [d]; chunks := ks; dek := dek s |}
  = if decide (i = d_id d) then Some d else find_document i s.
Proof.
  unfold find_document. cbn [documents]. generalize (documents s). intros l Hn.
  induction l as [|x l IH]; simpl.
  - destruct (String.eqb_spec (d_id d) i); case_decide; congruence.
  - destruct (String.eqb_spec (d_id x) i) as [<-|_].
    + case_decide as E; [|done]. destruct Hn. rewrite <- E. by left.
    + apply IH. intros Hx. destruct Hn. by right.
Qed.

Lemma ensure_ok name model dim now s s' u :
  ensure_collection name model dim now s = (s', u) -> store_ok s ->
  store_ok s' /\ documents s' = documents s /\ chunks s' = chunks s /\ dek s' = dek s /\
  (u = Ok tt -> is_Some (find_collection name s')).
Proof.
  unfold ensure_collection. intros He Hs. destruct (find_collection name s) as [c|] eqn:E.
  - repeat (case_match; try (by simplify_eq; split_and!)); simplify_eq; by split_and!.
  - simplify_eq. apply find_collection_none in E. split_and!; try done; cycle 1.
    { intros _. unfold find_collection. cbn [collections].
      rewrite find_app. case_match; [done|]. simpl. by rewrite String.eqb_refl. }
    destruct Hs as [Hd Hn Hi Hk Hdoc Hch]. split; try done.
    + cbn [collections]. rewrite fmap_app. apply NoDup_app. split; [done|]. split; [|apply NoDup_singleton].
      intros x Hx Hc. apply list_elem_of_singleton in Hc as ->. by apply list_elem_of_In in Hx.
    + intros d Hin. destruct (Hdoc d Hin) as [c Hc]. unfold find_collection. cbn [collections].
      rewrite find_app. unfold find_collection in Hc. rewrite Hc. by eexists.
Qed.

Lemma insert_ok col source sha cs title author pages now r s s' id :
  insert_document col source sha cs title author pages now r s = (s', Ok id) ->
  store_ok s -> draws_ok r -> Forall row_ok cs ->
  store_ok s' /\ id = new_doc r /\ dek s' = dek s /\ is_Some (find_collection col s) /\
  collections s' = collections s /\ chunks s' = chunks s ++ rows_from (dek s) r col 0 cs /\
  ~ new_doc r ∈ d_id <$> documents s /\
  exists d, documents s' = documents s ++ [d] /\ d_id d = new_doc r /\ d_collection d = col.
Proof.
  unfold insert_document. intros Hi Hs Hr Hcs. case_match eqn:Eid; [done|].
  destruct (find_collection col s) as [c|] eqn:Ec; [|done].
  destruct (insert_chunks _ _ _ _ _ _) as [ks|] eqn:Ek; [|done]. simplify_eq.
  apply insert_chunks_spec in Ek as [-> Hnd]. apply existsb_id in Eid.
  split; [|split_and!; try done; by eexists].
  destruct Hs as [Hd Hn Hids Hk Hdoc Hch]. split; try done; cbn [documents chunks collections dek].
  - rewrite fmap_app. apply NoDup_app. split; [done|]. split; [|apply NoDup_singleton].
    intros x Hx Hc. apply list_elem_of_singleton in Hc as ->. done.
  - by apply Hnd.
  - intros d [Hin|[<-|[]]]%in_app_or; [by apply Hdoc|]. exists c. exact Ec.
  - intros k [Hin|Hin]%in_app_or.
    + destruct (Hch k Hin) as ((d & Hf & Hcol) & Hb & Hh). split; [|done]. exists d. split; [|done].
      rewrite find_document_snoc by done. case_decide as E; [|done].
      cbn [d_id] in E. destruct Eid. apply find_document_some in Hf as [Hx Hy].
      rewrite <- E, <- Hy. apply list_elem_of_fmap. exists d. split; [done|]. by apply list_elem_of_In.
    + apply in_rows in Hin as (j & c' & Hc' & ->). rewrite List.Forall_forall in Hcs.
      pose proof (Hcs _ Hc') as (Hu & Hh & Hb). split; [|split].
      * eexists. rewrite find_document_snoc by done. cbn [k_document chunk_of d_id].
        rewrite decide_True by done. by split.
      * exists (embedding c'). by apply Math.blob_round.
      * cbn [k_hash k_text chunk_of dek]. rewrite Hh. symmetry. f_equal. by apply read_stored.
Qed.

(** ** Deletion and summaries *)

Lemma nodup_filter_map {A B} (f : A -> B) (p : A -> bool) l : NoDup (f <$> l) -> NoDup (f <$> List.filter p l).
Proof.
  intros Hn. eapply sublist_NoDup; [exact Hn|]. apply fmap_sublist. induction l as [|x l IH]; [done|].
  apply NoDup_cons in Hn as [_ Hn]. simpl. destruct (p x).
  - by apply sublist_skip, IH.
  - by apply sublist_cons, IH.
Qed.

Lemma drop_ok gone s : store_ok s -> store_ok (drop_documents gone s).
Proof.
  intros [Hd Hn Hids Hk Hdoc Hch]. split; try done; cbn [drop_documents documents chunks collections dek];
    try by apply nodup_filter_map.
  - intros d [Hin _]%filter_In. by apply Hdoc.
  - intros k [Hin Hg]%filter_In. destruct (Hch k Hin) as ((d & Hf & Hcol) & Hb & Hh). split; [|done].
    exists d. split; [|done]. apply negb_true_iff in Hg.
    pose proof (find_document_some _ _ _ Hf) as [Hx Hy].
    rewrite <- Hy. apply find_document_in; cbn [drop_documents documents]; [by apply nodup_filter_map|].
    apply filter_In. split; [done|]. apply negb_true_iff, not_true_iff_false. intros Hgd.
    rewrite <- not_true_iff_false in Hg. apply Hg, existsb_exists. exists d. split; [done|].
    rewrite Hgd, Hy, String.eqb_refl. done.
Qed.

Lemma delete_collection_ok name s : store_ok s -> store_ok (delete_collection name s).1.
Proof.
  intros Hs. unfold delete_collection. cbn zeta. cbn [fst].
  apply (drop_ok (fun d => String.eqb (d_collection d) name)) in Hs.
  set (s' := drop_documents _ s) in *. destruct Hs as [Hd Hn Hids Hk Hdoc Hch]. split; try done.
  - by apply nodup_filter_map.
  - intros d Hin. cbn [documents] in Hin. destruct (Hdoc d Hin) as [c Hc].
    pose proof (find_collection_some _ _ _ Hc) as [Hcin Hcn].
    subst s'. cbn [drop_documents documents] in Hin. apply filter_In in Hin as [_ Hne].
    match goal with |- is_Some ?x => destruct x as [c'|] eqn:E end; [by eexists|]. exfalso.
    apply find_collection_none in E. apply E. apply list_elem_of_In, list_elem_of_fmap.
    exists c. split; [done|]. apply list_elem_of_In, filter_In. split; [done|]. by rewrite Hcn.
Qed.

Lemma find_summary i f s cs ks : (forall d, d_id (f d) = d_id d) ->
  find_document i {| collections := cs; documents := f <$> documents s; chunks := ks; dek := dek s |}
  = f <$> find_document i s.
Proof.
  intros Hf. unfold find_document. cbn [documents]. induction (documents s) as [|d l IH]; [done|].
  rewrite fmap_cons. simpl. rewrite Hf. by destruct (String.eqb (d_id d) i).
Qed.

Lemma set_summary_ok id t n s : store_ok s -> store_ok (set_summary id t n s).
Proof.
  unfold set_summary. cbn zeta.
  set (f := fun d => if String.eqb (d_id d) id then with_summary (maybe_encrypt (dek s) n t) d else d).
  assert (forall d, d_id (f d) = d_id d) as Hi by (intros d; unfold f; by case_match).
  assert (forall d, d_collection (f d) = d_collection d) as Hc by (intros d; unfold f; by case_match).
  intros [Hd Hn Hids Hk Hdoc Hch]. split; try done; cbn [documents chunks collections].
  - rewrite <- list_fmap_compose. erewrite list_fmap_ext; [exact Hids|]. intros. apply Hi.
  - intros d Hin. apply list_elem_of_In, list_elem_of_fmap in Hin as (d0 & -> & Hd0%list_elem_of_In).
    rewrite Hc. by apply Hdoc.
  - intros k Hin. destruct (Hch k Hin) as ((d & Hf & Hcol) & Hb & Hh). split; [|done].
    exists (f d). split; [|by rewrite Hc]. rewrite find_summary by done. by rewrite Hf.
Qed.

(** ** Ingestion *)

Lemma rows_ok rich embs : Forall (fun c => is_text (Chunk.c_text c)) rich ->
  forallb (forallb F32.bits_ok) embs = true -> Forall row_ok (zip_with mk_row rich (Math.normalize <$> embs)).
Proof.
  intros Hr. revert embs. induction Hr as [|c rich Hc _ IH]; intros [|v embs] Hb; try constructor;
    cbn in Hb; bool_prop.
  - repeat split; cbn; [by apply utf8_ok_utf8|by apply Math.normalize_ok].
  - by apply IH.
Qed.

Lemma rows_texts rich embs : List.length embs = List.length rich ->
  text <$> zip_with mk_row rich (Math.normalize <$> embs) = (fun c => utf8 (Chunk.c_text c)) <$> rich.
Proof.
  revert embs. induction rich as [|c rich IH]; intros [|v embs] Hl; try done. cbn. f_equal. apply IH. by injection Hl.
Qed.

(** What an ingestion does to the tables: nothing but perhaps a new collection, or
    one more document with its rows. *)
Definition grows (e e' : RagEngine) (id : string) (rows : list chunk_row) : Prop :=
  store_ok (store e') /\ dek (store e') = dek (store e) /\
  chunks (store e') = chunks (store e) ++ rows /\
  (forall k, In k rows -> k_document k = id) /\
  (rows <> [] -> ~ id ∈ d_id <$> documents (store e)) /\
  (forall i, i <> id -> find_document i (store e') = find_document i (store e)) /\
  (rows = [] -> find_document id (store e') = find_document id (store e)).

Lemma set_summary_lookup id t n s i : find_document i (set_summary id t n s) =
  (fun d => if String.eqb (d_id d) id then with_summary (maybe_encrypt (dek s) n t) d else d)
    <$> find_document i s.
Proof. apply find_summary. intros d. by destruct (String.eqb (d_id d) id). Qed.

Lemma set_summary_find id t n s i : i <> id -> find_document i (set_summary id t n s) = find_document i s.
Proof.
  intros Hi. rewrite set_summary_lookup. destruct (find_document i s) as [d|] eqn:E; [|done]. cbn.
  apply find_document_some in E as [_ <-]. apply String.eqb_neq in Hi. by rewrite Hi.
Qed.

Lemma rows_documents key r col i cs k : In k (rows_from key r col i cs) -> k_document k = new_doc r.
Proof. intros (j & c & _ & ->)%in_rows. done. Qed.

(** What a successful ingestion leaves. *)
Definition ingested (col src : string) (doc : Document) (r : draws) (e e' : RagEngine)
    (rows : list chunk_row) (st : IngestStats) : Prop := exists rich cs,
  Chunk.chunk_document (content doc) (chars src) (chunk_size (config e)) (chunk_overlap (config e))
    = Some rich /\
  document_id st = new_doc r /\ rows = rows_from (dek (store e)) r col 0 cs /\
  Forall row_ok cs /\ cs <> [] /\
  text <$> cs = (fun c => utf8 (Chunk.c_text c)) <$> rich /\
  exists d, find_document (new_doc r) (store e') = Some d /\ d_collection d = col.

Lemma grows_nothing e s id : store_ok s -> documents s = documents (store e) -> chunks s = chunks (store e) ->
  dek s = dek (store e) -> grows e {| store := s; config := config e |} id [].
Proof.
  intros Hs Hd Hc Hk. unfold grows. cbn [store]. rewrite Hc, app_nil_r.
  assert (forall i, find_document i s = find_document i (store e)) as Hf
    by (intros i; unfold find_document; by rewrite Hd).
  split_and!; try done; intros; apply Hf.
Qed.

Lemma grows_same e id : store_ok (store e) -> grows e e id [].
Proof. intros Hs. destruct e. by apply grows_nothing. Qed.

Definition ingest_result (col src : string) (doc : Document) (r : draws) (e : RagEngine)
    (x : RagEngine * result rag_err IngestStats) : Prop :=
  exists rows, grows e x.1 (new_doc r) rows /\ forall st, x.2 = Ok st -> ingested col src doc r e x.1 rows st.

Lemma ingest_unchanged col src doc r e err : store_ok (store e) -> ingest_result col src doc r e (e, Err err).
Proof. intros Hs. exists []. split; [by apply grows_same|]. intros st Hx. discriminate Hx. Qed.

Lemma ingest_grows col src doc summ now r sn e :
  store_ok (store e) -> draws_ok r -> text_doc doc ->
  ingest_result col src doc r e (ingest_document col src doc summ now r sn e).
Proof.
  intros Hs Hr Hdoc. unfold ingest_document, sbind, sget, slift. cbn zeta.
  destruct (Chunk.chunk_document _ _ _ _) as [rich|] eqn:Erich; cbn [ok_or]; [|by apply ingest_unchanged].
  assert (Forall (fun c => is_text (Chunk.c_text c)) rich) as Hrich.
  { destruct Hdoc. by eapply Kept.allq_document; [| | |exact Erich]. }
  destruct rich as [|c0 rich']; [by apply ingest_unchanged|]. set (rich := c0 :: rich') in *.
  destruct (embed _) as [embs|] eqn:Eemb; cbn [ok_or]; [|by apply ingest_unchanged].
  destruct (Nat.eqb_spec (List.length embs) (List.length rich)) as [Hlen|]; cbn [negb]; [|by apply ingest_unchanged].
  case_match; [by apply ingest_unchanged|]. set (rows := zip_with mk_row rich (Math.normalize <$> embs)).
  assert (Forall row_ok rows) as Hrows by (apply rows_ok; [done|]; by apply embed_bits in Eemb).
  assert (text <$> rows = (fun c => utf8 (Chunk.c_text c)) <$> rich) as Htexts by by apply rows_texts.
  assert (rows <> []) as Hne by (destruct embs; [done|]; done).
  unfold on_store at 1 2.
  destruct (ensure_collection col model_label _ now (store e)) as [s1 u] eqn:Een.
  destruct (ensure_ok _ _ _ _ _ _ _ Een Hs) as (Hs1 & Hd1 & Hc1 & Hk1 & Hcol). cbn [fst snd].
  destruct u as [[]|err]; cbn [map_err].
  2:{ exists []. cbn [fst snd]. split; [by apply grows_nothing|]. intros st Hx. discriminate Hx. }
  cbn [store]. match goal with |- context [insert_document ?a ?b ?c ?d ?x ?y ?z ?t ?u s1] =>
    destruct (insert_document a b c d x y z t u s1) as [s2 [id|err]] eqn:Ein end; cbn [fst snd map_err config].
  2:{ apply insert_err in Ein as ->. exists []. cbn [fst snd]. split; [by apply grows_nothing|].
      intros st Hx. discriminate Hx. }
  destruct (insert_ok _ _ _ _ _ _ _ _ _ _ _ _ Ein Hs1 Hr Hrows)
    as (Hs2 & -> & Hk2 & _ & _ & Hc2 & Hnew & d & Hd2 & Hid & Hdcol).
  set (e2 := {| store := s2; config := config e |}).
  assert (forall s3, store_ok s3 -> chunks s3 = chunks s2 -> dek s3 = dek s2 ->
    (forall i, i <> new_doc r -> find_document i s3 = find_document i s2) ->
    (exists d3, find_document (new_doc r) s3 = Some d3 /\ d_collection d3 = col) ->
    forall sm, ingest_result col src doc r e
      ({| store := s3; config := config e |},
       Ok {| document_id := new_doc r; collection := col; is_chunks := Z.of_nat (List.length rows);
             is_pages := page_count (meta doc); summary := sm |})) as Hdone.
  { intros s3 Hs3 Hc3 Hk3 Hf3 Hex sm. exists (rows_from (dek s1) r col 0 rows). cbn [fst snd]. split.
    - unfold grows. cbn [store]. rewrite Hc3, Hc2, Hc1, Hk3, Hk2, Hk1. split_and!; try done.
      + intros k Hk. by eapply rows_documents.
      + intros _. by rewrite <- Hd1.
      + intros i Hi. rewrite Hf3 by done. unfold find_document. rewrite Hd2, Hd1, find_app.
        destruct (List.find _ (documents (store e))); [done|].
        simpl. rewrite Hid. by rewrite (proj2 (String.eqb_neq _ _)).
      + intros Hnil. destruct rows; [done|discriminate Hnil].
    - intros st [= <-]. exists rich, rows. rewrite <- Hk1. by split_and!. }
  assert (find_document (new_doc r) s2 = Some d) as Hfd.
  { unfold find_document. rewrite Hd2, find_app. rewrite Hd1 in Hnew. rewrite Hd1.
    destruct (List.find _ (documents (store e))) as [d0|] eqn:Ef; [|simpl; by rewrite Hid, String.eqb_refl].
    apply List.find_some in Ef as [Hin Heq%String.eqb_eq]. destruct Hnew. rewrite <- Heq.
    apply list_elem_of_fmap. exists d0. split; [done|]. by apply list_elem_of_In. }
  assert (forall sm, ingest_result col src doc r e (e2, Ok {| document_id := new_doc r; collection := col;
    is_chunks := Z.of_nat (List.length rows); is_pages := page_count (meta doc); summary := sm |})) as Hd2'.
  { intros sm. apply Hdone; try done. by exists d. }
  destruct summ as [f|]; [|by apply Hd2']. destruct (f _) as [t|]; [|by apply Hd2'].
  unfold on_store, smodify. cbn [fst snd map_err sret]. apply Hdone.
  - by apply set_summary_ok.
  - done.
  - done.
  - intros i Hi. by apply set_summary_find.
  - rewrite set_summary_lookup. change (store e2) with s2. rewrite Hfd. eexists. split; [reflexivity|].
    by destruct (String.eqb (d_id d) (new_doc r)).
Qed.

(** ** The operations of the engine *)

Inductive rag_request :=
| Ingest (col src t : string) (now : Z) (r : draws)
| IngestBytes (col src bytes filename : string) (summ : option (string -> option string)) (now : Z)
    (r : draws) (sn : string)
| DeleteDocument (id : string)
| DeleteCollection (name : string)
| Summarize (id t n : string)
| Configure (c : RagConfig).

Definition rag_handle (q : rag_request) (e : RagEngine) : RagEngine :=
  match q with
  | Ingest col src t now r => (ingest col src t now r e).1
  | IngestBytes col src b f summ now r sn => (ingest_bytes col src b f summ now r sn e).1
  | DeleteDocument id => {| store := (delete_document id (store e)).1; config := config e |}
  | DeleteCollection n => {| store := (delete_collection n (store e)).1; config := config e |}
  | Summarize id t n => {| store := set_summary id t n (store e); config := config e |}
  | Configure c => apply_runtime_config c e
  end.

(** Texts are UTF-8, nonces have 12 bytes. *)
Definition request_ok (q : rag_request) : Prop :=
  match q with
  | Ingest _ _ t _ r => utf8_ok t = true /\ draws_ok r
  | IngestBytes _ _ _ _ _ _ r _ => draws_ok r
  | _ => True
  end.

(** What a request does: a growth, a deletion, or nothing to documents and chunks. *)
Lemma handle_ingest q e : store_ok (store e) -> request_ok q ->
  match q with
  | Ingest _ _ _ _ r | IngestBytes _ _ _ _ _ _ r _ =>
    exists rows, grows e (rag_handle q e) (new_doc r) rows
  | _ => store_ok (store (rag_handle q e)) /\ dek (store (rag_handle q e)) = dek (store e)
  end.
Proof.
  intros Hs Hq. destruct q as [col src t now r|col src b f summ now r sn|id|n|id t n|c]; cbn [rag_handle].
  - destruct Hq as [Ht Hr]. unfold ingest.
    destruct (ingest_grows col src (from_plain (chars t)) None now r "" e Hs Hr) as (rows & Hg & _);
      [|by exists rows]. apply from_plain_text. by apply chars_scalar.
  - unfold ingest_bytes, sbind, slift.
    destruct (extract b f) as [doc|] eqn:E; cbn [map_err]; [|exists []; by apply grows_same].
    destruct (ingest_grows col src doc summ now r sn e Hs Hq) as (rows & Hg & _); [|by exists rows].
    by eapply extract_text_doc.
  - split; [|done]. by apply drop_ok.
  - split; [|done]. by apply delete_collection_ok.
  - split; [|done]. by apply set_summary_ok.
  - done.
Qed.

Definition rag_step (e e' : RagEngine) : Prop := exists q, request_ok q /\ e' = rag_handle q e.

Definition start (key : option string) (c : RagConfig) : RagEngine :=
  {| store := empty_store key; config := c |}.

Lemma start_ok key c : dek_ok key -> store_ok (store (start key c)).
Proof. intros Hk. split; cbn; try done; try constructor. Qed.

Lemma step_store_ok e e' : rag_step e e' -> store_ok (store e) -> store_ok (store e').
Proof.
  intros (q & Hq & ->) Hs. pose proof (handle_ingest q e Hs Hq) as Hh.
  destruct q; try (by destruct Hh); destruct Hh as (rows & Hg & _); done.
Qed.

Lemma steps_store_ok e e' : rtc rag_step e e' -> store_ok (store e) -> store_ok (store e').
Proof. induction 1; [done|]. intros Hs. by eauto using step_store_ok. Qed.

(** ** Reading a document back *)

Lemma sort_sorted {A} (before : A -> A -> bool) l :
  StronglySorted (fun x y => before x y = true) l -> sort_by before l = l.
Proof.
  induction 1 as [|x l Hl IH Hf]; [done|]. simpl. rewrite IH. destruct l as [|y l]; [done|].
  apply Forall_cons in Hf as [Hy _]. simpl. by rewrite Hy.
Qed.

Lemma rows_sorted key r col i cs : StronglySorted (fun x y => by_ordinal x y = true) (rows_from key r col i cs).
Proof.
  revert i. induction cs as [|c cs IH]; intros i; [constructor|]. cbn [rows_from]. constructor; [done|].
  assert (forall j, (i <= j)%nat -> Forall (fun y => by_ordinal (chunk_of key r col i c) y = true)
    (rows_from key r col j cs)) as Hj; [|apply Hj; lia].
  clear IH. induction cs as [|c' cs IH]; intros j Hj; [constructor|]. cbn [rows_from]. constructor.
  - unfold by_ordinal. cbn. lia.
  - apply IH. lia.
Qed.

(** Whether the texts are readable: there is a key, or none looks encrypted. *)
Definition readable (key : option string) (ts : list string) : bool :=
  match key with Some _ => true | None => forallb plain ts end.

Lemma decrypt_rows s r col i cs : dek_ok (dek s) -> draws_ok r -> Forall row_ok cs ->
  decrypt_all (dek s) (k_text <$> rows_from (dek s) r col i cs)
  = if readable (dek s) (text <$> cs) then Ok (text <$> cs) else Err (CryptErr NoDek).
Proof.
  intros Hd Hr Hc. revert i. induction Hc as [|c cs (Hu & _ & _) _ IH]; intros i.
  { cbn. by destruct (dek s). }
  cbn [rows_from]. rewrite !fmap_cons. cbn [decrypt_all k_text chunk_of]. rewrite maybe_round by done.
  rewrite IH. unfold readable. destruct (dek s); [done|]. cbn [forallb].
  destruct (plain (text c)); cbn; [|done]. by destruct (forallb plain _).
Qed.

(** A request that leaves a document of a collection. *)
Definition leaves (id col : string) (q : rag_request) : Prop :=
  match q with
  | DeleteDocument i => i <> id
  | DeleteCollection n => n <> col
  | _ => True
  end.

Definition leaving_step (id col : string) (e e' : RagEngine) : Prop :=
  exists q, request_ok q /\ leaves id col q /\ e' = rag_handle q e.

(** The document with its rows, through a request. *)
Definition holds_document (id col : string) (key : option string) (rows : list chunk_row)
    (e : RagEngine) : Prop :=
  store_ok (store e) /\ dek (store e) = key /\ chunks_of id (store e) = rows /\
  exists d, find_document id (store e) = Some d /\ d_collection d = col.

Lemma chunks_of_app id s s' rows : chunks s' = chunks s ++ rows ->
  chunks_of id s' = chunks_of id s ++ List.filter (fun k => String.eqb (k_document k) id) rows.
Proof. intros Hc. unfold chunks_of. by rewrite Hc, List.filter_app. Qed.

Lemma filter_none {A} (p : A -> bool) l : (forall x, In x l -> p x = false) -> List.filter p l = [].
Proof.
  induction l as [|x l IH]; intros Hp; [done|]. simpl. rewrite (Hp x) by by left.
  apply IH. intros y Hy. apply Hp. by right.
Qed.

Lemma drop_keeps gone id s d : store_ok s -> find_document id s = Some d -> gone d = false ->
  find_document id (drop_documents gone s) = Some d /\ chunks_of id (drop_documents gone s) = chunks_of id s.
Proof.
  intros Hs Hf Hg. pose proof (find_document_some _ _ _ Hf) as [Hin Hid]. split.
  - rewrite <- Hid. apply find_document_in; cbn [drop_documents documents].
    + apply nodup_filter_map, Hs.
    + apply filter_In. split; [done|]. by rewrite Hg.
  - unfold chunks_of. cbn [drop_documents chunks]. induction (chunks s) as [|k ks IH]; [done|]. simpl.
    destruct (String.eqb_spec (k_document k) id) as [E|E].
    + replace (existsb _ _) with false; cbn [negb].
      * simpl. rewrite (proj2 (String.eqb_eq _ _) E). by rewrite IH.
      * symmetry. apply not_true_iff_false. intros (d' & Hd' & [Hb He%String.eqb_eq]%andb_true_iff)%existsb_exists.
        assert (Some d' = Some d) as Hx; [|congruence].
        rewrite <- Hf, <- E, <- He. symmetry. apply find_document_in; [apply Hs|done].
    + destruct (negb _); [|done]. simpl. rewrite (proj2 (String.eqb_neq _ _) E). apply IH.
Qed.

Lemma leaving_holds id col key rows e e' : leaving_step id col e e' ->
  holds_document id col key rows e -> holds_document id col key rows e'.
Proof.
  intros (q & Hq & Hl & ->) (Hs & Hk & Hc & d & Hf & Hcol).
  pose proof (handle_ingest q e Hs Hq) as Hh.
  assert (forall r, (exists new, grows e (rag_handle q e) (new_doc r) new) ->
    holds_document id col key rows (rag_handle q e)) as Hgrow.
  { intros r (new & Hs' & Hk' & Hc' & Hdoc & Hfresh & Hfind & Hnil). split; [done|].
    split; [by rewrite Hk'|]. rewrite (chunks_of_app id _ _ _ Hc'), Hc.
    destruct (decide (id = new_doc r)) as [->|Hne].
    - destruct new as [|k new].
      + rewrite app_nil_r. split; [done|]. exists d. by rewrite Hnil.
      + destruct Hfresh; [done|]. apply find_document_some in Hf as [Hin <-]. apply list_elem_of_fmap.
        exists d. split; [done|]. by apply list_elem_of_In.
    - rewrite filter_none, app_nil_r.
      + split; [done|]. exists d. by rewrite Hfind.
      + intros k Hin. rewrite (Hdoc k Hin). apply String.eqb_neq. congruence. }
  destruct q as [? ? ? ? r|? ? ? ? ? ? r ?|i|n|i t n|c]; try (by eapply Hgrow); clear Hgrow;
    destruct Hh as [Hs' Hk']; (split; [done|]); (split; [by rewrite Hk'|]); cbn [rag_handle store] in *.
  - destruct (drop_keeps (fun d => String.eqb (d_id d) i) id (store e) d Hs Hf) as [Hf2 Hc2].
    { apply find_document_some in Hf as [_ ->]. apply String.eqb_neq. by intros ->. }
    unfold delete_document. cbn [fst]. rewrite Hc2. split; [done|]. by exists d.
  - destruct (drop_keeps (fun d => String.eqb (d_collection d) n) id (store e) d Hs Hf) as [Hf2 Hc2].
    { rewrite Hcol. apply String.eqb_neq. by intros ->. }
    split; [rewrite <- Hc; exact Hc2|]. exists d. split; [exact Hf2|done].
  - split; [done|]. rewrite set_summary_lookup, Hf. eexists. split; [reflexivity|]. by case_match.
  - split; [done|]. by exists d.
Qed.

(** ** Searching *)

(** What a chunk is for a query: nothing, or a hit with its score. *)
Definition hit (s : VectorStore) (q : list Z) (min : Z) (k : chunk_row) : option ScoredChunk :=
  some? d := find_document (k_document k) s in
  some? emb := Math.blob_to_vec (k_embedding k) in
  if negb (Nat.eqb (List.length emb) (List.length q)) then None else
  let sc := Math.dot q emb in
  if F32.le min sc then Some (scored (dek s) k d sc) else None.

Lemma score_rows_hits s q min ks : (forall k, In k ks -> stored_ok s k) ->
  score_rows s q min ks = Ok (omap (hit s q min) ks).
Proof.
  induction ks as [|k ks IH]; intros Hk; [done|]. cbn [score_rows omap list_omap].
  destruct (Hk k (or_introl eq_refl)) as ((d & Hf & _) & (v & Hv) & _).
  unfold hit at 1. rewrite Hf, Hv. cbn [ok_or rbind]. rewrite IH by (intros; apply Hk; by right). cbn [rbind].
  repeat case_match; done.
Qed.

Lemma sum_ok l : F32.bits_ok (F32.sum l) = true.
Proof.
  unfold F32.sum. assert (F32.bits_ok F32.NEG_ZERO = true) as Hz by done. revert Hz.
  generalize F32.NEG_ZERO. induction l as [|x l IH]; intros z Hz; [done|]. simpl. apply IH, F32.to_bits_ok.
Qed.

(** The scores of hits are numbers. *)
Definition scored_ok (x : ScoredChunk) : Prop :=
  F32.bits_ok (score x) = true /\ F32.is_nan (score x) = false.

Lemma hit_ok s q min k x : hit s q min k = Some x -> scored_ok x /\ chunk_id x = k_id k.
Proof.
  unfold hit. intros Hh. repeat (case_match; try done). simplify_eq/=. split; [|done]. split; cbn.
  - apply sum_ok.
  - by eapply F32.le_no_nan.
Qed.

Definition rank_of (x : ScoredChunk) : Z := F32.rank (score x).

Lemma hits_ok s q min ks x : In x (omap (hit s q min) ks) -> scored_ok x.
Proof. intros Hx. apply list_elem_of_In, list_elem_of_omap in Hx as (k & _ & Hk). by eapply hit_ok. Qed.

Lemma ordered_mono {A} (k1 k2 : A -> Z) l :
  (forall x y, In x l -> In y l -> k1 y <= k1 x -> k2 y <= k2 x) -> ordered k1 l -> ordered k2 l.
Proof.
  unfold ordered. induction l as [|z l IH]; intros Hm Ho; [constructor|].
  apply StronglySorted_inv in Ho as [Ho Hf]. constructor.
  - apply IH; [|done]. intros x y Hx Hy. apply Hm; by right.
  - apply List.Forall_forall. intros y Hy. rewrite List.Forall_forall in Hf. apply Hm; [by left|by right|auto].
Qed.

Lemma top_k_mono {A} (k1 k2 : A -> Z) n all r :
  (forall x y, In x all -> In y all -> k1 y <= k1 x -> k2 y <= k2 x) -> top_k k1 n all r -> top_k k2 n all r.
Proof.
  intros Hm (Ho & Hl & rest & Hp & Hx).
  assert (forall x, In x r \/ In x rest -> In x all) as Hin.
  { intros x Hor. eapply Permutation_in; [symmetry; exact Hp|]. by apply in_or_app. }
  split; [eapply ordered_mono; [|exact Ho]; auto|]. split; [done|]. exists rest. split; [done|]. auto.
Qed.

Lemma top_k_perm {A} (key : A -> Z) n l l' r : l ≡ₚ l' -> top_k key n l r -> top_k key n l' r.
Proof.
  intros Hl (Ho & Hlen & rest & Hp & Hx). split; [done|]. split; [by rewrite <- Hl|].
  exists rest. by rewrite <- Hl.
Qed.

Lemma search_top_k col q n min s : store_ok s ->
  exists r, search col q n min s = Ok r /\ top_k rank_of n (omap (hit s q min) (in_collection col s)) r.
Proof.
  intros Hs. unfold search. rewrite score_rows_hits.
  2:{ intros k [Hk _]%filter_In. by apply Hs. }
  cbn [rbind]. eexists. split; [reflexivity|]. set (l := omap _ _).
  assert (forall x, In x l -> scored_ok x) as Hok by (intros x; apply hits_ok).
  rewrite (sort_ext by_score (desc (fun x => F32.total_key (score x)))).
  2:{ intros x y _ _. unfold by_score, desc, F32.total_cmp, Z.leb. by destruct (_ ?= _). }
  eapply top_k_mono; [|apply take_sort_top_k].
  intros x y Hx Hy. cbn beta. destruct (Hok x Hx) as [Hbx _], (Hok y Hy) as [Hby _].
  unfold F32.bits_ok in *. intros Hk. apply F32.total_key_rank; [done|lia|lia].
Qed.

(** The chunks by collection are the chunks. *)
Lemma by_collection names ks : NoDup names -> (forall k, In k ks -> In (k_collection k) names) ->
  concat ((fun n => List.filter (fun k => String.eqb (k_collection k) n) ks) <$> names) ≡ₚ ks.
Proof.
  intros Hn. induction ks as [|k ks IH]; intros Hin.
  { clear. induction names as [|n names IH]; [done|]. done. }
  transitivity (k :: concat ((fun n => List.filter (fun k => String.eqb (k_collection k) n) ks) <$> names));
    [|f_equiv; apply IH; intros k' Hk'; apply Hin; by right].
  specialize (Hin k (or_introl eq_refl)). clear IH.
  induction Hn as [|n names Hx Hn IH]; [done|]. rewrite !fmap_cons. cbn [concat List.filter].
  destruct (String.eqb_spec (k_collection k) n) as [E|E].
  - simpl. do 2 f_equiv. subst n. clear IH Hin. induction names as [|m names IH]; [done|].
    rewrite !fmap_cons. cbn [concat List.filter]. apply not_elem_of_cons in Hx as [Hm Hx].
    rewrite (proj2 (String.eqb_neq _ _)) by done. f_equiv. apply IH; [done|].
    by apply NoDup_cons in Hn as [_ Hn].
  - destruct Hin as [->|Hin]; [done|]. rewrite IH by done. by rewrite <- Permutation_middle.
Qed.

Lemma omap_concat {A B} (f : A -> option B) (ls : list (list A)) :
  omap f (concat ls) = concat ((fun l : list A => omap f l) <$> ls).
Proof. induction ls as [|l ls IH]; [done|]. simpl. by rewrite omap_app, IH. Qed.

Lemma omap_perm {A B} (f : A -> option B) (l l' : list A) : l ≡ₚ l' -> omap f l ≡ₚ omap f l'.
Proof.
  induction 1 as [|x l l' _ IH|x y l|l1 l2 l3 _ IH1 _ IH2]; simpl; [done| | |by etrans].
  - destruct (f x); [by f_equiv|done].
  - destruct (f x), (f y); try done. apply Permutation_swap.
Qed.

Lemma forall2_fmap {A B C} (R : B -> C -> Prop) (f : A -> B) (g : A -> C) l :
  (forall x, In x l -> R (f x) (g x)) -> Forall2 R (f <$> l) (g <$> l).
Proof.
  induction l as [|x l IH]; intros Hr; [constructor|]. constructor; [apply Hr; by left|].
  apply IH. intros y Hy. apply Hr. by right.
Qed.

(** A chunk lies in a collection of the list. *)
Lemma chunk_listed s k : store_ok s -> In k (chunks s) -> In (k_collection k) (c_name <$> collections s).
Proof.
  intros Hs Hk. destruct (ok_chunks s Hs k Hk) as ((d & Hf & Hc) & _).
  apply find_document_some in Hf as [Hd _]. destruct (ok_documents s Hs d Hd) as [c Hcol].
  apply find_collection_some in Hcol as [Hin Hn]. apply list_elem_of_In, list_elem_of_fmap.
  exists c. rewrite Hn, Hc. split; [done|]. by apply list_elem_of_In.
Qed.

Lemma listed_names s : NoDup (c_name <$> collections s) ->
  (ci_name <$> list_collections s) ≡ₚ c_name <$> collections s.
Proof.
  intros Hn. unfold list_collections. rewrite <- list_fmap_compose.
  transitivity (c_name <$> sort_by by_name (collections s)); [done|]. apply fmap_Permutation, sort_perm.
Qed.

Lemma retrieve_all_top_k e query k v :
  store_ok (store e) -> embed_one query = Some v ->
  exists r, retrieve_all_collections query k e = Ok r /\
    top_k rank_of (limit (config e) k)
      (omap (hit (store e) (Math.normalize v) (cfg_min_score (config e))) (chunks (store e))) r.
Proof.
  intros Hs Hv. unfold retrieve_all_collections. rewrite Hv. cbn [ok_or rbind].
  set (n := limit (config e) k). set (q := Math.normalize v). set (min := cfg_min_score (config e)).
  eexists. split; [reflexivity|].
  assert (Forall2 (top_k rank_of n)
    ((fun c => omap (hit (store e) q min) (in_collection (ci_name c) (store e))) <$> list_collections (store e))
    ((fun c => match search (ci_name c) q n min (store e) with Ok hits => hits | Err _ => [] end)
       <$> list_collections (store e))) as Hf.
  { apply forall2_fmap. intros c _. destruct (search_top_k (ci_name c) q n min (store e) Hs) as (r & -> & Hr). done. }
  eapply top_k_perm; [|eapply top_k_concat; [exact Hf|]].
  - transitivity (omap (hit (store e) q min) (concat
      ((fun n => List.filter (fun k => String.eqb (k_collection k) n) (chunks (store e)))
         <$> (ci_name <$> list_collections (store e))))).
    { rewrite omap_concat. apply reflexive_eq. f_equal. by rewrite <- !list_fmap_compose. }
    pose proof (listed_names (store e) (ok_names _ Hs)) as Hp. apply omap_perm, by_collection.
    + rewrite Hp. apply Hs.
    + intros x Hx. eapply Permutation_in; [symmetry; exact Hp|]. by apply chunk_listed.
  - unfold all_hits. fold min. set (l := concat _).
    assert (forall x, In x l -> scored_ok x) as Hl.
    { intros x Hx. apply in_concat in Hx as (hs & Hhs & Hx).
      apply list_elem_of_In, list_elem_of_fmap in Hhs as (c & -> & _).
      destruct (search_top_k (ci_name c) q n min (store e) Hs) as (r & Hsr & _ & _ & rest & Hp & _).
      rewrite Hsr in Hx. apply (hits_ok (store e) q min (in_collection (ci_name c) (store e))).
      eapply Permutation_in; [symmetry; exact Hp|]. apply in_or_app. by left. }
    rewrite (sort_ext by_partial (desc rank_of)); [apply take_sort_top_k|].
    intros x y Hx Hy. destruct (Hl x Hx), (Hl y Hy). unfold by_partial, desc, rank_of.
    rewrite F32.partial_cmp_rank by done. unfold Z.leb. by destruct (_ ?= _).
Qed.

(** ** Deletion *)

(** A request that does not draw an identifier again. *)
Definition draws_not (id : string) (q : rag_request) : Prop :=
  match q with Ingest _ _ _ _ r | IngestBytes _ _ _ _ _ _ r _ => new_doc r <> id | _ => True end.

Definition fresh_step (id : string) (e e' : RagEngine) : Prop :=
  exists q, request_ok q /\ draws_not id q /\ e' = rag_handle q e.

Definition gone (id : string) (e : RagEngine) : Prop :=
  store_ok (store e) /\ find_document id (store e) = None.

Lemma find_filter_none p s id cs ks : find_document id s = None ->
  find_document id {| collections := cs; documents := List.filter p (documents s); chunks := ks; dek := dek s |}
  = None.
Proof.
  unfold find_document. cbn [documents]. induction (documents s) as [|d l IH]; [done|]. simpl.
  case_match eqn:E; [done|]. intros Hn. destruct (p d); [simpl; rewrite E|]; auto.
Qed.

Lemma gone_step id e e' : fresh_step id e e' -> gone id e -> gone id e'.
Proof.
  intros (q & Hq & Hd & ->) [Hs Hn]. pose proof (handle_ingest q e Hs Hq) as Hh.
  destruct q as [? ? ? ? r|? ? ? ? ? ? r ?|i|n|i t n|c]; cbn [draws_not] in Hd;
    try (destruct Hh as (rows & Hs' & _ & _ & _ & _ & Hf & _); split; [done|]; by rewrite Hf);
    (split; [apply Hh|]); cbn [rag_handle store].
  - by apply find_filter_none.
  - by apply (find_filter_none (fun d => negb (String.eqb (d_collection d) n)) (store e) id).
  - by rewrite set_summary_lookup, Hn.
  - done.
Qed.

Lemma gone_chunks id e k : gone id e -> In k (chunks (store e)) -> k_document k <> id.
Proof.
  intros [Hs Hn] Hin E. destruct (ok_chunks _ Hs k Hin) as ((d & Hf & _) & _). congruence.
Qed.

(** ** Ordinals and dimensions *)

(** The chunks of a document are numbered from 0 in the order of the table, and there
    is one at least; the vector of the first one has the dimension of its collection
    (the code compares no other); all collections are of the embedder's model. *)
Record numbered (s : VectorStore) : Prop := {
  num_documents : forall d, In d (documents s) ->
    exists n, k_ordinal <$> chunks_of (d_id d) s = Z.of_nat <$> seq 0 (S n);
  num_dims : forall k, In k (chunks s) -> k_ordinal k = 0 ->
    exists c v, find_collection (k_collection k) s = Some c /\
      Math.blob_to_vec (k_embedding k) = Some v /\ Z.of_nat (List.length v) = c_dim c;
  num_models : forall c, In c (collections s) -> c_model c = model_label
}.

Lemma ensure_numbered name dim now s s' u : numbered s ->
  ensure_collection name model_label dim now s = (s', u) ->
  numbered s' /\ (u = Ok tt -> exists c, find_collection name s' = Some c /\ c_dim c = dim).
Proof.
  intros Hs. unfold ensure_collection. destruct (find_collection name s) as [c|] eqn:E.
  - destruct (negb (String.eqb (c_model c) model_label)); [by intros [= <- <-]|].
    destruct (Z.eqb_spec (c_dim c) dim); cbn [negb]; intros [= <- <-]; split; try done. by exists c.
  - intros [= <- <-]. split.
    + destruct Hs as [Hd Hk Hm]. split; [exact Hd| |].
      * intros k Hin Hz0. destruct (Hk k Hin Hz0) as (c & v & Hc & Hv). exists c, v. split; [|done].
        unfold find_collection in *. cbn [collections]. by rewrite find_app, Hc.
      * intros c [Hin|[<-|[]]]%in_app_or; [by apply Hm|done].
    + intros _. eexists. unfold find_collection in *. cbn [collections]. rewrite find_app, E. simpl.
      by rewrite String.eqb_refl.
Qed.

Lemma rows_ordinals key r col i cs : k_ordinal <$> rows_from key r col i cs = Z.of_nat <$> seq i (List.length cs).
Proof. revert i. induction cs as [|c cs IH]; intros i; [done|]. cbn. by rewrite IH. Qed.

Lemma filter_all_rows key r col i cs :
  List.filter (fun k => String.eqb (k_document k) (new_doc r)) (rows_from key r col i cs) = rows_from key r col i cs.
Proof. revert i. induction cs as [|c cs IH]; intros i; [done|]. cbn. by rewrite String.eqb_refl, IH. Qed.

(** Old documents keep their chunks, the new one has the new ones. *)
Lemma insert_numbered col source sha c cs title author pages now r s s' id col_row :
  insert_document col source sha (c :: cs) title author pages now r s = (s', Ok id) ->
  store_ok s -> numbered s -> draws_ok r -> Forall row_ok (c :: cs) ->
  find_collection col s = Some col_row -> Z.of_nat (List.length (embedding c)) = c_dim col_row -> numbered s'.
Proof.
  intros Hi Hs Hn Hr Hcs Hcol Hdim.
  destruct (insert_ok _ _ _ _ _ _ _ _ _ _ _ _ Hi Hs Hr Hcs)
    as (_ & _ & _ & _ & Hcols & Hchunks & Hnew & d & Hdocs & Hid & _).
  assert (forall n, find_collection n s' = find_collection n s) as Hfind
    by (intros n; unfold find_collection; by rewrite Hcols).
  destruct Hn as [Hd Hk Hm]. split.
  - intros d'. rewrite Hdocs. intros [Hin|[<-|[]]]%in_app_or; rewrite (chunks_of_app _ _ _ _ Hchunks).
    + rewrite (filter_none _ (rows_from _ _ _ _ _)), app_nil_r; [by apply Hd|].
      intros k Hrow%rows_documents. apply String.eqb_neq. rewrite Hrow. intros E. destruct Hnew. rewrite E.
      apply list_elem_of_fmap. exists d'. split; [done|]. by apply list_elem_of_In.
    + rewrite Hid, filter_all_rows. unfold chunks_of. rewrite filter_none.
      * exists (List.length cs). by rewrite app_nil_l, rows_ordinals.
      * intros k Hin. apply String.eqb_neq. intros E.
        destruct (ok_chunks _ Hs k Hin) as ((d0 & Hf & _) & _). apply find_document_some in Hf as [Hin0 Hid0].
        destruct Hnew. rewrite <- E, <- Hid0. apply list_elem_of_fmap. exists d0.
        split; [done|]. by apply list_elem_of_In.
  - intros k. rewrite Hchunks, Hfind. intros [Hin|Hin]%in_app_or Hz0; [by apply Hk|].
    destruct Hin as [<-|Hin].
    + exists col_row, (embedding c). split; [done|]. split; [|done].
      apply Math.blob_round. apply Forall_cons in Hcs as [(_ & _ & Hb) _]. done.
    + exfalso. assert (forall j ks, (0 < j)%nat -> In k (rows_from (dek s) r col j ks) -> 0 < k_ordinal k) as Hpos.
      { intros j ks. revert j. induction ks as [|x ks IH]; intros j Hj; [done|]. intros [<-|Hx]; [simpl; lia|].
        by apply (IH (S j)); [lia|]. }
      apply Hpos in Hin; lia.
  - intros x. rewrite Hcols. apply Hm.
Qed.

Lemma drop_numbered gone s : store_ok s -> numbered s -> numbered (drop_documents gone s).
Proof.
  intros Hs [Hd Hk Hm]. split.
  - intros d [Hin Hg%negb_true_iff]%filter_In.
    destruct (drop_keeps gone (d_id d) s d Hs (find_document_in _ _ (ok_ids _ Hs) Hin) Hg) as [_ ->]. by apply Hd.
  - intros k [Hin _]%filter_In. by apply Hk.
  - exact Hm.
Qed.

Lemma find_other_name n m l : n <> m ->
  List.find (fun c => String.eqb (c_name c) n) (List.filter (fun c => negb (String.eqb (c_name c) m)) l)
  = List.find (fun c => String.eqb (c_name c) n) l.
Proof.
  intros Hne. induction l as [|x l IH]; [done|]. simpl. destruct (String.eqb_spec (c_name x) n) as [E|E].
  - rewrite E, (proj2 (String.eqb_neq _ _) Hne). simpl. by rewrite E, String.eqb_refl.
  - destruct (negb _); [simpl; by rewrite (proj2 (String.eqb_neq _ _) E)|done].
Qed.

Lemma delete_collection_numbered name s : store_ok s -> numbered s -> numbered (delete_collection name s).1.
Proof.
  intros Hs Hn. unfold delete_collection. cbn zeta. cbn [fst].
  pose proof (drop_numbered (fun d => String.eqb (d_collection d) name) s Hs Hn) as [Hd Hk Hm].
  split; [exact Hd| |].
  - intros k Hin Hz0. destruct (Hk k Hin Hz0) as (c & v & Hc & Hv). exists c, v. split; [|done].
    apply filter_In in Hin as [Hin Hg%negb_true_iff].
    destruct (ok_chunks _ Hs k Hin) as ((d & Hf & Hcol) & _). apply find_document_some in Hf as [Hdin Hdid].
    assert (k_collection k <> name) as Hne.
    { intros E. apply not_true_iff_false in Hg. apply Hg, existsb_exists. exists d. split; [done|].
      by rewrite Hcol, E, Hdid, !String.eqb_refl. }
    unfold find_collection in *. cbn [collections drop_documents] in *. by rewrite find_other_name.
  - intros c [Hin _]%filter_In. by apply Hm.
Qed.

Lemma set_summary_numbered id t n s : numbered s -> numbered (set_summary id t n s).
Proof.
  intros [Hd Hk Hm]. split; [|exact Hk|exact Hm].
  intros d Hin. unfold set_summary in Hin. cbn [documents] in Hin.
  apply list_elem_of_In, list_elem_of_fmap in Hin as (d0 & -> & Hd0%list_elem_of_In).
  destruct (Hd d0 Hd0) as [k Hc]. exists k. by destruct (String.eqb (d_id d0) id).
Qed.

Lemma ingest_numbered col src doc summ now r sn e :
  store_ok (store e) -> numbered (store e) -> draws_ok r -> text_doc doc ->
  numbered (store (ingest_document col src doc summ now r sn e).1).
Proof.
  intros Hs Hn Hr Hdoc. unfold ingest_document, sbind, sget, slift. cbn zeta.
  destruct (Chunk.chunk_document _ _ _ _) as [rich|] eqn:Erich; cbn [ok_or]; [|done].
  assert (Forall (fun c => is_text (Chunk.c_text c)) rich) as Hrich.
  { destruct Hdoc. by eapply Kept.allq_document; [| | |exact Erich]. }
  destruct rich as [|c0 rich]; [done|].
  destruct (embed _) as [embs|] eqn:Eemb; cbn [ok_or]; [|done].
  destruct (Nat.eqb_spec (List.length embs) (List.length (c0 :: rich))) as [Hlen|]; cbn [negb]; [|done].
  destruct embs as [|v embs]; [done|].
  destruct (Z.of_nat (List.length v) =? 0); [done|].
  assert (Forall row_ok (zip_with mk_row (c0 :: rich) (Math.normalize <$> (v :: embs)))) as Hrows
    by (apply rows_ok; [done|]; by apply embed_bits in Eemb).
  cbn [fmap list_fmap zip_with] in *. unfold on_store at 1 2.
  destruct (ensure_collection col model_label _ now (store e)) as [s1 u] eqn:Een.
  destruct (ensure_ok _ _ _ _ _ _ _ Een Hs) as (Hs1 & _). destruct (ensure_numbered _ _ _ _ _ _ Hn Een) as [Hn1 Hcol].
  cbn [fst snd]. destruct u as [[]|err]; cbn [map_err]; [|done]. destruct (Hcol eq_refl) as (c & Hc & Hdim).
  cbn [store]. match goal with |- context [insert_document ?a ?b ?c ?d ?x ?y ?z ?t ?u s1] =>
    destruct (insert_document a b c d x y z t u s1) as [s2 [id|err]] eqn:Ein end; cbn [fst snd map_err config];
    [|by apply insert_err in Ein as ->].
  assert (numbered s2) as Hn2.
  { eapply (insert_numbered _ _ _ _ _ _ _ _ _ _ _ _ _ _ Ein); try done.
    cbn [embedding mk_row]. by rewrite Math.normalize_length, Hdim. }
  destruct summ as [f|]; [|done]. destruct (f _) as [t|]; [|done]. by apply set_summary_numbered.
Qed.

Lemma step_numbered e e' : rag_step e e' -> store_ok (store e) -> numbered (store e) -> numbered (store e').
Proof.
  intros (q & Hq & ->) Hs Hn. destruct q as [col src t now r|col src b f summ now r sn|id|n|id t n|c]; cbn [rag_handle].
  - destruct Hq as [Ht Hr]. apply ingest_numbered; try done. apply from_plain_text. by apply chars_scalar.
  - unfold ingest_bytes, sbind, slift. destruct (extract b f) as [doc|] eqn:E; cbn [map_err]; [|done].
    apply ingest_numbered; try done. by eapply extract_text_doc.
  - by apply drop_numbered.
  - by apply delete_collection_numbered.
  - by apply set_summary_numbered.
  - done.
Qed.

Lemma steps_numbered e e' : rtc rag_step e e' -> store_ok (store e) -> numbered (store e) -> numbered (store e').
Proof. induction 1; [done|]. intros Hs Hn. eauto using step_store_ok, step_numbered. Qed.

(** ** Theorems *)

(** C13: From an empty store, through any requests, failed ones included, whatever is
    drawn: names and identifiers are unique, each chunk belongs to a document of its
    collection, each document to a collection; the chunks of a document are numbered
    from 0 without a gap, the vector of the first one has the dimension of its
    collection (the code compares no other), and all collections are of the embedder's
    model; and every stored chunk reads back to the text whose digest was recorded at
    its ingestion. *)
Theorem store_consistent key c e :
  dek_ok key -> rtc rag_step (start key c) e ->
  store_ok (store e) /\ numbered (store e) /\
  forall k, In k (chunks (store e)) ->
    exists h, verify_chunk_hash (k_id k) (store e) = Ok (h, h, true).
Proof.
  intros Hk Hr. pose proof (steps_store_ok _ _ Hr (start_ok key c Hk)) as Hs. split; [done|]. split.
  { eapply steps_numbered; [exact Hr|by apply start_ok|]. by split. }
  intros k Hin. unfold verify_chunk_hash.
  assert (List.find (fun x => String.eqb (k_id x) (k_id k)) (chunks (store e)) = Some k) as ->.
  { pose proof (ok_chunk_ids _ Hs) as Hn. revert Hin Hn. induction (chunks (store e)) as [|x l IH]; [done|].
    intros [->|Hin] Hn; simpl; [by rewrite String.eqb_refl|]. apply NoDup_cons in Hn as [Hx Hn].
    destruct (String.eqb_spec (k_id x) (k_id k)) as [E|_]; [|by apply IH].
    destruct Hx. rewrite E. apply list_elem_of_fmap. exists k. split; [done|]. by apply list_elem_of_In. }
  cbn [ok_or rbind]. destruct (ok_chunks _ Hs k Hin) as (_ & _ & Hh). rewrite Hh, String.eqb_refl. by eexists.
Qed.

(** C14: An ingested document reads back as the texts of its chunks, in order, through all
    requests that delete neither it nor its collection. Without a key there is an
    exception: if a chunk begins as an encrypted value does, the document never reads
    back. *)
Theorem ingested_document_reads col src doc summ now r sn e st e2 :
  store_ok (store e) -> draws_ok r -> text_doc doc ->
  (ingest_document col src doc summ now r sn e).2 = Ok st ->
  rtc (leaving_step (document_id st) col) (ingest_document col src doc summ now r sn e).1 e2 ->
  exists rich,
    Chunk.chunk_document (content doc) (chars src) (chunk_size (config e)) (chunk_overlap (config e))
      = Some rich /\
    let texts := (fun c => utf8 (Chunk.c_text c)) <$> rich in
    get_document_text (document_id st) (store e2)
    = if readable (dek (store e)) texts then Ok (Some (join (nl +:+ nl) texts))
      else Err (CryptErr NoDek).
Proof.
  intros Hs Hr Hdoc Hok Hsteps.
  destruct (ingest_grows col src doc summ now r sn e Hs Hr Hdoc) as (rows & Hg & Hst).
  destruct (Hst st Hok) as (rich & cs & Hrich & Hid & Hrows & Hcs & Hne & Htexts & d & Hd & Hcol).
  rewrite Hid in *. set (e1 := (ingest_document _ _ _ _ _ _ _ _).1) in *.
  destruct Hg as (Hs1 & Hk1 & Hc1 & Hdocs & Hfresh & _ & _).
  assert (rows <> []) as Hrne by (subst rows; by destruct cs).
  assert (holds_document (new_doc r) col (dek (store e)) rows e1) as Hold.
  { split; [done|]. split; [done|]. split; [|by exists d]. rewrite (chunks_of_app _ _ _ _ Hc1).
    assert (chunks_of (new_doc r) (store e) = []) as ->.
    { apply filter_none. intros k Hk. apply String.eqb_neq. intros Hx.
      destruct (ok_chunks _ Hs k Hk) as ((d' & Hf & _) & _). apply find_document_some in Hf as [Hin Hid'].
      destruct (Hfresh Hrne). rewrite <- Hx, <- Hid'. apply list_elem_of_fmap. exists d'.
      split; [done|]. by apply list_elem_of_In. }
    simpl. clear -Hdocs. induction rows as [|k rows IH]; [done|]. simpl.
    rewrite (Hdocs k) by by left. rewrite String.eqb_refl. f_equal. apply IH. intros x Hx. apply Hdocs. by right. }
  assert (holds_document (new_doc r) col (dek (store e)) rows e2) as (Hs2 & Hk2 & Hc2 & _).
  { clear -Hsteps Hold H H0 H1 H2 H3 H4 H5. induction Hsteps; [done|]. eauto using leaving_holds. }
  exists rich. split; [done|]. cbn zeta. rewrite <- Htexts.
  unfold get_document_text. rewrite Hc2. subst rows.
  rewrite sort_sorted by apply rows_sorted. rewrite Hk2.
  destruct cs as [|c0 cs0]; [done|]. cbn [rows_from]. change (chunk_of ?a ?b ?c 0 ?d :: rows_from ?a ?b ?c 1 ?l)
    with (rows_from a b c 0 (d :: l)).
  rewrite decrypt_rows; [|apply Hs|done|done]. by case_match.
Qed.

(** C15: A search over all collections, which cuts each collection to its best [k] before
    it sorts them together, returns the best [k] chunks of the whole store: ordered by
    score, all at least the minimum, and none left out that scores more. It never
    fails on the store. *)
Theorem retrieve_all_best e query k v :
  store_ok (store e) -> embed_one query = Some v ->
  exists r, retrieve_all_collections query k e = Ok r /\
    top_k rank_of (limit (config e) k)
      (omap (hit (store e) (Math.normalize v) (cfg_min_score (config e))) (chunks (store e))) r.
Proof. apply retrieve_all_top_k. Qed.

(** A deleted document is gone: through all later requests that do not draw its
    identifier again it is not found, has no text, and no search returns a chunk of
    it. *)
Theorem deleted_never_retrieved id e e2 col query k r :
  store_ok (store e) -> rtc (fresh_step id) (rag_handle (DeleteDocument id) e) e2 ->
  get_document id (store e2) = None /\ get_document_text id (store e2) = Ok None /\
  (retrieve col query k e2 = Ok r \/ retrieve_all_collections query k e2 = Ok r ->
   forall x, In x r -> doc_id x <> id).
Proof.
  intros Hs Hr.
  assert (gone id e2) as Hg.
  { assert (gone id (rag_handle (DeleteDocument id) e)) as Hg.
    - split; [by apply drop_ok|]. cbn [rag_handle store delete_document fst].
      destruct (find_document id _) as [d|] eqn:E; [|done]. exfalso.
      apply find_document_some in E as [[_ Hd]%filter_In Hid]. by rewrite Hid, String.eqb_refl in Hd.
    - clear -Hr Hg. induction Hr; [done|]. eauto using gone_step. }
  pose proof Hg as [Hs2 Hn]. split; [|split].
  - unfold get_document. by rewrite Hn.
  - unfold get_document_text, chunks_of. rewrite filter_none; [done|].
    intros x Hx. apply String.eqb_neq. by eapply gone_chunks.
  - assert (forall q min ks x, (forall y, In y ks -> In y (chunks (store e2))) ->
      In x (omap (hit (store e2) q min) ks) -> doc_id x <> id) as Hhit.
    { intros q min ks x Hks Hx Heq. apply list_elem_of_In, list_elem_of_omap in Hx as (y & Hy%list_elem_of_In & Hh).
      unfold hit in Hh. destruct (find_document (k_document y) (store e2)) as [d|] eqn:Ed; [|done].
      repeat (case_match; try done). simplify_eq/=. pose proof (find_document_some _ _ _ Ed) as [_ Hid].
      congruence. }
    intros [Hret|Hret] x Hx.
    + unfold retrieve in Hret. apply rbind_ok in Hret as (v & _ & Hret).
      destruct (search_top_k col (Math.normalize v) (limit (config e2) k) (cfg_min_score (config e2)) _ Hs2)
        as (r' & Hsr & _ & _ & rest & Hp & _).
      rewrite Hsr in Hret. simplify_eq/=. eapply Hhit.
      2:{ eapply Permutation_in; [symmetry; exact Hp|]. apply in_or_app. by left. }
      intros y [Hy _]%filter_In. done.
    + pose proof Hret as Hret'. unfold retrieve_all_collections in Hret'.
      apply rbind_ok in Hret' as (v & Hv%ok_or_ok & _).
      destruct (retrieve_all_top_k e2 query k v Hs2 Hv) as (r' & Hsr & _ & _ & rest & Hp & _).
      rewrite Hsr in Hret. simplify_eq. eapply Hhit.
      2:{ eapply Permutation_in; [symmetry; exact Hp|]. apply in_or_app. by left. }
      done.
Qed.

End inv.
End RagInv.
