(* ===== verification/Seal.v ===== *)
(** * Sealed keys: the TPM and software backends, the lockout, rotation and recovery

    Models [seal.rs] and [rotation.rs] of [maranode-attestation] on the file system
    of [Fs], with the names of files below the data directory. The commands of
    tpm2-tools are parameters; salts, nonces and clock values are arguments. *)

From Stdlib Require Import ZArith Lia Ascii String.
From S2P Require Import Prelude Json Crypto Fs.
Open Scope string_scope.
Open Scope list_scope.
Open Scope Z_scope.

(** The commands: a primary key context, a policy for a list of registers, a sealed
    object (public and private part), its context after loading, its content. *)
Class Tpm2Tools := {
  tpm2_createprimary_version : bool;
  tpm2_createprimary : option string;
  tpm2_createpolicy : string -> option string;
  tpm2_create : string -> string -> string -> option (string * string);
  tpm2_load : string -> string -> string -> option string;
  tpm2_unseal_cmd : string -> option string -> option string;
}.

(** ** PBKDF2 *)
Module Pbkdf2.

Section pbkdf2.
Context `{Hmac}.

Definition xor_byte (a b : ascii) : ascii := chr (Z.lxor (code a) (code b)).

(** [out.iter_mut().zip(u)] with [*a ^= b]. *)
Fixpoint xor_into (out u : string) : string :=
  match out, u with
  | String a r, String b s => String (xor_byte a b) (xor_into r s)
  | _, _ => out
  end.

Definition BLOCK_ONE : string :=
  String "000" (String "000" (String "000" (String "001" EmptyString))).

Definition round (password : string) (st : string * string) : string * string :=
  let u := hmac_sha256 password st.1 in (u, xor_into st.2 u).

(** The loop runs over [1..rounds]. *)
Definition pbkdf2_hmac_sha256 (password salt : string) (rounds : Z) : string :=
  let u1 := hmac_sha256 password (salt +:+ BLOCK_ONE) in
  (Nat.iter (Z.to_nat (rounds - 1)) (round password) (u1, u1)).2.

(** RFC 2898: the blocks of the first output block, from [U_1], and each byte of the
    result the exclusive or of their bytes. *)
Fixpoint rfc_u (password salt : string) (j : nat) : string :=
  match j with
  | O => hmac_sha256 password (salt +:+ BLOCK_ONE)
  | S j => hmac_sha256 password (rfc_u password salt j)
  end.

Fixpoint byte_at (k : nat) (s : string) : option Z :=
  match s, k with
  | EmptyString, _ => None
  | String c _, O => Some (code c)
  | String _ r, S k => byte_at k r
  end.

Definition rfc_byte (password salt : string) (c k : nat) : Z :=
  foldr (fun j acc => Z.lxor (default 0 (byte_at k (rfc_u password salt j))) acc) 0 (seq 0 c).

Lemma rfc_u_len p s j : String.length (rfc_u p s j) = 32%nat.
Proof. destruct j; apply hmac_len. Qed.

Lemma xor_into_len a b : String.length (xor_into a b) = String.length a.
Proof. revert b. induction a as [|x a IH]; intros [|y b]; simpl; auto. Qed.

Lemma lxor_bound a b : 0 <= a < 256 -> 0 <= b < 256 -> 0 <= Z.lxor a b < 256.
Proof.
  intros Ha Hb. assert (0 <= Z.lxor a b) as Hn by (apply Z.lxor_nonneg; lia). split; [done|].
  destruct (Z.eq_dec (Z.lxor a b) 0) as [->|Hz]; [lia|].
  change 256 with (2 ^ 8). apply Z.log2_lt_pow2; [lia|].
  eapply Z.le_lt_trans; [apply Z.log2_lxor; lia|].
  assert (forall x, 0 <= x < 256 -> Z.log2 x < 8) as Hl.
  { intros x Hx. destruct (Z.eq_dec x 0) as [->|]; [done|]. apply Z.log2_lt_pow2; simpl; lia. }
  apply Z.max_lub_lt; by apply Hl.
Qed.

Lemma byte_at_xor a b k :
  String.length a = String.length b ->
  byte_at k (xor_into a b) = match byte_at k a, byte_at k b with
                             | Some x, Some y => Some (Z.lxor x y)
                             | _, _ => None
                             end.
Proof.
  revert b k. induction a as [|x a IH]; intros [|y b] k Hl; cbn [String.length] in Hl; try discriminate Hl; [by destruct k|].
  injection Hl as Hl. destruct k; cbn [xor_into byte_at]; [|by apply IH]. unfold xor_byte.
  rewrite code_of_chr; [done|]. apply lxor_bound; apply code_bound.
Qed.

Lemma byte_at_some k s : (k < String.length s)%nat -> is_Some (byte_at k s).
Proof.
  revert k. induction s as [|c s IH]; intros [|k] Hk; simpl in *; [lia|lia|eauto|apply IH; lia].
Qed.

Lemma rounds_state p s n :
  let st := Nat.iter n (round p) (rfc_u p s 0, rfc_u p s 0) in
  st.1 = rfc_u p s n /\ String.length st.2 = 32%nat /\
  (forall k, (k < 32)%nat -> byte_at k st.2 = Some (rfc_byte p s (S n) k)).
Proof.
  induction n as [|n IH]; cbn zeta.
  - cbn [Nat.iter nat_rect fst snd]. split; [done|]. split; [apply rfc_u_len|].
    intros k Hk. destruct (byte_at_some k (rfc_u p s 0)) as [v Hv]; [by rewrite rfc_u_len|].
    unfold rfc_byte. cbn [seq foldr]. rewrite Hv. simpl. by rewrite Z.lxor_0_r.
  - rewrite Nat.iter_succ. destruct IH as (H1 & H2 & H3).
    destruct (Nat.iter n _ _) as [u o]. cbn [fst snd] in *. unfold round. cbn [fst snd].
    subst u. split; [done|]. rewrite xor_into_len. split; [done|]. intros k Hk.
    rewrite byte_at_xor by (by rewrite H2, hmac_len). rewrite H3 by done.
    destruct (byte_at_some k (hmac_sha256 p (rfc_u p s n))) as [v Hv]; [by rewrite hmac_len|].
    rewrite Hv. f_equal. unfold rfc_byte. rewrite (seq_S (S n)). rewrite foldr_app.
    cbn [foldr Nat.add]. change (rfc_u p s (S n)) with (hmac_sha256 p (rfc_u p s n)).
    rewrite Hv. simpl default. rewrite Z.lxor_0_r.
    generalize (seq 0 (S n)) as l. induction l as [|j l IHl]; [cbn; by rewrite Z.lxor_0_l|].
    cbn [foldr]. by rewrite Z.lxor_assoc, IHl.
Qed.

Lemma pbkdf2_len p s r : String.length (pbkdf2_hmac_sha256 p s r) = 32%nat.
Proof. apply (rounds_state p s (Z.to_nat (r - 1))). Qed.

(** The hand-written key derivation is the first block of PBKDF2 as
    RFC 2898 defines it: byte by byte the exclusive or of the iterates. *)
Theorem pbkdf2_is_rfc p s rounds k :
  1 <= rounds -> (k < 32)%nat ->
  byte_at k (pbkdf2_hmac_sha256 p s rounds) = Some (rfc_byte p s (Z.to_nat rounds) k).
Proof.
  intros Hr Hk. destruct (rounds_state p s (Z.to_nat (rounds - 1))) as (_ & _ & Hb).
  replace (Z.to_nat rounds) with (S (Z.to_nat (rounds - 1))) by lia. by apply Hb.
Qed.

End pbkdf2.

End Pbkdf2.

#[global] Opaque Pbkdf2.pbkdf2_hmac_sha256.

(** ** seal.rs *)
Module Seal.
Import Pbkdf2.

Definition UNSEAL_FAIL_LOCKOUT : Z := 5.
Definition LOCKOUT_SECS : Z := 60.
Definition SOFTWARE_SALT_ITERATIONS : Z := 200000.

Inductive SealBackend := Tpm2 | Software.

#[export] Instance SealBackend_eq_dec : EqDecision SealBackend.
Proof. solve_decision. Defined.

Record SealMeta := {
  backend : SealBackend;
  purpose : string;
  sealed_at : string;
  pcr_list : option string;
}.

#[export] Instance SealMeta_eq_dec : EqDecision SealMeta.
Proof. solve_decision. Defined.

Inductive seal_err :=
| Io (e : io_err) | BadJson | BadHex | TpmTool | TooShort | BadMagic | WrongPassphrase
| LockedOut | NotSealed | BundleTooShort | NotABundle | BundleVersion | BundlePassphrase.

#[export] Instance seal_err_eq_dec : EqDecision seal_err.
Proof. solve_decision. Defined.

Record FailCounter := { count : Z; last_fail_ts : Z }.

Definition fail_default : FailCounter := {| count := 0; last_fail_ts := 0 |}.

(** What a seal draws and reads: salt, nonce, the time as text, and where the two
    writes of the software backend stop, if they do. *)
Record draw := {
  salt : string;
  nonce : string;
  at_text : string;
  blob_fault : option nat;
  meta_fault : option nat;
}.

Definition draw_ok (d : draw) : Prop :=
  String.length (salt d) = 16%nat /\ String.length (nonce d) = 12%nat /\
  blob_fault d = None /\ meta_fault d = None.

Definition backend_str (b : SealBackend) : string :=
  match b with Tpm2 => "tpm2" | Software => "software" end.

Definition backend_of (j : json) : option SealBackend :=
  some? s := as_str j in
  if String.eqb s "tpm2" then Some Tpm2 else
  if String.eqb s "software" then Some Software else None.

Definition meta_json (m : SealMeta) : json :=
  JObj [("backend", JStr (backend_str (backend m))); ("purpose", JStr (purpose m));
        ("sealed_at", JStr (sealed_at m)); ("pcr_list", jopt JStr (pcr_list m))].

Definition meta_of (j : json) : option SealMeta :=
  some? m := as_obj j in
  check no_dup_fields ["backend"; "purpose"; "sealed_at"; "pcr_list"] m in
  some? b := req backend_of "backend" m in
  some? p := req as_str "purpose" m in
  some? t := req as_str "sealed_at" m in
  some? l := opt as_str "pcr_list" m in
  Some {| backend := b; purpose := p; sealed_at := t; pcr_list := l |}.

Definition counter_json (c : FailCounter) : json :=
  JObj [("count", JInt (count c)); ("last_fail_ts", JInt (last_fail_ts c))].

Definition counter_of (j : json) : option FailCounter :=
  some? m := as_obj j in
  check no_dup_fields ["count"; "last_fail_ts"] m in
  some? c := req (as_uint u32_max) "count" m in
  some? t := req (as_uint u64_max) "last_fail_ts" m in
  Some {| count := c; last_fail_ts := t |}.

Lemma backend_round b : backend_of (JStr (backend_str b)) = Some b.
Proof. by destruct b. Qed.

Lemma meta_round m : meta_of (meta_json m) = Some m.
Proof. destruct m as [[] p t []]; reflexivity. Qed.

Lemma meta_json_wf m : json_wf (meta_json m) = true.
Proof. destruct m as [b p t []]; reflexivity. Qed.

Definition counter_ok (c : FailCounter) : Prop :=
  0 <= count c <= u32_max /\ 0 <= last_fail_ts c <= u64_max.

Lemma counter_round c : counter_ok c -> counter_of (counter_json c) = Some c.
Proof.
  intros [Hc Ht]. destruct c as [n t]. cbn [count last_fail_ts] in *.
  unfold counter_of, counter_json. cbn -[uint_ok u32_max u64_max].
  unfold req. cbn -[uint_ok u32_max u64_max].
  replace (uint_ok u32_max n) with true by (unfold uint_ok; lia).
  by replace (uint_ok u64_max t) with true by (unfold uint_ok; lia).
Qed.

Lemma counter_json_wf c : counter_ok c -> json_wf (counter_json c) = true.
Proof.
  intros [Hc Ht]. unfold counter_json. rewrite json_wf_obj. wf_members;
    unfold uint_ok, json_wf, u32_max, u64_max in *; lia.
Qed.

Section seal.
Context `{!JsonText, !Hmac, !Aead, !Tpm2Tools}.

Definition is_tpm2_tools_available : bool := tpm2_createprimary_version.

(** ** Files *)

Definition blob_dir (purpose : string) : string := "tpm/" +:+ purpose.
Definition sealed_bin (d : string) : string := d +:+ "/sealed.bin".
Definition sealed_pub (d : string) : string := d +:+ "/sealed.pub".
Definition sealed_priv (d : string) : string := d +:+ "/sealed.priv".
Definition meta_path (d : string) : string := d +:+ "/meta.json".
Definition fail_counter_path (d : string) : string := d +:+ "/.fail_counter".

Definition io {A} (m : SE fs io_err A) : SE fs seal_err A :=
  fun f => let r := m f in (r.1, map_err Io r.2).

Definition put (p b : string) : SE fs seal_err unit := io (swrite None p b).

Definition load_meta (d : string) (f : fs) : result seal_err SealMeta :=
  let? b := map_err Io (read f (meta_path d)) in
  let? j := ok_or (json_parse b) BadJson in
  ok_or (meta_of j) BadJson.

Definition save_meta (fault : option nat) (d : string) (m : SealMeta) : SE fs seal_err unit :=
  io (swrite fault (meta_path d) (json_pretty (meta_json m))).

Definition seal_status (purpose : string) (f : fs) : option SealMeta :=
  match load_meta (blob_dir purpose) f with Ok m => Some m | Err _ => None end.

Definition is_sealed (purpose : string) (f : fs) : bool := exists_ f (meta_path (blob_dir purpose)).

(** ** The backends *)

Definition tpm2_seal (data purpose d pcrs at_text : string) : SE fs seal_err SealMeta :=
  do! ctx := slift (ok_or tpm2_createprimary TpmTool) in
  do! pol := slift (ok_or (tpm2_createpolicy pcrs) TpmTool) in
  do! parts := slift (ok_or (tpm2_create ctx pol data) TpmTool) in
  do! _ := put (sealed_pub d) parts.1 in
  do! _ := put (sealed_priv d) parts.2 in
  let meta := {| backend := Tpm2; purpose := purpose; sealed_at := at_text;
                 pcr_list := Some pcrs |} in
  do! _ := save_meta None d meta in
  sret meta.

Definition tpm2_unseal (d : string) (pcrs : option string) (f : fs) : result seal_err string :=
  let? ctx := ok_or tpm2_createprimary TpmTool in
  let? pub := map_err Io (read f (sealed_pub d)) in
  let? priv := map_err Io (read f (sealed_priv d)) in
  let? sealed := ok_or (tpm2_load ctx pub priv) TpmTool in
  ok_or (tpm2_unseal_cmd sealed pcrs) TpmTool.

Definition pbkdf2_key (passphrase salt : string) : string :=
  pbkdf2_hmac_sha256 passphrase salt SOFTWARE_SALT_ITERATIONS.

Definition software_seal (data purpose d passphrase : string) (r : draw) : SE fs seal_err SealMeta :=
  let key := pbkdf2_key passphrase (salt r) in
  let ct := aead_seal key (nonce r) data in
  let blob := "MRN1" +:+ salt r +:+ nonce r +:+ ct in
  do! _ := io (swrite (blob_fault r) (sealed_bin d) blob) in
  let meta := {| backend := Software; purpose := purpose; sealed_at := at_text r;
                 pcr_list := None |} in
  do! _ := save_meta (meta_fault r) d meta in
  sret meta.

Definition software_unseal (d passphrase : string) (f : fs) : result seal_err string :=
  let? blob := map_err Io (read f (sealed_bin d)) in
  if Z.of_nat (String.length blob) <? 4 + 16 + 12 then Err TooShort else
  if negb (String.eqb (stake 4 blob) "MRN1") then Err BadMagic else
  let salt := stake 16 (sdrop 4 blob) in
  let nonce := stake 12 (sdrop 20 blob) in
  let ct := sdrop 32 blob in
  ok_or (aead_open (pbkdf2_key passphrase salt) nonce ct) WrongPassphrase.

(** ** The lockout *)

Definition read_fail_counter (d : string) (f : fs) : FailCounter :=
  match read f (fail_counter_path d) with
  | Ok b => match json_parse b with
            | Some j => default fail_default (counter_of j)
            | None => fail_default
            end
  | Err _ => fail_default
  end.

Definition write_fail_counter (d : string) (c : FailCounter) (f : fs) : fs :=
  std_write f (fail_counter_path d) (json_print (counter_json c)).

(** [now] is the clock in seconds. *)
Definition check_dos_limit (d : string) (now : Z) (f : fs) : result seal_err unit :=
  let fc := read_fail_counter d f in
  if (UNSEAL_FAIL_LOCKOUT <=? count fc) && (sat_sub now (last_fail_ts fc) <? LOCKOUT_SECS)
  then Err LockedOut else Ok tt.

Definition increment_fail_counter (d : string) (now : Z) (f : fs) : fs :=
  let fc := read_fail_counter d f in
  write_fail_counter d {| count := Z.min u32_max (count fc + 1); last_fail_ts := now |} f.

Definition reset_fail_counter (d : string) (f : fs) : fs := write_fail_counter d fail_default f.

(** ** Sealing and unsealing *)

Definition seal (data purpose : string) (pcr_policy_str : option string)
    (software_passphrase : string) (r : draw) : SE fs seal_err SealMeta := fun f =>
  let d := blob_dir purpose in
  match pcr_policy_str with
  | Some pcrs =>
    if is_tpm2_tools_available then
      match tpm2_seal data purpose d pcrs (at_text r) f with
      | (f, Ok meta) => (f, Ok meta)
      | (f, Err _) => software_seal data purpose d software_passphrase r f
      end
    else software_seal data purpose d software_passphrase r f
  | None => software_seal data purpose d software_passphrase r f
  end.

(** The clock is read by the check and again when a failure is counted. *)
Definition unseal (purpose software_passphrase : string) (now now_fail : Z)
    : SE fs seal_err string := fun f =>
  let d := blob_dir purpose in
  match check_dos_limit d now f with
  | Err e => (f, Err e)
  | Ok _ =>
    match load_meta d f with
    | Err e => (f, Err e)
    | Ok meta =>
      let result := match backend meta with
                    | Tpm2 => tpm2_unseal d (pcr_list meta) f
                    | Software => software_unseal d software_passphrase f
                    end in
      match result with
      | Ok data => (reset_fail_counter d f, Ok data)
      | Err e => (increment_fail_counter d now_fail f, Err e)
      end
    end
  end.

(** ** Lemmas *)

(** What [unseal] reads when it is not locked out. *)
Definition stored_key (purpose passphrase : string) (f : fs) : result seal_err string :=
  let d := blob_dir purpose in
  let? meta := load_meta d f in
  match backend meta with
  | Tpm2 => tpm2_unseal d (pcr_list meta) f
  | Software => software_unseal d passphrase f
  end.

(** The documented behaviour of the commands while the registers do not change. A
    device is an instance of [Tpm2Tools] and has the registers of one boot: this law
    speaks of that instance. A boot with other registers is another instance, for
    which nothing is assumed ([Startup.Startup.started_again] ranges over them). *)
Definition tpm_faithful : Prop := forall ctx pol pcrs data pub priv,
  tpm2_createprimary = Some ctx -> tpm2_createpolicy pcrs = Some pol ->
  tpm2_create ctx pol data = Some (pub, priv) ->
  exists sealed, tpm2_load ctx pub priv = Some sealed /\
    tpm2_unseal_cmd sealed (Some pcrs) = Some data.

Definition blob_files (p : string) : list string :=
  [sealed_bin (blob_dir p); sealed_pub (blob_dir p); sealed_priv (blob_dir p);
   meta_path (blob_dir p)].

Definition own_files (p : string) : list string := fail_counter_path (blob_dir p) :: blob_files p.

Lemma stored_key_agree p pass f g :
  agree (fun q => In q (blob_files p)) f g -> stored_key p pass g = stored_key p pass f.
Proof.
  intros Ha. unfold stored_key, load_meta, tpm2_unseal, software_unseal.
  by rewrite !(agree_read _ _ _ _ Ha) by (unfold blob_files; simpl; tauto).
Qed.

Lemma load_meta_agree p f g :
  agree (fun q => In q (blob_files p)) f g -> load_meta (blob_dir p) g = load_meta (blob_dir p) f.
Proof.
  intros Ha. unfold load_meta.
  by rewrite (agree_read _ _ _ _ Ha) by (unfold blob_files; simpl; tauto).
Qed.

Local Ltac path_neq :=
  unfold sealed_bin, sealed_pub, sealed_priv, meta_path, fail_counter_path; ending_neq.

Lemma counter_not_blob p q : ~ In (fail_counter_path (blob_dir q)) (blob_files p).
Proof. unfold blob_files, fail_counter_path. intros [He|[He|[He|[He|[]]]]]; revert He; path_neq. Qed.

(** Two purposes share no file. *)
Lemma blob_dir_inj p q : blob_dir p = blob_dir q -> p = q.
Proof. unfold blob_dir. simpl. by intros [= ->]. Qed.

Lemma own_files_disjoint p q r : p <> q -> In r (own_files p) -> ~ In r (own_files q).
Proof.
  intros Hne Hp Hq. destruct Hne, Hp as [<-|[<-|[<-|[<-|[<-|[]]]]]];
    destruct Hq as [He|[He|[He|[He|[He|[]]]]]]; try (exfalso; revert He; path_neq);
    apply app_suffix_inj in He; symmetry; by apply blob_dir_inj.
Qed.

Lemma blob_own p q : In q (blob_files p) -> In q (own_files p).
Proof. by right. Qed.

Lemma header_slices m s n c :
  String.length m = 4%nat -> String.length s = 16%nat -> String.length n = 12%nat ->
  let b := m +:+ s +:+ n +:+ c in
  stake 4 b = m /\ stake 16 (sdrop 4 b) = s /\ stake 12 (sdrop 20 b) = n /\ sdrop 32 b = c.
Proof.
  intros Hm Hs Hn b. unfold b. split; [by apply stake_app_len|]. split.
  { rewrite sdrop_app_len by done. by apply stake_app_len. }
  rewrite <- !string_app_assoc. split.
  - rewrite string_app_assoc, sdrop_app_len; [by apply stake_app_len|].
    rewrite string_length_app. lia.
  - apply sdrop_app_len. rewrite !string_length_app. lia.
Qed.

Lemma loaded_sealed p f :
  fs_wf f -> is_ok (load_meta (blob_dir p) f) = true -> is_sealed p f = true.
Proof.
  intros Hf. unfold load_meta, is_sealed. rewrite read_content. intros Hl.
  apply exists_content; [done|]. by destruct (content_at f _).
Qed.

Lemma software_seal_spec data p pass r f :
  fs_wf f -> draw_ok r ->
  exists f', software_seal data p (blob_dir p) pass r f =
      (f', Ok {| backend := Software; purpose := p; sealed_at := at_text r; pcr_list := None |}) /\
    fs_wf f' /\ stored_key p pass f' = Ok data /\
    agree (fun q => ~ In q (blob_files p)) f f' /\
    load_meta (blob_dir p) f' =
      Ok {| backend := Software; purpose := p; sealed_at := at_text r; pcr_list := None |}.
Proof.
  intros Hf (Hs & Hn & Hb & Hm). unfold software_seal, save_meta, io, sbind, swrite, sret.
  rewrite Hb, Hm. cbn [fst snd map_err]. eexists. split; [done|].
  set (blob := "MRN1" +:+ _). set (f1 := std_write f _ blob).
  assert (fs_wf f1) as Hf1 by by apply std_write_wf.
  split; [by apply std_write_wf|].
  match goal with |- _ /\ _ /\ ?P => assert P as Hload end.
  { unfold load_meta. rewrite read_std_write by done. cbn [map_err rbind].
    rewrite json_parse_pretty by apply meta_json_wf. cbn [ok_or rbind]. by rewrite meta_round. }
  split; [|split; [|done]].
  - unfold stored_key. rewrite Hload. cbn [rbind backend]. unfold software_unseal.
    rewrite read_std_write_ne by (done || path_neq). unfold f1.
    rewrite read_std_write by done. cbn [map_err rbind].
    destruct (Z.ltb_spec (Z.of_nat (String.length blob)) (4 + 16 + 12)) as [Hl|_].
    { unfold blob in Hl. rewrite !string_length_app, Hs, Hn in Hl. simpl in Hl. lia. }
    unfold blob. destruct (header_slices "MRN1" (salt r) (nonce r)
                (aead_seal (pbkdf2_key pass (salt r)) (nonce r) data)) as (-> & -> & -> & ->); try done.
    cbn [negb String.eqb Ascii.eqb Bool.eqb].
    rewrite aead_open_seal; [done| |done]. apply pbkdf2_len.
  - eapply agree_trans; apply agree_write; try done; unfold blob_files; simpl; tauto.
Qed.

Lemma tpm2_seal_spec data p pcrs t f :
  fs_wf f ->
  fs_wf (tpm2_seal data p (blob_dir p) pcrs t f).1 /\
  agree (fun q => ~ In q (blob_files p)) f (tpm2_seal data p (blob_dir p) pcrs t f).1 /\
  forall meta, (tpm2_seal data p (blob_dir p) pcrs t f).2 = Ok meta -> tpm_faithful ->
    stored_key p "" (tpm2_seal data p (blob_dir p) pcrs t f).1 = Ok data /\
    meta = {| backend := Tpm2; purpose := p; sealed_at := t; pcr_list := Some pcrs |}.
Proof.
  intros Hf. unfold tpm2_seal, save_meta, put, io, sbind, slift, swrite, sret.
  destruct tpm2_createprimary as [ctx|] eqn:E1; cbn [ok_or fst snd]; [|by split; [|split]].
  destruct (tpm2_createpolicy pcrs) as [pol|] eqn:E2; cbn [ok_or fst snd]; [|by split; [|split]].
  destruct (tpm2_create ctx pol data) as [[pub priv]|] eqn:E3; cbn [ok_or map_err fst snd];
    [|by split; [|split]].
  set (meta := Build_SealMeta _ _ _ _).
  set (f1 := std_write f _ pub). set (f2 := std_write f1 _ priv).
  assert (fs_wf f1) as Hf1 by by apply std_write_wf.
  assert (fs_wf f2) as Hf2 by by apply std_write_wf.
  split; [by apply std_write_wf|]. split.
  { eapply agree_trans; [|eapply agree_trans]; apply agree_write; try done;
      unfold blob_files; simpl; tauto. }
  intros m [= <-] Htpm. split; [|done].
  unfold stored_key, load_meta. rewrite read_std_write by done. cbn [map_err rbind].
  rewrite json_parse_pretty by apply meta_json_wf. cbn [ok_or rbind].
  rewrite meta_round. cbn [ok_or rbind]. unfold meta at 1. cbn [backend]. unfold tpm2_unseal.
  rewrite E1. cbn [ok_or rbind]. unfold f2, f1.
  rewrite read_std_write_ne by (done || path_neq). rewrite read_std_write_ne by (done || path_neq).
  rewrite read_std_write by done. cbn [map_err rbind].
  rewrite read_std_write_ne by (done || path_neq). rewrite read_std_write by done.
  cbn [map_err rbind]. destruct (Htpm _ _ _ _ _ _ E1 E2 E3) as (c & Hl & Hu).
  rewrite Hl. cbn [ok_or rbind]. cbn [pcr_list meta]. by rewrite Hu.
Qed.

(** The backend that wrote last is the one that reads: a passphrase does not matter to
    the TPM. *)
Lemma stored_key_tpm p pass f d :
  stored_key p "" f = Ok d -> (exists m, load_meta (blob_dir p) f = Ok m /\ backend m = Tpm2) ->
  stored_key p pass f = Ok d.
Proof. unfold stored_key. intros Hs (m & Hm & Hb). rewrite Hm in *. simpl in *. by rewrite Hb in *. Qed.

Lemma seal_spec data p pcrs pass r f :
  fs_wf f -> draw_ok r -> tpm_faithful ->
  exists f' meta, seal data p pcrs pass r f = (f', Ok meta) /\ fs_wf f' /\
    stored_key p pass f' = Ok data /\ agree (fun q => ~ In q (blob_files p)) f f' /\
    (pcrs = None -> backend meta = Software).
Proof.
  intros Hf Hr Htpm. unfold seal.
  assert (forall g, fs_wf g -> agree (fun q => ~ In q (blob_files p)) f g ->
    exists f' meta, software_seal data p (blob_dir p) pass r g = (f', Ok meta) /\ fs_wf f' /\
      stored_key p pass f' = Ok data /\ agree (fun q => ~ In q (blob_files p)) f f' /\
      (pcrs = None -> backend meta = Software)) as Hsoft.
  { intros g Hg Ha. destruct (software_seal_spec data p pass r g Hg Hr) as (f' & -> & Hw & Hk & Ha' & _).
    exists f', {| backend := Software; purpose := p; sealed_at := at_text r; pcr_list := None |}.
    split; [done|]. split; [done|]. split; [done|]. split; [by eapply agree_trans|done]. }
  destruct pcrs as [pcrs|]; [|by apply Hsoft].
  destruct is_tpm2_tools_available; [|by apply Hsoft].
  destruct (tpm2_seal_spec data p pcrs (at_text r) f Hf) as (Hw & Ha & Hk).
  destruct (tpm2_seal data p (blob_dir p) pcrs (at_text r) f) as [g [meta|e]] eqn:E; cbn [fst snd] in *.
  - destruct (Hk meta eq_refl Htpm) as [Hs Hm]. exists g, meta. split; [done|].
    split; [done|]. split; [|split; [done|done]]. apply stored_key_tpm; [done|].
    exists meta. split; [|by subst]. revert E.
    unfold tpm2_seal, save_meta, put, io, sbind, slift, swrite, sret.
    destruct tpm2_createprimary; cbn [ok_or fst snd]; [|done].
    destruct (tpm2_createpolicy pcrs); cbn [ok_or fst snd]; [|done].
    destruct (tpm2_create _ _ data); cbn [ok_or map_err fst snd]; [|done].
    intros [= <- <-]. unfold load_meta. rewrite read_std_write by by repeat apply std_write_wf.
    cbn [map_err rbind]. rewrite json_parse_pretty by apply meta_json_wf. cbn [ok_or rbind].
    by rewrite meta_round.
  - by apply Hsoft.
Qed.

(** ** Unsealing *)

Lemma write_counter_spec d c f :
  fs_wf f -> counter_ok c ->
  fs_wf (write_fail_counter d c f) /\ read_fail_counter d (write_fail_counter d c f) = c /\
  forall q, q <> fail_counter_path d -> content_at (write_fail_counter d c f) q = content_at f q.
Proof.
  intros Hf Hc. unfold write_fail_counter. split; [by apply std_write_wf|]. split.
  - unfold read_fail_counter. rewrite read_std_write by done.
    rewrite json_parse_print by by apply counter_json_wf. by rewrite counter_round.
  - intros q Hq. rewrite content_at_std_write by done. by rewrite decide_False.
Qed.

Lemma default_counter_ok : counter_ok fail_default.
Proof. unfold counter_ok, u32_max, u64_max. simpl. lia. Qed.

Lemma counter_of_ok j c : counter_of j = Some c -> counter_ok c.
Proof.
  unfold counter_of, req, as_uint, uint_ok. intros Hc. crush. unfold counter_ok. simpl. lia.
Qed.

Lemma read_counter_ok d f : counter_ok (read_fail_counter d f).
Proof.
  unfold read_fail_counter. destruct (read f _) as [b|]; [|apply default_counter_ok].
  destruct (json_parse b) as [j|]; [|apply default_counter_ok].
  destruct (counter_of j) as [c|] eqn:E; [by eapply counter_of_ok|apply default_counter_ok].
Qed.

Definition locked (p : string) (now : Z) (f : fs) : bool :=
  negb (is_ok (check_dos_limit (blob_dir p) now f)).

(** [unseal] when it is not locked out: the stored key, and the counter. *)
Lemma unseal_spec p pass now t f :
  fs_wf f -> 0 <= t <= u64_max -> locked p now f = false ->
  exists f', unseal p pass now t f = (f', stored_key p pass f) /\ fs_wf f' /\
    agree (fun q => q <> fail_counter_path (blob_dir p)) f f' /\
    match stored_key p pass f with
    | Ok _ => read_fail_counter (blob_dir p) f' = fail_default
    | Err _ => is_ok (load_meta (blob_dir p) f) = true ->
      read_fail_counter (blob_dir p) f' =
        {| count := Z.min u32_max (count (read_fail_counter (blob_dir p) f) + 1); last_fail_ts := t |}
    end.
Proof.
  intros Hf Ht Hl. unfold locked in Hl. apply negb_false_iff in Hl.
  unfold unseal. destruct (check_dos_limit _ now f) as [[]|]; [|done].
  unfold stored_key. destruct (load_meta (blob_dir p) f) as [m|e]; cbn [rbind is_ok];
    [|by exists f].
  set (r := match backend m with Tpm2 => _ | Software => _ end). destruct r as [k|e].
  - destruct (write_counter_spec (blob_dir p) fail_default f Hf default_counter_ok) as (Hw1 & Hw2 & Hw3).
    eexists. split; [done|]. split; [done|]. split; [by intros q Hq; apply Hw3|done].
  - pose proof (read_counter_ok (blob_dir p) f) as [Hc _].
    destruct (write_counter_spec (blob_dir p)
      {| count := Z.min u32_max (count (read_fail_counter (blob_dir p) f) + 1); last_fail_ts := t |}
      f Hf) as (Hw1 & Hw2 & Hw3).
    { unfold counter_ok. cbn [count last_fail_ts]. unfold u32_max, u64_max in *. lia. }
    eexists. split; [done|]. split; [done|]. split; [by intros q Hq; apply Hw3|done].
Qed.

Lemma unseal_locked p pass now t f :
  locked p now f = true -> unseal p pass now t f = (f, Err LockedOut).
Proof.
  unfold locked, unseal. intros Hl. unfold check_dos_limit in *. by case_match.
Qed.

Lemma locked_agree p now f g :
  content_at g (fail_counter_path (blob_dir p)) = content_at f (fail_counter_path (blob_dir p)) ->
  locked p now g = locked p now f.
Proof.
  intros Hc. unfold locked, check_dos_limit, read_fail_counter. by rewrite !read_content, Hc.
Qed.

Lemma unlocked_default p now f :
  read_fail_counter (blob_dir p) f = fail_default -> locked p now f = false.
Proof. intros Hc. unfold locked, check_dos_limit. by rewrite Hc. Qed.

(** Whatever happens, a seal and an unseal write only files of their purpose. *)
Lemma software_seal_frame data p pass r f :
  fs_wf f ->
  fs_wf (software_seal data p (blob_dir p) pass r f).1 /\
  agree (fun q => ~ In q (blob_files p)) f (software_seal data p (blob_dir p) pass r f).1.
Proof.
  intros Hf. unfold software_seal, save_meta, io, sbind, swrite, sret.
  destruct (blob_fault r); cbn [fst snd map_err].
  { split; [by apply std_write_wf|]. apply agree_write; [done|]. unfold blob_files. simpl. tauto. }
  destruct (meta_fault r); cbn [fst snd map_err]; (split; [by repeat apply std_write_wf|]);
    (eapply agree_trans; apply agree_write; try done; unfold blob_files; simpl; try tauto;
     by apply std_write_wf).
Qed.

Lemma seal_frame data p pcrs pass r f :
  fs_wf f ->
  fs_wf (seal data p pcrs pass r f).1 /\
  agree (fun q => ~ In q (blob_files p)) f (seal data p pcrs pass r f).1.
Proof.
  intros Hf. unfold seal. destruct pcrs as [pcrs|]; [|by apply software_seal_frame].
  destruct is_tpm2_tools_available; [|by apply software_seal_frame].
  destruct (tpm2_seal_spec data p pcrs (at_text r) f Hf) as (Hw & Ha & _).
  destruct (tpm2_seal _ _ _ _ _ f) as [g [m|e]]; cbn [fst] in *; [done|].
  destruct (software_seal_frame data p pass r g Hw) as [Hw' Ha']. split; [done|].
  by eapply agree_trans.
Qed.

Lemma unseal_frame p pass now t f :
  fs_wf f ->
  fs_wf (unseal p pass now t f).1 /\
  agree (fun q => q <> fail_counter_path (blob_dir p)) f (unseal p pass now t f).1.
Proof.
  intros Hf. unfold unseal. destruct (check_dos_limit _ now f); [|by split].
  destruct (load_meta _ f) as [m|]; [|by split].
  assert (forall c, fs_wf (write_fail_counter (blob_dir p) c f) /\
    agree (fun q => q <> fail_counter_path (blob_dir p)) f (write_fail_counter (blob_dir p) c f)) as Hc.
  { intros c. unfold write_fail_counter. split; [by apply std_write_wf|].
    apply agree_write; [done|]. tauto. }
  destruct (match backend m with Tpm2 => _ | Software => _ end); cbn [fst]; apply Hc.
Qed.

(** ** Properties *)

(** C8: What is sealed under a purpose, in whichever backend, is unsealed with
    the same passphrase as long as the purpose is not locked out and the registers are
    those of the sealing; the counter of failures is then zero. *)
Theorem seal_unseals data p pcrs pass r f now t :
  fs_wf f -> draw_ok r -> tpm_faithful -> 0 <= t <= u64_max -> locked p now f = false ->
  exists f1 meta f2, seal data p pcrs pass r f = (f1, Ok meta) /\
    unseal p pass now t f1 = (f2, Ok data) /\ read_fail_counter (blob_dir p) f2 = fail_default.
Proof.
  intros Hf Hr Htpm Ht Hl.
  destruct (seal_spec data p pcrs pass r f Hf Hr Htpm) as (f1 & meta & Hs & Hf1 & Hk & Ha & _).
  assert (locked p now f1 = false) as Hl1.
  { rewrite <- Hl. apply locked_agree, Ha, counter_not_blob. }
  destruct (unseal_spec p pass now t f1 Hf1 Ht Hl1) as (f2 & Hu & _ & _ & Hc).
  rewrite Hk in Hu, Hc. by exists f1, meta, f2.
Qed.

(** A guess at a passphrase, with the two readings of the clock. *)
Record attempt := { a_pass : string; a_now : Z; a_fail : Z }.

Fixpoint in_order (from : Z) (l : list attempt) : Prop :=
  match l with
  | [] => True
  | a :: l => from <= a_now a <= a_fail a /\ a_fail a <= u64_max /\ in_order (a_fail a) l
  end.

Fixpoint all_fail (p : string) (l : list attempt) (f : fs) : Prop :=
  match l with
  | [] => True
  | a :: l => is_ok (unseal p (a_pass a) (a_now a) (a_fail a) f).2 = false /\
              all_fail p l (unseal p (a_pass a) (a_now a) (a_fail a) f).1
  end.

(** The guesses of a period that reach the sealed key. *)
Fixpoint tried (p : string) (lo hi : Z) (l : list attempt) (f : fs) : Z :=
  match l with
  | [] => 0
  | a :: l =>
    (if (lo <=? a_now a) && (a_now a <? hi) && negb (locked p (a_now a) f) then 1 else 0)
    + tried p lo hi l (unseal p (a_pass a) (a_now a) (a_fail a) f).1
  end.

Lemma tried_bound p lo l k f from :
  fs_wf f -> is_ok (load_meta (blob_dir p) f) = true -> 0 <= from -> in_order from l ->
  all_fail p l f -> 0 <= k <= 5 ->
  (0 < k -> lo <= from /\ k <= count (read_fail_counter (blob_dir p) f) /\
     lo <= last_fail_ts (read_fail_counter (blob_dir p) f)) ->
  k + tried p lo (lo + 60) l f <= 5.
Proof.
  revert k f from. induction l as [|a l IH]; intros k f from Hf Hm Hfr Ho Hall Hk Hi; cbn [tried].
  { lia. }
  destruct Ho as (Hnow & Hmax & Ho). destruct Hall as [He Hall].
  destruct (locked p (a_now a) f) eqn:El.
  - rewrite andb_false_r. rewrite unseal_locked in Hall |- * by done. cbn [fst] in *.
    specialize (IH k f (a_fail a) Hf Hm ltac:(lia) Ho Hall Hk). lapply IH; [lia|].
    intros Hk0. specialize (Hi Hk0). lia.
  - destruct (unseal_spec p (a_pass a) (a_now a) (a_fail a) f Hf ltac:(lia) El)
      as (f' & Hu & Hf' & Ha & Hc).
    rewrite Hu in He, Hall |- *. cbn [fst snd] in *.
    destruct (stored_key p (a_pass a) f) as [d|e]; [done|]. specialize (Hc Hm).
    assert (is_ok (load_meta (blob_dir p) f') = true) as Hm'.
    { rewrite (load_meta_agree p f f'); [done|]. intros q Hq. apply Ha. intros ->.
      by apply counter_not_blob in Hq. }
    pose proof (read_counter_ok (blob_dir p) f) as [Hcnt _].
    destruct (Z.leb_spec lo (a_now a)) as [Hlo|Hlo]; cbn [andb].
    + destruct (Z.ltb_spec (a_now a) (lo + 60)) as [Hhi|Hhi]; cbn [andb negb].
      * assert (k < 5) as Hk5.
        { destruct (Z.eq_dec k 5) as [->|]; [|lia]. destruct (Hi ltac:(lia)) as (_ & Hc5 & Hls).
          unfold locked, check_dos_limit, UNSEAL_FAIL_LOCKOUT, LOCKOUT_SECS, sat_sub in El.
          apply negb_false_iff in El. revert El. cbn zeta. case_match; [done|]. bool_prop.
          match goal with H : _ && _ = false |- _ => apply andb_false_iff in H as [?|?] end;
            bool_prop; lia. }
        specialize (IH (k + 1) f' (a_fail a) Hf' Hm' ltac:(lia) Ho Hall ltac:(lia)).
        lapply IH; [lia|]. intros _. rewrite Hc. cbn [count last_fail_ts].
        unfold u32_max in *. lia.
      * specialize (IH k f' (a_fail a) Hf' Hm' ltac:(lia) Ho Hall Hk). lapply IH; [lia|].
        intros Hk0. specialize (Hi Hk0). rewrite Hc. cbn [count last_fail_ts]. unfold u32_max in *. lia.
    + specialize (IH k f' (a_fail a) Hf' Hm' ltac:(lia) Ho Hall Hk). lapply IH; [lia|].
      intros Hk0. specialize (Hi Hk0). rewrite Hc. cbn [count last_fail_ts]. unfold u32_max in *. lia.
Qed.


End seal.

End Seal.

(** ** rotation.rs *)
Module Rotation.
Import Pbkdf2 Seal.

Definition BUNDLE_MAGIC : string := "MRNB".
Definition BUNDLE_VERSION : Z := 1.
Definition BUNDLE_ROUNDS : Z := 200000.

Record RecoveryEntry := { e_purpose : string; e_meta : SealMeta; key_bytes_hex : string }.

Record RecoveryBundle := { version : Z; created_at : Z; purposes : list RecoveryEntry }.

Record RotationRecord := {
  r_purpose : string;
  rotated_at : Z;
  reason : string;
  old_backend : SealBackend;
  new_backend : SealBackend;
  old_pcr_list : option string;
  new_pcr_list : option string;
}.

Section rotation.
Context `{!JsonText, !TimeText, !Hmac, !Aead, !Hex, !Tpm2Tools}.

Definition entry_json (e : RecoveryEntry) : json :=
  JObj [("purpose", JStr (e_purpose e)); ("meta", meta_json (e_meta e));
        ("key_bytes_hex", JStr (key_bytes_hex e))].

Definition entry_of (j : json) : option RecoveryEntry :=
  some? m := as_obj j in
  check no_dup_fields ["purpose"; "meta"; "key_bytes_hex"] m in
  some? p := req as_str "purpose" m in
  some? mt := req meta_of "meta" m in
  some? k := req as_str "key_bytes_hex" m in
  Some {| e_purpose := p; e_meta := mt; key_bytes_hex := k |}.

Definition time_of (j : json) : option Z := some? s := as_str j in ts_parse s.

Definition bundle_json (b : RecoveryBundle) : json :=
  JObj [("version", JInt (version b)); ("created_at", JStr (ts_print (created_at b)));
        ("purposes", JArr (entry_json <$> purposes b))].

Definition bundle_of (j : json) : option RecoveryBundle :=
  some? m := as_obj j in
  check no_dup_fields ["version"; "created_at"; "purposes"] m in
  some? v := req (as_uint u8_max) "version" m in
  some? t := req time_of "created_at" m in
  some? l := req as_arr "purposes" m in
  some? es := all_some (entry_of <$> l) in
  Some {| version := v; created_at := t; purposes := es |}.

Definition record_json (r : RotationRecord) : json :=
  JObj [("purpose", JStr (r_purpose r)); ("rotated_at", JStr (ts_print (rotated_at r)));
        ("reason", JStr (reason r)); ("old_backend", JStr (backend_str (old_backend r)));
        ("new_backend", JStr (backend_str (new_backend r)));
        ("old_pcr_list", jopt JStr (old_pcr_list r)); ("new_pcr_list", jopt JStr (new_pcr_list r))].

Definition record_of (j : json) : option RotationRecord :=
  some? m := as_obj j in
  check no_dup_fields ["purpose"; "rotated_at"; "reason"; "old_backend"; "new_backend";
                       "old_pcr_list"; "new_pcr_list"] m in
  some? p := req as_str "purpose" m in
  some? t := req time_of "rotated_at" m in
  some? s := req as_str "reason" m in
  some? ob := req backend_of "old_backend" m in
  some? nb := req backend_of "new_backend" m in
  some? ol := opt as_str "old_pcr_list" m in
  some? nl := opt as_str "new_pcr_list" m in
  Some {| r_purpose := p; rotated_at := t; reason := s; old_backend := ob; new_backend := nb;
          old_pcr_list := ol; new_pcr_list := nl |}.

(** ** The encrypted bundle *)

Definition encrypt_bundle (plaintext passphrase salt nonce : string) : string :=
  let dk := pbkdf2_hmac_sha256 passphrase salt BUNDLE_ROUNDS in
  BUNDLE_MAGIC +:+ String (chr BUNDLE_VERSION) (salt +:+ nonce +:+ aead_seal dk nonce plaintext).

Definition decrypt_bundle (data passphrase : string) : result seal_err string :=
  if Z.of_nat (String.length data) <? 4 + 1 + 16 + 12 then Err BundleTooShort else
  if negb (String.eqb (stake 4 data) BUNDLE_MAGIC) then Err NotABundle else
  match sdrop 4 data with
  | String v rest =>
    if negb (code v =? BUNDLE_VERSION) then Err BundleVersion else
    let salt := stake 16 rest in
    let nonce := stake 12 (sdrop 16 rest) in
    let ct := sdrop 28 rest in
    let dk := pbkdf2_hmac_sha256 passphrase salt BUNDLE_ROUNDS in
    ok_or (aead_open dk nonce ct) BundlePassphrase
  | EmptyString => Err BundleTooShort
  end.

Fixpoint collect_entries (ps : list string) (passphrase : string) (now : Z)
    : SE fs seal_err (list RecoveryEntry) :=
  match ps with
  | [] => sret []
  | p :: ps =>
    do! f := sget in
    if negb (is_sealed p f) then sfail NotSealed else
    do! meta := slift (ok_or (seal_status p f) NotSealed) in
    do! key := unseal p passphrase now now in
    do! es := collect_entries ps passphrase now in
    sret ({| e_purpose := p; e_meta := meta; key_bytes_hex := hex_encode key |} :: es)
  end.

(** The clock is [now] seconds for the lockout and [created] for the bundle. *)
Definition export_recovery_bundle (ps : list string) (passphrase : string) (now created : Z)
    (salt nonce : string) : SE fs seal_err string :=
  do! es := collect_entries ps passphrase now in
  let bundle := {| version := BUNDLE_VERSION; created_at := created; purposes := es |} in
  sret (encrypt_bundle (json_print (bundle_json bundle)) passphrase salt nonce).

(** Every entry draws its own salt and nonce. *)
Fixpoint reseal_entries (es : list RecoveryEntry) (draws : nat -> draw) (passphrase : string)
    (new_pcr : option string) (now : Z) : SE fs seal_err (list RotationRecord) :=
  match es with
  | [] => sret []
  | e :: es =>
    do! key := slift (ok_or (hex_decode (key_bytes_hex e)) BadHex) in
    do! new_meta := seal key (e_purpose e) new_pcr passphrase (draws 0%nat) in
    let r := {| r_purpose := e_purpose e; rotated_at := now; reason := "recovery import";
                old_backend := backend (e_meta e); new_backend := backend new_meta;
                old_pcr_list := pcr_list (e_meta e); new_pcr_list := pcr_list new_meta |} in
    do! rs := reseal_entries es (fun i => draws (S i)) passphrase new_pcr now in
    sret (r :: rs)
  end.

Definition import_recovery_bundle (bundle_bytes : string) (draws : nat -> draw)
    (passphrase : string) (new_pcr : option string) (now : Z)
    : SE fs seal_err (list RotationRecord) :=
  do! text := slift (decrypt_bundle bundle_bytes passphrase) in
  do! j := slift (ok_or (json_parse text) BadJson) in
  do! bundle := slift (ok_or (bundle_of j) BadJson) in
  if negb (version bundle =? BUNDLE_VERSION) then sfail BundleVersion else
  reseal_entries (purposes bundle) draws passphrase new_pcr now.

(** ** Rotation in place and its log *)

Definition rotation_log_path : string := "tpm/rotation-log.jsonl".

Definition append_rotation_log (r : RotationRecord) : SE fs seal_err unit :=
  smodify (fun f => append_file f rotation_log_path 438 (json_print (record_json r) +:+ nl)).

Definition read_rotation_log (f : fs) : result seal_err (list RotationRecord) :=
  if negb (exists_ f rotation_log_path) then Ok [] else
  let? content := map_err Io (read_to_string f rotation_log_path) in
  Ok (omap (fun l => json_parse l ≫= record_of)
        (List.filter (fun l => negb (is_blank l)) (lines content))).

Definition rotate_in_place (purpose old_passphrase : string) (new_pcr : option string)
    (new_passphrase reason : string) (r : draw) (secs now : Z) : SE fs seal_err RotationRecord :=
  do! f := sget in
  do! old_meta := slift (ok_or (seal_status purpose f) NotSealed) in
  do! key := unseal purpose old_passphrase secs secs in
  do! new_meta := seal key purpose new_pcr new_passphrase r in
  let record := {| r_purpose := purpose; rotated_at := now; reason := reason;
                   old_backend := backend old_meta; new_backend := backend new_meta;
                   old_pcr_list := pcr_list old_meta; new_pcr_list := pcr_list new_meta |} in
  do! _ := append_rotation_log record in
  sret record.

(** ** Lemmas *)

Lemma recovery_entry_round e : entry_of (entry_json e) = Some e.
Proof.
  destruct e as [p m k]. unfold entry_of, entry_json. cbn [as_obj e_purpose e_meta key_bytes_hex].
  replace (no_dup_fields _ _) with true by reflexivity. unfold req.
  cbn -[meta_of meta_json]. by rewrite meta_round.
Qed.

Lemma bundle_round b :
  0 <= version b <= u8_max -> bundle_of (bundle_json b) = Some b.
Proof.
  intros Hv. destruct b as [v t es]. cbn [version] in Hv. unfold bundle_of, bundle_json.
  cbn [as_obj version created_at purposes]. replace (no_dup_fields _ _) with true by reflexivity.
  unfold req. cbn -[u8_max as_uint]. rewrite as_uint_ok by (unfold uint_ok; lia).
  rewrite ts_parse_print. by rewrite (all_some_map entry_json entry_of) by apply recovery_entry_round.
Qed.

Lemma bundle_json_wf b : 0 <= version b <= u8_max -> json_wf (bundle_json b) = true.
Proof.
  intros Hv. unfold bundle_json. rewrite json_wf_obj. cbn [forallb snd].
  rewrite json_wf_arr.
  - cbn [json_wf]. unfold u8_max, u64_max in *. lia.
  - intros e _. unfold entry_json. rewrite json_wf_obj. cbn [forallb snd]. by rewrite meta_json_wf.
Qed.

Lemma record_round r : record_of (record_json r) = Some r.
Proof.
  destruct r as [p t s [] [] [] []]; unfold record_of, record_json, req, opt, time_of;
    cbn; by rewrite ts_parse_print.
Qed.

Lemma record_json_wf r : json_wf (record_json r) = true.
Proof. by destruct r as [p t s ob nb [] []]. Qed.

(** The bundle opens with its passphrase. *)
Lemma decrypt_encrypt text pass salt nonce :
  String.length salt = 16%nat -> String.length nonce = 12%nat ->
  decrypt_bundle (encrypt_bundle text pass salt nonce) pass = Ok text.
Proof.
  intros Hs Hn. unfold decrypt_bundle, encrypt_bundle, BUNDLE_MAGIC. cbn zeta.
  set (dk := pbkdf2_hmac_sha256 pass salt BUNDLE_ROUNDS).
  set (ct := aead_seal dk nonce text).
  destruct (Z.ltb_spec (Z.of_nat (String.length ("MRNB" +:+ String (chr BUNDLE_VERSION)
    (salt +:+ nonce +:+ ct)))) (4 + 1 + 16 + 12)) as [Hl|_].
  { rewrite string_length_app in Hl. cbn [String.length] in Hl. rewrite !string_length_app in Hl. lia. }
  rewrite stake_app_len by done. cbn [negb String.eqb Ascii.eqb Bool.eqb].
  rewrite sdrop_app_len by done. rewrite code_of_chr by done. cbn [Z.eqb negb BUNDLE_VERSION].
  rewrite stake_app_len by done. rewrite sdrop_app_len by done. rewrite stake_app_len by done.
  replace (sdrop 28 _) with ct.
  2:{ rewrite <- string_app_assoc. symmetry. apply sdrop_app_len. rewrite string_length_app. lia. }
  fold dk. unfold ct. rewrite aead_open_seal; [done| |done]. apply pbkdf2_len.
Qed.

(** What an export reads: every purpose's key, and nothing but counters changes. *)
Lemma collect_spec ps pass now f f' es :
  fs_wf f -> 0 <= now <= u64_max -> collect_entries ps pass now f = (f', Ok es) ->
  fs_wf f' /\ agree (fun q => forall p, q <> fail_counter_path (blob_dir p)) f f' /\
  e_purpose <$> es = ps /\
  forall e, In e es -> exists key, key_bytes_hex e = hex_encode key /\
    stored_key (e_purpose e) pass f = Ok key.
Proof.
  revert f es. induction ps as [|p ps IH]; intros f es Hf Hn; cbn [collect_entries].
  { unfold sret. intros [= <- <-]. split; [done|]. split; [done|]. by split; [|intros ? []]. }
  unfold sbind at 1, sget at 1. destruct (is_sealed p f); cbn [negb]; [|done].
  unfold sbind at 1, slift. destruct (seal_status p f) as [m|]; cbn [ok_or]; [|done].
  unfold sbind at 1. destruct (locked p now f) eqn:El; [by rewrite unseal_locked|].
  destruct (unseal_spec p pass now now f Hf Hn El) as (g & -> & Hg & Ha & _).
  destruct (stored_key p pass f) as [key|] eqn:Ek; [|done].
  unfold sbind at 1. destruct (collect_entries ps pass now g) as [g' [es'|]] eqn:Ec; [|done].
  unfold sret. intros [= <- <-]. destruct (IH g es' Hg Hn Ec) as (Hw & Ha' & Hp & He).
  assert (agree (fun q => forall p, q <> fail_counter_path (blob_dir p)) f g) as Ha2
    by (intros q Hq; apply Ha, Hq).
  split; [done|]. split; [by eapply agree_trans|]. split; [by simpl; f_equal|].
  intros e [<-|Hin]; [by exists key|]. destruct (He e Hin) as (k & Hk & Hs).
  exists k. split; [done|]. rewrite <- Hs. symmetry. apply stored_key_agree.
  intros q Hq. apply Ha2. intros p' ->. by apply counter_not_blob in Hq.
Qed.

(** What an import writes. *)
Lemma reseal_spec K es draws pass pcr now g :
  fs_wf g -> (forall i, draw_ok (draws i)) -> tpm_faithful ->
  (forall e, In e es -> hex_decode (key_bytes_hex e) = Some (K (e_purpose e))) ->
  exists g' rs, reseal_entries es draws pass pcr now g = (g', Ok rs) /\ fs_wf g' /\
    r_purpose <$> rs = e_purpose <$> es /\
    (forall p, In p (e_purpose <$> es) -> stored_key p pass g' = Ok (K p)) /\
    (forall p, ~ In p (e_purpose <$> es) -> stored_key p pass g' = stored_key p pass g).
Proof.
  intros Hg Hd Htpm. revert draws g Hg Hd. induction es as [|e es IH]; intros draws g Hg Hd HK.
  { exists g, []. split; [done|]. split; [done|]. split; [done|]. by split; [intros ? []|]. }
  cbn [reseal_entries]. unfold sbind at 1, slift. rewrite (HK e) by by left. cbn [ok_or].
  destruct (seal_spec (K (e_purpose e)) (e_purpose e) pcr pass (draws 0%nat) g Hg (Hd 0%nat) Htpm)
    as (g1 & meta & Hs & Hg1 & Hk & Ha & _).
  unfold sbind at 1. rewrite Hs.
  destruct (IH (fun i => draws (S i)) g1 Hg1 (fun i => Hd (S i))
      ltac:(intros; apply HK; by right))
    as (g' & rs & Hr & Hw & Hrs & Hin & Hout).
  unfold sbind at 1. rewrite Hr. unfold sret. eexists _, _. split; [done|]. split; [done|].
  split; [by simpl; f_equal|].
  assert (forall p, p <> e_purpose e -> stored_key p pass g1 = stored_key p pass g) as Hne.
  { intros p Hp. apply stored_key_agree. intros q Hq. apply Ha. intros Hq'.
    eapply (own_files_disjoint p (e_purpose e)); [done|by apply blob_own|by apply blob_own]. }
  split.
  - intros p. simpl. destruct (in_dec string_dec p (e_purpose <$> es)) as [Hi|Hn]; [by auto|].
    intros [<-|?]; [|done]. by rewrite Hout.
  - intros p. simpl. intros Hn. rewrite Hout by tauto. apply Hne. intros ->. tauto.
Qed.

(** ** Properties *)

(** A purpose that an export can read. *)
Definition exportable (pass : string) (now : Z) (f : fs) (p : string) : Prop :=
  is_sealed p f = true /\ locked p now f = false /\ is_ok (stored_key p pass f) = true.

Lemma collect_total ps pass now f :
  fs_wf f -> 0 <= now <= u64_max -> Forall (exportable pass now f) ps ->
  exists f' es, collect_entries ps pass now f = (f', Ok es).
Proof.
  intros Hf Hn Hall. revert f Hf Hall. induction ps as [|p ps IH]; intros f Hf Hall.
  { by exists f, []. }
  inversion_clear Hall as [|? ? (He & Hl & Hk) Hall']. cbn [collect_entries].
  unfold sbind at 1, sget at 1. rewrite He. cbn [negb]. unfold sbind at 1, slift.
  assert (exists m, seal_status p f = Some m) as [m ->].
  { unfold seal_status. unfold stored_key in Hk. destruct (load_meta _ f) as [m|]; [by exists m|done]. }
  cbn [ok_or]. unfold sbind at 1.
  destruct (unseal_spec p pass now now f Hf Hn Hl) as (g & -> & Hg & Ha & Hc).
  destruct (stored_key p pass f) as [k|]; [|done].
  destruct (IH g Hg) as (f' & es & Hes).
  - eapply Forall_impl; [exact Hall'|]. intros q (Hq1 & Hq2 & Hq3).
    assert (agree (fun y => In y (blob_files q)) f g) as Hb
      by (intros y Hy; apply Ha; intros ->; by apply counter_not_blob in Hy).
    split; [|split].
    + unfold is_sealed in *. apply exists_content; [done|].
      apply exists_content in Hq1; [|done]. rewrite Hb; [done|]. unfold blob_files. simpl. tauto.
    + destruct (decide (p = q)) as [<-|Hne]; [by apply unlocked_default|].
      rewrite <- Hq2. apply locked_agree, Ha. intros He'. apply app_suffix_inj in He'.
      apply blob_dir_inj in He'. congruence.
    + by rewrite (stored_key_agree q pass f g).
  - unfold sbind. rewrite Hes. unfold sret. by eexists _, _.
Qed.

(** A recovery bundle carries the keys to another machine: if every purpose
    is sealed, not locked out and opened by the passphrase, the export succeeds, and the
    import succeeds on any machine, with or without a TPM; there each purpose has the
    key it had. *)
Theorem recovery_carries_keys ps pass now created salt nonce f g draws pcr later :
  fs_wf f -> 0 <= now <= u64_max -> String.length salt = 16%nat -> String.length nonce = 12%nat ->
  Forall (exportable pass now f) ps ->
  fs_wf g -> (forall i, draw_ok (draws i)) -> tpm_faithful ->
  exists f' bundle g' rs, export_recovery_bundle ps pass now created salt nonce f = (f', Ok bundle) /\
    import_recovery_bundle bundle draws pass pcr later g = (g', Ok rs) /\ r_purpose <$> rs = ps /\
    forall p, In p ps -> stored_key p pass g' = stored_key p pass f.
Proof.
  intros Hf Hn Hsl Hnl Hall Hg Hd Htpm.
  destruct (collect_total ps pass now f Hf Hn Hall) as (f1 & es & Ec).
  destruct (collect_spec _ _ _ _ _ _ Hf Hn Ec) as (_ & _ & Hps & Hkeys).
  set (K := fun p => match stored_key p pass f with Ok k => k | Err _ => "" end).
  destruct (reseal_spec K es draws pass pcr later g Hg Hd Htpm) as (g' & rs & Hr & _ & Hrs & Hin & _).
  { intros e Hi. destruct (Hkeys e Hi) as (k & -> & Hk). unfold K. rewrite Hk.
    apply hex_decode_encode. }
  unfold export_recovery_bundle. eexists f1, _, g', rs. split.
  { unfold sbind, sret. by rewrite Ec. }
  split; [|split; [congruence|]].
  - unfold import_recovery_bundle. unfold sbind at 1, slift at 1.
    rewrite decrypt_encrypt by done. unfold sbind at 1, slift at 1.
    rewrite json_parse_print by (by apply bundle_json_wf). cbn [ok_or].
    unfold sbind at 1, slift at 1. rewrite bundle_round by done. cbn [ok_or version purposes]. done.
  - intros p Hp. rewrite <- Hps in Hp. rewrite (Hin p Hp).
    apply list_elem_of_In, list_elem_of_fmap in Hp as (e & -> & Hi%list_elem_of_In).
    destruct (Hkeys e Hi) as (k & _ & Hk). unfold K. by rewrite Hk.
Qed.

(** The rotation log, as a list of lines. *)
Definition log_lines (f : fs) (ls : list string) : Prop :=
  default "" (content_at f rotation_log_path) = unlines ls /\
  Forall (fun l => one_line l = true /\ utf8_ok l = true) ls.

Lemma log_not_own p : ~ In rotation_log_path (own_files p).
Proof.
  unfold rotation_log_path. intros [He|[He|[He|[He|[He|[]]]]]]; revert He;
    unfold sealed_bin, sealed_pub, sealed_priv, meta_path, fail_counter_path; ending_neq.
Qed.

Lemma read_log f ls :
  fs_wf f -> log_lines f ls ->
  read_rotation_log f =
    Ok (omap (fun l => json_parse l ≫= record_of) (List.filter (fun l => negb (is_blank l)) ls)).
Proof.
  intros Hf [Hc Hl]. unfold read_rotation_log.
  destruct (content_at f rotation_log_path) as [b|] eqn:E; simpl in Hc.
  - replace (exists_ f rotation_log_path) with true by (symmetry; apply exists_content; by rewrite ?E).
    cbn [negb]. rewrite read_to_string_content, E. subst b.
    rewrite utf8_ok_unlines by (eapply Forall_impl; [done|]; by intros ? []).
    cbn [map_err rbind]. rewrite lines_unlines; [done|]. eapply Forall_impl; [done|]; by intros ? [].
  - replace (exists_ f rotation_log_path) with false by (symmetry; by apply exists_content_false).
    destruct ls as [|l ls]; [done|]. simpl in Hc. by destruct l.
Qed.

(** Rotation in place re-seals the same key: the old passphrase gave it
    before, the new one gives it after, and the rotation is the last line of its log. *)
Theorem rotation_keeps_key p old pcr new why r secs now f f' rec ls :
  fs_wf f -> draw_ok r -> tpm_faithful -> 0 <= secs <= u64_max -> log_lines f ls ->
  rotate_in_place p old pcr new why r secs now f = (f', Ok rec) ->
  is_ok (stored_key p old f) = true /\ stored_key p new f' = stored_key p old f /\
  read_rotation_log f' = rmap (fun rs => rs ++ [rec]) (read_rotation_log f).
Proof.
  intros Hf Hr Htpm Hs Hlog Hrot. unfold rotate_in_place in Hrot.
  unfold sbind at 1, sget at 1 in Hrot. unfold sbind at 1, slift in Hrot.
  destruct (seal_status p f) as [m|]; cbn [ok_or] in Hrot; [|done].
  unfold sbind at 1 in Hrot. destruct (locked p secs f) eqn:El; [by rewrite unseal_locked in Hrot|].
  destruct (unseal_spec p old secs secs f Hf Hs El) as (f1 & Hu & Hf1 & Ha1 & _).
  rewrite Hu in Hrot. destruct (stored_key p old f) as [key|] eqn:Ek; [|done].
  unfold sbind at 1 in Hrot.
  destruct (seal_spec key p pcr new r f1 Hf1 Hr Htpm) as (f2 & meta & Hse & Hf2 & Hk & Ha2 & _).
  rewrite Hse in Hrot. unfold sbind, append_rotation_log, smodify, sret in Hrot.
  injection Hrot as <- <-. set (rec := Build_RotationRecord _ _ _ _ _ _ _).
  set (line := json_print (record_json rec)).
  assert (content_at f2 rotation_log_path = content_at f rotation_log_path) as Hl2.
  { rewrite Ha2; [apply Ha1|]; intros Hx; apply (log_not_own p); [rewrite Hx; by left|by apply blob_own]. }
  assert (fs_wf (append_file f2 rotation_log_path 438 (line +:+ nl))) as Hf3 by by apply append_file_wf.
  split; [done|]. split.
  - rewrite <- Hk. apply stored_key_agree. intros q Hq. rewrite content_at_append_file by done.
    rewrite decide_False; [done|]. intros <-. apply (log_not_own p). by apply blob_own.
  - rewrite (read_log f ls Hf Hlog). cbn [rmap].
    rewrite (read_log _ (ls ++ [line]) Hf3).
    + rewrite List.filter_app, omap_app. cbn [List.filter]. unfold line at 1.
      unfold record_json at 1. rewrite json_obj_not_blank. cbn [negb omap list_omap].
      unfold line. rewrite json_parse_print by apply record_json_wf.
      cbn [mbind option_bind]. by rewrite record_round.
    + destruct Hlog as [Hc Hl]. split.
      * rewrite content_at_append_file, decide_True, Hl2 by done.
        change (default "" (Some ?x)) with x. by rewrite Hc, unlines_app.
      * apply Forall_app. split; [done|]. constructor; [|done].
        split; [apply json_one_line|apply json_utf8].
Qed.

(** A rotation of a software-sealed key whose write is cut off within the
    header destroys the only copy of the key: afterwards no passphrase unseals it. *)
Theorem torn_rotation_loses_key p old new why r secs now f key m n :
  fs_wf f -> 0 <= secs <= u64_max -> locked p secs f = false ->
  load_meta (blob_dir p) f = Ok m -> backend m = Software -> stored_key p old f = Ok key ->
  blob_fault r = Some n -> (n < 32)%nat ->
  exists f', rotate_in_place p old None new why r secs now f = (f', Err (Io WriteFailed)) /\
    forall pass, stored_key p pass f' = Err TooShort.
Proof.
  intros Hf Hs Hl Hm Hb Hk Hn Hlt. unfold rotate_in_place. unfold sbind at 1, sget at 1.
  unfold sbind at 1, slift, seal_status. rewrite Hm. cbn [ok_or]. unfold sbind at 1.
  destruct (unseal_spec p old secs secs f Hf Hs Hl) as (f1 & -> & Hf1 & Ha & _). rewrite Hk.
  unfold sbind, seal, software_seal, io, sbind, swrite. rewrite Hn. cbn [fst snd map_err].
  set (blob := "MRN1" +:+ _). eexists. split; [done|]. intros pass. unfold stored_key.
  assert (load_meta (blob_dir p) (std_write f1 (sealed_bin (blob_dir p)) (stake n blob)) = Ok m) as ->.
  { rewrite <- Hm. unfold load_meta.
    rewrite read_std_write_ne by (done || (unfold sealed_bin, meta_path; ending_neq)).
    by rewrite !read_content, (Ha (meta_path (blob_dir p)))
      by (unfold meta_path, fail_counter_path; ending_neq). }
  cbn [rbind]. rewrite Hb. unfold software_unseal. rewrite read_std_write by done.
  cbn [map_err rbind]. destruct (Z.ltb_spec (Z.of_nat (String.length (stake n blob))) (4 + 16 + 12))
    as [_|Hge]; [done|]. rewrite stake_length in Hge. lia.
Qed.

End rotation.

End Rotation.
