(* ===== verification/Pcr.v ===== *)
(** * Platform configuration registers: the TPM's response and the seal policy

    Models [tpm.rs] and [pcr_policy.rs] of [maranode-attestation]. The device is a
    parameter: what it answers to a command. A [BTreeMap<u8, String>] is a map, and
    its keys in ascending order where the code lists them. The policy's file is left out. *)

From Stdlib Require Import ZArith Lia Ascii String.
From S2P Require Import Prelude Crypto.
Open Scope string_scope.
Open Scope list_scope.
Open Scope Z_scope.

(** ** tpm.rs *)
Module Tpm.

Inductive TpmResult := Available (pcrs : gmap Z string) | Error | Unavailable.

Inductive parse_err :=
| TooShort | Code (rc : Z) | BeforeSelection | Selection | DigestCount | DigestSize | DigestData
| DeviceIo.

#[export] Instance parse_err_eq_dec : EqDecision parse_err.
Proof. solve_decision. Defined.

(** Big-endian integers. *)
Fixpoint be_acc (acc : Z) (s : string) : Z :=
  match s with EmptyString => acc | String c r => be_acc (acc * 256 + code c) r end.
Definition be (s : string) : Z := be_acc 0 s.

Fixpoint to_be (n : nat) (v : Z) : string :=
  match n with O => EmptyString | S n => to_be n (v / 256) +:+ String (chr (v mod 256)) "" end.

Definition slice (pos n : Z) (s : string) : string := stake (Z.to_nat n) (sdrop (Z.to_nat pos) s).
Definition slen (s : string) : Z := Z.of_nat (String.length s).

Fixpoint bytes_of (l : list Z) : string :=
  match l with [] => EmptyString | v :: l => String (chr v) (bytes_of l) end.

Section tpm.
Context `{Hex}.

(** [build_pcr_read_cmd] of the three bytes of the mask. *)
Definition build_pcr_read_cmd (pcr_select : list Z) : string :=
  to_be 2 32769 +:+ to_be 4 20 +:+ to_be 4 382 +:+ to_be 4 1 +:+ to_be 2 11
  +:+ bytes_of (3 :: pcr_select).

(** Bit [i] of the mask is set for [start <= i < min(end, 24)]. *)
Definition mask_byte (start end_ byte : Z) : Z :=
  foldr (fun i acc => if (start <=? i) && (i <? Z.min end_ 24) && (i / 8 =? byte)
                      then Z.lor acc (Z.shiftl 1 (i mod 8)) else acc) 0
    (Z.of_nat <$> seq 0 24).

Definition pcr_select_mask (start end_ : Z) : list Z :=
  [mask_byte start end_ 0; mask_byte start end_ 1; mask_byte start end_ 2].

(** The entries of the selection are skipped; every step needs six bytes, so that the
    length of the response is enough fuel. *)
Fixpoint skip_selection (fuel : nat) (n pos : Z) (resp : string) : result parse_err Z :=
  if n <=? 0 then Ok pos else
  match fuel with
  | O => Err Selection
  | S fuel =>
    if slen resp <? pos + 6 then Err Selection else
    let sizeof_select := be (slice (pos + 2) 1 resp) in
    skip_selection fuel (n - 1) (pos + 2 + 1 + sizeof_select) resp
  end.

(** [batch_start + i as u8], on bytes. *)
Fixpoint read_digests (fuel : nat) (i n pos : Z) (batch_start : Z) (resp : string)
    (acc : gmap Z string) : result parse_err (gmap Z string) :=
  if n <=? i then Ok acc else
  match fuel with
  | O => Err DigestSize
  | S fuel =>
    if slen resp <? pos + 2 then Err DigestSize else
    let digest_size := be (slice pos 2 resp) in
    let pos := pos + 2 in
    if slen resp <? pos + digest_size then Err DigestData else
    let acc := if digest_size =? 32
               then <[(batch_start + i mod 256) mod 256 := hex_encode (slice pos 32 resp)]> acc
               else acc in
    read_digests fuel (i + 1) n (pos + digest_size) batch_start resp acc
  end.

Definition parse_pcr_read_response (resp : string) (batch_start : Z)
    : result parse_err (gmap Z string) :=
  if slen resp <? 10 then Err TooShort else
  let rc := be (slice 6 4 resp) in
  if negb (rc =? 0) then Err (Code rc) else
  if slen resp <? 18 then Err BeforeSelection else
  let sel_count := be (slice 14 4 resp) in
  if sel_count =? 0 then Ok ∅ else
  let? pos := skip_selection (String.length resp) sel_count 18 resp in
  if slen resp <? pos + 4 then Err DigestCount else
  let digest_count := be (slice pos 4 resp) in
  read_digests (String.length resp) 0 digest_count (pos + 4) batch_start resp ∅.

(** Three batches; a later value of an index replaces an earlier one. [dev] is what
    the opened device answers. *)
Fixpoint read_batches (dev : string -> option string) (starts : list Z) (acc : gmap Z string)
    : result parse_err (gmap Z string) :=
  match starts with
  | [] => Ok acc
  | b :: starts =>
    let? resp := ok_or (dev (build_pcr_read_cmd (pcr_select_mask b (b + 8)))) DeviceIo in
    let? batch := parse_pcr_read_response (stake 4096 resp) b in
    read_batches dev starts (batch ∪ acc)
  end.

Definition try_read_pcrs (dev : string -> option string) : result parse_err (gmap Z string) :=
  read_batches dev [0; 8; 16] ∅.

(** [None]: neither device file exists. *)
Definition read_pcrs (dev : option (string -> option string)) : TpmResult :=
  match dev with
  | None => Unavailable
  | Some dev => match try_read_pcrs dev with Ok pcrs => Available pcrs | Err _ => Error end
  end.

(** ** The format of the response, by the TPM 2.0 specification *)

Definition digests_bytes (ds : list string) : string :=
  foldr (fun d acc => to_be 2 (slen d) +:+ d +:+ acc) "" ds.

(** Response header, update counter, one selection of the SHA-256 bank, the digests. *)
Definition response (tag size counter : string) (mask : list Z) (ds : list string) : string :=
  tag +:+ size +:+ to_be 4 0 +:+ counter +:+ to_be 4 1
  +:+ to_be 2 11 +:+ bytes_of (3 :: mask) +:+ to_be 4 (Z.of_nat (length ds)) +:+ digests_bytes ds.

Fixpoint indexed (b i : Z) (ds : list string) (acc : gmap Z string) : gmap Z string :=
  match ds with
  | [] => acc
  | d :: ds => indexed b (i + 1) ds (<[b + i := hex_encode d]> acc)
  end.

(** ** Lemmas *)

Lemma be_acc_app acc a b : be_acc acc (a +:+ b) = be_acc (be_acc acc a) b.
Proof. revert acc. induction a as [|c a IH]; intros acc; [done|]. simpl. apply IH. Qed.

Lemma be_acc_to_be n acc v :
  0 <= v < 256 ^ Z.of_nat n -> be_acc acc (to_be n v) = acc * 256 ^ Z.of_nat n + v.
Proof.
  revert v. induction n as [|n IH]; intros v Hv.
  { simpl in *. lia. }
  cbn [to_be]. rewrite be_acc_app. rewrite Nat2Z.inj_succ, Z.pow_succ_r in * by lia.
  rewrite IH by (split; [apply Z.div_pos; lia|apply Z.div_lt_upper_bound; lia]).
  cbn [be_acc]. assert (code (chr (v mod 256)) = v mod 256) as ->.
  { unfold code, chr. pose proof (Z.mod_pos_bound v 256 ltac:(lia)).
    rewrite nat_ascii_embedding by lia. lia. }
  pose proof (Z.div_mod v 256 ltac:(lia)). lia.
Qed.

Lemma be_to_be n v : 0 <= v < 256 ^ Z.of_nat n -> be (to_be n v) = v.
Proof. intros Hv. unfold be. rewrite be_acc_to_be by done. lia. Qed.

Lemma to_be_length n v : String.length (to_be n v) = n.
Proof.
  revert v. induction n as [|n IH]; intros v; [done|]. cbn [to_be].
  rewrite string_length_app, IH. simpl. lia.
Qed.

Lemma slen_app a b : slen (a +:+ b) = slen a + slen b.
Proof. unfold slen. rewrite string_length_app. lia. Qed.

Lemma slice_mid pos n pre x post :
  slen pre = pos -> slen x = n -> slice pos n (pre +:+ x +:+ post) = x.
Proof.
  unfold slice, slen. intros <- <-. rewrite !Nat2Z.id, sdrop_app. apply stake_app.
Qed.

(** The loop over well-formed digests. *)
Lemma read_digests_spec fuel i n ds b pre acc :
  Forall (fun d => String.length d = 32%nat) ds ->
  n = i + Z.of_nat (length ds) -> 0 <= i -> 0 <= b -> b + n <= 256 -> (length ds < fuel)%nat ->
  read_digests fuel i n (slen pre) b (pre +:+ digests_bytes ds) acc = Ok (indexed b i ds acc).
Proof.
  revert i pre acc fuel. induction ds as [|d ds IH]; intros i pre acc fuel Hd Hn Hi Hb Hbn Hf.
  { destruct fuel; cbn [read_digests indexed]; simpl in Hn; by replace (n <=? i) with true by lia. }
  inversion_clear Hd as [|? ? Hd1 Hd2]. cbn [length] in *. destruct fuel as [|fuel]; [lia|].
  cbn [read_digests]. replace (n <=? i) with false by lia. cbn [digests_bytes foldr].
  fold (digests_bytes ds). rewrite !slen_app.
  assert (slen d = 32) as Hd32 by (unfold slen; lia).
  assert (forall v, slen (to_be 2 v) = 2) as H2 by (intros; unfold slen; by rewrite to_be_length).
  assert (0 <= slen (digests_bytes ds)) as Hpos by (unfold slen; lia).
  rewrite H2, Hd32. replace (_ <? slen pre + 2) with false by lia.
  rewrite (slice_mid _ 2) by done. rewrite be_to_be by lia. cbn zeta.
  replace (_ <? slen pre + 2 + 32) with false by lia. cbn [Z.eqb Pos.eqb].
  replace (pre +:+ to_be 2 32 +:+ d +:+ digests_bytes ds)
    with ((pre +:+ to_be 2 32) +:+ d +:+ digests_bytes ds) by apply string_app_assoc.
  rewrite (slice_mid _ 32) by (rewrite ?slen_app, ?H2; done).
  rewrite <- (string_app_assoc _ d).
  replace (slen pre + 2 + 32) with (slen ((pre +:+ to_be 2 32) +:+ d)) by (rewrite !slen_app, H2, Hd32; lia).
  rewrite IH by (done || lia). cbn [indexed]. do 2 f_equal.
  rewrite (Z.mod_small i) by lia. rewrite Z.mod_small by lia. done.
Qed.

(** The parser reads the format of the specification: the digests of a batch
    get consecutive indices from its first one, whatever the selection of the response
    says about which registers were read. *)
Theorem pcr_response_read tag size counter mask ds b :
  String.length tag = 2%nat -> String.length size = 4%nat -> String.length counter = 4%nat ->
  length mask = 3%nat -> Forall (fun d => String.length d = 32%nat) ds ->
  0 <= b -> b + Z.of_nat (length ds) <= 256 ->
  parse_pcr_read_response (response tag size counter mask ds) b = Ok (indexed b 0 ds ∅).
Proof.
  intros Ht Hs Hc Hm Hds Hb Hlen.
  destruct mask as [|m0 [|m1 [|m2 [|]]]]; try done. unfold response.
  assert (forall n v, slen (to_be n v) = Z.of_nat n) as Hbe
    by (intros; unfold slen; by rewrite to_be_length).
  assert (slen tag = 2 /\ slen size = 4 /\ slen counter = 4) as (Ht' & Hs' & Hc')
    by (unfold slen; lia).
  set (body := digests_bytes ds). set (cnt := to_be 4 (Z.of_nat (length ds))).
  set (sel := to_be 2 11 +:+ bytes_of [3; m0; m1; m2]).
  set (resp := tag +:+ size +:+ to_be 4 0 +:+ counter +:+ to_be 4 1 +:+ to_be 2 11 +:+
               bytes_of [3; m0; m1; m2] +:+ cnt +:+ body).
  assert (slen sel = 6) as Hsel by reflexivity.
  assert (slen resp = 28 + slen body) as Hl.
  { unfold resp. rewrite !slen_app, Ht', Hs', Hc', !Hbe. unfold cnt. rewrite Hbe.
    change (slen (bytes_of _)) with 4. lia. }
  assert (0 <= slen body) as Hpos by (unfold slen; lia).
  unfold parse_pcr_read_response. rewrite Hl. replace (_ <? 10) with false by lia.
  replace (slice 6 4 resp) with (to_be 4 0).
  2:{ unfold resp. rewrite <- (string_app_assoc tag). symmetry. apply slice_mid; [|done].
      rewrite slen_app. lia. }
  cbn zeta. rewrite be_to_be by lia. cbn [Z.eqb negb]. replace (_ <? 18) with false by lia.
  replace (slice 14 4 resp) with (to_be 4 1).
  2:{ unfold resp. rewrite <- (string_app_assoc tag), <- (string_app_assoc (tag +:+ size)),
        <- (string_app_assoc (_ +:+ to_be 4 0)). symmetry. apply slice_mid; [|done].
      rewrite !slen_app, Hbe. lia. }
  rewrite be_to_be by lia. cbn [Z.eqb Pos.eqb].
  set (pre := tag +:+ size +:+ to_be 4 0 +:+ counter +:+ to_be 4 1).
  assert (slen pre = 18) as Hpre by (unfold pre; rewrite !slen_app, Ht', Hs', Hc', !Hbe; done).
  assert (resp = (pre +:+ to_be 2 11) +:+ String (chr 3) "" +:+ bytes_of [m0; m1; m2] +:+ cnt +:+ body)
    as Hr1 by (unfold resp, pre; by rewrite !string_app_assoc).
  assert (Z.of_nat (String.length resp) = 28 + slen body) as Hl' by exact Hl.
  destruct (String.length resp) as [|[|fuel]] eqn:Hfuel; [lia|lia|].
  cbn [skip_selection]. replace (1 <=? 0) with false by lia. rewrite Hl.
  replace (28 + slen body <? 18 + 6) with false by lia.
  replace (slice (18 + 2) 1 resp) with (String (chr 3) "").
  2:{ rewrite Hr1. symmetry. apply slice_mid; [|done]. by rewrite slen_app, Hpre. }
  change (be (String (chr 3) "")) with 3. cbn zeta.
  replace (1 - 1 <=? 0) with true by lia. cbn [rbind].
  replace (28 + slen body <? 18 + 2 + 1 + 3 + 4) with false by lia.
  assert (resp = (pre +:+ sel) +:+ cnt +:+ body) as Hr2
    by (unfold resp, pre, sel; by rewrite !string_app_assoc).
  replace (slice (18 + 2 + 1 + 3) 4 resp) with cnt.
  2:{ rewrite Hr2. symmetry. apply slice_mid; [|unfold cnt; by rewrite Hbe].
      rewrite slen_app, Hpre, Hsel. done. }
  unfold cnt at 1. rewrite be_to_be by (cbn; lia).
  assert (resp = ((pre +:+ sel) +:+ cnt) +:+ digests_bytes ds) as Hr3
    by (rewrite Hr2; symmetry; apply string_app_assoc).
  replace (18 + 2 + 1 + 3 + 4) with (slen ((pre +:+ sel) +:+ cnt))
    by (rewrite !slen_app, Hpre, Hsel; unfold cnt; by rewrite Hbe).
  rewrite Hr3. apply read_digests_spec; [done|lia|lia|done|lia|].
  assert (Z.of_nat (length ds) <= slen body) as Hbd; [|lia].
  unfold body. clear. induction ds as [|d ds IH]; [done|].
  cbn [digests_bytes foldr length]. fold (digests_bytes ds). rewrite !slen_app. unfold slen at 1.
  rewrite to_be_length. unfold slen at 1. lia.
Qed.

End tpm.

End Tpm.

(** ** pcr_policy.rs *)
Module PcrPolicy.
Import Tpm.

Record PcrPolicy := { pcrs : gmap Z string; description : string }.

Inductive policy_err := TpmError | TpmUnavailable | MissingPcr (idx : Z) | Violation (idxs : list Z).

Fixpoint pick (selected : list Z) (current acc : gmap Z string) : result policy_err (gmap Z string) :=
  match selected with
  | [] => Ok acc
  | idx :: selected =>
    match current !! idx with
    | Some v => pick selected current (<[idx := v]> acc)
    | None => Err (MissingPcr idx)
    end
  end.

Definition index_list (l : list Z) : string := join "," (pretty <$> l).

Definition from_current (selected : list Z) (tpm : TpmResult) : result policy_err PcrPolicy :=
  match tpm with
  | Available current =>
    let? sel := pick selected current ∅ in
    Ok {| pcrs := sel; description := "captured from live TPM, PCRs: " +:+ index_list selected |}
  | Error => Err TpmError
  | Unavailable => Err TpmUnavailable
  end.

Definition with_description (d : string) (p : PcrPolicy) : PcrPolicy :=
  {| pcrs := pcrs p; description := d |}.

Definition server_profile (tpm : TpmResult) : result policy_err PcrPolicy :=
  rmap (with_description "server profile: PCR0 (firmware) + PCR7 (Secure Boot)")
    (from_current [0; 7] tpm).

Definition workstation_profile (tpm : TpmResult) : result policy_err PcrPolicy :=
  rmap (with_description "workstation profile: PCR0 + PCR7 + PCR11 (kernel/UKI)")
    (from_current [0; 7; 11] tpm).

Definition indices (p : PcrPolicy) : list Z := merge_sort Z.le (map_to_list (pcrs p)).*1.

Definition pcr_list_str (p : PcrPolicy) : string := "sha256:" +:+ index_list (indices p).

Definition mismatched (p : PcrPolicy) (current : gmap Z string) : list Z :=
  List.filter (fun idx => negb (bool_decide (current !! idx = pcrs p !! idx))) (indices p).

Definition verify_current (p : PcrPolicy) (tpm : TpmResult) : result policy_err unit :=
  match tpm with
  | Available current =>
    match mismatched p current with [] => Ok tt | l => Err (Violation l) end
  | Error => Err TpmError
  | Unavailable => Err TpmUnavailable
  end.

Definition is_satisfied (p : PcrPolicy) (tpm : TpmResult) : bool := is_ok (verify_current p tpm).

Lemma in_indices p idx : In idx (indices p) <-> is_Some (pcrs p !! idx).
Proof.
  unfold indices. rewrite <- list_elem_of_In, merge_sort_Permutation, list_elem_of_fmap. split.
  - intros ([i v] & -> & Hi%elem_of_map_to_list). simpl. eauto.
  - intros [v Hv]. exists (idx, v). split; [done|]. by apply elem_of_map_to_list.
Qed.

Lemma satisfied_iff p current :
  is_satisfied p (Available current) = true <->
  forall idx v, pcrs p !! idx = Some v -> current !! idx = Some v.
Proof.
  unfold is_satisfied, verify_current. split.
  - intros Hs idx v Hv. destruct (mismatched p current) as [|m l] eqn:E; [|done].
    destruct (decide (current !! idx = pcrs p !! idx)) as [->|Hne]; [done|]. exfalso.
    assert (In idx (mismatched p current)) as Hin; [|by rewrite E in Hin].
    apply filter_In. split; [apply in_indices; eauto|]. by rewrite bool_decide_eq_false_2.
  - intros Hall. destruct (mismatched p current) as [|m l] eqn:E; [done|]. exfalso.
    assert (In m (mismatched p current)) as Hin by (rewrite E; by left).
    apply filter_In in Hin as [Hi Hm]. apply in_indices in Hi as [v Hv].
    rewrite (Hall _ _ Hv), Hv in Hm. by rewrite bool_decide_eq_true_2 in Hm.
Qed.

Lemma pick_spec sel cur acc m :
  pick sel cur acc = Ok m ->
  forall idx, m !! idx = if decide (idx ∈ sel) then cur !! idx else acc !! idx.
Proof.
  revert acc. induction sel as [|s sel IH]; intros acc; cbn [pick].
  { by intros [= <-] idx. }
  destruct (cur !! s) as [v|] eqn:E; [|done]. intros Hp idx. rewrite (IH _ Hp idx).
  destruct (decide (idx ∈ sel)) as [Hi|Hi];
    destruct (decide (idx ∈ s :: sel)) as [Hj|Hj]; rewrite elem_of_cons in Hj; try tauto.
  - destruct Hj as [->|]; [|tauto]. by rewrite lookup_insert_eq.
  - apply lookup_insert_ne. intros ->. apply Hj. by left.
Qed.

(** A policy captured from the registers is satisfied exactly by register
    contents that agree with them on every selected register. *)
Theorem captured_policy_detects_drift sel cur p cur' :
  from_current sel (Available cur) = Ok p ->
  (is_satisfied p (Available cur') = true <-> forall idx, idx ∈ sel -> cur' !! idx = cur !! idx) /\
  is_satisfied p Error = false /\ is_satisfied p Unavailable = false.
Proof.
  intros Hp. split; [|done]. cbn in Hp. destruct (pick sel cur ∅) as [m|] eqn:E; [|done].
  injection Hp as <-. rewrite satisfied_iff. cbn [pcrs].
  pose proof (pick_spec _ _ _ _ E) as Hm. split.
  - intros Hall idx Hi. pose proof (Hm idx) as Hx. rewrite decide_True in Hx by done.
    assert (is_Some (cur !! idx)) as [v Hv].
    { clear Hall Hm Hx. revert E. generalize (∅ : gmap Z string) as acc.
      induction sel as [|s sel IH]; [by apply elem_of_nil in Hi|]. intros acc. cbn [pick].
      destruct (cur !! s) eqn:Es; [|done]. apply elem_of_cons in Hi as [->|Hi]; [by rewrite Es|by apply IH]. }
    rewrite Hv in *. by apply Hall.
  - intros Hall idx v Hv. rewrite Hm in Hv. destruct (decide (idx ∈ sel)) as [Hi|]; [|done].
    by rewrite Hall.
Qed.

End PcrPolicy.
