(* ===== verification/SealDemo.v ===== *)
(** * Sealed keys and registers: a stand-in for the TPM, concrete states and witnesses *)

From Stdlib Require Import ZArith Lia Ascii String.
From S2P Require Import Prelude Json Crypto Fs AuditRotate Instances Seal Pcr.
Import Seal Rotation.
Open Scope string_scope.
Open Scope list_scope.
Open Scope Z_scope.

(** A sealed object is its policy before its data. *)
#[export] Instance toy_tpm : Tpm2Tools := {|
  tpm2_createprimary_version := true;
  tpm2_createprimary := Some "ctx";
  tpm2_createpolicy l := Some l;
  tpm2_create _ pol data := Some (data, pol);
  tpm2_load _ pub priv := Some (priv +:+ pub);
  tpm2_unseal_cmd s l :=
    match l with
    | Some l => if String.eqb (stake (String.length l) s) l then Some (sdrop (String.length l) s)
                else None
    | None => None
    end;
|}.

Lemma toy_tpm_faithful : tpm_faithful.
Proof.
  intros ctx pol pcrs data pub priv [= <-] [= <-] [= <- <-]. eexists. split; [done|].
  cbn. by rewrite stake_app, String.eqb_refl, sdrop_app.
Qed.

Definition r0 : draw :=
  {| salt := "0123456789abcdef"; nonce := "nonce-nonce1"; at_text := "2026-01-01T00:00:00+00:00";
     blob_fault := None; meta_fault := None |}.

Lemma r0_ok : draw_ok r0.
Proof. by repeat split. Qed.

Lemma empty_unlocked p now : locked p now fs_empty = false.
Proof. reflexivity. Qed.

Lemma pbkdf2_is_rfc_witness :
  Pbkdf2.byte_at 5 (Pbkdf2.pbkdf2_hmac_sha256 "pw" "salt" 3)
  = Some (Pbkdf2.rfc_byte "pw" "salt" (Z.to_nat 3) 5).
Proof. apply Pbkdf2.pbkdf2_is_rfc; lia. Defined.

Lemma seal_unseals_witness :
  exists f1 meta f2, seal "key" "hold-key" None "pw" r0 fs_empty = (f1, Ok meta) /\
    unseal "hold-key" "pw" 7 7 f1 = (f2, Ok "key") /\
    read_fail_counter (blob_dir "hold-key") f2 = fail_default.
Proof.
  apply seal_unseals.
  - exact fs_wf_empty.
  - exact r0_ok.
  - exact toy_tpm_faithful.
  - unfold u64_max. lia.
  - apply empty_unlocked.
Defined.

(** A directory whose metadata names the TPM and whose parts are missing. *)
Definition gone : SealMeta :=
  {| backend := Tpm2; purpose := "p"; sealed_at := "t"; pcr_list := Some "sha256:0" |}.
Definition f_gone : fs := std_write fs_empty (meta_path (blob_dir "p")) (json_pretty (meta_json gone)).

Lemma f_gone_wf : fs_wf f_gone.
Proof. apply std_write_wf, fs_wf_empty. Qed.

Lemma f_gone_meta : load_meta (blob_dir "p") f_gone = Ok gone.
Proof.
  unfold load_meta, f_gone. rewrite read_std_write by apply fs_wf_empty. cbn [map_err rbind].
  rewrite json_parse_pretty by apply meta_json_wf. cbn [ok_or rbind]. by rewrite meta_round.
Qed.

Lemma f_gone_fails pass now t : is_ok (unseal "p" pass now t f_gone).2 = false.
Proof. unfold unseal. rewrite f_gone_meta. by destruct (check_dos_limit _ now f_gone). Qed.


(** A machine with the key of the audit log sealed. *)
Definition f_a : fs := (seal "audit key" "audit" None "pw" r0 fs_empty).1.

Lemma f_a_state :
  fs_wf f_a /\ stored_key "audit" "pw" f_a = Ok "audit key" /\
  locked "audit" 9 f_a = false /\ is_sealed "audit" f_a = true /\
  content_at f_a rotation_log_path = None /\
  exists m, load_meta (blob_dir "audit") f_a = Ok m /\ backend m = Software.
Proof.
  unfold f_a, seal.
  destruct (software_seal_spec "audit key" "audit" "pw" r0 fs_empty fs_wf_empty r0_ok)
    as (f' & -> & Hf & Hk & Ha & Hm). cbn [fst].
  split; [done|]. split; [done|]. split; [|split; [|split]].
  - rewrite <- (empty_unlocked "audit" 9). apply locked_agree, Ha, counter_not_blob.
  - apply loaded_sealed; [done|]. by rewrite Hm.
  - rewrite Ha; [done|]. intros Hi. eapply log_not_own. right. exact Hi.
  - eexists. split; [exact Hm|done].
Qed.

Lemma recovery_carries_keys_witness :
  exists f' bundle g' rs,
    export_recovery_bundle ["audit"] "pw" 9 77 "0123456789abcdef" "nonce-nonce1" f_a = (f', Ok bundle) /\
    import_recovery_bundle bundle (fun _ => r0) "pw" (Some "sha256:0,7") 88 fs_empty = (g', Ok rs) /\
    r_purpose <$> rs = ["audit"] /\
    forall p, In p ["audit"] -> stored_key p "pw" g' = stored_key p "pw" f_a.
Proof.
  destruct f_a_state as (Hf & Hk & Hl & Hs & _).
  apply recovery_carries_keys.
  - exact Hf.
  - unfold u64_max. lia.
  - done.
  - done.
  - constructor; [|constructor]. split; [exact Hs|]. split; [exact Hl|by rewrite Hk].
  - exact fs_wf_empty.
  - intros _. exact r0_ok.
  - exact toy_tpm_faithful.
Defined.

(** A rotation to the TPM. *)
Definition rotated : fs * result seal_err RotationRecord :=
  rotate_in_place "audit" "pw" (Some "sha256:0,7") "pw2" "yearly" r0 9 99 f_a.

Lemma rotated_ok : exists f' rec, rotated = (f', Ok rec).
Proof.
  destruct f_a_state as (Hf & Hk & Hl & Hs & _ & m & Hm & _).
  unfold rotated, rotate_in_place. unfold sbind at 1, sget at 1. unfold sbind at 1, slift, seal_status.
  rewrite Hm. cbn [ok_or]. unfold sbind at 1.
  destruct (unseal_spec "audit" "pw" 9 9 f_a Hf ltac:(unfold u64_max; lia) Hl) as (f1 & -> & Hf1 & _).
  rewrite Hk. unfold sbind at 1.
  destruct (seal_spec "audit key" "audit" (Some "sha256:0,7") "pw2" r0 f1 Hf1 r0_ok toy_tpm_faithful)
    as (f2 & meta & -> & _). unfold sbind, append_rotation_log, smodify, sret. by eexists _, _.
Qed.

Lemma rotation_keeps_key_witness :
  exists f' rec, rotated = (f', Ok rec) /\
    is_ok (stored_key "audit" "pw" f_a) = true /\
    stored_key "audit" "pw2" f' = stored_key "audit" "pw" f_a /\
    read_rotation_log f' = rmap (fun rs => rs ++ [rec]) (read_rotation_log f_a).
Proof.
  destruct rotated_ok as (f' & rec & Hr). exists f', rec. split; [exact Hr|].
  destruct f_a_state as (Hf & Hk & Hl & Hs & Hn & _).
  apply (rotation_keeps_key "audit" "pw" (Some "sha256:0,7") "pw2" "yearly" r0 9 99 f_a f' rec []).
  - exact Hf.
  - exact r0_ok.
  - exact toy_tpm_faithful.
  - unfold u64_max. lia.
  - split; [by rewrite Hn|constructor].
  - exact Hr.
Defined.

Lemma torn_rotation_loses_key_witness :
  let r := {| salt := "0123456789abcdef"; nonce := "nonce-nonce1"; at_text := "t";
              blob_fault := Some 4%nat; meta_fault := None |} in
  exists f', rotate_in_place "audit" "pw" None "pw2" "yearly" r 9 99 f_a = (f', Err (Io WriteFailed)) /\
    forall pass, stored_key "audit" pass f' = Err TooShort.
Proof.
  intros r. destruct f_a_state as (Hf & Hk & Hl & Hs & Hn & m & Hm & Hb).
  apply (torn_rotation_loses_key "audit" "pw" "pw2" "yearly" r 9 99 f_a "audit key" m 4).
  - exact Hf.
  - unfold u64_max. lia.
  - exact Hl.
  - exact Hm.
  - exact Hb.
  - exact Hk.
  - done.
  - lia.
Defined.

Definition digest_a : string := "0123456789abcdef0123456789abcdef".
Definition digest_b : string := "fedcba9876543210fedcba9876543210".

(** The registers 8 and 10 were read; they are taken for 8 and 9. *)
Lemma pcr_response_read_witness :
  Tpm.parse_pcr_read_response (Tpm.response "tt" "size" "cnt0" [0; 5; 0] [digest_a; digest_b]) 8
  = Ok (Tpm.indexed 8 0 [digest_a; digest_b] ∅).
Proof.
  apply Tpm.pcr_response_read; try done; repeat constructor.
Defined.

Definition regs : gmap Z string := <[0 := "aa"]> (<[7 := "bb"]> (<[4 := "cc"]> ∅)).
Definition regs_policy : PcrPolicy.PcrPolicy := {|
  PcrPolicy.pcrs := <[7 := "bb"]> (<[0 := "aa"]> ∅);
  PcrPolicy.description := "captured from live TPM, PCRs: 0,7" |}.

Lemma captured_policy_detects_drift_witness :
  (PcrPolicy.is_satisfied regs_policy (Tpm.Available (<[4 := "dd"]> regs)) = true <->
   forall idx, idx ∈ [0; 7] -> (<[4 := "dd"]> regs) !! idx = regs !! idx) /\
  PcrPolicy.is_satisfied regs_policy Tpm.Error = false /\
  PcrPolicy.is_satisfied regs_policy Tpm.Unavailable = false.
Proof. apply (PcrPolicy.captured_policy_detects_drift [0; 7] regs). reflexivity. Defined.
