(* ===== verification/AppState.v ===== *)
(** * The state the API's handlers share

    Models the parts of [AppState] in [maranode-api/src/state.rs] and of the settings in
    [runtime.rs] that the modelled handlers read and write. A call of [append] on an
    audit log whose result is dropped ([.ok()], [let _ =]) is recorded in [trail];
    the files are those below the data directory. *)

From Stdlib Require Import ZArith Lia Ascii String.
From S2P Require Import Prelude Common Events Fs UserDb Auth WorkspaceDb WorkspaceApi.
Open Scope Z_scope.

Module AppState.
Import Auth.Auth WorkspaceApi.WorkspaceApi.

Inductive RagIngestPolicy := Anyone | AdminOnly | Allowlist.

#[export] Instance RagIngestPolicy_eq_dec : EqDecision RagIngestPolicy.
Proof. solve_decision. Defined.

(** The settings of [RuntimeSettings] besides the admin key, the session hours and
    SMTP, which are in [Auth.server]. *)
Record RuntimeSettings := {
  rag_ingest_policy : RagIngestPolicy;
  rag_ingest_allowlist : list string;
  system_prompt : option string;
  air_gap : bool;
  log_prompts : bool;
  tee_encrypt_key : option string;
}.

(** Sizes are [u64], counts [u32]. *)
Record WorkspaceUsage := { concurrent : Z; active_models : gmap string (Z * Z) }.

Inductive log_id := MainLog | WorkspaceLog (slug : string).

Record call := { c_log : log_id; c_actor : string; c_event : Events.AuditEvent }.

Record app := {
  wsv : wserver;
  data : fs;
  trail : list call;
  incident : option Common.Incident.IncidentState;
  audit_frozen : bool;
  classification : Common.Classification.ClassificationPolicy;
  rate_limiter : gmap string (Z * Z);
  workspace_usage : gmap string WorkspaceUsage;
  workspace_audits : gset string;
  rt : RuntimeSettings;
  isolation_ok : bool;
}.

Definition set_wsv (s : app) (w : wserver) : app := {|
  wsv := w; data := data s; trail := trail s; incident := incident s;
  audit_frozen := audit_frozen s; classification := classification s;
  rate_limiter := rate_limiter s; workspace_usage := workspace_usage s;
  workspace_audits := workspace_audits s; rt := rt s; isolation_ok := isolation_ok s |}.

Definition set_data (s : app) (f : fs) : app := {|
  wsv := wsv s; data := f; trail := trail s; incident := incident s;
  audit_frozen := audit_frozen s; classification := classification s;
  rate_limiter := rate_limiter s; workspace_usage := workspace_usage s;
  workspace_audits := workspace_audits s; rt := rt s; isolation_ok := isolation_ok s |}.

Definition add_call (c : call) (s : app) : app := {|
  wsv := wsv s; data := data s; trail := trail s ++ [c]; incident := incident s;
  audit_frozen := audit_frozen s; classification := classification s;
  rate_limiter := rate_limiter s; workspace_usage := workspace_usage s;
  workspace_audits := workspace_audits s; rt := rt s; isolation_ok := isolation_ok s |}.

Definition set_incident (s : app) (i : option Common.Incident.IncidentState) : app := {|
  wsv := wsv s; data := data s; trail := trail s; incident := i;
  audit_frozen := audit_frozen s; classification := classification s;
  rate_limiter := rate_limiter s; workspace_usage := workspace_usage s;
  workspace_audits := workspace_audits s; rt := rt s; isolation_ok := isolation_ok s |}.

Definition set_frozen (s : app) (b : bool) : app := {|
  wsv := wsv s; data := data s; trail := trail s; incident := incident s;
  audit_frozen := b; classification := classification s;
  rate_limiter := rate_limiter s; workspace_usage := workspace_usage s;
  workspace_audits := workspace_audits s; rt := rt s; isolation_ok := isolation_ok s |}.

Definition set_classification (s : app) (p : Common.Classification.ClassificationPolicy) : app := {|
  wsv := wsv s; data := data s; trail := trail s; incident := incident s;
  audit_frozen := audit_frozen s; classification := p;
  rate_limiter := rate_limiter s; workspace_usage := workspace_usage s;
  workspace_audits := workspace_audits s; rt := rt s; isolation_ok := isolation_ok s |}.

Definition set_limit (s : app) (m : gmap string (Z * Z)) : app := {|
  wsv := wsv s; data := data s; trail := trail s; incident := incident s;
  audit_frozen := audit_frozen s; classification := classification s;
  rate_limiter := m; workspace_usage := workspace_usage s;
  workspace_audits := workspace_audits s; rt := rt s; isolation_ok := isolation_ok s |}.

Definition set_usage (s : app) (m : gmap string WorkspaceUsage) : app := {|
  wsv := wsv s; data := data s; trail := trail s; incident := incident s;
  audit_frozen := audit_frozen s; classification := classification s;
  rate_limiter := rate_limiter s; workspace_usage := m;
  workspace_audits := workspace_audits s; rt := rt s; isolation_ok := isolation_ok s |}.

(** The accounts and the admin key. *)
Definition server_of (s : app) : server := auth (wsv s).

(** A computation over the accounts, and over the files. *)
Definition on_auth {A} (m : SE server api_error A) : SE app api_error A := fun s =>
  let r := WorkspaceApi.WorkspaceApi.on_auth m (wsv s) in (set_wsv s r.1, r.2).

Definition on_data {E A} (status : E -> api_error) (m : SE fs E A) : SE app api_error A := fun s =>
  let r := m (data s) in (set_data s r.1, map_err status r.2).

(** [state.audit.append(actor, event).await.ok()]. *)
Definition audit_append (l : log_id) (actor : string) (ev : Events.AuditEvent)
    : SE app api_error unit :=
  smodify (add_call {| c_log := l; c_actor := actor; c_event := ev |}).

Definition internal {E} (_ : E) : api_error := Internal.
Definition bad_request {E} (_ : E) : api_error := BadRequest.

(** ** WorkspaceUsage *)

Definition no_usage : WorkspaceUsage := {| concurrent := 0; active_models := ∅ |}.

Definition memory_bytes (u : WorkspaceUsage) : Z :=
  map_fold (fun _ m acc => m.1 + acc) 0 (active_models u).

Definition model_count (u : WorkspaceUsage) : Z := Z.of_nat (size (active_models u)).

Definition acquire (u : WorkspaceUsage) (model_key : string) (size_bytes : Z) : WorkspaceUsage :=
  let e := default (size_bytes, 0) (active_models u !! model_key) in
  {| concurrent := concurrent u + 1;
     active_models := <[model_key := (e.1, e.2 + 1)]> (active_models u) |}.

Definition release (u : WorkspaceUsage) (model_key : string) : WorkspaceUsage :=
  {| concurrent := sat_sub (concurrent u) 1;
     active_models :=
       match active_models u !! model_key with
       | Some e => let n := sat_sub e.2 1 in
                   if n =? 0 then delete model_key (active_models u)
                   else <[model_key := (e.1, n)]> (active_models u)
       | None => active_models u
       end |}.

(** ** Lemmas *)

(** The extractors and the authorization check leave the state as it is. *)
Lemma user_ctx_pure `{Rfc3339} h now s : (user_ctx h now s).1 = s.
Proof.
  unfold user_ctx, sbind, sget, slift, sret, sfail.
  destruct (bearer_from_headers h) as [t|]; simpl; [|done].
  destruct (key_matches _ t); [done|]. destruct (UserDb.UserDb.resolve_session _ _ _) as [u|]; simpl; [|done].
  by destruct (Common.User.active u).
Qed.

Lemma on_auth_same {A} (m : SE server api_error A) s :
  (m (server_of s)).1 = server_of s -> on_auth m s = (s, (m (server_of s)).2).
Proof.
  intros Hm. unfold on_auth, WorkspaceApi.WorkspaceApi.on_auth, server_of in *. rewrite Hm.
  by destruct s as [[]].
Qed.

Lemma on_auth_user_ctx `{Rfc3339} h now s :
  on_auth (user_ctx h now) s = (s, (user_ctx h now (server_of s)).2).
Proof. apply on_auth_same, user_ctx_pure. Qed.

(** A handler whose user extractor fails does nothing. *)
Lemma extractor_fails `{Rfc3339} {A} h now (k : Common.User.User -> SE app api_error A) s e :
  (user_ctx h now (server_of s)).2 = Err e ->
  sbind (on_auth (user_ctx h now)) k s = (s, Err e).
Proof. intros He. unfold sbind. rewrite on_auth_user_ctx, He. done. Qed.

Lemma extractor_ok `{Rfc3339} {A} h now (k : Common.User.User -> SE app api_error A) s u :
  (user_ctx h now (server_of s)).2 = Ok u ->
  sbind (on_auth (user_ctx h now)) k s = k u s.
Proof. intros He. unfold sbind. rewrite on_auth_user_ctx, He. done. Qed.

(** ** Computations that leave some files as they are *)

Definition keeps_files (P : string -> Prop) {A} (m : SE app api_error A) : Prop := forall s,
  fs_wf (data s) -> fs_wf (data (m s).1) /\ agree P (data s) (data (m s).1).

Lemma keepf_ret P {A} (a : A) : keeps_files P (sret a).
Proof. intros s Hs. by split. Qed.

Lemma keepf_fail P {A} e : keeps_files P (sfail (A := A) e).
Proof. intros s Hs. by split. Qed.

Lemma keepf_lift P {A} (r : result api_error A) : keeps_files P (slift r).
Proof. intros s Hs. by split. Qed.

Lemma keepf_get P : keeps_files P sget.
Proof. intros s Hs. by split. Qed.

Lemma keepf_bind P {A B} (m : SE app api_error A) (k : A -> SE app api_error B) :
  keeps_files P m -> (forall a, keeps_files P (k a)) -> keeps_files P (sbind m k).
Proof.
  intros Hm Hk s Hs. unfold sbind. destruct (Hm s Hs) as [Hw Ha].
  destruct (m s) as [s' [a|e]]; cbn [fst] in *; [|done].
  destruct (Hk a s' Hw) as [Hw' Ha']. split; [done|]. by eapply agree_trans.
Qed.

Lemma keeps_auth P {A} (m : SE server api_error A) : keeps_files P (on_auth m).
Proof. intros s Hs. by split. Qed.

Lemma keeps_append P l a ev : keeps_files P (audit_append l a ev).
Proof. intros s Hs. by split. Qed.

Lemma keeps_data P {E A} st (m : SE fs E A) :
  (forall f, fs_wf f -> fs_wf (m f).1 /\ agree P f (m f).1) -> keeps_files P (on_data st m).
Proof. intros Hm s Hs. unfold on_data. apply Hm, Hs. Qed.

End AppState.

#[export] Hint Resolve AppState.keepf_ret AppState.keepf_fail AppState.keepf_lift AppState.keepf_get
  AppState.keeps_auth AppState.keeps_append : keeps.
