(* ===== verification/LegalHold.v ===== *)
(** * Legal holds

    Models [legal_hold.rs], [hold_recovery.rs] and [routes/hold.rs] of [maranode-api]: the
    hold key, hold records as files, placing and releasing with signatures, the guard
    for retention, and the routes. Clock values, the drawn key and the salt of a seal
    are arguments; I/O failures of these files are left out. *)

From Stdlib Require Import ZArith Lia Ascii String.
From S2P Require Import Prelude Json Crypto Common Events Fs UserDb Auth WorkspaceDb WorkspaceApi Seal AppState.
Open Scope string_scope.
Open Scope list_scope.
Open Scope Z_scope.

(** ** The JSON form of [HoldRecord] *)
Module HoldJson.
Import Common.Hold.

Definition hold_fields : list string :=
  ["id"; "placed_at"; "placed_by"; "reason"; "seq_from"; "seq_to"; "expires_at";
   "hold_key_pubkey"; "placement_sig"; "released_at"; "released_by"; "release_sig"; "tpm_sealed"].

Section json.
Context `{!TimeText}.

Definition time_json (t : Z) : json := JStr (ts_print t).

Definition hold_json (h : HoldRecord) : json :=
  JObj [("id", JStr (id h)); ("placed_at", time_json (placed_at h)); ("placed_by", JStr (placed_by h));
        ("reason", JStr (reason h)); ("seq_from", JInt (seq_from h)); ("seq_to", JInt (seq_to h));
        ("expires_at", jopt time_json (expires_at h));
        ("hold_key_pubkey", JStr (hold_key_pubkey h)); ("placement_sig", JStr (placement_sig h));
        ("released_at", jopt time_json (released_at h)); ("released_by", jopt JStr (released_by h));
        ("release_sig", jopt JStr (release_sig h)); ("tpm_sealed", JBool (tpm_sealed h))].

Definition hold_of (j : json) : option HoldRecord :=
  some? m := as_obj j in
  check no_dup_fields hold_fields m in
  some? x0 := req as_str "id" m in
  some? x1 := req Receipt.ts_of "placed_at" m in
  some? x2 := req as_str "placed_by" m in
  some? x3 := req as_str "reason" m in
  some? x4 := req (as_uint u64_max) "seq_from" m in
  some? x5 := req (as_uint u64_max) "seq_to" m in
  some? x6 := opt Receipt.ts_of "expires_at" m in
  some? x7 := req as_str "hold_key_pubkey" m in
  some? x8 := req as_str "placement_sig" m in
  some? x9 := opt Receipt.ts_of "released_at" m in
  some? x10 := opt as_str "released_by" m in
  some? x11 := opt as_str "release_sig" m in
  some? x12 := req as_bool "tpm_sealed" m in
  Some {| id := x0; placed_at := x1; placed_by := x2; reason := x3; seq_from := x4; seq_to := x5;
          expires_at := x6; hold_key_pubkey := x7; placement_sig := x8; released_at := x9;
          released_by := x10; release_sig := x11; tpm_sealed := x12 |}.

Definition hold_wf (h : HoldRecord) : bool :=
  uint_ok u64_max (seq_from h) && uint_ok u64_max (seq_to h).

Lemma hold_round h : hold_wf h = true -> hold_of (hold_json h) = Some h.
Proof.
  intros [Hf Ht]%andb_true_iff. destruct h as [i pa pb r sf st ea pk ps ra rb rs tp].
  cbn [seq_from seq_to] in *. unfold hold_of, hold_json. cbn [as_obj].
  replace (no_dup_fields _ _) with true by reflexivity.
  unfold req, opt, time_json, Receipt.ts_of. destruct ea, ra, rb, rs; cbn -[as_uint u64_max];
    rewrite ?ts_parse_print; cbn -[as_uint u64_max]; rewrite !as_uint_ok by done;
    rewrite ?ts_parse_print; done.
Qed.

Lemma hold_json_wf h : hold_wf h = true -> json_wf (hold_json h) = true.
Proof.
  intros [Hf Ht]%andb_true_iff. destruct h as [i pa pb r sf st [] pk ps [] [] [] tp];
    cbn [seq_from seq_to] in *; unfold hold_json; rewrite json_wf_obj; wf_members.
Qed.

End json.

End HoldJson.

(** ** legal_hold.rs *)
Module LegalHold.
Import Common.Hold HoldJson.

Inductive hold_err :=
| HIo (e : io_err) | HBase64 | HHex | HLength | HKey | HJson | HNotActive | HSignature | HHeld.

#[export] Instance hold_err_eq_dec : EqDecision hold_err.
Proof. solve_decision. Defined.

Definition holds_dir : string := "legal-holds".
Definition hold_key_path : string := "hold.key".
Definition hold_pubkey_path : string := "hold.pub".
Definition hold_path (id : string) : string := path_join holds_dir (id +:+ ".json").

Section holds.
Context `{!JsonText, !TimeText, !Hex, !Base64, !Ed25519}.

(** [seed] is the random key. *)
Definition generate_hold_key (seed : string) : SE fs hold_err (string * string) := fun f =>
  let pubkey_b64 := b64_encode (ed_public seed) in
  let privkey_hex := hex_encode seed in
  let f := std_write f hold_pubkey_path pubkey_b64 in
  let f := std_write f hold_key_path privkey_hex in
  (f, Ok (privkey_hex, pubkey_b64)).

Definition load_hold_pubkey (f : fs) : result hold_err string :=
  let? b64 := map_err HIo (read_to_string f hold_pubkey_path) in
  let? bytes := ok_or (b64_decode (str_trim b64)) HBase64 in
  guard Nat.eqb (String.length bytes) 32 else HLength in
  guard ed_key_ok bytes else HKey in
  Ok bytes.

(** A signing key is its seed. *)
Definition signing_key_of_hex (hex : string) : result hold_err string :=
  let? bytes := ok_or (hex_decode (str_trim hex)) HHex in
  guard Nat.eqb (String.length bytes) 32 else HLength in
  Ok bytes.

Definition resolve_signing_key (hex_override : option string) (f : fs) : result hold_err string :=
  let? hex := (match hex_override with
               | Some h => Ok h
               | None => map_err HIo (read_to_string f hold_key_path)
               end) in
  signing_key_of_hex hex.

Definition save_hold (r : HoldRecord) (f : fs) : fs :=
  std_write f (hold_path (id r)) (json_pretty (hold_json r)).

Definition load_hold (hold_id : string) (f : fs) : result hold_err HoldRecord :=
  let? b := map_err HIo (read f (hold_path hold_id)) in
  let? j := ok_or (json_parse b) HJson in
  ok_or (hold_of j) HJson.

(** Records in the order of placement; a file that does not parse is skipped. *)
Definition parse_hold (b : string) : option HoldRecord := json_parse b ≫= hold_of.

Definition placed_before (a b : HoldRecord) : Prop := placed_at a <= placed_at b.

#[export] Instance placed_before_dec : RelDecision placed_before.
Proof. intros a b. unfold Decision, placed_before. apply Z_le_dec. Defined.

Definition list_holds (f : fs) : list HoldRecord :=
  merge_sort placed_before (omap parse_hold (json_files holds_dir f)).

(** [now] is the time the record gets. *)
Definition place_hold (hold_id placed_by reason : string) (seq_from seq_to : Z)
    (expires_at : option Z) (signing_key_hex : option string) (tpm_sealed : bool) (now : Z)
    : SE fs hold_err HoldRecord :=
  do! f := sget in
  do! pubkey := slift (load_hold_pubkey f) in
  let pubkey_b64 := b64_encode pubkey in
  let payload := json_print
    (placement_payload hold_id placed_by reason seq_from seq_to now pubkey_b64) in
  do! key := slift (resolve_signing_key signing_key_hex f) in
  let placement_sig := b64_encode (ed_sign key payload) in
  let record := {| id := hold_id; placed_at := now; placed_by := placed_by; reason := reason;
                   seq_from := seq_from; seq_to := seq_to; expires_at := expires_at;
                   hold_key_pubkey := pubkey_b64; placement_sig := placement_sig;
                   released_at := None; released_by := None; release_sig := None;
                   tpm_sealed := tpm_sealed |} in
  do! _ := smodify (save_hold record) in
  sret record.

Definition released (r : HoldRecord) (at_ : Z) (by_ sig : string) : HoldRecord :=
  {| id := id r; placed_at := placed_at r; placed_by := placed_by r; reason := reason r;
     seq_from := seq_from r; seq_to := seq_to r; expires_at := expires_at r;
     hold_key_pubkey := hold_key_pubkey r; placement_sig := placement_sig r;
     released_at := Some at_; released_by := Some by_; release_sig := Some sig;
     tpm_sealed := tpm_sealed r |}.

(** The clock is read for the activity of the hold ([t0]) and for the payload ([now]). *)
Definition release_hold (hold_id released_by release_sig_b64 : string) (t0 now : Z)
    : SE fs hold_err HoldRecord :=
  do! f := sget in
  do! record := slift (load_hold hold_id f) in
  if negb (is_active t0 record) then sfail HNotActive else
  do! pubkey := slift (load_hold_pubkey f) in
  let payload := json_print (release_payload hold_id released_by now) in
  do! sig := slift (ok_or (b64_decode release_sig_b64) HBase64) in
  if negb (Nat.eqb (String.length sig) 64) then sfail HLength else
  if negb (ed_verify pubkey payload sig) then sfail HSignature else
  let record := released record now released_by release_sig_b64 in
  do! _ := smodify (save_hold record) in
  sret record.

Definition is_seq_held (seq now : Z) (f : fs) : bool :=
  existsb (fun h => covers_seq now h seq) (list_holds f).

Definition sign_release_payload (hold_id released_by : string) (released_at : Z)
    (privkey_hex : string) : result hold_err string :=
  let? key := signing_key_of_hex privkey_hex in
  let payload := json_print (release_payload hold_id released_by released_at) in
  Ok (b64_encode (ed_sign key payload)).

Definition overlaps (from to : Z) (h : HoldRecord) : bool :=
  (from <=? seq_to h) && (seq_from h <=? to).

Definition guard_retention_delete (seq_from seq_to now : Z) (f : fs) : result hold_err unit :=
  if existsb (fun h => is_active now h && overlaps seq_from seq_to h) (list_holds f)
  then Err HHeld else Ok tt.

(** ** hold_recovery.rs *)

Definition recovery_card (now hold_key_hex pubkey_b64 org_name : string) : string := join nl
  ["==============================================================";
   "   MARANODE LEGAL HOLD KEY — RECOVERY CARD";
   "==============================================================";
   "Organization: " +:+ org_name;
   "Generated:    " +:+ now;
   "";
   "IMPORTANT: Store this document securely. This key allows";
   "releasing legal holds on audit data. Treat like a physical";
   "key to a safe deposit box.";
   "";
   "PUBLIC KEY (server-side, for verification only):";
   pubkey_b64;
   "";
   "PRIVATE KEY (keep offline — never share with IT):";
   hold_key_hex;
   "";
   "HOW TO RELEASE A HOLD:";
   "1. Contact your Maranode administrator for the hold ID and";
   "   release payload details.";
   "2. Use: maranode hold sign-release --hold-id <ID> \";
   "       --released-by <your-name> --key-hex <PRIVATE KEY ABOVE>";
   "3. Give the resulting signature to the administrator who";
   "   will complete the release via the API.";
   "";
   "The administrator CANNOT release a hold without this key.";
   "IT access alone is not sufficient.";
   "==============================================================";
   ""].

Definition recovery_card_path : string := holds_dir +:+ "/HOLD-KEY-RECOVERY.txt".

Definition export_hold_backup (now hold_key_hex pubkey_b64 : string) (f : fs) : fs :=
  std_write f recovery_card_path
    (recovery_card now hold_key_hex pubkey_b64 "your organization").

(** ** Lemmas *)

Lemma load_generated seed f k :
  fs_wf f -> String.length seed = 32%nat ->
  let g := (generate_hold_key seed f).1 in
  fs_wf g /\ load_hold_pubkey g = Ok (ed_public seed) /\
  resolve_signing_key None g = Ok seed /\
  (k = hex_encode seed -> signing_key_of_hex k = Ok seed) /\
  (forall p, p <> hold_pubkey_path -> p <> hold_key_path -> content_at g p = content_at f p).
Proof.
  intros Hf Hs. unfold generate_hold_key. cbn [fst]. set (f1 := std_write f _ _).
  assert (fs_wf f1) as Hf1 by by apply std_write_wf.
  assert (signing_key_of_hex (hex_encode seed) = Ok seed) as Hk.
  { unfold signing_key_of_hex. rewrite trim_graphic by apply hex_graphic.
    rewrite hex_decode_encode. cbn [ok_or rbind]. by rewrite Hs. }
  split; [by apply std_write_wf|]. split; [|split; [|split]].
  - unfold load_hold_pubkey. rewrite read_to_string_content, content_at_std_write by done.
    rewrite decide_False by done. unfold f1. rewrite content_at_std_write, decide_True by done.
    rewrite utf8_graphic by apply b64_encode_graphic. cbn [map_err rbind].
    rewrite trim_graphic by apply b64_encode_graphic. rewrite b64_decode_encode. cbn [ok_or rbind].
    rewrite ed_public_len by done. cbn [Nat.eqb]. by rewrite ed_public_ok.
  - unfold resolve_signing_key. rewrite read_to_string_content, content_at_std_write by done.
    rewrite decide_True by done. rewrite utf8_graphic by apply hex_graphic. exact Hk.
  - by intros ->.
  - intros p Hp1 Hp2. rewrite content_at_std_write by done. rewrite decide_False by done.
    unfold f1. rewrite content_at_std_write by done. by rewrite decide_False.
Qed.

Lemma load_saved r f :
  fs_wf f -> hold_wf r = true -> load_hold (id r) (save_hold r f) = Ok r.
Proof.
  intros Hf Hr. unfold load_hold, save_hold. rewrite read_std_write by done. cbn [map_err rbind].
  rewrite json_parse_pretty by by apply hold_json_wf. cbn [ok_or rbind]. by rewrite hold_round.
Qed.

(** The listed records are those of the files. *)
Lemma in_list_holds f h :
  fs_wf f ->
  In h (list_holds f) <->
  exists p b, json_child holds_dir p = true /\ content_at f p = Some b /\ parse_hold b = Some h.
Proof.
  intros Hf. unfold list_holds. rewrite <- list_elem_of_In, merge_sort_Permutation.
  rewrite list_elem_of_omap. setoid_rewrite list_elem_of_In. setoid_rewrite in_json_files; [|done].
  naive_solver.
Qed.

Definition plain_id (id : string) : Prop := id <> "" /\ has_char "/" id = false.

Lemma in_saved r f h :
  fs_wf f -> hold_wf r = true -> plain_id (id r) ->
  In h (list_holds (save_hold r f)) <->
  h = r \/ exists p b, p <> hold_path (id r) /\ json_child holds_dir p = true /\
             content_at f p = Some b /\ parse_hold b = Some h.
Proof.
  intros Hf Hr [Hne Hsl]. rewrite in_list_holds by by apply std_write_wf.
  unfold save_hold. setoid_rewrite content_at_std_write; [|done]. split.
  - intros (p & b & Hc & Hb & Hp). destruct (decide (hold_path (id r) = p)) as [<-|Hn].
    + injection Hb as <-. left. unfold parse_hold in Hp.
      rewrite json_parse_pretty in Hp by by apply hold_json_wf. simpl in Hp.
      rewrite hold_round in Hp by done. by injection Hp as <-.
    + right. exists p, b. naive_solver.
  - intros [->|(p & b & Hn & Hc & Hb & Hp)].
    + exists (hold_path (id r)), (json_pretty (hold_json r)). split; [by apply json_child_join|].
      rewrite decide_True by done. split; [done|]. unfold parse_hold.
      rewrite json_parse_pretty by by apply hold_json_wf. simpl. by apply hold_round.
    + exists p, b. by rewrite decide_False.
Qed.

(** The path of a record ends in [.json], and determines the identifier. *)
Definition absolute (i : string) : bool := match i with String "/" _ => true | _ => false end.

Lemma hold_path_form i :
  hold_path i = if absolute i then i +:+ ".json" else "legal-holds/" +:+ i +:+ ".json".
Proof.
  unfold hold_path, path_join, absolute. destruct i as [|c r]; [done|].
  cbn [String.append]. by destruct c as [[] [] [] [] [] [] [] []].
Qed.

Lemma hold_path_ending i : exists x, hold_path i = x +:+ ".json".
Proof.
  rewrite hold_path_form. destruct (absolute i); [by exists i|]. by exists ("legal-holds/" +:+ i).
Qed.

Lemma hold_path_inj i j : hold_path i = hold_path j -> i = j.
Proof.
  rewrite !hold_path_form. destruct (absolute i) eqn:Ei, (absolute j) eqn:Ej; intros He.
  - by apply app_suffix_inj in He.
  - by destruct i as [|[[] [] [] [] [] [] [] []] i].
  - by destruct j as [|[[] [] [] [] [] [] [] []] j].
  - cbn [String.append] in He. injection He as He. by apply app_suffix_inj in He.
Qed.

Lemma hold_path_not_key i :
  hold_path i <> hold_pubkey_path /\ hold_path i <> hold_key_path /\ hold_path i <> recovery_card_path.
Proof.
  destruct (hold_path_ending i) as [x ->]. repeat split; ending_neq.
Qed.

Lemma hold_path_not_tpm i q : In q (Seal.own_files "hold-key") -> hold_path i <> q.
Proof.
  intros Hq. rewrite hold_path_form. destruct (absolute i) eqn:Ei.
  - destruct i as [|c i]; [done|]. destruct c as [[] [] [] [] [] [] [] []]; try done.
    by destruct Hq as [<-|[<-|[<-|[<-|[<-|[]]]]]].
  - by destruct Hq as [<-|[<-|[<-|[<-|[<-|[]]]]]].
Qed.

Lemma load_hold_agree i f g :
  content_at g (hold_path i) = content_at f (hold_path i) -> load_hold i g = load_hold i f.
Proof. intros Hc. unfold load_hold. by rewrite !read_content, Hc. Qed.

Lemma hold_of_wf j h : hold_of j = Some h -> hold_wf h = true.
Proof.
  unfold hold_of, req, as_uint. intros Hh. unfold hold_wf. crush.
  by apply andb_true_iff.
Qed.

Lemma load_hold_wf i f h : load_hold i f = Ok h -> hold_wf h = true.
Proof.
  unfold load_hold. intros Hl. destruct (read f _) as [b|]; [|done]. cbn [map_err rbind] in Hl.
  destruct (json_parse b) as [j|]; [|done]. cbn [ok_or rbind] in Hl.
  destruct (hold_of j) eqn:E; [|done]. injection Hl as <-. by eapply hold_of_wf.
Qed.

Lemma listed f i h : fs_wf f -> plain_id i -> load_hold i f = Ok h -> In h (list_holds f).
Proof.
  intros Hf [Hne Hs] Hl. apply in_list_holds; [done|]. unfold load_hold in Hl.
  rewrite read_content in Hl. destruct (content_at f (hold_path i)) as [b|] eqn:Eb; [|done].
  cbn [map_err rbind] in Hl. exists (hold_path i), b. split; [by apply json_child_join|].
  split; [done|]. unfold parse_hold. destruct (json_parse b) as [j|]; [|done]. simpl in *.
  by destruct (hold_of j); [injection Hl as ->|].
Qed.

(** ** Properties *)

(** A retention deletion of a range is refused exactly when some entry of the
    range is held: the guard on ranges and the test on single entries are equivalent, as
    long as no record has an inverted range. *)
Theorem guard_iff_held from to now f :
  from <= to -> (forall h, In h (list_holds f) -> Common.Hold.seq_from h <= Common.Hold.seq_to h) ->
  guard_retention_delete from to now f = Err HHeld <->
  exists seq, from <= seq <= to /\ is_seq_held seq now f = true.
Proof.
  intros Hft Hwf. unfold guard_retention_delete, is_seq_held.
  assert (existsb (fun h => is_active now h && overlaps from to h) (list_holds f) = true <->
    exists seq, from <= seq <= to /\ existsb (fun h => covers_seq now h seq) (list_holds f) = true) as Hiff.
  { rewrite existsb_exists. setoid_rewrite existsb_exists. unfold covers_seq, overlaps. split.
    - intros (h & Hh & Ho). bool_prop. specialize (Hwf h Hh).
      exists (Z.max from (Common.Hold.seq_from h)). split; [lia|]. exists h. split; [done|].
      rewrite !andb_true_iff, !Z.leb_le. split; [split|]; [done|lia|lia].
    - intros (seq & Hs & h & Hh & Hc). bool_prop. exists h. split; [done|].
      rewrite !andb_true_iff, !Z.leb_le. split; [done|]. lia. }
  destruct (existsb (fun h => is_active now h && overlaps from to h) _); split; try done.
  - intros _. by apply Hiff.
  - intros Hx. apply Hiff in Hx. done.
Qed.

(** A release succeeds exactly for the record of an active hold and 64 bytes
    that verify, under the key the server has now, over the identifier, the caller's
    name and the clock of the server at that instant. *)
Theorem release_hold_iff i by_ sig t0 now f f' r' :
  release_hold i by_ sig t0 now f = (f', Ok r') <->
  exists r pub s, load_hold i f = Ok r /\ is_active t0 r = true /\ load_hold_pubkey f = Ok pub /\
    b64_decode sig = Some s /\ String.length s = 64%nat /\
    ed_verify pub (json_print (release_payload i by_ now)) s = true /\
    r' = released r now by_ sig /\ f' = save_hold r' f.
Proof.
  unfold release_hold, sbind, sget, slift, smodify, sret, sfail. split.
  - destruct (load_hold i f) as [r|]; [|done]. destruct (is_active t0 r) eqn:Ea; cbn [negb]; [|done].
    destruct (load_hold_pubkey f) as [pub|]; [|done].
    destruct (b64_decode sig) as [s|] eqn:Es; cbn [ok_or]; [|done].
    destruct (Nat.eqb_spec (String.length s) 64) as [Hl|]; cbn [negb]; [|done].
    destruct (ed_verify _ _ s) eqn:Ev; cbn [negb]; [|done]. intros [= <- <-].
    by exists r, pub, s.
  - intros (r & pub & s & -> & -> & -> & -> & Hl & Hv & -> & ->). cbn [negb ok_or].
    rewrite Hl. cbn [Nat.eqb negb]. by rewrite Hv.
Qed.

(** The signed text determines the instant. *)
Lemma release_payload_instant i by_ a b :
  json_print (release_payload i by_ a) = json_print (release_payload i by_ b) -> a = b.
Proof.
  intros He. apply (f_equal json_parse) in He. rewrite !json_parse_print in He by done.
  injection He as He. apply (f_equal ts_parse) in He. rewrite !ts_parse_print in He. by injection He.
Qed.

(** The officer's signature is bound to one instant: the release checks it over
    the server's clock and not over the time that was signed, so that one made for another
    instant is accepted only if it verifies a text that was never signed. *)
Theorem release_bound_to_instant i by_ key sig t t0 now f f' r' :
  sign_release_payload i by_ t (hex_encode key) = Ok sig ->
  release_hold i by_ sig t0 now f = (f', Ok r') -> now <> t ->
  exists pub s, load_hold_pubkey f = Ok pub /\ s = ed_sign key (json_print (release_payload i by_ t)) /\
    ed_verify pub (json_print (release_payload i by_ now)) s = true /\
    json_print (release_payload i by_ now) <> json_print (release_payload i by_ t).
Proof.
  intros Hs Hr Hne. apply release_hold_iff in Hr as (r & pub & s & _ & _ & Hp & Hd & _ & Hv & _).
  unfold sign_release_payload, signing_key_of_hex in Hs.
  rewrite trim_graphic, hex_decode_encode in Hs by apply hex_graphic. cbn [ok_or rbind] in Hs.
  case_hyp; [|done]. injection Hs as <-. rewrite b64_decode_encode in Hd. injection Hd as <-.
  exists pub, (ed_sign key (json_print (release_payload i by_ t))). split; [done|]. split; [done|].
  split; [done|]. intros He. by apply release_payload_instant in He.
Qed.

End holds.

End LegalHold.

(** ** routes/hold.rs *)
Module HoldApi.
Import Common.Hold HoldJson LegalHold Auth.Auth AppState.AppState.

(** [format!("{:x}")] of a [u64]. *)
Definition hex_digit (n : Z) : ascii := if n <? 10 then chr (48 + n) else chr (87 + n).

Fixpoint hex_go (fuel : nat) (n : Z) (acc : string) : string :=
  match fuel with
  | O => acc
  | S fuel =>
    let acc := String (hex_digit (n mod 16)) acc in
    if n / 16 =? 0 then acc else hex_go fuel (n / 16) acc
  end.

Definition hex_u64 (n : Z) : string := hex_go 16 n "".

Definition new_hold_id (t : Z) : string := "HOLD-" +:+ hex_u64 (t / ns_per_s).

(** An authenticated request for a hold; [tpm] is the passphrase when the key is to be
    sealed, or taken from the sealed blob. *)
Inductive hold_request :=
| GenerateKey (tpm : option string) (seed now_text : string) (r : Seal.draw)
| Place (reason : string) (seq_from seq_to : Z) (expires_at : option Z) (key_hex : option string)
    (tpm : option string)
| Release (hold_id release_sig_b64 : string).

Section routes.
Context `{!Rfc3339, !JsonText, !TimeText, !Hmac, !Aead, !Hex, !Base64, !Ed25519, !Tpm2Tools}.

(** The answer: public and private key, and whether a seal was asked for. *)
Definition generate_key (h : headers) (tpm : option string) (seed now_text : string)
    (r : Seal.draw) (now : Z) : SE app api_error (string * string * bool) :=
  do! user := on_auth (user_ctx h now) in
  do! keys := on_data internal (generate_hold_key seed) in
  do! tpm_sealed :=
    (match tpm with
     | Some pass =>
       do! key_bytes := slift (ok_or (hex_decode keys.1) Internal) in
       do! _ := on_data internal (Seal.seal key_bytes "hold-key" None pass r) in
       sret true
     | None => sret false
     end) in
  do! _ := on_data internal (smodify (E := hold_err) (export_hold_backup now_text keys.1 keys.2)) in
  let pubkey_hex := hex_encode (default "" (b64_decode keys.2)) in
  do! _ := audit_append MainLog (Common.User.username user)
             (Events.LegalHoldKeyGenerated pubkey_hex (Common.User.username user) tpm_sealed) in
  sret (keys.2, keys.1, tpm_sealed).

(** [t0] is the clock of the identifier, [now] that of the record. *)
Definition place (h : headers) (reason : string) (seq_from seq_to : Z) (expires_at : option Z)
    (key_hex tpm : option string) (t0 now : Z) : SE app api_error HoldRecord :=
  do! user := on_auth (user_ctx h t0) in
  if seq_to <? seq_from then sfail BadRequest else
  let hold_id := new_hold_id t0 in
  do! key_hex :=
    (match tpm, key_hex with
     | Some pass, None =>
       do! bytes := on_data internal (Seal.unseal "hold-key" pass (t0 / ns_per_s) (t0 / ns_per_s)) in
       sret (Some (hex_encode bytes))
     | _, _ => sret key_hex
     end) in
  do! record := on_data internal
    (place_hold hold_id (Common.User.username user) reason seq_from seq_to expires_at key_hex
       (match tpm with Some _ => true | None => false end) now) in
  do! _ := audit_append MainLog (Common.User.username user)
             (Events.LegalHoldPlaced (id record) (Common.User.username user)
                (Common.Hold.seq_from record) (Common.Hold.seq_to record)
                (Common.Hold.reason record) (tpm_sealed record)) in
  sret record.

Definition release (h : headers) (hold_id release_sig_b64 : string) (t0 now : Z)
    : SE app api_error HoldRecord :=
  do! user := on_auth (user_ctx h t0) in
  do! record := on_data bad_request
    (release_hold hold_id (Common.User.username user) release_sig_b64 t0 now) in
  do! _ := audit_append MainLog (Common.User.username user)
             (Events.LegalHoldReleased (id record) (Common.User.username user)) in
  sret record.

(** The two routes without an extractor: anyone signs with a key they send, anyone
    lists the holds. *)
Definition sign_release (hold_id released_by : string) (released_at : option Z)
    (privkey_hex : string) (now : Z) : SE app api_error (Z * string) :=
  let at_ := default now released_at in
  do! sig := slift (map_err bad_request (sign_release_payload hold_id released_by at_ privkey_hex)) in
  sret (at_, sig).

Definition list_route (now : Z) : SE app api_error (Z * Z * list HoldRecord) :=
  do! s := sget in
  let holds := list_holds (data s) in
  let active := List.filter (is_active now) holds in
  sret (Z.of_nat (length holds), Z.of_nat (length active), holds).

Definition unit_of {A} (m : SE app api_error A) : SE app api_error unit := do! _ := m in sret tt.

Definition handle_hold (h : headers) (req : hold_request) (t0 now : Z) : SE app api_error unit :=
  match req with
  | GenerateKey tpm seed now_text r => unit_of (generate_key h tpm seed now_text r t0)
  | Place reason from to exp key tpm => unit_of (place h reason from to exp key tpm t0 now)
  | Release i sig => unit_of (release h i sig t0 now)
  end.

(** ** Lemmas *)

Lemma hex_digit_no n : 0 <= n < 16 -> hex_digit n <> "/"%char.
Proof.
  intros Hn He. apply (f_equal code) in He. change (code "/") with 47 in He. revert He.
  unfold hex_digit. destruct (n <? 10) eqn:E; bool_prop; rewrite code_of_chr by lia; lia.
Qed.

Lemma hex_go_no fuel n acc : has_char "/" acc = false -> has_char "/" (hex_go fuel n acc) = false.
Proof.
  revert n acc. induction fuel as [|fuel IH]; intros n acc Ha; [done|]. cbn [hex_go].
  assert (has_char "/" (String (hex_digit (n mod 16)) acc) = false) as Hd.
  { simpl. rewrite Ha, orb_false_r. apply Ascii.eqb_neq, hex_digit_no, Z.mod_pos_bound. lia. }
  destruct (n / 16 =? 0); [done|by apply IH].
Qed.

Lemma new_hold_id_plain t : plain_id (new_hold_id t).
Proof.
  split; [done|]. unfold new_hold_id. rewrite has_char_app. apply orb_false_iff.
  split; [done|]. unfold hex_u64. by apply hex_go_no.
Qed.

(** The name of a record's file is its identifier. *)
Definition named (f : fs) : Prop := forall i r, load_hold i f = Ok r -> id r = i.

Lemma named_save r f : fs_wf f -> hold_wf r = true -> named f -> named (save_hold r f).
Proof.
  intros Hf Hr Hn i x Hl. destruct (decide (i = id r)) as [->|Hne].
  - rewrite load_saved in Hl by done. by injection Hl as <-.
  - apply Hn. rewrite <- Hl. symmetry. apply load_hold_agree. unfold save_hold.
    rewrite content_at_std_write by done. rewrite decide_False; [done|]. intros He.
    apply Hne. symmetry. by apply hold_path_inj.
Qed.

Lemma named_agree f g : agree (fun q => exists i, q = hold_path i) f g -> named f -> named g.
Proof.
  intros Ha Hn i r Hl. apply Hn. rewrite <- Hl. symmetry. apply load_hold_agree, Ha. by exists i.
Qed.

Lemma place_hold_frame hid by_ reason from to exp key tpm now f :
  fs_wf f ->
  fs_wf (place_hold hid by_ reason from to exp key tpm now f).1 /\
  agree (fun q => q <> hold_path hid) f (place_hold hid by_ reason from to exp key tpm now f).1.
Proof.
  intros Hf. unfold place_hold, sbind, sget, slift, smodify, sret.
  destruct (load_hold_pubkey f) as [pub|]; [|by split].
  destruct (resolve_signing_key key f) as [k|]; [|by split]. cbn [fst].
  split; [by apply std_write_wf|]. apply agree_write; [done|]. cbn. tauto.
Qed.

Lemma generate_key_frame seed f :
  fs_wf f ->
  fs_wf (generate_hold_key seed f).1 /\
  agree (fun q => q <> hold_pubkey_path /\ q <> hold_key_path) f (generate_hold_key seed f).1.
Proof.
  intros Hf. unfold generate_hold_key. cbn [fst]. split; [by repeat apply std_write_wf|].
  eapply agree_trans; apply agree_write; try done; try (intros [? ?]; done). by apply std_write_wf.
Qed.

Definition is_hold_file (q : string) : Prop := exists i, q = hold_path i.

(** Generating a key, and unsealing one, leave the holds alone. *)
Lemma generate_key_keeps h tpm seed txt r now :
  keeps_files is_hold_file (generate_key h tpm seed txt r now).
Proof.
  unfold generate_key.
  apply keepf_bind; [auto with keeps|]. intros user. apply keepf_bind.
  { apply keeps_data. intros f Hf. destruct (generate_key_frame seed f Hf) as [Hw Ha].
    split; [done|]. eapply agree_weaken; [|exact Ha]. intros q [i ->].
    by destruct (hold_path_not_key i) as (? & ? & _). }
  intros keys. apply keepf_bind.
  { destruct tpm as [pass|]; [|auto with keeps]. apply keepf_bind; [auto with keeps|]. intros kb.
    apply keepf_bind; [|auto with keeps]. apply keeps_data. intros f Hf.
    destruct (Seal.seal_frame kb "hold-key" None pass r f Hf) as [Hw Ha]. split; [done|].
    eapply agree_weaken; [|exact Ha]. intros q [i ->] Hq.
    eapply (hold_path_not_tpm i); [by apply Seal.blob_own|done]. }
  intros sealed. apply keepf_bind; [|intros _; apply keepf_bind; auto with keeps].
  apply keeps_data. intros f Hf. unfold smodify, export_hold_backup. cbn [fst].
  split; [by apply std_write_wf|]. apply agree_write; [done|]. intros [i He].
  by destruct (hold_path_not_key i) as (_ & _ & []).
Qed.

Definition place_key (tpm key_hex : option string) (t0 : Z) : SE app api_error (option string) :=
  match tpm, key_hex with
  | Some pass, None =>
    do! bytes := on_data internal (Seal.unseal "hold-key" pass (t0 / ns_per_s) (t0 / ns_per_s)) in
    sret (Some (hex_encode bytes))
  | _, _ => sret key_hex
  end.

Lemma place_key_keeps tpm key t0 : keeps_files is_hold_file (place_key tpm key t0).
Proof.
  unfold place_key. destruct tpm as [pass|], key; try solve [auto with keeps].
  apply keepf_bind; [|auto with keeps]. apply keeps_data. intros f Hf.
  destruct (Seal.unseal_frame "hold-key" pass (t0 / ns_per_s) (t0 / ns_per_s) f Hf) as [Hw Ha].
  split; [done|]. eapply agree_weaken; [|exact Ha]. intros q [i ->].
  apply (hold_path_not_tpm i). by left.
Qed.

(** A placement saves one record, under a new identifier, or none. *)
Lemma place_spec h reason from to exp key tpm t0 now s :
  fs_wf (data s) -> uint_ok u64_max from = true -> uint_ok u64_max to = true ->
  exists f1, fs_wf f1 /\ agree is_hold_file (data s) f1 /\
    match place h reason from to exp key tpm t0 now s with
    | (s', Ok r) => data s' = save_hold r f1 /\ id r = new_hold_id t0 /\ hold_wf r = true /\
        Common.Hold.seq_from r = from /\ Common.Hold.seq_to r = to /\ from <= to /\
        expires_at r = exp /\ released_at r = None
    | (s', Err _) => data s' = f1
    end.
Proof.
  intros Hf Hfr Hto. unfold place.
  destruct (user_ctx h t0 (server_of s)).2 as [u|e] eqn:Eu.
  2:{ rewrite (extractor_fails _ _ _ _ _ Eu). exists (data s). by split; [|split]. }
  rewrite (extractor_ok _ _ _ _ _ Eu). destruct (Z.ltb_spec to from) as [Hlt|Hle].
  { exists (data s). by split; [|split]. }
  fold (place_key tpm key t0). unfold sbind at 1.
  destruct (place_key_keeps tpm key t0 s Hf) as [Hw Ha].
  destruct (place_key tpm key t0 s) as [s1 [k|e]]; cbn [fst] in *.
  2:{ exists (data s1). by split; [|split]. }
  exists (data s1). split; [done|]. split; [done|].
  unfold sbind, on_data, place_hold, audit_append, sbind, sget, slift, smodify, sret.
  destruct (load_hold_pubkey (data s1)) as [pub|]; [|done].
  destruct (resolve_signing_key k (data s1)) as [sk|]; [|done]. cbn [fst snd map_err data add_call set_data].
  split; [done|]. cbn [id Common.Hold.seq_from Common.Hold.seq_to expires_at released_at].
  split; [done|]. split; [|done]. unfold hold_wf. cbn [Common.Hold.seq_from Common.Hold.seq_to].
  by rewrite Hfr, Hto.
Qed.

Lemma release_frame h j sig t0 now s :
  fs_wf (data s) -> named (data s) ->
  fs_wf (data (release h j sig t0 now s).1) /\ named (data (release h j sig t0 now s).1) /\
  agree (fun q => q <> hold_path j) (data s) (data (release h j sig t0 now s).1).
Proof.
  intros Hf Hn. unfold release. destruct (user_ctx h t0 (server_of s)).2 as [u|e] eqn:Eu.
  2:{ rewrite (extractor_fails _ _ _ _ _ Eu). cbn [fst]. split; [done|]. by split. }
  rewrite (extractor_ok _ _ _ _ _ Eu). unfold sbind, on_data.
  destruct (release_hold j (Common.User.username u) sig t0 now (data s)) as [f' [r'|e]] eqn:E.
  - apply release_hold_iff in E as (r & pub & sg & Hl & _ & _ & _ & _ & _ & -> & ->).
    cbn [fst snd map_err]. unfold audit_append, smodify, sret. cbn [fst data add_call set_data].
    pose proof (Hn _ _ Hl) as Hid. assert (hold_wf (released r now (Common.User.username u) sig) = true) as Hw
      by (apply load_hold_wf in Hl; exact Hl).
    split; [by apply std_write_wf|]. split; [by apply named_save|].
    apply agree_write; [done|]. unfold released. cbn [id]. rewrite Hid. tauto.
  - cbn [fst snd map_err]. assert (f' = data s) as ->; [|by destruct s].
    revert E. unfold release_hold, sbind, sget, slift, smodify, sret, sfail.
    repeat (case_match; simplify_eq/=; try congruence).
Qed.

(** The holds that a request does not touch. The numbers of a request are [u64]. *)
Definition spares (i : string) (t0 : Z) (req : hold_request) : Prop :=
  match req with
  | GenerateKey _ _ _ _ => True
  | Place _ from to _ _ _ =>
    new_hold_id t0 <> i /\ uint_ok u64_max from = true /\ uint_ok u64_max to = true
  | Release j _ => j <> i
  end.

Definition hold_step (i : string) (s s' : app) : Prop :=
  exists h req t0 now, spares i t0 req /\ s' = (handle_hold h req t0 now s).1.

(** What the store keeps: its files are well formed and named, and the hold [i]. *)
Definition holds_inv (i : string) (r : HoldRecord) (s : app) : Prop :=
  fs_wf (data s) /\ named (data s) /\ load_hold i (data s) = Ok r.

Lemma unit_of_state {A} (m : SE app api_error A) s : (unit_of m s).1 = (m s).1.
Proof. unfold unit_of, sbind. by destruct (m s) as [? []]. Qed.

Lemma hold_step_inv i r s s' : hold_step i s s' -> holds_inv i r s -> holds_inv i r s'.
Proof.
  intros (h & req & t0 & now & Hsp & ->) (Hf & Hn & Hl).
  destruct req as [tpm seed txt rd|reason from to exp key tpm|j sig]; cbn [handle_hold spares] in *;
    rewrite unit_of_state.
  - destruct (generate_key_keeps h tpm seed txt rd t0 s Hf) as [Hw Ha]. split; [done|].
    split; [by eapply named_agree|]. rewrite <- Hl. apply load_hold_agree, Ha. by exists i.
  - destruct Hsp as (Hne & Hfr & Hto).
    destruct (place_spec h reason from to exp key tpm t0 now s Hf Hfr Hto) as (f1 & Hw & Ha & Hp).
    assert (load_hold i f1 = Ok r) as Hl1 by (rewrite <- Hl; apply load_hold_agree, Ha; by exists i).
    assert (named f1) as Hn1 by by eapply named_agree.
    destruct (place _ _ _ _ _ _ _ _ _ s) as [s' [x|e]]; cbn [fst].
    + destruct Hp as (Hd & Hx & Hwf & _). unfold holds_inv. rewrite Hd.
      split; [by apply std_write_wf|]. split; [by apply named_save|]. rewrite <- Hl1.
      apply load_hold_agree. unfold save_hold. rewrite content_at_std_write by done.
      rewrite decide_False; [done|]. rewrite Hx. intros He. apply hold_path_inj in He. congruence.
    + unfold holds_inv. by rewrite Hp.
  - destruct (release_frame h j sig t0 now s Hf Hn) as (Hw & Hn' & Ha). split; [done|].
    split; [done|]. rewrite <- Hl. apply load_hold_agree, Ha. intros He. apply hold_path_inj in He.
    congruence.
Qed.

Lemma held_by r seq t f :
  fs_wf f -> plain_id (id r) -> load_hold (id r) f = Ok r -> released_at r = None ->
  (forall e, expires_at r = Some e -> t < e) ->
  Common.Hold.seq_from r <= seq <= Common.Hold.seq_to r -> is_seq_held seq t f = true.
Proof.
  intros Hf Hi Hl Hr He Hs. apply existsb_exists. exists r. split; [by eapply listed|].
  unfold covers_seq, is_active. rewrite Hr. rewrite !andb_true_iff, !Z.leb_le.
  split; [split|]; [|lia|lia]. destruct (expires_at r); [apply Z.ltb_lt; eauto|done].
Qed.

(** ** Properties *)

(** A hold that was placed covers its range of entries through any further
    requests for holds, of any callers, until it expires or is itself released, or another
    hold is placed within the same second. *)
Theorem placed_hold_persists h reason from to exp key tpm t0 now s s1 r s2 seq t :
  fs_wf (data s) -> named (data s) -> uint_ok u64_max from = true -> uint_ok u64_max to = true ->
  place h reason from to exp key tpm t0 now s = (s1, Ok r) -> rtc (hold_step (id r)) s1 s2 ->
  from <= seq <= to -> (forall e, exp = Some e -> t < e) ->
  is_seq_held seq t (data s2) = true /\ guard_retention_delete seq seq t (data s2) = Err HHeld.
Proof.
  intros Hf Hn Hfr Hto Hp Hrun Hseq Hexp.
  destruct (place_spec h reason from to exp key tpm t0 now s Hf Hfr Hto) as (f1 & Hw & Ha & Hpl).
  rewrite Hp in Hpl. destruct Hpl as (Hd & Hid & Hwf & <- & <- & Hle & <- & Hrel).
  assert (holds_inv (id r) r s1) as Hinv1.
  { unfold holds_inv. rewrite Hd. split; [by apply std_write_wf|]. split.
    - apply named_save; [done|done|]. by eapply named_agree.
    - by apply load_saved. }
  assert (holds_inv (id r) r s2) as (Hf2 & _ & Hl2).
  { clear Hp Hd. induction Hrun as [|x y z Hs _ IH]; [done|]. apply IH. by eapply hold_step_inv. }
  assert (plain_id (id r)) as Hpi by (rewrite Hid; apply new_hold_id_plain).
  split; [by eapply held_by|]. unfold guard_retention_delete.
  replace (existsb _ _) with true; [done|]. symmetry. apply existsb_exists. exists r.
  split; [by eapply listed|]. unfold is_active, overlaps. rewrite Hrel.
  rewrite !andb_true_iff, !Z.leb_le. split; [|lia].
  destruct (expires_at r); [apply Z.ltb_lt; eauto|done].
Qed.

(** Any account, whatever its role, ends any hold: it has the server generate
    a new hold key, whose private part the answer contains, has the unauthenticated route
    sign a release with it, and sends the release. *)
Theorem any_account_ends_a_hold h u s i r seed txt rd t0 t1 now :
  fs_wf (data s) -> String.length seed = 32%nat ->
  (user_ctx h t0 (server_of s)).2 = Ok u -> (user_ctx h t1 (server_of s)).2 = Ok u ->
  load_hold i (data s) = Ok r -> id r = i -> is_active t1 r = true ->
  exists s1 pub priv sig s2,
    generate_key h None seed txt rd t0 s = (s1, Ok (pub, priv, false)) /\
    sign_release i (Common.User.username u) (Some now) priv t1 s1 = (s1, Ok (now, sig)) /\
    release h i sig t1 now s1 = (s2, Ok (released r now (Common.User.username u) sig)) /\
    load_hold i (data s2) = Ok (released r now (Common.User.username u) sig) /\
    forall seq t, covers_seq t (released r now (Common.User.username u) sig) seq = false.
Proof.
  intros Hf Hs Hu0 Hu1 Hl Hid Hact. unfold generate_key.
  rewrite (extractor_ok _ _ _ _ _ Hu0).
  destruct (load_generated seed (data s) (hex_encode seed) Hf Hs) as (Hg & Hpub & _ & Hsk & Hrest).
  unfold sbind, on_data. cbn [fst snd map_err sret slift smodify audit_append].
  unfold generate_hold_key in *. cbn [fst snd] in *.
  set (g := std_write _ hold_key_path _) in *.
  set (g' := export_hold_backup txt (hex_encode seed) (b64_encode (ed_public seed)) g).
  unfold sret. eexists _, _, _, _, _. split; [reflexivity|]. cbn [data set_data add_call].
  assert (signing_key_of_hex (hex_encode seed) = Ok seed) as Hkey by by apply Hsk.
  assert (fs_wf g') as Hg' by by apply std_write_wf.
  assert (forall q, q <> recovery_card_path -> content_at g' q = content_at g q) as Hc.
  { intros q Hq. unfold g', export_hold_backup. rewrite content_at_std_write by done.
    by rewrite decide_False. }
  split; [|split].
  - unfold sign_release, sbind, slift, sret, sign_release_payload. cbn [fst snd]. rewrite Hkey. reflexivity.
  - unfold release. rewrite (extractor_ok h t1 _ _ u) by exact Hu1. unfold sbind at 1, on_data.
    match goal with |- context [release_hold ?a ?b ?c ?d ?e ?f] =>
      replace (release_hold a b c d e f) with
        (save_hold (released r now b c) f, @Ok hold_err _ (released r now b c)) end.
    { reflexivity. }
    symmetry. apply release_hold_iff. cbn [data set_data add_call].
    exists r, (ed_public seed), (ed_sign seed (json_print (release_payload i (Common.User.username u) now))).
    assert (load_hold i g' = Ok r) as Hl'.
    { rewrite <- Hl. apply load_hold_agree. destruct (hold_path_not_key i) as (Hk1 & Hk2 & Hk3).
      rewrite Hc by done. by apply Hrest. }
    assert (load_hold_pubkey g' = Ok (ed_public seed)) as Hp'.
    { rewrite <- Hpub. unfold load_hold_pubkey. rewrite !read_to_string_content.
      by rewrite Hc by done. }
    repeat (split; [try done|]); try done.
    + by rewrite b64_decode_encode.
    + apply ed_sign_len.
    + by apply ed_verify_sign.
  - split; [|intros seq t; reflexivity]. cbn [data set_data add_call]. rewrite <- Hid.
    apply (load_saved (released r now (Common.User.username u) _)); [done|].
    by apply load_hold_wf in Hl.
Qed.

(** Two holds placed within one second have the same identifier: the second one
    replaces the first. *)
Lemma one_second_one_hold t t' : t / ns_per_s = t' / ns_per_s -> new_hold_id t = new_hold_id t'.
Proof. unfold new_hold_id. by intros ->. Qed.

End routes.

End HoldApi.
