(* ===== verification/IncidentApi.v ===== *)
(** * Incidents and break-glass credentials

    Models [incident.rs], [forensic.rs] and [routes/incident.rs] of [maranode-api], and the
    recovery of an incident when the daemon starts ([maranode-daemon/src/main.rs]).

    A handler is an asynchronous function under the lock of the incident: at each
    [await] the server may drop it, when the client has gone. A run has a budget of
    awaits, after which it is dropped with the effects it had so far. Webhooks have no
    effect on the state. A write of the state file may fail before it opens the file
    or stop after some bytes. *)

From Stdlib Require Import ZArith Lia Ascii String.
From S2P Require Import Prelude Json Crypto Common Events Fs UserDb Auth WorkspaceDb WorkspaceApi AppState LegalHold.
Open Scope string_scope.
Open Scope list_scope.
Open Scope Z_scope.

(** ** JSON forms *)
Module IncidentJson.
Import Common.Incident.

Section json.
Context `{!TimeText}.

Definition phase_of (j : json) : option IncidentPhase :=
  some? s := as_str j in
  if String.eqb s "declared" then Some Declared else
  if String.eqb s "investigating" then Some Investigating else
  if String.eqb s "resolved" then Some Resolved else None.

Definition phase_entry_json (e : PhaseEntry) : json :=
  JObj [("phase", JStr (phase_str (pe_phase e))); ("at", JStr (ts_print (pe_at e)));
        ("by", JStr (pe_by e)); ("note", jopt JStr (pe_note e))].

Definition phase_entry_of (j : json) : option PhaseEntry :=
  some? m := as_obj j in
  check no_dup_fields ["phase"; "at"; "by"; "note"] m in
  some? p := req phase_of "phase" m in
  some? t := req Receipt.ts_of "at" m in
  some? b := req as_str "by" m in
  some? n := opt as_str "note" m in
  Some {| pe_phase := p; pe_at := t; pe_by := b; pe_note := n |}.

Definition time_json (t : Z) : json := JStr (ts_print t).

Definition incident_members (i : IncidentState) : list (string * json) :=
  [("id", JStr (id i)); ("declared_at", time_json (declared_at i));
   ("declared_by", JStr (declared_by i)); ("reason", JStr (reason i));
   ("phase", JStr (phase_str (phase i))); ("audit_frozen", JBool (audit_frozen i));
   ("resolved_at", jopt time_json (resolved_at i));
   ("resolution_summary", jopt JStr (resolution_summary i));
   ("phase_log", JArr (phase_entry_json <$> phase_log i));
   ("webhook_urls", JArr (JStr <$> webhook_urls i))].

Definition incident_json (i : IncidentState) : json := JObj (incident_members i).

Definition incident_of (j : json) : option IncidentState :=
  some? m := as_obj j in
  check no_dup_fields ["id"; "declared_at"; "declared_by"; "reason"; "phase"; "audit_frozen";
                       "resolved_at"; "resolution_summary"; "phase_log"; "webhook_urls"] m in
  some? x0 := req as_str "id" m in
  some? x1 := req Receipt.ts_of "declared_at" m in
  some? x2 := req as_str "declared_by" m in
  some? x3 := req as_str "reason" m in
  some? x4 := req phase_of "phase" m in
  some? x5 := req as_bool "audit_frozen" m in
  some? x6 := opt Receipt.ts_of "resolved_at" m in
  some? x7 := opt as_str "resolution_summary" m in
  some? l8 := req as_arr "phase_log" m in
  some? x8 := all_some (phase_entry_of <$> l8) in
  some? l9 := req as_arr "webhook_urls" m in
  some? x9 := all_some (as_str <$> l9) in
  Some {| id := x0; declared_at := x1; declared_by := x2; reason := x3; phase := x4;
          audit_frozen := x5; resolved_at := x6; resolution_summary := x7; phase_log := x8;
          webhook_urls := x9 |}.

Definition cred_json (c : BreakGlassCred) : json :=
  JObj [("id", JStr (bg_id c)); ("purpose", JStr (purpose c)); ("token_hash", JStr (token_hash c));
        ("created_at", time_json (created_at c)); ("used_at", jopt time_json (used_at c));
        ("used_by", jopt JStr (used_by c))].

Definition cred_of (j : json) : option BreakGlassCred :=
  some? m := as_obj j in
  check no_dup_fields ["id"; "purpose"; "token_hash"; "created_at"; "used_at"; "used_by"] m in
  some? x0 := req as_str "id" m in
  some? x1 := req as_str "purpose" m in
  some? x2 := req as_str "token_hash" m in
  some? x3 := req Receipt.ts_of "created_at" m in
  some? x4 := opt Receipt.ts_of "used_at" m in
  some? x5 := opt as_str "used_by" m in
  Some {| bg_id := x0; purpose := x1; token_hash := x2; created_at := x3; used_at := x4;
          used_by := x5 |}.

Lemma phase_round p : phase_of (JStr (phase_str p)) = Some p.
Proof. by destruct p. Qed.

Lemma phase_entry_round e : phase_entry_of (phase_entry_json e) = Some e.
Proof.
  destruct e as [[] t b []]; unfold phase_entry_of, phase_entry_json, req, opt, Receipt.ts_of;
    cbn; by rewrite ts_parse_print.
Qed.

Lemma incident_round i : incident_of (incident_json i) = Some i.
Proof.
  destruct i as [i da db r ph fr ra rs pl wu]. unfold incident_of, incident_json, incident_members.
  cbn [as_obj]. replace (no_dup_fields _ _) with true by reflexivity.
  unfold req, opt, Receipt.ts_of, time_json.
  cbn -[phase_of phase_str phase_entry_of phase_entry_json].
  rewrite ts_parse_print, phase_round.
  rewrite (all_some_map phase_entry_json phase_entry_of) by apply phase_entry_round.
  rewrite (all_some_map JStr as_str) by done.
  destruct ra, rs; cbn; rewrite ?ts_parse_print; done.
Qed.

Lemma incident_json_wf i : json_wf (incident_json i) = true.
Proof.
  destruct i as [i da db r ph fr ra rs pl wu]. unfold incident_json, incident_members.
  rewrite json_wf_obj. cbn [forallb snd].
  rewrite !json_wf_arr; [by destruct ra, rs|done|].
  intros [p t b []] _; by destruct p.
Qed.

Lemma cred_round c : cred_of (cred_json c) = Some c.
Proof.
  destruct c as [i p h t [] []]; unfold cred_of, cred_json, req, opt, Receipt.ts_of, time_json;
    cbn; by rewrite !ts_parse_print.
Qed.

Lemma cred_json_wf c : json_wf (cred_json c) = true.
Proof. by destruct c as [i p h t [] []]. Qed.

End json.

End IncidentJson.

(** ** Computations with awaits *)
Module Async.
Import Auth.Auth AppState.AppState.

(** The error [None]: the handler was dropped. *)
Definition prog (A : Type) : Type := SE (nat * app) (option api_error) A.

Definition await : prog unit := fun st =>
  match st.1 with
  | O => (st, Err None)
  | S n => ((n, st.2), Ok tt)
  end.

Definition atomically {A} (m : SE app api_error A) : prog A := fun st =>
  let r := m st.2 in ((st.1, r.1), map_err Some r.2).

Definition fails {A} (e : api_error) : prog A := sfail (Some e).

(** A run with a budget of awaits: the state and the answer. *)
Definition run_for {A} (n : nat) (p : prog A) (s : app) : app * result (option api_error) A :=
  let r := p (n, s) in (r.1.2, r.2).

(** What holds after a run that answers, and after one that fails or is dropped. *)
Definition hoare {A} (P : app -> Prop) (p : prog A) (Q : A -> app -> Prop) (E : app -> Prop) : Prop :=
  forall n s, P s ->
  match (p (n, s)).2 with Ok a => Q a (p (n, s)).1.2 | Err _ => E (p (n, s)).1.2 end.

Lemma hoare_ret {A} (P : app -> Prop) (a : A) (Q : A -> app -> Prop) E :
  (forall s, P s -> Q a s) -> hoare P (sret a) Q E.
Proof. intros HQ n s Hs. by apply HQ. Qed.

Lemma hoare_fail {A} (P E : app -> Prop) e (Q : A -> app -> Prop) :
  (forall s, P s -> E s) -> hoare P (sfail e) Q E.
Proof. intros HE n s Hs. by apply HE. Qed.

Lemma hoare_bind {A B} P (p : prog A) (k : A -> prog B) Q R E :
  hoare P p Q E -> (forall a, hoare (Q a) (k a) R E) -> hoare P (sbind p k) R E.
Proof.
  intros Hp Hk n s Hs. specialize (Hp n s Hs). unfold sbind.
  destruct (p (n, s)) as [[n' s'] [a|e]]; cbn [fst snd] in *; [|done]. by apply Hk.
Qed.

Lemma hoare_await (P E : app -> Prop) :
  (forall s, P s -> E s) -> hoare P await (fun _ => P) E.
Proof. intros HE n s Hs. destruct n; cbn; auto. Qed.

Lemma hoare_atomically {A} (P E : app -> Prop) (m : SE app api_error A) (Q : A -> app -> Prop) :
  (forall s, P s -> match (m s).2 with Ok a => Q a (m s).1 | Err _ => E (m s).1 end) ->
  hoare P (atomically m) Q E.
Proof. intros Hm n s Hs. specialize (Hm s Hs). cbn. by destruct (m s) as [s' [a|e]]. Qed.

Lemma hoare_lift {A} (P E : app -> Prop) (r : result (option api_error) A) (Q : A -> app -> Prop) :
  (forall s a, P s -> r = Ok a -> Q a s) -> (forall s, P s -> E s) -> hoare P (slift r) Q E.
Proof. intros HQ HE n s Hs. cbn. destruct r; [by apply HQ|by apply HE]. Qed.

Lemma hoare_pre {A} (P P' : app -> Prop) (p : prog A) Q E :
  (forall s, P s -> P' s) -> hoare P' p Q E -> hoare P p Q E.
Proof. intros Hi Hp n s Hs. by apply Hp, Hi. Qed.

End Async.

(** ** incident.rs *)
Module Incidents.
Import Common.Incident IncidentJson Auth.Auth AppState.AppState Async.

Definition break_glass_dir : string := "break-glass".
Definition incident_state_path : string := "incident-state.json".
Definition cred_path (id : string) : string := path_join break_glass_dir (id +:+ ".json").

(** Where a write of the state file stops: not at all, at the opening, in the text. *)
Inductive write_stop := Written | NotOpened | StoppedAfter (n : nat).

Section incidents.
Context `{!JsonText, !TimeText, !Sha256}.

Definition persist_incident (w : write_stop) (i : IncidentState) : SE fs io_err unit := fun f =>
  match w with
  | Written => swrite None incident_state_path (json_pretty (incident_json i)) f
  | NotOpened => (f, Err WriteFailed)
  | StoppedAfter n => swrite (Some n) incident_state_path (json_pretty (incident_json i)) f
  end.

Definition load_incident_on_start (f : fs) : option IncidentState :=
  match read f incident_state_path with
  | Ok b => json_parse b ≫= incident_of
  | Err _ => None
  end.

(** The change in memory that [transition_phase] makes before it writes the file. *)
Definition enter_phase (now : Z) (p : IncidentPhase) (by_ : string) (note : option string)
    (i : IncidentState) : IncidentState :=
  let log := phase_log i ++ [{| pe_phase := p; pe_at := now; pe_by := by_; pe_note := note |}] in
  if decide (p = Resolved) then
    {| id := id i; declared_at := declared_at i; declared_by := declared_by i; reason := reason i;
       phase := p; Common.Incident.audit_frozen := false; resolved_at := Some now; resolution_summary := note;
       phase_log := log; webhook_urls := webhook_urls i |}
  else
    {| id := id i; declared_at := declared_at i; declared_by := declared_by i; reason := reason i;
       phase := p; Common.Incident.audit_frozen := Common.Incident.audit_frozen i; resolved_at := resolved_at i;
       resolution_summary := resolution_summary i; phase_log := log;
       webhook_urls := webhook_urls i |}.

Definition transition_phase (w : write_stop) (now : Z) (p : IncidentPhase) (by_ : string)
    (note : option string) (i : IncidentState) : prog unit :=
  let i := enter_phase now p by_ note i in
  do! _ := atomically (smodify (fun s => set_incident s (Some i))) in
  do! r := atomically (fun s =>
    let r := persist_incident w i (data s) in (set_data s r.1, Ok r.2)) in
  do! _ := await in
  match r with Ok _ => sret tt | Err _ => fails Internal end.

(** No request is sent without a URL. *)
Definition notify_webhooks (i : IncidentState) : prog unit :=
  match webhook_urls i with [] => sret tt | _ => await end.

(** [{:08x}] of a [u32]. *)
Definition hex8 (n : Z) : string :=
  let d := HoldApi.hex_u64 n in Nat.iter (8 - String.length d) (String "0"%char) d.

(** The first bytes of a digest, from its hexadecimal text, as a UUID. *)
Definition uuid_of_hex (h : string) : string :=
  stake 8 h +:+ "-" +:+ stake 4 (sdrop 8 h) +:+ "-" +:+ stake 4 (sdrop 12 h) +:+ "-"
  +:+ stake 4 (sdrop 16 h) +:+ "-" +:+ stake 12 (sdrop 20 h).

(** [nanos] is the part of the clock below a second, [pid] the process. *)
Definition generate_break_glass_cred (purpose : string) (nanos pid now : Z)
    : string * BreakGlassCred :=
  let raw := "bglass-" +:+ purpose +:+ "-" +:+ hex8 nanos +:+ "-" +:+ hex8 pid in
  let token := "bg1_" +:+ stake 32 (sha256_hex (raw +:+ "-token")) in
  (token, {| bg_id := uuid_of_hex (sha256_hex raw); purpose := purpose;
             token_hash := sha256_hex token; created_at := now; used_at := None;
             used_by := None |}).

Definition parse_cred (b : string) : option BreakGlassCred := json_parse b ≫= cred_of.

Definition load_break_glass_creds (f : fs) : list BreakGlassCred :=
  omap parse_cred (json_files break_glass_dir f).

(** The write may fail at the opening or in the text. *)
Definition save_break_glass_cred (w : write_stop) (c : BreakGlassCred) : SE fs io_err unit := fun f =>
  match w with
  | Written => swrite None (cred_path (bg_id c)) (json_pretty (cred_json c)) f
  | NotOpened => (f, Err WriteFailed)
  | StoppedAfter n => swrite (Some n) (cred_path (bg_id c)) (json_pretty (cred_json c)) f
  end.

Inductive cred_err := TokenNotFound | TokenUsed | NotSaved.

Definition consumed (c : BreakGlassCred) (now : Z) (by_ : string) : BreakGlassCred :=
  {| bg_id := bg_id c; purpose := purpose c; token_hash := token_hash c;
     created_at := created_at c; used_at := Some now; used_by := Some by_ |}.

(** [verify_and_consume_break_glass] up to its write: what it reads, finds and marks as
    used, in memory. No lock is held between this and the write. *)
Definition verify_break_glass (token used_by : string) (now : Z) (f : fs) : result cred_err BreakGlassCred :=
  let hash := sha256_hex token in
  let? matched := ok_or
    (List.find (fun c => String.eqb (token_hash c) hash) (load_break_glass_creds f)) TokenNotFound in
  if is_used matched then Err TokenUsed else Ok (consumed matched now used_by).

Definition verify_and_consume_break_glass (w : write_stop) (token used_by : string) (now : Z)
    : SE fs cred_err BreakGlassCred :=
  do! f := sget in
  do! c := slift (verify_break_glass token used_by now f) in
  do! _ := (fun f => let r := save_break_glass_cred w c f in (r.1, map_err (fun _ => NotSaved) r.2)) in
  sret c.

(** Requests that are handled one after another. *)
Inductive bg_request :=
| Generate (why : string) (nanos pid now : Z) (w : write_stop)
| Present (token by_ : string) (now : Z) (w : write_stop).

(** How often a credential with this hash of its token is accepted. *)
Fixpoint uses (hash : string) (l : list bg_request) (f : fs) : nat :=
  match l with
  | [] => 0
  | Generate why nanos pid now w :: l =>
    uses hash l (save_break_glass_cred w (generate_break_glass_cred why nanos pid now).2 f).1
  | Present token by_ now w :: l =>
    let r := verify_and_consume_break_glass w token by_ now f in
    (match r.2 with Ok c => if String.eqb (token_hash c) hash then 1 else 0 | Err _ => 0 end + uses hash l r.1)%nat
  end.

(** ** Break-glass credentials: lemmas *)

Lemma in_creds f c :
  fs_wf f ->
  In c (load_break_glass_creds f) <->
  exists p b, json_child break_glass_dir p = true /\ content_at f p = Some b /\ parse_cred b = Some c.
Proof.
  intros Hf. unfold load_break_glass_creds. rewrite <- list_elem_of_In, list_elem_of_omap.
  setoid_rewrite list_elem_of_In. setoid_rewrite in_json_files; [|done]. naive_solver.
Qed.

(** The file of a credential bears its identifier. *)
Definition creds_named (f : fs) : Prop := forall p b c,
  json_child break_glass_dir p = true -> content_at f p = Some b -> parse_cred b = Some c ->
  p = cred_path (bg_id c).

Lemma parse_saved c : parse_cred (json_pretty (cred_json c)) = Some c.
Proof.
  unfold parse_cred. rewrite json_parse_pretty by apply cred_json_wf. simpl. apply cred_round.
Qed.

(** A write that stops in the text leaves one that does not parse. *)
Lemma parse_torn c n x : parse_cred (stake n (json_pretty (cred_json c))) = Some x -> x = c.
Proof.
  destruct (Nat.ltb_spec n (String.length (json_pretty (cred_json c)))) as [Hlt|Hge].
  - unfold parse_cred. unfold cred_json in *. by rewrite json_pretty_prefix.
  - rewrite stake_all by done. rewrite parse_saved. by intros [= ->].
Qed.

(** What a save does to the files. *)
Lemma save_content w c f p :
  fs_wf f -> let g := (save_break_glass_cred w c f).1 in
  fs_wf g /\ (p <> cred_path (bg_id c) -> content_at g p = content_at f p) /\
  (content_at g (cred_path (bg_id c)) = content_at f (cred_path (bg_id c)) \/
   exists b, content_at g (cred_path (bg_id c)) = Some b /\ forall x, parse_cred b = Some x -> x = c) /\
  (is_ok (save_break_glass_cred w c f).2 = true ->
   content_at g (cred_path (bg_id c)) = Some (json_pretty (cred_json c))).
Proof.
  intros Hf. destruct w as [| |n]; cbn [save_break_glass_cred swrite fst snd is_ok].
  - rewrite !content_at_std_write by done. rewrite (decide_True (P := cred_path _ = cred_path _)) by done.
    split; [by apply std_write_wf|]. split; [intros Hn; by rewrite decide_False by congruence|]. split; [|done].
    right. eexists. split; [done|]. intros x. rewrite parse_saved. by intros [= ->].
  - split; [done|]. split; [done|]. split; [by left|done].
  - rewrite !content_at_std_write by done. rewrite (decide_True (P := cred_path _ = cred_path _)) by done.
    split; [by apply std_write_wf|]. split; [intros Hn; by rewrite decide_False by congruence|]. split; [|done].
    right. eexists. split; [done|]. apply parse_torn.
Qed.

Lemma save_wf w c f : fs_wf f -> fs_wf (save_break_glass_cred w c f).1.
Proof. intros Hf. by apply (save_content w c f "" Hf). Qed.

Lemma save_named w c f : fs_wf f -> creds_named f -> creds_named (save_break_glass_cred w c f).1.
Proof.
  intros Hf Hn p b x Hj Hb Hx. destruct (save_content w c f p Hf) as (_ & Ho & Hs & _).
  destruct (decide (p = cred_path (bg_id c))) as [->|Hne].
  - destruct Hs as [Hs|(b' & Hs & Hp)]; rewrite Hs in Hb; [by apply (Hn _ b)|].
    injection Hb as ->. by rewrite (Hp x Hx).
  - rewrite Ho in Hb by done. by apply (Hn _ b).
Qed.

(** The credentials after a save: the one that was saved, or those before; after one that
    succeeds, only those before with another identifier. *)
Lemma in_saved_creds w c f x :
  fs_wf f -> creds_named f -> In x (load_break_glass_creds (save_break_glass_cred w c f).1) ->
  x = c \/ In x (load_break_glass_creds f) /\
    (is_ok (save_break_glass_cred w c f).2 = true -> bg_id x <> bg_id c).
Proof.
  intros Hf Hn. destruct (save_content w c f "" Hf) as (Hw & _ & _ & Hok).
  rewrite in_creds by done. intros (p & b & Hp & Hb & Hx).
  destruct (save_content w c f p Hf) as (_ & Ho & Hs & _).
  destruct (decide (p = cred_path (bg_id c))) as [->|Hne].
  - destruct (is_ok (save_break_glass_cred w c f).2) eqn:Ek.
    + rewrite (Hok eq_refl) in Hb. injection Hb as <-. rewrite parse_saved in Hx. injection Hx as ->. by left.
    + destruct Hs as [Hs|(b' & Hs & Hpc)]; rewrite Hs in Hb; [|injection Hb as ->; left; by apply Hpc].
      right. split; [apply in_creds; [done|]; by eexists _, b|done].
  - rewrite Ho in Hb by done. right. split; [apply in_creds; [done|]; by exists p, b|].
    intros _ E. apply Hne. rewrite <- E. by apply (Hn p b).
Qed.

(** No usable credential has this token; all that have it are one. *)
Definition spent (hash : string) (f : fs) : Prop := forall c,
  In c (load_break_glass_creds f) -> token_hash c = hash -> is_used c = true.

Definition lone (hash : string) (f : fs) : Prop := forall x y,
  In x (load_break_glass_creds f) -> In y (load_break_glass_creds f) ->
  token_hash x = hash -> token_hash y = hash -> bg_id x = bg_id y.

Lemma verified token by_ now f c : verify_break_glass token by_ now f = Ok c ->
  exists m, In m (load_break_glass_creds f) /\ token_hash m = sha256_hex token /\ is_used m = false /\
    c = consumed m now by_.
Proof.
  unfold verify_break_glass. destruct (List.find _ _) as [m|] eqn:E; cbn [ok_or rbind]; [|done].
  apply List.find_some in E as [Hi He%String.eqb_eq]. destruct (is_used m) eqn:Eu; [done|]. intros [= <-].
  by exists m.
Qed.

(** What a presentation does: nothing, or a save of a credential that was found. *)
Lemma present_spec w token by_ now f :
  verify_and_consume_break_glass w token by_ now f =
  match verify_break_glass token by_ now f with
  | Err e => (f, Err e)
  | Ok c => ((save_break_glass_cred w c f).1,
             match (save_break_glass_cred w c f).2 with Ok _ => Ok c | Err _ => Err NotSaved end)
  end.
Proof.
  unfold verify_and_consume_break_glass, sbind, sget, slift, sret.
  destruct (verify_break_glass token by_ now f) as [c|e]; [|done].
  by destruct (save_break_glass_cred w c f) as [g [[]|x]].
Qed.

(** The state of a run, and that it is kept when credentials of other tokens are saved or
    when one that was found is marked as used. *)
Definition bg_inv (f : fs) : Prop := fs_wf f /\ creds_named f.

Lemma save_lone h w c f : bg_inv f -> lone h f ->
  (token_hash c = h -> exists m, In m (load_break_glass_creds f) /\ token_hash m = h /\ bg_id m = bg_id c) ->
  bg_inv (save_break_glass_cred w c f).1 /\ lone h (save_break_glass_cred w c f).1.
Proof.
  intros [Hf Hn] Hl Hc. split; [split; [by apply save_wf|by apply save_named]|].
  intros x y Hx Hy Htx Hty.
  apply in_saved_creds in Hx as [->|[Hx _]]; [| |done..]; apply in_saved_creds in Hy as [->|[Hy _]]; try done.
  - destruct (Hc Htx) as (m & Hm & Hh & <-). by apply Hl.
  - destruct (Hc Hty) as (m & Hm & Hh & <-). by apply Hl.
  - by apply Hl.
Qed.

Lemma save_spent h w c f : bg_inv f -> spent h f -> (token_hash c = h -> is_used c = true) ->
  spent h (save_break_glass_cred w c f).1.
Proof.
  intros [Hf Hn] Hs Hc x Hx Ht. apply in_saved_creds in Hx as [->|[Hx _]]; [by apply Hc|by apply Hs|done..].
Qed.

Lemma consumed_used h m now by_ : token_hash (consumed m now by_) = h -> is_used (consumed m now by_) = true.
Proof. done. Qed.

(** Credentials with other tokens are generated. *)
Definition others (h : string) (l : list bg_request) : Prop := forall why nanos pid now w,
  In (Generate why nanos pid now w) l -> token_hash (generate_break_glass_cred why nanos pid now).2 <> h.

Lemma others_cons h q l : others h (q :: l) -> others h l.
Proof. intros Ho why nanos pid now w Hin. apply (Ho why nanos pid now w). by right. Qed.

Lemma uses_spent h l f : others h l -> bg_inv f -> lone h f -> spent h f -> uses h l f = 0%nat.
Proof.
  revert f. induction l as [|q l IH]; intros f Ho Hi Hl Hs; [done|]. pose proof (others_cons _ _ _ Ho) as Ho'.
  destruct q as [why nanos pid now w|token by_ now w]; cbn [uses].
  - assert (token_hash (generate_break_glass_cred why nanos pid now).2 <> h) as Hne by (apply (Ho _ _ _ _ w); by left).
    destruct (save_lone h w (generate_break_glass_cred why nanos pid now).2 f Hi Hl) as [Hi' Hl']; [done|].
    apply IH; try done. by apply save_spent.
  - rewrite present_spec. destruct (verify_break_glass token by_ now f) as [c|e] eqn:E; cbn [fst snd]; [|by apply IH].
    apply verified in E as (m & Hm & Hh & Hu & ->).
    destruct (save_lone h w (consumed m now by_) f Hi Hl) as [Hi' Hl']; [intros Ht; by exists m|].
    rewrite IH; [|done|done|done|by apply save_spent].
    destruct (save_break_glass_cred w _ f).2; [|done]. cbn [token_hash consumed].
    destruct (String.eqb_spec (token_hash m) h) as [Ht|]; [|done]. by rewrite (Hs m Hm Ht) in Hu.
Qed.

Lemma uses_once h l f : others h l -> bg_inv f -> lone h f -> (uses h l f <= 1)%nat.
Proof.
  revert f. induction l as [|q l IH]; intros f Ho Hi Hl; [simpl; lia|]. pose proof (others_cons _ _ _ Ho) as Ho'.
  destruct q as [why nanos pid now w|token by_ now w]; cbn [uses].
  - assert (token_hash (generate_break_glass_cred why nanos pid now).2 <> h) as Hne by (apply (Ho _ _ _ _ w); by left).
    destruct (save_lone h w (generate_break_glass_cred why nanos pid now).2 f Hi Hl) as [Hi' Hl']; [done|].
    by apply IH.
  - rewrite present_spec. destruct (verify_break_glass token by_ now f) as [c|e] eqn:E; cbn [fst snd]; [|by apply IH].
    apply verified in E as (m & Hm & Hh & Hu & ->). set (c := consumed m now by_).
    destruct (save_lone h w c f Hi Hl) as [Hi' Hl']; [intros Ht; by exists m|].
    destruct (save_break_glass_cred w c f) as [g r] eqn:Es. cbn [fst snd] in *.
    destruct r as [u|x]; [|by apply IH]. destruct (String.eqb_spec (token_hash c) h) as [Ht|]; [|by apply IH].
    rewrite uses_spent; [lia|done|done|done|]. intros x Hx Hxt.
    destruct (in_saved_creds w c f x) as [->|[Hx' Hid]]; [apply Hi|apply Hi|by rewrite Es|done|].
    exfalso. rewrite Es in Hid. apply (Hid eq_refl). change (bg_id c) with (bg_id m). by apply Hl.
Qed.

Lemma has_char_hex c s :
  string_forall (fun b => in_range 48 57 b || in_range 97 102 b) s = true ->
  in_range 48 57 c || in_range 97 102 c = false -> has_char c s = false.
Proof.
  intros Hs Hc. induction s as [|d s IH]; [done|]. simpl in *. apply andb_true_iff in Hs as [Hd Hs].
  rewrite IH by done. rewrite orb_false_r. apply Ascii.eqb_neq. intros ->. congruence.
Qed.

Lemma stake_forall g n s : string_forall g s = true -> string_forall g (stake n s) = true.
Proof.
  revert n. induction s as [|c s IH]; intros [|n] Hs; simpl in *; try done.
  apply andb_true_iff in Hs as [-> Hs]. by apply IH.
Qed.

Lemma sdrop_forall g n s : string_forall g s = true -> string_forall g (sdrop n s) = true.
Proof.
  revert n. induction s as [|c s IH]; intros [|n] Hs; simpl in *; try done.
  apply andb_true_iff in Hs as [_ Hs]. by apply IH.
Qed.

Lemma generated_path why nanos pid now :
  json_child break_glass_dir (cred_path (bg_id (generate_break_glass_cred why nanos pid now).2)) = true.
Proof.
  unfold generate_break_glass_cred. cbn [snd bg_id].
  set (raw := "bglass-" +:+ _).
  pose proof (sha256_hex_ok raw) as Hok. unfold Secure.is_sha256_hex in Hok.
  apply andb_true_iff in Hok as [_ Hd]. unfold cred_path, uuid_of_hex. apply json_child_join.
  - intros He. apply (f_equal String.length) in He. rewrite !string_length_app in He. simpl in He. lia.
  - rewrite !has_char_app. change (has_char "/" "-") with false. rewrite !(has_char_hex "/") by (done || auto using stake_forall, sdrop_forall).
    done.
Qed.

(** A credential that was just saved, and is the only one with its token, is found. *)
Lemma found_saved c tok by_ now f :
  fs_wf f -> creds_named f -> json_child break_glass_dir (cred_path (bg_id c)) = true ->
  token_hash c = sha256_hex tok -> is_used c = false ->
  (forall x, In x (load_break_glass_creds f) -> token_hash x <> token_hash c) ->
  verify_break_glass tok by_ now (save_break_glass_cred Written c f).1 = Ok (consumed c now by_).
Proof.
  intros Hf Hn Hj Ht Hu Hfresh. unfold verify_break_glass. set (g := (save_break_glass_cred Written c f).1).
  assert (In c (load_break_glass_creds g)) as Hin.
  { destruct (save_content Written c f "" Hf) as (Hw & _ & _ & Hok). apply in_creds; [done|].
    eexists _, _. split; [exact Hj|]. split; [by apply Hok|]. apply parse_saved. }
  destruct (List.find _ _) as [x|] eqn:E.
  - apply List.find_some in E as [Hx He%String.eqb_eq]. cbn [ok_or rbind].
    destruct (in_saved_creds Written c f x Hf Hn Hx) as [->|[Hx' _]]; [by rewrite Hu|].
    destruct (Hfresh x Hx'). congruence.
  - pose proof (List.find_none _ _ E c Hin) as Hx. simpl in Hx. by rewrite Ht, String.eqb_refl in Hx.
Qed.

(** ** Properties *)

(** C10: A break-glass token, generated when no other credential had it. Presented to the
    file that was just written, it is accepted. In any sequence of requests that are
    handled one after another, with writes that fail at the opening or in the text, it
    is accepted once at most, as long as no other credential with the same token is
    generated. But reading and marking are two steps without a lock: of two requests
    that both read before one of them writes, both are accepted. *)
Theorem break_glass_once_in_sequence why nanos pid t f :
  fs_wf f -> creds_named f ->
  let cred := (generate_break_glass_cred why nanos pid t).2 in
  let tok := (generate_break_glass_cred why nanos pid t).1 in
  (forall c, In c (load_break_glass_creds f) -> token_hash c <> token_hash cred) ->
  let f1 := (save_break_glass_cred Written cred f).1 in
  (forall by_ now, (verify_and_consume_break_glass Written tok by_ now f1).2 = Ok (consumed cred now by_)) /\
  (forall l, others (token_hash cred) l -> (uses (token_hash cred) l f1 <= 1)%nat) /\
  (forall by1 now1 by2 now2, exists c1 c2 f2 f3,
     verify_break_glass tok by1 now1 f1 = Ok c1 /\ verify_break_glass tok by2 now2 f1 = Ok c2 /\
     save_break_glass_cred Written c1 f1 = (f2, Ok tt) /\ save_break_glass_cred Written c2 f2 = (f3, Ok tt)).
Proof.
  intros Hf Hn cred tok Hfresh f1.
  assert (forall by_ now, verify_break_glass tok by_ now f1 = Ok (consumed cred now by_)) as Hfound.
  { intros by_ now. apply found_saved; try done. apply generated_path. }
  split; [|split].
  - intros by_ now. by rewrite present_spec, Hfound.
  - intros l Hl. apply uses_once; [done| |].
    + split; [by apply save_wf|by apply save_named].
    + intros x y Hx Hy Htx Hty.
      destruct (in_saved_creds Written cred f x Hf Hn Hx) as [->|[Hx' _]]; [|by destruct (Hfresh x Hx')].
      destruct (in_saved_creds Written cred f y Hf Hn Hy) as [->|[Hy' _]]; [done|by destruct (Hfresh y Hy')].
  - intros by1 now1 by2 now2. eexists _, _, _, _. split; [by apply Hfound|]. split; [by apply Hfound|]. by split.
Qed.

End incidents.

End Incidents.

(** ** forensic.rs and routes/incident.rs *)
Module IncidentApi.
Import Common.Incident IncidentJson Auth.Auth AppState.AppState Async Incidents.

(** What a snapshot reads of other components: models, sequence number, version. *)
Record runtime_info := {
  ri_models : list (string * string);
  ri_audit_seq : Z;
  ri_version : string;
}.

Inductive incident_request :=
| Declaration (why : string) (urls : list string)
| Investigate (note : option string)
| Resolve (summary : string)
| Snapshot (info : runtime_info) (stamp : string)
| BgGenerate (why : string) (nanos pid : Z)
| BgUse (token : string).

Section routes.
Context `{!Rfc3339, !DateTimeText, !JsonText, !TimeText, !Sha256}.

Definition new_incident_id (t : Z) : string := "INC-" +:+ HoldApi.hex_u64 (t / ns_per_s).

(** The extractor, then the check of the permission. *)
Definition manager (h : headers) (now : Z) : prog Common.User.User :=
  do! user := atomically (on_auth (user_ctx h now)) in
  do! _ := await in
  do! _ := slift (map_err Some (require user Common.User.IncidentManage)) in
  sret user.

(** [sum::<u32>()], which wraps. *)
Definition sessions_in_use (m : gmap string WorkspaceUsage) : Z :=
  map_fold (fun _ u acc => (concurrent u + acc) mod 2 ^ 32) 0 m.

Definition declare (h : headers) (why : string) (urls : list string) (w : write_stop) (now : Z)
    : prog string :=
  do! user := manager h now in
  do! _ := await in
  do! s := atomically sget in
  if match incident s with Some i => negb (bool_decide (phase i = Resolved)) | None => false end
  then fails BadRequest else
  do! _ := atomically (smodify (fun s => set_frozen s true)) in
  let uid := new_incident_id now in
  let i := Common.Incident.new now uid (Common.User.username user) why urls in
  do! _ := atomically (fun s => let r := persist_incident w i (data s) in (set_data s r.1, Ok tt)) in
  do! _ := await in
  do! _ := notify_webhooks i in
  do! _ := await in
  do! s := atomically sget in
  do! _ := atomically (audit_append MainLog (Common.User.username user)
    (Events.IncidentDeclared uid (Common.User.username user) why (sessions_in_use (workspace_usage s)))) in
  do! _ := await in
  do! _ := atomically (audit_append MainLog (Common.User.username user)
    (Events.AuditFrozen uid (Common.User.username user))) in
  do! _ := await in
  do! _ := atomically (smodify (fun s => set_incident s (Some i))) in
  sret uid.

Definition investigate (h : headers) (note : option string) (w : write_stop) (now : Z)
    : prog string :=
  do! user := manager h now in
  do! _ := await in
  do! s := atomically sget in
  do! i := slift (ok_or (incident s) (Some NotFound)) in
  if negb (bool_decide (phase i = Declared)) then fails BadRequest else
  do! _ := transition_phase w now Investigating (Common.User.username user) note i in
  do! _ := atomically (audit_append MainLog (Common.User.username user)
    (Events.IncidentPhaseChanged (id i) (phase_str (phase i)) "investigating"
       (Common.User.username user) note)) in
  do! _ := await in
  sret (id i).

Definition resolve (h : headers) (summary : string) (w : write_stop) (now : Z) : prog string :=
  do! user := manager h now in
  do! _ := await in
  do! s := atomically sget in
  do! i := slift (ok_or (incident s) (Some NotFound)) in
  do! _ := transition_phase w now Resolved (Common.User.username user) (Some summary) i in
  do! _ := atomically (smodify (fun s => set_frozen s false)) in
  do! _ := atomically (audit_append MainLog (Common.User.username user)
    (Events.IncidentPhaseChanged (id i) (phase_str (phase i)) "resolved"
       (Common.User.username user) (Some summary))) in
  do! _ := await in
  do! _ := atomically (audit_append MainLog (Common.User.username user)
    (Events.AuditUnfrozen (id i) (Common.User.username user))) in
  do! _ := await in
  do! _ := atomically (audit_append MainLog (Common.User.username user)
    (Events.IncidentResolved (id i) (Common.User.username user) summary)) in
  do! _ := await in
  do! _ := notify_webhooks i in
  sret (id i).

(** The answer of [status]: whether an incident is active, and the flag. *)
Definition status (s : app) : bool * bool :=
  (match incident s with Some i => negb (bool_decide (phase i = Resolved)) | None => false end,
   audit_frozen s).

Definition snapshot_dir : string := "forensic-snapshots".

Definition snapshot_json (s : app) (info : runtime_info) (incident_id : string) (now : Z) : json :=
  to_value (JObj
    [("incident_id", JStr incident_id); ("captured_at", JStr (ts_print now));
     ("daemon_version", JStr (ri_version info)); ("isolation_ok", JBool (isolation_ok s));
     ("audit_seq", JInt (ri_audit_seq info));
     ("models_loaded", JArr ((fun m => JObj [("id", JStr m.1); ("sha256", JStr m.2)]) <$> ri_models info));
     ("workspaces", JArr ((fun w => JStr (Common.Workspace.slug w)) <$>
        WorkspaceDb.WorkspaceDb.list_workspaces now (WorkspaceApi.WorkspaceApi.ws_db (wsv s))));
     ("air_gap", JBool (air_gap (rt s))); ("log_prompts", JBool (log_prompts (rt s)))]).

(** The path of the file and the digest of its content. [stamp] is the time as the
    file's name has it. *)
Definition take_snapshot (info : runtime_info) (stamp incident_id : string) (now : Z)
    : SE app api_error (string * string) := fun s =>
  let text := json_pretty (snapshot_json s info incident_id now) in
  let path := path_join snapshot_dir (stamp +:+ "-" +:+ incident_id +:+ ".json") in
  (set_data s (std_write (data s) path text), Ok (path, sha256_hex text)).

Definition snapshot (h : headers) (info : runtime_info) (stamp : string) (now : Z)
    : prog (string * string) :=
  do! user := manager h now in
  do! _ := await in
  do! s := atomically sget in
  let incident_id := match incident s with Some i => id i | None => "manual" end in
  do! _ := await in
  do! r := atomically (take_snapshot info stamp incident_id now) in
  do! _ := atomically (audit_append MainLog (Common.User.username user)
    (Events.ForensicSnapshot incident_id r.1 r.2)) in
  do! _ := await in
  sret r.

Definition bg_generate (h : headers) (why : string) (nanos pid : Z) (w : write_stop) (now : Z)
    : prog (string * string) :=
  do! user := manager h now in
  let c := generate_break_glass_cred why nanos pid now in
  do! _ := atomically (on_data internal (save_break_glass_cred w c.2)) in
  sret (bg_id c.2, c.1).

(** The verification and its write are one step here, with no suspension point between
    them; other threads of the server may run between them all the same. *)
Definition bg_use (h : headers) (token : string) (w : write_stop) (now : Z) : prog BreakGlassCred :=
  do! user := manager h now in
  do! c := atomically (on_data bad_request
    (verify_and_consume_break_glass w token (Common.User.username user) now)) in
  do! _ := atomically (audit_append MainLog (Common.User.username user)
    (Events.BreakGlassUsed (bg_id c) (Common.User.username user) (purpose c))) in
  do! _ := await in
  sret c.

Definition handle_incident (h : headers) (req : incident_request) (w : write_stop) (now : Z)
    : prog unit :=
  match req with
  | Declaration why urls => do! _ := declare h why urls w now in sret tt
  | Investigate note => do! _ := investigate h note w now in sret tt
  | Resolve summary => do! _ := resolve h summary w now in sret tt
  | Snapshot info stamp => do! _ := snapshot h info stamp now in sret tt
  | BgGenerate why nanos pid => do! _ := bg_generate h why nanos pid w now in sret tt
  | BgUse token => do! _ := bg_use h token w now in sret tt
  end.

(** The daemon's start: the incident comes from the file, the flag from the incident. *)
Definition restart (s : app) : app :=
  let recovered := load_incident_on_start (data s) in
  let frozen := match recovered with Some i => Common.Incident.audit_frozen i | None => false end in
  set_usage (set_limit (set_frozen (set_incident s recovered) frozen) ∅) ∅.

(** ** The invariant *)

Definition allowed (p q : IncidentPhase) : bool :=
  match p, q with
  | Declared, Investigating | Declared, Resolved | Investigating, Resolved | Resolved, Resolved => true
  | _, _ => false
  end.

Fixpoint follows (p : IncidentPhase) (l : list IncidentPhase) : bool :=
  match l with [] => true | q :: l => allowed p q && follows q l end.

(** The log starts with the declaration, follows the order of the phases and ends in
    the current one; the incident is frozen, and not resolved, until it is resolved. *)
Definition incident_ok (i : IncidentState) : Prop :=
  (exists l, pe_phase <$> phase_log i = Declared :: l /\ follows Declared l = true /\
             phase i = List.last (Declared :: l) Declared) /\
  (Common.Incident.audit_frozen i = true <-> phase i <> Resolved) /\
  (resolved_at i = None <-> phase i <> Resolved).

Definition app_ok (s : app) : Prop :=
  fs_wf (data s) /\
  (forall i, incident s = Some i -> incident_ok i /\ (phase i <> Resolved -> audit_frozen s = true)) /\
  (forall i, load_incident_on_start (data s) = Some i -> incident_ok i).

Lemma new_ok now i by_ why urls : incident_ok (Common.Incident.new now i by_ why urls).
Proof. split; [by exists []|]. by repeat split. Qed.

Lemma last_snoc {A} (l : list A) x d : List.last (l ++ [x]) d = x.
Proof. apply List.last_last. Qed.

Lemma last_default {A} (z : A) l d d' : List.last (z :: l) d = List.last (z :: l) d'.
Proof. revert z. induction l as [|w l IH]; intros z; [done|]. apply (IH w). Qed.

Lemma follows_snoc p l q :
  follows p l = true -> allowed (List.last (p :: l) p) q = true -> follows p (l ++ [q]) = true.
Proof.
  revert p. induction l as [|x l IH]; intros p; cbn [follows List.app].
  - intros _. simpl. by intros ->.
  - intros [Hx Hl]%andb_true_iff Hq. rewrite Hx. simpl. apply IH; [done|].
    change (List.last (p :: x :: l) p) with (List.last (x :: l) p) in Hq.
    by rewrite (last_default x l x p).
Qed.

Lemma enter_ok now p by_ note i :
  incident_ok i -> allowed (phase i) p = true -> incident_ok (enter_phase now p by_ note i).
Proof.
  intros ((l & Hl & Hf & Hp) & Hfr & Hr) Ha. unfold enter_phase.
  assert (exists l', (pe_phase <$> phase_log i ++ [{| pe_phase := p; pe_at := now; pe_by := by_;
      pe_note := note |}]) = Declared :: l' /\ follows Declared l' = true /\
      p = List.last (Declared :: l') Declared) as Hlog.
  { exists (l ++ [p]). rewrite fmap_app, Hl. split; [done|]. split.
    - apply follows_snoc; [done|]. by rewrite <- Hp.
    - symmetry. apply (last_snoc (Declared :: l)). }
  destruct (decide (p = Resolved)) as [->|Hne]; (split; [exact Hlog|]); cbn.
  - by repeat split.
  - assert (phase i <> Resolved) as Hni by (intros He; rewrite He in Ha; by destruct p).
    split; (split; [done|]); intros _; tauto.
Qed.

(** Writing the file: the old content, the new one, or one that does not read. *)
Lemma persist_ok w i f :
  fs_wf f -> incident_ok i -> (forall j, load_incident_on_start f = Some j -> incident_ok j) ->
  fs_wf (persist_incident w i f).1 /\
  forall j, load_incident_on_start (persist_incident w i f).1 = Some j -> incident_ok j.
Proof.
  intros Hf Hi Hold. unfold persist_incident, swrite.
  destruct w as [| |n]; cbn [fst]; [|done|]; (split; [by apply std_write_wf|]);
    intros j; unfold load_incident_on_start; rewrite read_std_write by done.
  - rewrite json_parse_pretty by apply incident_json_wf. simpl. rewrite incident_round.
    by intros [= <-].
  - destruct (decide (n < String.length (json_pretty (incident_json i)))%nat) as [Hlt|Hge].
    + unfold incident_json at 1. rewrite json_pretty_prefix by done. done.
    + assert (stake n (json_pretty (incident_json i)) = json_pretty (incident_json i)) as ->.
      { apply stake_all. lia. }
      rewrite json_parse_pretty by apply incident_json_wf. simpl. rewrite incident_round.
      by intros [= <-].
Qed.

Lemma hoare_persist w i (P : app -> Prop) :
  hoare (fun s => app_ok s /\ incident_ok i /\ P s)
    (atomically (fun s => let r := persist_incident w i (data s) in (set_data s r.1, Ok r.2)))
    (fun _ s => app_ok s /\ exists s0, P s0 /\ s = set_data s0 (data s)) app_ok.
Proof.
  apply hoare_atomically. intros s ((Hf & Hi & Hl) & Hok & HP). cbn [fst snd].
  destruct (persist_ok w i (data s) Hf Hok Hl) as [Hf' Hl']. split; [by split|].
  exists s. split; [done|]. done.
Qed.

(** The other files that the handlers write. *)
Lemma path_join_start d n :
  path_join d n = d +:+ "/" +:+ n \/ exists r, path_join d n = String "/" r.
Proof.
  unfold path_join. destruct n as [|c r]; [by left|].
  destruct c as [[] [] [] [] [] [] [] []]; first [by left | by right; exists r].
Qed.

Lemma other_file d n :
  d = break_glass_dir \/ d = snapshot_dir -> path_join d n <> incident_state_path.
Proof. intros Hd. destruct (path_join_start d n) as [->|[r ->]]; [|done]. by destruct Hd as [-> | ->]. Qed.

Lemma write_other_ok s p b :
  p <> incident_state_path -> app_ok s -> app_ok (set_data s (std_write (data s) p b)).
Proof.
  intros Hp (Hf & Hi & Hl). split; [by apply std_write_wf|]. split; [done|].
  intros i Hj. apply Hl. unfold load_incident_on_start in *. cbn [data set_data] in Hj.
  by rewrite read_std_write_ne in Hj.
Qed.

Lemma hoare_manager h now P :
  hoare P (manager h now) (fun _ => P) P.
Proof.
  eapply (hoare_bind _ _ _ (fun _ => P)).
  { apply hoare_atomically. intros s Hs. rewrite on_auth_user_ctx. cbn [fst snd].
    destruct ((user_ctx h now (server_of s)).2); exact Hs. }
  intros u. eapply hoare_bind; [by apply hoare_await|]. intros [].
  eapply (hoare_bind _ _ _ (fun _ => P)); [by apply hoare_lift|]. intros []. by apply hoare_ret.
Qed.

Lemma hoare_get (P E : app -> Prop) :
  hoare P (atomically sget) (fun s0 s => P s /\ s = s0) E.
Proof. by apply hoare_atomically. Qed.

Lemma hoare_modify (P E : app -> Prop) (g : app -> app) (Q : app -> Prop) :
  (forall s, P s -> Q (g s)) -> hoare P (atomically (smodify g)) (fun _ => Q) E.
Proof. intros Hg. apply hoare_atomically. cbn. auto. Qed.

(** A call of the audit log, with its await. *)
Lemma hoare_append (P : app -> Prop) l a ev {B} (k : prog B) Q :
  (forall s, P s -> P (add_call {| c_log := l; c_actor := a; c_event := ev |} s)) ->
  (forall s, P s -> app_ok s) -> hoare P k Q app_ok ->
  hoare P (sbind (atomically (audit_append l a ev)) (fun _ => sbind await (fun _ => k))) Q app_ok.
Proof.
  intros Hc Hok Hk. eapply hoare_bind; [apply hoare_modify, Hc|]. intros [].
  eapply hoare_bind; [by apply hoare_await|]. by intros [].
Qed.

Lemma hoare_notify i (P E : app -> Prop) :
  (forall s, P s -> E s) -> hoare P (notify_webhooks i) (fun _ => P) E.
Proof. intros HE. unfold notify_webhooks. destruct (webhook_urls i); [by apply hoare_ret|by apply hoare_await]. Qed.

Lemma set_incident_ok s i :
  app_ok s -> incident_ok i -> (phase i <> Resolved -> audit_frozen s = true) ->
  app_ok (set_incident s (Some i)).
Proof. intros (Hf & Hi & Hl) Hok Hfr. split; [done|]. split; [|done]. by intros j [= <-]. Qed.

Lemma hoare_transition w now p by_ note i :
  allowed (phase i) p = true ->
  hoare (fun s => app_ok s /\ incident s = Some i) (transition_phase w now p by_ note i)
    (fun _ s => app_ok s /\ exists j, incident s = Some j /\ phase j = p) app_ok.
Proof.
  intros Ha. unfold transition_phase. set (i' := enter_phase now p by_ note i).
  assert (phase i' = p) as Hp by (unfold i', enter_phase; by destruct (decide (p = Resolved))).
  eapply (hoare_bind _ _ _ (fun _ s => app_ok s /\ incident_ok i' /\ incident s = Some i')).
  { apply hoare_modify. intros s [Hok Hi]. pose proof Hok as (_ & Hinc & _).
    destruct (Hinc _ Hi) as [Hiok Hfr]. assert (incident_ok i') as Hok' by by apply enter_ok.
    split; [|done]. apply set_incident_ok; [done|done|]. rewrite Hp. intros Hne. apply Hfr.
    intros He. rewrite He in Ha. by destruct p. }
  intros []. eapply hoare_bind; [apply hoare_persist|]. intros r.
  eapply (hoare_bind _ _ _ (fun _ s => app_ok s /\ exists j, incident s = Some j /\ phase j = p)).
  { eapply hoare_pre; [|apply hoare_await; by intros s [? _]].
    intros s [Hok (s0 & Hi & He)]. split; [done|]. exists i'. by rewrite He. }
  intros []. destruct r; [by apply hoare_ret|by apply hoare_fail; intros s [? _]].
Qed.

(** Every handler keeps the invariant, however it ends. *)
Lemma declare_ok h why urls w now :
  hoare app_ok (declare h why urls w now) (fun _ => app_ok) app_ok.
Proof.
  unfold declare. eapply hoare_bind; [apply hoare_manager|]. intros u.
  eapply hoare_bind; [by apply hoare_await|]. intros []. eapply hoare_bind; [apply hoare_get|].
  intros s0. destruct (match incident s0 with Some i => _ | None => false end).
  { apply hoare_fail. by intros s [? _]. }
  set (i := Common.Incident.new _ _ _ _ _).
  set (P := fun s => app_ok s /\ audit_frozen s = true).
  eapply (hoare_bind _ _ _ (fun _ => P)).
  { apply hoare_modify. intros s [(Hf & Hi & Hl) _]. split; [|done]. split; [done|].
    split; [|done]. intros j Hj. by destruct (Hi j Hj). }
  intros []. eapply (hoare_bind _ _ _ (fun _ => P)).
  { apply hoare_atomically. intros s [(Hf & Hi & Hl) Hfr]. cbn [fst snd].
    destruct (persist_ok w i (data s) Hf (new_ok _ _ _ _ _) Hl) as [Hf' Hl'].
    split; [|done]. by split. }
  intros []. eapply hoare_bind; [by apply hoare_await; intros s [? _]|]. intros [].
  eapply hoare_bind; [by apply hoare_notify; intros s [? _]|]. intros [].
  eapply hoare_bind; [by apply hoare_await; intros s [? _]|]. intros [].
  eapply (hoare_bind _ _ _ (fun _ => P)).
  { apply hoare_atomically. by cbn. }
  intros s1. apply hoare_append; [done|by intros s [? _]|].
  apply hoare_append; [done|by intros s [? _]|].
  eapply (hoare_bind _ _ _ (fun _ => app_ok)); [|intros []; by apply hoare_ret].
  apply hoare_modify. intros s [Hok Hfr]. apply set_incident_ok; [exact Hok|apply new_ok|by intros _].
Qed.

Lemma investigate_ok h note w now :
  hoare app_ok (investigate h note w now) (fun _ => app_ok) app_ok.
Proof.
  unfold investigate. eapply hoare_bind; [apply hoare_manager|]. intros u.
  eapply hoare_bind; [by apply hoare_await|]. intros []. eapply hoare_bind; [apply hoare_get|].
  intros s0. eapply (hoare_bind _ _ _ (fun i s => app_ok s /\ incident s = Some i)).
  { apply hoare_lift; [|by intros s [? _]]. intros s i [Hok ->] Hi. split; [done|].
    by destruct (incident s0); [injection Hi as ->|]. }
  intros i. case_bool_decide as Hd; [|by apply hoare_fail; intros s [? _]]. cbn [negb].
  eapply hoare_bind; [apply hoare_transition; by rewrite Hd|]. intros [].
  apply hoare_append; [done|by intros s [? _]|]. apply hoare_ret. by intros s [? _].
Qed.

Lemma resolve_ok h summary w now :
  hoare app_ok (resolve h summary w now) (fun _ => app_ok) app_ok.
Proof.
  unfold resolve. eapply hoare_bind; [apply hoare_manager|]. intros u.
  eapply hoare_bind; [by apply hoare_await|]. intros []. eapply hoare_bind; [apply hoare_get|].
  intros s0. eapply (hoare_bind _ _ _ (fun i s => app_ok s /\ incident s = Some i)).
  { apply hoare_lift; [|by intros s [? _]]. intros s i [Hok ->] Hi. split; [done|].
    by destruct (incident s0); [injection Hi as ->|]. }
  intros i. eapply hoare_bind; [apply hoare_transition; by destruct (phase i)|]. intros [].
  eapply (hoare_bind _ _ _ (fun _ => app_ok)).
  { apply hoare_modify. intros s [(Hf & Hi & Hl) (j & Hj & Hr)]. split; [done|]. split; [|done].
    intros k Hk. cbn [incident set_frozen] in Hk. destruct (Hi k Hk) as [Hok _]. split; [done|].
    rewrite Hj in Hk. injection Hk as <-. done. }
  intros []. apply hoare_append; [done|done|]. apply hoare_append; [done|done|].
  apply hoare_append; [done|done|]. eapply hoare_bind; [by apply hoare_notify|].
  intros []. by apply hoare_ret.
Qed.

Lemma snapshot_ok h info stamp now :
  hoare app_ok (snapshot h info stamp now) (fun _ => app_ok) app_ok.
Proof.
  unfold snapshot. eapply hoare_bind; [apply hoare_manager|]. intros u.
  eapply hoare_bind; [by apply hoare_await|]. intros []. eapply hoare_bind; [apply hoare_get|].
  intros s0. eapply (hoare_bind _ _ _ (fun _ => app_ok)).
  { eapply hoare_pre; [|by apply hoare_await]. by intros s [? _]. }
  intros []. eapply (hoare_bind _ _ _ (fun _ => app_ok)).
  { apply hoare_atomically. intros s Hs. cbn. apply write_other_ok; [|done].
    apply other_file. by right. }
  intros r. apply hoare_append; [done|done|]. by apply hoare_ret.
Qed.

Lemma save_cred_ok w c s : app_ok s -> app_ok (set_data s (save_break_glass_cred w c (data s)).1).
Proof.
  intros Hs. destruct w; cbn [save_break_glass_cred swrite fst]; [|by destruct s|];
    (apply write_other_ok; [|done]; apply other_file; by left).
Qed.

Lemma bg_generate_ok h why nanos pid w now :
  hoare app_ok (bg_generate h why nanos pid w now) (fun _ => app_ok) app_ok.
Proof.
  unfold bg_generate. eapply hoare_bind; [apply hoare_manager|]. intros u.
  eapply (hoare_bind _ _ _ (fun _ => app_ok)); [|intros []; by apply hoare_ret].
  apply hoare_atomically. intros s Hs. pose proof (save_cred_ok w (generate_break_glass_cred why nanos pid now).2 s Hs).
  cbn. by destruct (map_err _ _).
Qed.

Lemma bg_use_ok h token w now : hoare app_ok (bg_use h token w now) (fun _ => app_ok) app_ok.
Proof.
  unfold bg_use. eapply hoare_bind; [apply hoare_manager|]. intros u.
  eapply (hoare_bind _ _ _ (fun _ => app_ok)).
  { apply hoare_atomically. intros s Hs. unfold on_data. rewrite present_spec.
    destruct (verify_break_glass token (Common.User.username u) now (data s)) as [c|e]; cbn [fst snd map_err]; [|by destruct s].
    pose proof (save_cred_ok w c s Hs). by destruct (save_break_glass_cred w c (data s)).2. }
  intros c. apply hoare_append; [done|done|]. by apply hoare_ret.
Qed.

Lemma handle_incident_ok h req w now :
  hoare app_ok (handle_incident h req w now) (fun _ => app_ok) app_ok.
Proof.
  destruct req; (eapply (hoare_bind _ _ _ (fun _ => app_ok)); [|intros ?; by apply hoare_ret]);
    auto using declare_ok, investigate_ok, resolve_ok, snapshot_ok, bg_generate_ok, bg_use_ok.
Qed.

(** ** Runs *)

(** A request of any caller with any budget and fate of its write, or a restart. *)
Inductive istep : app -> app -> Prop :=
| step_request h req w now n s :
    istep s (run_for n (handle_incident h req w now) s).1
| step_restart s : istep s (restart s).

Lemma istep_ok s s' : istep s s' -> app_ok s -> app_ok s'.
Proof.
  intros [h req w now n s0|s0] Hok.
  - specialize (handle_incident_ok h req w now n s0 Hok). unfold run_for.
    by destruct (handle_incident h req w now (n, s0)) as [[? ?] [|]].
  - destruct Hok as (Hf & Hi & Hl). split; [done|]. unfold restart. cbn.
    split; [|done]. intros i Hi'. rewrite Hi'. pose proof (Hl i Hi') as Hok. split; [done|].
    intros Hne. apply Hok, Hne.
Qed.

Lemma isteps_ok s s' : rtc istep s s' -> app_ok s -> app_ok s'.
Proof. induction 1 as [|x y z Hs _ IH]; [done|]. intros Hok. apply IH. by eapply istep_ok. Qed.

(** ** Complete runs *)

(** The caller is an account, or the host's administrator, with the right. *)
Definition manages (h : headers) (now : Z) (s : app) : Prop :=
  exists u, (user_ctx h now (server_of s)).2 = Ok u /\
            Common.User.has (Common.User.role u) Common.User.IncidentManage = true.

Lemma manager_runs h now s u n :
  (user_ctx h now (server_of s)).2 = Ok u ->
  Common.User.has (Common.User.role u) Common.User.IncidentManage = true ->
  manager h now (S n, s) = ((n, s), Ok u).
Proof.
  intros Hu Hp. unfold manager, sbind, atomically. cbn [fst snd].
  rewrite on_auth_user_ctx, Hu. cbn. unfold require, slift, sret. by rewrite Hp.
Qed.

Definition inactive (s : app) : Prop :=
  match incident s with Some i => phase i = Resolved | None => True end.

Lemma inactive_test s :
  inactive s ->
  match incident s with Some i => negb (bool_decide (phase i = Resolved)) | None => false end = false.
Proof. unfold inactive. destruct (incident s) as [i|]; [|done]. intros ->. done. Qed.

Lemma declare_runs h why urls now s n :
  manages h now s -> inactive s ->
  let s' := (run_for (7 + n) (handle_incident h (Declaration why urls) Written now) s).1 in
  is_Some (incident s') /\ wsv s' = wsv s.
Proof.
  intros (u & Hu & Hp) Hin. unfold run_for, handle_incident, declare, sbind.
  change (7 + n)%nat with (S (6 + n)). rewrite (manager_runs h now s u) by done.
  unfold atomically, sget. cbn. rewrite inactive_test by done.
  unfold notify_webhooks. cbn. by destruct urls.
Qed.

Lemma resolve_runs h summary now s n i :
  manages h now s -> incident s = Some i ->
  let s' := (run_for (7 + n) (handle_incident h (Resolve summary) Written now) s).1 in
  audit_frozen s' = false /\ exists j, incident s' = Some j /\ id j = id i /\ phase j = Resolved.
Proof.
  intros (u & Hu & Hp) Hi. unfold run_for, handle_incident, resolve, sbind.
  change (7 + n)%nat with (S (6 + n)). rewrite (manager_runs h now s u) by done.
  unfold atomically, sget, slift. cbn. rewrite Hi. cbn.
  unfold notify_webhooks. by destruct (webhook_urls i); cbn; (split; [done|]); eexists.
Qed.

(** Requests of one caller that run to their end, one after the other. *)
Fixpoint run_all (h : headers) (now : Z) (l : list incident_request) (s : app) : app :=
  match l with
  | [] => s
  | r :: l => run_all h now l (run_for 7 (handle_incident h r Written now) s).1
  end.

(** ** Properties *)

(** C11: After any run of requests, of any callers, whatever writes fail and wherever
    a handler is dropped, and any restarts: the phases of the incident are declared,
    perhaps investigating, then resolved, in that order, its log ends in the current
    phase, and while it is not resolved the audit log is frozen. *)
Theorem incident_in_order s s' i :
  app_ok s -> rtc istep s s' -> incident s' = Some i ->
  (exists l, pe_phase <$> phase_log i = Declared :: l /\ follows Declared l = true /\
             phase i = List.last (Declared :: l) Declared) /\
  (resolved_at i = None <-> phase i <> Resolved) /\
  (phase i <> Resolved -> audit_frozen s' = true).
Proof.
  intros Hok Hrun Hi. destruct (isteps_ok s s' Hrun Hok) as (_ & Hinc & _).
  destruct (Hinc i Hi) as [(Hlog & _ & Hr) Hfr]. done.
Qed.

(** C12: From any state, however it came about, an incident manager gets the audit
    log unfrozen with at most two requests: a resolution, after a declaration when the
    freeze belongs to no incident. *)
Theorem freeze_can_be_lifted h now s :
  manages h now s ->
  exists l, (length l <= 2)%nat /\ audit_frozen (run_all h now l s) = false /\
    exists i, incident (run_all h now l s) = Some i /\ phase i = Resolved.
Proof.
  intros Hm. destruct (incident s) as [i|] eqn:Hi.
  - exists [Resolve ""]. split; [simpl; lia|].
    destruct (resolve_runs h "" now s 0 i Hm Hi) as (Hf & j & Hj & _ & Hr). by split; [|exists j].
  - exists [Declaration "" []; Resolve ""]. split; [simpl; lia|].
    destruct (declare_runs h "" [] now s 0 Hm) as ([i Hi'] & Hw); [by unfold inactive; rewrite Hi|].
    assert (manages h now (run_for 7 (handle_incident h (Declaration "" []) Written now) s).1) as Hm'.
    { destruct Hm as (u & Hu & Hp). exists u. unfold server_of in *.
      change (7 + 0)%nat with 7%nat in Hw. by rewrite Hw. }
    destruct (resolve_runs h "" now _ 0 i Hm' Hi') as (Hf & j & Hj & _ & Hr). by split; [|exists j].
Qed.

(** A declaration that is dropped while the state file is written freezes the
    log for no incident: no incident is active, and no resolution, by whomever, lifts it. *)
Theorem dropped_declaration_freezes h why urls w now s :
  manages h now s -> incident s = None ->
  let s' := (run_for 2 (handle_incident h (Declaration why urls) w now) s).1 in
  status s' = (false, true) /\
  forall h' summary w' now' n, let r := run_for n (handle_incident h' (Resolve summary) w' now') s' in
    r.1 = s' /\ is_ok r.2 = false.
Proof.
  intros (u & Hu & Hp) Hi. unfold run_for, handle_incident, declare, sbind.
  rewrite (manager_runs h now s u) by done. unfold atomically, sget. cbn. rewrite Hi. cbn.
  split; [unfold status; cbn; by rewrite Hi|]. intros h' summary w' now' n.
  set (s1 := set_data _ _). assert (incident s1 = None) as Hi1 by exact Hi. clearbody s1.
  unfold resolve, sbind, manager, sbind, atomically. rewrite on_auth_user_ctx. cbn [fst snd].
  destruct ((user_ctx h' now' (server_of s1)).2) as [v|e]; cbn; [|done].
  destruct n as [|n]; [done|]. cbn. unfold slift. destruct (require v _) as [[]|e]; [|done]. cbn.
  destruct n as [|n]; [done|]. cbn. by rewrite Hi1.
Qed.

End routes.

End IncidentApi.
