(* ===== verification/Labels.v ===== *)
(** * The labels of collections

    Models the file of [classification.rs] of [maranode-common] and
    [routes/classification.rs] of [maranode-api]: the policy in memory and on disk, the
    routes that change it, and how the daemon reads it when it starts. The routes take
    no credentials. *)

From Stdlib Require Import ZArith Lia Ascii String.
From S2P Require Import Prelude Json Common Events Fs UserDb Auth WorkspaceDb WorkspaceApi AppState LegalHold IncidentApi.
Open Scope string_scope.
Open Scope list_scope.
Open Scope Z_scope.

(** ** Maps as JSON objects *)

Definition map_json {A} (f : A -> json) (m : gmap string A) : json :=
  JObj ((fun kv => (kv.1, f kv.2)) <$> map_to_list m).

(** A repeated key: the last one wins. *)
Definition map_of {A} (f : json -> option A) (j : json) : option (gmap string A) :=
  some? m := as_obj j in
  some? l := all_some ((fun kv => pair kv.1 <$> f kv.2) <$> m) in
  Some (fold_left (fun acc kv => <[kv.1 := kv.2]> acc) l ∅).

Lemma fold_insert_lookup {A} (l : list (string * A)) (m : gmap string A) k :
  NoDup l.*1 ->
  fold_left (fun acc kv => <[kv.1 := kv.2]> acc) l m !! k =
  match (list_to_map l : gmap string A) !! k with Some v => Some v | None => m !! k end.
Proof.
  revert m. induction l as [|[x v] l IH]; intros m Hl; [by cbn; rewrite lookup_empty|].
  inversion Hl as [|? ? Hx Hl']; subst. cbn [fold_left fst snd list_to_map foldr]. rewrite IH by done.
  cbn. destruct (decide (x = k)) as [<-|Hne].
  - rewrite !lookup_insert_eq, not_elem_of_list_to_map_1 by done. done.
  - by rewrite !lookup_insert_ne.
Qed.

Lemma map_round {A} (f : A -> json) (g : json -> option A) (m : gmap string A) :
  (forall a, g (f a) = Some a) -> map_of g (map_json f m) = Some m.
Proof.
  intros Hg. unfold map_of, map_json. cbn [as_obj].
  rewrite (all_some_map (fun kv => (kv.1, f kv.2)) (fun kv => pair kv.1 <$> g kv.2)).
  2:{ intros [k a]. cbn. by rewrite Hg. }
  f_equal. apply map_eq. intros k. rewrite fold_insert_lookup by apply NoDup_fst_map_to_list.
  rewrite list_to_map_to_list, lookup_empty. by destruct (m !! k).
Qed.

Lemma map_json_wf {A} (f : A -> json) (m : gmap string A) : (forall a, json_wf (f a) = true) -> json_wf (map_json f m) = true.
Proof.
  intros Hf. unfold map_json. rewrite json_wf_obj. apply forallb_forall.
  intros kv (x & <- & _)%in_map_iff. apply Hf.
Qed.

Module Labels.
Import Common.Classification Auth.Auth AppState.AppState.

(** ** The policy as JSON *)

Definition label_of (j : json) : option DataLabel :=
  some? s := Json.as_str j in
  if String.eqb s "PUBLIC" then Some Public else
  if String.eqb s "RESTRICTED" then Some Restricted else
  if String.eqb s "CONFIDENTIAL" then Some Confidential else
  if String.eqb s "PII" then Some Pii else
  if String.eqb s "PHI" then Some Phi else None.

Definition label_json (l : DataLabel) : json := JStr (as_str l).

Definition collection_policy_json (c : CollectionPolicy) : json :=
  JObj [("label", label_json (label c)); ("block_on_violation", JBool (block_on_violation c))].

Definition collection_policy_of (j : json) : option CollectionPolicy :=
  some? m := as_obj j in
  check no_dup_fields ["label"; "block_on_violation"] m in
  some? l := req label_of "label" m in
  some? b := dflt as_bool true "block_on_violation" m in
  Some {| label := l; block_on_violation := b |}.

Definition workspace_policy_json (w : WorkspacePolicy) : json :=
  JObj [("max_clearance", label_json (max_clearance w))].

Definition workspace_policy_of (j : json) : option WorkspacePolicy :=
  some? m := as_obj j in
  check no_dup_fields ["max_clearance"] m in
  some? l := req label_of "max_clearance" m in
  Some {| max_clearance := l |}.

Definition policy_json (p : ClassificationPolicy) : json :=
  JObj [("collections", map_json collection_policy_json (collections p));
        ("workspaces", map_json workspace_policy_json (workspaces p))].

Definition policy_of (j : json) : option ClassificationPolicy :=
  some? m := as_obj j in
  check no_dup_fields ["collections"; "workspaces"] m in
  some? c := dflt (map_of collection_policy_of) ∅ "collections" m in
  some? w := dflt (map_of workspace_policy_of) ∅ "workspaces" m in
  Some {| collections := c; workspaces := w |}.

Lemma policy_round p : policy_of (policy_json p) = Some p.
Proof.
  destruct p as [c w]. unfold policy_of, policy_json, dflt. cbn [as_obj collections workspaces].
  replace (no_dup_fields _ _) with true by reflexivity. cbn -[map_of map_json].
  rewrite !map_round; [done| |]; intros [l]; by destruct l.
Qed.

Lemma policy_wf p : json_wf (policy_json p) = true.
Proof.
  unfold policy_json. rewrite json_wf_obj. cbn [forallb snd]. by rewrite !map_json_wf.
Qed.

Definition policy_path : string := path_join "classification" "policy.json".

(** The request to the routes; a write of the policy may fail. *)
Inductive label_request :=
| SetCollection (name : string) (l : DataLabel) (block : option bool) (assigned_by : option string)
| RemoveCollection (name : string)
| SetWorkspace (slug : string) (l : DataLabel).

Section labels.
Context `{!JsonText}.

Definition save (w : Incidents.write_stop) (p : ClassificationPolicy) : SE fs io_err unit := fun f =>
  match w with
  | Incidents.Written => swrite None policy_path (json_pretty (policy_json p)) f
  | Incidents.NotOpened => (f, Err WriteFailed)
  | Incidents.StoppedAfter n => swrite (Some n) policy_path (json_pretty (policy_json p)) f
  end.

Definition load_policy (f : fs) : result string ClassificationPolicy :=
  load (fun raw => json_parse raw ≫= policy_of) (content_at f policy_path).

(** [ClassificationPolicy::load(..).unwrap_or_default()] when the daemon starts. *)
Definition restart_labels (a : app) : app :=
  set_classification a (match load_policy (data a) with Ok p => p | Err _ => default_policy end).

(** The change in memory, then the file. *)
Definition replace_policy (w : Incidents.write_stop) (p : ClassificationPolicy) : SE app api_error unit :=
  do! _ := smodify (fun a => set_classification a p) in
  on_data internal (save w p).

Definition get_policy : SE app api_error ClassificationPolicy := do! a := sget in sret (classification a).

Definition set_collection (w : Incidents.write_stop) (name : string) (l : DataLabel) (block : option bool)
    (assigned_by : option string) : SE app api_error unit :=
  do! a := sget in
  do! _ := replace_policy w (set_collection_label (classification a) name l (default true block)) in
  audit_append MainLog "classification"
    (Events.DataLabelAssigned name (as_str l) (default "api" assigned_by)).

Definition remove_collection (w : Incidents.write_stop) (name : string) : SE app api_error bool :=
  do! a := sget in
  let p := classification a in
  let r := bool_decide (is_Some (collections p !! name)) in
  do! _ := (if r then replace_policy w {| collections := delete name (collections p);
                                           workspaces := workspaces p |}
            else sret tt) in
  sret r.

Definition set_workspace (w : Incidents.write_stop) (slug : string) (l : DataLabel) : SE app api_error unit :=
  do! a := sget in
  let p := classification a in
  replace_policy w {| collections := collections p;
                      workspaces := <[slug := {| max_clearance := l |}]> (workspaces p) |}.

Definition handle_label (r : label_request) (w : Incidents.write_stop) : SE app api_error unit :=
  match r with
  | SetCollection name l block by_ => set_collection w name l block by_
  | RemoveCollection name => do! _ := remove_collection w name in sret tt
  | SetWorkspace slug l => set_workspace w slug l
  end.

(** The policy that a request asks for. *)
Definition requested (r : label_request) (p : ClassificationPolicy) : ClassificationPolicy :=
  match r with
  | SetCollection name l block _ => set_collection_label p name l (default true block)
  | RemoveCollection name => {| collections := delete name (collections p); workspaces := workspaces p |}
  | SetWorkspace slug l =>
    {| collections := collections p; workspaces := <[slug := {| max_clearance := l |}]> (workspaces p) |}
  end.

(** Whether a request writes the file. *)
Definition writes (r : label_request) (p : ClassificationPolicy) : bool :=
  match r with RemoveCollection name => bool_decide (is_Some (collections p !! name)) | _ => true end.

(** ** Lemmas *)

Lemma replace_spec w p a :
  classification (replace_policy w p a).1 = p /\ data (replace_policy w p a).1 = (save w p (data a)).1.
Proof. done. Qed.

Lemma handle_spec r w a :
  let a' := (handle_label r w a).1 in
  classification a' = requested r (classification a) /\
  data a' = if writes r (classification a) then (save w (requested r (classification a)) (data a)).1
            else data a.
Proof.
  destruct r as [name l block by_|name|slug l]; cbn zeta.
  - unfold handle_label, set_collection. unfold sbind, sget. cbn [requested writes].
    destruct (replace_policy w _ a) as [a1 [[]|e]] eqn:He; apply (f_equal fst) in He; cbn [fst] in He;
      subst a1; done.
  - unfold handle_label, remove_collection. unfold sbind, sget. cbn [requested writes].
    case_bool_decide as Hs.
    + destruct (replace_policy w _ a) as [a1 [[]|e]] eqn:He; apply (f_equal fst) in He; cbn [fst] in He;
        subst a1; done.
    + cbn. rewrite delete_id by by apply eq_None_not_Some. by destruct (classification a).
  - done.
Qed.

(** The file holds the policy in memory. *)
Definition on_disk (a : app) : Prop :=
  fs_wf (data a) /\ load_policy (data a) = Ok (classification a).

Lemma load_policy_saved p f : fs_wf f -> load_policy (save Incidents.Written p f).1 = Ok p.
Proof.
  intros Hf. unfold load_policy. cbn -[policy_json policy_of]. rewrite content_at_std_write by done.
  rewrite decide_True by done. cbn -[policy_json policy_of]. rewrite json_parse_pretty by apply policy_wf.
  cbn -[policy_json policy_of]. by rewrite policy_round.
Qed.

Lemma load_policy_torn p f n :
  fs_wf f -> (n < String.length (json_pretty (policy_json p)))%nat ->
  is_ok (load_policy (save (Incidents.StoppedAfter n) p f).1) = false.
Proof.
  intros Hf Hn. unfold load_policy. cbn -[policy_json]. rewrite content_at_std_write by done.
  rewrite decide_True by done. cbn -[policy_json]. unfold policy_json in *. by rewrite json_pretty_prefix.
Qed.

Fixpoint run_labels (l : list label_request) (a : app) : app :=
  match l with [] => a | r :: l => run_labels l (handle_label r Incidents.Written a).1 end.

Lemma handle_on_disk r a : on_disk a -> on_disk (handle_label r Incidents.Written a).1.
Proof.
  intros [Hf Hl]. destruct (handle_spec r Incidents.Written a) as [Hc Hd]. unfold on_disk. rewrite Hc, Hd.
  destruct (writes r (classification a)) eqn:Hw.
  - split; [by apply std_write_wf|]. by apply load_policy_saved.
  - split; [done|]. rewrite Hl. destruct r as [?|name|?]; try discriminate. cbn in Hw. cbn [requested].
    case_bool_decide as Hs; [done|]. rewrite delete_id by by apply eq_None_not_Some.
    by destruct (classification a).
Qed.

Lemma run_on_disk l a : on_disk a -> on_disk (run_labels l a).
Proof. revert a. induction l as [|r l IH]; intros a Ha; [done|]. by apply IH, handle_on_disk. Qed.

(** ** Properties *)

(** The labels at a restart are those of the last request when all files were
    written; when the write of a policy stops before its end, they are gone: the daemon
    starts with no label, and no collection is refused to any workspace. *)
Theorem policy_at_restart l r n a :
  on_disk a ->
  classification (restart_labels (run_labels l a)) = classification (run_labels l a) /\
  let p := classification (run_labels l a) in
  (writes r p = true -> (n < String.length (json_pretty (policy_json (requested r p))))%nat ->
   let a' := restart_labels (handle_label r (Incidents.StoppedAfter n) (run_labels l a)).1 in
   classification a' = default_policy /\
   forall ws c, check_access (classification a') ws c = None).
Proof.
  intros Ha. pose proof (run_on_disk l a Ha) as [Hf Hl]. split.
  { unfold restart_labels. cbn. by rewrite Hl. }
  cbv zeta. intros Hw Hn. set (b := run_labels l a) in *.
  destruct (handle_spec r (Incidents.StoppedAfter n) b) as [_ Hd]. rewrite Hw in Hd.
  pose proof (load_policy_torn (requested r (classification b)) (data b) n Hf Hn) as Ht. rewrite <- Hd in Ht.
  unfold restart_labels. cbn [classification set_classification].
  destruct (load_policy (data (handle_label r (Incidents.StoppedAfter n) b).1)) as [p|e]; [done|].
  split; [done|]. intros ws c. unfold check_access. cbn.
  by rewrite lookup_empty.
Qed.

(** Any caller lifts any label: whatever the policy, and even when its file cannot be
    written, after one request without credentials no workspace is refused the
    collection, or after another the workspace is refused no collection. *)
Theorem any_caller_lifts_labels w a ws c :
  (forall ws', check_access (classification (handle_label (RemoveCollection c) w a).1) ws' c = None) /\
  (forall c', check_access (classification (handle_label (SetWorkspace ws Phi) w a).1) ws c' = None) /\
  check_all_collections (classification (handle_label (SetWorkspace ws Phi) w a).1) ws = [].
Proof.
  pose proof (handle_spec (RemoveCollection c) w a) as [Hr _].
  pose proof (handle_spec (SetWorkspace ws Phi) w a) as [Hs _]. cbn zeta in *. rewrite Hr, Hs.
  cbn [requested]. unfold check_access, check_all_collections, workspace_clearance.
  cbn [collections workspaces]. rewrite !lookup_insert_eq. cbn [max_clearance].
  assert (forall l, label_gt l Phi = false) as Hphi by by intros [].
  split; [|split].
  - intros ws'. by rewrite lookup_delete_eq.
  - intros c'. destruct (collections _ !! c') as [x|]; [|done]. by rewrite Hphi.
  - induction (map_to_list (collections (classification a))) as [|[k x] l IH]; [done|]. cbn.
    rewrite Hphi. exact IH.
Qed.

End labels.
End Labels.
