(* ===== verification/ApiDemo.v ===== *)
(** * The API's handlers: concrete states and witnesses

    A server with one account, jane, who is an operator, and the host's admin key; each
    witness applies a theorem of [LegalHold] or [IncidentApi] to it. *)

From Stdlib Require Import ZArith Lia Ascii String.
From S2P Require Import Prelude Json Crypto Common Events Fs AuditRotate Instances UserDb Auth WorkspaceDb WorkspaceApi WorkspaceDemo Seal Pcr SealDemo AppState LegalHold IncidentApi.
Open Scope string_scope.
Open Scope list_scope.
Open Scope Z_scope.

Module ApiDemo.
Import AppState.AppState Auth.Auth Auth.AuthDemo UserDb.UserDemo.

Definition settings : RuntimeSettings := {|
  rag_ingest_policy := AdminOnly; rag_ingest_allowlist := []; system_prompt := None;
  air_gap := true; log_prompts := false; tee_encrypt_key := None |}.

Definition app_with (f : fs) : app := {|
  wsv := {| WorkspaceApi.WorkspaceApi.auth := srv UserDb.UserDemo.d1;
            WorkspaceApi.WorkspaceApi.ws_db := WorkspaceDemo.d1;
            WorkspaceApi.WorkspaceApi.host := [] |};
  data := f; trail := []; incident := None; audit_frozen := false;
  classification := Common.Classification.default_policy; rate_limiter := ∅;
  workspace_usage := ∅; workspace_audits := ∅; rt := settings; isolation_ok := true |}.

Definition app0 : app := app_with fs_empty.

Definition jane_h : headers := with_token "Bearer tok-1".
Definition host_h : headers := with_token "Bearer host-key".

Definition jane_user : Common.User.User := default (synthetic_admin 0) (UserDb.UserDb.resolve_session "tok-1" 500 UserDb.UserDemo.d1).

Lemma jane_ctx s t : server_of s = srv UserDb.UserDemo.d1 -> t = 500 ->
  (user_ctx jane_h t (server_of s)).2 = Ok jane_user.
Proof. intros -> ->. by vm_compute. Qed.

Lemma host_manages s t : server_of s = srv UserDb.UserDemo.d1 -> IncidentApi.manages host_h t s.
Proof. intros Hs. exists (synthetic_admin t). unfold IncidentApi.IncidentApi.manages in *. rewrite Hs. by split. Qed.

(** ** Legal holds *)

Import HoldJson LegalHold HoldApi.

Definition seed0 : string := "0123456789abcdef0123456789abcdef".

Definition case7 : Common.Hold.HoldRecord := {|
  Common.Hold.id := "HOLD-7"; Common.Hold.placed_at := 7; Common.Hold.placed_by := "legal";
  Common.Hold.reason := "case 7"; Common.Hold.seq_from := 10; Common.Hold.seq_to := 20;
  Common.Hold.expires_at := None; Common.Hold.hold_key_pubkey := "k"; Common.Hold.placement_sig := "s";
  Common.Hold.released_at := None; Common.Hold.released_by := None; Common.Hold.release_sig := None;
  Common.Hold.tpm_sealed := false |}.

(** The hold key of the server is [seed0], and there is one hold. *)
Definition f_key : fs := (generate_hold_key seed0 fs_empty).1.
Definition f_hold : fs := save_hold case7 f_key.

Lemma f_key_wf : fs_wf f_key.
Proof. apply (load_generated seed0 fs_empty ""); [apply fs_wf_empty|done]. Qed.

Lemma f_key_empty i : content_at f_key (hold_path i) = None.
Proof.
  destruct (hold_path_not_key i) as (Hk1 & Hk2 & _).
  destruct (load_generated seed0 fs_empty "" fs_wf_empty eq_refl) as (_ & _ & _ & _ & Hc).
  unfold f_key. rewrite Hc by done. done.
Qed.

Lemma f_key_named : named f_key.
Proof.
  intros i r Hl. unfold load_hold in Hl. rewrite read_content, f_key_empty in Hl. discriminate Hl.
Qed.

Lemma case7_plain : plain_id (Common.Hold.id case7).
Proof. by split. Qed.

Lemma f_key_no_hold p b : json_child holds_dir p = true -> content_at f_key p = Some b -> False.
Proof.
  unfold f_key, generate_hold_key. cbn [fst].
  rewrite content_at_std_write by apply std_write_wf, fs_wf_empty.
  destruct (decide (hold_key_path = p)) as [<-|_]; [done|].
  rewrite content_at_std_write by apply fs_wf_empty.
  destruct (decide (hold_pubkey_path = p)) as [<-|_]; done.
Qed.

Lemma f_hold_list h : In h (list_holds f_hold) -> h = case7.
Proof.
  intros Hh. unfold f_hold in Hh.
  destruct (proj1 (in_saved case7 f_key h f_key_wf eq_refl case7_plain) Hh) as [->|(p & b & _ & Hp & Hb & _)]; [reflexivity|]. by destruct (f_key_no_hold p b).
Qed.

Lemma f_hold_load : load_hold "HOLD-7" f_hold = Ok case7.
Proof.
  unfold f_hold. change "HOLD-7" with (Common.Hold.id case7).
  exact (load_saved case7 f_key f_key_wf eq_refl).
Qed.

Lemma guard_iff_held_witness :
  guard_retention_delete 15 30 99 f_hold = Err HHeld <->
  exists seq, 15 <= seq <= 30 /\ is_seq_held seq 99 f_hold = true.
Proof.
  apply guard_iff_held; [lia|]. intros h Hh. rewrite (f_hold_list h Hh). simpl. lia.
Defined.

(** A signature scheme that accepts everything: nothing excludes it. *)
Section Lax.
#[local] Instance lax_ed25519 : Ed25519.
Proof.
  refine {| ed_public k := k; ed_key_ok _ := true; ed_sign k m := digest (k +:+ m);
            ed_verify _ _ _ := true |}; done.
Defined.

Definition lax_sig : string :=
  b64_encode (digest (seed0 +:+ json_print (Common.Hold.release_payload "HOLD-7" "legal" 100))).

Lemma lax_release :
  release_hold "HOLD-7" "legal" lax_sig 150 150 f_hold =
  (save_hold (released case7 150 "legal" lax_sig) f_hold, Ok (released case7 150 "legal" lax_sig)).
Proof.
  apply release_hold_iff.
  exists case7, seed0, (digest (seed0 +:+ json_print (Common.Hold.release_payload "HOLD-7" "legal" 100))).
  split; [apply f_hold_load|]. split; [done|]. split.
  - unfold f_hold. destruct (hold_path_not_key "HOLD-7") as (Hk1 & _ & _).
    destruct (load_generated seed0 fs_empty "" fs_wf_empty eq_refl) as (_ & Hp & _ & _ & _).
    change (ed_public seed0) with seed0 in Hp. rewrite <- Hp. unfold f_key.
    unfold load_hold_pubkey. rewrite !read_to_string_content. unfold save_hold.
    rewrite content_at_std_write by apply f_key_wf. by rewrite decide_False.
  - split; [apply b64_decode_encode|]. split; [apply nibbles_length|done].
Qed.

Lemma release_bound_to_instant_witness :
  exists pub s, load_hold_pubkey f_hold = Ok pub /\
    s = ed_sign seed0 (json_print (Common.Hold.release_payload "HOLD-7" "legal" 100)) /\
    ed_verify pub (json_print (Common.Hold.release_payload "HOLD-7" "legal" 150)) s = true /\
    json_print (Common.Hold.release_payload "HOLD-7" "legal" 150) <>
    json_print (Common.Hold.release_payload "HOLD-7" "legal" 100).
Proof.
  apply (release_bound_to_instant "HOLD-7" "legal" seed0 lax_sig 100 150 150 f_hold
    (save_hold (released case7 150 "legal" lax_sig) f_hold) (released case7 150 "legal" lax_sig)).
  - unfold sign_release_payload, signing_key_of_hex. rewrite trim_graphic by apply hex_graphic.
    rewrite hex_decode_encode. reflexivity.
  - exact lax_release.
  - lia.
Defined.

End Lax.

Definition rd : Seal.Seal.draw := SealDemo.r0.

Lemma any_account_ends_a_hold_witness :
  exists s1 pub priv sig s2,
    generate_key jane_h None seed0 "2026-01-01" rd 500 (app_with f_hold) = (s1, Ok (pub, priv, false)) /\
    sign_release "HOLD-7" (Common.User.username jane_user) (Some 501) priv 500 s1 = (s1, Ok (501, sig)) /\
    release jane_h "HOLD-7" sig 500 501 s1 =
      (s2, Ok (released case7 501 (Common.User.username jane_user) sig)) /\
    load_hold "HOLD-7" (data s2) = Ok (released case7 501 (Common.User.username jane_user) sig) /\
    forall seq t, Common.Hold.covers_seq t (released case7 501 (Common.User.username jane_user) sig) seq = false.
Proof.
  apply (any_account_ends_a_hold jane_h jane_user (app_with f_hold) "HOLD-7" case7 seed0 "2026-01-01" rd
           500 500 501).
  - apply std_write_wf, f_key_wf.
  - done.
  - by apply jane_ctx.
  - by apply jane_ctx.
  - exact f_hold_load.
  - done.
  - done.
Defined.

(** Jane places a hold; then the host's administrator generates a new key. *)
Definition placed : app * result api_error Common.Hold.HoldRecord :=
  place jane_h "case 8" 3 9 None None None 500 501 (app_with f_key).
Definition rekeyed : app :=
  (handle_hold host_h (GenerateKey None seed0 "2026-01-02" rd) 600 601 placed.1).1.

Lemma placed_ok : exists r, placed = (placed.1, Ok r).
Proof.
  assert (exists s r, placed = (s, Ok r)) as (s & r & E); [|rewrite E; by exists r].
  destruct (load_generated seed0 fs_empty "" fs_wf_empty eq_refl) as (_ & Hp & Hk & _ & _).
  fold f_key in Hp, Hk.
  assert (exists f r, place_hold (new_hold_id 500) (Common.User.username jane_user) "case 8" 3 9 None None
                        false 501 f_key = (f, Ok r)) as (f & r & E).
  { unfold place_hold, sbind, sget, slift. rewrite Hp, Hk. by eexists _, _. }
  eexists _, r. unfold placed, place.
  rewrite (extractor_ok _ _ _ _ jane_user) by by apply jane_ctx.
  cbn [Z.ltb Z.compare Pos.compare Pos.compare_cont].
  unfold sbind at 1. unfold sret at 1. unfold sbind at 1.
  unfold on_data at 1. cbn [data app_with]. rewrite E. reflexivity.
Qed.

Lemma placed_hold_persists_witness :
  is_seq_held 5 1000 (data rekeyed) = true /\ guard_retention_delete 5 5 1000 (data rekeyed) = Err HHeld.
Proof.
  destruct placed_ok as [r Hr].
  apply (placed_hold_persists jane_h "case 8" 3 9 None None None 500 501 (app_with f_key) placed.1 r rekeyed).
  - exact f_key_wf.
  - exact f_key_named.
  - done.
  - done.
  - exact Hr.
  - eapply rtc_l; [|apply rtc_refl].
    exists host_h, (GenerateKey None seed0 "2026-01-02" rd), 600, 601. by split.
  - lia.
  - done.
Defined.

(** ** Incidents *)

Import Incidents IncidentApi.IncidentApi.

Lemma app0_ok : app_ok app0.
Proof. split; [apply fs_wf_empty|]. split; [done|]. intros i Hi. by vm_compute in Hi. Qed.

Lemma freeze_can_be_lifted_witness :
  exists l, (length l <= 2)%nat /\ audit_frozen (run_all host_h 500 l (set_frozen app0 true)) = false /\
    exists i, incident (run_all host_h 500 l (set_frozen app0 true)) = Some i /\
      Common.Incident.phase i = Common.Incident.Resolved.
Proof. apply freeze_can_be_lifted. by apply host_manages. Defined.

Lemma dropped_declaration_freezes_witness :
  let s' := (Async.run_for 2 (handle_incident host_h (Declaration "breach" []) Written 500) app0).1 in
  status s' = (false, true) /\
  forall h' summary w' now' n,
    let r := Async.run_for n (handle_incident h' (Resolve summary) w' now') s' in
    r.1 = s' /\ is_ok r.2 = false.
Proof.
  apply (dropped_declaration_freezes host_h "breach" [] Written 500 app0); [by apply host_manages|done].
Defined.

(** An incident that was declared, with a server restart in between. *)
Definition declared : app :=
  (Async.run_for 9 (handle_incident host_h (Declaration "breach" []) NotOpened 500) (restart app0)).1.
Definition breach : Common.Incident.IncidentState :=
  Common.Incident.new 500 (new_incident_id 500) "admin" "breach" [].

Lemma incident_in_order_witness :
  (exists l, Common.Incident.pe_phase <$> Common.Incident.phase_log breach = Common.Incident.Declared :: l /\
     follows Common.Incident.Declared l = true /\
     Common.Incident.phase breach = List.last (Common.Incident.Declared :: l) Common.Incident.Declared) /\
  (Common.Incident.resolved_at breach = None <-> Common.Incident.phase breach <> Common.Incident.Resolved) /\
  (Common.Incident.phase breach <> Common.Incident.Resolved -> audit_frozen declared = true).
Proof.
  apply (incident_in_order app0 declared breach).
  - exact app0_ok.
  - eapply rtc_l; [apply step_restart|]. eapply rtc_l; [|apply rtc_refl].
    apply (step_request host_h (Declaration "breach" []) NotOpened 500 9).
  - reflexivity.
Defined.

Definition night : string * Common.Incident.BreakGlassCred :=
  generate_break_glass_cred "night shift" 7 42 500.
Definition f_night : fs := (save_break_glass_cred Written night.2 fs_empty).1.

(** Jane's first use fails at the write, her second is accepted, Joe's is not. *)
Definition shift : list bg_request :=
  [Present night.1 "jane" 590 NotOpened; Present night.1 "jane" 600 Written; Present night.1 "joe" 610 Written].

Lemma break_glass_once_in_sequence_witness :
  (verify_and_consume_break_glass Written night.1 "jane" 600 f_night).2 = Ok (consumed night.2 600 "jane") /\
  (uses (Common.Incident.token_hash night.2) shift f_night <= 1)%nat /\
  exists c1 c2 f2 f3,
    verify_break_glass night.1 "jane" 600 f_night = Ok c1 /\ verify_break_glass night.1 "joe" 600 f_night = Ok c2 /\
    save_break_glass_cred Written c1 f_night = (f2, Ok tt) /\ save_break_glass_cred Written c2 f2 = (f3, Ok tt).
Proof.
  destruct (break_glass_once_in_sequence "night shift" 7 42 500 fs_empty) as (Ha & Hu & Hr).
  - exact fs_wf_empty.
  - intros p b c _ Hc. discriminate Hc.
  - intros c [].
  - split; [apply (Ha "jane" 600)|]. split; [apply (Hu shift)|apply (Hr "jane" 600 "joe" 600)].
    intros why nanos pid now w [H|[H|[H|[]]]]; discriminate H.
Defined.

End ApiDemo.
