(* ===== verification/Verifier.v ===== *)
(** * The offline verifier of receipts

    Models [maranode-verifier/src/main.rs]: the arguments, the reading of the receipt,
    the check of its signature and of the two hashes, and the outcome. What is printed
    is the list of checks with their results. *)

From Stdlib Require Import ZArith Lia Ascii String.
From S2P Require Import Prelude Json Crypto Events Entry Fs.
Open Scope Z_scope.

Module Verifier.
Import Receipt.

Record Opts := {
  receipt_path : option string; input_path : option string; output_path : option string
}.

Inductive arg_err := MissingFile (flag : string) | UnknownFlag (s : string).

(** [--help] ends the process with success. *)
Inductive parsed := Help | Options (o : Opts).

Fixpoint parse_args (args : list string) (o : Opts) : result arg_err parsed :=
  match args with
  | [] => Ok (Options o)
  | a :: rest =>
    if String.eqb a "--help" || String.eqb a "-h" then Ok Help else
    if String.eqb a "--input" then
      match rest with
      | [] => Err (MissingFile a)
      | p :: rest => parse_args rest {| receipt_path := receipt_path o; input_path := Some p;
                                        output_path := output_path o |}
      end
    else if String.eqb a "--output" then
      match rest with
      | [] => Err (MissingFile a)
      | p :: rest => parse_args rest {| receipt_path := receipt_path o; input_path := input_path o;
                                        output_path := Some p |}
      end
    else if String.prefix "-" a then Err (UnknownFlag a)
    else parse_args rest {| receipt_path := Some a; input_path := input_path o;
                            output_path := output_path o |}
  end.

Definition no_opts : Opts := {| receipt_path := None; input_path := None; output_path := None |}.

Inductive sig_err :=
| NoSignature | SignatureHex | SignatureForm | KeyHex | KeyLength | KeyForm | SignatureMismatch.

Inductive line :=
| SignatureOk (key : string) | SignatureFail (e : sig_err) | InputOk | InputFail | OutputOk | OutputFail.

Inductive exit_code := Success | Failure.

Section verifier.
Context `{!Sha256, !Hex, !Ed25519, !TimeText, !JsonText}.

Definition verify_signature (r : InferenceReceipt) : result sig_err unit :=
  let? sig_hex := ok_or (signature r) NoSignature in
  let? sig := ok_or (hex_decode sig_hex) SignatureHex in
  guard Nat.eqb (String.length sig) 64 else SignatureForm in
  let? key := ok_or (hex_decode (signing_key_id r)) KeyHex in
  guard Nat.eqb (String.length key) 32 else KeyLength in
  guard ed_key_ok key else KeyForm in
  guard ed_verify key (canonical_bytes r) sig else SignatureMismatch in
  Ok tt.

Definition check_file_hash (f : fs) (path expected : string) : bool :=
  match read f path with
  | Ok data => String.eqb (sha256_hex data) expected
  | Err _ => false
  end.

Definition read_receipt (path : option string) (stdin : string) (f : fs) : result io_err string :=
  match path with
  | Some p => read_to_string f p
  | None => if utf8_ok stdin then Ok stdin else Err InvalidUtf8
  end.

(** The lines printed and whether all of them are good. *)
Definition checks (o : Opts) (r : InferenceReceipt) (f : fs) : list line * bool :=
  let sig := match verify_signature r with
             | Ok _ => (SignatureOk (stake 16 (signing_key_id r)), true)
             | Err e => (SignatureFail e, false) end in
  let input := match input_path o with
               | Some p => let ok := check_file_hash f p (input_sha256 r) in
                           ([if ok then InputOk else InputFail], ok)
               | None => ([], true) end in
  let output := match output_path o with
                | Some p => let ok := check_file_hash f p (output_sha256 r) in
                            ([if ok then OutputOk else OutputFail], ok)
                | None => ([], true) end in
  (sig.1 :: input.1 ++ output.1, sig.2 && input.2 && output.2).

Definition main (args : list string) (stdin : string) (f : fs) : list line * exit_code :=
  match parse_args args no_opts with
  | Err _ => ([], Failure)
  | Ok Help => ([], Success)
  | Ok (Options o) =>
    match read_receipt (receipt_path o) stdin f with
    | Err _ => ([], Failure)
    | Ok text =>
      match json_parse text ≫= receipt_of with
      | None => ([], Failure)
      | Some r => let c := checks o r f in (c.1, if c.2 then Success else Failure)
      end
    end
  end.

(** ** Lemmas *)

Lemma canonical_bytes_inj r r' :
  receipt_wf r = true -> receipt_wf r' = true -> canonical_bytes r = canonical_bytes r' ->
  without_signature r = without_signature r'.
Proof.
  intros Hr Hr' He. unfold canonical_bytes in He.
  apply (f_equal json_parse) in He.
  rewrite !json_parse_print in He by (apply Entry.Entry.receipt_json_wf; done). apply (inj Some) in He.
  apply (f_equal receipt_of) in He. rewrite !Events.Events.receipt_round in He by done. by apply (inj Some) in He.
Qed.

Lemma verify_signature_iff r :
  verify_signature r = Ok tt <->
  exists sig_hex sig key, signature r = Some sig_hex /\ hex_decode sig_hex = Some sig /\
    String.length sig = 64%nat /\ hex_decode (signing_key_id r) = Some key /\
    String.length key = 32%nat /\ ed_key_ok key = true /\
    ed_verify key (canonical_bytes r) sig = true.
Proof.
  unfold verify_signature. split.
  - destruct (signature r) as [sh|]; cbn; [|done]. destruct (hex_decode sh) as [sg|] eqn:Hs; cbn; [|done].
    destruct (Nat.eqb (String.length sg) 64) eqn:Hl; [|done].
    destruct (hex_decode (signing_key_id r)) as [k|]; cbn; [|done].
    destruct (Nat.eqb (String.length k) 32) eqn:Hk; [|done]. destruct (ed_key_ok k) eqn:Ho; [|done].
    destruct (ed_verify k _ sg) eqn:Hv; [|done]. intros _. exists sh, sg, k.
    apply Nat.eqb_eq in Hl, Hk. done.
  - intros (sh & sg & k & -> & Hs & Hl & Hkd & Hk & Ho & Hv). cbn. rewrite Hs. cbn.
    rewrite (proj2 (Nat.eqb_eq _ _) Hl), Hkd. cbn. by rewrite (proj2 (Nat.eqb_eq _ _) Hk), Ho, Hv.
Qed.

(** The run on a file with the receipt, with both hash checks. *)
Lemma main_checks f path inp out text r :
  String.prefix "-" path = false -> read_to_string f path = Ok text ->
  json_parse text ≫= receipt_of = Some r ->
  main [path; "--input"; inp; "--output"; out] EmptyString f =
  let c := checks {| receipt_path := Some path; input_path := Some inp; output_path := Some out |} r f in
  (c.1, if c.2 then Success else Failure).
Proof.
  intros Hp Hr Hj. unfold main. cbn [parse_args].
  assert (String.eqb path "--help" = false /\ String.eqb path "-h" = false /\
          String.eqb path "--input" = false /\ String.eqb path "--output" = false)
    as (-> & -> & -> & ->).
  { repeat split; apply String.eqb_neq; intros ->; discriminate. }
  rewrite Hp. cbn. rewrite Hr, Hj. done.
Qed.

(** ** Tampering *)

(** A receipt is bound to its signature: when the verifier accepts a receipt with
    the key of another, they state the same, or there is a valid signature of that key on a
    text other than that of the first. *)
Lemma receipt_binds r r' :
  receipt_wf r = true -> receipt_wf r' = true -> signing_key_id r = signing_key_id r' ->
  verify_signature r' = Ok tt ->
  without_signature r = without_signature r' \/
  exists key sig, hex_decode (signing_key_id r) = Some key /\
    canonical_bytes r' <> canonical_bytes r /\ ed_verify key (canonical_bytes r') sig = true.
Proof.
  intros Hr Hr' Hk (sh & sg & k & _ & _ & _ & Hkd & _ & _ & Hv)%verify_signature_iff.
  destruct (decide (canonical_bytes r' = canonical_bytes r)) as [He|Hne].
  - left. symmetry. by apply canonical_bytes_inj.
  - right. exists k, sg. by rewrite Hk.
Qed.

End verifier.
End Verifier.
