(* ===== verification/Chat.v ===== *)
(** * Chat requests

    Models [maranode-api/src/routes/chat.rs] with [tee_encrypt.rs], the counters and
    the usage of [state.rs], and [maranode-audit/src/sign.rs]: what a request must pass
    before the engine runs, the prompt that the engine gets, what is recorded, and the
    signed receipt. The inference engine is a class. A request is two steps, its
    admission under the lock of the usage map and the rest; the usage is released when
    the guard is dropped, at the end of the answer or of its stream. *)

From Stdlib Require Import ZArith Lia Ascii String.
From S2P Require Import Prelude Json Crypto Common Events Fs UserDb Auth WorkspaceDb WorkspaceApi AppState F32 SortBy RagChunk RagText RagStore RagEngine ModelStore.
Open Scope Z_scope.

(** ** tee_encrypt.rs *)
Module Tee.

Section tee.
Context `{!Aead, !Hex, !Base64}.

Definition from_hex (hex_key : string) : option string :=
  some? bytes := hex_decode hex_key in
  if Nat.eqb (String.length bytes) 32 then Some bytes else None.

(** The nonce of 12 bytes is drawn. *)
Definition encrypt (key nonce plaintext : string) : string := nonce +:+ aead_seal key nonce plaintext.

Definition decrypt (key data : string) : option string :=
  if Nat.ltb (String.length data) 12 then None else aead_open key (stake 12 data) (sdrop 12 data).

Definition encrypt_str (key nonce s : string) : string := b64_encode (encrypt key nonce s).

Definition decrypt_str (key b64 : string) : option string :=
  some? raw := b64_decode b64 in
  some? pt := decrypt key raw in
  if utf8_ok pt then Some pt else None.

Lemma tee_round key nonce s : String.length key = 32%nat -> String.length nonce = 12%nat ->
  utf8_ok s = true -> decrypt_str key (encrypt_str key nonce s) = Some s.
Proof.
  intros Hk Hn Hs. unfold decrypt_str, encrypt_str, decrypt, encrypt. rewrite b64_decode_encode.
  replace (Nat.ltb _ 12) with false.
  - rewrite stake_app_len, sdrop_app_len, aead_open_seal by done. by rewrite Hs.
  - symmetry. apply Nat.ltb_ge. rewrite string_length_app. lia.
Qed.

End tee.
End Tee.

(** ** sign.rs *)
Module Sign.

Definition signing_key_path : string := "bundle_signing.key".
Definition verifying_key_path : string := "bundle_signing.pub".

Inductive sign_err := SignIo (e : io_err) | WrongLength.

Section sign.
Context `{!Ed25519}.

(** [fresh] is the random seed. *)
Definition load_or_create (fresh : string) : SE fs sign_err string := fun f =>
  if exists_ f signing_key_path then
    match read f signing_key_path with
    | Ok raw => if Nat.eqb (String.length raw) 32 then (f, Ok raw) else (f, Err WrongLength)
    | Err e => (f, Err (SignIo e))
    end
  else
    let f := write_file f signing_key_path 384 fresh in
    (std_write f verifying_key_path (ed_public fresh), Ok fresh).

Definition sign (key message : string) : string := ed_sign key message.

Lemma load_length fresh f f' key : String.length fresh = 32%nat ->
  load_or_create fresh f = (f', Ok key) -> String.length key = 32%nat.
Proof.
  intros Hl. unfold load_or_create. repeat (case_match; try done); intros; simplify_eq; try done.
  by apply Nat.eqb_eq.
Qed.

End sign.
End Sign.

(** ** chat.rs *)
Module Chat.
Import Auth.Auth AppState Common.Workspace RagEngine RagStore.

Inductive ChatRole := System | User | Assistant.

#[export] Instance ChatRole_eq_dec : EqDecision ChatRole.
Proof. solve_decision. Defined.

Record ChatMessage := { role : ChatRole; content : string }.

Record OaiMessage := { o_role : string; o_content : string }.

Record RagOptions := { ro_collection : option string; ro_top_k : option nat; require_context : bool }.

Record ChatCompletionRequest := {
  req_model : string; req_messages : list OaiMessage; temperature : Z; max_tokens : Z; stream : bool;
  stop : option (list string); req_rag : option RagOptions; with_receipt : bool;
  deterministic : bool; req_seed : option Z
}.

Record InferenceRequest := {
  ir_request_id : string; ir_model : Common.Models.ModelId; ir_model_path : string;
  ir_messages : list ChatMessage; ir_temperature : Z; ir_max_tokens : Z; ir_stop : list string;
  ir_stream : bool; ir_seed : option Z; ir_deterministic : bool
}.

Record InferenceResponse := {
  rs_content : string; rs_tokens_in : Z; rs_tokens_out : Z; rs_device : Common.Models.InferenceDevice
}.

Record Token := { t_text : string; is_last : bool }.

(** The trait; a stream is the tokens and errors that are sent. An error is its text. *)
Class InferenceEngine := {
  device : Common.Models.InferenceDevice;
  kernel_build_id : string;
  generate : InferenceRequest -> result string InferenceResponse;
  generate_stream : InferenceRequest -> list (result string Token);
  tokens_u32 q r : generate q = Ok r ->
    uint_ok u32_max (rs_tokens_in r) = true /\ uint_ok u32_max (rs_tokens_out r) = true;
}.

Record Stats := { requests : Z; tokens_in : Z; tokens_out : Z; errors : Z; duration_ms : Z }.

Definition wrap64 (z : Z) : Z := z mod 18446744073709551616.

Definition record_ok (ti to ms : Z) (s : Stats) : Stats := {|
  requests := wrap64 (requests s + 1); tokens_in := wrap64 (tokens_in s + ti);
  tokens_out := wrap64 (tokens_out s + to); errors := errors s;
  duration_ms := wrap64 (duration_ms s + ms) |}.

Definition record_error (s : Stats) : Stats := {|
  requests := wrap64 (requests s + 1); tokens_in := tokens_in s; tokens_out := tokens_out s;
  errors := wrap64 (errors s + 1); duration_ms := duration_ms s |}.

Record chat_server := {
  sapp : app; store_ : ModelStore.store; rag : option RagEngine; stats : Stats
}.

Definition set_app (s : chat_server) (a : app) : chat_server :=
  {| sapp := a; store_ := store_ s; rag := rag s; stats := stats s |}.
Definition set_stats (s : chat_server) (st : Stats) : chat_server :=
  {| sapp := sapp s; store_ := store_ s; rag := rag s; stats := st |}.

Definition on_app {A} (m : SE app api_error A) : SE chat_server api_error A := fun s =>
  let r := m (sapp s) in (set_app s r.1, r.2).

(** The drawn values of a request. *)
Record chat_draws := {
  request_id : string; receipt_id : string; sign_seed : string; tee_nonce : string;
  thread_count : Z; elapsed_ms : Z
}.

Definition MAX_MESSAGES : Z := 512.
Definition len {A} (l : list A) : Z := Z.of_nat (List.length l).

(** The window of a workspace in the limiter, times in seconds. *)
Definition take_slot (rpm now_secs : Z) (slug : string) (m : gmap string (Z * Z))
    : gmap string (Z * Z) * bool :=
  let m := if 1024 <? Z.of_nat (size m)
           then filter (fun kv : string * (Z * Z) => sat_sub now_secs kv.2.2 < 120) m else m in
  let e := default (0, now_secs) (m !! slug) in
  if 60 <=? sat_sub now_secs e.2 then (<[slug := (1, now_secs)]> m, true)
  else let n := Z.min u32_max (e.1 + 1) in (<[slug := (n, e.2)]> m, negb (rpm <? n)).

Definition usage_of (slug : string) (a : app) : WorkspaceUsage :=
  default no_usage (workspace_usage a !! slug).

(** The quotas of a workspace against its usage, for a model of this size. *)
Definition within_quota (ws : Workspace) (key : string) (size : Z) (u : WorkspaceUsage) : bool :=
  let is_new := negb (bool_decide (is_Some (active_models u !! key))) in
  negb (match max_concurrent_requests ws with Some max => max <=? concurrent u | None => false end)
  && negb (match max_models ws with Some max => is_new && (max <=? model_count u) | None => false end)
  && negb (match max_memory_bytes ws with
           | Some max => is_new && (max <? Z.min u64_max (memory_bytes u + size)) | None => false end).

Section chat.
Context `{!Rfc3339, !DateTimeText, !JsonText, !TimeText, !Sha256, !Aead, !Hex, !Base64, !Ed25519,
          !Embedder, !InferenceEngine}.

(** The guards of [run], to the acquisition. [now] is in nanoseconds. *)
Definition admit_request (ws : Workspace) (req : ChatCompletionRequest) (now : Z)
    : SE chat_server api_error (Common.Models.ModelId * Common.Models.ModelManifest) :=
  do! s := sget in
  let a := sapp s in
  if air_gap (rt a) && negb (isolation_ok a) then sfail ServiceUnavailable else
  if audit_frozen a then sfail ServiceUnavailable else
  if (match req_messages req with [] => true | _ => false end) then sfail BadRequest else
  if MAX_MESSAGES <? len (req_messages req) then sfail BadRequest else
  do! model_id := slift (ok_or (Common.Models.parse (req_model req)) BadRequest) in
  if negb (allows_model ws (req_model req)) then sfail Forbidden else
  do! _ :=
    (match rate_limit_rpm ws with
     | None => sret tt
     | Some rpm =>
       let r := take_slot rpm (now / ns_per_s) (slug ws) (rate_limiter a) in
       do! _ := smodify (fun s => set_app s (set_limit (sapp s) r.1)) in
       if r.2 then sret tt else sfail ServiceUnavailable
     end) in
  do! manifest := slift (ok_or (ModelStore.get model_id now (store_ s)) NotFound) in
  let key := Common.Models.display model_id in
  let size := Common.Models.size_bytes manifest in
  do! s := sget in
  let u := usage_of (slug ws) (sapp s) in
  if negb (within_quota ws key size u) then
    do! _ := smodify (fun s => set_app s (set_usage (sapp s) (<[slug ws := u]> (workspace_usage (sapp s))))) in
    sfail ServiceUnavailable
  else
  do! _ := smodify (fun s => set_app s
    (set_usage (sapp s) (<[slug ws := acquire u key size]> (workspace_usage (sapp s))))) in
  sret (model_id, manifest).

(** The drop of the guard. *)
Definition release_usage (slug key : string) (s : chat_server) : chat_server :=
  set_app s (set_usage (sapp s) (<[slug := release (usage_of slug (sapp s)) key]> (workspace_usage (sapp s)))).

Definition tee_key (a : app) : option string := tee_encrypt_key (rt a) ≫= Tee.from_hex.

Definition role_of (r : string) : ChatRole :=
  if String.eqb r "system" then System else if String.eqb r "assistant" then Assistant else User.

Definition message_of (key : option string) (m : OaiMessage) : ChatMessage :=
  {| role := role_of (o_role m);
     content := match key with
                | Some k => default (o_content m) (Tee.decrypt_str k (o_content m))
                | None => o_content m
                end |}.

Definition role_str (r : ChatRole) : string :=
  match r with System => "system" | User => "user" | Assistant => "assistant" end.

(** [{:?}]. *)
Definition role_debug (r : ChatRole) : string :=
  match r with System => "System" | User => "User" | Assistant => "Assistant" end.

Definition message_json (m : ChatMessage) : json :=
  JObj [("role", JStr (role_str (role m))); ("content", JStr (content m))].

Definition log_of (ws : Workspace) (a : app) : log_id :=
  if bool_decide (slug ws ∈ workspace_audits a) then WorkspaceLog (slug ws) else MainLog.

Definition append (ws : Workspace) (actor : string) (ev : Events.AuditEvent) : SE chat_server api_error unit :=
  do! s := sget in on_app (audit_append (log_of ws (sapp s)) actor ev).

(** The violations of a retrieval; [None] is all collections. *)
Definition violations (p : Common.Classification.ClassificationPolicy) (ws : Workspace) (col : option string)
    : list Common.Classification.ViolationInfo :=
  match col with
  | None => Common.Classification.check_all_collections p (slug ws)
  | Some c => match Common.Classification.check_access p (slug ws) c with Some v => [v] | None => [] end
  end.

Fixpoint enforce (ws : Workspace) (vs : list Common.Classification.ViolationInfo)
    : SE chat_server api_error unit :=
  match vs with
  | [] => sret tt
  | v :: vs =>
    do! _ := append ws "classification" (Events.DataClassificationViolation (slug ws)
      (Common.Classification.collection v)
      (Common.Classification.as_str (Common.Classification.required_label v))
      (Common.Classification.as_str (Common.Classification.workspace_clearance_ v))
      (Common.Classification.block v)) in
    if Common.Classification.block v then sfail Forbidden else enforce ws vs
  end.

Definition last_user (req : ChatCompletionRequest) : option string :=
  o_content <$> List.find (fun m => String.eqb (o_role m) "user") (List.rev (req_messages req)).

(** What retrieval adds: a prompt with its chunks, or the answer that there is none. *)
Inductive grounding := Grounded (hits : list ScoredChunk) (prompt : string) | Ungrounded (hits : list ScoredChunk)
  | NotInDocuments.

Definition ground (ws : Workspace) (req : ChatCompletionRequest) (opts : RagOptions)
    : SE chat_server api_error grounding :=
  do! s := sget in
  do! e := slift (ok_or (rag s) NotImplemented) in
  do! query := slift (ok_or (last_user req) BadRequest) in
  do! hits := slift (map_err internal
    (match ro_collection opts with
     | Some col => retrieve col query (ro_top_k opts) e
     | None => retrieve_all_collections query (ro_top_k opts) e
     end)) in
  do! _ := append ws "api" (Events.RagRetrieval (default "*" (ro_collection opts)) (sha256_hex query)
                              (len hits)) in
  (* the collection named "*" is taken for all of them *)
  let col := match ro_collection opts with
             | Some c => if String.eqb c "*" then None else Some c | None => None end in
  do! _ := enforce ws (violations (classification (sapp s)) ws col) in
  match build_context_prompt hits e with
  | Some p => sret (Grounded hits p)
  | None => sret (if require_context opts then NotInDocuments else Ungrounded hits)
  end.

Definition system_message (t : string) : ChatMessage := {| role := System; content := t |}.

Definition prompt_sha256 (ms : list ChatMessage) : string :=
  sha256_hex (foldr (fun m acc => role_debug (role m) +:+ content m +:+ acc) EmptyString ms).

(** [(prompt_tokens as f64 * 3.5) as usize], which is exact. *)
Definition max_prompt_chars (context_length : option Z) : Z :=
  match context_length with Some ctx => sat_sub ctx 512 * 7 / 2 | None => 6000 end.

Definition total_chars (ms : list ChatMessage) : Z :=
  foldr (fun m n => Z.of_nat (String.length (content m)) + n) 0 ms.

Definition truncated_note : string := nl +:+ nl +:+ "[context truncated]".

Definition truncate (max : Z) (ms : list ChatMessage) : list ChatMessage :=
  if total_chars ms <=? max then ms else
  match ms with
  | [] => []
  | m :: rest =>
    let budget := Z.max (sat_sub max (total_chars rest)) 200 in
    if bool_decide (role m = System) && (budget <? Z.of_nat (String.length (content m))) then
      {| role := System;
         content := Utf8.utf8 (take (Z.to_nat budget) (Utf8.chars (content m))) +:+ truncated_note |} :: rest
    else ms
  end.

Definition source_ref (c : ScoredChunk) : Receipt.SourceRef := {|
  Receipt.chunk_id := chunk_id c; Receipt.doc_id := doc_id c; Receipt.source := RagStore.source c;
  Receipt.doc_sha256 := doc_sha256 c; Receipt.chunk_hash := chunk_hash c; Receipt.score := score c |}.

Definition unsigned_receipt (d : chat_draws) (now : Z) (model_id model_sha256 : string)
    (quant : option string) (ms : list ChatMessage) (output : string) (ti to temp max_toks : Z)
    (seed : option Z) (det : bool) (hits : list ScoredChunk) (key : string) : Receipt.InferenceReceipt := {|
  Receipt.version := Receipt.RECEIPT_VERSION;
  Receipt.receipt_id := receipt_id d; Receipt.request_id := request_id d; Receipt.timestamp := now;
  Receipt.model_id := model_id; Receipt.model_sha256 := model_sha256; Receipt.model_quant := quant;
  Receipt.input_sha256 := Receipt.hash_messages (message_json <$> ms);
  Receipt.output_sha256 := Receipt.hash_output output;
  Receipt.decode_params := {| Receipt.temperature := Some temp;
    Receipt.top_k := if det then Some 1 else None; Receipt.max_tokens := Some max_toks;
    Receipt.seed := seed; Receipt.deterministic := det |};
  Receipt.tokens_in := ti; Receipt.tokens_out := to;
  Receipt.signing_key_id := hex_encode (ed_public key); Receipt.tpm_pcr := None;
  Receipt.env := {| Receipt.kernel_build_id := kernel_build_id; Receipt.thread_count := thread_count d;
    Receipt.device_class := Common.Models.device_str device |};
  Receipt.sources := source_ref <$> hits;
  Receipt.grounded := negb (match hits with [] => true | _ => false end);
  Receipt.signature := None |}.

Definition signed (key : string) (r : Receipt.InferenceReceipt) : Receipt.InferenceReceipt := {|
  Receipt.version := Receipt.version r; Receipt.receipt_id := Receipt.receipt_id r;
  Receipt.request_id := Receipt.request_id r; Receipt.timestamp := Receipt.timestamp r;
  Receipt.model_id := Receipt.model_id r; Receipt.model_sha256 := Receipt.model_sha256 r;
  Receipt.model_quant := Receipt.model_quant r; Receipt.input_sha256 := Receipt.input_sha256 r;
  Receipt.output_sha256 := Receipt.output_sha256 r; Receipt.decode_params := Receipt.decode_params r;
  Receipt.tokens_in := Receipt.tokens_in r; Receipt.tokens_out := Receipt.tokens_out r;
  Receipt.signing_key_id := Receipt.signing_key_id r; Receipt.tpm_pcr := Receipt.tpm_pcr r;
  Receipt.env := Receipt.env r; Receipt.sources := Receipt.sources r;
  Receipt.grounded := Receipt.grounded r;
  Receipt.signature := Some (hex_encode (Sign.sign key (Receipt.canonical_bytes r))) |}.

(** No receipt when the signing key cannot be read. *)
Definition build_receipt (d : chat_draws) (now : Z) (model_id model_sha256 : string)
    (quant : option string) (ms : list ChatMessage) (output : string) (ti to temp max_toks : Z)
    (seed : option Z) (det : bool) (hits : list ScoredChunk)
    : SE chat_server api_error (option Receipt.InferenceReceipt) := fun s =>
  let r := Sign.load_or_create (sign_seed d) (data (sapp s)) in
  let s := set_app s (set_data (sapp s) r.1) in
  match r.2 with
  | Err _ => (s, Ok None)
  | Ok key => (s, Ok (Some (signed key (unsigned_receipt d now model_id model_sha256 quant ms output
                                          ti to temp max_toks seed det hits key))))
  end.

Inductive chat_response :=
| Completion (content : string) (prompt_tokens completion_tokens total_tokens : Z)
    (sources : option (list ScoredChunk)) (receipt : option Receipt.InferenceReceipt)
| Streamed (tokens : list (result string Token)) (sources : option (list ScoredChunk))
| NoAnswer.

Definition busy (e : string) : bool := String.prefix "server busy" e.

(** The system prompt of the workspace, or that of the server, comes first. *)
Definition with_system_prompt (ws : Workspace) (a : app) (ms : list ChatMessage) : list ChatMessage :=
  match (match system_prompt ws with Some p => Some p | None => AppState.system_prompt (rt a) end) with
  | Some p => system_message p :: ms
  | None => ms
  end.

Definition eff_temperature (req : ChatCompletionRequest) : Z :=
  if deterministic req then 0 else temperature req.
Definition eff_seed (req : ChatCompletionRequest) : option Z :=
  if deterministic req then Some 0 else req_seed req.

Definition inference_request (req : ChatCompletionRequest) (model : Common.Models.ModelId)
    (m : Common.Models.ModelManifest) (d : chat_draws) (ms : list ChatMessage) : InferenceRequest := {|
  ir_request_id := request_id d; ir_model := model; ir_model_path := Common.Models.blob_path m;
  ir_messages := ms; ir_temperature := eff_temperature req; ir_max_tokens := max_tokens req;
  ir_stop := default [] (stop req); ir_stream := stream req; ir_seed := eff_seed req;
  ir_deterministic := deterministic req |}.

(** From the messages and the retrieved chunks to the answer. *)
Definition answer (ws : Workspace) (req : ChatCompletionRequest) (model : Common.Models.ModelId)
    (m : Common.Models.ModelManifest) (d : chat_draws) (now : Z) (key : option string)
    (hits : list ScoredChunk) (sources : option (list ScoredChunk)) (ms : list ChatMessage)
    : SE chat_server api_error chat_response :=
  do! s := sget in
  let ms := with_system_prompt ws (sapp s) ms in
  let log_prompts := log_prompts (rt (sapp s)) in
  do! _ := append ws "api" (Events.InferenceStart (request_id d) model (prompt_sha256 ms) device
    (if log_prompts then Some (json_print (JArr (message_json <$> ms))) else None)) in
  let ms := truncate (max_prompt_chars (Common.Models.context_length m)) ms in
  let ireq := inference_request req model m d ms in
  if stream req then sret (Streamed (generate_stream ireq) sources) else
  match generate ireq with
  | Err e =>
    do! _ := smodify (fun s => set_stats s (record_error (stats s))) in
    do! _ := append ws "api" (Events.InferenceFailed (request_id d) model e) in
    sfail (if busy e then ServiceUnavailable else Internal)
  | Ok resp =>
    do! _ := smodify (fun s => set_stats s (record_ok (rs_tokens_in resp) (rs_tokens_out resp)
                                              (elapsed_ms d) (stats s))) in
    do! _ := append ws "api" (Events.InferenceComplete (request_id d) model (rs_tokens_in resp)
      (rs_tokens_out resp) (elapsed_ms d) (rs_device resp)
      (if log_prompts then Some (rs_content resp) else None)) in
    do! receipt := build_receipt d now (Common.Models.display model) (Common.Models.sha256 m)
      (Common.Models.quantization m) ms (rs_content resp) (rs_tokens_in resp) (rs_tokens_out resp)
      (eff_temperature req) (max_tokens req) (eff_seed req) (deterministic req) hits in
    do! _ := (match receipt with
              | Some r => append ws "api" (Events.InferenceReceiptEv r)
              | None => sret tt
              end) in
    let out := match key with
               | Some k => Tee.encrypt_str k (tee_nonce d) (rs_content resp)
               | None => rs_content resp
               end in
    sret (Completion out (rs_tokens_in resp) (rs_tokens_out resp)
            (Z.min u32_max (rs_tokens_in resp + rs_tokens_out resp)) sources
            (if with_receipt req then receipt else None))
  end.

(** The rest of [run], after the admission. *)
Definition serve (ws : Workspace) (req : ChatCompletionRequest) (model : Common.Models.ModelId)
    (m : Common.Models.ModelManifest) (d : chat_draws) (now : Z) : SE chat_server api_error chat_response :=
  do! s := sget in
  let key := tee_key (sapp s) in
  let ms := message_of key <$> req_messages req in
  do! g := (match req_rag req with None => sret (Ungrounded []) | Some opts => ground ws req opts end) in
  match g with
  | NotInDocuments => sret NoAnswer
  | Ungrounded hits => answer ws req model m d now key hits None ms
  | Grounded hits p => answer ws req model m d now key hits (Some hits) (system_message p :: ms)
  end.

(** [run], from the admission to the drop of the guard. *)
Definition run (ws : Workspace) (req : ChatCompletionRequest) (d : chat_draws) (now : Z)
    : SE chat_server api_error chat_response := fun s =>
  match admit_request ws req now s with
  | (s, Err e) => (s, Err e)
  | (s, Ok (id, m)) =>
    let r := serve ws req id m d now s in
    (release_usage (slug ws) (Common.Models.display id) r.1, r.2)
  end.

(** The route, with the extractor of the workspace. *)
Definition chat_completions (h : WorkspaceApi.WorkspaceApi.ws_headers) (req : ChatCompletionRequest)
    (d : chat_draws) (now : Z) : SE chat_server api_error chat_response := fun s =>
  match WorkspaceApi.WorkspaceApi.workspace_ctx h now (wsv (sapp s)) with
  | Ok ws => run ws req d now s
  | Err e => (s, Err e)
  end.

End chat.
End Chat.
