(* ===== verification/Bundle.v ===== *)
(** * Evidence bundles and attestation reports

    Models [maranode-audit/src/bundle.rs], and [binary.rs], [report.rs] and [tee.rs] of
    [maranode-attestation], with the routes of [routes/attestation.rs]. The archive
    writer, the running program and the texts of errors are classes. *)

From Stdlib Require Import ZArith Lia Ascii String.
From S2P Require Import Prelude Json Crypto Common Events Entry Fs AuditRotate AuditLog AuditChain AuditInv AuditRefine.
From S2P Require Import UserDb Exports Auth Pcr Chat.
Import Events Entry Verify Log.
Open Scope string_scope.
Open Scope list_scope.
Open Scope Z_scope.

(** A zip archive of files with names. *)
Class Archive := {
  zip_files : list (string * string) -> string;
  unzip_files : string -> option (list (string * string));
  unzip_zip_files l : NoDup l.*1 -> unzip_files (zip_files l) = Some l
}.

(** The texts of errors that libraries print. *)
Class ErrorText := {
  audit_error : audit_err -> string;
  parse_message : nat -> string
}.

Definition violation_text `{!ErrorText} (v : violation) : string :=
  match v with
  | ParseError n => "JSON parse error at line " +:+ show_u64 (Z.of_nat n) +:+ ": " +:+ parse_message n
  | SequenceGap expected got => "sequence gap: expected " +:+ show_u64 expected +:+ ", got " +:+ show_u64 got
  | PrevMismatch expected got => "prev_hmac mismatch: expected " +:+ expected +:+ ", got " +:+ got
  | HmacMismatch => "HMAC mismatch: entry has been tampered with"
  | SegmentMismatch file => "segment " +:+ file +:+ " last_hmac does not match its content"
  end.

(** ** bundle.rs *)
Module Bundle.

Section bundle.
Context `{!JsonText, !TimeText, !Rfc3339, !Hmac, !Hex, !Sha256, !AuditRotate.Zip, !Stamp, !Ed25519, !Archive, !ErrorText}.

Definition integrity_json (verified_at : Z) (r : VerifyResult) : json :=
  to_value (JObj [
    ("verified_at", JStr (to_rfc3339 verified_at)); ("entries_checked", JInt (entries_checked r)); ("ok", JBool (ok r));
    ("first_violation", jopt (fun v => JObj [("seq", JInt (vseq v)); ("detail", JStr (violation_text (detail v)))])
                             (first_violation r))]).

Definition file_json (file : string * string) : json :=
  JObj [("name", JStr file.1); ("sha256", JStr (sha256_hex file.2))].

Definition manifest_json (created_at : Z) (files : list (string * string)) (ws : option string) : json :=
  to_value (JObj ([("created_at", JStr (to_rfc3339 created_at)); ("files", JArr (file_json <$> files))]
                  ++ jskip "workspace" JStr ws)).

Definition bundle_files (log_bytes : string) (r : VerifyResult) (verified created : Z) (ws : option string)
    (sk attestation : option string) : list (string * string) :=
  let files := [("audit.jsonl", log_bytes); ("integrity.json", json_pretty (integrity_json verified r))] ++
    match attestation with Some b => [("attestation.json", b)] | None => [] end in
  let manifest := json_pretty (manifest_json created files ws) in
  files ++ [("manifest.json", manifest)] ++
  match sk with
  | Some sk => [("manifest.sig", hex_encode (Sign.sign sk manifest)); ("signing_key.pub", hex_encode (ed_public sk))]
  | None => []
  end.

(** The instants are those of the verification and of the manifest. *)
Definition create_bundle_with_attestation (log_path key_path output_path : string) (ws sk attestation : option string)
    (verified created : Z) (fault : option nat) : SE fs audit_err unit := fun f =>
  let r :=
    let? log_bytes := map_err Io (read f log_path) in
    let? key := Key.load f key_path in
    let? result := verify_log f log_path key in
    Ok (zip_files (bundle_files log_bytes result verified created ws sk attestation)) in
  match r with
  | Ok z => let w := swrite fault output_path z f in (w.1, map_err Io w.2)
  | Err e => (f, Err e)
  end.

Definition create_bundle (log_path key_path output_path : string) (ws sk : option string)
    (verified created : Z) (fault : option nat) : SE fs audit_err unit :=
  create_bundle_with_attestation log_path key_path output_path ws sk None verified created fault.

(** *** What an auditor checks *)

Fixpoint file_named (n : string) (l : list (string * string)) : option string :=
  match l with [] => None | (n', b) :: r => if String.eqb n n' then Some b else file_named n r end.

Definition listed_file (j : json) : option (string * string) :=
  some? n := as_str (jindex "name" j) in some? h := as_str (jindex "sha256" j) in Some (n, h).

Definition listed (manifest : json) : option (list (string * string)) :=
  some? l := as_arr (jindex "files" manifest) in all_some (listed_file <$> l).

(** The signature of the manifest, and the digest of every file that it lists. *)
Definition bundle_accepts (pub : string) (files : list (string * string)) : bool :=
  match file_named "manifest.json" files, file_named "manifest.sig" files ≫= hex_decode with
  | Some m, Some sig =>
    ed_verify pub m sig &&
    match json_parse m ≫= listed with
    | Some l => forallb (fun nh => match file_named nh.1 files with
                                   | Some b => String.eqb (sha256_hex b) nh.2 | None => false end) l
    | None => false
    end
  | _, _ => false
  end.

Lemma file_json_value x : to_value (file_json x) = file_json x.
Proof. reflexivity. Qed.

Lemma manifest_listed created files ws :
  listed (manifest_json created files ws) = Some ((fun x => (x.1, sha256_hex x.2)) <$> files).
Proof.
  assert (jindex "files" (manifest_json created files ws) = JArr (to_value <$> (file_json <$> files))) as Hf
    by (destruct ws; reflexivity).
  unfold listed. rewrite Hf. cbn [as_arr]. clear Hf. induction files as [|x files IH]; [done|].
  rewrite !fmap_cons. cbn [all_some]. rewrite IH. reflexivity.
Qed.

Lemma file_json_wf x : json_wf (file_json x) = true.
Proof. reflexivity. Qed.

Lemma manifest_wf created files ws : json_wf (manifest_json created files ws) = true.
Proof.
  apply to_value_wf. rewrite json_wf_obj, forallb_app, wf_skip, andb_true_r. cbn [forallb snd json_wf andb].
  rewrite andb_true_r. apply forallb_forall. intros j Hj%list_elem_of_In. apply list_elem_of_fmap in Hj as (x & -> & _).
  apply file_json_wf.
Qed.

(** The active file alone verifies, whatever the sealed segments are. *)
Lemma verify_active w a : log_inv w a ->
  verify_log w.1 (lpath w.2) (lkey w.2) =
  Ok {| entries_checked := Z.of_nat (length (al_active a)); ok := true; first_violation := None |}.
Proof.
  intros (Hf & _ & _ & Hc & _ & _ & Hr & Hch & _ & _ & Hb). unfold verify_log.
  assert (exists_ w.1 (lpath w.2) = true) as -> by (apply exists_content; [done|rewrite Hc; eauto]).
  rewrite read_to_string_content, Hc. unfold total in *. apply Forall_app in Hr as [_ Hr].
  rewrite log_text_utf8 by done. cbn [negb map_err rbind]. rewrite anchor_log_text by done.
  apply chained_app in Hch as [Hch1 Hch2].
  destruct (al_active a) as [|e es] eqn:Ha; [done|].
  assert (chained (lkey w.2) (seq e) (prev_hmac e) (e :: es)) as He by (destruct Hch2 as (Hq & _ & He); cbn [chained]; by rewrite Hq).
  destruct (Z.ltb_spec 1 (seq e)) as [Hs|Hs].
  - rewrite walk_log_text by done. done.
  - assert (seq e = 1 /\ prev_hmac e = Chain.GENESIS_HMAC) as [Hs1 Hp1].
    { destruct (all_entries (al_segs a)) as [|x l] eqn:Hseg; [by destruct Hch2 as (-> & -> & _)|].
      exfalso. destruct Hch2 as (Hq & _). rewrite (end_seq_count _ _ _ _ Hch1) in Hq; [cbn [length] in *; lia|lia|].
      rewrite length_app in Hb. lia. }
    rewrite Hs1, Hp1 in He. rewrite walk_log_text by done. done.
Qed.

Section created.
Variables (ws attestation : option string) (sk : string) (verified created : Z).
Hypothesis Hsk : String.length sk = 32%nat.

Lemma bundle_names log_bytes r : NoDup (bundle_files log_bytes r verified created ws (Some sk) attestation).*1.
Proof. destruct attestation; cbn; repeat constructor; set_solver. Qed.

Lemma bundle_accepted log_bytes r :
  bundle_accepts (ed_public sk) (bundle_files log_bytes r verified created ws (Some sk) attestation) = true.
Proof.
  unfold bundle_accepts, bundle_files.
  destruct attestation as [att|]; cbn [app file_named fst snd String.eqb Ascii.eqb Bool.eqb]; simpl (_ ≫= _);
    rewrite hex_decode_encode, ed_verify_sign, json_parse_pretty by (done || apply manifest_wf);
    cbn [mbind option_bind]; rewrite manifest_listed; cbn; by rewrite !String.eqb_refl.
Qed.

End created.

(** Who accepts another set of files under the same signed list has the same log. *)
Lemma accepted_log pub files' m l h :
  file_named "manifest.json" files' = Some m ->
  json_parse m ≫= listed = Some l -> In ("audit.jsonl", h) l ->
  bundle_accepts pub files' = true -> exists b, file_named "audit.jsonl" files' = Some b /\ sha256_hex b = h.
Proof.
  intros Hm Hl Hin. unfold bundle_accepts. rewrite Hm. destruct (_ ≫= hex_decode); [|done].
  rewrite Hl. intros [_ Ha]%andb_true_iff. rewrite forallb_forall in Ha. apply Ha in Hin. cbn [fst snd] in Hin.
  case_match; [|done]. eexists. split; [done|]. by apply String.eqb_eq.
Qed.

(** C28: The evidence of a log covers its active file only. In every state of a log whose
    whole chain verifies: an export has the wanted entries of the active file, and a
    signed bundle is accepted by an auditor with the text of the active file and an
    integrity report that says ok with the number of active entries, whatever was sealed
    in segments. Any other files that are accepted under the signed manifest have a log
    of the same digest. *)
Theorem evidence_covers_active w a key_path out ws sk attestation verified created flt :
  log_inv w a -> Key.load w.1 key_path = Ok (lkey w.2) -> String.length sk = 32%nat ->
  Exports.load_entries w.1 (lpath w.2) flt = Ok (List.filter (Exports.wanted flt) (al_active a)) /\
  exists f' z files,
    create_bundle_with_attestation (lpath w.2) key_path out ws (Some sk) attestation verified created None w.1
      = (f', Ok tt) /\
    content_at f' out = Some z /\ unzip_files z = Some files /\ bundle_accepts (ed_public sk) files = true /\
    file_named "audit.jsonl" files = Some (log_text (al_active a)) /\
    (exists i, file_named "integrity.json" files = Some i /\ (jindex "ok" <$> json_parse i) = Some (JBool true) /\
       (jindex "entries_checked" <$> json_parse i) = Some (JInt (Z.of_nat (length (al_active a))))) /\
    (forall files', file_named "manifest.json" files' = file_named "manifest.json" files ->
       bundle_accepts (ed_public sk) files' = true ->
       exists b, file_named "audit.jsonl" files' = Some b /\ sha256_hex b = sha256_hex (log_text (al_active a))).
Proof.
  intros Hi Hk Hsk. pose proof (verify_active _ _ Hi) as Hv.
  destruct Hi as (Hf & _ & _ & Hc & _ & _ & Hr & _ & _ & _ & Hb). unfold total in *.
  apply Forall_app in Hr as [_ Hr]. split.
  { unfold Exports.load_entries, Exports.read_all.
    assert (exists_ w.1 (lpath w.2) = true) as -> by (apply exists_content; [done|rewrite Hc; eauto]).
    rewrite read_to_string_content, Hc, log_text_utf8 by done. cbn [negb map_err rbind]. by rewrite entries_of_log_text. }
  unfold create_bundle_with_attestation. rewrite read_content, Hc. cbn [ok_or map_err rbind]. rewrite Hk. cbn [rbind].
  rewrite Hv. cbn [rbind]. set (r := {| entries_checked := _ |}).
  pose proof (bundle_accepted ws attestation sk verified created Hsk (log_text (al_active a)) r) as Ha.
  unfold swrite. cbn [fst snd map_err].
  eexists _, _, _. split; [reflexivity|]. split; [by rewrite content_at_std_write, decide_True|].
  split; [by apply unzip_zip_files, bundle_names|]. split; [exact Ha|].
  split; [by destruct attestation|]. split.
  - exists (json_pretty (integrity_json verified r)). split; [by destruct attestation|].
    assert (json_wf (integrity_json verified r) = true) as Hw.
    { apply to_value_wf. unfold r. cbn. rewrite length_app in Hb. unfold u64_max. lia. }
    rewrite json_parse_pretty by done. done.
  - intros files' Hm Ha'. eapply accepted_log; [|..|exact Ha'].
    + etrans; [exact Hm|]. by destruct attestation.
    + rewrite json_parse_pretty by apply manifest_wf. cbn [mbind option_bind]. apply manifest_listed.
    + by left.
Qed.

End bundle.
End Bundle.
