(* ===== verification/Llama.v ===== *)
(** * The inference engine

    Models [maranode-inference/src/llama.rs]: the prompt text, its decoding in pieces, the
    loops that generate and stream tokens, embeddings, and the cache of loaded models.
    The llama.cpp library is a class: models, contexts and samplers are abstract, a batch
    is the list of its slots, and its laws bound the cells of a context. Run times are
    arguments. The loops take fuel; [room] is enough whatever the request. The engine is
    an instance of the interface that the chat routes use. *)

From Stdlib Require Import ZArith Lia Ascii String.
From S2P Require Import Prelude Json Common F32 Chat.
Open Scope string_scope.
Open Scope list_scope.
Open Scope Z_scope.

Module Llama.
Import Chat.Chat.

Definition MAX_N_CTX : Z := 32768.
Definition N_BATCH : nat := 512.

(** [as i32] of an integer. *)
Definition i32 (z : Z) : Z := (z + 2147483648) mod 4294967296 - 2147483648.

(** [as u32]. *)
Definition u32 (z : Z) : Z := z mod 4294967296.

Lemma i32_id z : -2147483648 <= z < 2147483648 -> i32 z = z.
Proof. intros Hz. unfold i32. rewrite Z.mod_small; lia. Qed.

Lemma u32_id z : 0 <= z < 4294967296 -> u32 z = z.
Proof. intros Hz. unfold u32. by rewrite Z.mod_small. Qed.

(** A token of a batch, with its position and whether its logits are wanted. *)
Record slot := { s_token : Z; s_pos : Z; s_logits : bool }.

(** The samplers that the engine asks for. *)
Inductive sampler := Greedy | Dist (temperature seed : Z).

Inductive llama_err :=
| LoadFailed (path : string) | Tokenising | PromptTooLong (n n_ctx : Z) | ContextCreation | BatchAdd
| PromptBatchAdd | PromptDecode | DecodeStep | EmbedTokenising | EmbedContext | EmbedBatchAdd | EmbedEncode
| EmbedRead.

(** llama.cpp through [llama-cpp-2]. A batch given to [decode] takes a cell for each of
    its slots; a context has the cells it was asked for, rounded up. *)
Class LlamaCpp := {
  model : Type;
  ctx : Type;
  chain : Type;
  load_from_file : string -> option model;
  n_ctx_train : model -> Z;
  n_embd : model -> nat;
  str_to_token : model -> string -> option (list Z);
  is_eog_token : model -> Z -> bool;
  token_to_str : model -> Z -> option string;
  new_context : model -> Z -> option ctx;
  cells : ctx -> Z;
  used : ctx -> Z;
  decode : ctx -> list slot -> option ctx;
  batch_room : nat -> list slot -> bool;
  chain_of : sampler -> chain;
  sample : chain -> ctx -> Z -> chain * Z;
  embedding_context : model -> Z -> nat -> option ctx;
  encode : ctx -> list slot -> option ctx;
  embeddings_seq_ith : ctx -> option (list Z);
  llama_device : Common.Models.InferenceDevice;
  llama_build_id : string;
  library_error : llama_err -> string;
  n_ctx_train_u32 m : 0 <= n_ctx_train m <= u32_max;
  new_context_cells m n c : 0 < n -> new_context m n = Some c -> used c = 0 /\ cells c < n + 256;
  decode_used c b c' : decode c b = Some c' ->
    used c' = used c + len b /\ used c' <= cells c' /\ cells c' = cells c;
  batch_room_ok n b : (List.length b < n)%nat -> batch_room n b = true;
}.

Inductive FinishReason := Stop | Length | ErrorReason.

(** ** The prompt *)

Definition role_name (r : ChatRole) : string :=
  match r with System => "system" | User => "user" | Assistant => "assistant" end.

Definition IM_START : string := "<|im_start|>".
Definition IM_END : string := "<|im_end|>".

Definition chatml_message (m : ChatMessage) : string :=
  IM_START +:+ role_name (role m) +:+ nl +:+ content m +:+ IM_END +:+ nl.

Fixpoint chatml_messages (l : list ChatMessage) : string :=
  match l with [] => "" | m :: l => chatml_message m +:+ chatml_messages l end.

Definition build_chatml_prompt (l : list ChatMessage) : string :=
  chatml_messages l +:+ IM_START +:+ "assistant" +:+ nl.

(** The bits of 1e-6. *)
Definition TINY : Z := 897988541.

Definition build_sampler (temperature : Z) (seed : option Z) (deterministic : bool) : sampler :=
  if F32.lt temperature TINY then Greedy else Dist temperature (u32 (default 42 seed)).

Definition ends_with (s suffix : string) : bool :=
  Nat.leb (String.length suffix) (String.length s) &&
  String.eqb (sdrop (String.length s - String.length suffix) s) suffix.

Section engine.
Context `{!LlamaCpp}.

Definition batch_add (cap : nat) (b : list slot) (s : slot) : option (list slot) :=
  if batch_room cap b then Some (b ++ [s]) else None.

Fixpoint batch_add_all (cap : nat) (b l : list slot) : option (list slot) :=
  match l with
  | [] => Some b
  | s :: l => some? b := batch_add cap b s in batch_add_all cap b l
  end.

(** ** decode_prompt *)

(** The slots of [tokens[start..end]]. *)
Fixpoint piece_slots (start n : nat) (l : list Z) : list slot :=
  match l with
  | [] => []
  | t :: l => {| s_token := t; s_pos := i32 (Z.of_nat start); s_logits := Nat.eqb start (n - 1) |}
              :: piece_slots (S start) n l
  end.

(** The loop from [start]; [None] when the fuel is out. *)
Fixpoint decode_pieces (fuel : nat) (c : ctx) (b : list slot) (tokens : list Z) (start : nat)
    : option (result llama_err (ctx * list slot)) :=
  match fuel with
  | O => None
  | S fuel =>
    let n := List.length tokens in
    if Nat.ltb start n then
      let end_ := Nat.min (start + N_BATCH) n in
      match batch_add_all N_BATCH b (piece_slots start n (take (end_ - start) (drop start tokens))) with
      | None => Some (Err PromptBatchAdd)
      | Some b =>
        match decode c b with
        | None => Some (Err PromptDecode)
        | Some c => decode_pieces fuel c (if Nat.ltb end_ n then [] else b) tokens end_
        end
      end
    else Some (Ok (c, b))
  end.

Definition decode_prompt (c : ctx) (b : list slot) (tokens : list Z)
    : option (result llama_err (ctx * list slot)) :=
  decode_pieces (S (List.length tokens)) c b tokens 0.

(** ** generate_sync *)

Record gen := { g_chain : chain; g_ctx : ctx; g_batch : list slot; g_cur : Z; g_out : string }.

Inductive step := Continue (g : gen) | Finish (g : gen) (r : FinishReason) | Fail (e : llama_err).

Definition stop_hit (stops : list string) (s : string) : bool := existsb (ends_with s) stops.

Definition gen_step (m : model) (q : InferenceRequest) (n_prompt : Z) (g : gen) : step :=
  let (ch, token) := sample (g_chain g) (g_ctx g) (len (g_batch g) - 1) in
  if is_eog_token m token then Finish g Stop else
  let out := g_out g +:+ default "" (token_to_str m token) in
  let g := {| g_chain := ch; g_ctx := g_ctx g; g_batch := g_batch g; g_cur := g_cur g; g_out := out |} in
  if stop_hit (ir_stop q) out then Finish g Stop else
  let cur := i32 (g_cur g + 1) in
  let g := {| g_chain := ch; g_ctx := g_ctx g; g_batch := g_batch g; g_cur := cur; g_out := out |} in
  if i32 (ir_max_tokens q) <=? i32 (cur - n_prompt) then Finish g Length else
  match batch_add N_BATCH [] {| s_token := token; s_pos := i32 (cur - 1); s_logits := true |} with
  | None => Fail BatchAdd
  | Some b =>
    match decode (g_ctx g) b with
    | None => Fail DecodeStep
    | Some c => Continue {| g_chain := ch; g_ctx := c; g_batch := b; g_cur := cur; g_out := out |}
    end
  end.

Fixpoint gen_loop (fuel : nat) (m : model) (q : InferenceRequest) (n_prompt : Z) (g : gen)
    : option (result llama_err (gen * FinishReason)) :=
  match fuel with
  | O => None
  | S fuel =>
    match gen_step m q n_prompt g with
    | Continue g => gen_loop fuel m q n_prompt g
    | Finish g r => Some (Ok (g, r))
    | Fail e => Some (Err e)
    end
  end.

Record generated := { gd_content : string; gd_in : Z; gd_out : Z; gd_reason : FinishReason }.

(** Cells enough for any context that the engine asks for. *)
Definition room : nat := Z.to_nat (MAX_N_CTX + 256).

(** What precedes the loop, in the order of [generate_sync]. *)
Definition before (m : model) (q : InferenceRequest) : result llama_err (ctx * list Z) :=
  let n_ctx := Z.min MAX_N_CTX (n_ctx_train m) in
  let? tokens := ok_or (str_to_token m (build_chatml_prompt (ir_messages q))) Tokenising in
  let n_prompt := u32 (len tokens) in
  guard n_prompt <? n_ctx else PromptTooLong n_prompt n_ctx in
  let? c := ok_or (new_context m n_ctx) ContextCreation in
  Ok (c, tokens).

(** The prompt in the context, and the state in which the loop begins. *)
Definition begin (q : InferenceRequest) (c : ctx) (tokens : list Z) : option (result llama_err gen) :=
  some? r := decode_prompt c [] tokens in
  Some (let? cb := r in
        Ok {| g_chain := chain_of (build_sampler (ir_temperature q) (ir_seed q) (ir_deterministic q));
              g_ctx := cb.1; g_batch := cb.2; g_cur := i32 (len tokens); g_out := "" |}).

Definition generate_sync (fuel : nat) (m : model) (q : InferenceRequest) : option (result llama_err generated) :=
  match before m q with
  | Err e => Some (Err e)
  | Ok (c, tokens) =>
    let n_prompt := i32 (u32 (len tokens)) in
    some? r := begin q c tokens in
    match r with
    | Err e => Some (Err e)
    | Ok g =>
      some? r := gen_loop fuel m q n_prompt g in
      Some (let? gr := r in
            Ok {| gd_content := g_out gr.1; gd_in := u32 n_prompt; gd_out := u32 (i32 (g_cur gr.1 - n_prompt));
                  gd_reason := gr.2 |})
    end
  end.

(** ** stream_sync

    A message is a token or an error; the receiver takes [takes] of them, or all. *)

Definition message : Type := result llama_err Token.

Definition taken (takes : option nat) : bool := match takes with Some O => false | _ => true end.

Definition after (takes : option nat) : option nat := pred <$> takes.

(** [blocking_send]: what arrives. *)
Definition send (takes : option nat) (x : message) : list message := if taken takes then [x] else [].

Fixpoint stream_loop (fuel : nat) (m : model) (q : InferenceRequest) (n_prompt : Z) (takes : option nat)
    (g : gen) : option (list message) :=
  match fuel with
  | O => None
  | S fuel =>
    let (ch, token) := sample (g_chain g) (g_ctx g) (len (g_batch g) - 1) in
    let is_eog := is_eog_token m token in
    let n_new := i32 (i32 (g_cur g - n_prompt) + 1) in
    let text := if is_eog then "" else default "" (token_to_str m token) in
    let emitted := match ir_stop q with [] => g_out g | _ => g_out g +:+ text end in
    let hit_stop := match ir_stop q with [] => false | _ => stop_hit (ir_stop q) emitted end in
    let last := is_eog || hit_stop || (i32 (ir_max_tokens q) <=? n_new) in
    let sent := send takes (Ok {| t_text := text; is_last := last |}) in
    if negb (taken takes) || last then Some sent else
    let cur := i32 (g_cur g + 1) in
    match batch_add N_BATCH [] {| s_token := token; s_pos := i32 (cur - 1); s_logits := true |} with
    | None => Some sent
    | Some b =>
      match decode (g_ctx g) b with
      | None => Some (sent ++ send (after takes) (Err DecodeStep))
      | Some c =>
        some? l := stream_loop fuel m q n_prompt (after takes)
                     {| g_chain := ch; g_ctx := c; g_batch := b; g_cur := cur; g_out := emitted |} in
        Some (sent ++ l)
      end
    end
  end.

(** The context is created before the text is tokenised. *)
Definition before_stream (m : model) (q : InferenceRequest) : result llama_err (ctx * list Z) :=
  let n_ctx := Z.min MAX_N_CTX (n_ctx_train m) in
  let? c := ok_or (new_context m n_ctx) ContextCreation in
  let? tokens := ok_or (str_to_token m (build_chatml_prompt (ir_messages q))) Tokenising in
  guard u32 (len tokens) <? n_ctx else PromptTooLong (len tokens) n_ctx in
  Ok (c, tokens).

Definition stream_sync (fuel : nat) (m : model) (q : InferenceRequest) (takes : option nat)
    : option (list message) :=
  match before_stream m q with
  | Err e => Some (send takes (Err e))
  | Ok (c, tokens) =>
    some? r := begin q c tokens in
    match r with
    | Err e => Some (send takes (Err e))
    | Ok g => stream_loop fuel m q (i32 (len tokens)) takes g
    end
  end.

(** ** embed_sync *)

Fixpoint embed_slots (i : nat) (l : list Z) : list slot :=
  match l with
  | [] => []
  | t :: l => {| s_token := t; s_pos := i32 (Z.of_nat i); s_logits := true |} :: embed_slots (S i) l
  end.

(** Vectors are the bits of their numbers; 0 is [0.0]. *)
Definition embed_text (m : model) (text : string) : result llama_err (list Z) :=
  let n_ctx := Z.min MAX_N_CTX (n_ctx_train m) in
  let? tokens := ok_or (str_to_token m text) EmbedTokenising in
  let tokens := take (Z.to_nat n_ctx) tokens in
  match tokens with
  | [] => Ok (replicate (n_embd m) 0)
  | _ =>
    let seq_len := List.length tokens in
    let? c := ok_or (embedding_context m n_ctx seq_len) EmbedContext in
    let? b := ok_or (batch_add_all seq_len [] (embed_slots 0 tokens)) EmbedBatchAdd in
    let? c := ok_or (encode c b) EmbedEncode in
    ok_or (embeddings_seq_ith c) EmbedRead
  end.

Fixpoint embed_sync (m : model) (texts : list string) : result llama_err (list (list Z)) :=
  match texts with
  | [] => Ok []
  | t :: texts => let? v := embed_text m t in let? l := embed_sync m texts in Ok (v :: l)
  end.

(** ** The cache of loaded models *)

Record ModelCache := { by_path : gmap string (model * Z); id_to_path : gmap string string }.

(** [min_by_key] on the instants, the first of equals. *)
Fixpoint oldest (l : list (string * (model * Z))) : option (string * (model * Z)) :=
  match l with
  | [] => None
  | x :: l =>
    match oldest l with
    | Some y => Some (if y.2.2 <? x.2.2 then y else x)
    | None => Some x
    end
  end.

Definition evict_lru (just_loaded : string) (c : ModelCache) : ModelCache :=
  match oldest (List.filter (fun x => negb (String.eqb x.1 just_loaded)) (map_to_list (by_path c))) with
  | Some (k, _) => {| by_path := delete k (by_path c);
                      id_to_path := filter (fun x => x.2 <> k) (id_to_path c) |}
  | None => c
  end.

(** The first part of [get_or_load], under the lock: a hit is used now. *)
Definition cache_hit (path : string) (now : Z) (c : ModelCache) : ModelCache * option model :=
  match by_path c !! path with
  | Some (m, _) => ({| by_path := <[path := (m, now)]> (by_path c); id_to_path := id_to_path c |}, Some m)
  | None => (c, None)
  end.

(** The last part, under the lock again. *)
Definition cache_insert (max_loaded : nat) (path : string) (m : model) (now : Z) (c : ModelCache) : ModelCache :=
  let c := {| by_path := <[path := (m, now)]> (by_path c); id_to_path := id_to_path c |} in
  if Nat.ltb 0 max_loaded && Nat.ltb max_loaded (size (by_path c)) then evict_lru path c else c.

(** Without another request in between; the clock is read once, before or after the load. *)
Definition get_or_load (max_loaded : nat) (path : string) (now : Z) : SE ModelCache llama_err model := fun c =>
  match cache_hit path now c with
  | (c, Some m) => (c, Ok m)
  | (c, None) =>
    match load_from_file path with
    | None => (c, Err (LoadFailed path))
    | Some m => (cache_insert max_loaded path m now c, Ok m)
    end
  end.

(** The last part of [load_model], under the lock once more. *)
Definition register (model_id path : string) (c : ModelCache) : ModelCache :=
  {| by_path := by_path c; id_to_path := <[model_id := path]> (id_to_path c) |}.

Definition load_model (max_loaded : nat) (model_id path : string) (now : Z) : SE ModelCache llama_err unit :=
  do! _ := get_or_load max_loaded path now in
  smodify (register model_id path).

Definition unload_model (model_id : string) (c : ModelCache) : ModelCache :=
  match id_to_path c !! model_id with
  | Some path => {| by_path := delete path (by_path c); id_to_path := delete model_id (id_to_path c) |}
  | None => c
  end.

Definition generate (max_loaded : nat) (q : InferenceRequest) (now : Z)
    : SE ModelCache llama_err (option (result llama_err generated)) :=
  do! m := get_or_load max_loaded (ir_model_path q) now in
  sret (generate_sync room m q).

Definition generate_stream (max_loaded : nat) (q : InferenceRequest) (takes : option nat) (now : Z)
    : ModelCache -> ModelCache * option (list message) := fun c =>
  match get_or_load max_loaded (ir_model_path q) now c with
  | (c, Err e) => (c, Some (send takes (Err e)))
  | (c, Ok m) => (c, stream_sync room m q takes)
  end.

Definition embed (max_loaded : nat) (path : string) (texts : list string) (now : Z)
    : SE ModelCache llama_err (list (list Z)) :=
  match texts with
  | [] => sret []
  | _ => do! m := get_or_load max_loaded path now in slift (embed_sync m texts)
  end.

(** ** Lemmas *)

Lemma piece_take k s n l : piece_slots s n (take k l) = take k (piece_slots s n l).
Proof. revert s l. induction k as [|k IH]; intros s [|t l]; cbn; [done..|]. by rewrite IH. Qed.

Lemma piece_drop k s n l : piece_slots (s + k) n (drop k l) = drop k (piece_slots s n l).
Proof.
  revert s l. induction k as [|k IH]; intros s l; [by rewrite Nat.add_0_r, !drop_0|].
  destruct l as [|t l]; [done|]. cbn. rewrite <- IH. f_equal. lia.
Qed.

Lemma piece_length s n l : List.length (piece_slots s n l) = List.length l.
Proof. revert s. induction l as [|t l IH]; intros s; cbn; [done|]. by rewrite IH. Qed.

Lemma add_all cap l b : (List.length b + List.length l <= cap)%nat -> batch_add_all cap b l = Some (b ++ l).
Proof.
  revert b. induction l as [|s l IH]; intros b Hl; cbn in *; [by rewrite app_nil_r|].
  unfold batch_add. rewrite batch_room_ok by lia. rewrite IH by (rewrite length_app; cbn; lia).
  by rewrite <- app_assoc.
Qed.

(** The slots of a whole prompt, their division into pieces, and its decoding. *)
Definition prompt_slots (tokens : list Z) : list slot := piece_slots 0 (List.length tokens) tokens.

Fixpoint pieces (fuel : nat) (l : list slot) : list (list slot) :=
  match fuel, l with
  | S fuel, _ :: _ => take N_BATCH l :: pieces fuel (drop N_BATCH l)
  | _, _ => []
  end.

Fixpoint decode_all (c : ctx) (l : list (list slot)) : option ctx :=
  match l with [] => Some c | b :: l => some? c := decode c b in decode_all c l end.

Lemma decode_pieces_spec tokens fuel : forall c b start,
  (List.length tokens - start < fuel)%nat ->
  (start < List.length tokens)%nat -> b = [] ->
  let l := pieces fuel (drop start (prompt_slots tokens)) in
  decode_pieces fuel c b tokens start =
  Some match decode_all c l with Some c => Ok (c, default [] (last l)) | None => Err PromptDecode end.
Proof.
  set (n := List.length tokens). induction fuel as [|fuel IH]; intros c b start Hf Hs Hb; [lia|]. subst b.
  cbn [decode_pieces pieces]. fold n. rewrite (proj2 (Nat.ltb_lt _ _)) by done.
  assert (List.length (prompt_slots tokens) = n) as Hl by apply piece_length.
  change start with (0 + start)%nat at 1. rewrite piece_take, piece_drop.
  change (piece_slots 0 n tokens) with (prompt_slots tokens).
  rewrite add_all by (rewrite length_take; cbn -[N_BATCH]; lia). rewrite app_nil_l.
  replace (take (Nat.min (start + N_BATCH) n - start) (drop start (prompt_slots tokens)))
    with (take N_BATCH (drop start (prompt_slots tokens))).
  2: { destruct (decide (start + N_BATCH <= n)%nat); [by replace (Nat.min (start + N_BATCH) n - start)%nat with N_BATCH by lia|].
       rewrite !take_ge by (rewrite length_drop; lia). done. }
  destruct (drop start (prompt_slots tokens)) as [|s0 l0] eqn:Hd.
  { apply (f_equal (@List.length _)) in Hd. rewrite length_drop in Hd. cbn in Hd. lia. }
  rewrite <- Hd. cbn [decode_all]. destruct (decode c _) as [c'|]; [|done].
  rewrite drop_drop. destruct (Nat.ltb_spec (Nat.min (start + N_BATCH) n) n) as [Hlt|Hge].
  - replace (Nat.min (start + N_BATCH) n) with (start + N_BATCH)%nat in * by lia.
    rewrite IH by (unfold N_BATCH in *; lia || done). cbv zeta.
    destruct (pieces fuel _) as [|p0 ps] eqn:Hp; [|done].
    destruct fuel; [unfold N_BATCH in *; lia|]. cbn in Hp. destruct (drop (start + N_BATCH) (prompt_slots tokens)) eqn:Hx; [|done].
    apply (f_equal (@List.length _)) in Hx. rewrite length_drop in Hx. cbn in Hx. unfold N_BATCH in *. lia.
  - rewrite (drop_ge (prompt_slots tokens) (start + N_BATCH)) by lia. replace (Nat.min (start + N_BATCH) n) with n by lia.
    replace (pieces fuel []) with (@nil (list slot)) by (by destruct fuel). cbn -[N_BATCH].
    destruct fuel as [|fuel]; [unfold N_BATCH in *; lia|]. cbn [decode_pieces]. fold n. by rewrite Nat.ltb_irrefl.
Qed.

Lemma decode_prompt_spec c tokens :
  let l := pieces (S (List.length tokens)) (prompt_slots tokens) in
  decode_prompt c [] tokens =
  Some match decode_all c l with Some c => Ok (c, default [] (last l)) | None => Err PromptDecode end.
Proof.
  destruct tokens as [|t tokens]; [done|]. unfold decode_prompt. rewrite decode_pieces_spec; cbn -[N_BATCH]; [done|lia..|done].
Qed.

Lemma decode_all_used l : forall c c', decode_all c l = Some c' ->
  used c' = used c + len (concat l) /\ cells c' = cells c /\ (l <> [] -> used c' <= cells c').
Proof.
  induction l as [|b l IH]; intros c c' Hd; cbn in Hd.
  - injection Hd as ->. unfold len. cbn. split; [lia|done].
  - destruct (decode c b) as [c1|] eqn:Hb; [|done]. apply decode_used in Hb as (Hu & Hc & He).
    apply IH in Hd as (Hu' & He' & Hc'). unfold len in *. cbn. rewrite length_app.
    split; [lia|]. split; [lia|]. intros _. destruct l as [|b' l]; [|by apply Hc'].
    cbn in *. lia.
Qed.

Lemma pieces_concat fuel : forall l, (List.length l < fuel)%nat -> concat (pieces fuel l) = l.
Proof.
  induction fuel as [|fuel IH]; intros l Hl; [lia|]. destruct l as [|x l]; [done|]. cbn -[N_BATCH].
  rewrite IH; [by rewrite take_drop|]. rewrite length_drop. unfold N_BATCH. cbn in *. lia.
Qed.

(** The state of the loop: the next position is the number of cells used. *)
Definition loop_ok (n : Z) (g : gen) : Prop :=
  0 <= n <= used (g_ctx g) /\ g_cur g = used (g_ctx g) /\ used (g_ctx g) <= Z.max n (cells (g_ctx g)) /\
  cells (g_ctx g) < 33024 /\ n < 33024.

Lemma begin_spec q c tokens :
  used c = 0 -> cells c < 33024 ->
  exists r, begin q c tokens = Some r /\
  forall g, r = Ok g -> loop_ok (len tokens) g /\ used (g_ctx g) = len tokens /\ g_out g = "" /\
    g_cur g = len tokens.
Proof.
  intros Hu Hc. unfold begin. rewrite decode_prompt_spec. eexists. split; [done|]. intros g.
  destruct (decode_all _ _) as [c'|] eqn:Hd; [|done]. cbn. intros [= <-]. cbn.
  apply decode_all_used in Hd as (Hu' & He & Hl). rewrite pieces_concat in Hu' by (unfold prompt_slots; rewrite piece_length; lia).
  unfold len in *. unfold prompt_slots in *. rewrite piece_length in *.
  assert (0 <= Z.of_nat (List.length tokens) < 33024) as Hb.
  { destruct tokens as [|t tokens]; [done|]. destruct (pieces _ _) eqn:Hp in Hl; [done|]. specialize (Hl ltac:(done)). lia. }
  rewrite i32_id by lia. unfold loop_ok. cbn. destruct tokens as [|t tokens].
  - cbn in *. split_and!; try done; lia.
  - destruct (pieces _ _) eqn:Hp in Hl; [done|]. specialize (Hl ltac:(done)). split_and!; try done; lia.
Qed.

Lemma before_ok m q c tokens :
  before m q = Ok (c, tokens) -> used c = 0 /\ cells c < 33024 /\ u32 (len tokens) < 32768.
Proof.
  unfold before. destruct (str_to_token _ _) as [l|]; [|done]. cbn [ok_or rbind].
  destruct (Z.ltb_spec (u32 (len l)) (Z.min MAX_N_CTX (n_ctx_train m))) as [Hl|]; [|done].
  destruct (new_context _ _) as [c'|] eqn:Hn; [|done]. intros [= <- <-].
  pose proof (Z.mod_pos_bound (len l) 4294967296 ltac:(lia)) as Hp. fold (u32 (len l)) in Hp.
  apply new_context_cells in Hn as [Hu Hc]; unfold MAX_N_CTX in *; lia.
Qed.

Lemma before_stream_same m q :
  match before m q, before_stream m q with
  | Ok x, Ok y => x = y | Err _, Err _ => True | _, _ => False
  end.
Proof.
  unfold before, before_stream. destruct (str_to_token _ _) as [l|]; cbn [ok_or rbind].
  - destruct (new_context _ _); destruct (_ <? _); done.
  - by destruct (new_context _ _).
Qed.

Lemma gen_step_ok m q n g g' :
  loop_ok n g -> gen_step m q n g = Continue g' ->
  loop_ok n g' /\ used (g_ctx g') = used (g_ctx g) + 1 /\ used (g_ctx g') <= cells (g_ctx g') /\
  cells (g_ctx g') = cells (g_ctx g).
Proof.
  intros (Hn & Hc & Hu & Hm & Hn'). unfold gen_step. destruct (sample _ _ _) as [ch t].
  destruct (is_eog_token m t); [done|]. cbn [g_out g_cur g_ctx g_batch].
  destruct (stop_hit _ _); [done|]. destruct (_ <=? _); [done|].
  unfold batch_add. rewrite batch_room_ok by (unfold N_BATCH; cbn; lia). rewrite app_nil_l.
  destruct (decode _ _) as [c'|] eqn:Hd; [|done]. intros [= <-]. cbn.
  apply decode_used in Hd as (H1 & H2 & H3). unfold len in H1. cbn in H1.
  unfold loop_ok. cbn. rewrite i32_id by lia. lia.
Qed.

Lemma gen_loop_more k m q n fuel : forall g r,
  gen_loop fuel m q n g = Some r -> gen_loop (fuel + k) m q n g = Some r.
Proof.
  induction fuel as [|fuel IH]; intros g r Hr; [done|]. cbn in *. destruct (gen_step m q n g); auto.
Qed.

Lemma gen_loop_total m q n fuel : forall g,
  loop_ok n g -> (0 < fuel)%nat -> cells (g_ctx g) - used (g_ctx g) < Z.of_nat fuel ->
  is_Some (gen_loop fuel m q n g).
Proof.
  induction fuel as [|fuel IH]; intros g Hg Hf Hc; [lia|]. cbn.
  destruct (gen_step m q n g) as [g'|g' r|e] eqn:Hs; [|eauto..].
  apply gen_step_ok in Hs as (Hg' & Hu & Hl & He); [|done]. apply IH; [done|lia..].
Qed.

(** ** Streams against answers *)

Fixpoint texts (l : list Token) : string := match l with [] => "" | t :: l => t_text t +:+ texts l end.

(** The tokens of a stream: only the final one is marked. *)
Definition final (l : list Token) : Prop := exists init t,
  l = init ++ [t] /\ is_last t = true /\ Forall (fun t => is_last t = false) init.

Lemma final_cons t l : is_last t = false -> final l -> final (t :: l).
Proof.
  intros Ht (init & x & -> & Hx & Hi). exists (t :: init), x. split; [done|]. split; [done|]. by constructor.
Qed.

Definition stream_of (out : string) (cur : Z) (r : result llama_err (gen * FinishReason)) (l : list message) : Prop :=
  match r with
  | Ok (g, why) => exists toks, l = Ok <$> toks /\ final toks /\ g_out g = out +:+ texts toks /\
      g_cur g + match why with Stop => 1 | _ => 0 end = cur + len toks
  | Err e => exists toks, l = (Ok <$> toks) ++ [Err e] /\ Forall (fun t => is_last t = false) toks
  end.

Lemma stream_of_cons out cur r l t :
  is_last t = false -> stream_of (out +:+ t_text t) (cur + 1) r l -> stream_of out cur r (Ok t :: l).
Proof.
  intros Ht. destruct r as [[g why]|e]; cbn.
  - intros (toks & -> & Hf & Ho & Hc). exists (t :: toks). split; [done|]. split; [by apply final_cons|].
    cbn. unfold len in *. cbn. rewrite Ho, string_app_assoc. split; [done|]. lia.
  - intros (toks & -> & Hf). exists (t :: toks). split; [done|]. by constructor.
Qed.

Lemma final_one t : is_last t = true -> final [t].
Proof. intros Ht. exists [], t. by split. Qed.

Lemma stream_loop_matches m q n fuel : forall g out r,
  loop_ok n g -> ir_stop q = [] \/ out = g_out g ->
  gen_loop fuel m q n g = Some r ->
  exists l, stream_loop fuel m q n None
    {| g_chain := g_chain g; g_ctx := g_ctx g; g_batch := g_batch g; g_cur := g_cur g; g_out := out |} = Some l /\
  stream_of (g_out g) (g_cur g) r l.
Proof.
  induction fuel as [|fuel IH]; intros g out r Hg Ho Hr; [done|]. pose proof Hg as (Hn & Hc & Hu & Hm & Hn').
  cbn [gen_loop] in Hr. unfold gen_step in Hr. cbn [stream_loop g_chain g_ctx g_batch g_cur g_out taken send].
  destruct (sample (g_chain g) (g_ctx g) (len (g_batch g) - 1)) as [ch t] eqn:Hs.
  cbn [g_chain g_ctx g_batch g_cur g_out] in Hr. cbv zeta in Hr |- *.
  rewrite (i32_id (g_cur g + 1)) in Hr by lia. rewrite (i32_id (g_cur g + 1 - n)) in Hr by lia.
  rewrite (i32_id (g_cur g + 1)) by lia. rewrite (i32_id (g_cur g - n)) by lia.
  rewrite (i32_id (g_cur g - n + 1)) by lia. replace (g_cur g - n + 1) with (g_cur g + 1 - n) by lia.
  destruct (is_eog_token m t); cbn [orb negb].
  { injection Hr as <-. eexists. split; [done|]. eexists [_]. split; [done|]. split; [by apply final_one|].
    cbn. by rewrite string_app_nil_r. }
  set (x := default "" (token_to_str m t)) in *.
  assert (stop_hit (ir_stop q) (g_out g +:+ x) =
          match ir_stop q with [] => false | _ => stop_hit (ir_stop q) (match ir_stop q with [] => out | _ => out +:+ x end) end) as Hh.
  { destruct (ir_stop q); [done|]. by destruct Ho as [| ->]. }
  rewrite Hh in Hr. clear Hh. destruct (match ir_stop q with [] => false | _ => _ end) eqn:Hstop; cbn [orb].
  { injection Hr as <-. eexists. split; [done|]. eexists [_]. split; [done|]. split; [by apply final_one|].
    cbn. by rewrite string_app_nil_r. }
  destruct (i32 (ir_max_tokens q) <=? g_cur g + 1 - n).
  { injection Hr as <-. eexists. split; [done|]. eexists [_]. split; [done|]. split; [by apply final_one|].
    cbn. rewrite string_app_nil_r. split; [done|]. unfold len. cbn. lia. }
  unfold batch_add in *. rewrite batch_room_ok in * by (unfold N_BATCH; cbn; lia). rewrite app_nil_l in *.
  destruct (decode _ _) as [c'|] eqn:Hd.
  - apply decode_used in Hd as (H1 & H2 & H3). unfold len in H1. cbn in H1.
    apply IH with (out := match ir_stop q with [] => out | _ => out +:+ x end) in Hr as (l & Hl & Hof).
    + cbn [g_chain g_ctx g_batch g_cur g_out] in Hl. cbn [after option_fmap option_map fmap]. rewrite Hl. eexists. split; [done|].
      apply stream_of_cons; [done|]. exact Hof.
    + unfold loop_ok. cbn. lia.
    + cbn. destruct (ir_stop q); [by left|]. right. by destruct Ho as [| ->].
  - injection Hr as <-. eexists. split; [done|]. eexists [_]. split; [done|]. by constructor.
Qed.

Lemma stream_loop_take m q n fuel : forall g l k,
  stream_loop fuel m q n None g = Some l -> stream_loop fuel m q n (Some k) g = Some (take k l).
Proof.
  induction fuel as [|fuel IH]; intros g l k Hl; [done|]. cbn [stream_loop] in *.
  destruct (sample _ _ _) as [ch t]. cbv zeta in *. cbn [taken send negb orb] in Hl.
  destruct k as [|k]; cbn [taken send negb orb].
  { by rewrite take_0. }
  destruct (is_eog_token m t || _ || _); [injection Hl as <-; by destruct k|].
  destruct (batch_add _ _ _) as [b|]; [|injection Hl as <-; by destruct k].
  destruct (decode _ b) as [c|]; [|injection Hl as <-; by destruct k as [|[|k]]].
  cbn [after fmap option_fmap option_map Nat.pred] in *.
  destruct (stream_loop fuel m q n None _) as [l'|] eqn:E; [|done]. injection Hl as <-.
  by rewrite (IH _ _ _ E).
Qed.

Lemma stream_take m q k fuel l :
  stream_sync fuel m q None = Some l -> stream_sync fuel m q (Some k) = Some (take k l).
Proof.
  unfold stream_sync. destruct (before_stream m q) as [[c tokens]|e].
  - destruct (begin q c tokens) as [[g|e]|]; [apply stream_loop_take| |done].
    intros [= <-]. by destruct k as [|[|k]].
  - intros [= <-]. by destruct k as [|[|k]].
Qed.

(** What stands before the loop, for both. *)
Lemma ready m q c tokens :
  before m q = Ok (c, tokens) -> exists r, begin q c tokens = Some r /\
  forall g, r = Ok g -> loop_ok (len tokens) g /\ g_cur g = len tokens /\ g_out g = "" /\
    i32 (u32 (len tokens)) = len tokens /\ i32 (len tokens) = len tokens /\
    cells (g_ctx g) - used (g_ctx g) < Z.of_nat room.
Proof.
  intros Hb. destruct (before_ok _ _ _ _ Hb) as (Hu & Hc & _).
  destruct (begin_spec q c tokens Hu Hc) as (r & Hr & Hg). exists r. split; [done|]. intros g ->.
  destruct (Hg g eq_refl) as (Hl & Hx & Ho & Hy). pose proof Hl as (H1 & H2 & H3 & H4 & H5).
  unfold len in *. rewrite u32_id by lia. rewrite i32_id by lia.
  change (Z.of_nat room) with 33024. split_and!; try done; lia.
Qed.

Lemma generate_total m q : is_Some (generate_sync room m q).
Proof.
  unfold generate_sync. destruct (before m q) as [[c tokens]|e] eqn:Hb; [|eauto].
  apply ready in Hb as (r & -> & Hg). destruct r as [g|e]; [|eauto].
  destruct (Hg g eq_refl) as (Hl & Hc & Ho & Hi & Hi' & Hm). rewrite Hi.
  destruct (gen_loop_total m q (len tokens) room g) as [x ->]; [done|change (0 < room)%nat with (0 < Z.to_nat 33024)%nat; lia|done|].
  eauto.
Qed.

Lemma generate_more m q k r :
  generate_sync room m q = Some r -> generate_sync (room + k) m q = Some r.
Proof.
  unfold generate_sync. destruct (before m q) as [[c tokens]|e]; [|done]. destruct (begin q c tokens) as [[g|e]|]; [|done..].
  destruct (gen_loop room m q _ g) as [x|] eqn:E; [|done]. by rewrite (gen_loop_more k _ _ _ _ _ _ E).
Qed.

(** Where the loop ends: at most one token past the cells, and at most the tokens asked for. *)
Lemma gen_loop_end m q n fuel : forall g g1 why,
  loop_ok n g -> g_cur g - n < Z.max 1 (i32 (ir_max_tokens q)) ->
  gen_loop fuel m q n g = Some (Ok (g1, why)) ->
  n <= g_cur g1 <= 33024 /\
  match why with
  | Stop => g_cur g1 - n < Z.max 1 (i32 (ir_max_tokens q))
  | Length => g_cur g1 - n = Z.max 1 (i32 (ir_max_tokens q))
  | ErrorReason => False
  end.
Proof.
  induction fuel as [|fuel IH]; intros g g1 why Hg Hm Hr; [done|].
  cbn in Hr. destruct (gen_step m q n g) as [g'|g' r|e] eqn:Hs; [| |done].
  - pose proof (gen_step_ok _ _ _ _ _ Hg Hs) as (Hg' & Hu & _). apply IH in Hr; [done|done|].
    clear IH Hr. destruct Hg as (Hn & Hc & Hx & Hy & Hz). unfold gen_step in Hs.
    destruct (sample _ _ _) as [ch t]. destruct (is_eog_token m t); [done|]. cbn [g_out g_cur g_ctx g_batch] in Hs.
    destruct (stop_hit _ _); [done|]. rewrite !(i32_id (g_cur g + 1)), (i32_id (g_cur g + 1 - n)) in Hs by lia.
    destruct (Z.leb_spec (i32 (ir_max_tokens q)) (g_cur g + 1 - n)); [done|].
    destruct (batch_add _ _ _); [|done]. destruct (decode _ _); [|done]. injection Hs as <-. cbn. lia.
  - injection Hr as <- <-. clear IH. destruct Hg as (Hn & Hc & Hx & Hy & Hz). unfold gen_step in Hs.
    destruct (sample _ _ _) as [ch t]. destruct (is_eog_token m t); [injection Hs as <- <-; lia|].
    cbn [g_out g_cur g_ctx g_batch] in Hs. destruct (stop_hit _ _); [injection Hs as <- <-; cbn; lia|].
    rewrite !(i32_id (g_cur g + 1)), (i32_id (g_cur g + 1 - n)) in Hs by lia.
    destruct (Z.leb_spec (i32 (ir_max_tokens q)) (g_cur g + 1 - n)); [injection Hs as <- <-; cbn; lia|].
    destruct (batch_add _ _ _); [|done]. by destruct (decode _ _).
Qed.

(** The numbers of an answer. *)
Lemma generated_numbers m q d :
  generate_sync room m q = Some (Ok d) ->
  0 <= gd_in d < 33024 /\ 0 <= gd_out d /\ gd_in d + gd_out d <= 33024 /\
  match gd_reason d with
  | Stop => gd_out d < Z.max 1 (i32 (ir_max_tokens q))
  | Length => gd_out d = Z.max 1 (i32 (ir_max_tokens q))
  | ErrorReason => False
  end.
Proof.
  unfold generate_sync. destruct (before m q) as [[c tokens]|e] eqn:Hb; [|done].
  apply ready in Hb as (r & -> & Hg). destruct r as [g|e]; [|done].
  destruct (Hg g eq_refl) as (Hl & Hc & Ho & Hi & Hi' & Hm). rewrite Hi.
  destruct (gen_loop room m q (len tokens) g) as [[[g1 why]|e]|] eqn:E; [|done..]. intros [= <-]. cbn.
  apply gen_loop_end in E as [Hx Hy]; [|done|lia]. destruct Hl as (H1 & H2 & H3 & H4 & H5).
  rewrite (u32_id (len tokens)) by lia. rewrite i32_id by lia. rewrite u32_id by lia.
  destruct why; split_and!; try done; lia.
Qed.

(** A stream against an answer. *)
Definition stream_agrees (r : result llama_err generated) (l : list message) : Prop :=
  match r with
  | Ok d => exists toks, l = Ok <$> toks /\ final toks /\ texts toks = gd_content d /\
      len toks = gd_out d + match gd_reason d with Stop => 1 | _ => 0 end
  | Err _ => exists toks e, l = (Ok <$> toks) ++ [Err e] /\ Forall (fun t => is_last t = false) toks
  end.

Lemma stream_matches m q r :
  generate_sync room m q = Some r -> exists l, stream_sync room m q None = Some l /\ stream_agrees r l.
Proof.
  unfold generate_sync, stream_sync. pose proof (before_stream_same m q) as Hs.
  destruct (before m q) as [[c tokens]|e] eqn:Hb, (before_stream m q) as [y|e'] eqn:Hb'; try done.
  2: { intros [= <-]. eexists. split; [done|]. by exists [], e'. }
  subst y. apply ready in Hb as (x & -> & Hg). destruct x as [g|e].
  2: { intros [= <-]. eexists. split; [done|]. by exists [], e. }
  destruct (Hg g eq_refl) as (Hl & Hc & Ho & Hi & Hi' & Hm). rewrite Hi, Hi'.
  destruct (gen_loop room m q (len tokens) g) as [z|] eqn:E; [|done]. intros [= <-].
  destruct (stream_loop_matches m q (len tokens) room g (g_out g) z Hl (or_intror eq_refl) E) as (l & Hsl & Hz).
  destruct g as [ch cx b cur out]. cbn [g_chain g_ctx g_batch g_cur g_out] in *. exists l. split; [done|].
  destruct z as [[g1 why]|e]; cbn [stream_of rbind stream_agrees] in *.
  2: { destruct Hz as (toks & -> & Hf). by exists toks, e. }
  destruct Hz as (toks & -> & Hf & Hx & Hn). exists toks. split; [done|]. split; [done|]. cbn.
  subst out. cbn in Hx. split; [done|]. apply gen_loop_end in E as [Hy Hz]; [|done|cbn; lia].
  destruct Hl as (H1 & H2 & H3 & H4 & H5). cbn in *. rewrite i32_id by lia. rewrite u32_id by lia.
  destruct why; [lia| lia|done].
Qed.

(** ** Prompts *)

Definition clean (s : string) : bool := negb (contains IM_END s).

Lemma contains_cons c s : contains IM_END s = true -> contains IM_END (String c s) = true.
Proof. intros Hs. cbn [contains]. rewrite Hs. by destruct (String.prefix _ _). Qed.

Lemma contains_here x : contains IM_END (IM_END +:+ x) = true.
Proof. by destruct x. Qed.

Lemma end_mark a b x y :
  clean a = true -> clean b = true -> a +:+ IM_END +:+ x = b +:+ IM_END +:+ y -> a = b /\ x = y.
Proof.
  assert (forall b x y, clean b = true -> IM_END +:+ x = b +:+ IM_END +:+ y -> b = "" /\ x = y) as Hnil.
  { clear. intros b x y Hb He. cbn in He.
    do 10 (destruct b as [|? b]; [cbn in He; simplify_eq; try done|cbn in He; injection He as <- He]).
    by destruct b. }
  revert b. induction a as [|c a IH]; intros b Ha Hb He.
  - apply Hnil in He as [-> ->]; done.
  - destruct b as [|d b].
    + symmetry in He. apply Hnil in He as [He ->]; done.
    + cbn in He. injection He as <- He. unfold clean in *.
      apply IH in He as [-> ->]; [done| |].
      * destruct (contains IM_END a) eqn:E; [|done]. by rewrite (contains_cons c a E) in Ha.
      * destruct (contains IM_END b) eqn:E; [|done]. by rewrite (contains_cons c b E) in Hb.
Qed.

Lemma build_cons r c l :
  build_chatml_prompt ({| role := r; content := c |} :: l) =
  IM_START +:+ role_name r +:+ nl +:+ c +:+ IM_END +:+ nl +:+ build_chatml_prompt l.
Proof.
  unfold build_chatml_prompt. cbn [chatml_messages]. unfold chatml_message. cbn [role content].
  by rewrite !string_app_assoc.
Qed.

(** The final mark does not open another message. *)
Lemma build_open r c l : build_chatml_prompt [] = build_chatml_prompt ({| role := r; content := c |} :: l) -> False.
Proof. rewrite build_cons. intros He. destruct r; cbn in He; simplify_eq. by destruct c. Qed.

Lemma role_inj r r' x y : role_name r +:+ nl +:+ x = role_name r' +:+ nl +:+ y -> r = r' /\ x = y.
Proof. intros He. destruct r, r'; cbn in He; simplify_eq; done. Qed.

Definition all_clean (l : list ChatMessage) : bool := forallb (fun m => clean (content m)) l.

Lemma prompt_inj a : forall b,
  all_clean a = true -> all_clean b = true -> build_chatml_prompt a = build_chatml_prompt b -> a = b.
Proof.
  induction a as [|[r c] a IH]; intros [|[r' c'] b] Ha Hb He; [done|..].
  - by apply build_open in He.
  - symmetry in He. by apply build_open in He.
  - rewrite !build_cons in He. apply string_app_inj_l, role_inj in He as [-> He].
    cbn in Ha, Hb. apply andb_true_iff in Ha as [Hc Ha]. apply andb_true_iff in Hb as [Hc' Hb].
    apply end_mark in He as [-> He]; [|done..]. apply string_app_inj_l in He. by rewrite (IH b).
Qed.

Lemma build_app a b : build_chatml_prompt (a ++ b) = chatml_messages a +:+ build_chatml_prompt b.
Proof.
  induction a as [|[r c] a IH]; [done|]. cbn [app]. rewrite build_cons, IH. cbn [chatml_messages].
  unfold chatml_message. cbn [role content]. by rewrite !string_app_assoc.
Qed.

(** ** The cache under interleaved requests

    A request holds the lock of the cache for one of these parts at a time, and a load
    runs between two of them: any sequence of parts can happen. *)

Inductive cache_part :=
| Hit (path : string) (now : Z) | Insert (path : string) (now : Z) | Register (model_id path : string)
| Unload (model_id : string).

Definition cache_step (max_loaded : nat) (c : ModelCache) (x : cache_part) : ModelCache :=
  match x with
  | Hit path now => (cache_hit path now c).1
  | Insert path now =>
    match load_from_file path with Some m => cache_insert max_loaded path m now c | None => c end
  | Register id path => register id path c
  | Unload id => unload_model id c
  end.

Definition empty_cache : ModelCache := {| by_path := ∅; id_to_path := ∅ |}.

Definition run_cache (max_loaded : nat) (l : list cache_part) : ModelCache :=
  foldl (cache_step max_loaded) empty_cache l.

Definition cache_ok (max_loaded : nat) (c : ModelCache) : Prop :=
  ((0 < max_loaded)%nat -> (size (by_path c) <= max_loaded)%nat) /\
  forall p m t, by_path c !! p = Some (m, t) -> load_from_file p = Some m.

Lemma oldest_spec l :
  match oldest l with
  | Some x => In x l /\ forall y, In y l -> x.2.2 <= y.2.2
  | None => l = []
  end.
Proof.
  induction l as [|x l IH]; [done|]. cbn [oldest]. destruct (oldest l) as [y|].
  - destruct IH as [Hy Hm]. destruct (Z.ltb_spec y.2.2 x.2.2); split; [by right| |by left|];
      intros z [<-|Hz]; try apply Hm in Hz; lia.
  - subst l. split; [by left|]. by intros y [<-|[]].
Qed.

(** The victim of an eviction. *)
Lemma evict_spec path e c :
  by_path c !! path = Some e ->
  (exists k x, k <> path /\ by_path c !! k = Some x /\ by_path (evict_lru path c) = delete k (by_path c) /\
     forall p y, p <> path -> by_path c !! p = Some y -> x.2 <= y.2) \/
  (evict_lru path c = c /\ (size (by_path c) <= 1)%nat).
Proof.
  intros Hp. unfold evict_lru. set (l := List.filter _ _). pose proof (oldest_spec l) as Ho.
  assert (forall p x, In (p, x) l <-> p <> path /\ by_path c !! p = Some x) as Hl.
  { intros p x. unfold l. rewrite filter_In, <- list_elem_of_In, elem_of_map_to_list. cbn.
    destruct (String.eqb_spec p path); naive_solver. }
  destruct (oldest l) as [[k x]|].
  - left. destruct Ho as [Hin Hm]. apply Hl in Hin as [Hk Hx]. exists k, x. split_and!; try done.
    intros p y Hpp Hy. by apply (Hm (p, y)), Hl.
  - right. split; [done|]. rewrite <- (insert_delete_id _ _ _ Hp).
    rewrite (map_size_insert_None (M := gmap string)) by apply lookup_delete_eq.
    cut (delete path (by_path c) = ∅); [intros ->; by rewrite map_size_empty|].
    apply map_empty. intros p. destruct (decide (p = path)) as [->|Hn]; [apply lookup_delete_eq|].
    rewrite lookup_delete_ne by done. destruct (by_path c !! p) as [y|] eqn:E; [|done].
    assert (In (p, y) l) as Hx by by apply Hl. by rewrite Ho in Hx.
Qed.

Lemma insert_spec max_loaded path m now c :
  let d := cache_insert max_loaded path m now c in
  cache_ok max_loaded c ->
  by_path d !! path = Some (m, now) /\
  ((0 < max_loaded)%nat -> (size (by_path d) <= max_loaded)%nat) /\
  (forall p e, p <> path -> by_path d !! p = Some e -> by_path c !! p = Some e) /\
  forall p e, p <> path -> by_path c !! p = Some e -> by_path d !! p = None ->
    size (by_path c) = max_loaded /\ forall p' e', p' <> path -> by_path d !! p' = Some e' -> e.2 <= e'.2.
Proof.
  intros d [Hb _]. unfold d, cache_insert.
  set (c1 := {| by_path := <[path := (m, now)]> (by_path c); id_to_path := id_to_path c |}).
  assert (by_path c1 !! path = Some (m, now)) as Hp by apply lookup_insert_eq.
  assert (forall p, p <> path -> by_path c1 !! p = by_path c !! p) as Hne by (intros; by apply lookup_insert_ne).
  pose proof (map_size_insert path (m, now) (by_path c)) as Hs.
  change (size (<[path := (m, now)]> (by_path c))) with (size (by_path c1)) in Hs.
  assert (size (by_path c1) <= S (size (by_path c)))%nat as Hs1 by (rewrite Hs; destruct (by_path c !! path); unfold id; lia).
  destruct (Nat.ltb_spec 0 max_loaded) as [Hm|Hm]; cbn [andb].
  2: { split_and!; [done|lia| |]; intros p e Hn; rewrite Hne by done; [done|congruence]. }
  specialize (Hb Hm). destruct (Nat.ltb_spec max_loaded (size (by_path c1))) as [Hlt|Hge].
  2: { split_and!; [done|done| |]; intros p e Hn; rewrite Hne by done; [done|congruence]. }
  destruct (evict_spec path _ c1 Hp) as [(k & x & Hk & Hx & Hd & Ho)|[_ Hone]]; [|lia].
  rewrite Hd. rewrite map_size_delete_Some by done. split_and!.
  - by rewrite lookup_delete_ne.
  - lia.
  - intros p e Hn [_ He]%lookup_delete_Some. by rewrite <- Hne.
  - intros p e Hn He [<-|Hnone]%lookup_delete_None; [|rewrite Hne in Hnone by done; congruence].
    split; [lia|]. intros p' e' Hn' [_ He']%lookup_delete_Some.
    rewrite Hne in Hx by done. simplify_eq. by apply (Ho p').
Qed.

Lemma cache_step_ok max_loaded c x : cache_ok max_loaded c -> cache_ok max_loaded (cache_step max_loaded c x).
Proof.
  intros Hc. pose proof Hc as [Hb Hm]. destruct x as [path now|path now|id path|id]; cbn [cache_step].
  - unfold cache_hit. destruct (by_path c !! path) as [[m t]|] eqn:E; [|done]. split; cbn.
    + intros H0. rewrite map_size_insert, E. cbn. auto.
    + intros p m' t' [[<- [= <- <-]]|[_ Hl]]%lookup_insert_Some; eauto.
  - destruct (load_from_file path) as [m|] eqn:E; [|done].
    destruct (insert_spec max_loaded path m now c Hc) as (Hp & Hs & Ho & _). split; [done|].
    intros p m' t' Hl. destruct (decide (p = path)) as [->|Hn]; [congruence|]. eauto.
  - done.
  - unfold unload_model. destruct (id_to_path c !! id) as [path|]; [|done]. split; cbn.
    + intros H0. rewrite map_size_delete. specialize (Hb H0). destruct (by_path c !! path); cbn; lia.
    + intros p m t [_ Hl]%lookup_delete_Some. eauto.
Qed.

Lemma run_cache_ok max_loaded l : cache_ok max_loaded (run_cache max_loaded l).
Proof.
  unfold run_cache. assert (cache_ok max_loaded empty_cache) as H0.
  { split; cbn; [intros; rewrite map_size_empty; lia|]. intros p m t. by rewrite lookup_empty. }
  revert H0. generalize empty_cache. induction l as [|x l IH]; intros c Hc; [done|]. by apply IH, cache_step_ok.
Qed.

(** ** The interface of the chat routes

    The engine as the routes see it: the cache does not show. *)

Definition err_text (e : llama_err) : string :=
  match e with
  | LoadFailed path => "loading GGUF: " +:+ path
  | Tokenising => "tokenising prompt"
  | PromptTooLong n n_ctx =>
    "prompt (" +:+ show_u64 n +:+ " tokens) ≥ context window (" +:+ show_u64 n_ctx +:+ ")"
  | ContextCreation => "creating llama context"
  | BatchAdd => "batch add"
  | PromptBatchAdd => "adding token to prompt batch"
  | PromptDecode => "prompt decode"
  | DecodeStep => "decode step"
  | EmbedTokenising => "tokenising text for embedding"
  | EmbedContext => "creating embedding context"
  | EmbedBatchAdd => "adding token to embedding batch"
  | EmbedEncode => "embedding encode"
  | EmbedRead => "reading pooled embedding"
  end.

(** A stream has texts of its own for some errors, with that of the library. *)
Definition stream_text (e : llama_err) : string :=
  match e with
  | ContextCreation => "context creation: " +:+ library_error e
  | Tokenising => "tokenise: " +:+ library_error e
  | DecodeStep => "decode step: " +:+ library_error e
  | _ => err_text e
  end.

Definition response (d : generated) : InferenceResponse :=
  {| rs_content := gd_content d; rs_tokens_in := gd_in d; rs_tokens_out := gd_out d; rs_device := llama_device |}.

Definition answer (q : InferenceRequest) : result string InferenceResponse :=
  match load_from_file (ir_model_path q) with
  | None => Err (err_text (LoadFailed (ir_model_path q)))
  | Some m =>
    match generate_sync room m q with
    | Some r => map_err err_text (rmap response r)
    | None => Err ""
    end
  end.

Definition tokens (q : InferenceRequest) : list (result string Token) :=
  match load_from_file (ir_model_path q) with
  | None => [Err (err_text (LoadFailed (ir_model_path q)))]
  | Some m => map_err stream_text <$> default [] (stream_sync room m q None)
  end.

Lemma answer_u32 q r : answer q = Ok r ->
  uint_ok u32_max (rs_tokens_in r) = true /\ uint_ok u32_max (rs_tokens_out r) = true.
Proof.
  unfold answer. destruct (load_from_file _) as [m|]; [|done].
  destruct (generate_sync room m q) as [[d|e]|] eqn:E; [|done..]. intros [= <-]. cbn.
  apply generated_numbers in E as (Hi & Ho & Hs & _). unfold uint_ok, u32_max.
  rewrite !andb_true_iff, !Z.leb_le. lia.
Qed.

#[export] Instance llama_engine : InferenceEngine := {|
  device := llama_device; kernel_build_id := llama_build_id; Chat.Chat.generate := answer;
  Chat.Chat.generate_stream := tokens; tokens_u32 := answer_u32 |}.

(** ** Properties *)

(** C20: Generation ends, whatever the model, the sampler, the request and the number of
    tokens it asks for: the loop has enough steps, more make no difference, and an
    answer has at most the tokens of a context, and those asked for (one at least, even
    when none or more than 2^31 are asked for). *)
Theorem generation_ends m q k :
  exists r, generate_sync room m q = Some r /\ generate_sync (room + k) m q = Some r /\
  forall d, r = Ok d ->
    gd_in d + gd_out d <= MAX_N_CTX + 256 /\
    match gd_reason d with
    | Stop => gd_out d < Z.max 1 (i32 (ir_max_tokens q))
    | Length => gd_out d = Z.max 1 (i32 (ir_max_tokens q))
    | ErrorReason => False
    end.
Proof.
  destruct (generate_total m q) as [r Hr]. exists r. split; [done|]. split; [by apply generate_more|].
  intros d ->. apply generated_numbers in Hr as (_ & _ & Hn & Hm). by split.
Qed.

(** Streaming a request gives the text of its answer: the tokens of the stream join to
    the content, the final one alone is marked, they are as many as the tokens counted
    and the one that stopped it, and when the answer is an error the stream ends with
    an error instead of a final token. A receiver that takes some messages and closes
    gets the first of them, and generation stops there. *)
Theorem stream_equals_answer m q :
  exists r l, generate_sync room m q = Some r /\ stream_sync room m q None = Some l /\
  stream_agrees r l /\ forall k, stream_sync room m q (Some k) = Some (take k l).
Proof.
  destruct (generate_total m q) as [r Hr]. destruct (stream_matches m q r Hr) as (l & Hl & Ha).
  exists r, l. split_and!; try done. intros k. by apply stream_take.
Qed.
(** The prompt determines the messages as long as no content has the mark that ends a
    message; the contents are not escaped, and with the mark in it the message of a user
    makes the prompt that a message of the system would. *)
Theorem prompt_determines_messages a b r c t l l' :
  (all_clean a = true -> all_clean b = true -> build_chatml_prompt a = build_chatml_prompt b -> a = b) /\
  build_chatml_prompt (l ++ {| role := User;
    content := c +:+ IM_END +:+ nl +:+ IM_START +:+ role_name r +:+ nl +:+ t |} :: l') =
  build_chatml_prompt (l ++ {| role := User; content := c |} :: {| role := r; content := t |} :: l').
Proof.
  split; [apply prompt_inj|]. rewrite !build_app, !build_cons. f_equal.
  by rewrite !string_app_assoc.
Qed.

(** After the parts of any requests in any order the cache holds no more models than it
    may, and a request gets the model of its file whether it is cached or not. A model
    that is loaded stays, and only a full cache gives up another for it, the one unused
    for longest. *)
Theorem cache_bounded max_loaded l path now m :
  let c := run_cache max_loaded l in
  ((0 < max_loaded)%nat -> (size (by_path c) <= max_loaded)%nat) /\
  (get_or_load max_loaded path now c).2 = ok_or (load_from_file path) (LoadFailed path) /\
  let d := cache_insert max_loaded path m now c in
  by_path d !! path = Some (m, now) /\
  forall p e, p <> path -> by_path c !! p = Some e -> by_path d !! p = None ->
    size (by_path c) = max_loaded /\ forall p' e', p' <> path -> by_path d !! p' = Some e' -> e.2 <= e'.2.
Proof.
  cbv zeta. pose proof (run_cache_ok max_loaded l) as Hc. pose proof Hc as [Hb Hm].
  destruct (insert_spec max_loaded path m now _ Hc) as (Hp & _ & _ & Hv).
  split; [done|]. split; [|by split].
  unfold get_or_load, cache_hit. destruct (by_path (run_cache max_loaded l) !! path) as [[m' t]|] eqn:E; cbn [snd].
  - by rewrite (Hm _ _ _ E).
  - by destruct (load_from_file path).
Qed.
End engine.
End Llama.
