(* ===== verification/Quant.v ===== *)
(** * The quantisation commands

    Models [maranode-cli/src/commands/quant.rs]: the table of formats, the command's own
    reader of model files (beside that of [Gguf], which the daemon uses), the
    estimate of sizes, and the commands. A position is a [usize] of 64 bits, whose
    additions wrap in the release build; a loop takes fuel, one unit per iteration, and
    [Quant.OutOfFuel] is not an answer of the code. Numbers with a fraction are the
    binary64 floats of the Standard Library's [SpecFloat]. *)

From Stdlib Require Import ZArith Lia Ascii String SpecFloat.
From S2P Require Import Prelude Common Fs Gguf UserDb WorkspaceDb ModelStore Llama.
Open Scope string_scope.
Open Scope list_scope.
Open Scope Z_scope.

(** ** Floats *)
Module F64.

Definition of_Z (z : Z) : spec_float := binary_normalize 53 1024 z 0 false.
Definition mul : spec_float -> spec_float -> spec_float := SFmul 53 1024.
Definition div : spec_float -> spec_float -> spec_float := SFdiv 53 1024.
Definition le : spec_float -> spec_float -> bool := SFleb.
(** A decimal literal, the float nearest to [n / 10]. *)
Definition tenths (n : Z) : spec_float := div (of_Z n) (of_Z 10).
(** [f64::MAX]. *)
Definition MAX : spec_float := S754_finite false 9007199254740991 971.

End F64.

Module Quant.
Import Models.

Record QuantFormat := {
  f_name : string;
  bits_per_weight : spec_float;
  blurb : string;
  default_pick : bool;
}.

Definition format (n : string) (bpw : Z) (b : string) (pick : bool) : QuantFormat :=
  {| f_name := n; bits_per_weight := F64.tenths bpw; blurb := b; default_pick := pick |}.

Definition FORMATS : list QuantFormat := [
  format "F32" 320 "full precision" false;
  format "F16" 160 "half, still large" false;
  format "Q8_0" 85 "near lossless" false;
  format "Q6_K" 66 "high quality" false;
  format "Q5_K_M" 57 "high quality, needs ram" false;
  format "Q5_K_S" 55 "q5 small" false;
  format "Q5_0" 55 "legacy q5" false;
  format "Q5_1" 58 "legacy q5 + scale" false;
  format "Q4_K_M" 48 "usual default" true;
  format "Q4_K_S" 46 "slightly smaller q4" false;
  format "Q4_0" 45 "legacy q4" false;
  format "Q4_1" 48 "legacy q4 + scale" false;
  format "Q3_K_L" 36 "low ram" false;
  format "Q3_K_M" 34 "low ram" false;
  format "Q3_K_S" 30 "very low ram" false;
  format "Q2_K" 26 "smallest, noisy" false;
  format "IQ4_XS" 43 "imatrix q4" false;
  format "IQ3_M" 37 "imatrix q3" false;
  format "IQ2_M" 27 "imatrix q2" false
].

(** The rows of [gguf_file_type_name], from 0 and from 7 on. *)
Definition file_types : list (Z * string) :=
  [(0, "F32"); (1, "F16"); (2, "Q4_0"); (3, "Q4_1"); (7, "Q8_0"); (8, "Q5_0"); (9, "Q5_1");
   (10, "Q2_K"); (11, "Q3_K_S"); (12, "Q3_K_M"); (13, "Q3_K_L"); (14, "Q4_K_S"); (15, "Q4_K_M");
   (16, "Q5_K_S"); (17, "Q5_K_M"); (18, "Q6_K"); (19, "IQ2_XXS"); (20, "IQ2_XS"); (21, "Q2_K_S");
   (22, "IQ3_XS"); (23, "IQ3_S"); (24, "IQ3_M"); (25, "IQ4_NL"); (26, "IQ4_XS"); (27, "IQ1_S");
   (28, "IQ1_M")].

Definition gguf_file_type_name (file_type : Z) : string :=
  match List.find (fun r => r.1 =? file_type) file_types with Some r => r.2 | None => "unknown" end.

Definition eq_ignore_ascii_case (a b : string) : bool :=
  String.eqb (string_map ascii_lower a) (string_map ascii_lower b).

Definition lookup_format (name : string) : option QuantFormat :=
  List.find (fun f => eq_ignore_ascii_case (f_name f) name) FORMATS.

(** ** The reader *)

Definition usize_mod : Z := 18446744073709551616.
Definition wadd (a b : Z) : Z := (a + b) mod usize_mod.
Definition wmul (a b : Z) : Z := (a * b) mod usize_mod.

(** [data.get(a..b)]. *)
Definition get_range (d : string) (a b : Z) : option string :=
  if (a <=? b) && (b <=? Z.of_nat (String.length d))
  then Some (stake (Z.to_nat (b - a)) (sdrop (Z.to_nat a) d)) else None.

Definition u32_le (d : string) (off : Z) : option Z := le_decode <$> get_range d off (wadd off 4).
Definition u64_le (d : string) (off : Z) : option Z := le_decode <$> get_range d off (wadd off 8).

Definition GGUF_MAGIC : Z := 1179993927.

Record meta_state := {
  pos : Z;
  file_type : option Z;
  context_length : option Z;
  architecture : option string;
}.

Definition at_ (p : Z) (s : meta_state) : meta_state :=
  {| pos := p; file_type := file_type s; context_length := context_length s; architecture := architecture s |}.

(** What one iteration does. *)
Inductive flow := Next (s : meta_state) | Break | NoFuel.

(** The loop over the strings of an array; [None] when the fuel runs out. *)
Fixpoint skip_strings (fuel : nat) (d : string) (arr_len p : Z) : option Z :=
  if arr_len <=? 0 then Some p else
  match u64_le d p with
  | None => Some p
  | Some slen =>
    match fuel with
    | O => None
    | S fuel => skip_strings fuel d (arr_len - 1) (wadd p (wadd 8 slen))
    end
  end.

Definition elem_size (elem_type : Z) : option Z :=
  if (elem_type =? 0) || (elem_type =? 1) || (elem_type =? 7) then Some 1
  else if (elem_type =? 2) || (elem_type =? 3) then Some 2
  else if (elem_type =? 4) || (elem_type =? 5) || (elem_type =? 6) || (elem_type =? 8) then Some 4
  else if (elem_type =? 9) || (elem_type =? 10) then Some 8
  else None.

Definition some_or_break (o : option Z) (k : Z -> flow) : flow :=
  match o with Some n => k n | None => Break end.

(** The match on the type of a value at [p]. *)
Definition read_value (fuel : nat) (d key : string) (val_type p : Z) (s : meta_state) : flow :=
  if val_type =? 8 then
    some_or_break (u32_le d p) (fun v =>
      Next {| pos := wadd p 4; file_type := if String.eqb key "general.file_type" then Some v else file_type s;
              context_length := context_length s; architecture := architecture s |})
  else if val_type =? 4 then
    some_or_break (u64_le d p) (fun v =>
      Next {| pos := wadd p 8; file_type := file_type s;
              context_length := if Llama.ends_with key ".context_length" then Some v else context_length s;
              architecture := architecture s |})
  else if (val_type =? 0) || (val_type =? 1) || (val_type =? 7) then Next (at_ (wadd p 1) s)
  else if (val_type =? 2) || (val_type =? 3) then Next (at_ (wadd p 2) s)
  else if (val_type =? 5) || (val_type =? 6) then Next (at_ (wadd p 4) s)
  else if (val_type =? 9) || (val_type =? 10) then Next (at_ (wadd p 8) s)
  else if val_type =? 11 then
    some_or_break (u64_le d p) (fun slen =>
      let p := wadd p 8 in
      Next {| pos := wadd p slen; file_type := file_type s; context_length := context_length s;
              architecture :=
                if String.eqb key "general.architecture"
                then some? b := get_range d p (wadd p slen) in if utf8_ok b then Some b else None
                else architecture s |})
  else if val_type =? 12 then
    some_or_break (u32_le d p) (fun elem_type =>
      let p := wadd p 4 in
      some_or_break (u64_le d p) (fun arr_len =>
        let p := wadd p 8 in
        if elem_type =? 11
        then match skip_strings fuel d arr_len p with Some p => Next (at_ p s) | None => NoFuel end
        else some_or_break (elem_size elem_type) (fun n => Next (at_ (wadd p (wmul arr_len n)) s))))
  else Break.

Definition read_pair (fuel : nat) (d : string) (s : meta_state) : flow :=
  some_or_break (u64_le d (pos s)) (fun key_len =>
    let p := wadd (pos s) 8 in
    match get_range d p (wadd p key_len) with
    | None => Break
    | Some b =>
      let key := if utf8_ok b then b else "" in
      let p := wadd p key_len in
      some_or_break (u32_le d p) (fun val_type => read_value fuel d key val_type (wadd p 4) s)
    end).

(** The loop over the pairs; [None] when the fuel runs out. *)
Fixpoint read_pairs (fuel inner : nat) (d : string) (kv_count : Z) (s : meta_state) : option meta_state :=
  if kv_count <=? 0 then Some s else
  match fuel with
  | O => None
  | S fuel =>
    match read_pair inner d s with
    | Next s' => read_pairs fuel inner d (kv_count - 1) s'
    | Break => Some s
    | NoFuel => None
    end
  end.

Record GgufMeta := {
  version : Z;
  tensor_count : Z;
  kv_count : Z;
  m_file_type : option Z;
  quantization_name : string;
  m_context_length : option Z;
  param_count_billions : option spec_float;
  m_architecture : option string;
}.

Inductive quant_err := TooSmall | NotGguf | UnsupportedVersion | NoFile | BadTarget | NotInStore | OutOfFuel.

Definition estimate (len : Z) (ft : Z) : option spec_float :=
  some? fmt := lookup_format (gguf_file_type_name ft) in
  Some (F64.div (F64.mul (F64.of_Z len) (F64.of_Z 8)) (F64.mul (bits_per_weight fmt) (F64.of_Z 1000000000))).

Definition start : meta_state :=
  {| pos := 24; file_type := None; context_length := None; architecture := None |}.

Definition parse_gguf_meta (fuel : nat) (d : string) : result quant_err GgufMeta :=
  let len := Z.of_nat (String.length d) in
  if len <? 24 then Err TooSmall else
  guard bool_decide (u32_le d 0 = Some GGUF_MAGIC) else NotGguf in
  let version := default 0 (u32_le d 4) in
  guard (2 <=? version) && (version <=? 3) else UnsupportedVersion in
  let kvs := default 0 (u64_le d 16) in
  match read_pairs fuel fuel d kvs start with
  | None => Err OutOfFuel
  | Some s => Ok {|
      version := version; tensor_count := default 0 (u64_le d 8); kv_count := kvs;
      m_file_type := file_type s;
      quantization_name := match file_type s with Some ft => gguf_file_type_name ft | None => "unknown" end;
      m_context_length := context_length s;
      param_count_billions := some? ft := file_type s in estimate len ft;
      m_architecture := architecture s |}
  end.

(** ** Sizes *)

Record SizeRow := { s_format : QuantFormat; size_gb : spec_float; fits : bool }.

Definition size_row (params_b ram_gb : spec_float) (f : QuantFormat) : SizeRow :=
  let size_gb := F64.div (F64.mul params_b (bits_per_weight f)) (F64.of_Z 8) in
  {| s_format := f; size_gb := size_gb; fits := F64.le (F64.mul size_gb (F64.tenths 11)) ram_gb |}.

Definition size_table (params_b ram_gb : spec_float) : list SizeRow :=
  size_row params_b ram_gb <$> List.filter (fun f => F64.le (bits_per_weight f) (F64.of_Z 16)) FORMATS.

(** ** The commands *)

(** What [recommend] ends with. *)
Inductive advice :=
| UseIt (r : SizeRow)
| BestFit (r : SizeRow) (q4 : option SizeRow)
| NothingFits.

Definition advise (rows : list SizeRow) : advice :=
  let fitting := List.filter fits rows in
  match List.find (fun r => default_pick (s_format r)) fitting with
  | Some pick => UseIt pick
  | None =>
    match fitting with
    | pick :: _ => BestFit pick (List.find (fun r => String.eqb (f_name (s_format r)) "Q4_K_M") rows)
    | [] => NothingFits
    end
  end.

Definition cmd_recommend (params_b ram_gb : spec_float) : list SizeRow * advice :=
  let rows := size_table params_b ram_gb in (rows, advise rows).

(** What [inspect] prints: the values, the format when it is in the table, and the sizes
    when there is an estimate. *)
Record inspection := {
  meta : GgufMeta;
  known : option QuantFormat;
  sizes : list SizeRow;
}.

Definition cmd_inspect (fuel : nat) (f : fs) (path : string) : result quant_err inspection :=
  let? d := map_err (fun _ => NoFile) (read f path) in
  let? m := parse_gguf_meta fuel d in
  Ok {| meta := m; known := lookup_format (quantization_name m);
        sizes := match param_count_billions m with Some est => size_table est F64.MAX | None => [] end |}.

Section Target.
Context `{!Rfc3339, !DateTimeText}.

Definition resolve_target (target : string) (now : Z) (s : ModelStore.store) : result quant_err string :=
  if exists_ (ModelStore.files s) target then Ok target else
  guard negb (Llama.ends_with target ".gguf") else NoFile in
  let? model_id := ok_or (Models.parse target) BadTarget in
  let? manifest := ok_or (ModelStore.get model_id now s) NotInStore in
  Ok (blob_path manifest).

Definition inspect (fuel : nat) (target : string) (now : Z) (s : ModelStore.store) : result quant_err inspection :=
  let? path := resolve_target target now s in
  cmd_inspect fuel (ModelStore.files s) path.

End Target.

Definition cmd_list : list (string * bool * spec_float * string) :=
  (fun f => (f_name f, default_pick f, bits_per_weight f, blurb f)) <$> FORMATS.

End Quant.

Module QuantTheorems.
Import Models Quant.

(** ** Reading what was encoded *)

Lemma wadd_small a b : 0 <= a + b < usize_mod -> wadd a b = a + b.
Proof. apply Z.mod_small. Qed.

Lemma get_range_at d p s :
  Gguf.at_pos d p s -> get_range d p (p + Z.of_nat (String.length s)) = Some s.
Proof.
  intros Hat. pose proof (Gguf.at_pos_bound _ _ _ Hat). destruct Hat as (a & b & -> & ->). unfold get_range.
  replace (_ <=? _) with true by lia. replace (_ <=? _) with true by lia. cbn [andb].
  rewrite Nat2Z.id. replace (Z.to_nat _) with (String.length s) by lia. by rewrite sdrop_app, stake_app.
Qed.

(** A file that the reader can address. *)
Definition addressable (d : string) : Prop := Z.of_nat (String.length d) < 2 ^ 56.

Lemma u32_le_at d p s :
  addressable d -> String.length s = 4%nat -> Gguf.at_pos d p s -> u32_le d p = Some (le_decode s).
Proof.
  unfold addressable. intros Hd Hs Hat. pose proof (Gguf.at_pos_bound _ _ _ Hat). unfold u32_le.
  rewrite wadd_small by (unfold usize_mod; lia). pose proof (get_range_at _ _ _ Hat) as H'. rewrite Hs in H'.
  change (Z.of_nat 4) with 4 in H'. by rewrite H'.
Qed.

Lemma u64_le_at d p s :
  addressable d -> String.length s = 8%nat -> Gguf.at_pos d p s -> u64_le d p = Some (le_decode s).
Proof.
  unfold addressable. intros Hd Hs Hat. pose proof (Gguf.at_pos_bound _ _ _ Hat). unfold u64_le.
  rewrite wadd_small by (unfold usize_mod; lia). pose proof (get_range_at _ _ _ Hat) as H'. rewrite Hs in H'.
  change (Z.of_nat 8) with 8 in H'. by rewrite H'.
Qed.

Lemma le_decode_app a b : le_decode (a +:+ b) = le_decode a + 256 ^ Z.of_nat (String.length a) * le_decode b.
Proof.
  induction a as [|c a IH]; cbn [append le_decode String.length].
  - change (256 ^ Z.of_nat 0) with 1. lia.
  - rewrite IH, Nat2Z.inj_succ, Z.pow_succ_r by lia. lia.
Qed.

Lemma le_encode_app a b z : le_encode (a + b) z = le_encode a z +:+ le_encode b (z / 256 ^ Z.of_nat a).
Proof.
  revert z. induction a as [|a IH]; intros z; cbn [Nat.add le_encode append].
  - change (256 ^ Z.of_nat 0) with 1. by rewrite Z.div_1_r.
  - rewrite IH, Nat2Z.inj_succ, Z.pow_succ_r by lia. by rewrite Z.div_div by lia.
Qed.

(** A range that would need 2^56 bytes is not there, whether or not its end wraps. *)
Lemma far_range d p n :
  addressable d -> 0 <= p <= Z.of_nat (String.length d) -> 2 ^ 56 <= n < usize_mod -> get_range d p (wadd p n) = None.
Proof.
  unfold addressable, get_range, wadd. intros Hd Hp Hn. unfold usize_mod in *.
  destruct (decide (p + n < 18446744073709551616)) as [Hl|Hl].
  - rewrite Z.mod_small by lia. replace (_ <=? Z.of_nat _) with false by lia. by rewrite andb_false_r.
  - replace (p + n) with (p + n - 18446744073709551616 + 1 * 18446744073709551616) by lia.
    rewrite Z.mod_add, Z.mod_small by lia. replace (p <=? _) with false by lia. done.
Qed.

Lemma le_decode_bound s : 0 <= le_decode s < 256 ^ Z.of_nat (String.length s).
Proof.
  induction s as [|c s IH]; cbn [le_decode String.length]; [done|].
  rewrite Nat2Z.inj_succ, Z.pow_succ_r by lia. pose proof (code_bound c). lia.
Qed.

(** ** A file of the format, read by the command *)

(** The pair that model files start with. *)
Definition arch_pair (s : string) : string * Gguf.value := ("general.architecture", Gguf.VStr s).

Lemma read_value_u32 inner d key p s v :
  String.eqb key "general.file_type" = false -> u32_le d p = Some v ->
  read_value inner d key 8 p s = Next (at_ (wadd p 4) s).
Proof.
  intros Hk Hv. unfold read_value. rewrite Z.eqb_refl, Hv. cbn [some_or_break]. by rewrite Hk.
Qed.

(** The fields of the first pair, as the format lays them out from 24 on. *)
Lemma arch_layout d s kvs rest version :
  (version =? 1) = false ->
  Gguf.at_pos d 24 (Gguf.concat_map (Gguf.enc_pair version) (arch_pair s :: kvs) +:+ rest) ->
  Gguf.at_pos d 24 (le_encode 8 20) /\ Gguf.at_pos d 32 "general.architecture" /\ Gguf.at_pos d 52 (le_encode 4 8) /\
  Gguf.at_pos d 56 (le_encode 8 (Z.of_nat (String.length s)) +:+ s).
Proof.
  intros Hv Hat.
  rewrite Gguf.concat_map_cons in Hat. apply Gguf.at_pos_app in Hat as [Hat _].
  apply Gguf.at_pos_app in Hat as [Hat _].
  unfold Gguf.enc_pair, arch_pair, Gguf.enc_string, Gguf.enc_len, Gguf.enc_u32 in Hat.
  cbn [fst snd Gguf.type_of Gguf.enc_value] in Hat. unfold Gguf.enc_string, Gguf.enc_len in Hat.
  rewrite Hv, !string_app_assoc in Hat.
  apply Gguf.at_pos_app in Hat as [H1 Hat]. rewrite le_encode_length in Hat. split; [exact H1|].
  apply Gguf.at_pos_app in Hat as [H2 Hat]. split; [exact H2|].
  apply Gguf.at_pos_app in Hat as [H3 Hat]. rewrite le_encode_length in Hat. by split.
Qed.

Lemma arch_step inner d s kvs rest version :
  addressable d -> (version =? 1) = false ->
  Gguf.at_pos d 24 (Gguf.concat_map (Gguf.enc_pair version) (arch_pair s :: kvs) +:+ rest) ->
  read_pair inner d start = Next (at_ 60 start).
Proof.
  intros Hd Hv Hat. apply arch_layout in Hat as (Hkl & Hk & Ht & Hl); [|done].
  change 8%nat with (4 + 4)%nat in Hl. rewrite le_encode_app, string_app_assoc in Hl. apply Gguf.at_pos_app in Hl as [Hl _].
  unfold read_pair. change (pos start) with 24.
  rewrite (u64_le_at d 24 _ Hd (le_encode_length 8 20) Hkl), le_decode_encode by done. cbn [some_or_break].
  change (wadd 24 8) with 32. change (wadd 32 20) with 52.
  rewrite (get_range_at _ _ _ Hk : get_range d 32 52 = _).
  rewrite (u32_le_at d 52 _ Hd (le_encode_length 4 8) Ht), le_decode_encode by done. cbn [some_or_break].
  exact (read_value_u32 inner d "general.architecture" 56 start _ eq_refl (u32_le_at d 56 _ Hd (le_encode_length 4 _) Hl)).
Qed.

Lemma arch_break inner d s kvs rest version :
  addressable d -> (version =? 1) = false ->
  Gguf.at_pos d 24 (Gguf.concat_map (Gguf.enc_pair version) (arch_pair s :: kvs) +:+ rest) ->
  256 ^ 3 <= le_decode (stake 4 s) ->
  read_pair inner d (at_ 60 start) = Break.
Proof.
  intros Hd Hv Hat Hs. apply arch_layout in Hat as (_ & _ & _ & Hl); [|done].
  assert (H4 : String.length (stake 4 s) = 4%nat).
  { pose proof (le_decode_bound (stake 4 s)) as Hb. pose proof (stake_length 4 s) as Hl4.
    destruct (decide (String.length (stake 4 s) = 4%nat)) as [|Hne]; [done|exfalso].
    assert (256 ^ Z.of_nat (String.length (stake 4 s)) <= 256 ^ 3) by (apply Z.pow_le_mono_r; lia). lia. }
  change 8%nat with (4 + 4)%nat in Hl. rewrite le_encode_app, string_app_assoc in Hl.
  apply Gguf.at_pos_app in Hl as [_ Hl]. rewrite le_encode_length in Hl.
  set (hi := le_encode 4 (Z.of_nat (String.length s) / 256 ^ Z.of_nat 4)) in Hl.
  assert (Hhi : String.length hi = 4%nat) by apply le_encode_length.
  assert (H8 : Gguf.at_pos d 60 (hi +:+ stake 4 s)).
  { rewrite <- (stake_sdrop 4 s), <- string_app_assoc in Hl. by apply Gguf.at_pos_app in Hl as [H8 _]. }
  assert (H88 : String.length (hi +:+ stake 4 s) = 8%nat) by (by rewrite string_length_app, Hhi, H4).
  pose proof (Gguf.at_pos_bound _ _ _ H8) as [_ Hlen]. rewrite H88 in Hlen.
  pose proof (le_decode_bound hi) as Hb1. pose proof (le_decode_bound (stake 4 s)) as Hb2.
  unfold read_pair. change (pos (at_ 60 start)) with 60. rewrite (u64_le_at d 60 _ Hd H88 H8). cbn [some_or_break].
  rewrite le_decode_app, Hhi in *. rewrite H4 in Hb2. change (wadd 60 8) with 68.
  rewrite far_range; [done|done|lia|]. unfold usize_mod.
  change (Z.of_nat 4) with 4 in *. change (256 ^ 4) with 4294967296 in *. change (256 ^ 3) with 16777216 in *.
  change (2 ^ 56) with 72057594037927936. lia.
Qed.

Lemma arch_first_read fuel inner d s kvs rest version n :
  addressable d -> (version =? 1) = false ->
  Gguf.at_pos d 24 (Gguf.concat_map (Gguf.enc_pair version) (arch_pair s :: kvs) +:+ rest) ->
  256 ^ 3 <= le_decode (stake 4 s) -> 0 < n ->
  read_pairs (S (S fuel)) inner d n start = Some (at_ 60 start).
Proof.
  intros Hd Hv Hat Hs Hn. cbn [read_pairs]. replace (n <=? 0) with false by lia.
  rewrite (arch_step inner d s kvs rest version Hd Hv Hat), (arch_break inner d s kvs rest version Hd Hv Hat Hs).
  by destruct (n - 1 <=? 0).
Qed.
(** The header of a file of versions 2 and 3. *)
Lemma header_at version tensors kvs rest :
  (version =? 1) = false ->
  let d := Gguf.enc_file version tensors kvs rest in
  Gguf.at_pos d 0 "GGUF" /\ Gguf.at_pos d 4 (le_encode 4 version) /\ Gguf.at_pos d 8 (le_encode 8 tensors) /\
  Gguf.at_pos d 16 (le_encode 8 (Z.of_nat (List.length kvs))) /\
  Gguf.at_pos d 24 (Gguf.concat_map (Gguf.enc_pair version) kvs +:+ rest).
Proof.
  intros Hv d.
  assert (H : Gguf.at_pos d 0 d) by (exists EmptyString, EmptyString; by rewrite string_app_nil_r).
  unfold d at 2, Gguf.enc_file, Gguf.enc_u32, Gguf.enc_len in H. rewrite Hv in H.
  apply Gguf.at_pos_app in H as [H1 H]. split; [done|].
  change (0 + _) with 4 in H. apply Gguf.at_pos_app in H as [H2 H]. split; [done|].
  rewrite le_encode_length in H. change (4 + _) with 8 in H. apply Gguf.at_pos_app in H as [H3 H]. split; [done|].
  rewrite le_encode_length in H. change (8 + _) with 16 in H. apply Gguf.at_pos_app in H as [H4 H].
  rewrite le_encode_length in H. change (16 + _) with 24 in H. done.
Qed.

Lemma parse_header fuel version tensors kvs rest s :
  2 <= version <= 3 -> 0 <= tensors <= u32_max -> Z.of_nat (List.length kvs) <= u32_max ->
  let d := Gguf.enc_file version tensors kvs rest in
  addressable d -> read_pairs fuel fuel d (Z.of_nat (List.length kvs)) start = Some s ->
  file_type s = None ->
  parse_gguf_meta fuel d = Ok {|
    version := version; tensor_count := tensors; kv_count := Z.of_nat (List.length kvs); m_file_type := None;
    quantization_name := "unknown"; m_context_length := context_length s; param_count_billions := None;
    m_architecture := architecture s |}.
Proof.
  intros Hv Ht Hn d Hd Hp Hs. unfold u32_max in *.
  destruct (header_at version tensors kvs rest ltac:(lia)) as (H0 & H4 & H8 & H16 & H24). fold d in H0, H4, H8, H16, H24.
  unfold parse_gguf_meta.
  pose proof (Gguf.at_pos_bound _ _ _ H24) as [_ Hl].
  replace (_ <? 24) with false by lia.
  rewrite (u32_le_at _ _ "GGUF" Hd eq_refl H0).
  rewrite (u32_le_at _ _ _ Hd (le_encode_length 4 _) H4), (u64_le_at _ _ _ Hd (le_encode_length 8 _) H8),
    (u64_le_at _ _ _ Hd (le_encode_length 8 _) H16).
  rewrite bool_decide_true by done. cbn [from_option Datatypes.id].
  rewrite !le_decode_encode by (change (256 ^ Z.of_nat 4) with 4294967296; change (256 ^ Z.of_nat 8) with 18446744073709551616; lia).
  replace (2 <=? version) with true by lia. replace (version <=? 3) with true by lia. cbn [andb].
  rewrite Hp. by rewrite Hs.
Qed.

(** ** A loop of 2^64 iterations *)

Lemma skip_strings_bound fuel d n p : n <= Z.of_nat fuel -> skip_strings fuel d n p <> None.
Proof.
  revert n p. induction fuel as [|fuel IH]; intros n p Hn; cbn [skip_strings].
  - replace (n <=? 0) with true by lia. done.
  - destruct (n <=? 0); [done|]. destruct (u64_le d p); [|done]. apply IH. lia.
Qed.

Lemma wadd_bound a b : 0 <= wadd a b < usize_mod.
Proof. by apply Z.mod_pos_bound. Qed.

Lemma u64_le_bound d p n : 0 <= p -> u64_le d p = Some n -> 0 <= n < usize_mod.
Proof.
  intros Hp. unfold u64_le, get_range. destruct (_ && _) eqn:E; [|done]. intros [= <-]. bool_prop.
  pose proof (le_decode_bound (stake (Z.to_nat (wadd p 8 - p)) (sdrop (Z.to_nat p) d))) as Hb.
  rewrite stake_length in Hb. unfold wadd in *. pose proof (Z.mod_le (p + 8) usize_mod ltac:(lia) ltac:(done)).
  split; [lia|]. eapply Z.lt_le_trans; [apply Hb|].
  change usize_mod with (256 ^ 8) at 2. apply Z.pow_le_mono_r; [lia|]. unfold usize_mod in *. lia.
Qed.

Lemma read_value_fuel fuel d key ty p s : usize_mod <= Z.of_nat fuel -> read_value fuel d key ty p s <> NoFuel.
Proof.
  intros Hf. unfold read_value, some_or_break.
  repeat (case_match; try done). intros _.
  match goal with H : u64_le d _ = Some ?n, Hs : skip_strings _ _ _ _ = None |- _ =>
    apply u64_le_bound in H; [|apply wadd_bound]; revert Hs; apply skip_strings_bound; lia end.
Qed.

Lemma read_pairs_bound fuel inner d n s :
  usize_mod <= Z.of_nat inner -> n <= Z.of_nat fuel -> read_pairs fuel inner d n s <> None.
Proof.
  intros Hi. revert n s. induction fuel as [|fuel IH]; intros n s Hn; cbn [read_pairs].
  - by replace (n <=? 0) with true by lia.
  - destruct (n <=? 0); [done|]. destruct (read_pair inner d s) as [s'| |] eqn:E; [apply IH; lia|done|].
    exfalso. revert E. unfold read_pair.
    destruct (u64_le d (pos s)); [|done]. cbn [some_or_break]. destruct (get_range _ _ _); [|done].
    destruct (u32_le d _); [|done]. cbn [some_or_break]. by apply read_value_fuel.
Qed.

(** An iteration that comes back to where it was is repeated as often as the file says. *)
Lemma read_pairs_stuck fuel inner d n s :
  read_pair inner d s = Next s -> Z.of_nat fuel < n -> read_pairs fuel inner d n s = None.
Proof.
  intros Hs. revert n. induction fuel as [|fuel IH]; intros n Hn; cbn [read_pairs];
    (replace (n <=? 0) with false by lia); [done|]. rewrite Hs. apply IH. lia.
Qed.

(** 48 bytes: one pair, whose value is an array that ends, modulo 2^64, where the pair
    begins. *)
Definition loop_file : string :=
  "GGUF" +:+ le_encode 4 3 +:+ le_encode 8 0 +:+ le_encode 8 (usize_mod - 1)
  +:+ le_encode 8 0 +:+ le_encode 4 12 +:+ le_encode 4 0 +:+ le_encode 8 (usize_mod - 24).

Lemma loop_file_stuck inner : read_pair inner loop_file start = Next start.
Proof. by vm_compute. Qed.

(** ** Properties *)

(** In a file of the format that starts, as model files do, with its architecture, the
    reader of the command finds nothing: no quantisation, no context length, no
    architecture. It takes the tag of a string for that of a 32-bit integer. The reader
    of the daemon finds the context length of the same file. *)
Theorem inspect_reads_nothing fuel version tensors s kvs rest :
  let pairs := arch_pair s :: kvs in
  let d := Gguf.enc_file version tensors pairs rest in
  2 <= version <= 3 -> 0 <= tensors <= u32_max -> Z.of_nat (List.length pairs) <= u32_max ->
  addressable d -> forallb (Gguf.pair_ok version) pairs = true -> forallb Gguf.pair_readable pairs = true -> 256 ^ 3 <= le_decode (stake 4 s) ->
  parse_gguf_meta (S (S fuel)) d = Ok {|
    version := version; tensor_count := tensors; kv_count := Z.of_nat (List.length pairs);
    m_file_type := None; quantization_name := "unknown"; m_context_length := None;
    param_count_billions := None; m_architecture := None |} /\
  Gguf.read_context_length d = Gguf.context_length kvs.
Proof.
  intros pairs d Hv Ht Hn Hd Hok Hread Hs. split.
  - apply (parse_header _ version tensors pairs rest (at_ 60 start)); try done.
    destruct (header_at version tensors pairs rest ltac:(lia)) as (_ & _ & _ & _ & Hat).
    apply (arch_first_read fuel _ d s kvs rest version); [done|lia|exact Hat|done|]. simpl. lia.
  - assert (Gguf.len_max version = u64_max) as Hmax.
    { unfold Gguf.len_max. by rewrite (proj2 (Z.eqb_neq version 1)) by lia. }
    assert (u32_max <= u64_max) by done.
    unfold d. rewrite Gguf.read_context_length_at; [|lia..| |done].
    { by rewrite Gguf.readable_prefix_all. }
    unfold addressable in Hd. fold d. change Gguf.i64_max with 9223372036854775807. lia.
Qed.

(** A file of 48 bytes keeps the command in its loop for 2^64 iterations, since positions
    wrap; it never takes more than that. *)
Theorem inspect_can_take_forever :
  String.length loop_file = 48%nat /\
  (forall fuel, Z.of_nat fuel < usize_mod - 1 -> parse_gguf_meta fuel loop_file = Err OutOfFuel) /\
  (forall d fuel, usize_mod <= Z.of_nat fuel -> parse_gguf_meta fuel d <> Err OutOfFuel).
Proof.
  split; [by vm_compute|split].
  - intros fuel Hf. unfold parse_gguf_meta.
    change (Z.of_nat (String.length loop_file) <? 24) with false.
    rewrite bool_decide_true by (by vm_compute).
    replace (default 0 (u32_le loop_file 4)) with 3 by (by vm_compute).
    replace (default 0 (u64_le loop_file 16)) with (usize_mod - 1) by (by vm_compute).
    change ((2 <=? 3) && (3 <=? 3)) with true. cbv iota.
    by rewrite (read_pairs_stuck fuel fuel loop_file (usize_mod - 1) start (loop_file_stuck fuel) Hf).
  - intros d fuel Hf. unfold parse_gguf_meta. repeat (case_match; try done). intros _.
    match goal with H : read_pairs _ _ _ _ _ = None |- _ => revert H end. apply read_pairs_bound; [done|].
    destruct (u64_le d 16) as [n|] eqn:E; cbn [from_option Datatypes.id]; [|lia].
    apply u64_le_bound in E; lia.
Qed.

Definition q4_row (params_b ram_gb : spec_float) : SizeRow :=
  size_row params_b ram_gb (format "Q4_K_M" 48 "usual default" true).

Lemma size_table_rows params_b ram_gb : size_table params_b ram_gb = size_row params_b ram_gb <$> tail FORMATS.
Proof. unfold size_table. by f_equal. Qed.

Lemma filter_cons_inv {A} (p : A -> bool) l x r :
  List.filter p l = x :: r -> p x = true /\ exists a b, l = a ++ x :: b /\ Forall (fun y => p y = false) a.
Proof.
  induction l as [|y l IH]; simpl; [done|]. destruct (p y) eqn:E.
  - intros [= -> _]. split; [done|]. by exists [], l.
  - intros (H & a & b & -> & Ha)%IH. split; [done|]. exists (y :: a), b. split; [done|by constructor].
Qed.

Lemma filter_nil_inv {A} (p : A -> bool) l : List.filter p l = [] -> Forall (fun y => p y = false) l.
Proof.
  induction l as [|y l IH]; simpl; [constructor|]. destruct (p y) eqn:E; [done|]. intros H. constructor; auto.
Qed.

(** The only default of the table is [Q4_K_M]. *)
Lemma default_row params_b ram_gb r :
  In r (size_table params_b ram_gb) -> default_pick (s_format r) = true -> r = q4_row params_b ram_gb.
Proof.
  rewrite size_table_rows. intros H Hd. unfold FORMATS in H. cbn [tail fmap list_fmap In] in H.
  repeat (destruct H as [<-|H]; [first [discriminate Hd|done]|]). done.
Qed.

Lemma q4_in_table params_b ram_gb : In (q4_row params_b ram_gb) (size_table params_b ram_gb).
Proof. rewrite size_table_rows. unfold FORMATS. cbn [tail fmap list_fmap In]. unfold q4_row. tauto. Qed.

Lemma q4_by_name params_b ram_gb :
  List.find (fun r => String.eqb (f_name (s_format r)) "Q4_K_M") (size_table params_b ram_gb)
  = Some (q4_row params_b ram_gb).
Proof. rewrite size_table_rows. done. Qed.

Definition advice_ok (rows : list SizeRow) (q4 : SizeRow) (a : advice) : Prop :=
  match a with
  | UseIt r => r = q4 /\ fits q4 = true
  | BestFit r w => w = Some q4 /\ fits q4 = false /\ fits r = true /\
      exists a b, rows = a ++ r :: b /\ Forall (fun x => fits x = false) a
  | NothingFits => Forall (fun x => fits x = false) rows
  end.

Lemma advise_ok rows q4 :
  In q4 rows -> default_pick (s_format q4) = true ->
  (forall r, In r rows -> default_pick (s_format r) = true -> r = q4) ->
  List.find (fun r => String.eqb (f_name (s_format r)) "Q4_K_M") rows = Some q4 ->
  advice_ok rows q4 (advise rows).
Proof.
  intros Hin Hd Honly Hname. unfold advise.
  destruct (List.find _ (List.filter fits rows)) as [r|] eqn:E.
  - apply find_some in E as [H Hr]. apply filter_In in H as [H Hf]. apply Honly in H as ->; done.
  - assert (Hq : fits q4 = false).
    { apply not_true_is_false. intros Hf.
      pose proof (find_none _ _ E q4 (proj2 (filter_In fits q4 rows) (conj Hin Hf))) as Hn. simpl in Hn. congruence. }
    destruct (List.filter fits rows) as [|r l] eqn:Ef; [by apply filter_nil_inv|].
    rewrite Hname. apply filter_cons_inv in Ef as (Hr & Hs). done.
Qed.

(** The table has a row for every format but F32, in order, and the advice is the default
    format when it fits, else the first that fits, else none. *)
Theorem recommend_spec params_b ram_gb :
  let rows := (cmd_recommend params_b ram_gb).1 in
  let q4 := q4_row params_b ram_gb in
  rows = size_row params_b ram_gb <$> tail FORMATS /\
  advice_ok rows q4 (cmd_recommend params_b ram_gb).2.
Proof.
  split; [apply size_table_rows|].
  apply advise_ok; [apply q4_in_table|done|apply default_row|apply q4_by_name].
Qed.

Definition demo_pairs : list (string * Gguf.value) :=
  [ ("general.file_type", Gguf.VScalar 4 (le_encode 4 15));
    ("llama.context_length", Gguf.VScalar 4 (le_encode 4 8192)) ].

Lemma inspect_reads_nothing_witness :
  let d := Gguf.enc_file 3 291 (arch_pair "llama" :: demo_pairs) "tensors" in
  (m_context_length <$> match parse_gguf_meta 2 d with Ok m => Some m | Err _ => None end) = Some None /\
  Gguf.read_context_length d = Some 8192.
Proof.
  pose proof (inspect_reads_nothing 0 3 291 "llama" demo_pairs "tensors" ltac:(lia) ltac:(by vm_compute)
    ltac:(by vm_compute) ltac:(by vm_compute) ltac:(by vm_compute) ltac:(by vm_compute) ltac:(by vm_compute)) as [H1 H2].
  cbv zeta in *. split; [by rewrite H1|by rewrite H2].
Defined.

Example seven_billion :
  (fun r => f_name (s_format r)) <$> List.filter fits (size_table (F64.of_Z 7) (F64.of_Z 5))
  = ["Q4_K_M"; "Q4_K_S"; "Q4_0"; "Q4_1"; "Q3_K_L"; "Q3_K_M"; "Q3_K_S"; "Q2_K"; "IQ4_XS"; "IQ3_M"; "IQ2_M"].
Proof. by vm_compute. Qed.

End QuantTheorems.
