(* ===== verification/ChatUsage.v ===== *)
(** * The quotas of chat requests

    The usage that the guards of [routes/chat.rs] count against is exactly the requests
    in flight, whatever the order in which they are admitted, refused, served and
    finished; so the limits of a workspace hold. *)

From Stdlib Require Import ZArith Lia Ascii String.
From stdpp Require Import sorting.
From S2P Require Import Prelude Json Crypto Common Events Fs UserDb Auth WorkspaceDb WorkspaceApi AppState F32 SortBy RagChunk RagText RagStore RagEngine ModelStore Chat.
Open Scope Z_scope.

Module ChatUsage.
Import Auth.Auth AppState Common.Workspace RagEngine RagStore Chat.Chat.

(** ** What a computation leaves as it is *)

Definition keeps {X A} (f : chat_server -> X) (m : SE chat_server api_error A) : Prop :=
  forall s, f (m s).1 = f s.

Lemma k_ret {X A} (f : chat_server -> X) (a : A) : keeps f (sret a).
Proof. by intros s. Qed.

Lemma k_fail {X A} (f : chat_server -> X) e : keeps f (sfail (A := A) e).
Proof. by intros s. Qed.

Lemma k_lift {X A} (f : chat_server -> X) (r : result api_error A) : keeps f (slift r).
Proof. by intros s. Qed.

Lemma k_get {X} (f : chat_server -> X) : keeps f sget.
Proof. by intros s. Qed.

Lemma k_modify {X} (f : chat_server -> X) g : (forall s, f (g s) = f s) -> keeps f (smodify g).
Proof. intros Hg s. apply Hg. Qed.

Lemma k_bind {X A B} (f : chat_server -> X) (m : SE chat_server api_error A)
    (k : A -> SE chat_server api_error B) :
  keeps f m -> (forall a, keeps f (k a)) -> keeps f (sbind m k).
Proof.
  intros Hm Hk s. unfold sbind. specialize (Hm s). destruct (m s) as [s' [a|e]]; cbn [fst] in *; [|done].
  by rewrite (Hk a s').
Qed.

Lemma k_append {X} (f : chat_server -> X) ws actor ev :
  (forall c s, f (set_app s (add_call c (sapp s))) = f s) -> keeps f (append ws actor ev).
Proof. intros Hf. apply k_bind; [apply k_get|]. intros s0 s. apply Hf. Qed.

Lemma k_enforce {X} (f : chat_server -> X) ws vs :
  (forall c s, f (set_app s (add_call c (sapp s))) = f s) -> keeps f (enforce ws vs).
Proof.
  intros Hf. induction vs as [|v vs IH]; [apply k_ret|]. cbn [enforce].
  apply k_bind; [by apply k_append|]. intros _. case_match; [apply k_fail|apply IH].
Qed.

Section usage.
Context `{!Rfc3339, !DateTimeText, !JsonText, !TimeText, !Sha256, !Aead, !Hex, !Base64, !Ed25519,
          !Embedder, !InferenceEngine}.

Lemma k_ground {X} (f : chat_server -> X) ws req opts :
  (forall c s, f (set_app s (add_call c (sapp s))) = f s) -> keeps f (ground ws req opts).
Proof.
  intros Hf. unfold ground. apply k_bind; [apply k_get|]. intros s0.
  apply k_bind; [apply k_lift|]. intros e. apply k_bind; [apply k_lift|]. intros query.
  apply k_bind; [apply k_lift|]. intros hits. apply k_bind; [by apply k_append|]. intros _.
  apply k_bind; [by apply k_enforce|]. intros _. case_match; [apply k_ret|]. apply k_ret.
Qed.

Lemma k_receipt {X} (f : chat_server -> X) d now mi ms q msgs out ti to t mt sd det hits :
  (forall g s, f (set_app s (set_data (sapp s) g)) = f s) ->
  keeps f (build_receipt d now mi ms q msgs out ti to t mt sd det hits).
Proof. intros Hf s. unfold build_receipt. case_match; apply Hf. Qed.

(** The state of a request that is served: calls of the audit log, the signing key and
    the statistics. *)
Lemma k_answer {X} (f : chat_server -> X) ws req id m d now key hits src ms :
  (forall c s, f (set_app s (add_call c (sapp s))) = f s) ->
  (forall g s, f (set_app s (set_data (sapp s) g)) = f s) ->
  (forall st s, f (set_stats s st) = f s) ->
  keeps f (answer ws req id m d now key hits src ms).
Proof.
  intros Hc Hd Hs. apply k_bind; [apply k_get|]. intros s0. cbv zeta.
  apply k_bind; [by apply k_append|]. intros _. destruct (stream req); [apply k_ret|].
  destruct (generate _) as [resp|e]; (apply k_bind; [by apply k_modify|]); intros _;
    (apply k_bind; [by apply k_append|]); intros _; [|apply k_fail].
  apply k_bind; [by apply k_receipt|]. intros r. apply k_bind; [|intros _; apply k_ret].
  destruct r; [by apply k_append|apply k_ret].
Qed.

Lemma k_serve {X} (f : chat_server -> X) ws req id m d now :
  (forall c s, f (set_app s (add_call c (sapp s))) = f s) ->
  (forall g s, f (set_app s (set_data (sapp s) g)) = f s) ->
  (forall st s, f (set_stats s st) = f s) ->
  keeps f (serve ws req id m d now).
Proof.
  intros Hc Hd Hs. apply k_bind; [apply k_get|]. intros s0.
  apply k_bind; [destruct (req_rag req); [by apply k_ground|apply k_ret]|].
  intros [hits p|hits|]; [by apply k_answer..|apply k_ret].
Qed.

(** ** Requests in flight *)

(** The models of the requests of a workspace that are in flight. *)
Definition on (sl : string) (fl : list (string * string)) : list string :=
  snd <$> List.filter (fun p => String.eqb p.1 sl) fl.

Definition occurs (key : string) (l : list string) : Z := Z.of_nat (count_occ string_dec l key).

(** A usage counts a list of models. *)
Definition counts (u : WorkspaceUsage) (l : list string) : Prop :=
  concurrent u = len l /\
  forall key, match active_models u !! key with
              | Some e => e.2 = occurs key l /\ 0 < e.2
              | None => occurs key l = 0
              end.

Definition usage_ok (s : chat_server) (fl : list (string * string)) : Prop :=
  forall sl, counts (usage_of sl (sapp s)) (on sl fl).

Lemma occurs_cons key k l : occurs key (k :: l) = (if decide (k = key) then 1 else 0) + occurs key l.
Proof. unfold occurs. simpl. destruct (string_dec k key), (decide (k = key)); try done; lia. Qed.

Lemma occurs_nonneg key l : 0 <= occurs key l.
Proof. unfold occurs. lia. Qed.

Lemma counts_nil : counts no_usage [].
Proof. split; [done|]. intros key. cbn. by rewrite lookup_empty. Qed.

Lemma counts_acquire u l key size : counts u l -> counts (acquire u key size) (key :: l).
Proof.
  intros [Hc Hk]. unfold counts, acquire, len in *. split; [simpl in *; lia|]. intros k. cbn [active_models].
  rewrite occurs_cons. specialize (Hk k). destruct (decide (key = k)) as [<-|Hne].
  - rewrite lookup_insert_eq. cbn [snd]. pose proof (occurs_nonneg key l).
    destruct (active_models u !! key) as [[sz n]|]; cbn in *; lia.
  - by rewrite lookup_insert_ne.
Qed.

Lemma counts_release u l key : counts u (key :: l) -> counts (release u key) l.
Proof.
  intros [Hc Hk]. unfold counts, release, len, sat_sub in *. cbn [concurrent active_models].
  split; [simpl in *; lia|]. intros k. pose proof (Hk key) as Hkey. specialize (Hk k).
  rewrite !occurs_cons in *. rewrite decide_True in Hkey by done. pose proof (occurs_nonneg key l).
  destruct (active_models u !! key) as [[sz n]|] eqn:E; cbn in Hkey; [|lia].
  cbn [fst snd]. destruct (decide (key = k)) as [<-|Hne].
  - destruct (Z.eqb_spec (Z.max 0 (n - 1)) 0); [rewrite lookup_delete_eq|rewrite lookup_insert_eq; cbn]; lia.
  - destruct (Z.max 0 (n - 1) =? 0); [rewrite lookup_delete_ne by done|rewrite lookup_insert_ne by done]; exact Hk.
Qed.

Lemma counts_perm u l l' : l ≡ₚ l' -> counts u l -> counts u l'.
Proof.
  intros Hp [Hc Hk]. unfold counts, len, occurs in *. rewrite <- Hp. split; [done|]. intros key.
  specialize (Hk key). by rewrite <- (proj1 (Permutation_count_occ string_dec l l') Hp).
Qed.

Lemma usage_of_insert sl sl' u a :
  usage_of sl' (set_usage a (<[sl := u]> (workspace_usage a)))
  = if decide (sl = sl') then u else usage_of sl' a.
Proof.
  unfold usage_of. cbn. destruct (decide (sl = sl')) as [<-|Hne].
  - by rewrite lookup_insert_eq.
  - by rewrite lookup_insert_ne.
Qed.

Lemma on_cons sl sl' key fl :
  on sl ((sl', key) :: fl) = if decide (sl' = sl) then key :: on sl fl else on sl fl.
Proof. unfold on. simpl. destruct (String.eqb_spec sl' sl), (decide (sl' = sl)); done. Qed.

(** What an admission does to the usage, and what it has checked. *)
Definition admission (ws : Workspace) (s : chat_server)
    (r : chat_server * result api_error (Common.Models.ModelId * Common.Models.ModelManifest)) : Prop :=
  match r.2 with
  | Ok (id, m) =>
    let u := usage_of (slug ws) (sapp s) in let key := Common.Models.display id in
    within_quota ws key (Common.Models.size_bytes m) u = true /\
    forall sl, usage_of sl (sapp r.1)
      = if decide (slug ws = sl) then acquire u key (Common.Models.size_bytes m) else usage_of sl (sapp s)
  | Err _ => forall sl, usage_of sl (sapp r.1) = usage_of sl (sapp s)
  end.

Lemma admit_usage ws req now s : admission ws s (admit_request ws req now s).
Proof.
  unfold admit_request. unfold sbind at 1, sget at 1. cbv zeta.
  destruct (air_gap _ && _); [done|]. destruct (audit_frozen _); [done|].
  destruct (match req_messages req with [] => true | _ => false end); [done|].
  destruct (MAX_MESSAGES <? _); [done|].
  unfold sbind at 1, slift at 1. destruct (ok_or (Common.Models.parse _) _) as [id|]; [|done].
  destruct (negb (allows_model _ _)); [done|].
  match goal with |- admission _ _ (sbind ?p _ s) =>
    assert (forall sl, usage_of sl (sapp (p s).1) = usage_of sl (sapp s)) as Hl;
    [|generalize dependent p; intros lim Hl] end.
  { intros sl. destruct (rate_limit_rpm ws); [|done]. unfold sbind, smodify. by case_match. }
  unfold sbind at 1. destruct (lim s) as [s1 [[]|e]]; cbn [fst] in Hl; [|exact Hl].
  unfold sbind at 1, slift at 1. destruct (ok_or (ModelStore.get _ _ _) _) as [m|]; [|exact Hl].
  unfold sbind at 1, sget at 1. rewrite Hl. destruct (within_quota _ _ _ _) eqn:Hq; cbn.
  - split; [done|]. intros sl. rewrite usage_of_insert. case_match; [done|apply Hl].
  - intros sl. rewrite usage_of_insert. case_match; [by subst|apply Hl].
Qed.

Lemma occurs_in key l : 0 < occurs key l <-> key ∈ l.
Proof. unfold occurs. rewrite list_elem_of_In, (count_occ_In string_dec). lia. Qed.

Lemma counts_dom u l : counts u l -> dom (active_models u) = list_to_set (C := gset string) l.
Proof.
  intros [_ Hk]. apply set_eq. intros key. rewrite elem_of_dom, elem_of_list_to_set, <- occurs_in.
  specialize (Hk key). destruct (active_models u !! key); split; try lia; try done; by intros [].
Qed.

Lemma counts_new u l key : counts u l -> key ∉ l -> active_models u !! key = None.
Proof.
  intros [_ Hk] Hn. specialize (Hk key). destruct (active_models u !! key) as [e|]; [|done].
  exfalso. apply Hn, occurs_in. lia.
Qed.

Lemma memory_acquire u key size :
  active_models u !! key = None -> memory_bytes (acquire u key size) = memory_bytes u + size.
Proof.
  intros Hn. unfold memory_bytes, acquire. cbn [active_models]. rewrite Hn. cbn.
  rewrite map_fold_insert_L; [cbn; lia| |done]. intros; lia.
Qed.

(** The server with the requests in flight. A request is admitted or refused, its
    handler goes on, and its guard is dropped; whatever else runs leaves the usage. *)
Inductive cstep : chat_server * list (string * string) -> chat_server * list (string * string) -> Prop :=
| step_admit ws req now s s' id m fl :
    admit_request ws req now s = (s', Ok (id, m)) ->
    cstep (s, fl) (s', (slug ws, Common.Models.display id) :: fl)
| step_refuse ws req now s s' e fl :
    admit_request ws req now s = (s', Err e) -> cstep (s, fl) (s', fl)
| step_serve ws req id m d now s fl : cstep (s, fl) ((serve ws req id m d now s).1, fl)
| step_finish sl key s fl fl' :
    fl ≡ₚ (sl, key) :: fl' -> cstep (s, fl) (release_usage sl key s, fl')
| step_other s s' fl :
    workspace_usage (sapp s') = workspace_usage (sapp s) -> cstep (s, fl) (s', fl).

Lemma on_perm sl fl fl' : fl ≡ₚ fl' -> on sl fl ≡ₚ on sl fl'.
Proof.
  intros Hp. unfold on. apply Permutation_map.
  induction Hp; simpl; repeat case_match; try done; try by constructor. by etrans.
Qed.

Lemma same_usage s s' fl :
  workspace_usage (sapp s') = workspace_usage (sapp s) -> usage_ok s fl -> usage_ok s' fl.
Proof. intros He Hok sl. unfold usage_of. rewrite He. apply Hok. Qed.

Lemma admit_ok ws req now s s' id m fl :
  admit_request ws req now s = (s', Ok (id, m)) -> usage_ok s fl ->
  usage_ok s' ((slug ws, Common.Models.display id) :: fl).
Proof.
  intros Ha Hok sl. pose proof (admit_usage ws req now s) as Hu. rewrite Ha in Hu.
  destruct Hu as [_ Hu]. cbn [fst] in Hu. rewrite Hu, on_cons.
  case_decide as Hs; [subst sl; apply counts_acquire|]; apply Hok.
Qed.

Lemma cstep_ok x y : cstep x y -> usage_ok x.1 x.2 -> usage_ok y.1 y.2.
Proof.
  intros [ws req now s s' id m fl Ha|ws req now s s' e fl Ha|ws req id m d now s fl|sl key s fl fl' Hp|s s' fl He]
    Hok; cbn [fst snd] in *.
  - by eapply admit_ok.
  - intros sl. pose proof (admit_usage ws req now s) as Hu. rewrite Ha in Hu. rewrite Hu. apply Hok.
  - eapply same_usage; [|exact Hok]. by apply (k_serve (fun s => workspace_usage (sapp s))).
  - intros sl'. specialize (Hok sl').
    apply (counts_perm _ _ (on sl' ((sl, key) :: fl'))) in Hok; [|by apply on_perm].
    unfold release_usage. cbn [sapp set_app]. rewrite usage_of_insert. rewrite on_cons in Hok.
    case_decide as Hs; [|done]. subst sl'. by apply counts_release.
  - by eapply same_usage.
Qed.

Lemma csteps_ok x y : rtc cstep x y -> usage_ok x.1 x.2 -> usage_ok y.1 y.2.
Proof. induction 1 as [|x y z Hs _ IH]; [done|]. intros Hok. by apply IH, (cstep_ok x). Qed.

Lemma no_usage_ok s : workspace_usage (sapp s) = ∅ -> usage_ok s [].
Proof. intros He sl. unfold usage_of. rewrite He, lookup_empty. apply counts_nil. Qed.

(** C17: In any interleaving of admissions, refusals, answers and the ends of requests,
    the usage of every workspace counts its requests in flight, model by model; and an
    admission stays within the workspace's limits of requests, of models and of memory
    (a limit of [u64::MAX] bytes, at which the sum saturates, limits nothing). *)
Theorem quotas_hold s0 s fl ws req now s' id m :
  workspace_usage (sapp s0) = ∅ -> rtc cstep (s0, []) (s, fl) ->
  admit_request ws req now s = (s', Ok (id, m)) ->
  let key := Common.Models.display id in let mine := on (slug ws) fl in
  usage_ok s' ((slug ws, key) :: fl) /\
  (forall max, max_concurrent_requests ws = Some max -> len mine + 1 <= max) /\
  (forall max, max_models ws = Some max -> key ∉ mine ->
     Z.of_nat (size (list_to_set (C := gset string) (key :: mine))) <= max) /\
  (forall max, max_memory_bytes ws = Some max -> max < u64_max -> key ∉ mine ->
     memory_bytes (usage_of (slug ws) (sapp s')) <= max).
Proof.
  intros Hz Hrun Ha. cbv zeta. set (key := Common.Models.display id).
  pose proof (csteps_ok _ _ Hrun (no_usage_ok _ Hz)) as Hok. cbn [fst snd] in Hok.
  split; [by eapply admit_ok|].
  pose proof (admit_usage ws req now s) as Hu. rewrite Ha in Hu. destruct Hu as [Hq Hu]. cbn [fst] in Hu.
  specialize (Hu (slug ws)). rewrite decide_True in Hu by done. rewrite Hu. clear Hu.
  pose proof (Hok (slug ws)) as Hc. set (u := usage_of (slug ws) (sapp s)) in *.
  assert (key ∉ on (slug ws) fl -> active_models u !! key = None) as Hn by by apply counts_new.
  unfold within_quota in Hq. fold key in Hq. apply andb_prop in Hq as [[Hq1 Hq2]%andb_prop Hq3].
  split_and!; intros max Hmax; rewrite Hmax in *.
  - destruct Hc as [Hc _]. rewrite Hc in Hq1. bool_prop. lia.
  - intros Hnew. rewrite (Hn Hnew) in Hq2. cbn in Hq2.
    assert (size (active_models u) = size (list_to_set (C := gset string) (on (slug ws) fl))) as Hs.
    { by rewrite <- size_dom, (counts_dom _ _ Hc). }
    cbn [list_to_set]. rewrite size_union by set_solver. rewrite size_singleton, <- Hs.
    unfold model_count in Hq2. bool_prop. lia.
  - intros Hb Hnew. rewrite (Hn Hnew) in Hq3. cbn in Hq3. rewrite memory_acquire by auto.
    bool_prop. lia.
Qed.

End usage.
End ChatUsage.
