(* ===== verification/ChatTheorems.v ===== *)
(** * What chat requests guarantee

    The freeze of an incident, the labels of collections, the record of an answer and
    its signed receipt: the chat handler composed with the incidents, the
    classification policy, the audit log's calls and the offline verifier. *)

From Stdlib Require Import ZArith Lia Ascii String.
From S2P Require Import Prelude Json Crypto Common Events Entry Fs UserDb Auth WorkspaceDb WorkspaceApi AppState LegalHold IncidentApi F32 SortBy RagChunk RagText RagStore RagEngine ModelStore Verifier Chat ChatUsage.
Open Scope string_scope.
Open Scope list_scope.
Open Scope Z_scope.

Module ChatTheorems.
Import Auth.Auth AppState Common.Workspace RagEngine RagStore Chat.Chat.

(** The state with further calls of the audit logs. *)
Definition recorded (l : list call) (s : chat_server) : chat_server :=
  set_app s {| wsv := wsv (sapp s); data := data (sapp s); trail := trail (sapp s) ++ l;
    incident := incident (sapp s); audit_frozen := audit_frozen (sapp s);
    classification := classification (sapp s); rate_limiter := rate_limiter (sapp s);
    workspace_usage := workspace_usage (sapp s); workspace_audits := workspace_audits (sapp s);
    rt := rt (sapp s); isolation_ok := isolation_ok (sapp s) |}.

Lemma recorded_nil s : recorded [] s = s.
Proof. destruct s as [[] ? ? ?]. unfold recorded. cbn. by rewrite app_nil_r. Qed.

Lemma recorded_app l l' s : recorded l' (recorded l s) = recorded (l ++ l') s.
Proof. unfold recorded. cbn. by rewrite app_assoc. Qed.

(** A call on the log of the workspace. *)
Definition by_log (ws : Workspace) (s : chat_server) (actor : string) (ev : Events.AuditEvent) : call :=
  {| c_log := log_of ws (sapp s); c_actor := actor; c_event := ev |}.

Lemma append_records ws actor ev s : append ws actor ev s = (recorded [by_log ws s actor ev] s, Ok tt).
Proof. by destruct s as [[] ? ? ?]. Qed.

(** The events of a retrieval. *)
Definition retrieval_event (e : Events.AuditEvent) : bool :=
  match e with Events.RagRetrieval _ _ _ | Events.DataClassificationViolation _ _ _ _ _ => true | _ => false end.

Definition retrieval_call (ws : Workspace) (s : chat_server) (c : call) : Prop :=
  c_log c = log_of ws (sapp s) /\ retrieval_event (c_event c) = true.

Lemma enforce_spec ws vs s :
  exists l, Forall (retrieval_call ws s) l /\ (enforce ws vs s).1 = recorded l s /\
    ((enforce ws vs s).2 = Ok tt /\ Forall (fun v => Common.Classification.block v = false) vs \/
     (enforce ws vs s).2 = Err Forbidden).
Proof.
  revert s. induction vs as [|v vs IH]; intros s; cbn [enforce].
  { exists []. rewrite recorded_nil. split; [done|]. split; [done|]. by left. }
  unfold sbind at 1 2 3. rewrite append_records. set (c := by_log _ _ _ _).
  assert (retrieval_call ws s c) as Hc by done.
  destruct (Common.Classification.block v) eqn:Hb.
  { exists [c]. split; [by constructor|]. split; [done|]. by right. }
  destruct (IH (recorded [c] s)) as (l & Hl & Hs & Hr). exists (c :: l).
  split; [by constructor|]. split; [by rewrite Hs, recorded_app|].
  destruct Hr as [[Hr Hf]|Hr]; [left; split; [done|by constructor]|by right].
Qed.

Section theorems.
Context `{!Rfc3339, !DateTimeText, !JsonText, !TimeText, !Sha256, !Aead, !Hex, !Base64, !Ed25519,
          !Embedder, !InferenceEngine}.

Definition searched (opts : RagOptions) : option string :=
  match ro_collection opts with Some c => if String.eqb c "*" then None else Some c | None => None end.

Lemma ground_spec ws req opts s :
  exists l, Forall (retrieval_call ws s) l /\ (ground ws req opts s).1 = recorded l s /\
    (is_ok (ground ws req opts s).2 = true ->
     Forall (fun v => Common.Classification.block v = false)
       (violations (classification (sapp s)) ws (searched opts))).
Proof.
  unfold ground. unfold sbind, sget, slift.
  assert (exists l, Forall (retrieval_call ws s) l /\ s = recorded l s) as Hs.
  { exists []. by rewrite recorded_nil. }
  destruct (ok_or (rag s) NotImplemented) as [e|]; [|cbn; naive_solver].
  destruct (ok_or (last_user req) BadRequest) as [query|]; [|cbn; naive_solver].
  destruct (map_err internal _) as [hits|]; [|cbn; naive_solver].
  rewrite append_records. set (c := by_log _ _ _ _). assert (retrieval_call ws s c) as Hc by done.
  destruct (enforce_spec ws (violations (classification (sapp s)) ws (searched opts)) (recorded [c] s))
    as (l & Hl & He & Hr). unfold searched in *.
  destruct (enforce _ _ _) as [s' r]; cbn [fst snd] in *. subst s'.
  exists (c :: l). split; [by constructor|]. destruct Hr as [[-> Hf]| -> ].
  - split; [|done]. destruct (build_context_prompt hits e); cbn; by rewrite recorded_app.
  - split; [by rewrite recorded_app|done].
Qed.

(** The messages for the engine. *)
Definition engine_messages (ws : Workspace) (m : Common.Models.ModelManifest) (a : app)
    (ms : list ChatMessage) : list ChatMessage :=
  truncate (max_prompt_chars (Common.Models.context_length m)) (with_system_prompt ws a ms).

Lemma answer_streams ws req id m d now key hits src ms s :
  stream req = true ->
  exists hash prompt,
    answer ws req id m d now key hits src ms s =
    (recorded [by_log ws s "api" (Events.InferenceStart (request_id d) id hash device prompt)] s,
     Ok (Streamed (generate_stream (inference_request req id m d (engine_messages ws m (sapp s) ms))) src)).
Proof.
  intros Hs. unfold answer. unfold sbind, sget. rewrite append_records, Hs. by eexists _, _.
Qed.

(** What the receipt of an answer states, for a signing key. *)
Definition receipt_for (key : string) (req : ChatCompletionRequest) (id : Common.Models.ModelId)
    (m : Common.Models.ModelManifest) (d : chat_draws) (now : Z) (ms : list ChatMessage)
    (resp : InferenceResponse) (hits : list ScoredChunk) : Receipt.InferenceReceipt :=
  signed key (unsigned_receipt d now (Common.Models.display id) (Common.Models.sha256 m)
    (Common.Models.quantization m) ms (rs_content resp) (rs_tokens_in resp) (rs_tokens_out resp)
    (eff_temperature req) (max_tokens req) (eff_seed req) (deterministic req) hits key).

Lemma answer_completes ws req id m d now key hits src ms s resp :
  stream req = false ->
  generate (inference_request req id m d (engine_messages ws m (sapp s) ms)) = Ok resp ->
  let k := Sign.load_or_create (sign_seed d) (data (sapp s)) in
  let receipt := match k.2 with
                 | Ok sk => Some (receipt_for sk req id m d now (engine_messages ws m (sapp s) ms) resp hits)
                 | Err _ => None end in
  exists hash prompt response,
    answer ws req id m d now key hits src ms s =
    (recorded (by_log ws s "api" <$>
        ([Events.InferenceStart (request_id d) id hash device prompt;
          Events.InferenceComplete (request_id d) id (rs_tokens_in resp) (rs_tokens_out resp)
            (elapsed_ms d) (rs_device resp) response]
         ++ match receipt with Some r => [Events.InferenceReceiptEv r] | None => [] end))
       (set_stats (set_app s (set_data (sapp s) k.1))
          (record_ok (rs_tokens_in resp) (rs_tokens_out resp) (elapsed_ms d) (stats s))),
     Ok (Completion (match key with
                     | Some k => Tee.encrypt_str k (tee_nonce d) (rs_content resp)
                     | None => rs_content resp end)
           (rs_tokens_in resp) (rs_tokens_out resp)
           (Z.min u32_max (rs_tokens_in resp + rs_tokens_out resp)) src
           (if with_receipt req then receipt else None))).
Proof.
  intros Hs Hg. cbv zeta. unfold answer. unfold sbind, sget, smodify. rewrite append_records, Hs.
  fold (engine_messages ws m (sapp s) ms). rewrite Hg, append_records. unfold build_receipt.
  cbn [recorded set_app set_stats sapp data store_ rag stats].
  destruct (Sign.load_or_create _ _) as [f [sk|e]]; cbn [fst snd].
  - rewrite append_records. eexists _, _, _. unfold sret. f_equal. unfold recorded, by_log. cbn.
    unfold set_app, set_data, log_of. cbn. by rewrite <- !app_assoc.
  - eexists _, _, _. unfold sret. f_equal. unfold recorded, by_log. cbn.
    unfold set_app, set_data, log_of. cbn. by rewrite <- !app_assoc.
Qed.

Lemma answer_completion ws req id m d now key hits src ms s s' out ti to tt src' rec :
  answer ws req id m d now key hits src ms s = (s', Ok (Completion out ti to tt src' rec)) ->
  stream req = false /\
  exists resp, generate (inference_request req id m d (engine_messages ws m (sapp s) ms)) = Ok resp.
Proof.
  unfold answer. unfold sbind, sget, smodify. rewrite append_records.
  fold (engine_messages ws m (sapp s) ms). destruct (stream req); [done|].
  destruct (generate _) as [resp|e]; [by eauto|]. by rewrite append_records.
Qed.

(** ** A run *)

Lemma k_admit {X} (f : chat_server -> X) ws req now :
  (forall m s, f (set_app s (set_limit (sapp s) m)) = f s) ->
  (forall m s, f (set_app s (set_usage (sapp s) m)) = f s) ->
  ChatUsage.keeps f (admit_request ws req now).
Proof.
  intros Hl Hu. apply ChatUsage.k_bind; [apply ChatUsage.k_get|]. intros s0. cbv zeta.
  destruct (air_gap _ && _); [apply ChatUsage.k_fail|]. destruct (audit_frozen _); [apply ChatUsage.k_fail|].
  destruct (match req_messages req with [] => true | _ => false end); [apply ChatUsage.k_fail|].
  destruct (MAX_MESSAGES <? _); [apply ChatUsage.k_fail|].
  apply ChatUsage.k_bind; [apply ChatUsage.k_lift|]. intros id.
  destruct (negb (allows_model _ _)); [apply ChatUsage.k_fail|].
  apply ChatUsage.k_bind.
  { destruct (rate_limit_rpm ws); [|apply ChatUsage.k_ret].
    apply ChatUsage.k_bind; [by apply ChatUsage.k_modify|]. intros _.
    destruct (take_slot _ _ _ _).2; [apply ChatUsage.k_ret|apply ChatUsage.k_fail]. }
  intros _. apply ChatUsage.k_bind; [apply ChatUsage.k_lift|]. intros m.
  apply ChatUsage.k_bind; [apply ChatUsage.k_get|]. intros s1.
  destruct (negb _); (apply ChatUsage.k_bind; [by apply ChatUsage.k_modify|]); intros _;
    [apply ChatUsage.k_fail|apply ChatUsage.k_ret].
Qed.

(** What an admission leaves: all but the limiter and the usage. *)
Record same_but_usage (s s' : chat_server) : Prop := {
  same_trail : trail (sapp s') = trail (sapp s);
  same_data : data (sapp s') = data (sapp s);
  same_policy : classification (sapp s') = classification (sapp s);
  same_audits : workspace_audits (sapp s') = workspace_audits (sapp s);
  same_rt : rt (sapp s') = rt (sapp s);
  same_stats : stats s' = stats s;
}.

Lemma admit_same ws req now s : same_but_usage s (admit_request ws req now s).1.
Proof.
  split; [by apply (k_admit (fun s => trail (sapp s)))|by apply (k_admit (fun s => data (sapp s)))|
    by apply (k_admit (fun s => classification (sapp s)))|by apply (k_admit (fun s => workspace_audits (sapp s)))|
    by apply (k_admit (fun s => rt (sapp s)))|by apply (k_admit stats)].
Qed.

(** The model of a request: the one it names, as the store has it. *)
Definition asked_model (req : ChatCompletionRequest) (now : Z) (s : chat_server)
    (id : Common.Models.ModelId) (m : Common.Models.ModelManifest) : Prop :=
  Common.Models.parse (req_model req) = Some id /\ ModelStore.ModelStore.get id now (store_ s) = Some m.

Lemma admit_model ws req now s s1 id m :
  admit_request ws req now s = (s1, Ok (id, m)) -> asked_model req now s id m.
Proof.
  unfold admit_request, asked_model. unfold sbind at 1, sget at 1.
  destruct (air_gap _ && _); [done|]. destruct (audit_frozen _); [done|].
  destruct (match req_messages req with [] => true | _ => false end); [done|].
  destruct (MAX_MESSAGES <? _); [done|]. unfold sbind at 1, slift at 1.
  destruct (Common.Models.parse (req_model req)) as [id0|]; cbn [ok_or]; [|done].
  destruct (negb (allows_model _ _)); [done|]. unfold sbind at 1.
  match goal with |- context [match ?a s with _ => _ end] => destruct (a s) as [s0 [[]|]] eqn:Hlim end; [|done].
  assert (store_ s0 = store_ s) as <-.
  { destruct (rate_limit_rpm ws) as [rpm|]; [|by injection Hlim as <-].
    unfold sbind, smodify in Hlim. destruct (take_slot _ _ _ _).2; by injection Hlim as <-. }
  unfold sbind at 1, slift at 1. destruct (ModelStore.ModelStore.get id0 now (store_ s0)) as [m0|] eqn:Hm; cbn [ok_or]; [|done].
  unfold sbind, sget, smodify, sret. destruct (negb (within_quota _ _ _ _)); [done|]. by intros [= _ <- <-].
Qed.

Lemma run_ok ws req d now s s' r :
  run ws req d now s = (s', Ok r) ->
  exists s1 id m s2, same_but_usage s s1 /\ same_but_usage s2 s' /\ asked_model req now s id m /\
    serve ws req id m d now s1 = (s2, Ok r).
Proof.
  unfold run. intros Hr. pose proof (admit_same ws req now s) as Hs.
  destruct (admit_request ws req now s) as [s1 [[id m]|e]] eqn:Ea; [|done]. cbn [fst] in Hs.
  destruct (serve ws req id m d now s1) as [s2 r2] eqn:Hv. cbn in Hr. simplify_eq.
  exists s1, id, m, s2. split; [done|]. split; [done|]. split; [by eapply admit_model|done].
Qed.

(** The messages of a request, decrypted where that is on, and before them the prompt
    with the chunks, when there are sources. *)
Definition asked_messages (req : ChatCompletionRequest) (key : option string) (src : option (list ScoredChunk))
    (ms : list ChatMessage) : Prop :=
  match src with
  | None => ms = message_of key <$> req_messages req
  | Some _ => exists p, ms = system_message p :: (message_of key <$> req_messages req)
  end.

(** The grounding of a request, if it asks for one. *)
Lemma serve_ok ws req id m d now s s' r :
  serve ws req id m d now s = (s', Ok r) ->
  exists l, Forall (retrieval_call ws s) l /\
    (r = NoAnswer /\ s' = recorded l s \/
     exists hits src ms, asked_messages req (tee_key (sapp s)) src ms /\
       answer ws req id m d now (tee_key (sapp s)) hits src ms (recorded l s) = (s', Ok r)).
Proof.
  unfold serve. unfold sbind, sget. intros Hr. destruct (req_rag req) as [opts|].
  - destruct (ground_spec ws req opts s) as (l & Hl & Hs & _). exists l. split; [done|].
    destruct (ground ws req opts s) as [s1 [[h p|h|]|e]]; cbn [fst] in Hs; subst s1; [..|done].
    + right. eexists _, (Some _), _. split; [by eexists|done].
    + right. by eexists _, None, _.
    + left. unfold sret in Hr. by simplify_eq.
  - unfold sret in Hr. exists []. rewrite recorded_nil. split; [done|]. right. by eexists _, None, _.
Qed.

Lemma by_log_same ws s s1 : workspace_audits (sapp s1) = workspace_audits (sapp s) -> by_log ws s1 = by_log ws s.
Proof. intros He. unfold by_log, log_of. by rewrite He. Qed.

Lemma retrieval_same ws s s1 l : workspace_audits (sapp s1) = workspace_audits (sapp s) ->
  Forall (retrieval_call ws s1) l -> Forall (retrieval_call ws s) l.
Proof. intros He. unfold retrieval_call, log_of. by rewrite He. Qed.

(** An answer after its retrieval: from the state [s] of the request. *)
Lemma run_answer ws req d now s s' r :
  run ws req d now s = (s', Ok r) -> r <> NoAnswer ->
  exists id m hits src ms l s1 s2, Forall (retrieval_call ws s) l /\
    same_but_usage s s1 /\ same_but_usage s2 s' /\ by_log ws s1 = by_log ws s /\
    (asked_model req now s id m /\ asked_messages req (tee_key (sapp s)) src ms) /\
    answer ws req id m d now (tee_key (sapp s)) hits src ms (recorded l s1) = (s2, Ok r).
Proof.
  intros (s1 & id & m & s2 & Hs1 & Hs2 & Hmod & Hv)%run_ok Hn.
  apply serve_ok in Hv as (l & Hl & [[-> _]|(hits & src & ms & Hms & Ha)]); [done|].
  exists id, m, hits, src, ms, l, s1, s2. destruct Hs1 as [Ht Hd Hp Ha1 Hrt Hst] eqn:E.
  split; [by eapply retrieval_same|]. split; [done|]. split; [done|]. split; [by apply by_log_same|].
  replace (tee_key (sapp s)) with (tee_key (sapp s1)) by (unfold tee_key; by rewrite Hrt). done.
Qed.

(** The messages for the engine depend on the settings alone. *)
Lemma engine_messages_same ws m s s1 l ms :
  rt (sapp s1) = rt (sapp s) -> engine_messages ws m (sapp (recorded l s1)) ms = engine_messages ws m (sapp s) ms.
Proof. intros He. unfold engine_messages, with_system_prompt. cbn. by rewrite He. Qed.

(** No answer is given over a collection that the workspace may not read: when a
    blocking label above the workspace's clearance is on the collection that is asked
    for, or on any collection when all are searched, the request fails and only the
    retrieval is recorded. *)
Theorem blocked_collection_refused ws req d now s opts c col :
  req_rag req = Some opts ->
  ro_collection opts = Some c \/ ro_collection opts = None \/ ro_collection opts = Some "*" ->
  Common.Classification.collections (classification (sapp s)) !! c = Some col ->
  Common.Classification.block_on_violation col = true ->
  Common.Classification.level (Common.Classification.workspace_clearance (classification (sapp s)) (slug ws))
    < Common.Classification.level (Common.Classification.label col) ->
  let r := run ws req d now s in
  is_ok r.2 = false /\
  exists l, trail (sapp r.1) = trail (sapp s) ++ l /\ Forall (retrieval_call ws s) l.
Proof.
  intros Hreq Hc Hcol Hb Hlev. cbv zeta. unfold run. pose proof (admit_same ws req now s) as Hs.
  destruct (admit_request ws req now s) as [s1 [[id m]|e]]; cbn [fst snd] in *.
  2:{ split; [done|]. exists []. by rewrite app_nil_r, (same_trail _ _ Hs). }
  unfold serve. unfold sbind, sget. rewrite Hreq.
  destruct (ground_spec ws req opts s1) as (l & Hl & Hg & Hok).
  destruct (ground ws req opts s1) as [s2 [g|e]]; cbn [fst snd is_ok] in *; subst s2.
  - exfalso. specialize (Hok eq_refl). rewrite (same_policy _ _ Hs) in Hok.
    pose (v := {| Common.Classification.collection := c;
      Common.Classification.required_label := Common.Classification.label col;
      Common.Classification.workspace_clearance_ :=
        Common.Classification.workspace_clearance (classification (sapp s)) (slug ws);
      Common.Classification.block := Common.Classification.block_on_violation col |}).
    enough (In v (violations (classification (sapp s)) ws (searched opts))) as Hin.
    { rewrite Forall_forall in Hok. specialize (Hok v). rewrite list_elem_of_In in Hok.
      specialize (Hok Hin). cbn in Hok. congruence. }
    assert (In v (Common.Classification.check_all_collections (classification (sapp s)) (slug ws))) as Hall.
    { unfold Common.Classification.check_all_collections. apply in_map_iff. exists (c, col).
      split; [done|]. apply filter_In. split; [by apply list_elem_of_In, elem_of_map_to_list|].
      by apply Z.ltb_lt. }
    unfold searched, violations. destruct Hc as [Hc|[Hc|Hc]]; rewrite Hc; [|done|done].
    destruct (String.eqb c "*"); [done|].
    replace (Common.Classification.check_access _ _ _) with (Some v); [by left|]. symmetry.
    apply Common.Classification.check_access_some. by exists col.
  - split; [done|]. exists l. unfold release_usage. cbn. rewrite (same_trail _ _ Hs). split; [done|].
    by apply (retrieval_same ws s s1); [apply (same_audits _ _ Hs)|].
Qed.

(** An answer that is not streamed is on the record: after the calls of its retrieval,
    the log of the workspace gets the start and the completion of the request with the
    token counts the caller is told, then the receipt if there is one; and the
    statistics count it. *)
Theorem answers_recorded ws req d now s s' out ti to tt src rec :
  run ws req d now s = (s', Ok (Completion out ti to tt src rec)) ->
  exists pre id hash prompt dev response receipt,
    Forall (retrieval_call ws s) pre /\
    trail (sapp s') = trail (sapp s) ++ pre ++ (by_log ws s "api" <$>
      ([Events.InferenceStart (request_id d) id hash device prompt;
        Events.InferenceComplete (request_id d) id ti to (elapsed_ms d) dev response]
       ++ match receipt with Some r => [Events.InferenceReceiptEv r] | None => [] end)) /\
    (rec = if with_receipt req then receipt else None) /\ tt = Z.min u32_max (ti + to) /\
    stats s' = record_ok ti to (elapsed_ms d) (stats s).
Proof.
  intros (id & m & hits & src' & ms & l & s1 & s2 & Hl & Hs1 & Hs2 & Hlog & [Hmod Hms] & Ha)%run_answer; [|done].
  destruct (answer_completion _ _ _ _ _ _ _ _ _ _ _ _ _ _ _ _ _ _ Ha) as (Hst & resp & Hg).
  destruct (answer_completes ws req id m d now (tee_key (sapp s)) hits src' ms (recorded l s1) resp Hst Hg)
    as (h & p & response & He). rewrite He in Ha. clear He.
  match type of Ha with context [match ?o with Some r => [Events.InferenceReceiptEv r] | None => [] end] =>
    set (receipt := o) in * end.
  apply pair_equal_spec in Ha as [Hstate Ha]. injection Ha as Hout Hti Hto Htt Hsrc Hrec.
  subst s2 ti to tt.
  exists l, id, h, p, (rs_device resp), response, receipt. split; [done|].
  split; [|split; [done|split; [done|]]].
  - rewrite (same_trail _ _ Hs2). unfold recorded. cbn [sapp set_app trail set_stats set_data].
    rewrite (same_trail _ _ Hs1), <- !app_assoc. unfold by_log in *. cbn. unfold log_of in *. cbn.
    by rewrite (same_audits _ _ Hs1).
  - rewrite (same_stats _ _ Hs2). cbn. by rewrite (same_stats _ _ Hs1).
Qed.

(** A streamed answer is not: its start is the last that is recorded, no completion,
    failure or receipt follows, the statistics do not count it, and the tokens go out
    as the engine makes them, whether or not answers are to be encrypted. *)
Theorem streamed_unrecorded ws req d now s s' toks src :
  run ws req d now s = (s', Ok (Streamed toks src)) ->
  exists pre id hash prompt q, Forall (retrieval_call ws s) pre /\
    trail (sapp s') = trail (sapp s) ++ pre
      ++ [by_log ws s "api" (Events.InferenceStart (request_id d) id hash device prompt)] /\
    stats s' = stats s /\ data (sapp s') = data (sapp s) /\
    ir_request_id q = request_id d /\ toks = generate_stream q.
Proof.
  intros (id & m & hits & src' & ms & l & s1 & s2 & Hl & Hs1 & Hs2 & Hlog & [Hmod Hms] & Ha)%run_answer; [|done].
  destruct (stream req) eqn:Hst.
  - destruct (answer_streams ws req id m d now (tee_key (sapp s)) hits src' ms (recorded l s1) Hst)
      as (h & p & He). rewrite He in Ha. injection Ha as <- <- _.
    eexists l, id, h, p, _. split; [done|]. split.
    { rewrite (same_trail _ _ Hs2). unfold recorded. cbn [sapp set_app trail].
      rewrite (same_trail _ _ Hs1), <- !app_assoc. unfold by_log, log_of. cbn.
      by rewrite (same_audits _ _ Hs1). }
    split; [by rewrite (same_stats _ _ Hs2); apply (same_stats _ _ Hs1)|].
    split; [by rewrite (same_data _ _ Hs2); apply (same_data _ _ Hs1)|]. by split; [|reflexivity].
  - exfalso. revert Ha. unfold answer. unfold sbind, sget, smodify. rewrite append_records, Hst.
    destruct (generate _); rewrite append_records; [|done]. unfold build_receipt.
    destruct (Sign.load_or_create _ _) as [f [sk|e]]; cbn [fst snd]; done.
Qed.

(** C18: While an incident is not resolved no chat request runs, whatever requests on
    incidents, failed writes, dropped handlers and restarts came before: it is
    refused and changes nothing. *)
Theorem incident_stops_chat a s ws req d now i :
  IncidentApi.IncidentApi.app_ok a -> rtc IncidentApi.IncidentApi.istep a (sapp s) ->
  incident (sapp s) = Some i -> Common.Incident.phase i <> Common.Incident.Resolved ->
  run ws req d now s = (s, Err ServiceUnavailable).
Proof.
  intros Hok Hrun Hi Hp. destruct (IncidentApi.IncidentApi.isteps_ok _ _ Hrun Hok) as (_ & Hinc & _).
  destruct (Hinc i Hi) as [_ Hfr]. unfold run, admit_request. unfold sbind at 1, sget at 1.
  rewrite (Hfr Hp). by destruct (air_gap _ && _).
Qed.

(** ** Receipts *)

(** What the types of a request and of the drawn values guarantee, and that the
    temperature and the scores are finite. *)
Definition typed (req : ChatCompletionRequest) (d : chat_draws) : bool :=
  f32_finite (eff_temperature req) && uint_ok u32_max (max_tokens req)
  && Receipt.opt_ok (uint_ok u64_max) (eff_seed req) && uint_ok u32_max (thread_count d).

Lemma receipt_for_wf k req id m d now ms resp hits q :
  typed req d = true -> generate q = Ok resp ->
  forallb (fun c => f32_finite (score c)) hits = true ->
  Receipt.receipt_wf (receipt_for k req id m d now ms resp hits) = true.
Proof.
  intros Ht Hg Hs. destruct (tokens_u32 q resp Hg) as [Hi Ho]. unfold typed in Ht.
  unfold Receipt.receipt_wf, receipt_for, signed, unsigned_receipt, Receipt.params_wf.
  cbn -[u32_max u64_max f32_finite uint_ok]. rewrite Hi, Ho.
  repeat match goal with H : _ && _ = true |- _ => apply andb_prop in H as [? ?] end.
  assert (Receipt.opt_ok (uint_ok u32_max) (if deterministic req then Some 1 else None) = true) as ->
    by by destruct (deterministic req).
  repeat match goal with H : _ = true |- _ => rewrite H end. cbn -[u32_max u64_max f32_finite].
  change (forallb (fun s => f32_finite (Receipt.score s)) (source_ref <$> hits) = true).
  rewrite forallb_forall in Hs |- *. intros x (c & <- & Hc)%in_map_iff. cbn. by apply Hs.
Qed.

Lemma receipt_for_signature k req id m d now ms resp hits :
  String.length k = 32%nat ->
  Verifier.Verifier.verify_signature (receipt_for k req id m d now ms resp hits) = Ok tt.
Proof.
  intros Hk. apply Verifier.Verifier.verify_signature_iff. unfold receipt_for. set (r := unsigned_receipt _ _ _ _ _ _ _ _ _ _ _ _ _ _ _).
  exists (hex_encode (Sign.sign k (Receipt.canonical_bytes r))), (Sign.sign k (Receipt.canonical_bytes r)), (ed_public k).
  split; [done|]. split; [apply hex_decode_encode|]. split; [apply ed_sign_len|].
  split; [apply hex_decode_encode|]. split; [by apply ed_public_len|]. split; [by apply ed_public_ok|].
  unfold Sign.sign. by apply ed_verify_sign.
Qed.

Definition message_bytes (ms : list ChatMessage) : string :=
  foldr (fun m acc => json_print (message_json m) +:+ acc) EmptyString ms.

Lemma message_bytes_eq ms :
  foldr (fun m acc => json_print m +:+ acc) EmptyString (message_json <$> ms) = message_bytes ms.
Proof. induction ms as [|m ms IH]; [done|]. unfold message_bytes in *. cbn. by rewrite IH. Qed.

(** C19: The receipt that comes with an answer convinces the offline verifier. The engine
    was given one request, of the model that the caller named as the store has it and
    with the caller's messages (after the prompt with the chunks, if there are sources,
    and the system prompt, cut to the context of the model), and the answer is the text
    that the engine made of it, encrypted where answers are. From any JSON text of the
    receipt, the verifier finds the signature good, and the digests those of the
    messages of that request and of that text. *)
Theorem receipt_verifies ws req d now s s' out ti to tt src r :
  run ws req d now s = (s', Ok (Completion out ti to tt src (Some r))) ->
  typed req d = true -> String.length (sign_seed d) = 32%nat ->
  forallb (fun x => f32_finite (Receipt.score x)) (Receipt.sources r) = true ->
  exists id m ms resp,
    asked_model req now s id m /\ asked_messages req (tee_key (sapp s)) src ms /\
    let q := inference_request req id m d (engine_messages ws m (sapp s) ms) in
    generate q = Ok resp /\ ti = rs_tokens_in resp /\ to = rs_tokens_out resp /\
    out = match tee_key (sapp s) with Some k => Tee.encrypt_str k (tee_nonce d) (rs_content resp) | None => rs_content resp end /\
    forall f path inp outp json_text,
      String.prefix "-" path = false -> read_to_string f path = Ok json_text ->
      json_parse json_text = Some (Receipt.receipt_json r) ->
      read f inp = Ok (message_bytes (ir_messages q)) ->
      read f outp = Ok (rs_content resp) ->
      Verifier.Verifier.main [path; "--input"; inp; "--output"; outp] EmptyString f
      = ([Verifier.Verifier.SignatureOk (stake 16 (Receipt.signing_key_id r));
          Verifier.Verifier.InputOk; Verifier.Verifier.OutputOk], Verifier.Verifier.Success).
Proof.
  intros (id & m & hits & src' & ms & l & s1 & s2 & Hl & Hs1 & Hs2 & Hlog & [Hmod Hms] & Ha)%run_answer; [|done].
  intros Ht Hseed Hsc. destruct (answer_completion _ _ _ _ _ _ _ _ _ _ _ _ _ _ _ _ _ _ Ha) as (Hst & resp & Hg).
  destruct (answer_completes ws req id m d now (tee_key (sapp s)) hits src' ms (recorded l s1) resp Hst Hg)
    as (h & p & response & He). rewrite He in Ha. clear He.
  rewrite (engine_messages_same ws m s s1 l ms (same_rt _ _ Hs1)) in Ha, Hg.
  apply pair_equal_spec in Ha as [_ Ha]. injection Ha as Hout Hti Hto _ Hsrc Hrec. destruct (with_receipt req); [|done].
  destruct (Sign.load_or_create (sign_seed d) (data (sapp s1))) as [f0 [k|e]] eqn:Hk; cbn in Hrec; [|discriminate].
  injection Hrec as <-. apply Sign.load_length in Hk; [|done]. subst src' ti to.
  set (ms' := engine_messages _ _ _ _) in *.
  assert (forallb (fun c => f32_finite (score c)) hits = true) as Hh.
  { rewrite forallb_forall in Hsc |- *. intros c Hc. apply (Hsc (source_ref c)). by apply in_map. }
  exists id, m, ms, resp. do 6 (split; [done|]). intros f path inp outp text Hp Hr Hj Hi Ho.
  rewrite (Verifier.Verifier.main_checks f path inp outp text (receipt_for k req id m d now ms' resp hits)).
  - unfold Verifier.Verifier.checks, Verifier.Verifier.check_file_hash. rewrite receipt_for_signature by done.
    cbn [Verifier.Verifier.input_path Verifier.Verifier.output_path]. rewrite Hi, Ho.
    cbn [Receipt.input_sha256 Receipt.output_sha256 receipt_for signed unsigned_receipt].
    unfold Receipt.hash_messages, Receipt.hash_output. cbn [ir_messages inference_request].
    by rewrite message_bytes_eq, !String.eqb_refl.
  - done.
  - done.
  - rewrite Hj. cbn [mbind option_bind]. apply Events.Events.receipt_round. by eapply receipt_for_wf.
Qed.

End theorems.
End ChatTheorems.
