(* ===== verification/RagApi.v ===== *)
(** * The routes of retrieval

    Models [maranode-api/src/routes/rag.rs]: who may ingest, the label check of the text
    route, uploads and batches, summaries, searches, listings and deletions, over the
    state of the chat routes. A multipart body is its fields as the parser gives them. *)

From Stdlib Require Import ZArith Lia Ascii String.
From S2P Require Import Prelude Json Crypto Common Events Fs UserDb Auth WorkspaceDb WorkspaceApi AppState LegalHold IncidentApi Labels F32 SortBy RagChunk RagText RagStore RagEngine ModelStore Chat ChatUsage.
Open Scope string_scope.
Open Scope list_scope.
Open Scope Z_scope.

Module RagApi.
Import Auth.Auth AppState.AppState Utf8 Extract RagStore RagEngine Chat.Chat.

(** A field: its name, the name of its file, its bytes and its text; reading it may fail. *)
Record field := {
  f_name : option string; f_file : option string; f_bytes : option string; f_text : option string
}.

(** The fields up to the end of the body, or up to a parse error. *)
Record multipart := { fields : list field; well_formed : bool }.

Record upload := {
  up_bytes : option string; up_filename : option string; up_collection : option string; up_source : option string
}.

Definition no_upload : upload :=
  {| up_bytes := None; up_filename := None; up_collection := None; up_source := None |}.

Definition named (f : field) (n : string) : bool := bool_decide (f_name f = Some n).

(** The loop of [upload_document]. *)
Fixpoint read_upload (fs : list field) (ok : bool) (u : upload) : result api_error upload :=
  match fs with
  | [] => if ok then Ok u else Err BadRequest
  | f :: fs =>
    if named f "file" then
      let? b := ok_or (f_bytes f) BadRequest in
      read_upload fs ok {| up_bytes := Some b; up_filename := f_file f;
                           up_collection := up_collection u; up_source := up_source u |}
    else if named f "collection" then
      let? t := ok_or (f_text f) BadRequest in
      read_upload fs ok {| up_bytes := up_bytes u; up_filename := up_filename u;
                           up_collection := Some t; up_source := up_source u |}
    else if named f "source" then
      let? t := ok_or (f_text f) BadRequest in
      read_upload fs ok {| up_bytes := up_bytes u; up_filename := up_filename u;
                           up_collection := up_collection u; up_source := Some t |}
    else read_upload fs ok u
  end.

(** The loop of [upload_documents_batch]: the files with their names, and the collection. *)
Fixpoint read_batch (fs : list field) (ok : bool) (files : list (string * string)) (col : option string)
    : result api_error (list (string * string) * option string) :=
  match fs with
  | [] => if ok then Ok (files, col) else Err BadRequest
  | f :: fs =>
    if named f "file" then
      let? b := ok_or (f_bytes f) BadRequest in
      read_batch fs ok (files ++ [(default "upload" (f_file f), b)]) col
    else if named f "collection" then
      let? t := ok_or (f_text f) BadRequest in read_batch fs ok files (Some t)
    else read_batch fs ok files col
  end.

(** The loop of [extract_document]. *)
Fixpoint read_file (fs : list field) (ok : bool) (file : option (string * option string))
    : result api_error (option (string * option string)) :=
  match fs with
  | [] => if ok then Ok file else Err BadRequest
  | f :: fs =>
    if named f "file" then
      let? b := ok_or (f_bytes f) BadRequest in read_file fs ok (Some (b, f_file f))
    else read_file fs ok file
  end.

Record batch_item := { bi_filename : string; bi_ok : bool; bi_stats : option IngestStats }.

Record SearchHit := {
  sh_source : string; sh_ordinal : Z; sh_score : Z; sh_text : string; sh_page : Z; sh_section : option string
}.

(** The drawn values of a request, for each document that it stores. *)
Record rag_draws := { doc_draws : nat -> draws; summary_nonce : nat -> string; summary_request : nat -> string }.

Definition is_blank_text (t : string) : bool := Chunk.is_empty (Chunk.trim (chars t)).

Section routes.
Context `{!Rfc3339, !DateTimeText, !JsonText, !TimeText, !Sha256, !Aead, !Hex, !Unicode, !PdfTools,
          !Embedder, !InferenceEngine}.

Definition require_rag : SE chat_server api_error RagEngine :=
  do! s := sget in slift (ok_or (rag s) NotImplemented).

Definition bearer_key (h : headers) : option string := Auth.Auth.trim <$> raw_bearer h.

Definition is_key (k : option string) (secret : string) : bool :=
  match k with Some k => Secure.ct_eq_str k secret | None => false end.

Definition check_ingest_permission (h : headers) (a : app) : result api_error unit :=
  if bool_decide (rag_ingest_policy (rt a) = Anyone) then Ok tt else
  let? ak := ok_or (admin_key (server_of a)) Forbidden in
  let key := bearer_key h in
  match rag_ingest_policy (rt a) with
  | Anyone => Ok tt
  | AdminOnly => if is_key key ak then Ok tt else Err Forbidden
  | Allowlist =>
    let in_list := match key with
                   | Some k => existsb (fun x => Secure.ct_eq_str x k) (rag_ingest_allowlist (rt a))
                   | None => false end in
    if is_key key ak || in_list then Ok tt else Err Forbidden
  end.

Definition require_rag_admin (h : headers) (now : Z) : SE chat_server api_error unit :=
  on_app (AppState.AppState.on_auth (authorize_privileged h Common.User.can_ingest_rag now)).

(** A computation on the engine in its place. *)
Definition on_rag {A} (err : rag_err -> api_error) (m : SE RagEngine rag_err A) : SE chat_server api_error A := fun s =>
  match rag s with
  | None => (s, Err NotImplemented)
  | Some e => let r := m e in
    ({| sapp := sapp s; store_ := store_ s; rag := Some r.1; stats := stats s |}, map_err err r.2)
  end.

(** *** Summaries *)

Definition summary_prompt (t : string) : string :=
  "Summarize the following document in 3-5 sentences. Focus on the main topic, key facts, and any important conclusions. Be concise."
  +:+ nl +:+ nl +:+ "DOCUMENT:" +:+ nl +:+ t +:+ nl +:+ nl +:+ "SUMMARY:".

(** The bits of 0.3. *)
Definition summary_temperature : Z := 1050253722.

Definition is_llm (m : Common.Models.ModelManifest) : bool :=
  match Common.Models.model_type m with Common.Models.Llm => true | _ => false end.

(** [EngineSummarizer::summarize]. *)
Definition summarize (s : chat_server) (request : string) (now : Z) (t : string) : option string :=
  some? m := List.find is_llm (ModelStore.list_models now (store_ s)) in
  match ModelStore.blob_path_verified (Common.Models.model_id m) (store_ s) with
  | Err _ => None
  | Ok path =>
    match generate {| ir_request_id := request; ir_model := Common.Models.model_id m; ir_model_path := path;
                      ir_messages := [{| role := User; content := summary_prompt t |}];
                      ir_temperature := summary_temperature; ir_max_tokens := 256; ir_stop := [];
                      ir_stream := false; ir_seed := None; ir_deterministic := false |} with
    | Err _ => None
    | Ok r => Some (utf8 (Chunk.trim (chars (rs_content r))))
    end
  end.

(** *** Ingestion *)

Definition ingested_event (st : IngestStats) (source : string) : Events.AuditEvent :=
  Events.RagDocumentIngested (collection st) source (is_chunks st).

Definition main_append (actor : string) (ev : Events.AuditEvent) : SE chat_server api_error unit :=
  on_app (audit_append MainLog actor ev).

(** A blocking label above [Public]. *)
Definition guarded_label (a : app) (col : string) : option Common.Classification.CollectionPolicy :=
  some? c := Common.Classification.collection_label (classification a) col in
  check Common.Classification.block_on_violation c &&
        Common.Classification.label_gt (Common.Classification.label c) Common.Classification.Public in Some c.

Definition ingest_document (h : headers) (col : option string) (source text : string) (now : Z)
    (d : rag_draws) : SE chat_server api_error IngestStats :=
  do! s := sget in
  let a := sapp s in
  do! _ := slift (check_ingest_permission h a) in
  do! e := require_rag in
  let col := default (default_collection (config e)) col in
  if is_blank_text text then sfail BadRequest else
  do! _ :=
    (match guarded_label a col with
     | Some c =>
       if match admin_key (server_of a) with Some k => is_key (bearer_key h) k | None => false end then sret tt
       else
         do! _ := main_append "classification" (Events.DataClassificationViolation "ingest" col
                    (Common.Classification.as_str (Common.Classification.label c))
                    (Common.Classification.as_str Common.Classification.Public) true) in
         sfail Forbidden
     | None => sret tt
     end) in
  do! st := on_rag internal (ingest col source text now (doc_draws d 0)) in
  do! _ := main_append "api" (ingested_event st source) in
  sret st.

Definition ingest_file (i : nat) (col source bytes fname : string) (now : Z) (d : rag_draws)
    : SE chat_server api_error IngestStats :=
  do! s := sget in
  do! st := on_rag bad_request (ingest_bytes col source bytes fname
                                 (Some (summarize s (summary_request d i) now)) now (doc_draws d i)
                                 (summary_nonce d i)) in
  do! _ := main_append "api" (ingested_event st source) in
  sret st.

Definition upload_document (h : headers) (body : multipart) (now : Z) (d : rag_draws)
    : SE chat_server api_error IngestStats :=
  do! s := sget in
  do! _ := slift (check_ingest_permission h (sapp s)) in
  do! e := require_rag in
  do! u := slift (read_upload (fields body) (well_formed body) no_upload) in
  do! bytes := slift (ok_or (up_bytes u) BadRequest) in
  let fname := default "upload" (up_filename u) in
  let source := default fname (up_source u) in
  let col := default (default_collection (config e)) (up_collection u) in
  if String.eqb bytes "" then sfail BadRequest else
  ingest_file 0 col source bytes fname now d.

(** A file that fails leaves the rest of the batch to go on. *)
Fixpoint ingest_files (i : nat) (files : list (string * string)) (col : string) (now : Z) (d : rag_draws)
    : SE chat_server api_error (list batch_item) :=
  match files with
  | [] => sret []
  | (name, bytes) :: files =>
    do! item := (fun s =>
      if String.eqb bytes "" then (s, Ok {| bi_filename := name; bi_ok := false; bi_stats := None |})
      else let r := ingest_file i col name bytes name now d s in
           (r.1, Ok match r.2 with
                    | Ok st => {| bi_filename := name; bi_ok := true; bi_stats := Some st |}
                    | Err _ => {| bi_filename := name; bi_ok := false; bi_stats := None |}
                    end)) in
    do! items := ingest_files (S i) files col now d in
    sret (item :: items)
  end.

Definition upload_documents_batch (h : headers) (body : multipart) (now : Z) (d : rag_draws)
    : SE chat_server api_error (list batch_item) :=
  do! s := sget in
  do! _ := slift (check_ingest_permission h (sapp s)) in
  do! e := require_rag in
  do! b := slift (read_batch (fields body) (well_formed body) [] None) in
  if match b.1 with [] => true | _ => false end then sfail BadRequest else
  ingest_files 0 b.1 (default (default_collection (config e)) b.2) now d.

(** The text of a file, not stored: its name, its number of characters, the text. *)
Definition extract_document (body : multipart) : result api_error (string * Z * string) :=
  let? file := read_file (fields body) (well_formed body) None in
  let? f := ok_or file BadRequest in
  let fname := default "upload" f.2 in
  guard negb (String.eqb f.1 "") else BadRequest in
  let? t := map_err bad_request (extract_text f.1 fname) in
  Ok (fname, Z.of_nat (List.length t), utf8 t).

(** *** Reading and deletion *)

Definition get_document (id : string) : SE chat_server api_error DocumentInfo :=
  do! e := require_rag in
  slift (ok_or (RagStore.RagStore.get_document id (store e)) NotFound).

Definition get_document_summary (id : string) : SE chat_server api_error (option string) :=
  do! d := get_document id in sret (di_summary d).

Definition resummary_document (h : headers) (id : string) (now : Z) (d : rag_draws)
    : SE chat_server api_error string :=
  do! s := sget in
  do! _ := slift (check_ingest_permission h (sapp s)) in
  do! e := require_rag in
  do! _ := slift (ok_or (RagStore.RagStore.get_document id (store e)) NotFound) in
  do! t := slift (map_err internal (get_document_text id (store e))) in
  do! t := slift (ok_or t NotFound) in
  do! s := sget in
  do! sum := slift (ok_or (summarize s (summary_request d 0) now t) Internal) in
  do! _ := on_rag internal (on_store (smodify (set_summary id sum (summary_nonce d 0)))) in
  sret sum.

Definition list_collections : SE chat_server api_error (list CollectionInfo) :=
  do! e := require_rag in sret (RagStore.RagStore.list_collections (store e)).

Definition list_documents (name : string) : SE chat_server api_error (list DocumentInfo) :=
  do! e := require_rag in sret (RagStore.RagStore.list_documents name (store e)).

Definition delete_with (m : VectorStore -> VectorStore * bool) (h : headers) (now : Z)
    : SE chat_server api_error unit :=
  do! _ := require_rag_admin h now in
  do! gone := on_rag internal (on_store (fun s => ((m s).1, Ok (m s).2))) in
  if gone then sret tt else sfail NotFound.

Definition delete_collection (h : headers) (name : string) (now : Z) : SE chat_server api_error unit :=
  delete_with (RagStore.RagStore.delete_collection name) h now.

Definition delete_document (h : headers) (id : string) (now : Z) : SE chat_server api_error unit :=
  delete_with (RagStore.RagStore.delete_document id) h now.

Definition hit_of (c : ScoredChunk) : SearchHit := {|
  sh_source := RagStore.source c; sh_ordinal := ordinal c; sh_score := score c; sh_text := s_text c;
  sh_page := s_page c; sh_section := s_section c |}.

Definition search (col : option string) (query : string) (top_k : option nat)
    : SE chat_server api_error (list SearchHit) :=
  do! e := require_rag in
  let col := default (default_collection (config e)) col in
  if is_blank_text query then sfail BadRequest else
  do! hits := slift (map_err internal (retrieve col query top_k e)) in
  do! _ := main_append "api" (Events.RagRetrieval col (sha256_hex query) (len hits)) in
  sret (hit_of <$> hits).

(** ** The routes together *)

Inductive rag_route :=
| RIngest (col : option string) (source text : string) | RUpload (body : multipart) | RBatch (body : multipart)
| RExtract (body : multipart) | RGet (id : string) | RSummary (id : string) | RResummary (id : string)
| RCollections | RDeleteCollection (name : string) | RDocuments (name : string) | RDeleteDocument (id : string)
| RSearch (col : option string) (query : string) (top_k : option nat).

Definition unit_of {A} (m : SE chat_server api_error A) : SE chat_server api_error unit :=
  do! _ := m in sret tt.

Definition handle_rag (h : headers) (r : rag_route) (now : Z) (d : rag_draws) : SE chat_server api_error unit :=
  match r with
  | RIngest col source text => unit_of (ingest_document h col source text now d)
  | RUpload body => unit_of (upload_document h body now d)
  | RBatch body => unit_of (upload_documents_batch h body now d)
  | RExtract body => unit_of (slift (extract_document body))
  | RGet id => unit_of (get_document id)
  | RSummary id => unit_of (get_document_summary id)
  | RResummary id => unit_of (resummary_document h id now d)
  | RCollections => unit_of list_collections
  | RDeleteCollection name => delete_collection h name now
  | RDocuments name => unit_of (list_documents name)
  | RDeleteDocument id => delete_document h id now
  | RSearch col query k => unit_of (search col query k)
  end.

(** ** Lemmas *)

Lemma k_unit {X A} (f : chat_server -> X) (m : SE chat_server api_error A) :
  ChatUsage.keeps f m -> ChatUsage.keeps f (unit_of m).
Proof. intros Hm. apply ChatUsage.k_bind; [done|]. intros _. apply ChatUsage.k_ret. Qed.

Lemma k_require {X} (f : chat_server -> X) : ChatUsage.keeps f require_rag.
Proof. apply ChatUsage.k_bind; [apply ChatUsage.k_get|]. intros s. apply ChatUsage.k_lift. Qed.

Lemma k_main_append {X} (f : chat_server -> X) actor ev :
  (forall c s, f (set_app s (add_call c (sapp s))) = f s) -> ChatUsage.keeps f (main_append actor ev).
Proof. intros Hf s. apply Hf. Qed.

Lemma k_search {X} (f : chat_server -> X) col q k :
  (forall c s, f (set_app s (add_call c (sapp s))) = f s) -> ChatUsage.keeps f (search col q k).
Proof.
  intros Hf. apply ChatUsage.k_bind; [apply k_require|]. intros e. cbv zeta.
  destruct (is_blank_text q); [apply ChatUsage.k_fail|]. apply ChatUsage.k_bind; [apply ChatUsage.k_lift|].
  intros hits. apply ChatUsage.k_bind; [by apply k_main_append|]. intros _. apply ChatUsage.k_ret.
Qed.

Lemma k_read {A} (f : chat_server -> option RagEngine) (g : RagEngine -> result api_error A) :
  ChatUsage.keeps f (do! e := require_rag in slift (g e)).
Proof. apply ChatUsage.k_bind; [apply k_require|]. intros e. apply ChatUsage.k_lift. Qed.

(** A handler whose check of the permission fails does nothing. *)
Lemma permission_fails {A} h (k : chat_server -> SE chat_server api_error A) s e :
  check_ingest_permission h (sapp s) = Err e ->
  sbind sget (fun s => sbind (slift (check_ingest_permission h (sapp s))) (fun _ => k s)) s = (s, Err e).
Proof. intros He. unfold sbind, sget, slift. by rewrite He. Qed.

Lemma delete_refused m h now s :
  (authorize_privileged h Common.User.can_ingest_rag now (server_of (sapp s))).2 = Err Forbidden ->
  rag (delete_with m h now s).1 = rag s.
Proof.
  intros He. unfold delete_with, require_rag_admin. unfold sbind at 1, on_app at 1.
  rewrite AppState.AppState.on_auth_same; [cbn [fst snd]; by rewrite He|].
  unfold authorize_privileged, sbind, sget, sret, sfail. by repeat case_match.
Qed.

(** ** Properties *)

(** Who may ingest: with the policy [Anyone] everyone; otherwise a caller who presents
    the admin key, which must be configured, or with an allowlist one of its keys. *)
Theorem ingest_permission_iff h a :
  check_ingest_permission h a = Ok tt <->
  rag_ingest_policy (rt a) = Anyone \/
  exists ak k, admin_key (server_of a) = Some ak /\ bearer_key h = Some k /\
    (k = ak \/ rag_ingest_policy (rt a) = Allowlist /\ In k (rag_ingest_allowlist (rt a))).
Proof.
  unfold check_ingest_permission, is_key. case_bool_decide as Hp; [by split; [left|]|].
  assert (forall k l, existsb (fun x => Secure.ct_eq_str x k) l = true <-> In k l) as Hin.
  { intros k l. rewrite existsb_exists. split.
    - intros (x & Hx & ->%Secure.ct_eq_str_true). done.
    - intros Hk. exists k. split; [done|]. apply Secure.ct_eq_str_refl. }
  destruct (admin_key (server_of a)) as [ak|]; cbn [ok_or rbind].
  2:{ split; [done|]. intros [?|(? & ? & ? & _)]; done. }
  assert (forall (b : bool), (if b then Ok tt else @Err api_error unit Forbidden) = Ok tt <-> b = true) as Hb.
  { intros []; done. }
  destruct (bearer_key h) as [k|].
  - destruct (rag_ingest_policy (rt a)) eqn:Hr; [done| |]; rewrite Hb, ?orb_true_iff, ?Hin, Secure.ct_eq_str_true.
    + split; [intros ->; right; by exists ak, ak; split_and!; [..|left]|].
      intros [?|(? & ? & [= <-] & [= <-] & [?|[? _]])]; done.
    + split.
      * intros [->|Hk]; right; eexists _, _; (split; [done|]); (split; [done|]); [by left|by right].
      * intros [?|(? & ? & [= <-] & [= <-] & [?|[_ ?]])]; [done|by left|by right].
  - destruct (rag_ingest_policy (rt a)); [done| |]; (split; [done|]);
      intros [?|(? & ? & _ & ? & _)]; done.
Qed.

(** No route changes the stored documents for a caller who may neither ingest nor
    delete. *)
Theorem rag_routes_guarded h r now d s e :
  check_ingest_permission h (sapp s) = Err e ->
  (authorize_privileged h Common.User.can_ingest_rag now (server_of (sapp s))).2 = Err Forbidden ->
  rag (handle_rag h r now d s).1 = rag s.
Proof.
  intros He Ha. destruct r as [col src t|body|body|body|id|id|id| |name|name|id|col q k]; unfold handle_rag.
  - unfold unit_of, sbind at 1. unfold ingest_document. by rewrite (permission_fails h _ s e).
  - unfold unit_of, sbind at 1. unfold upload_document. by rewrite (permission_fails h _ s e).
  - unfold unit_of, sbind at 1. unfold upload_documents_batch. by rewrite (permission_fails h _ s e).
  - apply (k_unit rag), ChatUsage.k_lift.
  - apply (k_unit rag), k_read.
  - apply (k_unit rag), ChatUsage.k_bind; [apply k_read|]. intros x. apply ChatUsage.k_ret.
  - unfold unit_of, sbind at 1. unfold resummary_document. by rewrite (permission_fails h _ s e).
  - apply (k_unit rag), ChatUsage.k_bind; [apply k_require|]. intros x. apply ChatUsage.k_ret.
  - by apply delete_refused.
  - apply (k_unit rag), ChatUsage.k_bind; [apply k_require|]. intros x. apply ChatUsage.k_ret.
  - by apply delete_refused.
  - by apply (k_unit rag), k_search.
Qed.

(** The state under another policy of labels. *)
Definition relabelled (p : Common.Classification.ClassificationPolicy) (s : chat_server) : chat_server :=
  set_app s (set_classification (sapp s) p).

(** The same outcome and the same documents. *)
Definition same_effect {A} (x y : chat_server * result api_error A) : Prop := x.2 = y.2 /\ rag x.1 = rag y.1.

Lemma upload_ignores_labels h body now d p s :
  same_effect (upload_document h body now d (relabelled p s)) (upload_document h body now d s).
Proof.
  unfold upload_document, require_rag, sbind, sget, slift.
  change (check_ingest_permission h (sapp (relabelled p s))) with (check_ingest_permission h (sapp s)).
  destruct (check_ingest_permission h (sapp s)) as [[]|e]; [|done].
  change (rag (relabelled p s)) with (rag s). destruct (rag s) as [e|] eqn:Hr; [|done]. cbn [ok_or].
  destruct (read_upload _ _ _) as [u|x]; [|done]. destruct (ok_or (up_bytes u) BadRequest) as [b|x]; [|done].
  destruct (String.eqb b ""); [done|]. unfold ingest_file, sbind, sget, on_rag.
  change (rag (relabelled p s)) with (rag s). rewrite Hr.
  change (summarize (relabelled p s)) with (summarize s).
  destruct (ingest_bytes _ _ _ _ _ _ _ _ e) as [e' [st|x]]; done.
Qed.

Lemma search_ignores_labels col q k p s :
  same_effect (search col q k (relabelled p s)) (search col q k s).
Proof.
  unfold search, require_rag, sbind, sget, slift. change (rag (relabelled p s)) with (rag s).
  destruct (rag s) as [e|]; [|done]. cbn [ok_or]. destruct (is_blank_text q); [done|].
  by destruct (map_err internal _).
Qed.

(** The labels guard one route of four. A caller who may ingest without the admin key
    is refused a collection with a blocking label when the document comes as text, and
    nothing is stored; an uploaded file goes there all the same, and a search by any
    caller, who needs no credentials, answers from it: neither depends on the labels. *)
Theorem labels_guard_text_only h s col c source text now d :
  check_ingest_permission h (sapp s) = Ok tt ->
  guarded_label (sapp s) col = Some c ->
  (forall ak, admin_key (server_of (sapp s)) = Some ak -> bearer_key h <> Some ak) ->
  (let r := ingest_document h (Some col) source text now d s in is_ok r.2 = false /\ rag r.1 = rag s) /\
  (forall body p, same_effect (upload_document h body now d (relabelled p s)) (upload_document h body now d s)) /\
  (forall q k p, same_effect (search (Some col) q k (relabelled p s)) (search (Some col) q k s)).
Proof.
  intros Hp Hg Hk. split_and!; [|intros; apply upload_ignores_labels|intros; apply search_ignores_labels].
  cbv zeta. unfold ingest_document, require_rag, sbind, sget, slift. rewrite Hp.
  destruct (rag s) as [e|] eqn:Hr; [|done]. cbn [ok_or].
  change (default (default_collection (config e)) (Some col)) with col.
  destruct (is_blank_text text); [done|].
  rewrite Hg. replace (match admin_key _ with Some k => _ | None => false end) with false; [by cbn|].
  destruct (admin_key (server_of (sapp s))) as [ak|]; [|done]. specialize (Hk ak eq_refl).
  unfold is_key. destruct (bearer_key h) as [k|]; [|done]. symmetry. apply Secure.ct_eq_str_false. congruence.
Qed.

End routes.
End RagApi.
