(* ===== verification/AuditCli.v ===== *)
(** * The audit commands of the command line

    Models [maranode-cli/src/commands/audit.rs]: verifying, listing, exporting, bundling,
    pruning, backing up and restoring the audit log, and the commands on receipts,
    deletion certificates, syslog and isolation reports. A command runs on the files of the
    host and gives what it reports; the layout of the output is not modelled. *)

From Stdlib Require Import ZArith Lia Ascii String.
From S2P Require Import Prelude Json Crypto Common Events Entry Fs AuditRotate AuditLog AuditChain AuditInv AuditRefine.
From S2P Require Import UserDb Exports RagStore Chat Bundle.
Import Events Entry Verify Log.
Open Scope string_scope.
Open Scope list_scope.
Open Scope Z_scope.

Module AuditCli.

Inductive cli_err :=
| Audit (e : audit_err) | CliIo (e : io_err) | UnknownFormat | NoLog | NoRecord | NoCertificate | NoPrompt | BadPrompt
| BadArchive | AlreadyThere (path : string) | Panic | Unreachable | Refused (text : string) | NoReceipt | NoHash | BadAnswer.

#[export] Instance cli_err_eq_dec : EqDecision cli_err.
Proof. solve_decision. Defined.

Section commands.
Context `{!JsonText, !TimeText, !Rfc3339, !Hmac, !Hex, !Sha256, !AuditRotate.Zip, !Stamp, !ErrorText, !Ed25519, !Archive, !Aead}.
(** The data directory, the umask of the process, and the key a generator would give. *)
Variables (data_dir : string) (umask : Z) (fresh_key : string).

Definition log_path : string := path_join data_dir "audit.jsonl".
Definition key_path : string := path_join data_dir "audit.key".

Definition io {A} (r : result io_err A) : result cli_err A := map_err CliIo r.

(** [load_or_generate] of the key, as a command runs it. *)
Definition cli_key : SE fs cli_err string := fun f =>
  match Key.load_or_generate umask f key_path fresh_key with
  | Ok (f, k) => (f, Ok k) | Err e => (f, Err (Audit e)) end.

Inductive verdict := NoEntries | Intact (n : Z) | Broken (v : option ViolationDetail).

Definition verify_command : SE fs cli_err verdict :=
  do! key := cli_key in
  do! f := sget in
  do! r := slift (map_err Audit (verify_all f data_dir key log_path)) in
  sret (if (entries_checked r =? 0) && ok r then NoEntries
        else if ok r then Intact (entries_checked r) else Broken (first_violation r)).

Definition segments_command (f : fs) : result cli_err (list Rotate.Segment) :=
  map_err Audit (rmap Rotate.segments (Rotate.load_manifest f data_dir)).

(** The last lines: those that are JSON, with time, number, actor and kind. *)
Definition tail_command (n : nat) (f : fs) : result cli_err (list (string * Z * string * string)) :=
  if negb (exists_ f log_path) then Ok [] else
  let? content := io (read_to_string f log_path) in
  let ls := List.filter (fun l => negb (is_blank l)) (lines content) in
  Ok (omap (fun l => (fun v => (default "?" (as_str (jindex "ts" v)), default 0 (Exports.as_u64 (jindex "seq" v)),
                                default "?" (as_str (jindex "actor" v)), default "?" (as_str (jindex "event" v)))) <$> json_parse l)
           (drop (length ls - n) ls)).

Definition FORMATS : list string := ["gdpr"; "hipaa"; "soc2"; "iso27001"; "cef"; "leef"].

Definition filter_of (ws from to : option string) : Exports.ExportFilter :=
  {| Exports.workspace := ws; Exports.from_ := from ≫= parse_rfc3339; Exports.to_ := to ≫= parse_rfc3339 |}.

Definition export_body (format : string) (flt : Exports.ExportFilter) (f : fs) : result cli_err (string * string) :=
  let as_ext ext r := map_err Audit (rmap (fun b => (b, ext)) r) in
  if String.eqb format "gdpr" then as_ext "csv" (Exports.export_gdpr f log_path flt)
  else if String.eqb format "hipaa" then as_ext "csv" (Exports.export_hipaa f log_path flt)
  else if String.eqb format "soc2" then as_ext "csv" (Exports.export_soc2 f log_path flt)
  else if String.eqb format "iso27001" then as_ext "csv" (Exports.export_iso27001 f log_path flt)
  else if String.eqb format "cef" then as_ext "cef" (Exports.export_cef f log_path flt)
  else if String.eqb format "leef" then as_ext "leef" (Exports.export_leef f log_path flt)
  else Err UnknownFormat.

Definition put (fault : option nat) (p b : string) : SE fs cli_err unit := fun f =>
  let w := swrite fault p b f in (w.1, io w.2).

(** The size that was written; nothing without a log. *)
Definition export_command (format : string) (ws from to output : option string) (fault : option nat)
    : SE fs cli_err (option Z) :=
  do! f := sget in
  if negb (exists_ f log_path) then sret None else
  do! body := slift (export_body format (filter_of ws from to) f) in
  do! _ := put fault (default ("audit_" +:+ format +:+ "." +:+ body.2) output) body.1 in
  sret (Some (Z.of_nat (String.length body.1))).

(** [sign] is the signing key of the data directory, if it can be read or made. *)
Definition bundle_command (output : option string) (sign : option string) (verified created : Z) (fault : option nat)
    : SE fs cli_err bool := fun f =>
  if negb (exists_ f log_path) then (f, Ok false) else
  let b := Bundle.create_bundle log_path key_path (default "audit_bundle.zip" output) None sign verified created fault f in
  (b.1, map_err Audit (rmap (fun _ => true) b.2)).

(** Whether an entry is older, as the dry run counts it. *)
Definition stale (cutoff : Z) (l : string) : bool :=
  match json_parse l with
  | Some v => match as_str (jindex "ts" v) ≫= parse_rfc3339 with Some t => t <? cutoff | None => false end
  | None => false
  end.

Inductive pruning := DryRun (n : Z) | Pruned (n : Z) | NothingToPrune.

Definition prune_command (retain_days : Z) (confirm : bool) (now : Z) : SE fs cli_err pruning := fun f =>
  if negb (exists_ f log_path) then (f, Ok NothingToPrune) else
  if negb confirm then
    (f, let? content := io (read_to_string f log_path) in
        Ok (DryRun (Z.of_nat (length (List.filter (stale (now - days_ns retain_days))
                                        (List.filter (fun l => negb (is_blank l)) (lines content)))))))
  else
    let p := prune_log f log_path (path_join data_dir "audit.jsonl.tmp") retain_days now in
    (p.1, map_err Audit (rmap Pruned p.2)).

(** *** Backup and restore *)

Definition add_file (f : fs) (name path : string) : list (string * string) :=
  match content_at f path with Some b => [(name, b)] | None => [] end.

(** [slugs] are the directories of the workspaces, in the order of the listing. *)
Definition backup_files (f : fs) (slugs : list string) : list (string * string) :=
  add_file f "audit.jsonl" log_path ++ add_file f "audit.key" key_path ++
  add_file f "bundle_signing.key" (path_join data_dir "bundle_signing.key") ++
  add_file f "bundle_signing.pub" (path_join data_dir "bundle_signing.pub") ++
  concat ((fun slug =>
    let ws_dir := path_join (path_join data_dir "workspaces") slug in
    add_file f ("workspaces/" +:+ slug +:+ "/audit.jsonl") (path_join ws_dir "audit.jsonl") ++
    add_file f ("workspaces/" +:+ slug +:+ "/audit.key") (path_join ws_dir "audit.key")) <$> slugs).

(** The archive is created first, with the mode of an ordinary file. *)
Definition backup_audit (dest : string) (slugs : option (list string)) (fault : option nat) : SE fs cli_err unit := fun f =>
  put fault dest (zip_files (backup_files f (default [] slugs))) f.

Definition key_ending (name : string) : bool :=
  match ending name with "y"%char :: "e"%char :: "k"%char :: "."%char :: _ => true | _ => false end.

Fixpoint restore_files (force : bool) (l : list (string * string)) : SE fs cli_err unit := fun f =>
  match l with
  | [] => (f, Ok tt)
  | (name, b) :: r =>
    let dest := path_join data_dir name in
    if exists_ f dest && negb force then (f, Err (AlreadyThere dest)) else
    restore_files force r (write_file f dest (if key_ending name then Z.land 384 (Z.lnot umask) else 438) b)
  end.

(** The outcome of the check at the end, when there is a log. *)
Definition restore_audit (src : string) (force : bool) : SE fs cli_err (option VerifyResult) :=
  do! f := sget in
  do! z := slift (io (read f src)) in
  do! l := slift (ok_or (unzip_files z) BadArchive) in
  do! _ := restore_files force l in
  do! f := sget in
  if exists_ f log_path then
    do! key := cli_key in
    do! f := sget in
    do! r := slift (map_err Audit (verify_all f data_dir key log_path)) in
    sret (Some r)
  else sret None.

(** *** Receipts *)

Definition receipt_in (record_id : string) (e : AuditEntry) : option Receipt.InferenceReceipt :=
  match event e with
  | InferenceReceiptEv r => if String.eqb (Receipt.request_id r) record_id then Some r else None
  | _ => None
  end.

Fixpoint find_map {A B} (f : A -> option B) (l : list A) : option B :=
  match l with [] => None | x :: r => match f x with Some y => Some y | None => find_map f r end end.

Definition stored_receipt (record_id : string) (f : fs) : result cli_err Receipt.InferenceReceipt :=
  guard exists_ f log_path else NoLog in
  let? content := io (read_to_string f log_path) in
  ok_or (find_map (receipt_in record_id) (entries_of content)) NoRecord.

Definition prove_command (record_id : string) (f : fs) : result cli_err string :=
  let? r := stored_receipt record_id f in Ok (json_pretty (Receipt.receipt_json r)).

(** [&id[..8]]: a shorter text, or a cut inside a character, panics. *)
Definition shown (n : nat) (s : string) : bool :=
  Nat.leb n (String.length s) && match sdrop n s with String c _ => negb (utf8_cont c) | EmptyString => true end.

Inductive source_state := HashOk | Tampered | Missing.

Definition source_check (store : RagStore.VectorStore) (s : Receipt.SourceRef) : result cli_err source_state :=
  guard shown 8 (Receipt.chunk_id s) else Panic in
  Ok (match RagStore.verify_chunk_hash (Receipt.chunk_id s) store with
      | Ok (_, _, matches) => if matches then HashOk else Tampered
      | Err _ => Missing
      end).

Fixpoint check_sources (store : RagStore.VectorStore) (l : list Receipt.SourceRef) : result cli_err (list source_state) :=
  match l with
  | [] => Ok []
  | s :: r => let? x := source_check store s in let? y := check_sources store r in Ok (x :: y)
  end.

Definition is_hash_ok (x : source_state) : bool := match x with HashOk => true | _ => false end.

(** [store] is the vector store of the data directory, opened without a key. [None]: no
    sources; otherwise whether all are verified, which is also the exit status. *)
Definition verify_sources (store : RagStore.VectorStore) (record_id : string) (f : fs) : result cli_err (option bool) :=
  let? r := stored_receipt record_id f in
  match Receipt.sources r with
  | [] => Ok None
  | srcs => let? l := check_sources store srcs in Ok (Some (forallb is_hash_ok l))
  end.

(** *** Deletion certificates *)

Definition shredded (slug : string) (e : AuditEntry) : option (AuditEntry * string * string) :=
  match event e with
  | WorkspaceShredded s act st => if String.eqb s slug then Some (e, act, st) else None
  | _ => None
  end.

Definition certificate (slug : string) (e : AuditEntry) (act statement : string) : string :=
  "DELETION CERTIFICATE" +:+ nl +:+ "====================" +:+ nl +:+ nl +:+
  "workspace : " +:+ slug +:+ nl +:+ "timestamp : " +:+ to_rfc3339 (ts e) +:+ nl +:+
  "audit seq : " +:+ show_u64 (seq e) +:+ nl +:+ "actor     : " +:+ act +:+ nl +:+ "hmac      : " +:+ hmac e +:+ nl +:+ nl +:+
  "statement :" +:+ nl +:+ "  " +:+ statement +:+ nl +:+ nl +:+
  "This certificate is derived from an HMAC-chained audit log entry." +:+ nl +:+
  "verify integrity with: maranode audit verify" +:+ nl.

Definition export_deletion_cert (slug : string) (output : option string) (fault : option nat) : SE fs cli_err unit :=
  do! f := sget in
  if negb (exists_ f log_path) then sfail NoLog else
  do! content := slift (io (read_to_string f log_path)) in
  do! c := slift (ok_or (find_map (shredded slug) (entries_of content)) NoCertificate) in
  put fault (default ("deletion_cert_" +:+ slug +:+ ".txt") output) (certificate slug c.1.1 c.1.2 c.2).

(** *** Syslog *)

(** The messages that are sent, each at its instant. *)
Definition syslog_message (hostname : string) (now : Z) (line : string) : string :=
  "<14>1 " +:+ to_rfc3339 now +:+ " " +:+ hostname +:+ " maranode - - - " +:+ line +:+ nl.

Definition forward_syslog (flt : Exports.ExportFilter) (hostname : string) (now : nat -> Z) (f : fs)
    : result cli_err (list string) :=
  if negb (exists_ f log_path) then Ok [] else
  let? body := map_err Audit (Exports.export_cef f log_path flt) in
  Ok (imap (fun i l => syslog_message hostname (now i) l) (List.filter (fun l => negb (is_blank l)) (lines body))).

Definition hostname_or_unknown (stdout : option string) : string :=
  match stdout with
  | Some s => if utf8_ok s then let t := str_trim s in if String.eqb t EmptyString then "unknown" else t else "unknown"
  | None => "unknown"
  end.

(** *** Isolation reports *)

Definition in_window (from to : option Z) (t : Z) : bool :=
  match from with Some a => negb (t <? a) | None => true end && match to with Some b => negb (b <? t) | None => true end.

Definition probe_of (e : AuditEntry) : option (AuditEntry * bool * list ProbeResult * string) :=
  match event e with IsolationProbe isolated results hash => Some (e, isolated, results, hash) | _ => None end.

Definition probes_in (from to : option string) (drift_only : bool) (content : string)
    : list (AuditEntry * bool * list ProbeResult * string) :=
  List.filter (fun p => if drift_only then negb p.1.1.2 else true)
    (List.filter (fun p => in_window (from ≫= parse_rfc3339) (to ≫= parse_rfc3339) (ts p.1.1.1))
       (omap probe_of (entries_of content))).

(** Probes, drifts, and the reachable targets of each drift. A hash that is shorter than the
    part that is printed stops the command. *)
Definition isolation_report (from to : option string) (drift_only : bool) (f : fs)
    : result cli_err (nat * nat * list (list ProbeResult)) :=
  if negb (exists_ f log_path) then Ok (0%nat, 0%nat, []) else
  let? content := io (read_to_string f log_path) in
  let probes := probes_in from to drift_only content in
  guard forallb (fun p => String.eqb p.2 EmptyString || shown 16 p.2) probes else Panic in
  let drifts := List.filter (fun p => negb p.1.1.2) probes in
  Ok (length probes, length drifts, (fun p => List.filter reachable p.1.2) <$> drifts).

(** *** Replay *)

Definition logged_prompt (record_id : string) (l : string) : option string :=
  some? v := json_parse l in
  match as_str (jindex "event" v), as_str (jindex "request_id" v) with
  | Some k, Some r => if String.eqb k "inference_start" && String.eqb r record_id then as_str (jindex "prompt" v) else None
  | _, _ => None
  end.

(** The server: the status and the text of its answer to a request. *)
Variable post : json -> option (bool * string).

Definition replay_inference (record_id : string) (f : fs) : result cli_err bool :=
  let? stored := stored_receipt record_id f in
  let? content := io (read_to_string f log_path) in
  let? prompt := ok_or (find_map (logged_prompt record_id) (List.filter (fun l => negb (is_blank l)) (lines content))) NoPrompt in
  let? messages := ok_or (json_parse prompt ≫= as_arr) BadPrompt in
  let body := JObj [("model", JStr (Receipt.model_id stored)); ("messages", JArr messages);
                    ("max_tokens", JInt (default 2048 (Receipt.max_tokens (Receipt.decode_params stored))));
                    ("deterministic", JBool true); ("with_receipt", JBool true)] in
  let? answer := ok_or (post (to_value body)) Unreachable in
  if negb answer.1 then Err (Refused answer.2) else
  let? v := ok_or (json_parse answer.2) BadAnswer in
  let? m := ok_or (as_obj v ≫= jget "receipt") NoReceipt in
  let? h := ok_or (as_str (jindex "output_sha256" m)) NoHash in
  Ok (String.eqb (Receipt.output_sha256 stored) h).

(** *** What the commands do *)

Lemma no_lf_lines s : has_char LF s = false -> (length (lines s) <= 1)%nat.
Proof.
  intros Hs. unfold lines. assert (raw_lines s = match s with EmptyString => [] | _ => [(s, false)] end) as ->.
  { induction s as [|c s IH]; [done|]. cbn in Hs. apply orb_false_iff in Hs as [Hc Hs]. cbn [raw_lines].
    rewrite Hc, (IH Hs). by destruct s. }
  destruct s; cbn; lia.
Qed.

(** However many events there are, at most one message is sent. *)
Theorem forward_sends_one flt hostname now f :
  match forward_syslog flt hostname now f with
  | Ok l => (length l <= 1)%nat
  | Err e => exists e', e = Audit e' /\ Exports.load_entries f log_path flt = Err e'
  end.
Proof.
  unfold forward_syslog. destruct (negb _); [by apply le_0_n|].
  pose proof (Exports.cef_one_line f log_path flt) as Hc.
  destruct (Exports.export_cef f log_path flt) as [body|e]; cbn [map_err rbind]; [|by exists e].
  rewrite length_imap. etrans; [apply filter_length_le|by apply no_lf_lines].
Qed.

(** The check of the sources of a receipt compares a stored text with the stored digest,
    never with the digest that the receipt has: the answer is the same for all receipts
    with the same chunk names, and a chunk whose text and digest were both replaced
    passes. A text that is encrypted is read as it is on the disk. *)
Theorem sources_check_spec store srcs :
  Forall (fun s => shown 8 (Receipt.chunk_id s) = true) srcs ->
  exists l, check_sources store srcs = Ok l /\
    (forallb is_hash_ok l = true <->
     Forall (fun s => exists k, List.find (fun k => String.eqb (RagStore.k_id k) (Receipt.chunk_id s)) (RagStore.chunks store) = Some k /\
                        RagStore.k_hash k = sha256_hex (RagStore.read_text (RagStore.dek store) (RagStore.k_text k))) srcs) /\
    (forall srcs', Receipt.chunk_id <$> srcs' = Receipt.chunk_id <$> srcs -> check_sources store srcs' = Ok l).
Proof.
  induction 1 as [|s srcs Hs _ (l & Hl & Hiff & Hsame)].
  { exists []. split; [done|]. split; [done|]. by intros [|]. }
  destruct (source_check store s) as [x|] eqn:Hx; [|unfold source_check in Hx; by rewrite Hs in Hx].
  exists (x :: l). cbn [check_sources]. rewrite Hx, Hl. split; [done|]. split.
  - cbn [forallb]. rewrite andb_true_iff, Hiff, Forall_cons. f_equiv.
    unfold source_check in Hx. rewrite Hs in Hx. injection Hx as <-. unfold RagStore.verify_chunk_hash.
    destruct (List.find _ _) as [k|]; cbn [ok_or rbind]; [|split; [done|by intros (? & ? & _)]].
    destruct (String.eqb_spec (sha256_hex (RagStore.read_text (RagStore.dek store) (RagStore.k_text k))) (RagStore.k_hash k)).
    + split; [intros _; by exists k|done].
    + split; [done|]. intros (k' & [= <-] & ?). congruence.
  - intros [|s' srcs']; [done|]. rewrite !fmap_cons. intros [= Hid Hr]. cbn [check_sources].
    assert (source_check store s' = Ok x) as -> by (rewrite <- Hx; unfold source_check; by rewrite Hid).
    by rewrite (Hsame _ Hr).
Qed.

(** A file that was not there. *)
Lemma lookup_new_file f p m b q : fs_wf f -> names f !! p = None ->
  lookup_path (write_file f p m b) q = if decide (p = q) then Some {| bytes := b; imode := m |} else lookup_path f q.
Proof.
  intros (Hn & Hi & _) Hp. unfold lookup_path, write_file, open_trunc, write_fd, fd_bytes. rewrite Hp. cbn.
  rewrite set_bytes_names, lookup_insert_eq. cbn. destruct (decide (p = q)) as [<-|Hne].
  - rewrite lookup_insert_eq. cbn. rewrite set_bytes_lookup, decide_True by done. cbn. by rewrite lookup_insert_eq.
  - rewrite lookup_insert_ne by done. destruct (names f !! q) as [j|] eqn:Hq; [|done]. cbn.
    assert (next f <> j) by (destruct (Hn _ _ Hq) as [n Hn']; specialize (Hi _ _ Hn'); lia).
    rewrite set_bytes_lookup, decide_False by done. cbn. by rewrite lookup_insert_ne.
Qed.

Lemma names_new_file f p m b q : names f !! p = None ->
  names (write_file f p m b) !! q = if decide (p = q) then Some (next f) else names f !! q.
Proof.
  intros Hp. unfold write_file, open_trunc. rewrite Hp. cbn. rewrite write_fd_names. cbn.
  case_decide; [subst; apply lookup_insert_eq|by apply lookup_insert_ne].
Qed.

Definition restored_mode (name : string) : Z := if key_ending name then Z.land 384 (Z.lnot umask) else 438.

(** Restoring files with names of their own where none of them is. *)
Lemma restore_spec l f : fs_wf f -> NoDup (path_join data_dir <$> l.*1) ->
  Forall (fun n => names f !! path_join data_dir n = None) l.*1 ->
  exists f', restore_files false l f = (f', Ok tt) /\ fs_wf f' /\
    (forall n b, In (n, b) l -> lookup_path f' (path_join data_dir n) = Some {| bytes := b; imode := restored_mode n |}) /\
    (forall q, ~ In q (path_join data_dir <$> l.*1) -> names f' !! q = names f !! q /\ lookup_path f' q = lookup_path f q).
Proof.
  revert f. induction l as [|[n b] l IH]; intros f Hf Hd Hn; [by exists f|].
  rewrite !fmap_cons in *. apply NoDup_cons in Hd as [Hnin Hd]. apply Forall_cons in Hn as [Hn Hns]. cbn [fst] in *.
  cbn [restore_files]. assert (exists_ f (path_join data_dir n) = false) as ->
    by (unfold exists_; rewrite Hn; by apply bool_decide_eq_false_2; intros [? [=]]).
  cbn [andb]. fold (restored_mode n). set (g := write_file f _ _ _).
  destruct (IH g) as (f' & Hr & Hw & Hin & Hout).
  - by apply write_file_wf.
  - done.
  - rewrite Forall_forall in Hns |- *. intros x Hx. unfold g. rewrite names_new_file by done.
    rewrite decide_False; [by apply Hns|]. intros He. apply Hnin. rewrite He. by apply list_elem_of_fmap_2.
  - exists f'. split; [done|]. split; [done|]. split.
    + intros n' b' [[= <- <-]|Hi]; [|by apply Hin].
      destruct (Hout (path_join data_dir n)) as [_ ->]; [by rewrite <- list_elem_of_In|].
      unfold g. by rewrite lookup_new_file, decide_True.
    + intros q Hq. assert (path_join data_dir n <> q) by (intros <-; apply Hq; by left).
      destruct (Hout q) as [-> ->]; [by intros Hi; apply Hq; right|].
      unfold g. rewrite lookup_new_file, names_new_file by done. by rewrite !decide_False.
Qed.

Definition saved_names : list string := ["audit.jsonl"; "audit.key"; "bundle_signing.key"; "bundle_signing.pub"].

Lemma join_relative n : In n saved_names -> path_join data_dir n = data_dir +:+ "/" +:+ n.
Proof. by intros [<-|[<-|[<-|[<-|[]]]]]. Qed.

Lemma add_file_name f n p x : In x (add_file f n p) -> x.1 = n /\ content_at f p = Some x.2.
Proof. unfold add_file. destruct (content_at f p); [|done]. by intros [<-|[]]. Qed.

Lemma backup_main f : (forall x, In x (backup_files f []) -> In x.1 saved_names) /\ NoDup (backup_files f []).*1.
Proof.
  unfold backup_files. rewrite app_nil_r. split.
  - intros x. rewrite !in_app_iff. intros [H'|[H'|[H'|H']]]; apply add_file_name in H' as [-> _]; cbn; auto.
  - rewrite !fmap_app. unfold add_file. repeat case_match; cbn; repeat constructor; set_solver.
Qed.

Lemma verify_log_same f f' path key : fs_wf f -> fs_wf f' -> content_at f' path = content_at f path ->
  verify_log f' path key = verify_log f path key.
Proof.
  intros Hf Hf' Hc. unfold verify_log. rewrite !read_to_string_content, Hc.
  assert (exists_ f' path = exists_ f path) as -> by (apply eq_true_iff_eq; rewrite !exists_content by done; by rewrite Hc).
  done.
Qed.

(** A backup and a restore on a fresh host keep the active file and nothing of the sealed
    segments, and the check at the end says that all is well: for every log whose chain
    verifies, with any number of sealed entries, the restored directory has no segments,
    and the check reports success with the number of the active entries. *)
Theorem backup_loses_segments w a dest f1 src g :
  log_inv w a -> ldir w.2 = data_dir -> lpath w.2 = log_path -> Key.load w.1 key_path = Ok (lkey w.2) ->
  backup_audit dest None None w.1 = (f1, Ok tt) -> fs_wf g -> content_at g src = content_at f1 dest ->
  Forall (fun n => names g !! path_join data_dir n = None) saved_names -> exists_ g (Rotate.manifest_path data_dir) = false ->
  exists g', restore_audit src false g =
    (g', Ok (Some {| entries_checked := Z.of_nat (length (al_active a)); ok := true; first_violation := None |})) /\
    content_at g' log_path = Some (log_text (al_active a)) /\ exists_ g' (Rotate.manifest_path data_dir) = false.
Proof.
  intros Hi Hd Hp Hk Hb Hg Hsrc Hfree Hman. pose proof (Bundle.verify_active _ _ Hi) as Hv. rewrite Hp in Hv.
  destruct Hi as (Hf & _ & _ & Hc & _). rewrite Hp in Hc.
  unfold backup_audit, put, swrite in Hb. cbn in Hb. injection Hb as <-.
  rewrite content_at_std_write, decide_True in Hsrc by done.
  destruct (backup_main w.1) as [Hnames Hnd]. set (l := backup_files w.1 []) in *.
  assert (forall n, In n l.*1 -> In n saved_names) as Hn.
  { intros n Hi. apply list_elem_of_In, list_elem_of_fmap in Hi as (x & -> & Hx). by apply Hnames, list_elem_of_In. }
  destruct (restore_spec l g) as (g' & Hr & Hw & Hin & Hout); [done| | |].
  { apply NoDup_fmap_2_strong; [|done]. intros x y Hx Hy. rewrite !join_relative by (apply Hn, list_elem_of_In; done).
    intros He. by apply string_app_inj_l, (string_app_inj_l "/") in He. }
  { rewrite Forall_forall in Hfree |- *. intros n Hx. apply Hfree, list_elem_of_In, Hn. by apply list_elem_of_In. }
  assert (content_at g' log_path = Some (log_text (al_active a))) as Hlog.
  { unfold content_at, log_path. erewrite Hin; [done|]. unfold l, backup_files, add_file. rewrite Hc. by left. }
  assert (exists_ g' log_path = true) as Hlx by (apply exists_content; [done|rewrite Hlog; eauto]).
  assert (Key.load_or_generate umask g' key_path fresh_key = Ok (g', lkey w.2)) as Hkey.
  { revert Hk. unfold Key.load, Key.load_or_generate. destruct (exists_ w.1 key_path) eqn:Hx; [|done].
    destruct (lookup_path w.1 key_path) as [i|] eqn:Hl; cbn [ok_or rbind]; [|done].
    destruct (Key.check_key_permissions _); cbn [rbind]; [|done]. destruct (Nat.eqb _ _) eqn:Hlen; [|done]. intros [= Hby].
    assert (lookup_path g' key_path = Some {| bytes := bytes i; imode := restored_mode "audit.key" |}) as Hl'.
    { apply Hin. unfold l, backup_files, add_file, content_at at 2. rewrite Hl. apply in_app_iff. right. by left. }
    assert (exists_ g' key_path = true) as Hx' by (apply exists_content; [done|unfold content_at; rewrite Hl'; eauto]).
    unfold Key.load. rewrite Hx', Hl'. cbn [ok_or rbind bytes imode]. unfold Key.check_key_permissions.
    change (restored_mode "audit.key") with (Z.land 384 (Z.lnot umask)).
    rewrite (Z.land_comm 384), <- Z.land_assoc. change (Z.land 384 63) with 0. rewrite Z.land_0_r. cbn [Z.eqb rbind].
    by rewrite Hlen, Hby. }
  assert (exists_ g' (Rotate.manifest_path data_dir) = false) as Hm'.
  { unfold exists_. destruct (Hout (Rotate.manifest_path data_dir)) as [-> _]; [|done].
    intros Hi. apply list_elem_of_In, list_elem_of_fmap in Hi as (n & He & Hx). apply list_elem_of_In, Hn in Hx.
    rewrite join_relative in He by done. unfold Rotate.manifest_path, Rotate.segment_dir in He.
    rewrite !string_app_assoc in He. apply string_app_inj_l, (string_app_inj_l "/") in He. subst n.
    by destruct Hx as [|[|[|[|[]]]]]. }
  exists g'. split; [|done]. unfold restore_audit, sbind, sget, slift, sret.
  assert (read g src = Ok (zip_files l)) as -> by (by rewrite read_content, Hsrc). cbn [io map_err].
  rewrite unzip_zip_files by done. cbn [ok_or]. rewrite Hr, Hlx. unfold cli_key. rewrite Hkey.
  unfold verify_all, Rotate.load_manifest. rewrite Hm'. cbn [negb rbind Rotate.segments sort_segments fold_left].
  rewrite (verify_log_same w.1 g') by (done || congruence). rewrite Hv. done.
Qed.

End commands.
End AuditCli.
