(* ===== verification/Registry.v ===== *)
(** * The approval registry

    Models [maranode-api/src/routes/registry.rs] and the files of [approval.rs] in
    maranode-common: submissions, approvals and revocations, with their records and
    tokens as files whose writes and removals may fail. The routes take no credentials.
    A ticket of the change management is a step of its own, as its task is; the calls
    to the outside services and the page of the registry are in [Tickets]. Names
    are compared as they are: a path with dots names another file here, so what is said
    of a digest is said of requests whose digests have no slash ([plain_name]). *)

From Stdlib Require Import ZArith Lia Ascii String.
From S2P Require Import Prelude Json Crypto Tokens Common Events Fs UserDb Auth WorkspaceDb WorkspaceApi AppState LegalHold IncidentApi.
Open Scope string_scope.
Open Scope list_scope.
Open Scope Z_scope.

(** ** approval.rs: the token as a file *)
Module TokenFile.
Import Tokens.Approval.

Definition token_fields : list string :=
  ["token_id"; "model_id"; "model_sha256"; "approved_by"; "approved_at"; "expires_at"; "note";
   "signer_pubkey"; "signature"].

Inductive token_err := TIo (e : io_err) | TJson | TKeyLength.

Section token.
Context `{!JsonText, !TimeText, !Base64, !Ed25519}.

Definition token_json (t : ApprovalToken) : json :=
  JObj ([("token_id", JStr (token_id t)); ("model_id", JStr (model_id t));
         ("model_sha256", JStr (model_sha256 t)); ("approved_by", JStr (approved_by t));
         ("approved_at", JStr (ts_print (approved_at t)))]
        ++ jskip "expires_at" (fun e => JStr (ts_print e)) (expires_at t)
        ++ jskip "note" JStr (note t)
        ++ [("signer_pubkey", JStr (signer_pubkey t)); ("signature", JStr (signature t))]).

Definition token_of (j : json) : option ApprovalToken :=
  some? m := as_obj j in
  check no_dup_fields token_fields m in
  some? x0 := req as_str "token_id" m in
  some? x1 := req as_str "model_id" m in
  some? x2 := req as_str "model_sha256" m in
  some? x3 := req as_str "approved_by" m in
  some? x4 := req Receipt.ts_of "approved_at" m in
  some? x5 := opt Receipt.ts_of "expires_at" m in
  some? x6 := opt as_str "note" m in
  some? x7 := req as_str "signer_pubkey" m in
  some? x8 := req as_str "signature" m in
  Some {| token_id := x0; model_id := x1; model_sha256 := x2; approved_by := x3; approved_at := x4;
          expires_at := x5; note := x6; signer_pubkey := x7; signature := x8 |}.

Lemma token_round t : token_of (token_json t) = Some t.
Proof.
  destruct t as [a b c d e [] [] h i]; unfold token_of, token_json, req, opt, Receipt.ts_of; cbn;
    by rewrite ?ts_parse_print; cbn; rewrite ?ts_parse_print.
Qed.

Lemma token_json_wf t : json_wf (token_json t) = true.
Proof. by destruct t as [a b c d e [] [] h i]. Qed.

(** [load] and [save]; a save may fail or stop after some bytes. *)
Definition load (path : string) (f : fs) : result token_err ApprovalToken :=
  let? b := map_err TIo (read f path) in
  let? j := ok_or (json_parse b) TJson in
  ok_or (token_of j) TJson.

Definition put (w : Incidents.write_stop) (path b : string) : SE fs io_err unit := fun f =>
  match w with
  | Incidents.Written => swrite None path b f
  | Incidents.NotOpened => (f, Err WriteFailed)
  | Incidents.StoppedAfter n => swrite (Some n) path b f
  end.

Definition save (w : Incidents.write_stop) (path : string) (t : ApprovalToken) : SE fs io_err unit :=
  put w path (json_pretty (token_json t)).

Definition signing_key_path : string := "approval_signing.key".
Definition verifying_key_path : string := "approval_signing.pub".

(** [seed] is the drawn key. *)
Definition load_or_create_signing_key (seed : string) : SE fs token_err string := fun f =>
  if exists_ f signing_key_path then
    match read f signing_key_path with
    | Err e => (f, Err (TIo e))
    | Ok b => if Nat.eqb (String.length b) 32 then (f, Ok b) else (f, Err TKeyLength)
    end
  else
    let f := std_write f signing_key_path seed in
    (std_write f verifying_key_path (ed_public seed), Ok seed).

(** The check of the lifecycle manager: the file of a digest, its parse and its signature. *)
Inductive block := NoToken | BadToken.

Definition gate (tokens_dir sha256 : string) (now : Z) (f : fs) : option block :=
  let path := token_path tokens_dir sha256 in
  if negb (exists_ f path) then Some NoToken else
  match load path f with
  | Ok t => match verify now t with Ok _ => None | Err _ => Some BadToken end
  | Err _ => Some BadToken
  end.

Lemma put_wf w p b f : fs_wf f -> fs_wf (put w p b f).1.
Proof. intros Hf. destruct w; cbn; [by apply std_write_wf|done|by apply std_write_wf]. Qed.

Lemma put_other w p b f q : fs_wf f -> p <> q -> content_at (put w p b f).1 q = content_at f q.
Proof.
  intros Hf Hn. destruct w; cbn; try done; rewrite content_at_std_write by done; by rewrite decide_False.
Qed.

Lemma gate_content d sha now f g :
  fs_wf f -> fs_wf g -> content_at g (token_path d sha) = content_at f (token_path d sha) ->
  gate d sha now g = gate d sha now f.
Proof.
  intros Hf Hg Hc. unfold gate, load. rewrite !read_content, Hc.
  replace (exists_ g (token_path d sha)) with (exists_ f (token_path d sha)); [done|].
  apply eq_true_iff_eq. by rewrite !exists_content, Hc.
Qed.

(** A token that verifies opens the gate of the digest that its file is named after. *)
Lemma gate_saved d sha now t f :
  fs_wf f -> verify now t = Ok tt ->
  gate d sha now (save Incidents.Written (token_path d sha) t f).1 = None.
Proof.
  intros Hf Hv. assert (fs_wf (save Incidents.Written (token_path d sha) t f).1) as Hw by by apply put_wf.
  assert (content_at (save Incidents.Written (token_path d sha) t f).1 (token_path d sha) =
          Some (json_pretty (token_json t))) as Hc.
  { cbn. rewrite content_at_std_write by done. by rewrite decide_True. }
  unfold gate. rewrite (proj2 (exists_content _ _ Hw)) by by rewrite Hc. cbn [negb].
  unfold load. rewrite read_content, Hc. cbn [map_err rbind].
  rewrite json_parse_pretty by apply token_json_wf. cbn [ok_or rbind]. rewrite token_round. cbn. by rewrite Hv.
Qed.

Lemma verify_signed now t k :
  String.length k = 32%nat -> match expires_at t with Some e => now <= e | None => True end ->
  verify now (sign t k) = Ok tt.
Proof.
  intros Hk He. apply verify_ok. split; [|exact He]. unfold sign.
  cbn [signer_pubkey signature with_signature with_pubkey]. by apply verify_message_signed.
Qed.

Lemma gate_absent d sha now f : fs_wf f -> content_at f (token_path d sha) = None -> gate d sha now f = Some NoToken.
Proof. intros Hf Hc. unfold gate. by rewrite (proj2 (exists_content_false _ _ Hf) Hc). Qed.

End token.
End TokenFile.

(** ** registry.rs *)
Module Registry.
Import Auth.Auth AppState.AppState TokenFile.

Inductive SubmissionStatus := Pending | Approved | Revoked.

#[export] Instance status_eq_dec : EqDecision SubmissionStatus.
Proof. solve_decision. Defined.

Record SubmissionRecord := {
  submission_id : string; model_id : string; model_sha256 : string; submitted_by : string;
  submitted_at : Z; note : option string; status : SubmissionStatus;
  cm_ticket_id : option string; cm_system : option string
}.

Definition status_str (s : SubmissionStatus) : string :=
  match s with Pending => "pending" | Approved => "approved" | Revoked => "revoked" end.

Definition status_of (j : json) : option SubmissionStatus :=
  some? s := as_str j in
  if String.eqb s "pending" then Some Pending else
  if String.eqb s "approved" then Some Approved else
  if String.eqb s "revoked" then Some Revoked else None.

Definition with_status (r : SubmissionRecord) (s : SubmissionStatus) : SubmissionRecord := {|
  submission_id := submission_id r; model_id := model_id r; model_sha256 := model_sha256 r;
  submitted_by := submitted_by r; submitted_at := submitted_at r; note := note r; status := s;
  cm_ticket_id := cm_ticket_id r; cm_system := cm_system r |}.

Definition with_ticket (r : SubmissionRecord) (id system : string) : SubmissionRecord := {|
  submission_id := submission_id r; model_id := model_id r; model_sha256 := model_sha256 r;
  submitted_by := submitted_by r; submitted_at := submitted_at r; note := note r; status := status r;
  cm_ticket_id := Some id; cm_system := Some system |}.

Definition pending_dir : string := "registry/pending".
Definition tokens_dir : string := "approval-tokens".
Definition submission_path (sha256 : string) : string := path_join pending_dir (sha256 +:+ ".json").

(** What a request draws and what the writes of its files do. The clock is read for
    the expiry ([t0]) and for the rest. *)
Record env := {
  e_uuid : string; e_seed : string; e_t0 : Z; e_now : Z;
  w_token : Incidents.write_stop; w_record : Incidents.write_stop; rm_ok : bool
}.

Inductive registry_request :=
| Submit (model sha256 by_ : string) (note : option string)
| Approve (sha256 by_ : string) (note : option string) (days : option Z)
| Revoke (sha256 by_ : string)
| Ticket (sha256 id system : string).

(** The instants of [DateTime<Utc>], in nanoseconds. *)
Definition utc_ok (t : Z) : bool :=
  (- 8334601315200 * ns_per_s <=? t) && (t <? 8210266876800 * ns_per_s).

Section registry.
Context `{!JsonText, !TimeText, !Base64, !Ed25519}.

Definition submission_json (r : SubmissionRecord) : json :=
  JObj ([("submission_id", JStr (submission_id r)); ("model_id", JStr (model_id r));
         ("model_sha256", JStr (model_sha256 r)); ("submitted_by", JStr (submitted_by r));
         ("submitted_at", JStr (ts_print (submitted_at r))); ("note", jopt JStr (note r));
         ("status", JStr (status_str (status r)))]
        ++ jskip "cm_ticket_id" JStr (cm_ticket_id r) ++ jskip "cm_system" JStr (cm_system r)).

Definition submission_of (j : json) : option SubmissionRecord :=
  some? m := as_obj j in
  check no_dup_fields ["submission_id"; "model_id"; "model_sha256"; "submitted_by"; "submitted_at"; "note";
                       "status"; "cm_ticket_id"; "cm_system"] m in
  some? x0 := req as_str "submission_id" m in
  some? x1 := req as_str "model_id" m in
  some? x2 := req as_str "model_sha256" m in
  some? x3 := req as_str "submitted_by" m in
  some? x4 := req Receipt.ts_of "submitted_at" m in
  some? x5 := opt as_str "note" m in
  some? x6 := req status_of "status" m in
  some? x7 := opt as_str "cm_ticket_id" m in
  some? x8 := opt as_str "cm_system" m in
  Some {| submission_id := x0; model_id := x1; model_sha256 := x2; submitted_by := x3; submitted_at := x4;
          note := x5; status := x6; cm_ticket_id := x7; cm_system := x8 |}.

Definition parse_submission (b : string) : option SubmissionRecord := json_parse b ≫= submission_of.

Definition load_submission (sha256 : string) (f : fs) : option SubmissionRecord :=
  content_at f (submission_path sha256) ≫= parse_submission.

Definition save_submission (w : Incidents.write_stop) (r : SubmissionRecord) : SE fs io_err unit :=
  put w (submission_path (model_sha256 r)) (json_pretty (submission_json r)).

Definition submit (model sha256 by_ : string) (note : option string) (e : env) : SE app api_error SubmissionRecord :=
  let r := {| submission_id := e_uuid e; model_id := model; model_sha256 := sha256; submitted_by := by_;
              submitted_at := e_now e; note := note; status := Pending; cm_ticket_id := None; cm_system := None |} in
  do! _ := on_data internal (save_submission (w_record e) r) in
  sret r.

(** The task that [submit] spawns, when the outside service has answered. *)
Definition ticket_opened (sha256 id system : string) (e : env) : SE app api_error unit := fun s =>
  match load_submission sha256 (data s) with
  | Some r => on_data internal (signore (save_submission (w_record e) (with_ticket r id system))) s
  | None => (s, Ok tt)
  end.

Definition newest (a b : SubmissionRecord) : Prop := submitted_at b <= submitted_at a.

#[export] Instance newest_dec : RelDecision newest.
Proof. intros a b. unfold Decision, newest. apply Z_le_dec. Defined.

Definition list_pending (f : fs) : list SubmissionRecord :=
  merge_sort newest (omap parse_submission (json_files pending_dir f)).

(** The names below a directory with the extension of tokens. *)
Definition token_child (name : string) : bool :=
  match child_of tokens_dir name with
  | Some rest => Nat.ltb 10 (String.length rest) &&
                 String.eqb (sdrop (String.length rest - 10) rest) ".mrn-token"
  | None => false
  end.

Definition later (a b : Tokens.Approval.ApprovalToken) : Prop :=
  Tokens.Approval.approved_at b <= Tokens.Approval.approved_at a.

#[export] Instance later_dec : RelDecision later.
Proof. intros a b. unfold Decision, later. apply Z_le_dec. Defined.

Definition list_tokens (f : fs) : list Tokens.Approval.ApprovalToken :=
  merge_sort later
    (omap (fun kv => if token_child kv.1
                     then match load kv.1 f with Ok t => Some t | Err _ => None end else None)
          (map_to_list (names f))).

(** [Utc::now() + Duration::days(d)]; out of range it panics, which ends the connection
    without an answer: here an internal error. *)
Definition expiry (t0 : Z) (days : option Z) : option (option Z) :=
  match days with
  | None => Some None
  | Some d => if utc_ok (t0 + days_ns d) then Some (Some (t0 + days_ns d)) else None
  end.

Definition approve (sha256 by_ : string) (note' : option string) (days : option Z) (e : env)
    : SE app api_error Tokens.Approval.ApprovalToken :=
  do! s := sget in
  do! r := slift (ok_or (load_submission sha256 (data s)) NotFound) in
  if bool_decide (status r = Revoked) then sfail BadRequest else
  do! key := on_data internal (load_or_create_signing_key (e_seed e)) in
  do! exp := slift (ok_or (expiry (e_t0 e) days) Internal) in
  let token := Tokens.Approval.sign
    {| Tokens.Approval.token_id := e_uuid e; Tokens.Approval.model_id := model_id r;
       Tokens.Approval.model_sha256 := sha256; Tokens.Approval.approved_by := by_;
       Tokens.Approval.approved_at := e_now e; Tokens.Approval.expires_at := exp;
       Tokens.Approval.note := match note' with Some n => Some n | None => note r end;
       Tokens.Approval.signer_pubkey := ""; Tokens.Approval.signature := "" |} key in
  do! _ := on_data internal (save (w_token e) (Tokens.Approval.token_path tokens_dir sha256) token) in
  do! _ := on_data internal (save_submission (w_record e) (with_status r Approved)) in
  do! _ := audit_append MainLog "registry"
    (Events.ModelApprovalGranted (model_id r) sha256 by_ (e_uuid e) (Tokens.Approval.signer_pubkey token)) in
  sret token.

(** The removal's result is dropped. *)
Definition remove_token (rm_ok : bool) (path : string) (f : fs) : fs :=
  if exists_ f path && rm_ok then remove_file f path else f.

Definition token_id_at (path : string) (f : fs) : string :=
  match load path f with Ok t => Tokens.Approval.token_id t | Err _ => "" end.

Definition revoke (sha256 by_ : string) (e : env) : SE app api_error unit :=
  do! s := sget in
  do! r := slift (ok_or (load_submission sha256 (data s)) NotFound) in
  let path := Tokens.Approval.token_path tokens_dir sha256 in
  let id := if exists_ (data s) path then token_id_at path (data s) else "" in
  do! _ := on_data internal (smodify (E := io_err) (remove_token (rm_ok e) path)) in
  do! _ := on_data internal (save_submission (w_record e) (with_status r Revoked)) in
  audit_append MainLog "registry" (Events.ModelApprovalRevoked (model_id r) sha256 by_ id).

Definition handle_registry (q : registry_request) (e : env) : SE app api_error unit :=
  match q with
  | Submit model sha by_ n => do! _ := submit model sha by_ n e in sret tt
  | Approve sha by_ n d => do! _ := approve sha by_ n d e in sret tt
  | Revoke sha by_ => revoke sha by_ e
  | Ticket sha id system => ticket_opened sha id system e
  end.

Fixpoint run_registry (l : list (registry_request * env)) (a : app) : app :=
  match l with [] => a | (q, e) :: l => run_registry l (handle_registry q e a).1 end.

(** ** Lemmas *)

Lemma submission_round r : submission_of (submission_json r) = Some r.
Proof.
  destruct r as [a b c d e [] [] [] []]; unfold submission_of, submission_json, req, opt, Receipt.ts_of; cbn;
    by rewrite ts_parse_print.
Qed.

Lemma submission_wf r : json_wf (submission_json r) = true.
Proof. by destruct r as [a b c d e [] [] [] []]. Qed.

Lemma load_submission_saved r f : fs_wf f ->
  load_submission (model_sha256 r) (save_submission Incidents.Written r f).1 = Some r.
Proof.
  intros Hf. unfold load_submission. cbn -[submission_json]. rewrite content_at_std_write by done.
  rewrite decide_True by done. cbn -[submission_json]. unfold parse_submission.
  rewrite json_parse_pretty by apply submission_wf. cbn -[submission_json]. by rewrite submission_round.
Qed.

Lemma submission_ending sha : exists x, submission_path sha = x +:+ ".json".
Proof.
  unfold submission_path, path_join. destruct (sha +:+ ".json") as [|c r] eqn:E; [by destruct sha|].
  rewrite <- E. assert (exists x, pending_dir +:+ "/" +:+ (sha +:+ ".json") = x +:+ ".json") as Hx.
  { exists (pending_dir +:+ "/" +:+ sha). by rewrite !string_app_assoc. }
  revert E. by destruct c as [[] [] [] [] [] [] [] []]; intros E; try exact Hx; exists sha.
Qed.

Lemma token_ending d sha : Tokens.Approval.token_path d sha = (d +:+ "/" +:+ sha) +:+ ".mrn-token".
Proof. unfold Tokens.Approval.token_path. by rewrite !string_app_assoc. Qed.

Lemma token_path_inj d a b : Tokens.Approval.token_path d a = Tokens.Approval.token_path d b -> a = b.
Proof. rewrite !token_ending. intros He%app_suffix_inj. apply string_app_inj_l in He. by apply string_app_inj_l in He. Qed.

Lemma submission_not_token x d sha : submission_path x <> Tokens.Approval.token_path d sha.
Proof. rewrite token_ending. destruct (submission_ending x) as [y ->]. ending_neq. Qed.

Lemma key_not_token d sha : signing_key_path <> Tokens.Approval.token_path d sha /\
  verifying_key_path <> Tokens.Approval.token_path d sha.
Proof. rewrite token_ending. split; ending_neq. Qed.

Lemma key_keeps seed f : fs_wf f ->
  fs_wf (load_or_create_signing_key seed f).1 /\
  forall d sha, content_at (load_or_create_signing_key seed f).1 (Tokens.Approval.token_path d sha) =
                content_at f (Tokens.Approval.token_path d sha).
Proof.
  intros Hf. unfold load_or_create_signing_key. destruct (exists_ f signing_key_path).
  - destruct (read f signing_key_path) as [b|]; [|done]. by destruct (Nat.eqb _ _).
  - cbn [fst]. split; [by do 2 apply std_write_wf|]. intros d sha. destruct (key_not_token d sha).
    rewrite !content_at_std_write by (done || by apply std_write_wf). by rewrite !decide_False.
Qed.

(** The requests keep every token file but that of the digest they approve or revoke. *)
Definition token_files (sha : string) (q : string) : Prop :=
  exists x, x <> sha /\ q = Tokens.Approval.token_path tokens_dir x.

Definition any_token (q : string) : Prop := exists x, q = Tokens.Approval.token_path tokens_dir x.

Lemma put_keeps (P : string -> Prop) w p b : ~ P p -> forall f, fs_wf f -> fs_wf (put w p b f).1 /\ agree P f (put w p b f).1.
Proof.
  intros Hp f Hf. split; [by apply put_wf|]. intros q Hq. apply put_other; [done|]. intros ->. done.
Qed.

Lemma not_submission x : ~ any_token (submission_path x).
Proof. intros [y Hy]. by apply submission_not_token in Hy. Qed.

Lemma submit_keeps m sha by_ n e : keeps_files any_token (submit m sha by_ n e).
Proof.
  unfold submit. apply keepf_bind; [|auto with keeps]. apply keeps_data, put_keeps, not_submission.
Qed.

Lemma ticket_keeps sha id sys e : keeps_files any_token (ticket_opened sha id sys e).
Proof.
  intros s Hs. unfold ticket_opened. destruct (load_submission sha (data s)) as [r|]; [|by split].
  apply keeps_data; [|done]. intros f Hf. unfold signore. cbn [fst]. by apply put_keeps; [apply not_submission|].
Qed.

Lemma token_files_token sha q : token_files sha q -> any_token q.
Proof. intros (x & _ & ->). by exists x. Qed.

Lemma approve_keeps sha by_ n d e : keeps_files (token_files sha) (approve sha by_ n d e).
Proof.
  unfold approve. apply keepf_bind; [auto with keeps|]. intros s. apply keepf_bind; [auto with keeps|]. intros r.
  case_match; [auto with keeps|]. apply keepf_bind.
  { apply keeps_data. intros f Hf. destruct (key_keeps (e_seed e) f Hf) as [Hw Hk]. split; [done|].
    intros q (x & _ & ->). apply Hk. }
  intros key. apply keepf_bind; [auto with keeps|]. intros exp. apply keepf_bind.
  { apply keeps_data, put_keeps. intros (x & Hx & He). by apply token_path_inj in He. }
  intros ?. apply keepf_bind; [|intros; apply keepf_bind; auto with keeps].
  apply keeps_data, put_keeps. intros Hq%token_files_token. by apply not_submission in Hq.
Qed.

Lemma revoke_keeps sha by_ e : keeps_files (token_files sha) (revoke sha by_ e).
Proof.
  unfold revoke. apply keepf_bind; [auto with keeps|]. intros s. apply keepf_bind; [auto with keeps|]. intros r.
  apply keepf_bind.
  { apply keeps_data. intros f Hf. unfold smodify, remove_token. cbn [fst].
    case_match; [|done]. split; [by apply remove_file_wf|]. intros q (x & Hx & ->).
    rewrite content_at_remove, decide_False; [done|]. intros He. by apply token_path_inj in He. }
  intros ?. apply keepf_bind; [|auto with keeps].
  apply keeps_data, put_keeps. intros Hq%token_files_token. by apply not_submission in Hq.
Qed.

(** A digest without a slash is one component of a path. *)
Definition plain_name (sha : string) : bool := forallb (fun c => negb (Ascii.eqb c "/")) (list_ascii_of_string sha).

(** Whether a request may write the token of a digest. The routes put a digest into a
    path as it comes, so that an approval of [./x] writes the token of [x]: every
    approval counts in which one of the two has a slash, whatever it names. *)
Definition approves (sha : string) (q : registry_request) : bool :=
  match q with
  | Approve x _ _ _ => String.eqb x sha || negb (plain_name x && plain_name sha)
  | _ => false
  end.

Lemma unit_state {A} (m : SE app api_error A) a : (sbind m (fun _ => sret tt) a).1 = (m a).1.
Proof. unfold sbind. by destruct (m a) as [a' [x|e]]. Qed.

Definition no_token (sha : string) (a : app) : Prop :=
  fs_wf (data a) /\ content_at (data a) (Tokens.Approval.token_path tokens_dir sha) = None.

Lemma keeps_no_token (P : string -> Prop) {A} (m : SE app api_error A) sha a :
  keeps_files P m -> P (Tokens.Approval.token_path tokens_dir sha) -> no_token sha a -> no_token sha (m a).1.
Proof. intros Hm Hp [Hw Hc]. destruct (Hm a Hw) as [Hw' Ha]. split; [done|]. by rewrite Ha. Qed.

Lemma remove_token_none ok path f : fs_wf f -> ok = true \/ content_at f path = None ->
  content_at (remove_token ok path f) path = None.
Proof.
  intros Hf Hor. unfold remove_token. destruct (exists_ f path) eqn:E; cbn [andb].
  - apply exists_content in E; [|done]. destruct Hor as [->|Hn]; [|by rewrite Hn in E; destruct E].
    by rewrite content_at_remove, decide_True.
  - by apply exists_content_false.
Qed.

(** A revocation of a known digest, up to the write of its record. *)
Lemma revoke_spec sha by_ e r a :
  fs_wf (data a) -> load_submission sha (data a) = Some r ->
  let path := Tokens.Approval.token_path tokens_dir sha in
  let f := remove_token (rm_ok e) path (data a) in
  fs_wf (data (revoke sha by_ e a).1) /\
  content_at (data (revoke sha by_ e a).1) path = content_at f path /\
  (w_record e = Incidents.Written -> is_ok (revoke sha by_ e a).2 = true).
Proof.
  intros Hf Hl. cbv zeta. unfold revoke, sbind, sget, slift. rewrite Hl. cbn [ok_or].
  set (path := Tokens.Approval.token_path tokens_dir sha). unfold on_data at 2. unfold smodify. cbn [map_err].
  unfold on_data. cbn [set_data data]. set (f := remove_token (rm_ok e) path (data a)).
  assert (fs_wf f) as Hw by (unfold f, remove_token; case_match; [by apply remove_file_wf|done]).
  pose proof (put_wf (w_record e) (submission_path (model_sha256 r)) (json_pretty (submission_json (with_status r Revoked))) f Hw) as Hw'.
  pose proof (put_other (w_record e) _ (json_pretty (submission_json (with_status r Revoked))) f _ Hw
                (submission_not_token (model_sha256 r) tokens_dir sha)) as Hc.
  unfold save_submission. cbn [model_sha256 with_status]. fold path in Hc.
  cbn [fst snd map_err]. destruct (put _ _ _ f) as [g [[]|x]] eqn:E; cbn [fst snd map_err] in *.
  - split; [exact Hw'|]. split; [exact Hc|done].
  - split; [done|]. split; [done|]. intros Hww. rewrite Hww in E. by apply (f_equal snd) in E.
Qed.

Lemma step_no_token sha q e a :
  approves sha q = false -> no_token sha a -> no_token sha (handle_registry q e a).1.
Proof.
  intros Hq Ha. destruct q as [m x by_ n|x by_ n d|x by_|x id sys]; cbn [handle_registry].
  - rewrite unit_state. by apply (keeps_no_token any_token); [apply submit_keeps|exists sha|].
  - apply orb_false_iff in Hq as [Hq%String.eqb_neq _]. rewrite unit_state.
    apply (keeps_no_token (token_files x)); [apply approve_keeps|by exists sha|done].
  - destruct (String.eqb_spec x sha) as [->|Hn].
    + destruct Ha as [Hw Hc]. destruct (load_submission sha (data a)) as [r|] eqn:El.
      * destruct (revoke_spec sha by_ e r a Hw El) as (Hw' & Hc' & _). split; [done|]. rewrite Hc'.
        apply remove_token_none; [done|by right].
      * unfold revoke, sbind, sget, slift. by rewrite El.
    + by apply (keeps_no_token (token_files x)); [apply revoke_keeps|exists sha|].
  - by apply (keeps_no_token any_token); [apply ticket_keeps|exists sha|].
Qed.

Lemma run_no_token sha l : forall a,
  forallb (fun x => negb (approves sha x.1)) l = true -> no_token sha a -> no_token sha (run_registry l a).
Proof.
  induction l as [|[q e] l IH]; intros a Hl Ha; [done|]. cbn in Hl. apply andb_true_iff in Hl as [Hq Hl].
  apply IH; [done|]. apply step_no_token; [|done]. by apply negb_true_iff.
Qed.

(** ** Properties *)

(** C21: A revoked digest stays blocked through all requests to the registry, failing ones
    included, that do not approve it again, when its token was removed; an approval of
    a name with a slash counts as one that may approve it, since a digest becomes part
    of a path as it comes and [./x] names the token of [x]. A removal that fails is not
    reported: the revocation succeeds and the token still opens the gate. *)
Theorem revoked_until_approved sha by_ e r l a :
  fs_wf (data a) -> load_submission sha (data a) = Some r ->
  let a1 := (revoke sha by_ e a).1 in
  (rm_ok e = true -> forallb (fun x => negb (approves sha x.1)) l = true ->
   forall now, gate tokens_dir sha now (data (run_registry l a1)) = Some NoToken) /\
  (rm_ok e = false -> w_record e = Incidents.Written ->
   is_ok (revoke sha by_ e a).2 = true /\
   forall now, gate tokens_dir sha now (data a1) = gate tokens_dir sha now (data a)).
Proof.
  intros Hf Hl. cbv zeta. destruct (revoke_spec sha by_ e r a Hf Hl) as (Hw & Hc & Ho). split.
  - intros Hrm Hna now. assert (no_token sha (revoke sha by_ e a).1) as Hn.
    { split; [done|]. rewrite Hc. apply remove_token_none; [done|by left]. }
    apply (run_no_token sha l) in Hn as [Hw' Hc']; [|done]. by apply gate_absent.
  - intros Hrm Hww. split; [by apply Ho|]. intros now. apply gate_content; [done|done|]. rewrite Hc.
    unfold remove_token. by rewrite Hrm, andb_false_r.
Qed.

(** The key, where there is one, has its length. *)
Definition key_ok (f : fs) : Prop :=
  forall b, content_at f signing_key_path = Some b -> String.length b = 32%nat.

Lemma key_loaded seed f : fs_wf f -> key_ok f -> String.length seed = 32%nat ->
  exists k, (load_or_create_signing_key seed f).2 = Ok k /\ String.length k = 32%nat.
Proof.
  intros Hf Hk Hs. unfold load_or_create_signing_key. destruct (exists_ f signing_key_path) eqn:E.
  - apply exists_content in E as [b Hb]; [|done]. rewrite read_content, Hb. rewrite (Hk b Hb). cbn. eauto.
  - eauto.
Qed.

(** An approval of a digest that is not revoked opens its gate, when its token is written. *)
Lemma approve_opens sha by_ n e r a :
  fs_wf (data a) -> key_ok (data a) -> String.length (e_seed e) = 32%nat ->
  load_submission sha (data a) = Some r -> status r <> Revoked -> w_token e = Incidents.Written ->
  forall now, gate tokens_dir sha now (data (approve sha by_ n None e a).1) = None.
Proof.
  intros Hf Hk Hs Hl Hr Ht now. unfold approve, sbind, sget, slift. rewrite Hl. cbn [ok_or].
  rewrite bool_decide_eq_false_2 by done.
  destruct (key_loaded (e_seed e) (data a) Hf Hk Hs) as (k & Hk2 & Hlen).
  destruct (key_keeps (e_seed e) (data a) Hf) as [Hw2 _].
  unfold on_data. cbn [data set_data fst snd]. rewrite Hk2. cbn [map_err expiry ok_or data set_data fst snd].
  rewrite Ht. set (f2 := (load_or_create_signing_key (e_seed e) (data a)).1) in *.
  set (t := Tokens.Approval.sign _ k). set (path := Tokens.Approval.token_path tokens_dir sha).
  assert (Tokens.Approval.verify now t = Ok tt) as Hv by (apply verify_signed; [exact Hlen|exact I]).
  change (save Incidents.Written path t f2) with ((save Incidents.Written path t f2).1, Ok (E := io_err) tt).
  cbn [fst snd map_err]. assert (fs_wf (save Incidents.Written path t f2).1) as Hw3 by by apply put_wf.
  pose proof (gate_saved tokens_dir sha now t f2 Hw2 Hv) as Hg. fold path in Hg.
  set (f3 := (save Incidents.Written path t f2).1) in *.
  pose proof (put_other (w_record e) (submission_path (model_sha256 r))
    (json_pretty (submission_json (with_status r Approved))) f3 path Hw3 (submission_not_token _ tokens_dir sha)) as Hp.
  pose proof (put_wf (w_record e) (submission_path (model_sha256 r))
    (json_pretty (submission_json (with_status r Approved))) f3 Hw3) as Hw4.
  unfold save_submission. change (model_sha256 (with_status r Approved)) with (model_sha256 r).
  destruct (put _ _ _ f3) as [f4 [[]|x]]; cbn [fst snd map_err] in *;
    refine (eq_trans _ Hg); by apply gate_content.
Qed.

(** What a written submission leaves. *)
Lemma submit_saved m sha by_ n e a :
  fs_wf (data a) -> key_ok (data a) -> w_record e = Incidents.Written ->
  let b := (submit m sha by_ n e a).1 in
  fs_wf (data b) /\ key_ok (data b) /\
  exists r, load_submission sha (data b) = Some r /\ status r = Pending.
Proof.
  intros Hf Hk Hw. unfold submit, sbind, on_data. rewrite Hw. cbv zeta. set (r := {| submission_id := e_uuid e |}).
  pose proof (load_submission_saved r (data a) Hf) as Hl.
  assert (fs_wf (save_submission Incidents.Written r (data a)).1) as Hw1 by by apply put_wf.
  split; [exact Hw1|]. split; [|exists r; by split].
  intros b Hb. apply Hk. rewrite <- Hb. symmetry. apply put_other; [done|].
  destruct (submission_ending (model_sha256 r)) as [y ->]. ending_neq.
Qed.

(** Any caller approves any model, whatever the state of the registry and whoever
    revoked it before: after a submission and an approval of a digest, neither with
    credentials, its gate is open for good. *)
Theorem anyone_approves m sha by1 n1 by2 n2 e1 e2 a :
  fs_wf (data a) -> key_ok (data a) -> String.length (e_seed e2) = 32%nat ->
  w_record e1 = Incidents.Written -> w_token e2 = Incidents.Written ->
  let a2 := run_registry [(Submit m sha by1 n1, e1); (Approve sha by2 n2 None, e2)] a in
  forall now, gate tokens_dir sha now (data a2) = None.
Proof.
  intros Hf Hk Hs Hr Ht. cbn [run_registry handle_registry]. rewrite !unit_state.
  destruct (submit_saved m sha by1 n1 e1 a Hf Hk Hr) as (Hf1 & Hk1 & r & Hl & Hp).
  apply (approve_opens sha by2 n2 e2 r); try done. by rewrite Hp.
Qed.
End registry.
End Registry.
