(* ===== verification/Lifecycle.v ===== *)
(** * Loading models: approvals and baselines

    Models [lifecycle.rs] and [baseline_check.rs] of [maranode-daemon], the files of
    [baseline.rs], and [routes/baseline.rs] of [maranode-api]: the gate on approval
    tokens, the vectors that a loaded model is run on, and what happens when they fail.
    The engine answers requests through its class; that it can load a file is another.
    The daemon declares the lifecycle manager and never makes one. A temperature in a
    baseline's file is a JSON number with a fraction, as it is written. *)

From Stdlib Require Import ZArith Lia Ascii String.
From S2P Require Import Prelude Json Crypto Tokens Common Events Fs UserDb Auth WorkspaceDb WorkspaceApi AppState LegalHold IncidentApi ModelStore Chat Registry.
Open Scope string_scope.
Open Scope list_scope.
Open Scope Z_scope.

(** ** baseline.rs: the file *)
Module BaselineFile.
Import Tokens.Baseline.

Section file.
Context `{!JsonText, !TimeText}.

Definition vector_of (j : json) : option TestVector :=
  some? m := as_obj j in
  check no_dup_fields ["prompt"; "temperature"; "seed"; "max_tokens"; "expected_sha256"] m in
  some? x0 := req as_str "prompt" m in
  some? x1 := req as_float "temperature" m in
  some? x2 := req (as_uint u64_max) "seed" m in
  some? x3 := req (as_uint u32_max) "max_tokens" m in
  some? x4 := req as_str "expected_sha256" m in
  Some {| prompt := x0; temperature := x1; seed := x2; max_tokens := x3; expected_sha256 := x4 |}.

Definition baseline_json (b : Baseline) : json :=
  JObj [("schema_version", JInt (schema_version b)); ("model_sha256", JStr (model_sha256 b));
        ("model_id", JStr (model_id b)); ("created_at", JStr (ts_print (created_at b)));
        ("vectors", JArr (vector_json <$> vectors b)); ("max_mismatches", JInt (max_mismatches b));
        ("signer_pubkey", JStr (signer_pubkey b)); ("signature", JStr (signature b))].

Definition baseline_of (j : json) : option Baseline :=
  some? m := as_obj j in
  check no_dup_fields ["schema_version"; "model_sha256"; "model_id"; "created_at"; "vectors"; "max_mismatches";
                       "signer_pubkey"; "signature"] m in
  some? x0 := req (as_uint u32_max) "schema_version" m in
  some? x1 := req as_str "model_sha256" m in
  some? x2 := req as_str "model_id" m in
  some? x3 := req Receipt.ts_of "created_at" m in
  some? l4 := req as_arr "vectors" m in
  some? x4 := all_some (vector_of <$> l4) in
  some? x5 := req (as_uint u64_max) "max_mismatches" m in
  some? x6 := req as_str "signer_pubkey" m in
  some? x7 := req as_str "signature" m in
  Some {| schema_version := x0; model_sha256 := x1; model_id := x2; created_at := x3; vectors := x4;
          max_mismatches := x5; signer_pubkey := x6; signature := x7 |}.

Definition load (path : string) (f : fs) : option Baseline :=
  some? d := content_at f path in some? j := json_parse d in baseline_of j.

Definition save (path : string) (b : Baseline) (f : fs) : fs := std_write f path (json_pretty (baseline_json b)).

(** The fields fit their types. *)
Definition vector_wf (v : TestVector) : bool := uint_ok u64_max (seed v) && uint_ok u32_max (max_tokens v).
Definition baseline_wf (b : Baseline) : bool :=
  uint_ok u32_max (schema_version b) && uint_ok u64_max (max_mismatches b) && forallb vector_wf (vectors b) &&
  json_wf (baseline_json b).

Lemma vectors_round l : forallb vector_wf l = true -> all_some (vector_of <$> (vector_json <$> l)) = Some l.
Proof.
  induction l as [|v l IH]; [done|]. cbn [forallb]. intros [[Hs Hm]%andb_true_iff Hl]%andb_true_iff.
  rewrite !fmap_cons. cbn [all_some]. rewrite IH by done.
  destruct v as [p t s n h]. cbn [seed max_tokens] in *. unfold vector_of, vector_json.
  cbn -[as_uint u64_max u32_max]. rewrite !as_uint_ok by done. done.
Qed.

Lemma baseline_round b : baseline_wf b = true -> baseline_of (baseline_json b) = Some b.
Proof.
  intros [[[Hs Hm]%andb_true_iff Hv]%andb_true_iff _]%andb_true_iff.
  destruct b as [a b c d e f g h]. cbn [schema_version max_mismatches vectors] in *.
  unfold baseline_of, baseline_json, req, Receipt.ts_of. cbn -[as_uint u64_max u32_max fmap list_fmap].
  rewrite !as_uint_ok by done. rewrite ts_parse_print. by rewrite vectors_round.
Qed.

Lemma load_saved_baseline path b f : fs_wf f -> baseline_wf b = true -> load path (save path b f) = Some b.
Proof.
  intros Hf Hb. unfold load, save. rewrite content_at_std_write by done. rewrite decide_True by done.
  pose proof Hb as [_ Hw]%andb_true_iff. rewrite json_parse_pretty by done. by apply baseline_round.
Qed.
End file.
End BaselineFile.

Module Lifecycle.
Import Common.Models AppState.AppState Chat.Chat.

Inductive DriftAction := Allow | Warn | Refuse.

#[export] Instance drift_eq_dec : EqDecision DriftAction.
Proof. solve_decision. Defined.

Record BaselineChecker := { baselines_dir : string; drift_action : DriftAction }.

(** [BaselineChecker::new]. *)
Definition new_checker (dir : option string) (a : DriftAction) : BaselineChecker :=
  {| baselines_dir := default "baselines" dir; drift_action := a |}.

Definition baseline_path (c : BaselineChecker) (sha256 : string) : string :=
  path_join (baselines_dir c) (sha256 +:+ ".mrn-baseline").

Record LifecycleManager := {
  store : ModelStore.store; data : fs; loaded : gmap string ModelId; baseline : option BaselineChecker;
  audit : bool; require_approval_token : bool; tokens_dir : option string;
  in_engine : gset string; trail : list call
}.

(** Whether the engine can load a file, and unload a model. *)
Class ModelLoader := { can_load : string -> bool; can_unload : string -> bool }.

Inductive life_err :=
| NoModel (e : ModelStore.store_err) | Blocked (b : TokenFile.block) | LoadFailed | UnloadFailed
| BadBaseline | Drift | Panicked.

Definition set_engine (m : LifecycleManager) (s : gset string) : LifecycleManager := {|
  store := store m; data := data m; loaded := loaded m; baseline := baseline m; audit := audit m;
  require_approval_token := require_approval_token m; tokens_dir := tokens_dir m; in_engine := s; trail := trail m |}.

Definition set_loaded (m : LifecycleManager) (l : gmap string ModelId) : LifecycleManager := {|
  store := store m; data := data m; loaded := l; baseline := baseline m; audit := audit m;
  require_approval_token := require_approval_token m; tokens_dir := tokens_dir m; in_engine := in_engine m;
  trail := trail m |}.

Definition log (actor : string) (e : Events.AuditEvent) (m : LifecycleManager) : LifecycleManager := {|
  store := store m; data := data m; loaded := loaded m; baseline := baseline m; audit := audit m;
  require_approval_token := require_approval_token m; tokens_dir := tokens_dir m; in_engine := in_engine m;
  trail := trail m ++ [{| c_log := MainLog; c_actor := actor; c_event := e |}] |}.

Definition action_str (a : DriftAction) : string :=
  match a with Allow => "allow" | Warn => "warn" | Refuse => "refuse" end.

Definition reason (b : TokenFile.block) (sha256 : string) : string :=
  match b with
  | TokenFile.NoToken => "no approval token for sha256 " +:+ stake 12 sha256
  | TokenFile.BadToken => "approval token invalid"
  end.

Section lifecycle.
Context `{!Rfc3339, !DateTimeText, !JsonText, !TimeText, !Sha256, !Base64, !Ed25519, !InferenceEngine, !ModelLoader}.

Definition vector_request (m : ModelId) (path : string) (i : nat) (v : Tokens.Baseline.TestVector) : InferenceRequest := {|
  ir_request_id := "baseline-" +:+ display m +:+ "-" +:+ show_u64 (Z.of_nat i); ir_model := m; ir_model_path := path;
  ir_messages := [{| role := User; content := Tokens.Baseline.prompt v |}];
  ir_temperature := Tokens.Baseline.temperature v; ir_max_tokens := Tokens.Baseline.max_tokens v; ir_stop := [];
  ir_stream := false; ir_seed := Some (Tokens.Baseline.seed v); ir_deterministic := true |}.

Definition passes (m : ModelId) (path : string) (i : nat) (v : Tokens.Baseline.TestVector) : bool :=
  match generate (vector_request m path i v) with
  | Ok r => String.eqb (sha256_hex (rs_content r)) (Tokens.Baseline.expected_sha256 v)
  | Err _ => false
  end.

(** Whether [&s[..n]] is in range and ends between characters. *)
Definition cut_ok (n : nat) (s : string) : bool :=
  Nat.leb n (String.length s) && match sdrop n s with String c _ => negb (utf8_cont c) | EmptyString => true end.

(** The report of a wrong output takes the first 8 bytes of what was expected. *)
Definition report_panics (m : ModelId) (path : string) (i : nat) (v : Tokens.Baseline.TestVector) : bool :=
  match generate (vector_request m path i v) with
  | Ok r => negb (passes m path i v) && negb (cut_ok 8 (Tokens.Baseline.expected_sha256 v))
  | Err _ => false
  end.

Fixpoint count_passed (m : ModelId) (path : string) (i : nat) (l : list Tokens.Baseline.TestVector) : nat :=
  match l with
  | [] => 0
  | v :: l => (if passes m path i v then 1 else 0) + count_passed m path (S i) l
  end.

Fixpoint panics (m : ModelId) (path : string) (i : nat) (l : list Tokens.Baseline.TestVector) : bool :=
  match l with [] => false | v :: l => report_panics m path i v || panics m path (S i) l end.

Definition failures (m : ModelId) (path : string) (b : Tokens.Baseline.Baseline) : Z :=
  len (Tokens.Baseline.vectors b) - Z.of_nat (count_passed m path 0 (Tokens.Baseline.vectors b)).

Definition within (m : ModelId) (path : string) (b : Tokens.Baseline.Baseline) : bool :=
  failures m path b <=? Tokens.Baseline.max_mismatches b.

Definition checked_event (m : ModelId) (sha256 path : string) (b : Tokens.Baseline.Baseline) : Events.AuditEvent :=
  Events.ModelBaselineChecked (display m) sha256 (len (Tokens.Baseline.vectors b))
    (Z.of_nat (count_passed m path 0 (Tokens.Baseline.vectors b))) (failures m path b) (Tokens.Baseline.signer_pubkey b).

(** [BaselineChecker::check]. *)
Definition check_model (c : BaselineChecker) (m : ModelId) (sha256 path : string) : SE LifecycleManager life_err bool :=
  do! s := sget in
  if negb (exists_ (data s) (baseline_path c sha256)) then sret true else
  do! b := slift (ok_or (BaselineFile.load (baseline_path c sha256) (data s)) BadBaseline) in
  match Tokens.Baseline.verify b with
  | Err _ =>
    do! _ := smodify (log "baseline" (Events.ModelDriftDetected (display m) sha256 (len (Tokens.Baseline.vectors b))
                                        "invalid_signature")) in
    sret false
  | Ok _ =>
    if panics m path 0 (Tokens.Baseline.vectors b) then sfail Panicked else
    do! _ := smodify (log "baseline" (checked_event m sha256 path b)) in
    if within m path b then sret true else
    do! _ := smodify (log "baseline" (Events.ModelDriftDetected (display m) sha256 (failures m path b)
                                        (action_str (drift_action c)))) in
    if bool_decide (drift_action c = Refuse) then sfail Drift else sret false
  end.

(** The approval of the model of a digest. *)
Definition block_reason (s : LifecycleManager) (sha256 : string) (now : Z) : option TokenFile.block :=
  TokenFile.gate (default "approval-tokens" (tokens_dir s)) sha256 now (data s).

Definition approval_check (m : ModelId) (now : Z) : SE LifecycleManager life_err unit :=
  do! s := sget in
  if negb (require_approval_token s) then sret tt else
  match ModelStore.get m now (store s) with
  | None => sret tt
  | Some mf =>
    match block_reason s (sha256 mf) now with
    | None => sret tt
    | Some b =>
      do! _ := (if audit s then smodify (log "lifecycle" (Events.ModelLoadBlocked (display m) (sha256 mf) (reason b (sha256 mf))))
                else sret tt) in
      sfail (Blocked b)
    end
  end.

Definition engine_load (key path : string) : SE LifecycleManager life_err unit := fun s =>
  if can_load path then (set_engine s ({[key]} ∪ in_engine s), Ok tt) else (s, Err LoadFailed).

(** The answer of the check is dropped, its errors are not. *)
Definition baseline_check (m : ModelId) (path : string) (now : Z) : SE LifecycleManager life_err unit :=
  do! s := sget in
  match baseline s, audit s, ModelStore.get m now (store s) with
  | Some c, true, Some mf => do! _ := check_model c m (sha256 mf) path in sret tt
  | _, _, _ => sret tt
  end.

Definition ensure_loaded (m : ModelId) (now : Z) : SE LifecycleManager life_err unit :=
  let key := display m in
  do! s := sget in
  if bool_decide (is_Some (loaded s !! key)) then sret tt else
  do! path := slift (map_err NoModel (ModelStore.blob_path_verified m (store s))) in
  do! _ := approval_check m now in
  do! _ := engine_load key path in
  do! _ := baseline_check m path now in
  smodify (fun s => set_loaded s (<[key := m]> (loaded s))).

Definition unload (m : ModelId) : SE LifecycleManager life_err unit := fun s =>
  let key := display m in
  if can_unload key
  then (set_loaded (set_engine s (in_engine s ∖ {[key]})) (delete key (loaded s)), Ok tt)
  else (s, Err UnloadFailed).

Definition loaded_models (s : LifecycleManager) : list string := (map_to_list (loaded s)).*1.

(** ** routes/baseline.rs

    The caller may supply the baseline; the answer is the model, the vectors run, passed
    and failed, and whether that is within the mismatches that the baseline allows. *)
Definition check_baseline (model : string) (supplied : option Tokens.Baseline.Baseline) (now : Z)
    : SE chat_server Auth.Auth.api_error (string * Z * Z * Z * bool) :=
  do! s := sget in
  do! m := slift (ok_or (parse model) Auth.Auth.BadRequest) in
  do! mf := slift (ok_or (ModelStore.get m now (store_ s)) Auth.Auth.NotFound) in
  do! b := slift (match supplied with
                  | Some b => Ok b
                  | None =>
                    let path := path_join "baselines" (sha256 mf +:+ ".mrn-baseline") in
                    if negb (exists_ (AppState.AppState.data (sapp s)) path) then Err Auth.Auth.NotFound else
                    ok_or (BaselineFile.load path (AppState.AppState.data (sapp s))) Auth.Auth.BadRequest
                  end) in
  do! _ := slift (map_err bad_request (Tokens.Baseline.verify b)) in
  let path := blob_path mf in
  let ok := within m path b in
  do! _ := on_app (audit_append MainLog "api" (checked_event m (sha256 mf) path b)) in
  do! _ := (if ok then sret tt else
            on_app (audit_append MainLog "api" (Events.ModelDriftDetected (display m) (sha256 mf) (failures m path b)
                                                  "api_check"))) in
  sret (model, len (Tokens.Baseline.vectors b), Z.of_nat (count_passed m path 0 (Tokens.Baseline.vectors b)),
        failures m path b, ok).

(** ** Properties *)

Definition with_data (s : LifecycleManager) (f : fs) : LifecycleManager := {|
  store := store s; data := f; loaded := loaded s; baseline := baseline s; audit := audit s;
  require_approval_token := require_approval_token s; tokens_dir := tokens_dir s; in_engine := in_engine s;
  trail := trail s |}.

(** A model that is registered, whole and not loaded yet. *)
Definition loadable (m : ModelId) (now : Z) (s : LifecycleManager) (mf : ModelManifest) (path : string) : Prop :=
  loaded s !! display m = None /\ ModelStore.get m now (store s) = Some mf /\
  ModelStore.blob_path_verified m (store s) = Ok path.

(** C22: What the lifecycle manager's gate does when it is switched on
    ([require_approval_token], which is off by default; the daemon as it is
    constructs no manager). Loading a model that is registered, whole and not
    loaded yet is then refused when its digest has no token that verifies, and the
    engine and the table of loaded models are left as they were. The token may be
    of any signer and any model: the gate opens for every digest whose file holds a
    token signed with any key. *)
Theorem approval_gate m now s mf path :
  loadable m now s mf path -> require_approval_token s = true ->
  (forall b, block_reason s (sha256 mf) now = Some b ->
     let r := ensure_loaded m now s in
     r.2 = Err (Blocked b) /\ in_engine r.1 = in_engine s /\ loaded r.1 = loaded s) /\
  (forall t k, String.length k = 32%nat ->
     match Tokens.Approval.expires_at t with Some e => now <= e | None => True end -> fs_wf (data s) ->
     let file := Tokens.Approval.token_path (default "approval-tokens" (tokens_dir s)) (sha256 mf) in
     let s' := with_data s (TokenFile.save Incidents.Written file (Tokens.Approval.sign t k) (data s)).1 in
     block_reason s' (sha256 mf) now = None).
Proof.
  intros (Hl & Hg & Hb) Hr. split.
  - intros b Hbr. unfold ensure_loaded, sbind, sget, slift.
    rewrite bool_decide_eq_false_2 by by rewrite Hl; intros [x Hx]. rewrite Hb. cbn [map_err].
    unfold approval_check, sbind, sget. rewrite Hr. cbn [negb]. rewrite Hg, Hbr. by destruct (audit s).
  - intros t k Hk He Hf. cbv zeta. unfold block_reason. cbn [tokens_dir data with_data].
    apply TokenFile.gate_saved; [done|]. by apply TokenFile.verify_signed.
Qed.

(** What a baseline does under [Refuse]: a signed one that too many vectors fail stops
    the load, though the engine has the model by then and keeps it; one that they pass
    lets it be loaded; and one whose signature does not verify lets it be loaded too,
    without a vector being run. *)
Theorem baseline_outcomes m now s mf path c b :
  loadable m now s mf path -> require_approval_token s = false -> can_load path = true ->
  baseline s = Some c -> audit s = true -> drift_action c = Refuse -> fs_wf (data s) ->
  BaselineFile.load (baseline_path c (sha256 mf)) (data s) = Some b ->
  panics m path 0 (Tokens.Baseline.vectors b) = false ->
  let r := ensure_loaded m now s in
  display m ∈ in_engine r.1 /\
  (is_ok r.2 = true <-> loaded r.1 !! display m = Some m) /\
  (is_ok r.2 = true <-> (is_ok (Tokens.Baseline.verify b) = true -> within m path b = true)).
Proof.
  intros (Hl & Hg & Hb) Hr Hc Hbl Ha Hd Hf Hbf Hp. cbv zeta.
  assert (exists_ (data s) (baseline_path c (sha256 mf)) = true) as Hex.
  { apply exists_content; [done|]. unfold BaselineFile.load in Hbf.
    destruct (content_at _ _); [eauto|done]. }
  unfold ensure_loaded, sbind, sget, slift. rewrite bool_decide_eq_false_2 by by rewrite Hl; intros [x Hx].
  rewrite Hb. cbn [map_err]. unfold approval_check, sbind, sget. rewrite Hr. cbn [negb sret].
  unfold engine_load. rewrite Hc. set (s1 := set_engine s _).
  unfold baseline_check, sbind, sget. change (baseline s1) with (baseline s). change (audit s1) with (audit s).
  change (store s1) with (store s). rewrite Hbl, Ha, Hg. unfold check_model, sbind, sget, slift.
  change (data s1) with (data s). rewrite Hex. cbn [negb]. rewrite Hbf. cbn [ok_or].
  assert (display m ∈ in_engine s1) as Hin by (cbn; set_solver).
  destruct (Tokens.Baseline.verify b) as [[]|e].
  - rewrite Hp. unfold smodify. destruct (within m path b); cbn [fst snd is_ok sret].
    + split; [exact Hin|]. cbn. rewrite lookup_insert_eq. split; [done|]. by split.
    + rewrite bool_decide_eq_true_2 by done. cbn [sfail is_ok]. split; [exact Hin|]. cbn. rewrite Hl.
      split; [done|]. split; [done|]. by intros Hx; specialize (Hx eq_refl).
  - unfold smodify, sret. cbn [fst snd is_ok]. split; [exact Hin|]. cbn. rewrite lookup_insert_eq.
    split; [done|]. by split.
Qed.
End lifecycle.
End Lifecycle.
