(* ===== verification/Isolation.v ===== *)
(** * Network isolation

    Models [maranode-isolation]: the rules that [iptables.rs] asks for, the isolator of
    [state.rs] and the probe of [probe.rs]. The [iptables] command is a class: its state is
    the policies and the rules of the chains, and its laws say what its options do; a
    rule is the list of its arguments, compared as they are given. *)

From Stdlib Require Import ZArith Lia Ascii String.
From S2P Require Import Prelude.
Open Scope string_scope.
Open Scope list_scope.

Module Isolation.

Inductive AirGapMode := AirGap | Whitelist | Disabled.

#[export] Instance mode_eq_dec : EqDecision AirGapMode.
Proof. solve_decision. Defined.

Record WhitelistEntry := { host : string; port : Z; comment : string }.

Record IsolationConfig := {
  mode : AirGapMode; api_port : Z; api_allowed_sources : list string; whitelist : list WhitelistEntry
}.

Definition default_config : IsolationConfig := {|
  mode := AirGap; api_port := 11984; api_allowed_sources := ["127.0.0.1"; "::1"]; whitelist := [] |}.

Definition rule : Type := list string.

(** The command: whether it can be run, its exit status, and the firewall after it. *)
Inductive exit (A : Type) := CannotRun | Exits (ok : bool) (f : A).
Arguments CannotRun {A}.
Arguments Exits {A} ok f.

Class Iptables := {
  fw : Type;
  iptables : list string -> fw -> exit fw;
  policy : fw -> string -> string;
  rules : fw -> string -> list rule;
  iptables_save : fw -> exit string;
  fails_same a f g : iptables a f = Exits false g -> g = f;
  sets_policy c t f g : iptables ["-P"; c; t] f = Exits true g ->
    (forall d, policy g d = if decide (d = c) then t else policy f d) /\ forall d, rules g d = rules f d;
  appends c r f g : iptables ("-A" :: c :: r) f = Exits true g ->
    (forall d, policy g d = policy f d) /\
    forall d, rules g d = if decide (d = c) then rules f d ++ [r] else rules f d;
  checks c r f ok g : iptables ("-C" :: c :: r) f = Exits ok g -> g = f /\ (ok = true <-> In r (rules f c));
  flushes f g : iptables ["-F"] f = Exits true g -> (forall d, policy g d = policy f d) /\ forall d, rules g d = [];
}.

(** The network as the probe sees it. *)
Class Network := { resolves : string -> option (list string); connects : string -> bool }.

Inductive iso_err := RunFailed | ExitStatus.

Definition CHAIN_COMMENT : string := "maranode-managed".

Section isolation.
Context `{!Iptables}.

(** ** iptables.rs *)

Definition run_iptables (args : list string) : SE fw iso_err unit := fun f =>
  match iptables args f with
  | CannotRun => (f, Err RunFailed)
  | Exits true g => (g, Ok tt)
  | Exits false g => (g, Err ExitStatus)
  end.

Definition check_args (args : list string) : list string := (fun a => if String.eqb a "-A" then "-C" else a) <$> args.

Definition insert_if_absent (args : list string) : SE fw iso_err unit := fun f =>
  match iptables (check_args args) f with
  | CannotRun => (f, Err RunFailed)
  | Exits true g => (g, Ok tt)
  | Exits false g => run_iptables args g
  end.

Fixpoint insert_all (l : list (list string)) : SE fw iso_err unit :=
  match l with
  | [] => sret tt
  | a :: l => do! _ := insert_if_absent a in insert_all l
  end.

Definition lo_in : list string := ["-A"; "INPUT"; "-i"; "lo"; "-j"; "ACCEPT"].
Definition lo_out : list string := ["-A"; "OUTPUT"; "-o"; "lo"; "-j"; "ACCEPT"].
Definition established : list string :=
  ["-A"; "INPUT"; "-m"; "state"; "--state"; "ESTABLISHED,RELATED"; "-j"; "ACCEPT"].

Definition source_rule (port : Z) (source : string) : list string :=
  ["-A"; "INPUT"; "-p"; "tcp"; "--dport"; show_u64 port; "-s"; source; "-j"; "ACCEPT"; "-m"; "comment"; "--comment";
   CHAIN_COMMENT].

Definition entry_rule (e : WhitelistEntry) : list string :=
  ["-A"; "OUTPUT"; "-p"; "tcp"; "--dport"; show_u64 (port e); "-d"; host e; "-j"; "ACCEPT"; "-m"; "comment"; "--comment";
   CHAIN_COMMENT].

Definition apply_air_gap (c : IsolationConfig) : SE fw iso_err unit :=
  do! _ := run_iptables ["-P"; "OUTPUT"; "DROP"] in
  do! _ := run_iptables ["-P"; "INPUT"; "DROP"] in
  do! _ := run_iptables ["-P"; "FORWARD"; "DROP"] in
  do! _ := insert_if_absent lo_in in
  do! _ := insert_if_absent lo_out in
  do! _ := insert_if_absent established in
  insert_all (source_rule (api_port c) <$> api_allowed_sources c).

Definition apply_whitelist (c : IsolationConfig) : SE fw iso_err unit :=
  do! _ := apply_air_gap c in
  insert_all (entry_rule <$> whitelist c).

Definition check_rules_present (f : fw) : result iso_err bool :=
  match iptables_save f with Exits _ s => Ok (contains CHAIN_COMMENT s) | CannotRun => Err RunFailed end.

Definition remove_rules : SE fw iso_err unit :=
  do! _ := signore (run_iptables ["-F"]) in
  do! _ := signore (run_iptables ["-P"; "INPUT"; "ACCEPT"]) in
  do! _ := signore (run_iptables ["-P"; "OUTPUT"; "ACCEPT"]) in
  signore (run_iptables ["-P"; "FORWARD"; "ACCEPT"]).

(** ** probe.rs *)

Definition PROBE_TARGETS : list (string * Z) := [("1.1.1.1", 53%Z); ("8.8.8.8", 53%Z)].

(** The first address of a target that resolves. *)
Fixpoint probe_external_blocked `{!Network} (l : list (string * Z)) : bool :=
  match l with
  | [] => true
  | (h, p) :: l =>
    match resolves (h +:+ ":" +:+ show_u64 p) with
    | Some (a :: _) => if connects a then false else probe_external_blocked l
    | _ => probe_external_blocked l
    end
  end.

(** ** state.rs *)

Record VerifyOutcome := {
  v_mode : AirGapMode; rules_present : bool; external_probe_blocked : bool; detail : string
}.

Definition is_ok_outcome (v : VerifyOutcome) : bool :=
  rules_present v && (bool_decide (v_mode v = Disabled) || external_probe_blocked v).

(** The isolator with the firewall of its host. *)
Record Isolator := { config : IsolationConfig; firewall : fw }.

Definition on_fw {A} (m : SE fw iso_err A) : SE Isolator iso_err A := fun i =>
  let r := m (firewall i) in ({| config := config i; firewall := r.1 |}, r.2).

Definition apply : SE Isolator iso_err unit :=
  do! i := sget in
  match mode (config i) with
  | AirGap => on_fw (apply_air_gap (config i))
  | Whitelist => on_fw (apply_whitelist (config i))
  | Disabled => sret tt
  end.

Definition verify `{!Network} (i : Isolator) : result iso_err VerifyOutcome :=
  let? p := check_rules_present (firewall i) in
  let blocked := probe_external_blocked PROBE_TARGETS in
  Ok {| v_mode := mode (config i); rules_present := p; external_probe_blocked := blocked;
        detail := if p && blocked then "All outbound traffic blocked. iptables rules intact."
                  else if negb p then "WARNING: expected iptables rules are missing!"
                  else "WARNING: external network probe succeeded: air-gap may be broken!" |}.

Definition teardown : SE Isolator iso_err unit := on_fw remove_rules.

Definition reconfigure (c : IsolationConfig) : SE Isolator iso_err unit :=
  do! i := sget in
  do! _ := (if bool_decide (mode (config i) <> mode c) || negb (api_port (config i) =? api_port c)%Z
            then signore (on_fw remove_rules) else sret tt) in
  do! _ := smodify (fun i => {| config := c; firewall := firewall i |}) in
  apply.

(** ** Lemmas *)

(** The commands that only add rules: those of a chain, and no policy but [DROP]. *)
Definition grows (l : list (string * rule)) (f g : fw) : Prop :=
  (forall d r, In r (rules f d) -> In r (rules g d)) /\
  (forall d r, In r (rules g d) -> In r (rules f d) \/ In (d, r) l).

Lemma grows_refl l f : grows l f f.
Proof. split; auto. Qed.

Lemma grows_trans l f g h : grows l f g -> grows l g h -> grows l f h.
Proof. intros [Ha Hb] [Hc Hd]. split; [auto|]. intros d r Hr. apply Hd in Hr as [Hr|]; auto. Qed.

Lemma grows_incl l l' f g : (forall x, In x l -> In x l') -> grows l f g -> grows l' f g.
Proof. intros Hl [Ha Hb]. split; [done|]. intros d r Hr. apply Hb in Hr as [|]; auto. Qed.

(** An argument list of the form [-A chain rule]. *)
Definition adds (a : list string) (c : string) (r : rule) : Prop :=
  a = "-A" :: c :: r /\ check_args a = "-C" :: c :: r.

Lemma insert_absent_spec a c r f :
  adds a c r ->
  let x := insert_if_absent a f in
  grows [(c, r)] f x.1 /\ (forall d, policy x.1 d = policy f d) /\
  (is_ok x.2 = true -> In r (rules x.1 c)) /\
  (In r (rules f c) -> x.1 = f).
Proof.
  intros [-> Hc]. unfold insert_if_absent. rewrite Hc. cbn zeta.
  destruct (iptables ("-C" :: c :: r) f) as [|[] g] eqn:E.
  - split; [apply grows_refl|done].
  - apply checks in E as [-> Hi]. split; [apply grows_refl|]. split; [done|]. split; [|done].
    intros _. by apply Hi.
  - apply checks in E as [-> Hi]. unfold run_iptables.
    destruct (iptables ("-A" :: c :: r) f) as [|[] g] eqn:Ea; cbn [fst snd is_ok].
    + split; [apply grows_refl|]. done.
    + apply appends in Ea as [Hp Hr]. split; [|split; [done|split]].
      * split; intros d x; rewrite Hr; destruct (decide (d = c)) as [->|]; auto; rewrite in_app_iff; [by left|].
        intros [Hx|[<-|[]]]; [by left|by right; left].
      * intros _. rewrite Hr, decide_True by done. apply in_app_iff. right. by left.
      * intros Hin. apply Hi in Hin. done.
    + apply fails_same in Ea as ->. split; [apply grows_refl|]. done.
Qed.

(** Several additions, each of its chain. *)
Lemma insert_all_spec l l' f :
  Forall2 (fun a x => adds a x.1 x.2) l l' ->
  let x := insert_all l f in
  grows l' f x.1 /\ (forall d, policy x.1 d = policy f d) /\
  (is_ok x.2 = true -> forall c r, In (c, r) l' -> In r (rules x.1 c)) /\
  ((forall c r, In (c, r) l' -> In r (rules f c)) -> x.1 = f).
Proof.
  intros Hl. revert f. induction Hl as [|a [c r] l l' Ha _ IH]; intros f; cbn zeta.
  { split; [apply grows_refl|]. done. }
  cbn [insert_all]. unfold sbind. cbn [fst snd] in Ha.
  destruct (insert_absent_spec a c r f Ha) as (Hg & Hp & Ho & Hs).
  destruct (insert_if_absent a f) as [g [[]|e]]; cbn [fst snd is_ok] in *.
  - destruct (IH g) as (Hg' & Hp' & Ho' & Hs'). split; [|split; [|split]].
    + eapply grows_trans; [eapply grows_incl; [|exact Hg]|eapply grows_incl; [|exact Hg']].
      * intros x [->|[]]. by left.
      * intros x Hx. by right.
    + intros d. by rewrite Hp'.
    + intros Hok c' r' [[= <- <-]|Hin]; [|by apply Ho']. apply (proj1 Hg'). by apply Ho.
    + intros Hall. assert (g = f) as -> by (apply Hs, Hall; by left). apply Hs'.
      intros c' r' Hin. apply Hall. by right.
  - split; [eapply grows_incl; [|exact Hg]; intros x [->|[]]; by left|]. split; [done|]. split; [done|].
    intros Hall. apply Hs, Hall. by left.
Qed.

(** The rules that a configuration asks for. *)
Definition of_args (a : list string) : string * rule :=
  match a with _ :: c :: r => (c, r) | _ => ("", []) end.

Definition base_args (c : IsolationConfig) : list (list string) :=
  lo_in :: lo_out :: established :: (source_rule (api_port c) <$> api_allowed_sources c).

Definition wanted_args (c : IsolationConfig) : list (list string) :=
  match mode c with
  | AirGap => base_args c
  | Whitelist => base_args c ++ (entry_rule <$> whitelist c)
  | Disabled => []
  end.

Definition wanted (c : IsolationConfig) : list (string * rule) := of_args <$> wanted_args c.

(** No source and no host is the option itself. *)
Definition plain (c : IsolationConfig) : bool :=
  forallb (fun s => negb (String.eqb s "-A")) (api_allowed_sources c) &&
  forallb (fun e => negb (String.eqb (host e) "-A")) (whitelist c).

Lemma port_plain n : String.eqb (show_u64 n) "-A" = false.
Proof. apply String.eqb_neq. intros He. pose proof (show_u64_no_dash n) as Hd. by rewrite He in Hd. Qed.

Lemma source_adds p s : String.eqb s "-A" = false ->
  adds (source_rule p s) (of_args (source_rule p s)).1 (of_args (source_rule p s)).2.
Proof.
  intros Hs. split; [done|]. unfold source_rule, check_args. rewrite !fmap_cons. cbn -[show_u64 String.eqb].
  by rewrite port_plain, Hs.
Qed.

Lemma entry_adds e : String.eqb (host e) "-A" = false ->
  adds (entry_rule e) (of_args (entry_rule e)).1 (of_args (entry_rule e)).2.
Proof.
  intros Hs. split; [done|]. unfold entry_rule, check_args. rewrite !fmap_cons. cbn -[show_u64 String.eqb].
  by rewrite port_plain, Hs.
Qed.

Lemma map_adds {A} (f : A -> list string) (ok : A -> bool) l :
  (forall a, ok a = true -> adds (f a) (of_args (f a)).1 (of_args (f a)).2) -> forallb ok l = true ->
  Forall2 (fun a x => adds a x.1 x.2) (f <$> l) (of_args <$> (f <$> l)).
Proof.
  intros Hf Hl. induction l as [|a l IH]; [constructor|]. cbn in Hl. apply andb_true_iff in Hl as [Ha Hl].
  constructor; auto.
Qed.

Lemma wanted_adds c : plain c = true -> Forall2 (fun a x => adds a x.1 x.2) (wanted_args c) (wanted c).
Proof.
  intros [Hs He]%andb_true_iff.
  assert (Forall2 (fun a x => adds a x.1 x.2) (base_args c) (of_args <$> base_args c)) as Hb.
  { unfold base_args. rewrite !fmap_cons. repeat (constructor; [by split|]).
    apply (map_adds _ (fun s => negb (String.eqb s "-A"))); [|done]. intros a Ha%negb_true_iff. by apply source_adds. }
  unfold wanted, wanted_args. destruct (mode c); [done| |constructor]. rewrite fmap_app.
  apply Forall2_app; [done|]. apply (map_adds _ (fun e => negb (String.eqb (host e) "-A"))); [|done].
  intros e Hx%negb_true_iff. by apply entry_adds.
Qed.

Lemma insert_all_app a b f : insert_all (a ++ b) f = sbind (insert_all a) (fun _ => insert_all b) f.
Proof.
  revert f. induction a as [|x a IH]; intros f; [done|]. cbn [app insert_all]. unfold sbind in *.
  destruct (insert_if_absent x f) as [g [[]|e]]; [apply IH|done].
Qed.

(** The policies, then all rules. *)
Definition drop_all : SE fw iso_err unit :=
  do! _ := run_iptables ["-P"; "OUTPUT"; "DROP"] in
  do! _ := run_iptables ["-P"; "INPUT"; "DROP"] in
  run_iptables ["-P"; "FORWARD"; "DROP"].

Lemma air_gap_form c f : apply_air_gap c f = sbind drop_all (fun _ => insert_all (base_args c)) f.
Proof.
  unfold apply_air_gap, drop_all, sbind.
  destruct (run_iptables ["-P"; "OUTPUT"; "DROP"] f) as [f1 [[]|e]]; [|done].
  destruct (run_iptables ["-P"; "INPUT"; "DROP"] f1) as [f2 [[]|e]]; [|done].
  destruct (run_iptables ["-P"; "FORWARD"; "DROP"] f2) as [f3 [[]|e]]; reflexivity.
Qed.

Lemma apply_form i : mode (config i) <> Disabled ->
  let x := sbind drop_all (fun _ => insert_all (wanted_args (config i))) (firewall i) in
  apply i = ({| config := config i; firewall := x.1 |}, x.2).
Proof.
  intros Hm. cbv zeta. unfold apply, sbind at 1, sget, wanted_args, on_fw.
  destruct (mode (config i)); [by rewrite air_gap_form| |done].
  unfold apply_whitelist, sbind. rewrite air_gap_form. unfold sbind.
  destruct (drop_all (firewall i)) as [g [[]|e]]; [|reflexivity]. rewrite insert_all_app. unfold sbind.
  reflexivity.
Qed.

Lemma policy_spec c t f :
  let x := run_iptables ["-P"; c; t] f in
  (forall d, rules x.1 d = rules f d) /\
  (is_ok x.2 = true -> forall d, policy x.1 d = if decide (d = c) then t else policy f d).
Proof.
  cbv zeta. unfold run_iptables. destruct (iptables ["-P"; c; t] f) as [|[] g] eqn:E; [done| |].
  - apply sets_policy in E as [Hp Hr]. by split.
  - apply fails_same in E as ->. done.
Qed.

Definition all_drop (f : fw) : Prop :=
  policy f "INPUT" = "DROP" /\ policy f "OUTPUT" = "DROP" /\ policy f "FORWARD" = "DROP".

Lemma drop_all_spec f :
  let x := drop_all f in
  (forall d, rules x.1 d = rules f d) /\ (is_ok x.2 = true -> all_drop x.1).
Proof.
  cbv zeta. unfold drop_all, sbind.
  destruct (policy_spec "OUTPUT" "DROP" f) as [Hr1 Hp1].
  destruct (run_iptables _ f) as [f1 [[]|e]]; cbn [fst snd is_ok] in *; [|done].
  destruct (policy_spec "INPUT" "DROP" f1) as [Hr2 Hp2].
  destruct (run_iptables _ f1) as [f2 [[]|e]]; cbn [fst snd is_ok] in *; [|split; [|done]; intros; by rewrite Hr2].
  destruct (policy_spec "FORWARD" "DROP" f2) as [Hr3 Hp3].
  split; [intros; by rewrite Hr3, Hr2|]. intros Hok.
  unfold all_drop. rewrite !(Hp3 Hok), !(Hp2 eq_refl), !(Hp1 eq_refl). done.
Qed.

(** What applying does to the rules, and to the policies when it succeeds. *)
Lemma apply_spec i :
  plain (config i) = true -> mode (config i) <> Disabled ->
  let x := apply i in
  config x.1 = config i /\ grows (wanted (config i)) (firewall i) (firewall x.1) /\
  (is_ok x.2 = true -> all_drop (firewall x.1) /\
     forall c r, In (c, r) (wanted (config i)) -> In r (rules (firewall x.1) c)) /\
  ((forall c r, In (c, r) (wanted (config i)) -> In r (rules (firewall i) c)) ->
   forall d, rules (firewall x.1) d = rules (firewall i) d).
Proof.
  intros Hpl Hm. cbv zeta. rewrite apply_form by done. cbn [fst snd config firewall]. split; [done|].
  destruct (drop_all_spec (firewall i)) as [Hr Hp]. unfold sbind.
  destruct (drop_all (firewall i)) as [g [[]|e]]; cbn [fst snd is_ok] in *.
  - destruct (insert_all_spec _ _ g (wanted_adds _ Hpl)) as (Hg & Hpol & Ho & Hs).
    split; [|split].
    + destruct Hg as [Ha Hb]. split; intros d r Hin; [by apply Ha; rewrite Hr|].
      rewrite <- Hr. by apply Hb.
    + intros Hok. split; [|by apply Ho]. unfold all_drop. rewrite !Hpol. by apply Hp.
    + intros Hall d. rewrite Hs; [done|]. intros c r Hin. rewrite Hr. by apply Hall.
  - split; [split; intros d r; rewrite Hr; auto|]. split; [done|]. intros _ d. by rewrite Hr.
Qed.

(** What applying and reconfiguring leave as the configuration. *)
Lemma apply_config i : config (apply i).1 = config i.
Proof. unfold apply, sbind, sget. by destruct (mode (config i)). Qed.

Lemma reconfigure_config c i : config (reconfigure c i).1 = c.
Proof. unfold reconfigure, sbind, sget. destruct (_ || _); unfold signore, smodify; cbn [fst snd]; apply apply_config. Qed.

(** ** Properties *)

(** C23: Isolation that is applied drops by default, has every rule of its configuration and
    no rule that was not there before, and applying it again changes no rule. *)
Theorem isolation_applied i :
  plain (config i) = true -> mode (config i) <> Disabled -> is_ok (apply i).2 = true ->
  let j := (apply i).1 in
  all_drop (firewall j) /\
  (forall c r, In (c, r) (wanted (config i)) -> In r (rules (firewall j) c)) /\
  (forall c r, In r (rules (firewall j) c) -> In r (rules (firewall i) c) \/ In (c, r) (wanted (config i))) /\
  forall c, rules (firewall (apply j).1) c = rules (firewall j) c.
Proof.
  intros Hpl Hm Hok. destruct (apply_spec i Hpl Hm) as (Hc & [_ Hg] & Ho & _). destruct (Ho Hok) as [Hd Hw].
  cbv zeta. split; [done|]. split; [done|]. split; [done|]. intros c.
  destruct (apply_spec (apply i).1) as (_ & _ & _ & Hs); [by rewrite Hc..|]. apply Hs. by rewrite Hc.
Qed.

Lemma insert_all_refused a l f :
  In a l -> (forall f, iptables a f = Exits false f /\ iptables (check_args a) f = Exits false f) ->
  is_ok (insert_all l f).2 = false.
Proof.
  intros Hin Hr. revert f. induction l as [|b l IH]; [done|]. intros f. cbn [insert_all]. unfold sbind.
  destruct Hin as [-> | Hin].
  - unfold insert_if_absent. destruct (Hr f) as [Ha ->]. unfold run_iptables. by rewrite Ha.
  - destruct (insert_if_absent b f) as [g [[]|e]]; [by apply IH|done].
Qed.

(** A source that the command refuses, as it does an IPv6 address, makes applying fail
    after the policies are set: the daemon does not start, and leaves a host that drops. *)
Theorem refused_source_locks_host s i :
  plain (config i) = true -> mode (config i) <> Disabled -> In s (api_allowed_sources (config i)) ->
  (forall f, iptables (source_rule (api_port (config i)) s) f = Exits false f /\
             iptables (check_args (source_rule (api_port (config i)) s)) f = Exits false f) ->
  is_ok (drop_all (firewall i)).2 = true ->
  is_ok (apply i).2 = false /\ all_drop (firewall (apply i).1).
Proof.
  intros Hpl Hm Hs Hr Hd. rewrite apply_form by done. cbn [fst snd firewall]. unfold sbind.
  destruct (drop_all_spec (firewall i)) as [_ Hp]. destruct (drop_all (firewall i)) as [g [[]|e]]; [|done].
  cbn [fst snd is_ok] in *. split.
  - eapply insert_all_refused; [|exact Hr]. unfold wanted_args, base_args.
    assert (In (source_rule (api_port (config i)) s) (source_rule (api_port (config i)) <$> api_allowed_sources (config i)))
      as Hin by (apply in_map_iff; eauto).
    destruct (mode (config i)); [by do 3 right| |done]. apply in_app_iff. left. by do 3 right.
  - destruct (insert_all_spec _ _ g (wanted_adds _ Hpl)) as (_ & Hpol & _). unfold all_drop. rewrite !Hpol. by apply Hp.
Qed.

Lemma remove_rules_flush f g :
  iptables ["-F"] f = Exits true g -> forall d, rules (remove_rules f).1 d = [].
Proof.
  intros Hf d. unfold remove_rules, sbind, signore. cbn [fst snd].
  destruct (policy_spec "FORWARD" "ACCEPT" (run_iptables ["-P"; "OUTPUT"; "ACCEPT"]
    (run_iptables ["-P"; "INPUT"; "ACCEPT"] (run_iptables ["-F"] f).1).1).1) as [H3 _].
  destruct (policy_spec "OUTPUT" "ACCEPT" (run_iptables ["-P"; "INPUT"; "ACCEPT"] (run_iptables ["-F"] f).1).1) as [H2 _].
  destruct (policy_spec "INPUT" "ACCEPT" (run_iptables ["-F"] f).1) as [H1 _].
  rewrite H3, H2, H1. unfold run_iptables. rewrite Hf. cbn. by apply flushes in Hf as [_ ->].
Qed.

(** A reload that keeps the mode and the port removes nothing: every rule of the old
    configuration stays, those of removed hosts and sources too. One that changes either
    leaves the rules of the new configuration only, when the old ones can be flushed. *)
Theorem reload_keeps_stale_rules c i :
  plain c = true -> mode c <> Disabled ->
  let x := reconfigure c i in
  (mode (config i) = mode c -> api_port (config i) = api_port c ->
   forall d r, In r (rules (firewall i) d) -> In r (rules (firewall x.1) d)) /\
  (mode (config i) <> mode c \/ api_port (config i) <> api_port c ->
   forall g, iptables ["-F"] (firewall i) = Exits true g ->
   forall d r, In r (rules (firewall x.1) d) -> In (d, r) (wanted c)).
Proof.
  intros Hpl Hm. cbv zeta. split.
  - intros He Hp d r Hr. unfold reconfigure, sbind, sget. rewrite He, bool_decide_eq_false_2 by (intros Hn; by apply Hn).
    rewrite Hp, Z.eqb_refl. cbn. destruct (apply_spec {| config := c; firewall := firewall i |} Hpl Hm) as (_ & [Ha _] & _).
    by apply Ha.
  - intros Hch g Hf d r. unfold reconfigure, sbind, sget.
    replace (bool_decide (mode (config i) <> mode c) || negb (api_port (config i) =? api_port c)%Z) with true.
    + unfold signore, on_fw, smodify. cbn [fst snd config firewall].
      set (f1 := (remove_rules (firewall i)).1).
      destruct (apply_spec {| config := c; firewall := f1 |} Hpl Hm) as (_ & [_ Hb] & _).
      intros Hin. apply Hb in Hin as [Hin|]; [|done]. cbn [firewall] in Hin. unfold f1 in Hin.
      by rewrite (remove_rules_flush _ _ Hf) in Hin.
    + symmetry. apply orb_true_iff. destruct Hch as [Hn|Hn]; [left; by apply bool_decide_eq_true|right].
      apply negb_true_iff. by apply Z.eqb_neq.
Qed.
End isolation.
End Isolation.
