(* ===== verification/Config.v ===== *)
(** * The configuration of the daemon

    Models [maranode-daemon/src/config.rs] and the default paths of [maranode-common]:
    the settings with their defaults, the variables of the environment, the search for
    a file, the system prompt, and what [main.rs] makes of the command line. The TOML
    parser is a class; an environment is a map, and a file its content by its path. *)

From Stdlib Require Import ZArith Lia Ascii String.
From S2P Require Import Prelude Fs Lifecycle Isolation.
Open Scope string_scope.
Open Scope list_scope.
Open Scope Z_scope.

Module Config.

Definition env : Type := gmap string string.

(** ** paths.rs, on Linux *)

Definition default_models_dir (e : env) : string :=
  match e !! "MARANODE_MODELS_DIR" with
  | Some d => d
  | None => match e !! "MODEL_DIR" with Some d => d | None => "models" end
  end.

Definition default_unix_socket : option string := Some "/run/maranode/api.sock".

Definition default_data_dir (e : env) : string :=
  match e !! "MARANODE_DATA_DIR" with
  | Some d => d
  | None => match e !! "HOME" with Some h => path_join h ".local/share/maranode" | None => ".maranode-data" end
  end.

(** ** The sections of the file *)

Record InferenceConfig := { max_queue_depth : Z; max_parallel : Z; max_loaded_models : Z }.

Definition default_inference : InferenceConfig :=
  {| max_queue_depth := 32; max_parallel := 4; max_loaded_models := 2 |}.

Record OidcConfig := {
  issuer_url : string; client_id : string; client_secret : string; redirect_uri : string; oidc_role : string
}.

Record LdapGroupRole := { group_dn : string; group_role : string }.

Record LdapConfig := {
  url : string; bind_dn : string; bind_pw : string; base_dn : string; uid_attr : string;
  group_role_map : list LdapGroupRole; ldap_role : string
}.

Record SamlConfig := {
  idp_metadata_url : string; sp_entity_id : string; sp_cert : option string; sp_key : option string;
  idp_cert : option string; saml_role : string
}.

Record AuthConfig := {
  admin_key : option string; session_hours : Z; oidc : option OidcConfig; ldap : option LdapConfig;
  saml : option SamlConfig
}.

Definition default_auth : AuthConfig :=
  {| admin_key := None; session_hours := 24; oidc := None; ldap := None; saml := None |}.

Record LoggingConfig := {
  log_prompts : bool; content_log_retention_days : Z; audit_max_mb : Z; audit_max_age_days : Z
}.

Definition default_logging : LoggingConfig :=
  {| log_prompts := false; content_log_retention_days := 90; audit_max_mb := 256; audit_max_age_days := 0 |}.

Record MetricsConfig := { metrics_enabled : bool; require_auth : bool }.

Definition default_metrics : MetricsConfig := {| metrics_enabled := false; require_auth := true |}.

Record SmtpConfig := {
  smtp_host : string; smtp_port : Z; username : option string; password : option string; from : string;
  starttls : bool
}.

Record RegistryConfig := { require_approval_token : bool; tokens_dir : option string }.

Definition default_registry : RegistryConfig := {| require_approval_token := false; tokens_dir := None |}.

Record IntegrityConfig := { baselines_dir : option string; drift_action : Lifecycle.DriftAction }.

Definition default_integrity : IntegrityConfig := {| baselines_dir := None; drift_action := Lifecycle.Warn |}.

Record DlpConfig := {
  purview_tenant_id : option string; purview_client_id : option string; purview_client_secret : option string;
  purview_subscription_id : option string; forcepoint_url : option string; forcepoint_username : option string;
  forcepoint_password : option string; symantec_url : option string; symantec_username : option string;
  symantec_password : option string
}.

Definition default_dlp : DlpConfig := {|
  purview_tenant_id := None; purview_client_id := None; purview_client_secret := None; purview_subscription_id := None;
  forcepoint_url := None; forcepoint_username := None; forcepoint_password := None; symantec_url := None;
  symantec_username := None; symantec_password := None |}.

Record ChangeManagementConfig := {
  servicenow_url : option string; servicenow_user : option string; servicenow_password : option string;
  jira_url : option string; jira_project : option string; jira_user : option string; jira_token : option string
}.

Definition default_change_mgmt : ChangeManagementConfig := {|
  servicenow_url := None; servicenow_user := None; servicenow_password := None; jira_url := None; jira_project := None;
  jira_user := None; jira_token := None |}.

Record TpmConfig := {
  tpm_enabled : bool; pcr_indices : string; software_passphrase : option string; seal_purposes : list string
}.

Definition default_tpm : TpmConfig := {|
  tpm_enabled := false; pcr_indices := "0,7"; software_passphrase := None;
  seal_purposes := ["workspace-kek"; "audit-hmac"] |}.

Inductive RagIngestPolicy := Anyone | AdminOnly | Allowlist.

Record RagConfig := {
  rag_enabled : bool; embedding_model : string; default_collection : string; chunk_size : Z; chunk_overlap : Z;
  top_k : Z; min_score : Z; max_context_chars : Z; ingest_policy : RagIngestPolicy; ingest_allowlist : list string
}.

(** [min_score] is the bits of 0.40. *)
Definition default_rag : RagConfig := {|
  rag_enabled := false; embedding_model := "bge-m3:latest"; default_collection := "default"; chunk_size := 1200;
  chunk_overlap := 200; top_k := 5; min_score := 1053609165; max_context_chars := 6000; ingest_policy := Anyone;
  ingest_allowlist := [] |}.

Record AssistantConfig := { name : string; system_prompt : string; system_prompt_file : option string }.

Definition default_assistant : AssistantConfig :=
  {| name := ""; system_prompt := ""; system_prompt_file := None |}.

Record DaemonConfig := {
  data_dir : string; models_dir : string; bind : string; unix_socket : option string; tls_cert : option string;
  tls_key : option string; log_level : string; device : string; inference : InferenceConfig;
  isolation : Isolation.IsolationConfig; auth : AuthConfig; rag : RagConfig; assistant : AssistantConfig;
  logging : LoggingConfig; integrity : IntegrityConfig; registry : RegistryConfig; change_mgmt : ChangeManagementConfig;
  dlp : DlpConfig; tpm : TpmConfig; metrics : MetricsConfig;
  smtp : option SmtpConfig; tee_encrypt_key : option string
}.

Definition default_daemon (e : env) : DaemonConfig := {|
  data_dir := default_data_dir e; models_dir := default_models_dir e; bind := "127.0.0.1:11984";
  unix_socket := default_unix_socket; tls_cert := None; tls_key := None; log_level := "info"; device := "auto";
  inference := default_inference; isolation := Isolation.default_config; auth := default_auth; rag := default_rag;
  assistant := default_assistant; logging := default_logging; integrity := default_integrity;
  registry := default_registry; change_mgmt := default_change_mgmt; dlp := default_dlp; tpm := default_tpm;
  metrics := default_metrics; smtp := None; tee_encrypt_key := None |}.

(** ** resolved_system_prompt *)

Definition named_prompt (name : string) : string :=
  "You are " +:+ name +:+ ", a helpful and honest AI assistant. Be polite, concise, and accurate. "
  +:+ "Never assist with requests that could harm people.".

Inductive config_err := Unreadable | BadToml | NotFoundFile | BadPrompt | BadFilter | IsolationFailed | NoConfigFile
| AuditFailed.

Definition nonempty (s : string) : bool := negb (String.eqb s "").

(** The inline prompt, then one from the name. *)
Definition inline_prompt (a : AssistantConfig) : option string :=
  let inline := str_trim (system_prompt a) in
  if nonempty inline then Some inline else
  let n := str_trim (name a) in
  if nonempty n then Some (named_prompt n) else None.

Definition resolved_system_prompt (a : AssistantConfig) (f : fs) : result config_err (option string) :=
  match system_prompt_file a with
  | Some path =>
    let? text := map_err (fun _ => BadPrompt) (read_to_string f path) in
    let t := str_trim text in
    Ok (if nonempty t then Some t else inline_prompt a)
  | None => Ok (inline_prompt a)
  end.

(** ** Changes of one setting *)

Definition set_auth (c : DaemonConfig) (a : AuthConfig) : DaemonConfig := {|
  data_dir := data_dir c; models_dir := models_dir c; bind := bind c; unix_socket := unix_socket c;
  tls_cert := tls_cert c; tls_key := tls_key c; log_level := log_level c; device := device c;
  inference := inference c; isolation := isolation c; auth := a; rag := rag c; assistant := assistant c;
  logging := logging c; integrity := integrity c; registry := registry c; change_mgmt := change_mgmt c; dlp := dlp c; tpm := tpm c; metrics := metrics c; smtp := smtp c;
  tee_encrypt_key := tee_encrypt_key c |}.

Definition with_admin_key (k : option string) (a : AuthConfig) : AuthConfig := {|
  admin_key := k; session_hours := session_hours a; oidc := oidc a; ldap := ldap a; saml := saml a |}.

Definition with_rag (on : bool) (model coll : string) (r : RagConfig) : RagConfig := {|
  rag_enabled := on; embedding_model := model; default_collection := coll; chunk_size := chunk_size r;
  chunk_overlap := chunk_overlap r; top_k := top_k r; min_score := min_score r;
  max_context_chars := max_context_chars r; ingest_policy := ingest_policy r; ingest_allowlist := ingest_allowlist r |}.

Definition with_log_prompts (b : bool) (l : LoggingConfig) : LoggingConfig := {|
  log_prompts := b; content_log_retention_days := content_log_retention_days l; audit_max_mb := audit_max_mb l;
  audit_max_age_days := audit_max_age_days l |}.

Definition with_mode (m : Isolation.AirGapMode) (i : Isolation.IsolationConfig) : Isolation.IsolationConfig := {|
  Isolation.mode := m; Isolation.api_port := Isolation.api_port i;
  Isolation.api_allowed_sources := Isolation.api_allowed_sources i; Isolation.whitelist := Isolation.whitelist i |}.

(** ** apply_env_overrides *)

Definition is_on (o : option string) : bool :=
  match o with Some v => String.eqb v "1" || String.eqb v "true" | None => false end.

Definition some_or {A} (a : A) (o : option A) : A := default a o.

Definition socket_of (v : string) : option string := if String.eqb v "" then None else Some v.

Definition apply_env_overrides (e : env) (c : DaemonConfig) : DaemonConfig := {|
  data_dir := some_or (data_dir c) (e !! "MARANODE_DATA_DIR");
  models_dir := some_or (models_dir c) (e !! "MARANODE_MODELS_DIR");
  bind := some_or (bind c) (e !! "MARANODE_BIND");
  unix_socket := match e !! "MARANODE_UNIX_SOCKET" with Some v => socket_of v | None => unix_socket c end;
  tls_cert := tls_cert c; tls_key := tls_key c;
  log_level := some_or (log_level c) (e !! "RUST_LOG");
  device := some_or (device c) (e !! "MARANODE_DEVICE");
  inference := inference c; isolation := isolation c;
  auth := match e !! "MARANODE_ADMIN_KEY" with Some k => with_admin_key (Some k) (auth c) | None => auth c end;
  rag := with_rag (is_on (e !! "MARANODE_RAG") || rag_enabled (rag c))
                  (some_or (embedding_model (rag c)) (e !! "MARANODE_EMBEDDING_MODEL"))
                  (some_or (default_collection (rag c)) (e !! "MARANODE_RAG_COLLECTION")) (rag c);
  assistant := assistant c;
  logging := with_log_prompts (is_on (e !! "MARANODE_LOG_PROMPTS") || log_prompts (logging c)) (logging c);
  integrity := integrity c; registry := registry c; change_mgmt := change_mgmt c; dlp := dlp c;
  tpm := {| tpm_enabled := is_on (e !! "MARANODE_TPM") || tpm_enabled (tpm c); pcr_indices := pcr_indices (tpm c);
            software_passphrase := match e !! "MARANODE_TPM_PASSPHRASE" with
                                   | Some v => Some v | None => software_passphrase (tpm c) end;
            seal_purposes := seal_purposes (tpm c) |};
  metrics := metrics c; smtp := smtp c; tee_encrypt_key := tee_encrypt_key c |}.

(** ** Loading *)

Class Toml := { toml_parse : env -> string -> option DaemonConfig }.

Section loading.
Context `{!Toml}.

(** A file that is not there is the defaults. *)
Definition load (e : env) (path : string) (f : fs) : result config_err DaemonConfig :=
  if negb (exists_ f path) then Ok (default_daemon e) else
  let? text := map_err (fun _ => Unreadable) (read_to_string f path) in
  ok_or (toml_parse e text) BadToml.

Definition config_search_paths (e : env) : list string :=
  match e !! "XDG_CONFIG_HOME" with
  | Some x => [path_join x "maranode/config.toml"]
  | None => match e !! "HOME" with Some h => [path_join h ".config/maranode/config.toml"] | None => [] end
  end ++ ["/etc/maranode/config.toml"].

Fixpoint discover_in (e : env) (f : fs) (l : list string) : result config_err (DaemonConfig * option string) :=
  match l with
  | [] => Ok (default_daemon e, None)
  | p :: l => if exists_ f p then let? c := load e p f in Ok (c, Some p) else discover_in e f l
  end.

Definition discover (e : env) (f : fs) : result config_err (DaemonConfig * option string) :=
  discover_in e f (config_search_paths e).

Definition discover_or_explicit (e : env) (explicit : option string) (f : fs)
    : result config_err (DaemonConfig * option string) :=
  match explicit with
  | Some p => if negb (exists_ f p) then Err NotFoundFile else let? c := load e p f in Ok (c, Some p)
  | None => discover e f
  end.
End loading.
End Config.
