(* ===== verification/Startup.v ===== *)
(** * Starting the daemon, and its housekeeping

    Models the rest of [maranode-daemon/src/main.rs] that decides something: the keys of
    the audit log and of the workspaces, sealed or plain, the device, the first account,
    the certificate settings, and the sweep of the retention task. Paths are below the
    data directory; a write of the master key may stop after some bytes. *)

From Stdlib Require Import ZArith Lia Ascii String.
From S2P Require Import Prelude Json Crypto Common Events Entry Fs AuditRotate AuditLog UserDb Auth WorkspaceDb Seal Isolation Config.
Open Scope string_scope.
Open Scope list_scope.
Open Scope Z_scope.

(** ** kek.rs: the file of the master key *)
Module KekFile.

Definition default_kek_path : string := "master.key".

Inductive kek_err := Io (e : io_err) | BadHex | BadLength | Unsealing (e : Seal.seal_err).

Section kek.
Context `{!Hex}.

Definition write_key_file (fault : option nat) (hex : string) : SE fs kek_err unit := fun f =>
  match fault with
  | None => (write_file f default_kek_path 384 hex, Ok tt)
  | Some n => (write_file f default_kek_path 384 (stake n hex), Err (Io WriteFailed))
  end.

(** The key in the file. *)
Definition load (f : fs) : result kek_err string :=
  let? hex := map_err Io (read_to_string f default_kek_path) in
  let? bytes := ok_or (hex_decode (str_trim hex)) BadHex in
  guard Nat.eqb (String.length bytes) 32 else BadLength in
  Ok bytes.

(** [fresh] is what the random generator fills the buffer with. *)
Definition load_or_create (fresh : string) (fault : option nat) : SE fs kek_err string := fun f =>
  if exists_ f default_kek_path then (f, load f)
  else (do! _ := write_key_file fault (hex_encode fresh) in sret fresh) f.

(** *** Lemmas *)

Lemma create_spec fresh fault f f' k :
  fs_wf f -> String.length fresh = 32%nat -> load_or_create fresh fault f = (f', Ok k) ->
  fs_wf f' /\ load f' = Ok k /\ String.length k = 32%nat /\
  forall q, q <> default_kek_path -> content_at f' q = content_at f q.
Proof.
  intros Hf Hl. unfold load_or_create. destruct (exists_ f default_kek_path) eqn:E.
  - intros [= <- Hk]. split; [done|]. split; [done|]. split; [|done]. revert Hk. unfold load.
    destruct (read_to_string f _); cbn; [|done]. destruct (hex_decode _); cbn; [|done].
    destruct (Nat.eqb_spec (String.length s) 32); [|done]. by intros [= <-].
  - unfold sbind, write_key_file. destruct fault; [done|]. intros [= <- <-].
    split; [by apply write_file_wf|]. split; [|split; [done|]].
    + unfold load. rewrite read_to_string_content, content_at_write_file, decide_True by done.
      rewrite utf8_graphic by apply hex_graphic. cbn [map_err rbind]. rewrite trim_graphic by apply hex_graphic.
      rewrite hex_decode_encode. cbn [ok_or rbind]. by rewrite Hl.
    + intros q Hq. rewrite content_at_write_file by done. by rewrite decide_False.
Qed.
End kek.
End KekFile.

(** ** main.rs *)
Module Startup.
Import Config KekFile Common.User.

(** The device, and the certificate settings. *)
Inductive DevicePreference := Auto | Cpu | Gpu | Npu | RyzenAi.

(** [to_lowercase] on ASCII text; no other letter's lower case is one of the names. *)
Definition to_lowercase (s : string) : string := string_map ascii_lower s.

Definition device_of (name : string) : option DevicePreference :=
  let l := to_lowercase name in
  if String.eqb l "cpu" then Some Cpu else if String.eqb l "gpu" then Some Gpu
  else if String.eqb l "npu" then Some Npu else if String.eqb l "ryzenai" then Some RyzenAi
  else if String.eqb l "auto" || String.eqb l "" then Some Auto else None.

(** [None] refuses the start. *)
Definition tls_of (cert key : option string) : option (option (string * string)) :=
  match cert, key with
  | Some c, Some k => Some (Some (c, k))
  | None, None => Some None
  | _, _ => None
  end.

(** The connectors whose settings are complete. *)
Record PurviewCfg := {
  tenant_id : string; p_client_id : string; p_client_secret : string; subscription_id : option string
}.
Record ForcepointCfg := { base_url : string; f_username : string; f_password : string }.
Record SymantecCfg := { enforce_url : string; s_username : string; s_password : string }.
Record Connectors := { purview : option PurviewCfg; forcepoint : option ForcepointCfg; symantec : option SymantecCfg }.

Definition connectors_of (d : DlpConfig) : Connectors := {|
  purview := match purview_tenant_id d, purview_client_id d, purview_client_secret d with
             | Some t, Some c, Some s => Some {| tenant_id := t; p_client_id := c; p_client_secret := s;
                                                 subscription_id := purview_subscription_id d |}
             | _, _, _ => None end;
  forcepoint := match forcepoint_url d, forcepoint_username d, forcepoint_password d with
                | Some u, Some n, Some p => Some {| base_url := u; f_username := n; f_password := p |}
                | _, _, _ => None end;
  symantec := match symantec_url d, symantec_username d, symantec_password d with
              | Some u, Some n, Some p => Some {| enforce_url := u; s_username := n; s_password := p |}
              | _, _, _ => None end |}.

(** The first account: its password is the admin key. *)
Definition first_admin `{!UserDb.Rfc3339, !UserDb.PasswordHash} (key : option string) (uid salt : string) (now : Z)
    : SE UserDb.db UserDb.db_err unit := fun d =>
  if UserDb.count d =? 0 then
    match key with
    | Some k => UserDb.create {| id := uid; username := "admin"; email := None;
        password_hash := Some (UserDb.hash_password salt k); role := Admin; provider := Local;
        provider_sub := None; active := true; created_at := now; last_login := None |} d
    | None => (d, Ok tt)
    end
  else (d, Ok tt).

Lemma first_attempt ip max secs s : 1 <= max -> Auth.auth_ip_limiter s = ∅ ->
  exists m, Auth.check_auth_ip_rate ip max secs s = (Auth.set_limiter s m, Ok tt).
Proof.
  intros Hm He. unfold Auth.check_auth_ip_rate. rewrite He.
  replace (4096 <? Z.of_nat (size (∅ : gmap string (Z * Z)))) with false by (by rewrite map_size_empty).
  rewrite lookup_empty. cbn -[Z.leb sat_sub Z.min Z.ltb].
  replace (60 <=? sat_sub secs secs) with false by (unfold sat_sub; lia).
  replace (max <? Z.min u32_max (0 + 1)) with false by (unfold u32_max; lia). eauto.
Qed.

(** The account of the first start takes the admin key of that start as its password, and
    keeps it whatever the key of the server is later. *)
Theorem first_admin_login `{!UserDb.Rfc3339, !UserDb.PasswordHash} k uid salt at_ d :
  UserDb.count d = 0 -> UserDb.sessions d = [] ->
  let x := first_admin (Some k) uid salt at_ d in
  x.2 = Ok tt /\
  forall fk h s secs t0 now token, Auth.user_db s = x.1 -> Auth.auth_ip_limiter s = ∅ ->
  exists s' u, Auth.login fk h "admin" k secs t0 now token s = (s', Ok (token, u)) /\ role u = Admin.
Proof.
  unfold UserDb.count. intros Hu Hs. destruct d as [us ss rs]. cbn in Hu, Hs. destruct us; [|done]. subst ss.
  cbv zeta. split; [done|]. unfold first_admin.
  replace (UserDb.count _ =? 0) with true by done. cbn. intros fk h s secs t0 now token Hdb Hlim. unfold Auth.login, sbind at 1.
  destruct (first_attempt (Auth.client_ip h) 20 secs s) as [m ->]; [lia|done|].
  destruct s as [db key hours mail lim]. cbn in Hdb, Hlim. subst db lim.
  unfold sbind, Auth.ask, slift, UserDb.verify_password, UserDb.get_by_username, UserDb.find_user. cbn -[UserDb.create_session].
  unfold UserDb.hash_password. rewrite argon2_verify_hash, bool_decide_eq_true_2 by done. cbn -[UserDb.create_session].
  unfold UserDb.create_session, UserDb.user_exists, sbind, smodify, sget, sput. cbn. rewrite String.eqb_refl, andb_false_r.
  do 2 eexists. split; [reflexivity|done].
Qed.

Definition audit_log_path : string := "audit.jsonl".
Definition audit_key_path : string := "audit.key".

(** [audit_max_mb.saturating_mul(1024 * 1024)]. *)
Definition rotation_of (l : LoggingConfig) : Rotate.RotateConfig := {|
  Rotate.max_bytes := Z.min u64_max (audit_max_mb l * 1048576); Rotate.max_age_days := audit_max_age_days l |}.

(** A failure is logged and the start goes on. *)
Definition warned {S E F A} (m : SE S E A) : SE S F unit := fun s => ((m s).1, Ok tt).

Section startup.
Context `{!JsonText, !TimeText, !Hmac, !Hex, !Sha256, !Zip, !Stamp, !Aead, !Tpm2Tools}.

Definition passphrase_of (c : TpmConfig) : string := default "" (software_passphrase c).
Definition pcr_list_of (c : TpmConfig) : string := "sha256:" +:+ pcr_indices c.

Definition workspace_kek : string := "workspace-kek".
Definition audit_hmac : string := "audit-hmac".

(** [load_master_kek]: [now] and [now_fail] are the clock readings of an unsealing. *)
Definition load_master_kek (c : TpmConfig) (fresh : string) (fault : option nat) (r : Seal.draw) (now now_fail : Z)
    : SE fs kek_err string := fun f =>
  if negb (tpm_enabled c) then load_or_create fresh fault f else
  if Seal.is_sealed workspace_kek f then
    match Seal.unseal workspace_kek (passphrase_of c) now now_fail f with
    | (f, Ok bytes) => (f, if Nat.eqb (String.length bytes) 32 then Ok bytes else Err BadLength)
    | (f, Err e) => (f, Err (Unsealing e))
    end
  else
    (do! key := load_or_create fresh fault in
     do! _ := warned (Seal.seal key workspace_kek (Some (pcr_list_of c)) (passphrase_of c) r) in
     sret key) f.

Inductive start_err := AuditOpen (e : audit_err) | AuditUnseal (e : Seal.seal_err).

Definition lift_audit {A} (f : fs) (r : result audit_err A) : result start_err A := map_err AuditOpen r.

(** [open_audit_log], whose directory is the data directory. *)
Definition open_audit_log (c : TpmConfig) (umask : Z) (fresh : string) (r : Seal.draw) (now now_fail : Z) (f : fs)
    : result start_err Log.world :=
  if negb (tpm_enabled c) || negb (existsb (String.eqb audit_hmac) (seal_purposes c))
  then map_err AuditOpen (Open.open umask f "" audit_log_path audit_key_path fresh) else
  if Seal.is_sealed audit_hmac f then
    match Seal.unseal audit_hmac (passphrase_of c) now now_fail f with
    | (f, Ok key) => map_err AuditOpen (Log.open_with_key f "" audit_log_path key)
    | (f, Err e) => Err (AuditUnseal e)
    end
  else
    let? fk := map_err AuditOpen (Key.load_or_generate umask f audit_key_path fresh) in
    let f := (Seal.seal fk.2 audit_hmac (Some (pcr_list_of c)) (passphrase_of c) r fk.1).1 in
    map_err AuditOpen (Log.open_with_key f "" audit_log_path fk.2).

(** [sweep_audit_dir]: every result is only logged. *)
Definition sweep_audit_dir (dir path tmp : string) (cfg : Rotate.RotateConfig) (retain_days now : Z)
    : SE Log.world audit_err unit :=
  do! _ := Log.set_rotation cfg in
  do! _ := signore (Log.maybe_rotate path cfg now) in
  do! _ := smodify (fun w : Log.world => ((Rotate.enforce_segment_retention w.1 dir retain_days now).1, w.2)) in
  if 0 <? retain_days
  then smodify (fun w : Log.world => ((Log.prune_log w.1 path tmp retain_days now).1, w.2))
  else sret tt.

(** ** Properties *)

Lemma kek_not_sealed p : ~ In default_kek_path (Seal.blob_files p).
Proof. unfold Seal.blob_files. intros [He|[He|[He|[He|[]]]]]; discriminate He. Qed.

Lemma sealed_length c r now t f key :
  tpm_enabled c = true -> Seal.is_sealed workspace_kek f = true -> fs_wf f -> 0 <= t <= u64_max ->
  Seal.locked workspace_kek now f = false -> Seal.stored_key workspace_kek (passphrase_of c) f = Ok key ->
  String.length key = 32%nat -> forall fresh fault,
  exists f', load_master_kek c fresh fault r now t f = (f', Ok key) /\ fs_wf f' /\
    agree (fun q => q <> Seal.fail_counter_path (Seal.blob_dir workspace_kek)) f f' /\
    Seal.read_fail_counter (Seal.blob_dir workspace_kek) f' = Seal.fail_default.
Proof.
  intros Hc Hs Hf Ht Hl Hk Hn fresh fault. unfold load_master_kek. rewrite Hc, Hs. cbn [negb].
  destruct (Seal.unseal_spec workspace_kek (passphrase_of c) now t f Hf Ht Hl) as (f' & -> & Hw & Ha & Hr).
  rewrite Hk in *. rewrite Hn. cbn. by exists f'.
Qed.

Lemma stored_sealed p pass f k : fs_wf f -> Seal.stored_key p pass f = Ok k -> Seal.is_sealed p f = true.
Proof.
  intros Hf. unfold Seal.stored_key. intros Hs. apply Seal.loaded_sealed; [done|].
  by destruct (Seal.load_meta _ f).
Qed.

(** After a start with sealing on that gave a key, the sealed files hold it. *)
Lemma start_stores c fresh fault r now t f f1 k :
  tpm_enabled c = true -> fs_wf f -> Seal.tpm_faithful -> Seal.draw_ok r -> String.length fresh = 32%nat ->
  0 <= t <= u64_max -> load_master_kek c fresh fault r now t f = (f1, Ok k) ->
  fs_wf f1 /\ Seal.stored_key workspace_kek (passphrase_of c) f1 = Ok k /\ String.length k = 32%nat /\
  (Seal.is_sealed workspace_kek f = false -> KekFile.load f1 = Ok k).
Proof.
  intros Hc Hf Htpm Hr Hfr Ht. unfold load_master_kek at 1. rewrite Hc. cbn [negb].
  destruct (Seal.is_sealed workspace_kek f) eqn:Es.
  - destruct (Seal.locked workspace_kek now f) eqn:El; [by rewrite Seal.unseal_locked|].
    destruct (Seal.unseal_spec workspace_kek (passphrase_of c) now t f Hf Ht El) as (g & -> & Hw & Ha & Hcnt).
    destruct (Seal.stored_key workspace_kek (passphrase_of c) f) as [key|] eqn:Hk; [|done].
    destruct (Nat.eqb_spec (String.length key) 32) as [Hn|]; [|done]. intros [= <- <-].
    split; [done|]. split; [|done]. rewrite <- Hk. apply Seal.stored_key_agree. intros q Hq. apply Ha.
    intros ->. by eapply Seal.counter_not_blob.
  - unfold sbind at 1. destruct (load_or_create fresh fault f) as [g [key|]] eqn:Eg; [|done].
    destruct (create_spec _ _ _ _ _ Hf Hfr Eg) as (Hg & Hkey & Hn & _).
    destruct (Seal.seal_spec key workspace_kek (Some (pcr_list_of c)) (passphrase_of c) r g Hg Hr Htpm)
      as (h & meta & Hs & Hh & Hk & Ha & _).
    unfold sbind, warned. rewrite Hs. intros [= <- <-]. do 3 (split; [done|]). intros _.
    rewrite <- Hkey. unfold KekFile.load. rewrite !read_to_string_content, Ha by apply kek_not_sealed. done.
Qed.
End startup.

(** ** Starts after the first one *)

Section later_starts.
Context `{!JsonText, !Hmac, !Hex, !Aead}.

(** A later start, whatever becomes of it: the device [T] answers as the registers of
    that boot make it, the settings have sealing on, with any passphrase. *)
Definition started_again (f f' : fs) : Prop :=
  exists (T : Tpm2Tools) c fresh fault r now t, tpm_enabled c = true /\ 0 <= t <= u64_max /\
    (@load_master_kek _ _ _ _ T c fresh fault r now t f).1 = f'.

Notation counter := (Seal.fail_counter_path (Seal.blob_dir workspace_kek)).

(** Once the key is sealed, a start writes the counter of failures and nothing else. *)
Lemma again_keeps f f' :
  fs_wf f -> Seal.is_sealed workspace_kek f = true -> started_again f f' ->
  fs_wf f' /\ agree (fun q => q <> counter) f f'.
Proof.
  intros Hf Hs (T & c & fresh & fault & r & now & t & Hc & Ht & <-).
  unfold load_master_kek. rewrite Hc, Hs. cbn [negb].
  destruct (Seal.locked workspace_kek now f) eqn:El; [by rewrite Seal.unseal_locked|].
  destruct (Seal.unseal_spec workspace_kek (passphrase_of c) now t f Hf Ht El) as (g & -> & Hw & Ha & _).
  by destruct (Seal.stored_key _ _ f).
Qed.

Lemma starts_keep `{!Tpm2Tools} pass k f f' :
  fs_wf f -> Seal.stored_key workspace_kek pass f = Ok k -> rtc started_again f f' ->
  fs_wf f' /\ Seal.stored_key workspace_kek pass f' = Ok k /\ agree (fun q => q <> counter) f f'.
Proof.
  intros Hf Hk Hs. revert Hf Hk. induction Hs as [f|f g h Hstep _ IH]; intros Hf Hk; [done|].
  destruct (again_keeps _ _ Hf (stored_sealed _ _ _ _ Hf Hk) Hstep) as [Hg Ha].
  destruct IH as (Hh & Hkh & Hah); [done| |].
  { rewrite <- Hk. apply Seal.stored_key_agree. intros q Hq. apply Ha. intros ->. by eapply Seal.counter_not_blob. }
  split; [done|]. split; [done|]. by eapply agree_trans.
Qed.

End later_starts.
End Startup.
