(* ===== verification/Attest.v ===== *)
(** * Attestation reports

    Models [binary.rs], [report.rs] and [tee.rs] of [maranode-attestation] and the routes
    of [routes/attestation.rs]: the measurement of the program and of the audit log, the
    TEE report, and the signed answers. The running program and the TPM are parameters. *)

From Stdlib Require Import ZArith Lia Ascii String.
From S2P Require Import Prelude Json Crypto Common Events Entry Fs AuditRotate AuditLog AuditChain AuditInv AuditRefine.
From S2P Require Import UserDb Exports Auth Pcr Chat Bundle Startup.
Import Events Entry Verify Log.
Open Scope string_scope.
Open Scope list_scope.
Open Scope Z_scope.

(** ** binary.rs *)
Module Measure.

Record BinaryMeasurement := { m_path : string; m_sha256 : string; size_bytes : Z }.

(** The executable of the process, if it can be found and read: its path and bytes. *)
Class Exe := { current_exe : option (string * string) }.

Section measure.
Context `{!Sha256}.

Definition measured (path bytes : string) : BinaryMeasurement :=
  {| m_path := path; m_sha256 := sha256_hex bytes; size_bytes := Z.of_nat (String.length bytes) |}.

Definition measure_self `{!Exe} : option BinaryMeasurement :=
  some? e := current_exe in Some (measured e.1 e.2).

Definition measure_path (f : fs) (path : string) : result io_err BinaryMeasurement :=
  let? b := read f path in Ok (measured path b).

Definition measure_paths (f : fs) (paths : list string) : list (string * string) :=
  omap (fun p => match read f p with Ok b => Some (p, sha256_hex b) | Err _ => None end) paths.

End measure.
End Measure.

(** ** report.rs *)
Module Report.
Import Measure.

Record AuditLogMeasurement := {
  a_path : string; a_sha256 : string; a_entries : Z; chain_ok : bool; chain_detail : option string }.

Record AttestationReport := {
  version : Z; generated_at : string; binary : BinaryMeasurement; tpm : Tpm.TpmResult;
  audit_log : option AuditLogMeasurement; report_sha256 : option string }.

Inductive report_err := NoExe | Unreadable (e : io_err).

Section report.
Context `{!JsonText, !TimeText, !Rfc3339, !Hmac, !Hex, !Sha256, !AuditRotate.Zip, !Stamp, !ErrorText, !Exe}.
(** The reason of a failed TPM read. *)
Variable tpm_reason : string.

Definition binary_json (b : BinaryMeasurement) : json :=
  JObj [("path", JStr (m_path b)); ("sha256", JStr (m_sha256 b)); ("size_bytes", JInt (size_bytes b))].

Definition tpm_json (t : Tpm.TpmResult) : json :=
  match t with
  | Tpm.Available pcrs => JObj [("status", JStr "available");
      ("pcrs", JObj (omap (fun i => (fun h => (show_u64 i, JStr h)) <$> pcrs !! i) (seqZ 0 256)))]
  | Tpm.Error => JObj [("status", JStr "error"); ("reason", JStr tpm_reason)]
  | Tpm.Unavailable => JObj [("status", JStr "unavailable")]
  end.

Definition audit_json (a : AuditLogMeasurement) : json :=
  JObj [("path", JStr (a_path a)); ("sha256", JStr (a_sha256 a)); ("entries", JInt (a_entries a));
        ("chain_ok", JBool (chain_ok a)); ("chain_detail", jopt JStr (chain_detail a))].

Definition report_members (r : AttestationReport) : list (string * json) :=
  [("version", JInt (version r)); ("generated_at", JStr (generated_at r)); ("binary", binary_json (binary r));
   ("tpm", tpm_json (tpm r)); ("audit_log", jopt audit_json (audit_log r))].

Definition report_json (r : AttestationReport) : json :=
  JObj (report_members r ++ jskip "report_sha256" JStr (report_sha256 r)).

Definition self_hash (r : AttestationReport) : string := sha256_hex (json_print (to_value (JObj (report_members r)))).

Definition measure_audit_log (f : fs) (log_path : string) (key_path : option string)
    : result io_err AuditLogMeasurement :=
  if negb (exists_ f log_path) then
    Ok {| a_path := log_path; a_sha256 := EmptyString; a_entries := 0; chain_ok := true;
          chain_detail := Some "log not yet created" |}
  else
    let? m := measure_path f log_path in
    let entries := match Exports.read_all f log_path with Ok es => Z.of_nat (length es) | Err _ => 0 end in
    let chain :=
      match key_path with
      | Some kp =>
        match Key.load f kp with
        | Ok key =>
          match verify_log f log_path key with
          | Ok r => (ok r, (fun v => violation_text (detail v)) <$> first_violation r)
          | Err e => (false, Some (audit_error e))
          end
        | Err e => (false, Some ("key load failed: " +:+ audit_error e))
        end
      | None => (true, Some "chain verification skipped: no key path provided")
      end in
    Ok {| a_path := m_path m; a_sha256 := m_sha256 m; a_entries := entries; chain_ok := chain.1; chain_detail := chain.2 |}.

Definition with_hash (h : string) (r : AttestationReport) : AttestationReport :=
  {| version := version r; generated_at := generated_at r; binary := binary r; tpm := tpm r; audit_log := audit_log r;
     report_sha256 := Some h |}.

Definition generate (f : fs) (log_path key_path : option string) (tpm : Tpm.TpmResult) (now : Z)
    : result report_err AttestationReport :=
  let? b := ok_or measure_self NoExe in
  let? a := match log_path with
            | Some lp => rmap Some (map_err Unreadable (measure_audit_log f lp key_path))
            | None => Ok None end in
  let r := {| version := 1; generated_at := to_rfc3339 now; binary := b; tpm := tpm; audit_log := a; report_sha256 := None |} in
  Ok (with_hash (self_hash r) r).

(** The digest of a report is that of its other members. *)
Lemma generate_hash f lp kp t now r : generate f lp kp t now = Ok r -> report_sha256 r = Some (self_hash r).
Proof.
  unfold generate. destruct (ok_or _ _); cbn [rbind]; [|done]. destruct (match lp with Some _ => _ | None => _ end);
    cbn [rbind]; [|done]. by intros [= <-].
Qed.

End report.
End Report.

(** ** tee.rs *)
Module TeeReport.
Import Measure.

Inductive TeeType := IntelTdx | AmdSevSnp | NoTee.

Definition tee_str (t : TeeType) : string :=
  match t with IntelTdx => "intel_tdx" | AmdSevSnp => "amd_sev_snp" | NoTee => "none" end.

Record TeeReport := {
  tee_type : TeeType; report_data : string; report_hash : string; measurement : string; is_synthetic : bool }.

Section tee.
Context `{!Sha256, !Hex, !Exe}.
(** The device files of the host, and SHA-256 of hex text. *)
Variable device : string -> bool.

Definition detect_tee : TeeType :=
  if device "/dev/tdx-guest" || device "/dev/tdx_guest" then IntelTdx
  else if device "/dev/sev-guest" then AmdSevSnp else NoTee.

Definition synthetic_report (nonce : string) : TeeReport :=
  let binary_hash := match measure_self with Some m => m_sha256 m | None => "unknown" end in
  let report_data := sha256_hex (binary_hash +:+ ":" +:+ hex_encode nonce) in
  {| tee_type := NoTee; report_data := report_data; report_hash := sha256_hex report_data;
     measurement := report_data; is_synthetic := true |}.

Definition try_tdx_ioctl (nonce : string) : option string := None.
Definition try_snp_ioctl (nonce : string) : option string := None.

Definition raw_report (t : TeeType) (raw : string) : TeeReport :=
  {| tee_type := t; report_data := hex_encode raw; report_hash := sha256_hex raw;
     measurement := hex_encode (stake 48 raw); is_synthetic := false |}.

Definition typed (t : TeeType) (r : TeeReport) : TeeReport :=
  {| tee_type := t; report_data := report_data r; report_hash := report_hash r; measurement := measurement r;
     is_synthetic := is_synthetic r |}.

Definition get_tdx_report (nonce : string) : TeeReport :=
  match try_tdx_ioctl nonce with Some raw => raw_report IntelTdx raw | None => typed IntelTdx (synthetic_report nonce) end.

Definition get_snp_report (nonce : string) : TeeReport :=
  match try_snp_ioctl nonce with Some raw => raw_report AmdSevSnp raw | None => typed AmdSevSnp (synthetic_report nonce) end.

Definition get_report (nonce : string) : TeeReport :=
  match detect_tee with
  | IntelTdx => get_tdx_report nonce | AmdSevSnp => get_snp_report nonce | NoTee => synthetic_report nonce end.

(** No report comes from hardware. *)
Lemma always_synthetic nonce : get_report nonce = typed detect_tee (synthetic_report nonce).
Proof. unfold get_report. by destruct detect_tee. Qed.

End tee.
End TeeReport.

(** ** routes/attestation.rs *)
Module AttestApi.
Import Report TeeReport Auth.Auth.

Record SignedReport := {
  report : AttestationReport; nonce : string; ed25519_sig : option string; ed25519_pubkey : option string; s_hmac : string }.

Record TeeReportResp := { resp_report : TeeReport.TeeReport; resp_nonce : string; resp_sig : option string }.

Record VerifyTeeReq := { v_report_hash : string; v_nonce : string; v_sig : string; v_pubkey : string }.

Section routes.
Context `{!JsonText, !TimeText, !Rfc3339, !Hmac, !Hex, !Sha256, !AuditRotate.Zip, !Stamp, !ErrorText, !Measure.Exe, !Ed25519}.
Variable tpm_reason : string.
Variable device : string -> bool.

Definition log_path : string := Startup.Startup.audit_log_path.
Definition key_path : string := Startup.Startup.audit_key_path.

Definition present (f : fs) (p : string) : option string := if exists_ f p then Some p else None.

(** [fresh] is the seed of a new signing key, [now] the instant of the report. *)
Definition get_report (q : option string) (t : Tpm.TpmResult) (now : Z) (fresh : string) : SE fs api_error SignedReport :=
  do! f := sget in
  do! r := slift (map_err (fun _ => Internal)
                   (Report.generate tpm_reason f (present f log_path) (present f key_path) t now)) in
  let nonce := default EmptyString q in
  do! signed := fun f => match Chat.Sign.load_or_create fresh f with
    | (f, Ok sk) =>
      let payload := default EmptyString (report_sha256 r) +:+ nonce in
      (f, Ok (Some (hex_encode (Chat.Sign.sign sk payload), hex_encode (ed_public sk))))
    | (f, Err _) => (f, Ok None)
    end in
  do! f := sget in
  let hmac := match Key.load f key_path with
    | Ok key => Chain.compute key (json_print (report_json tpm_reason r) +:+ nonce)
    | Err _ => EmptyString
    end in
  sret {| report := r; nonce := nonce; ed25519_sig := fst <$> signed; ed25519_pubkey := snd <$> signed; s_hmac := hmac |}.

Definition get_public_key (fresh : string) : SE fs api_error string := fun f =>
  let r := Chat.Sign.load_or_create fresh f in
  (r.1, map_err (fun _ => Internal) (rmap (fun sk => hex_encode (ed_public sk)) r.2)).

Definition get_tee (q : option string) (fresh : string) : SE fs api_error TeeReportResp := fun f =>
  let nonce := default EmptyString q in
  let r := TeeReport.get_report device nonce in
  let k := Chat.Sign.load_or_create fresh f in
  (k.1, Ok {| resp_report := r; resp_nonce := nonce;
              resp_sig := match k.2 with
                          | Ok sk => Some (hex_encode (Chat.Sign.sign sk (report_hash r +:+ nonce))) | Err _ => None end |}).

(** The strict check of the library is taken as its plain one. *)
Definition verify_tee (req : VerifyTeeReq) : result api_error bool :=
  let? pub := ok_or (hex_decode (v_pubkey req)) BadRequest in
  guard Nat.eqb (String.length pub) 32 else BadRequest in
  guard ed_key_ok pub else BadRequest in
  let? sig := ok_or (hex_decode (v_sig req)) BadRequest in
  guard Nat.eqb (String.length sig) 64 else BadRequest in
  Ok (ed_verify pub (v_report_hash req +:+ v_nonce req) sig).

(** The signing key once it is there: drawing again gives the same. *)
Lemma key_stays fresh fresh' f f' sk : fs_wf f ->
  Chat.Sign.load_or_create fresh f = (f', Ok sk) -> String.length fresh = 32%nat ->
  Chat.Sign.load_or_create fresh' f' = (f', Ok sk).
Proof.
  unfold Chat.Sign.load_or_create. intros Hf. destruct (exists_ f _) eqn:He.
  - destruct (read f _) as [raw|] eqn:Hr; [|by intros [=]]. destruct (Nat.eqb _ _) eqn:Hl; [|by intros [=]].
    intros [= <- <-] _. by rewrite He, Hr, Hl.
  - intros [= <- <-] Hl. set (g := write_file f _ _ _).
    assert (fs_wf g) as Hg by (by apply write_file_wf).
    assert (content_at (std_write g Chat.Sign.verifying_key_path (ed_public fresh)) Chat.Sign.signing_key_path = Some fresh) as Hc.
    { rewrite content_at_std_write by done. rewrite decide_False by done. unfold g.
      by rewrite content_at_write_file, decide_True. }
    assert (exists_ (std_write g Chat.Sign.verifying_key_path (ed_public fresh)) Chat.Sign.signing_key_path = true) as ->.
    { apply exists_content; [by apply std_write_wf|]. rewrite Hc. eauto. }
    by rewrite read_content, Hc, Hl.
Qed.

(** A signature of the server's key, as the verifying route sees it. *)
Lemma verify_own sk h n payload : String.length sk = 32%nat -> h +:+ n = payload ->
  verify_tee {| v_report_hash := h; v_nonce := n; v_sig := hex_encode (Chat.Sign.sign sk payload);
                v_pubkey := hex_encode (ed_public sk) |} = Ok true.
Proof.
  intros Hl <-. unfold verify_tee, Chat.Sign.sign. cbn. rewrite !hex_decode_encode. cbn [ok_or rbind].
  rewrite ed_public_len, ed_public_ok, ed_sign_len by done. cbn. by rewrite ed_verify_sign.
Qed.

Lemma published fresh fresh' f f' f'' sk pub : fs_wf f -> String.length fresh = 32%nat ->
  Chat.Sign.load_or_create fresh f = (f', Ok sk) -> get_public_key fresh' f' = (f'', Ok pub) ->
  String.length sk = 32%nat /\ pub = hex_encode (ed_public sk).
Proof.
  intros Hf Hl Hk. unfold get_public_key. rewrite (key_stays _ fresh' _ _ _ Hf Hk Hl). intros [= _ <-].
  split; [by eapply Chat.Sign.load_length|done].
Qed.

(** A key that cannot be read is not published either. *)
Lemma refused_key fresh fresh' f f' f'' e pub :
  Chat.Sign.load_or_create fresh f = (f', Err e) -> get_public_key fresh' f' <> (f'', Ok pub).
Proof.
  unfold get_public_key, Chat.Sign.load_or_create.
  destruct (exists_ f _) eqn:He; [|by intros [=]]. destruct (read f _) as [raw|] eqn:Hr.
  - destruct (Nat.eqb _ _) eqn:Hn; [by intros [=]|]. intros [= <- <-]. by rewrite He, Hr, Hn.
  - intros [= <- <-]. by rewrite He, Hr.
Qed.

(** A TEE answer never comes from the hardware: on every host it is the digest of the
    program and the nonce, signed when the key can be read. The verifying route accepts it
    under the published key, however the same characters are split between report hash and
    nonce; it does not look at measurement, type or whether the report is synthetic, and
    it accepts the same of any other key. *)
Theorem tee_answers q fresh fresh' f f' f'' resp pub :
  fs_wf f -> String.length fresh = 32%nat ->
  get_tee q fresh f = (f', Ok resp) -> get_public_key fresh' f' = (f'', Ok pub) ->
  resp_nonce resp = default EmptyString q /\
  resp_report resp = typed (detect_tee device) (synthetic_report (resp_nonce resp)) /\
  is_synthetic (resp_report resp) = true /\
  (exists sig, resp_sig resp = Some sig /\
    forall h n, h +:+ n = report_hash (resp_report resp) +:+ resp_nonce resp ->
      verify_tee {| v_report_hash := h; v_nonce := n; v_sig := sig; v_pubkey := pub |} = Ok true) /\
  (forall sk h n, String.length sk = 32%nat ->
     verify_tee {| v_report_hash := h; v_nonce := n; v_sig := hex_encode (Chat.Sign.sign sk (h +:+ n));
                   v_pubkey := hex_encode (ed_public sk) |} = Ok true).
Proof.
  intros Hf Hl. unfold get_tee. destruct (Chat.Sign.load_or_create fresh f) as [g k] eqn:Hk.
  intros [= <- <-] Hp. cbn. rewrite always_synthetic. split; [done|]. split; [done|]. split; [done|].
  split; [|intros sk h n Hsk; by apply verify_own].
  destruct k as [sk|e].
  - destruct (published _ _ _ _ _ _ _ Hf Hl Hk Hp) as [Hsk ->]. eexists. split; [done|].
    intros h n Hhn. by apply verify_own.
  - exfalso. by eapply refused_key.
Qed.

(** What a report says of the chain: it is said to be intact when the key file is missing,
    whatever the log holds, and otherwise when the active file verifies. The digest is that
    of the other members; the signature over digest and nonce verifies with the published
    key, and the route for TEE reports accepts it as one of those. *)
Theorem report_answers q t now fresh fresh' f f' f'' resp pub :
  fs_wf f -> String.length fresh = 32%nat ->
  get_report q t now fresh f = (f', Ok resp) -> get_public_key fresh' f' = (f'', Ok pub) ->
  report_sha256 (report resp) = Some (self_hash tpm_reason (report resp)) /\
  (forall a, audit_log (report resp) = Some a ->
     (chain_ok a = true <-> exists_ f key_path = false \/
        exists key r, Key.load f key_path = Ok key /\ verify_log f log_path key = Ok r /\ ok r = true)) /\
  (exists sig, ed25519_sig resp = Some sig /\ ed25519_pubkey resp = Some pub /\
    verify_tee {| v_report_hash := self_hash tpm_reason (report resp); v_nonce := default EmptyString q;
                  v_sig := sig; v_pubkey := pub |} = Ok true).
Proof.
  intros Hf Hl. unfold get_report, sbind, sget, slift, sret.
  destruct (Report.generate _ _ _ _ _ _) as [r|] eqn:Hg; cbn [map_err]; [|by intros [=]].
  destruct (Chat.Sign.load_or_create fresh f) as [g k] eqn:Hk.
  assert (forall a, audit_log r = Some a -> chain_ok a = true <-> exists_ f key_path = false \/
     exists key v, Key.load f key_path = Ok key /\ verify_log f log_path key = Ok v /\ ok v = true) as Hchain.
  { intros a. revert Hg. unfold generate. destruct (ok_or _ _); cbn [rbind]; [|done]. unfold present at 1.
    destruct (exists_ f log_path) eqn:He; [|by intros [= <-]].
    unfold measure_audit_log. rewrite He. cbn [negb]. destruct (Measure.measure_path _ _); cbn [rbind map_err rmap]; [|done].
    intros [= <-] [= <-]. cbn. unfold present. destruct (exists_ f key_path) eqn:Hkp; [|by split; [left|]].
    destruct (Key.load f key_path) as [key|e] eqn:Hkey; cbn [fst]; [|split; [done|intros [|(? & ? & ? & _)]; done]].
    destruct (verify_log f log_path key) as [v|e] eqn:Hv; cbn [fst]; split; try done; [by right; eauto| |].
    all: intros [|(key' & v' & Hk' & Hv' & Ho)]; [done|]; injection Hk' as <-; rewrite Hv in Hv'; by simplify_eq. }
  destruct k as [sk|e].
  - intros [= <- <-] Hp. destruct (published _ _ _ _ _ _ _ Hf Hl Hk Hp) as [Hsk ->].
    pose proof (generate_hash _ _ _ _ _ _ _ Hg) as Hh. split; [done|]. split; [done|].
    cbn. rewrite Hh. eexists. split; [done|]. split; [done|]. by apply verify_own.
  - intros [= <- <-] Hp. exfalso. by eapply refused_key.
Qed.

End routes.
End AttestApi.
