(* ===== verification/AuditApi.v ===== *)
(** * The audit routes

    Models [routes/audit.rs] of [maranode-api]: listing, exporting and bundling the audit
    log, pruning it, and the signing key. *)

From Stdlib Require Import ZArith Lia Ascii String.
From S2P Require Import Prelude Json Crypto Common Events Entry Fs AuditRotate AuditLog AuditTheorems UserDb Exports Auth Pcr.
From S2P Require Import WorkspaceDb WorkspaceApi AppState LegalHold Chat Bundle Startup Attest.
Import Events Entry.
Open Scope string_scope.
Open Scope list_scope.
Open Scope Z_scope.

Module AuditApi.
Import Auth.Auth AppState.

Record AuditEntryView := { v_seq : Z; v_ts : string; v_actor : string; v_event : json }.

Record ExportQuery := { q_format : string; q_workspace : option string; q_from : option string; q_to : option string }.

(** What a bundle request draws: the TPM, three instants, the seed of a new signing key. *)
Record bundle_draws := { d_tpm : Tpm.TpmResult; d_report : Z; d_verify : Z; d_manifest : Z; d_seed : string; d_fault : option nat }.

Definition log_path : string := Startup.Startup.audit_log_path.
Definition key_path : string := Startup.Startup.audit_key_path.
Definition prune_tmp : string := "audit.jsonl.tmp".
Definition ws_dir (slug : string) : string := "workspaces/" +:+ slug.
Definition ws_log (slug : string) : string := ws_dir slug +:+ "/" +:+ log_path.
Definition ws_key (slug : string) : string := ws_dir slug +:+ "/" +:+ key_path.

Section routes.
Context `{!JsonText, !TimeText, !Rfc3339, !Hmac, !Hex, !Sha256, !AuditRotate.Zip, !Stamp, !ErrorText, !Measure.Exe,
          !Ed25519, !Archive, !Base64, !Aead}.
Variable tpm_reason : string.

Definition view (e : AuditEntry) : AuditEntryView :=
  {| v_seq := seq e; v_ts := to_rfc3339 (ts e); v_actor := actor e; v_event := Exports.event_value (event e) |}.

Definition default_limit : Z := 100.

Definition permit (h : headers) (p : Common.User.Permission) (now : Z) : SE app api_error unit :=
  on_auth (authorize_permission h p now).

Definition list_entries (h : headers) (limit : option Z) (now : Z) : SE app api_error (list AuditEntryView) :=
  do! _ := permit h Common.User.AuditView now in
  let limit := Z.min (default default_limit limit) 500 in
  do! s := sget in
  do! es := slift (map_err internal (Log.read_recent (data s) log_path (Z.to_nat limit))) in
  sret (view <$> es).

Definition resolve_log_and_filter (ws : option string) (q : ExportQuery) (f : fs)
    : result api_error (string * Exports.ExportFilter) :=
  let flt := {| Exports.workspace := None; Exports.from_ := q_from q ≫= parse_rfc3339; Exports.to_ := q_to q ≫= parse_rfc3339 |} in
  match ws with
  | Some slug => guard exists_ f (ws_log slug) else NotFound in Ok (ws_log slug, flt)
  | None => Ok (log_path, flt)
  end.

Definition export_format (format : string) : option Exports.format :=
  if String.eqb format "gdpr" then Some Exports.Gdpr else if String.eqb format "hipaa" then Some Exports.Hipaa
  else if String.eqb format "soc2" then Some Exports.Soc2 else if String.eqb format "iso27001" then Some Exports.Iso27001
  else None.

(** The name of the file and its text. *)
Definition export_entries (h : headers) (q : ExportQuery) (now : Z) : SE app api_error (string * string) :=
  do! _ := permit h Common.User.AuditExport now in
  do! s := sget in
  do! lf := slift (resolve_log_and_filter (q_workspace q) q (data s)) in
  let ws_label := default "global" (q_workspace q) in
  do! fmt := slift (ok_or (export_format (q_format q)) BadRequest) in
  do! csv := slift (map_err internal (Exports.export fmt (data s) lf.1 lf.2)) in
  sret ("audit_" +:+ ws_label +:+ "_" +:+ q_format q +:+ ".csv", csv).

Definition bundle_paths (ws : option string) (f : fs) : result api_error (string * string * string * string) :=
  match ws with
  | Some slug => guard exists_ f (ws_log slug) else NotFound in
    Ok (ws_log slug, ws_key slug, "audit_bundle_" +:+ slug +:+ "_tmp.zip", "audit_bundle_" +:+ slug +:+ ".zip")
  | None => Ok (log_path, key_path, "audit_bundle_tmp.zip", "audit_bundle.zip")
  end.

Definition ok_value {E A} (r : result E A) : option A := match r with Ok a => Some a | Err _ => None end.

Definition build_bundle_response (ws : option string) (d : bundle_draws) : SE fs api_error (string * string) := fun f =>
  match bundle_paths ws f with
  | Err e => (f, Err e)
  | Ok (log, key, tmp, filename) =>
    let k := Sign.load_or_create (d_seed d) f in
    let report := Report.generate tpm_reason k.1 (AttestApi.present k.1 log) (AttestApi.present k.1 key) (d_tpm d) (d_report d) in
    let attestation := (fun r => json_pretty (Report.report_json tpm_reason r)) <$> ok_value report in
    let b := Bundle.create_bundle_with_attestation log key tmp ws (ok_value k.2) attestation (d_verify d) (d_manifest d)
               (d_fault d) k.1 in
    match b.2 with
    | Err _ => (b.1, Err Internal)
    | Ok _ =>
      match read b.1 tmp with
      | Ok bytes => (remove_file b.1 tmp, Ok (filename, bytes))
      | Err _ => (b.1, Err Internal)
      end
    end
  end.

Definition on_files {A} (m : SE fs api_error A) : SE app api_error A := on_data (fun e => e) m.

Definition download_bundle (h : headers) (now : Z) (d : bundle_draws) : SE app api_error (string * string) :=
  do! _ := permit h Common.User.AuditExport now in on_files (build_bundle_response None d).

Definition download_workspace_bundle (h : headers) (slug : string) (now : Z) (d : bundle_draws) : SE app api_error (string * string) :=
  do! _ := permit h Common.User.AuditExport now in on_files (build_bundle_response (Some slug) d).

Definition do_prune (h : headers) (retain_days : Z) (now : Z) : SE app api_error Z :=
  do! _ := permit h Common.User.AuditPrune now in
  on_data internal (fun f => Log.prune_log f log_path prune_tmp retain_days now).

Definition get_signing_key (h : headers) (now : Z) (fresh : string) : SE app api_error string :=
  do! _ := permit h Common.User.AuditView now in
  on_files (AttestApi.get_public_key fresh).

Inductive audit_request :=
| ListEntries (limit : option Z) | ExportEntries (q : ExportQuery) | DownloadBundle (ws : option string) (d : bundle_draws)
| DoPrune (retain_days : Z) | SigningKey (fresh : string).

Definition needs (r : audit_request) : Common.User.Permission :=
  match r with
  | ListEntries _ | SigningKey _ => Common.User.AuditView
  | ExportEntries _ | DownloadBundle _ _ => Common.User.AuditExport
  | DoPrune _ => Common.User.AuditPrune
  end.

Definition handle_audit (h : headers) (r : audit_request) (now : Z) (s : app) : app * option api_error :=
  let status {A} (x : app * result api_error A) := (x.1, match x.2 with Ok _ => None | Err e => Some e end) in
  match r with
  | ListEntries limit => status (list_entries h limit now s)
  | ExportEntries q => status (export_entries h q now s)
  | DownloadBundle None d => status (download_bundle h now d s)
  | DownloadBundle (Some slug) d => status (download_workspace_bundle h slug now d s)
  | DoPrune days => status (do_prune h days now s)
  | SigningKey fresh => status (get_signing_key h now fresh s)
  end.

Lemma permit_spec h p now s : permit h p now s = (s, (authorize_permission h p now (server_of s)).2).
Proof.
  unfold permit, on_auth. f_equal.
  rewrite (WorkspaceApi.WorkspaceApi.on_auth_authorize h p now (wsv s)). by destruct s.
Qed.

(** Every route starts with its permission. *)
Lemma refused h r now s e : (authorize_permission h (needs r) now (server_of s)).2 = Err e ->
  handle_audit h r now s = (s, Some e).
Proof.
  intros He. destruct r as [limit|q|[slug|] d|days|fresh]; cbn [handle_audit needs] in *;
    unfold list_entries, export_entries, download_bundle, download_workspace_bundle, do_prune, get_signing_key, sbind;
    by rewrite permit_spec, He.
Qed.

(** Holds are read from their directory only. *)
Lemma held_same f g sq t : fs_wf f -> fs_wf g ->
  (forall q, q <> log_path -> q <> prune_tmp -> content_at g q = content_at f q) ->
  LegalHold.LegalHold.is_seq_held sq t g = LegalHold.LegalHold.is_seq_held sq t f.
Proof.
  intros Hf Hg Hq. unfold LegalHold.LegalHold.is_seq_held. apply eq_true_iff_eq. rewrite !existsb_exists.
  assert (forall h, In h (LegalHold.LegalHold.list_holds g) <-> In h (LegalHold.LegalHold.list_holds f)) as Hl;
    [|by setoid_rewrite Hl].
  intros h. rewrite !LegalHold.LegalHold.in_list_holds by done.
  assert (forall p, json_child LegalHold.LegalHold.holds_dir p = true -> content_at g p = content_at f p) as Hc.
  { intros p Hp. apply Hq; intros ->; by vm_compute in Hp. }
  split; intros (p & b & Hp & Hb & Hh); exists p, b; [rewrite <- Hc by done|rewrite Hc by done]; auto.
Qed.

(** Pruning by a request deletes every entry of the active log before the cutoff, and
    touches nothing else. Holds and incidents are not looked at: the numbers of deleted
    entries are as held afterwards as before. *)
Theorem prune_ignores_holds h days now s es :
  (authorize_permission h Common.User.AuditPrune now (server_of s)).2 = Ok tt -> days <> 0 ->
  fs_wf (data s) -> content_at (data s) log_path = Some (log_text es) -> Forall (fun e => readable e = true) es ->
  let kept := List.filter (fun e => negb (ts e <? now - days_ns days)) es in
  exists s', do_prune h days now s = (s', Ok (Z.of_nat (length es - length kept))) /\
    content_at (data s') log_path = Some (log_text kept) /\
    (forall q, q <> log_path -> q <> prune_tmp -> content_at (data s') q = content_at (data s) q) /\
    (forall sq t, LegalHold.LegalHold.is_seq_held sq t (data s') = LegalHold.LegalHold.is_seq_held sq t (data s)) /\
    incident s' = incident s /\ trail s' = trail s.
Proof.
  intros Hp Hd Hf Hc Hr kept. unfold do_prune, sbind. rewrite permit_spec, Hp. unfold on_data.
  destruct (prune_file (data s) log_path prune_tmp days now es Hf Hc Hr Hd ltac:(done)) as (f' & Hq & Hw & Hk & Ho).
  rewrite Hq. eexists. split; [done|]. split; [exact Hk|]. split; [exact Ho|]. split; [|done].
  intros sq t. by apply held_same.
Qed.

End routes.
End AuditApi.
