(* ===== verification/Reload.v ===== *)
(** * Reloading the configuration

    Models [reload.rs], [admin.rs] and [probe.rs] of [maranode-daemon], with the parts of
    [main.rs] that turn the command line into settings. A reload works on the settings in
    use, the queue, the isolator with its firewall, the retrieval engine and the audit
    log, in the order of the code; what was changed before a failure stays changed. The
    command line is what clap makes of it, and the log filter's syntax is a class. *)

From Stdlib Require Import ZArith Lia Ascii String.
From S2P Require Import Prelude Json Crypto Common Events Entry Fs AuditRotate AuditLog UserDb Auth WorkspaceDb WorkspaceApi AppState RagEngine Chat Queue RagApi Isolation Config.
Open Scope string_scope.
Open Scope list_scope.
Open Scope Z_scope.

(** ** The command line of main.rs *)
Module Args.
Import Config.

Record Args := {
  config : option string; no_isolation : bool; data_dir : option string; bind : option string;
  log_level : option string; device : option string; rag : bool; embedding_model : option string;
  rag_collection : option string; admin_key : option string; skip_bootstrap : bool; yes_bootstrap : bool;
  models_dir : option string; unix_socket : option string; no_unix_socket : bool; tls_cert : option string;
  tls_key : option string
}.

(** Clap's documented behaviour: an option that the command line leaves out is its variable. *)
Definition reads (e : env) (v : string) (o : option string) : Prop := is_Some (e !! v) -> is_Some o.

Definition set_rag (a : Args) (c : DaemonConfig) : RagConfig :=
  with_rag (rag a || rag_enabled (Config.rag c))
    (default (Config.embedding_model (Config.rag c)) (embedding_model a))
    (default (default_collection (Config.rag c)) (rag_collection a)) (Config.rag c).

Definition set_key (k : option string) (c : AuthConfig) : AuthConfig :=
  match k with Some k => with_admin_key (Some k) c | None => c end.

Definition set_mode (off : bool) (c : Isolation.IsolationConfig) : Isolation.IsolationConfig :=
  if off then with_mode Isolation.Disabled c else c.

(** The settings of the process, on Linux. *)
Definition startup_config (a : Args) (c : DaemonConfig) : DaemonConfig := {|
  Config.data_dir := default (Config.data_dir c) (data_dir a);
  Config.models_dir := default (Config.models_dir c) (models_dir a);
  Config.bind := default (Config.bind c) (bind a);
  Config.unix_socket :=
    if no_unix_socket a then None
    else match unix_socket a with Some s => socket_of s | None => Config.unix_socket c end;
  Config.tls_cert := match tls_cert a with Some p => Some p | None => Config.tls_cert c end;
  Config.tls_key := match tls_key a with Some p => Some p | None => Config.tls_key c end;
  Config.log_level := default (Config.log_level c) (log_level a);
  Config.device := default (Config.device c) (device a);
  inference := inference c; isolation := set_mode (no_isolation a) (isolation c);
  auth := set_key (admin_key a) (auth c); Config.rag := set_rag a c; assistant := assistant c;
  logging := logging c; integrity := integrity c; registry := registry c; change_mgmt := change_mgmt c; dlp := dlp c;
  tpm := tpm c; metrics := metrics c; smtp := smtp c;
  tee_encrypt_key := tee_encrypt_key c |}.
End Args.

(** ** StartupPins *)
Module Pins.
Import Config.

Record StartupPins := {
  data_dir : option string; bind : option string; log_level : option string; device : option string;
  unix_socket : option (option string); no_isolation : bool; rag_enabled : option bool;
  embedding_model : option string; rag_collection : option string; admin_key : option string;
  models_dir : option string
}.

Definition of_args (a : Args.Args) : StartupPins := {|
  data_dir := Args.data_dir a; bind := Args.bind a; log_level := Args.log_level a; device := Args.device a;
  unix_socket := if Args.no_unix_socket a then Some None else socket_of <$> Args.unix_socket a;
  no_isolation := Args.no_isolation a; rag_enabled := if Args.rag a then Some true else None;
  embedding_model := Args.embedding_model a; rag_collection := Args.rag_collection a;
  admin_key := Args.admin_key a; models_dir := Args.models_dir a |}.

Definition apply (p : StartupPins) (c : DaemonConfig) : DaemonConfig := {|
  Config.data_dir := default (Config.data_dir c) (data_dir p);
  Config.models_dir := default (Config.models_dir c) (models_dir p);
  Config.bind := default (Config.bind c) (bind p);
  Config.unix_socket := default (Config.unix_socket c) (unix_socket p);
  tls_cert := tls_cert c; tls_key := tls_key c;
  Config.log_level := default (Config.log_level c) (log_level p);
  Config.device := default (Config.device c) (device p);
  inference := inference c; isolation := Args.set_mode (no_isolation p) (isolation c);
  auth := Args.set_key (admin_key p) (auth c);
  rag := with_rag (default (Config.rag_enabled (rag c)) (rag_enabled p))
           (default (Config.embedding_model (rag c)) (embedding_model p))
           (default (default_collection (rag c)) (rag_collection p)) (rag c);
  assistant := assistant c; logging := logging c; integrity := integrity c; registry := registry c;
  change_mgmt := change_mgmt c; dlp := dlp c; tpm := tpm c; metrics := metrics c;
  smtp := smtp c; tee_encrypt_key := tee_encrypt_key c |}.

Record StartupSnapshot := {
  s_bind : string; s_data_dir : string; s_device : string; s_rag_enabled : bool; s_embedding_model : string;
  s_unix_socket : option string; s_max_parallel : Z
}.

Definition snapshot (c : DaemonConfig) : StartupSnapshot := {|
  s_bind := Config.bind c; s_data_dir := Config.data_dir c; s_device := Config.device c;
  s_rag_enabled := Config.rag_enabled (rag c); s_embedding_model := Config.embedding_model (rag c);
  s_unix_socket := Config.unix_socket c; s_max_parallel := max_parallel (inference c) |}.

Definition moved {A B} `{!EqDecision A} (x y : A) (pin : option B) (name : string) : list string :=
  if bool_decide (x <> y) && negb (bool_decide (is_Some pin)) then [name] else [].

Definition restart_list (p : StartupPins) (s : StartupSnapshot) (c : DaemonConfig) : list string :=
  moved (Config.bind c) (s_bind s) (bind p) "bind" ++
  moved (Config.data_dir c) (s_data_dir s) (data_dir p) "data_dir" ++
  moved (Config.device c) (s_device s) (device p) "device" ++
  moved (Config.rag_enabled (rag c)) (s_rag_enabled s) (rag_enabled p) "rag.enabled" ++
  moved (Config.embedding_model (rag c)) (s_embedding_model s) (embedding_model p) "rag.embedding_model" ++
  moved (max_parallel (inference c)) (s_max_parallel s) (@None unit) "inference.max_parallel" ++
  moved (Config.unix_socket c) (s_unix_socket s) (unix_socket p) "unix_socket".
End Pins.

(** ** reload.rs and admin.rs *)
Module Reload.
Import Config.

Record OidcCfg := {
  o_issuer_url : string; o_client_id : string; o_client_secret : string; o_redirect_uri : string;
  o_default_role : string
}.

Record LdapCfg := {
  l_url : string; l_bind_dn : string; l_bind_pw : string; l_base_dn : string; l_uid_attr : string;
  l_group_role_map : list (string * string); l_default_role : string
}.

Record SamlCfg := {
  sa_idp_metadata_url : string; sa_sp_entity_id : string; sa_sp_cert : option string; sa_sp_key : option string;
  sa_idp_cert : option string; sa_default_role : string
}.

Record IdentityConfig := {
  i_oidc : option OidcCfg; i_ldap : option LdapCfg; i_saml : option SamlCfg; i_session_hours : Z
}.

Record SmtpCfg := {
  m_host : string; m_port : Z; m_username : option string; m_password : option string; m_from : string;
  m_starttls : bool
}.

Record RuntimeSettings := {
  admin_key : option string; rag_ingest_policy : AppState.RagIngestPolicy; rag_ingest_allowlist : list string;
  system_prompt : option string; identity : IdentityConfig; air_gap : bool; log_prompts : bool;
  content_log_retention_days : Z; audit_max_mb : Z; audit_max_age_days : Z; metrics_enabled : bool;
  metrics_require_auth : bool; smtp : option SmtpCfg; tee_encrypt_key : option string
}.

Definition identity_from_config (c : DaemonConfig) : IdentityConfig := {|
  i_session_hours := session_hours (auth c);
  i_oidc := (fun o => {| o_issuer_url := issuer_url o; o_client_id := client_id o; o_client_secret := client_secret o;
                         o_redirect_uri := redirect_uri o; o_default_role := oidc_role o |}) <$> oidc (auth c);
  i_ldap := (fun l => {| l_url := url l; l_bind_dn := bind_dn l; l_bind_pw := bind_pw l; l_base_dn := base_dn l;
                         l_uid_attr := uid_attr l;
                         l_group_role_map := (fun g => (group_dn g, group_role g)) <$> group_role_map l;
                         l_default_role := ldap_role l |}) <$> ldap (auth c);
  i_saml := (fun s => {| sa_idp_metadata_url := idp_metadata_url s; sa_sp_entity_id := sp_entity_id s;
                         sa_sp_cert := sp_cert s; sa_sp_key := sp_key s; sa_idp_cert := idp_cert s;
                         sa_default_role := saml_role s |}) <$> saml (auth c) |}.

Definition policy_of (p : RagIngestPolicy) : AppState.RagIngestPolicy :=
  match p with
  | Anyone => AppState.Anyone | AdminOnly => AppState.AdminOnly | Allowlist => AppState.Allowlist
  end.

Definition runtime_from_config (c : DaemonConfig) (gap : bool) (prompt : option string) : RuntimeSettings := {|
  admin_key := Config.admin_key (auth c); rag_ingest_policy := policy_of (ingest_policy (rag c));
  rag_ingest_allowlist := ingest_allowlist (rag c); system_prompt := prompt; identity := identity_from_config c;
  air_gap := gap; log_prompts := Config.log_prompts (logging c);
  content_log_retention_days := Config.content_log_retention_days (logging c);
  audit_max_mb := Config.audit_max_mb (logging c); audit_max_age_days := Config.audit_max_age_days (logging c);
  metrics_enabled := Config.metrics_enabled (metrics c); metrics_require_auth := require_auth (metrics c);
  smtp := (fun s => {| m_host := smtp_host s; m_port := smtp_port s; m_username := username s;
                       m_password := password s; m_from := from s; m_starttls := starttls s |}) <$> Config.smtp c;
  tee_encrypt_key := Config.tee_encrypt_key c |}.

Definition gap_of (c : DaemonConfig) : bool :=
  match Isolation.mode (isolation c) with Isolation.Disabled => false | _ => true end.

Definition rag_of (c : DaemonConfig) : RagEngine.RagConfig := {|
  RagEngine.default_collection := default_collection (rag c); RagEngine.chunk_size := Z.to_nat (chunk_size (rag c));
  RagEngine.chunk_overlap := Z.to_nat (chunk_overlap (rag c)); RagEngine.cfg_top_k := Z.to_nat (top_k (rag c));
  RagEngine.cfg_min_score := min_score (rag c); RagEngine.max_context_chars := max_context_chars (rag c) |}.

(** What the handlers see of the settings. *)
Definition install_auth (r : RuntimeSettings) (s : Auth.server) : Auth.server := {|
  Auth.user_db := Auth.user_db s; Auth.admin_key := admin_key r;
  Auth.session_hours := i_session_hours (identity r); Auth.smtp := bool_decide (is_Some (smtp r));
  Auth.auth_ip_limiter := Auth.auth_ip_limiter s |}.

Definition install (r : RuntimeSettings) (a : AppState.app) : AppState.app := {|
  AppState.wsv := {| WorkspaceApi.auth := install_auth r (AppState.server_of a);
                     WorkspaceApi.ws_db := WorkspaceApi.ws_db (AppState.wsv a);
                     WorkspaceApi.host := WorkspaceApi.host (AppState.wsv a) |};
  AppState.data := AppState.data a; AppState.trail := AppState.trail a; AppState.incident := AppState.incident a;
  AppState.audit_frozen := AppState.audit_frozen a; AppState.classification := AppState.classification a;
  AppState.rate_limiter := AppState.rate_limiter a; AppState.workspace_usage := AppState.workspace_usage a;
  AppState.workspace_audits := AppState.workspace_audits a;
  AppState.rt := {| AppState.rag_ingest_policy := rag_ingest_policy r;
                    AppState.rag_ingest_allowlist := rag_ingest_allowlist r; AppState.system_prompt := system_prompt r;
                    AppState.air_gap := air_gap r; AppState.log_prompts := log_prompts r;
                    AppState.tee_encrypt_key := tee_encrypt_key r |};
  AppState.isolation_ok := AppState.isolation_ok a |}.

(** The syntax of a log filter. *)
Class LogFilter := { filter_ok : string -> bool }.

Record ReloadResponse := { r_path : string; applied : list string; requires_restart : list string }.

Section reload.
Context `{!Toml, !LogFilter, !Isolation.Iptables}.
Context `{!JsonText, !TimeText, !Hmac, !Hex, !Sha256, !Zip, !Stamp}.

(** The services of a reload, and what else the daemon runs on. *)
Record daemon := {
  srv : Chat.chat_server; runtime : RuntimeSettings; queue : Queue.queue; isolator : Isolation.Isolator;
  log_filter : string; audit : Log.world; config_path : option string; pins : Pins.StartupPins;
  snapshot : Pins.StartupSnapshot
}.

Definition set_srv (d : daemon) (s : Chat.chat_server) : daemon := {|
  srv := s; runtime := runtime d; queue := queue d; isolator := isolator d; log_filter := log_filter d;
  audit := audit d; config_path := config_path d; pins := pins d; snapshot := snapshot d |}.
Definition set_runtime (r : RuntimeSettings) (d : daemon) : daemon := {|
  srv := srv d; runtime := r; queue := queue d; isolator := isolator d; log_filter := log_filter d;
  audit := audit d; config_path := config_path d; pins := pins d; snapshot := snapshot d |}.
Definition set_queue (q : Queue.queue) (d : daemon) : daemon := {|
  srv := srv d; runtime := runtime d; queue := q; isolator := isolator d; log_filter := log_filter d;
  audit := audit d; config_path := config_path d; pins := pins d; snapshot := snapshot d |}.
Definition set_isolator (i : Isolation.Isolator) (d : daemon) : daemon := {|
  srv := srv d; runtime := runtime d; queue := queue d; isolator := i; log_filter := log_filter d;
  audit := audit d; config_path := config_path d; pins := pins d; snapshot := snapshot d |}.
Definition set_filter (l : string) (d : daemon) : daemon := {|
  srv := srv d; runtime := runtime d; queue := queue d; isolator := isolator d; log_filter := l;
  audit := audit d; config_path := config_path d; pins := pins d; snapshot := snapshot d |}.
Definition set_audit (d : daemon) (w : Log.world) : daemon := {|
  srv := srv d; runtime := runtime d; queue := queue d; isolator := isolator d; log_filter := log_filter d;
  audit := w; config_path := config_path d; pins := pins d; snapshot := snapshot d |}.

(** The server on the settings in use. *)
Definition serving (d : daemon) : Chat.chat_server :=
  Chat.set_app (srv d) (install (runtime d) (Chat.sapp (srv d))).

Definition on_isolator {A} (m : SE Isolation.Isolator Isolation.iso_err A) : SE daemon config_err A := fun d =>
  let r := m (isolator d) in (set_isolator r.1 d, map_err (fun _ => IsolationFailed) r.2).

Definition on_audit {A} (m : SE Log.world audit_err A) : SE daemon config_err A := fun d =>
  let r := m (audit d) in (set_audit d r.1, map_err (fun _ => AuditFailed) r.2).

Definition with_rag_config (c : RagEngine.RagConfig) (s : Chat.chat_server) : Chat.chat_server := {|
  Chat.sapp := Chat.sapp s; Chat.store_ := Chat.store_ s;
  Chat.rag := RagEngine.apply_runtime_config c <$> Chat.rag s; Chat.stats := Chat.stats s |}.

(** The settings of a reload. *)
Definition reload_config (e : env) (p : Pins.StartupPins) (c : DaemonConfig) : DaemonConfig :=
  Pins.apply p (apply_env_overrides e c).

(** The steps of a reload of settings that were read. [f] holds the file of the prompt. *)
Definition set_log_level (c : DaemonConfig) : SE daemon config_err (list string) :=
  do! d := sget in
  match Pins.log_level (pins d) with
  | Some _ => sret []
  | None => if filter_ok (log_level c)
            then do! _ := smodify (set_filter (log_level c)) in sret ["log_level"] else sfail BadFilter
  end.

Definition set_rag (c : DaemonConfig) : SE daemon config_err (list string * list string) :=
  do! d := sget in
  match Chat.rag (srv d) with
  | Some _ => do! _ := smodify (fun d => set_srv d (with_rag_config (rag_of c) (srv d))) in sret (["rag"], [])
  | None => sret ([], if rag_enabled (rag c) then ["rag.enabled"] else [])
  end.

Definition reload_with (path : string) (c : DaemonConfig) (f : fs) (now : Z) (fault : Log.write_fault)
    : SE daemon config_err ReloadResponse :=
  do! d := sget in
  let restart := Pins.restart_list (pins d) (snapshot d) c in
  do! level := set_log_level c in
  do! _ := smodify (fun d => set_queue (Queue.set_max_waiting (max_queue_depth (inference c)) (queue d)) d) in
  do! _ := on_isolator (Isolation.reconfigure (isolation c)) in
  do! prompt := slift (resolved_system_prompt (assistant c) f) in
  do! r := set_rag c in
  do! _ := smodify (set_runtime (runtime_from_config c (gap_of c) prompt)) in
  do! _ := on_audit (Log.append fault now "daemon" (Events.ConfigReloaded path)) in
  sret {| r_path := path;
          applied := level ++ ["inference.max_queue_depth"; "isolation"; "assistant"] ++ r.1 ++ ["auth"];
          requires_restart := restart ++ r.2 |}.

Definition reload (e : env) (f : fs) (now : Z) (fault : Log.write_fault) : SE daemon config_err ReloadResponse :=
  do! d := sget in
  do! path := slift (ok_or (config_path d) NoConfigFile) in
  do! c := slift (load e path f) in
  reload_with path (reload_config e (pins d) c) f now fault.

(** *** admin.rs *)

Record admin_headers := { authorization : option string; x_api_key : option string }.

Definition require_admin (h : admin_headers) (key : option string) : bool :=
  match key with
  | None => false
  | Some k =>
    if String.eqb k "" then false else
    let provided := match (some? v := authorization h in Auth.strip_prefix "Bearer " v) with
                    | Some t => t | None => default "" (x_api_key h) end in
    Secure.ct_eq_str provided k
  end.

Inductive admin_err := Refused | Internal.

Definition reload_route (h : admin_headers) (e : env) (f : fs) (now : Z) (fault : Log.write_fault)
    : SE daemon admin_err ReloadResponse := fun d =>
  if require_admin h (admin_key (runtime d))
  then let r := reload e f now fault d in (r.1, map_err (fun _ => Internal) r.2)
  else (d, Err Refused).

(** *** probe.rs of the daemon *)

Definition PROBE_TARGETS : list (string * Z) := [("1.1.1.1", 53); ("8.8.8.8", 53); ("93.184.216.34", 80)].

Definition try_connect `{!Isolation.Network} (t : string * Z) : bool :=
  match Isolation.resolves (t.1 +:+ ":" +:+ show_u64 t.2) with
  | Some l => existsb Isolation.connects l | None => false
  end.

Definition snapshot_iptables (w : Isolation.fw) : string :=
  match Isolation.iptables_save w with Isolation.Exits true out => sha256_hex out | _ => "" end.

Definition probe_results `{!Isolation.Network} : list Events.ProbeResult :=
  (fun t => {| Events.host := t.1; Events.port := t.2; Events.reachable := try_connect t |}) <$> PROBE_TARGETS.

Definition isolated `{!Isolation.Network} : bool := negb (existsb try_connect PROBE_TARGETS).

Definition set_isolation_ok (b : bool) (a : AppState.app) : AppState.app := {|
  AppState.wsv := AppState.wsv a; AppState.data := AppState.data a; AppState.trail := AppState.trail a;
  AppState.incident := AppState.incident a; AppState.audit_frozen := AppState.audit_frozen a;
  AppState.classification := AppState.classification a; AppState.rate_limiter := AppState.rate_limiter a;
  AppState.workspace_usage := AppState.workspace_usage a; AppState.workspace_audits := AppState.workspace_audits a;
  AppState.rt := AppState.rt a; AppState.isolation_ok := b |}.

(** A turn of the loop. *)
Definition probe_tick `{!Isolation.Network} (now : Z) (fault : Log.write_fault) (d : daemon) : daemon :=
  if negb (air_gap (runtime d)) then d else
  let d := set_srv d (Chat.set_app (srv d) (set_isolation_ok isolated (Chat.sapp (srv d)))) in
  (signore (on_audit (Log.append fault now "probe"
     (Events.IsolationProbe isolated probe_results (snapshot_iptables (Isolation.firewall (isolator d)))))) d).1.

(** ** Properties *)

(** The command line as clap reads it: an option whose variable is set has a value. *)
Definition parsed (e : env) (a : Args.Args) : Prop :=
  Args.reads e "MARANODE_DATA_DIR" (Args.data_dir a) /\ Args.reads e "MARANODE_MODELS_DIR" (Args.models_dir a) /\
  Args.reads e "MARANODE_BIND" (Args.bind a) /\ Args.reads e "RUST_LOG" (Args.log_level a) /\
  Args.reads e "MARANODE_DEVICE" (Args.device a) /\ Args.reads e "MARANODE_UNIX_SOCKET" (Args.unix_socket a) /\
  Args.reads e "MARANODE_ADMIN_KEY" (Args.admin_key a) /\
  Args.reads e "MARANODE_EMBEDDING_MODEL" (Args.embedding_model a) /\
  Args.reads e "MARANODE_RAG_COLLECTION" (Args.rag_collection a) /\
  (is_on (e !! "MARANODE_RAG") = true -> Args.rag a = true).

Definition with_prompts_logged (b : bool) (r : RuntimeSettings) : RuntimeSettings := {|
  admin_key := admin_key r; rag_ingest_policy := rag_ingest_policy r; rag_ingest_allowlist := rag_ingest_allowlist r;
  system_prompt := system_prompt r; identity := identity r; air_gap := air_gap r; log_prompts := b || log_prompts r;
  content_log_retention_days := content_log_retention_days r; audit_max_mb := audit_max_mb r;
  audit_max_age_days := audit_max_age_days r; metrics_enabled := metrics_enabled r;
  metrics_require_auth := metrics_require_auth r; smtp := smtp r; tee_encrypt_key := tee_encrypt_key r |}.

Lemma pinned e v (o : option string) x : Args.reads e v o ->
  default (default x (e !! v)) o = default x o.
Proof. unfold Args.reads. intros Hr. destruct o; [done|]. cbn. destruct (e !! v) eqn:E; [|done]. by destruct Hr as [? [=]]. Qed.

Lemma moved_same {A B} `{!EqDecision A} (x : A) (pin : option B) n : Pins.moved x x pin n = [].
Proof. unfold Pins.moved. by rewrite (bool_decide_eq_false_2 (x <> x)) by tauto. Qed.

Lemma restart_same p c : Pins.restart_list p (Pins.snapshot c) c = [].
Proof. unfold Pins.restart_list, Pins.snapshot. cbn -[Pins.moved]. by rewrite !moved_same. Qed.

Lemma key_pinned e o c : Args.reads e "MARANODE_ADMIN_KEY" o ->
  Args.set_key o (match e !! "MARANODE_ADMIN_KEY" with Some k => with_admin_key (Some k) c | None => c end) =
  Args.set_key o c.
Proof. unfold Args.reads. intros Hr. destruct (e !! _) eqn:E; [|done]. destruct o; [done|]. by destruct Hr as [? [=]]. Qed.

Lemma socket_pinned e a c : Args.reads e "MARANODE_UNIX_SOCKET" (Args.unix_socket a) ->
  default (match e !! "MARANODE_UNIX_SOCKET" with Some v => socket_of v | None => unix_socket c end)
          (Pins.unix_socket (Pins.of_args a)) = unix_socket (Args.startup_config a c).
Proof.
  unfold Args.reads. intros Hr. cbn. destruct (Args.no_unix_socket a); [done|]. destruct (Args.unix_socket a); [done|]. cbn.
  destruct (e !! _) eqn:E; [|done]. by destruct Hr as [? [=]].
Qed.

Lemma rag_pinned (e : env) a c :
  (is_on (e !! "MARANODE_RAG") = true -> Args.rag a = true) ->
  default (is_on (e !! "MARANODE_RAG") || rag_enabled (rag c)) (if Args.rag a then Some true else None) =
  Args.rag a || rag_enabled (rag c).
Proof. intros Hr. destruct (Args.rag a); [done|]. cbn. destruct (is_on _); [|done]. by discriminate Hr. Qed.

(** The settings of a reload of the file that the daemon was started with. *)
Lemma same_settings e a c : parsed e a ->
  let s := Args.startup_config a c in let r := reload_config e (Pins.of_args a) c in
  data_dir r = data_dir s /\ bind r = bind s /\ device r = device s /\ log_level r = log_level s /\
  unix_socket r = unix_socket s /\ inference r = inference s /\ isolation r = isolation s /\ auth r = auth s /\
  rag r = rag s /\ assistant r = assistant s /\ metrics r = metrics s /\ Config.smtp r = Config.smtp s /\
  Config.tee_encrypt_key r = Config.tee_encrypt_key s /\
  logging r = with_log_prompts (is_on (e !! "MARANODE_LOG_PROMPTS") || Config.log_prompts (logging s)) (logging s).
Proof.
  intros (Hd & _ & Hb & Hl & Hv & Hu & Hk & Hm & Hc & Hr). cbv zeta.
  cbn -[Args.set_key from_option is_on]. unfold some_or. rewrite !pinned by done. rewrite key_pinned by done.
  repeat (split; [done|]). split; [by apply (socket_pinned e a c)|]. repeat (split; [done|]). split; [|done].
  unfold Args.set_rag, with_rag. cbn -[from_option is_on]. by rewrite rag_pinned.
Qed.

(** C24: A reload of an unchanged file asks for no restart and gives the settings of the start,
    but for the logging of prompts, whose variable the start does not read. *)
Theorem reload_equals_startup e a c gap p :
  parsed e a ->
  let s := Args.startup_config a c in let r := reload_config e (Pins.of_args a) c in
  Pins.restart_list (Pins.of_args a) (Pins.snapshot s) r = [] /\
  isolation r = isolation s /\ rag_of r = rag_of s /\ gap_of r = gap_of s /\
  runtime_from_config r gap p =
    with_prompts_logged (is_on (e !! "MARANODE_LOG_PROMPTS")) (runtime_from_config s gap p).
Proof.
  intros Hp s r. destruct (same_settings e a c Hp) as (Hd & Hb & Hv & Hl & Hu & Hi & His & Ha & Hr & Has & Hm & Hs & Ht & Hlog).
  fold s in Hd, Hb, Hv, Hl, Hu, Hi, His, Ha, Hr, Has, Hm, Hs, Ht, Hlog.
  fold r in Hd, Hb, Hv, Hl, Hu, Hi, His, Ha, Hr, Has, Hm, Hs, Ht, Hlog.
  split; [|split; [done|]].
  { assert (Pins.snapshot s = Pins.snapshot r) as -> by (unfold Pins.snapshot; by rewrite Hd, Hb, Hv, Hu, Hi, Hr).
    apply restart_same. }
  unfold rag_of, gap_of, runtime_from_config, identity_from_config, with_prompts_logged.
  rewrite Hr, His, Ha, Hm, Hs, Ht, Hlog. done.
Qed.

(** *** Outcomes *)

(** The host after the first steps of a reload, and the daemon after the settings. *)
Definition level_changed (c : DaemonConfig) (d : daemon) : daemon :=
  match Pins.log_level (pins d) with Some _ => d | None => set_filter (log_level c) d end.

Definition host_changed (c : DaemonConfig) (d : daemon) : daemon :=
  set_isolator (Isolation.reconfigure (isolation c) (isolator d)).1
    (set_queue (Queue.set_max_waiting (max_queue_depth (inference c)) (queue d))
       (level_changed c d)).

Definition settings_changed (c : DaemonConfig) (prompt : option string) (d : daemon) : daemon :=
  set_runtime (runtime_from_config c (gap_of c) prompt) (set_srv d (with_rag_config (rag_of c) (srv d))).

Lemma level_cases c d :
  set_log_level c d = (d, Err BadFilter) /\ Pins.log_level (pins d) = None /\ filter_ok (log_level c) = false \/
  exists l, set_log_level c d = (level_changed c d, Ok l).
Proof.
  unfold set_log_level, level_changed, sbind, sget, smodify. destruct (Pins.log_level _) eqn:E; [by eauto|].
  destruct (filter_ok _) eqn:Ef; [by eauto|]. by left.
Qed.

Lemma level_rest c d : isolator (level_changed c d) = isolator d /\ queue (level_changed c d) = queue d.
Proof. unfold level_changed. by destruct (Pins.log_level _). Qed.

Lemma rag_step c d : exists r,
  set_rag c d = (set_srv d (with_rag_config (rag_of c) (srv d)), Ok r).
Proof.
  unfold set_rag, sbind, sget, smodify. destruct d as [[a st g ss] r q i l w cp p sn]. unfold with_rag_config, set_srv.
  cbn. destruct g; eexists; reflexivity.
Qed.

Lemma prompt_err a f er : resolved_system_prompt a f = Err er -> er = BadPrompt.
Proof.
  unfold resolved_system_prompt. destruct (system_prompt_file a) as [p|]; [|done].
  destruct (read_to_string f p); cbn; congruence.
Qed.

Lemma load_err e p f er : load e p f = Err er -> er = Unreadable \/ er = BadToml.
Proof.
  unfold load. destruct (negb _); [done|]. destruct (read_to_string f p) as [t|]; cbn; [|intros [= <-]; auto].
  destruct (toml_parse e t); cbn; [done|]. intros [= <-]. auto.
Qed.

(** Where the steps of a reload stop. *)
Lemma reload_with_spec path c f now fault d x :
  reload_with path c f now fault d = x ->
  let h := host_changed c d in
  match x.2 with
  | Err BadFilter => x.1 = d /\ Pins.log_level (pins d) = None /\ filter_ok (log_level c) = false
  | Err IsolationFailed => x.1 = h /\ is_ok (Isolation.reconfigure (isolation c) (isolator d)).2 = false
  | Err BadPrompt => x.1 = h /\ is_ok (Isolation.reconfigure (isolation c) (isolator d)).2 = true /\
                     is_ok (resolved_system_prompt (assistant c) f) = false
  | Err AuditFailed | Ok _ => is_ok (Isolation.reconfigure (isolation c) (isolator d)).2 = true /\
      let y := Log.append fault now "daemon" (Events.ConfigReloaded path) (audit d) in
      is_ok y.2 = is_ok x.2 /\
      exists prompt, resolved_system_prompt (assistant c) f = Ok prompt /\
      x.1 = set_audit (settings_changed c prompt h) y.1
  | Err _ => False
  end.
Proof.
  cbv zeta. unfold reload_with, host_changed. destruct (level_rest c d) as [Hi Hq].
  unfold sbind at 1, sget at 1. cbv beta iota zeta. unfold sbind at 1.
  destruct (level_cases c d) as [[-> Hf]|[l ->]]; [by intros <-|]. set (d1 := level_changed c d) in *.
  unfold sbind at 1, smodify at 1. cbv beta iota. unfold sbind at 1, on_isolator at 1.
  cbn [isolator set_queue]. rewrite Hi, Hq.
  destruct (Isolation.reconfigure (isolation c) (isolator d)) as [i [[]|er]]; cbn [fst snd map_err is_ok]; [|by intros <-].
  unfold sbind at 1, slift at 1. destruct (resolved_system_prompt (assistant c) f) as [prompt|er] eqn:Ep.
  2:{ apply prompt_err in Ep as ->. by intros <-. }
  unfold sbind at 1. match goal with |- context [set_rag c ?d] => destruct (rag_step c d) as [r ->] end.
  unfold sbind at 1, smodify at 1. cbv beta iota. unfold sbind at 1, on_audit at 1.
  match goal with |- context [audit ?x] => replace (audit x) with (audit d) by (subst d1; unfold level_changed;
    by destruct (Pins.log_level _)) end.
  destruct (Log.append fault now "daemon" (Events.ConfigReloaded path) (audit d)) as [w' [[]|er]];
    intros <-; (split; [done|]); (split; [done|]); by exists prompt.
Qed.

Lemma reload_spec e f now fault d x :
  reload e f now fault d = x ->
  x.1 = d /\ (x.2 = Err NoConfigFile \/ x.2 = Err Unreadable \/ x.2 = Err BadToml) \/
  exists path c, config_path d = Some path /\ load e path f = Ok c /\
    reload_with path (reload_config e (pins d) c) f now fault d = x.
Proof.
  unfold reload. unfold sbind at 1, sget at 1. cbv beta iota. unfold sbind at 1, slift at 1.
  destruct (config_path d) as [path|]; cbn [ok_or]; [|intros <-; by auto].
  unfold sbind at 1, slift at 1. destruct (load e path f) as [c|er] eqn:El; [eauto 8|].
  intros <-. left. split; [done|]. destruct (load_err _ _ _ _ El) as [-> | ->]; auto.
Qed.

(** What the first steps of a reload set: the filter of the log, unless the command line
    holds it, the bound of the queue and the configuration of the isolation; and what no
    reload changes. *)
Definition host_follows (c : DaemonConfig) (d d' : daemon) : Prop :=
  log_filter d' = match Pins.log_level (pins d) with Some _ => log_filter d | None => log_level c end /\
  Queue.max_waiting (queue d') = max_queue_depth (inference c) /\
  Queue.requests (queue d') = Queue.requests (queue d) /\ Queue.permits (queue d') = Queue.permits (queue d) /\
  Isolation.config (isolator d') = isolation c /\
  config_path d' = config_path d /\ pins d' = pins d /\ snapshot d' = snapshot d.

(** The host drops by default and has the rules of the file, where the mode has rules. *)
Definition host_enforces (c : DaemonConfig) (d' : daemon) : Prop :=
  Isolation.plain (isolation c) = true -> Isolation.mode (isolation c) <> Isolation.Disabled ->
  Isolation.all_drop (Isolation.firewall (isolator d')) /\
  forall chain r, In (chain, r) (Isolation.wanted (isolation c)) ->
    In r (Isolation.rules (Isolation.firewall (isolator d')) chain).

(** The settings of the requests, those of retrieval where there is retrieval, and nothing
    else of what is served. *)
Definition settings_follow (c : DaemonConfig) (f : fs) (d d' : daemon) : Prop :=
  (exists prompt, resolved_system_prompt (assistant c) f = Ok prompt /\
     runtime d' = runtime_from_config c (gap_of c) prompt) /\
  Chat.rag (srv d') = (fun g => {| RagEngine.store := RagEngine.store g; RagEngine.config := rag_of c |}) <$> Chat.rag (srv d) /\
  Chat.sapp (srv d') = Chat.sapp (srv d) /\ Chat.store_ (srv d') = Chat.store_ (srv d) /\
  Chat.stats (srv d') = Chat.stats (srv d).

Definition settings_stay (d d' : daemon) : Prop :=
  runtime d' = runtime d /\ srv d' = srv d /\ audit d' = audit d.

Lemma host_changed_follows c d : host_follows c d (host_changed c d) /\ settings_stay d (host_changed c d).
Proof.
  unfold host_follows, settings_stay, host_changed. cbn -[level_changed Isolation.reconfigure].
  rewrite Isolation.reconfigure_config. unfold level_changed. by destruct (Pins.log_level _).
Qed.

Lemma reconfigure_enforces c i :
  Isolation.plain c = true -> Isolation.mode c <> Isolation.Disabled -> is_ok (Isolation.reconfigure c i).2 = true ->
  let g := Isolation.firewall (Isolation.reconfigure c i).1 in
  Isolation.all_drop g /\ forall chain r, In (chain, r) (Isolation.wanted c) -> In r (Isolation.rules g chain).
Proof.
  intros Hp Hm. cbv zeta.
  assert (exists g, Isolation.reconfigure c i = Isolation.apply {| Isolation.config := c; Isolation.firewall := g |})
    as [g ->]; [|by apply (Isolation.apply_spec {| Isolation.config := c; Isolation.firewall := g |})].
  unfold Isolation.reconfigure, sbind, sget. destruct (_ || _); unfold signore, smodify; cbn [fst snd]; by eexists.
Qed.

Lemma host_changed_enforces c d :
  is_ok (Isolation.reconfigure (isolation c) (isolator d)).2 = true -> host_enforces c (host_changed c d).
Proof. intros Hok Hp Hm. by apply reconfigure_enforces. Qed.

(** The outcome of a reload of the file at [path], whose settings are [c]. *)
Definition reload_outcome (path : string) (c : DaemonConfig) (f : fs) (now : Z) (fault : Log.write_fault)
    (d : daemon) (x : daemon * result config_err ReloadResponse) : Prop :=
  match x.2 with
  | Ok _ | Err AuditFailed =>
    host_follows c d x.1 /\ host_enforces c x.1 /\ settings_follow c f d x.1 /\
    let y := Log.append fault now "daemon" (Events.ConfigReloaded path) (audit d) in
    audit x.1 = y.1 /\ is_ok x.2 = is_ok y.2
  | Err IsolationFailed =>
    host_follows c d x.1 /\ settings_stay d x.1 /\
    is_ok (Isolation.reconfigure (isolation c) (isolator d)).2 = false
  | Err BadPrompt =>
    host_follows c d x.1 /\ host_enforces c x.1 /\ settings_stay d x.1 /\
    is_ok (resolved_system_prompt (assistant c) f) = false
  | Err BadFilter =>
    x.1 = d /\ Pins.log_level (pins d) = None /\ filter_ok (log_level c) = false
  | Err _ => False
  end.

Lemma reload_follows path c f now fault d x :
  reload_with path c f now fault d = x -> reload_outcome path c f now fault d x.
Proof.
  intros Hx. pose proof (reload_with_spec _ _ _ _ _ _ _ Hx) as E. cbv zeta in E.
  destruct (host_changed_follows c d) as [Hh Hs]. destruct x as [d' r]. cbn [fst snd] in E.
  assert (forall w, is_ok (Isolation.reconfigure (isolation c) (isolator d)).2 = true ->
    (exists prompt, resolved_system_prompt (assistant c) f = Ok prompt /\
       d' = set_audit (settings_changed c prompt (host_changed c d)) w) ->
    host_follows c d d' /\ host_enforces c d' /\ settings_follow c f d d' /\ audit d' = w) as Hset.
  { intros w Hi (prompt & Hpr & ->). split; [exact Hh|]. split; [by apply host_changed_enforces|]. split; [|done].
    destruct Hs as (_ & Hsrv & _). unfold settings_follow. cbn -[host_changed runtime_from_config]. rewrite Hsrv.
    split; [by exists prompt|done]. }
  unfold reload_outcome. destruct r as [r|[]]; cbn [fst snd] in *; try done.
  - destruct E as (Hi & Ho & Hd). destruct (Hset _ Hi Hd) as (? & ? & ? & ?). by rewrite Ho.
  - destruct E as (-> & Hi & Hb). split; [done|]. split; [by apply host_changed_enforces|]. by split.
  - by destruct E as [-> Hb].
  - destruct E as (Hi & Ho & Hd). destruct (Hset _ Hi Hd) as (? & ? & ? & ?). by rewrite Ho.
Qed.

Lemma reload_steps e f now fault d :
  let x := reload e f now fault d in
  x.1 = d /\ (x.2 = Err NoConfigFile \/ x.2 = Err Unreadable \/ x.2 = Err BadToml) \/
  exists path c, config_path d = Some path /\ load e path f = Ok c /\
    reload_outcome path (reload_config e (pins d) c) f now fault d x.
Proof.
  cbv zeta. destruct (reload_spec e f now fault d _ eq_refl) as [|(path & c & Hp & Hl & E)]; [by left|].
  right. exists path, c. split; [done|]. split; [done|]. by apply reload_follows.
Qed.

(** C25: How a reload ends. It changes nothing when there is no file or the file cannot be
    read. Otherwise, with the settings of the file, the variables and the command line:
    a reload that succeeds, or fails only at the entry of the audit log, leaves the
    filter of the log, the bound of the queue, the isolation (its configuration, its
    rules and the dropping by default), the settings of retrieval and those of the
    requests as these say, touches nothing else of what is served, and appended the
    entry exactly when it succeeds. One whose filter is not well formed changes nothing.
    One that fails at the isolation or at the prompt has changed filter, queue and
    isolation, and left the settings of retrieval and of the requests and the log. *)
Theorem reload_outcomes e f now fault d :
  let x := reload e f now fault d in
  x.1 = d /\ (x.2 = Err NoConfigFile \/ x.2 = Err Unreadable \/ x.2 = Err BadToml) \/
  exists path c, config_path d = Some path /\ load e path f = Ok c /\
    reload_outcome path (reload_config e (pins d) c) f now fault d x.
Proof. exact (reload_steps e f now fault d). Qed.

(** A reload when the configuration file is gone takes the defaults: without a pinned key,
    every privileged route and every ingestion is open, and no request can reload again. *)
Theorem deleted_config_opens e f now fault d path :
  config_path d = Some path -> exists_ f path = false ->
  Pins.admin_key (pins d) = None -> e !! "MARANODE_ADMIN_KEY" = None ->
  let x := reload e f now fault d in
  is_ok x.2 = true ->
  (forall h, RagApi.check_ingest_permission h (Chat.sapp (serving x.1)) = Ok tt) /\
  (forall rfc h perm t, (@Auth.authorize_privileged rfc h perm t (AppState.server_of (Chat.sapp (serving x.1)))).2 = Ok tt) /\
  forall h e' f' now' fault', (reload_route h e' f' now' fault' x.1) = (x.1, Err Refused).
Proof.
  intros Hp Hf Hk He. cbv zeta. intros Hok.
  pose proof (reload_steps e f now fault d) as Ho. cbv zeta in Ho.
  destruct (reload e f now fault d) as [d' [r|]]; [|done]. cbn [fst snd] in *.
  destruct Ho as [[_ [[=]|[[=]|[=]]]]|(path' & c & Hp' & Hl & _ & _ & [(prompt & _ & Hr) _] & _)].
  rewrite Hp in Hp'. injection Hp' as <-. cbn [fst] in Hr.
  unfold load in Hl. rewrite Hf in Hl. injection Hl as <-.
  assert (admin_key (runtime d') = None) as Hkey.
  { rewrite Hr. cbn -[Args.set_key]. rewrite Hk, He. done. }
  assert (rag_ingest_policy (runtime d') = AppState.Anyone) as Hpol by (by rewrite Hr).
  split; [|split].
  - intros h. unfold RagApi.check_ingest_permission, serving. cbn. rewrite Hpol. by rewrite bool_decide_eq_true_2.
  - intros rfc h perm t. unfold Auth.authorize_privileged, sbind, sget, serving. cbn. rewrite Hkey.
    destruct (Auth.bearer_from_headers h); cbn; [|done]. by destruct (UserDb.resolve_session _ _ _); [destruct (_ && _)|].
  - intros h e' f' now' fault'. unfold reload_route. by rewrite Hkey.
Qed.

Context `{!Rfc3339, !DateTimeText, !Aead, !Base64, !Ed25519, !RagEngine.Embedder, !Chat.InferenceEngine,
          !Isolation.Network}.

Lemma tick_rest now fault d :
  runtime (probe_tick now fault d) = runtime d /\
  (air_gap (runtime d) = true -> AppState.isolation_ok (Chat.sapp (srv (probe_tick now fault d))) = isolated) /\
  (air_gap (runtime d) = false -> probe_tick now fault d = d).
Proof. unfold probe_tick. by destruct (air_gap (runtime d)). Qed.

(** A probe that reaches a target closes the chat for as long as the settings say air-gapped;
    under settings that do not, or after a probe that reaches none, the isolation refuses nothing. *)
Theorem probe_gates_chat now fault d :
  let d' := probe_tick now fault d in
  let a := Chat.sapp (serving d') in
  (existsb try_connect PROBE_TARGETS = true -> air_gap (runtime d) = true ->
   forall ws req dr t, Chat.run ws req dr t (serving d') = (serving d', Err Auth.ServiceUnavailable)) /\
  (existsb try_connect PROBE_TARGETS = false \/ air_gap (runtime d) = false ->
   AppState.air_gap (AppState.rt a) && negb (AppState.isolation_ok a) = false).
Proof.
  cbv zeta. destruct (tick_rest now fault d) as (Hr & Hi & Hs). split.
  - intros Hx Hg ws req dr t. unfold Chat.run, Chat.admit_request, sbind at 1, sget at 1. cbn.
    rewrite Hr, Hg, (Hi Hg). unfold isolated. by rewrite Hx.
  - intros Hx. cbn. rewrite Hr. destruct (air_gap (runtime d)) eqn:Hg; [|done].
    destruct Hx as [Hx|]; [|done]. rewrite (Hi eq_refl). unfold isolated. by rewrite Hx.
Qed.
End reload.
End Reload.
