(* ===== verification/ModelApi.v ===== *)
(** * The model routes and the metrics

    Models [routes/models.rs] (Module [ModelApi]) and [routes/metrics.rs] (Module
    [Metrics]) of [maranode-api]. A size is printed from its binary64 value, rounded to
    the digits shown with ties to even. *)

From Stdlib Require Import ZArith Lia Ascii String SpecFloat.
From S2P Require Import Prelude Json Crypto Common Events Fs UserDb Auth WorkspaceDb WorkspaceApi AppState ModelStore F32 SortBy RagChunk RagText RagStore RagEngine.
From S2P Require Import Chat Llama Quant Config Reload.
Open Scope string_scope.
Open Scope list_scope.
Open Scope Z_scope.

Module ModelApi.
Import Auth.Auth AppState.AppState Chat.Chat Common.Models.

Record PageQuery := { q_limit : option Z; q_offset : option Z }.
Definition default_page_limit : Z := 100.
Definition limit (q : PageQuery) : Z := Z.max (Z.min (default default_page_limit (q_limit q)) 500) 1.
Definition offset (q : PageQuery) : Z := default 0 (q_offset q).

(** [skip(offset).take(limit)], the total and [has_more]. *)
Record page (A : Type) := { data : list A; total : Z; has_more : bool }.
Arguments data {A} _.
Arguments total {A} _.
Arguments has_more {A} _.
Arguments Build_page {A} _ _ _.

Definition paged {A B} (q : PageQuery) (f : A -> B) (all : list A) : page B :=
  let total := Z.of_nat (List.length all) in
  let data := f <$> take (Z.to_nat (limit q)) (drop (Z.to_nat (offset q)) all) in
  Build_page data total (offset q + Z.of_nat (List.length data) <? total).

Record ModelObject := { o_id : string; created : Z }.

(** Seconds since the epoch. *)
Definition timestamp (t : Z) : Z := t / 1000000000.

Definition model_object (m : ModelManifest) : ModelObject :=
  {| o_id := display (model_id m); created := timestamp (imported_at m) |}.

Definition GB : Z := 1073741824.
Definition MB : Z := 1048576.

Definition round_half_even (n d : Z) : Z :=
  let q := n / d in let r := n mod d in
  if (2 * r <? d) || ((2 * r =? d) && Z.even q) then q else q + 1.

(** [{:.0}] and [{:.1}] of a float that is not negative: its tenths, or units. *)
Definition fixed (scale : Z) (x : spec_float) : Z :=
  match x with
  | S754_finite _ m e => round_half_even (Z.pos m * scale * 2 ^ Z.max e 0) (2 ^ Z.max (- e) 0)
  | _ => 0
  end.

Definition human_size (bytes : Z) : string :=
  if GB <=? bytes then
    let t := fixed 10 (F64.div (F64.of_Z bytes) (F64.of_Z GB)) in
    show_u64 (t / 10) +:+ "." +:+ show_u64 (t mod 10) +:+ " GB"
  else if MB <=? bytes then show_u64 (fixed 1 (F64.div (F64.of_Z bytes) (F64.of_Z MB))) +:+ " MB"
  else show_u64 bytes +:+ " B".

Record ModelDetail := {
  d_id : string; d_name : string; d_tag : string; d_model_type : string; d_size_bytes : Z;
  d_size_human : string; d_sha256 : string; d_quantization : option string; d_imported_at : string;
  d_context_length : option Z;
}.

Inductive model_route :=
| ListModels (q : PageQuery)
| ListDetails (q : PageQuery)
| RemoveModel (raw_id : string).

Inductive model_answer :=
| Models (p : page ModelObject)
| Details (p : page ModelDetail)
| Removed (raw_id : string).

Section routes.
Context `{!Rfc3339, !DateTimeText, !Sha256}.

Definition model_detail (m : ModelManifest) : ModelDetail := {|
  d_id := display (model_id m); d_name := name (model_id m); d_tag := tag (model_id m);
  d_model_type := match model_type m with Llm => "llm" | Embedding => "embedding" end;
  d_size_bytes := size_bytes m; d_size_human := human_size (size_bytes m); d_sha256 := sha256 m;
  d_quantization := quantization m; d_imported_at := to_rfc3339 (imported_at m);
  d_context_length := context_length m |}.

Definition is_llm (m : ModelManifest) : bool := match model_type m with Llm => true | Embedding => false end.

Definition list_models (q : PageQuery) (now : Z) (s : ModelStore.store) : page ModelObject :=
  paged q model_object (List.filter is_llm (ModelStore.list_models now s)).

Definition list_models_details (q : PageQuery) (now : Z) (s : ModelStore.store) : page ModelDetail :=
  paged q model_detail (ModelStore.list_models now s).

Definition set_store (st : ModelStore.store) (s : chat_server) : chat_server :=
  {| sapp := sapp s; store_ := st; rag := rag s; stats := stats s |}.

Definition remove_model (h : headers) (raw_id : string) (now : Z) : SE chat_server api_error string :=
  do! _ := on_app (AppState.AppState.on_auth (authorize_permission h Common.User.ModelManage now)) in
  do! m := slift (ok_or (Common.Models.parse raw_id) BadRequest) in
  do! s := sget in
  let r := ModelStore.remove m (store_ s) in
  do! _ := sput (set_store r.1 s) in
  if negb r.2 then sfail NotFound else
  do! _ := on_app (audit_append MainLog "api" (Events.ModelRemoved m)) in
  sret raw_id.

Definition handle_models (h : headers) (q : model_route) (now : Z) : SE chat_server api_error model_answer :=
  do! s := sget in
  match q with
  | ListModels q => sret (Models (list_models q now (store_ s)))
  | ListDetails q => sret (Details (list_models_details q now (store_ s)))
  | RemoveModel raw_id => do! id := remove_model h raw_id now in sret (Removed id)
  end.

(** ** Paging *)

(** The query of the [k]-th page. *)
Definition nth_page (l : option Z) (k : nat) : PageQuery :=
  {| q_limit := l; q_offset := Some (Z.of_nat k * limit {| q_limit := l; q_offset := None |}) |}.

Lemma limit_bounds q : 1 <= limit q <= 500.
Proof. unfold limit. lia. Qed.

Lemma limit_nth l k : limit (nth_page l k) = limit (nth_page l 0).
Proof. done. Qed.
Lemma offset_nth l k : offset (nth_page l k) = Z.of_nat k * limit (nth_page l 0).
Proof. done. Qed.

Lemma paged_data {A B} l k (f : A -> B) all :
  data (paged (nth_page l k) f all)
  = f <$> take (Z.to_nat (limit (nth_page l k))) (drop (k * Z.to_nat (limit (nth_page l k))) all).
Proof.
  unfold paged. cbn [data]. unfold offset, nth_page at 2. cbn [q_offset from_option Datatypes.id].
  change (limit {| q_limit := l; q_offset := None |}) with (limit (nth_page l k)).
  pose proof (limit_bounds (nth_page l k)). do 3 f_equal. lia.
Qed.

Lemma pages_take {A B} l (f : A -> B) all n :
  concat ((fun k => data (paged (nth_page l k) f all)) <$> seq 0 n)
  = f <$> take (n * Z.to_nat (limit (nth_page l 0))) all.
Proof.
  induction n as [|n IH]; [done|].
  rewrite seq_S, fmap_app, concat_app, IH, fmap_cons, fmap_nil. cbn [concat Nat.add]. rewrite app_nil_r, paged_data.
  change (limit (nth_page l n)) with (limit (nth_page l 0)). set (L := Z.to_nat _).
  rewrite <- fmap_app, take_take_drop. do 2 f_equal. lia.
Qed.

(** The pages of a listing, taken in order with one limit, are the list: none of its items
    is lost or repeated, more is announced exactly when more follows, and a page that
    announces more is full. *)
Theorem pages_are_the_list {A B} l (f : A -> B) (all : list A) n :
  let L := Z.to_nat (limit (nth_page l 0)) in
  concat ((fun k => data (paged (nth_page l k) f all)) <$> seq 0 n) = f <$> take (n * L) all /\
  (forall k, has_more (paged (nth_page l k) f all) = true <-> (S k * L < List.length all)%nat) /\
  (forall k, has_more (paged (nth_page l k) f all) = true -> List.length (data (paged (nth_page l k) f all)) = L) /\
  (1 <= L <= 500)%nat.
Proof.
  cbv zeta. pose proof (limit_bounds (nth_page l 0)) as HL.
  assert (Hm : forall k, has_more (paged (nth_page l k) f all) = true <->
    (S k * Z.to_nat (limit (nth_page l 0)) < List.length all)%nat).
  { intros k. unfold paged. cbn [has_more]. rewrite Z.ltb_lt, length_fmap, length_take, length_drop, (limit_nth l k), offset_nth.
    destruct (Z_of_nat_complete (limit (nth_page l 0)) ltac:(lia)) as (L & ->).
    rewrite <- Nat2Z.inj_mul, !Nat2Z.id. lia. }
  split; [apply pages_take|]. split; [exact Hm|]. split; [|lia].
  intros k Hk%Hm. rewrite paged_data, length_fmap, length_take, length_drop.
  change (limit (nth_page l k)) with (limit (nth_page l 0)). lia.
Qed.

(** ** Removal *)

Lemma find_removed m m' (l : list ModelStore.model_row) :
  List.find (ModelStore.is_model m') (List.filter (fun r => negb (ModelStore.is_model m r)) l)
  = if bool_decide (m' = m) then None else List.find (ModelStore.is_model m') l.
Proof.
  assert (Hsame : forall r, ModelStore.is_model m r = true -> ModelStore.is_model m' r = bool_decide (m' = m)).
  { intros r. unfold ModelStore.is_model. destruct m as [a b], m' as [c d]; simpl. rewrite andb_true_iff, !String.eqb_eq.
    intros [-> ->]. case_bool_decide as E; [injection E as -> ->; by rewrite !String.eqb_refl|].
    destruct (String.eqb_spec a c), (String.eqb_spec b d); simpl; congruence. }
  induction l as [|r l IH]; simpl; [by case_bool_decide|].
  destruct (ModelStore.is_model m r) eqn:E; simpl.
  - rewrite IH, (Hsame r E). by case_bool_decide.
  - rewrite IH. case_bool_decide as Hm; [subst; by rewrite E|]. done.
Qed.

Lemma get_removed m m' now s :
  ModelStore.get m' now (ModelStore.remove m s).1 = if bool_decide (m' = m) then None else ModelStore.get m' now s.
Proof.
  unfold ModelStore.get. unfold ModelStore.remove. destruct (List.find (ModelStore.is_model m) _) as [r|] eqn:E; cbn [fst ModelStore.models].
  - rewrite find_removed. by case_bool_decide.
  - case_bool_decide as Hm; [subst; by rewrite E|done].
Qed.

Lemma remove_found m now s : (ModelStore.remove m s).2 = true <-> ModelStore.get m now s <> None.
Proof.
  unfold ModelStore.remove, ModelStore.get. destruct (List.find (ModelStore.is_model m) _); simpl; [done|].
  split; [done|congruence].
Qed.

Lemma permission_pure h now s :
  on_app (AppState.AppState.on_auth (authorize_permission h Common.User.ModelManage now)) s
  = (s, (authorize_permission h Common.User.ModelManage now (server_of (sapp s))).2).
Proof.
  unfold on_app. rewrite AppState.AppState.on_auth_same; [by destruct s|].
  unfold authorize_permission, authorize_privileged, sbind, sget, sret, sfail. by repeat case_match.
Qed.

(** A removal needs the permission and a model of the table; it takes that model out and no
    other, and is recorded. In every other case nothing changes. *)
Theorem remove_model_spec h raw_id now s :
  let r := remove_model h raw_id now s in
  match r.2 with
  | Ok id =>
    is_ok (authorize_permission h Common.User.ModelManage now (server_of (sapp s))).2 = true /\
    exists m, Common.Models.parse raw_id = Some m /\ ModelStore.get m now (store_ s) <> None /\
      (forall m', ModelStore.get m' now (store_ r.1)
                  = if bool_decide (m' = m) then None else ModelStore.get m' now (store_ s)) /\
      trail (sapp r.1) = trail (sapp s) ++ [{| c_log := MainLog; c_actor := "api"; c_event := Events.ModelRemoved m |}]
  | Err _ => r.1 = s
  end.
Proof.
  cbv zeta. unfold remove_model, slift, sget, sput. unfold sbind. rewrite permission_pure.
  destruct (snd (authorize_permission h Common.User.ModelManage now (server_of (sapp s)))) as [[]|e]; [|done].
  destruct (Common.Models.parse raw_id) as [m|]; [|done]. cbn [ok_or].
  destruct (snd (ModelStore.remove m (store_ s))) eqn:E; cbn [negb].
  - rewrite (remove_found m now) in E. cbn. split; [done|].
    exists m. split; [done|]. split; [done|]. split; [|done]. intros m'. apply get_removed.
  - cbn. unfold ModelStore.remove in *. destruct (List.find _ _); [done|]. by destruct s.
Qed.

End routes.

Example four_gb : human_size 4683073536 = "4.4 GB" /\ human_size 5000000 = "5 MB" /\ human_size 999 = "999 B".
Proof. by vm_compute. Qed.

End ModelApi.

(** ** The metrics *)

Module Metrics.
Import Auth.Auth.

Record MetricsSnapshot := {
  uptime_seconds : Z; requests : Z; errors : Z; tokens_in : Z; tokens_out : Z; duration_ms_total : Z;
  queue_depth : Z; queue_max : Z; audit_seq : Z; workspaces : Z; m_air_gap : bool; m_isolation_ok : bool;
  m_audit_frozen : bool; version : string;
}.

Definition line (name kind help : string) (value : Z) : string :=
  "# HELP " +:+ name +:+ " " +:+ help +:+ nl +:+ "# TYPE " +:+ name +:+ " " +:+ kind +:+ nl
  +:+ name +:+ " " +:+ show_u64 value +:+ nl.

Definition counter (name help : string) (value : Z) : string := line name "counter" help value.
Definition gauge (name help : string) (value : Z) : string := line name "gauge" help value.

Definition escape (label : string) : string :=
  replace_char QUOTE (String "\" quote) (replace_char "\" "\\" label).

Definition b2u (b : bool) : Z := if b then 1 else 0.

Definition build_info (v : string) : string :=
  "# HELP maranode_build_info Build information." +:+ nl +:+ "# TYPE maranode_build_info gauge" +:+ nl
  +:+ "maranode_build_info{version=" +:+ quote +:+ escape v +:+ quote +:+ "} 1" +:+ nl.

Definition encode_metrics (m : MetricsSnapshot) : string :=
  counter "maranode_requests_total" "Total API requests handled." (requests m)
  +:+ counter "maranode_request_errors_total" "API requests that ended in an error." (errors m)
  +:+ counter "maranode_tokens_input_total" "Prompt tokens processed." (tokens_in m)
  +:+ counter "maranode_tokens_output_total" "Generated tokens produced." (tokens_out m)
  +:+ counter "maranode_request_duration_milliseconds_total" "Summed handler duration in milliseconds." (duration_ms_total m)
  +:+ gauge "maranode_uptime_seconds" "Seconds since the daemon started." (uptime_seconds m)
  +:+ gauge "maranode_inference_queue_depth" "Requests waiting in the inference queue." (queue_depth m)
  +:+ gauge "maranode_inference_queue_max" "Maximum inference queue depth." (queue_max m)
  +:+ gauge "maranode_audit_log_sequence" "Sequence number of the last audit entry." (audit_seq m)
  +:+ gauge "maranode_workspaces" "Number of workspaces with an audit log." (workspaces m)
  +:+ gauge "maranode_air_gap_enabled" "1 when air-gap enforcement is on." (b2u (m_air_gap m))
  +:+ gauge "maranode_isolation_ok" "1 when the last isolation probe found no egress." (b2u (m_isolation_ok m))
  +:+ gauge "maranode_audit_frozen" "1 when the audit log is frozen for an incident." (b2u (m_audit_frozen m))
  +:+ build_info (version m).

Inductive metrics_err := Disabled | KeyRequired.

(** The snapshot is what the shared state holds when the request is answered. *)
Definition metrics_handler (rt : Reload.Reload.RuntimeSettings) (h : headers) (m : MetricsSnapshot)
    : result metrics_err string :=
  guard Reload.Reload.metrics_enabled rt else Disabled in
  let admitted :=
    if Reload.Reload.metrics_require_auth rt then
      match Reload.Reload.admin_key rt with
      | Some key => if String.eqb key "" then true else Secure.ct_eq_str (default "" (raw_bearer h)) key
      | None => true
      end
    else true in
  guard admitted else KeyRequired in Ok (encode_metrics m).

(** *** Reading the text back *)

(** The value of the first line that is not a comment and has the name. *)
Definition sample (name l : string) : option string :=
  match split_once " " l with
  | Some (n, v) => if String.eqb n name then Some v else None
  | None => None
  end.

Fixpoint first_some {A B} (f : A -> option B) (l : list A) : option B :=
  match l with
  | [] => None
  | x :: l => match f x with Some y => Some y | None => first_some f l end
  end.

Definition scrape (name text : string) : option string := first_some (sample name) (split_char LF text).

Lemma split_nl a b : has_char LF a = false -> split_char LF (a +:+ nl +:+ b) = a :: split_char LF b.
Proof. apply split_char_app. Qed.

Definition plain (s : string) : bool := string_forall (fun c => negb (Ascii.eqb c " ") && negb (Ascii.eqb c LF)) s.

Lemma plain_no_space s : plain s = true -> has_char " " s = false.
Proof. by apply has_char_forall. Qed.

Lemma plain_no_nl s : plain s = true -> has_char LF s = false.
Proof. by apply has_char_forall. Qed.

Lemma sample_hash name s : String.eqb "#" name = false -> sample name (String "#" (String " " s)) = None.
Proof. intros H. unfold sample. rewrite (split_once_app " " "#" s eq_refl : split_once " " (String "#" (String " " s)) = _). by rewrite H. Qed.

Lemma sample_line name n v : plain n = true -> sample name (n +:+ String " " v) = if String.eqb n name then Some v else None.
Proof. intros H. unfold sample. rewrite split_once_app by (by apply plain_no_space). done. Qed.

(** One metric: it is the value sought, or the search goes on. *)
Lemma scrape_line name n kind help v rest :
  plain n = true -> has_char LF kind = false -> has_char LF help = false -> String.eqb "#" name = false ->
  scrape name (line n kind help v +:+ rest) = if String.eqb n name then Some (show_u64 v) else scrape name rest.
Proof.
  intros Hn Hk Hh Hname. unfold scrape, line.
  assert (Hd : has_char LF (show_u64 v) = false) by (by apply (has_char_forall (in_range 48 57)), show_u64_digits).
  pose proof (plain_no_nl n Hn) as Hl.
  assert (E : forall a b c d e : string, has_char LF a = false -> has_char LF b = false -> has_char LF c = false ->
    split_char LF (("# " +:+ a +:+ nl +:+ "# " +:+ b +:+ nl +:+ c +:+ nl) +:+ d)
    = ("# " +:+ a) :: ("# " +:+ b) :: c :: split_char LF d).
  { intros a b c d e Ha Hb Hc. rewrite !string_app_assoc.
    rewrite <- (string_app_assoc "# " a), split_nl by done. rewrite <- (string_app_assoc "# " b), split_nl by done.
    by rewrite split_nl. }
  pose proof (E ("HELP " +:+ n +:+ " " +:+ help) ("TYPE " +:+ n +:+ " " +:+ kind) (n +:+ " " +:+ show_u64 v) rest ""
    ltac:(rewrite !has_char_app, Hl, Hh; done) ltac:(rewrite !has_char_app, Hl, Hk; done)
    ltac:(rewrite !has_char_app, Hl, Hd; done)) as Es.
  rewrite !string_app_assoc in *. cbn [append] in *. rewrite Es. cbn [first_some].
  rewrite !sample_hash by done. rewrite sample_line by done. by destruct (String.eqb n name).
Qed.

(** The metrics and their values. *)
Definition values (m : MetricsSnapshot) : list (string * Z) := [
  ("maranode_requests_total", requests m); ("maranode_request_errors_total", errors m);
  ("maranode_tokens_input_total", tokens_in m); ("maranode_tokens_output_total", tokens_out m);
  ("maranode_request_duration_milliseconds_total", duration_ms_total m); ("maranode_uptime_seconds", uptime_seconds m);
  ("maranode_inference_queue_depth", queue_depth m); ("maranode_inference_queue_max", queue_max m);
  ("maranode_audit_log_sequence", audit_seq m); ("maranode_workspaces", workspaces m);
  ("maranode_air_gap_enabled", b2u (m_air_gap m)); ("maranode_isolation_ok", b2u (m_isolation_ok m));
  ("maranode_audit_frozen", b2u (m_audit_frozen m))].

(** Every metric reads back from the text, whatever the version string holds. *)
Theorem metrics_read_back m :
  Forall (fun nv => scrape nv.1 (encode_metrics m) = Some (show_u64 nv.2)) (values m).
Proof.
  unfold values, encode_metrics, counter, gauge.
  repeat constructor; cbn [fst snd]; repeat (rewrite scrape_line by done; cbn [String.eqb Ascii.eqb Bool.eqb]); done.
Qed.

(** The metrics are served when they are enabled and the caller presents the admin key, or
    there is none, or the key is not asked for. *)
Theorem metrics_access rt h m :
  is_ok (metrics_handler rt h m) = true <->
  Reload.Reload.metrics_enabled rt = true /\
  (Reload.Reload.metrics_require_auth rt = true -> forall key, Reload.Reload.admin_key rt = Some key -> key <> "" ->
   raw_bearer h = Some key).
Proof.
  unfold metrics_handler. destruct (Reload.Reload.metrics_enabled rt); simpl; [|naive_solver].
  destruct (Reload.Reload.metrics_require_auth rt); simpl; [|naive_solver].
  destruct (Reload.Reload.admin_key rt) as [key|]; simpl; [|naive_solver].
  destruct (String.eqb_spec key "") as [->|Hne]; simpl; [naive_solver|].
  destruct (Secure.ct_eq_str (default "" (raw_bearer h)) key) eqn:E; simpl.
  - split; [intros _|done]. split; [done|]. intros _ k [= <-] _. apply Secure.ct_eq_str_true in E.
    destruct (raw_bearer h); simpl in E; congruence.
  - split; [done|]. intros [_ Hk]. apply Secure.ct_eq_str_false in E. rewrite (Hk eq_refl key eq_refl Hne) in E. done.
Qed.

(** With the default settings and no admin key the metrics are open to everyone. *)
Example open_without_key rt h m :
  Reload.Reload.metrics_enabled rt = true -> Reload.Reload.admin_key rt = None ->
  metrics_handler rt h m = Ok (encode_metrics m).
Proof. intros He Hk. unfold metrics_handler. rewrite He, Hk. by destruct (Reload.Reload.metrics_require_auth rt). Qed.

End Metrics.
