(* ===== verification/Sso.v ===== *)
(** * Single sign-on

    Models [routes/identity.rs] of [maranode-api] with the pending logins of [state.rs]:
    the text of a SAML response and its signature, the assertion that is read from it, the
    LDAP filter and login, the OIDC flow, and the account and session that a login ends
    in. The XML reader, certificates, RSA, the directory and the identity provider are
    classes. The LDAP login is that of a build with the feature [ldap]. *)

From Stdlib Require Import ZArith Lia Ascii String.
From S2P Require Import Prelude Json Crypto Common UserDb Auth Reload Instances.
Open Scope string_scope.
Open Scope list_scope.
Open Scope Z_scope.

(** ** Text *)
Module Text.

(** [str::find] and [find_bytes]. *)
Fixpoint find (p s : string) : option nat :=
  if String.prefix p s then Some 0%nat
  else match s with EmptyString => None | String _ r => S <$> find p r end.

(** [replace] of the characters of a list by nothing. *)
Fixpoint without (f : ascii -> bool) (s : string) : string :=
  match s with
  | EmptyString => EmptyString
  | String c s => if f c then without f s else String c (without f s)
  end.

Definition LT : ascii := "<"%char.

(** *** Lemmas *)

Lemma prefix_spec p s : String.prefix p s = true <-> exists r, s = p +:+ r.
Proof.
  split.
  - revert s. induction p as [|c p IH]; intros s Hp; [by exists s|]. destruct s as [|d s]; [done|]. cbn in Hp.
    destruct (ascii_dec c d) as [->|]; [|done]. destruct (IH s Hp) as [r ->]. by exists r.
  - intros [r ->]. induction p as [|c p IH]; cbn; [by destruct r|]. destruct (ascii_dec c c); [exact IH|done].
Qed.

Lemma prefix_length p s : String.prefix p s = true -> (String.length p <= String.length s)%nat.
Proof. intros [r ->]%prefix_spec. rewrite string_length_app. lia. Qed.

Lemma prefix_more p s r : String.prefix p s = true -> String.prefix p (s +:+ r) = true.
Proof. intros [t ->]%prefix_spec. apply prefix_spec. exists (t +:+ r). by rewrite string_app_assoc. Qed.

(** A prefix of a longer string that fits in its start. *)
Lemma prefix_fits p s r :
  String.prefix p (s +:+ r) = true -> (String.length p <= String.length s)%nat -> String.prefix p s = true.
Proof.
  revert s. induction p as [|c p IH]; intros s; [by destruct s|]. destruct s as [|d s]; cbn; [lia|].
  destruct (ascii_dec c d); [|done]. intros Hp Hl. apply IH; [done|lia].
Qed.

Lemma find_here p s : String.prefix p s = true -> find p s = Some 0%nat.
Proof. intros Hp. destruct s; cbn -[String.prefix]; by rewrite Hp. Qed.

Lemma find_length p s k : find p s = Some k -> (k + String.length p <= String.length s)%nat.
Proof.
  revert k. induction s as [|c s IH]; intros k; cbn -[String.prefix].
  - destruct (String.prefix p "") eqn:E; [|done]. intros [= <-]. apply prefix_length in E. cbn in E. lia.
  - destruct (String.prefix p (String c s)) eqn:E; [intros [= <-]; apply prefix_length in E; cbn in *; lia|].
    destruct (find p s) as [j|]; [|done]. intros [= <-]. specialize (IH j eq_refl). lia.
Qed.

(** What is found stays where it is when text follows. *)
Lemma find_more p s r k : find p s = Some k -> find p (s +:+ r) = Some k.
Proof.
  revert k. induction s as [|c s IH]; intros k; cbn -[String.prefix].
  - destruct (String.prefix p "") eqn:E; [|done]. intros [= <-]. apply find_here.
    destruct p; [by destruct r|done].
  - destruct (String.prefix p (String c s)) eqn:E.
    + intros [= <-]. change (String c (s +:+ r)) with (String c s +:+ r). by rewrite prefix_more.
    + destruct (find p s) as [j|] eqn:Ej; [|done]. intros [= <-].
      change (String c (s +:+ r)) with (String c s +:+ r).
      destruct (String.prefix p (String c s +:+ r)) eqn:E2; [|cbn; by rewrite (IH j)].
      apply prefix_fits in E2; [by rewrite E2 in E|]. apply find_length in Ej. cbn. lia.
Qed.

(** A tag is not found in text without its first character, nor across its end. *)
Lemma find_tag t s r :
  has_char LT t = false -> has_char LT s = false -> String.prefix (String LT t) r = true ->
  find (String LT t) (s +:+ r) = Some (String.length s).
Proof.
  intros Ht Hs Hr. induction s as [|c s IH]; cbn -[String.prefix]; [by apply find_here|].
  cbn in Hs. apply orb_false_iff in Hs as [Hc Hs].
  destruct (String.prefix (String LT t) (String c (s +:+ r))) eqn:E.
  - apply prefix_spec in E as [u Hu]. injection Hu as -> _. by rewrite Ascii.eqb_refl in Hc.
  - by rewrite IH.
Qed.

Lemma sdrop_sdrop a b s : sdrop a (sdrop b s) = sdrop (b + a) s.
Proof. revert s. induction b as [|b IH]; intros [|c s]; cbn; try done; try (by destruct a); apply IH. Qed.

Lemma find_spec p s k : find p s = Some k -> String.prefix p (sdrop k s) = true.
Proof.
  revert k. induction s as [|c s IH]; intros k; cbn -[String.prefix].
  - destruct (String.prefix p "") eqn:E; [|done]. by intros [= <-].
  - destruct (String.prefix p (String c s)) eqn:E; [by intros [= <-]|].
    destruct (find p s) as [j|]; [|done]. intros [= <-]. by apply IH.
Qed.

(** What is found in a text is found in its start, where it fits. *)
Lemma find_fits p a b k : find p (a +:+ b) = Some k -> (k + String.length p <= String.length a)%nat -> find p a = Some k.
Proof.
  revert k. induction a as [|c a IH]; intros k; cbn -[String.prefix].
  - intros Hf Hl. assert (k = 0%nat) as -> by lia. destruct p; [done|cbn in Hl; lia].
  - change (String c (a +:+ b)) with (String c a +:+ b).
    destruct (String.prefix p (String c a +:+ b)) eqn:E.
    + intros [= <-] Hl. rewrite (prefix_fits p (String c a) b); [done..|]. cbn in *. lia.
    + destruct (find p (a +:+ b)) as [j|]; [|done]. intros [= <-] Hl.
      destruct (String.prefix p (String c a)) eqn:E2; [by rewrite prefix_more in E|].
      rewrite (IH j); [done..|]. cbn in *. lia.
Qed.

(** The text from where something is found. *)
Definition seek (p s : string) : option string := (fun k => sdrop k s) <$> find p s.

Lemma seek_here p s : String.prefix p s = true -> seek p s = Some s.
Proof. intros Hp. unfold seek. by rewrite find_here. Qed.

Lemma seek_app p r : seek p (p +:+ r) = Some (p +:+ r).
Proof. apply seek_here, prefix_spec. by exists r. Qed.

Lemma seek_step p c r : String.prefix p (String c r) = false -> seek p (String c r) = seek p r.
Proof. intros Hp. unfold seek. cbn -[String.prefix]. rewrite Hp. by destruct (find p r). Qed.

Lemma seek_skip t s r : has_char LT s = false -> seek (String LT t) (s +:+ r) = seek (String LT t) r.
Proof.
  intros Hs. induction s as [|c s IH]; [done|]. cbn in Hs. apply orb_false_iff in Hs as [Hc Hs].
  change (String c s +:+ r) with (String c (s +:+ r)). rewrite seek_step; [by apply IH|].
  destruct (String.prefix _ _) eqn:E; [|done]. apply prefix_spec in E as [u Hu]. injection Hu as -> _.
  by rewrite Ascii.eqb_refl in Hc.
Qed.

Lemma without_none (f : ascii -> bool) s : string_forall (fun c => negb (f c)) s = true -> without f s = s.
Proof.
  induction s as [|c s IH]; [done|]. cbn. intros [Hc Hs]%andb_true_iff. apply negb_true_iff in Hc. by rewrite Hc, IH.
Qed.
End Text.

(** ** SAML *)
Module Saml.
Import Text.

(** What the XML reader gives: the local names and values of a tag's attributes, and the
    unescaped text, empty where it cannot be unescaped. The list ends at the end of the
    document or at an error. *)
Inductive xml_event :=
| XStart (local : string) (attrs : list (string * string))
| XEmpty (local : string) (attrs : list (string * string))
| XEnd (local : string)
| XText (text : string)
| XOther
| XError.

Class XmlReader := { read_events : string -> list xml_event }.

(** The RSA key of a certificate, and PKCS#1 v1.5 verification with SHA-256. *)
Class Rsa := { cert_key : string -> option string; rsa_verify : string -> string -> string -> bool }.

Inductive saml_err := NoSignedInfo | NoSignatureValue | SignatureBase64 | NoCertificate | CertBase64 | CertParse
                    | BadSignature | XmlError | NoNameId.

(** *** The signature *)

Definition slice_element (open_tag close_tag xml : string) : option string :=
  some? start := find open_tag xml in
  some? rel_end := find close_tag (sdrop start xml) in
  Some (stake (rel_end + String.length close_tag) (sdrop start xml)).

Definition extract_signed_info_bytes (xml : string) : option string :=
  match slice_element "<ds:SignedInfo" "</ds:SignedInfo>" xml with
  | Some s => Some s
  | None => slice_element "<SignedInfo" "</SignedInfo>" xml
  end.

Definition tag_text (open close xml : string) : option string :=
  some? s := find open xml in
  some? gt := find ">" (sdrop s xml) in
  let rest := sdrop (s + gt + 1) xml in
  some? end_ := find close rest in
  Some (str_trim (stake end_ rest)).

Definition xml_element_text (xml local : string) : option string :=
  match tag_text ("<ds:" +:+ local) ("</ds:" +:+ local +:+ ">") xml with
  | Some t => Some t
  | None => tag_text ("<" +:+ local) ("</" +:+ local +:+ ">") xml
  end.

Definition line_space (c : ascii) : bool := Ascii.eqb c LF || Ascii.eqb c CR || Ascii.eqb c " ".

Definition strip_pem (s : string) : string :=
  without (fun c => Ascii.eqb c " ") (join "" (List.filter (fun l => negb (String.prefix "-----" l)) (lines s))).

Section saml.
Context `{!Base64, !Rsa, !XmlReader}.

Definition saml_verify_signature (xml : string) (configured_cert : option string) : result saml_err unit :=
  let? signed_info := ok_or (extract_signed_info_bytes xml) NoSignedInfo in
  let? sig_raw := ok_or (xml_element_text xml "SignatureValue") NoSignatureValue in
  let? sig := ok_or (b64_decode (without line_space sig_raw)) SignatureBase64 in
  let? cert_b64 := match configured_cert with
                   | Some c => Ok (strip_pem c)
                   | None => let? t := ok_or (xml_element_text xml "X509Certificate") NoCertificate in
                             Ok (without line_space t)
                   end in
  let? der := ok_or (b64_decode cert_b64) CertBase64 in
  let? key := ok_or (cert_key der) CertParse in
  guard rsa_verify key signed_info sig else BadSignature in Ok tt.

(** *** What the signature covers *)

Lemma slice_seek o c xml :
  slice_element o c xml = (some? s := seek o xml in some? r := find c s in Some (stake (r + String.length c) s)).
Proof. unfold slice_element, seek. by destruct (find o xml). Qed.

Lemma tag_seek o c xml :
  tag_text o c xml =
  (some? s := seek o xml in some? g := seek ">" s in
   some? e := find c (sdrop 1 g) in Some (str_trim (stake e (sdrop 1 g)))).
Proof.
  unfold tag_text, seek. destruct (find o xml) as [s|]; [|done]. cbn [fmap option_fmap option_map].
  destruct (find ">" (sdrop s xml)) as [g|]; [|done]. cbn [fmap option_fmap option_map].
  by rewrite (sdrop_sdrop 1 g), sdrop_sdrop, Nat.add_assoc.
Qed.

(** An element as it is cut out: it begins with its tag, and ends where the closing tag
    first stands. *)
Definition element_of (o c si : string) : Prop :=
  String.prefix o si = true /\ find c si = Some (String.length si - String.length c)%nat /\
  (String.length c <= String.length si)%nat.

Lemma slice_shape o c xml si :
  (String.length o <= String.length c)%nat -> slice_element o c xml = Some si -> element_of o c si.
Proof.
  intros Hl. unfold slice_element. destruct (find o xml) as [st|] eqn:Eo; [|done].
  destruct (find c (sdrop st xml)) as [r|] eqn:Ec; [|done]. intros [= <-].
  pose proof (find_length _ _ _ Ec) as Hr. set (s := sdrop st xml) in *.
  assert (String.length (stake (r + String.length c) s) = (r + String.length c)%nat) as Hn.
  { rewrite stake_length. lia. }
  pose proof (stake_sdrop (r + String.length c) s) as Hs. split; [|split].
  - apply find_spec in Eo. fold s in Eo. rewrite <- Hs in Eo. eapply prefix_fits; [exact Eo|]. rewrite Hn. lia.
  - rewrite Hn. replace (r + String.length c - String.length c)%nat with r by lia.
    rewrite <- Hs in Ec. eapply find_fits; [exact Ec|]. rewrite Hn. lia.
  - rewrite Hn. lia.
Qed.

Lemma slice_found o c si p xml :
  element_of o c si -> seek o xml = Some (si +:+ p) -> slice_element o c xml = Some si.
Proof.
  intros (Ho & Hc & Hl) Hs. rewrite slice_seek, Hs. rewrite (find_more _ _ p _ Hc).
  replace (String.length si - String.length c + String.length c)%nat with (String.length si) by lia.
  by rewrite stake_app.
Qed.

(** A document of anyone's making around a signed element. *)
Definition forged (si sig cert p : string) : string :=
  "<ds:SignatureValue>" +:+ sig +:+ "</ds:SignatureValue><ds:X509Certificate>" +:+ cert
  +:+ "</ds:X509Certificate>" +:+ si +:+ p.

Definition tagless (s : string) : bool := negb (has_char LT s) && string_forall graphic s.

Lemma tag_found o c t s r xml :
  tagless s = true -> has_char LT c = false -> seek o xml = Some t ->
  seek ">" t = Some (String ">" (s +:+ String LT c +:+ r)) -> tag_text o (String LT c) xml = Some s.
Proof.
  intros [Hs Hg]%andb_true_iff Hc Ho Ht. apply negb_true_iff in Hs. rewrite tag_seek, Ho, Ht. cbn [sdrop].
  rewrite find_tag; [|done..|].
  - rewrite stake_app. by rewrite trim_graphic.
  - apply prefix_more, prefix_spec. exists "". by rewrite string_app_nil_r.
Qed.

Local Ltac seeks := repeat (rewrite seek_step by reflexivity); apply (seek_app ">").

Lemma forged_signature si sig cert p :
  tagless sig = true -> xml_element_text (forged si sig cert p) "SignatureValue" = Some sig.
Proof.
  intros Hs. assert (tag_text "<ds:SignatureValue" "</ds:SignatureValue>" (forged si sig cert p) = Some sig) as Ht;
    [|unfold xml_element_text; cbn [append]; by rewrite Ht].
  eapply (tag_found _ "/ds:SignatureValue>") with (r := "<ds:X509Certificate>" +:+ cert +:+ "</ds:X509Certificate>" +:+ si +:+ p); [done|done|exact (seek_app "<ds:SignatureValue" _)|]. unfold forged. cbn [append]. seeks.
Qed.

Lemma forged_cert si sig cert p :
  tagless sig = true -> tagless cert = true -> xml_element_text (forged si sig cert p) "X509Certificate" = Some cert.
Proof.
  intros Hs Hc.
  assert (tag_text "<ds:X509Certificate" "</ds:X509Certificate>" (forged si sig cert p) = Some cert) as Ht;
    [|unfold xml_element_text; cbn [append]; by rewrite Ht].
  eapply (tag_found _ "/ds:X509Certificate>") with (r := si +:+ p); [done|done| |].
  - unfold forged. cbn [append]. repeat (rewrite seek_step by reflexivity).
    apply andb_true_iff in Hs as [Hs%negb_true_iff _]. rewrite seek_skip by done.
    repeat (rewrite seek_step by reflexivity). apply (seek_app "<ds:X509Certificate").
  - cbn [append]. seeks.
Qed.

Lemma forged_info si sig cert p :
  tagless sig = true -> tagless cert = true -> element_of "<ds:SignedInfo" "</ds:SignedInfo>" si ->
  extract_signed_info_bytes (forged si sig cert p) = Some si.
Proof.
  intros [Hs%negb_true_iff _]%andb_true_iff [Hc%negb_true_iff _]%andb_true_iff He. unfold extract_signed_info_bytes.
  rewrite (slice_found _ _ si p); [done|done|]. unfold forged. cbn [append].
  repeat (rewrite seek_step by reflexivity). rewrite seek_skip by done.
  repeat (rewrite seek_step by reflexivity). rewrite seek_skip by done.
  repeat (rewrite seek_step by reflexivity). apply seek_here, prefix_more. apply He.
Qed.

Lemma b64_tagless b : tagless (b64_encode b) = true.
Proof.
  unfold tagless. rewrite b64_encode_graphic, andb_true_r. pose proof (b64_encode_chars b) as Hb.
  induction (b64_encode b) as [|c t IH]; [done|]. cbn in Hb. apply andb_true_iff in Hb as [Hc Ht]. cbn.
  rewrite negb_orb, (IH Ht), andb_true_r. by destruct (Ascii.eqb_spec c LT) as [->|]; [vm_compute in Hc|].
Qed.

Lemma b64_no_space b : without line_space (b64_encode b) = b64_encode b.
Proof.
  apply without_none. eapply string_forall_impl; [|apply b64_encode_chars]. intros c Hc. unfold line_space.
  destruct (Ascii.eqb_spec c LF) as [->|]; [by vm_compute in Hc|].
  destruct (Ascii.eqb_spec c CR) as [->|]; [by vm_compute in Hc|].
  by destruct (Ascii.eqb_spec c " ") as [->|]; [vm_compute in Hc|].
Qed.

(** The certificate of a verification, decoded. *)
Definition cert_of (xml : string) (configured_cert : option string) : option string :=
  match configured_cert with
  | Some c => b64_decode (strip_pem c)
  | None => some? t := xml_element_text xml "X509Certificate" in b64_decode (without line_space t)
  end.

Lemma saml_verify_iff xml c :
  saml_verify_signature xml c = Ok tt <->
  exists si raw sig der key, extract_signed_info_bytes xml = Some si /\
    xml_element_text xml "SignatureValue" = Some raw /\ b64_decode (without line_space raw) = Some sig /\
    cert_of xml c = Some der /\ cert_key der = Some key /\ rsa_verify key si sig = true.
Proof.
  unfold saml_verify_signature, cert_of. split.
  - destruct (extract_signed_info_bytes xml) as [si|]; [|done]. destruct (xml_element_text xml "SignatureValue") as [raw|]; [|done].
    cbn [ok_or rbind]. destruct (b64_decode (without line_space raw)) as [sig|] eqn:Es; [|done]. cbn [ok_or rbind].
    intros Hv. exists si, raw, sig.
    destruct c as [c|]; [|destruct (xml_element_text xml "X509Certificate") as [t|]; [|done]]; cbn [ok_or rbind] in Hv;
      (match type of Hv with context [ok_or (b64_decode ?x) CertBase64] => destruct (b64_decode x) as [der|]; [|done] end);
      cbn [ok_or rbind] in Hv;
      (destruct (cert_key der) as [key|] eqn:Ek; [|done]); cbn [ok_or rbind] in Hv;
      (destruct (rsa_verify key si sig) eqn:Er; [|done]); by exists der, key.
  - intros (si & raw & sig & der & key & -> & -> & Hs & Hc & Hk & Hr). cbn [ok_or rbind]. rewrite Hs. cbn [ok_or rbind].
    destruct c as [c|]; [|destruct (xml_element_text xml "X509Certificate") as [t|]; [|done]]; cbn [ok_or rbind];
      rewrite Hc; cbn [ok_or rbind]; rewrite Hk; cbn [ok_or rbind]; by rewrite Hr.
Qed.

(** Around the signed element of a document that verifies, any document verifies. *)
Lemma signature_covers_nothing xml c si :
  slice_element "<ds:SignedInfo" "</ds:SignedInfo>" xml = Some si -> saml_verify_signature xml c = Ok tt ->
  exists sig cert, forall p, saml_verify_signature (forged si (b64_encode sig) (b64_encode cert) p) c = Ok tt.
Proof.
  intros Hsi (si' & raw & sig & der & key & He & _ & _ & Hc & Hk & Hr)%saml_verify_iff.
  unfold extract_signed_info_bytes in He. rewrite Hsi in He. injection He as <-.
  apply slice_shape in Hsi; [|cbn; lia]. exists sig, der. intros p. apply saml_verify_iff.
  exists si, (b64_encode sig), sig, der, key. rewrite forged_info, forged_signature by (done || apply b64_tagless).
  rewrite b64_no_space, b64_decode_encode. repeat (split; [done|]). split; [|done]. unfold cert_of in *.
  destruct c; [done|]. rewrite forged_cert by apply b64_tagless. by rewrite b64_no_space, b64_decode_encode.
Qed.

(** *** The assertion *)

Record parse_state := {
  name_id : string; email : option string; username : option string; in_name_id : bool;
  current_attr_name : string; in_attr_value : bool
}.

Definition start_state : parse_state :=
  {| name_id := ""; email := None; username := None; in_name_id := false; current_attr_name := ""; in_attr_value := false |}.

(** The value of an attribute that is text. *)
Definition attr (n : string) (l : list (string * string)) : option string :=
  some? a := List.find (fun a => String.eqb a.1 n) l in if utf8_ok a.2 then Some a.2 else None.

(** Only ASCII letters are looked for. *)
Definition is_email (name : string) : bool :=
  let n := string_map ascii_lower name in contains "email" n || contains "mail" n.
Definition is_username (name : string) : bool :=
  let n := string_map ascii_lower name in
  contains "uid" n || contains "username" n || contains "login" n || contains "samaccountname" n.

Definition on_start (local : string) (attrs : list (string * string)) (s : parse_state) : parse_state :=
  if String.eqb local "NameID" then
    {| name_id := name_id s; email := email s; username := username s; in_name_id := true;
       current_attr_name := current_attr_name s; in_attr_value := in_attr_value s |}
  else if String.eqb local "Attribute" then
    {| name_id := name_id s; email := email s; username := username s; in_name_id := in_name_id s;
       current_attr_name := default "" (attr "Name" attrs); in_attr_value := in_attr_value s |}
  else if String.eqb local "AttributeValue" then
    {| name_id := name_id s; email := email s; username := username s; in_name_id := in_name_id s;
       current_attr_name := current_attr_name s; in_attr_value := true |}
  else s.

Definition on_end (local : string) (s : parse_state) : parse_state :=
  if String.eqb local "NameID" then
    {| name_id := name_id s; email := email s; username := username s; in_name_id := false;
       current_attr_name := current_attr_name s; in_attr_value := in_attr_value s |}
  else if String.eqb local "AttributeValue" then
    {| name_id := name_id s; email := email s; username := username s; in_name_id := in_name_id s;
       current_attr_name := current_attr_name s; in_attr_value := false |}
  else s.

Definition on_text (t : string) (s : parse_state) : parse_state := {|
  name_id := if in_name_id s && negb (String.eqb t "") then t else name_id s;
  email := if in_attr_value s && is_email (current_attr_name s) then Some t else email s;
  username := if in_attr_value s && is_username (current_attr_name s) then Some t else username s;
  in_name_id := in_name_id s; current_attr_name := current_attr_name s; in_attr_value := in_attr_value s |}.

Fixpoint parse_events (l : list xml_event) (s : parse_state) : result saml_err parse_state :=
  match l with
  | [] => Ok s
  | XStart n a :: l => parse_events l (on_start n a s)
  | XEnd n :: l => parse_events l (on_end n s)
  | XText t :: l => parse_events l (on_text t s)
  | XError :: _ => Err XmlError
  | _ :: l => parse_events l s
  end.

(** The subject, the address, and the name: that of an attribute, the address or the subject. *)
Definition saml_parse_assertion (xml : string) : result saml_err (string * option string * string) :=
  let? s := parse_events (read_events xml) start_state in
  if String.eqb (name_id s) "" then Err NoNameId else
  Ok (name_id s, email s, match username s with Some u => u | None => default (name_id s) (email s) end).

(** *** Metadata and the request *)

Fixpoint sso_location (l : list xml_event) : result saml_err string :=
  match l with
  | [] => Err NoNameId
  | XError :: _ => Err XmlError
  | XStart n a :: l | XEmpty n a :: l =>
    if String.eqb n "SingleSignOnService" && contains "HTTP-Redirect" (default "" (attr "Binding" a))
    then match attr "Location" a with Some u => Ok u | None => sso_location l end
    else sso_location l
  | _ :: l => sso_location l
  end.

Definition authn_request (id now sso acs entity : string) : string :=
  let q := String (ascii_of_nat 34) EmptyString in
  "<samlp:AuthnRequest xmlns:samlp=" +:+ q +:+ "urn:oasis:names:tc:SAML:2.0:protocol" +:+ q
  +:+ " xmlns:saml=" +:+ q +:+ "urn:oasis:names:tc:SAML:2.0:assertion" +:+ q +:+ " ID=" +:+ q +:+ id +:+ q
  +:+ " Version=" +:+ q +:+ "2.0" +:+ q +:+ " IssueInstant=" +:+ q +:+ now +:+ q +:+ " Destination=" +:+ q +:+ sso
  +:+ q +:+ " AssertionConsumerServiceURL=" +:+ q +:+ acs +:+ q +:+ " ProtocolBinding=" +:+ q
  +:+ "urn:oasis:names:tc:SAML:2.0:bindings:HTTP-POST" +:+ q +:+ "><saml:Issuer>" +:+ entity
  +:+ "</saml:Issuer></samlp:AuthnRequest>".
End saml.
End Saml.

(** ** LDAP *)
Module Ldap.
Import Auth.Auth.

Definition ldap_escape (s : string) : string :=
  replace_char (ascii_of_nat 0) "\00" (replace_char ")" "\29" (replace_char "(" "\28"
    (replace_char "*" "\2a" (replace_char "\" "\5c" s)))).

Record entry := { dn : string; attrs : gmap string (list string) }.

(** The directory: a connection, a bind that succeeds, and the entries of a search. *)
Class Directory := {
  ldap_connect : string -> bool;
  simple_bind : string -> string -> string -> bool;
  search : string -> string -> string -> option (list entry)
}.

Definition eq_ignore_ascii_case (a b : string) : bool :=
  String.eqb (string_map ascii_lower a) (string_map ascii_lower b).

(** The role of the first group of the map that the entry is a member of. *)
Definition role_of (c : Reload.Reload.LdapCfg) (member_of : list string) : string :=
  match List.find (fun g : string * string => existsb (fun m => eq_ignore_ascii_case m g.1) member_of)
          (Reload.Reload.l_group_role_map c) with
  | Some g => g.2
  | None => Reload.Reload.l_default_role c
  end.

Definition filter_of (c : Reload.Reload.LdapCfg) (username : string) : string :=
  "(" +:+ Reload.Reload.l_uid_attr c +:+ "=" +:+ ldap_escape username +:+ ")".

(** The subject, the address and the role of a user that the directory accepts. *)
Definition directory_user `{!Directory} (c : Reload.Reload.LdapCfg) (username password : string)
    : result api_error (string * option string * string) :=
  let url := Reload.Reload.l_url c in
  guard ldap_connect url else Internal in
  guard simple_bind url (Reload.Reload.l_bind_dn c) (Reload.Reload.l_bind_pw c) else Internal in
  let? entries := ok_or (search url (Reload.Reload.l_base_dn c) (filter_of c username)) Internal in
  let? e := ok_or (head entries) Unauthorized in
  guard simple_bind url (dn e) password else Unauthorized in
  let member_of := default [] (attrs e !! "memberOf") in
  Ok (dn e, (some? v := attrs e !! "mail" in head v), role_of c member_of).

(** *** The value of a filter, as RFC 4515 reads it *)

Definition nibble (c : ascii) : option Z :=
  if in_range 48 57 c then Some (code c - 48) else if in_range 97 102 c then Some (code c - 87) else None.

Fixpoint filter_value (s : string) : option string :=
  match s with
  | EmptyString => Some EmptyString
  | String c r =>
    if Ascii.eqb c "\" then
      match r with
      | String a (String b r) =>
        some? x := nibble a in some? y := nibble b in some? t := filter_value r in Some (String (chr (16 * x + y)) t)
      | _ => None
      end
    else some? t := filter_value r in Some (String c t)
  end.

Definition special (c : ascii) : bool :=
  Ascii.eqb c "*" || Ascii.eqb c "(" || Ascii.eqb c ")" || Ascii.eqb c (ascii_of_nat 0).

Definition escaped (c : ascii) : string :=
  if Ascii.eqb c "\" then "\5c" else if Ascii.eqb c "*" then "\2a" else if Ascii.eqb c "(" then "\28"
  else if Ascii.eqb c ")" then "\29" else if Ascii.eqb c (ascii_of_nat 0) then "\00" else String c EmptyString.

Lemma escape_cons c s : ldap_escape (String c s) = escaped c +:+ ldap_escape s.
Proof.
  unfold ldap_escape, escaped. cbn [replace_char].
  destruct (Ascii.eqb_spec c "\") as [->|H1]; [reflexivity|]. cbn [replace_char append].
  destruct (Ascii.eqb_spec c "*") as [->|H2]; [reflexivity|]. cbn [replace_char append].
  destruct (Ascii.eqb_spec c "(") as [->|H3]; [reflexivity|]. cbn [replace_char append].
  destruct (Ascii.eqb_spec c ")") as [->|H4]; [reflexivity|]. cbn [replace_char append].
  by destruct (Ascii.eqb_spec c (ascii_of_nat 0)).
Qed.

Lemma escaped_value c r : filter_value (escaped c +:+ r) = (some? t := filter_value r in Some (String c t)).
Proof.
  unfold escaped.
  destruct (Ascii.eqb_spec c "\") as [->|H1]; [reflexivity|].
  destruct (Ascii.eqb_spec c "*") as [->|H2]; [reflexivity|].
  destruct (Ascii.eqb_spec c "(") as [->|H3]; [reflexivity|].
  destruct (Ascii.eqb_spec c ")") as [->|H4]; [reflexivity|].
  destruct (Ascii.eqb_spec c (ascii_of_nat 0)) as [->|H5]; [reflexivity|].
  cbn. by destruct (Ascii.eqb_spec c "\").
Qed.

Lemma escaped_plain c : string_forall (fun x => negb (special x)) (escaped c) = true.
Proof.
  unfold escaped.
  destruct (Ascii.eqb c "\"); [reflexivity|]. destruct (Ascii.eqb c "*") eqn:H2; [reflexivity|].
  destruct (Ascii.eqb c "(") eqn:H3; [reflexivity|]. destruct (Ascii.eqb c ")") eqn:H4; [reflexivity|].
  destruct (Ascii.eqb c (ascii_of_nat 0)) eqn:H5; [reflexivity|]. cbn -[Ascii.eqb ascii_of_nat]. unfold special.
  by rewrite H2, H3, H4, H5.
Qed.

(** A user name is one literal value of the filter: it holds no character of the filter's
    syntax, and its value is the name. *)
Theorem ldap_filter_literal s :
  string_forall (fun c => negb (special c)) (ldap_escape s) = true /\ filter_value (ldap_escape s) = Some s.
Proof.
  induction s as [|c s [IHp IHv]]; [done|]. rewrite escape_cons, escaped_value, IHv. split; [|done].
  pose proof (escaped_plain c) as He. induction (escaped c) as [|x t IH]; [done|]. cbn in *.
  apply andb_true_iff in He as [-> He]. by apply IH.
Qed.
End Ldap.

(** ** The routes *)
Module Sso.
Import Common.User Auth.Auth.

Record OidcPendingState := { pkce_verifier_secret : string; nonce_secret : string; expires_at : Z }.

Definition OIDC_PENDING_TTL : Z := 600 * ns_per_s.

Notation pending_map := (gmap string OidcPendingState).

Definition oidc_pending_insert (now : Z) (state_token pkce nonce : string) (m : pending_map) : pending_map :=
  <[state_token := {| pkce_verifier_secret := pkce; nonce_secret := nonce; expires_at := now + OIDC_PENDING_TTL |}]>
    (filter (fun kv : string * OidcPendingState => now < expires_at kv.2) m).

Definition oidc_pending_take (now : Z) (state_token : string) (m : pending_map) : pending_map * option OidcPendingState :=
  match m !! state_token with
  | None => (m, None)
  | Some e => (delete state_token m, if expires_at e <? now then None else Some e)
  end.

Record claims := { subject : string; c_email : option string; preferred_username : option string }.

(** The identity provider: its metadata, whether a redirect is a URL, the address of a
    login, and the claims of a code under the verifier and the nonce. *)
Class Provider := {
  metadata : Type;
  discover : string -> option metadata;
  redirect_ok : string -> bool;
  authorize_url : metadata -> Reload.Reload.OidcCfg -> string -> string -> string -> string;
  code_claims : metadata -> Reload.Reload.OidcCfg -> string -> string -> string -> option claims
}.

(** The other parts that the requests use. *)
Class Web := {
  fetch_text : string -> option string;
  url_origin : string -> option (string * option string);
  deflate : string -> string;
  url_encode : string -> string
}.

Record sso := { srv : server; pending : pending_map; identity : Reload.Reload.IdentityConfig }.

Definition on_srv {A} (m : SE server api_error A) : SE sso api_error A := fun s =>
  let r := m (srv s) in ({| srv := r.1; pending := pending s; identity := identity s |}, r.2).

Definition set_pending (s : sso) (m : pending_map) : sso := {| srv := srv s; pending := m; identity := identity s |}.

(** The values a request draws, and its clock readings. *)
Record draws := { uid : string; token : string; at_ : Z; t0 : Z; t1 : Z }.

Definition with_address (e : option string) (u : User) : User :=
  match e with
  | Some e => {| id := id u; username := username u; email := Some e; password_hash := password_hash u; role := role u;
                 provider := provider u; provider_sub := provider_sub u; active := active u; created_at := created_at u;
                 last_login := last_login u |}
  | None => u
  end.

Section routes.
Context `{!Rfc3339, !Base64, !Saml.Rsa, !Saml.XmlReader, !Ldap.Directory, !Provider, !Web}.
Variable foreign_keys : bool.

Definition sso_account (p : AuthProvider) (sub name : string) (e : option string) (r : Role) (d : draws)
    : SE server api_error User :=
  do! found := ask (UserDb.UserDb.get_by_provider_sub (provider_str p) sub (at_ d)) in
  match found with
  | Some existing =>
    let u := with_address e existing in
    do! _ := on_db Internal (UserDb.UserDb.update u) in sret u
  | None =>
    let u := {| id := uid d; username := name; email := e; password_hash := None; role := r; provider := p;
                provider_sub := Some sub; active := true; created_at := at_ d; last_login := None |} in
    do! _ := on_db Internal (UserDb.UserDb.create u) in sret u
  end.

Definition upsert_sso_user_and_session (p : AuthProvider) (sub name : string) (e : option string) (role_str : string)
    (d : draws) : SE server api_error string :=
  do! r := slift (map_err (fun _ => BadRequest) (role_from_str role_str)) in
  do! u := sso_account p sub name e r d in
  if negb (active u) then sfail Forbidden else
  do! s := sget in
  on_db Internal (UserDb.UserDb.create_session foreign_keys (id u) (session_hours s) (t0 d) (t1 d) (token d)).

Definition list_providers (s : sso) : bool * bool * bool * bool :=
  (true, bool_decide (is_Some (Reload.Reload.i_oidc (identity s))),
   bool_decide (is_Some (Reload.Reload.i_ldap (identity s))), bool_decide (is_Some (Reload.Reload.i_saml (identity s)))).

(** *** OIDC *)

Definition oidc_login (csrf nonce verifier : string) (now : Z) : SE sso api_error string :=
  do! s := sget in
  do! cfg := slift (ok_or (Reload.Reload.i_oidc (identity s)) NotFound) in
  do! meta := slift (ok_or (discover (Reload.Reload.o_issuer_url cfg)) Internal) in
  if negb (redirect_ok (Reload.Reload.o_redirect_uri cfg)) then sfail Internal else
  do! _ := smodify (fun s => set_pending s (oidc_pending_insert now csrf verifier nonce (pending s))) in
  sret (authorize_url meta cfg csrf nonce verifier).

Definition oidc_callback (code : string) (state : option string) (now : Z) (d : draws) : SE sso api_error string :=
  do! state_token := slift (ok_or state Unauthorized) in
  do! s := sget in
  let r := oidc_pending_take now state_token (pending s) in
  do! _ := smodify (fun s => set_pending s r.1) in
  do! p := slift (ok_or r.2 Unauthorized) in
  do! cfg := slift (ok_or (Reload.Reload.i_oidc (identity s)) NotFound) in
  do! meta := slift (ok_or (discover (Reload.Reload.o_issuer_url cfg)) Internal) in
  if negb (redirect_ok (Reload.Reload.o_redirect_uri cfg)) then sfail Internal else
  do! c := slift (ok_or (code_claims meta cfg code (pkce_verifier_secret p) (nonce_secret p)) Internal) in
  let name := match preferred_username c with Some n => n | None => default (subject c) (c_email c) end in
  on_srv (upsert_sso_user_and_session Oidc (subject c) name (c_email c) (Reload.Reload.o_default_role cfg) d).

(** *** LDAP *)

Definition ldap_login (h : headers) (uname password : string) (secs : Z) (d : draws) : SE sso api_error string :=
  do! _ := on_srv (check_auth_ip_rate (client_ip h) 20 secs) in
  do! s := sget in
  do! cfg := slift (ok_or (Reload.Reload.i_ldap (identity s)) NotFound) in
  do! u := slift (Ldap.directory_user cfg uname password) in
  on_srv (upsert_sso_user_and_session Ldap u.1.1 uname u.1.2 u.2 d).

(** *** SAML *)

Definition base_url_from_entity (entity_id : string) : string :=
  match url_origin entity_id with
  | Some (scheme, host) => scheme +:+ "://" +:+ default "localhost" host
  | None => entity_id
  end.

Definition saml_idp_sso_url (metadata_url : string) : result api_error string :=
  let? xml := ok_or (fetch_text metadata_url) Internal in
  map_err (fun _ => Internal) (Saml.sso_location (Saml.read_events xml)).

(** The address of the redirect. *)
Definition saml_login (req_id : string) (now : Z) : SE sso api_error string :=
  do! s := sget in
  do! cfg := slift (ok_or (Reload.Reload.i_saml (identity s)) NotFound) in
  do! sso_url := slift (saml_idp_sso_url (Reload.Reload.sa_idp_metadata_url cfg)) in
  let entity := Reload.Reload.sa_sp_entity_id cfg in
  let xml := Saml.authn_request ("_" +:+ req_id) (to_rfc3339 now) sso_url
               (base_url_from_entity entity +:+ "/v1/auth/saml/callback") entity in
  sret (sso_url +:+ "?SAMLRequest=" +:+ url_encode (b64_encode (deflate xml))).

Definition saml_callback (saml_response : string) (d : draws) : SE sso api_error string :=
  do! s := sget in
  do! cfg := slift (ok_or (Reload.Reload.i_saml (identity s)) NotFound) in
  do! xml := slift (ok_or (b64_decode saml_response) Unauthorized) in
  if negb (utf8_ok xml) then sfail Unauthorized else
  do! _ := slift (map_err (fun _ => Unauthorized) (Saml.saml_verify_signature xml (Reload.Reload.sa_idp_cert cfg))) in
  do! a := slift (map_err (fun _ => Unauthorized) (Saml.saml_parse_assertion xml)) in
  on_srv (upsert_sso_user_and_session Saml a.1.1 a.2 a.1.2 (Reload.Reload.sa_default_role cfg) d).

(** ** Properties *)

(** Around the signed element of one response that verifies, a response of anyone's making
    is accepted: the assertion that is read from it decides who is logged in. *)
Theorem any_assertion_accepted s cfg xml si d :
  Reload.Reload.i_saml (identity s) = Some cfg ->
  Saml.slice_element "<ds:SignedInfo" "</ds:SignedInfo>" xml = Some si ->
  Saml.saml_verify_signature xml (Reload.Reload.sa_idp_cert cfg) = Ok tt ->
  exists sig cert, forall p,
    let doc := Saml.forged si (b64_encode sig) (b64_encode cert) p in
    forall a, utf8_ok doc = true -> Saml.saml_parse_assertion doc = Ok a ->
    saml_callback (b64_encode doc) d s =
    on_srv (upsert_sso_user_and_session Saml a.1.1 a.2 a.1.2 (Reload.Reload.sa_default_role cfg) d) s.
Proof.
  intros Hcfg Hsi Hv. destruct (Saml.signature_covers_nothing _ _ _ Hsi Hv) as (sig & cert & Hf).
  exists sig, cert. intros p doc a Hu Ha. unfold saml_callback, sbind, sget, slift. rewrite Hcfg. cbn [ok_or].
  rewrite b64_decode_encode. cbn [ok_or]. rewrite Hu. cbn [negb]. unfold doc in *. rewrite Hf. cbn [map_err].
  by rewrite Ha.
Qed.

(** The account that a login ends in, before the session. *)
Lemma sso_account_spec p sub name e r d s s' u :
  reachable foreign_keys (user_db s) -> sso_account p sub name e r d s = (s', Ok u) ->
  reachable foreign_keys (user_db s') /\ session_hours s' = session_hours s /\
  (active u = true -> UserDb.UserDb.active_user (id u) (user_db s')) /\
  match UserDb.UserDb.get_by_provider_sub (provider_str p) sub (at_ d) (user_db s) with
  | Some v => id u = id v /\ active u = active v /\ privileges (user_db s') = privileges (user_db s)
  | None => id u = uid d /\ active u = true /\
            privileges (user_db s') = privileges (user_db s) ++ [(uid d, (role_str r, 1))]
  end.
Proof.
  intros Hr. unfold sso_account, sbind, ask.
  destruct (UserDb.UserDb.get_by_provider_sub (provider_str p) sub (at_ d) (user_db s)) as [v|] eqn:Ef.
  - apply find_user_row in Ef as (row & Hin & _ & ->). set (v := UserDb.UserDb.row_to_user (at_ d) row).
    set (w := with_address e v). assert (id w = UserDb.UserDb.r_id row /\ role w = role v /\ active w = active v)
      as (Hid & Hro & Hac) by (unfold w; by destruct e).
    unfold on_db. pose proof (update_privileges foreign_keys row w (at_ d) (user_db s) Hr Hin Hid Hro Hac) as Hp.
    destruct (UserDb.UserDb.update w (user_db s)) as [d1 [[]|]] eqn:Eu; [|done]. cbn [fst snd map_err] in *.
    intros [= <- <-]. cbn [user_db set_db session_hours]. split; [|split; [done|]].
    { destruct Hr as [ops Hr]. exists (ops ++ [UserDb.UserDb.OpUpdate w]). unfold UserDb.UserDb.run in *.
      rewrite foldl_app, <- Hr. cbn. by rewrite Eu. }
    split; [|by split].
    intros Ha. revert Eu. unfold UserDb.UserDb.update. destruct (_ && _); [done|]. intros [= <-].
    exists (UserDb.UserDb.updated w row). cbn. split; [|by rewrite Ha].
    apply in_map_iff. exists row. split; [|done]. by rewrite Hid, String.eqb_refl.
  - unfold on_db. set (w := {| id := uid d |}).
    destruct (UserDb.UserDb.create w (user_db s)) as [d1 [[]|]] eqn:Eu; [|done]. cbn [fst snd map_err].
    intros [= <- <-]. cbn [user_db set_db session_hours]. split; [|split; [done|]].
    { destruct Hr as [ops Hr]. exists (ops ++ [UserDb.UserDb.OpCreate w]). unfold UserDb.UserDb.run in *.
      rewrite foldl_app, <- Hr. cbn. by rewrite Eu. }
    revert Eu. unfold UserDb.UserDb.create. destruct (existsb _ _); [done|]. intros [= <-]. split.
    + intros _. exists (UserDb.UserDb.user_to_row w). split; [|done]. apply in_app_iff. right. by left.
    + split; [done|]. split; [done|]. unfold privileges. cbn. by rewrite fmap_app.
Qed.

(** A login of a provider ends in the account of that provider's subject: the existing one,
    whose role and activation stay, or a new one with the configured role. No other
    account changes its privileges, and the session is that account's for its hours. *)
Theorem sso_login_spec p sub name e rs d s s' tok t :
  reachable foreign_keys (user_db s) ->
  upsert_sso_user_and_session p sub name e rs d s = (s', Ok tok) ->
  in_era t -> in_era (t1 d + UserDb.UserDb.hours_ns (session_hours s)) ->
  exists i, tok = token d /\
    match UserDb.UserDb.get_by_provider_sub (provider_str p) sub (at_ d) (user_db s) with
    | Some v => i = id v /\ active v = true /\ privileges (user_db s') = privileges (user_db s)
    | None => i = uid d /\ exists r, role_from_str rs = Ok r /\
              privileges (user_db s') = privileges (user_db s) ++ [(uid d, (role_str r, 1))]
    end /\
    if t <? t1 d + UserDb.UserDb.hours_ns (session_hours s)
    then exists v, UserDb.UserDb.resolve_session tok t (user_db s') = Some v /\ id v = i /\ active v = true
    else UserDb.UserDb.resolve_session tok t (user_db s') = None.
Proof.
  intros Hr. unfold upsert_sso_user_and_session, sbind at 1, slift at 1.
  destruct (role_from_str rs) as [r|] eqn:Ers; [|done]. cbn [map_err]. unfold sbind at 1.
  destruct (sso_account p sub name e r d s) as [s1 [u|]] eqn:Ea; [|done].
  destruct (sso_account_spec _ _ _ _ _ _ _ _ _ Hr Ea) as (Hr1 & Hh & Hact & Hacc).
  destruct (active u) eqn:Hu; [|done]. cbn [negb]. unfold sbind, sget, on_db. cbv beta iota zeta. rewrite Hh.
  destruct (UserDb.UserDb.create_session _ _ _ _ _ _ (user_db s1)) as [d2 [t2|]] eqn:Ec; [|done]. cbn [fst snd map_err].
  intros [= <- <-] Ht He. exists (id u). pose proof (create_session_privileges foreign_keys (id u) (session_hours s) (t0 d)
    (t1 d) (token d) (user_db s1)) as Hp. rewrite Ec in Hp. unfold same_privileges in Hp. cbn [fst] in Hp.
  assert (reachable foreign_keys d2) as Hr2.
  { destruct Hr1 as [ops Hr1]. exists (ops ++ [UserDb.UserDb.OpSession (id u) (session_hours s) (t0 d) (t1 d) (token d)]).
    unfold UserDb.UserDb.run in *. rewrite foldl_app, <- Hr1. simpl. by rewrite Ec. }
  apply UserDb.UserDb.create_session_ok in Ec as (-> & Hs & Hk). specialize (Hk (Hact eq_refl)).
  split; [done|]. cbn [user_db set_db]. rewrite Hp. split.
  { destruct (UserDb.UserDb.get_by_provider_sub _ _ _ _) as [v|]; [|by destruct Hacc as (-> & _ & ->); eauto].
    by destruct Hacc as (-> & <- & ->). }
  pose proof (reachable_wf _ _ Hr2) as Hw. rewrite <- rfc3339_ltb by done.
  destruct (String.ltb _ _) eqn:Hlt.
  - by eapply UserDb.UserDb.resolve_live.
  - by eapply UserDb.UserDb.resolve_expired.
Qed.

(** The requests of the routes. *)
Inductive sso_request :=
| OidcLogin (csrf nonce verifier : string) (now : Z)
| OidcCallback (code : string) (state : option string) (now : Z) (d : draws)
| LdapLogin (h : headers) (uname password : string) (secs : Z) (d : draws)
| SamlLogin (req_id : string) (now : Z)
| SamlCallback (response : string) (d : draws).

Definition handle_sso (r : sso_request) (s : sso) : sso :=
  match r with
  | OidcLogin c n v t => (oidc_login c n v t s).1
  | OidcCallback c st t d => (oidc_callback c st t d s).1
  | LdapLogin h u p secs d => (ldap_login h u p secs d s).1
  | SamlLogin i t => (saml_login i t s).1
  | SamlCallback x d => (saml_callback x d s).1
  end.

Definition run_sso (l : list sso_request) (s : sso) : sso := foldl (fun s r => handle_sso r s) s l.

Definition draws_state (st : string) (r : sso_request) : bool :=
  match r with OidcLogin c _ _ _ => String.eqb c st | _ => false end.

Lemma on_srv_pending {A} (m : SE server api_error A) s : pending (on_srv m s).1 = pending s.
Proof. done. Qed.

Lemma take_gone now st st' (m : pending_map) : m !! st = None -> (oidc_pending_take now st' m).1 !! st = None.
Proof.
  intros Hm. unfold oidc_pending_take. destruct (m !! st'); [|done]. cbn.
  destruct (decide (st' = st)) as [->|]; [by rewrite lookup_delete_eq|by rewrite lookup_delete_ne].
Qed.

Lemma handle_gone st r s : draws_state st r = false -> pending s !! st = None -> pending (handle_sso r s) !! st = None.
Proof.
  intros Hd Hp. destruct r as [c n v t|c x t d|h u w secs d|i t|x d]; cbn [handle_sso].
  - unfold oidc_login, sbind, sget, slift, smodify, sret, sfail. repeat case_goal; try done.
    cbn. unfold oidc_pending_insert.
    rewrite lookup_insert_ne; [|intros ->; cbn in Hd; by rewrite String.eqb_refl in Hd].
    apply map_lookup_filter_None. by left.
  - unfold oidc_callback, sbind, slift. destruct x as [x|]; [|done]. cbn [ok_or]. unfold sget, smodify. cbn [pending].
    pose proof (take_gone t st x _ Hp) as Hg. destruct (oidc_pending_take t x (pending s)) as [m o]. cbn [fst snd] in *.
    repeat (case_goal; try done).
  - unfold ldap_login, sbind. pose proof (on_srv_pending (check_auth_ip_rate (client_ip h) 20 secs) s) as Hs.
    destruct (on_srv _ s) as [s1 [[]|]]; cbn [fst] in Hs; rewrite <- Hs in Hp; [|done].
    unfold sget, slift. repeat (case_goal; try done).
  - unfold saml_login, sbind, sget, slift, sret. repeat (case_goal; try done).
  - unfold saml_callback, sbind, sget, slift, sfail. repeat (case_goal; try done).
Qed.

(** C27: A state token is good for one callback: after a callback that presents it, whatever its
    outcome, every later one is refused and changes nothing, until a login draws it anew. *)
Theorem oidc_state_once code st now d l s code' now' d' :
  forallb (fun r => negb (draws_state st r)) l = true ->
  let s' := run_sso l (oidc_callback code (Some st) now d s).1 in
  oidc_callback code' (Some st) now' d' s' = (s', Err Unauthorized).
Proof.
  intros Hl s'. assert (pending s' !! st = None) as Hg.
  { subst s'. assert (pending (oidc_callback code (Some st) now d s).1 !! st = None) as H0'.
    - unfold oidc_callback, sbind, slift, sget, smodify. cbn [ok_or pending].
      assert ((oidc_pending_take now st (pending s)).1 !! st = None) as Ht.
      { unfold oidc_pending_take. destruct (pending s !! st) eqn:E; [cbn; by rewrite lookup_delete_eq|done]. }
      destruct (oidc_pending_take now st (pending s)) as [m o]. cbn [fst snd] in *. repeat (case_goal; try done).
    - revert H0'. generalize (oidc_callback code (Some st) now d s).1. induction l as [|r l IH]; intros s1 H1'; [done|].
      cbn in Hl. apply andb_true_iff in Hl as [Hr%negb_true_iff Hl]. cbn. apply IH; [done|]. by apply handle_gone. }
  unfold oidc_callback, sbind, slift, sget, smodify. cbn [ok_or]. unfold oidc_pending_take. rewrite Hg. cbn.
  by destruct s'.
Qed.
End routes.
End Sso.

(** ** Single sign-on on a concrete server *)

Module SsoDemo.
Import Common.User UserDb.UserDemo Auth.Auth Sso.Sso.

#[export] Instance toy_rsa : Saml.Rsa := {|
  Saml.cert_key der := Some der;
  Saml.rsa_verify k m s := String.eqb s (k +:+ m) |}.

(** A reader that sees the first subject only. *)
#[export] Instance toy_xml : Saml.XmlReader := {|
  Saml.read_events t :=
    match Saml.tag_text "<NameID" "</NameID>" t with
    | Some n => [Saml.XStart "NameID" []; Saml.XText n; Saml.XEnd "NameID"]
    | None => [] end |}.

#[export] Instance toy_directory : Ldap.Directory := {|
  Ldap.ldap_connect _ := true;
  Ldap.simple_bind _ dn pw := String.eqb pw dn;
  Ldap.search _ _ f := Some [{| Ldap.dn := f; Ldap.attrs := ∅ |}] |}.

#[export] Instance toy_provider : Provider := {|
  metadata := unit; discover _ := Some tt; redirect_ok _ := true;
  authorize_url _ _ csrf nonce v := csrf +:+ nonce +:+ v;
  code_claims _ _ code _ _ := Some {| subject := code; c_email := None; preferred_username := None |} |}.

#[export] Instance toy_web : Web := {|
  fetch_text u := Some u; url_origin _ := None; deflate x := x; url_encode x := x |}.

Definition saml_cfg (cert : option string) : Reload.Reload.SamlCfg := {|
  Reload.Reload.sa_idp_metadata_url := "https://idp/meta"; Reload.Reload.sa_sp_entity_id := "https://sp";
  Reload.Reload.sa_sp_cert := None; Reload.Reload.sa_sp_key := None; Reload.Reload.sa_idp_cert := cert;
  Reload.Reload.sa_default_role := "viewer" |}.

Definition oidc_cfg : Reload.Reload.OidcCfg := {|
  Reload.Reload.o_issuer_url := "https://idp"; Reload.Reload.o_client_id := "mara"; Reload.Reload.o_client_secret := "x";
  Reload.Reload.o_redirect_uri := "https://sp/cb"; Reload.Reload.o_default_role := "viewer" |}.

Definition ident (cert : option string) : Reload.Reload.IdentityConfig := {|
  Reload.Reload.i_oidc := Some oidc_cfg; Reload.Reload.i_ldap := None; Reload.Reload.i_saml := Some (saml_cfg cert);
  Reload.Reload.i_session_hours := 8 |}.

Definition root : User := {|
  id := "u-9"; username := "root"; email := None; password_hash := None; role := Admin; provider := Saml;
  provider_sub := Some "root"; active := true; created_at := 50; last_login := None |}.

Definition d_root : UserDb.UserDb.db := UserDb.UserDb.run true [UserDb.UserDb.OpCreate root] UserDb.UserDb.empty_db.

Definition sso0 (cert : option string) : sso := {|
  srv := {| user_db := d_root; admin_key := Some "host-key"; session_hours := 8; smtp := true; auth_ip_limiter := ∅ |};
  pending := ∅; identity := ident cert |}.

Lemma d_root_reachable : reachable true d_root.
Proof. by exists [UserDb.UserDb.OpCreate root]. Qed.

(** The certificate of the provider, and its response for the viewer jane. *)
Definition idp : string := b64_encode "K".

Definition signed_info : string := "<ds:SignedInfo>x</ds:SignedInfo>".

Definition jane_response : string :=
  "<r>" +:+ signed_info +:+ "<ds:SignatureValue>" +:+ b64_encode ("K" +:+ signed_info)
  +:+ "</ds:SignatureValue><NameID>jane</NameID></r>".

Definition drawn : draws := {| uid := "u-10"; token := "tok-9"; at_ := 100; t0 := 100; t1 := 100 |}.

Definition who (r : sso * result api_error string) : option (string * bool) :=
  match r.2 with
  | Ok t => some? u := UserDb.UserDb.resolve_session t 200 (user_db (srv r.1)) in Some (id u, bool_decide (role u = Admin))
  | Err _ => None
  end.

(** Jane is logged in as herself by her response, and as the administrator by one of her own
    making around its signed element. *)
Example jane_logs_in :
  who (saml_callback true (b64_encode jane_response) drawn (sso0 (Some idp))) = Some ("u-10", false) /\
  who (saml_callback true (b64_encode (Saml.forged signed_info (b64_encode ("K" +:+ signed_info)) "" "<NameID>root</NameID>"))
         drawn (sso0 (Some idp))) = Some ("u-9", true).
Proof. split; vm_compute; reflexivity. Qed.

Lemma any_assertion_accepted_witness :
  exists sig cert, forall p,
    let doc := Saml.forged signed_info (b64_encode sig) (b64_encode cert) p in
    forall a, utf8_ok doc = true -> Saml.saml_parse_assertion doc = Ok a ->
    saml_callback true (b64_encode doc) drawn (sso0 (Some idp)) =
    on_srv (upsert_sso_user_and_session true Saml a.1.1 a.2 a.1.2 "viewer" drawn) (sso0 (Some idp)).
Proof.
  apply (any_assertion_accepted true (sso0 (Some idp)) (saml_cfg (Some idp)) jane_response signed_info drawn);
    [reflexivity|vm_compute; reflexivity|vm_compute; reflexivity].
Defined.

Definition logged_in : server * result api_error string :=
  upsert_sso_user_and_session true Saml "root" "root" (Some "root@corp") "viewer" drawn (srv (sso0 None)).

Lemma sso_login_spec_witness :
  exists i, "tok-9" = token drawn /\
    match UserDb.UserDb.get_by_provider_sub (provider_str Saml) "root" 100 d_root with
    | Some v => i = id v /\ active v = true /\ privileges (user_db logged_in.1) = privileges d_root
    | None => i = uid drawn /\ exists r, role_from_str "viewer" = Ok r /\
              privileges (user_db logged_in.1) = privileges d_root ++ [(uid drawn, (role_str r, 1))]
    end /\
    if 1000 <? t1 drawn + UserDb.UserDb.hours_ns 8
    then exists v, UserDb.UserDb.resolve_session "tok-9" 1000 (user_db logged_in.1) = Some v /\ id v = i /\ active v = true
    else UserDb.UserDb.resolve_session "tok-9" 1000 (user_db logged_in.1) = None.
Proof.
  apply (sso_login_spec true Saml "root" "root" (Some "root@corp") "viewer" drawn (srv (sso0 None)) logged_in.1 "tok-9" 1000).
  - exact d_root_reachable.
  - by vm_compute.
  - unfold in_era, ns_per_s. lia.
  - unfold in_era, UserDb.UserDb.hours_ns, ns_per_s. simpl. lia.
Defined.

Definition began : sso := (oidc_login "st" "n" "v" 100 (sso0 None)).1.

Example callback_ok : is_ok (oidc_callback true "carl" (Some "st") 200 drawn began).2 = true.
Proof. vm_compute. reflexivity. Qed.

Lemma oidc_state_once_witness :
  let s' := run_sso true [OidcLogin "other" "n" "v" 300] (oidc_callback true "carl" (Some "st") 200 drawn began).1 in
  oidc_callback true "eve" (Some "st") 400 drawn s' = (s', Err Unauthorized).
Proof. apply oidc_state_once. reflexivity. Defined.
End SsoDemo.
