(* ===== verification/RagDemo.v ===== *)
(** * Retrieval on concrete states *)

From Stdlib Require Import ZArith Lia Ascii String.
From S2P Require Import Prelude Crypto Instances UserDb WorkspaceDb F32 SortBy RagChunk RagText RagStore RagEngine RagInv.
Open Scope Z_scope.

Module RagDemo.
Import Utf8 Extract RagStore RagEngine Texts RagInv UserDemo ChunkDemo.

#[export] Program Instance no_pdf : PdfTools :=
  {| extract_by_pages _ := None; pdf_info _ _ := None; ocrmypdf _ := None |}.
Next Obligation. done. Qed.

(** A vector of two: whether the text has a letter b, and one. *)
#[export] Program Instance toy_embedder : Embedder := {|
  model_label := "toy";
  embed l := Some ((fun t => [if has_char "b" t then 1065353216 else 0; 1065353216]) <$> l) |}.
Next Obligation.
  intros l vs [= <-]. apply forallb_forall. intros v Hv.
  apply list_elem_of_In, list_elem_of_fmap in Hv as (t & -> & _). by destruct (has_char "b" t).
Qed.

Definition small : RagConfig := {| default_collection := "default"; chunk_size := 12; chunk_overlap := 3;
  cfg_top_k := 2; cfg_min_score := 0; max_context_chars := 100 |}.

Definition r1 : draws := {| new_doc := "d1"; new_chunk i := "k1" +:+ show_u64 (Z.of_nat i);
  new_nonce _ := "nonce-twelve" |}.
Definition r2 : draws := {| new_doc := "d2"; new_chunk i := "k2" +:+ show_u64 (Z.of_nat i);
  new_nonce _ := "nonce-twelve" |}.

Definition ingest1 : RagEngine * result rag_err IngestStats :=
  ingest "default" "notes.txt" "alpha beta. gamma delta. epsilon zeta." 1000 r1 (start None small).
Definition e1 : RagEngine := ingest1.1.
Definition e2 : RagEngine := rag_handle (Ingest "other" "more.txt" "beta again. and gamma." 2000 r2) e1.

Definition names (r : result rag_err (list ScoredChunk)) : list (string * string) :=
  match r with Ok l => (fun x => (chunk_id x, s_text x)) <$> l | Err _ => [] end.

Example found : names (retrieve_all_collections "beta" None e2)
  = [("k10", "alpha beta."); ("k20", "beta again.")]%string.
Proof. vm_compute. reflexivity. Qed.

Lemma r1_ok : draws_ok r1.
Proof. by intros i. Qed.

Lemma steps_to_e2 : rtc rag_step (start None small) e2.
Proof.
  eapply rtc_l; [|eapply rtc_l; [|apply rtc_refl]].
  - exists (Ingest "default" "notes.txt" "alpha beta. gamma delta. epsilon zeta." 1000 r1).
    split; [|reflexivity]. split; [reflexivity|exact r1_ok].
  - exists (Ingest "other" "more.txt" "beta again. and gamma." 2000 r2).
    split; [|reflexivity]. split; [reflexivity|]. by intros i.
Qed.

Lemma no_key : Crypt.dek_ok None.
Proof. by intros k. Qed.

Lemma e2_ok : store_ok (store e2).
Proof. exact (steps_store_ok _ _ steps_to_e2 (start_ok None small no_key)). Qed.

Lemma store_consistent_witness :
  store_ok (store e2) /\ numbered (store e2) /\
  forall k, In k (chunks (store e2)) -> exists h, verify_chunk_hash (k_id k) (store e2) = Ok (h, h, true).
Proof. apply (store_consistent None small e2 no_key steps_to_e2). Defined.

Definition plain_doc (t : string) : Document := from_plain (chars t).

Lemma plain_doc_text t : utf8_ok t = true -> text_doc (plain_doc t).
Proof. intros Ht. by apply from_plain_text, chars_scalar. Qed.

(** A document that begins as an encrypted value does. *)
Definition odd : RagEngine * result rag_err IngestStats :=
  ingest_document "default" "odd.txt" (plain_doc "enc: a note") None 3000 r1 "" (start None small).
Definition odd_stats : IngestStats :=
  {| document_id := "d1"; collection := "default"; is_chunks := 1; is_pages := 1; summary := None |}.

Lemma ingested_document_reads_witness : exists rich,
  Chunk.chunk_document (content (plain_doc "enc: a note")) (chars "odd.txt") 12 3 = Some rich /\
  let texts := (fun c => utf8 (Chunk.c_text c)) <$> rich in
  get_document_text "d1" (store (apply_runtime_config default_config odd.1))
  = if readable None texts then Ok (Some (join (nl +:+ nl) texts)) else Err (CryptErr Crypt.NoDek).
Proof.
  apply (ingested_document_reads "default" "odd.txt" (plain_doc "enc: a note") None 3000 r1 ""
    (start None small) odd_stats).
  - by apply start_ok.
  - exact r1_ok.
  - by apply plain_doc_text.
  - vm_compute. reflexivity.
  - eapply rtc_l; [|apply rtc_refl]. exists (Configure default_config). by split_and!.
Defined.

Example odd_unreadable : get_document_text "d1" (store odd.1) = Err (CryptErr Crypt.NoDek).
Proof. vm_compute. reflexivity. Qed.

Lemma retrieve_all_best_witness : exists r, retrieve_all_collections "beta" None e2 = Ok r /\
  top_k rank_of 2
    (omap (hit (store e2) (Math.normalize [1065353216; 1065353216]) 0) (chunks (store e2))) r.
Proof.
  apply (retrieve_all_best e2 "beta" None [1065353216; 1065353216]); [exact e2_ok|reflexivity].
Defined.

Definition e3 : RagEngine := rag_handle (DeleteDocument "d1") e2.

Definition r3 : list ScoredChunk :=
  match retrieve_all_collections "gamma" None e3 with Ok l => l | Err _ => [] end.

Lemma deleted_never_retrieved_witness :
  get_document "d1" (store e3) = None /\ get_document_text "d1" (store e3) = Ok None /\
  (retrieve "other" "gamma" None e3 = Ok r3 \/ retrieve_all_collections "gamma" None e3 = Ok r3 ->
   forall x, In x r3 -> doc_id x <> "d1"%string).
Proof. apply (deleted_never_retrieved "d1" e2 e3 "other" "gamma" None r3); [exact e2_ok|apply rtc_refl]. Defined.

Example r3_found : (fun x => s_text x) <$> r3 = ["in. and"; "nd gamma."]%string.
Proof. vm_compute. reflexivity. Qed.

End RagDemo.
