(* ===== verification/ChatDemo.v ===== *)
(** * Chat requests on a concrete server

    The server of [ApiDemo] with the models of [StoreDemo] and the documents of
    [RagDemo], an engine that always answers the same, and witnesses for the theorems of
    [Verifier], [ChatUsage] and [ChatTheorems]. *)

From Stdlib Require Import ZArith Lia Ascii String.
From S2P Require Import Prelude Json Crypto Common Events Entry Fs Instances UserDb Auth WorkspaceDb WorkspaceApi WorkspaceDemo ModelStore F32 SortBy RagStore RagEngine AppState IncidentApi ApiDemo Verifier Chat ChatUsage ChatTheorems RagDemo.
Open Scope string_scope.
Open Scope list_scope.
Open Scope Z_scope.

Module ChatDemo.
Import UserDb.UserDemo Chat.Chat AppState.AppState ApiDemo.ApiDemo RagDemo.RagDemo.

#[export] Program Instance toy_engine : InferenceEngine := {|
  device := Common.Models.Cpu; kernel_build_id := "toy-1";
  generate q := Ok {| rs_content := "It is so."; rs_tokens_in := 7; rs_tokens_out := 3;
                      rs_device := Common.Models.Cpu |};
  generate_stream q := [Ok {| t_text := "It is so."; is_last := false |}; Ok {| t_text := ""; is_last := true |}] |}.
Next Obligation. by intros q r [= <-]. Qed.

Definition acme : Common.Workspace.Workspace := {|
  Common.Workspace.id := "w1"; Common.Workspace.slug := "acme"; Common.Workspace.name := "Acme";
  Common.Workspace.api_key_hash := None; Common.Workspace.model_allowlist := [];
  Common.Workspace.rate_limit_rpm := Some 60; Common.Workspace.system_prompt := Some "Be brief.";
  Common.Workspace.created_at := 0; Common.Workspace.net_namespace := false;
  Common.Workspace.max_concurrent_requests := Some 2; Common.Workspace.max_models := Some 1;
  Common.Workspace.max_memory_bytes := Some 100; Common.Workspace.dek := None |}.

(** The documents of the collection "other" are confidential. *)
Definition secret : Common.Classification.CollectionPolicy := {|
  Common.Classification.label := Common.Classification.Confidential;
  Common.Classification.block_on_violation := true |}.

Definition labels : Common.Classification.ClassificationPolicy := {|
  Common.Classification.collections := {["other" := secret]};
  Common.Classification.workspaces := ∅ |}.

Definition chat0 : chat_server := {|
  sapp := set_classification app0 labels; store_ := StoreDemo.s3; rag := Some RagDemo.e2;
  stats := {| requests := 0; tokens_in := 0; tokens_out := 0; errors := 0; duration_ms := 0 |} |}.

Definition ask_with (o : option RagOptions) (streamed : bool) : ChatCompletionRequest := {|
  req_model := "llama:8b"; req_messages := [{| o_role := "user"; o_content := "is beta so?" |}];
  temperature := 1061158912; max_tokens := 64; stream := streamed; stop := None; req_rag := o;
  with_receipt := true; deterministic := false; req_seed := None |}.

Definition in_default : RagOptions := {| ro_collection := Some "default"; ro_top_k := None; require_context := true |}.
Definition in_other : RagOptions := {| ro_collection := Some "other"; ro_top_k := None; require_context := true |}.
Definition in_all : RagOptions := {| ro_collection := None; ro_top_k := None; require_context := false |}.

Definition dr : chat_draws := {| request_id := "req-1"; receipt_id := "rc-1";
  sign_seed := "0123456789abcdef0123456789abcdef"; tee_nonce := "nonce-twelve"; thread_count := 8; elapsed_ms := 40 |}.

Definition answered : chat_server * result Auth.Auth.api_error chat_response :=
  run acme (ask_with (Some in_default) false) dr 5000 chat0.

Definition answer_of (r : result Auth.Auth.api_error chat_response) : option (string * Z * nat * bool) :=
  match r with
  | Ok (Completion c _ _ t src rec) => Some (c, t, List.length (default [] src), bool_decide (is_Some rec))
  | _ => None
  end.

Example answered_ok : answer_of answered.2 = Some ("It is so.", 10, 2%nat, true).
Proof. vm_compute. reflexivity. Qed.

Example other_refused : (run acme (ask_with (Some in_other) false) dr 5000 chat0).2 = Err Auth.Auth.Forbidden.
Proof. vm_compute. reflexivity. Qed.

(** ** Witnesses *)

(** Two requests are in flight when a third asks. *)
Definition one : chat_server := (admit_request acme (ask_with None false) 5000 chat0).1.

Definition manifest_of (r : result Auth.Auth.api_error (Common.Models.ModelId * Common.Models.ModelManifest))
    : Common.Models.ModelId * Common.Models.ModelManifest :=
  match r with Ok x => x | Err _ =>
    ({| Common.Models.name := ""; Common.Models.tag := "" |}, ModelStore.ModelStore.manifest_of 0 StoreDemo.row1) end.

Definition admitted1 : Common.Models.ModelId * Common.Models.ModelManifest :=
  manifest_of (admit_request acme (ask_with None false) 5000 chat0).2.

Lemma one_admitted : admit_request acme (ask_with None false) 5000 chat0 = (one, Ok (admitted1.1, admitted1.2)).
Proof. vm_compute. reflexivity. Qed.

Definition two : chat_server := (admit_request acme (ask_with None false) 6000 one).1.

Lemma two_admitted : admit_request acme (ask_with None false) 6000 one = (two, Ok (admitted1.1, admitted1.2)).
Proof. vm_compute. reflexivity. Qed.

Example third_refused : (admit_request acme (ask_with None false) 7000 two).2 = Err Auth.Auth.ServiceUnavailable.
Proof. vm_compute. reflexivity. Qed.

Lemma quotas_hold_witness :
  let key := Common.Models.display admitted1.1 in let mine := ChatUsage.on "acme" [("acme", key)] in
  ChatUsage.usage_ok two [("acme", key); ("acme", key)] /\
  (forall max, Some 2 = Some max -> len mine + 1 <= max) /\
  (forall max, Some 1 = Some max -> key ∉ mine ->
     Z.of_nat (size (list_to_set (C := gset string) (key :: mine))) <= max) /\
  (forall max, Some 100 = Some max -> max < u64_max -> key ∉ mine ->
     memory_bytes (usage_of "acme" (sapp two)) <= max).
Proof.
  apply (ChatUsage.quotas_hold chat0 one [("acme", Common.Models.display admitted1.1)] acme
           (ask_with None false) 6000 two admitted1.1 admitted1.2).
  - reflexivity.
  - eapply rtc_l; [|apply rtc_refl].
    apply (ChatUsage.step_admit acme (ask_with None false) 5000 chat0 one admitted1.1 admitted1.2).
    exact one_admitted.
  - exact two_admitted.
Defined.

Lemma incident_stops_chat_witness :
  run acme (ask_with None false) dr 6000 (set_app chat0 declared) = (set_app chat0 declared, Err Auth.Auth.ServiceUnavailable).
Proof.
  apply (ChatTheorems.incident_stops_chat app0 (set_app chat0 declared) acme _ dr 6000 breach).
  - exact app0_ok.
  - eapply rtc_l; [apply IncidentApi.step_restart|]. eapply rtc_l; [|apply rtc_refl].
    apply (IncidentApi.step_request host_h (IncidentApi.Declaration "breach" []) Incidents.NotOpened 500 9).
  - reflexivity.
  - discriminate.
Defined.

Lemma blocked_collection_refused_witness :
  let r := run acme (ask_with (Some in_all) false) dr 5000 chat0 in
  is_ok r.2 = false /\
  exists l, trail (sapp r.1) = trail (sapp chat0) ++ l /\ Forall (ChatTheorems.retrieval_call acme chat0) l.
Proof.
  apply (ChatTheorems.blocked_collection_refused acme _ dr 5000 chat0 in_all "other" secret).
  - reflexivity.
  - right. by left.
  - reflexivity.
  - reflexivity.
  - vm_compute. reflexivity.
Defined.

Definition receipt_of (r : result Auth.Auth.api_error chat_response) : Receipt.InferenceReceipt :=
  match r with
  | Ok (Completion _ _ _ _ _ (Some rec)) => rec
  | _ => unsigned_receipt dr 0 "" "" None [] "" 0 0 0 0 None false [] ""
  end.

Definition plain : chat_server * result Auth.Auth.api_error chat_response :=
  run acme (ask_with None false) dr 5000 chat0.
Definition rec1 : Receipt.InferenceReceipt := receipt_of plain.2.

Lemma plain_ok : run acme (ask_with None false) dr 5000 chat0 =
  (plain.1, Ok (Completion "It is so." 7 3 10 None (Some rec1))).
Proof. vm_compute. reflexivity. Qed.

Lemma answers_recorded_witness :
  exists pre id hash prompt dev response receipt,
    Forall (ChatTheorems.retrieval_call acme chat0) pre /\
    trail (sapp plain.1) = trail (sapp chat0) ++ pre ++ (ChatTheorems.by_log acme chat0 "api" <$>
      ([Events.InferenceStart "req-1" id hash device prompt;
        Events.InferenceComplete "req-1" id 7 3 40 dev response]
       ++ match receipt with Some r => [Events.InferenceReceiptEv r] | None => [] end)) /\
    Some rec1 = receipt /\ 10 = Z.min u32_max (7 + 3) /\
    stats plain.1 = record_ok 7 3 40 (stats chat0).
Proof.
  exact (ChatTheorems.answers_recorded acme (ask_with None false) dr 5000 chat0 plain.1 _ 7 3 10 None (Some rec1) plain_ok).
Defined.

Definition streamed : chat_server * result Auth.Auth.api_error chat_response :=
  run acme (ask_with None true) dr 5000 chat0.

Lemma streamed_unrecorded_witness :
  exists pre id hash prompt q, Forall (ChatTheorems.retrieval_call acme chat0) pre /\
    trail (sapp streamed.1) = trail (sapp chat0) ++ pre
      ++ [ChatTheorems.by_log acme chat0 "api" (Events.InferenceStart "req-1" id hash device prompt)] /\
    stats streamed.1 = stats chat0 /\ data (sapp streamed.1) = data (sapp chat0) /\
    ir_request_id q = "req-1" /\
    [Ok {| t_text := "It is so."; is_last := false |}; Ok {| t_text := ""; is_last := true |}] = generate_stream q.
Proof.
  apply (ChatTheorems.streamed_unrecorded acme (ask_with None true) dr 5000 chat0 streamed.1
           [Ok {| t_text := "It is so."; is_last := false |}; Ok {| t_text := ""; is_last := true |}] None).
  vm_compute. reflexivity.
Defined.

Lemma receipt_verifies_witness : exists id m ms resp,
  ChatTheorems.asked_model (ask_with None false) 5000 chat0 id m /\
  ChatTheorems.asked_messages (ask_with None false) (tee_key (sapp chat0)) None ms /\
  let q := inference_request (ask_with None false) id m dr (ChatTheorems.engine_messages acme m (sapp chat0) ms) in
  generate q = Ok resp /\ 7 = rs_tokens_in resp /\ 3 = rs_tokens_out resp /\ "It is so." = rs_content resp /\
  forall f path inp outp json_text,
    String.prefix "-" path = false -> read_to_string f path = Ok json_text ->
    json_parse json_text = Some (Receipt.receipt_json rec1) ->
    read f inp = Ok (ChatTheorems.message_bytes (ir_messages q)) -> read f outp = Ok (rs_content resp) ->
    Verifier.main [path; "--input"; inp; "--output"; outp] EmptyString f
    = ([Verifier.SignatureOk (stake 16 (Receipt.signing_key_id rec1)); Verifier.InputOk; Verifier.OutputOk],
       Verifier.Success).
Proof.
  apply (ChatTheorems.receipt_verifies acme (ask_with None false) dr 5000 chat0 plain.1 "It is so." 7 3 10 None rec1).
  - exact plain_ok.
  - vm_compute. reflexivity.
  - reflexivity.
  - vm_compute. reflexivity.
Defined.

End ChatDemo.
