(* ===== verification/RouteDemo.v ===== *)
(** * The routes of labels and retrieval on concrete states

    The server of [ChatDemo] with an allowlisted ingestion key, and witnesses for the
    theorems of [Labels] and [RagApi]. *)

From Stdlib Require Import ZArith Lia Ascii String.
From S2P Require Import Prelude Json Crypto Common Events Fs Instances UserDb Auth WorkspaceDb WorkspaceApi WorkspaceDemo AppState IncidentApi Labels ApiDemo RagChunk RagStore RagEngine RagDemo ModelStore Chat RagApi ChatDemo.
Open Scope string_scope.
Open Scope list_scope.
Open Scope Z_scope.

Module RouteDemo.
Import UserDb.UserDemo Auth.AuthDemo AppState.AppState ApiDemo.ApiDemo RagDemo.RagDemo RagChunk.ChunkDemo RagStore.RagStore RagEngine.RagEngine Chat.Chat ChatDemo.ChatDemo.

Lemma app0_on_disk : Labels.on_disk app0.
Proof. split; [apply fs_wf_empty|reflexivity]. Qed.

Definition label_other : Labels.label_request := Labels.SetCollection "other" Common.Classification.Phi None (Some "dpo").
Definition clear_acme : Labels.label_request := Labels.SetWorkspace "acme" Common.Classification.Pii.

Lemma policy_at_restart_witness :
  classification (Labels.restart_labels (Labels.run_labels [label_other] app0))
  = classification (Labels.run_labels [label_other] app0) /\
  let p := classification (Labels.run_labels [label_other] app0) in
  (Labels.writes clear_acme p = true ->
   (5 < String.length (json_pretty (Labels.policy_json (Labels.requested clear_acme p))))%nat ->
   let a' := Labels.restart_labels
               (Labels.handle_label clear_acme (Incidents.StoppedAfter 5) (Labels.run_labels [label_other] app0)).1 in
   classification a' = Common.Classification.default_policy /\
   forall ws c, Common.Classification.check_access (classification a') ws c = None).
Proof. apply (Labels.policy_at_restart [label_other] clear_acme 5 app0). exact app0_on_disk. Defined.

Definition open_key : RuntimeSettings := {|
  rag_ingest_policy := Allowlist; rag_ingest_allowlist := ["ingest-key"]; AppState.AppState.system_prompt := None;
  air_gap := true; log_prompts := false; tee_encrypt_key := None |}.

Definition route0 : chat_server := set_app chat0 {|
  wsv := wsv (sapp chat0); data := fs_empty; trail := []; incident := None; audit_frozen := false;
  classification := labels; rate_limiter := ∅; workspace_usage := ∅; workspace_audits := ∅;
  rt := open_key; isolation_ok := true |}.

Definition ingest_h : Auth.Auth.headers := with_token "Bearer ingest-key".
Definition nobody : Auth.Auth.headers := with_token "Bearer nobody".

Definition rd : RagApi.rag_draws := {|
  RagApi.doc_draws _ := {| new_doc := "d9"; new_chunk i := "k9" +:+ show_u64 (Z.of_nat i); new_nonce _ := "nonce-twelve" |};
  RagApi.summary_nonce _ := "nonce-twelve"; RagApi.summary_request _ := "sum-1" |}.

Definition report : RagApi.multipart := {|
  RagApi.fields := [{| RagApi.f_name := Some "file"; RagApi.f_file := Some "report.txt";
                       RagApi.f_bytes := Some "beta of the year."; RagApi.f_text := None |};
                    {| RagApi.f_name := Some "collection"; RagApi.f_file := None;
                       RagApi.f_bytes := Some "other"; RagApi.f_text := Some "other" |}];
  RagApi.well_formed := true |}.

(** The label refuses the text and not the file. *)
Example text_refused : (RagApi.ingest_document ingest_h (Some "other") "r" "beta of the year." 7000 rd route0).2
  = Err Auth.Auth.Forbidden.
Proof. vm_compute. reflexivity. Qed.

Example file_stored : match (RagApi.upload_document ingest_h report 7000 rd route0).2 with
                      | Ok st => collection st = "other" /\ summary st = Some "It is so." | Err _ => False end.
Proof. vm_compute. done. Qed.

Lemma rag_routes_guarded_witness :
  rag (RagApi.handle_rag nobody (RagApi.RUpload report) 7000 rd route0).1 = rag route0.
Proof.
  apply (RagApi.rag_routes_guarded nobody (RagApi.RUpload report) 7000 rd route0 Auth.Auth.Forbidden).
  - vm_compute. reflexivity.
  - vm_compute. reflexivity.
Defined.

Lemma labels_guard_text_only_witness :
  (let r := RagApi.ingest_document ingest_h (Some "other") "r" "beta." 7000 rd route0 in
   is_ok r.2 = false /\ rag r.1 = rag route0) /\
  (forall body p, RagApi.same_effect (RagApi.upload_document ingest_h body 7000 rd (RagApi.relabelled p route0))
                    (RagApi.upload_document ingest_h body 7000 rd route0)) /\
  (forall q k p, RagApi.same_effect (RagApi.search (Some "other") q k (RagApi.relabelled p route0))
                   (RagApi.search (Some "other") q k route0)).
Proof.
  apply (RagApi.labels_guard_text_only ingest_h route0 "other" secret "r" "beta." 7000 rd).
  - vm_compute. reflexivity.
  - reflexivity.
  - vm_compute. intros ak [= <-]. discriminate.
Defined.

End RouteDemo.
