(* ===== verification/LoadDemo.v ===== *)
(** * Approvals and baselines on concrete states

    Witnesses for the theorems of [Registry] and [Lifecycle]: the server of [ApiDemo], the
    models of [StoreDemo] and the engine of [ChatDemo], which always says the same. *)

From Stdlib Require Import ZArith Lia Ascii String.
From S2P Require Import Prelude Json Crypto Tokens Common Events Fs Instances UserDb Auth WorkspaceDb WorkspaceApi WorkspaceDemo AppState LegalHold IncidentApi ApiDemo ModelStore Chat ChatDemo Registry Lifecycle.
Open Scope string_scope.
Open Scope list_scope.
Open Scope Z_scope.

Module LoadDemo.
Import UserDb.UserDemo Registry.Registry Lifecycle.Lifecycle AppState.AppState ApiDemo.ApiDemo ChatDemo.ChatDemo.

Definition seed : string := "0123456789abcdef0123456789abcdef".

Definition env_at (t : Z) : env := {|
  e_uuid := "u" +:+ show_u64 t; e_seed := seed; e_t0 := t; e_now := t;
  w_token := Incidents.Written; w_record := Incidents.Written; rm_ok := true |}.

Definition sha : string := "abcd".

Definition approved : app :=
  run_registry [(Submit "m:1" sha "eve" None, env_at 1); (Approve sha "eve" None None, env_at 2)] app0.

Lemma empty_key : key_ok (data app0).
Proof. intros b. by vm_compute. Qed.

Lemma anyone_approves_witness : TokenFile.gate Registry.tokens_dir sha 9 (data approved) = None.
Proof.
  apply (anyone_approves "m:1" sha "eve" None "eve" None (env_at 1) (env_at 2) app0);
    [apply fs_wf_empty|exact empty_key|reflexivity..].
Defined.

Definition submitted : app := (submit "m:1" sha "eve" None (env_at 1) app0).1.

Definition no_record : SubmissionRecord := {|
  submission_id := ""; model_id := ""; model_sha256 := ""; submitted_by := ""; submitted_at := 0; note := None;
  status := Pending; cm_ticket_id := None; cm_system := None |}.

Definition record1 : SubmissionRecord := default no_record (load_submission sha (data submitted)).

Definition later_requests : list (registry_request * env) :=
  [(Submit "m:1" sha "eve" None, env_at 5); (Approve "other" "eve" None None, env_at 6)].

Lemma revoked_until_approved_witness :
  forallb (fun x => negb (approves sha x.1)) later_requests = true /\
  (rm_ok (env_at 4) = true -> forallb (fun x => negb (approves sha x.1)) later_requests = true ->
   forall now, TokenFile.gate Registry.tokens_dir sha now
     (data (run_registry later_requests (revoke sha "dpo" (env_at 4) submitted).1)) = Some TokenFile.NoToken) /\
  (rm_ok (env_at 4) = false -> w_record (env_at 4) = Incidents.Written ->
   is_ok (revoke sha "dpo" (env_at 4) submitted).2 = true /\
   forall now, TokenFile.gate Registry.tokens_dir sha now (data (revoke sha "dpo" (env_at 4) submitted).1) =
               TokenFile.gate Registry.tokens_dir sha now (data submitted)).
Proof.
  split; [reflexivity|].
  apply (revoked_until_approved sha "dpo" (env_at 4) record1 later_requests submitted).
  - apply (std_write_wf fs_empty), fs_wf_empty.
  - vm_compute. reflexivity.
Defined.

(** An expired token does not open the gate, and a removal that fails leaves it open. *)
Definition brief : app :=
  run_registry [(Submit "m:1" sha "eve" None, env_at 1); (Approve sha "eve" None (Some 1), env_at 2)] app0.

Example expiry_counts :
  TokenFile.gate Registry.tokens_dir sha (days_ns 1 + 2) (data brief) = None /\
  TokenFile.gate Registry.tokens_dir sha (days_ns 1 + 3) (data brief) = Some TokenFile.BadToken.
Proof. vm_compute. done. Qed.

#[export] Instance toy_loader : ModelLoader := {| can_load p := negb (String.eqb p ""); can_unload _ := true |}.

Definition llama : Common.Models.ModelId := {| Common.Models.name := "llama"; Common.Models.tag := "8b" |}.
Definition mf : Common.Models.ModelManifest :=
  default (ModelStore.ModelStore.manifest_of 0 StoreDemo.row1) (ModelStore.ModelStore.get llama 100 StoreDemo.s3).
Definition blob : string :=
  match ModelStore.ModelStore.blob_path_verified llama StoreDemo.s3 with Ok p => p | Err _ => "" end.

Definition manager_with (f : fs) (c : option BaselineChecker) (req : bool) : LifecycleManager := {|
  store := StoreDemo.s3; Lifecycle.Lifecycle.data := f; loaded := ∅; baseline := c; audit := true;
  require_approval_token := req; Lifecycle.Lifecycle.tokens_dir := None; in_engine := ∅; Lifecycle.Lifecycle.trail := [] |}.

Definition strict : LifecycleManager := manager_with fs_empty None true.

Lemma strict_loadable f c r : loadable llama 100 (manager_with f c r) mf blob.
Proof. split; [reflexivity|]. split; vm_compute; reflexivity. Qed.

Definition foreign_token : Tokens.Approval.ApprovalToken := {|
  Tokens.Approval.token_id := "t"; Tokens.Approval.model_id := "other:1"; Tokens.Approval.model_sha256 := "ffff";
  Tokens.Approval.approved_by := "mallory"; Tokens.Approval.approved_at := 1; Tokens.Approval.expires_at := None;
  Tokens.Approval.note := None; Tokens.Approval.signer_pubkey := ""; Tokens.Approval.signature := "" |}.

Lemma approval_gate_witness :
  ((ensure_loaded llama 100 strict).2 = Err (Blocked TokenFile.NoToken) /\
   in_engine (ensure_loaded llama 100 strict).1 = ∅ /\ loaded (ensure_loaded llama 100 strict).1 = ∅) /\
  let file := Tokens.Approval.token_path "approval-tokens" (Common.Models.sha256 mf) in
  block_reason (with_data strict (TokenFile.save Incidents.Written file (Tokens.Approval.sign foreign_token seed)
                                    fs_empty).1) (Common.Models.sha256 mf) 100 = None.
Proof.
  destruct (approval_gate llama 100 strict mf blob) as [Hb Hs].
  - apply strict_loadable.
  - reflexivity.
  - split; [apply Hb; vm_compute; reflexivity|].
    apply (Hs foreign_token seed); [reflexivity|exact I|apply fs_wf_empty].
Defined.

Definition refusing : BaselineChecker := new_checker None Refuse.

(** A baseline whose text the engine does not say. *)
Definition other_text : Tokens.Baseline.Baseline := Tokens.Baseline.sign {|
  Tokens.Baseline.schema_version := 1; Tokens.Baseline.model_sha256 := Common.Models.sha256 mf;
  Tokens.Baseline.model_id := "llama:8b"; Tokens.Baseline.created_at := 1;
  Tokens.Baseline.vectors := [{| Tokens.Baseline.prompt := "Is it?"; Tokens.Baseline.temperature := 0;
    Tokens.Baseline.seed := 1; Tokens.Baseline.max_tokens := 8; Tokens.Baseline.expected_sha256 := sha256_hex "No." |}];
  Tokens.Baseline.max_mismatches := 0; Tokens.Baseline.signer_pubkey := ""; Tokens.Baseline.signature := "" |} seed.

Definition drifted : LifecycleManager :=
  manager_with (BaselineFile.save (baseline_path refusing (Common.Models.sha256 mf)) other_text fs_empty)
    (Some refusing) false.

Lemma baseline_outcomes_witness :
  let r := ensure_loaded llama 100 drifted in
  Common.Models.display llama ∈ in_engine r.1 /\
  (is_ok r.2 = true <-> loaded r.1 !! Common.Models.display llama = Some llama) /\
  (is_ok r.2 = true <-> (is_ok (Tokens.Baseline.verify other_text) = true -> within llama blob other_text = true)).
Proof.
  apply (baseline_outcomes llama 100 drifted mf blob refusing other_text).
  - apply strict_loadable.
  - reflexivity.
  - vm_compute. reflexivity.
  - reflexivity.
  - reflexivity.
  - reflexivity.
  - apply (std_write_wf fs_empty), fs_wf_empty.
  - vm_compute. reflexivity.
  - vm_compute. reflexivity.
Defined.

Example drift_refused : (ensure_loaded llama 100 drifted).2 = Err Drift.
Proof. vm_compute. reflexivity. Qed.
End LoadDemo.
