(* ===== verification/HostDemo.v ===== *)
(** * Isolation, reloads and starts on concrete hosts

    A firewall as policies and rules that refuses the one IPv6 address of the default
    configuration, as [iptables] does; settings of two files; and witnesses for the
    theorems of [Isolation], [Reload] and [Startup]. *)

From Stdlib Require Import ZArith Lia Ascii String.
From S2P Require Import Prelude Json Crypto Common Events Fs AuditRotate Instances AuditLog AuditDemo UserDb Auth WorkspaceDb WorkspaceApi Seal SealDemo AppState RagEngine Queue Chat RagApi ChatDemo Isolation Config Startup Reload.
Open Scope string_scope.
Open Scope list_scope.
Open Scope Z_scope.

Module HostDemo.
Import Isolation.Isolation.

Record toy_fw := { pols : gmap string string; chains : gmap string (list rule) }.

Definition is_v6 (s : string) : bool := String.eqb s "::1".

Definition v4 (r : rule) : bool := negb (existsb is_v6 r).

Definition chain_of (f : toy_fw) (c : string) : list rule := List.filter v4 (default [] (chains f !! c)).

Definition toy_iptables (a : list string) (f : toy_fw) : exit toy_fw :=
  match a with
  | [o] => if String.eqb o "-F" then Exits true {| pols := pols f; chains := ∅ |} else Exits false f
  | o :: c :: r =>
    if negb (v4 r) then Exits false f else
    if String.eqb o "-P" then
      match r with [t] => Exits true {| pols := <[c := t]> (pols f); chains := chains f |} | _ => Exits false f end
    else if String.eqb o "-A" then Exits true {| pols := pols f; chains := <[c := chain_of f c ++ [r]]> (chains f) |}
    else if String.eqb o "-C" then Exits (existsb (fun x => bool_decide (x = r)) (chain_of f c)) f
    else Exits false f
  | [] => Exits false f
  end.

#[export] Program Instance toy_firewall : Iptables := {|
  fw := toy_fw; iptables := toy_iptables;
  policy f c := default "ACCEPT" (pols f !! c); rules := chain_of;
  iptables_save f := Exits true (show_u64 (Z.of_nat (size (chains f)))) |}.
Next Obligation.
  intros a f g. unfold toy_iptables. destruct a as [|o [|c r]]; [by intros [=]|by destruct (_ =? _)%string; intros [=]|].
  destruct (negb _); [by intros [=]|]. destruct (_ =? _)%string; [by destruct r as [|? [|]]; intros [=]|].
  destruct (_ =? _)%string; [by intros [=]|]. by destruct (_ =? _)%string; intros [=].
Qed.
Next Obligation.
  intros c t f g. unfold toy_iptables. destruct (negb _); [done|]. cbn. intros [= <-]. split; [|done].
  intros d. cbn. destruct (decide (d = c)) as [->|]; [by rewrite lookup_insert_eq|by rewrite lookup_insert_ne by done].
Qed.
Next Obligation.
  intros c r f g. unfold toy_iptables. destruct (negb _) eqn:E; [done|]. cbn. intros [= <-]. split; [done|].
  apply negb_false_iff in E. intros d. unfold chain_of. cbn.
  destruct (decide (d = c)) as [->|]; [|by rewrite lookup_insert_ne by done].
  rewrite lookup_insert_eq. cbn. rewrite List.filter_app. cbn. rewrite E. f_equal.
  induction (default [] (chains f !! c)) as [|x l IH]; [done|]. cbn. destruct (v4 x) eqn:Ex; cbn; [by rewrite Ex, IH|done].
Qed.
Next Obligation.
  intros c r f ok g. unfold toy_iptables. destruct (negb _) eqn:E; cbn.
  - intros [= <- <-]. split; [done|]. split; [done|]. unfold chain_of. intros [_ Hv]%List.filter_In. by rewrite Hv in E.
  - intros [= <- <-]. split; [done|]. rewrite existsb_exists. split.
    + by intros (x & Hx & ->%bool_decide_eq_true).
    + intros Hx. exists r. split; [done|]. by apply bool_decide_eq_true_2.
Qed.
Next Obligation. intros f g. cbn. by intros [= <-]. Qed.

Definition open_host : toy_fw := {| pols := ∅; chains := {["INPUT" := [["-p"; "icmp"; "-j"; "ACCEPT"]]]} |}.

Definition entry (h : string) : WhitelistEntry := {| host := h; port := 443; comment := "" |}.

Definition conf (m : AirGapMode) (p : Z) (l : list WhitelistEntry) : IsolationConfig := {|
  mode := m; api_port := p; api_allowed_sources := ["127.0.0.1"]; whitelist := l |}.

Definition iso0 : Isolator := {| config := conf Whitelist 11984 [entry "10.0.0.1"; entry "10.0.0.2"]; firewall := open_host |}.

Definition iso1 : Isolator := (apply iso0).1.

(** The rules of the host in the order of their chains. *)
Example iso1_rules : List.length (rules (firewall iso1) "INPUT") = 4%nat /\ List.length (rules (firewall iso1) "OUTPUT") = 3%nat.
Proof. by vm_compute. Qed.

Lemma isolation_applied_witness :
  let j := (apply iso0).1 in
  all_drop (firewall j) /\
  (forall c r, In (c, r) (wanted (config iso0)) -> In r (rules (firewall j) c)) /\
  (forall c r, In r (rules (firewall j) c) -> In r (rules (firewall iso0) c) \/ In (c, r) (wanted (config iso0))) /\
  forall c, rules (firewall (apply j).1) c = rules (firewall j) c.
Proof. apply (isolation_applied iso0); [reflexivity|discriminate|reflexivity]. Defined.

(** A host that is taken off the list, and a change of the port. *)
Lemma reload_keeps_stale_rules_witness :
  let c := conf Whitelist 11984 [entry "10.0.0.2"] in
  let x := reconfigure c iso1 in
  (mode (config iso1) = mode c -> api_port (config iso1) = api_port c ->
   forall d r, In r (rules (firewall iso1) d) -> In r (rules (firewall x.1) d)) /\
  (mode (config iso1) <> mode c \/ api_port (config iso1) <> api_port c ->
   forall g, iptables ["-F"] (firewall iso1) = Exits true g ->
   forall d r, In r (rules (firewall x.1) d) -> In (d, r) (wanted c)).
Proof. apply reload_keeps_stale_rules; [reflexivity|discriminate]. Defined.

(** The default configuration. *)
Definition iso_default : Isolator := {| config := default_config; firewall := open_host |}.

Lemma refused_source_locks_host_witness :
  is_ok (apply iso_default).2 = false /\ all_drop (firewall (apply iso_default).1).
Proof.
  apply (refused_source_locks_host "::1" iso_default); [reflexivity|discriminate|by right; left|by split|reflexivity].
Defined.

(** ** Starts *)

Import Config.Config UserDb.UserDemo AuditDemo.Demo.

Definition tpm_on : TpmConfig := {|
  tpm_enabled := true; pcr_indices := "0,7"; software_passphrase := Some "pw"; seal_purposes := ["audit-hmac"] |}.

Definition fresh_key : string := "0123456789abcdef0123456789abcdef".

Definition started : fs * result KekFile.kek_err string :=
  Startup.load_master_kek tpm_on fresh_key None r0 100 100 fs_empty.

Lemma started_ok : started = (started.1, Ok fresh_key).
Proof. vm_compute. reflexivity. Qed.

(** A boot after which the registers are others: the device unseals nothing. *)
Definition moved_tpm : Seal.Tpm2Tools := {|
  Seal.tpm2_createprimary_version := true;
  Seal.tpm2_createprimary := Some "ctx";
  Seal.tpm2_createpolicy l := Some l;
  Seal.tpm2_create _ pol data := Some (data, pol);
  Seal.tpm2_load _ pub priv := Some (priv +:+ pub);
  Seal.tpm2_unseal_cmd _ _ := None |}.

Definition moved : fs * result KekFile.kek_err string :=
  @Startup.load_master_kek _ _ _ _ moved_tpm tpm_on fresh_key None r0 200 200 started.1.

Lemma moved_refused : moved.2 = Err (KekFile.Unsealing Seal.Seal.TpmTool).
Proof. vm_compute. reflexivity. Qed.


Lemma first_admin_login_witness :
  let x := Startup.first_admin (Some "host-key") "u-0" "salt" 5 UserDb.UserDb.empty_db in
  x.2 = Ok tt /\
  forall fk h s secs t0 now token, Auth.Auth.user_db s = x.1 -> Auth.Auth.auth_ip_limiter s = (∅ : gmap string (Z * Z)) ->
  exists s' u, Auth.Auth.login fk h "admin" "host-key" secs t0 now token s = (s', Ok (token, u)) /\
    Common.User.role u = Common.User.Admin.
Proof. apply Startup.first_admin_login; reflexivity. Defined.

(** ** Reloads *)

Import Reload.Reload.

(** The command line and the variables of a start. *)
Definition env0 : env := {["MARANODE_ADMIN_KEY" := "env-key"; "MARANODE_LOG_PROMPTS" := "1"]}.

Definition no_args : Args.Args := {|
  Args.config := None; Args.no_isolation := false; Args.data_dir := None; Args.bind := None; Args.log_level := None;
  Args.device := None; Args.rag := false; Args.embedding_model := None; Args.rag_collection := None;
  Args.admin_key := None; Args.skip_bootstrap := false; Args.yes_bootstrap := false; Args.models_dir := None;
  Args.unix_socket := None; Args.no_unix_socket := false; Args.tls_cert := None; Args.tls_key := None |}.

Definition keyed_args : Args.Args := {|
  Args.config := None; Args.no_isolation := false; Args.data_dir := None; Args.bind := None; Args.log_level := None;
  Args.device := None; Args.rag := false; Args.embedding_model := None; Args.rag_collection := None;
  Args.admin_key := Some "env-key"; Args.skip_bootstrap := false; Args.yes_bootstrap := false; Args.models_dir := None;
  Args.unix_socket := None; Args.no_unix_socket := false; Args.tls_cert := None; Args.tls_key := None |}.

Lemma keyed_parsed : parsed env0 keyed_args.
Proof.
  unfold parsed, Args.reads. repeat split; cbn; try (by intros [? [=]]); try done; eauto.
Qed.

Lemma reload_equals_startup_witness :
  let c := default_daemon env0 in
  let s := Args.startup_config keyed_args c in let r := reload_config env0 (Pins.of_args keyed_args) c in
  Pins.restart_list (Pins.of_args keyed_args) (Pins.snapshot s) r = [] /\
  Config.isolation r = Config.isolation s /\ rag_of r = rag_of s /\ gap_of r = gap_of s /\
  runtime_from_config r true None =
    with_prompts_logged (is_on (env0 !! "MARANODE_LOG_PROMPTS")) (runtime_from_config s true None).
Proof. apply reload_equals_startup, keyed_parsed. Defined.

(** A daemon without isolation, whose file is gone. *)
#[export] Instance toy_toml : Toml := {| toml_parse e text := None |}.
#[export] Instance toy_filter : LogFilter := {| filter_ok l := negb (String.eqb l "") |}.

Definition open_args : Args.Args := {|
  Args.config := None; Args.no_isolation := true; Args.data_dir := None; Args.bind := None; Args.log_level := None;
  Args.device := None; Args.rag := false; Args.embedding_model := None; Args.rag_collection := None;
  Args.admin_key := None; Args.skip_bootstrap := false; Args.yes_bootstrap := false; Args.models_dir := None;
  Args.unix_socket := None; Args.no_unix_socket := false; Args.tls_cert := None; Args.tls_key := None |}.

(** The file of the start set a key and let only the administrator ingest. *)
Definition strict : DaemonConfig :=
  let c := default_daemon ∅ in
  Args.startup_config open_args (set_auth c (with_admin_key (Some "file-key") (auth c))).

Definition daemon0 : daemon := {|
  srv := ChatDemo.chat0; runtime := runtime_from_config strict false None; queue := Queue.Queue.new 32 4;
  isolator := {| config := conf Disabled 11984 []; firewall := open_host |}; log_filter := "info"; audit := w0;
  config_path := Some "/etc/maranode/config.toml"; pins := Pins.of_args open_args; snapshot := Pins.snapshot strict |}.

Definition reloaded : daemon * result config_err ReloadResponse := reload ∅ fs_empty 100 Log.WriteOk daemon0.

(** What the answer says. *)
Example reloaded_ok :
  rmap applied reloaded.2 = Ok ["log_level"; "inference.max_queue_depth"; "isolation"; "assistant"; "rag"; "auth"] /\
  rmap requires_restart reloaded.2 = Ok [].
Proof. by vm_compute. Qed.

Lemma deleted_config_opens_witness :
  (forall h, RagApi.RagApi.check_ingest_permission h (Chat.Chat.sapp (serving reloaded.1)) = Ok tt) /\
  (forall rfc h perm t, (@Auth.Auth.authorize_privileged rfc h perm t
     (AppState.AppState.server_of (Chat.Chat.sapp (serving reloaded.1)))).2 = Ok tt) /\
  forall h e' f' now' fault', (reload_route h e' f' now' fault' reloaded.1) = (reloaded.1, Err Refused).
Proof.
  apply (deleted_config_opens ∅ fs_empty 100 Log.WriteOk daemon0 "/etc/maranode/config.toml"); try reflexivity.
Defined.

(** On the host of the default configuration a reload stops at the isolation. *)
Definition daemon1 : daemon := {|
  srv := ChatDemo.chat0; runtime := runtime_from_config strict true None; queue := Queue.Queue.new 8 4;
  isolator := iso1; log_filter := "info"; audit := w0; config_path := Some "/etc/maranode/config.toml";
  pins := Pins.of_args no_args; snapshot := Pins.snapshot strict |}.

Example default_reload_stops :
  let x := reload ∅ fs_empty 100 Log.WriteOk daemon1 in
  x.2 = Err IsolationFailed /\ mode (config (isolator x.1)) = AirGap /\ Queue.Queue.max_waiting (queue x.1) = 32 /\
  admin_key (runtime x.1) = Some "file-key".
Proof. by vm_compute. Qed.

Lemma reload_outcomes_witness :
  (exists path c, config_path daemon0 = Some path /\ load ∅ path fs_empty = Ok c /\
     let c := reload_config ∅ (pins daemon0) c in
     host_follows c daemon0 reloaded.1 /\ settings_follow c fs_empty daemon0 reloaded.1) /\
  let y := reload ∅ fs_empty 100 Log.WriteOk daemon1 in
  exists path c, config_path daemon1 = Some path /\ load ∅ path fs_empty = Ok c /\
    host_follows (reload_config ∅ (pins daemon1) c) daemon1 y.1 /\ settings_stay daemon1 y.1.
Proof.
  split.
  - destruct (reload_outcomes ∅ fs_empty 100 Log.WriteOk daemon0) as [[_ Hx]|(path & c & Hp & Hl & Ho)].
    { exfalso. destruct Hx as [Hx|[Hx|Hx]]; vm_compute in Hx; discriminate Hx. }
    exists path, c. split; [exact Hp|]. split; [exact Hl|]. fold reloaded in Ho. unfold reload_outcome in Ho.
    assert (is_ok reloaded.2 = true) as Hok by (vm_compute; reflexivity).
    destruct reloaded.2; [|discriminate Hok]. destruct Ho as (Hh & _ & Hs & _). by split.
  - cbv zeta. destruct (reload_outcomes ∅ fs_empty 100 Log.WriteOk daemon1) as [[_ Hx]|(path & c & Hp & Hl & Ho)].
    { exfalso. destruct Hx as [Hx|[Hx|Hx]]; vm_compute in Hx; discriminate Hx. }
    exists path, c. split; [exact Hp|]. split; [exact Hl|]. unfold reload_outcome in Ho.
    replace (reload ∅ fs_empty 100 Log.WriteOk daemon1).2 with (@Err config_err ReloadResponse IsolationFailed) in Ho
      by (symmetry; apply default_reload_stops).
    destruct Ho as (Hh & Hs & _). by split.
Defined.
End HostDemo.
