(* ===== verification/EvidenceDemo.v ===== *)
(** * Bundles, reports and audit commands on concrete input

    Instances of the archive, the error texts and the running program, a log with a sealed
    and an active entry, and the witnesses of [Bundle], [Attest], [AuditApi] and
    [AuditCli]. *)

From Stdlib Require Import ZArith Lia Ascii String.
From S2P Require Import Prelude Json Crypto Common Events Entry Fs AuditRotate Instances AuditLog AuditChain AuditInv AuditRefine.
From S2P Require Import UserDb Exports Auth Pcr WorkspaceDb WorkspaceApi AppState RagStore Chat Bundle Startup Attest AuditApi AuditCli ApiDemo RagDemo LegalHold.
Import Events Entry Verify Log.
Open Scope string_scope.
Open Scope list_scope.
Open Scope Z_scope.

Module EvidenceDemo.
Import UserDb.UserDemo.

#[export] Instance toy_archive : Archive.
Proof.
  refine {| zip_files l := text_of_json (JObj ((fun x => (x.1, JStr x.2)) <$> l));
            unzip_files s := some? j := json_of_text s in some? m := as_obj j in
              all_some ((fun x : string * json => (fun b => (x.1, b)) <$> as_str x.2) <$> m) |}.
  intros l _. rewrite json_of_text_of. cbn. induction l as [|[n b] l IH]; [done|]. cbn. cbn in IH. by rewrite IH.
Defined.

#[export] Instance toy_errors : ErrorText := {| audit_error _ := "error"; parse_message _ := "unexpected" |}.
#[export] Instance toy_exe : Attest.Measure.Exe := {| Attest.Measure.current_exe := Some ("/usr/bin/maranoded", "elf") |}.

Definition key : string := "0123456789abcdef0123456789abcdef".
Definition seed : string := "fedcba9876543210fedcba9876543210".
Definition f_key : fs := write_file fs_empty "d/audit.key" 384 key.
Definition no_world : world :=
  (fs_empty, {| lfile := 0; lseq := 0; llast := ""; lkey := ""; ldir := ""; lpath := ""; lrotate := ROTATE_OFF |}).
Definition w0 : world := match open_with_key f_key "d" "d/audit.jsonl" key with Ok w => w | Err _ => no_world end.
Definition w1 : world := append_plain 5 "root" (DaemonStop "x") w0.
Definition cfg : Rotate.RotateConfig := {| Rotate.max_bytes := 1; Rotate.max_age_days := 0 |}.
Definition w2 : world := Eval vm_compute in (rotate_locked "d/audit.jsonl" cfg 6 w1).1.
Definition w3 : world := append_plain 7 "root" (AuditVerified 1 true) w2.

(** A log with one sealed entry and one active entry, and its key file. *)
Lemma sealed_log : exists a, log_inv w3 a /\ length (all_entries (al_segs a)) = 1%nat /\ length (al_active a) = 1%nat.
Proof.
  destruct (open_fresh_inv f_key "d" "d/audit.jsonl" key) as (w & Hw & _ & _ & _ & Hi0).
  { apply write_file_wf, fs_wf_empty. } { by exists "audit.jsonl". } { by vm_compute. } { by vm_compute. }
  assert (w = w0) as -> by (unfold w0; by rewrite Hw).
  assert (log_inv w1 {| al_segs := []; al_active := [next_entry w0.2 5 "root" (DaemonStop "x")] |}) as Hi1
    by (apply (append_plain_inv _ _ 5 "root" (DaemonStop "x") Hi0); reflexivity).
  destruct (rotate_inv _ _ cfg 6 Hi1) as (w & r & a & Hr & Hi2 & Ht & _).
  assert (w = w2) as -> by (apply (f_equal fst) in Hr; cbn [fst] in Hr; rewrite <- Hr; vm_compute; reflexivity).
  assert (al_active a = []) as Ha.
  { apply log_text_nil_iff. destruct Hi2 as (_ & _ & _ & Hc & _). 
    assert (content_at w2.1 (lpath w2.2) = Some EmptyString) as Hw2 by (vm_compute; reflexivity). rewrite Hc in Hw2. exact (inj Some _ _ Hw2). }
  unfold total in Ht. rewrite Ha, app_nil_r in Ht.
  eexists. split; [apply (append_plain_inv _ _ 7 "root" (AuditVerified 1 true) Hi2)|].
  - unfold total. rewrite Ht, Ha. cbn. lia.
  - reflexivity.
  - reflexivity.
  - cbn [al_segs al_active]. rewrite Ht, Ha. split; reflexivity.
Qed.

Lemma evidence_covers_active_witness : exists a, length (all_entries (al_segs a)) = 1%nat /\ length (al_active a) = 1%nat /\
  exists f' z files,
    Bundle.create_bundle_with_attestation "d/audit.jsonl" "d/audit.key" "out.zip" None (Some seed) None 8 9 None w3.1 = (f', Ok tt) /\
    content_at f' "out.zip" = Some z /\ unzip_files z = Some files /\ Bundle.bundle_accepts (ed_public seed) files = true /\
    Bundle.file_named "audit.jsonl" files = Some (log_text (al_active a)).
Proof.
  destruct sealed_log as (a & Hi & Hs & Ha).
  destruct (Bundle.evidence_covers_active w3 a "d/audit.key" "out.zip" None seed None 8 9
              {| Exports.workspace := None; Exports.from_ := None; Exports.to_ := None |} Hi ltac:(by vm_compute) eq_refl)
    as (_ & f' & z & files & Hc & Hz & Hu & Hok & Hl & _).
  exists a. split; [exact Hs|]. split; [exact Ha|]. exists f', z, files. auto.
Defined.

(** ** Attestation *)

Definition no_device (p : string) : bool := false.

Lemma tee_answers_witness :
  let r := AttestApi.get_tee no_device (Some "n1") seed fs_empty in
  exists resp pub, r.2 = Ok resp /\ (AttestApi.get_public_key seed r.1).2 = Ok pub /\
    TeeReport.is_synthetic (AttestApi.resp_report resp) = true /\
    (exists sig, AttestApi.resp_sig resp = Some sig /\
      AttestApi.verify_tee {| AttestApi.v_report_hash := TeeReport.report_hash (AttestApi.resp_report resp) +:+ "n";
        AttestApi.v_nonce := "1"; AttestApi.v_sig := sig; AttestApi.v_pubkey := pub |} = Ok true).
Proof.
  set (r := AttestApi.get_tee no_device (Some "n1") seed fs_empty).
  destruct (AttestApi.tee_answers no_device (Some "n1") seed seed fs_empty r.1 (AttestApi.get_public_key seed r.1).1
    {| AttestApi.resp_report := TeeReport.get_report no_device "n1"; AttestApi.resp_nonce := "n1";
       AttestApi.resp_sig := Some (hex_encode (Sign.sign seed (TeeReport.report_hash (TeeReport.get_report no_device "n1") +:+ "n1"))) |}
    (hex_encode (ed_public seed)) fs_wf_empty eq_refl eq_refl eq_refl) as (_ & _ & Hs & (sig & Hsig & Hv) & _).
  eexists _, _. split; [reflexivity|]. split; [reflexivity|]. split; [exact Hs|]. exists sig. split; [exact Hsig|].
  apply Hv. rewrite string_app_assoc. reflexivity.
Defined.

(** A log of one line that is no entry, and no key file. *)
Definition f_junk : fs := std_write fs_empty "audit.jsonl" "junk".

Definition junk_run := AttestApi.get_report "no tpm" (Some "n1") Tpm.Unavailable 5 seed f_junk.

Lemma junk_ok : is_ok junk_run.2 = true /\ is_ok (AttestApi.get_public_key seed junk_run.1).2 = true /\
  match junk_run.2 with Ok resp => is_Some (Report.audit_log (AttestApi.report resp)) | Err _ => False end.
Proof. split; [by vm_compute|]. split; [by vm_compute|]. vm_compute. eauto. Qed.

Lemma report_answers_witness :
  exists resp a, junk_run.2 = Ok resp /\ Report.audit_log (AttestApi.report resp) = Some a /\ Report.chain_ok a = true.
Proof.
  pose proof (AttestApi.report_answers "no tpm" (Some "n1") Tpm.Unavailable 5 seed seed f_junk) as Hth.
  destruct junk_ok as (H1 & H2 & H3). unfold junk_run in *.
  destruct (AttestApi.get_report _ _ _ _ _ _) as [f' [resp|e]]; [|discriminate H1]. cbn [fst snd] in *.
  destruct (AttestApi.get_public_key seed f') as [f'' [pub|e]] eqn:Hp; [|discriminate H2].
  destruct H3 as [a Ha].
  destruct (Hth f' f'' resp pub (std_write_wf _ _ _ fs_wf_empty) eq_refl eq_refl Hp) as (_ & Hc & _).
  exists resp, a. split; [reflexivity|]. split; [exact Ha|]. apply (Hc a Ha). left. vm_compute. reflexivity.
Defined.

(** ** Pruning *)

(** An entry with the number 15 on a server where the numbers 10 to 20 are held. *)
Definition held_entry : AuditEntry :=
  {| ts := 5; seq := 15; actor := "root"; event := DaemonStop "x"; prev_hmac := "p"; hmac := "h" |}.
Definition f_held : fs := std_write ApiDemo.f_hold "audit.jsonl" (log_text [held_entry]).

Lemma prune_ignores_holds_witness :
  exists s', AuditApi.do_prune ApiDemo.host_h 1 (days_ns 2) (ApiDemo.app_with f_held) = (s', Ok 1) /\
    content_at (AppState.AppState.data s') "audit.jsonl" = Some (log_text []) /\
    LegalHold.LegalHold.is_seq_held 15 (days_ns 2) (AppState.AppState.data s')
      = LegalHold.LegalHold.is_seq_held 15 (days_ns 2) f_held.
Proof.
  assert (fs_wf ApiDemo.f_hold) as Hw by (apply std_write_wf, ApiDemo.f_key_wf).
  destruct (AuditApi.prune_ignores_holds ApiDemo.host_h 1 (days_ns 2) (ApiDemo.app_with f_held) [held_entry])
    as (s' & Hp & Hc & _ & Hh & _).
  - by vm_compute.
  - done.
  - by apply std_write_wf.
  - unfold f_held. cbn [AppState.AppState.data ApiDemo.app_with]. by rewrite content_at_std_write, decide_True.
  - repeat constructor.
  - exists s'. split; [exact Hp|]. split; [exact Hc|]. apply Hh.
Defined.

(** ** Commands *)

Definition backup_host : fs := std_write fs_empty "bk.zip" (zip_files (AuditCli.backup_files "d" w3.1 [])).

Lemma backup_loses_segments_witness : exists a, length (all_entries (al_segs a)) = 1%nat /\
  exists f1 g', AuditCli.backup_audit "d" "bk.zip" None None w3.1 = (f1, Ok tt) /\
    content_at backup_host "bk.zip" = content_at f1 "bk.zip" /\
    AuditCli.restore_audit "d" 18 key "bk.zip" false backup_host =
      (g', Ok (Some {| entries_checked := 1; ok := true; first_violation := None |})) /\
    content_at g' "d/audit.jsonl" = Some (log_text (al_active a)).
Proof.
  destruct sealed_log as (a & Hi & Hs & Ha). exists a. split; [exact Hs|].
  exists (std_write w3.1 "bk.zip" (zip_files (AuditCli.backup_files "d" w3.1 []))).
  assert (content_at backup_host "bk.zip" = content_at (std_write w3.1 "bk.zip" (zip_files (AuditCli.backup_files "d" w3.1 []))) "bk.zip") as Hz.
  { unfold backup_host. rewrite !content_at_std_write; [|exact (proj1 Hi)|exact fs_wf_empty]. by rewrite !decide_True by reflexivity. }
  destruct (AuditCli.backup_loses_segments "d" 18 key w3 a "bk.zip" _ "bk.zip" backup_host Hi eq_refl eq_refl ltac:(by vm_compute)
              eq_refl (std_write_wf _ _ _ fs_wf_empty) Hz) as (g' & Hg & Hc & _).
  - repeat constructor.
  - reflexivity.
  - exists g'. rewrite Ha in Hg. split; [reflexivity|]. split; [exact Hz|]. split; [exact Hg|exact Hc].
Defined.

(** A chunk whose text and digest were replaced, and a receipt with the old digest. *)
Definition rewritten : RagStore.VectorStore := {|
  RagStore.collections := []; RagStore.documents := [];
  RagStore.chunks := [{| RagStore.k_id := "chunk-001"; RagStore.k_document := "doc"; RagStore.k_collection := "c";
     RagStore.k_ordinal := 0; RagStore.k_text := "new text"; RagStore.k_embedding := EmptyString; RagStore.k_page := 0;
     RagStore.k_section := None; RagStore.k_hash := sha256_hex "new text" |}];
  RagStore.dek := None |}.

Definition old_source : Receipt.SourceRef := {|
  Receipt.chunk_id := "chunk-001"; Receipt.doc_id := "doc"; Receipt.source := "a.txt"; Receipt.doc_sha256 := EmptyString;
  Receipt.chunk_hash := sha256_hex "old text"; Receipt.score := 0 |}.

Lemma sources_check_spec_witness : exists l, AuditCli.check_sources rewritten [old_source] = Ok l /\
  forallb AuditCli.is_hash_ok l = true.
Proof.
  destruct (AuditCli.sources_check_spec rewritten [old_source]) as (l & Hl & Hiff & _); [by repeat constructor|].
  exists l. split; [exact Hl|]. apply Hiff. repeat constructor. eexists. by split.
Defined.

End EvidenceDemo.
