(* ===== verification/UsersCli.v ===== *)
(** * The user commands of the command line

    Models [maranode-cli/src/commands/users.rs]: the commands that work on the user
    database itself, beside the daemon. The terminal's answer, the drawn id, the salt and
    the clock are arguments; the database file may be absent. The theorems relate the
    commands to the sessions and logins of the daemon on the same database. *)

From Stdlib Require Import ZArith Lia Ascii String.
From S2P Require Import Prelude Common Crypto UserDb Auth.
Open Scope string_scope.
Open Scope list_scope.
Open Scope Z_scope.

Module UsersCli.
Import Common.User UserDb.UserDb.

Inductive users_command :=
| CList
| CCreate (uname : string) (password email : option string) (role_text : string)
| CSetPassword (uname : string) (password : option string)
| CDisable (uname : string)
| CEnable (uname : string)
| CDelete (uname : string).

Inductive users_err :=
| NoDatabase | BadRole (e : string) | AlreadyExists | NoAnswer | TooShort | NoUser
| NotLocal (provider : string) | DbFailed (e : db_err).

(** A line of the table: the last column is [None] for "never". *)
Record user_line := {
  l_username : string; l_role : string; l_provider : string; l_active : bool; l_last : option Z
}.

Inductive users_output :=
| Lines (l : list user_line)
| CreatedUser (uname role_text : string)
| PasswordUpdated (uname : string)
| Already (uname : string) (act : bool)
| Switched (uname : string) (act : bool)
| DeletedUser (uname : string).

(** What [rpassword] reads, the drawn id and salt, and the clock. *)
Record env := { typed : option string; new_id : string; salt : string; now : Z }.

Section users.
Context `{!Rfc3339, !PasswordHash}.
Variable foreign_keys : bool.

Definition on_users {A} (m : SE db db_err A) : SE db users_err A :=
  fun d => let r := m d in (r.1, map_err DbFailed r.2).

Definition user_line_of (u : User) : user_line := {|
  l_username := username u; l_role := role_str (role u); l_provider := provider_str (provider u);
  l_active := active u; l_last := last_login u |}.

Definition cmd_list (e : env) : SE db users_err users_output :=
  do! d := sget in sret (Lines (user_line_of <$> list_users (now e) d)).

(** The password of the flag, or the one that is typed. *)
Definition prompt_password (password : option string) (e : env) : result users_err string :=
  match password with Some p => Ok p | None => ok_or (typed e) NoAnswer end.

Definition long_enough (password : string) : result users_err unit :=
  if Z.of_nat (String.length password) <? 8 then Err TooShort else Ok tt.

Definition cmd_create (uname : string) (password email : option string) (role_text : string) (e : env)
    : SE db users_err users_output :=
  do! role := slift (map_err BadRole (role_from_str role_text)) in
  do! d := sget in
  match get_by_username uname (now e) d with
  | Some _ => sfail AlreadyExists
  | None =>
    do! password := slift (prompt_password password e) in
    do! _ := slift (long_enough password) in
    let user := {|
      id := new_id e; username := uname; email := email;
      password_hash := Some (hash_password (salt e) password); role := role; provider := Local;
      provider_sub := None; active := true; created_at := now e; last_login := None |} in
    do! _ := on_users (create user) in
    sret (CreatedUser uname role_text)
  end.

Definition find_by_name (uname : string) (e : env) : SE db users_err User :=
  do! d := sget in slift (ok_or (get_by_username uname (now e) d) NoUser).

Definition cmd_set_password (uname : string) (password : option string) (e : env) : SE db users_err users_output :=
  do! user := find_by_name uname e in
  if negb (is_local user) then sfail (NotLocal (provider_str (provider user))) else
  do! password := slift (prompt_password password e) in
  do! _ := slift (long_enough password) in
  do! _ := on_users (update (Auth.Auth.with_password user (hash_password (salt e) password))) in
  sret (PasswordUpdated uname).

Definition with_active (u : User) (act : bool) : User := {|
  id := id u; username := username u; email := User.email u; password_hash := password_hash u;
  role := role u; provider := provider u; provider_sub := provider_sub u; active := act;
  created_at := created_at u; last_login := last_login u |}.

Definition cmd_set_active (uname : string) (act : bool) (e : env) : SE db users_err users_output :=
  do! user := find_by_name uname e in
  if Bool.eqb (active user) act then sret (Already uname act) else
  do! _ := on_users (update (with_active user act)) in
  sret (Switched uname act).

Definition cmd_delete (uname : string) (e : env) : SE db users_err users_output :=
  do! user := find_by_name uname e in
  do! _ := on_users (delete foreign_keys (id user)) in
  sret (DeletedUser uname).

Definition exec_users (c : users_command) (e : env) : SE db users_err users_output :=
  match c with
  | CList => cmd_list e
  | CCreate uname password email role_text => cmd_create uname password email role_text e
  | CSetPassword uname password => cmd_set_password uname password e
  | CDisable uname => cmd_set_active uname false e
  | CEnable uname => cmd_set_active uname true e
  | CDelete uname => cmd_delete uname e
  end.

(** [run]: the database file must be there. *)
Definition run_users (c : users_command) (e : env) : SE (option db) users_err users_output := fun f =>
  match f with
  | None => (None, Err NoDatabase)
  | Some d => let r := exec_users c e d in (Some r.1, r.2)
  end.

Fixpoint run_all (l : list (users_command * env)) (d : db) : db :=
  match l with [] => d | (c, e) :: l => run_all l (exec_users c e d).1 end.

(** ** What a command does to the tables *)

(** At most one statement, and none when the command fails. *)
Definition one_step {A} (m : SE db users_err A) : Prop := forall d,
  (m d).1 = d \/ is_ok (m d).2 = true /\ exists o, (m d).1 = exec foreign_keys o d.

Lemma one_step_bind {A B} (m : SE db users_err A) (k : A -> SE db users_err B) :
  (forall d, (m d).1 = d) -> (forall a, one_step (k a)) -> one_step (sbind m k).
Proof.
  intros Hm Hk d. specialize (Hm d). unfold sbind. destruct (m d) as [d' [a|x]]; simpl in Hm; subst d'.
  - apply Hk.
  - by left.
Qed.

Lemma one_step_op {A} (m : SE db db_err A) (k : users_output) o :
  (forall d, (m d).1 = exec foreign_keys o d) -> (forall d x, (m d).2 = Err x -> (m d).1 = d) ->
  one_step (A := users_output) (do! _ := on_users m in sret k).
Proof.
  intros Ho He d. specialize (Ho d). specialize (He d). unfold sbind, on_users.
  destruct (m d) as [d' [a|x]]; simpl in *.
  - right. eauto.
  - left. by eapply He.
Qed.

Lemma one_step_lift {A B} (r : result users_err A) (k : A -> SE db users_err B) :
  (forall a, one_step (k a)) -> one_step (sbind (slift r) k).
Proof. by apply one_step_bind. Qed.

Lemma one_step_get {B} (k : db -> SE db users_err B) : (forall d, one_step (k d)) -> one_step (sbind sget k).
Proof. by apply one_step_bind. Qed.

Lemma one_step_find {B} uname e (k : User -> SE db users_err B) :
  (forall u, one_step (k u)) -> one_step (sbind (find_by_name uname e) k).
Proof. by apply one_step_bind. Qed.

Lemma one_step_pure {A} (m : SE db users_err A) : (forall d, (m d).1 = d) -> one_step m.
Proof. intros Hm d. left. apply Hm. Qed.

Lemma one_step_create u (k : users_output) : one_step (A := users_output) (do! _ := on_users (create u) in sret k).
Proof. apply one_step_op with (OpCreate u); [done|]. intros d x. unfold create. by case_match. Qed.

Lemma one_step_update u (k : users_output) : one_step (A := users_output) (do! _ := on_users (update u) in sret k).
Proof. apply one_step_op with (OpUpdate u); [done|]. intros d x. unfold update. cbn zeta. by case_match. Qed.

Lemma one_step_delete uid (k : users_output) : one_step (A := users_output) (do! _ := on_users (delete foreign_keys uid) in sret k).
Proof. by apply one_step_op with (OpDelete uid). Qed.

Lemma one_step_ret {A} (a : A) : one_step (sret a).
Proof. by left. Qed.

Lemma one_step_fail {A} x : one_step (A := A) (sfail x).
Proof. by left. Qed.

Ltac walk_step :=
  lazymatch goal with
  | |- one_step (sbind (on_users (create _)) _) => apply one_step_create
  | |- one_step (sbind (on_users (update _)) _) => apply one_step_update
  | |- one_step (sbind (on_users (delete _ _)) _) => apply one_step_delete
  | |- one_step (sbind (slift _) _) => apply one_step_lift; intros ?
  | |- one_step (sbind sget _) => apply one_step_get; intros ?
  | |- one_step (sbind (find_by_name _ _) _) => apply one_step_find; intros ?
  | |- one_step (sret _) => apply one_step_ret
  | |- one_step (sfail _) => apply one_step_fail
  | |- one_step (if ?b then _ else _) => destruct b
  | |- one_step (match ?x with _ => _ end) => destruct x
  end.

Lemma exec_users_op c e : one_step (exec_users c e).
Proof.
  destruct c; cbn [exec_users]; unfold cmd_list, cmd_create, cmd_set_password, cmd_set_active, cmd_delete;
    repeat walk_step.
Qed.

Lemma run_all_reachable l d :
  Auth.Auth.reachable foreign_keys d -> Auth.Auth.reachable foreign_keys (run_all l d).
Proof.
  revert d. induction l as [|[c e] l IH]; intros d [ops Hd]; [by exists ops|]. cbn [run_all]. apply IH.
  destruct (exec_users_op c e d) as [->|(_ & o & ->)]; [by exists ops|].
  exists (ops ++ [o]). unfold run in *. by rewrite foldl_app, <- Hd.
Qed.

(** A command that fails leaves the tables as they are, and the constraints of the schema
    hold after any commands. *)
Theorem users_commands_safe l c e d :
  Auth.Auth.reachable foreign_keys d ->
  db_wf foreign_keys (run_all l d) /\
  (is_ok (exec_users c e d).2 = false -> (exec_users c e d).1 = d) /\
  (run_users c e None = (None, Err NoDatabase)).
Proof.
  intros Hr. split; [by apply (Auth.Auth.reachable_wf foreign_keys), run_all_reachable|]. split; [|done].
  destruct (exec_users_op c e d) as [Hd|(Hok & _)]; [done|congruence].
Qed.

(** ** A disabled account *)

Lemma find_row uname e d u :
  get_by_username uname (now e) d = Some u ->
  exists r, In r (users d) /\ r_username r = uname /\ u = row_to_user (now e) r.
Proof.
  unfold get_by_username, find_user. destruct (List.find _ _) as [r|] eqn:E; [|done]. intros [= <-].
  apply find_some in E as [Hin Hn]. exists r. split; [done|]. split; [by apply String.eqb_eq|done].
Qed.

Lemma get_row uname n d r :
  db_wf foreign_keys d -> In r (users d) -> r_username r = uname ->
  get_by_username uname n d = Some (row_to_user n r).
Proof.
  intros Hw Hin Hn. unfold get_by_username, find_user.
  destruct (List.find _ _) as [x|] eqn:E.
  - apply find_some in E as [Hx Hxn]. apply String.eqb_eq in Hxn. cbn. do 2 f_equal.
    apply (nodup_key r_username (users d)); [apply Hw|..]; congruence.
  - pose proof (find_none _ _ E r Hin) as Hf. simpl in Hf. rewrite Hn, String.eqb_refl in Hf. done.
Qed.

(** Switching never meets a conflict. *)
Lemma update_row u r d :
  db_wf foreign_keys d -> In r (users d) ->
  id u = r_id r -> username u = r_username r -> User.email u = r_email r ->
  update u d = (set_users d ((fun x => if String.eqb (r_id x) (r_id r) then updated u x else x) <$> users d), Ok tt).
Proof.
  intros Hw Hin Hi Hn He. unfold update. cbn zeta. rewrite Hi.
  destruct (existsb (fun x => negb (String.eqb (r_id x) (r_id r)) && conflicts (user_to_row u) x) (users d)) eqn:E;
    [|by rewrite andb_false_r].
  exfalso. apply existsb_exists in E as (x & Hx & Hc). apply andb_true_iff in Hc as [Hne Hc].
  apply negb_true_iff, String.eqb_neq in Hne. unfold conflicts in Hc. cbn [user_to_row r_id r_username r_email] in Hc.
  rewrite Hi, Hn, He, !orb_true_iff in Hc. destruct Hc as [[Hc|Hc]|Hc].
  - apply String.eqb_eq in Hc. done.
  - apply String.eqb_eq in Hc. apply Hne. f_equal. apply (nodup_key r_username (users d)); [apply Hw|done..].
  - unfold opt_eqb in Hc. destruct (r_email r) as [a|] eqn:Ea; [|done]. destruct (r_email x) as [b|] eqn:Eb; [|done].
    apply String.eqb_eq in Hc as ->. apply Hne. f_equal. 
    destruct Hw as [_ _ Hm _ _ _ _]. clear -Hm Hin Hx Ea Eb.
    induction (users d) as [|y l IH]; [done|]. simpl in Hm.
    assert (Hin' : forall z, In z l -> r_email z = Some b -> b ∈ omap r_email l).
    { intros z Hz Hzb. apply list_elem_of_omap. exists z. split; [by apply list_elem_of_In|done]. }
    destruct Hx as [->|Hx], Hin as [->|Hin]; [done|..].
    + rewrite Eb in Hm. apply NoDup_cons in Hm as [Hm _]. destruct Hm. eauto.
    + rewrite Ea in Hm. apply NoDup_cons in Hm as [Hm _]. destruct Hm. eauto.
    + apply IH; try done. destruct (r_email y); [by apply NoDup_cons in Hm as [_ Hm]|done].
Qed.

Lemma set_active_row uname act e d r :
  db_wf foreign_keys d -> In r (users d) -> r_username r = uname -> negb (r_active r =? 0) = negb act ->
  cmd_set_active uname act e d
  = (set_users d ((fun x => if String.eqb (r_id x) (r_id r)
                            then updated (with_active (row_to_user (now e) r) act) x else x) <$> users d),
     Ok (Switched uname act)).
Proof.
  intros Hw Hin Hn Ha. unfold cmd_set_active, find_by_name, sbind at 1, sbind at 1, sget, slift.
  rewrite (get_row uname (now e) d r Hw Hin Hn). cbn [ok_or].
  assert (Bool.eqb (active (row_to_user (now e) r)) act = false) as ->.
  { cbn [active row_to_user]. rewrite Ha. by destruct act. }
  unfold sbind, on_users. rewrite (update_row _ r d Hw Hin) by done. done.
Qed.

(** The rows of two tables that give the same sessions. *)
Lemma resolve_same token n d d' :
  db_wf foreign_keys d -> db_wf foreign_keys d' -> sessions d' = sessions d ->
  (forall uid, active_user uid d' <-> active_user uid d) ->
  id <$> resolve_session token n d' = id <$> resolve_session token n d.
Proof.
  intros Hw Hw' Hs Ha.
  assert (Hdir : forall d1 d2, db_wf foreign_keys d1 -> db_wf foreign_keys d2 -> sessions d2 = sessions d1 ->
    (forall uid, active_user uid d1 -> active_user uid d2) ->
    forall u, resolve_session token n d1 = Some u -> exists v, resolve_session token n d2 = Some v /\ id v = id u).
  { intros d1 d2 H1 H2 Hss Hact u Hu. apply (resolve_iff foreign_keys) in Hu as (s & r & Hin & Ht & Hl & Hr & Hi & Hone & ->); [|done].
    destruct (Hact (r_id r)) as (r' & Hr' & Hi' & Hone'); [by exists r|].
    exists (row_to_user n r'). split; [|done]. apply (resolve_iff foreign_keys); [done|].
    exists s, r'. rewrite Hss. repeat split; congruence. }
  destruct (resolve_session token n d) as [u|] eqn:E.
  - destruct (Hdir d d') with (u := u) as (v & -> & Hv); try done; [by intros; apply Ha|]. simpl. by rewrite Hv.
  - destruct (resolve_session token n d') as [v|] eqn:E'; [|done].
    destruct (Hdir d' d) with (u := v) as (x & Hx & _); try done; [by intros; apply Ha|congruence].
Qed.

(** Who is active after a switch. *)
Lemma active_switched uid r act n d :
  db_wf foreign_keys d -> In r (users d) ->
  active_user uid (set_users d ((fun x => if String.eqb (r_id x) (r_id r)
     then updated (with_active (row_to_user n r) act) x else x) <$> users d)) <->
  if String.eqb uid (r_id r) then act = true else active_user uid d.
Proof.
  intros Hw Hin. unfold active_user. cbn [users set_users]. split.
  - intros (x & Hx & Hi & Ha). apply list_elem_of_In, list_elem_of_fmap in Hx as (y & -> & Hy%list_elem_of_In).
    destruct (String.eqb_spec (r_id y) (r_id r)) as [Hyr|Hyr].
    + cbn in Hi, Ha. assert (uid = r_id r) as -> by congruence. rewrite String.eqb_refl. by destruct act.
    + destruct (String.eqb_spec uid (r_id r)); [congruence|]. by exists y.
  - destruct (String.eqb_spec uid (r_id r)) as [->|Hne]; intros Hx.
    + subst act. exists (updated (with_active (row_to_user n r) true) r). split; [|done].
      apply list_elem_of_In, list_elem_of_fmap. exists r. rewrite String.eqb_refl. split; [done|by apply list_elem_of_In].
    + destruct Hx as (x & Hx & Hi & Ha). exists x. split; [|done].
      apply list_elem_of_In, list_elem_of_fmap. exists x. split; [|by apply list_elem_of_In].
      by destruct (String.eqb_spec (r_id x) (r_id r)); [congruence|].
Qed.

(** Disabling an account suspends its sessions and removes none of them: while it is
    disabled no token resolves to it, and when it is enabled again every token resolves
    as it did before. *)
Theorem disabled_until_enabled uname e e' d r :
  Auth.Auth.reachable foreign_keys d -> In r (users d) -> r_username r = uname -> r_active r = 1 ->
  let off := exec_users (CDisable uname) e d in
  let on := exec_users (CEnable uname) e' off.1 in
  off.2 = Ok (Switched uname false) /\ on.2 = Ok (Switched uname true) /\
  sessions off.1 = sessions d /\
  (forall token t u, resolve_session token t off.1 = Some u -> id u <> r_id r) /\
  (forall token t, id <$> resolve_session token t on.1 = id <$> resolve_session token t d).
Proof.
  intros Hr Hin Hn Ha off on.
  pose proof (Auth.Auth.reachable_wf _ _ Hr) as Hw.
  assert (Hwoff : db_wf foreign_keys off.1) by
    (apply Auth.Auth.reachable_wf, (run_all_reachable [(CDisable uname, e)]), Hr).
  assert (Hwon : db_wf foreign_keys on.1) by
    (apply Auth.Auth.reachable_wf, (run_all_reachable [(CDisable uname, e); (CEnable uname, e')]), Hr).
  pose proof (set_active_row uname false e d r Hw Hin Hn) as Hoff. rewrite Ha in Hoff. specialize (Hoff eq_refl).
  change (cmd_set_active uname false e d) with off in Hoff.
  set (r' := updated (with_active (row_to_user (now e) r) false) r).
  assert (Hin' : In r' (users off.1)).
  { rewrite Hoff. apply list_elem_of_In, list_elem_of_fmap. exists r. rewrite String.eqb_refl.
    split; [done|by apply list_elem_of_In]. }
  pose proof (set_active_row uname true e' off.1 r' Hwoff Hin' Hn eq_refl) as Hon.
  change (cmd_set_active uname true e' off.1) with on in Hon.
  assert (Hd : off.1 = set_users d ((fun x => if String.eqb (r_id x) (r_id r)
    then updated (with_active (row_to_user (now e) r) false) x else x) <$> users d)) by by rewrite Hoff.
  assert (Hu : forall uid, active_user uid off.1 <-> if String.eqb uid (r_id r) then False else active_user uid d).
  { intros uid. rewrite Hd, (active_switched uid r false (now e) d Hw Hin). by destruct (String.eqb uid (r_id r)). }
  split; [by rewrite Hoff|]. split; [by rewrite Hon|]. split; [by rewrite Hd|]. split.
  - intros token t u (s & x & _ & _ & _ & Hx & _ & Hone & ->)%(resolve_iff foreign_keys) Hi; [|done]. cbn in Hi.
    pose proof (proj1 (Hu (r_id r)) (ex_intro _ x (conj Hx (conj Hi Hone)))) as Hf. by rewrite String.eqb_refl in Hf.
  - intros token t. apply resolve_same; [done..| |].
    + rewrite Hon, Hd. done.
    + intros uid. rewrite Hon. cbn [fst]. rewrite (active_switched uid r' true (now e') off.1 Hwoff Hin').
      change (r_id r') with (r_id r). specialize (Hu uid). destruct (String.eqb_spec uid (r_id r)) as [Huid|]; [|done].
      split; [|done]. intros _. exists r. by rewrite Huid.
Qed.

(** ** A created account *)

Lemma create_session_new uid ttl t0 t1 token d :
  ~ issued token d -> user_exists uid d = true ->
  exists d', create_session foreign_keys uid ttl t0 t1 token d = (d', Ok token).
Proof.
  intros Hn Hu. unfold create_session, sbind, smodify, sget, sput, sret, sfail. cbn [fst].
  destruct (existsb _ _) eqn:E.
  - exfalso. apply Hn. apply existsb_exists in E as (x & Hx & He). apply String.eqb_eq in He as <-.
    cbn [sessions set_sessions] in Hx. apply filter_In in Hx as [Hx _].
    apply list_elem_of_fmap_2. by apply list_elem_of_In.
  - unfold user_exists in *. cbn [users set_sessions]. rewrite Hu, andb_false_r. by eexists.
Qed.

(** What a creation that succeeds puts in the table. *)
Lemma created_row uname given password email role_text e d k :
  given = Some password \/ given = None /\ typed e = Some password ->
  (cmd_create uname given email role_text e d).2 = Ok k ->
  exists role, role_from_str role_text = Ok role /\ 8 <= Z.of_nat (String.length password) /\
    (cmd_create uname given email role_text e d).1 = set_users d (users d ++ [user_to_row {|
      id := new_id e; username := uname; email := email;
      password_hash := Some (hash_password (salt e) password); role := role; provider := Local;
      provider_sub := None; active := true; created_at := now e; last_login := None |}]).
Proof.
  intros Hg. assert (prompt_password given e = Ok password) as Hprompt.
  { unfold prompt_password. by destruct Hg as [->|[-> ->]]. }
  unfold cmd_create, sbind at 1, slift at 1.
  destruct (role_from_str role_text) as [role|x]; cbn [map_err snd fst]; [|by intros Hf]. unfold sbind, sget, slift.
  destruct (get_by_username uname (now e) d); [intros Hf; discriminate Hf|]. rewrite Hprompt.
  unfold long_enough. destruct (Z.ltb_spec (Z.of_nat (String.length password)) 8) as [|Hl]; [done|].
  unfold on_users, create. destruct (existsb _ _); [done|]. intros _. exists role. split; [done|]. split; [done|]. done.
Qed.

(** C30: An account that the command creates logs in at the daemon with its name and its
    password, given by the option or, without the option, typed at the prompt, and has the
    role that was asked for. *)
Theorem created_account_logs_in uname given password email role_text e d h secs t0 t1 token s :
  Auth.Auth.reachable foreign_keys d ->
  given = Some password \/ given = None /\ typed e = Some password ->
  let made := exec_users (CCreate uname given email role_text) e d in
  is_ok made.2 = true -> Auth.Auth.user_db s = made.1 ->
  (Auth.Auth.check_auth_ip_rate (Auth.Auth.client_ip h) 20 secs s).2 = Ok tt -> ~ issued token d ->
  exists s' u, Auth.Auth.login foreign_keys h uname password secs t0 t1 token s = (s', Ok (token, u)) /\
    id u = new_id e /\ role_from_str role_text = Ok (role u).
Proof.
  intros Hr Hgiven made Hok Hdb Hrate Ht.
  assert (Hwf : db_wf foreign_keys made.1) by
    (apply Auth.Auth.reachable_wf, (run_all_reachable [(CCreate uname given email role_text, e)]), Hr).
  destruct made.2 as [k|x] eqn:Em; [|done]. apply (created_row _ _ _ _ _ _ _ _ Hgiven) in Em as (role & Hrole & Hlen & Hd).
  change (cmd_create _ _ _ _ _ _) with made in Hd. set (row := user_to_row _) in Hd.
  assert (Hin : In row (users made.1)) by (rewrite Hd; apply in_or_app; right; by left).
  pose proof (get_row uname t1 made.1 row Hwf Hin eq_refl) as Hget.
  assert (Hx : user_exists (new_id e) made.1 = true).
  { apply user_exists_spec. by exists row. }
  assert (Hn : ~ issued token made.1) by by rewrite Hd.
  unfold Auth.Auth.login, sbind at 1.
  destruct (Auth.Auth.check_auth_ip_rate _ _ _ _) as [s1 r1] eqn:Er. cbn [snd] in Hrate. subst r1.
  apply Auth.Auth.rate_db in Er as [Hdb1 _].
  assert (Hu : let u := row_to_user t1 row in
    active u = true /\ provider u = Local /\ password_hash u = Some (argon2_hash (salt e) password) /\
    id u = new_id e /\ User.role u = role).
  { repeat split. cbn. by rewrite role_round. }
  cbv zeta in Hu. revert Hget Hu. generalize (row_to_user t1 row). intros u Hget (Ha & Hp & Hh & Hi & Hro).
  unfold sbind, Auth.Auth.ask, slift, sget, sret. rewrite Hdb1, Hdb, Hget. cbn [ok_or].
  rewrite Ha, Hp, Hh. cbn [negb ok_or]. rewrite bool_decide_true by done. cbn [negb].
  unfold verify_password. rewrite argon2_verify_hash. cbn [ok_or map_err negb].
  unfold Auth.Auth.on_db. rewrite Hdb1, Hdb, Hi.
  destruct (create_session_new (new_id e) (Auth.Auth.session_hours s1) t0 t1 token made.1 Hn Hx) as (d' & ->).
  cbn [fst snd map_err]. exists (Auth.Auth.set_db s1 d'), u. by rewrite Hro.
Qed.

End users.
End UsersCli.

Module UsersCliDemo.
Import Common.User UserDb.UserDb UserDemo UsersCli.

Definition e1 : env := {| typed := Some "correct horse"; new_id := "u-9"; salt := "s"; now := 200 |}.
Definition srv : Auth.Auth.server := {|
  Auth.Auth.user_db := (exec_users true (CCreate "Bob" None None "operator") e1 d1).1;
  Auth.Auth.admin_key := None; Auth.Auth.session_hours := 8; Auth.Auth.smtp := false;
  Auth.Auth.auth_ip_limiter := ∅ |}.
Definition plain : Auth.Auth.headers :=
  {| Auth.Auth.authorization := None; Auth.Auth.x_forwarded_for := None; Auth.Auth.x_real_ip := None |}.

(** Names are kept as typed here; the route makes them lower-case, and a login compares
    them as they are typed. *)
Example created_name : r_username <$> users (Auth.Auth.user_db srv) = ["jane"; "Bob"].
Proof. by vm_compute. Qed.

(** Nothing keeps the last account that manages users. *)
Example last_admin_goes :
  List.existsb (fun u => can_manage_users (role u))
    (list_users 300 (run_all true [(CDelete "jane", e1)] d1)) = false /\
  List.length (users d1) = 1%nat.
Proof. by vm_compute. Qed.

Lemma d1_reached : Auth.Auth.reachable true d1.
Proof. exists [OpCreate jane; OpSession "u-1" 8 100 100 "tok-1"]. by vm_compute. Qed.

Lemma users_commands_safe_witness :
  db_wf true (run_all true [(CDisable "jane", e1); (CList, e1)] d1) /\
  (exec_users true (CCreate "jane" (Some "correct horse") None "viewer") e1 d1).1 = d1.
Proof.
  destruct (users_commands_safe true [(CDisable "jane", e1); (CList, e1)]
    (CCreate "jane" (Some "correct horse") None "viewer") e1 d1 d1_reached) as (H1 & H2 & _).
  split; [exact H1|]. apply H2. by vm_compute.
Defined.

Definition jane_row : user_row := default (user_to_row jane) (head (users d1)).

Lemma disabled_until_enabled_witness :
  let off := exec_users true (CDisable "jane") e1 d1 in
  let on := exec_users true (CEnable "jane") e1 off.1 in
  off.2 = Ok (Switched "jane" false) /\ resolve_session "tok-1" 300 d1 <> None /\
  resolve_session "tok-1" 300 off.1 = None /\
  id <$> resolve_session "tok-1" 300 on.1 = Some "u-1".
Proof.
  destruct (disabled_until_enabled true "jane" e1 e1 d1 jane_row d1_reached) as (H1 & H2 & H3 & H4 & H5).
  - left. by vm_compute.
  - by vm_compute.
  - by vm_compute.
  - split; [exact H1|]. split; [by vm_compute|]. split; [by vm_compute|]. rewrite H5. by vm_compute.
Defined.

Lemma created_account_logs_in_witness :
  exists s' u, Auth.Auth.login true plain "Bob" "correct horse" 7 300 300 "tok-7" srv = (s', Ok ("tok-7", u)) /\
    id u = "u-9" /\ role_from_str "operator" = Ok (role u).
Proof.
  apply (created_account_logs_in true "Bob" None "correct horse" None "operator" e1 d1 plain 7 300 300 "tok-7" srv d1_reached).
  - by right.
  - by vm_compute.
  - reflexivity.
  - by vm_compute.
  - unfold issued. vm_compute. intros H. by apply list_elem_of_singleton in H.
Defined.

End UsersCliDemo.
