(* ===== verification/Http.v ===== *)
(** * Requests to other services

    What the parts that call out share: a request, an answer, and a conversation with
    the outside, which answers as a function of all requests so far or not at all. The
    state of a conversation is the requests that were sent. *)

From Stdlib Require Import ZArith Lia Ascii String.
From S2P Require Import Prelude Json Crypto UserDb Auth.
Open Scope string_scope.
Open Scope list_scope.
Open Scope Z_scope.

Module Http.

Inductive credentials := NoAuth | Basic (user : string) (password : option string) | Bearer (token : string).

Inductive body := NoBody | JsonBody (j : json) | Form (l : list (string * string)).

Record request := {
  method : string; url : string; auth : credentials; extra : list (string * string); payload : body
}.

(** An answer: its status, its headers that are text, its body. *)
Record reply := { status : Z; header : string -> option string; content : string }.

Definition is_success (r : reply) : bool := (200 <=? status r) && (status r <=? 299).

(** What comes back for a request after others; [None] when no answer comes. *)
Definition world := list request -> request -> option reply.

Inductive http_err := Unreachable | NotJson | BadStatus (code : Z) (text : string) | Missing (what : string).

Definition send (w : world) (r : request) : SE (list request) http_err reply := fun sent =>
  (sent ++ [r], ok_or (w sent r) Unreachable).

(** A request whose answer is dropped. *)
Definition send_quietly (w : world) (r : request) : SE (list request) http_err unit := signore (send w r).

Definition request_to (m u : string) (a : credentials) (x : list (string * string)) (b : body) : request :=
  {| method := m; url := u; auth := a; extra := x; payload := b |}.

(** [trim_end_matches('/')]. *)
Fixpoint trim_slashes (s : string) : string :=
  match s with
  | EmptyString => EmptyString
  | String c r =>
    match trim_slashes r with
    | EmptyString => if Ascii.eqb c "/"%char then EmptyString else String c EmptyString
    | t => String c t
    end
  end.

Section http.
Context `{!JsonText}.

(** [json::<Value>()]. *)
Definition value_of (r : reply) : result http_err json := ok_or (to_value <$> json_parse (content r)) NotJson.

(** [error_for_status()]. *)
Definition error_for_status (r : reply) : result http_err reply :=
  if (400 <=? status r) && (status r <=? 599) then Err (BadStatus (status r) "") else Ok r.

Definition ask_json (w : world) (r : request) : SE (list request) http_err json :=
  do! a := send w r in slift (value_of a).

End http.

(** The credentials as the daemon's extractors see them. *)
Definition headers_of `{!Base64} (c : credentials) : Auth.Auth.headers := {|
  Auth.Auth.authorization :=
    match c with
    | NoAuth => None
    | Basic u p => Some ("Basic " +:+ b64_encode (u +:+ ":" +:+ default "" p))
    | Bearer t => Some ("Bearer " +:+ t)
    end;
  Auth.Auth.x_forwarded_for := None; Auth.Auth.x_real_ip := None |}.

(** A request without credentials is nobody's. *)
Lemma anonymous `{!Base64, !Rfc3339} now s :
  Auth.Auth.user_ctx (headers_of NoAuth) now s = (s, Err Auth.Auth.Unauthorized).
Proof. done. Qed.

(** [as_str().unwrap_or("")] of a member. *)
Definition text_at (k : string) (j : json) : string := default "" (as_str (jindex k j)).

End Http.
