(* ===== verification/Dlp.v ===== *)
(** * Labels from data-loss-prevention services

    Models [maranode-api/src/dlp/] (Purview, Forcepoint, Symantec), [routes/dlp.rs] and
    the command [maranode dlp sync]. A service is what answers the requests; the label of
    a category is guessed from words in its name and replaces the label of the collection
    of that name. *)

From Stdlib Require Import ZArith Lia Ascii String.
From S2P Require Import Prelude Json Crypto Common Events Fs UserDb Auth WorkspaceDb WorkspaceApi AppState LegalHold IncidentApi Labels RagChunk CodeScan RagText Instances ApiDemo Http.
Open Scope string_scope.
Open Scope list_scope.
Open Scope Z_scope.

Module Dlp.
Import Auth.Auth AppState.AppState Common.Classification Utf8 Http.Http.

(** ** dlp/mod.rs *)

Record ImportedLabel := { il_collection : string; il_label : DataLabel }.

Record PurviewCfg := {
  tenant_id : string; client_id : string; client_secret : string; subscription_id : option string
}.
Record ForcepointCfg := { base_url : string; fp_username : string; fp_password : string }.
Record SymantecCfg := { enforce_url : string; sy_username : string; sy_password : string }.

Record DlpConfig := {
  purview : option PurviewCfg; forcepoint : option ForcepointCfg; symantec : option SymantecCfg
}.

Section dlp.
Context `{!JsonText, !Unicode}.

Definition has_word (n : Chunk.text) (words : list string) : bool :=
  existsb (fun x => Scan.contains n (Chunk.str x)) words.

(** ** purview.rs, forcepoint.rs, symantec.rs: the names are lower-case *)

Definition map_purview_label (n : Chunk.text) : DataLabel :=
  if has_word n ["phi"; "health"; "hipaa"] then Phi
  else if has_word n ["pii"; "personal"; "gdpr"] then Pii
  else if has_word n ["confidential"; "secret"] then Confidential
  else if has_word n ["restricted"; "internal"] then Restricted
  else Public.

Definition map_forcepoint_category (n : Chunk.text) : DataLabel :=
  if has_word n ["phi"; "hipaa"; "health"] then Phi
  else if has_word n ["pii"; "gdpr"; "personal data"] then Pii
  else if has_word n ["confidential"] then Confidential
  else if has_word n ["restricted"; "internal"] then Restricted
  else Public.

Definition map_symantec_policy (n : Chunk.text) : DataLabel :=
  if has_word n ["phi"; "hipaa"; "medical"; "health"] then Phi
  else if has_word n ["pii"; "personal"; "gdpr"; "ccpa"] then Pii
  else if has_word n ["confidential"; "secret"; "proprietary"] then Confidential
  else if has_word n ["restricted"; "internal"; "sensitive"] then Restricted
  else Public.

(** The loop over the items of an answer: an item without a name is left out. *)
Definition imported (f : Chunk.text -> DataLabel) (items : json) : list ImportedLabel :=
  omap (fun item =>
    let display := text_at "name" item in
    if String.eqb display "" then None
    else Some {| il_collection := display; il_label := f (to_lowercase (chars display)) |})
  (default [] (as_arr items)).

Definition purview_token_url (c : PurviewCfg) : string :=
  "https://login.microsoftonline.com/" +:+ tenant_id c +:+ "/oauth2/v2.0/token".
Definition purview_labels_url : string :=
  "https://graph.microsoft.com/v1.0/security/informationProtection/sensitivityLabels".

Definition purview_login (c : PurviewCfg) : request :=
  request_to "POST" (purview_token_url c) NoAuth [] (Form [
    ("grant_type", "client_credentials"); ("client_id", client_id c); ("client_secret", client_secret c);
    ("scope", "https://graph.microsoft.com/.default")]).

Definition purview_sync (w : world) (c : PurviewCfg) : SE (list request) http_err (list ImportedLabel) :=
  do! token_resp := ask_json w (purview_login c) in
  do! token := slift (ok_or (Json.as_str (jindex "access_token" token_resp)) (Missing "access_token")) in
  do! labels := ask_json w (request_to "GET" purview_labels_url (Bearer token) [] NoBody) in
  sret (imported map_purview_label (jindex "value" labels)).

Definition forcepoint_url (c : ForcepointCfg) (path : string) : string := trim_slashes (base_url c) +:+ path.

Definition forcepoint_sync (w : world) (c : ForcepointCfg) : SE (list request) http_err (list ImportedLabel) :=
  do! session := ask_json w (request_to "POST" (forcepoint_url c "/api/v1/auth/login")
    (Basic (fp_username c) (Some (fp_password c))) [] NoBody) in
  do! token := slift (ok_or (Json.as_str (jindex "sessionToken" session)) (Missing "sessionToken")) in
  do! cats := ask_json w (request_to "GET" (forcepoint_url c "/api/v1/policies/categories")
    NoAuth [("X-Session-Token", token)] NoBody) in
  do! _ := send_quietly w (request_to "POST" (forcepoint_url c "/api/v1/auth/logout")
    NoAuth [("X-Session-Token", token)] NoBody) in
  sret (imported map_forcepoint_category (jindex "categories" cats)).

Definition symantec_url (c : SymantecCfg) (path : string) : string := trim_slashes (enforce_url c) +:+ path.

Definition symantec_sync (w : world) (c : SymantecCfg) : SE (list request) http_err (list ImportedLabel) :=
  do! session := send w (request_to "POST" (symantec_url c "/ProtectManager/webservices/v2/users/login")
    (Basic (sy_username c) (Some (sy_password c))) [] NoBody) in
  do! token := slift (ok_or (header session "X-Auth-Token") (Missing "X-Auth-Token")) in
  do! groups := ask_json w (request_to "GET" (symantec_url c "/ProtectManager/webservices/v2/policies/groups")
    NoAuth [("X-Auth-Token", token)] NoBody) in
  do! _ := send_quietly w (request_to "POST" (symantec_url c "/ProtectManager/webservices/v2/users/logout")
    NoAuth [("X-Auth-Token", token)] NoBody) in
  sret (imported map_symantec_policy (jindex "policyGroupList" groups)).

(** ** routes/dlp.rs *)

Record SyncRequest := {
  provider : string; sr_purview : option PurviewCfg; sr_forcepoint : option ForcepointCfg;
  sr_symantec : option SymantecCfg
}.

Record SyncResponse := { sp_provider : string; labels_imported : Z; sp_collections : list (string * string) }.

(** The derived [Debug] of a label. *)
Definition debug_label (l : DataLabel) : string :=
  match l with
  | Public => "Public" | Restricted => "Restricted" | Confidential => "Confidential" | Pii => "Pii" | Phi => "Phi"
  end.

Definition or_else {A} (a b : option A) : option A := match a with Some x => Some x | None => b end.

(** The match on the provider. *)
Definition fetch (w : world) (cfg : DlpConfig) (q : SyncRequest) : SE (list request) api_error (list ImportedLabel) :=
  let internal_ (m : SE (list request) http_err (list ImportedLabel)) : SE (list request) api_error (list ImportedLabel) :=
    fun sent => let r := m sent in (r.1, map_err (fun _ => Internal) r.2) in
  let p := to_lowercase (chars (provider q)) in
  if bool_decide (p = Chunk.str "purview") then
    do! c := slift (ok_or (or_else (sr_purview q) (purview cfg)) BadRequest) in internal_ (purview_sync w c)
  else if bool_decide (p = Chunk.str "forcepoint") then
    do! c := slift (ok_or (or_else (sr_forcepoint q) (forcepoint cfg)) BadRequest) in internal_ (forcepoint_sync w c)
  else if bool_decide (p = Chunk.str "symantec") then
    do! c := slift (ok_or (or_else (sr_symantec q) (symantec cfg)) BadRequest) in internal_ (symantec_sync w c)
  else sfail BadRequest.

Definition apply_labels (l : list ImportedLabel) (p : ClassificationPolicy) : ClassificationPolicy :=
  fold_left (fun p i => set_collection_label p (il_collection i) (il_label i) true) l p.

(** The state of the daemon, and what it sent. *)
Definition outer : Type := app * list request.
Definition inside {A} (m : SE app api_error A) : SE outer api_error A :=
  fun s => let r := m s.1 in ((r.1, s.2), r.2).
Definition outside {A} (m : SE (list request) api_error A) : SE outer api_error A :=
  fun s => let r := m s.2 in ((s.1, r.1), r.2).

(** The requests of a session. *)
Definition forcepoint_requests (c : ForcepointCfg) (token : string) : list request :=
  [request_to "POST" (forcepoint_url c "/api/v1/auth/login") (Basic (fp_username c) (Some (fp_password c))) [] NoBody;
   request_to "GET" (forcepoint_url c "/api/v1/policies/categories") NoAuth [("X-Session-Token", token)] NoBody;
   request_to "POST" (forcepoint_url c "/api/v1/auth/logout") NoAuth [("X-Session-Token", token)] NoBody].

Definition symantec_requests (c : SymantecCfg) (token : string) : list request :=
  [request_to "POST" (symantec_url c "/ProtectManager/webservices/v2/users/login")
     (Basic (sy_username c) (Some (sy_password c))) [] NoBody;
   request_to "GET" (symantec_url c "/ProtectManager/webservices/v2/policies/groups") NoAuth [("X-Auth-Token", token)] NoBody;
   request_to "POST" (symantec_url c "/ProtectManager/webservices/v2/users/logout") NoAuth [("X-Auth-Token", token)] NoBody].

(** A session is closed when the sync succeeds; when it fails after the login, no logout is
    sent and the session stays open at the service. *)
Definition session_ends {A} (reqs : string -> list request) (sent : list request) (r : list request * result http_err A) : Prop :=
  match r.2 with
  | Ok _ => exists token, r.1 = sent ++ reqs token
  | Err _ => exists token n, (n <= 2)%nat /\ r.1 = sent ++ take n (reqs token)
  end.

Lemma ask_json_sent w r sent : (ask_json w r sent).1 = sent ++ [r].
Proof. unfold ask_json, send, sbind, slift. by destruct (ok_or _ _). Qed.

Lemma session_failed {A} reqs sent token n (x : http_err) :
  (n <= 2)%nat -> session_ends (A := A) reqs sent (sent ++ take n (reqs token), Err x).
Proof. intros Hn. by exists token, n. Qed.

Theorem forcepoint_session w c sent : session_ends (forcepoint_requests c) sent (forcepoint_sync w c sent).
Proof.
  unfold forcepoint_sync, sbind at 1.
  pose proof (ask_json_sent w (request_to "POST" (forcepoint_url c "/api/v1/auth/login")
    (Basic (fp_username c) (Some (fp_password c))) [] NoBody) sent) as H1.
  destruct (ask_json _ _ sent) as [s1 [v|x]]; cbn [fst] in H1; subst s1; [|by apply (session_failed (forcepoint_requests c) sent "" 1); lia].
  unfold sbind at 1, slift. destruct (Json.as_str _) as [token|]; cbn [ok_or]; [|by apply (session_failed (forcepoint_requests c) sent "" 1); lia].
  unfold sbind at 1. pose proof (ask_json_sent w (request_to "GET" (forcepoint_url c "/api/v1/policies/categories")
    NoAuth [("X-Session-Token", token)] NoBody)) as H2. specialize (H2 (sent ++ [request_to "POST" (forcepoint_url c "/api/v1/auth/login")
    (Basic (fp_username c) (Some (fp_password c))) [] NoBody])).
  destruct (ask_json _ _ (sent ++ _)) as [s2 [cats|x]]; cbn [fst] in H2; subst s2.
  - exists token. unfold sbind, send_quietly, signore, send, sret. cbn [fst snd]. by rewrite <- !app_assoc.
  - rewrite <- app_assoc. apply (session_failed (forcepoint_requests c) sent token 2). lia.
Qed.

Theorem symantec_session w c sent : session_ends (symantec_requests c) sent (symantec_sync w c sent).
Proof.
  unfold symantec_sync, sbind at 1, send at 1.
  destruct (w sent _) as [v|]; cbn [ok_or]; [|by apply (session_failed (symantec_requests c) sent "" 1); lia].
  unfold sbind at 1, slift. destruct (header v "X-Auth-Token") as [token|]; cbn [ok_or]; [|by apply (session_failed (symantec_requests c) sent "" 1); lia].
  unfold sbind at 1. match goal with |- context [ask_json w ?r ?s] => pose proof (ask_json_sent w r s) as H2;
    destruct (ask_json w r s) as [s2 [groups|x]] end; cbn [fst] in H2; subst s2.
  - exists token. unfold sbind, send_quietly, signore, send, sret. cbn [fst snd]. by rewrite <- !app_assoc.
  - rewrite <- app_assoc. apply (session_failed (symantec_requests c) sent token 2). lia.
Qed.

(** ** What a service lists *)

(** The items that the service of a request answers after a login that gave a token, and
    the guess that goes with the service. *)
Inductive listed (w : world) (cfg : DlpConfig) (q : SyncRequest) (sent : list request)
    : json -> (Chunk.text -> DataLabel) -> Prop :=
| ListedPurview c login rep token labels j :
    to_lowercase (chars (provider q)) = Chunk.str "purview" ->
    or_else (sr_purview q) (purview cfg) = Some c ->
    w sent (purview_login c) = Some login -> value_of login = Ok rep ->
    Json.as_str (jindex "access_token" rep) = Some token ->
    w (sent ++ [purview_login c]) (request_to "GET" purview_labels_url (Bearer token) [] NoBody) = Some labels ->
    value_of labels = Ok j -> listed w cfg q sent (jindex "value" j) map_purview_label
| ListedForcepoint c login rep token cats j :
    to_lowercase (chars (provider q)) = Chunk.str "forcepoint" ->
    or_else (sr_forcepoint q) (forcepoint cfg) = Some c ->
    let hello := request_to "POST" (forcepoint_url c "/api/v1/auth/login")
                   (Basic (fp_username c) (Some (fp_password c))) [] NoBody in
    w sent hello = Some login -> value_of login = Ok rep ->
    Json.as_str (jindex "sessionToken" rep) = Some token ->
    w (sent ++ [hello]) (request_to "GET" (forcepoint_url c "/api/v1/policies/categories")
                           NoAuth [("X-Session-Token", token)] NoBody) = Some cats ->
    value_of cats = Ok j -> listed w cfg q sent (jindex "categories" j) map_forcepoint_category
| ListedSymantec c login token groups j :
    to_lowercase (chars (provider q)) = Chunk.str "symantec" ->
    or_else (sr_symantec q) (symantec cfg) = Some c ->
    let hello := request_to "POST" (symantec_url c "/ProtectManager/webservices/v2/users/login")
                   (Basic (sy_username c) (Some (sy_password c))) [] NoBody in
    w sent hello = Some login -> header login "X-Auth-Token" = Some token ->
    w (sent ++ [hello]) (request_to "GET" (symantec_url c "/ProtectManager/webservices/v2/policies/groups")
                           NoAuth [("X-Auth-Token", token)] NoBody) = Some groups ->
    value_of groups = Ok j -> listed w cfg q sent (jindex "policyGroupList" j) map_symantec_policy.

Ltac run_requests := unfold ask_json, sbind, send, slift, sret, send_quietly, signore; cbn [fst snd].

Lemma listed_fetched w cfg q sent items f :
  listed w cfg q sent items f -> (fetch w cfg q sent).2 = Ok (imported f items).
Proof.
  unfold fetch. destruct 1 as [c login rep token labels j Hp Hc H1 H2 H3 H4 H5
    |c login rep token labels j Hp Hc hello H1 H2 H3 H4 H5|c login token labels j Hp Hc hello H1 H2 H4 H5];
    rewrite Hp; repeat (first [rewrite bool_decide_true by done|rewrite bool_decide_false by done]);
    rewrite Hc; cbn [ok_or].
  - unfold purview_sync. run_requests. rewrite H1. cbn [ok_or]. rewrite H2, H3. cbn [ok_or]. rewrite H4. cbn [ok_or].
    by rewrite H5.
  - unfold forcepoint_sync. run_requests. fold hello. rewrite H1. cbn [ok_or]. rewrite H2, H3. cbn [ok_or].
    rewrite H4. cbn [ok_or]. by rewrite H5.
  - unfold symantec_sync. run_requests. fold hello. rewrite H1. cbn [ok_or]. rewrite H2. cbn [ok_or].
    rewrite H4. cbn [ok_or]. by rewrite H5.
Qed.

Lemma ok_or_some {E A} (o : option A) (e : E) x : ok_or o e = Ok x -> o = Some x.
Proof. destruct o; [by intros [= ->]|done]. Qed.

Lemma fetched_listed w cfg q sent l :
  (fetch w cfg q sent).2 = Ok l -> exists items f, listed w cfg q sent items f /\ l = imported f items.
Proof.
  unfold fetch. case_bool_decide as Hp; [|case_bool_decide as Hf; [|case_bool_decide as Hy; [|done]]].
  - unfold sbind at 1, slift at 1. destruct (or_else (sr_purview q) (purview cfg)) as [c|] eqn:Hc; cbn [ok_or]; [|done].
    unfold purview_sync. run_requests.
    destruct (w sent _) as [login|] eqn:H1; cbn [ok_or]; [|done]. destruct (value_of login) as [rep|] eqn:H2; [|done].
    destruct (Json.as_str (jindex "access_token" rep)) as [token|] eqn:H3; cbn [ok_or]; [|done].
    destruct (w (_ ++ _) _) as [labels|] eqn:H4; cbn [ok_or]; [|done]. destruct (value_of labels) as [j|] eqn:H5; [|done].
    intros [= <-]. eexists _, _. split; [by eapply ListedPurview|done].
  - unfold sbind at 1, slift at 1. destruct (or_else (sr_forcepoint q) (forcepoint cfg)) as [c|] eqn:Hc; cbn [ok_or]; [|done].
    unfold forcepoint_sync. run_requests.
    destruct (w sent _) as [login|] eqn:H1; cbn [ok_or]; [|done]. destruct (value_of login) as [rep|] eqn:H2; [|done].
    destruct (Json.as_str (jindex "sessionToken" rep)) as [token|] eqn:H3; cbn [ok_or]; [|done].
    destruct (w (sent ++ [_]) _) as [labels|] eqn:H4; cbn [ok_or]; [|done]. destruct (value_of labels) as [j|] eqn:H5; [|done].
    intros [= <-]. eexists _, _. split; [by eapply ListedForcepoint|done].
  - unfold sbind at 1, slift at 1. destruct (or_else (sr_symantec q) (symantec cfg)) as [c|] eqn:Hc; cbn [ok_or]; [|done].
    unfold symantec_sync. run_requests.
    destruct (w sent _) as [login|] eqn:H1; cbn [ok_or]; [|done].
    destruct (header login "X-Auth-Token") as [token|] eqn:H3; cbn [ok_or]; [|done].
    destruct (w (sent ++ [_]) _) as [labels|] eqn:H4; cbn [ok_or]; [|done]. destruct (value_of labels) as [j|] eqn:H5; [|done].
    intros [= <-]. eexists _, _. split; [by eapply ListedSymantec|done].
Qed.

(** The names of the items of a list, those that have one. *)
Definition names_of (items : json) : list string :=
  List.filter (fun n => negb (String.eqb n "")) (text_at "name" <$> default [] (as_arr items)).

Lemma imported_names f items :
  imported f items = (fun n => {| il_collection := n; il_label := f (to_lowercase (chars n)) |}) <$> names_of items.
Proof.
  unfold imported, names_of. induction (default [] (as_arr items)) as [|x l IH]; [done|].
  cbn [omap list_omap fmap list_fmap List.filter]. destruct (String.eqb (text_at "name" x) ""); cbn [negb]; [done|].
  cbn [fmap list_fmap]. by rewrite <- IH.
Qed.

(** ** What a sync does to the labels *)

(** The label of the last item of a name. *)
Fixpoint last_label (c : string) (l : list ImportedLabel) : option DataLabel :=
  match l with
  | [] => None
  | i :: l => or_else (last_label c l) (if String.eqb (il_collection i) c then Some (il_label i) else None)
  end.

Lemma apply_labels_spec l p c :
  collections (apply_labels l p) !! c
  = match last_label c l with Some x => Some {| label := x; block_on_violation := true |} | None => collections p !! c end /\
  workspaces (apply_labels l p) = workspaces p.
Proof.
  unfold apply_labels. revert p. induction l as [|i l IH]; intros p; [done|]. cbn [fold_left last_label].
  destruct (IH (set_collection_label p (il_collection i) (il_label i) true)) as [Hc Hw]. rewrite Hc, Hw. split; [|done].
  destruct (last_label c l); [done|]. cbn [or_else]. unfold set_collection_label. cbn [collections].
  destruct (String.eqb_spec (il_collection i) c) as [->|Hne]; [by rewrite lookup_insert_eq|by rewrite lookup_insert_ne].
Qed.

Section route.
Context `{!Rfc3339}.

(** [let _ = policy.save(..)] drops the result. *)
Definition dlp_sync (w : world) (cfg : DlpConfig) (stop : Incidents.write_stop) (h : headers) (now : Z) (q : SyncRequest)
    : SE outer api_error SyncResponse :=
  do! user := inside (on_auth (user_ctx h now)) in
  do! _ := slift (require user Common.User.DlpManage) in
  do! l := outside (fetch w cfg q) in
  do! _ := inside (do! a := sget in signore (Labels.replace_policy stop (apply_labels l (classification a)))) in
  let count := Z.of_nat (List.length l) in
  do! _ := inside (audit_append MainLog "dlp" (Events.DlpSyncCompleted (provider q) count)) in
  sret {| sp_provider := provider q; labels_imported := count;
          sp_collections := (fun i => (il_collection i, debug_label (il_label i))) <$> l |}.

Lemma inside_user h now a sent :
  inside (on_auth (user_ctx h now)) (a, sent) = ((a, sent), (user_ctx h now (server_of a)).2).
Proof. unfold inside. cbn [fst snd]. by rewrite on_auth_user_ctx. Qed.

Lemma slift_bind {S E A B} (r : result E A) (k : A -> SE S E B) s :
  sbind (slift r) k s = match r with Ok x => k x s | Err e => (s, Err e) end.
Proof. by destruct r. Qed.

Lemma outside_bind {A B} (m : SE (list request) api_error A) (k : A -> SE outer api_error B) a sent :
  sbind (outside m) k (a, sent) =
  match (m sent).2 with Ok x => k x (a, (m sent).1) | Err e => ((a, (m sent).1), Err e) end.
Proof. unfold sbind, outside. cbn [fst snd]. by destruct (m sent) as [s [x|e]]. Qed.

(** What a sync leaves, given the caller and what the service answers. *)
Definition sync_outcome (stop : Incidents.write_stop) (q : SyncRequest) (a : app) (sent : list request)
    (user : result api_error Common.User.User) (fetched : list request * result api_error (list ImportedLabel))
    (r : outer * result api_error SyncResponse) : Prop :=
  match user with
  | Err x => r = ((a, sent), Err x)
  | Ok u =>
    if Common.User.has (Common.User.role u) Common.User.DlpManage then
      match fetched.2 with
      | Err x => r = ((a, fetched.1), Err x)
      | Ok l =>
        is_ok r.2 = true /\ r.1.2 = fetched.1 /\
        workspaces (classification r.1.1) = workspaces (classification a) /\
        (forall c, collections (classification r.1.1) !! c
          = match last_label c l with
            | Some x => Some {| label := x; block_on_violation := true |}
            | None => collections (classification a) !! c
            end) /\
        data r.1.1 = (Labels.save stop (classification r.1.1) (data a)).1 /\
        trail r.1.1 = trail a ++ [{| c_log := MainLog; c_actor := "dlp";
          c_event := Events.DlpSyncCompleted (provider q) (Z.of_nat (List.length l)) |}]
      end
    else r = ((a, sent), Err Forbidden)
  end.

Lemma sync_steps w cfg stop h now q a sent :
  sync_outcome stop q a sent (user_ctx h now (server_of a)).2 (fetch w cfg q sent)
    (dlp_sync w cfg stop h now q (a, sent)).
Proof.
  unfold dlp_sync, sbind at 1. rewrite inside_user.
  destruct (user_ctx h now (server_of a)).2 as [u|x]; [|done]. cbn [sync_outcome].
  rewrite slift_bind. unfold require. destruct (Common.User.has _ _); [|done].
  rewrite outside_bind. destruct (fetch w cfg q sent) as [sent' [l|x]]; cbn [fst snd]; [|done].
  unfold sbind, inside, sget, signore, sret, audit_append, smodify. cbn [fst snd].
  split; [done|]. split; [done|].
  assert (Hc : classification (add_call {| c_log := MainLog; c_actor := "dlp";
      c_event := Events.DlpSyncCompleted (provider q) (Z.of_nat (List.length l)) |}
    (Labels.replace_policy stop (apply_labels l (classification a)) a).1) = apply_labels l (classification a)) by done.
  rewrite Hc. split; [apply (apply_labels_spec l _ "")|]. split; [intros c; apply apply_labels_spec|]. done.
Qed.

Lemma last_label_named f names c :
  last_label c ((fun n => {| il_collection := n; il_label := f (to_lowercase (chars n)) |}) <$> names)
  = if bool_decide (c ∈ names) then Some (f (to_lowercase (chars c))) else None.
Proof.
  induction names as [|n names IH]; [done|]. cbn [fmap list_fmap last_label il_collection il_label]. rewrite IH.
  destruct (bool_decide_reflect (c ∈ names)) as [Hin|Hin]; cbn [or_else].
  - rewrite bool_decide_true; [done|]. by right.
  - destruct (String.eqb_spec n c) as [->|Hne].
    + rewrite bool_decide_true; [done|]. by left.
    + rewrite bool_decide_false; [done|]. intros [E|Hx]%elem_of_cons; [by rewrite E in Hne|done].
Qed.


(** Whatever the label of a collection, a service that names it without a known word makes
    it readable to every workspace. *)
Theorem dlp_sync_lifts w cfg stop h now q a sent u l c :
  (user_ctx h now (server_of a)).2 = Ok u ->
  Common.User.has (Common.User.role u) Common.User.DlpManage = true ->
  (fetch w cfg q sent).2 = Ok l -> last_label c l = Some Public ->
  forall ws, check_access (classification (dlp_sync w cfg stop h now q (a, sent)).1.1) ws c = None.
Proof.
  intros Hu Hp Hf Hl ws. pose proof (sync_steps w cfg stop h now q a sent) as Hs. unfold sync_outcome in Hs.
  rewrite Hu, Hp, Hf in Hs.
  destruct Hs as (_ & _ & _ & Hc & _). unfold check_access. rewrite Hc, Hl. cbn [label].
  by destruct (workspace_clearance _ ws).
Qed.

End route.

(** ** The command *)

Record dlp_flags := {
  df_provider : string; df_tenant_id : option string; df_client_id : option string; df_client_secret : option string;
  df_url : option string; df_username : option string; df_password : option string
}.

(** Three flags together, or none. *)
Definition three (a b c : option string) : option (string * string * string) :=
  match a, b, c with Some x, Some y, Some z => Some (x, y, z) | _, _, _ => None end.

Definition purview_json (c : string * string * string) : json :=
  JObj [("client_id", JStr c.1.2); ("client_secret", JStr c.2); ("tenant_id", JStr c.1.1)].
Definition forcepoint_json (c : string * string * string) : json :=
  JObj [("base_url", JStr c.1.1); ("password", JStr c.2); ("username", JStr c.1.2)].
Definition symantec_json (c : string * string * string) : json :=
  JObj [("enforce_url", JStr c.1.1); ("password", JStr c.2); ("username", JStr c.1.2)].

Definition dlp_body (f : dlp_flags) : json :=
  let body := [("provider", JStr (df_provider f))] in
  let p := to_lowercase (chars (df_provider f)) in
  JObj (
    if bool_decide (p = Chunk.str "purview") then
      match three (df_tenant_id f) (df_client_id f) (df_client_secret f) with
      | Some c => obj_insert "purview" (purview_json c) body | None => body end
    else if bool_decide (p = Chunk.str "forcepoint") then
      match three (df_url f) (df_username f) (df_password f) with
      | Some c => obj_insert "forcepoint" (forcepoint_json c) body | None => body end
    else if bool_decide (p = Chunk.str "symantec") then
      match three (df_url f) (df_username f) (df_password f) with
      | Some c => obj_insert "symantec" (symantec_json c) body | None => body end
    else body).

Definition dlp_request (host : string) (f : dlp_flags) : request :=
  request_to "POST" (host +:+ "/v1/dlp/sync") NoAuth [] (JsonBody (dlp_body f)).

(** The number and the collections that are printed. *)
Definition run_dlp (w : world) (host : string) (f : dlp_flags)
    : SE (list request) http_err (Z * list (string * string)) :=
  do! resp := send w (dlp_request host f) in
  if negb (is_success resp) then sfail (BadStatus (status resp) (content resp)) else
  do! data := slift (value_of resp) in
  sret (default 0 (as_uint u64_max (jindex "labels_imported" data)),
        (fun col => (default "?" (Json.as_str (jindex "collection" col)), default "?" (Json.as_str (jindex "label" col))))
        <$> default [] (as_arr (jindex "collections" data))).

(** The derived readers of the route's request. *)
Definition purview_of (j : json) : option PurviewCfg :=
  some? m := as_obj j in
  check no_dup_fields ["tenant_id"; "client_id"; "client_secret"; "subscription_id"] m in
  some? t := req Json.as_str "tenant_id" m in
  some? c := req Json.as_str "client_id" m in
  some? s := req Json.as_str "client_secret" m in
  some? i := opt Json.as_str "subscription_id" m in
  Some {| tenant_id := t; client_id := c; client_secret := s; subscription_id := i |}.

Definition forcepoint_of (j : json) : option ForcepointCfg :=
  some? m := as_obj j in
  check no_dup_fields ["base_url"; "username"; "password"] m in
  some? u := req Json.as_str "base_url" m in
  some? n := req Json.as_str "username" m in
  some? p := req Json.as_str "password" m in
  Some {| base_url := u; fp_username := n; fp_password := p |}.

Definition symantec_of (j : json) : option SymantecCfg :=
  some? m := as_obj j in
  check no_dup_fields ["enforce_url"; "username"; "password"] m in
  some? u := req Json.as_str "enforce_url" m in
  some? n := req Json.as_str "username" m in
  some? p := req Json.as_str "password" m in
  Some {| enforce_url := u; sy_username := n; sy_password := p |}.

Definition sync_request_of (j : json) : option SyncRequest :=
  some? m := as_obj j in
  check no_dup_fields ["provider"; "purview"; "forcepoint"; "symantec"] m in
  some? p := req Json.as_str "provider" m in
  some? a := opt purview_of "purview" m in
  some? b := opt forcepoint_of "forcepoint" m in
  some? c := opt symantec_of "symantec" m in
  Some {| provider := p; sr_purview := a; sr_forcepoint := b; sr_symantec := c |}.

(** The route reads what the command writes: the provider, and the configuration that the
    flags make when all three are given. *)
Theorem dlp_body_read f :
  let p := to_lowercase (chars (df_provider f)) in
  let on (x : string) : bool := bool_decide (p = Chunk.str x) in
  sync_request_of (dlp_body f) = Some {|
    provider := df_provider f;
    sr_purview := check on "purview" in
      (fun c => {| tenant_id := c.1.1; client_id := c.1.2; client_secret := c.2; subscription_id := None |})
      <$> three (df_tenant_id f) (df_client_id f) (df_client_secret f);
    sr_forcepoint := check on "forcepoint" in
      (fun c => {| base_url := c.1.1; fp_username := c.1.2; fp_password := c.2 |})
      <$> three (df_url f) (df_username f) (df_password f);
    sr_symantec := check on "symantec" in
      (fun c => {| enforce_url := c.1.1; sy_username := c.1.2; sy_password := c.2 |})
      <$> three (df_url f) (df_username f) (df_password f) |}.
Proof.
  cbv zeta. unfold dlp_body. cbv zeta.
  case_bool_decide as E1; [rewrite E1, (bool_decide_false (_ = Chunk.str "forcepoint")),
    (bool_decide_false (_ = Chunk.str "symantec")) by done|].
  { by destruct (three _ _ _) as [[[a b] c]|]. }
  case_bool_decide as E2; [rewrite E2, (bool_decide_false (_ = Chunk.str "symantec")) by done|].
  { by destruct (three (df_url f) _ _) as [[[a b] c]|]. }
  case_bool_decide as E3; [|done]. by destruct (three (df_url f) _ _) as [[[a b] c]|].
Qed.

End dlp.
End Dlp.

Module DlpDemo.
Import UserDb.UserDemo Auth.Auth AppState.AppState Common.Classification Http.Http Dlp ApiDemo.ApiDemo RagChunk.ChunkDemo.

Definition json_reply (j : json) : reply := {| status := 200; header := fun _ => None; content := json_print j |}.

(** A service with one category, that answers any request. *)
Definition server_ (category : string) : world := fun sent r =>
  Some (json_reply (JObj [("sessionToken", JStr "tok");
    ("categories", JArr [JObj [("name", JStr category)]; JObj [("id", JInt 7)]])])).

Definition manager : DlpConfig := {|
  purview := None; symantec := None;
  forcepoint := Some {| base_url := "https://dlp/"; fp_username := "u"; fp_password := "p" |} |}.
Definition ask_forcepoint : SyncRequest :=
  {| provider := "Forcepoint"; sr_purview := None; sr_forcepoint := None; sr_symantec := None |}.

(** The words are looked for inside other words. *)
Example graphics_are_health : map_purview_label (Chunk.str "graphics") = Phi.
Proof. by vm_compute. Qed.
Example unrestricted_is_restricted : map_purview_label (Chunk.str "unrestricted") = Restricted.
Proof. by vm_compute. Qed.

Definition labelled : app := set_classification app0 (set_collection_label default_policy "Patients" Phi true).

Definition items0 : json := JArr [JObj [("name", JStr "Health")]; JObj [("id", JInt 7)]].

Lemma health_listed : listed (server_ "Health") manager ask_forcepoint [] items0 map_forcepoint_category.
Proof.
  pose (rep := JObj [("sessionToken", JStr "tok"); ("categories", items0)]).
  refine (ListedForcepoint (server_ "Health") manager ask_forcepoint []
    {| base_url := "https://dlp/"; fp_username := "u"; fp_password := "p" |}
    (json_reply rep) (to_value rep) "tok" (json_reply rep) (to_value rep) _ _ _ _ _ _ _);
    vm_compute; reflexivity.
Qed.


Lemma dlp_sync_lifts_witness :
  let a' := (dlp_sync (server_ "Patients") manager Incidents.Written host_h 500 ask_forcepoint (labelled, [])).1.1 in
  check_access (classification labelled) "ward" "Patients" <> None /\
  check_access (classification a') "ward" "Patients" = None.
Proof.
  split; [by vm_compute|].
  apply (dlp_sync_lifts (server_ "Patients") manager Incidents.Written host_h 500 ask_forcepoint labelled []
    (synthetic_admin 500) [{| il_collection := "Patients"; il_label := Public |}] "Patients"); by vm_compute.
Defined.

End DlpDemo.
