(* ===== verification/Tickets.v ===== *)
(** * Change management and the approval page

    Models [maranode-api/src/changemgmt.rs], the tasks that submissions and approvals
    spawn, and the page of the approval registry (its rows; the HTML around them is
    constant). The services are what answers the requests. A slice of a string that is
    not at a character boundary panics: the task or the request ends without an answer. *)

From Stdlib Require Import ZArith Lia Ascii String.
From S2P Require Import Prelude Json Crypto Tokens Common Events Fs UserDb Auth WorkspaceDb WorkspaceApi AppState LegalHold IncidentApi Instances ApiDemo Registry Http.
Open Scope string_scope.
Open Scope list_scope.
Open Scope Z_scope.

Module ChangeMgmt.
Import Auth.Auth AppState.AppState Http.Http Registry.Registry.

Record ChangeManagementConfig := {
  servicenow_url : option string; servicenow_user : option string; servicenow_password : option string;
  jira_url : option string; jira_project : option string; jira_user : option string; jira_token : option string
}.

Definition is_configured (c : ChangeManagementConfig) : bool :=
  bool_decide (is_Some (servicenow_url c)) || bool_decide (is_Some (jira_url c)).

Inductive panic := Panic.

(** [&s[..12.min(s.len())]]: [None] where the cut is inside a character. *)
Definition is_char_boundary (n : nat) (s : string) : bool :=
  match String.get n s with Some c => negb (utf8_cont c) | None => Nat.eqb n (String.length s) end.

Definition short_sha (s : string) : option string :=
  let n := Nat.min 12 (String.length s) in
  if is_char_boundary n s then Some (stake n s) else None.

(** One [send()] of the code and its final answer, or none; the caller goes on in both
    cases. The requests recorded are those the code makes: the HTTP client may follow a
    redirect inside a send, and what it then sends is not represented. *)
Definition try_send {E} (w : world) (r : request) : SE (list request) E (option reply) :=
  fun sent => (sent ++ [r], Ok (w sent r)).

Definition both (u p : option string) : credentials :=
  match u, p with Some u, Some p => Basic u (Some p) | _, _ => NoAuth end.
Definition snow_auth (c : ChangeManagementConfig) : credentials := both (servicenow_user c) (servicenow_password c).
Definition jira_auth (c : ChangeManagementConfig) : credentials := both (jira_user c) (jira_token c).

Section tickets.
Context `{!JsonText}.

(** A member of a successful answer that is a text and not empty. *)
Definition answered (f : json -> json) (r : option reply) : option string :=
  some? r := r in
  if is_success r then
    match value_of r with
    | Ok v => let t := default "" (as_str (f v)) in if String.eqb t "" then None else Some t
    | Err _ => None
    end
  else None.

Definition ticket_summary (model_id short : string) : string :=
  "Model approval request: " +:+ model_id +:+ " (sha256: " +:+ short +:+ "…)".
Definition ticket_description (model_id sha256 : string) (note : option string) (by_ : string) : string :=
  "Model: " +:+ model_id +:+ nl +:+ "SHA-256: " +:+ sha256 +:+ nl +:+ "Submitted by: " +:+ by_ +:+ nl +:+
  "Note: " +:+ default "(none)" note.

Definition paragraph (t : string) : json :=
  JObj [("type", JStr "doc"); ("version", JInt 1);
        ("content", JArr [JObj [("type", JStr "paragraph");
           ("content", JArr [JObj [("type", JStr "text"); ("text", JStr t)]])]])].

Definition snow_open (c : ChangeManagementConfig) (u summary description : string) : request :=
  request_to "POST" (u +:+ "/api/now/table/change_request") (snow_auth c) [] (JsonBody (to_value (JObj [
    ("short_description", JStr summary); ("description", JStr description); ("type", JStr "normal");
    ("category", JStr "software"); ("state", JStr "1")]))).

Definition jira_open (c : ChangeManagementConfig) (u project summary description : string) : request :=
  request_to "POST" (u +:+ "/rest/api/3/issue") (jira_auth c) [] (JsonBody (to_value (JObj [
    ("fields", JObj [("project", JObj [("key", JStr project)]); ("summary", JStr summary);
       ("description", paragraph description); ("issuetype", JObj [("name", JStr "Task")])])]))).

(** The ServiceNow part: a ticket, or [None] to go on. *)
Definition open_servicenow (w : world) (c : ChangeManagementConfig) (summary description : string)
    : SE (list request) panic (option string) :=
  match servicenow_url c with
  | Some u =>
    do! r := try_send w (snow_open c u summary description) in
    sret (answered (fun v => jindex "number" (jindex "result" v)) r)
  | None => sret None
  end.

Definition open_jira (w : world) (c : ChangeManagementConfig) (summary description : string)
    : SE (list request) panic (option string) :=
  match jira_url c, jira_project c with
  | Some u, Some p =>
    do! r := try_send w (jira_open c u p summary description) in sret (answered (jindex "key") r)
  | _, _ => sret None
  end.

Definition open_ticket (w : world) (c : ChangeManagementConfig) (model_id sha256 : string) (note : option string)
    (by_ : string) : SE (list request) panic (option (string * string)) :=
  do! short := slift (ok_or (short_sha sha256) Panic) in
  let summary := ticket_summary model_id short in
  let description := ticket_description model_id sha256 note by_ in
  do! t := open_servicenow w c summary description in
  match t with
  | Some id => sret (Some (id, "servicenow"))
  | None =>
    do! k := open_jira w c summary description in
    sret ((fun k => (k, "jira")) <$> k)
  end.

Definition close_servicenow (w : world) (c : ChangeManagementConfig) (ticket_id resolution : string)
    : SE (list request) panic unit :=
  match servicenow_url c with
  | Some u =>
    do! _ := try_send w (request_to "PATCH" (u +:+ "/api/now/table/change_request/" +:+ ticket_id) (snow_auth c) []
      (JsonBody (to_value (JObj [("state", JStr "3"); ("close_notes", JStr resolution)])))) in sret tt
  | None => sret tt
  end.

Definition close_jira (w : world) (c : ChangeManagementConfig) (ticket_id resolution : string)
    : SE (list request) panic unit :=
  match jira_url c, jira_user c, jira_token c with
  | Some u, Some n, Some t =>
    do! _ := try_send w (request_to "POST" (u +:+ "/rest/api/3/issue/" +:+ ticket_id +:+ "/transitions")
      (Basic n (Some t)) [] (JsonBody (JObj [("transition", JObj [("id", JStr "31")])]))) in
    do! _ := try_send w (request_to "POST" (u +:+ "/rest/api/3/issue/" +:+ ticket_id +:+ "/comment")
      (Basic n (Some t)) [] (JsonBody (to_value (JObj [("body", paragraph resolution)])))) in sret tt
  | _, _, _ => sret tt
  end.

Definition close_ticket (w : world) (c : ChangeManagementConfig) (ticket_id system resolution : string)
    : SE (list request) panic unit :=
  do! _ := (if String.eqb system "servicenow" then close_servicenow w c ticket_id resolution else sret tt) in
  if String.eqb system "jira" then close_jira w c ticket_id resolution else sret tt.

Definition reachable_ok (r : option reply) : bool := match r with Some r => is_success r | None => false end.

Definition test_connectivity (w : world) (c : ChangeManagementConfig) : SE (list request) panic (gmap string bool) :=
  do! m := match servicenow_url c with
           | Some u =>
             do! r := try_send w (request_to "GET" (u +:+ "/api/now/table/change_request?sysparm_limit=1") (snow_auth c) [] NoBody) in
             sret (<["servicenow" := reachable_ok r]> ∅)
           | None => sret ∅
           end in
  match jira_url c, jira_user c, jira_token c with
  | Some u, Some n, Some t =>
    do! r := try_send w (request_to "GET" (u +:+ "/rest/api/3/myself") (Basic n (Some t)) [] NoBody) in
    sret (<["jira" := reachable_ok r]> m)
  | _, _, _ => sret m
  end.

(** *** The tasks of registry.rs *)

Definition open_after_submit (w : world) (c : ChangeManagementConfig) (r : SubmissionRecord)
    : SE (list request) panic (option (string * string)) :=
  if is_configured c
  then open_ticket w c (model_id r) (model_sha256 r) (note r) (submitted_by r)
  else sret None.

Definition close_after_approval (w : world) (c : ChangeManagementConfig) (r : SubmissionRecord) (by_ token_id : string)
    : SE (list request) panic unit :=
  if is_configured c then
    match cm_ticket_id r, cm_system r with
    | Some id, Some sys =>
      close_ticket w c id sys ("Approved by " +:+ by_ +:+ " — token issued (id: " +:+ token_id +:+ ")")
    | _, _ => sret tt
    end
  else sret tt.

(** ** Where requests go *)

(** A request goes to one of the two services, with the credentials of that service or
    none. *)
Definition own_service (c : ChangeManagementConfig) (q : request) : Prop :=
  (exists u p, servicenow_url c = Some u /\ url q = u +:+ "/api/now/table/change_request" +:+ p /\ auth q = snow_auth c) \/
  (exists u p, jira_url c = Some u /\ url q = u +:+ "/rest/api/3/" +:+ p /\ auth q = jira_auth c).

Definition stays {A} (c : ChangeManagementConfig) (n : nat) (m : SE (list request) panic A) : Prop := forall sent,
  exists l, (m sent).1 = sent ++ l /\ Forall (own_service c) l /\ (List.length l <= n)%nat.

Lemma stays_ret {A} c (a : A) : stays c 0 (sret a).
Proof. intros sent. exists []. by rewrite app_nil_r. Qed.

Lemma stays_bind {A B} c n k (m : SE (list request) panic A) (f : A -> SE (list request) panic B) :
  stays c n m -> (forall a, stays c k (f a)) -> stays c (n + k) (sbind m f).
Proof.
  intros Hm Hf sent. destruct (Hm sent) as (l & Hl & Ho & Hn). unfold sbind.
  destruct (m sent) as [s [a|x]]; cbn [fst] in *; subst s.
  - destruct (Hf a (sent ++ l)) as (l' & -> & Ho' & Hk). exists (l ++ l'). rewrite app_assoc, length_app.
    split; [done|]. split; [by apply Forall_app|lia].
  - exists l. split; [done|]. split; [done|lia].
Qed.

Lemma stays_send c w q : own_service c q -> stays c 1 (try_send w q).
Proof. intros Hq sent. exists [q]. split; [done|]. split; [by constructor|done]. Qed.

Lemma stays_then {A} c w q (a : option reply -> A) : own_service c q ->
  stays c 1 (do! r := try_send w q in sret (a r)).
Proof. intros Hq. apply (stays_bind c 1 0); [by apply stays_send|]. intros r. apply stays_ret. Qed.

Lemma stays_le {A} c n k (m : SE (list request) panic A) : (n <= k)%nat -> stays c n m -> stays c k m.
Proof. intros Hk Hm sent. destruct (Hm sent) as (l & ? & ? & ?). exists l. repeat split; try done. lia. Qed.

Lemma to_snow c u p m x b : servicenow_url c = Some u ->
  own_service c (request_to m (u +:+ "/api/now/table/change_request" +:+ p) (snow_auth c) x b).
Proof. intros Hu. left. by exists u, p. Qed.

Lemma to_jira c u p m x b : jira_url c = Some u ->
  own_service c (request_to m (u +:+ "/rest/api/3/" +:+ p) (jira_auth c) x b).
Proof. intros Hu. right. by exists u, p. Qed.

Lemma jira_basic c n t : jira_user c = Some n -> jira_token c = Some t -> Basic n (Some t) = jira_auth c.
Proof. unfold jira_auth. by intros -> ->. Qed.

Lemma open_snow_stays w c s d : stays c 1 (open_servicenow w c s d).
Proof.
  unfold open_servicenow. destruct (servicenow_url c) as [u|] eqn:E; [|by apply (stays_le c 0), stays_ret; lia].
  apply stays_then. unfold snow_open. rewrite <- (string_app_nil_r "/api/now/table/change_request"). by apply to_snow.
Qed.

Lemma open_jira_stays w c s d : stays c 1 (open_jira w c s d).
Proof.
  unfold open_jira. destruct (jira_url c) as [u|] eqn:E; [|by apply (stays_le c 0), stays_ret; lia].
  destruct (jira_project c) as [p|]; [|by apply (stays_le c 0), stays_ret; lia].
  apply stays_then. unfold jira_open. change "/rest/api/3/issue" with ("/rest/api/3/" +:+ "issue"). by apply to_jira.
Qed.

Lemma open_ticket_stays w c m sha note by_ : stays c 2 (open_ticket w c m sha note by_).
Proof.
  unfold open_ticket. apply (stays_bind c 0 2).
  { intros sent. exists []. rewrite app_nil_r. by destruct (short_sha sha). }
  intros short. apply (stays_bind c 1 1); [apply open_snow_stays|]. intros [id|]; [by apply (stays_le c 0), stays_ret; lia|].
  apply (stays_bind c 1 0); [apply open_jira_stays|]. intros k. apply stays_ret.
Qed.

Lemma close_ticket_stays w c id sys res : stays c 3 (close_ticket w c id sys res).
Proof.
  unfold close_ticket. apply (stays_bind c 1 2).
  - destruct (String.eqb sys "servicenow"); [|by apply (stays_le c 0), stays_ret; lia].
    unfold close_servicenow. destruct (servicenow_url c) as [u|] eqn:E; [|by apply (stays_le c 0), stays_ret; lia].
    apply stays_then. change ("/api/now/table/change_request/" +:+ id) with ("/api/now/table/change_request" +:+ ("/" +:+ id)).
    by apply to_snow.
  - intros _. destruct (String.eqb sys "jira"); [|by apply (stays_le c 0), stays_ret; lia].
    unfold close_jira. destruct (jira_url c) as [u|] eqn:E; [|by apply (stays_le c 0), stays_ret; lia].
    destruct (jira_user c) as [n|] eqn:En; [|by apply (stays_le c 0), stays_ret; lia].
    destruct (jira_token c) as [t|] eqn:Et; [|by apply (stays_le c 0), stays_ret; lia].
    rewrite (jira_basic c n t) by done. apply (stays_bind c 1 1); [|intros ?; apply stays_then].
    + apply stays_send. change ("/rest/api/3/issue/" +:+ id +:+ "/transitions")
        with ("/rest/api/3/" +:+ ("issue/" +:+ id +:+ "/transitions")). by apply to_jira.
    + change ("/rest/api/3/issue/" +:+ id +:+ "/comment") with ("/rest/api/3/" +:+ ("issue/" +:+ id +:+ "/comment")).
      by apply to_jira.
Qed.

Lemma test_stays w c : stays c 2 (test_connectivity w c).
Proof.
  unfold test_connectivity. apply (stays_bind c 1 1).
  - destruct (servicenow_url c) as [u|] eqn:E; [|by apply (stays_le c 0), stays_ret; lia]. apply stays_then.
    change "/api/now/table/change_request?sysparm_limit=1" with ("/api/now/table/change_request" +:+ "?sysparm_limit=1").
    by apply to_snow.
  - intros m. destruct (jira_url c) as [u|] eqn:E; [|by apply (stays_le c 0), stays_ret; lia].
    destruct (jira_user c) as [n|] eqn:En; [|by apply (stays_le c 0), stays_ret; lia].
    destruct (jira_token c) as [t|] eqn:Et; [|by apply (stays_le c 0), stays_ret; lia].
    rewrite (jira_basic c n t) by done. apply stays_then.
    change "/rest/api/3/myself" with ("/rest/api/3/" +:+ "myself"). by apply to_jira.
Qed.

(** C32: The credentials of a service go to that service only, whatever the services answer and
    whatever a submission says; a submission makes at most two requests, an approval at
    most three. *)
Theorem tickets_go_home w c r by_ token_id :
  stays c 2 (open_after_submit w c r) /\ stays c 3 (close_after_approval w c r by_ token_id) /\
  stays c 2 (test_connectivity w c).
Proof.
  split; [|split; [|apply test_stays]].
  - unfold open_after_submit. destruct (is_configured c); [apply open_ticket_stays|by apply (stays_le c 0), stays_ret; lia].
  - unfold close_after_approval. destruct (is_configured c); [|by apply (stays_le c 0), stays_ret; lia].
    destruct (cm_ticket_id r); [|by apply (stays_le c 0), stays_ret; lia].
    destruct (cm_system r); [apply close_ticket_stays|by apply (stays_le c 0), stays_ret; lia].
Qed.

Definition jira_closed (c : ChangeManagementConfig) (u id : string) (sent closed : list request) : Prop :=
  match jira_auth c with
  | NoAuth => closed = sent
  | _ => exists q1 q2, closed = sent ++ [q1; q2] /\ url q1 = u +:+ "/rest/api/3/issue/" +:+ id +:+ "/transitions"
  end.

Lemma close_jira_spec w c u id res sent :
  jira_url c = Some u -> jira_closed c u id sent (close_ticket w c id "jira" res sent).1.
Proof.
  intros Hu. unfold close_ticket, close_jira, jira_closed, jira_auth. rewrite Hu.
  change (String.eqb "jira" "servicenow") with false. change (String.eqb "jira" "jira") with true.
  destruct (jira_user c), (jira_token c); cbn [both]; try done.
  unfold sbind, try_send, sret. cbn [fst]. do 2 eexists. rewrite <- app_assoc. split; [done|]. done.
Qed.

(** A ticket that was opened at ServiceNow is closed there; one of Jira is closed when the
    configuration has an account, and stays open otherwise: issues are also created
    without one. *)
Theorem ticket_closed_there w c m sha note by_ res sent sent' id sys :
  (open_ticket w c m sha note by_ sent).2 = Ok (Some (id, sys)) ->
  let closed := (close_ticket w c id sys res sent').1 in
  (sys = "servicenow" /\ exists u q, servicenow_url c = Some u /\ closed = sent' ++ [q] /\
     method q = "PATCH" /\ url q = u +:+ "/api/now/table/change_request/" +:+ id) \/
  (sys = "jira" /\ exists u, jira_url c = Some u /\
     jira_closed c u id sent' closed).
Proof.
  intros Ho. cbv zeta. unfold open_ticket, sbind at 1, slift in Ho.
  destruct (short_sha sha) as [short|]; [|done]. cbn [ok_or] in Ho. unfold sbind at 1, open_servicenow in Ho.
  assert (Hj : forall s1 summary description,
    (sbind (open_jira w c summary description) (fun k => sret ((fun k => (k, "jira")) <$> k)) s1).2 = Ok (Some (id, sys)) ->
    sys = "jira" /\ is_Some (jira_url c)).
  { intros s1 summary description. unfold open_jira.
    destruct (jira_url c) as [u|]; [|done]. destruct (jira_project c); [|done]. unfold sbind, try_send, sret. cbn [fst snd].
    destruct (answered _ _); [|done]. intros [= _ <-]. eauto. }
  destruct (servicenow_url c) as [u|] eqn:Eu.
  - unfold sbind at 1, try_send, sret at 1 in Ho. destruct (answered _ _) as [t|].
    + injection Ho as -> <-. left. split; [done|]. unfold close_ticket, close_servicenow. rewrite Eu.
      change (String.eqb "servicenow" "servicenow") with true. change (String.eqb "servicenow" "jira") with false.
      do 2 eexists. split; [done|]. split; [done|]. done.
    + right. apply Hj in Ho as [-> [v Hv]]. split; [done|]. exists v. split; [done|]. by apply close_jira_spec.
  - right. unfold sret at 1 in Ho. apply Hj in Ho as [-> [v Hv]]. split; [done|]. exists v. split; [done|].
    by apply close_jira_spec.
Qed.

End tickets.
End ChangeMgmt.

Module ApprovalPage.
Import Auth.Auth AppState.AppState Registry.TokenFile Registry.Registry ChangeMgmt.

Section page.
Context `{!JsonText, !TimeText, !Base64, !Ed25519}.
(** The format ["%Y-%m-%d %H:%M UTC"] of an instant. *)
Variable minute_text : Z -> string.

Definition quoted (s : string) : string := quote +:+ s +:+ quote.
Fixpoint spaces (n : nat) : string := match n with O => "" | S n => " " +:+ spaces n end.
Definition line (n : nat) (s : string) : string := nl +:+ spaces n +:+ s.

Definition status_class (s : SubmissionStatus) : string :=
  match s with Pending => "status-pending" | Approved => "status-approved" | Revoked => "status-revoked" end.
Definition status_debug (s : SubmissionStatus) : string :=
  match s with Pending => "Pending" | Approved => "Approved" | Revoked => "Revoked" end.

Definition button (f sha label : string) : string :=
  "<button onclick=" +:+ quoted (f +:+ "('" +:+ sha +:+ "')") +:+ ">" +:+ label +:+ "</button>".

Definition actions (r : SubmissionRecord) : string :=
  match status r with
  | Pending => button "doApprove" (model_sha256 r) "Approve" +:+ line 23 (button "doRevoke" (model_sha256 r) "Revoke")
  | _ => ""
  end.

(** The cells of a row, and the row. *)
Definition cells (r : SubmissionRecord) (short : string) : list string :=
  ["<td>" +:+ model_id r +:+ "</td>";
   "<td title=" +:+ quoted (model_sha256 r) +:+ ">" +:+ short +:+ "…</td>";
   "<td>" +:+ submitted_by r +:+ "</td>";
   "<td>" +:+ minute_text (submitted_at r) +:+ "</td>";
   "<td>" +:+ default "—" (note r) +:+ "</td>";
   "<td><span class=" +:+ quoted (status_class (status r)) +:+ ">" +:+ status_debug (status r) +:+ "</span></td>";
   "<td>" +:+ actions r +:+ "</td>"].

Definition approval_row (r : SubmissionRecord) : option string :=
  some? short := short_sha (model_sha256 r) in
  Some ("<tr>" +:+ foldr (fun c s => line 18 c +:+ s) (line 16 "</tr>") (cells r short)).

Fixpoint approval_rows (l : list SubmissionRecord) : option string :=
  match l with
  | [] => Some ""
  | r :: l => some? a := approval_row r in some? b := approval_rows l in Some (a +:+ b)
  end.

Definition no_rows : string :=
  "<tr><td colspan=" +:+ quoted "7" +:+ " style=" +:+ quoted "text-align:center;color:#888" +:+ ">no submissions</td></tr>".

(** The rows of [approval_ui]; [None] when it panics. *)
Definition approval_ui (f : fs) : option string :=
  some? rows := approval_rows (list_pending f) in
  Some (if String.eqb rows "" then no_rows else rows).

Lemma approval_rows_none l r : In r l -> short_sha (model_sha256 r) = None -> approval_rows l = None.
Proof.
  intros Hin Hs. induction l as [|x l IH]; [done|]. cbn [approval_rows]. destruct Hin as [->|Hin].
  - unfold approval_row. by rewrite Hs.
  - destruct (approval_row x); [|done]. by rewrite IH.
Qed.

(** ** A submission that stays *)

(** The record of a digest is in its place and carries it. *)
Definition recorded (sha : string) (a : app) : Prop :=
  fs_wf (data a) /\ exists r, load_submission sha (data a) = Some r /\ model_sha256 r = sha.

Definition keeps_record {A} (sha : string) (m : SE app api_error A) : Prop :=
  forall a, recorded sha a -> recorded sha (m a).1.

Lemma keepr_bind {A B} sha (m : SE app api_error A) (k : A -> SE app api_error B) :
  keeps_record sha m -> (forall x, keeps_record sha (k x)) -> keeps_record sha (sbind m k).
Proof. intros Hm Hk a Ha. unfold sbind. specialize (Hm a Ha). destruct (m a) as [a' [x|e]]; [by apply Hk|done]. Qed.

Lemma keepr_ret {A} sha (x : A) : keeps_record sha (sret x).
Proof. by intros a Ha. Qed.
Lemma keepr_fail {A} sha e : keeps_record sha (A := A) (sfail e).
Proof. by intros a Ha. Qed.
Lemma keepr_get sha : keeps_record sha sget.
Proof. by intros a Ha. Qed.
Lemma keepr_lift {A} sha (r : result api_error A) : keeps_record sha (slift r).
Proof. by intros a Ha. Qed.
Lemma keepr_audit sha l who ev : keeps_record sha (audit_append l who ev).
Proof. by intros a Ha. Qed.

(** The files at the record's path stay. *)
Lemma keepr_data {E A} sha st (m : SE fs E A) :
  (forall f, fs_wf f -> fs_wf (m f).1 /\ content_at (m f).1 (submission_path sha) = content_at f (submission_path sha)) ->
  keeps_record sha (on_data st m).
Proof.
  intros Hm a [Hf (r & Hl & Hr)]. destruct (Hm _ Hf) as [Hw Hc]. split; [done|]. exists r. split; [|done].
  unfold load_submission in *. cbn [on_data data set_data fst]. by rewrite Hc.
Qed.

Lemma submission_path_inj sha x :
  json_child pending_dir (submission_path sha) = true -> submission_path x = submission_path sha -> x = sha.
Proof.
  intros Hj He. assert (Habs : forall y, (exists z, y = String "/" z) -> submission_path y = y +:+ ".json").
  { intros y [z ->]. done. }
  assert (Hrel : forall y, (forall z, y <> String "/" z) -> submission_path y = pending_dir +:+ "/" +:+ (y +:+ ".json")).
  { intros [|c y] Hy; [done|]. unfold submission_path, path_join. cbn [String.append].
    destruct c as [[] [] [] [] [] [] [] []]; try done. by destruct (Hy y). }
  assert (Hdec : forall y, (exists z, y = String "/" z) \/ forall z, y <> String "/" z).
  { intros [|c y]; [by right|]. destruct (ascii_dec c "/"%char) as [->|Hc]; [left; by eexists|right; by intros z [= ->]]. }
  destruct (Hdec sha) as [Hs|Hs]; [rewrite (Habs sha Hs) in Hj; by destruct Hs as [z ->]|].
  rewrite (Hrel sha Hs) in He. destruct (Hdec x) as [Hx|Hx].
  - rewrite (Habs x Hx) in He. by destruct Hx as [z ->].
  - rewrite (Hrel x Hx) in He. apply string_app_inj_l, string_app_inj_l, app_suffix_inj in He. done.
Qed.

(** Writing any record keeps it: at the same path it carries the same digest. *)
Lemma keepr_save sha r : json_child pending_dir (submission_path sha) = true ->
  keeps_record sha (on_data internal (save_submission Incidents.Written r)).
Proof.
  intros Hj a [Hf (x & Hl & Hx)]. cbn [on_data fst].
  assert (Hw : fs_wf (save_submission Incidents.Written r (data a)).1) by by apply put_wf.
  split; [done|]. destruct (decide (model_sha256 r = sha)) as [<-|Hne].
  - exists r. split; [|done]. by apply load_submission_saved.
  - exists x. split; [|done]. unfold load_submission in *. cbn [data set_data]. rewrite <- Hl. f_equal.
    apply put_other; [done|]. intros He. by apply submission_path_inj in He.
Qed.

Lemma keepr_put sha w d x b : keeps_record sha (on_data internal (put w (Tokens.Approval.token_path d x) b)).
Proof.
  apply keepr_data. intros f Hf. split; [by apply put_wf|]. apply put_other; [done|].
  intros He. symmetry in He. by apply submission_not_token in He.
Qed.

Lemma keepr_key sha seed : keeps_record sha (on_data internal (load_or_create_signing_key seed)).
Proof.
  apply keepr_data. intros f Hf. unfold load_or_create_signing_key.
  destruct (exists_ f signing_key_path).
  - destruct (read f signing_key_path) as [b|]; [|done]. by destruct (Nat.eqb _ _).
  - cbn [fst]. split; [by do 2 apply std_write_wf|]. destruct (submission_ending sha) as [y ->].
    rewrite !content_at_std_write by (done || by apply std_write_wf).
    rewrite !decide_False; [done|ending_neq|ending_neq].
Qed.

Lemma keepr_remove sha ok x d :
  keeps_record sha (on_data internal (smodify (E := io_err) (remove_token ok (Tokens.Approval.token_path d x)))).
Proof.
  apply keepr_data. intros f Hf. unfold smodify, remove_token. cbn [fst]. case_match; [|done].
  split; [by apply remove_file_wf|]. rewrite content_at_remove, decide_False; [done|].
  intros He. symmetry in He. by apply submission_not_token in He.
Qed.

Lemma keepr_handle sha q e : json_child pending_dir (submission_path sha) = true ->
  w_record e = Incidents.Written -> keeps_record sha (handle_registry q e).
Proof.
  intros Hj Hw. destruct q as [m x by_ n|x by_ n d|x by_|x id sys]; cbn [handle_registry].
  - unfold submit. rewrite Hw. repeat (apply keepr_bind; [|intros]); auto using keepr_ret, keepr_save.
  - unfold approve. rewrite Hw. apply keepr_bind; [|intros; apply keepr_ret].
    apply keepr_bind; [apply keepr_get|intros s]. apply keepr_bind; [apply keepr_lift|intros r].
    case_match; [apply keepr_fail|]. apply keepr_bind; [apply keepr_key|intros key].
    apply keepr_bind; [apply keepr_lift|intros ex]. apply keepr_bind; [apply keepr_put|intros _].
    apply keepr_bind; [by apply keepr_save|intros _]. apply keepr_bind; [apply keepr_audit|intros; apply keepr_ret].
  - unfold revoke. rewrite Hw. apply keepr_bind; [apply keepr_get|intros s].
    apply keepr_bind; [apply keepr_lift|intros r]. apply keepr_bind; [apply keepr_remove|intros _].
    apply keepr_bind; [by apply keepr_save|intros _; apply keepr_audit].
  - intros a Ha. unfold ticket_opened. destruct (load_submission x (data a)) as [r|]; [|done]. rewrite Hw.
    exact (keepr_save sha (with_ticket r id sys) Hj a Ha).
Qed.

Lemma run_recorded sha l a : json_child pending_dir (submission_path sha) = true ->
  Forall (fun x => w_record x.2 = Incidents.Written) l -> recorded sha a -> recorded sha (run_registry l a).
Proof.
  intros Hj Hl. revert a. induction Hl as [|[q e] l He _ IH]; intros a Ha; [done|].
  cbn [run_registry]. apply IH, keepr_handle; done.
Qed.

Lemma recorded_listed sha a : json_child pending_dir (submission_path sha) = true -> recorded sha a ->
  exists r, In r (list_pending (data a)) /\ model_sha256 r = sha.
Proof.
  intros Hj [Hf (r & Hl & Hr)]. exists r. split; [|done]. unfold list_pending.
  apply list_elem_of_In. rewrite merge_sort_Permutation, list_elem_of_omap.
  unfold load_submission in Hl. destruct (content_at (data a) (submission_path sha)) as [b|] eqn:Eb; [|done].
  exists b. split; [|done]. apply list_elem_of_In, in_json_files; [done|]. eauto.
Qed.

(** One submission, for which no credentials are asked, takes the page of the registry
    away: with a digest whose twelfth byte is inside a character the page panics, and no
    later request of the registry brings it back. *)
Theorem page_lost m sha by_ n e l a :
  fs_wf (data a) -> json_child pending_dir (submission_path sha) = true -> short_sha sha = None ->
  Forall (fun x => w_record x.2 = Incidents.Written) ((Submit m sha by_ n, e) :: l) ->
  approval_ui (data (run_registry ((Submit m sha by_ n, e) :: l) a)) = None.
Proof.
  intros Hf Hj Hs Hl. inversion Hl as [|x y He Hl']; subst. cbn [snd] in He.
  assert (Ha : recorded sha (run_registry ((Submit m sha by_ n, e) :: l) a)).
  { cbn [run_registry]. apply run_recorded; [done..|]. cbn [handle_registry]. rewrite unit_state.
    unfold submit, sbind, on_data. rewrite He. cbv zeta. set (r := {| submission_id := e_uuid e |}).
    split; [by apply put_wf|]. exists r. split; [|done]. by apply (load_submission_saved r). }
  destruct (recorded_listed sha _ Hj Ha) as (r & Hr & Hsha). unfold approval_ui.
  by rewrite (approval_rows_none _ r Hr) by by rewrite Hsha.
Qed.

Lemma cell_in c l tail : In c l -> exists pre post, foldr (fun c s => line 18 c +:+ s) tail l = pre +:+ c +:+ post.
Proof.
  induction l as [|x l IH]; [done|]. intros [<-|Hin]; cbn [foldr].
  - exists (nl +:+ spaces 18), (foldr (fun c s => line 18 c +:+ s) tail l). unfold line. by rewrite !string_app_assoc.
  - destruct (IH Hin) as (pre & post & ->). exists (line 18 x +:+ pre), post. by rewrite string_app_assoc.
Qed.

(** The page of records with readable digests has a row for each, newest first, and the
    texts of a submission stand in it as they came. *)
Theorem page_rows f :
  (forall r, In r (list_pending f) -> is_Some (short_sha (model_sha256 r))) ->
  list_pending f <> [] -> exists rows, approval_rows (list_pending f) = Some rows /\ approval_ui f = Some rows /\
  forall r, In r (list_pending f) -> exists pre post,
    rows = pre +:+ ("<td>" +:+ default "—" (note r) +:+ "</td>") +:+ post.
Proof.
  unfold approval_ui. generalize (list_pending f). intros l Hl Hne.
  assert (Hrows : exists rows, approval_rows l = Some rows /\ (l <> [] -> rows <> "") /\
    forall r, In r l -> exists pre post, rows = pre +:+ ("<td>" +:+ default "—" (note r) +:+ "</td>") +:+ post).
  { clear Hne. induction l as [|x l IH]; [by exists ""|]. destruct IH as (rows & Hr & _ & Hin); [intros; apply Hl; by right|].
    destruct (Hl x) as [short Hs]; [by left|]. cbn [approval_rows]. unfold approval_row. rewrite Hs, Hr.
    eexists. split; [done|]. split; [done|]. intros r [<-|Hx].
    - destruct (cell_in ("<td>" +:+ default "—" (note x) +:+ "</td>") (cells x short) (line 16 "</tr>")) as (pre & post & ->);
        [unfold cells; do 4 apply in_cons; apply in_eq|]. exists ("<tr>" +:+ pre), (post +:+ rows). by rewrite !string_app_assoc.
    - destruct (Hin r Hx) as (pre & post & ->). 
      generalize ("<td>" +:+ default "—" (note r) +:+ "</td>"). intros c.
      match goal with |- context [String.append ?row (pre +:+ c +:+ post)] => generalize row end. intros row.
      exists (row +:+ pre), post. by rewrite string_app_assoc. }
  destruct Hrows as (rows & Hr & Hn & Hin). exists rows. split; [done|]. rewrite Hr. split; [|done].
  destruct (String.eqb_spec rows ""); [|done]. by destruct (Hn Hne).
Qed.

End page.
End ApprovalPage.

Module TicketDemo.
Import AppState.AppState Http.Http Registry.Registry ChangeMgmt ApprovalPage ApiDemo.ApiDemo.

(** Twelve bytes end inside the last character. *)
Definition odd_digest : string := "aaaaaaaaaaaé".
Definition by_anyone : Registry.Registry.env := {|
  e_uuid := "s-1"; e_seed := seed0; e_t0 := 100; e_now := 100;
  w_token := Incidents.Written; w_record := Incidents.Written; rm_ok := true |}.

Lemma page_lost_witness :
  short_sha odd_digest = None /\ approval_ui show_u64 (data app0) <> None /\
  approval_ui show_u64 (data (run_registry
    [(Submit "m:1" odd_digest "x" None, by_anyone); (Revoke odd_digest "admin", by_anyone)] app0)) = None.
Proof.
  split; [by vm_compute|]. split; [by vm_compute|].
  apply (page_lost show_u64 "m:1" odd_digest "x" None by_anyone [(Revoke odd_digest "admin", by_anyone)] app0).
  - apply fs_wf_empty.
  - by vm_compute.
  - by vm_compute.
  - by repeat constructor.
Defined.

Definition one_row : fs := data (run_registry [(Submit "m:1" "abc" "x" (Some "<script>"), by_anyone)] app0).

Lemma page_rows_witness : exists rows, approval_ui show_u64 one_row = Some rows /\
  exists pre post, rows = pre +:+ "<td><script></td>" +:+ post.
Proof.
  destruct (page_rows show_u64 one_row) as (rows & _ & Hu & Hin).
  - intros r Hr. unfold short_sha. vm_compute in Hr. destruct Hr as [<-|[]]. vm_compute. by eexists.
  - vm_compute. discriminate.
  - exists rows. split; [exact Hu|].
    apply (Hin {| submission_id := "s-1"; model_id := "m:1"; model_sha256 := "abc"; submitted_by := "x";
      submitted_at := 100; note := Some "<script>"; status := Pending; cm_ticket_id := None; cm_system := None |}).
    vm_compute. by left.
Defined.

Definition desk : ChangeManagementConfig := {|
  servicenow_url := Some "https://snow"; servicenow_user := None; servicenow_password := None;
  jira_url := Some "https://jira"; jira_project := Some "ML"; jira_user := None; jira_token := None |}.

(** ServiceNow is down, Jira answers without an account. *)
Definition desks : world := fun sent r =>
  if bool_decide (url r = "https://jira/rest/api/3/issue")
  then Some {| Http.Http.status := 201; header := fun _ => None; content := json_print (JObj [("key", JStr "ML-7")]) |}
  else None.

Lemma ticket_closed_there_witness :
  (open_ticket desks desk "m:1" "abc" None "x" []).2 = Ok (Some ("ML-7", "jira")) /\
  (close_ticket desks desk "ML-7" "jira" "done" []).1 = [].
Proof.
  assert (Ho : (open_ticket desks desk "m:1" "abc" None "x" []).2 = Ok (Some ("ML-7", "jira"))) by (by vm_compute).
  split; [exact Ho|].
  destruct (ticket_closed_there desks desk "m:1" "abc" None "x" "done" [] [] "ML-7" "jira" Ho) as [[Hf _]|(_ & u & _ & Hc)].
  - discriminate Hf.
  - exact Hc.
Defined.

End TicketDemo.
