(* ===== verification/TpmCli.v ===== *)
(** * The TPM commands of the command line

    Models [maranode-cli/src/commands/tpm.rs], the policy file of
    [maranode-attestation/src/pcr_policy.rs] and the probe of [perf.rs], over the files
    of the data directory: the registers, the random draws, the clock and the elapsed
    times are arguments. The theorems follow a key from its plain file through the
    commands to the next start of the daemon. *)

From Stdlib Require Import ZArith Lia Ascii String.
From S2P Require Import Prelude Json Crypto Events Fs AuditRotate Instances Seal Pcr SealDemo Config Startup Attest.
Open Scope string_scope.
Open Scope list_scope.
Open Scope Z_scope.

(** ** The policy file *)
Module PolicyFile.
Import Seal PcrPolicy.

Definition policy_path : string := "tpm/pcr-policy.json".

Section policy.
Context `{!JsonText}.

(** The registers in the order of their numbers; a [u8] is written as a decimal key. *)
Definition pcrs_json (m : gmap Z string) : json :=
  JObj (omap (fun i => (fun v => (show_u64 i, JStr v)) <$> m !! i) (seqZ 0 256)).

Definition policy_json (p : PcrPolicy) : json :=
  JObj [("pcrs", pcrs_json (pcrs p)); ("description", JStr (description p))].

(** A key that reads as a [u8]. *)
Definition key_of (s : string) : option Z := List.find (fun i => String.eqb (show_u64 i) s) (seqZ 0 256).

Fixpoint pcrs_of (m : list (string * json)) (acc : gmap Z string) : option (gmap Z string) :=
  match m with
  | [] => Some acc
  | (k, v) :: m =>
    some? i := key_of k in
    some? s := as_str v in
    pcrs_of m (<[i := s]> acc)
  end.

Definition policy_of (j : json) : option PcrPolicy :=
  some? m := as_obj j in
  check no_dup_fields ["pcrs"; "description"] m in
  some? o := req as_obj "pcrs" m in
  some? r := pcrs_of o ∅ in
  some? d := req as_str "description" m in
  Some {| pcrs := r; description := d |}.

Definition load (f : fs) : result seal_err PcrPolicy :=
  let? b := map_err Io (read f policy_path) in
  let? j := ok_or (json_parse b) BadJson in
  ok_or (policy_of j) BadJson.

Definition save (p : PcrPolicy) : SE fs seal_err unit := put policy_path (json_pretty (policy_json p)).

(** *** Reading back *)

Definition in_u8 (m : gmap Z string) : Prop := forall i v, m !! i = Some v -> 0 <= i < 256.

Lemma key_of_show i : 0 <= i < 256 -> key_of (show_u64 i) = Some i.
Proof.
  intros Hi. unfold key_of. destruct (List.find _ _) as [j|] eqn:E.
  - apply find_some in E as [Hj He]. apply String.eqb_eq in He. apply list_elem_of_In, elem_of_seqZ in Hj.
    f_equal. apply show_u64_inj; [lia..|done].
  - eapply find_none in E; [|apply list_elem_of_In, elem_of_seqZ; split; [|apply Hi]; lia].
    by rewrite String.eqb_refl in E.
Qed.

(** Members for the listed registers read back as these registers. *)
Lemma pcrs_of_members (m : gmap Z string) l (acc : gmap Z string) :
  (forall i, i ∈ l -> 0 <= i < 256) ->
  exists r, pcrs_of (omap (fun i => (fun v => (show_u64 i, JStr v)) <$> m !! i) l) acc = Some r /\
    forall i, r !! i = if decide (i ∈ l /\ is_Some (m !! i)) then m !! i else acc !! i.
Proof.
  revert acc. induction l as [|x l IH]; intros acc Hl.
  { exists acc. split; [done|]. intros i. rewrite decide_False; [done|]. intros [Hi _]. by apply elem_of_nil in Hi. }
  assert (forall i, i ∈ l -> 0 <= i < 256) as Hl' by (intros; apply Hl; by right).
  assert (0 <= x < 256) as Hx by (apply Hl; by left).
  cbn [omap list_omap]. destruct (m !! x) as [v|] eqn:Ex; cbn [fmap option_fmap option_map].
  - cbn [pcrs_of]. rewrite key_of_show by done. cbn [as_str].
    destruct (IH (<[x := v]> acc) Hl') as (r & -> & Hr). exists r. split; [done|]. intros i. rewrite Hr.
    destruct (decide (i = x)) as [->|Hn].
    + rewrite lookup_insert_eq, Ex. by repeat case_decide; set_solver.
    + rewrite lookup_insert_ne by done. repeat case_decide; try done; set_solver.
  - destruct (IH acc Hl') as (r & Hp & Hr). exists r. split; [exact Hp|]. intros i. rewrite Hr.
    destruct (decide (i = x)) as [->|Hn]; [|repeat case_decide; try done; set_solver].
    by rewrite !decide_False by (rewrite Ex; intros [_ [? [=]]]).
Qed.

Lemma seal_policy_round p : in_u8 (pcrs p) -> policy_of (policy_json p) = Some p.
Proof.
  intros Hp. unfold policy_of, policy_json, pcrs_json.
  destruct (pcrs_of_members (pcrs p) (seqZ 0 256) ∅) as (r & He & Hr).
  { intros i Hi%elem_of_seqZ. lia. }
  cbn. rewrite He. destruct p as [m d]. cbn in *. do 2 f_equal. apply map_eq. intros i. rewrite Hr.
  case_decide as Hc; [done|]. rewrite lookup_empty. destruct (m !! i) as [v|] eqn:Ei; [|done].
  exfalso. apply Hc. split; [apply elem_of_seqZ; pose proof (Hp i v Ei); lia|by eexists].
Qed.

Lemma policy_json_wf p : json_wf (policy_json p) = true.
Proof.
  unfold policy_json, pcrs_json. cbn. rewrite andb_true_r. generalize (seqZ 0 256). intros l.
  induction l as [|i l IH]; [done|]. cbn. by destruct (pcrs p !! i).
Qed.

Lemma saved_loads p f : fs_wf f -> in_u8 (pcrs p) ->
  exists f', save p f = (f', Ok tt) /\ load f' = Ok p.
Proof.
  intros Hf Hp. unfold save, put, io, swrite. cbn [fst snd map_err]. eexists. split; [reflexivity|]. unfold load.
  rewrite read_std_write by done. cbn [map_err rbind]. rewrite json_parse_pretty by apply policy_json_wf.
  cbn [ok_or rbind]. by rewrite seal_policy_round.
Qed.
End policy.
End PolicyFile.

(** ** The timings of the probe: the elapsed microseconds are arguments *)
Module TeePerf.
Import TeeReport.

Record TeePerf := {
  tee_type : string; is_synthetic : bool; detect_us : Z; report_us : Z; encrypt_us : Z; decrypt_us : Z; note : string
}.

Record elapsed := { t_detect : Z; t_report : Z; t_encrypt : Z; t_decrypt : Z }.

Definition perf_nonce : string := "perf-probe-nonce-12345".

Definition measure `{!Sha256, !Hex, !Measure.Exe} (device : string -> bool) (t : elapsed) : TeePerf :=
  let tee := detect_tee device in
  let report := get_report device perf_nonce in
  {| tee_type := tee_str tee; is_synthetic := TeeReport.is_synthetic report;
     detect_us := t_detect t; report_us := t_report t; encrypt_us := t_encrypt t; decrypt_us := t_decrypt t;
     note := match tee with
             | NoTee => "running outside a TEE; timings reflect software emulation"
             | _ => "timings include ioctl round-trip to kernel TEE driver"
             end |}.
End TeePerf.

(** ** The commands *)
Module TpmCli.
Import Seal Rotation PcrPolicy PolicyFile Startup.Startup KekFile.

Inductive tpm_command :=
| TStatus
| TCapturePcrs (profile : string) (pcrs : option string)
| TSeal (purpose pcrs : string) (passphrase : option string)
| TUnsealTest (purpose : string) (passphrase : option string)
| TVerifyPcrs
| TExportRecovery (out passphrase purposes : string)
| TImportRecovery (bundle passphrase : string) (pcrs : option string)
| TRotate (purpose : string) (passphrase new_passphrase pcrs : option string) (reason : string)
| TRotationLog
| TTeeKeygen
| TTeeProbe.

Inductive tpm_err :=
| BadIndex | UnknownProfile | PolicyFailed (e : policy_err) | SealFailed (e : seal_err)
| NoKek | BadKek | NoAuditKey | UnknownPurpose | NoPolicy | UnsealExit (e : seal_err) | PolicyExit (e : policy_err).

Inductive purpose_line := LSealed (purpose : string) (m : SealMeta) | LNotSealed (purpose : string).
Inductive policy_line := NotConfigured | PolicyRead (n : nat) (satisfied : bool) | PolicyUnreadable.

Inductive tpm_output :=
| StatusOf (tools : bool) (purposes : list purpose_line) (policy : policy_line)
| PolicySaved (p : PcrPolicy)
| SealedAs (m : SealMeta)
| UnsealOk (bytes : nat)
| Satisfied
| BundleWritten (bytes purposes : nat)
| Resealed (l : list RotationRecord)
| Rotated (r : RotationRecord)
| History (l : list RotationRecord)
| NewTeeKey (hex : string)
| Probe (tee : TeeReport.TeeType) (r : TeeReport.TeeReport) (p : TeePerf.TeePerf).

(** The registers, what is drawn, and the clock: seconds for the lockout, an instant for records. *)
Record env := {
  e_tpm : Tpm.TpmResult; e_draws : nat -> draw; e_salt : string; e_nonce : string; e_key : string;
  e_secs : Z; e_fail : Z; e_now : Z; e_elapsed : TeePerf.elapsed
}.

(** [parse::<u8>]: an optional plus, then digits. *)
Fixpoint digits_value (acc : Z) (s : string) : option Z :=
  match s with
  | EmptyString => Some acc
  | String c s => if in_range 48 57 c then digits_value (10 * acc + (code c - 48)) s else None
  end.

Definition parse_u8 (s : string) : option Z :=
  let body := match s with String "+"%char (String c r) => String c r | s => s end in
  if String.eqb body "" then None else
  some? v := digits_value 0 body in check v <=? u8_max in Some v.

Section commands.
Context `{!JsonText, !TimeText, !Hmac, !Aead, !Hex, !Sha256, !Tpm2Tools, !Measure.Exe}.
Variable device : string -> bool.

Definition on_seal {A} (m : SE fs seal_err A) : SE fs tpm_err A := fun f => let r := m f in (r.1, map_err SealFailed r.2).

Definition purposes_shown : list string := ["workspace-kek"; "audit-hmac"; "admin-cred"].

Definition purpose_lines (f : fs) (p : string) : list purpose_line :=
  if is_sealed p f then match seal_status p f with Some m => [LSealed p m] | None => [] end else [LNotSealed p].

Definition policy_state (e : env) (f : fs) : policy_line :=
  if exists_ f policy_path then
    match PolicyFile.load f with
    | Ok p => PolicyRead (size (pcrs p)) (is_satisfied p (e_tpm e))
    | Err _ => PolicyUnreadable
    end
  else NotConfigured.

Definition cmd_status (e : env) : SE fs tpm_err tpm_output :=
  do! f := sget in
  sret (StatusOf is_tpm2_tools_available (List.concat (purpose_lines f <$> purposes_shown)) (policy_state e f)).

Definition custom_policy (custom : string) (t : Tpm.TpmResult) : result tpm_err PcrPolicy :=
  let? idxs := ok_or (all_some ((fun s => parse_u8 (str_trim s)) <$> split_char ","%char custom)) BadIndex in
  let? p := map_err PolicyFailed (from_current idxs t) in
  Ok (with_description ("custom PCRs: " +:+ custom) p).

Definition profile_policy (profile : string) (t : Tpm.TpmResult) : result tpm_err PcrPolicy :=
  if String.eqb profile "server" then map_err PolicyFailed (server_profile t)
  else if String.eqb profile "workstation" then map_err PolicyFailed (workstation_profile t)
  else Err UnknownProfile.

Definition cmd_capture (profile : string) (custom : option string) (e : env) : SE fs tpm_err tpm_output :=
  do! p := slift (match custom with Some c => custom_policy c (e_tpm e) | None => profile_policy profile (e_tpm e) end) in
  do! _ := on_seal (save p) in
  sret (PolicySaved p).

(** The plain key of a purpose. *)
Definition load_key_bytes_for_purpose (purpose : string) (f : fs) : result tpm_err string :=
  if String.eqb purpose workspace_kek then
    let? hex := map_err (fun _ => NoKek) (read_to_string f default_kek_path) in
    ok_or (hex_decode (str_trim hex)) BadKek
  else if String.eqb purpose audit_hmac then map_err (fun _ => NoAuditKey) (read f audit_key_path)
  else Err UnknownPurpose.

Definition cmd_seal (purpose pcrs : string) (passphrase : option string) (e : env) : SE fs tpm_err tpm_output :=
  do! f := sget in
  do! key := slift (load_key_bytes_for_purpose purpose f) in
  do! m := on_seal (seal key purpose (Some ("sha256:" +:+ pcrs)) (default "" passphrase) (e_draws e 0%nat)) in
  sret (SealedAs m).

Definition cmd_unseal_test (purpose : string) (passphrase : option string) (e : env) : SE fs tpm_err tpm_output := fun f =>
  match unseal purpose (default "" passphrase) (e_secs e) (e_fail e) f with
  | (f, Ok bytes) => (f, Ok (UnsealOk (String.length bytes)))
  | (f, Err x) => (f, Err (UnsealExit x))
  end.

Definition cmd_verify (e : env) : SE fs tpm_err tpm_output :=
  do! f := sget in
  do! p := slift (map_err (fun _ => NoPolicy) (PolicyFile.load f)) in
  do! _ := slift (map_err PolicyExit (verify_current p (e_tpm e))) in
  sret Satisfied.

Definition purpose_list (purposes : string) : list string := str_trim <$> split_char ","%char purposes.

(** Paths of the command line stand for files of the same store. *)
Definition cmd_export (out passphrase purposes : string) (e : env) : SE fs tpm_err tpm_output :=
  let l := purpose_list purposes in
  do! b := on_seal (export_recovery_bundle l passphrase (e_secs e) (e_now e) (e_salt e) (e_nonce e)) in
  do! _ := on_seal (put out b) in
  sret (BundleWritten (String.length b) (List.length l)).

Definition cmd_import (bundle passphrase : string) (pcrs : option string) (e : env) : SE fs tpm_err tpm_output :=
  do! f := sget in
  do! b := slift (map_err (fun x => SealFailed (Seal.Io x)) (read f bundle)) in
  do! l := on_seal (import_recovery_bundle b (e_draws e) passphrase pcrs (e_now e)) in
  sret (Resealed l).

Definition cmd_rotate (purpose : string) (passphrase new_passphrase pcrs : option string) (reason : string) (e : env)
    : SE fs tpm_err tpm_output :=
  let old_pass := default "" passphrase in
  do! r := on_seal (rotate_in_place purpose old_pass pcrs (default old_pass new_passphrase) reason
                      (e_draws e 0%nat) (e_secs e) (e_now e)) in
  sret (Rotated r).

Definition cmd_log : SE fs tpm_err tpm_output :=
  do! f := sget in do! l := on_seal (slift (read_rotation_log f)) in sret (History l).

(** [tee_keygen]: 32 random bytes in hexadecimal. *)
Definition tee_keygen (e : env) : string := hex_encode (e_key e).

Definition cmd_probe (e : env) : SE fs tpm_err tpm_output :=
  sret (Probe (TeeReport.detect_tee device) (TeeReport.get_report device "cli-probe") (TeePerf.measure device (e_elapsed e))).

Definition run_tpm (c : tpm_command) (e : env) : SE fs tpm_err tpm_output :=
  match c with
  | TStatus => cmd_status e
  | TCapturePcrs profile pcrs => cmd_capture profile pcrs e
  | TSeal purpose pcrs passphrase => cmd_seal purpose pcrs passphrase e
  | TUnsealTest purpose passphrase => cmd_unseal_test purpose passphrase e
  | TVerifyPcrs => cmd_verify e
  | TExportRecovery out passphrase purposes => cmd_export out passphrase purposes e
  | TImportRecovery bundle passphrase pcrs => cmd_import bundle passphrase pcrs e
  | TRotate purpose passphrase new_passphrase pcrs reason => cmd_rotate purpose passphrase new_passphrase pcrs reason e
  | TRotationLog => cmd_log
  | TTeeKeygen => sret (NewTeeKey (tee_keygen e))
  | TTeeProbe => cmd_probe e
  end.

(** *** The captured policy *)

Lemma digits_value_pos s acc v : 0 <= acc -> digits_value acc s = Some v -> 0 <= v.
Proof.
  revert acc. induction s as [|c s IH]; intros acc Ha; cbn [digits_value]; [by intros [= <-]|].
  destruct (in_range 48 57 c) eqn:E; [|done]. apply IH. unfold in_range in E. lia.
Qed.

Lemma parse_u8_range s v : parse_u8 s = Some v -> 0 <= v < 256.
Proof.
  unfold parse_u8. set (b := match s with String "+"%char _ => _ | _ => _ end). destruct (String.eqb b ""); [done|].
  destruct (digits_value 0 b) as [x|] eqn:E; [|done]. unfold u8_max. destruct (Z.leb_spec x 255); [|done].
  intros [= <-]. apply digits_value_pos in E; lia.
Qed.

Lemma all_some_range l idxs : all_some ((fun s => parse_u8 (str_trim s)) <$> l) = Some idxs ->
  forall i, i ∈ idxs -> 0 <= i < 256.
Proof.
  revert idxs. induction l as [|s l IH]; intros idxs; cbn [all_some fmap list_fmap].
  { intros [= <-] i Hi. by apply elem_of_nil in Hi. }
  destruct (parse_u8 (str_trim s)) as [v|] eqn:Ev; [|done]. destruct (all_some _) as [r|]; [|done].
  intros [= <-] i [->|Hi]%elem_of_cons; [by eapply parse_u8_range|by eapply IH].
Qed.

Lemma captured sel cur p : from_current sel (Tpm.Available cur) = Ok p -> (forall i, i ∈ sel -> 0 <= i < 256) ->
  in_u8 (pcrs p) /\ forall i, pcrs p !! i = if decide (i ∈ sel) then cur !! i else None.
Proof.
  cbn [from_current]. destruct (pick sel cur ∅) as [m|] eqn:E; [|done]. intros [= <-] Hs. cbn [pcrs].
  pose proof (pick_spec _ _ _ _ E) as Hm. split; [|intros i; by rewrite Hm, lookup_empty].
  intros i v Hi. rewrite Hm, lookup_empty in Hi. case_decide; [by apply Hs|done].
Qed.

(** The policy of a capture: what was read of the registers that were asked for. *)
Definition captured_from (cur : gmap Z string) (p : PcrPolicy) : Prop :=
  in_u8 (pcrs p) /\ forall i v, pcrs p !! i = Some v -> cur !! i = Some v.

Lemma capture_policy profile custom cur p :
  match custom with Some c => custom_policy c (Tpm.Available cur) | None => profile_policy profile (Tpm.Available cur) end = Ok p ->
  captured_from cur p.
Proof.
  assert (forall sel q d, from_current sel (Tpm.Available cur) = Ok q -> (forall i, i ∈ sel -> 0 <= i < 256) ->
    captured_from cur (with_description d q)) as Hc.
  { intros sel q d Hq Hs. destruct (captured _ _ _ Hq Hs) as [Hu Hm]. split; [exact Hu|].
    intros i v. cbn [with_description pcrs]. rewrite Hm. by case_decide. }
  destruct custom as [c|].
  - unfold custom_policy. destruct (all_some _) as [idxs|] eqn:Ei; cbn [ok_or rbind]; [|done].
    destruct (from_current idxs _) as [q|] eqn:Eq; [|done]. intros [= <-]. eapply Hc; [done|]. by eapply all_some_range.
  - unfold profile_policy, server_profile, workstation_profile.
    destruct (String.eqb profile "server"); [|destruct (String.eqb profile "workstation"); [|done]];
      unfold rmap, rbind; (destruct (from_current _ _) as [q|] eqn:Eq; [|done]); intros [= <-];
      (eapply Hc; [done|]; intros i Hi; set_unfold in Hi; lia).
Qed.

(** What [capture-pcrs] saves holds as long as the registers that it took in have the
    values that they had, and not longer: [verify-pcrs] after any later boot tells. *)
Theorem capture_then_verify profile custom e cur f f' p :
  fs_wf f -> e_tpm e = Tpm.Available cur -> run_tpm (TCapturePcrs profile custom) e f = (f', Ok (PolicySaved p)) ->
  (forall e' cur', e_tpm e' = Tpm.Available cur' ->
     (run_tpm TVerifyPcrs e' f' = (f', Ok Satisfied) <-> forall i, i ∈ dom (pcrs p) -> cur' !! i = cur !! i)) /\
  (forall e', (forall cur', e_tpm e' <> Tpm.Available cur') -> exists x, run_tpm TVerifyPcrs e' f' = (f', Err (PolicyExit x))).
Proof.
  intros Hf He. cbn [run_tpm]. unfold cmd_capture. rewrite He. unfold sbind at 1, slift.
  destruct (match custom with Some _ => _ | None => _ end) as [q|] eqn:Eq; [|done].
  destruct (capture_policy _ _ _ _ Eq) as [Hu Hm].
  destruct (saved_loads q f Hf Hu) as (g & Hg & Hl). unfold sbind, on_seal, sret. rewrite Hg. cbn [fst snd map_err].
  intros [= -> ->]. unfold cmd_verify, sbind, sget, slift. rewrite Hl. cbn [map_err].
  split; [|intros e' Hn; unfold verify_current; destruct (e_tpm e') as [c| |]; [by destruct (Hn c)|by eexists..]].
  intros e' cur' ->. pose proof (satisfied_iff p cur') as Hs. unfold is_satisfied in Hs.
  transitivity (is_ok (verify_current p (Tpm.Available cur')) = true).
  { by destruct (verify_current p _) as [[]|]. }
  rewrite Hs. split.
  - intros Hall i [v Hv]%elem_of_dom. by rewrite (Hall _ _ Hv), (Hm _ _ Hv).
  - intros Hall i v Hv. rewrite Hall by (apply elem_of_dom; by eexists). by apply Hm.
Qed.

(** *** From the plain file to the next start *)

Lemma cmd_seal_spec purpose pcrs pass e f k :
  fs_wf f -> draw_ok (e_draws e 0%nat) -> tpm_faithful -> load_key_bytes_for_purpose purpose f = Ok k ->
  exists f1 m, run_tpm (TSeal purpose pcrs pass) e f = (f1, Ok (SealedAs m)) /\ fs_wf f1 /\
    stored_key purpose (default "" pass) f1 = Ok k /\ agree (fun q => ~ In q (blob_files purpose)) f f1.
Proof.
  intros Hf Hr Htpm Hk.
  destruct (seal_spec k purpose (Some ("sha256:" +:+ pcrs)) (default "" pass) (e_draws e 0%nat) f Hf Hr Htpm)
    as (f1 & m & Hs & Hw & Hst & Ha & _).
  exists f1, m. split; [|done]. cbn [run_tpm]. unfold cmd_seal, sbind at 1, sget. unfold sbind at 1, slift. rewrite Hk.
  unfold sbind, on_seal. by rewrite Hs.
Qed.

Lemma plain_kek f k : KekFile.load f = Ok k -> load_key_bytes_for_purpose workspace_kek f = Ok k /\ String.length k = 32%nat.
Proof.
  unfold KekFile.load, load_key_bytes_for_purpose. rewrite String.eqb_refl.
  destruct (read_to_string f default_kek_path) as [h|]; cbn [map_err rbind]; [|done].
  destruct (hex_decode (str_trim h)) as [b|]; cbn [ok_or rbind]; [|done].
  destruct (Nat.eqb_spec (String.length b) 32); [|done]. by intros [= <-].
Qed.

(** C33: The command seals the key of the plain file; with the same passphrase in its
    configuration and sealing enabled the daemon then starts with this key, whether the
    plain file is still there or not, unless the purpose is locked out or the registers
    have changed. The command leaves it there. *)
Theorem sealed_kek_starts pcrs pass e c f k :
  fs_wf f -> draw_ok (e_draws e 0%nat) -> tpm_faithful -> KekFile.load f = Ok k ->
  Config.tpm_enabled c = true -> passphrase_of c = default "" pass ->
  exists f1 m, run_tpm (TSeal workspace_kek pcrs pass) e f = (f1, Ok (SealedAs m)) /\ fs_wf f1 /\ KekFile.load f1 = Ok k /\
    forall g fresh fault r now t, fs_wf g -> agree (fun q => q <> default_kek_path) f1 g -> 0 <= t <= u64_max ->
      locked workspace_kek now f = false ->
      exists f2, load_master_kek c fresh fault r now t g = (f2, Ok k).
Proof.
  intros Hf Hr Htpm Hk Hc Hp.
  destruct (plain_kek f k Hk) as [Hload Hlen].
  destruct (cmd_seal_spec workspace_kek pcrs pass e f k Hf Hr Htpm Hload) as (f1 & m & Hs & Hw & Hst & Ha).
  exists f1, m. split; [done|]. split; [done|]. split.
  { rewrite <- Hk. unfold KekFile.load. by rewrite !read_to_string_content, Ha by apply kek_not_sealed. }
  intros g fresh fault r now t Hg Hgf Ht Hl.
  assert (stored_key workspace_kek (passphrase_of c) g = Ok k) as Hsg.
  { rewrite Hp, <- Hst. apply stored_key_agree. intros q Hq. apply Hgf. intros ->. by eapply kek_not_sealed. }
  edestruct (sealed_length c r now t g k) as (f2 & Hf2 & _); [..|by exists f2]; try done.
  - by eapply stored_sealed.
  - rewrite <- Hl. apply locked_agree. rewrite Hgf by discriminate. apply Ha. apply counter_not_blob.
Qed.

(** C34: A rotation without a list of registers does not keep the one that the key is bound
    to: afterwards the key is sealed in software and bound to no register, and opens with
    the passphrase alone, the empty one where none was given. *)
Theorem rotation_unbinds p pass new reason e f k :
  fs_wf f -> draw_ok (e_draws e 0%nat) -> 0 <= e_secs e <= u64_max ->
  locked p (e_secs e) f = false -> stored_key p (default "" pass) f = Ok k ->
  exists f' r m, run_tpm (TRotate p pass new None reason) e f = (f', Ok (Rotated r)) /\
    load_meta (blob_dir p) f' = Ok m /\ backend m = Software /\ pcr_list m = None /\
    stored_key p (default (default "" pass) new) f' = Ok k.
Proof.
  intros Hf Hr Ht Hl Hk.
  assert (exists om, seal_status p f = Some om) as [om Hom].
  { unfold seal_status, stored_key in *. destruct (load_meta (blob_dir p) f) as [om|]; [by exists om|done]. }
  destruct (unseal_spec p (default "" pass) (e_secs e) (e_secs e) f Hf Ht Hl) as (g & Hu & Hg & _). rewrite Hk in Hu.
  destruct (software_seal_spec k p (default (default "" pass) new) (e_draws e 0%nat) g Hg Hr) as (h & Hs & Hh & Hkh & _ & Hm).
  assert (forall line, agree (fun q => In q (blob_files p)) h (append_file h rotation_log_path 438 line)) as Ha.
  { intros line q Hq. rewrite content_at_append_file by done. rewrite decide_False; [done|].
    intros <-. apply (log_not_own p). by apply blob_own. }
  eexists (append_file h rotation_log_path 438 _), _, _. split.
  { cbn [run_tpm]. unfold cmd_rotate, on_seal, rotate_in_place, sbind, sget, slift. rewrite Hom. cbn [ok_or].
    rewrite Hu. unfold seal. rewrite Hs. reflexivity. }
  rewrite (load_meta_agree _ _ _ (Ha _)), (stored_key_agree _ _ _ _ (Ha _)). done.
Qed.
End commands.
End TpmCli.

(** ** On concrete data *)
Module TpmDemo.
Import Seal PcrPolicy PolicyFile Startup.Startup TpmCli.

#[local] Instance this_program : Measure.Exe := {| Measure.current_exe := Some ("/usr/bin/maranode", "elf") |}.

Definition no_device (p : string) : bool := false.
Definition key_a : string := "0123456789abcdef0123456789abcdef".

Definition at_boot (t : Tpm.TpmResult) : env := {|
  e_tpm := t; e_draws := fun _ => r0; e_salt := "s"; e_nonce := "n"; e_key := key_a; e_secs := 7; e_fail := 7; e_now := 0;
  e_elapsed := {| TeePerf.t_detect := 1; TeePerf.t_report := 1; TeePerf.t_encrypt := 1; TeePerf.t_decrypt := 1 |} |}.

Definition tpm_on : Config.TpmConfig := {|
  Config.tpm_enabled := true; Config.pcr_indices := "0,7"; Config.seal_purposes := [workspace_kek];
  Config.software_passphrase := None |}.

Definition with_key : fs := std_write fs_empty KekFile.default_kek_path (hex_encode key_a).
Lemma with_key_wf : fs_wf with_key. Proof. apply std_write_wf, fs_wf_empty. Qed.

Definition sealed_once : fs * result tpm_err tpm_output :=
  run_tpm no_device (TSeal workspace_kek "0,7" None) (at_boot Tpm.Unavailable) with_key.

Example sealed_to_registers : exists m, sealed_once.2 = Ok (SealedAs m) /\ backend m = Tpm2 /\ pcr_list m = Some "sha256:0,7".
Proof. eexists. by vm_compute. Qed.

(** The list of registers is read as numbers: a plus and zeros in front are accepted. *)
Example indices_read : parse_u8 "+7" = Some 7 /\ parse_u8 "007" = Some 7 /\ parse_u8 "256" = None /\ parse_u8 "+" = None /\ parse_u8 "-1" = None.
Proof. done. Qed.

(** The purpose that the help names is refused. *)
Example admin_cred_refused :
  (run_tpm no_device (TSeal "admin-cred" "0,7" None) (at_boot Tpm.Unavailable) with_key).2 = Err UnknownPurpose.
Proof. done. Qed.

Lemma sealed_kek_starts_witness :
  exists f1 m, run_tpm no_device (TSeal workspace_kek "0,7" None) (at_boot Tpm.Unavailable) with_key = (f1, Ok (SealedAs m)) /\
    exists f2, load_master_kek tpm_on "fresh" None r0 7 7 f1 = (f2, Ok key_a).
Proof.
  destruct (sealed_kek_starts no_device "0,7" None (at_boot Tpm.Unavailable) tpm_on with_key key_a) as (f1 & m & Hs & Hw & _ & Hall);
    [exact with_key_wf|exact r0_ok|exact toy_tpm_faithful|by vm_compute|reflexivity|reflexivity|].
  exists f1, m. split; [exact Hs|]. apply Hall; [exact Hw|intros q _; reflexivity|unfold u64_max; lia|by vm_compute].
Defined.

(** The key that was bound to the registers is afterwards readable with no passphrase. *)
Lemma rotation_unbinds_witness :
  exists f' r m, run_tpm no_device (TRotate workspace_kek None None None "") (at_boot Tpm.Unavailable) sealed_once.1 = (f', Ok (Rotated r)) /\
    load_meta (blob_dir workspace_kek) f' = Ok m /\ backend m = Software /\ pcr_list m = None /\
    stored_key workspace_kek "" f' = Ok key_a.
Proof.
  destruct (cmd_seal_spec no_device workspace_kek "0,7" None (at_boot Tpm.Unavailable) with_key key_a) as (f1 & m & Hs & Hw & _);
    [exact with_key_wf|exact r0_ok|exact toy_tpm_faithful|by vm_compute|].
  apply (rotation_unbinds no_device workspace_kek None None "" (at_boot Tpm.Unavailable) sealed_once.1 key_a).
  - unfold sealed_once. rewrite Hs. exact Hw.
  - exact r0_ok.
  - cbn. unfold u64_max. lia.
  - by vm_compute.
  - by vm_compute.
Defined.

Definition two_registers : gmap Z string := {[0 := "aa"; 7 := "bb"; 4 := "cc"]}.

Lemma capture_then_verify_witness :
  exists f' p, run_tpm no_device (TCapturePcrs "server" None) (at_boot (Tpm.Available two_registers)) with_key = (f', Ok (PolicySaved p)) /\
    (run_tpm no_device TVerifyPcrs (at_boot (Tpm.Available {[0 := "aa"; 7 := "bb"]})) f' = (f', Ok Satisfied) <->
     forall i, i ∈ dom (pcrs p) -> ({[0 := "aa"; 7 := "bb"]} : gmap Z string) !! i = two_registers !! i).
Proof.
  assert (exists f' p, run_tpm no_device (TCapturePcrs "server" None) (at_boot (Tpm.Available two_registers)) with_key = (f', Ok (PolicySaved p)))
    as (f' & p & Hr) by (do 2 eexists; vm_compute; reflexivity).
  exists f', p. split; [exact Hr|].
  exact (proj1 (capture_then_verify no_device "server" None (at_boot (Tpm.Available two_registers)) two_registers with_key f' p with_key_wf eq_refl Hr)
    (at_boot (Tpm.Available {[0 := "aa"; 7 := "bb"]})) {[0 := "aa"; 7 := "bb"]} eq_refl).
Defined.

End TpmDemo.
