(* ===== verification/TrustCli.v ===== *)
(** * Approvals and baselines from the command line

    Models [registry.rs] and [baseline.rs] of [maranode-cli/src/commands]: requests to the
    daemon without credentials, and the tokens and baselines that the commands sign,
    carry and store themselves. A command runs over the files and the requests sent so
    far; the other hosts answer as a function of them. A slice of a text between
    characters is a panic, as in [ChangeMgmt]. *)

From Stdlib Require Import ZArith Lia Ascii String.
From S2P Require Import Prelude Json Crypto Tokens Common Events Fs Instances UserDb Auth WorkspaceDb WorkspaceApi WorkspaceDemo AppState LegalHold IncidentApi ApiDemo ModelStore Chat Registry Lifecycle ChatDemo LoadDemo Http Tickets.
Open Scope string_scope.
Open Scope list_scope.
Open Scope Z_scope.

Module Cli.
Import Http.Http.

(** What the commands share. *)
Definition cli_state : Type := fs * list request.

Inductive cli_err :=
| Io (e : io_err) | Net (e : http_err) | Refused (status : Z) (text : string) | Panicked | BadFile
| NotVerified (e : Tokens.VerifyErr) | TokenMissing | BadKey | BadVector | NoVectors
| RegistryShape | NoBaseline | NoUrl | Failed.

Definition on_files {E A} (f : E -> cli_err) (m : SE fs E A) : SE cli_state cli_err A := fun s =>
  let r := m s.1 in ((r.1, s.2), map_err f r.2).
Definition on_net {A} (m : SE (list request) http_err A) : SE cli_state cli_err A := fun s =>
  let r := m s.2 in ((s.1, r.1), map_err Net r.2).
Definition files : SE cli_state cli_err fs := fun s => (s, Ok s.1).

(** A slice of twelve bytes for the terminal. *)
Definition shown (s : string) : SE cli_state cli_err string :=
  slift (ok_or (ChangeMgmt.short_sha s) Panicked).

Lemma files_bind {B} (k : fs -> SE cli_state cli_err B) s : sbind files k s = k s.1 s.
Proof. done. Qed.

Lemma slift_then {S E A B} (r : result E A) (k : A -> SE S E B) s :
  sbind (slift r) k s = match r with Ok x => k x s | Err e => (s, Err e) end.
Proof. by destruct r. Qed.

Section cli.
Context `{!JsonText}.

(** Answers that succeed are read as JSON; the text of others is shown. *)
Definition expect_json (w : world) (r : request) : SE cli_state cli_err json :=
  do! a := on_net (send w r) in
  if is_success a then slift (map_err Net (value_of a)) else sfail (Refused (status a) (content a)).

(** [error_for_status()?.json()]. *)
Definition checked_json (w : world) (r : request) : SE cli_state cli_err json :=
  do! a := on_net (send w r) in
  do! a := slift (map_err Net (error_for_status a)) in slift (map_err Net (value_of a)).
End cli.
End Cli.

(** ** registry.rs *)
Module RegistryCli.
Import Http.Http Cli Registry.TokenFile.

Inductive registry_command :=
| RSubmit (model sha256 by_ : string) (note : option string)
| RList
| RTokens
| RApprove (sha256 by_ : string) (note : option string) (expires_in_days : option Z)
| RRevoke (sha256 by_ : string)
| RExportToken (sha256 out : string)
| RImportToken (path : string)
| RVerifyToken (path : string)
| RUi
| RHooksTest.

Inductive registry_output :=
| Submitted (id short : string)
| Rows (l : list (string * string * string * string))
| ApprovedAs (token_id short by_ : string)
| RevokedSha (short : string)
| Exported (out : string)
| Imported (model short token_id : string)
| TokenOk (t : Tokens.Approval.ApprovalToken) (pubkey : string)
| Opened (url : string)
| Hooks (l : list (string * bool)).

Section registry.
Context `{!JsonText, !TimeText, !Base64, !Ed25519}.

Definition or_unknown (j : json) : string := default "?" (as_str j).

(** A line of a table; the digest is cut. *)
Definition row (fields : json -> string * string * string) (j : json) : SE cli_state cli_err (string * string * string * string) :=
  do! short := shown (or_unknown (jindex "model_sha256" j)) in
  let f := fields j in sret (f.1.1, short, f.1.2, f.2).

Fixpoint rows (fields : json -> string * string * string) (l : list json)
    : SE cli_state cli_err (list (string * string * string * string)) :=
  match l with
  | [] => sret []
  | j :: l => do! r := row fields j in do! rs := rows fields l in sret (r :: rs)
  end.

Definition table (w : world) (u : string) (fields : json -> string * string * string) : SE cli_state cli_err registry_output :=
  do! j := checked_json w (request_to "GET" u NoAuth [] NoBody) in
  do! l := slift (ok_or (as_arr j) (Net NotJson)) in
  do! rs := rows fields l in sret (Rows rs).

Definition submission_fields (j : json) : string * string * string :=
  (or_unknown (jindex "model_id" j), or_unknown (jindex "submitted_by" j), or_unknown (jindex "status" j)).
Definition token_fields_shown (j : json) : string * string * string :=
  (or_unknown (jindex "model_id" j), or_unknown (jindex "approved_by" j), or_unknown (jindex "approved_at" j)).

Definition submit_body (model sha256 by_ : string) (note : option string) : json :=
  to_value (JObj ([("model_id", JStr model); ("model_sha256", JStr sha256); ("submitted_by", JStr by_)]
                  ++ jskip "note" JStr note)).
Definition approve_body (by_ : string) (note : option string) (days : option Z) : json :=
  to_value (JObj ([("approved_by", JStr by_)] ++ jskip "note" JStr note ++ jskip "expires_in_days" JInt days)).

Definition cmd_submit (w : world) (host model sha256 by_ : string) (note : option string) : SE cli_state cli_err registry_output :=
  do! j := expect_json w (request_to "POST" (host +:+ "/v1/registry/submit") NoAuth [] (JsonBody (submit_body model sha256 by_ note))) in
  do! short := shown sha256 in
  sret (Submitted (or_unknown (jindex "submission_id" j)) short).

Definition cmd_approve (w : world) (host sha256 by_ : string) (note : option string) (days : option Z)
    : SE cli_state cli_err registry_output :=
  do! j := expect_json w (request_to "POST" (host +:+ "/v1/registry/approve/" +:+ sha256) NoAuth [] (JsonBody (approve_body by_ note days))) in
  do! short := shown sha256 in
  sret (ApprovedAs (or_unknown (jindex "token_id" j)) short by_).

Definition cmd_revoke (w : world) (host sha256 by_ : string) : SE cli_state cli_err registry_output :=
  do! a := on_net (send w (request_to "POST" (host +:+ "/v1/registry/revoke/" +:+ sha256) NoAuth []
                             (JsonBody (JObj [("revoked_by", JStr by_)])))) in
  if is_success a then do! short := shown sha256 in sret (RevokedSha short)
  else sfail (Refused (status a) (content a)).

Definition token_err (e : token_err) : cli_err :=
  match e with TIo x => Io x | TJson => BadFile | TKeyLength => BadKey end.

(** The own store of tokens, whose directory is there. *)
Definition cmd_export (sha256 out : string) (now : Z) : SE cli_state cli_err registry_output :=
  let src := Tokens.Approval.token_path Registry.tokens_dir sha256 in
  do! f := files in
  if negb (exists_ f src) then do! _ := shown sha256 in sfail TokenMissing else
  do! t := slift (map_err token_err (load src f)) in
  do! _ := slift (map_err NotVerified (Tokens.Approval.verify now t)) in
  do! _ := on_files Io (save Incidents.Written out t) in
  sret (Exported out).

Definition cmd_import (path : string) (now : Z) : SE cli_state cli_err registry_output :=
  do! f := files in
  do! t := slift (map_err token_err (load path f)) in
  do! _ := slift (map_err NotVerified (Tokens.Approval.verify now t)) in
  let dest := Tokens.Approval.token_path Registry.tokens_dir (Tokens.Approval.model_sha256 t) in
  do! _ := on_files Io (save Incidents.Written dest t) in
  do! short := shown (Tokens.Approval.model_sha256 t) in
  sret (Imported (Tokens.Approval.model_id t) short (Tokens.Approval.token_id t)).

(** [&pubkey[..16.min(len)]] of a key that verified. *)
Definition cmd_verify_token (path : string) (now : Z) : SE cli_state cli_err registry_output :=
  do! f := files in
  do! t := slift (map_err token_err (load path f)) in
  do! _ := slift (map_err NotVerified (Tokens.Approval.verify now t)) in
  sret (TokenOk t (stake 16 (Tokens.Approval.signer_pubkey t))).

Definition hooks_of (j : json) : list (string * bool) :=
  match as_obj j with Some m => (fun kv => (kv.1, default false (as_bool kv.2))) <$> m | None => [] end.

Definition cmd_hooks (w : world) (host : string) : SE cli_state cli_err registry_output :=
  do! j := expect_json w (request_to "POST" (host +:+ "/v1/registry/hooks/test") NoAuth [] NoBody) in
  sret (Hooks (hooks_of j)).

Definition run_registry_cli (w : world) (host : string) (now : Z) (c : registry_command) : SE cli_state cli_err registry_output :=
  match c with
  | RSubmit model sha256 by_ note => cmd_submit w host model sha256 by_ note
  | RList => table w (host +:+ "/v1/registry/pending") submission_fields
  | RTokens => table w (host +:+ "/v1/registry/tokens") token_fields_shown
  | RApprove sha256 by_ note days => cmd_approve w host sha256 by_ note days
  | RRevoke sha256 by_ => cmd_revoke w host sha256 by_
  | RExportToken sha256 out => cmd_export sha256 out now
  | RImportToken path => cmd_import path now
  | RVerifyToken path => cmd_verify_token path now
  | RUi => sret (Opened (host +:+ "/v1/registry/ui"))
  | RHooksTest => cmd_hooks w host
  end.

(** *** What an import does *)

Lemma shown_state {B} s (k : string -> B) st : (sbind (shown s) (fun x => sret (k x)) st).1 = st.
Proof. unfold shown. rewrite slift_then. by destruct (ok_or _ _). Qed.

Lemma import_steps w host path now f sent :
  (run_registry_cli w host now (RImportToken path) (f, sent)).1 =
  match load path f with
  | Ok t =>
    if is_ok (Tokens.Approval.verify now t)
    then ((save Incidents.Written (Tokens.Approval.token_path Registry.tokens_dir (Tokens.Approval.model_sha256 t)) t f).1, sent)
    else (f, sent)
  | Err _ => (f, sent)
  end.
Proof.
  cbn [run_registry_cli]. unfold cmd_import. rewrite files_bind, slift_then. cbn [fst].
  destruct (load path f) as [t|x]; cbn [map_err]; [|done]. rewrite slift_then.
  destruct (Tokens.Approval.verify now t) as [[]|x]; cbn [map_err is_ok]; [|done].
  unfold sbind at 1, on_files. cbn [fst snd save put swrite map_err]. apply shown_state.
Qed.

(** An import takes a token of any signer: it opens the gate of the digest that the token
    names and of no other, and also when the command then panics. A file that does not
    verify with the key it carries changes nothing. *)
Theorem import_spec w host path now f sent :
  fs_wf f ->
  let r := run_registry_cli w host now (RImportToken path) (f, sent) in
  match load path f with
  | Ok t =>
    if is_ok (Tokens.Approval.verify now t)
    then gate Registry.tokens_dir (Tokens.Approval.model_sha256 t) now r.1.1 = None /\ r.1.2 = sent /\
         forall sha n, sha <> Tokens.Approval.model_sha256 t ->
           gate Registry.tokens_dir sha n r.1.1 = gate Registry.tokens_dir sha n f
    else r.1 = (f, sent) /\ is_ok r.2 = false
  | Err _ => r.1 = (f, sent) /\ is_ok r.2 = false
  end.
Proof.
  intros Hf r. pose proof (import_steps w host path now f sent) as Hr. fold r in Hr.
  destruct (load path f) as [t|x] eqn:El.
  - destruct (Tokens.Approval.verify now t) as [[]|x] eqn:Ev; cbn [is_ok] in *.
    + rewrite Hr. cbn [fst snd]. split; [by apply gate_saved|]. split; [done|]. intros sha n Hne.
      apply gate_content; [done|by apply put_wf|]. apply put_other; [done|]. intros He. apply Hne.
      symmetry. by eapply Registry.token_path_inj.
    + split; [done|]. unfold r. cbn [run_registry_cli]. unfold cmd_import. rewrite files_bind, slift_then. cbn [fst].
      rewrite El. cbn [map_err]. rewrite slift_then, Ev. done.
  - split; [done|]. unfold r. cbn [run_registry_cli]. unfold cmd_import. rewrite files_bind, slift_then. cbn [fst]. by rewrite El.
Qed.

(** C35: A token that is exported at one host, carried as a file and imported at another opens
    there the gate of the digest that it names. *)
Theorem token_carried w host w' host' now now' sha out path f g sent sent' t :
  fs_wf f -> fs_wf g ->
  load (Tokens.Approval.token_path Registry.tokens_dir sha) f = Ok t ->
  Tokens.Approval.verify now t = Ok tt -> Tokens.Approval.verify now' t = Ok tt ->
  content_at g path = content_at (run_registry_cli w host now (RExportToken sha out) (f, sent)).1.1 out ->
  (run_registry_cli w host now (RExportToken sha out) (f, sent)).2 = Ok (Exported out) /\
  gate Registry.tokens_dir (Tokens.Approval.model_sha256 t) now'
    (run_registry_cli w' host' now' (RImportToken path) (g, sent')).1.1 = None.
Proof.
  intros Hf Hg Hl Hv Hv'.
  assert (Hx : run_registry_cli w host now (RExportToken sha out) (f, sent)
    = (((save Incidents.Written out t f).1, sent), Ok (Exported out))).
  { cbn [run_registry_cli]. unfold cmd_export. rewrite files_bind. cbn [fst].
    assert (exists_ f (Tokens.Approval.token_path Registry.tokens_dir sha) = true) as ->.
    { apply exists_content; [done|]. revert Hl. unfold load. rewrite read_content.
      destruct (content_at f _); [by eexists|done]. }
    cbn [negb]. rewrite slift_then, Hl. cbn [map_err]. rewrite slift_then, Hv. done. }
  rewrite Hx. cbn [fst snd]. intros Hc. split; [done|].
  assert (Ht : load path g = Ok t).
  { unfold load. rewrite read_content, Hc. cbn [save put swrite fst].
    rewrite content_at_std_write, decide_True by done. cbn [map_err rbind].
    rewrite json_parse_pretty by apply token_json_wf. cbn [ok_or rbind]. by rewrite token_round. }
  rewrite (import_steps w' host' path now' g sent'), Ht, Hv'. cbn [is_ok fst]. by apply gate_saved.
Qed.
End registry.
End RegistryCli.

(** ** baseline.rs *)
Module BaselineCli.
Import Http.Http Cli Tokens.Baseline BaselineFile.

Inductive baseline_command :=
| BCreate (sha256 model : string) (mismatches : Z) (output : string) (specs : list string)
| BSign (path : string) (output : option string)
| BVerify (path : string)
| BList
| BFetch (sha256 : string) (output_dir : option string)
| BCheck (model : string) (path : option string) (host : string).

(** A file of the list: what it says and whether its signature verifies, or that it does not read. *)
Inductive listed := ListedBaseline (model sha256 : string) (n : nat) (sig_ok : bool) | Unparsed (name : string).

Inductive baseline_output :=
| Created (n : nat) (output : string)
| Signed (dest pubkey : string)
| Valid (b : Baseline)
| NoDirectory
| Listing (l : list listed)
| Fetched (n : nat) (dest : string)
| CheckPassed (passed total : Z).

Section baseline.
Context `{!JsonText, !TimeText, !Base64, !Ed25519, !Sha256}.

Definition output_sha256 (text : string) : string := sha256_hex text.

(** The text after the first equals sign is what the model should answer. *)
Definition vector_from (s : string) : option TestVector :=
  some? p := split_once "="%char s in
  Some {| prompt := p.1; temperature := 0; seed := 42; max_tokens := 512; expected_sha256 := output_sha256 p.2 |}.

Definition unsigned (sha256 model : string) (mismatches now : Z) (vs : list TestVector) : Baseline := {|
  schema_version := 1; model_sha256 := sha256; model_id := model; created_at := now; vectors := vs;
  max_mismatches := mismatches; signer_pubkey := ""; signature := "" |}.

Definition saved (path : string) (b : Baseline) : SE cli_state cli_err unit := fun s => ((save path b s.1, s.2), Ok tt).

Definition cmd_create (sha256 model : string) (mismatches : Z) (output : string) (specs : list string) (now : Z)
    : SE cli_state cli_err baseline_output :=
  do! vs := slift (ok_or (all_some (vector_from <$> specs)) BadVector) in
  match vs with
  | [] => sfail NoVectors
  | _ => do! _ := saved output (unsigned sha256 model mismatches now vs) in sret (Created (List.length vs) output)
  end.

Definition loaded_file (path : string) : SE cli_state cli_err Baseline :=
  do! f := files in slift (ok_or (load path f) BadFile).

Definition signing_key_path : string := "baseline_signing.key".
Definition verifying_key_path : string := "baseline_signing.pub".

(** The key file is created with mode 0600. *)
Definition load_or_create_signing_key (fresh : string) : SE fs cli_err string := fun f =>
  if exists_ f signing_key_path then
    match read f signing_key_path with
    | Err e => (f, Err (Io e))
    | Ok b => (f, if Nat.eqb (String.length b) 32 then Ok b else Err BadKey)
    end
  else (std_write (write_file f signing_key_path 384 fresh) verifying_key_path (ed_public fresh), Ok fresh).

(** [get(..n)], or the whole text. *)
Definition cut (n : nat) (s : string) : string := if Lifecycle.cut_ok n s then stake n s else s.

Definition cmd_sign (path : string) (output : option string) (fresh : string) : SE cli_state cli_err baseline_output :=
  do! b := loaded_file path in
  do! key := on_files id (load_or_create_signing_key fresh) in
  let b := sign b key in
  let dest := default path output in
  do! _ := saved dest b in
  sret (Signed dest (cut 20 (signer_pubkey b))).

Definition cmd_verify (path : string) : SE cli_state cli_err baseline_output :=
  do! b := loaded_file path in
  do! _ := slift (map_err NotVerified (verify b)) in sret (Valid b).

(** A name below the directory that ends in the extension. *)
Definition baseline_child (name : string) : option string :=
  match child_of "baselines" name with
  | Some rest =>
    if Nat.leb 13 (String.length rest) && String.eqb (sdrop (String.length rest - 13) rest) ".mrn-baseline"
    then Some rest else None
  | None => None
  end.

Definition listed_file (name : string) (path : string) (f : fs) : listed :=
  match load path f with
  | Some b => ListedBaseline (model_id b) (cut 16 (model_sha256 b)) (List.length (vectors b)) (is_ok (verify b))
  | None => Unparsed name
  end.

Definition list_baselines (f : fs) : list listed :=
  omap (fun kv => (fun name => listed_file name kv.1 f) <$> baseline_child kv.1) (map_to_list (names f)).

(** [dir] tells whether the directory is there. *)
Definition cmd_list (dir : bool) : SE cli_state cli_err baseline_output :=
  if negb dir then sret NoDirectory else do! f := files in sret (Listing (list_baselines f)).

Definition registry_url : string := "https://baselines.maranode.ai/registry.json".

Definition get_request (u : string) : request := request_to "GET" u NoAuth [] NoBody.

(** The first entry whose digest starts with the text. *)
Definition entry_for (sha256 : string) (l : list json) : option json :=
  List.find (fun e => match as_str (jindex "model_sha256" e) with
                      | Some s => String.prefix sha256 s
                      | None => false
                      end) l.

Definition cmd_fetch (w : world) (sha256 : string) (output_dir : option string) : SE cli_state cli_err baseline_output :=
  do! registry := expect_json w (get_request registry_url) in
  do! entries := slift (ok_or (as_arr (jindex "baselines" registry)) RegistryShape) in
  do! entry := slift (ok_or (entry_for sha256 entries) NoBaseline) in
  do! u := slift (ok_or (as_str (jindex "url" entry)) NoUrl) in
  let full_sha256 := default sha256 (as_str (jindex "model_sha256" entry)) in
  do! a := on_net (send w (get_request u)) in
  do! b := slift (ok_or (json_parse (content a) ≫= baseline_of) BadFile) in
  do! _ := slift (map_err NotVerified (verify b)) in
  let dest := path_join (default "baselines" output_dir) (full_sha256 +:+ ".mrn-baseline") in
  do! _ := saved dest b in
  sret (Fetched (List.length (vectors b)) dest).

Definition check_body (model : string) (b : option Baseline) : json :=
  to_value (JObj (jskip "baseline" baseline_json b ++ [("model", JStr model)])).

Definition as_count (j : json) : Z := default 0 (as_uint u64_max j).

(** A failed check ends the process with a code of one. *)
Definition cmd_check (w : world) (model : string) (path : option string) (host : string) : SE cli_state cli_err baseline_output :=
  do! b := match path with Some p => do! b := loaded_file p in sret (Some b) | None => sret None end in
  do! j := expect_json w (request_to "POST" (trim_slashes host +:+ "/v1/baseline/check") NoAuth [] (JsonBody (check_body model b))) in
  let passed := as_count (jindex "vectors_passed" j) in
  let failed := as_count (jindex "vectors_failed" j) in
  if default false (as_bool (jindex "ok" j)) then sret (CheckPassed passed ((passed + failed) mod (u64_max + 1))) else sfail Failed.

Definition run_baseline (w : world) (now : Z) (fresh : string) (dir : bool) (c : baseline_command) : SE cli_state cli_err baseline_output :=
  match c with
  | BCreate sha256 model mismatches output specs => cmd_create sha256 model mismatches output specs now
  | BSign path output => cmd_sign path output fresh
  | BVerify path => cmd_verify path
  | BList => cmd_list dir
  | BFetch sha256 output_dir => cmd_fetch w sha256 output_dir
  | BCheck model path host => cmd_check w model path host
  end.

(** *** A baseline from its vectors to the check of the daemon *)

Lemma saved_bind {B} path b (k : unit -> SE cli_state cli_err B) s : sbind (saved path b) k s = k tt (save path b s.1, s.2).
Proof. done. Qed.

Lemma loaded_bind {B} path (k : Baseline -> SE cli_state cli_err B) s :
  sbind (loaded_file path) k s = match load path s.1 with Some b => k b s | None => (s, Err BadFile) end.
Proof. unfold loaded_file, sbind, files, slift. destruct (load path s.1); done. Qed.

Lemma vectors_wf specs vs : all_some (vector_from <$> specs) = Some vs -> forallb vector_wf vs = true /\ forallb json_wf (vector_json <$> vs) = true.
Proof.
  revert vs. induction specs as [|s specs IH]; intros vs; cbn [fmap list_fmap all_some]; [by intros [= <-]|].
  unfold vector_from at 1. destruct (split_once "="%char s) as [p|]; [|done].
  destruct (all_some _) as [r|]; [|done]. intros [= <-]. destruct (IH r eq_refl) as [Hv Hj]. cbn [forallb fmap list_fmap].
  rewrite Hv, Hj. done.
Qed.

Lemma unsigned_wf sha model mm now vs : uint_ok u64_max mm = true -> forallb vector_wf vs = true ->
  forallb json_wf (vector_json <$> vs) = true -> forall k, baseline_wf (unsigned sha model mm now vs) = true /\
  baseline_wf (sign (unsigned sha model mm now vs) k) = true.
Proof.
  intros Hm Hv Hj k. assert (Hz : json_wf (JInt mm) = true) by (by eapply uint_ok_wf; [|exact Hm]).
  unfold baseline_wf. cbn [sign unsigned schema_version max_mismatches vectors]. rewrite Hm, Hv.
  split; cbn; cbn in Hz; rewrite Hz; rewrite ?andb_true_r; exact Hj.
Qed.

(** The key that is there or the drawn one; other files stay. *)
Definition key_ok (f : fs) : Prop := forall b, content_at f signing_key_path = Some b -> String.length b = 32%nat.

Lemma trust_key_loaded fresh f : fs_wf f -> key_ok f -> String.length fresh = 32%nat ->
  exists f' k, load_or_create_signing_key fresh f = (f', Ok k) /\ fs_wf f' /\ String.length k = 32%nat.
Proof.
  intros Hf Hk Hl. unfold load_or_create_signing_key. destruct (exists_ f signing_key_path) eqn:E.
  - apply exists_content in E as [b Hb]; [|done]. exists f, b. rewrite read_content, Hb.
    rewrite (Hk b Hb). done.
  - eexists _, fresh. split; [reflexivity|]. split; [|exact Hl]. by apply std_write_wf, write_file_wf.
Qed.

Lemma sign_steps path fresh b f sent :
  fs_wf f -> key_ok f -> String.length fresh = 32%nat -> load path f = Some b ->
  (forall k, baseline_wf (sign b k) = true) ->
  exists f' k out, cmd_sign path None fresh (f, sent) = ((f', sent), Ok out) /\ String.length k = 32%nat /\
    load path f' = Some (sign b k).
Proof.
  intros Hf Hk Hl Hb Hw. destruct (trust_key_loaded fresh f Hf Hk Hl) as (f1 & k & He & Hf1 & Hlk).
  unfold cmd_sign. rewrite loaded_bind. cbn [fst]. rewrite Hb.
  unfold sbind at 1, on_files. cbn [fst snd]. rewrite He. cbn [fst snd map_err]. rewrite saved_bind. cbn [fst snd default].
  eexists _, k, _. split; [done|]. split; [done|]. by apply load_saved_baseline.
Qed.

Section answers.
Context `{!Chat.Chat.InferenceEngine}.

(** The engine answers every prompt with the text of its vector. *)
Definition answers (m : Common.Models.ModelId) (path : string) (specs : list string) : Prop :=
  forall i s p v, specs !! i = Some s -> split_once "="%char s = Some p -> vector_from s = Some v ->
    exists r, Chat.Chat.generate (Lifecycle.vector_request m path i v) = Ok r /\ Chat.Chat.rs_content r = p.2.

Lemma passed_all m path specs vs i0 :
  all_some (vector_from <$> specs) = Some vs ->
  (forall i s p v, specs !! i = Some s -> split_once "="%char s = Some p -> vector_from s = Some v ->
    exists r, Chat.Chat.generate (Lifecycle.vector_request m path (i0 + i) v) = Ok r /\ Chat.Chat.rs_content r = p.2) ->
  Lifecycle.count_passed m path i0 vs = List.length vs.
Proof.
  revert vs i0. induction specs as [|s specs IH]; intros vs i0; cbn [fmap list_fmap all_some]; [by intros [= <-]|].
  destruct (vector_from s) as [v|] eqn:Ev; [|done]. destruct (all_some _) as [r|] eqn:Er; [|done].
  intros [= <-] Ha. cbn [Lifecycle.count_passed List.length]. rewrite (IH r (S i0)); [|done|].
  - assert (Lifecycle.passes m path i0 v = true) as ->; [|done].
    pose proof Ev as Ev'. unfold vector_from in Ev'. destruct (split_once "="%char s) as [p|] eqn:Ep; [|done].
    injection Ev' as <-. destruct (Ha 0%nat s p _ eq_refl Ep Ev) as (x & Hx & Hc). rewrite Nat.add_0_r in Hx.
    unfold Lifecycle.passes. rewrite Hx, Hc. apply String.eqb_refl.
  - intros i t p w Ht Hp Hw. destruct (Ha (S i) t p w Ht Hp Hw) as (x & Hx & Hc). exists x. split; [|done].
    by replace (S i0 + i)%nat with (i0 + S i)%nat by lia.
Qed.

(** A baseline that is created and signed by the commands verifies; it has the vectors
    that were given, and a model that answers each prompt with its text passes all of
    them: the texts are cut at the first equals sign and hashed as the daemon hashes what
    a model answers. *)
Theorem created_baseline_passes w now fresh dir sha model mm output specs vs f sent :
  fs_wf f -> key_ok f -> String.length fresh = 32%nat -> uint_ok u64_max mm = true ->
  all_some (vector_from <$> specs) = Some vs -> vs <> [] -> output <> signing_key_path ->
  exists f1 f2 out b,
    run_baseline w now fresh dir (BCreate sha model mm output specs) (f, sent) = ((f1, sent), Ok (Created (List.length specs) output)) /\
    run_baseline w now fresh dir (BSign output None) (f1, sent) = ((f2, sent), Ok out) /\
    run_baseline w now fresh dir (BVerify output) (f2, sent) = ((f2, sent), Ok (Valid b)) /\
    vectors b = vs /\ model_sha256 b = sha /\ max_mismatches b = mm /\
    forall m path, answers m path specs -> Lifecycle.failures m path b = 0.
Proof.
  intros Hf Hk Hl Hm Hv Hne Ho. destruct (vectors_wf _ _ Hv) as [Hw Hj].
  set (u := unsigned sha model mm now vs).
  assert (forall k, baseline_wf u = true /\ baseline_wf (sign u k) = true) as Hu by (intros k; by apply unsigned_wf).
  destruct (sign_steps output fresh u (save output u f) sent) as (f2 & k & out & Hs & Hlk & Hload).
  { by apply std_write_wf. }
  { intros b. unfold save. rewrite content_at_std_write, decide_False by done. apply Hk. }
  { done. }
  { by apply load_saved_baseline; [|apply (Hu "")]. }
  { intros k. apply Hu. }
  exists (save output u f), f2, out, (sign u k).
  assert (List.length specs = List.length vs) as Hlen.
  { clear - Hv. revert vs Hv. induction specs as [|s l IH]; intros vs; cbn [fmap list_fmap all_some]; [by intros [= <-]|].
    destruct (vector_from s); [|done]. destruct (all_some _) as [r|]; [|done]. intros [= <-]. cbn. f_equal. by apply IH. }
  split.
  { cbn [run_baseline]. unfold cmd_create. rewrite slift_then, Hv. cbn [ok_or]. rewrite Hlen. by destruct vs. }
  split; [exact Hs|]. split.
  { cbn [run_baseline]. unfold cmd_verify. rewrite loaded_bind. cbn [fst]. rewrite Hload, slift_then.
    unfold verify at 1. cbn [sign signer_pubkey signature].
    match goal with |- context [Tokens.verify_message _ _ ?m] => rewrite (Tokens.verify_message_signed k m) by done end. done. }
  split; [done|]. split; [done|]. split; [done|].
  intros m path Ha. unfold Lifecycle.failures. change (vectors (sign u k)) with vs.
  rewrite (passed_all m path specs vs 0 Hv Ha). unfold Chat.Chat.len. lia.
Qed.
End answers.

(** *** What a fetch stores *)

Lemma on_net_bind {A B} (m : SE (list request) http_err A) (k : A -> SE cli_state cli_err B) s :
  sbind (on_net m) k s = match (m s.2).2 with Ok x => k x (s.1, (m s.2).1) | Err e => ((s.1, (m s.2).1), Err (Net e)) end.
Proof. unfold on_net, sbind. destruct (m s.2) as [x [y|e]]; reflexivity. Qed.

Lemma expect_json_sent w r f sent : exists x, expect_json w r (f, sent) = ((f, sent ++ [r]), x).
Proof.
  unfold expect_json. rewrite on_net_bind. unfold send. cbn [fst snd].
  destruct (w sent r) as [a|]; cbn [ok_or]; [|by eexists]. unfold slift, sfail. case_match; by eexists.
Qed.

(** What a fetch leaves: no change, or a baseline that verifies, under the name that the
    registry gave; only plain requests are sent. *)
Definition fetch_outcome (sha : string) (d : option string) (f : fs) (sent : list request)
    (r : cli_state * result cli_err baseline_output) : Prop :=
  match r.2 with
  | Ok out => exists name b u, out = Fetched (List.length (vectors b)) (path_join (default "baselines" d) (name +:+ ".mrn-baseline")) /\
      String.prefix sha name = true /\ verify b = Ok tt /\
      r.1 = (save (path_join (default "baselines" d) (name +:+ ".mrn-baseline")) b f, sent ++ [get_request registry_url; get_request u])
  | Err _ => r.1.1 = f /\ exists us, (List.length us <= 2)%nat /\ r.1.2 = sent ++ (get_request <$> us)
  end.

(** A fetch stores nothing but a baseline whose signature verifies with the key it carries;
    it does not look for which model the baseline was made. *)
Theorem fetch_spec w now fresh dir sha d f sent :
  fetch_outcome sha d f sent (run_baseline w now fresh dir (BFetch sha d) (f, sent)).
Proof.
  cbn [run_baseline]. unfold cmd_fetch, sbind at 1.
  assert (forall x, fetch_outcome sha d f sent ((f, sent ++ [get_request registry_url]), Err x)) as Hone.
  { intros x. split; [done|]. exists [registry_url]. split; [cbn; lia|done]. }
  destruct (expect_json_sent w (get_request registry_url) f sent) as ([j|x] & ->).
  2:{ by apply Hone. }
  rewrite slift_then. destruct (as_arr _) as [l|]; cbn [ok_or]; [|by apply Hone].
  rewrite slift_then. destruct (entry_for sha l) as [e|] eqn:Ee; cbn [ok_or]; [|by apply Hone].
  rewrite slift_then. destruct (as_str (jindex "url" e)) as [u|]; cbn [ok_or]; [|by apply Hone].
  apply find_some in Ee as [_ He]. destruct (as_str (jindex "model_sha256" e)) as [s|]; [|done]. cbn [default].
  rewrite on_net_bind. unfold send. cbn [fst snd]. rewrite <- app_assoc. cbn [app].
  assert (exists us, (List.length us <= 2)%nat /\ sent ++ [get_request registry_url; get_request u] = sent ++ (get_request <$> us)) as Hus.
  { exists [registry_url; u]. split; [cbn; lia|done]. }
  destruct (w _ (get_request u)) as [a|]; cbn [ok_or]; [|done].
  rewrite slift_then. destruct (json_parse (content a) ≫= baseline_of) as [b|]; cbn [ok_or]; [|done].
  rewrite slift_then. destruct (verify b) as [[]|x] eqn:Ev; cbn [map_err]; [|done].
  rewrite saved_bind. cbn [fst snd]. by exists s, b, u.
Qed.
End baseline.
End BaselineCli.

(** ** On concrete data *)
Module TrustDemo.
Import Http.Http Cli ChatDemo.ChatDemo.

Definition seed : string := "0123456789abcdef0123456789abcdef".

(** A token of nobody in particular. *)
Definition token : Tokens.Approval.ApprovalToken := Tokens.Approval.sign {|
  Tokens.Approval.token_id := "t-1"; Tokens.Approval.model_id := "m:1"; Tokens.Approval.model_sha256 := "abcd";
  Tokens.Approval.approved_by := "eve"; Tokens.Approval.approved_at := 5; Tokens.Approval.expires_at := None;
  Tokens.Approval.note := None; Tokens.Approval.signer_pubkey := ""; Tokens.Approval.signature := "" |} seed.

Definition offline : world := fun _ _ => None.

Definition stick : fs := (TokenFile.save Incidents.Written "usb/t.mrn-token" token fs_empty).1.
Definition issued : fs :=
  (TokenFile.save Incidents.Written (Tokens.Approval.token_path Registry.Registry.tokens_dir "abcd") token fs_empty).1.

Lemma import_spec_witness :
  TokenFile.gate Registry.Registry.tokens_dir "abcd" 9 stick = Some TokenFile.NoToken /\
  TokenFile.gate Registry.Registry.tokens_dir "abcd" 9
    (RegistryCli.run_registry_cli offline "h" 9 (RegistryCli.RImportToken "usb/t.mrn-token") (stick, [])).1.1 = None.
Proof.
  split; [by vm_compute|].
  pose proof (RegistryCli.import_spec offline "h" "usb/t.mrn-token" 9 stick [] ltac:(apply TokenFile.put_wf, fs_wf_empty)) as Hr.
  revert Hr. cbv zeta. replace (TokenFile.load "usb/t.mrn-token" stick) with (Ok (E := TokenFile.token_err) token) by (vm_compute; reflexivity).
  replace (is_ok (Tokens.Approval.verify 9 token)) with true by (vm_compute; reflexivity). intros (Hg & _). exact Hg.
Defined.

Lemma token_carried_witness :
  (RegistryCli.run_registry_cli offline "h" 9 (RegistryCli.RExportToken "abcd" "usb/t.mrn-token") (issued, [])).2
    = Ok (RegistryCli.Exported "usb/t.mrn-token") /\
  TokenFile.gate Registry.Registry.tokens_dir "abcd" 9
    (RegistryCli.run_registry_cli offline "h2" 9 (RegistryCli.RImportToken "usb/t.mrn-token") (stick, [])).1.1 = None.
Proof.
  apply (RegistryCli.token_carried offline "h" offline "h2" 9 9 "abcd" "usb/t.mrn-token" "usb/t.mrn-token" issued stick [] [] token);
    [apply TokenFile.put_wf, fs_wf_empty|apply TokenFile.put_wf, fs_wf_empty|vm_compute; reflexivity..].
Defined.

Definition specs : list string := ["Say hi=hello"; "1+1=2=two"].

(** The second prompt is "1+1": the text is cut at the first sign. *)
Example cut_at_first :
  option_map (List.map Tokens.Baseline.prompt) (all_some (List.map BaselineCli.vector_from specs)) = Some ["Say hi"; "1+1"].
Proof. by vm_compute. Qed.

Lemma created_baseline_passes_witness :
  exists f1 f2 out b,
    BaselineCli.run_baseline offline 5 seed true (BaselineCli.BCreate "abcd" "m:1" 0 "b.json" specs) (fs_empty, [])
      = ((f1, []), Ok (BaselineCli.Created 2 "b.json")) /\
    BaselineCli.run_baseline offline 5 seed true (BaselineCli.BSign "b.json" None) (f1, []) = ((f2, []), Ok out) /\
    BaselineCli.run_baseline offline 5 seed true (BaselineCli.BVerify "b.json") (f2, []) = ((f2, []), Ok (BaselineCli.Valid b)).
Proof.
  destruct (BaselineCli.created_baseline_passes offline 5 seed true "abcd" "m:1" 0 "b.json" specs
    (default [] (all_some (BaselineCli.vector_from <$> specs))) fs_empty []) as (f1 & f2 & out & b & H1 & H2 & H3 & _);
    [apply fs_wf_empty|intros b Hb; discriminate Hb|reflexivity|reflexivity|vm_compute; reflexivity|vm_compute; discriminate|discriminate|].
  exists f1, f2, out, b. done.
Defined.

End TrustDemo.
