(* ===== verification/ChatCli.v ===== *)
(** * An answer as it streams: the events of the daemon and the chat command

    Models the streams of [maranode-api/src/routes/chat.rs], with the chunks of
    [openai.rs], and [maranode-cli/src/commands/chat.rs]: the request, the answer that is an
    error, and the loop over the chunks that arrive, whose borders are arbitrary. On the
    wire an event is its data in one line, then an empty line. The theorems put both ends
    together. *)

From Stdlib Require Import ZArith Lia Ascii String.
From S2P Require Import Prelude Json Crypto Common Fs Instances UserDb Auth AppState RagStore Chat ChatDemo Http.
Open Scope string_scope.
Open Scope list_scope.
Open Scope Z_scope.

(** ** The daemon's side *)
Module Sse.
Import Chat.Chat RagStore.RagStore.

Section sse.
Context `{!JsonText}.

(** [RagSource]; a score is an [f32]. *)
Definition source_json (i : nat) (c : ScoredChunk) : json :=
  JObj [("index", JInt (Z.of_nat i)); ("source", JStr (source c)); ("score", JFloat (score c)); ("text", JStr (s_text c));
        ("title", jopt JStr (s_title c)); ("author", jopt JStr (s_author c)); ("page_number", JInt (s_page c))].

Definition sources_json (l : list ScoredChunk) : json := JArr (imap (fun i c => source_json (S i) c) l).

(** [make_chunk_event]. *)
Definition chunk_json (id model : string) (created : Z) (role content finish : option string) (sources : option (list ScoredChunk)) : json :=
  JObj ([("id", JStr id); ("object", JStr "chat.completion.chunk"); ("created", JInt created); ("model", JStr model);
         ("choices", JArr [JObj [("index", JInt 0); ("delta", JObj (jskip "role" JStr role ++ jskip "content" JStr content));
                                 ("finish_reason", jopt JStr finish)]])]
        ++ jskip "sources" sources_json sources).

(** The event of a token, or of an error, which is the same text for every error. *)
Definition token_data (id model : string) (created : Z) (sources : option (list ScoredChunk)) (t : result string Token) : string :=
  match t with
  | Ok t =>
    json_print (chunk_json id model created None (if is_last t then None else Some (t_text t))
      (if is_last t then Some "stop" else None) (if is_last t then sources else None))
  | Err _ => "[ERROR] inference failed"
  end.

Definition done_data : string := "[DONE]".

(** The data of the events of an answer that streams. *)
Definition stream_data (id model : string) (created : Z) (toks : list (result string Token)) (sources : option (list ScoredChunk)) : list string :=
  json_print (chunk_json id model created (Some "assistant") (Some "") None None)
    :: (token_data id model created sources <$> toks) ++ [done_data].

(** The stream that says that there is nothing in the documents. *)
Definition no_answer_text : string := "This information is not in the provided documents.".
Definition no_answer_data (id model : string) (created : Z) : list string :=
  [json_print (chunk_json id model created (Some "assistant") (Some "") None None);
   json_print (chunk_json id model created None (Some no_answer_text) None None);
   json_print (chunk_json id model created None None (Some "stop") (Some []));
   done_data].

(** On the wire. *)
Definition event_lines (d : string) : list string := ["data: " +:+ d; EmptyString].
Definition wire (ds : list string) : string := unlines (List.concat (event_lines <$> ds)).
End sse.
End Sse.

(** ** The command *)
Module ChatClient.
Import Http.Http.

(** [String::from_utf8_lossy]: each longest start of a character that is not finished,
    and each byte that starts none, becomes U+FFFD. *)
Definition replacement : string := String (chr 239) (String (chr 191) (String (chr 189) EmptyString)).

Fixpoint lossy (s : string) : string :=
  match s with
  | EmptyString => EmptyString
  | String a r =>
    if code a <? 128 then String a (lossy r) else
    match r with
    | EmptyString => replacement
    | String b r2 =>
      if in_range 194 223 a && utf8_cont b then String a (String b (lossy r2)) else
      if utf8_lead3 a b then
        match r2 with
        | EmptyString => replacement
        | String c r3 => if utf8_cont c then String a (String b (String c (lossy r3))) else replacement +:+ lossy r2
        end
      else if utf8_lead4 a b then
        match r2 with
        | EmptyString => replacement
        | String c r3 =>
          if utf8_cont c then
            match r3 with
            | EmptyString => replacement
            | String d r4 => if utf8_cont d then String a (String b (String c (String d (lossy r4)))) else replacement +:+ lossy r3
            end
          else replacement +:+ lossy r2
        end
      else replacement +:+ lossy r
    end
  end.

(** [trim_end_matches] of a carriage return. *)
Fixpoint trim_cr (s : string) : string :=
  match s with
  | EmptyString => EmptyString
  | String c r =>
    match trim_cr r with
    | EmptyString => if Ascii.eqb c CR then EmptyString else String c EmptyString
    | t => String c t
    end
  end.

(** [v[0]] of a value. *)
Definition jfirst (j : json) : json := match j with JArr (x :: _) => x | _ => JNull end.

Section client.
Context `{!JsonText}.

Definition chat_body (prompt model : string) (use_rag : bool) (collection : option string) : json :=
  to_value (JObj ([("model", JStr model); ("messages", JArr [JObj [("role", JStr "user"); ("content", JStr prompt)]]);
                   ("stream", JBool true)]
                  ++ (if use_rag then [("rag", JObj (jskip "collection" JStr collection))] else []))).

Definition chat_request (host prompt model : string) (use_rag : bool) (collection : option string) : request :=
  request_to "POST" (trim_slashes host +:+ "/v1/chat/completions") NoAuth [] (JsonBody (chat_body prompt model use_rag collection)).

(** The message of an answer that is an error: the member [error] when it is a text, or the body. *)
Definition error_text (body : string) : string :=
  default body (some? j := json_parse body in as_str (jindex "error" (to_value j))).

(** What has been read and printed. *)
Record view := { buf : string; printed : string; sources : option json }.

Definition start : view := {| buf := ""; printed := ""; sources := None |}.

Definition on_value (v : json) (p : string * option json) : string * option json :=
  let content := as_str (jindex "content" (jindex "delta" (jfirst (jindex "choices" v)))) in
  let s := jindex "sources" v in
  (p.1 +:+ default "" content, match s with JArr _ => Some s | _ => p.2 end).

(** A line; [None] for the end of the stream. *)
Definition on_line (l : string) (p : string * option json) : option (string * option json) :=
  match Auth.Auth.strip_prefix "data: " (trim_cr l) with
  | Some d =>
    if String.eqb d "[DONE]" then None else
    match json_parse d with Some j => Some (on_value (to_value j) p) | None => Some p end
  | None => Some p
  end.

(** The inner loop: it takes a line while there is one, and stops at the end of the
    stream, where the outer loop goes on. *)
Fixpoint drain (fuel : nat) (v : view) : view :=
  match fuel with
  | O => v
  | S fuel =>
    match split_once LF (buf v) with
    | None => v
    | Some (l, rest) =>
      match on_line l (printed v, sources v) with
      | Some p => drain fuel {| buf := rest; printed := p.1; sources := p.2 |}
      | None => {| buf := rest; printed := printed v; sources := sources v |}
      end
    end
  end.

(** Every line takes at least one byte from the buffer. *)
Definition on_chunk (v : view) (chunk : string) : view :=
  let b := buf v +:+ lossy chunk in
  drain (S (String.length b)) {| buf := b; printed := printed v; sources := sources v |}.

Definition read_stream (chunks : list string) : view := fold_left on_chunk chunks start.

(** The lines below the answer; there are none for an empty list. *)
Definition source_line (j : json) : Z * string * json :=
  (default 0 (as_uint u64_max (jindex "index" j)), default "?" (as_str (jindex "source" j)), jindex "score" j).
Definition source_lines (v : view) : list (Z * string * json) :=
  match sources v with Some (JArr l) => source_line <$> l | _ => [] end.

(** The whole command over an answer with its status and the chunks of its body: an error
    with its text, or what is printed. A connection that breaks off ends it with an error. *)
Definition run_chat (status : Z) (chunks : list string) (broken : bool) : result string (string * list (Z * string * json)) :=
  if (200 <=? status) && (status <=? 299) then
    let v := read_stream chunks in
    if broken then Err "connection" else Ok (printed v +:+ nl, source_lines v)
  else Err (error_text (lossy (String.concat "" chunks))).

(** *** Chunks of whole characters *)

Lemma lossy_aux n s : (String.length s <= n)%nat -> utf8_ok s = true -> lossy s = s.
Proof.
  revert s. induction n as [|n IH]; intros s Hn Hs.
  { destruct s; [done|simpl in Hn; lia]. }
  destruct s as [|a s]; [done|]. cbn [utf8_ok lossy] in *.
  destruct (code a <? 128); [by rewrite IH by (simpl in Hn; (lia || done))|].
  destruct s as [|b s]; [done|].
  destruct (in_range 194 223 a && utf8_cont b); [by rewrite IH by (simpl in Hn; (lia || done))|].
  destruct s as [|c s]; [done|].
  destruct (utf8_lead3 a b && utf8_cont c) eqn:E3.
  { apply andb_true_iff in E3 as [-> ->]. by rewrite IH by (simpl in Hn; (lia || done)). }
  destruct s as [|d s]; [done|].
  destruct (utf8_lead4 a b && utf8_cont c && utf8_cont d) eqn:E4; [|done].
  apply andb_true_iff in E4 as [[H4 Hc]%andb_true_iff Hd]. rewrite H4, Hc, Hd.
  destruct (utf8_lead3 a b) eqn:E; [by rewrite Hc in E3|]. by rewrite IH by (simpl in Hn; (lia || done)).
Qed.

Lemma lossy_ok s : utf8_ok s = true -> lossy s = s.
Proof. by apply (lossy_aux (String.length s)). Qed.

Lemma trim_cr_id s : has_char CR s = false -> trim_cr s = s.
Proof.
  induction s as [|c s IH]; [done|]. cbn [has_char trim_cr]. intros [Hc Hs]%orb_false_iff. rewrite (IH Hs), Hc. by destruct s.
Qed.

(** What lines do, one after the other, without a stop. *)
Definition through (ls : list string) (p : string * option json) : string * option json :=
  fold_left (fun p l => default p (on_line l p)) ls p.

Lemma through_app a b p : through (a ++ b) p = through b (through a p).
Proof. apply fold_left_app. Qed.

Definition plain (l : string) : Prop := has_char LF l = false.
Definition is_end (l : string) : Prop := forall p, on_line l p = None.
Definition no_end (l : string) : Prop := forall p, is_Some (on_line l p).

(** Between two chunks: the first [n] lines are done, the buffer has what came after them,
    and no whole line waits there unless the end of the stream is past. *)
Definition between (ls : list string) (last n : nat) (v : view) (s : string) : Prop :=
  (n <= List.length ls)%nat /\ buf v +:+ s = unlines (drop n ls) /\
  (printed v, sources v) = through (take n ls) ("", None) /\
  (has_char LF (buf v) = false \/ (last < n)%nat).

Lemma split_none c s : split_once c s = None -> has_char c s = false.
Proof.
  induction s as [|d s IH]; [done|]. cbn [split_once has_char]. destruct (Ascii.eqb d c); [done|].
  destruct (split_once c s) as [[]|]; [done|]. by apply IH.
Qed.

Lemma unlines_cons l ls : unlines (l :: ls) = l +:+ String LF (unlines ls).
Proof. done. Qed.

Lemma first_line a r s l ls : has_char LF a = false -> plain l -> (a +:+ String LF r) +:+ s = unlines (l :: ls) ->
  a = l /\ r +:+ s = unlines ls.
Proof.
  intros Ha Hl He. rewrite unlines_cons, string_app_assoc in He.
  assert (split_once LF (a +:+ (String LF r +:+ s)) = split_once LF (l +:+ String LF (unlines ls))) as Hs by by rewrite He.
  change (String LF r +:+ s) with (String LF (r +:+ s)) in Hs. rewrite !split_once_app in Hs by done. by injection Hs.
Qed.

(** [ls] up to [last] is no end, line [last] is one, and the lines after it do nothing. *)
Definition stream_shape (ls : list string) (last : nat) : Prop :=
  Forall plain ls /\
  (forall i l, ls !! i = Some l -> if decide (i = last) then is_end l else no_end l) /\
  (forall i l p, ls !! i = Some l -> (last < i)%nat -> on_line l p = Some p).

Lemma drain_between ls last : stream_shape ls last -> forall fuel v s n,
  (String.length (buf v) < fuel)%nat -> (n <= List.length ls)%nat ->
  buf v +:+ s = unlines (drop n ls) -> (printed v, sources v) = through (take n ls) ("", None) ->
  exists m, between ls last m (drain fuel v) s.
Proof.
  intros (Hp & He & Ht). induction fuel as [|fuel IH]; intros v s n Hf Hn Hb Hv; [lia|].
  cbn [drain]. destruct (split_once LF (buf v)) as [[l r]|] eqn:Es.
  2:{ exists n. split; [done|]. split; [done|]. split; [done|]. left. by apply split_none. }
  apply split_once_some in Es as [Eb Hl]. rewrite Eb in Hb.
  destruct (drop n ls) as [|x rest] eqn:Ed; [by destruct l|].
  assert (ls !! n = Some x) as Hx by by rewrite <- (Nat.add_0_r n), <- lookup_drop, Ed.
  assert (drop (S n) ls = rest) as Er by by rewrite <- Nat.add_1_r, <- drop_drop, Ed.
  assert (n < List.length ls)%nat as Hlt by by apply (lookup_lt_Some _ _ _ Hx).
  rewrite Forall_lookup in Hp. destruct (first_line l r s x rest Hl (Hp _ _ Hx) Hb) as [-> Hr].
  assert (take (S n) ls = take n ls ++ [x]) as Etk by by apply take_S_r.
  specialize (He n x Hx). destruct (decide (n = last)) as [->|Hne].
  - rewrite (He (printed v, sources v)). exists (S last). split; [lia|]. cbn [buf printed sources]. rewrite Er. split; [done|].
    split; [|right; lia]. rewrite Etk, through_app, <- Hv. unfold through. cbn [fold_left]. by rewrite He.
  - destruct (He (printed v, sources v)) as [q Hq]. rewrite Hq. apply (IH _ s (S n)); cbn [buf printed sources].
    + rewrite Eb, string_length_app in Hf. cbn [String.length] in Hf. lia.
    + lia.
    + by rewrite Er.
    + rewrite Etk, through_app, <- Hv. unfold through. cbn [fold_left]. rewrite Hq. by destruct q.
Qed.

Lemma chunks_between ls last cs : stream_shape ls last -> Forall (fun c => utf8_ok c = true) cs -> forall v s n,
  between ls last n v (String.concat "" cs +:+ s) -> exists m, between ls last m (fold_left on_chunk cs v) s.
Proof.
  intros Hs Hu. induction Hu as [|c cs Hc Hcs IH]; intros v s n Hb; cbn [fold_left]; [by exists n|].
  destruct Hb as (Hn & Hb & Hv & _). rewrite concat_cons, string_app_assoc in Hb.
  unfold on_chunk. rewrite (lossy_ok c Hc).
  set (w := {| buf := buf v +:+ c; printed := printed v; sources := sources v |}).
  destruct (drain_between ls last Hs (S (String.length (buf v +:+ c))) w (String.concat "" cs +:+ s) n) as [m Hm];
    [cbn; lia|done|cbn [buf w]; by rewrite string_app_assoc|done|]. by eapply IH.
Qed.

(** At the end of the bytes all lines up to the end of the stream have had their effect. *)
Lemma read_through ls last cs :
  stream_shape ls last -> (last < List.length ls)%nat -> Forall (fun c => utf8_ok c = true) cs -> String.concat "" cs = unlines ls ->
  (printed (read_stream cs), sources (read_stream cs)) = through ls ("", None).
Proof.
  intros Hs Hlt Hu He. destruct (chunks_between ls last cs Hs Hu start "" 0) as (m & Hm & Hb & Hv & Hd).
  { split; [lia|]. split; [by rewrite string_app_nil_r|]. by split; [|left]. }
  fold (read_stream cs) in *. rewrite string_app_nil_r in Hb. rewrite Hv.
  rewrite <- (take_drop m ls) at 2. rewrite through_app.
  assert (m = List.length ls \/ (last < m)%nat) as [->|Hlm].
  { destruct Hd as [Hd|Hd]; [left|by right]. destruct (drop m ls) as [|x r] eqn:Ed.
    - apply (f_equal List.length) in Ed. rewrite length_drop in Ed. cbn in Ed. lia.
    - rewrite Hb, unlines_cons, has_char_app in Hd. cbn [has_char] in Hd. rewrite Ascii.eqb_refl in Hd. by rewrite orb_true_r in Hd. }
  - by rewrite drop_all.
  - destruct Hs as (_ & _ & Ht). generalize (through (take m ls) ("", None)). intros p.
    assert (forall l, l ∈ drop m ls -> forall p, on_line l p = Some p) as Hall.
    { intros l Hl q. apply list_elem_of_lookup in Hl as [i Hi]. rewrite lookup_drop in Hi. eapply Ht; [done|lia]. }
    clear -Hall. revert p. induction (drop m ls) as [|l r IH]; intros p; [done|]. unfold through. cbn [fold_left].
    rewrite (Hall l) by by left. apply IH. intros x Hx. apply Hall. by right.
Qed.

(** *** The lines of a stream *)

Lemma on_line_data d p : has_char CR d = false ->
  on_line ("data: " +:+ d) p =
  if String.eqb d "[DONE]" then None else
  match json_parse d with Some j => Some (on_value (to_value j) p) | None => Some p end.
Proof. intros Hd. unfold on_line. rewrite trim_cr_id; [done|]. exact Hd. Qed.

Definition lines_of (ds : list string) : list string := List.concat (Sse.event_lines <$> ds).

Lemma lines_of_cons d ds : lines_of (d :: ds) = ("data: " +:+ d) :: EmptyString :: lines_of ds.
Proof. done. Qed.

Lemma length_lines ds : List.length (lines_of ds) = (2 * List.length ds)%nat.
Proof. induction ds as [|d ds IH]; [done|]. rewrite lines_of_cons. cbn [List.length]. rewrite IH. lia. Qed.

Definition data_ok (d : string) : Prop := one_line d = true /\ d <> "[DONE]".

Lemma data_line d : data_ok d -> plain ("data: " +:+ d) /\ no_end ("data: " +:+ d).
Proof.
  intros [[Hl Hc]%andb_true_iff Hn]. apply negb_true_iff in Hl, Hc. split; [exact Hl|].
  intros p. rewrite on_line_data by done. destruct (String.eqb_spec d "[DONE]"); [done|]. by destruct (json_parse d).
Qed.

Lemma wire_shape ds : Forall data_ok ds -> stream_shape (lines_of (ds ++ [Sse.done_data])) (2 * List.length ds).
Proof.
  induction 1 as [|d ds Hd Hds IH].
  - split; [repeat constructor|]. split.
    + intros [|[|[|i]]] l Hi; simplify_eq/=; [done|by eexists].
    + intros [|[|[|i]]] l p Hi Hlt; simplify_eq/=; [lia|done].
  - destruct IH as (Hp & He & Ht). destruct (data_line d Hd) as [H1' H2']. rewrite <- app_comm_cons, lines_of_cons. split.
    + by repeat constructor.
    + split.
      * intros [|[|i]] l Hi; cbn in Hi; simplify_eq.
        { rewrite decide_False by (cbn; lia). done. }
        { rewrite decide_False by (cbn; lia). by eexists. }
        specialize (He i l Hi). cbn [List.length].
        destruct (decide (i = 2 * List.length ds)%nat); case_decide; by (done || lia).
      * intros [|[|i]] l p Hi Hlt; cbn in Hi; simplify_eq; [lia|cbn in Hlt; lia|]. apply (Ht i l p Hi). cbn in Hlt. lia.
Qed.

(** Any stream of events that ends as the daemon's do, however its bytes are cut between
    characters: the effect of its data, one after the other. *)
Lemma reads_wire ds cs : Forall data_ok ds -> Forall (fun c => utf8_ok c = true) cs ->
  String.concat "" cs = Sse.wire (ds ++ [Sse.done_data]) ->
  (printed (read_stream cs), sources (read_stream cs)) = fold_left (fun p d => default p (on_line ("data: " +:+ d) p)) ds ("", None).
Proof.
  intros Hd Hu He. rewrite (read_through (lines_of (ds ++ [Sse.done_data])) (2 * List.length ds) cs); [|by apply wire_shape| |done|done].
  2:{ rewrite length_lines, length_app. cbn. lia. }
  clear. generalize ("", None : option json). induction ds as [|d ds IH]; intros p; [done|].
  rewrite <- app_comm_cons, lines_of_cons. unfold through. cbn [fold_left]. apply IH.
Qed.

(** *** The answer *)

(** What a token adds to what is printed: its text, unless it is the one that ends the
    answer, whose text [routes/chat.rs] leaves out of its event. *)
Definition said (t : result string Chat.Chat.Token) : string :=
  match t with Ok t => if Chat.Chat.is_last t then "" else Chat.Chat.t_text t | Err _ => "" end.
Definition ends (t : result string Chat.Chat.Token) : bool := match t with Ok t => Chat.Chat.is_last t | Err _ => false end.

Lemma chunk_line id model created role content finish src p :
  json_wf (Sse.chunk_json id model created role content finish src) = true ->
  data_ok (json_print (Sse.chunk_json id model created role content finish src)) /\
  on_line ("data: " +:+ json_print (Sse.chunk_json id model created role content finish src)) p =
    Some (p.1 +:+ default "" content, match src with Some l => Some (to_value (Sse.sources_json l)) | None => p.2 end).
Proof.
  intros Hw. set (j := Sse.chunk_json _ _ _ _ _ _ _) in *.
  assert (json_print j <> "[DONE]") as Hn.
  { assert (exists m, j = JObj m) as [m Hm] by (by eexists). rewrite Hm. destruct (json_brace m) as [s Hs]. by rewrite Hs. }
  pose proof (json_one_line j) as Ho. split; [done|].
  unfold one_line in Ho. apply andb_true_iff in Ho as [_ Ho]. apply negb_true_iff in Ho.
  rewrite on_line_data by done. destruct (String.eqb_spec (json_print j) "[DONE]"); [done|].
  rewrite json_parse_print by done. unfold j. by destruct role, content, finish, src.
Qed.

Lemma source_shown n c : json_wf (Sse.source_json n c) = true ->
  source_line (to_value (Sse.source_json n c)) = (Z.of_nat n, RagStore.RagStore.source c, JFloat (RagStore.RagStore.score c)).
Proof.
  intros Hw. assert (json_wf (JInt (Z.of_nat n)) = true) as Hn.
  { unfold Sse.source_json in Hw. cbn [json_wf forallb snd] in Hw. by apply andb_true_iff in Hw as [Hw _]. }
  unfold source_line.
  assert (jindex "index" (to_value (Sse.source_json n c)) = JInt (Z.of_nat n)) as -> by reflexivity.
  rewrite (as_uint_ok u64_max); [reflexivity|]. apply andb_true_iff in Hn as [_ Hn]. unfold uint_ok. apply andb_true_iff. split; [apply Z.leb_le, Nat2Z.is_nonneg|exact Hn].
Qed.

Lemma sources_shown l n : json_wf (JArr (imap (fun i c => Sse.source_json (n + i) c) l)) = true ->
  source_line <$> (to_value <$> imap (fun i c => Sse.source_json (n + i) c) l) =
  imap (fun i c => (Z.of_nat (n + i), RagStore.RagStore.source c, JFloat (RagStore.RagStore.score c))) l.
Proof.
  revert n. induction l as [|c l IH]; intros n; [done|]. rewrite !imap_cons. cbn [json_wf forallb]. intros [Hc Hl]%andb_true_iff.
  rewrite !fmap_cons, source_shown by done. f_equal. specialize (IH (S n)).
  rewrite (imap_ext _ (fun i c => Sse.source_json (S n + i) c)) in Hl by (intros; cbn; f_equal; lia).
  rewrite (imap_ext _ (fun i c => Sse.source_json (S n + i) c)) by (intros; cbn; f_equal; lia).
  rewrite (IH Hl). apply imap_ext. intros i x _. cbn. do 2 f_equal. lia.
Qed.

Section answer.
(** The text of an error is no JSON. *)
Hypothesis error_text_no_json : json_parse "[ERROR] inference failed" = None.

Variables (id model : string) (created : Z) (src : option (list RagStore.RagStore.ScoredChunk)).
Hypothesis created_ok : json_wf (JInt created) = true.
Hypothesis src_ok : forall l, src = Some l -> json_wf (Sse.sources_json l) = true.

Lemma chunk_wf role content finish s : s = None \/ s = src -> json_wf (Sse.chunk_json id model created role content finish s) = true.
Proof.
  intros Hs. assert (forall l, s = Some l -> json_wf (Sse.sources_json l) = true) as Hs'.
  { intros l ->. destruct Hs as [|Hs]; [done|]. by apply src_ok. }
  unfold Sse.chunk_json. rewrite json_wf_obj. rewrite forallb_app. apply andb_true_iff. split.
  - cbn [forallb snd]. rewrite created_ok. by destruct role, content, finish.
  - destruct s as [l|]; [|done]. cbn [jskip forallb snd]. by rewrite (Hs' l).
Qed.

Lemma token_line t p :
  data_ok (Sse.token_data id model created src t) /\
  on_line ("data: " +:+ Sse.token_data id model created src t) p =
    Some (p.1 +:+ said t, if ends t then match src with Some l => Some (to_value (Sse.sources_json l)) | None => p.2 end else p.2).
Proof.
  destruct t as [t|e].
  - cbn [Sse.token_data said ends]. destruct (Chat.Chat.is_last t);
      (edestruct chunk_line as [Hd Hl]; [|split; [exact Hd|rewrite Hl; done]]); apply chunk_wf; auto.
  - split; [by split|]. rewrite on_line_data by done. cbn [String.eqb Ascii.eqb Bool.eqb Sse.token_data].
    rewrite error_text_no_json. cbn [said ends]. by destruct p as [a b]; cbn [fst snd]; rewrite string_app_nil_r.
Qed.

Lemma tokens_fold toks p :
  fold_left (fun p d => default p (on_line ("data: " +:+ d) p)) (Sse.token_data id model created src <$> toks) p =
  (p.1 +:+ String.concat "" (said <$> toks),
   if existsb ends toks then match src with Some l => Some (to_value (Sse.sources_json l)) | None => p.2 end else p.2).
Proof.
  revert p. induction toks as [|t toks IH]; intros p; cbn [fmap list_fmap fold_left existsb].
  { destruct p as [a b]. cbn [fst snd]. change (String.concat "" []) with "". by rewrite string_app_nil_r. }
  destruct (token_line t p) as [_ ->]. cbn [default]. rewrite IH. cbn [fst snd Datatypes.id]. rewrite concat_cons, string_app_assoc.
  f_equal. by destruct (ends t), (existsb ends toks), src.
Qed.

Lemma said_texts pre t : (forall x, In x pre -> Chat.Chat.is_last x = false) -> Chat.Chat.is_last t = true ->
  String.concat "" (said <$> (Ok <$> pre) ++ [Ok t]) = String.concat "" (Chat.Chat.t_text <$> pre).
Proof.
  intros Hpre Ht. induction pre as [|x pre IH]; cbn [fmap list_fmap app].
  { unfold said. by rewrite Ht. }
  rewrite !concat_cons, IH by (intros y Hy; apply Hpre; by right). unfold said at 1.
  by rewrite (Hpre x (or_introl eq_refl)).
Qed.

Lemma said_and_texts r toks (shown : list (Z * string * json)) :
  r = Ok (String.concat "" (said <$> toks) +:+ nl, shown) ->
  r = (Ok (String.concat "" (said <$> toks) +:+ nl, shown) : result string _) /\
  forall pre t, toks = (Ok <$> pre) ++ [Ok t] -> (forall x, In x pre -> Chat.Chat.is_last x = false) ->
    Chat.Chat.is_last t = true -> exists s, r = Ok (String.concat "" (Chat.Chat.t_text <$> pre) +:+ nl, s).
Proof. intros ->. split; [done|]. intros pre t -> Hp Ht. rewrite said_texts by done. by eexists. Qed.

(** C36: However the bytes of a streamed answer are cut between characters, the command
    prints, in their order, the texts of the tokens that do not end the answer, and
    below them the sources that the daemon sent. The text of the token that ends the
    answer is not printed: the daemon leaves it out of the stream, although at a stop
    sequence or at the limit of tokens it is part of the answer. An error of the engine
    leaves no trace in what is printed, and the command succeeds. *)
Theorem chat_prints_answer toks cs :
  Forall (fun c => utf8_ok c = true) cs ->
  String.concat "" cs = Sse.wire (Sse.stream_data id model created toks src) ->
  run_chat 200 cs false =
  Ok (String.concat "" (said <$> toks) +:+ nl,
      if existsb ends toks
      then imap (fun i c => (Z.of_nat (S i), RagStore.RagStore.source c, JFloat (RagStore.RagStore.score c))) (default [] src)
      else []) /\
  forall pre t, toks = (Ok <$> pre) ++ [Ok t] -> (forall x, In x pre -> Chat.Chat.is_last x = false) ->
    Chat.Chat.is_last t = true ->
    exists shown, run_chat 200 cs false = Ok (String.concat "" (Chat.Chat.t_text <$> pre) +:+ nl, shown).
Proof.
  intros Hu He. apply said_and_texts. unfold run_chat. change ((200 <=? 200) && (200 <=? 299)) with true. cbn [negb].
  unfold Sse.stream_data in He. rewrite app_comm_cons in He.
  pose proof (chunk_line id model created (Some "assistant") (Some "") None None ("", None) (chunk_wf _ _ _ None (or_introl eq_refl)))
    as [Hd Hl].
  assert (Forall data_ok (json_print (Sse.chunk_json id model created (Some "assistant") (Some "") None None)
            :: (Sse.token_data id model created src <$> toks))) as Hall.
  { constructor; [done|]. apply Forall_fmap, Forall_true. intros t. apply (token_line t ("", None)). }
  pose proof (reads_wire _ cs Hall Hu He) as Hr. cbn [fold_left] in Hr. rewrite Hl in Hr. cbn [default Datatypes.id] in Hr.
  rewrite tokens_fold in Hr. cbn [fst snd] in Hr. injection Hr as -> Hs. f_equal. f_equal.
  unfold source_lines. rewrite Hs. destruct (existsb ends toks); [|done]. destruct src as [l|] eqn:El; [|done].
  exact (sources_shown l 1 (src_ok l eq_refl)).
Qed.
End answer.

(** The stream without an answer says so, and shows no sources. *)
Lemma no_answer_printed id model created cs : json_wf (JInt created) = true ->
  Forall (fun c => utf8_ok c = true) cs -> String.concat "" cs = Sse.wire (Sse.no_answer_data id model created) ->
  run_chat 200 cs false = Ok (Sse.no_answer_text +:+ nl, []).
Proof.
  intros Hc Hu He.
  assert (forall role content finish s, s = None \/ s = Some [] ->
    json_wf (Sse.chunk_json id model created role content finish s) = true) as Hw.
  { intros role content finish s Hs. apply (chunk_wf id model created (Some []) Hc); [by intros l [= <-]|exact Hs]. }
  destruct (chunk_line id model created (Some "assistant") (Some "") None None ("", None) (Hw _ _ _ _ (or_introl eq_refl))) as [Hd1 Hl1].
  pose proof (chunk_line id model created None (Some Sse.no_answer_text) None None ("", None) (Hw _ _ _ _ (or_introl eq_refl))) as [Hd2 Hl2].
  pose proof (chunk_line id model created None None (Some "stop") (Some []) (Sse.no_answer_text, None) (Hw _ _ _ _ (or_intror eq_refl))) as [Hd3 Hl3].
  assert (Hr : (printed (read_stream cs), sources (read_stream cs)) = (Sse.no_answer_text, Some (JArr []))).
  { refine (eq_trans (reads_wire (removelast (Sse.no_answer_data id model created)) cs _ Hu He) _).
    { by apply Forall_cons, conj; [|apply Forall_cons, conj; [|apply Forall_cons, conj]]. }
    cbn [Sse.no_answer_data removelast fold_left].
    rewrite Hl1. cbn [default Datatypes.id fst snd]. change ("" +:+ "") with "". rewrite Hl2.
    cbn [default Datatypes.id fst snd]. change ("" +:+ Sse.no_answer_text) with Sse.no_answer_text. by rewrite Hl3. }
  injection Hr as Hp Hs. unfold run_chat. change ((200 <=? 200) && (200 <=? 299)) with true. cbn [negb].
  unfold source_lines. by rewrite Hp, Hs.
Qed.
End client.
End ChatClient.

(** ** On concrete data *)
Module ChatCliDemo.
Import ChatClient.

Definition toks : list (result string Chat.Chat.Token) :=
  [Ok {| Chat.Chat.t_text := "It is "; Chat.Chat.is_last := false |};
   Ok {| Chat.Chat.t_text := "so."; Chat.Chat.is_last := false |}; Err "out of memory"].

Definition sent : string := Sse.wire (Sse.stream_data "chatcmpl-1" "m:1" 0 toks None).

(** An answer that ends at its limit of tokens: the last one has a text. *)
Definition pre_toks : list Chat.Chat.Token :=
  [{| Chat.Chat.t_text := "one "; Chat.Chat.is_last := false |}; {| Chat.Chat.t_text := "two "; Chat.Chat.is_last := false |}].
Definition end_tok : Chat.Chat.Token := {| Chat.Chat.t_text := "three"; Chat.Chat.is_last := true |}.
Definition sent2 : string := Sse.wire (Sse.stream_data "chatcmpl-2" "m:1" 0 ((Ok <$> pre_toks) ++ [Ok end_tok]) None).

(** Three chunks whose borders are inside lines. *)
Definition cut : list string := [stake 9 sent; stake 200 (sdrop 9 sent); sdrop 209 sent].

Lemma chat_prints_answer_witness :
  run_chat 200 cut false = Ok ("It is so." +:+ nl, []) /\
  exists shown, run_chat 200 [sent2] false = Ok ("one two " +:+ nl, shown).
Proof.
  split.
  - refine (proj1 (chat_prints_answer _ "chatcmpl-1" "m:1" 0 None _ _ toks cut _ _)).
    + vm_compute. reflexivity.
    + vm_compute. reflexivity.
    + intros l Hl. discriminate Hl.
    + unfold cut. repeat constructor; vm_compute; reflexivity.
    + vm_compute. reflexivity.
  - refine (proj2 (chat_prints_answer _ "chatcmpl-2" "m:1" 0 None _ _ ((Ok <$> pre_toks) ++ [Ok end_tok]) [sent2] _ _)
              pre_toks end_tok eq_refl _ eq_refl).
    + vm_compute. reflexivity.
    + vm_compute. reflexivity.
    + intros l Hl. discriminate Hl.
    + repeat constructor; vm_compute; reflexivity.
    + vm_compute. reflexivity.
    + by intros x [<-|[<-|[]]].
Defined.

(** A character whose bytes come in two chunks is lost. *)
Example split_character : lossy (String (chr 195) "") +:+ lossy (String (chr 169) "") = replacement +:+ replacement /\
  lossy (String (chr 195) (String (chr 169) "")) = String (chr 195) (String (chr 169) "").
Proof. by vm_compute. Qed.

(** The daemon's errors are objects: the command shows them as they come. *)
Example error_shown : error_text (json_print (JObj [("error", JObj [("message", JStr "no such model")])]))
  = json_print (JObj [("error", JObj [("message", JStr "no such model")])]).
Proof. by vm_compute. Qed.

End ChatCliDemo.
