(* ===== verification/HoldCli.v ===== *)
(** * Legal holds and incidents from the command line

    Models [hold.rs] and [incident.rs] of [maranode-cli/src/commands] and puts them
    together with the daemon's routes of the same names: the requests as the routes read
    them, the answers as the commands read them. [Served] makes a daemon of the handlers,
    whose state is what the requests so far have left. *)

From Stdlib Require Import ZArith Lia Ascii String.
From S2P Require Import Prelude Json Crypto Tokens Common Events Fs AuditRotate Instances UserDb Auth WorkspaceDb WorkspaceApi WorkspaceDemo Seal Pcr SealDemo AppState LegalHold IncidentApi ApiDemo Http.
Open Scope string_scope.
Open Scope list_scope.
Open Scope Z_scope.

(** ** A daemon at the other end *)
Module Served.
Import Auth.Auth AppState.AppState Http.Http.

(** [ApiError] as a status. *)
Definition error_status (e : api_error) : Z :=
  match e with
  | NotFound => 404 | BadRequest => 400 | Internal => 500 | NotImplemented => 501 | Forbidden => 403
  | ServiceUnavailable => 503 | Unauthorized => 401 | Conflict => 409 | RateLimited => 429
  end.

Section served.
Context `{!JsonText}.

(** What the error says, [None] for the errors that are answered with a fixed text. *)
Definition error_json (e : api_error) (message : string) : json :=
  let m := match e with Internal => "internal server error" | _ => message end in
  to_value (JObj [("error", JObj [("message", JStr m); ("type", JStr "api_error"); ("code", JInt (error_status e))])]).

Definition reply_of (message : api_error -> string) (r : result api_error json) : reply :=
  match r with
  | Ok j => {| status := 200; header := fun _ => None; content := json_print j |}
  | Err e => {| status := error_status e; header := fun _ => None; content := json_print (error_json e (message e)) |}
  end.

(** A handler over the state that the requests so far have left. *)
Definition handler (S : Type) : Type := request -> SE S api_error json.

Definition after {S} (h : handler S) (l : list request) (s : S) : S := fold_left (fun s r => (h r s).1) l s.

Definition served {S} (message : api_error -> string) (h : handler S) (s : S) : world := fun sent r =>
  Some (reply_of message (h r (after h sent s)).2).

(** [send().await?.error_for_status()?.json().await?]. *)
Definition checked_json (w : world) (r : request) : SE (list request) http_err json :=
  do! a := send w r in
  do! a := slift (error_for_status a) in
  slift (value_of a).

Lemma error_status_range e : 400 <= error_status e <= 599.
Proof. destruct e; cbn; lia. Qed.

(** What the client has of an answer of the daemon. *)
Lemma checked_served {S} message (h : handler S) s sent r :
  (forall j, (h r (after h sent s)).2 = Ok j -> json_wf j = true) ->
  checked_json (served message h s) r sent =
  (sent ++ [r], match (h r (after h sent s)).2 with
                | Ok j => Ok (to_value j)
                | Err e => Err (BadStatus (error_status e) "")
                end).
Proof.
  intros Hw. unfold checked_json, send, sbind at 1, served. cbn [ok_or].
  destruct (h r (after h sent s)).2 as [j|e]; cbn [reply_of].
  - unfold sbind, slift, error_for_status, value_of. cbn [status content]. simpl.
    by rewrite json_parse_print by (by apply Hw).
  - unfold sbind, slift, error_for_status. cbn [status]. pose proof (error_status_range e) as [H1 H2].
    apply Z.leb_le in H1, H2. by rewrite H1, H2.
Qed.

(** The state of the daemon after the requests of a command. *)
Lemma after_snoc {S} (h : handler S) l r s : after h (l ++ [r]) s = (h r (after h l s)).1.
Proof. unfold after. by rewrite fold_left_app. Qed.
End served.
End Served.

(** ** hold.rs *)
Module HoldCli.
Import Auth.Auth AppState.AppState Common.Hold HoldJson LegalHold HoldApi Http.Http Served.

Inductive hold_command :=
| HGenerateKey (org_name : string) (tpm_seal : bool) (tpm_passphrase : option string)
| HPlace (reason : string) (from to : Z) (expires_at key_hex : option string) (tpm_seal : bool) (tpm_passphrase : option string)
| HSignRelease (hold_id released_by privkey_hex : string)
| HRelease (hold_id release_sig_b64 : string)
| HList.

(** A line of the list: whether it is shown as active, and the members as they came. *)
Record hold_line := { h_active : bool; h_id : string; h_from : json; h_to : json; h_reason : string }.

Inductive hold_output :=
| KeyMade (pubkey privkey : string) (card : option string) (sealed : json)
| HoldPlaced (id : string) (from to : json) (placed_at : string)
| ReleaseSigned (id released_by sig : string)
| HoldReleased (id released_at : json)
| HoldList (total active : json) (lines : list hold_line).

Definition or_unknown (j : json) : string := default "?" (as_str j).

Definition hold_body (c : hold_command) : option json :=
  match c with
  | HGenerateKey org seal_ pass =>
    Some (JObj [("tpm_seal", JBool seal_); ("tpm_passphrase", jopt JStr pass); ("org_name", JStr org)])
  | HPlace why from to exp key seal_ pass =>
    Some (JObj [("reason", JStr why); ("seq_from", JInt from); ("seq_to", JInt to); ("expires_at", jopt JStr exp);
                ("key_hex", jopt JStr key); ("tpm_seal", JBool seal_); ("tpm_passphrase", jopt JStr pass)])
  | HSignRelease i by_ key => Some (JObj [("hold_id", JStr i); ("released_by", JStr by_); ("privkey_hex", JStr key)])
  | HRelease _ sig => Some (JObj [("release_sig_b64", JStr sig)])
  | HList => None
  end.

Definition hold_path_of (c : hold_command) : string :=
  match c with
  | HGenerateKey _ _ _ => "/v1/legal-hold/generate-key"
  | HPlace _ _ _ _ _ _ _ => "/v1/legal-hold/place"
  | HSignRelease _ _ _ => "/v1/legal-hold/sign-release"
  | HRelease i _ => "/v1/legal-hold/release/" +:+ i
  | HList => "/v1/legal-hold/list"
  end.

(** [json!] makes a value of the members. *)
Definition hold_sent (host : string) (c : hold_command) : request :=
  match hold_body c with
  | Some j => request_to "POST" (host +:+ hold_path_of c) NoAuth [] (JsonBody (to_value j))
  | None => request_to "GET" (host +:+ hold_path_of c) NoAuth [] NoBody
  end.

Definition line_of (h : json) : hold_line := {|
  h_active := match jindex "released_at" h with JNull => true | _ => false end;
  h_id := or_unknown (jindex "id" h); h_from := jindex "seq_from" h; h_to := jindex "seq_to" h;
  h_reason := or_unknown (jindex "reason" h) |}.

Definition hold_shown (c : hold_command) (j : json) : hold_output :=
  match c with
  | HGenerateKey _ _ _ =>
    KeyMade (or_unknown (jindex "pubkey_b64" j)) (or_unknown (jindex "privkey_hex" j))
      (as_str (jindex "recovery_card_path" j)) (jindex "tpm_sealed" j)
  | HPlace _ _ _ _ _ _ _ =>
    HoldPlaced (or_unknown (jindex "hold_id" j)) (jindex "seq_from" j) (jindex "seq_to" j) (or_unknown (jindex "placed_at" j))
  | HSignRelease _ _ _ =>
    ReleaseSigned (or_unknown (jindex "hold_id" j)) (or_unknown (jindex "released_by" j)) (or_unknown (jindex "release_sig_b64" j))
  | HRelease _ _ => HoldReleased (jindex "hold_id" j) (jindex "released_at" j)
  | HList => HoldList (jindex "total" j) (jindex "active" j) (match jindex "holds" j with JArr l => line_of <$> l | _ => [] end)
  end.

Section hold.
Context `{!JsonText}.

Definition run_hold (w : world) (host : string) (c : hold_command) : SE (list request) http_err hold_output :=
  do! j := checked_json w (hold_sent host c) in sret (hold_shown c j).

(** *** What the routes read *)
Context `{!TimeText}.

Record GenerateKeyRequest := { g_tpm_seal : bool; g_tpm_passphrase : option string; g_org_name : option string }.
Record PlaceRequest := {
  p_reason : string; p_from : Z; p_to : Z; p_expires_at : option Z; p_key_hex : option string;
  p_tpm_seal : bool; p_tpm_passphrase : option string
}.
Record SignReleaseRequest := { s_hold_id : string; s_released_by : string; s_released_at : option Z; s_privkey_hex : string }.

Definition as_time (j : json) : option Z := some? s := as_str j in ts_parse s.

Definition generate_key_of (j : json) : option GenerateKeyRequest :=
  some? m := as_obj j in
  check no_dup_fields ["tpm_seal"; "tpm_passphrase"; "org_name"] m in
  some? a := dflt as_bool false "tpm_seal" m in
  some? b := opt as_str "tpm_passphrase" m in
  some? c := opt as_str "org_name" m in
  Some {| g_tpm_seal := a; g_tpm_passphrase := b; g_org_name := c |}.

Definition place_of (j : json) : option PlaceRequest :=
  some? m := as_obj j in
  check no_dup_fields ["reason"; "seq_from"; "seq_to"; "expires_at"; "key_hex"; "tpm_seal"; "tpm_passphrase"] m in
  some? why := req as_str "reason" m in
  some? from := req (as_uint u64_max) "seq_from" m in
  some? to := req (as_uint u64_max) "seq_to" m in
  some? exp := opt as_time "expires_at" m in
  some? key := opt as_str "key_hex" m in
  some? s := dflt as_bool false "tpm_seal" m in
  some? p := opt as_str "tpm_passphrase" m in
  Some {| p_reason := why; p_from := from; p_to := to; p_expires_at := exp; p_key_hex := key; p_tpm_seal := s; p_tpm_passphrase := p |}.

Definition release_of (j : json) : option string :=
  some? m := as_obj j in check no_dup_fields ["release_sig_b64"] m in req as_str "release_sig_b64" m.

Definition sign_release_of (j : json) : option SignReleaseRequest :=
  some? m := as_obj j in
  check no_dup_fields ["hold_id"; "released_by"; "released_at"; "privkey_hex"] m in
  some? i := req as_str "hold_id" m in
  some? by_ := req as_str "released_by" m in
  some? t := opt as_time "released_at" m in
  some? key := req as_str "privkey_hex" m in
  Some {| s_hold_id := i; s_released_by := by_; s_released_at := t; s_privkey_hex := key |}.

(** *** The routes *)
Context `{!Rfc3339, !Hmac, !Aead, !Hex, !Base64, !Ed25519, !Tpm2Tools}.

(** The clocks of a request, what is drawn for it and the directory of the data. *)
Record env := { e_t0 : Z; e_now : Z; e_seed : string; e_text : string; e_draw : Seal.draw; e_dir : string }.

Definition tpm_of (seal_ : bool) (pass : option string) : option string := if seal_ then Some (default "" pass) else None.

Definition answer {A} (f : A -> json) (m : SE app api_error A) : SE app api_error json := do! a := m in sret (f a).

Definition generate_json (e : env) (k : string * string * bool) : json :=
  JObj [("pubkey_b64", JStr k.1.1); ("privkey_hex", JStr k.1.2);
        ("recovery_card_path", JStr (path_join (e_dir e) recovery_card_path)); ("tpm_sealed", JBool k.2)].

Definition place_json (r : HoldRecord) : json :=
  to_value (JObj [("hold_id", JStr (id r)); ("seq_from", JInt (seq_from r)); ("seq_to", JInt (seq_to r));
                  ("placed_at", HoldJson.time_json (placed_at r)); ("tpm_sealed", JBool (tpm_sealed r))]).

Definition release_json (r : HoldRecord) : json :=
  to_value (JObj [("hold_id", JStr (id r)); ("released_at", jopt HoldJson.time_json (released_at r));
                  ("released_by", jopt JStr (released_by r))]).

Definition sign_json (q : SignReleaseRequest) (a : Z * string) : json :=
  to_value (JObj [("hold_id", JStr (s_hold_id q)); ("released_by", JStr (s_released_by q));
                  ("released_at", HoldJson.time_json a.1); ("release_sig_b64", JStr a.2)]).

Definition list_json (l : Z * Z * list HoldRecord) : json :=
  to_value (JObj [("total", JInt l.1.1); ("active", JInt l.1.2); ("holds", JArr (hold_json <$> l.2))]).

(** The body, once the extractor before it has let the request through. *)
Definition with_body {A} (q : option A) (m : A -> SE app api_error json) : SE app api_error json :=
  match q with Some a => m a | None => sfail BadRequest end.

(** One segment of a path. *)
Definition plain_segment (i : string) : bool := negb (String.eqb i "") && negb (has_char "/" i).

(** A daemon that listens at [host]. An extractor that fails comes before a body that
    does not read; a path is compared as it was written. *)
Definition hold_routes (host : string) (e : env) : handler app := fun r =>
  let h := headers_of (auth r) in
  let j := match payload r with JsonBody j => j | _ => JNull end in
  let at_ (m p : string) (path : string) : bool := String.eqb (method r) m && String.eqb path p in
  let guarded {A} (q : option A) (m : A -> SE app api_error json) : SE app api_error json :=
    do! _ := on_auth (user_ctx h (e_t0 e)) in with_body q m in
  match Auth.strip_prefix host (url r) with
  | None => sfail NotFound
  | Some p =>
    if at_ "POST" "/v1/legal-hold/generate-key" p then
      guarded (generate_key_of j) (fun q =>
        answer (generate_json e) (generate_key h (tpm_of (g_tpm_seal q) (g_tpm_passphrase q)) (e_seed e) (e_text e) (e_draw e) (e_t0 e)))
    else if at_ "POST" "/v1/legal-hold/place" p then
      guarded (place_of j) (fun q =>
        answer place_json (place h (p_reason q) (p_from q) (p_to q) (p_expires_at q) (p_key_hex q)
                             (tpm_of (p_tpm_seal q) (p_tpm_passphrase q)) (e_t0 e) (e_now e)))
    else if at_ "POST" "/v1/legal-hold/sign-release" p then
      with_body (sign_release_of j) (fun q =>
        answer (sign_json q) (sign_release (s_hold_id q) (s_released_by q) (s_released_at q) (s_privkey_hex q) (e_now e)))
    else if at_ "GET" "/v1/legal-hold/list" p then answer list_json (list_route (e_now e))
    else match Auth.strip_prefix "/v1/legal-hold/release/" p with
         | Some i =>
           if String.eqb (method r) "POST" && plain_segment i
           then guarded (release_of j) (fun sig => answer release_json (release h i sig (e_t0 e) (e_now e)))
           else sfail NotFound
         | None => sfail NotFound
         end
  end.

(** *** What the routes make of a command *)

Lemma strip_host host p : Auth.strip_prefix host (host +:+ p) = Some p.
Proof. induction host as [|c host IH]; cbn; [done|]. by rewrite Ascii.eqb_refl. Qed.

(** The bodies as the routes read them. *)
Lemma sign_read i by_ key : sign_release_of (to_value (JObj [("hold_id", JStr i); ("released_by", JStr by_); ("privkey_hex", JStr key)])) =
  Some {| s_hold_id := i; s_released_by := by_; s_released_at := None; s_privkey_hex := key |}.
Proof. done. Qed.

(** The requests that ask for an account. *)
Definition needs_account (c : hold_command) : Prop :=
  match c with HSignRelease _ _ _ | HList => False | HRelease i _ => plain_id i | _ => True end.

Lemma nobody host e c s : needs_account c ->
  hold_routes host e (hold_sent host c) s = (s, Err Unauthorized).
Proof.
  assert (forall A (k : Common.User.User -> SE app api_error A), sbind (on_auth (user_ctx (headers_of NoAuth) (e_t0 e))) k s = (s, Err Unauthorized)) as Hn.
  { intros A k. by rewrite (extractor_fails (headers_of NoAuth) (e_t0 e) k s Unauthorized). }
  intros Hc. unfold hold_routes, hold_sent. destruct c as [org b p|why from to x key b p|i by_ key|i sig|];
    cbn [needs_account] in Hc; try done; cbn [hold_body hold_path_of request_to url auth payload method]; rewrite strip_host; cbn -[sbind on_auth user_ctx headers_of].
  - apply Hn.
  - apply Hn.
  - destruct Hc as [Hi Hs]. unfold plain_segment. rewrite Hs. apply String.eqb_neq in Hi. rewrite Hi. apply Hn.
Qed.

(** A command that generates a key, places a hold or releases one is refused by every
    daemon, whoever runs it: the request carries no credentials. The daemon is unchanged. *)
Theorem hold_needs_credentials message host e c s sent :
  needs_account c ->
  run_hold (served message (hold_routes host e) s) host c sent = (sent ++ [hold_sent host c], Err (BadStatus 401 "")) /\
  after (hold_routes host e) (sent ++ [hold_sent host c]) s = after (hold_routes host e) sent s.
Proof.
  intros Hc. rewrite after_snoc. pose proof (nobody host e c (after (hold_routes host e) sent s) Hc) as Hn. rewrite Hn. split; [|done].
  unfold run_hold, sbind at 1. rewrite checked_served; rewrite Hn; done.
Qed.

(** The command that signs a release sends the private key to the daemon, and what it gets
    is a signature for the instant of that request: a release at any other accepts it only
    if it verifies a text that was never signed. *)
Theorem terminal_signature message host e i by_ key s sent :
  String.length key = 32%nat ->
  let r := hold_sent host (HSignRelease i by_ (hex_encode key)) in
  exists sig,
    run_hold (served message (hold_routes host e) s) host (HSignRelease i by_ (hex_encode key)) sent =
      (sent ++ [r], Ok (ReleaseSigned i by_ sig)) /\
    (exists j, payload r = JsonBody j /\ jindex "privkey_hex" j = JStr (hex_encode key)) /\
    forall t0 now f f' r', release_hold i by_ sig t0 now f = (f', Ok r') -> now <> e_now e ->
      exists pub x, load_hold_pubkey f = Ok pub /\ x = ed_sign key (json_print (release_payload i by_ (e_now e))) /\
        ed_verify pub (json_print (release_payload i by_ now)) x = true /\
        json_print (release_payload i by_ now) <> json_print (release_payload i by_ (e_now e)).
Proof.
  intros Hk r.
  assert (exists sig, sign_release_payload i by_ (e_now e) (hex_encode key) = Ok sig) as [sig Es].
  { unfold sign_release_payload, signing_key_of_hex. rewrite trim_graphic, hex_decode_encode by apply hex_graphic.
    cbn [ok_or rbind]. rewrite Hk. by eexists. }
  exists sig. split; [|split; [by eexists|intros; by eapply release_bound_to_instant]].
  assert (forall st, hold_routes host e r st =
    (st, Ok (sign_json {| s_hold_id := i; s_released_by := by_; s_released_at := None; s_privkey_hex := hex_encode key |} (e_now e, sig)))) as Hr.
  { intros st. unfold hold_routes, r, hold_sent. cbn [hold_body hold_path_of request_to url auth payload method].
    rewrite strip_host. cbn -[answer sign_json sign_release sign_release_of to_value]. rewrite sign_read. cbn [with_body].
    unfold answer, sign_release. cbn [s_hold_id s_released_by s_released_at s_privkey_hex default]. by rewrite Es. }
  unfold run_hold, sbind at 1. fold r. rewrite checked_served; rewrite Hr; cbn [snd]; [done|by intros j [= <-]].
Qed.
(** The members as [json!] keeps them, by name. *)
Lemma place_value why from to exp key b pass :
  to_value (default JNull (hold_body (HPlace why from to exp key b pass))) =
  JObj [("expires_at", jopt JStr exp); ("key_hex", jopt JStr key); ("reason", JStr why); ("seq_from", JInt from);
        ("seq_to", JInt to); ("tpm_passphrase", jopt JStr pass); ("tpm_seal", JBool b)].
Proof. by destruct exp, key, pass. Qed.

Lemma place_read why from to exp x key b pass :
  uint_ok u64_max from = true -> uint_ok u64_max to = true -> opt as_time "expires_at" [("expires_at", jopt JStr exp)] = Some x ->
  place_of (to_value (default JNull (hold_body (HPlace why from to exp key b pass)))) =
  Some {| p_reason := why; p_from := from; p_to := to; p_expires_at := x; p_key_hex := key; p_tpm_seal := b; p_tpm_passphrase := pass |}.
Proof.
  intros Hf Ht Hx. rewrite place_value. unfold place_of. cbn [as_obj].
  replace (no_dup_fields _ _) with true by reflexivity.
  replace (opt as_time _ _) with (Some x) by (rewrite <- Hx; by destruct exp).
  unfold req. cbn -[as_uint u64_max]. rewrite !as_uint_ok by done. by destruct key, pass.
Qed.

Lemma generate_read org b pass :
  generate_key_of (to_value (default JNull (hold_body (HGenerateKey org b pass)))) =
  Some {| g_tpm_seal := b; g_tpm_passphrase := pass; g_org_name := Some org |}.
Proof. by destruct pass. Qed.

(** A record as a line of the list. *)
Definition shown_hold (h : HoldRecord) : hold_line := {|
  h_active := match released_at h with None => true | Some _ => false end;
  h_id := id h; h_from := JInt (seq_from h); h_to := JInt (seq_to h); h_reason := reason h |}.

Lemma listed_wf f : fs_wf f -> Forall (fun h => hold_wf h = true) (list_holds f).
Proof.
  intros Hf. apply List.Forall_forall. intros h Hh. apply in_list_holds in Hh as (q & b & _ & _ & Hp); [|done].
  unfold parse_hold in Hp. destruct (json_parse b) as [j|]; [|done]. by eapply hold_of_wf.
Qed.

Lemma line_shown h : line_of (to_value (to_value (hold_json h))) = shown_hold h.
Proof. destruct h as [i pa pb r sf st ea pk ps [ra|] rb rs tp]; reflexivity. Qed.

(** The list asks for no account, and shows every record as it is stored. It counts the
    holds that are in force, and marks as active those that were not released: a hold whose
    time is over is marked and not counted. *)
Theorem hold_list_shown message host e s sent :
  let f := data (after (hold_routes host e) sent s) in
  fs_wf f -> Z.of_nat (List.length (list_holds f)) <= u64_max ->
  run_hold (served message (hold_routes host e) s) host HList sent =
  (sent ++ [hold_sent host HList],
   Ok (HoldList (JInt (Z.of_nat (List.length (list_holds f)))) (JInt (Z.of_nat (List.length (List.filter (is_active (e_now e)) (list_holds f)))))
         (shown_hold <$> list_holds f))).
Proof.
  intros f Hf Hl. set (l := list_holds f) in *.
  assert (List.length (List.filter (is_active (e_now e)) l) <= List.length l)%nat as Hn by apply filter_length_le.
  set (n := List.length (List.filter (is_active (e_now e)) l)) in *.
  assert (hold_routes host e (hold_sent host HList) (after (hold_routes host e) sent s) =
    (after (hold_routes host e) sent s, Ok (list_json (Z.of_nat (List.length l), Z.of_nat n, l)))) as Hr.
  { unfold hold_routes, hold_sent. cbn [hold_body hold_path_of request_to url auth payload method]. rewrite strip_host. reflexivity. }
  unfold run_hold, sbind at 1. rewrite checked_served; rewrite Hr; cbn [snd].
  - replace (shown_hold <$> l) with (line_of <$> (to_value <$> (to_value <$> (hold_json <$> l)))); [done|].
    rewrite <- !list_fmap_compose. apply list_fmap_ext. intros i h _. apply line_shown.
  - intros j [= <-]. apply to_value_wf. cbn [json_wf forallb fst snd]. rewrite andb_true_r.
    repeat (apply andb_true_iff; split); try (apply Z.leb_le; unfold u64_max in *; lia).
    apply forallb_forall. intros j [h [<- Hh]]%in_map_iff.
    apply hold_json_wf. pose proof (listed_wf f Hf) as Hw. rewrite List.Forall_forall in Hw. by apply Hw.
Qed.
End hold.
End HoldCli.

(** ** incident.rs *)
Module IncidentCli.
Import Auth.Auth AppState.AppState Common.Incident IncidentJson Async Incidents IncidentApi.IncidentApi Http.Http Served.

Inductive incident_command :=
| IDeclare (reason : string) (webhooks : option string)
| IInvestigate (note : option string)
| IResolve (summary : string)
| IStatus
| ISnapshot
| IBgGenerate (purpose : string)
| IBgUse (token : string).

Inductive incident_output :=
| Declared_ (id phase : string) (frozen : json)
| Moved (id phase : json)
| Resolved_ (id : json)
| Active (id phase declared_at declared_by reason : string) (frozen : json)
| NotActive (frozen : json)
| SnapshotSaved (path sha256 : string)
| CredMade (id purpose token : string)
| CredUsed (id purpose used_at : string).

Definition or_unknown (j : json) : string := default "?" (as_str j).

(** The list of webhooks: cut at commas and trimmed; empty parts are left out. *)
Definition webhooks_of (w : option string) : list string :=
  List.filter (fun s => negb (String.eqb s "")) (str_trim <$> split_char ","%char (default "" w)).

Definition incident_path (c : incident_command) : string :=
  match c with
  | IDeclare _ _ => "/v1/incident/declare" | IInvestigate _ => "/v1/incident/investigate"
  | IResolve _ => "/v1/incident/resolve" | IStatus => "/v1/incident/status" | ISnapshot => "/v1/incident/snapshot"
  | IBgGenerate _ => "/v1/incident/break-glass/generate" | IBgUse _ => "/v1/incident/break-glass/use"
  end.

Definition incident_body (c : incident_command) : option json :=
  match c with
  | IDeclare why w => Some (JObj [("reason", JStr why); ("webhook_urls", JArr (JStr <$> webhooks_of w))])
  | IInvestigate note => Some (JObj [("note", jopt JStr note)])
  | IResolve summary => Some (JObj [("summary", JStr summary)])
  | IStatus => None
  | ISnapshot => Some (JObj [])
  | IBgGenerate why => Some (JObj [("purpose", JStr why)])
  | IBgUse token => Some (JObj [("token", JStr token)])
  end.

Definition incident_sent (host : string) (c : incident_command) : request :=
  match incident_body c with
  | Some j => request_to "POST" (host +:+ incident_path c) NoAuth [] (JsonBody (to_value j))
  | None => request_to "GET" (host +:+ incident_path c) NoAuth [] NoBody
  end.

Definition incident_shown (c : incident_command) (j : json) : incident_output :=
  let text k := or_unknown (jindex k j) in
  match c with
  | IDeclare _ _ => Declared_ (text "incident_id") (text "phase") (jindex "audit_frozen" j)
  | IInvestigate _ => Moved (jindex "incident_id" j) (jindex "phase" j)
  | IResolve _ => Resolved_ (jindex "incident_id" j)
  | IStatus =>
    if default false (as_bool (jindex "active" j))
    then Active (text "incident_id") (text "phase") (text "declared_at") (text "declared_by") (text "reason") (jindex "audit_frozen" j)
    else NotActive (jindex "audit_frozen" j)
  | ISnapshot => SnapshotSaved (text "snapshot_path") (text "sha256")
  | IBgGenerate _ => CredMade (text "cred_id") (text "purpose") (text "token")
  | IBgUse _ => CredUsed (text "cred_id") (text "purpose") (text "used_at")
  end.

Section incident.
Context `{!JsonText}.

Definition run_incident (w : world) (host : string) (c : incident_command) : SE (list request) http_err incident_output :=
  do! j := checked_json w (incident_sent host c) in sret (incident_shown c j).

(** *** What the routes read *)

Definition as_strs (j : json) : option (list string) := some? l := as_arr j in all_some (as_str <$> l).

Definition declare_of (j : json) : option (string * list string) :=
  some? m := as_obj j in
  check no_dup_fields ["reason"; "webhook_urls"] m in
  some? why := req as_str "reason" m in
  some? urls := dflt as_strs [] "webhook_urls" m in
  Some (why, urls).

Definition phase_req_of (j : json) : option (option string) :=
  some? m := as_obj j in check no_dup_fields ["note"] m in opt as_str "note" m.

(** A body with one text: [ResolveRequest], [BgGenerateRequest], [BgUseRequest]. *)
Definition text_of (k : string) (j : json) : option string :=
  some? m := as_obj j in check no_dup_fields [k] m in req as_str k m.

(** *** The routes *)
Context `{!TimeText, !Rfc3339, !DateTimeText, !Sha256, !Base64}.

(** The clock, the awaits that a request gets, how its write of the state ends, what a
    snapshot and a credential take in. *)
Record env := {
  e_now : Z; e_awaits : nat; e_write : write_stop; e_info : runtime_info; e_stamp : string; e_nanos : Z; e_pid : Z
}.

(** [status]: every member of the incident, and the flag. *)
Definition status_json (s : app) : json :=
  to_value (match incident s with
  | None => JObj [("active", JBool false); ("audit_frozen", JBool (AppState.AppState.audit_frozen s))]
  | Some i =>
    JObj [("active", JBool (negb (bool_decide (phase i = Resolved)))); ("incident_id", JStr (id i));
          ("phase", JStr (phase_str (phase i))); ("declared_at", time_json (declared_at i));
          ("declared_by", JStr (declared_by i)); ("reason", JStr (reason i));
          ("audit_frozen", JBool (AppState.AppState.audit_frozen s)); ("phase_log", JArr (phase_entry_json <$> phase_log i))]
  end).

Definition cred_used_json (c : BreakGlassCred) : json :=
  to_value (JObj [("cred_id", JStr (bg_id c)); ("purpose", JStr (purpose c)); ("used_at", jopt time_json (used_at c))]).

(** The program of a request, its body read. *)
Definition program (h : headers) (e : env) (path : string) (j : json) : option (option (prog json)) :=
  let at_ (p : string) : bool := String.eqb path p in
  let answers {A} (f : A -> json) (m : prog A) : prog json := do! a := m in sret (f a) in
  if at_ "/v1/incident/declare" then
    Some (q ← declare_of j;
          Some (answers (fun i => JObj [("incident_id", JStr i); ("phase", JStr "declared"); ("audit_frozen", JBool true)])
                  (declare h q.1 q.2 (e_write e) (e_now e))))
  else if at_ "/v1/incident/investigate" then
    Some (q ← phase_req_of j;
          Some (answers (fun i => JObj [("incident_id", JStr i); ("phase", JStr "investigating")]) (investigate h q (e_write e) (e_now e))))
  else if at_ "/v1/incident/resolve" then
    Some (q ← text_of "summary" j;
          Some (answers (fun i => JObj [("incident_id", JStr i); ("phase", JStr "resolved")]) (resolve h q (e_write e) (e_now e))))
  else if at_ "/v1/incident/snapshot" then
    Some (Some (answers (fun r => to_value (JObj [("snapshot_path", JStr r.1); ("sha256", JStr r.2)])) (snapshot h (e_info e) (e_stamp e) (e_now e))))
  else if at_ "/v1/incident/break-glass/generate" then
    Some (q ← text_of "purpose" j;
          Some (answers (fun r => JObj [("cred_id", JStr r.1); ("token", JStr r.2); ("purpose", JStr q)])
                  (bg_generate h q (e_nanos e) (e_pid e) (e_write e) (e_now e))))
  else if at_ "/v1/incident/break-glass/use" then
    Some (q ← text_of "token" j; Some (answers cred_used_json (bg_use h q (e_write e) (e_now e))))
  else None.

(** A daemon that listens at [host]: the extractor of the account, the body, the program.
    A program that runs out of awaits is one whose client is gone. *)
Definition incident_routes (host : string) (e : env) : handler app := fun r s =>
  let h := headers_of (auth r) in
  match Auth.strip_prefix host (url r) with
  | None => (s, Err NotFound)
  | Some p =>
    if String.eqb (method r) "GET" && String.eqb p "/v1/incident/status" then (s, Ok (status_json s)) else
    if negb (String.eqb (method r) "POST") then (s, Err NotFound) else
    match program h e p (match payload r with JsonBody j => j | _ => JNull end) with
    | None => (s, Err NotFound)
    | Some q =>
      (do! _ := on_auth (user_ctx h (e_now e)) in
       match q with
       | None => sfail BadRequest
       | Some m => fun s => let x := run_for (e_awaits e) m s in (x.1, map_err (default Internal) x.2)
       end) s
    end
  end.

(** *** What the routes make of a command *)

(** A request without credentials is refused before its body is looked at. *)
Lemma incident_nobody host e c s : c <> IStatus ->
  incident_routes host e (incident_sent host c) s = (s, Err Unauthorized).
Proof.
  intros Hc.
  assert (forall A (k : Common.User.User -> SE app api_error A), sbind (on_auth (user_ctx (headers_of NoAuth) (e_now e))) k s = (s, Err Unauthorized)) as Hn.
  { intros A k. by rewrite (extractor_fails (headers_of NoAuth) (e_now e) k s Unauthorized). }
  unfold incident_routes, incident_sent. destruct c as [why w|note|summary| | |why|token]; [| | |done|..];
    cbn [incident_body incident_path request_to url auth payload method]; rewrite HoldCli.strip_host;
    cbn -[sbind on_auth user_ctx headers_of declare_of phase_req_of text_of to_value]; apply Hn.
Qed.

(** Of the commands of an incident only the status works: the others are refused by every
    daemon, whoever runs them, and change nothing. The status asks for no account, and
    says whether an incident is open, who declared it and why, and whether the log is
    frozen. *)
Theorem only_status_answers message host e c s sent :
  let d := after (incident_routes host e) sent s in
  run_incident (served message (incident_routes host e) s) host c sent =
  (sent ++ [incident_sent host c],
   match c with
   | IStatus =>
     Ok (match incident d with
         | Some i =>
           if decide (phase i = Resolved) then NotActive (JBool (AppState.AppState.audit_frozen d))
           else Active (id i) (phase_str (phase i)) (ts_print (declared_at i)) (declared_by i) (reason i)
                  (JBool (AppState.AppState.audit_frozen d))
         | None => NotActive (JBool (AppState.AppState.audit_frozen d))
         end)
   | _ => Err (BadStatus 401 "")
   end) /\
  after (incident_routes host e) (sent ++ [incident_sent host c]) s = d.
Proof.
  intros d. rewrite after_snoc. fold d.
  assert (c = IStatus \/ c <> IStatus) as [->|Hc] by (destruct c; ((by left) || (by right))).
  - assert (incident_routes host e (incident_sent host IStatus) d = (d, Ok (status_json d))) as Hr.
    { unfold incident_routes, incident_sent. cbn [incident_body incident_path request_to url auth payload method].
      by rewrite HoldCli.strip_host. }
    rewrite Hr. split; [|done]. unfold run_incident, sbind at 1. rewrite checked_served; fold d; rewrite Hr; cbn [snd].
    + unfold status_json. destruct (incident d) as [i|]; [|done].
      case_bool_decide as Hp; [rewrite decide_True by done|rewrite decide_False by done]; reflexivity.
    + intros j [= <-]. unfold status_json. apply to_value_wf. destruct (incident d) as [i|]; [|done].
      cbn [json_wf forallb snd]. rewrite andb_true_r. apply forallb_forall. intros j [x [<- _]]%in_map_iff.
      destruct x as [p t b []]; done.
  - pose proof (incident_nobody host e c d Hc) as Hn. rewrite Hn. split; [|done].
    unfold run_incident, sbind at 1. rewrite checked_served; fold d; rewrite Hn; [|done]. by destruct c.
Qed.

(** The declaration as the route reads it. *)
Lemma declare_read why w :
  declare_of (to_value (default JNull (incident_body (IDeclare why w)))) = Some (why, webhooks_of w).
Proof.
  assert (to_value (default JNull (incident_body (IDeclare why w))) =
    JObj [("reason", JStr why); ("webhook_urls", JArr (to_value <$> (JStr <$> webhooks_of w)))]) as -> by done.
  unfold declare_of. cbn [as_obj]. replace (no_dup_fields _ _) with true by reflexivity.
  assert (all_some (as_str <$> (to_value <$> (JStr <$> webhooks_of w))) = Some (webhooks_of w)) as Hs.
  { rewrite <- (list_fmap_compose JStr). by apply (all_some_map (fun s => to_value (JStr s))). }
  unfold req, dflt, as_strs. cbn -[webhooks_of fmap]. by rewrite Hs.
Qed.

End incident.
End IncidentCli.

(** ** On concrete data *)
Module ComplianceDemo.
Import Auth.Auth UserDb.UserDemo AppState.AppState Common.Hold LegalHold HoldApi ApiDemo.ApiDemo Http.Http Served HoldCli.

Definition here : string := "http://127.0.0.1:11984".
Definition texts (e : api_error) : string := "no".

Definition e0 : HoldCli.env := {|
  e_t0 := 500; e_now := 501; e_seed := seed0; e_text := "now"; e_draw := r0; e_dir := "/var/lib/maranode" |}.

Lemma hold_needs_credentials_witness :
  run_hold (served texts (hold_routes here e0) (app_with f_hold)) here (HRelease "HOLD-7" "sig") [] =
    ([hold_sent here (HRelease "HOLD-7" "sig")], Err (BadStatus 401 "")).
Proof. apply (hold_needs_credentials texts here e0 (HRelease "HOLD-7" "sig") (app_with f_hold) []). by split. Defined.

Lemma terminal_signature_witness : exists sig,
  (run_hold (served texts (hold_routes here e0) (app_with f_hold)) here (HSignRelease "HOLD-7" "jane" (hex_encode seed0)) []).2 =
    Ok (ReleaseSigned "HOLD-7" "jane" sig).
Proof.
  destruct (terminal_signature texts here e0 "HOLD-7" "jane" seed0 (app_with f_hold) [] eq_refl) as (sig & Hr & _).
  exists sig. by rewrite Hr.
Defined.

(** A hold that was over at 400 is marked as active at 501 and not counted. *)
Definition expired : HoldRecord := {|
  id := "HOLD-8"; placed_at := 8; placed_by := "legal"; reason := "case 8"; seq_from := 1; seq_to := 2;
  expires_at := Some 400; hold_key_pubkey := "k"; placement_sig := "s"; released_at := None; released_by := None;
  release_sig := None; tpm_sealed := false |}.

Definition f_expired : fs := save_hold expired f_key.

Lemma hold_list_shown_witness :
  run_hold (served texts (hold_routes here e0) (app_with f_expired)) here HList [] =
    ([hold_sent here HList],
     Ok (HoldList (JInt 1) (JInt 0)
           [{| h_active := true; h_id := "HOLD-8"; h_from := JInt 1; h_to := JInt 2; h_reason := "case 8" |}])).
Proof.
  rewrite (hold_list_shown texts here e0 (app_with f_expired) []).
  - by vm_compute.
  - apply std_write_wf, f_key_wf.
  - by vm_compute.
Defined.

Example webhooks_trimmed : IncidentCli.webhooks_of (Some " https://a , ,https://b") = ["https://a"; "https://b"].
Proof. done. Qed.
End ComplianceDemo.
