(* ===== verification/HostCli.v ===== *)
(** * Asking the daemon about itself

    Models [verify.rs], [status.rs] and [admin.rs] of [maranode-cli/src/commands] with the
    routes that answer them: [routes/health.rs], [routes/stats.rs], the details of the models
    and the reload. The network and the firewall of the host are those of [Isolation]. *)

From Stdlib Require Import ZArith Lia Ascii String SpecFloat.
From S2P Require Import Prelude Json Crypto Common Events Fs AuditRotate AuditLog Instances UserDb Auth WorkspaceDb WorkspaceApi AppState ModelStore RagEngine Chat Pcr Isolation Config Startup Reload ModelApi Exports Bundle Attest Queue WorkspaceDemo LoadDemo ChatDemo Http ChatCli HoldCli.
Open Scope string_scope.
Open Scope list_scope.
Open Scope Z_scope.

(** ** The daemon's side *)
Module InfoRoutes.
Import Auth.Auth AppState.AppState Chat.Chat Http.Http HoldCli.Served.

Section info.
Context `{!JsonText, !Rfc3339, !DateTimeText, !Sha256}.

(** health.rs. *)
Definition health_json (version : string) (a : app) : json :=
  to_value (JObj [("ok", JBool true); ("version", JStr version); ("air_gap", JBool (air_gap (rt a)))]).

(** stats.rs: [ok_requests] saturates; the average is over the requests that did not fail. *)
Definition avg_latency (s : Stats) : Z :=
  let ok_requests := sat_sub (requests s) (errors s) in
  if 0 <? ok_requests then duration_ms s / ok_requests else 0.

Definition stats_json (uptime : Z) (q : Queue.queue) (s : Stats) : json :=
  to_value (JObj [("uptime_secs", JInt uptime); ("requests", JInt (requests s)); ("errors", JInt (errors s));
    ("tokens_in", JInt (tokens_in s)); ("tokens_out", JInt (tokens_out s)); ("avg_latency_ms", JInt (avg_latency s));
    ("queue_depth", JInt (Queue.waiting q)); ("queue_max", JInt (Queue.max_waiting q))]).

(** The details of the models, a page of them. *)
Definition detail_json (d : ModelApi.ModelDetail) : json :=
  JObj [("id", JStr (ModelApi.d_id d)); ("name", JStr (ModelApi.d_name d)); ("tag", JStr (ModelApi.d_tag d));
        ("model_type", JStr (ModelApi.d_model_type d)); ("size_bytes", JInt (ModelApi.d_size_bytes d));
        ("size_human", JStr (ModelApi.d_size_human d)); ("sha256", JStr (ModelApi.d_sha256 d));
        ("quantization", jopt JStr (ModelApi.d_quantization d)); ("imported_at", JStr (ModelApi.d_imported_at d));
        ("context_length", jopt JInt (ModelApi.d_context_length d))].

Definition details_json (p : ModelApi.page ModelApi.ModelDetail) : json :=
  JObj [("data", JArr (detail_json <$> ModelApi.data p)); ("total", JInt (ModelApi.total p)); ("has_more", JBool (ModelApi.has_more p))].

(** The page of a query without parameters. *)
Definition first_page : ModelApi.PageQuery := {| ModelApi.q_limit := None; ModelApi.q_offset := None |}.

(** What the routes take in besides the state. *)
Record env := { e_version : string; e_uptime : Z; e_queue : Queue.queue; e_now : Z }.

(** A daemon that listens at [host]; these routes ask for no account. *)
Definition info_routes (host : string) (e : env) : handler chat_server := fun r s =>
  (s, match Auth.strip_prefix host (url r) with
      | None => Err NotFound
      | Some p =>
        if negb (String.eqb (method r) "GET") then Err NotFound
        else if String.eqb p "/health" then Ok (health_json (e_version e) (sapp s))
        else if String.eqb p "/stats" then Ok (stats_json (e_uptime e) (e_queue e) (stats s))
        else if String.eqb p "/v1/models/details" then Ok (details_json (ModelApi.list_models_details first_page (e_now e) (store_ s)))
        else Err NotFound
      end).

Lemma info_state host e l s : after (info_routes host e) l s = s.
Proof. unfold after. induction l as [|r l IH]; [done|]. cbn. apply IH. Qed.
End info.
End InfoRoutes.

(** ** verify.rs *)
Module VerifyCli.
Import Isolation.Isolation Http.Http HoldCli.Served.

Inductive verify_command :=
| VNetwork
| VHealth
| VAttest (output data_dir : option string).

(** What [iptables-save] says: whether a policy is drop, and how many lines are the
    daemon's; or nothing. *)
Inductive iptables_state := Summary (drop : bool) (rules : nat) | Skipped.

Inductive conclusion := Verified | NotEnforced | FlagOff.

Record network_report := {
  n_flag : result http_err bool; n_iptables : iptables_state; n_probes : list (string * Z * bool); n_conclusion : conclusion
}.

Inductive verify_output :=
| NetworkReport (r : network_report)
| HealthText (text : string)
| ReportOn (r : Attest.Report.AttestationReport) (file : option string).

Inductive verify_err := VNet (e : http_err) | VExit | VReport (e : Attest.Report.report_err).

(** The exit status of the process. *)
Definition exit_code (c : conclusion) : Z := match c with NotEnforced => 1 | _ => 0 end.

Definition PROBES : list (string * Z) := [("1.1.1.1", 443); ("8.8.8.8", 53); ("93.184.216.34", 80)].

Section verify.
Context `{!JsonText, !Iptables, !Network}.

Definition get_at (host path : string) : request := request_to "GET" (trim_slashes host +:+ path) NoAuth [] NoBody.

Definition check_daemon_flag (w : world) (host : string) : SE (list request) http_err bool :=
  do! j := ask_json w (get_at host "/health") in sret (default false (as_bool (jindex "air_gap" j))).

Definition drop_line (l : string) : bool := contains "-P OUTPUT DROP" l || contains "-P FORWARD DROP" l.
Definition own_line (l : string) : bool := contains "maranode" l || contains "11984" l.

Definition check_iptables (f : fw) : iptables_state :=
  match iptables_save f with
  | Exits true out =>
    let ls := lines (ChatCli.ChatClient.lossy out) in
    Summary (existsb drop_line ls) (List.length (List.filter own_line ls))
  | _ => Skipped
  end.

(** A connection within two seconds. *)
Definition probed : list (string * Z * bool) := (fun t => (t, Reload.Reload.try_connect t)) <$> PROBES.

Definition verify_network (w : world) (host : string) (f : fw) : SE (list request) http_err network_report := fun sent =>
  let r := check_daemon_flag w host sent in
  let any_reachable := existsb snd probed in
  let air_gap_on := match r.2 with Ok b => b | Err _ => false end in
  (r.1, Ok {| n_flag := r.2; n_iptables := check_iptables f; n_probes := probed;
              n_conclusion := if negb any_reachable && air_gap_on then Verified
                              else if any_reachable then NotEnforced else FlagOff |}).

(** The answer is shown whatever its status. *)
Definition show_health (w : world) (host : string) : SE (list request) verify_err string := fun sent =>
  match send w (get_at host "/health") sent with
  | (l, Ok a) => (l, match value_of a with Ok j => Ok (json_pretty j) | Err e => Err (VNet e) end)
  | (l, Err _) => (l, Err VExit)
  end.

(** *** The report, over the files of the host *)
Context `{!TimeText, !Rfc3339, !Hmac, !Hex, !Sha256, !AuditRotate.Zip, !Stamp, !ErrorText, !Attest.Measure.Exe}.
Variable tpm_reason : string.

Definition cmd_attest (data_dir : string) (output : option string) (tpm : Tpm.TpmResult) (now : Z)
    : SE fs verify_err verify_output := fun f =>
  let log_path := path_join data_dir "audit.jsonl" in
  let key_path := path_join data_dir "audit.key" in
  match Attest.Report.generate tpm_reason f (Attest.AttestApi.present f log_path) (Attest.AttestApi.present f key_path) tpm now with
  | Err e => (f, Err (VReport e))
  | Ok r =>
    let text := json_pretty (Attest.Report.report_json tpm_reason r) in
    match output with
    | Some p => (std_write f p text, Ok (ReportOn r (Some p)))
    | None => (f, Ok (ReportOn r None))
    end
  end.

(** The directory that is used when none is given is an argument. *)
Definition run_verify (w : world) (host default_dir : string) (f : fw) (tpm : Tpm.TpmResult) (now : Z) (c : verify_command)
    : SE (fs * list request) verify_err verify_output := fun s =>
  match c with
  | VNetwork =>
    let r := verify_network w host f s.2 in ((s.1, r.1), map_err VNet (rmap NetworkReport r.2))
  | VHealth => let r := show_health w host s.2 in ((s.1, r.1), rmap HealthText r.2)
  | VAttest output dir => let r := cmd_attest (default default_dir dir) output tpm now s.1 in ((r.1, s.2), r.2)
  end.

(** *** What the verdict depends on *)
Context `{!DateTimeText}.

Lemma probed_any : existsb snd probed = existsb Reload.Reload.try_connect PROBES.
Proof. done. Qed.

(** Against a daemon the verdict depends on its setting and on the three connections of
    the command, and on nothing else: whatever the firewall has, and whatever the daemon's
    own probe has found, a host that reaches none of the addresses is verified when the
    setting is on. *)
Theorem network_verdict message host e (s : Chat.Chat.chat_server) f sent :
  let on := AppState.AppState.air_gap (AppState.AppState.rt (Chat.Chat.sapp s)) in
  verify_network (served message (InfoRoutes.info_routes (trim_slashes host) e) s) host f sent =
  (sent ++ [get_at host "/health"],
   Ok {| n_flag := Ok on; n_iptables := check_iptables f; n_probes := probed;
         n_conclusion := if existsb Reload.Reload.try_connect PROBES then NotEnforced else if on then Verified else FlagOff |}).
Proof.
  intros on. unfold verify_network, check_daemon_flag, ask_json, send, sbind, slift, sret, served.
  rewrite InfoRoutes.info_state. unfold InfoRoutes.info_routes, get_at. cbn [url method request_to fst snd].
  rewrite HoldCli.HoldCli.strip_host. cbn [String.eqb Ascii.eqb Bool.eqb negb reply_of ok_or snd]. unfold value_of. cbn [content].
  rewrite json_parse_print by done. cbn -[existsb probed]. fold on. rewrite probed_any.
  by destruct (existsb _ PROBES).
Qed.

(** A daemon that does not answer counts as one whose setting is off, and the command ends
    with success unless an address answers. *)
Lemma unreachable_daemon w host f sent :
  w sent (get_at host "/health") = None -> existsb Reload.Reload.try_connect PROBES = false ->
  exists r, (verify_network w host f sent).2 = Ok r /\ n_conclusion r = FlagOff /\ exit_code (n_conclusion r) = 0.
Proof.
  intros Hw Hp. eexists. split; [reflexivity|]. cbn [n_conclusion].
  unfold check_daemon_flag, ask_json, send, sbind. rewrite Hw. cbn [ok_or snd]. rewrite probed_any, Hp. done.
Qed.

End verify.
End VerifyCli.

(** ** status.rs *)
Module StatusCli.
Import Http.Http HoldCli.Served Chat.Chat InfoRoutes.

Record status_view := {
  v_version : string; v_uptime : string; v_air_gap : bool; v_models : nat; v_requests : Z; v_errors : Z;
  v_tokens_out : Z; v_avg_latency : Z; v_queue_depth : Z; v_queue_max : Z
}.

Definition format_uptime (secs : Z) : string :=
  let d := secs / 86400 in
  let h := (secs mod 86400) / 3600 in
  let m := (secs mod 3600) / 60 in
  if 0 <? d then show_u64 d +:+ "d " +:+ show_u64 h +:+ "h " +:+ show_u64 m +:+ "m"
  else if 0 <? h then show_u64 h +:+ "h " +:+ show_u64 m +:+ "m"
  else show_u64 m +:+ "m " +:+ show_u64 (secs mod 60) +:+ "s".

(** The number of elements under [data], or of the value itself. *)
Definition model_count (j : json) : nat :=
  match (some? m := as_obj j in some? d := jget "data" m in as_arr d) with
  | Some l => List.length l
  | None => match as_arr j with Some l => List.length l | None => 0%nat end
  end.

Definition as_u64 (k : string) (j : json) : Z := default 0 (as_uint u64_max (jindex k j)).

Section status.
Context `{!JsonText}.

Definition get_at (base path : string) : request := request_to "GET" (base +:+ path) NoAuth [] NoBody.

(** Null when no answer comes or it does not read. *)
Definition or_null (w : world) (r : request) : SE (list request) http_err json := fun sent =>
  let x := ask_json w r sent in (x.1, Ok (match x.2 with Ok j => j | Err _ => JNull end)).

Definition run_status (w : world) (host : string) : SE (list request) http_err status_view :=
  let base := trim_slashes host in
  do! health := ask_json w (get_at base "/health") in
  do! stats := or_null w (get_at base "/stats") in
  do! models := or_null w (get_at base "/v1/models/details") in
  sret {| v_version := default "?" (as_str (jindex "version" health));
          v_uptime := format_uptime (as_u64 "uptime_secs" stats);
          v_air_gap := default false (as_bool (jindex "air_gap" health));
          v_models := model_count models;
          v_requests := as_u64 "requests" stats; v_errors := as_u64 "errors" stats;
          v_tokens_out := as_u64 "tokens_out" stats; v_avg_latency := as_u64 "avg_latency_ms" stats;
          v_queue_depth := as_u64 "queue_depth" stats; v_queue_max := as_u64 "queue_max" stats |}.

(** *** Against a daemon *)
Context `{!Rfc3339, !DateTimeText, !Sha256}.

Lemma asked message host e (s : chat_server) sent path j :
  (info_routes host e (get_at host path) s).2 = Ok j -> json_wf j = true ->
  ask_json (served message (info_routes host e) s) (get_at host path) sent = (sent ++ [get_at host path], Ok (to_value j)).
Proof.
  intros Hj Hw. unfold ask_json, send, sbind, slift, served. rewrite info_state, Hj. cbn [ok_or reply_of].
  unfold value_of. cbn [Http.content]. by rewrite json_parse_print.
Qed.

(** The numbers that the daemon answers with are those of their types. *)
Definition counters_ok (e : env) (s : chat_server) : Prop :=
  Forall (fun z => uint_ok u64_max z = true)
    [e_uptime e; requests (stats s); errors (stats s); tokens_in (stats s); tokens_out (stats s);
     avg_latency (stats s); Queue.Queue.waiting (e_queue e); Queue.Queue.max_waiting (e_queue e)].

Lemma stats_wf e s : counters_ok e s -> json_wf (stats_json (e_uptime e) (e_queue e) (stats s)) = true.
Proof.
  unfold counters_ok. rewrite !Forall_cons. intros (Q1 & Q2 & Q3 & Q4 & Q5 & Q6 & Q7 & Q8 & _). apply to_value_wf.
  cbn [json_wf forallb snd]. unfold uint_ok in *. lia.
Qed.

Lemma as_u64_at k j z : jindex k j = JInt z -> uint_ok u64_max z = true -> as_u64 k j = z.
Proof. intros Hj Hz. unfold as_u64. by rewrite Hj, as_uint_ok. Qed.

Lemma first_page_count now st :
  model_count (to_value (details_json (ModelApi.ModelApi.list_models_details first_page now st))) =
  Nat.min 100 (List.length (ModelStore.ModelStore.list_models now st)).
Proof.
  assert (forall p, model_count (to_value (details_json p)) = List.length (ModelApi.ModelApi.data p)) as Hl.
  { intros p. change (List.length (to_value <$> (detail_json <$> ModelApi.ModelApi.data p)) = List.length (ModelApi.ModelApi.data p)). by rewrite !length_fmap. }
  rewrite Hl. unfold ModelApi.ModelApi.list_models_details, ModelApi.ModelApi.paged. cbn [ModelApi.ModelApi.data].
  by rewrite length_fmap, length_take, length_drop, Nat.sub_0_r.
Qed.

Ltac routed := unfold info_routes, get_at; cbn [url method request_to]; rewrite HoldCli.HoldCli.strip_host.

(** The command shows the counters of the daemon as they are, and of the models only those
    of one page: from a hundred models on it shows a hundred. *)
Theorem status_shown message host e (s : chat_server) sent :
  let base := trim_slashes host in
  let all := ModelStore.ModelStore.list_models (e_now e) (store_ s) in
  counters_ok e s -> json_wf (details_json (ModelApi.ModelApi.list_models_details first_page (e_now e) (store_ s))) = true ->
  run_status (served message (info_routes base e) s) host sent =
  (sent ++ [get_at base "/health"] ++ [get_at base "/stats"] ++ [get_at base "/v1/models/details"],
   Ok {| v_version := e_version e; v_uptime := format_uptime (e_uptime e);
         v_air_gap := AppState.AppState.air_gap (AppState.AppState.rt (sapp s));
         v_models := Nat.min 100 (List.length all);
         v_requests := requests (stats s); v_errors := errors (stats s); v_tokens_out := tokens_out (stats s);
         v_avg_latency := avg_latency (stats s);
         v_queue_depth := Queue.Queue.waiting (e_queue e); v_queue_max := Queue.Queue.max_waiting (e_queue e) |}).
Proof.
  intros base all Hc Hd. pose proof (stats_wf e s Hc) as Hs.
  assert (forall path j, (info_routes base e (get_at base path) s).2 = Ok j -> json_wf j = true -> forall l,
    ask_json (served message (info_routes base e) s) (get_at base path) l = (l ++ [get_at base path], Ok (to_value j))) as Ha.
  { intros path j Hj Hw l. by apply asked. }
  unfold run_status. fold base. unfold sbind at 1. rewrite (Ha "/health" (health_json (e_version e) (sapp s))).
  2: by routed.
  2: done.
  unfold sbind at 1, or_null at 1. rewrite (Ha "/stats" (stats_json (e_uptime e) (e_queue e) (stats s))); [|by routed|done].
  unfold sbind at 1, or_null at 1. rewrite (Ha "/v1/models/details" (details_json (ModelApi.ModelApi.list_models_details first_page (e_now e) (store_ s)))); [|by routed|done].
  unfold sret. cbn [fst snd]. rewrite <- !app_assoc. do 2 f_equal.
  unfold counters_ok in Hc. rewrite !Forall_cons in Hc. destruct Hc as (Q1 & Q2 & Q3 & Q4 & Q5 & Q6 & Q7 & Q8 & _).
  f_equal; try by apply as_u64_at.
  - f_equal. by apply as_u64_at.
  - apply first_page_count.
Qed.
End status.
End StatusCli.

(** ** admin.rs *)
Module AdminCli.
Import Config.Config Reload.Reload Http.Http HoldCli.Served.

(** The answer as the command reads it. *)
Record ReloadShown := { s_path : option string; s_applied : list string; s_restart : list string }.

Inductive admin_cli_err := Net (e : http_err) | BadShape.

(** An empty key is no key. *)
Definition key_sent (admin_key : option string) : credentials :=
  match admin_key with Some k => if String.eqb k "" then NoAuth else Bearer k | None => NoAuth end.

Definition reload_sent (host : string) (admin_key : option string) : request :=
  request_to "POST" (trim_slashes host +:+ "/v1/admin/config/reload") (key_sent admin_key) [] NoBody.

Definition strings_of (j : json) : option (list string) := some? l := as_arr j in all_some (as_str <$> l).

Definition reload_shown_of (j : json) : option ReloadShown :=
  some? m := as_obj j in
  check no_dup_fields ["path"; "applied"; "requires_restart"] m in
  some? p := opt as_str "path" m in
  some? a := req strings_of "applied" m in
  some? r := req strings_of "requires_restart" m in
  Some {| s_path := p; s_applied := a; s_restart := r |}.

Section admin.
Context `{!JsonText}.

Definition reload_command (w : world) (host : string) (admin_key : option string) : SE (list request) admin_cli_err ReloadShown :=
  fun sent =>
  match send w (reload_sent host admin_key) sent with
  | (l, Err e) => (l, Err (Net e))
  | (l, Ok a) =>
    (l, let? a := map_err Net (error_for_status a) in
        let? j := ok_or (json_parse (content a)) (Net NotJson) in
        ok_or (reload_shown_of j) BadShape)
  end.

(** *** The daemon's side *)
Context `{!Toml, !LogFilter, !Isolation.Iptables, !TimeText, !Hmac, !Hex, !Sha256, !Zip, !Stamp, !Base64}.

(** [ReloadResponse] of the daemon. *)
Definition response_json (r : ReloadResponse) : json :=
  JObj [("ok", JBool true); ("path", JStr (r_path r)); ("applied", JArr (JStr <$> applied r));
        ("requires_restart", JArr (JStr <$> requires_restart r))].

Definition admin_headers_of (c : credentials) : admin_headers :=
  {| authorization := Auth.Auth.authorization (headers_of c); x_api_key := None |}.

Definition reload_handler (host : string) (e : env) (f : fs) (now : Z) (fault : Log.write_fault) : handler daemon := fun r d =>
  match Auth.strip_prefix host (url r) with
  | Some p =>
    if String.eqb (method r) "POST" && String.eqb p "/v1/admin/config/reload" then
      let x := reload_route (admin_headers_of (auth r)) e f now fault d in
      (x.1, match x.2 with
            | Ok a => Ok (response_json a)
            | Err Refused => Err Auth.Auth.Forbidden
            | Err Internal => Err Auth.Auth.Internal
            end)
    else (d, Err Auth.Auth.NotFound)
  | None => (d, Err Auth.Auth.NotFound)
  end.

Lemma response_wf r : json_wf (response_json r) = true.
Proof.
  assert (forall l : list string, forallb json_wf (JStr <$> l) = true) as Hl by (induction l; done).
  unfold response_json. cbn [json_wf forallb snd]. by rewrite !Hl.
Qed.

Lemma strings_round l : strings_of (JArr (JStr <$> l)) = Some l.
Proof. unfold strings_of. cbn [as_arr]. by apply all_some_map. Qed.

Lemma response_round r :
  reload_shown_of (response_json r) = Some {| s_path := Some (r_path r); s_applied := applied r; s_restart := requires_restart r |}.
Proof.
  unfold reload_shown_of, response_json. cbn [as_obj]. replace (no_dup_fields _ _) with true by reflexivity.
  unfold req, opt. cbn -[strings_of fmap]. by rewrite !strings_round.
Qed.

Lemma bearer_read k : (some? v := authorization (admin_headers_of (Bearer k)) in Auth.Auth.strip_prefix "Bearer " v) = Some k.
Proof. done. Qed.

(** Whether the daemon takes the key of the command: it has one, and it is that key. *)
Definition key_fits (admin_key : option string) (d : daemon) : bool :=
  match admin_key, Reload.Reload.admin_key (runtime d) with
  | Some k, Some k' => negb (String.eqb k "") && String.eqb k k'
  | _, _ => false
  end.

Lemma key_admitted k d : require_admin (admin_headers_of (key_sent k)) (Reload.Reload.admin_key (runtime d)) = key_fits k d.
Proof.
  unfold key_fits, require_admin. destruct (Reload.Reload.admin_key (runtime d)) as [k'|]; [|by destruct k].
  destruct (String.eqb_spec k' "") as [->|Hne].
  { destruct k as [k|]; [|done]. by destruct (String.eqb_spec k ""). }
  destruct k as [k|]; cbn [key_sent].
  - destruct (String.eqb_spec k "") as [->|Hk]; cbn [negb andb].
    + cbn. apply not_true_iff_false. rewrite Secure.ct_eq_str_true. congruence.
    + rewrite bearer_read. apply eq_true_iff_eq. by rewrite Secure.ct_eq_str_true, String.eqb_eq.
  - cbn. apply not_true_iff_false. rewrite Secure.ct_eq_str_true. congruence.
Qed.

(** With the key of the daemon the command reloads it and shows what the reload says, and
    a reload that fails ends the command; with another key, with an empty one or with none,
    and at a daemon that has no key, it is refused and nothing changes. *)
Theorem reload_from_terminal message host k e f now fault d sent :
  let h := reload_handler (trim_slashes host) e f now fault in
  let d0 := after h sent d in
  let r := reload e f now fault d0 in
  reload_command (served message h d) host k sent =
    (sent ++ [reload_sent host k],
     if key_fits k d0 then
       match r.2 with
       | Ok a => Ok {| s_path := Some (r_path a); s_applied := applied a; s_restart := requires_restart a |}
       | Err _ => Err (Net (BadStatus 500 ""))
       end
     else Err (Net (BadStatus 403 ""))) /\
  after h (sent ++ [reload_sent host k]) d = if key_fits k d0 then r.1 else d0.
Proof.
  intros h d0 r.
  assert (h (reload_sent host k) d0 =
    if key_fits k d0 then (r.1, match r.2 with Ok a => Ok (response_json a) | Err _ => Err Auth.Auth.Internal end)
    else (d0, Err Auth.Auth.Forbidden)) as Hh.
  { unfold h, reload_handler, reload_sent. cbn [url method auth request_to]. rewrite HoldCli.HoldCli.strip_host.
    cbn [String.eqb Ascii.eqb Bool.eqb andb]. unfold reload_route. rewrite key_admitted.
    destruct (key_fits k d0); [|done]. fold r. cbn [fst snd]. by destruct r.2. }
  rewrite after_snoc. fold d0. rewrite Hh. split; [|by destruct (key_fits k d0)].
  unfold reload_command, send, served. fold d0. rewrite Hh. cbn [ok_or].
  destruct (key_fits k d0); [|done]. cbn [snd]. destruct r.2 as [a|x]; [|done]. cbn [reply_of].
  cbn -[json_parse json_print response_json reload_shown_of].
  rewrite json_parse_print by apply response_wf. cbn [ok_or rbind]. by rewrite response_round.
Qed.
End admin.
End AdminCli.

(** ** On concrete data *)
Module HostCliDemo.
Import UserDb.UserDemo Http.Http HoldCli.Served InfoRoutes.

Definition here : string := "http://127.0.0.1:11984/".
Definition texts (e : Auth.Auth.api_error) : string := "no".

Definition e0 : env := {| e_version := "0.1.0"; e_uptime := 93784; e_queue := Queue.Queue.new 32 4; e_now := 500 |}.

Lemma status_shown_witness :
  (StatusCli.run_status (served texts (info_routes "http://127.0.0.1:11984" e0) ChatDemo.chat0) here []).2 =
  Ok {| StatusCli.v_version := "0.1.0"; StatusCli.v_uptime := "1d 2h 3m"; StatusCli.v_air_gap := true; StatusCli.v_models := 2;
        StatusCli.v_requests := 0; StatusCli.v_errors := 0; StatusCli.v_tokens_out := 0; StatusCli.v_avg_latency := 0;
        StatusCli.v_queue_depth := 0; StatusCli.v_queue_max := 32 |}.
Proof.
  refine (eq_trans (f_equal snd (StatusCli.status_shown texts here e0 ChatDemo.chat0 [] _ _)) _).
  - unfold StatusCli.counters_ok. repeat (apply Forall_cons; split; [by vm_compute|]). by apply Forall_nil.
  - by vm_compute.
  - by vm_compute.
Defined.

(** A host without a network: a daemon whose own probe has failed is verified all the same. *)
Definition dark : Isolation.Isolation.Network := {|
  Isolation.Isolation.resolves := fun a => Some [a]; Isolation.Isolation.connects := fun _ => false |}.

(** A host that reaches one address over https: the daemon's probe, which tries another
    port there, finds nothing, and the command does. *)
Definition https_only : Isolation.Isolation.Network := {|
  Isolation.Isolation.resolves := fun a => Some [a]; Isolation.Isolation.connects := fun a => String.eqb a "1.1.1.1:443" |}.

Example probes_differ :
  @Reload.Reload.isolated https_only = true /\ existsb (@Reload.Reload.try_connect https_only) VerifyCli.PROBES = true.
Proof. done. Qed.

(** The table that iptables-save prints has no line of the kind that is looked for: an
    output policy that drops is reported as accepting. *)
Example drop_not_seen : VerifyCli.drop_line ":OUTPUT DROP [0:0]" = false /\ VerifyCli.own_line ":OUTPUT DROP [0:0]" = false.
Proof. done. Qed.
End HostCliDemo.
