(* ===== verification/StoreCli.v ===== *)
(** * Workspaces and models from the command line

    Models [workspace.rs] and [model.rs] of [maranode-cli/src/commands]: the destruction of
    a workspace's key with its entry in the audit log, and the store of models as the
    commands use it, beside the daemon. *)

From Stdlib Require Import ZArith Lia Ascii String.
From S2P Require Import Prelude Json Crypto Common Events Entry Fs AuditChain AuditLog AuditRotate AuditInv AuditRefine AuditTheorems AuditDemo Instances UserDb Auth WorkspaceDb WorkspaceDemo ModelStore Lifecycle RagChunk RagText CodeScan Hints ModelApi Exports Bundle AuditCli Http.
Open Scope string_scope.
Open Scope list_scope.
Open Scope Z_scope.

(** ** workspace.rs *)
Module WorkspaceCli.
Import Events Entry Verify Log WorkspaceDb.WorkspaceDb.

Inductive shred_err := KekFailed (e : Kek.key_err) | NotFound | AuditFailed (e : audit_err).

(** The umask, what is drawn, the clock, and how the write of the log ends. *)
Record shred_env := {
  s_umask : Z; s_fresh_kek : string; s_fresh_key : string; s_uid : string; s_created : string;
  s_now : Z; s_fault : Log.write_fault
}.

Definition statement (slug : string) : string :=
  "the encryption key (DEK) for workspace '" +:+ slug +:+ "' has been permanently destroyed. " +:+
  "all data encrypted under this key is now cryptographically unreadable. " +:+
  "this action cannot be reversed.".

Definition shred_event (slug : string) : AuditEvent := WorkspaceShredded slug "cli" (statement slug).

Section workspace.
Context `{!JsonText, !TimeText, !Rfc3339, !DateTimeText, !Hmac, !Hex, !Sha256, !AuditRotate.Zip, !Stamp, !ErrorText, !Ed25519, !Archive, !Aead}.

(** The files of the data directory and the rows of its workspaces. The key is destroyed
    before the log is opened; without the confirmation nothing is done. *)
Definition shred (data_dir slug : string) (yes : bool) (e : shred_env) : SE (fs * list ws_row) shred_err (option string) := fun s =>
  if negb yes then (s, Ok None) else
  match Kek.load_or_create (s_umask e) s.1 (Kek.default_kek_path data_dir) (s_fresh_kek e) with
  | Err x => (s, Err (KekFailed x))
  | Ok (f, master_key) =>
    let r := destroy_dek slug (open_with_kek s.2 (s_uid e) (s_created e) master_key) in
    match r.2 with
    | Ok true =>
      match Key.load_or_generate (s_umask e) f (AuditCli.AuditCli.key_path data_dir) (s_fresh_key e) with
      | Err x => ((f, rows r.1), Err (AuditFailed x))
      | Ok (f, key) =>
        match Log.open_with_key f data_dir (AuditCli.AuditCli.log_path data_dir) key with
        | Err x => ((f, rows r.1), Err (AuditFailed x))
        | Ok w =>
          let a := Log.append (s_fault e) (s_now e) "cli" (shred_event slug) w in
          ((a.1.1, rows r.1), match a.2 with Ok _ => Ok (Some (statement slug)) | Err x => Err (AuditFailed x) end)
        end
      end
    | _ => ((f, rows r.1), Err NotFound)
    end
  end.

(** *** No certificate *)

(** A line never reads as a destroyed key: the name [actor] belongs to the entry. *)
Lemma event_actor m ev : event_of m = Some ev -> jget "actor" m = None -> collides ev = false.
Proof.
  intros He Ha. unfold event_of in He. destruct (Nat.leb _ 1); [|done].
  assert (req as_str "actor" m = None) as Hr by (unfold req; by rewrite Ha).
  destruct (req as_str "event" m) as [kind|]; [|done].
  repeat match type of He with
  | (if ?b then _ else _) = Some ev =>
    destruct b; [repeat (match type of He with
                         | (if ?c then _ else None) = _ => destruct c; [|done]
                         | match ?o with _ => _ end = _ => let E := fresh "E" in destruct o eqn:E; [|done]
                         end); try congruence; by injection He as <-|]
  end; done.
Qed.
Lemma without_get k known m : existsb (String.eqb k) known = true -> jget k (without known m) = None.
Proof.
  intros Hk. induction m as [|[k' v] m IH]; [done|]. unfold without in *. cbn [List.filter fst].
  destruct (existsb (String.eqb k') known) eqn:E; cbn [negb]; [exact IH|].
  cbn [jget]. destruct (String.eqb_spec k k') as [->|]; [congruence|exact IH].
Qed.

Lemma entry_not_shredded j e : entry_of j = Some e -> collides (event e) = false.
Proof.
  unfold entry_of. destruct (as_obj j) as [m|]; [|done]. destruct (no_dup_fields _ m); [|done].
  repeat match goal with |- match ?o with _ => _ end = _ -> _ => let E := fresh "E" in destruct o eqn:E; [|done] end.
  intros [= <-]. cbn [event]. eapply event_actor; [eassumption|]. by apply without_get.
Qed.

Lemma none_shredded slug content : AuditCli.AuditCli.find_map (AuditCli.AuditCli.shredded slug) (entries_of content) = None.
Proof.
  unfold entries_of. induction (List.filter _ (lines content)) as [|l ls IH]; [done|]. cbn [omap list_omap].
  destruct (parse_line l) as [e|] eqn:E; [|exact IH]. cbn [AuditCli.AuditCli.find_map].
  assert (collides (event e) = false) as Hc.
  { unfold parse_line in E. destruct (json_parse l) as [j|]; [|done]. by eapply entry_not_shredded. }
  unfold AuditCli.AuditCli.shredded at 1. destruct (event e); (exact IH || done).
Qed.

(** No deletion certificate can be exported, for any workspace and whatever the log has:
    the command fails and writes nothing. *)
Theorem no_certificate data_dir slug output fault f :
  exists x, AuditCli.AuditCli.export_deletion_cert data_dir slug output fault f = (f, Err x).
Proof.
  unfold AuditCli.AuditCli.export_deletion_cert, sbind, sget, slift. destruct (negb _); [by eexists|].
  destruct (read_to_string f _) as [content|]; cbn; [|by eexists]. rewrite none_shredded. by eexists.
Qed.

(** *** The command *)

(** The files of a host whose log is intact and whose keys are there. *)
Definition host_ok (data_dir : string) (f : fs) (log : Log.LogInner) (a : alog) (kek : string) : Prop :=
  log_inv (f, log) a /\ Log.ldir log = data_dir /\ Log.lpath log = AuditCli.AuditCli.log_path data_dir /\
  exists_ f (AuditCli.AuditCli.key_path data_dir) = true /\ Key.load f (AuditCli.AuditCli.key_path data_dir) = Ok (Log.lkey log) /\
  (forall umask fresh, Kek.load_or_create umask f (Kek.default_kek_path data_dir) fresh = Ok (f, kek)) /\
  2 + Z.of_nat (List.length (total a)) < 2 ^ 64.

(** C37: On such a host the command reports success. The key is gone for good: no later start,
    update or rotation of the workspaces brings it back. And the log, which verified,
    verifies no more; the certificate that the command says is in it cannot be exported. *)
Theorem shred_spec data_dir slug e f l log a kek :
  host_ok data_dir f log a kek -> has_slug slug (open_with_kek l (s_uid e) (s_created e) kek) = true -> s_fault e = Log.WriteOk ->
  exists f' l', shred data_dir slug true e (f, l) = ((f', l'), Ok (Some (statement slug))) /\
    (forall uid created k ops, Forall (fun o => creates slug o = false) ops ->
       get_dek_bytes slug (run ops (open_with_kek l' uid created k)) = Ok None) /\
    (exists r, verify_all f' data_dir (Log.lkey log) (AuditCli.AuditCli.log_path data_dir) = Ok r /\ Verify.ok r = false) /\
    forall output fault, exists x, AuditCli.AuditCli.export_deletion_cert data_dir slug output fault f' = (f', Err x).
Proof.
  intros (Hinv & Hd & Hp & Hke & Hk & Hkek & Hn) Hs Hw.
  destruct (shredding_breaks_chain (f, rotation_off log) a (s_now e) "cli" (shred_event slug)) as (w' & Ha & _ & Hv & _);
    [exact Hinv|done|done|exact Hn|].
  exists w'.1, (rows (destroy_dek slug (open_with_kek l (s_uid e) (s_created e) kek)).1). split; [|split; [|split]].
  - unfold shred. cbn [negb fst snd]. rewrite Hkek. cbn [destroy_dek snd fst]. rewrite Hs.
    unfold Key.load_or_generate. rewrite Hke, Hk. cbn [rmap rbind].
    rewrite <- Hp, <- Hd. pose proof (reopen_inv _ _ Hinv) as Ho. cbn [fst snd] in Ho. rewrite Ho, Hw, Ha. done.
  - intros uid created k ops Hops. apply unkeyed_get, run_unkeyed; [done|]. intros r Hr Hslug.
    cbn [open_with_kek rows] in Hr. unfold open_conn in Hr.
    assert (In r (rows (destroy_dek slug (open_with_kek l (s_uid e) (s_created e) kek)).1) \/ r = default_row uid created) as [Hin|Hin]; [| |by subst r].
    { destruct (existsb _ _); [by left|]. apply in_app_iff in Hr as [Hr|[<-|[]]]; [by left|by right]. }
    apply in_on_slug in Hin as (r0 & _ & ->). revert Hslug. destruct (String.eqb_spec (w_slug r0) slug) as [Heq|Hne]; [done|congruence].
  - destruct Hv as (r & Hr & Hok). exists r. split; [|done]. by rewrite <- Hp, <- Hd.
  - intros output fault. apply no_certificate.
Qed.
End workspace.
End WorkspaceCli.

(** ** model.rs *)
Module ModelCli.
Import ModelStore.ModelStore Common.Models RagChunk.Chunk RagText.Utf8.

(** The commands besides [Quant], which is in the file of that name. *)
Inductive model_command :=
| MPull (source name tag : string) (quant : option string) (type_ : string)
| MImport (path name tag : string) (quant : option string) (type_ : string)
| MList
| MRemove (model : string).

Inductive model_err := BadSource | Store (e : store_err) | BadId | NotThere (did_you_mean : option string) | Panicked.

(** A line of the table; the digest is cut. *)
Record model_line := { l_id : string; l_type : ModelType; l_imported : Z; l_size : string; l_sha : string }.

Inductive model_output :=
| Stored (id size short : string)
| Empty
| Lines (l : list model_line)
| RemovedIt (model : string).

(** What a URL answers, and what a store draws. *)
Record env := { e_web : string -> string * download; e_uuid : string; e_id : string; e_now : Z; e_fault : option nat }.

(** Where a source is: a URL as it is, or a file of a repository. *)
Definition url_of (source : string) : option string :=
  if String.prefix "https://" source || String.prefix "http://" source then Some source else
  some? p := split_once "/"%char source in
  some? q := split_once "/"%char p.2 in
  Some ("https://huggingface.co/" +:+ p.1 +:+ "/" +:+ q.1 +:+ "/resolve/main/" +:+ q.2).

(** The same sizes as the routes print. *)
Definition human_size (bytes : Z) : string := ModelApi.ModelApi.human_size bytes.

(** [get(..16)], or the whole text. *)
Definition cut16 (s : string) : string := if Lifecycle.Lifecycle.cut_ok 16 s then stake 16 s else s.

Section model.
Context `{!Unicode, !Rfc3339, !DateTimeText, !Sha256}.

(** The type of a text; an unknown one counts as a chat model, with a warning that may
    have a suggestion. *)
Definition parse_model_type (s : string) : ModelType * option (text * option text) :=
  let t := to_lowercase (chars s) in
  if bool_decide (t = str "embedding") || bool_decide (t = str "embed") then (Embedding, None)
  else if bool_decide (t = str "llm") || bool_decide (t = str "chat") || bool_decide (t = []) then (Llm, None)
  else (Llm, Some (t, Hints.Hints.did_you_mean t [str "llm"; str "embedding"])).

Definition stored (name tag : string) (m : ModelManifest) : model_output :=
  Stored (name +:+ ":" +:+ tag) (human_size (size_bytes m)) (cut16 (sha256 m)).

Definition on_store {A : Type} (m : SE store store_err A) : SE store model_err A := fun s =>
  match m s with (s, Ok a) => (s, Ok a) | (s, Err x) => (s, Err (Store x)) end.

Definition pull (source name tag : string) (quant : option string) (type_ : string) (e : env) : SE store model_err model_output :=
  do! url := slift (ok_or (url_of source) BadSource) in
  let answer := e_web e url in
  do! m := on_store (pull_from_url answer.1 answer.2 {| Common.Models.name := name; Common.Models.tag := tag |} quant
                       (parse_model_type type_).1 (e_uuid e) (e_id e) (e_now e)) in
  sret (stored name tag m).

Definition import (path name tag : string) (quant : option string) (type_ : string) (e : env) : SE store model_err model_output :=
  do! m := on_store (import_from_file path {| Common.Models.name := name; Common.Models.tag := tag |} quant
                       (parse_model_type type_).1 (e_uuid e) (e_id e) (e_now e) (e_fault e)) in
  sret (stored name tag m).

Definition line_shown (m : ModelManifest) : model_line := {|
  l_id := display (model_id m); l_type := model_type m; l_imported := imported_at m;
  l_size := human_size (size_bytes m); l_sha := stake 16 (sha256 m) |}.

(** [&m.sha256[..16]], which panics when the sixteenth byte is not there or is inside a
    character. *)
Definition line_of (m : ModelManifest) : option model_line :=
  check Lifecycle.Lifecycle.cut_ok 16 (sha256 m) in Some (line_shown m).

Definition list_them (e : env) : SE store model_err model_output :=
  do! s := sget in
  match list_models (e_now e) s with
  | [] => sret Empty
  | all => do! ls := slift (ok_or (all_some (line_of <$> all)) Panicked) in sret (Lines ls)
  end.

Definition remove_it (model : string) (e : env) : SE store model_err model_output :=
  do! id := slift (ok_or (parse model) BadId) in
  do! removed := (fun s => let r := remove id s in (r.1, Ok r.2)) in
  if removed : bool then sret (RemovedIt model) else
  do! s := sget in
  let names := (fun m => chars (display (model_id m))) <$> list_models (e_now e) s in
  sfail (NotThere (utf8 <$> Hints.Hints.did_you_mean (chars model) names)).

Definition run_model (c : model_command) (e : env) : SE store model_err model_output :=
  match c with
  | MPull source name tag quant t => pull source name tag quant t e
  | MImport path name tag quant t => import path name tag quant t e
  | MList => list_them e
  | MRemove model => remove_it model e
  end.

Fixpoint run_all (l : list (model_command * env)) (s : store) : store :=
  match l with [] => s | (c, e) :: l => run_all l (run_model c e s).1 end.

(** *** Through any commands *)

Lemma bind_state {A : Type} (m : SE store store_err A) (k : A -> model_output) s :
  (sbind (on_store m) (fun a => sret (k a)) s).1 = (m s).1.
Proof. unfold sbind, on_store. by destruct (m s) as [s' [a|e]]. Qed.

Lemma parse_no_colon x id : parse x = Some id -> has_char ":" (name id) = false.
Proof.
  unfold parse. destruct (split_once ":" x) as [[n t]|] eqn:E; [|done]. intros [= <-]. by apply split_once_some in E as [_ E].
Qed.

(** A command is no step of the store, or one; what it removes has no colon in its name. *)
Lemma run_step c e s : (run_model c e s).1 = s \/
  exists q, (run_model c e s).1 = handle_model q s /\ match q with Remove id => has_char ":" (name id) = false | _ => True end.
Proof.
  destruct c as [source name tag quant t|path name tag quant t| |model]; cbn [run_model].
  - unfold pull. destruct (url_of source) as [u|]; [|by left]. right.
    eexists (Pull _ _ _ _ _ _ _ _). split; [|done]. exact (bind_state _ _ s).
  - right. eexists (Import _ _ _ _ _ _ _ _). split; [|done]. exact (bind_state _ _ s).
  - left. unfold list_them, sbind, sget, slift, sret. cbn. destruct (list_models _ _) as [|m l]; [done|]. by destruct (ok_or _ _).
  - unfold remove_it, sbind, slift, sget, sret, sfail. destruct (parse model) as [id|] eqn:E; [|by left]. cbn [ok_or].
    right. exists (Remove id). split; [|by eapply parse_no_colon]. cbn [handle_model]. by destruct (remove id s) as [s' []].
Qed.

Lemma run_all_steps l s : rtc model_step s (run_all l s).
Proof.
  revert s. induction l as [|[c e] l IH]; intros s; cbn [run_all]; [done|].
  destruct (run_step c e s) as [->|(q & Hq & _)]; [apply IH|]. eapply rtc_l; [by exists q|apply IH].
Qed.

Lemma sha_cut h : Secure.is_sha256_hex h = true -> Lifecycle.Lifecycle.cut_ok 16 h = true.
Proof.
  unfold Secure.is_sha256_hex, Lifecycle.Lifecycle.cut_ok. intros Hh. apply andb_true_iff in Hh as [Hl Hs].
  apply Nat.eqb_eq in Hl. rewrite Hl. revert Hs. rewrite <- (stake_sdrop 16 h) at 1. rewrite string_forall_app. intros Hs.
  apply andb_true_iff in Hs as [_ Hs]. destruct (sdrop 16 h) as [|c r]; [done|]. cbn [string_forall] in Hs.
  apply andb_true_iff in Hs as [Hc _]. revert Hc. clear. destruct c as [[] [] [] [] [] [] [] []]; by vm_compute.
Qed.

Lemma inserted r x l : In x (insert_row r l) -> x = r \/ In x l.
Proof.
  induction l as [|y l IH]; cbn [insert_row]; [intros [<-|[]]; by left|].
  destruct (by_imported r y); [intros [<-|Hi]; [by left|by right]|]. intros [<-|Hi]; [right; by left|].
  destruct (IH Hi) as [->|Hl]; [by left|right; by right].
Qed.
Lemma row_listed l x : In x (foldr insert_row [] l) -> In x l.
Proof. induction l as [|r l IH]; [done|]. cbn [foldr]. intros [->|Hi]%inserted; [by left|right; by apply IH]. Qed.

Lemma listed_ok s now m : store_ok s -> In m (list_models now s) ->
  Secure.is_sha256_hex (sha256 m) = true /\ exists path, blob_path_verified (model_id m) s = Ok path.
Proof.
  intros Hs Hm. unfold list_models in Hm. apply in_map_iff in Hm as (r & <- & Hr%row_listed).
  pose proof Hs as (_ & _ & Hok). destruct (Hok r Hr) as (Hd & _). split; [done|].
  destruct (List.find (is_model (model_id (manifest_of now r))) (models s)) as [x|] eqn:Hf.
  - eexists. by apply row_verifies.
  - exfalso. apply (List.find_none _ _ Hf) in Hr. unfold is_model in Hr. cbn in Hr. by rewrite !String.eqb_refl in Hr.
Qed.

(** C38: From an empty store, and after any commands whatever they say, the table has one line for
    each model and never panics on a digest, and every model of it loads from a file whose
    content has the digest that is shown. *)
Theorem model_commands_safe f l e : fs_wf f -> blobs_valid f ->
  let s := run_all l (empty_store f) in
  let all := list_models (e_now e) s in
  run_model MList e s = (s, Ok (if all is [] then Empty else Lines (line_shown <$> all))) /\
  Forall (fun m => exists path, blob_path_verified (model_id m) s = Ok path) all.
Proof.
  intros Hw Hv s all. assert (store_ok s) as Hs by (eapply steps_ok; [apply run_all_steps|by split]).
  split; [|apply List.Forall_forall; intros m Hm; by apply (listed_ok s (e_now e) m Hs Hm)].
  assert (all_some (line_of <$> all) = Some (line_shown <$> all)) as Hl.
  { assert (forall m, In m all -> line_of m = Some (line_shown m)) as Hm.
    { intros m Hm. unfold line_of. destruct (listed_ok s (e_now e) m Hs) as [Hd _]; [done|]. by rewrite (sha_cut _ Hd). }
    clearbody all. clear -Hm. induction all as [|m ms IH]; [done|]. rewrite !fmap_cons. cbn [all_some].
    rewrite (Hm m) by by left. rewrite IH; [done|]. intros x Hx. apply Hm. by right. }
  cbn [run_model]. unfold list_them, sbind, sget, slift, sret. fold all. destruct all as [|m ms]; [done|]. by rewrite Hl.
Qed.
(** *** Names that cannot be removed *)

Lemma insert_keeps m s r : In r (models s) -> In r (models (insert_manifest m s).1).
Proof.
  intros Hr. unfold insert_manifest. destruct (insert m (models s)) as [l|x] eqn:E; cbn; [|done].
  unfold insert in E. destruct (negb _); [|done]. injection E as <-. apply in_app_iff. by left.
Qed.

Lemma stored_rows_stay q s r : In r (models s) ->
  match q with Remove id => negb (is_model id r) | _ => true end = true -> In r (models (handle_model q s)).
Proof.
  intros Hr. destruct q as [path m quant t uuid i now fault|content d m quant t uuid i now|id]; cbn [handle_model].
  - intros _. unfold import_from_file, sbind, sget, slift, on_files.
    destruct (map_err Io _); [|done]. destruct (import_blob uuid a fault (files s)) as [g [b|x]]; cbn [fst snd]; [|done].
    destruct (blob_path_checked b.1) as [p|x]; [|done]. by apply insert_keeps.
  - intros _. unfold pull_from_url, sbind, sget, slift, on_files.
    destruct (fetch uuid content d (files s)) as [g [b|x]]; cbn [fst snd]; [|done].
    destruct (map_err Io _); [|done]. by apply insert_keeps.
  - intros Hn. unfold remove. destruct (List.find _ _); [|done]. cbn [fst models]. apply List.filter_In. by split.
Qed.

Lemma colon_kept c e s r : has_char ":" (r_name r) = true -> In r (models s) -> In r (models (run_model c e s).1).
Proof.
  intros Hc Hr. destruct (run_step c e s) as [->|(q & -> & Hq)]; [done|]. apply stored_rows_stay; [done|].
  destruct q as [| |id]; [done..|]. unfold is_model. destruct (String.eqb_spec (r_name r) (name id)) as [He|]; [|done].
  by rewrite He, Hq in Hc.
Qed.

(** A model whose name has a colon is taken, as [--name] checks nothing, and is then there
    for good: whatever commands follow, its row stays, since the text that names a model to
    remove is cut at its first colon. *)
Theorem colon_names_stay l s r : has_char ":" (r_name r) = true -> In r (models s) -> In r (models (run_all l s)).
Proof.
  intros Hc. revert s. induction l as [|[c e] l IH]; intros s Hr; cbn [run_all]; [done|]. apply IH. by apply colon_kept.
Qed.
End model.
End ModelCli.

(** ** The commands on a concrete store *)
Module ModelDemo.
Import ModelStore.ModelStore Common.Models ModelStore.StoreDemo UserDb.UserDemo RagChunk.ChunkDemo ModelCli.

Definition env0 : env := {| e_web := fun _ => ("weights b", Complete); e_uuid := "u1"; e_id := "m1"; e_now := 1000; e_fault := None |}.
Definition env1 : env := {| e_web := fun _ => ("weights b", Complete); e_uuid := "u2"; e_id := "m2"; e_now := 2000; e_fault := None |}.
Definition commands : list (model_command * env) := [
  (MImport "/tmp/a.gguf" "llama" "8b" None "llm", env0);
  (MPull "org/repo/dir/b.gguf" "team:llama" "8b" (Some "Q4") "Embed", env1);
  (MPull "org/repo" "x" "1" None "llm", env1); (MRemove "nothing", env1)].

Definition removal : model_command * env := (MRemove "team:llama:8b", env1).

(** The model is in the table, and the command that names it does not find it: what is
    suggested instead is the very text that was given. *)
Example removal_refused :
  (run_model (MRemove "team:llama:8b") env1 (run_all commands (empty_store f0))).2 = Err (NotThere (Some "team:llama:8b")).
Proof. by vm_compute. Qed.

Definition team_row : model_row := nth 1 (models (run_all commands (empty_store f0))) row1.

Lemma model_commands_safe_witness :
  run_model MList env1 (run_all commands (empty_store f0)) = (run_all commands (empty_store f0), Ok (Lines [
    {| l_id := "team:llama:8b"; l_type := Embedding; l_imported := 2000; l_size := "9 B"; l_sha := stake 16 (sha256_hex "weights b") |};
    {| l_id := "llama:8b"; l_type := Llm; l_imported := 1000; l_size := "9 B"; l_sha := stake 16 (sha256_hex "weights a") |}])) /\
  Forall (fun m => exists path, blob_path_verified (model_id m) (run_all commands (empty_store f0)) = Ok path)
    (list_models (e_now env1) (run_all commands (empty_store f0))).
Proof.
  destruct (model_commands_safe f0 commands env1 f0_wf f0_valid) as [Hl Hv]. split; [|exact Hv].
  rewrite Hl. by vm_compute.
Defined.

Lemma colon_names_stay_witness :
  In team_row (models (run_all [removal; removal] (run_all commands (empty_store f0)))).
Proof. apply colon_names_stay; [by vm_compute|]. vm_compute. right. by left. Defined.
End ModelDemo.

Module ShredDemo.
Import Events Entry Verify Log WorkspaceDb.WorkspaceDb UserDb.UserDemo WorkspaceCli.

Definition audit_key : string := "0123456789abcdef0123456789abcdef".
Definition kek0 : string := "abcdef0123456789abcdef0123456789".
Definition keys_fs : fs := write_file (write_file fs_empty "d/audit.key" 384 audit_key) "d/master.key" 384 (hex_encode kek0).

Lemma keys_wf : fs_wf keys_fs.
Proof. apply write_file_wf, write_file_wf, fs_wf_empty. Qed.

(** The log of this host, opened for the first time. *)
Definition log0 : world := match open_with_key keys_fs "d" "d/audit.jsonl" audit_key with Ok w => w | Err _ => Demo.w0 end.

Definition row0 : ws_row := {|
  w_id := "w1"; w_slug := "acme"; w_name := "Acme"; w_api_key_hash := None; w_model_allowlist := "";
  w_rate_limit_rpm := None; w_system_prompt := None; w_created_at := "2024"; w_net_namespace := 0;
  w_max_concurrent_requests := None; w_max_models := None; w_max_memory_bytes := None; w_dek := Some "wrapped:00" |}.

Definition e0 : shred_env := {|
  s_umask := 18; s_fresh_kek := kek0; s_fresh_key := audit_key; s_uid := "w0"; s_created := "2024"; s_now := 7;
  s_fault := WriteOk |}.

Lemma log0_ok : host_ok "d" log0.1 log0.2 Demo.a0 kek0.
Proof.
  destruct (open_fresh_inv keys_fs "d" "d/audit.jsonl" audit_key keys_wf (ex_intro _ "audit.jsonl" (conj eq_refl eq_refl)) eq_refl eq_refl)
    as (w & Hw & Hd & Hp & Hk & Hi).
  assert (log0 = w) as He by (unfold log0; by rewrite Hw). rewrite <- He in *.
  split; [by destruct log0|]. split; [done|]. split; [done|]. split; [done|]. split; [by vm_compute|]. split; [|by vm_compute].
  intros umask fresh. apply Kek.load_stored; [apply Hi|by vm_compute|done].
Qed.

Lemma shred_spec_witness : exists f' l', shred "d" "acme" true e0 (log0.1, [row0]) = ((f', l'), Ok (Some (statement "acme"))) /\
  exists r, verify_all f' "d" audit_key "d/audit.jsonl" = Ok r /\ Verify.ok r = false.
Proof.
  destruct (shred_spec "d" "acme" e0 log0.1 [row0] log0.2 Demo.a0 kek0 log0_ok eq_refl eq_refl) as (f' & l' & Hs & _ & Hv & _).
  exists f', l'. split; [exact Hs|exact Hv].
Defined.
End ShredDemo.
