(* ===== verification/RagCli.v ===== *)
(** * Documents from the command line

    Models [maranode-cli/src/commands/rag.rs]: the upload of a file, the list of the
    collections and the search, what the daemon answers to each, and what is printed. *)

From Stdlib Require Import ZArith Lia Ascii String.
From S2P Require Import Prelude Json Crypto Common Tokens Events Fs UserDb Auth WorkspaceDb WorkspaceApi AppState LegalHold IncidentApi Labels F32 SortBy RagChunk RagText RagStore RagEngine ModelStore Exports Chat ChatUsage RagApi Instances UserDb WorkspaceDemo ApiDemo RagDemo ChatDemo RouteDemo Http HoldCli.
Open Scope string_scope.
Open Scope list_scope.
Open Scope Z_scope.

Module RagCli.
Import Auth.Auth AppState.AppState RagChunk.Chunk RagText.Utf8 RagStore.RagStore RagEngine.RagEngine Chat.Chat RagApi.RagApi Http.Http HoldCli.Served.

Inductive rag_command :=
| RagAdd (path : string) (collection source : option string)
| RagList
| RagSearch (query : string) (collection : option string) (top_k : option Z).

(** What goes out: a form of parts, a plain request, a body. *)
Inductive rag_sent := Upload (url : string) (parts : list field) | GetFrom (url : string) | PostTo (url : string) (b : json).

Inductive rag_cli_err := CannotRead | Unreachable | NotEnabled | Said (message : string) | Returned (code : Z) (text : string) | NotJson.

Record collection_line := { c_name : string; c_model : string; c_dim : Z; c_documents : Z; c_chunks : Z }.

(** The score is the number as it came; three digits of it are printed. *)
Record hit_line := { h_rank : nat; h_score : json; h_source : string; h_text : Chunk.text }.

Inductive rag_output :=
| Ingested (label collection : string) (chunks : Z)
| NoCollections
| CollectionLines (l : list collection_line)
| NoHits
| HitLines (l : list hit_line).

(** At most so many characters, with an ellipsis when there were more, on one line. *)
Definition truncate (s : Chunk.text) (max_chars : nat) : Chunk.text :=
  (fun c => if c =? 10 then 32 else c) <$> (take max_chars s ++ (if Nat.ltb max_chars (List.length s) then [8230] else [])).

(** The last component of the path, or the path itself. *)
Definition file_of (path : string) : string :=
  match file_name (chars path) with Some t => utf8 t | None => path end.

(** The text of a part is never asked for when it is the file. *)
Definition file_part (name filename bytes : string) : field :=
  {| f_name := Some name; f_file := Some filename; f_bytes := Some bytes; f_text := None |}.

Definition text_part (name t : string) : field :=
  {| f_name := Some name; f_file := None; f_bytes := Some t; f_text := Some t |}.

Definition form (col : option string) (label bytes filename : string) : list field :=
  [file_part "file" filename bytes; text_part "source" label]
  ++ match col with Some c => [text_part "collection" c] | None => [] end.

Definition or_unknown (j : json) : string := default "?" (as_str j).
Definition count_of (j : json) : Z := default 0 (Exports.Exports.as_u64 j).

Section cli.
Context `{!JsonText}.

(** What a command sends; [read] is the files. *)
Definition rag_request (read : string -> option string) (host : string) (c : rag_command) : result rag_cli_err rag_sent :=
  let host := trim_slashes host in
  match c with
  | RagAdd path collection source =>
    let filename := file_of path in
    let label := default filename source in
    let? bytes := ok_or (read path) CannotRead in
    Ok (Upload (host +:+ "/v1/rag/documents/upload")
          (form collection label bytes filename))
  | RagList => Ok (GetFrom (host +:+ "/v1/rag/collections"))
  | RagSearch query collection top_k =>
    Ok (PostTo (host +:+ "/v1/rag/search")
          (to_value (JObj ([("query", JStr query)] ++ jskip "collection" JStr collection ++ jskip "top_k" JInt top_k))))
  end.

Definition parse (r : reply) : result rag_cli_err json :=
  if status r =? 501 then Err NotEnabled else
  if negb (is_success r) then
    match (some? j := json_parse (content r) in as_str (jindex "message" (jindex "error" (to_value j)))) with
    | Some msg => Err (Said msg)
    | None => Err (Returned (status r) (content r))
    end
  else ok_or (to_value <$> json_parse (content r)) NotJson.

Definition collection_line_of (j : json) : collection_line := {|
  c_name := or_unknown (jindex "name" j); c_model := or_unknown (jindex "embedding_model" j);
  c_dim := count_of (jindex "dim" j); c_documents := count_of (jindex "documents" j);
  c_chunks := count_of (jindex "chunks" j) |}.

Definition hit_line_of (i : nat) (j : json) : hit_line := {|
  h_rank := S i; h_score := jindex "score" j; h_source := or_unknown (jindex "source" j);
  h_text := truncate (chars (default "" (as_str (jindex "text" j)))) 200 |}.

Definition rag_shown (c : rag_command) (j : json) : rag_output :=
  match c with
  | RagAdd path _ source =>
    Ingested (default (file_of path) source) (or_unknown (jindex "collection" j)) (count_of (jindex "chunks" j))
  | RagList =>
    match default [] (as_arr j) with [] => NoCollections | l => CollectionLines (collection_line_of <$> l) end
  | RagSearch _ _ _ =>
    match default [] (as_arr j) with [] => NoHits | l => HitLines (imap hit_line_of l) end
  end.

Definition run_rag (w : rag_sent -> option reply) (read : string -> option string) (host : string) (c : rag_command)
    : result rag_cli_err rag_output :=
  let? q := rag_request read host c in
  let? r := ok_or (w q) Unreachable in
  let? j := parse r in
  Ok (rag_shown c j).
End cli.

(** ** The routes that answer *)
Section daemon.
Context `{!Rfc3339, !DateTimeText, !JsonText, !TimeText, !Sha256, !Aead, !Hex, !Unicode, !Extract.PdfTools,
          !Embedder, !InferenceEngine, !Base64}.

(** The length of a form as the client encodes it, with its boundaries and headers. *)
Variable form_size : list field -> Z.

(** [DefaultBodyLimit]: a body that is longer cannot be read to its end. *)
Definition MAX_BODY_BYTES : Z := 32 * 1024 * 1024.

Definition ingest_json (st : IngestStats) : json :=
  JObj [("document_id", JStr (document_id st)); ("collection", JStr (collection st)); ("chunks", JInt (is_chunks st));
        ("pages", JInt (is_pages st)); ("summary", jopt JStr (summary st))].

Definition collection_json (c : CollectionInfo) : json :=
  JObj [("name", JStr (ci_name c)); ("embedding_model", JStr (ci_model c)); ("dim", JInt (ci_dim c));
        ("documents", JInt (ci_documents c)); ("chunks", JInt (ci_chunks c))].

Definition hit_json (h : SearchHit) : json :=
  JObj [("source", JStr (sh_source h)); ("ordinal", JInt (sh_ordinal h)); ("score", JFloat (sh_score h));
        ("text", JStr (sh_text h)); ("page_number", JInt (sh_page h)); ("section", jopt JStr (sh_section h))].

(** A search as it is read: the collection, the query, how many. *)
Definition search_of (j : json) : option (option string * string * option nat) :=
  some? m := as_obj j in
  check no_dup_fields ["collection"; "query"; "top_k"] m in
  some? c := opt as_str "collection" m in
  some? q := req as_str "query" m in
  some? k := opt (as_uint u64_max) "top_k" m in
  Some (c, q, Z.to_nat <$> k).

Definition rag_answers {A} (f : A -> json) (m : SE chat_server api_error A) : SE chat_server api_error json := fun s =>
  let r := m s in (r.1, rmap f r.2).

(** Nobody's request to the three routes. The form that arrives is the one that was sent,
    and it is read to its end when it is within the limit of a body; a longer query is
    refused before its handler runs. *)
Definition rag_daemon (host : string) (now : Z) (d : rag_draws) (q : rag_sent) : SE chat_server api_error json :=
  let host := trim_slashes host in
  match q with
  | Upload u parts =>
    if String.eqb u (host +:+ "/v1/rag/documents/upload") then
      rag_answers ingest_json (upload_document (headers_of NoAuth) {| fields := parts; well_formed := form_size parts <=? MAX_BODY_BYTES |} now d)
    else sfail NotFound
  | GetFrom u =>
    if String.eqb u (host +:+ "/v1/rag/collections") then
      rag_answers (fun l => JArr (collection_json <$> l)) list_collections
    else sfail NotFound
  | PostTo u b =>
    if String.eqb u (host +:+ "/v1/rag/search") then
      if MAX_BODY_BYTES <? Z.of_nat (String.length (json_print b)) then sfail BadRequest else
      match search_of b with
      | Some r => rag_answers (fun l => JArr (hit_json <$> l)) (search r.1.1 r.1.2 r.2)
      | None => sfail BadRequest
      end
    else sfail NotFound
  end.

(** *** What is sent is what is read *)

Lemma search_read read host q c k : (forall n, k = Some n -> uint_ok u64_max n = true) ->
  exists u b, rag_request read host (RagSearch q c k) = Ok (PostTo u b) /\ search_of b = Some (c, q, Z.to_nat <$> k).
Proof.
  intros Hk. eexists _, _. split; [reflexivity|].
  replace (to_value _) with (JObj (jskip "collection" JStr c ++ [("query", JStr q)] ++ jskip "top_k" JInt k)) by (by destruct c, k).
  unfold search_of. cbn [as_obj]. replace (no_dup_fields _ _) with true by (by destruct c, k).
  replace (opt as_str "collection" _) with (Some c) by (by destruct c, k).
  replace (req as_str "query" _) with (Some q) by (by destruct c, k).
  replace (opt (as_uint u64_max) "top_k" _) with (Some k); [done|].
  destruct k as [n|]; [|by destruct c]. destruct c; unfold opt; cbn -[as_uint u64_max]; by rewrite (as_uint_ok _ _ (Hk n eq_refl)).
Qed.

Definition rag_world (message : api_error -> string) (host : string) (now : Z) (d : rag_draws) (s : chat_server)
    (q : rag_sent) : option reply := Some (reply_of message (rag_daemon host now d q s).2).

(** What the client has of an answer. *)
Lemma parse_reply message (r : result api_error json) : (forall j, r = Ok j -> json_wf j = true) ->
  parse (reply_of message r) =
  match r with
  | Ok j => Ok (to_value j)
  | Err NotImplemented => Err NotEnabled
  | Err e => Err (Said match e with Internal => "internal server error" | _ => message e end)
  end.
Proof.
  intros Hw. destruct r as [j|e].
  - unfold parse, reply_of. cbn [status content]. change (200 =? 501) with false. unfold is_success. cbn [status].
    cbn -[to_value json_parse json_print]. rewrite (json_parse_print j) by (by apply Hw). done.
  - unfold parse, reply_of. cbn [status content]. rewrite json_parse_print by (by destruct e). by destruct e.
Qed.

(** What becomes of an upload that nobody in particular sends: whether everyone may,
    whether there are documents at all, the size of the form, an empty file, and then
    the ingestion. *)
Definition open_upload (s : chat_server) (col : option string) (label bytes filename : string) (now : Z) (d : rag_draws)
    : chat_server * result api_error IngestStats :=
  if negb (bool_decide (rag_ingest_policy (rt (sapp s)) = Anyone)) then (s, Err Forbidden) else
  match rag s with
  | None => (s, Err NotImplemented)
  | Some e => if MAX_BODY_BYTES <? form_size (form col label bytes filename) then (s, Err BadRequest)
              else if String.eqb bytes "" then (s, Err BadRequest)
              else ingest_file 0 (default (default_collection (config e)) col) label bytes filename now d s
  end.

Lemma form_read col label bytes filename fits : read_upload (form col label bytes filename) fits no_upload =
  if fits
  then Ok {| up_bytes := Some bytes; up_filename := Some filename; up_collection := col; up_source := Some label |}
  else Err BadRequest.
Proof. by destruct col, fits. Qed.

Lemma nobody_uploads s col label bytes filename now d :
  let parts := form col label bytes filename in
  upload_document (headers_of NoAuth) {| fields := parts; well_formed := form_size parts <=? MAX_BODY_BYTES |} now d s
  = open_upload s col label bytes filename now d.
Proof.
  intros parts. unfold open_upload, upload_document, check_ingest_permission, sbind at 1, sget. case_bool_decide as Hp; cbn [negb].
  - cbn [fields well_formed]. unfold parts at 1. rewrite form_read. unfold require_rag, sbind, sget, slift.
    destruct (rag s) as [e|]; [|done]. fold parts. rewrite Z.ltb_antisym.
    destruct (form_size parts <=? MAX_BODY_BYTES); [|done]. cbn -[String.eqb ingest_file].
    by destruct (String.eqb bytes "").
  - unfold sbind, slift, is_key. cbn. destruct (admin_key _) as [k|]; cbn; [|done].
    destruct (rag_ingest_policy _); done.
Qed.

(** The counts of a document, and of a collection, are of their type. *)
Definition stats_fit (st : IngestStats) : bool := uint_ok u64_max (is_chunks st) && uint_ok u64_max (is_pages st).
Definition info_fits (c : CollectionInfo) : bool :=
  uint_ok u64_max (ci_dim c) && uint_ok u64_max (ci_documents c) && uint_ok u64_max (ci_chunks c).

Lemma ingest_wf st : stats_fit st = true -> json_wf (ingest_json st) = true.
Proof.
  intros [Hc Hp]%andb_true_iff. apply (uint_ok_wf _ _ (Z.le_refl _)) in Hc, Hp.
  unfold ingest_json. cbn -[json_wf]. cbn [json_wf forallb snd] in *. rewrite Hc, Hp. by destruct (summary st).
Qed.

Lemma infos_wf l : forallb info_fits l = true -> json_wf (JArr (collection_json <$> l)) = true.
Proof.
  cbn [json_wf]. rewrite !forallb_forall. intros Hl y (c & <- & Hc)%in_map_iff. apply Hl in Hc. unfold info_fits in Hc. bool_prop.
  unfold collection_json. cbn [json_wf forallb snd]. rewrite !andb_true_iff.
  repeat split; repeat match goal with Hx : uint_ok _ _ = true |- _ => apply (uint_ok_wf _ _ (Z.le_refl _)) in Hx; cbn [json_wf] in Hx; apply andb_true_iff in Hx as [? ?] end; done.
Qed.

Lemma count_int z : uint_ok u64_max z = true -> count_of (JInt z) = z.
Proof. intros Hz. unfold count_of, Exports.Exports.as_u64. by rewrite as_uint_ok. Qed.

(** C39: Adding a file is to ingest it at the daemon: with the label, the collection and the name
    that the command gives, when the policy lets everyone ingest and the form with the
    file is at most 32 MiB long. It is refused otherwise, under another policy also to
    whoever has a key, since the command sends none. What is printed is what the daemon
    stored, or why it did not. *)
Theorem rag_add_from_terminal message host read path col source bytes now d s : read path = Some bytes ->
  let label := default (file_of path) source in
  let x := open_upload s col label bytes (file_of path) now d in
  match x.2 with Ok st => stats_fit st | Err _ => true end = true ->
  exists q, rag_request read host (RagAdd path col source) = Ok q /\
    (rag_daemon host now d q s).1 = x.1 /\
    run_rag (rag_world message host now d s) read host (RagAdd path col source) =
    match x.2 with
    | Ok st => Ok (Ingested label (collection st) (is_chunks st))
    | Err NotImplemented => Err NotEnabled
    | Err e => Err (Said match e with Internal => "internal server error" | _ => message e end)
    end.
Proof.
  intros Hr label x Hx. eexists. split; [unfold rag_request; by rewrite Hr|].
  unfold run_rag, rag_request. rewrite Hr. cbn [ok_or rbind]. unfold rag_world, rag_daemon, rag_answers.
  rewrite String.eqb_refl, nobody_uploads. fold label. fold x. split; [done|].
  cbn [ok_or rbind]. rewrite parse_reply by (intros j; destruct x.2; [intros [= <-]; by apply ingest_wf|done]).
  destruct x.2 as [st|[]]; try done. apply andb_true_iff in Hx as [Hc _].
  rewrite <- (count_int _ Hc). cbn [rmap rbind]. unfold ingest_json. by destruct (summary st).
Qed.

Definition line_of_info (c : CollectionInfo) : collection_line := {|
  c_name := ci_name c; c_model := ci_model c; c_dim := ci_dim c; c_documents := ci_documents c; c_chunks := ci_chunks c |}.

Lemma line_back c : info_fits c = true -> collection_line_of (to_value (collection_json c)) = line_of_info c.
Proof.
  unfold info_fits. intros Hc. bool_prop. unfold line_of_info.
  rewrite <- (count_int (ci_dim c)), <- (count_int (ci_documents c)), <- (count_int (ci_chunks c)) at 1 by done. done.
Qed.

(** The list is what the daemon has, in its order; nobody is asked who they are. *)
Lemma rag_list_shown message host read now d s e : rag s = Some e ->
  forallb info_fits (RagStore.RagStore.list_collections (store e)) = true ->
  run_rag (rag_world message host now d s) read host RagList =
  Ok match RagStore.RagStore.list_collections (store e) with
     | [] => NoCollections
     | l => CollectionLines (line_of_info <$> l)
     end.
Proof.
  intros He Hf. unfold run_rag, rag_request. cbn [rbind]. unfold rag_world, rag_daemon, rag_answers. rewrite String.eqb_refl.
  unfold list_collections, require_rag, sbind, sget, slift, sret. rewrite He. cbn [ok_or fst snd rmap rbind].
  set (l := RagStore.RagStore.list_collections (store e)) in *. rewrite parse_reply; [|intros j [= <-]; by apply infos_wf].
  cbn [rbind rag_shown to_value as_arr default from_option]. clearbody l. clear He.
  assert (collection_line_of <$> (to_value <$> (collection_json <$> l)) = line_of_info <$> l) as Hl.
  { induction l as [|c l IH]; [done|]. cbn [forallb] in Hf. apply andb_true_iff in Hf as [Hc Hf]. rewrite !fmap_cons, IH by done.
    f_equal. by apply line_back. }
  destruct l as [|c l]; [done|]. by rewrite <- Hl.
Qed.
End daemon.
End RagCli.

(** ** A file at a concrete daemon *)
Module RagCliDemo.
Import UserDb.UserDemo Auth.AuthDemo AppState.AppState ApiDemo.ApiDemo RagDemo.RagDemo RagChunk.ChunkDemo RagStore.RagStore RagEngine.RagEngine Chat.Chat ChatDemo.ChatDemo RouteDemo.RouteDemo RagCli.

Definition anyone : RuntimeSettings := {|
  rag_ingest_policy := Anyone; rag_ingest_allowlist := []; AppState.AppState.system_prompt := None;
  air_gap := true; log_prompts := false; tee_encrypt_key := None |}.

Definition open0 : chat_server := set_app route0 {|
  wsv := wsv (sapp route0); data := fs_empty; trail := []; incident := None; audit_frozen := false;
  classification := labels; rate_limiter := ∅; workspace_usage := ∅; workspace_audits := ∅;
  rt := anyone; isolation_ok := true |}.

(** Each part with its boundary and its headers, as long as they get. *)
Definition form_size0 (parts : list RagApi.RagApi.field) : Z :=
  fold_right (fun f n => 256 + Z.of_nat (String.length (default "" (RagApi.RagApi.f_bytes f))
    + String.length (default "" (RagApi.RagApi.f_file f))) + n) 0 parts.

Definition message0 (e : Auth.Auth.api_error) : string := "no".

Definition files0 (path : string) : option string :=
  if String.eqb path "docs/report.txt" then Some "beta of the year." else None.

(** With a label the file is stored under it, by anyone; with an allowlist by nobody; and
    not when its form is too long. *)
Lemma rag_add_from_terminal_witness :
  (exists q, rag_request files0 "http://h/" (RagAdd "docs/report.txt" (Some "other") (Some "q3")) = Ok q /\
     (rag_daemon form_size0 "http://h/" 7000 rd q open0).1
       = (open_upload form_size0 open0 (Some "other") "q3" "beta of the year." "report.txt" 7000 rd).1 /\
     run_rag (rag_world form_size0 message0 "http://h/" 7000 rd open0) files0 "http://h/" (RagAdd "docs/report.txt" (Some "other") (Some "q3"))
     = Ok (Ingested "q3" "other" 2)) /\
  run_rag (rag_world form_size0 message0 "http://h/" 7000 rd route0) files0 "http://h/" (RagAdd "docs/report.txt" (Some "other") None)
  = Err (Said "no") /\
  run_rag (rag_world (fun parts => 33554432 + form_size0 parts) message0 "http://h/" 7000 rd open0) files0 "http://h/"
    (RagAdd "docs/report.txt" (Some "other") (Some "q3")) = Err (Said "no").
Proof.
  split; [|split].
  - destruct (rag_add_from_terminal form_size0 message0 "http://h/" files0 "docs/report.txt" (Some "other") (Some "q3")
      "beta of the year." 7000 rd open0) as (q & Hq & Hd & Hr); [reflexivity|vm_compute; reflexivity|].
    exists q. split; [exact Hq|]. split; [exact Hd|]. rewrite Hr. vm_compute. reflexivity.
  - destruct (rag_add_from_terminal form_size0 message0 "http://h/" files0 "docs/report.txt" (Some "other") None
      "beta of the year." 7000 rd route0) as (q & Hq & Hd & Hr); [reflexivity|vm_compute; reflexivity|].
    rewrite Hr. vm_compute. reflexivity.
  - destruct (rag_add_from_terminal (fun parts => 33554432 + form_size0 parts) message0 "http://h/" files0 "docs/report.txt"
      (Some "other") (Some "q3") "beta of the year." 7000 rd open0) as (q & Hq & Hd & Hr); [reflexivity|vm_compute; reflexivity|].
    rewrite Hr. vm_compute. reflexivity.
Defined.

End RagCliDemo.
