(* ===== verification/Embeddings.v ===== *)
(** * What the OpenAI routes read, and the embeddings

    Models the request types of [maranode-api/src/openai.rs] (Module [Requests]),
    [routes/embeddings.rs] (Module [EmbeddingsApi]) and [rag_embedder.rs] (Module
    [EngineEmbedder]), over the engine of [Llama] behind its queue, which passes embeddings
    on; of the engine also the stub ([StubEngine]) and the choice of its device ([Devices]).
    The theorems say that the chat command's request is read as it was meant, and what
    the embeddings route leaves out of what guards a chat. *)

From Stdlib Require Import ZArith Lia Ascii String SpecFloat.
From S2P Require Import Prelude Json Crypto Common Events Fs UserDb Auth WorkspaceDb WorkspaceApi AppState ModelStore F32 RagStore RagEngine Instances WorkspaceDemo ApiDemo RagChunk RagDemo Chat ChatDemo Llama Queue Config Startup Http ChatCli.
Open Scope string_scope.
Open Scope list_scope.
Open Scope Z_scope.

(** ** openai.rs *)
Module Requests.
Import Chat.Chat.

(** [f32] of a number: an integer is rounded. *)
Definition as_f32 (j : json) : option Z :=
  match j with
  | JFloat b => Some b
  | JInt z => Some (F32.to_bits (binary_normalize 24 128 z 0 false))
  | _ => None
  end.

(** 0.7 as it is rounded, and the limit of an answer. *)
Definition default_temperature : Z := F32.div (F32.to_bits (binary_normalize 24 128 7 0 false)) (F32.to_bits (binary_normalize 24 128 10 0 false)).
Definition default_max_tokens : Z := 2048.
Definition default_require_context : bool := false.

Definition strings_of (j : json) : option (list string) := some? l := as_arr j in all_some (as_str <$> l).

Definition rag_options_of (j : json) : option RagOptions :=
  some? m := as_obj j in
  check no_dup_fields ["collection"; "top_k"; "require_context"] m in
  some? c := opt as_str "collection" m in
  some? k := opt (as_uint u64_max) "top_k" m in
  some? r := dflt as_bool default_require_context "require_context" m in
  Some {| ro_collection := c; ro_top_k := Z.to_nat <$> k; require_context := r |}.

Definition oai_message_of (j : json) : option OaiMessage :=
  some? m := as_obj j in
  check no_dup_fields ["role"; "content"] m in
  some? r := req as_str "role" m in
  some? c := req as_str "content" m in
  Some {| o_role := r; o_content := c |}.

Definition messages_of (j : json) : option (list OaiMessage) := some? l := as_arr j in all_some (oai_message_of <$> l).

Definition chat_request_of (j : json) : option ChatCompletionRequest :=
  some? m := as_obj j in
  check no_dup_fields ["model"; "messages"; "temperature"; "max_tokens"; "stream"; "stop"; "rag"; "with_receipt"; "deterministic"; "seed"] m in
  some? model := req as_str "model" m in
  some? messages := req messages_of "messages" m in
  some? t := dflt as_f32 default_temperature "temperature" m in
  some? n := dflt (as_uint u32_max) default_max_tokens "max_tokens" m in
  some? st := dflt as_bool false "stream" m in
  some? stops := opt strings_of "stop" m in
  some? r := opt rag_options_of "rag" m in
  some? w := dflt as_bool false "with_receipt" m in
  some? d := dflt as_bool false "deterministic" m in
  some? s := opt (as_uint u64_max) "seed" m in
  Some {| req_model := model; req_messages := messages; temperature := t; max_tokens := n; stream := st; stop := stops;
          req_rag := r; with_receipt := w; deterministic := d; req_seed := s |}.

(** The first form that reads. *)
Inductive EmbeddingInput := Single (s : string) | Many (l : list string).

Definition into_vec (i : EmbeddingInput) : list string := match i with Single s => [s] | Many l => l end.

Definition input_of (j : json) : option EmbeddingInput :=
  match as_str j with Some s => Some (Single s) | None => Many <$> strings_of j end.

Record EmbeddingRequest := { er_model : string; er_input : EmbeddingInput }.

Definition embedding_request_of (j : json) : option EmbeddingRequest :=
  some? m := as_obj j in
  check no_dup_fields ["model"; "input"] m in
  some? model := req as_str "model" m in
  some? i := req input_of "input" m in
  Some {| er_model := model; er_input := i |}.

(** What the chat command sends is read as one message of a user, to be streamed, with the
    defaults for the rest; an answer without context is not refused. *)
Theorem chat_body_read `{!JsonText} prompt model use_rag collection :
  chat_request_of (ChatCli.ChatClient.chat_body prompt model use_rag collection) = Some {|
    req_model := model; req_messages := [{| o_role := "user"; o_content := prompt |}];
    temperature := 1060320051; max_tokens := 2048; stream := true; stop := None;
    req_rag := if use_rag then Some {| ro_collection := collection; ro_top_k := None; require_context := false |} else None;
    with_receipt := false; deterministic := false; req_seed := None |}.
Proof. destruct use_rag, collection as [c|]; reflexivity. Qed.
End Requests.

(** ** stub.rs *)
Module StubEngine.
Import Chat.Chat.

Definition DIM : nat := 64.

Definition stub_content (model : string) : string :=
  "[STUB] Maranode inference engine is not yet connected to llama.cpp. Your request for model `" +:+ model +:+
  "` was received. Replace StubEngine with LlamaCppEngine to get real inference.".

Definition generate (q : InferenceRequest) : result string InferenceResponse :=
  Ok {| rs_content := stub_content (Common.Models.display (ir_model q)); rs_tokens_in := 10; rs_tokens_out := 42;
        rs_device := Common.Models.Cpu |}.

Definition words (q : InferenceRequest) : list string :=
  ["[STUB]"; "llama.cpp"; "FFI"; "not"; "yet"; "wired."; "Model:"; Common.Models.name (ir_model q)].

Definition generate_stream (q : InferenceRequest) : list (result string Token) :=
  imap (fun i w => Ok {| t_text := w +:+ " "; is_last := Nat.eqb i (List.length (words q) - 1) |}) (words q).

(** A byte is added to the cell of its position; 255 and the byte are exact. *)
Definition of_int (z : Z) : Z := F32.to_bits (binary_normalize 24 128 z 0 false).

Fixpoint add_bytes (i : nat) (t : string) (v : list Z) : list Z :=
  match t with
  | EmptyString => v
  | String b t => add_bytes (S i) t (alter (fun x => F32.add x (F32.div (of_int (code b)) (of_int 255))) (Nat.modulo i DIM) v)
  end.

Definition embed_one (t : string) : list Z := alter (fun x => F32.add x (of_int 1)) 0%nat (add_bytes 0 t (replicate DIM 0)).

Definition embed (texts : list string) : list (list Z) := embed_one <$> texts.

Lemma alter_ok f i v : (forall x, F32.bits_ok (f x) = true) -> forallb F32.bits_ok v = true -> forallb F32.bits_ok (alter f i v) = true.
Proof.
  intros Hf. revert i. induction v as [|x v IH]; intros [|i] Hv; try done; cbn [forallb] in *; apply andb_true_iff in Hv as [Hx Hv].
  - cbn. by rewrite Hf, Hv.
  - cbn. rewrite Hx. by apply IH.
Qed.

Lemma embed_one_ok t : forallb F32.bits_ok (embed_one t) = true.
Proof.
  apply alter_ok; [intros; apply F32.to_bits_ok|].
  assert (forallb F32.bits_ok (replicate DIM 0) = true) as H0 by done. revert H0. generalize (replicate DIM 0), 0%nat.
  induction t as [|b t IH]; intros v i Hv; [done|]. apply IH, alter_ok; [intros; apply F32.to_bits_ok|done].
Qed.

Lemma embed_ok texts : forallb (forallb F32.bits_ok) (embed texts) = true.
Proof. unfold embed. induction texts as [|t l IH]; [done|]. rewrite fmap_cons. cbn [forallb]. by rewrite embed_one_ok. Qed.

(** The stub is an engine, for every identity of a build. *)
Definition stub_engine (build : string) : InferenceEngine := {|
  device := Common.Models.Cpu; kernel_build_id := build; Chat.Chat.generate := generate;
  Chat.Chat.generate_stream := generate_stream;
  tokens_u32 := fun q r Hr => match Hr in _ = x return match x with
    | Ok r => uint_ok u32_max (rs_tokens_in r) = true /\ uint_ok u32_max (rs_tokens_out r) = true
    | Err _ => True end with eq_refl => conj eq_refl eq_refl end |}.
End StubEngine.

(** ** The device of the engine, in llama.rs *)
Module Devices.
Import Common.Models Startup.Startup.

(** What the engine was built with. *)
Record features := { metal : bool; cuda : bool; rocm : bool; vulkan : bool; openvino : bool; ryzenai : bool }.

Definition ALL_LAYERS_ON_GPU : Z := 9999.

Inductive device_err := NoBackend | NotCompiled (p : DevicePreference) | NoRuntime (lib : string).

(** At most one of the blocks is compiled. *)
Definition compiled_gpu (f : features) : option InferenceDevice :=
  if metal f then Some Metal
  else if cuda f then Some Common.Models.Gpu
  else if rocm f then Some Common.Models.Gpu
  else if vulkan f then Some Common.Models.Gpu
  else None.

Definition compiled_npu (f : features) : option InferenceDevice := if openvino f then Some Common.Models.Npu else None.
Definition compiled_ryzenai (f : features) : option InferenceDevice := if ryzenai f then Some Common.Models.RyzenAi else None.

Definition on_all_layers (d : InferenceDevice) : InferenceDevice * Z := (d, ALL_LAYERS_ON_GPU).

Definition resolve_device (f : features) (pref : DevicePreference) : result device_err (InferenceDevice * Z) :=
  match pref with
  | Auto =>
    match compiled_gpu f with
    | Some d => Ok (on_all_layers d)
    | None =>
      match compiled_npu f with
      | Some d => Ok (on_all_layers d)
      | None => match compiled_ryzenai f with Some d => Ok (on_all_layers d) | None => Ok (Common.Models.Cpu, 0) end
      end
    end
  | Cpu => Ok (Common.Models.Cpu, 0)
  | Gpu => ok_or (on_all_layers <$> compiled_gpu f) (NotCompiled pref)
  | Npu => ok_or (on_all_layers <$> compiled_npu f) (NotCompiled pref)
  | RyzenAi => ok_or (on_all_layers <$> compiled_ryzenai f) (NotCompiled pref)
  end.

(** [Path::join] of a plain name. *)
Fixpoint ends_in_slash (s : string) : bool :=
  match s with EmptyString => false | String c EmptyString => Ascii.eqb c "/"%char | String _ r => ends_in_slash r end.

Definition join (d name : string) : string :=
  if String.eqb d "" then name else if ends_in_slash d then d +:+ name else d +:+ "/" +:+ name.

Section host.
(** The environment, and which paths exist, on Linux. *)
Variables (var : string -> option string) (exists_at : string -> bool).

Definition path_list (name : string) : list string :=
  match var name with Some l => split_char ":"%char l | None => [] end.

Definition openvino_dirs : list string :=
  match var "OPENVINO_DIR" with
  | Some d => [join d "runtime/lib/intel64"; join d "runtime/bin/intel64/Release"] | None => [] end ++
  ["/opt/intel/openvino_2024/runtime/lib/intel64"; "/opt/intel/openvino_2023/runtime/lib/intel64";
   "/opt/intel/openvino/runtime/lib/intel64"; "/usr/lib"; "/usr/local/lib"] ++
  path_list "LD_LIBRARY_PATH" ++ path_list "DYLD_LIBRARY_PATH".

Definition ryzenai_dirs : list string :=
  match var "RYZENAI_INSTALL_PATH" with Some d => [join d "lib"; join d "bin"] | None => [] end ++
  ["/opt/amd/ryzenai/lib"; "/opt/xilinx/xrt/lib"; "/usr/lib"; "/usr/local/lib"] ++ path_list "LD_LIBRARY_PATH".

Definition found_in (lib : string) (dirs : list string) : bool := existsb (fun d => exists_at (join d lib)) dirs.

Definition validate_openvino_runtime : result device_err unit :=
  if found_in "libopenvino_c.so" openvino_dirs then Ok tt else Err (NoRuntime "libopenvino_c.so").

Definition validate_ryzenai_runtime : result device_err unit :=
  if found_in "libaie_controller.so" ryzenai_dirs then Ok tt else Err (NoRuntime "libaie_controller.so").

(** [LlamaCppEngine::new]: the backend, the device, its runtime. *)
Definition new_engine (backend : bool) (f : features) (pref : DevicePreference) : result device_err (InferenceDevice * Z) :=
  guard backend else NoBackend in
  let? d := resolve_device f pref in
  let? _ := (if openvino f && bool_decide (d.1 = Common.Models.Npu) then validate_openvino_runtime else Ok tt) in
  let? _ := (if ryzenai f && bool_decide (d.1 = Common.Models.RyzenAi) then validate_ryzenai_runtime else Ok tt) in
  Ok d.

(** An engine is on a device that was compiled in and, when it is one of the two whose
    library is looked for, whose library is there; it is the one that was asked for, and
    layers are given to it exactly when it is not the processor. Only the processor always
    works: the automatic choice takes the first device that was compiled in and fails when
    its library is missing, though the processor would do. *)
Theorem engine_device f pref :
  (forall d n, new_engine true f pref = Ok (d, n) ->
    (n = if bool_decide (d = Common.Models.Cpu) then 0 else ALL_LAYERS_ON_GPU) /\
    match d with
    | Common.Models.Cpu => pref = Cpu \/ pref = Auto /\ compiled_gpu f = None /\ openvino f = false /\ ryzenai f = false
    | Metal | Common.Models.Gpu => compiled_gpu f = Some d /\ (pref = Gpu \/ pref = Auto)
    | Common.Models.Npu => openvino f = true /\ found_in "libopenvino_c.so" openvino_dirs = true /\
        (pref = Npu \/ pref = Auto /\ compiled_gpu f = None)
    | Common.Models.RyzenAi => ryzenai f = true /\ found_in "libaie_controller.so" ryzenai_dirs = true /\
        (pref = RyzenAi \/ pref = Auto /\ compiled_gpu f = None /\ openvino f = false)
    end) /\
  new_engine true f Cpu = Ok (Common.Models.Cpu, 0) /\
  (compiled_gpu f = None -> openvino f = true -> found_in "libopenvino_c.so" openvino_dirs = false ->
   new_engine true f Auto = Err (NoRuntime "libopenvino_c.so")).
Proof.
  assert (match compiled_gpu f with None | Some Metal | Some Common.Models.Gpu => True | _ => False end) as Hg.
  { unfold compiled_gpu. by destruct (metal f), (cuda f), (rocm f), (vulkan f). }
  split; [|split].
  - intros d n. unfold new_engine, validate_openvino_runtime, validate_ryzenai_runtime.
    destruct pref; cbn [resolve_device]; unfold compiled_npu, compiled_ryzenai, on_all_layers;
      destruct (compiled_gpu f) as [[]|]; try done;
      destruct (openvino f), (ryzenai f); cbn; try done;
      repeat case_match; try done; intros Hd; cbn in Hd; injection Hd as <-; cbn; auto 10.
  - unfold new_engine. cbn. by rewrite !andb_false_r.
  - intros Hn Ho Hf. unfold new_engine, validate_openvino_runtime. cbn [resolve_device]. unfold compiled_npu. rewrite Hn, Ho.
    cbn. by rewrite Hf.
Qed.
End host.
End Devices.

(** ** embeddings.rs *)
Module EmbeddingsApi.
Import Auth.Auth AppState.AppState Common.Workspace Chat.Chat Llama.Llama Requests.

Definition MAX_EMBEDDING_BATCH : nat := 512.

Record EmbeddingResponse := { data : list (nat * list Z); e_model : string; prompt_tokens : Z; total_tokens : Z }.

Section embeddings.
Context `{!Rfc3339, !DateTimeText, !JsonText, !TimeText, !Sha256, !Aead, !Hex, !LlamaCpp}.

(** The checks: the file of the model and the inputs. *)
Definition checked (h : WorkspaceApi.WorkspaceApi.ws_headers) (req : EmbeddingRequest) (now : Z) (s : chat_server)
    : result api_error (string * list string) :=
  let? ws := WorkspaceApi.WorkspaceApi.workspace_ctx h now (wsv (sapp s)) in
  let? model_id := ok_or (Common.Models.parse (er_model req)) BadRequest in
  guard allows_model ws (er_model req) else Forbidden in
  let? model_path := map_err (fun _ => NotFound) (ModelStore.ModelStore.blob_path_verified model_id (store_ s)) in
  let inputs := into_vec (er_input req) in
  guard negb (match inputs with [] => true | _ => false end) else BadRequest in
  guard negb (Nat.ltb MAX_EMBEDDING_BATCH (List.length inputs)) else BadRequest in
  Ok (model_path, inputs).

(** The server, and the models that the engine has loaded. *)
Definition embeddings (max_loaded : nat) (h : WorkspaceApi.WorkspaceApi.ws_headers) (req : EmbeddingRequest) (now : Z)
    : SE (chat_server * ModelCache) api_error EmbeddingResponse := fun x =>
  match checked h req now x.1 with
  | Err e => (x, Err e)
  | Ok p =>
    let total_chars := foldr (fun t n => Z.of_nat (String.length t) + n) 0 p.2 in
    let r := embed max_loaded p.1 p.2 now x.2 in
    ((x.1, r.1),
     match r.2 with
     | Err _ => Err Internal
     | Ok vectors =>
       let approx_tokens := u32 (total_chars / 4) in
       Ok {| data := imap pair vectors; e_model := er_model req; prompt_tokens := approx_tokens; total_tokens := approx_tokens |}
     end)
  end.

(** *** What is loaded does not show *)

Lemma get_or_load_result max_loaded path now c : cache_ok max_loaded c ->
  (get_or_load max_loaded path now c).2 = ok_or (load_from_file path) (LoadFailed path).
Proof.
  intros [_ Hm]. unfold get_or_load, cache_hit. destruct (by_path c !! path) as [[m t]|] eqn:E.
  - cbn. by rewrite (Hm _ _ _ E).
  - by destruct (load_from_file path).
Qed.

(** The vectors of texts by the model of a file. *)
Definition vectors_of (path : string) (texts : list string) : result llama_err (list (list Z)) :=
  match texts with [] => Ok [] | _ => let? m := ok_or (load_from_file path) (LoadFailed path) in embed_sync m texts end.

Lemma embed_result max_loaded path texts now c : cache_ok max_loaded c ->
  (embed max_loaded path texts now c).2 = vectors_of path texts.
Proof.
  intros Hc. destruct texts as [|t l]; [done|]. unfold embed, sbind. pose proof (get_or_load_result _ path now c Hc) as Hr.
  destruct (get_or_load max_loaded path now c) as [c' [m|e]]; cbn [snd] in Hr; unfold vectors_of; by rewrite <- Hr.
Qed.

Lemma embed_each m texts vs : embed_sync m texts = Ok vs -> Forall2 (fun t v => embed_text m t = Ok v) texts vs.
Proof.
  revert vs. induction texts as [|t l IH]; intros vs; cbn [embed_sync]; [by intros [= <-]|].
  destruct (embed_text m t) as [v|] eqn:E; cbn [rbind]; [|done]. destruct (embed_sync m l) as [r|]; cbn [rbind]; [|done].
  intros [= <-]. constructor; [done|by apply IH].
Qed.

Lemma checked_ok h req now s path texts : checked h req now s = Ok (path, texts) -> exists ws id,
  WorkspaceApi.WorkspaceApi.workspace_ctx h now (wsv (sapp s)) = Ok ws /\ allows_model ws (er_model req) = true /\
  Common.Models.parse (er_model req) = Some id /\ ModelStore.ModelStore.blob_path_verified id (store_ s) = Ok path /\
  (1 <= List.length (into_vec (er_input req)) <= 512)%nat /\ texts = into_vec (er_input req).
Proof.
  unfold checked. destruct (WorkspaceApi.WorkspaceApi.workspace_ctx h now (wsv (sapp s))) as [ws|] eqn:Ews; [|done]. cbn [rbind].
  destruct (Common.Models.parse (er_model req)) as [id|] eqn:Eid; [|done]. cbn [ok_or rbind].
  destruct (allows_model ws (er_model req)) eqn:Eal; [|done].
  destruct (ModelStore.ModelStore.blob_path_verified id (store_ s)) as [p|] eqn:Ep; [|done]. cbn [map_err rbind].
  destruct (into_vec (er_input req)) as [|t l] eqn:Ei; [done|].
  destruct (Nat.ltb_spec MAX_EMBEDDING_BATCH (List.length (t :: l))) as [|Hn]; [done|].
  intros [= <- <-]. exists ws, id. repeat (split; [done|]). split; [|done]. unfold MAX_EMBEDDING_BATCH in Hn. cbn in *. lia.
Qed.

(** C40: An answer has the vectors of the inputs, in their order, by a model that the workspace
    may use and whose file has its digest. Whoever is refused or answered, nothing of it is
    kept: no event, no count, no slot of a quota. And nothing that stops a chat stops it: the
    outcome is the same when the host is not isolated, when an incident has frozen the log
    and when the rate and the quotas of the workspace are used up. *)
Theorem embeddings_unguarded max_loaded h req now s c : cache_ok max_loaded c ->
  let r := embeddings max_loaded h req now (s, c) in
  r.1.1 = s /\
  (forall a, wsv a = wsv (sapp s) -> (embeddings max_loaded h req now (set_app s a, c)).2 = r.2) /\
  forall e, r.2 = Ok e -> exists ws id path m,
    WorkspaceApi.WorkspaceApi.workspace_ctx h now (wsv (sapp s)) = Ok ws /\ allows_model ws (er_model req) = true /\
    Common.Models.parse (er_model req) = Some id /\
    ModelStore.ModelStore.blob_path_verified id (store_ s) = Ok path /\ load_from_file path = Some m /\
    (1 <= List.length (into_vec (er_input req)) <= 512)%nat /\
    exists vs, data e = imap pair vs /\ Forall2 (fun t v => embed_text m t = Ok v) (into_vec (er_input req)) vs.
Proof.
  intros Hc r. unfold r, embeddings. cbn [fst snd]. split; [by destruct (checked h req now s)|]. split.
  { intros a Ha. replace (checked h req now (set_app s a)) with (checked h req now s) by (unfold checked; cbn; by rewrite Ha).
    by destruct (checked h req now s). }
  destruct (checked h req now s) as [[path texts]|x] eqn:E; [|done]. apply checked_ok in E as (ws & id & Hw & Ha & Hi & Hp & Hn & ->).
  cbn [fst snd]. rewrite (embed_result _ _ _ _ _ Hc). intros e He.
  destruct (vectors_of path (into_vec (er_input req))) as [vs|] eqn:Ev; [|done]. injection He as <-.
  unfold vectors_of in Ev. destruct (into_vec (er_input req)) as [|t l]; [cbn in Hn; lia|].
  destruct (load_from_file path) as [m|] eqn:Em; [|done]. exists ws, id, path, m.
  repeat (split; [done|]). exists vs. split; [done|]. by apply embed_each.
Qed.
End embeddings.
End EmbeddingsApi.

(** ** rag_embedder.rs *)
Module EngineEmbedder.
Import Llama.Llama.

Section embedder.
Context `{!Rfc3339, !DateTimeText, !JsonText, !Sha256, !LlamaCpp}.
(** Vectors are of [f32]. *)
Variable vector_bits : forall path m texts vs, load_from_file path = Some m -> embed_sync m texts = Ok vs -> forallb (forallb F32.bits_ok) vs = true.
Variables (model : Common.Models.ModelId) (st : ModelStore.ModelStore.store).

Definition embed (texts : list string) : option (list (list Z)) :=
  match ModelStore.ModelStore.blob_path_verified model st with
  | Ok path => match EmbeddingsApi.vectors_of path texts with Ok vs => Some vs | Err _ => None end
  | Err _ => None
  end.

Lemma embed_bits l vs : embed l = Some vs -> forallb (forallb F32.bits_ok) vs = true.
Proof.
  unfold embed. destruct (ModelStore.ModelStore.blob_path_verified model st) as [path|]; [|done]. destruct l as [|t l]; [by intros [= <-]|].
  unfold EmbeddingsApi.vectors_of. destruct (load_from_file path) as [m|] eqn:E; [|done]. cbn [ok_or rbind].
  destruct (embed_sync m (t :: l)) as [x|] eqn:Ev; [|done]. intros [= <-]. by eapply vector_bits.
Qed.

(** The engine with a model of the store is what retrieval embeds with. *)
Definition engine_embedder : RagEngine.RagEngine.Embedder := {|
  RagEngine.RagEngine.model_label := Common.Models.display model; RagEngine.RagEngine.embed := embed;
  RagEngine.RagEngine.embed_bits := embed_bits |}.
End embedder.
End EngineEmbedder.

(** ** Vectors of a concrete server *)
Module EmbeddingsDemo.
Import UserDb.UserDemo RagChunk.ChunkDemo AppState.AppState ApiDemo.ApiDemo RagDemo.RagDemo Chat.Chat ChatDemo.ChatDemo Llama.Llama Queue.EngineDemo Requests EmbeddingsApi.

Definition ask0 : EmbeddingRequest := {| er_model := "llama:8b"; er_input := Many ["beta"; ""; "it is"] |}.
Definition in_acme : WorkspaceApi.WorkspaceApi.ws_headers := {| WorkspaceApi.WorkspaceApi.base := host_h; WorkspaceApi.WorkspaceApi.x_maranode_workspace := None |}.
Definition answer0 : EmbeddingResponse := {|
  data := [(0%nat, [4; 0]); (1%nat, [0; 0]); (2%nat, [5; 0])]; e_model := "llama:8b"; prompt_tokens := 2; total_tokens := 2 |}.

(** The same server with its log frozen by an incident. *)
Definition frozen : app := set_frozen (sapp chat0) true.

Lemma no_cache : cache_ok 1 empty_cache.
Proof. split; [cbn; rewrite map_size_empty; lia|]. intros p m t. cbn. by rewrite lookup_empty. Qed.

(** A chat is refused while the log is frozen; an embedding is not. *)
Lemma embeddings_unguarded_witness :
  (run acme (ask_with None false) dr 7 (set_app chat0 frozen)).2 = Err Auth.Auth.ServiceUnavailable /\
  (embeddings 1 in_acme ask0 7 (set_app chat0 frozen, empty_cache)).2 = Ok answer0.
Proof.
  split; [by vm_compute|].
  destruct (embeddings_unguarded 1 in_acme ask0 7 chat0 empty_cache no_cache) as (_ & Hf & _).
  rewrite (Hf frozen) by reflexivity. by vm_compute.
Defined.
End EmbeddingsDemo.
